(* ===== verification/_CoqProject ===== *)
-Q . S2P
Prelude.v
Effects.v
PyStruct.v
Checksum.v
Incremental.v
V3Constants.v
V3Header.v
V3Samples.v
ModelsV3.v
V3Frames.v
Synthetic.v
SimulatorV3.v
DeviceV3.v
MemoryTransport.v
Profiles.v
Losses.v
Blocks.v
Views.v
Continuity.v
StreamQueues.v
Reader.v
Validator.v
ClientStream.v
Delivery.v
Session.v
ControlPlane.v
EndToEnd.v
Alignment.v
AlignmentSpec.v
Aligned.v
Identity.v
Discovery.v
Diagnostics.v
Client.v
ClientSafety.v
ClientTrace.v
ClientDelivery.v
V1Constants.v
V1Header.v
V1Payload.v
V1Frames.v
V2Constants.v
V2Header.v
V2Payload.v
V2Frames.v
V2Compatible.v
