(* ===== verification/Prelude.v ===== *)
(** * ThingDAQ: a verified model of the wire protocols and of the v3 data path

    ThingDAQ is a Python package that drives a data-acquisition board over a serial
    link: the host sends command frames, the device answers each one and, between START
    and STOP, streams ADC and GPIO data frames. This library models the protocol-v3 path
    of the package [src/daq_api/src/thingdone_daq] end to end, from the bytes of a frame
    to the items [ThingDAQ.read_block] returns, together with the simulated device and
    the in-memory transport the package is tested against; and the wire formats of
    protocol versions 1 and 2 behind the same parser. Python integers are [Z];
    machine-width arithmetic keeps its mask ([u32], [u64]); a call that may raise
    returns a [result]; an object's state is a record passed through its operations.

    ** Parts and files, in dependency order

    - [Prelude], [Effects], [PyStruct]: results, bytes, little-endian integers,
      [IntEnum]s; methods as functions of a state that may raise, with their weakest
      preconditions; the [struct] formats of the standard library ([pack],
      [unpack_from], [iter_unpack]).
    - [Checksum] ([checksum.py]): CRC-32, CRC-32C and Adler-32, table-driven, deferred
      and accelerated; [zlib] is its published definition.
    - [Incremental] ([_incremental.py]): the bounded resynchronising parser over an
      interface [FrameCodec]; its laws are the class [FrameCodecLaws].  An exception that
      the loop does not catch leaves [feed]; the laws show that the decoders raise none.
      The unbounded scanner [scans] is the specification the parser refines.
    - [V3Constants] ([_generated/protocol_v3_constants.py]), [V3Header], [V3Samples],
      [V3Frames] ([protocol_v3.py]): headers, the raw, packed and run-length payloads,
      whole frames, commands, responses, and the instance of the parser interface.
    - [ModelsV3] ([models_v3.py]): settings, capabilities, INFO, STATUS and the other
      control values, their codecs and the selection of settings.
    - [Synthetic] ([synthetic.py]): sample generators and payload validators.
    - [SimulatorV3], [DeviceV3] ([simulator_v3.py]): the device; the second file holds
      its specification and theorems.
    - [MemoryTransport] ([transport.py], [InMemoryTransport]) over that device.
    - [Profiles], [Losses], [Blocks], [Views], [Continuity] ([models.py]): rate profiles
      and metadata, loss reports, the decoded blocks and [decode_v3_block], the views
      over them, and the classification of a block against an expectation.
    - [StreamQueues], [Reader] ([reader.py]): the block and report queues; the request
      map, response dispatch, expiry and termination.
    - [Validator] ([streaming.py], [synthetic.py]): the strict synthetic validator.
    - [ClientStream], [Delivery] ([client.py]): the client's per-stream bookkeeping and
      the consumer's view of the items it returns.
    - [Session] ([negotiation.py], [session_v3.py]): wire negotiation and the control
      session over an interface, [ProbeLink] and [CommandLink]; [ControlPlane]
      instantiates it with the reader, the parser and the simulated device, and
      [EndToEnd] follows the data frames of a run from that device to the validator.
    - [Alignment], [AlignmentSpec], [Aligned] ([alignment.py]): the timestamp aligner,
      the walk that specifies its output, and its theorems.
    - [Identity] ([identity.py]), [Discovery] ([discovery.py]), [Diagnostics]
      ([diagnostics.py]): identity snapshots and pins, the scan of the serial ports and
      the choice of a device, fault snapshots and counter reconciliation.
    - [Client] ([client.py], [ThingDAQ]): the whole client of a v3 device, carrying the
      session and the stream bookkeeping, over the reader as an interface,
      [ReaderLink].  [ClientSafety] holds what an opened client knows, [ClientTrace] the
      commands it sends, the INFO answers it is told and what it closes, [ClientDelivery]
      what an application reads through it.

    - [V1Constants] ([_generated/protocol_constants.py]), [V1Header], [V1Payload],
      [V1Frames] ([protocol.py]): the wire format of version 1, with the rules of every
      payload (configuration, INFO, STATUS, benchmark, GPIO diagnostics), and its own
      instance of the parser interface.
    - [V2Constants] ([_generated/protocol_v2_constants.py]), [V2Header], [V2Payload],
      [V2Frames] ([protocol_v2.py]): the same for version 2, which extends configuration
      and INFO, adds two readings, and validates the payloads it shares with version 1
      by that version's code.
    - [V2Compatible] ([protocol_v2.py]): the parser of streams that mix the versions,
      one more instance of the interface, built from the other three.

    A definition keeps the name of the Python function it translates; the helpers that
    name one branch or one block of statements say which in their comment.

    ** What the theorems show

    - Codecs: version-3 decoding accepts exactly the well-formed byte strings, in every
      version what is encoded decodes to the arguments, one corrupted byte is detected (in
      version 1 under each of its three checksums), and arbitrary bytes raise only the
      errors the parser catches.  A stream that mixes versions is delivered whole, and
      only frames of negotiated versions come out of it.  The table-driven checksums are
      the bit-at-a-time ones.
    - Parsing: for every chunking of a stream of bytes, the bounded parser raises nothing,
      delivers what the unbounded scanner finds, conserves bytes, stays within its bound
      and recovers after noise.
    - Device and transport: every request has one reply, every command the reply and
      effect its state machine prescribes, replays are refused, data frames number and
      stamp samples without a gap, public calls succeed under their stated conditions,
      and the transport hands whole frames over in order and never overflows.
    - Blocks and losses: [decode_v3_block] yields a block exactly for frames that obey
      the settings; the continuity analysis is total and reports exactly what is
      missing; aggregated loss reports keep every count.
    - Reader and client: no block is lost silently between the wire and the application,
      what is evicted, stale, undecoded for want of settings or cleared by closing is
      accounted for, requests settle once and only by their own answer, and a dead
      session leaves nobody waiting; following the returned items reproduces the
      position of each stream.
    - Session: whatever the device answers, the settings a session believes in are
      confirmed and advertised by a table the device sent (its own, until the table is
      read again) and its identity stays that of the device it was opened with; STOP
      ends when the clock passes its deadline; with the simulated device the cycle
      CONFIGURE, START, STATUS, STOP succeeds and both sides agree.
    - Alignment: the output tiles each run, each input block is in exactly one interval,
      each gap is yielded once and where it was measured, complete streams pair up for
      every interleaving in the window, and the aligner's memory is bounded.
    - Client: an open client keeps the device it verified over any sequence of calls;
      opening takes two INFO answers of one identity, sends queries only, and STOP under
      its policy, and closes what it opened when it fails; closing always closes, stops
      the device first, raises exactly the failures there were and sends nothing
      afterwards; what [read_block] returns tells about every item since START.
      Choosing a device by scan or serial gives the one whose identity the opened client
      has.

    ** Conventions, bounds and fuel

    Loops of the source are structural where they can be.  [Incremental.drain_loop] takes
    one more pass than the buffered bytes and [feed_loop] one more than the chunk, which
    is enough because each pass consumes a byte or stops; the theorems prove that the
    fuel never runs out.  The request-ID search makes the source's bounded number of
    tries.  [Delivery.read_blocks] is a bounded number of calls, and two per item suffice.
    The drain loop of [Session.session_stop] takes one pass per two readings of the clock:
    fuel that covers the readings until the deadline is enough.  The aligner's loops take
    twice the pending intervals and two, proved never to run out.  Negotiation and
    synchronization make the source's bounded number of tries.
    The reader's methods are one definition per critical section of its lock, and a run
    is any list of them, so every interleaving of the reader thread with its callers is
    covered; request objects live in a store because the thread and the caller share
    them.  [monotonic()] and the answers of the device that a method asks for are
    arguments.  An error keeps its class and message where the source's behaviour depends
    on them, and its category elsewhere.

    ** Not modelled

    The simulated device, the control models and the client branches of versions 1 and
    2, which version 3 supersedes; [SerialTransport], the listing of the ports, threads
    and clocks, which are I/O behind the interfaces above; NumPy arrays, calibration and
    the conversions of ticks to seconds, which are floating point; slices of sample
    views; the evidence records attached to errors; the command line, the demo and the
    soak and experiment tools, which assemble reports around live sessions; the protocol
    generator, whose Python output is [V3Constants]. [str.casefold] is a parameter of
    [Discovery]. [isinstance] checks are absent where the model is typed. Event queues
    only carry v1/v2 frames. *)

From Corelib Require Export ssreflect_rw.
From stdpp Require Export base numbers list strings prelude.
From Stdlib Require Export ZArith Lia.

#[global] Open Scope Z_scope.

(** [lia] that also understands [/] and [mod] by constants. *)
Ltac zlia := Z.to_euclidean_division_equations; lia.

(** ** Results: a Python call either returns a value or raises. *)

Inductive result (E A : Type) : Type :=
| Ok (a : A)
| Err (e : E).
Arguments Ok {E A} a.
Arguments Err {E A} e.

#[export] Instance result_ret {E} : MRet (result E) := fun _ a => Ok a.
#[export] Instance result_bind {E} : MBind (result E) :=
  fun _ _ k m => match m with Ok a => k a | Err e => Err e end.
#[export] Instance result_fmap {E} : FMap (result E) :=
  fun _ _ f m => match m with Ok a => Ok (f a) | Err e => Err e end.

#[export] Instance result_eq_dec {E A} `{EqDecision E, EqDecision A} :
  EqDecision (result E A).
Proof. solve_decision. Defined.

(** [require b e]: Python's [if not b: raise e]. *)
Definition require {E} (b : bool) (e : E) : result E unit :=
  if b then Ok tt else Err e.

(** [of_option o e]: a partial lookup whose failure raises [e]. *)
Definition of_option {E A} (o : option A) (e : E) : result E A :=
  match o with Some a => Ok a | None => Err e end.

(** Monadic map, left to right, stopping at the first raise. *)
Fixpoint mapR {E A B} (f : A -> result E B) (l : list A) : result E (list B) :=
  match l with
  | [] => Ok []
  | x :: l => y ← f x; ys ← mapR f l; Ok (y :: ys)
  end.

Definition is_Ok {E A} (r : result E A) : Prop := exists a, r = Ok a.

(** Injectivity without simplifying the two sides. *)
Lemma Ok_inj {E A} (a b : A) : @Ok E A a = Ok b -> a = b.
Proof. congruence. Qed.
Lemma Some_inj' {A} (a b : A) : Some a = Some b -> a = b.
Proof. congruence. Qed.

Lemma bind_Ok_inv {E A B} (m : result E A) (k : A -> result E B) b :
  (m ≫= k) = Ok b -> exists a, m = Ok a /\ k a = Ok b.
Proof. destruct m; cbn; [eauto|discriminate]. Qed.

Lemma require_Ok_inv {E} b (e : E) u : require b e = Ok u -> b = true.
Proof. destruct b; [done|discriminate]. Qed.

Lemma require_true {E} b (e : E) : b = true -> require b e = Ok tt.
Proof. by intros ->. Qed.

Lemma require_Ok {E} b (e : E) u : require b e = Ok u <-> b = true.
Proof. destruct b, u; cbn; split; congruence. Qed.

(** A guard followed by the rest of a function. *)
Lemma require_bind {E A} b (e : E) (m : result E A) x :
  (require b e ≫= fun _ => m) = Ok x <-> b = true /\ m = Ok x.
Proof. destruct b; cbn; split; [done|by intros [_ ?]|discriminate|by intros [? _]]. Qed.

Lemma of_option_bind {E A B} (o : option A) (e : E) (k : A -> result E B) x :
  (of_option o e ≫= k) = Ok x <-> exists a, o = Some a /\ k a = Ok x.
Proof.
  destruct o as [a|]; cbn; split; [eauto|by intros (b & [= <-] & ?)|discriminate|].
  by intros (b & ? & _).
Qed.

Lemma of_option_Ok_inv {E A} (o : option A) (e : E) a :
  of_option o e = Ok a -> o = Some a.
Proof. destruct o; cbn; congruence. Qed.

Lemma mapR_Ok_length {E A B} (f : A -> result E B) l l' :
  mapR f l = Ok l' -> length l' = length l.
Proof.
  revert l'. induction l as [|x l IH]; intros l'; cbn; [intros [= <-]; done|].
  destruct (f x); cbn; [|discriminate].
  destruct (mapR f l); cbn; [|discriminate].
  intros [= <-]. cbn. f_equal. by apply IH.
Qed.

Lemma mapR_Forall2 {E A B} (f : A -> result E B) l l' :
  mapR f l = Ok l' <-> Forall2 (fun x y => f x = Ok y) l l'.
Proof.
  split.
  - revert l'. induction l as [|x l IH]; intros l'; cbn.
    { intros [= <-]. constructor. }
    destruct (f x) eqn:Hx; cbn; [|discriminate].
    destruct (mapR f l) eqn:Hl; cbn; [|discriminate].
    intros [= <-]. constructor; auto.
  - induction 1 as [|x y l l' Hx _ IH]; cbn; [done|].
    by rw Hx /= IH.
Qed.

Lemma mapR_ok {E A B} (f : A -> result E B) (g : A -> B) l :
  Forall (fun x => f x = Ok (g x)) l -> mapR f l = Ok (map g l).
Proof. induction 1 as [|x l Hx _ IH]; cbn; [done|]. by rewrite Hx; cbn; rewrite IH. Qed.

(** Conditions joined by [or], left to right, when evaluating one may raise. *)
Fixpoint anyR {E} (l : list (result E bool)) : result E bool :=
  match l with
  | [] => Ok false
  | c :: l => b ← c; if b : bool then Ok true else anyR l
  end.

(** Every exception that [m] raises satisfies [P]. *)
Definition raises_only {E A} (P : E -> bool) (m : result E A) : Prop :=
  match m with Ok _ => True | Err e => P e = true end.

Lemma raises_only_bind {E A B} (P : E -> bool) (m : result E A) (k : A -> result E B) :
  raises_only P m -> (forall a, m = Ok a -> raises_only P (k a)) -> raises_only P (m ≫= k).
Proof. destruct m as [a|e]; cbn; auto. Qed.

Lemma raises_only_of_option {E A} (P : E -> bool) (o : option A) (e : E) :
  (o = None -> P e = true) -> raises_only P (of_option o e).
Proof. destruct o; cbn; auto. Qed.

Lemma raises_only_require {E} (P : E -> bool) b (e : E) : P e = true -> raises_only P (require b e).
Proof. by destruct b. Qed.

(** A later condition is evaluated only when the earlier ones were false. *)
Lemma raises_only_anyR {E} (P : E -> bool) c (l : list (result E bool)) :
  raises_only P c -> (c = Ok false -> raises_only P (anyR l)) -> raises_only P (anyR (c :: l)).
Proof. destruct c as [[]|e]; cbn; auto. Qed.

(** [inv_bind H] peels every [≫=], [require] and [of_option] off a
    hypothesis [H : m = Ok _], keeping the facts it learns. *)
Ltac inv_bind_step H :=
  match type of H with
  | (_ ≫= _) = Ok _ =>
      let a := fresh "v" in let Ha := fresh "Hv" in
      apply bind_Ok_inv in H; destruct H as (a & Ha & H);
      first [ apply require_Ok_inv in Ha; clear a
            | apply of_option_Ok_inv in Ha
            | idtac ];
      cbv beta in H
  end.
Ltac inv_bind H := repeat inv_bind_step H.

(** ** Bytes *)

Abbreviation bytes := (list Z).

Definition is_byte (b : Z) : Prop := 0 <= b < 256.
Definition wf_bytes (l : bytes) : Prop := Forall is_byte l.

Definition zlen {A} (l : list A) : Z := Z.of_nat (length l).

Lemma zlen_nonneg {A} (l : list A) : 0 <= zlen l.
Proof. unfold zlen. lia. Qed.

#[export] Instance is_byte_dec b : Decision (is_byte b).
Proof. unfold is_byte. apply _. Defined.
#[export] Instance wf_bytes_dec l : Decision (wf_bytes l).
Proof. unfold wf_bytes. apply _. Defined.

(** Python's [data[a:b]] for [0 <= a <= b]. *)
Definition slice {A} (a b : nat) (l : list A) : list A := take (b - a) (drop a l).

Create HintDb daq discriminated.
Create Rewrite HintDb daq_len.

(** Length bookkeeping: rewrite every [length]/[zlen] of a known shape, then [lia]. *)
#[export] Hint Rewrite @length_app @length_take @length_drop @length_replicate
  @length_fmap @length_reverse @length_insert @length_zip_with @length_seq : daq_len.

Ltac len := unfold zlen, slice in *; autorewrite with daq_len in *; cbn [length] in *; try lia.

Lemma wf_bytes_app l k : wf_bytes (l ++ k) <-> wf_bytes l /\ wf_bytes k.
Proof. apply Forall_app. Qed.
Lemma wf_bytes_concat ls : Forall wf_bytes ls -> wf_bytes (concat ls).
Proof. induction 1; [constructor|by apply wf_bytes_app]. Qed.
Lemma wf_bytes_take n l : wf_bytes l -> wf_bytes (take n l).
Proof. apply Forall_take. Qed.
Lemma wf_bytes_drop n l : wf_bytes l -> wf_bytes (drop n l).
Proof. apply Forall_drop. Qed.
Lemma wf_bytes_slice a b l : wf_bytes l -> wf_bytes (slice a b l).
Proof. intros. by apply wf_bytes_take, wf_bytes_drop. Qed.
Lemma wf_bytes_zeros n : wf_bytes (replicate n 0).
Proof. apply Forall_replicate. unfold is_byte. lia. Qed.
#[export] Hint Resolve wf_bytes_take wf_bytes_drop wf_bytes_slice wf_bytes_zeros : daq.

Lemma take_app_exact {A} (l k : list A) n : n = length l -> take n (l ++ k) = l.
Proof. apply take_app_length'. Qed.
Lemma drop_app_exact {A} (l k : list A) n : n = length l -> drop n (l ++ k) = k.
Proof. apply drop_app_length'. Qed.

(** Unfolds one step of a left fold without exposing the folded function. *)
Lemma fold_left_cons {A B} (f : A -> B -> A) x l a :
  fold_left f (x :: l) a = fold_left f l (f a x).
Proof. done. Qed.

(** ** Bit operations on nonnegative integers *)

Lemma testbit_above n a i : 0 <= a < 2 ^ n -> n <= i -> Z.testbit a i = false.
Proof.
  intros Ha Hi. destruct (Z.eq_dec a 0) as [->|Hz]; [apply Z.testbit_0_l|].
  apply Z.bits_above_log2; [lia|].
  assert (Z.log2 a < n); [|lia]. apply Z.log2_lt_pow2; lia.
Qed.

Lemma lor_shiftl_add n a b :
  0 <= n -> 0 <= a < 2 ^ n -> Z.lor (Z.shiftl b n) a = b * 2 ^ n + a.
Proof.
  intros Hn Ha. rewrite <-Z.shiftl_mul_pow2 by lia.
  rewrite <-Z.lxor_lor, Z.add_nocarry_lxor; [done| |].
  all: apply Z.bits_inj'; intros i Hi; rewrite Z.land_spec, Z.bits_0, andb_false_iff.
  all: destruct (Z.lt_ge_cases i n); [left; by apply Z.shiftl_spec_low|].
  all: right; by apply (testbit_above n).
Qed.

Lemma lxor_range n a b :
  0 <= n -> 0 <= a < 2 ^ n -> 0 <= b < 2 ^ n -> 0 <= Z.lxor a b < 2 ^ n.
Proof.
  intros Hn Ha Hb. assert (0 <= Z.lxor a b) by (apply Z.lxor_nonneg; lia). split; [done|].
  destruct (Z.eq_dec (Z.lxor a b) 0) as [->|Hz]; [lia|].
  apply Z.log2_lt_pow2; [lia|].
  pose proof (Z.log2_lxor a b).
  assert (forall x, 0 <= x < 2 ^ n -> Z.log2 x < n \/ x = 0) as Hlog.
  { intros x Hx. destruct (Z.eq_dec x 0); [by right|]. left. apply Z.log2_lt_pow2; lia. }
  destruct (Hlog a Ha) as [|Ha0], (Hlog b Hb) as [|Hb0]; try lia.
  all: subst; rewrite ?Z.lxor_0_l, ?Z.lxor_0_r in *; try lia.
  all: destruct (Hlog a Ha), (Hlog b Hb); lia.
Qed.

Lemma land_ones_mod n a : 0 <= n -> Z.land a (2 ^ n - 1) = a mod 2 ^ n.
Proof. intros. rewrite <-Z.land_ones by lia. by rewrite Z.ones_equiv, Z.sub_1_r. Qed.

Lemma land_255 a : Z.land a 255 = a mod 256.
Proof. apply (land_ones_mod 8). lia. Qed.

(** A mask of one bit. *)
Lemma land_pow2 f n : 0 <= n -> Z.land f (2 ^ n) = if Z.testbit f n then 2 ^ n else 0.
Proof.
  intros Hn. apply Z.bits_inj'. intros i Hi. rewrite Z.land_spec, Z.pow2_bits_eqb by lia.
  destruct (Z.eqb_spec n i) as [->|Hne].
  - destruct (Z.testbit f i); [by rewrite Z.pow2_bits_true by lia|by rewrite Z.bits_0].
  - rewrite andb_false_r. destruct (Z.testbit f n); [by rewrite Z.pow2_bits_false|by rewrite Z.bits_0].
Qed.

(** No bit outside the low [n] ones: below [2 ^ n]. *)
Lemma land_lnot_ones f n :
  0 <= n -> 0 <= f -> Z.land f (Z.lnot (2 ^ n - 1)) = 0 <-> f < 2 ^ n.
Proof.
  intros Hn Hf. replace (2 ^ n - 1) with (Z.ones n) by (rewrite Z.ones_equiv; lia).
  change (Z.land f (Z.lnot (Z.ones n))) with (Z.land f (Z.lnot (Z.ones n))).
  rewrite <-Z.ldiff_land, Z.ldiff_ones_r, Z.shiftl_mul_pow2, Z.shiftr_div_pow2 by lia.
  assert (0 < 2 ^ n) by lia. split; intros Hz.
  - assert (f / 2 ^ n = 0) as Hd by nia. apply Z.div_small_iff in Hd; lia.
  - rewrite Z.div_small by lia. done.
Qed.

(** No bit outside bit [n]: zero or that bit. *)
Lemma land_lnot_pow2 f n :
  0 <= n -> Z.land f (Z.lnot (2 ^ n)) = 0 <-> f = 0 \/ f = 2 ^ n.
Proof.
  intros Hn. split.
  - intros H. assert (Hf : f = Z.land f (2 ^ n)).
    { apply Z.bits_inj'. intros i Hi. apply (f_equal (fun x => Z.testbit x i)) in H.
      rewrite Z.land_spec, Z.lnot_spec, Z.bits_0 in H by lia. rewrite Z.land_spec.
      by destruct (Z.testbit f i), (Z.testbit (2 ^ n) i). }
    rewrite land_pow2 in Hf by done. destruct (Z.testbit f n); auto.
  - intros [->| ->]; [done|]. apply Z.bits_inj'. intros i Hi.
    rewrite Z.land_spec, Z.lnot_spec, Z.bits_0 by lia. apply andb_negb_r.
Qed.

(** Truth value of [flags & bit]. *)
Definition has (flags bit : Z) : bool := negb (Z.land flags bit =? 0).

Lemma has_testbit f n : 0 <= n -> has f (2 ^ n) = Z.testbit f n.
Proof.
  intros Hn. unfold has. rewrite land_pow2 by done.
  assert (0 < 2 ^ n) by lia. destruct (Z.testbit f n); [|done].
  by rewrite (proj2 (Z.eqb_neq _ _)) by lia.
Qed.

(** [~mask & 0xFFFF] on a 16-bit value. *)
Lemma land_lnot_u16 f m :
  0 <= f < 2 ^ 16 -> Z.land f (Z.land (Z.lnot m) 65535) = Z.land f (Z.lnot m).
Proof.
  intros Hf. rewrite (Z.land_comm (Z.lnot m)), Z.land_assoc. f_equal.
  change 65535 with (2 ^ 16 - 1). rewrite land_ones_mod by lia. by apply Z.mod_small.
Qed.

(** [x] is the xor of its low byte and the rest. *)
Lemma split_low_byte x : x = Z.lxor (Z.shiftl (Z.shiftr x 8) 8) (Z.land x 255).
Proof.
  apply Z.bits_inj'. intros i Hi. rewrite Z.lxor_spec, Z.land_spec.
  change 255 with (Z.ones 8). rewrite Z.testbit_ones by lia.
  destruct (Z.lt_ge_cases i 8).
  - rewrite Z.shiftl_spec_low by lia. replace (0 <=? i) with true by lia.
    replace (i <? 8) with true by lia. by rewrite andb_true_r.
  - rewrite Z.shiftl_spec_high, Z.shiftr_spec by lia. replace (i - 8 + 8) with i by lia.
    replace (i <? 8) with false by lia. by rewrite andb_false_r, andb_false_r, xorb_false_r.
Qed.

(** ** Little-endian integers: [int.to_bytes(n, "little")] and
    [int.from_bytes(b, "little")]. *)

Fixpoint to_le (n : nat) (v : Z) : bytes :=
  match n with
  | O => []
  | S n => v mod 256 :: to_le n (v / 256)
  end.

Fixpoint from_le (l : bytes) : Z :=
  match l with
  | [] => 0
  | b :: l => b + 256 * from_le l
  end.

Lemma length_to_le n v : length (to_le n v) = n.
Proof. revert v. induction n; cbn; auto. Qed.
#[export] Hint Rewrite length_to_le : daq_len.

Lemma wf_to_le n v : wf_bytes (to_le n v).
Proof.
  revert v. induction n as [|n IH]; intros v; cbn; constructor; [|apply IH].
  unfold is_byte. apply Z.mod_pos_bound. lia.
Qed.
#[export] Hint Resolve wf_to_le : daq.

Lemma pow256_succ n : 256 ^ Z.of_nat (S n) = 256 * 256 ^ Z.of_nat n.
Proof. rw Nat2Z.inj_succ Z.pow_succ_r; lia. Qed.

(** Powers that bound the machine widths, as literals for [lia]. *)
Ltac pow_lit :=
  change (Z.of_nat 1) with 1 in *; change (Z.of_nat 2) with 2 in *;
  change (Z.of_nat 4) with 4 in *; change (Z.of_nat 8) with 8 in *;
  change (256 ^ 1) with 256 in *; change (256 ^ 2) with 65536 in *;
  change (256 ^ 4) with 4294967296 in *;
  change (256 ^ 8) with 18446744073709551616 in *;
  change (2 ^ 8) with 256 in *; change (2 ^ 16) with 65536 in *;
  change (2 ^ 31) with 2147483648 in *; change (2 ^ 32) with 4294967296 in *;
  change (2 ^ 64) with 18446744073709551616 in *.

Lemma from_to_le n v : from_le (to_le n v) = v mod 256 ^ Z.of_nat n.
Proof.
  revert v. induction n as [|n IH]; intros v; [cbn; by rw Z.mod_1_r|].
  cbn [to_le from_le]. rw IH pow256_succ Z.rem_mul_r; lia.
Qed.

Lemma from_to_le_small n v : 0 <= v < 256 ^ Z.of_nat n -> from_le (to_le n v) = v.
Proof. intros. rw from_to_le. by apply Z.mod_small. Qed.

Lemma to_from_le l : wf_bytes l -> to_le (length l) (from_le l) = l.
Proof.
  induction 1 as [|b l Hb _ IH]; [done|]. cbn [length to_le from_le].
  unfold is_byte in Hb. f_equal.
  - rw (Z.mul_comm 256) Z_mod_plus_full. by apply Z.mod_small.
  - replace ((b + 256 * from_le l) / 256) with (from_le l); [done|].
    rw (Z.mul_comm 256) Z.div_add; [done|by rw Z.div_small].
Qed.

Lemma to_from_le_length n l : wf_bytes l -> length l = n -> to_le n (from_le l) = l.
Proof. intros Hw <-. by apply to_from_le. Qed.

Lemma from_le_bound l : wf_bytes l -> 0 <= from_le l < 256 ^ zlen l.
Proof.
  unfold zlen. induction 1 as [|b l Hb _ IH]; [cbn; lia|].
  cbn [length from_le]. rw pow256_succ. unfold is_byte in Hb. lia.
Qed.

Lemma from_le_inj l k :
  wf_bytes l -> wf_bytes k -> length l = length k -> from_le l = from_le k -> l = k.
Proof.
  intros Hl Hk Hlen Heq. rw -(to_from_le l) // -(to_from_le k) //.
  by rw Heq Hlen.
Qed.

Lemma from_le_app l k : from_le (l ++ k) = from_le l + 256 ^ zlen l * from_le k.
Proof.
  unfold zlen. induction l as [|b l IH]; [cbn; lia|].
  cbn [app from_le length]. rw IH pow256_succ. lia.
Qed.

Lemma from_le_4 a b c d : from_le [a; b; c; d] = a + 256 * (b + 256 * (c + 256 * d)).
Proof. change (from_le [a; b; c; d]) with (a + 256 * (b + 256 * (c + 256 * (d + 256 * 0)))). lia. Qed.

Lemma from_le_2 a b : from_le [a; b] = a + 256 * b.
Proof. change (from_le [a; b]) with (a + 256 * (b + 256 * 0)). lia. Qed.

Lemma from_le_1 a : from_le [a] = a.
Proof. change (from_le [a]) with (a + 256 * 0). lia. Qed.

Lemma take_past_cons {A} n (pre post : list A) b :
  (length pre < n)%nat -> take n (pre ++ b :: post) = pre ++ b :: take (n - length pre - 1) post.
Proof.
  intros H. rewrite take_app_ge by lia. f_equal.
  by replace (n - length pre)%nat with (S (n - length pre - 1)) at 1 by lia.
Qed.

Lemma drop_past_cons {A} n (pre post : list A) b :
  (length pre < n)%nat -> drop n (pre ++ b :: post) = drop (n - length pre - 1) post.
Proof.
  intros H. rewrite drop_app_ge by lia.
  by replace (n - length pre)%nat with (S (n - length pre - 1)) at 1 by lia.
Qed.

(** Two valid frames never differ in exactly one byte. *)

(** One byte of a message with a four-byte trailer changed: the trailer, or the body. *)
Lemma single_byte_trailer (pre post body1 body2 : bytes) b b' c1 c2 :
  b <> b' -> 0 <= c1 < 2 ^ 32 -> 0 <= c2 < 2 ^ 32 ->
  pre ++ b :: post = body1 ++ to_le 4 c1 -> pre ++ b' :: post = body2 ++ to_le 4 c2 ->
  (body1 = body2 /\ c1 <> c2) \/
  (exists rest, body1 = pre ++ b :: rest /\ body2 = pre ++ b' :: rest /\ c1 = c2 /\ (length pre < length body1)%nat).
Proof.
  intros Hne Hc1 Hc2 H1 H2. assert (Hlen : length body1 = length body2).
  { apply (f_equal length) in H1, H2. rewrite !length_app, !length_to_le in H1, H2. cbn in H1, H2. lia. }
  assert (Hd1 : take (length body1) (pre ++ b :: post) = body1) by (rewrite H1; by apply take_app_exact).
  assert (Hd2 : take (length body1) (pre ++ b' :: post) = body2) by (rewrite H2; by apply take_app_exact).
  destruct (decide (length pre < length body1)%nat) as [Hin|Hout].
  - right. exists (take (length body1 - length pre - 1) post). rewrite take_past_cons in Hd1, Hd2 by done.
    split; [done|]. split; [done|]. split; [|done].
    assert (Htr : to_le 4 c1 = to_le 4 c2).
    { apply (f_equal (drop (length body1))) in H1, H2.
      rewrite (drop_app_exact body1) in H1 by done. rewrite (drop_app_exact body2) in H2 by done.
      by rewrite <-H1, <-H2, !drop_past_cons by done. }
    apply (f_equal from_le) in Htr. by rewrite !from_to_le_small in Htr by (pow_lit; lia).
  - left. rewrite take_app_le in Hd1, Hd2 by lia. assert (body1 = body2) as Heq by congruence. split; [done|].
    intros Hc. rewrite Heq, Hc, <-H2 in H1. apply app_inv_head in H1. by injection H1.
Qed.

Arguments to_le : simpl never.
Arguments from_le : simpl never.

(** ** Integer enumerations ([enum.IntEnum]) *)

Class IntEnum (A : Type) := {
  int_of : A -> Z;
  members : list A;
  members_complete : forall a, a ∈ members;
  int_of_inj : forall a b, int_of a = int_of b -> a = b
}.

(** [enum(value)]: the member with that value, or [None] for Python's [ValueError]. *)
Definition enum_of {A} `{IntEnum A} (z : Z) : option A :=
  List.find (fun a => int_of a =? z) members.

Lemma enum_of_int {A} `{IntEnum A} (a : A) : enum_of (int_of a) = Some a.
Proof.
  unfold enum_of.
  destruct (List.find _ members) as [b|] eqn:Hf.
  - apply List.find_some in Hf as [_ Hb]. apply Z.eqb_eq in Hb.
    f_equal. by apply int_of_inj.
  - exfalso. pose proof (members_complete a) as Ha. apply list_elem_of_In in Ha.
    eapply List.find_none in Hf; [|exact Ha]. cbn in Hf. lia.
Qed.

Lemma enum_of_Some {A} `{IntEnum A} z (a : A) : enum_of z = Some a -> int_of a = z.
Proof.
  unfold enum_of. intros Hf. apply List.find_some in Hf as [_ Hb].
  by apply Z.eqb_eq in Hb.
Qed.

Lemma enum_of_None {A} `{IntEnum A} z (a : A) : enum_of (A:=A) z = None -> int_of a <> z.
Proof. intros Hn Hz. subst z. by rw enum_of_int in Hn. Qed.

(** Solves the two law fields of an enum instance by enumeration. *)
Ltac enum_laws :=
  match goal with
  | |- forall a, a ∈ _ =>
      intros []; repeat (first [apply list_elem_of_here | apply list_elem_of_further])
  | |- forall a b, _ -> a = b => intros [] []; cbn; congruence
  end.
