(* ===== verification/Effects.v ===== *)
(** * Methods: a state passed along and an exception ([Prelude]'s [result]).

    A Python method of an object [S] is a function from the object to the object it
    leaves and to what it returns or raises; what it changed before raising stays
    changed.  [wp] states what a method does on both exits, and its rules are what the
    proofs about a class share. *)

From S2P Require Import Prelude.

Definition effect (S E A : Type) : Type := S -> S * result E A.

#[export] Instance effect_ret {S E} : MRet (effect S E) := fun A a s => (s, Ok a).
#[export] Instance effect_bind {S E} : MBind (effect S E) := fun A B k m s =>
  match m s with
  | (s, Ok a) => k a s
  | (s, Err e) => (s, Err e)
  end.

Section Operations.
Context {S E : Type}.

Definition raise {A} (e : E) : effect S E A := fun s => (s, Err e).
Definition get : effect S E S := fun s => (s, Ok s).
Definition gets {A} (f : S -> A) : effect S E A := fun s => (s, Ok (f s)).
Definition modify (f : S -> S) : effect S E unit := fun s => (f s, Ok tt).
Definition check (b : bool) (e : E) : effect S E unit := if b then mret tt else raise e.
Definition of_some {A} (o : option A) (e : E) : effect S E A :=
  match o with Some a => mret a | None => raise e end.
(** A pure call, its exceptions seen through [f]. *)
Definition lift {E' A} (f : E' -> E) (m : result E' A) : effect S E A :=
  match m with Ok a => mret a | Err e => raise (f e) end.
End Operations.

Section Logic.
Context {S E : Type}.

(** From [s] the method returns with [Q] or raises with [R]. *)
Definition wp {A} (m : effect S E A) (Q : A -> S -> Prop) (R : E -> S -> Prop) (s : S) : Prop :=
  match m s with
  | (s', Ok a) => Q a s'
  | (s', Err e) => R e s'
  end.

Lemma wp_consequence {A} (m : effect S E A) (Q Q' : A -> S -> Prop) (R R' : E -> S -> Prop) s :
  wp m Q R s -> (forall a s', Q a s' -> Q' a s') -> (forall e s', R e s' -> R' e s') -> wp m Q' R' s.
Proof. unfold wp. destruct (m s) as [s' [a|e]]; auto. Qed.

Lemma wp_bind {A B} (m : effect S E A) (k : A -> effect S E B) Q R s :
  wp m (fun a s' => wp (k a) Q R s') R s -> wp (m ≫= k) Q R s.
Proof. unfold wp, mbind, effect_bind. by destruct (m s) as [s' [a|e]]. Qed.

Lemma wp_ret {A} (a : A) (Q : A -> S -> Prop) (R : E -> S -> Prop) s : Q a s -> wp (mret a) Q R s.
Proof. done. Qed.

Lemma wp_raise {A} e (Q : A -> S -> Prop) (R : E -> S -> Prop) s : R e s -> wp (raise e) Q R s.
Proof. done. Qed.

Lemma wp_get (Q : S -> S -> Prop) (R : E -> S -> Prop) s : Q s s -> wp get Q R s.
Proof. done. Qed.

Lemma wp_gets {A} (f : S -> A) (Q : A -> S -> Prop) (R : E -> S -> Prop) s : Q (f s) s -> wp (gets f) Q R s.
Proof. done. Qed.

Lemma wp_modify f (Q : unit -> S -> Prop) (R : E -> S -> Prop) s : Q tt (f s) -> wp (modify f) Q R s.
Proof. done. Qed.

Lemma wp_check b e (Q : unit -> S -> Prop) (R : E -> S -> Prop) s :
  (b = true -> Q tt s) -> (b = false -> R e s) -> wp (check b e) Q R s.
Proof. by destruct b; intros HQ HR; [apply HQ|apply HR]. Qed.

Lemma wp_of_some {A} (o : option A) e (Q : A -> S -> Prop) (R : E -> S -> Prop) s :
  (forall a, o = Some a -> Q a s) -> (o = None -> R e s) -> wp (of_some o e) Q R s.
Proof. by destruct o; intros HQ HR; [apply HQ|apply HR]. Qed.

Lemma wp_lift {E' A} (f : E' -> E) (m : result E' A) (Q : A -> S -> Prop) (R : E -> S -> Prop) s :
  (forall a, m = Ok a -> Q a s) -> (forall e, m = Err e -> R (f e) s) -> wp (lift f m) Q R s.
Proof. by destruct m; intros HQ HR; [apply HQ|apply HR]. Qed.

(** A method whose outcome is known. *)
Lemma bind_run {A B} (m : effect S E A) (k : A -> effect S E B) s s' a : m s = (s', Ok a) -> (m ≫= k) s = k a s'.
Proof. unfold mbind, effect_bind. by intros ->. Qed.

Lemma wp_returns {A} (m : effect S E A) a Q (R : E -> S -> Prop) s s' : m s = (s', Ok a) -> Q a s' -> wp m Q R s.
Proof. unfold wp. by intros ->. Qed.

Lemma wp_raises {A} (m : effect S E A) e (Q : A -> S -> Prop) (R : E -> S -> Prop) s s' :
  m s = (s', Err e) -> R e s' -> wp m Q R s.
Proof. unfold wp. by intros ->. Qed.

(** What a run of the method shows. *)
Lemma wp_run {A} (m : effect S E A) Q R s s' r :
  wp m Q R s -> m s = (s', r) -> match r with Ok a => Q a s' | Err e => R e s' end.
Proof. unfold wp. intros H Hm. by rewrite Hm in H. Qed.
End Logic.

#[global] Opaque wp.

(** One step of a method under [wp]. *)
Ltac wp_step :=
  first
    [ apply wp_bind
    | apply wp_get
    | apply wp_gets
    | apply wp_modify
    | apply wp_check; intros ?
    | apply wp_of_some; [intros ? ?|intros ?]
    | apply wp_raise
    | apply wp_ret ]; cbv beta zeta.
