(* ===== verification/PyStruct.v ===== *)
(** * Python's [struct] module, as the wire codecs use it.

    Only little-endian standard-size formats ([<], so no padding) with the codes
    B, H, I, Q, i and [<n>s] occur in the sources.  A format string is parsed into a
    list of field codes; [pack]/[unpack] are then indexed by that list, so that an
    unpacked record is a tuple whose components have the field's own type. *)

From S2P Require Import Prelude.
From Stdlib Require Import Ascii.
#[local] Open Scope char_scope.
#[local] Open Scope Z_scope.

Inductive fcode := U8 | U16 | U32 | U64 | I32 | Str (n : nat).

(** ** Format strings *)

Definition digit_of (c : Ascii.ascii) : option nat :=
  let k := Ascii.nat_of_ascii c in
  if (48 <=? k)%nat && (k <=? 57)%nat then Some (k - 48)%nat else None.

(** [count]: the pending repeat count, [None] when no digit was read. *)
Fixpoint parse_codes (s : string) (count : option nat) : option (list fcode) :=
  match s with
  | EmptyString => match count with None => Some [] | Some _ => None end
  | String c s =>
      match digit_of c with
      | Some d => parse_codes s (Some (default 0%nat count * 10 + d)%nat)
      | None =>
          let n := default 1%nat count in
          match c with
          | "B"%char => app (replicate n U8) <$> parse_codes s None
          | "H"%char => app (replicate n U16) <$> parse_codes s None
          | "I"%char => app (replicate n U32) <$> parse_codes s None
          | "Q"%char => app (replicate n U64) <$> parse_codes s None
          | "i"%char => app (replicate n I32) <$> parse_codes s None
          | "s"%char => cons (Str n) <$> parse_codes s None
          | _ => None
          end
      end
  end.

Definition struct_format (s : string) : list fcode :=
  match s with
  | String "<" s => default [] (parse_codes s None)
  | _ => []
  end.

(** ** Sizes and field types *)

Definition fsize (f : fcode) : nat :=
  match f with U8 => 1 | U16 => 2 | U32 => 4 | U64 => 8 | I32 => 4 | Str n => n end%nat.

(** [struct.calcsize] *)
Fixpoint calcsize (fs : list fcode) : nat :=
  match fs with [] => 0%nat | f :: fs => (fsize f + calcsize fs)%nat end.

Definition fval (f : fcode) : Type :=
  match f with Str _ => bytes | _ => Z end.

Fixpoint fvals (fs : list fcode) : Type :=
  match fs with [] => unit | f :: fs => (fval f * fvals fs)%type end.

(** ** Packing *)

Definition fits (n : nat) (v : Z) : bool := (0 <=? v) && (v <? 256 ^ Z.of_nat n).

(** Two's complement in 32 bits. *)
Definition signed32 (v : Z) : Z := if v <? 2 ^ 31 then v else v - 2 ^ 32.

(** One field; [None] is [struct.error] ("argument out of range").  The [s] code
    truncates a long argument and pads a short one with zero bytes. *)
Definition fpack (f : fcode) : fval f -> option bytes :=
  match f with
  | Str n => fun v => Some (take n v ++ replicate (n - length v) 0)
  | U8 => fun v => if fits 1 v then Some (to_le 1 v) else None
  | U16 => fun v => if fits 2 v then Some (to_le 2 v) else None
  | U32 => fun v => if fits 4 v then Some (to_le 4 v) else None
  | U64 => fun v => if fits 8 v then Some (to_le 8 v) else None
  | I32 => fun v => if fits 4 (v + 2 ^ 31) then Some (to_le 4 (v mod 2 ^ 32)) else None
  end.

Fixpoint pack (fs : list fcode) : fvals fs -> option bytes :=
  match fs with
  | [] => fun _ => Some []
  | f :: fs => fun '(v, vs) => b ← fpack f v; bs ← pack fs vs; Some (b ++ bs)
  end.

(** ** Unpacking *)

Definition funpack (f : fcode) (data : bytes) : fval f :=
  match f with
  | Str n => take n data
  | U8 => from_le (take 1 data)
  | U16 => from_le (take 2 data)
  | U32 => from_le (take 4 data)
  | U64 => from_le (take 8 data)
  | I32 => signed32 (from_le (take 4 data))
  end.

Fixpoint unpack_fields (fs : list fcode) (data : bytes) : fvals fs :=
  match fs with
  | [] => tt
  | f :: fs => (funpack f data, unpack_fields fs (drop (fsize f) data))
  end.

(** [Struct.unpack_from(data, offset)]; [None] is [struct.error]. *)
Definition unpack_from (fs : list fcode) (data : bytes) (offset : nat) : option (fvals fs) :=
  if (offset + calcsize fs <=? length data)%nat
  then Some (unpack_fields fs (drop offset data)) else None.

(** [Struct.unpack(data)]: the buffer must have exactly the format's size. *)
Definition unpack (fs : list fcode) (data : bytes) : option (fvals fs) :=
  if (length data =? calcsize fs)%nat then Some (unpack_fields fs data) else None.

Lemma signed32_mod v : - 2 ^ 31 <= v < 2 ^ 31 -> signed32 (v mod 2 ^ 32) = v.
Proof.
  intros Hv. unfold signed32. pow_lit. destruct (Z.ltb_spec (v mod 4294967296) 2147483648); zlia.
Qed.

Lemma mod_signed32 v : 0 <= v < 2 ^ 32 -> signed32 v mod 2 ^ 32 = v /\ - 2 ^ 31 <= signed32 v < 2 ^ 31.
Proof.
  intros Hv. unfold signed32. pow_lit. destruct (Z.ltb_spec v 2147483648); [rewrite Z.mod_small|]; zlia.
Qed.

(** ** What the value of a field may be, and the round trips *)

Definition fval_ok (f : fcode) : fval f -> Prop :=
  match f with
  | Str n => fun v => length v = n /\ wf_bytes v
  | U8 => fun v => 0 <= v < 2 ^ 8
  | U16 => fun v => 0 <= v < 2 ^ 16
  | U32 => fun v => 0 <= v < 2 ^ 32
  | U64 => fun v => 0 <= v < 2 ^ 64
  | I32 => fun v => - 2 ^ 31 <= v < 2 ^ 31
  end.

Fixpoint fvals_ok (fs : list fcode) : fvals fs -> Prop :=
  match fs with
  | [] => fun _ => True
  | f :: fs => fun '(v, vs) => fval_ok f v /\ fvals_ok fs vs
  end.

Lemma fits_spec n v : fits n v = true <-> 0 <= v < 256 ^ Z.of_nat n.
Proof. unfold fits. lia. Qed.

Lemma fpack_length f v b : fpack f v = Some b -> length b = fsize f.
Proof.
  destruct f; cbn -[to_le fits]; intros Hb;
    try (destruct (fits _ _); [|discriminate]); injection Hb as <-; len.
Qed.

Lemma pack_length fs vs b : pack fs vs = Some b -> length b = calcsize fs.
Proof.
  revert vs b. induction fs as [|f fs IH]; intros vs b; cbn; [intros [= <-]; done|].
  destruct vs as [v vs].
  destruct (fpack f v) as [b1|] eqn:H1; cbn; [|discriminate].
  destruct (pack fs vs) as [b2|] eqn:H2; cbn; [|discriminate].
  intros [= <-]. rw length_app (fpack_length _ _ _ H1) (IH _ _ H2) //.
Qed.

Lemma fval_ok_pack f v : fval_ok f v -> exists b, fpack f v = Some b /\ wf_bytes b.
Proof.
  destruct f; cbn -[to_le fits Z.pow]; intros Hv;
    try (rewrite (proj2 (fits_spec _ _)); [|pow_lit; lia]; eauto with daq).
  destruct Hv as [Hn Hw]. rewrite take_ge, Hn, Nat.sub_diag, app_nil_r by lia. eauto.
Qed.

Lemma fvals_ok_pack fs vs : fvals_ok fs vs -> exists b, pack fs vs = Some b /\ wf_bytes b.
Proof.
  induction fs as [|f fs IH]; cbn; [eexists; split; [done|constructor]|].
  destruct vs as [v vs]; intros [Hv Hvs].
  destruct (fval_ok_pack _ _ Hv) as (b1 & -> & Hw1).
  destruct (IH _ Hvs) as (b2 & -> & Hw2). cbn.
  eexists; split; [done|]. by apply wf_bytes_app.
Qed.

(** What [pack] itself does not check: the [s] fields have their exact size. *)
Fixpoint strs_ok (fs : list fcode) : fvals fs -> Prop :=
  match fs with
  | [] => fun _ => True
  | f :: fs => fun '(v, vs) =>
      (match f return fval f -> Prop with
       | Str n => fun v => length v = n /\ wf_bytes v
       | _ => fun _ => True
       end) v /\ strs_ok fs vs
  end.

(** A successful [pack] bounds every integer it was given. *)
Lemma pack_Some_ok fs vs b : strs_ok fs vs -> pack fs vs = Some b -> fvals_ok fs vs.
Proof.
  revert vs b. induction fs as [|f fs IH]; intros vs b; cbn [pack strs_ok fvals_ok]; [done|].
  destruct vs as [v vs]. intros [Hs Hss] Hp.
  destruct (fpack f v) as [b1|] eqn:H1; cbn in Hp; [|discriminate].
  destruct (pack fs vs) as [b2|] eqn:H2; cbn in Hp; [|discriminate].
  split; [|by eapply IH].
  destruct f; cbn -[fits Z.pow] in *; try done;
    match type of H1 with context [fits ?n ?x] => destruct (fits n x) eqn:Hf end; try discriminate;
    apply fits_spec in Hf; pow_lit; lia.
Qed.

Lemma funpack_fpack f v b rest :
  fval_ok f v -> fpack f v = Some b -> funpack f (b ++ rest) = v.
Proof.
  destruct f; cbn -[to_le from_le fits Z.pow take]; intros Hv;
    try (rewrite (proj2 (fits_spec _ _)); [|pow_lit; lia]; intros [= <-];
         rewrite take_app_exact, from_to_le_small by (pow_lit; len); done).
  { rewrite (proj2 (fits_spec _ _)) by (pow_lit; lia). intros [= <-].
    rewrite take_app_exact, from_to_le_small by first [by rewrite length_to_le | pow_lit; zlia].
    by apply signed32_mod. }
  destruct Hv as [Hn Hw]. rewrite (take_ge v), Hn, Nat.sub_diag, app_nil_r by lia.
  intros [= <-]. by rewrite take_app_exact.
Qed.

(** Unpacking what was packed gives the field values back. *)
Lemma unpack_fields_pack fs vs b rest :
  fvals_ok fs vs -> pack fs vs = Some b -> unpack_fields fs (b ++ rest) = vs.
Proof.
  revert vs b rest. induction fs as [|f fs IH]; intros vs b rest; cbn; [by destruct vs|].
  destruct vs as [v vs]. intros [Hv Hvs].
  destruct (fpack f v) as [b1|] eqn:H1; cbn; [|discriminate].
  destruct (pack fs vs) as [b2|] eqn:H2; cbn; [|discriminate].
  intros [= <-]. rw -app_assoc. f_equal; [by apply funpack_fpack|].
  rw drop_app_exact; [by rw (fpack_length _ _ _ H1)|]. by apply IH.
Qed.

Lemma unpack_pack fs vs b :
  fvals_ok fs vs -> pack fs vs = Some b -> unpack fs b = Some vs.
Proof.
  intros Hok Hp. unfold unpack. rw (pack_length _ _ _ Hp) Nat.eqb_refl.
  rw -{1}(app_nil_r b). by rw (unpack_fields_pack _ _ _ _ Hok Hp).
Qed.

(** What an unpacked record satisfies, and that packing it restores the bytes. *)
Lemma funpack_ok f data :
  wf_bytes data -> (fsize f <= length data)%nat -> fval_ok f (funpack f data).
Proof.
  intros Hw Hlen.
  assert (Hb : forall n, (n <= length data)%nat ->
            0 <= from_le (take n data) < 256 ^ Z.of_nat n).
  { intros n Hn. pose proof (from_le_bound (take n data)) as Hbd.
    unfold zlen in Hbd. rewrite length_take_le in Hbd by lia. eauto with daq. }
  destruct f; cbn -[Z.pow take] in *.
  - specialize (Hb 1%nat Hlen). pow_lit. lia.
  - specialize (Hb 2%nat Hlen). pow_lit. lia.
  - specialize (Hb 4%nat Hlen). pow_lit. lia.
  - specialize (Hb 8%nat Hlen). pow_lit. lia.
  - specialize (Hb 4%nat Hlen). apply mod_signed32. pow_lit. lia.
  - split; [len|eauto with daq].
Qed.

Lemma unpack_fields_ok fs data :
  wf_bytes data -> (calcsize fs <= length data)%nat -> fvals_ok fs (unpack_fields fs data).
Proof.
  revert data. induction fs as [|f fs IH]; intros data Hw Hlen; cbn in *; [done|].
  split; [apply funpack_ok; [done|lia]|]. apply IH; [eauto with daq|len].
Qed.

Lemma fpack_funpack f data :
  wf_bytes data -> (fsize f <= length data)%nat ->
  fpack f (funpack f data) = Some (take (fsize f) data).
Proof.
  intros Hw Hlen. pose proof (funpack_ok f data Hw Hlen) as Hok.
  assert (Hb : forall n, (n <= length data)%nat ->
            to_le n (from_le (take n data)) = take n data).
  { intros n Hn. rewrite <-(length_take_le data n) at 1 by lia. apply to_from_le. eauto with daq. }
  destruct f; cbn -[Z.pow take to_le fits] in *;
    try (rewrite (proj2 (fits_spec _ _)); [|pow_lit; lia]; by rw Hb).
  { rewrite (proj2 (fits_spec _ _)) by (pow_lit; lia). f_equal. rewrite <-(Hb 4%nat Hlen) at 2. f_equal.
    apply mod_signed32. pose proof (from_le_bound (take 4 data) (wf_bytes_take _ _ Hw)) as Hbd.
    unfold zlen in Hbd. rewrite length_take_le in Hbd by lia. pow_lit. lia. }
  by rewrite take_take, Nat.min_id, length_take_le, Nat.sub_diag, app_nil_r by lia.
Qed.

Lemma pack_unpack_fields fs data :
  wf_bytes data -> (calcsize fs <= length data)%nat ->
  pack fs (unpack_fields fs data) = Some (take (calcsize fs) data).
Proof.
  revert data. induction fs as [|f fs IH]; intros data Hw Hlen; [done|].
  cbn [pack unpack_fields calcsize] in *.
  rewrite fpack_funpack by (done || lia). cbn.
  rewrite IH by (eauto with daq || len). cbn. by rewrite take_take_drop.
Qed.

(** Unpacking reads only the format's own bytes. *)
Lemma unpack_fields_app fs data rest :
  (calcsize fs <= length data)%nat ->
  unpack_fields fs (data ++ rest) = unpack_fields fs data.
Proof.
  revert data. induction fs as [|f fs IH]; intros data Hlen; [done|].
  cbn [unpack_fields calcsize] in *. f_equal.
  - destruct f; cbn -[take] in *; rewrite take_app_le by lia; done.
  - rewrite drop_app_le by lia. apply IH. len.
Qed.

(** [unpack] reverses [pack], and the packed bytes are bytes. *)
Lemma pack_unpack fs vs b :
  strs_ok fs vs -> pack fs vs = Some b ->
  unpack fs b = Some vs /\ wf_bytes b /\ length b = calcsize fs.
Proof.
  intros Hs Hp. pose proof (pack_Some_ok _ _ _ Hs Hp) as Hok.
  destruct (fvals_ok_pack _ _ Hok) as (b' & Hp' & Hw). assert (b' = b) as -> by congruence.
  split; [|split; [done|by eapply pack_length]].
  unfold unpack. rewrite (pack_length _ _ _ Hp), Nat.eqb_refl. f_equal.
  rewrite <-(app_nil_r b). by apply unpack_fields_pack.
Qed.

(** [pack] reverses [unpack]. *)
Lemma unpack_packed fs data vs :
  wf_bytes data -> unpack fs data = Some vs -> pack fs vs = Some data /\ fvals_ok fs vs.
Proof.
  intros Hw. unfold unpack. destruct (length data =? calcsize fs)%nat eqn:Hl; [|discriminate].
  apply Nat.eqb_eq in Hl. intros Hvs. assert (vs = unpack_fields fs data) as -> by congruence.
  split; [|apply unpack_fields_ok; [done|lia]].
  rewrite pack_unpack_fields by (done || lia). by rewrite take_ge by lia.
Qed.

Lemma pack_inj fs vs vs' b :
  strs_ok fs vs -> strs_ok fs vs' -> pack fs vs = Some b -> pack fs vs' = Some b -> vs = vs'.
Proof.
  intros Hs Hs' Hp Hp'. apply pack_unpack in Hp as [Hu _]; [|done].
  apply pack_unpack in Hp' as [Hu' _]; [|done]. congruence.
Qed.

(** ** Writing into a buffer: [struct.pack_into]; [None] is [struct.error]. *)
Definition pack_into (fs : list fcode) (buffer : bytes) (offset : nat) (vs : fvals fs) :
    option bytes :=
  b ← pack fs vs;
  if (offset + calcsize fs <=? length buffer)%nat
  then Some (take offset buffer ++ b ++ drop (offset + calcsize fs) buffer) else None.

(** A loop that packs one record per step. *)
Definition pack_into_at (fs : list fcode) (offset : nat -> nat) (vs : nat -> fvals fs)
    (buffer : option bytes) (i : nat) : option bytes :=
  b ← buffer; pack_into fs b (offset i) (vs i).

(** Filling a buffer slot by slot leaves the concatenation of the records. *)
Lemma pack_into_fill fs vs w n buffer :
  (forall i, (i < n)%nat -> pack fs (vs i) = Some (w i)) -> length buffer = (n * calcsize fs)%nat ->
  fold_left (pack_into_at fs (fun i => i * calcsize fs)%nat vs) (seq 0 n) (Some buffer)
  = Some (concat (map w (seq 0 n))).
Proof.
  intros Hw Hl.
  assert (Hlw : forall i, (i < n)%nat -> length (w i) = calcsize fs).
  { intros i Hi. by eapply pack_length, Hw. }
  assert (Hlc : forall k, (k <= n)%nat -> length (concat (map w (seq 0 k))) = (k * calcsize fs)%nat).
  { induction k as [|k IH]; intros Hk; [done|].
    rewrite seq_S, map_app, concat_app, length_app, IH by lia. cbn. rewrite app_nil_r, Hlw by lia. lia. }
  assert (Hk : forall k, (k <= n)%nat ->
    fold_left (pack_into_at fs (fun i => i * calcsize fs)%nat vs) (seq 0 k) (Some buffer)
    = Some (concat (map w (seq 0 k)) ++ drop (k * calcsize fs) buffer)).
  { induction k as [|k IH]; intros Hk; [done|].
    rewrite seq_S, fold_left_app, IH by lia. cbn [fold_left Nat.add]. unfold pack_into_at at 1, pack_into.
    cbn [mbind option_bind]. rewrite Hw by lia. cbn [mbind option_bind].
    rewrite (proj2 (Nat.leb_le _ _)) by (rewrite length_app, Hlc, length_drop, Hl by lia; nia).
    rewrite take_app_exact by (by rewrite Hlc by lia). rewrite drop_app_ge by (rewrite Hlc by lia; lia).
    rewrite Hlc, drop_drop, map_app, concat_app by lia. cbn [map concat]. rewrite app_nil_r, <-app_assoc.
    do 4 f_equal. lia. }
  rewrite Hk, drop_ge, app_nil_r by lia. done.
Qed.
