(* ===== verification/Checksum.v ===== *)
(** * Checksum backends ([checksum.py]).

    The chunked Adler-32, the slicing-by-four reflected CRC-32 with its generated
    tables, the two [zlib]-backed functions, and the dispatch tables.  The
    references they are compared with are the byte-at-a-time Adler-32 of RFC 1950
    and the bit-at-a-time reflected CRC, which is also how the standard library's
    [zlib.adler32] and [zlib.crc32] are modelled. *)

From S2P Require Import Prelude.

Definition UINT32_MAX : Z := 0xFFFFFFFF.

(** ** Algorithms *)

Inductive ChecksumAlgorithm := NONE_RESERVED | ADLER32 | CRC32C | CRC32_ISO_HDLC.

#[export] Instance ChecksumAlgorithm_eq_dec : EqDecision ChecksumAlgorithm.
Proof. solve_decision. Defined.

#[export] Instance ChecksumAlgorithm_enum : IntEnum ChecksumAlgorithm.
Proof.
  refine {|
    int_of a := match a with
                | NONE_RESERVED => 0 | ADLER32 => 1 | CRC32C => 2 | CRC32_ISO_HDLC => 3
                end;
    members := [NONE_RESERVED; ADLER32; CRC32C; CRC32_ISO_HDLC] |}; enum_laws.
Defined.

(** ** Adler-32 *)

Definition ADLER_BASE : Z := 65521.

Definition adler_accumulate (s : Z * Z) (value : Z) : Z * Z :=
  let sum_1 := s.1 + value in (sum_1, s.2 + sum_1).

(** The [while offset < len(view)] loop over chunks of 5552 bytes; sums grow
    without reduction inside one chunk. *)
Fixpoint adler_while (fuel : nat) (view : bytes) (offset : nat) (s : Z * Z) : Z * Z :=
  match fuel with
  | O => s
  | S fuel =>
      if (offset <? length view)%nat then
        let finish := Nat.min (offset + Z.to_nat 5552) (length view) in
        let s := fold_left adler_accumulate (slice offset finish view) s in
        adler_while fuel view finish (s.1 mod ADLER_BASE, s.2 mod ADLER_BASE)
      else s
  end.

Definition _pure_adler32 (data : bytes) : Z :=
  let s := adler_while (S (length data)) data 0 (1, 0) in
  Z.lor (Z.shiftl s.2 16) s.1.

(** RFC 1950: both sums reduced after every byte.  [zlib.adler32(view, 1)]. *)
Definition adler_step (s : Z * Z) (value : Z) : Z * Z :=
  let sum_1 := (s.1 + value) mod ADLER_BASE in
  (sum_1, (s.2 + sum_1) mod ADLER_BASE).

Definition zlib_adler32 (data : bytes) : Z :=
  let s := fold_left adler_step data (1, 0) in s.2 * 65536 + s.1.

(** ** Reflected CRC-32 *)

Definition crc_shift (polynomial remainder : Z) : Z :=
  Z.lxor (Z.shiftr remainder 1) (if Z.testbit remainder 0 then polynomial else 0).

(** Eight shifts: the [for _ in range(8)] loop. *)
Definition crc_shift8 (polynomial remainder : Z) : Z :=
  Nat.iter 8 (crc_shift polynomial) remainder.

(** [slice_k[index]]; [None] is Python's [IndexError]. *)
Definition table_get (slice_k : list Z) (index : Z) : option Z :=
  if index <? 0 then None else slice_k !! Z.to_nat index.

Definition next_slice (slice_0 previous : list Z) : list Z :=
  map (fun value => Z.lxor (Z.shiftr value 8)
                      (default 0 (table_get slice_0 (Z.land value 0xFF)))) previous.

Definition crc_table : Type := (list Z * list Z * list Z * list Z)%type.

Definition _make_reflected_crc_table (polynomial : Z) : crc_table :=
  let slice_0 := map (crc_shift8 polynomial) (seqZ 0 256) in
  let slice_1 := next_slice slice_0 slice_0 in
  let slice_2 := next_slice slice_0 slice_1 in
  let slice_3 := next_slice slice_0 slice_2 in
  (slice_0, slice_1, slice_2, slice_3).

Definition CRC32C_POLY : Z := 0x82F63B78.
Definition CRC32_POLY : Z := 0xEDB88320.

Definition _CRC32C_TABLE : crc_table := Eval vm_compute in _make_reflected_crc_table CRC32C_POLY.
Definition _CRC32_ISO_HDLC_TABLE : crc_table :=
  Eval vm_compute in _make_reflected_crc_table CRC32_POLY.

(** [view.cast("I")] on a little-endian host: consecutive four-byte words. *)
Fixpoint words_of (view : bytes) : list Z :=
  match view with
  | b0 :: b1 :: b2 :: b3 :: rest => from_le [b0; b1; b2; b3] :: words_of rest
  | _ => []
  end.

Definition crc_word (table : crc_table) (remainder word : Z) : option Z :=
  let '(slice_0, slice_1, slice_2, slice_3) := table in
  let remainder := Z.lxor remainder word in
  x3 ← table_get slice_3 (Z.land remainder 0xFF);
  x2 ← table_get slice_2 (Z.land (Z.shiftr remainder 8) 0xFF);
  x1 ← table_get slice_1 (Z.land (Z.shiftr remainder 16) 0xFF);
  x0 ← table_get slice_0 (Z.shiftr remainder 24);
  Some (Z.lxor (Z.lxor (Z.lxor x3 x2) x1) x0).

Definition crc_tail_byte (table : crc_table) (remainder value : Z) : option Z :=
  let '(slice_0, _, _, _) := table in
  x ← table_get slice_0 (Z.land (Z.lxor remainder value) 0xFF);
  Some (Z.lxor (Z.shiftr remainder 8) x).

Fixpoint foldM {A B} (f : A -> B -> option A) (a : A) (l : list B) : option A :=
  match l with [] => Some a | b :: l => a' ← f a b; foldM f a' l end.

(** [little]: [sys.byteorder == "little"].  The other branch reads the same words
    with [int.from_bytes(view[offset : offset + 4], "little")]. *)
Definition _pure_reflected_crc32 (little : bool) (view : bytes) (table : crc_table) : option Z :=
  let word_bytes := (length view / 4 * 4)%nat in
  let words := if little then words_of (take word_bytes view)
               else map (fun k => from_le (slice (4 * k) (4 * k + 4) view))
                      (seq 0 (word_bytes / 4)) in
  remainder ← foldM (crc_word table) UINT32_MAX words;
  remainder ← foldM (crc_tail_byte table) remainder (drop word_bytes view);
  Some (Z.lxor remainder UINT32_MAX).

(** The bit-at-a-time reference: xor the byte in, shift eight times. *)
Definition crc_byte (polynomial remainder value : Z) : Z :=
  crc_shift8 polynomial (Z.lxor remainder value).

Definition crc_reference (polynomial : Z) (data : bytes) : Z :=
  Z.lxor (fold_left (crc_byte polynomial) data UINT32_MAX) UINT32_MAX.

(** [zlib.crc32(view, 0)]. *)
Definition zlib_crc32 (data : bytes) : Z := crc_reference CRC32_POLY data.

Section Dispatch.
  Context (little : bool).

Definition _pure_crc32c (data : bytes) : option Z :=
    _pure_reflected_crc32 little data _CRC32C_TABLE.
Definition _pure_crc32_iso_hdlc (data : bytes) : option Z :=
    _pure_reflected_crc32 little data _CRC32_ISO_HDLC_TABLE.
Definition _accelerated_adler32 (data : bytes) : option Z :=
    Some (Z.land (zlib_adler32 data) UINT32_MAX).
Definition _accelerated_crc32_iso_hdlc (data : bytes) : option Z :=
    Some (Z.land (zlib_crc32 data) UINT32_MAX).

  (** The dispatch dictionaries: the outer [None] is [dict.get]'s default. *)
Definition _CHECKSUM_FUNCTIONS (a : ChecksumAlgorithm) : option (bytes -> option Z) :=
    match a with
    | NONE_RESERVED => None
    | ADLER32 => Some _accelerated_adler32
    | CRC32C => Some _pure_crc32c
    | CRC32_ISO_HDLC => Some _accelerated_crc32_iso_hdlc
    end.

Definition _FALLBACK_FUNCTIONS (a : ChecksumAlgorithm) : option (bytes -> option Z) :=
    match a with
    | NONE_RESERVED => None
    | ADLER32 => Some (fun data => Some (_pure_adler32 data))
    | CRC32C => Some _pure_crc32c
    | CRC32_ISO_HDLC => Some _pure_crc32_iso_hdlc
    end.

  (** [Ok None]: algorithm unavailable; [Err tt]: an [IndexError] escaped. *)
Definition run_checksum (implementation : option (bytes -> option Z)) (data : bytes)
    : result unit (option Z) :=
    match implementation with
    | None => Ok None
    | Some f => v ← of_option (f data) tt; Ok (Some v)
    end.

Definition compute_checksum_value (data : bytes) (a : ChecksumAlgorithm) :=
    run_checksum (_CHECKSUM_FUNCTIONS a) data.
Definition _compute_checksum_fallback (data : bytes) (a : ChecksumAlgorithm) :=
    run_checksum (_FALLBACK_FUNCTIONS a) data.
End Dispatch.

Record ChecksumBackend := {
  algorithm : ChecksumAlgorithm;
  implementation : string;
  accelerated : bool;
  fallback_implementation : string
}.

Definition checksum_backend (a : ChecksumAlgorithm) : option ChecksumBackend :=
  match a with
  | NONE_RESERVED => None
  | ADLER32 => Some {| algorithm := ADLER32; implementation := "zlib.adler32";
                       accelerated := true; fallback_implementation := "python.adler32" |}
  | CRC32C => Some {| algorithm := CRC32C; implementation := "python.slicing_by_four.crc32c";
                      accelerated := false;
                      fallback_implementation := "python.slicing_by_four.crc32c" |}
  | CRC32_ISO_HDLC =>
      Some {| algorithm := CRC32_ISO_HDLC; implementation := "zlib.crc32";
              accelerated := true;
              fallback_implementation := "python.slicing_by_four.crc32_iso_hdlc" |}
  end.

Definition HOST_SUPPORTED_CHECKSUM_ALGORITHMS : list ChecksumAlgorithm :=
  List.filter (fun a => bool_decide (is_Some (_CHECKSUM_FUNCTIONS true a))) members.

Definition HOST_SUPPORTED_CHECKSUM_MASK : Z :=
  fold_right Z.add 0 (map (fun a => Z.shiftl 1 (int_of a)) HOST_SUPPORTED_CHECKSUM_ALGORITHMS).

(** ** Adler-32: chunked reduction agrees with RFC 1950 *)

Definition adler_equiv (s t : Z * Z) : Prop :=
  s.1 mod ADLER_BASE = t.1 mod ADLER_BASE /\ s.2 mod ADLER_BASE = t.2 mod ADLER_BASE.

Lemma adler_equiv_refl s : adler_equiv s s.
Proof. done. Qed.

Lemma adler_accumulate_step s t v :
  adler_equiv s t -> adler_equiv (adler_accumulate s v) (adler_step t v).
Proof.
  intros [H1 H2]. unfold adler_accumulate, adler_step, adler_equiv. cbn.
  assert (Hs : (s.1 + v) mod ADLER_BASE = (t.1 + v) mod ADLER_BASE).
  { by rewrite Zplus_mod, H1, <-Zplus_mod. }
  rewrite !Zmod_mod. split; [done|].
  by rewrite Zplus_mod, H2, Hs, <-Zplus_mod, Zplus_mod_idemp_r.
Qed.

Lemma adler_fold_equiv l s t :
  adler_equiv s t -> adler_equiv (fold_left adler_accumulate l s) (fold_left adler_step l t).
Proof.
  revert s t. induction l as [|v l IH]; intros s t Hst; [done|].
  cbn. apply IH. by apply adler_accumulate_step.
Qed.

Definition adler_reduced (s : Z * Z) : Prop :=
  0 <= s.1 < ADLER_BASE /\ 0 <= s.2 < ADLER_BASE.

Lemma adler_fold_reduced l s : adler_reduced s -> adler_reduced (fold_left adler_step l s).
Proof.
  revert s. induction l as [|v l IH]; intros s Hs; [done|]. cbn. apply IH.
  split; cbn; apply Z.mod_pos_bound; done.
Qed.

Lemma adler_while_reduced fuel view offset s :
  adler_reduced s -> adler_reduced (adler_while fuel view offset s).
Proof.
  revert offset s. induction fuel as [|fuel IH]; intros offset s Hs; cbn -[Z.modulo]; [done|].
  case_match; [|done]. apply IH. split; cbn -[Z.modulo]; apply Z.mod_pos_bound; done.
Qed.

(** Fuel [S (length view)] is enough: every iteration advances the offset. *)
Lemma adler_while_equiv fuel view offset s t :
  (length view - offset < fuel)%nat -> (offset <= length view)%nat -> adler_equiv s t ->
  adler_equiv (adler_while fuel view offset s) (fold_left adler_step (drop offset view) t).
Proof.
  revert offset s t. induction fuel as [|fuel IH]; intros offset s t Hfuel Hoff Hst; [lia|].
  cbn -[Z.modulo Z.to_nat]. case_match eqn:Hlt.
  - apply Nat.ltb_lt in Hlt. set (finish := Nat.min _ _).
    assert (Hf : (offset < finish <= length view)%nat) by lia.
    assert (Hsplit : drop offset view = slice offset finish view ++ drop finish view).
    { unfold slice. rewrite <-(take_drop (finish - offset) (drop offset view)) at 1.
      rewrite drop_drop. do 2 f_equal. lia. }
    rewrite Hsplit, fold_left_app. apply IH; [lia|lia|].
    destruct (adler_fold_equiv (slice offset finish view) s t Hst) as [H1 H2].
    split; cbn -[Z.modulo]; by rewrite Zmod_mod.
  - apply Nat.ltb_ge in Hlt. rewrite drop_ge by lia. done.
Qed.

Lemma pure_adler32_zlib data : _pure_adler32 data = zlib_adler32 data.
Proof.
  unfold _pure_adler32, zlib_adler32.
  assert (H0 : adler_reduced (1, 0)) by (unfold adler_reduced, ADLER_BASE; cbn; lia).
  pose proof (adler_while_equiv (S (length data)) data 0 (1, 0) (1, 0)
                ltac:(lia) ltac:(lia) (adler_equiv_refl _)) as [E1 E2].
  pose proof (adler_while_reduced (S (length data)) data 0 _ H0) as [R1 R2].
  rewrite drop_0 in E1, E2.
  pose proof (adler_fold_reduced data _ H0) as [Q1 Q2].
  rewrite !Z.mod_small in E1, E2 by done.
  rewrite E1, E2. apply lor_shiftl_add; [lia|].
  unfold ADLER_BASE in Q1. change (2 ^ 16) with 65536. lia.
Qed.

Lemma zlib_adler32_range data : 0 <= zlib_adler32 data < 2 ^ 32.
Proof.
  unfold zlib_adler32.
  pose proof (adler_fold_reduced data (1, 0)) as [Q1 Q2];
    [unfold adler_reduced, ADLER_BASE; cbn; lia|].
  unfold ADLER_BASE in *. pow_lit. lia.
Qed.

(** ** CRC: the tables hold iterated shifts of their index *)

Arguments crc_shift8 : simpl never.
Arguments crc_byte : simpl never.

Lemma crc_shift_lxor p a b :
  crc_shift p (Z.lxor a b) = Z.lxor (crc_shift p a) (crc_shift p b).
Proof.
  unfold crc_shift. rewrite Z.shiftr_lxor, Z.lxor_spec.
  apply Z.bits_inj'. intros i Hi.
  destruct (Z.testbit a 0), (Z.testbit b 0); cbn -[Z.lxor Z.shiftr];
    rewrite !Z.lxor_spec, ?Z.bits_0;
    destruct (Z.testbit (Z.shiftr a 1) i), (Z.testbit (Z.shiftr b 1) i), (Z.testbit p i); done.
Qed.

Lemma crc_shift8_lxor p a b :
  crc_shift8 p (Z.lxor a b) = Z.lxor (crc_shift8 p a) (crc_shift8 p b).
Proof. unfold crc_shift8. cbn [Nat.iter nat_rect]. by rewrite !crc_shift_lxor. Qed.

Lemma crc_shift_double p x : crc_shift p (Z.shiftl x 1) = x.
Proof.
  unfold crc_shift. rewrite Z.shiftl_spec_low by lia.
  rewrite Z.lxor_0_r, Z.shiftr_shiftl_l by lia. apply Z.shiftl_0_r.
Qed.

Lemma crc_shift8_shiftl p x : crc_shift8 p (Z.shiftl x 8) = x.
Proof.
  unfold crc_shift8. cbn [Nat.iter nat_rect].
  replace (Z.shiftl x 8) with
    (Z.shiftl (Z.shiftl (Z.shiftl (Z.shiftl (Z.shiftl (Z.shiftl (Z.shiftl (Z.shiftl x 1) 1) 1) 1) 1) 1) 1) 1).
  - by rewrite !crc_shift_double.
  - by rewrite !Z.shiftl_shiftl by lia.
Qed.

(** One shift by a byte, as the tables compute it. *)
Lemma crc_shift8_byte p x :
  crc_shift8 p x = Z.lxor (Z.shiftr x 8) (crc_shift8 p (Z.land x 255)).
Proof.
  rewrite (split_low_byte x) at 1. by rewrite crc_shift8_lxor, crc_shift8_shiftl.
Qed.

Lemma crc_shift_range p x :
  0 <= p < 2 ^ 32 -> 0 <= x < 2 ^ 32 -> 0 <= crc_shift p x < 2 ^ 32.
Proof.
  intros Hp Hx. unfold crc_shift. apply lxor_range; [lia| |case_match; pow_lit; lia].
  rewrite Z.shiftr_div_pow2 by lia. change (2 ^ 1) with 2. pow_lit. zlia.
Qed.

Lemma crc_shift8_range p x :
  0 <= p < 2 ^ 32 -> 0 <= x < 2 ^ 32 -> 0 <= crc_shift8 p x < 2 ^ 32.
Proof.
  intros Hp Hx. unfold crc_shift8. cbn [Nat.iter nat_rect].
  do 8 (apply crc_shift_range; [done|]). done.
Qed.

Lemma table_get_map (f : Z -> Z) i :
  0 <= i < 256 -> table_get (map f (seqZ 0 256)) i = Some (f i).
Proof.
  intros Hi. unfold table_get. replace (i <? 0) with false by lia.
  rewrite list_lookup_fmap, lookup_seqZ_lt by lia. cbn [fmap option_fmap option_map].
  by replace (0 + Z.of_nat (Z.to_nat i)) with i by lia.
Qed.

Lemma next_slice_map p (f : Z -> Z) :
  next_slice (map (crc_shift8 p) (seqZ 0 256)) (map f (seqZ 0 256))
  = map (fun i => crc_shift8 p (f i)) (seqZ 0 256).
Proof.
  unfold next_slice. rewrite map_map. apply map_ext. intros i.
  rewrite land_255, table_get_map by (apply Z.mod_pos_bound; lia). cbn [default from_option].
  by rewrite (crc_shift8_byte p (f i)), land_255.
Qed.

(** [slice_k[i]] is the index shifted by [k+1] bytes. *)
Lemma make_table_spec p :
  _make_reflected_crc_table p =
  (map (crc_shift8 p) (seqZ 0 256),
   map (fun i => crc_shift8 p (crc_shift8 p i)) (seqZ 0 256),
   map (fun i => crc_shift8 p (crc_shift8 p (crc_shift8 p i))) (seqZ 0 256),
   map (fun i => crc_shift8 p (crc_shift8 p (crc_shift8 p (crc_shift8 p i)))) (seqZ 0 256)).
Proof. unfold _make_reflected_crc_table. by rewrite !next_slice_map. Qed.

Lemma shiftr_range x k n :
  0 <= k <= n -> 0 <= x < 2 ^ n -> 0 <= Z.shiftr x k < 2 ^ (n - k).
Proof.
  intros Hk Hx. rewrite Z.shiftr_div_pow2 by lia. split; [apply Z.div_pos; lia|].
  apply Z.div_lt_upper_bound; [lia|]. rewrite <-Z.pow_add_r by lia.
  replace (k + (n - k)) with n by lia. lia.
Qed.

(** Four table lookups advance the remainder by four bytes. *)
Lemma crc_word_spec p r w :
  0 <= Z.lxor r w < 2 ^ 32 ->
  crc_word (_make_reflected_crc_table p) r w =
  Some (crc_shift8 p (crc_shift8 p (crc_shift8 p (crc_shift8 p (Z.lxor r w))))).
Proof.
  intros Hx. rewrite make_table_spec. unfold crc_word. set (x := Z.lxor r w) in *.
  pose proof (shiftr_range x 24 32 ltac:(lia) Hx) as H24. change (2 ^ (32 - 24)) with 256 in H24.
  rewrite !land_255, !table_get_map by (try apply Z.mod_pos_bound; lia). cbn -[crc_shift8]. f_equal.
  rewrite <-!land_255.
  rewrite (crc_shift8_byte p x), !crc_shift8_lxor, (crc_shift8_byte p (Z.shiftr x 8)).
  rewrite !crc_shift8_lxor, (crc_shift8_byte p (Z.shiftr (Z.shiftr x 8) 8)), !crc_shift8_lxor.
  rewrite !Z.shiftr_shiftr by lia. change (8 + (8 + 8)) with 24. change (8 + 8) with 16.
  apply Z.bits_inj'. intros i Hi. rewrite !Z.lxor_spec. by destruct
    (Z.testbit (crc_shift8 p (Z.shiftr x 24)) i),
    (Z.testbit (crc_shift8 p (crc_shift8 p (Z.land (Z.shiftr x 16) 255))) i),
    (Z.testbit (crc_shift8 p (crc_shift8 p (crc_shift8 p (Z.land (Z.shiftr x 8) 255)))) i),
    (Z.testbit (crc_shift8 p (crc_shift8 p (crc_shift8 p (crc_shift8 p (Z.land x 255))))) i).
Qed.

(** Bytes of a word, as disjoint lanes. *)
Lemma from_le_lxor b l :
  is_byte b -> from_le (b :: l) = Z.lxor b (Z.shiftl (from_le l) 8).
Proof.
  unfold is_byte. intros Hb. cbv [from_le]; fold from_le.
  rewrite (Z.shiftl_mul_pow2 _ 8) by lia. change (2 ^ 8) with 256.
  rewrite Z.lxor_comm, Z.lxor_lor.
  - rewrite <-(Z.shiftl_mul_pow2 _ 8), lor_shiftl_add by (pow_lit; lia). pow_lit. lia.
  - apply Z.bits_inj'. intros i Hi. rewrite Z.land_spec, Z.bits_0, andb_false_iff.
    change 256 with (2 ^ 8). rewrite <-Z.shiftl_mul_pow2 by lia.
    destruct (Z.lt_ge_cases i 8); [left; by apply Z.shiftl_spec_low|].
    right. by apply (testbit_above 8).
Qed.

(** Absorbing bytes one at a time is absorbing their word and shifting. *)
Lemma crc_bytes_word p r b0 b1 b2 b3 :
  wf_bytes [b0; b1; b2; b3] ->
  fold_left (crc_byte p) [b0; b1; b2; b3] r =
  crc_shift8 p (crc_shift8 p (crc_shift8 p (crc_shift8 p (Z.lxor r (from_le [b0; b1; b2; b3]))))).
Proof.
  intros Hw. repeat (apply Forall_cons in Hw as [? Hw]).
  rewrite !from_le_lxor by done. change (from_le []) with 0. rewrite Z.shiftl_0_l, Z.lxor_0_r.
  cbn [fold_left]. unfold crc_byte.
  by rewrite !crc_shift8_lxor, !Z.shiftl_lxor, !crc_shift8_lxor, !crc_shift8_shiftl,
    !Z.lxor_assoc.
Qed.

Lemma crc_byte_range p r b :
  0 <= p < 2 ^ 32 -> is_byte b -> 0 <= r < 2 ^ 32 -> 0 <= crc_byte p r b < 2 ^ 32.
Proof.
  intros Hp Hb Hr. apply crc_shift8_range; [done|].
  apply lxor_range; [lia|done|]. unfold is_byte in Hb. clear -Hb. pow_lit. lia.
Qed.

Lemma fold_crc_range p l r :
  0 <= p < 2 ^ 32 -> wf_bytes l -> 0 <= r < 2 ^ 32 ->
  0 <= fold_left (crc_byte p) l r < 2 ^ 32.
Proof.
  intros Hp Hl. revert r. induction Hl as [|b l Hb _ IH]; intros r Hr; [done|].
  rewrite fold_left_cons. by apply IH, crc_byte_range.
Qed.

Lemma words_of_fold p view r :
  0 <= p < 2 ^ 32 -> 0 <= r < 2 ^ 32 -> wf_bytes view -> (length view mod 4 = 0)%nat ->
  foldM (crc_word (_make_reflected_crc_table p)) r (words_of view)
  = Some (fold_left (crc_byte p) view r).
Proof.
  intros Hp. revert r. induction view as [view IH] using (induction_ltof1 _ (@length Z)).
  intros r Hr Hw Hm. destruct view as [|b0 [|b1 [|b2 [|b3 rest]]]];
    try (cbn in Hm; discriminate).
  { done. }
  cbn [words_of foldM].
  assert (Hw4 : wf_bytes [b0; b1; b2; b3] /\ wf_bytes rest).
  { apply wf_bytes_app. done. }
  destruct Hw4 as [Hw4 Hrest].
  pose proof (from_le_bound _ Hw4) as Hb4. unfold zlen in Hb4. cbn [length] in Hb4. pow_lit.
  rewrite crc_word_spec by (apply lxor_range; pow_lit; lia).
  cbn [mbind option_bind]. rewrite <-crc_bytes_word by done.
  rewrite IH.
  - rewrite <-fold_left_app. done.
  - unfold ltof. cbn. lia.
  - by apply (fold_crc_range p).
  - done.
  - cbn [length] in Hm.
    replace (S (S (S (S (length rest))))) with (length rest + 1 * 4)%nat in Hm by lia.
    by rewrite Nat.Div0.mod_add in Hm.
Qed.

Lemma crc_tail_spec p r b :
  is_byte b -> crc_tail_byte (_make_reflected_crc_table p) r b = Some (crc_byte p r b).
Proof.
  unfold is_byte. intros Hb. rewrite make_table_spec. unfold crc_tail_byte.
  rewrite land_255, table_get_map by (apply Z.mod_pos_bound; lia).
  cbn [mbind option_bind]. f_equal. unfold crc_byte.
  rewrite (crc_shift8_byte p (Z.lxor r b)), land_255, Z.shiftr_lxor.
  by rewrite (Z.shiftr_div_pow2 b), Z.div_small, Z.lxor_0_r by (pow_lit; lia).
Qed.

Lemma tail_fold p view r :
  wf_bytes view ->
  foldM (crc_tail_byte (_make_reflected_crc_table p)) r view
  = Some (fold_left (crc_byte p) view r).
Proof.
  intros Hw. revert r. induction Hw as [|b l Hb Hl IH]; intros r; [done|].
  rewrite fold_left_cons. cbn [foldM]. rewrite crc_tail_spec by done. apply IH.
Qed.

(** The big-endian branch reads the same words. *)
Lemma words_of_slices view n :
  (4 * n <= length view)%nat ->
  map (fun k => from_le (slice (4 * k) (4 * k + 4) view)) (seq 0 n)
  = words_of (take (4 * n) view).
Proof.
  revert view. induction n as [|n IH]; intros view Hlen; [done|].
  destruct view as [|b0 [|b1 [|b2 [|b3 rest]]]]; try (cbn in Hlen; lia).
  replace (take (4 * S n) (b0 :: b1 :: b2 :: b3 :: rest))
    with (b0 :: b1 :: b2 :: b3 :: take (4 * n) rest)
    by (replace (4 * S n)%nat with (S (S (S (S (4 * n))))) by lia; done).
  cbn [words_of]. rewrite <-IH by (cbn in Hlen; lia).
  cbn [seq map]. f_equal.
  rewrite <-seq_shift, map_map. apply map_ext. intros k. f_equal. unfold slice.
  replace (4 * S k + 4 - 4 * S k)%nat with 4%nat by lia.
  replace (4 * k + 4 - 4 * k)%nat with 4%nat by lia.
  replace (4 * S k)%nat with (S (S (S (S (4 * k))))) by lia. done.
Qed.

Lemma pure_crc_reference little p data :
  0 <= p < 2 ^ 32 -> wf_bytes data ->
  _pure_reflected_crc32 little data (_make_reflected_crc_table p) = Some (crc_reference p data).
Proof.
  intros Hp Hw. unfold _pure_reflected_crc32. set (wb := (length data / 4 * 4)%nat).
  assert (Hwb : (wb <= length data)%nat) by (unfold wb; pose proof (Nat.div_mod_eq (length data) 4); lia).
  assert (Hwords : (if little then words_of (take wb data)
                    else map (fun k => from_le (slice (4 * k) (4 * k + 4) data)) (seq 0 (wb / 4)))
                   = words_of (take wb data)).
  { destruct little; [done|]. unfold wb. rewrite Nat.div_mul by lia.
    rewrite words_of_slices by (unfold wb in Hwb; lia). f_equal. f_equal. lia. }
  rewrite Hwords, words_of_fold; [|done|unfold UINT32_MAX; pow_lit; lia|by apply wf_bytes_take|].
  2: { rewrite length_take_le by lia. unfold wb. apply Nat.Div0.mod_mul. }
  cbn [mbind option_bind]. rewrite tail_fold by (by apply wf_bytes_drop).
  cbn [mbind option_bind]. rewrite <-fold_left_app, take_drop. done.
Qed.

Lemma crc_reference_range p data :
  0 <= p < 2 ^ 32 -> wf_bytes data -> 0 <= crc_reference p data < 2 ^ 32.
Proof.
  intros Hp Hw. unfold crc_reference.
  assert (0 <= UINT32_MAX < 2 ^ 32) by (unfold UINT32_MAX; pow_lit; lia).
  apply lxor_range; [lia| |done]. by apply fold_crc_range.
Qed.

(** ** Dispatch *)

Lemma CRC32C_TABLE_made : _CRC32C_TABLE = _make_reflected_crc_table CRC32C_POLY.
Proof. vm_compute. reflexivity. Qed.
Lemma CRC32_ISO_HDLC_TABLE_made : _CRC32_ISO_HDLC_TABLE = _make_reflected_crc_table CRC32_POLY.
Proof. vm_compute. reflexivity. Qed.

Lemma land_uint32 v : 0 <= v < 2 ^ 32 -> Z.land v UINT32_MAX = v.
Proof.
  intros Hv. change UINT32_MAX with (2 ^ 32 - 1). rewrite land_ones_mod by lia. by apply Z.mod_small.
Qed.

(** What every enabled algorithm computes. *)
Definition checksum_reference (a : ChecksumAlgorithm) (data : bytes) : option Z :=
  match a with
  | NONE_RESERVED => None
  | ADLER32 => Some (zlib_adler32 data)
  | CRC32C => Some (crc_reference CRC32C_POLY data)
  | CRC32_ISO_HDLC => Some (crc_reference CRC32_POLY data)
  end.

Lemma crc_poly_range : 0 <= CRC32C_POLY < 2 ^ 32 /\ 0 <= CRC32_POLY < 2 ^ 32.
Proof. unfold CRC32C_POLY, CRC32_POLY. pow_lit. lia. Qed.

Lemma compute_checksum_reference little data a :
  wf_bytes data -> compute_checksum_value little data a = Ok (checksum_reference a data).
Proof.
  intros Hw. destruct crc_poly_range as [Hc Hi].
  destruct a; cbn [compute_checksum_value run_checksum _CHECKSUM_FUNCTIONS checksum_reference].
  - done.
  - unfold compute_checksum_value, run_checksum, _CHECKSUM_FUNCTIONS, _accelerated_adler32.
    cbn [of_option mbind result_bind]. by rewrite land_uint32 by apply zlib_adler32_range.
  - unfold compute_checksum_value, run_checksum, _CHECKSUM_FUNCTIONS, _pure_crc32c.
    rewrite CRC32C_TABLE_made, pure_crc_reference by done. done.
  - unfold compute_checksum_value, run_checksum, _CHECKSUM_FUNCTIONS, _accelerated_crc32_iso_hdlc, zlib_crc32.
    cbn [of_option mbind result_bind]. by rewrite land_uint32 by (apply crc_reference_range; done).
Qed.

Lemma checksum_fallback_reference little data a :
  wf_bytes data -> _compute_checksum_fallback little data a = Ok (checksum_reference a data).
Proof.
  intros Hw. destruct crc_poly_range as [Hc Hi].
  destruct a; unfold _compute_checksum_fallback, run_checksum, _FALLBACK_FUNCTIONS.
  - done.
  - cbn [of_option mbind result_bind]. by rewrite pure_adler32_zlib.
  - unfold _pure_crc32c. rewrite CRC32C_TABLE_made, pure_crc_reference by done. done.
  - unfold _pure_crc32_iso_hdlc. rewrite CRC32_ISO_HDLC_TABLE_made, pure_crc_reference by done. done.
Qed.

(** ** Adler-32 detects a changed byte *)

Fixpoint byte_sum (l : bytes) : Z := match l with [] => 0 | b :: l => b + byte_sum l end.

Lemma byte_sum_app l k : byte_sum (l ++ k) = byte_sum l + byte_sum k.
Proof. induction l; cbn; lia. Qed.

(** The low half is the byte sum. *)
Lemma adler_sum_1 l s :
  adler_reduced s -> (fold_left adler_step l s).1 = (s.1 + byte_sum l) mod ADLER_BASE.
Proof.
  revert s. induction l as [|b l IH]; intros s [Hs1 Hs2]; cbn [fold_left byte_sum].
  - rewrite Z.add_0_r. by rewrite Z.mod_small.
  - rewrite IH.
    + cbn [adler_step fst]. rewrite Zplus_mod_idemp_l. f_equal. lia.
    + split; cbn -[Z.modulo]; apply Z.mod_pos_bound; done.
Qed.

Lemma adler_byte_sum data k :
  zlib_adler32 data = zlib_adler32 k -> byte_sum data mod ADLER_BASE = byte_sum k mod ADLER_BASE.
Proof.
  assert (H0 : adler_reduced (1, 0)) by (unfold adler_reduced, ADLER_BASE; cbn; lia).
  unfold zlib_adler32. intros H.
  destruct (adler_fold_reduced data (1, 0) H0) as [Ha1 Ha2].
  destruct (adler_fold_reduced k (1, 0) H0) as [Hb1 Hb2].
  assert (Heq : (fold_left adler_step data (1, 0)).1 = (fold_left adler_step k (1, 0)).1)
    by (unfold ADLER_BASE in *; lia).
  rewrite !adler_sum_1 in Heq by done. cbn [fst] in Heq.
  replace (byte_sum data) with (1 + byte_sum data - 1) by lia.
  replace (byte_sum k) with (1 + byte_sum k - 1) by lia.
  by rewrite Zminus_mod, Heq, <-Zminus_mod.
Qed.

Lemma adler_single_byte pre b b' post :
  is_byte b -> is_byte b' -> b <> b' ->
  zlib_adler32 (pre ++ b :: post) <> zlib_adler32 (pre ++ b' :: post).
Proof.
  unfold is_byte. intros Hb Hb' Hne H. apply adler_byte_sum in H.
  rewrite !byte_sum_app in H. cbn [byte_sum] in H.
  assert (Hd : ((byte_sum pre + (b + byte_sum post)) - (byte_sum pre + (b' + byte_sum post)))
               mod ADLER_BASE = 0).
  { rewrite Zminus_mod, H, Z.sub_diag. done. }
  replace (_ - _) with (b - b') in Hd by lia. unfold ADLER_BASE in Hd.
  destruct (Z_lt_le_dec (b - b') 0).
  - rewrite <-(Z_mod_plus_full _ 1), Z.mod_small in Hd; lia.
  - rewrite Z.mod_small in Hd; lia.
Qed.

(** ** CRC: one changed byte changes the value *)

(** The polynomial's top bit makes the bit that leaves readable again. *)
Lemma crc_shift_top p x :
  2 ^ 31 <= p < 2 ^ 32 -> 0 <= x < 2 ^ 32 -> Z.testbit (crc_shift p x) 31 = Z.testbit x 0.
Proof.
  intros Hp Hx. unfold crc_shift. rewrite Z.lxor_spec, Z.shiftr_spec by lia.
  rewrite (testbit_above 32 x (31 + 1)) by lia. cbn [xorb].
  destruct (Z.testbit x 0); [|by rewrite Z.bits_0]. rewrite Z.testbit_eqb by lia.
  replace (p / 2 ^ 31) with 1; [done|]. change (2 ^ 31) with 2147483648 in *. change (2 ^ 32) with 4294967296 in *. zlia.
Qed.

Lemma crc_shift_inj p x y :
  2 ^ 31 <= p < 2 ^ 32 -> 0 <= x < 2 ^ 32 -> 0 <= y < 2 ^ 32 -> crc_shift p x = crc_shift p y -> x = y.
Proof.
  intros Hp Hx Hy H. assert (H0 : Z.testbit x 0 = Z.testbit y 0) by (rewrite <-!(crc_shift_top p), H; done).
  unfold crc_shift in H. rewrite H0 in H.
  assert (Hs : Z.shiftr x 1 = Z.shiftr y 1).
  { apply Z.bits_inj'. intros i _. apply (f_equal (fun z => Z.testbit z i)) in H. rewrite !Z.lxor_spec in H.
    destruct (Z.testbit (Z.shiftr x 1) i), (Z.testbit (Z.shiftr y 1) i), (Z.testbit (if Z.testbit y 0 then p else 0) i); done. }
  apply Z.bits_inj'. intros i Hi. destruct (Z.eq_dec i 0) as [->|Hne]; [done|].
  apply (f_equal (fun z => Z.testbit z (i - 1))) in Hs. rewrite !Z.shiftr_spec in Hs by lia.
  by replace (i - 1 + 1) with i in Hs by lia.
Qed.

Lemma crc_shift8_inj p x y :
  2 ^ 31 <= p < 2 ^ 32 -> 0 <= x < 2 ^ 32 -> 0 <= y < 2 ^ 32 -> crc_shift8 p x = crc_shift8 p y -> x = y.
Proof.
  intros Hp Hx Hy. unfold crc_shift8. cbn [Nat.iter nat_rect]. intros H.
  repeat (apply crc_shift_inj in H; [|done|repeat apply crc_shift_range; lia..]). done.
Qed.

Lemma fold_crc_inj p l x y :
  2 ^ 31 <= p < 2 ^ 32 -> wf_bytes l -> 0 <= x < 2 ^ 32 -> 0 <= y < 2 ^ 32 ->
  fold_left (crc_byte p) l x = fold_left (crc_byte p) l y -> x = y.
Proof.
  intros Hp Hl. revert x y. induction Hl as [|b l Hb _ IH]; intros x y Hx Hy; [done|].
  rewrite !fold_left_cons. assert (Hp' : 0 <= p < 2 ^ 32) by lia.
  intros H. apply IH in H; [|by apply crc_byte_range..]. unfold crc_byte in H.
  assert (0 <= b < 2 ^ 32) by (unfold is_byte in Hb; pow_lit; lia).
  apply crc_shift8_inj in H; [|done|apply lxor_range; lia..].
  apply (f_equal (fun z => Z.lxor z b)) in H. by rewrite !Z.lxor_assoc, !Z.lxor_nilpotent, !Z.lxor_0_r in H.
Qed.

Lemma crc_single_byte p pre b b' post :
  2 ^ 31 <= p < 2 ^ 32 -> wf_bytes pre -> wf_bytes post -> is_byte b -> is_byte b' -> b <> b' ->
  crc_reference p (pre ++ b :: post) <> crc_reference p (pre ++ b' :: post).
Proof.
  intros Hp Hpre Hpost Hb Hb' Hne H. unfold crc_reference in H.
  apply (f_equal (fun z => Z.lxor z UINT32_MAX)) in H.
  rewrite !Z.lxor_assoc, !Z.lxor_nilpotent, !Z.lxor_0_r, !fold_left_app, !fold_left_cons in H.
  assert (Hp' : 0 <= p < 2 ^ 32) by lia.
  set (r := fold_left (crc_byte p) pre UINT32_MAX) in *.
  assert (Hr : 0 <= r < 2 ^ 32) by (apply fold_crc_range; [done..|by vm_compute]).
  apply fold_crc_inj in H; [|done|done|by apply crc_byte_range..]. unfold crc_byte in H.
  assert (Hb2 : forall c, is_byte c -> 0 <= c < 2 ^ 32) by (unfold is_byte; intros; pow_lit; lia).
  apply crc_shift8_inj in H; [|done|apply lxor_range; auto; lia..].
  apply (f_equal (fun z => Z.lxor r z)) in H. by rewrite <-!Z.lxor_assoc, !Z.lxor_nilpotent, !Z.lxor_0_l in H.
Qed.

(** Every enabled algorithm detects a changed byte. *)
Lemma checksum_single_byte a pre b b' post c :
  wf_bytes pre -> wf_bytes post -> is_byte b -> is_byte b' -> b <> b' ->
  checksum_reference a (pre ++ b :: post) = Some c -> checksum_reference a (pre ++ b' :: post) <> Some c.
Proof.
  intros Hpre Hpost Hb Hb' Hne H1 H2. destruct a; [discriminate|..]; apply Some_inj' in H1, H2; rewrite <-H2 in H1.
  - by apply adler_single_byte in H1.
  - by apply crc_single_byte in H1.
  - by apply crc_single_byte in H1.
Qed.

(** ** Claims *)

(** The chunked Adler-32, which lets both sums grow for up to 5552 bytes before
    reducing them, computes RFC 1950's Adler-32 (both sums reduced after every
    byte, packed as [sum_2 * 65536 + sum_1]) for every input. *)
Theorem pure_adler32_correct (data : bytes) :
  _pure_adler32 data =
  (let s := fold_left adler_step data (1, 0) in s.2 * 65536 + s.1).
Proof. apply pure_adler32_zlib. Qed.

(** C40. The slicing-by-four CRC, with the tables the module generates for a
    polynomial, never indexes a table out of range and computes the bit-at-a-time
    reflected CRC-32 of that polynomial, on either host byte order. *)
Theorem slicing_by_four_correct (little : bool) (polynomial : Z) (data : bytes)
    (Hpoly : 0 <= polynomial < 2 ^ 32) (Hdata : wf_bytes data) :
  _pure_reflected_crc32 little data (_make_reflected_crc_table polynomial)
  = Some (crc_reference polynomial data).
Proof. by apply pure_crc_reference. Qed.

Lemma slicing_by_four_correct_witness :
  _pure_reflected_crc32 true [49; 50; 51; 52; 53; 54; 55; 56; 57]
    (_make_reflected_crc_table CRC32C_POLY) = Some 0xE3069283.
Proof.
  rewrite (slicing_by_four_correct true CRC32C_POLY [49; 50; 51; 52; 53; 54; 55; 56; 57]).
  - reflexivity.
  - vm_compute. split; [discriminate|reflexivity].
  - repeat constructor; vm_compute; (discriminate || reflexivity).
Defined.

(** The accelerated and the pure-Python backends agree for every algorithm, on
    either byte order: both return the reference checksum as an unsigned 32-bit value,
    both report an unavailable algorithm, and no table lookup is out of range. *)
Theorem backends_agree (little : bool) (data : bytes) (a : ChecksumAlgorithm)
    (Hdata : wf_bytes data) :
  exists v, compute_checksum_value little data a = Ok v /\
    _compute_checksum_fallback little data a = Ok v /\ v = checksum_reference a data /\
    (a = NONE_RESERVED <-> v = None) /\ (forall c, v = Some c -> 0 <= c < 2 ^ 32).
Proof.
  exists (checksum_reference a data). rewrite compute_checksum_reference, checksum_fallback_reference by done.
  split; [done|]. split; [done|]. split; [done|]. destruct crc_poly_range as [Hc Hi].
  split; [by destruct a|]. intros c Hv. destruct a; [discriminate|..]; injection Hv as <-.
  - apply zlib_adler32_range.
  - by apply crc_reference_range.
  - by apply crc_reference_range.
Qed.

Lemma backends_agree_witness :
  exists v, compute_checksum_value true [1; 2; 3] CRC32C = Ok v /\
    _compute_checksum_fallback true [1; 2; 3] CRC32C = Ok v /\
    v = checksum_reference CRC32C [1; 2; 3] /\
    (CRC32C = NONE_RESERVED <-> v = None) /\ (forall c, v = Some c -> 0 <= c < 2 ^ 32).
Proof.
  apply (backends_agree true [1; 2; 3] CRC32C).
  repeat constructor; vm_compute; (discriminate || reflexivity).
Defined.
