(* ===== verification/Incremental.v ===== *)
(** * Bounded incremental framing ([_incremental.py]).

    The version-neutral parser that every protocol version instantiates: a bounded
    buffer, a scan position, a cached header, and the counters a monitor reads.
    The code is parameterised by callbacks; here they are the operations of the
    class [FrameCodec], with what the loop relies on in [FrameCodecLaws], which the
    protocol files discharge.  The loop catches two classes of exception; any other one a
    decoder raises ([Escaped]) leaves [feed] as [DecoderRaised], and the laws rule it out
    for byte values.  [scans] is the abstract scanner the bounded parser
    is shown to implement. *)

From S2P Require Import Prelude.

(** ** The interface a protocol gives to the framing loop *)

(** What a decoder raises, as the [except] clauses of the loop sort it: [checksum_error],
    another [validation_error], or an exception that no clause catches. *)
Inductive frame_fault := ChecksumFault | ValidationFault | Escaped (exception : string).

(** A decoder's outcome, its exceptions sorted by [sort]. *)
Definition sorted_by {E A} (sort : E -> frame_fault) (m : result E A) : result frame_fault A :=
  match m with Ok a => Ok a | Err e => Err (sort e) end.

Lemma sorted_by_Ok {E A} (sort : E -> frame_fault) (m : result E A) a : sorted_by sort m = Ok a <-> m = Ok a.
Proof. destruct m as [b|e]; cbn; [|done]. by split; intros H; apply Ok_inj in H; subst. Qed.

Lemma sorted_by_caught {E A} (sort : E -> frame_fault) (P : E -> bool) (m : result E A) exception :
  (forall e, P e = true -> sort e <> Escaped exception) -> raises_only P m -> sorted_by sort m <> Err (Escaped exception).
Proof. destruct m as [a|e]; cbn; [done|]. intros Hs HP H. injection H. by apply Hs. Qed.

Class FrameCodec (HeaderT FrameT : Type) := {
  magic_bytes : bytes;
  header_size : nat;
  max_frame_bytes : nat;
  total_length : HeaderT -> nat;
  decode_header : bytes -> nat -> result frame_fault HeaderT;
  decode_frame : bytes -> nat -> HeaderT -> result frame_fault FrameT
}.

(** The constructor's two bounds, that a decoder reads its own bytes only, and that on bytes
    that are there it raises only what the loop catches. *)
Class FrameCodecLaws {HeaderT FrameT} (C : FrameCodec HeaderT FrameT) : Prop := {
  magic_nonempty : magic_bytes <> [];
  header_holds_magic : (length magic_bytes <= header_size)%nat;
  frame_holds_header : (header_size <= max_frame_bytes)%nat;
  total_length_bounds data offset h :
    decode_header data offset = Ok h ->
    (header_size <= total_length h <= max_frame_bytes)%nat;
  decode_header_local data offset :
    (offset + header_size <= length data)%nat ->
    decode_header data offset = decode_header (take header_size (drop offset data)) 0;
  decode_frame_local data offset h :
    decode_header data offset = Ok h -> (offset + total_length h <= length data)%nat ->
    decode_frame data offset h = decode_frame (take (total_length h) (drop offset data)) 0 h;
  decode_header_caught data offset exception :
    (offset + header_size <= length data)%nat -> decode_header data offset <> Err (Escaped exception);
  decode_frame_caught data offset h exception :
    wf_bytes data -> decode_header data offset = Ok h -> (offset + total_length h <= length data)%nat ->
    decode_frame data offset h <> Err (Escaped exception)
}.

(** ** Byte searches *)

Definition starts_with (prefix data : bytes) : bool :=
  bool_decide (take (length prefix) data = prefix).

(** [data.endswith(suffix, start)] *)
Definition ends_with (data suffix : bytes) (start : nat) : bool :=
  let view := drop start data in
  (length suffix <=? length view)%nat &&
  bool_decide (drop (length view - length suffix) view = suffix).

(** [data.find(pattern, start)]; [None] is Python's [-1]. *)
Fixpoint find_in (pattern view : bytes) (index : nat) : option nat :=
  if starts_with pattern view then Some index
  else match view with [] => None | _ :: view => find_in pattern view (S index) end.

Definition find (data pattern : bytes) (start : nat) : option nat :=
  find_in pattern (drop start data) start.

Fixpoint suffix_loop (data magic : bytes) (start len : nat) : nat :=
  match len with
  | O => O
  | S k => if ends_with data (take len magic) start then len
           else suffix_loop data magic start k
  end.

Definition _partial_magic_suffix_length (data magic : bytes) (start : nat) : nat :=
  let maximum := Nat.min (length data - start) (length magic - 1) in
  suffix_loop data magic start maximum.

(** ** Parser state *)

Inductive category := header_error | checksum_error | payload_error.

Section Parser.
Context {HeaderT FrameT : Type} `{C : FrameCodec HeaderT FrameT}.

Record Parser := mkParser {
  _buffer : bytes;
  _scan_start : nat;
  _pending_header : option HeaderT;
  _resynchronizing : bool;
  bytes_received : nat;
  frames_decoded : nat;
  corruption_events : nat;
  header_errors : nat;
  checksum_errors : nat;
  payload_errors : nat;
  resynchronizations : nat;
  bytes_discarded : nat;
  high_water_mark : nat
}.

Definition max_buffered_bytes : nat := (max_frame_bytes + length magic_bytes - 1)%nat.

Definition new_parser : Parser := mkParser [] 0 None false 0 0 0 0 0 0 0 0 0.

(** [__init__]: [None] is its [ValueError]. *)
Definition init_parser : option Parser :=
  if (length magic_bytes =? 0)%nat || (header_size <? length magic_bytes)%nat then None
  else if (max_frame_bytes <? header_size)%nat then None
  else Some new_parser.

Definition buffered_bytes (p : Parser) : nat := (length (_buffer p) - _scan_start p)%nat.

(** *** Field updates *)

Definition set_pending (h : option HeaderT) (p : Parser) : Parser :=
  mkParser (_buffer p) (_scan_start p) h (_resynchronizing p) (bytes_received p)
    (frames_decoded p) (corruption_events p) (header_errors p) (checksum_errors p)
    (payload_errors p) (resynchronizations p) (bytes_discarded p) (high_water_mark p).

Definition reset_session (p : Parser) : Parser :=
  mkParser [] 0 None false (bytes_received p)
    (frames_decoded p) (corruption_events p) (header_errors p) (checksum_errors p)
    (payload_errors p) (resynchronizations p) (bytes_discarded p) (high_water_mark p).

Definition reset (p : Parser) : Parser :=
  let p := reset_session p in
  mkParser (_buffer p) (_scan_start p) (_pending_header p) (_resynchronizing p)
    0 0 0 0 0 0 0 0 0.

Definition _discard (count : nat) (p : Parser) : Parser :=
  if (count <=? 0)%nat then p
  else
    mkParser (_buffer p) (_scan_start p + count) None true (bytes_received p)
      (frames_decoded p) (corruption_events p) (header_errors p) (checksum_errors p)
      (payload_errors p)
      (if _resynchronizing p then resynchronizations p else S (resynchronizations p))
      (bytes_discarded p + count) (high_water_mark p).

Definition _record_corruption (c : category) (p : Parser) : Parser :=
  mkParser (_buffer p) (_scan_start p) (_pending_header p) (_resynchronizing p)
    (bytes_received p) (frames_decoded p) (S (corruption_events p))
    (match c with header_error => S (header_errors p) | _ => header_errors p end)
    (match c with checksum_error => S (checksum_errors p) | _ => checksum_errors p end)
    (match c with payload_error => S (payload_errors p) | _ => payload_errors p end)
    (resynchronizations p) (bytes_discarded p) (high_water_mark p).

Definition _compact (p : Parser) : Parser :=
  if (_scan_start p =? 0)%nat then p
  else
    mkParser (drop (_scan_start p) (_buffer p)) 0 (_pending_header p) (_resynchronizing p)
      (bytes_received p) (frames_decoded p) (corruption_events p) (header_errors p)
      (checksum_errors p) (payload_errors p) (resynchronizations p) (bytes_discarded p)
      (high_water_mark p).

(** Lines 229-232: an accepted frame. *)
Definition accept_frame (h : HeaderT) (p : Parser) : Parser :=
  mkParser (_buffer p) (_scan_start p + total_length h) None false (bytes_received p)
    (S (frames_decoded p)) (corruption_events p) (header_errors p) (checksum_errors p)
    (payload_errors p) (resynchronizations p) (bytes_discarded p) (high_water_mark p).

(** ** The [while True] loop of [_drain] *)

Inductive loop_step :=
| Break (p : Parser)
| Continue (p : Parser) (frames : list FrameT)
| Raise (exception : string).

(** From line 217: a header is pending. *)
Definition drain_frame (h : HeaderT) (p : Parser) : loop_step :=
  if (buffered_bytes p <? total_length h)%nat then Break p
  else
    match decode_frame (_buffer p) (_scan_start p) h with
    | Err ChecksumFault => Continue (_discard 1 (_record_corruption checksum_error p)) []
    | Err ValidationFault => Continue (_discard 1 (_record_corruption payload_error p)) []
    | Err (Escaped exception) => Raise exception
    | Ok frame => Continue (accept_frame h p) [frame]
    end.

(** Lines 208-216: the magic is at the scan position. *)
Definition drain_header (p : Parser) : loop_step :=
  if (buffered_bytes p <? header_size)%nat then Break p
  else
    match decode_header (_buffer p) (_scan_start p) with
    | Err (Escaped exception) => Raise exception
    | Err _ => Continue (_discard 1 (_record_corruption header_error p)) []
    | Ok h => drain_frame h (set_pending (Some h) p)
    end.

Definition drain_body (p : Parser) : loop_step :=
  match _pending_header p with
  | Some h => drain_frame h p
  | None =>
      match find (_buffer p) magic_bytes (_scan_start p) with
      | None =>
          let retained :=
            _partial_magic_suffix_length (_buffer p) magic_bytes (_scan_start p) in
          Break (_discard (buffered_bytes p - retained) p)
      | Some magic_at =>
          drain_header
            (if (_scan_start p <? magic_at)%nat
             then _discard (magic_at - _scan_start p) p else p)
      end
  end.

(** How a call may fail: the [RuntimeError] of line 177, an exception of a decoder that the
    loop does not catch, or a loop that outlives its fuel; none happens on bytes, by
    [feed_simulates]. *)
Inductive feed_failure := NoBoundedProgress | DecoderRaised (exception : string) | OutOfFuel.

Fixpoint drain_loop (fuel : nat) (p : Parser) : result feed_failure (Parser * list FrameT) :=
  match fuel with
  | O => Err OutOfFuel
  | S fuel =>
      match drain_body p with
      | Break p => Ok (p, [])
      | Continue p frames => '(p, more) ← drain_loop fuel p; Ok (p, frames ++ more)
      | Raise exception => Err (DecoderRaised exception)
      end
  end.

Definition _drain (p : Parser) : result feed_failure (Parser * list FrameT) :=
  '(p, frames) ← drain_loop (S (buffered_bytes p)) p;
  Ok (_compact p, frames).

(** ** [feed] *)

(** [self._buffer.extend(...)] and the high-water update (lines 181-186). *)
Definition extend_buffer (data : bytes) (p : Parser) : Parser :=
  let buffer := _buffer p ++ data in
  mkParser buffer (_scan_start p) (_pending_header p) (_resynchronizing p)
    (bytes_received p) (frames_decoded p) (corruption_events p) (header_errors p)
    (checksum_errors p) (payload_errors p) (resynchronizations p) (bytes_discarded p)
    (Nat.max (high_water_mark p) (length buffer - _scan_start p)).

Definition receive (count : nat) (p : Parser) : Parser :=
  mkParser (_buffer p) (_scan_start p) (_pending_header p) (_resynchronizing p)
    (bytes_received p + count) (frames_decoded p) (corruption_events p) (header_errors p)
    (checksum_errors p) (payload_errors p) (resynchronizations p) (bytes_discarded p)
    (high_water_mark p).

(** [incoming]: what is left of the chunk from [position] on. *)
Fixpoint feed_loop (fuel : nat) (incoming : bytes) (p : Parser) :
    result feed_failure (Parser * list FrameT) :=
  match fuel with
  | O => Err OutOfFuel
  | S fuel =>
      '(p, frames) ← _drain p;
      if (0 <? length incoming)%nat then
        if (max_buffered_bytes <=? buffered_bytes p)%nat then Err NoBoundedProgress
        else
          let capacity := (max_buffered_bytes - buffered_bytes p)%nat in
          let n := Nat.min capacity (length incoming) in
          '(p, more) ← feed_loop fuel (drop n incoming) (extend_buffer (take n incoming) p);
          Ok (p, frames ++ more)
      else Ok (p, frames)
  end.

Definition feed (p : Parser) (chunk : bytes) : result feed_failure (Parser * list FrameT) :=
  feed_loop (S (length chunk)) chunk (receive (length chunk) p).

(** A sequence of [feed] calls, frames concatenated. *)
Fixpoint feed_all (p : Parser) (chunks : list bytes) :
    result feed_failure (Parser * list FrameT) :=
  match chunks with
  | [] => Ok (p, [])
  | c :: chunks =>
      '(p, frames) ← feed p c;
      '(p, more) ← feed_all p chunks;
      Ok (p, frames ++ more)
  end.

(** The public operations, for sequences of calls. *)
Inductive parser_op := Feed (chunk : bytes) | ResetSession | Reset.

Definition apply_op (p : Parser) (op : parser_op) : result feed_failure (Parser * list FrameT) :=
  match op with
  | Feed chunk => feed p chunk
  | ResetSession => Ok (reset_session p, [])
  | Reset => Ok (reset p, [])
  end.

Fixpoint apply_ops (p : Parser) (ops : list parser_op) :
    result feed_failure (Parser * list FrameT) :=
  match ops with
  | [] => Ok (p, [])
  | op :: ops =>
      '(p, frames) ← apply_op p op;
      '(p, more) ← apply_ops p ops;
      Ok (p, frames ++ more)
  end.

(** ** The abstract scanner

    One decision at the head of the unconsumed bytes: wait for more, drop one byte
    (with the category of the rejected candidate, if there was one), or deliver a
    frame of [n] bytes.  It has no buffer bound, no header cache and no bulk
    search. *)

Inductive action :=
| Wait
| Drop (why : option category)
| Emit (frame : FrameT) (n : nat).

Definition next_action (l : bytes) : action :=
  if starts_with magic_bytes l then
    if (length l <? header_size)%nat then Wait
    else match decode_header l 0 with
         | Err _ => Drop (Some header_error)
         | Ok h =>
             if (length l <? total_length h)%nat then Wait
             else match decode_frame l 0 h with
                  | Err ChecksumFault => Drop (Some checksum_error)
                  | Err _ => Drop (Some payload_error)
                  | Ok frame => Emit frame (total_length h)
                  end
         end
  else if starts_with l magic_bytes then Wait
  else Drop None.

Inductive event := Dropped (why : option category) | Emitted (frame : FrameT) (n : nat).

Inductive scans : bytes -> list event -> bytes -> Prop :=
| scans_wait l : next_action l = Wait -> scans l [] l
| scans_drop l why es r :
    next_action l = Drop why -> scans (drop 1 l) es r -> scans l (Dropped why :: es) r
| scans_emit l frame n es r :
    next_action l = Emit frame n -> scans (drop n l) es r ->
    scans l (Emitted frame n :: es) r.

Definition frames_of (es : list event) : list FrameT :=
  omap (fun e => match e with Emitted f _ => Some f | Dropped _ => None end) es.

Definition frame_sizes (es : list event) : list nat :=
  omap (fun e => match e with Emitted _ n => Some n | Dropped _ => None end) es.

(** The health counters as a function of the events. *)
Record Health := mkHealth {
  h_resync : bool; h_frames : nat; h_header : nat; h_checksum : nat; h_payload : nat;
  h_resyncs : nat; h_discarded : nat
}.

Definition observe (h : Health) (e : event) : Health :=
  match e with
  | Emitted _ _ =>
      mkHealth false (S (h_frames h)) (h_header h) (h_checksum h) (h_payload h)
        (h_resyncs h) (h_discarded h)
  | Dropped why =>
      mkHealth true (h_frames h)
        (match why with Some header_error => S (h_header h) | _ => h_header h end)
        (match why with Some checksum_error => S (h_checksum h) | _ => h_checksum h end)
        (match why with Some payload_error => S (h_payload h) | _ => h_payload h end)
        (if h_resync h then h_resyncs h else S (h_resyncs h))
        (S (h_discarded h))
  end.

(** What the parser's state says abstractly. *)
Definition unread (p : Parser) : bytes := drop (_scan_start p) (_buffer p).

Definition health (p : Parser) : Health :=
  mkHealth (_resynchronizing p) (frames_decoded p) (header_errors p) (checksum_errors p)
    (payload_errors p) (resynchronizations p) (bytes_discarded p).

(** A complete frame on the wire and what it decodes to. *)
Definition complete_frame (raw : bytes) (frame : FrameT) : Prop :=
  starts_with magic_bytes raw = true /\ (header_size <= length raw)%nat /\
  exists h, decode_header raw 0 = Ok h /\ total_length h = length raw /\
    decode_frame raw 0 h = Ok frame.

Definition wire_bytes (e : event) : nat :=
  match e with Dropped _ => 1 | Emitted _ n => n end%nat.

End Parser.
Arguments Parser : clear implicits.
Arguments action : clear implicits.
Arguments event : clear implicits.
Arguments loop_step : clear implicits.

(** ** Lemmas on the byte searches *)

Lemma starts_with_spec prefix data :
  starts_with prefix data = true <-> exists rest, data = prefix ++ rest.
Proof.
  unfold starts_with. rewrite bool_decide_eq_true. split.
  - intros H. exists (drop (length prefix) data). by rewrite <-H at 1; rewrite take_drop.
  - intros [rest ->]. by apply take_app_exact.
Qed.

Lemma starts_with_app prefix l c :
  starts_with prefix l = true -> starts_with prefix (l ++ c) = true.
Proof. rewrite !starts_with_spec. intros [r ->]. exists (r ++ c). by rewrite app_assoc. Qed.

(** Extending the data cannot undo a mismatch that is already visible. *)
Lemma starts_with_app_inv prefix l c :
  starts_with prefix (l ++ c) = true ->
  starts_with prefix l = true \/ starts_with l prefix = true.
Proof.
  rewrite !starts_with_spec. intros [r Hr].
  destruct (app_eq_inv _ _ _ _ Hr) as [[k [-> _]]|[k [-> _]]]; [left|right]; eauto.
Qed.

Lemma starts_with_prefix_app l c prefix :
  starts_with (l ++ c) prefix = true -> starts_with l prefix = true.
Proof. rewrite !starts_with_spec. intros [r ->]. exists (c ++ r). by rewrite app_assoc. Qed.

Lemma find_in_None pattern view index :
  find_in pattern view index = None ->
  forall k, (k <= length view)%nat -> starts_with pattern (drop k view) = false.
Proof.
  revert index. induction view as [|b view IH]; intros index; cbn [find_in]; case_match eqn:E;
    try discriminate; intros H k Hk.
  - cbn in Hk. by replace k with 0%nat by lia.
  - destruct k as [|k]; [done|]. cbn in *. apply (IH (S index)); [done|lia].
Qed.

Lemma find_in_Some pattern view index at_ :
  find_in pattern view index = Some at_ ->
  exists k, at_ = (index + k)%nat /\ (k <= length view)%nat /\
    starts_with pattern (drop k view) = true /\
    forall j, (j < k)%nat -> starts_with pattern (drop j view) = false.
Proof.
  revert index. induction view as [|b view IH]; intros index; cbn [find_in]; case_match eqn:E;
    try discriminate; intros Hf.
  1,2: injection Hf as <-; exists 0%nat; rewrite drop_0; repeat split; [lia|lia|done|lia].
  destruct (IH _ Hf) as (k & -> & Hk & Hs & Hlt). exists (S k). cbn [length drop].
  repeat split; [lia|lia|done|]. intros [|j] Hj; [done|]. apply Hlt. lia.
Qed.

(** [data.endswith(pattern[:n], start)]: the last [n] bytes open the pattern. *)
Lemma ends_with_prefix data magic start n :
  (n <= length magic)%nat ->
  ends_with data (take n magic) start = true <->
  (n <= length (drop start data))%nat /\
  starts_with (drop (length (drop start data) - n) (drop start data)) magic = true.
Proof.
  intros Hn. unfold ends_with, starts_with. set (v := drop start data).
  rewrite length_take_le by lia. rewrite andb_true_iff, Nat.leb_le, !bool_decide_eq_true.
  split; intros [H1 H2]; (split; [done|]).
  - rewrite H2. by rewrite length_take_le by lia.
  - rewrite <-H2. do 2 f_equal. rewrite length_drop. lia.
Qed.

Lemma suffix_loop_spec data magic start m :
  (m <= length magic)%nat -> (m <= length (drop start data))%nat ->
  let v := drop start data in
  let r := suffix_loop data magic start m in
  (r <= m)%nat /\ starts_with (drop (length v - r) v) magic = true /\
  forall n, (r < n <= m)%nat -> starts_with (drop (length v - n) v) magic = false.
Proof.
  intros Hm Hv. cbn zeta. induction m as [|m IH]; cbn [suffix_loop].
  - split; [lia|]. split; [|lia]. rewrite Nat.sub_0_r, drop_all. by destruct magic.
  - destruct (ends_with data (take (S m) magic) start) eqn:E.
    + apply ends_with_prefix in E as [_ E]; [|lia]. repeat split; [lia|done|lia].
    + destruct IH as (IH1 & IH2 & IH3); [lia|lia|]. repeat split; [lia|done|].
      intros n Hn. destruct (decide (n = S m)) as [->|]; [|apply IH3; lia].
      apply not_true_iff_false. intros Hs. apply not_true_iff_false in E. apply E.
      apply ends_with_prefix; [lia|]. split; [lia|done].
Qed.

(** ** The scanner *)

Section ScannerFacts.
Context {HeaderT FrameT : Type} `{L : !FrameCodecLaws (C : FrameCodec HeaderT FrameT)}.
Implicit Types (l c r : bytes) (es : list (event FrameT)) (p : Parser HeaderT).

Lemma magic_length : (1 <= length magic_bytes)%nat.
Proof. pose proof magic_nonempty. destruct magic_bytes; [done|cbn; lia]. Qed.

Lemma decode_header_at data offset :
  (offset + header_size <= length data)%nat ->
  decode_header data offset = decode_header (drop offset data) 0.
Proof.
  intros. rewrite (decode_header_local data offset) by done.
  rewrite (decode_header_local (drop offset data) 0) by len. by rewrite drop_0.
Qed.

Lemma decode_header_app l c :
  (header_size <= length l)%nat -> decode_header (l ++ c) 0 = decode_header l 0.
Proof.
  intros. rewrite (decode_header_local (l ++ c) 0) by len.
  rewrite (decode_header_local l 0) by len. by rewrite !drop_0, take_app_le by lia.
Qed.

Lemma decode_frame_at data offset h :
  decode_header (drop offset data) 0 = Ok h -> (offset + total_length h <= length data)%nat ->
  decode_frame data offset h = decode_frame (drop offset data) 0 h.
Proof.
  intros Hd Hl. pose proof (total_length_bounds _ _ _ Hd).
  rewrite (decode_frame_local data offset) by (try rewrite decode_header_at by lia; done).
  rewrite (decode_frame_local (drop offset data) 0) by (done || len). by rewrite drop_0.
Qed.

Lemma decode_frame_app l c h :
  decode_header l 0 = Ok h -> (total_length h <= length l)%nat -> decode_frame (l ++ c) 0 h = decode_frame l 0 h.
Proof.
  intros Hd Hl. pose proof (total_length_bounds _ _ _ Hd).
  rewrite (decode_frame_local (l ++ c) 0) by (try rewrite decode_header_app by lia; done || len).
  rewrite (decode_frame_local l 0) by (done || len). by rewrite !drop_0, take_app_le by lia.
Qed.

(** A decision other than waiting does not change when more bytes arrive. *)
Lemma next_action_app l c : next_action l <> Wait -> next_action (l ++ c) = next_action l.
Proof.
  unfold next_action. destruct (starts_with magic_bytes l) eqn:Hm.
  - rewrite (starts_with_app _ _ _ Hm).
    destruct (length l <? header_size)%nat eqn:Hh; [done|]. apply Nat.ltb_ge in Hh.
    rewrite (proj2 (Nat.ltb_ge _ _)) by len. rewrite decode_header_app by done.
    destruct (decode_header l 0) as [h|?] eqn:Hd; [|done].
    destruct (length l <? total_length h)%nat eqn:Ht; [done|]. apply Nat.ltb_ge in Ht.
    rewrite (proj2 (Nat.ltb_ge _ _)) by len. by rewrite decode_frame_app by done.
  - destruct (starts_with l magic_bytes) eqn:Hp; [done|]. intros _.
    destruct (starts_with magic_bytes (l ++ c)) eqn:Hmc.
    { apply starts_with_app_inv in Hmc as [?|?]; congruence. }
    destruct (starts_with (l ++ c) magic_bytes) eqn:Hpc; [|done].
    apply starts_with_prefix_app in Hpc. congruence.
Qed.

Lemma next_action_Wait_bound l : next_action l = Wait -> (length l < max_frame_bytes)%nat.
Proof.
  pose proof header_holds_magic. pose proof frame_holds_header. pose proof magic_length.
  unfold next_action. destruct (starts_with magic_bytes l) eqn:Hm.
  - case_match eqn:Hh; [apply Nat.ltb_lt in Hh; lia|]. case_match eqn:Hd; [|done].
    apply total_length_bounds in Hd. case_match eqn:Ht; [apply Nat.ltb_lt in Ht; lia|].
    by repeat case_match.
  - destruct (starts_with l magic_bytes) eqn:Hp; [|done]. intros _.
    apply starts_with_spec in Hp as [rest Hr].
    destruct rest as [|x rest]; [|apply (f_equal length) in Hr; len].
    rewrite app_nil_r in Hr. rewrite Hr in Hm.
    exfalso. apply not_true_iff_false in Hm. apply Hm. apply starts_with_spec.
    exists []. by rewrite app_nil_r.
Qed.

Lemma next_action_Drop_nonempty l why : next_action l = Drop why -> l <> [].
Proof.
  intros Hd ->. unfold next_action in Hd. pose proof magic_length.
  destruct (starts_with magic_bytes []) eqn:Hm; [|by destruct (magic_bytes)].
  apply starts_with_spec in Hm as [rest Hr]. destruct magic_bytes; [cbn in *; lia|done].
Qed.

Lemma next_action_Emit_bounds l f n :
  next_action l = Emit f n -> (1 <= n <= length l)%nat.
Proof.
  pose proof header_holds_magic. pose proof magic_length. unfold next_action.
  repeat (case_match; try discriminate). intros [= <- <-].
  match goal with Hd : decode_header _ _ = Ok _ |- _ =>
    apply total_length_bounds in Hd end.
  match goal with Ht : (_ <? total_length _)%nat = false |- _ => apply Nat.ltb_ge in Ht end.
  lia.
Qed.

(** What is emitted is a complete frame of its own bytes. *)
Lemma next_action_Emit_complete l f n : next_action l = Emit f n -> complete_frame (take n l) f.
Proof.
  intros H. pose proof header_holds_magic. pose proof (next_action_Emit_bounds l f n H) as Hb.
  unfold next_action in H. destruct (starts_with magic_bytes l) eqn:Hm; [|by destruct (starts_with l magic_bytes)].
  destruct (Nat.ltb_spec (length l) header_size) as [|Hs]; [done|].
  destruct (decode_header l 0) as [h|?] eqn:Hd; [|done]. pose proof (total_length_bounds _ _ _ Hd) as Ht.
  destruct (Nat.ltb_spec (length l) (total_length h)) as [|Hl]; [done|].
  destruct (decode_frame l 0 h) as [g|[]] eqn:Hf; try done. injection H as <- <-.
  assert (Hlen : length (take (total_length h) l) = total_length h) by len.
  assert (Hd' : decode_header (take (total_length h) l) 0 = Ok h).
  { rewrite <-Hd. rewrite <-(take_drop (total_length h) l) at 2. by rewrite decode_header_app by lia. }
  split; [|split; [lia|]].
  - apply starts_with_spec in Hm as [rest ->]. apply starts_with_spec.
    exists (take (total_length h - length magic_bytes) rest). rewrite take_app. f_equal. apply take_ge. lia.
  - exists h. split; [done|]. split; [done|]. rewrite <-Hf. rewrite <-(take_drop (total_length h) l) at 2.
    by rewrite (decode_frame_app _ _ _ Hd') by lia.
Qed.

Lemma scans_det l es r es' r' :
  scans l es r -> scans l es' r' -> es = es' /\ r = r'.
Proof.
  intros H. revert es' r'.
  induction H as [l Hw|l why es r Ha _ IH|l f n es r Ha _ IH]; intros es' r' H'; inversion H';
    subst; try congruence; [done| |]; rewrite Ha in *; simplify_eq.
  - by edestruct IH as [-> ->].
  - by edestruct IH as [-> ->].
Qed.

(** The scanner always comes to rest. *)
Lemma scans_total l : exists es r, scans l es r.
Proof.
  induction l as [l IH] using (induction_ltof1 _ (@length Z)). unfold ltof in IH.
  destruct (next_action l) as [|why|f n] eqn:Ha.
  - eexists _, _. by constructor.
  - pose proof (next_action_Drop_nonempty _ _ Ha).
    destruct (IH (drop 1 l)) as (es & r & Hs); [rewrite length_drop; destruct l; [done|cbn; lia]|].
    eexists _, _. by eapply scans_drop.
  - pose proof (next_action_Emit_bounds _ _ _ Ha).
    destruct (IH (drop n l)) as (es & r & Hs); [len|]. eexists _, _. by eapply scans_emit.
Qed.

Lemma scans_rest l es r : scans l es r -> next_action r = Wait.
Proof. by induction 1. Qed.

(** Scanning resumes where it stopped: the point of chunking invariance. *)
Lemma scans_app l es r c es' r' :
  scans l es r -> scans (r ++ c) es' r' -> scans (l ++ c) (es ++ es') r'.
Proof.
  intros H. revert es' r'.
  induction H as [l Hw|l why es r Ha _ IH|l f n es r Ha _ IH]; intros es' r' H'; [done| |].
  - eapply scans_drop; [by rewrite next_action_app, Ha by (by rewrite Ha)|].
    pose proof (next_action_Drop_nonempty _ _ Ha).
    rewrite drop_app_le by (destruct l; [done|cbn; lia]). by apply IH.
  - eapply scans_emit; [by rewrite next_action_app, Ha by (by rewrite Ha)|].
    pose proof (next_action_Emit_bounds _ _ _ Ha). rewrite drop_app_le by lia. by apply IH.
Qed.

(** Every byte is delivered in a frame, dropped, or still unread. *)
Lemma scans_emitted l es r :
  scans l es r ->
  (exists k, r = drop k l) /\
  Forall (fun f => exists k n, next_action (drop k l) = Emit f n) (frames_of es).
Proof.
  assert (Hshift : forall (fs : list FrameT) m l,
    Forall (fun f => exists k n, next_action (drop k (drop m l)) = Emit f n) fs ->
    Forall (fun f => exists k n, next_action (drop k l) = Emit f n) fs).
  { intros fs m l' H. eapply Forall_impl; [exact H|]. intros f (k & n & Hf). exists (m + k)%nat, n.
    by rewrite <-drop_drop. }
  induction 1 as [l Hw|l why es r Ha _ [[k ->] IH]|l f n es r Ha _ [[k ->] IH]].
  - split; [by exists 0%nat|constructor].
  - split; [exists (1 + k)%nat; apply drop_drop|]. by apply Hshift in IH.
  - split; [exists (n + k)%nat; apply drop_drop|]. constructor; [by exists 0%nat, n|by apply Hshift in IH].
Qed.

(** Every delivered frame is a stretch of the scanned bytes. *)
Lemma scans_sound l es r :
  scans l es r ->
  Forall (fun f => exists pre raw post, l = pre ++ raw ++ post /\ complete_frame raw f) (frames_of es).
Proof.
  intros H. eapply Forall_impl; [exact (proj2 (scans_emitted l es r H))|]. intros f (k & n & He).
  exists (take k l), (take n (drop k l)), (drop n (drop k l)).
  split; [by rewrite !take_drop|by apply next_action_Emit_complete].
Qed.

(** Where the first delivered frame lies. *)
Lemma scans_first_frame l es r :
  scans l es r ->
  frames_of es = [] \/
  exists k f n es', next_action (drop k l) = Emit f n /\ (k + n <= length l)%nat /\
    scans (drop (k + n) l) es' r /\ frames_of es = f :: frames_of es' /\
    forall j, (j < k)%nat -> exists why, next_action (drop j l) = Drop why.
Proof.
  induction 1 as [l Hw|l why es r Ha _ IH|l f n es r Ha Hs _]; [by left| |].
  - destruct IH as [IH|(k & f & n & es' & He & Hl & Hs & Hf & Hd)]; [by left|right].
    rewrite length_drop in Hl. pose proof (next_action_Emit_bounds _ _ _ He) as Hb.
    rewrite !length_drop in Hb. rewrite drop_drop in He, Hs.
    exists (S k), f, n, es'. split; [done|]. split; [lia|]. split; [done|]. split; [done|].
    intros [|j] Hj; [by exists why|]. destruct (Hd j) as [w Hw]; [lia|]. exists w. by rewrite drop_drop in Hw.
  - right. pose proof (next_action_Emit_bounds _ _ _ Ha) as Hb.
    exists 0%nat, f, n, es. split; [done|]. split; [lia|]. split; [done|]. split; [done|]. lia.
Qed.

Lemma scans_frame_count m l es r :
  (forall l f n, next_action (FrameT:=FrameT) l = Emit f n -> (m <= n)%nat) ->
  scans l es r -> (m * length (frames_of es) <= length l)%nat.
Proof.
  intros Hm. induction 1 as [l Hw|l why es r Ha _ IH|l f n es r Ha _ IH]; unfold frames_of in *; cbn [omap list_omap length] in *.
  - lia.
  - rewrite length_drop in IH. lia.
  - pose proof (next_action_Emit_bounds _ _ _ Ha) as Hb. apply Hm in Ha. rewrite length_drop in IH. lia.
Qed.

Lemma scans_bytes l es r :
  scans l es r -> length l = (sum_list (wire_bytes <$> es) + length r)%nat.
Proof.
  induction 1 as [l Hw|l why es r Ha _ IH|l f n es r Ha _ IH]; cbn; [done| |].
  - pose proof (next_action_Drop_nonempty _ _ Ha). rewrite length_drop in IH.
    destruct l; [done|]. cbn [length] in *. lia.
  - pose proof (next_action_Emit_bounds _ _ _ Ha). rewrite length_drop in IH. lia.
Qed.

(** A run of positions that cannot start a frame is dropped byte by byte. *)
Lemma scans_skip k l es r :
  (k <= length l)%nat ->
  (forall j, (j < k)%nat -> next_action (drop j l) = Drop None) ->
  scans (drop k l) es r -> scans l (replicate k (Dropped None) ++ es) r.
Proof.
  revert l. induction k as [|k IH]; intros l Hk Hj Hs; [by rewrite drop_0 in Hs|].
  cbn [replicate app]. eapply scans_drop; [apply (Hj 0%nat); lia|]. apply IH.
  - len.
  - intros j Hlt. rewrite drop_drop. apply Hj. lia.
  - by rewrite drop_drop.
Qed.

Lemma no_magic_drops l j :
  starts_with magic_bytes (drop j l) = false ->
  starts_with (drop j l) magic_bytes = false -> next_action (drop j l) = Drop None.
Proof. intros H1 H2. unfold next_action. by rewrite H1, H2. Qed.

End ScannerFacts.

(** ** The loop implements the scanner *)

Section Refinement.
Context {HeaderT FrameT : Type} `{L : !FrameCodecLaws (C : FrameCodec HeaderT FrameT)}.
Implicit Types (l c r : bytes) (es : list (event FrameT)) (p : Parser HeaderT).

(** The buffer holds bytes, the cached header is the one at the scan position, and the
    corruption total is the sum of its categories. *)
Record parser_ok (p : Parser HeaderT) : Prop := {
  ok_bytes : wf_bytes (_buffer p);
  ok_scan : (_scan_start p <= length (_buffer p))%nat;
  ok_pending h : _pending_header p = Some h ->
    starts_with magic_bytes (unread p) = true /\
    (header_size <= length (unread p))%nat /\ decode_header (unread p) 0 = Ok h;
  ok_corruption : corruption_events p = (header_errors p + checksum_errors p + payload_errors p)%nat
}.

Lemma length_unread p : length (unread p) = buffered_bytes p.
Proof. unfold unread, buffered_bytes. len. Qed.

(** [simulates p es p']: the events [es] lead from [p] to [p']. *)
Record simulates (p : Parser HeaderT) (es : list (event FrameT)) (p' : Parser HeaderT) : Prop := {
  sim_ok : parser_ok p';
  sim_health : health p' = fold_left observe es (health p);
  sim_received : bytes_received p' = bytes_received p;
  sim_high_water : high_water_mark p' = high_water_mark p;
  sim_scans es' r : scans (unread p') es' r -> scans (unread p) (es ++ es') r
}.

Lemma simulates_refl p : parser_ok p -> simulates p [] p.
Proof. by split. Qed.

Lemma simulates_trans p1 es1 p2 es2 p3 :
  simulates p1 es1 p2 -> simulates p2 es2 p3 -> simulates p1 (es1 ++ es2) p3.
Proof.
  intros [] []. split; [done| |congruence|congruence|].
  - rewrite fold_left_app. congruence.
  - intros es' r Hs. rewrite <-app_assoc. auto.
Qed.

Lemma observe_replicate k (h : Health) :
  (0 < k)%nat ->
  fold_left observe (replicate k (@Dropped FrameT None)) h
  = mkHealth true (h_frames h) (h_header h) (h_checksum h) (h_payload h)
      (if h_resync h then h_resyncs h else S (h_resyncs h)) (h_discarded h + k).
Proof.
  revert h. induction k as [|k IH]; intros h Hk; [lia|]. cbn [replicate fold_left].
  destruct k as [|k]; [cbn; f_equal; lia|]. rewrite IH by lia. cbn. f_equal. lia.
Qed.

Lemma unread_discard k p :
  (k <= length (unread p))%nat -> unread (_discard k p) = drop k (unread p).
Proof.
  intros Hk. unfold _discard, unread. destruct k; cbn; [by rewrite drop_0|].
  by rewrite drop_drop.
Qed.

(** A bulk discard is a run of single drops. *)
Lemma discard_skip k p :
  parser_ok p -> (k <= length (unread p))%nat ->
  (forall j, (j < k)%nat -> next_action (FrameT:=FrameT) (drop j (unread p)) = Drop None) ->
  simulates p (replicate k (Dropped None)) (_discard k p).
Proof.
  intros Hp Hk Hj. pose proof (unread_discard k p Hk) as Hu.
  destruct k as [|k]; [by apply simulates_refl|].
  split.
  - destruct Hp as [Hbytes Hs Hh Hc]. rewrite length_unread in Hk. unfold buffered_bytes in Hk.
    split; cbn; [done|lia|discriminate|done].
  - by rewrite observe_replicate by lia.
  - done.
  - done.
  - intros es' r Hsc. apply scans_skip; [done|done|by rewrite <-Hu].
Qed.

Lemma reject_simulates cat p :
  parser_ok p -> next_action (FrameT:=FrameT) (unread p) = Drop (Some cat) ->
  simulates p [Dropped (Some cat)] (_discard 1 (_record_corruption cat p)).
Proof.
  intros Hp Ha.
  assert (Hlen : (1 <= length (unread p))%nat).
  { apply next_action_Drop_nonempty in Ha. destruct (unread p); [done|cbn; lia]. }
  split.
  - destruct Hp as [Hbytes Hs Hh Hc]. rewrite length_unread in Hlen. unfold buffered_bytes in Hlen.
    split; cbn; [done|lia|discriminate|destruct cat; lia].
  - destruct cat; cbn; unfold health; cbn; f_equal; lia.
  - done.
  - done.
  - intros es' r Hsc. eapply scans_drop; [done|].
    rewrite unread_discard in Hsc by done. done.
Qed.

Lemma accept_simulates h frame p :
  parser_ok p ->
  next_action (unread p) = Emit frame (total_length h) ->
  simulates p [Emitted frame (total_length h)] (accept_frame h p).
Proof.
  intros Hp Ha. pose proof (next_action_Emit_bounds _ _ _ Ha) as Hb.
  split; [| done..|].
  - destruct Hp as [Hbytes Hs Hh Hc]. rewrite length_unread in Hb. unfold buffered_bytes in Hb.
    split; cbn; [done|lia|discriminate|done].
  - intros es' r Hsc. eapply scans_emit; [done|].
    unfold unread in *. cbn in Hsc. by rewrite drop_drop.
Qed.

Definition step_simulates (p : Parser HeaderT) (s : loop_step HeaderT FrameT) : Prop :=
  match s with
  | Break p' => exists es, simulates p es p' /\ frames_of es = [] /\
      next_action (FrameT:=FrameT) (unread p') = Wait
  | Continue p' frames => exists es, simulates p es p' /\ frames = frames_of es /\
      (length (unread p') < length (unread p))%nat
  | Raise _ => False
  end.

Lemma step_simulates_trans p es p' s :
  simulates p es p' -> frames_of es = [] -> (length (unread p') <= length (unread p))%nat ->
  step_simulates p' s -> step_simulates p s.
Proof.
  intros Hs Hf Hl. unfold frames_of in *.
  destruct s as [q|q frames|?]; [..|done]; intros (es' & Hs' & Hf' & H'); exists (es ++ es');
    (split; [by eapply simulates_trans|]); unfold frames_of in *;
    rewrite omap_app, Hf; [done|]. split; [done|lia].
Qed.

Lemma frames_of_dropped k : frames_of (replicate k (@Dropped FrameT None)) = [].
Proof. induction k; done. Qed.

Lemma drop1_lt l : l <> [] -> (length (drop 1 l) < length l)%nat.
Proof. intros. rewrite length_drop. destruct l; [done|cbn; lia]. Qed.

Lemma reject_step cat p :
  parser_ok p -> next_action (FrameT:=FrameT) (unread p) = Drop (Some cat) ->
  step_simulates p (Continue (_discard 1 (_record_corruption cat p)) []).
Proof.
  intros Hp Ha. exists [Dropped (Some cat)]. split; [by apply reject_simulates|].
  split; [done|]. apply next_action_Drop_nonempty in Ha.
  rewrite unread_discard; [by apply drop1_lt|].
  change (unread (_record_corruption cat p)) with (unread p).
  destruct (unread p); [done|cbn; lia].
Qed.

Lemma drain_frame_step h p :
  parser_ok p -> _pending_header p = Some h -> step_simulates p (drain_frame h p).
Proof.
  intros Hp Hh. destruct (ok_pending _ Hp _ Hh) as (Hm & Hl & Hd).
  assert (Hact : next_action (FrameT:=FrameT) (unread p) =
    if (length (unread p) <? total_length h)%nat then Wait
    else match decode_frame (unread p) 0 h with
         | Err ChecksumFault => Drop (Some checksum_error)
         | Err _ => Drop (Some payload_error)
         | Ok frame => Emit frame (total_length h)
         end).
  { unfold next_action. rewrite Hm. rewrite (proj2 (Nat.ltb_ge _ _)) by done. by rewrite Hd. }
  unfold drain_frame. rewrite <-length_unread.
  destruct (length (unread p) <? total_length h)%nat eqn:Ht.
  { exists []. split; [by apply simulates_refl|done]. }
  apply Nat.ltb_ge in Ht. pose proof (ok_scan _ Hp).
  pose proof (fun x => decode_frame_caught (unread p) 0 h x (wf_bytes_drop _ _ (ok_bytes _ Hp)) Hd Ht) as Hcaught.
  rewrite (decode_frame_at (_buffer p)) by (first [exact Hd | rewrite length_unread in Ht; unfold buffered_bytes in Ht;
    pose proof (total_length_bounds _ _ _ Hd); pose proof header_holds_magic; pose proof magic_length; lia]).
  fold (unread p). destruct (decode_frame (unread p) 0 h) as [frame|[| |x]].
  - exists [Emitted frame (total_length h)]. split; [by apply accept_simulates|].
    split; [done|]. apply next_action_Emit_bounds in Hact.
    unfold accept_frame, unread in *. cbn. len.
  - by apply reject_step.
  - by apply reject_step.
  - by destruct (Hcaught x).
Qed.

Lemma drain_header_step p :
  parser_ok p -> starts_with magic_bytes (unread p) = true ->
  step_simulates p (drain_header p).
Proof.
  intros Hp Hm. unfold drain_header. rewrite <-length_unread.
  destruct (length (unread p) <? header_size)%nat eqn:Hl.
  { exists []. split; [by apply simulates_refl|]. split; [done|].
    unfold next_action. by rewrite Hm, Hl. }
  pose proof Hl as Hl'. apply Nat.ltb_ge in Hl'. pose proof (ok_scan _ Hp).
  rewrite decode_header_at by (rewrite length_unread in Hl'; unfold buffered_bytes in Hl'; lia).
  fold (unread p). pose proof (fun x => decode_header_caught (unread p) 0 x ltac:(lia)) as Hcaught.
  destruct (decode_header (unread p) 0) as [h|fault] eqn:Hd.
  - set (q := set_pending (Some h) p).
    assert (Hq : parser_ok q).
    { destruct Hp as [? ? ? Hc]. split; [done|done| |done]. intros h' [= <-]. done. }
    apply (step_simulates_trans p [] q); [by split|done|done|].
    by apply drain_frame_step.
  - assert (Hreject : step_simulates p (Continue (_discard 1 (_record_corruption header_error p)) [])).
    { apply reject_step; [done|]. unfold next_action. by rewrite Hm, Hl, Hd. }
    destruct fault as [| |x]; [exact Hreject..|by destruct (Hcaught x)].
Qed.

Lemma find_Some p magic_at :
  parser_ok p -> find (_buffer p) magic_bytes (_scan_start p) = Some magic_at ->
  exists k, magic_at = (_scan_start p + k)%nat /\ (k <= length (unread p))%nat /\
    starts_with magic_bytes (drop k (unread p)) = true /\
    forall j, (j < k)%nat -> next_action (FrameT:=FrameT) (drop j (unread p)) = Drop None.
Proof.
  intros Hp Hf. apply find_in_Some in Hf as (k & -> & Hk & Hm & Hj). exists k.
  split; [done|]. split; [done|]. split; [done|]. intros j Hjk. apply no_magic_drops; [by apply Hj|].
  apply not_true_iff_false. intros Hs. apply starts_with_spec in Hs as [x Hx].
  apply starts_with_spec in Hm as [y Hy]. fold (unread p) in *.
  apply (f_equal length) in Hx. apply (f_equal length) in Hy. len.
Qed.

(** Without the magic, everything but the longest suffix that opens it is noise. *)
Lemma find_None p :
  find (_buffer p) magic_bytes (_scan_start p) = None ->
  let retained := _partial_magic_suffix_length (_buffer p) magic_bytes (_scan_start p) in
  let k := (length (unread p) - retained)%nat in
  next_action (FrameT:=FrameT) (drop k (unread p)) = Wait /\
  forall j, (j < k)%nat -> next_action (FrameT:=FrameT) (drop j (unread p)) = Drop None.
Proof.
  intros Hf. cbn zeta. unfold _partial_magic_suffix_length.
  pose proof (find_in_None _ _ _ Hf) as Hno. fold (unread p) in Hno.
  set (m := Nat.min _ _). assert (Hm1 : (m <= length magic_bytes - 1)%nat) by lia.
  assert (Hm2 : (m <= length (unread p))%nat) by (unfold unread; len).
  pose proof magic_length.
  destruct (suffix_loop_spec (_buffer p) magic_bytes (_scan_start p) m) as (Hr & Hs & Hlt);
    [lia|done|]. fold (unread p) in *.
  set (ret := suffix_loop _ _ _ m) in *. split.
  - unfold next_action. by rewrite Hno, Hs by lia.
  - intros j Hj. apply no_magic_drops; [apply Hno; lia|].
    destruct (decide (length (unread p) - j <= m)%nat).
    + replace j with (length (unread p) - (length (unread p) - j))%nat by lia.
      apply Hlt. lia.
    + apply not_true_iff_false. intros Hx. apply starts_with_spec in Hx as [y Hy].
      destruct (decide (length (unread p) - j <= length magic_bytes - 1)%nat).
      { unfold unread in *. len. }
      pose proof (Hno j ltac:(lia)) as Hn. apply not_true_iff_false in Hn. apply Hn.
      apply starts_with_spec. assert (y = []) as ->.
      { apply nil_length_inv. apply (f_equal length) in Hy. len. }
      exists []. rewrite Hy. by rewrite !app_nil_r.
Qed.

Lemma drain_body_step p : parser_ok p -> step_simulates p (drain_body p).
Proof.
  intros Hp. unfold drain_body. destruct (_pending_header p) as [h|] eqn:Hh.
  { by apply drain_frame_step. }
  destruct (find _ _ _) as [magic_at|] eqn:Hf.
  - apply find_Some in Hf as (k & -> & Hk & Hm & Hj); [|done].
    replace (_scan_start p + k - _scan_start p)%nat with k by lia.
    assert (Hgo : (if (_scan_start p <? _scan_start p + k)%nat then _discard k p else p)
                  = _discard k p).
    { case_match eqn:E; [done|]. apply Nat.ltb_ge in E. by replace k with 0%nat by lia. }
    rewrite Hgo. pose proof (discard_skip k p Hp Hk Hj) as Hs.
    eapply step_simulates_trans; [exact Hs|apply frames_of_dropped| |].
    + rewrite unread_discard by done. len.
    + apply drain_header_step; [apply Hs|]. by rewrite unread_discard.
  - apply find_None in Hf as [Hw Hj]. rewrite <-length_unread. set (k := (_ - _)%nat) in *.
    assert (Hk : (k <= length (unread p))%nat) by lia.
    exists (replicate k (Dropped None)). split; [by apply discard_skip|].
    split; [apply frames_of_dropped|]. by rewrite unread_discard.
Qed.

(** Fuel [S buffered] is enough: every continued iteration consumes a byte. *)
Lemma drain_loop_simulates fuel p :
  parser_ok p -> (length (unread p) < fuel)%nat ->
  exists p' es, drain_loop fuel p = Ok (p', frames_of es) /\ simulates p es p' /\
    next_action (FrameT:=FrameT) (unread p') = Wait.
Proof.
  revert p. induction fuel as [|fuel IH]; intros p Hp Hf; [lia|]. cbn [drain_loop].
  pose proof (drain_body_step p Hp) as Hb.
  destruct (drain_body p) as [p'|p' frames|?]; [..|done].
  - destruct Hb as (es & Hs & <- & Hw). eauto.
  - destruct Hb as (es & Hs & -> & Hlt).
    destruct (IH p') as (q & es' & -> & Hs' & Hw); [by apply Hs|lia|]. cbn [mbind result_bind].
    exists q, (es ++ es'). unfold frames_of. rewrite omap_app.
    split; [done|]. split; [by eapply simulates_trans|done].
Qed.

Lemma unread_compact p : unread (_compact p) = unread p.
Proof. unfold _compact, unread. case_match; cbn; [done|by rewrite drop_0]. Qed.

Lemma compact_scan p : _scan_start (_compact p) = 0%nat.
Proof. unfold _compact. case_match eqn:E; [by apply Nat.eqb_eq in E|done]. Qed.

Lemma compact_simulates p : parser_ok p -> simulates p [] (_compact p).
Proof.
  intros Hp. split.
  - destruct Hp as [Hbytes Hs Hh Hc]. split; [unfold _compact; case_match; [done|by apply wf_bytes_drop]|rewrite compact_scan; lia| |unfold _compact; by case_match].
    rewrite unread_compact. unfold _compact. by case_match.
  - unfold _compact. by case_match.
  - unfold _compact. by case_match.
  - unfold _compact. by case_match.
  - by rewrite unread_compact.
Qed.

(** A drained parser holds less than one frame, at the start of its buffer. *)
Lemma drain_simulates p :
  parser_ok p ->
  exists p' es, _drain p = Ok (p', frames_of es) /\ simulates p es p' /\
    _scan_start p' = 0%nat /\ scans (unread p) es (unread p') /\
    (buffered_bytes p' < max_buffered_bytes)%nat.
Proof.
  intros Hp. destruct (drain_loop_simulates (S (buffered_bytes p)) p Hp) as (q & es & Hd & Hs & Hw).
  { rewrite length_unread. lia. }
  assert (Hs' : simulates p es (_compact q)).
  { rewrite <-(app_nil_r es). eapply simulates_trans; [done|]. apply compact_simulates, Hs. }
  exists (_compact q), es. unfold _drain. rewrite Hd. cbn [mbind result_bind]. split; [done|]. split; [done|].
  split; [apply compact_scan|]. rewrite <-length_unread, unread_compact. split.
  - rewrite <-(app_nil_r es). apply Hs. by constructor.
  - apply next_action_Wait_bound in Hw. unfold max_buffered_bytes.
    pose proof magic_length. lia.
Qed.

(** ** [feed] *)

(** What holds between calls: the buffer is compacted and within its bound. *)
Record parser_inv (p : Parser HeaderT) : Prop := {
  inv_ok : parser_ok p;
  inv_compact : _scan_start p = 0%nat;
  inv_rest : next_action (FrameT:=FrameT) (unread p) = Wait;
  inv_buffer : (buffered_bytes p < max_buffered_bytes)%nat;
  inv_high_water : (buffered_bytes p <= high_water_mark p <= max_buffered_bytes)%nat
}.

Lemma unread_extend data p :
  parser_ok p -> unread (extend_buffer data p) = unread p ++ data.
Proof. intros Hp. unfold unread. cbn. by rewrite drop_app_le by apply Hp. Qed.

Lemma extend_ok data p : wf_bytes data -> parser_ok p -> parser_ok (extend_buffer data p).
Proof.
  intros Hdata Hp. pose proof (unread_extend data p Hp) as Hu. destruct Hp as [Hbytes Hs Hh Hc].
  split; [by apply wf_bytes_app|cbn; len| |done]. intros h Hpend. destruct (Hh h Hpend) as (Hm & Hl & Hd).
  rewrite Hu. split; [by apply starts_with_app|]. split; [len|]. by rewrite decode_header_app.
Qed.

Lemma fold_observe_app es1 es2 (h : Health) :
  fold_left (@observe FrameT) (es1 ++ es2) h = fold_left observe es2 (fold_left observe es1 h).
Proof. apply fold_left_app. Qed.

Lemma feed_loop_simulates fuel incoming p :
  parser_ok p -> wf_bytes incoming -> (length incoming < fuel)%nat -> (high_water_mark p <= max_buffered_bytes)%nat ->
  (buffered_bytes p <= high_water_mark p)%nat ->
  exists p' es, feed_loop fuel incoming p = Ok (p', frames_of es) /\ parser_inv p' /\
    scans (unread p ++ incoming) es (unread p') /\
    health p' = fold_left observe es (health p) /\ bytes_received p' = bytes_received p /\
    (high_water_mark p <= high_water_mark p')%nat.
Proof.
  revert incoming p. induction fuel as [|fuel IH]; intros incoming p Hp Hbytes Hf Hw Hb; [lia|].
  cbn [feed_loop]. destruct (drain_simulates p Hp) as (q & es & -> & Hs & Hz & Hsc & Hlt).
  cbn [mbind result_bind]. pose proof (sim_high_water _ _ _ Hs) as Hwq.
  pose proof (scans_bytes _ _ _ Hsc) as Hlen. rewrite !length_unread in Hlen.
  destruct (0 <? length incoming)%nat eqn:Hin.
  - apply Nat.ltb_lt in Hin. rewrite (proj2 (Nat.leb_gt _ _)) by done.
    set (n := Nat.min _ _).
    assert (Hq : parser_ok (extend_buffer (take n incoming) q)) by (apply extend_ok; [by apply wf_bytes_take|apply Hs]).
    assert (Hqb : buffered_bytes (extend_buffer (take n incoming) q)
                  = (buffered_bytes q + n)%nat).
    { rewrite <-!length_unread, unread_extend by apply Hs. len. }
    assert (Hqw : high_water_mark (extend_buffer (take n incoming) q)
                  = Nat.max (high_water_mark q) (buffered_bytes q + n)) by (rewrite <-Hqb; done).
    destruct (IH (drop n incoming) (extend_buffer (take n incoming) q))
      as (p' & es' & -> & Hinv & Hsc' & Hh & Hr & Hhw); [done|by apply wf_bytes_drop|len|lia|lia|].
    rewrite unread_extend, <-app_assoc, take_drop in Hsc' by apply Hs.
    exists p', (es ++ es'). unfold frames_of. rewrite omap_app. cbn [mbind result_bind].
    split; [done|]. split; [done|]. split; [by eapply scans_app|].
    split; [|split; [by rewrite Hr; apply Hs|lia]].
    rewrite Hh, fold_observe_app. f_equal. apply Hs.
  - apply Nat.ltb_ge in Hin. destruct incoming; [|cbn in Hin; lia]. rewrite app_nil_r.
    exists q, es. split; [done|]. split; [split; [apply Hs|done|by eapply scans_rest|done|lia]|].
    split; [done|]. split; [apply Hs|]. split; [apply Hs|lia].
Qed.

Lemma feed_simulates p chunk :
  parser_inv p -> wf_bytes chunk ->
  exists p' es, feed p chunk = Ok (p', frames_of es) /\ parser_inv p' /\
    scans (unread p ++ chunk) es (unread p') /\
    health p' = fold_left observe es (health p) /\
    bytes_received p' = (bytes_received p + length chunk)%nat /\
    (high_water_mark p <= high_water_mark p')%nat.
Proof.
  intros Hp Hw. unfold feed. destruct (feed_loop_simulates (S (length chunk)) chunk
    (receive (length chunk) p)) as (p' & es & H); [|done|lia|exact (proj2 (inv_high_water _ Hp))|
      exact (proj1 (inv_high_water _ Hp))|].
  - destruct Hp as [[] ? ? ? ?]. by split.
  - exists p', es. exact H.
Qed.

Lemma new_parser_inv : parser_inv (new_parser (HeaderT:=HeaderT)).
Proof.
  pose proof frame_holds_header. pose proof header_holds_magic. pose proof magic_length.
  split; [split; cbn; [by constructor|lia|discriminate|lia]|done| | |];
    [|unfold max_buffered_bytes, buffered_bytes; cbn; lia..].
  unfold next_action, unread. cbn [new_parser _scan_start _buffer]. rewrite drop_0.
  rewrite (proj2 (starts_with_spec [] _)) by eauto.
  destruct (starts_with magic_bytes []) eqn:Hm; [|done].
  apply starts_with_spec in Hm as [x Hx]. apply (f_equal length) in Hx. len.
Qed.

Lemma init_parser_new : init_parser (HeaderT:=HeaderT) = Some new_parser.
Proof.
  pose proof frame_holds_header. pose proof header_holds_magic. pose proof magic_length.
  unfold init_parser.
  replace (length magic_bytes =? 0)%nat with false by (symmetry; apply Nat.eqb_neq; lia).
  replace (header_size <? length magic_bytes)%nat with false by (symmetry; apply Nat.ltb_ge; lia).
  by replace (max_frame_bytes <? header_size)%nat with false by (symmetry; apply Nat.ltb_ge; lia).
Qed.

Lemma feed_all_simulates chunks p :
  parser_inv p -> wf_bytes (concat chunks) ->
  exists p' es, feed_all p chunks = Ok (p', frames_of es) /\ parser_inv p' /\
    scans (unread p ++ concat chunks) es (unread p') /\
    health p' = fold_left observe es (health p) /\
    bytes_received p' = (bytes_received p + length (concat chunks))%nat.
Proof.
  revert p. induction chunks as [|c chunks IH]; intros p Hp Hw; cbn [feed_all concat] in *.
  - exists p, []. split; [done|]. split; [done|]. rewrite app_nil_r. split; [|cbn; split; [done|lia]].
    constructor. apply Hp.
  - apply wf_bytes_app in Hw as [Hc Hw]. destruct (feed_simulates p c Hp Hc) as (q & es & -> & Hq & Hsc & Hh & Hr & _).
    destruct (IH q Hq Hw) as (p' & es' & Hfa & Hp' & Hsc' & Hh' & Hr').
    cbn [mbind result_bind]. rewrite Hfa. cbn [mbind result_bind].
    exists p', (es ++ es'). unfold frames_of. rewrite omap_app. split; [done|]. split; [done|].
    split; [rewrite app_assoc; by eapply scans_app|].
    split; [by rewrite Hh', Hh, fold_observe_app|]. rewrite length_app. lia.
Qed.

Lemma reset_session_inv p : parser_inv p -> parser_inv (reset_session p).
Proof.
  intros [[_ Hs Hp Hc] Hz Hw Hb Hh]. pose proof new_parser_inv as [? ? Hw0 ? ?].
  split; [split; cbn; [by constructor|lia|discriminate|done]|done|exact Hw0|done|].
  unfold buffered_bytes in *. cbn. lia.
Qed.

Lemma reset_inv p : parser_inv p -> parser_inv (reset p).
Proof. intros _. apply new_parser_inv. Qed.

(** The operation is given bytes. *)
Definition wf_op (op : parser_op) : Prop := match op with Feed chunk => wf_bytes chunk | _ => True end.

Lemma apply_op_inv op p :
  parser_inv p -> wf_op op -> exists p' frames, apply_op (FrameT:=FrameT) p op = Ok (p', frames) /\ parser_inv p'.
Proof.
  intros Hp Hw. destruct op as [chunk| |]; cbn [apply_op].
  - destruct (feed_simulates p chunk Hp Hw) as (p' & es & -> & Hp' & _). eauto.
  - eauto using reset_session_inv.
  - eauto using reset_inv.
Qed.

Lemma apply_ops_inv ops p :
  parser_inv p -> Forall wf_op ops -> exists p' frames, apply_ops (FrameT:=FrameT) p ops = Ok (p', frames) /\ parser_inv p'.
Proof.
  revert p. induction ops as [|op ops IH]; intros p Hp Hw; cbn [apply_ops]; [eauto|].
  apply Forall_cons in Hw as [Ho Hw]. destruct (apply_op_inv op p Hp Ho) as (q & fs & -> & Hq).
  destruct (IH q Hq Hw) as (p' & fs' & Heq & Hp').
  cbn [mbind result_bind]. rewrite Heq. cbn [mbind result_bind]. eauto.
Qed.

(** What the events account for. *)
Lemma observe_counts es (h : Health) :
  h_frames (fold_left observe es h) = (h_frames h + length (frames_of es))%nat /\
  (h_discarded (fold_left observe es h) + sum_list (frame_sizes es))%nat
  = (h_discarded h + sum_list (wire_bytes <$> es))%nat.
Proof.
  revert h. induction es as [|e es IH]; intros h; [cbn; lia|].
  rewrite fold_left_cons. destruct (IH (observe h e)) as [-> IH2].
  unfold frames_of, frame_sizes in *.
  destruct e; clear IH; csimpl in *; lia.
Qed.

Lemma frame_sizes_bounds l es r :
  scans l es r -> Forall (fun n => header_size <= n <= max_frame_bytes)%nat (frame_sizes es) /\
  length (frame_sizes es) = length (frames_of es).
Proof.
  induction 1 as [l Hw|l why es r Ha _ IH|l f n es r Ha _ IH]; [done|exact IH|].
  destruct IH as [IH1 IH2]. unfold frame_sizes, frames_of in *. cbn [omap list_omap length].
  split; [|by f_equal]. constructor; [|done]. clear -Ha L. unfold next_action in Ha.
  repeat (case_match; try discriminate). injection Ha as <- <-. by eapply total_length_bounds.
Qed.

Lemma complete_frame_action raw frame :
  complete_frame raw frame -> next_action raw = Emit frame (length raw).
Proof.
  intros (Hm & Hl & h & Hd & Ht & Hf). unfold next_action.
  rewrite Hm, (proj2 (Nat.ltb_ge _ _)), Hd by done. by rewrite Ht, Nat.ltb_irrefl, Hf.
Qed.

Lemma scans_frames raws fs :
  Forall2 complete_frame raws fs ->
  exists es, scans (concat raws) es [] /\ frames_of es = fs /\
    Forall (fun e => is_Some (match e with Emitted _ n => Some n | _ => None end)) es.
Proof.
  induction 1 as [|raw f raws fs Hrf _ (es & Hs & Hf & He)].
  - exists []. split; [|done]. constructor. apply (inv_rest _ new_parser_inv).
  - apply complete_frame_action in Hrf. exists (Emitted f (length raw) :: es).
    split; [|split; [unfold frames_of in *; cbn; by rewrite Hf|by constructor]].
    cbn [concat]. eapply scans_emit.
    + by rewrite next_action_app, Hrf by (by rewrite Hrf).
    + by rewrite drop_app_exact.
Qed.

Lemma observe_emitted es (h : Health) :
  Forall (fun e => is_Some (match e with Emitted _ n => Some n | @Dropped _ _ => None end)) es ->
  fold_left (@observe FrameT) es h =
  mkHealth (match es with [] => h_resync h | _ => false end) (h_frames h + length (frames_of es))
    (h_header h) (h_checksum h) (h_payload h) (h_resyncs h) (h_discarded h).
Proof.
  intros He. revert h. induction He as [|e es Hi _ IH]; intros h; [destruct h; cbn; f_equal; lia|].
  destruct e as [|f n]; [by destruct Hi|]. rewrite fold_left_cons, IH.
  unfold frames_of. cbn. f_equal; [by destruct es|lia].
Qed.

(** A stream of complete frames, however chunked, is delivered whole. *)
Lemma frames_delivered raws fs chunks :
  wf_bytes (concat chunks) -> concat chunks = concat raws -> Forall2 complete_frame raws fs ->
  exists p, feed_all new_parser chunks = Ok (p, fs) /\ bytes_discarded p = 0%nat /\
    corruption_events p = 0%nat /\ buffered_bytes p = 0%nat.
Proof.
  intros Hw Hc Hf. destruct (feed_all_simulates chunks new_parser new_parser_inv Hw) as (p & es & Hfa & Hp & Hs & Hh & _).
  destruct (scans_frames raws fs Hf) as (es' & Hs' & Hfr & Hem).
  cbn [app unread new_parser _buffer _scan_start] in Hs. rewrite Hc in Hs.
  destruct (scans_det _ _ _ _ _ Hs Hs') as [-> Hu]. rewrite Hfr in Hfa. exists p. split; [done|].
  rewrite observe_emitted in Hh by done. rewrite (ok_corruption _ (inv_ok _ Hp)), <-length_unread, Hu.
  unfold health in Hh. cbn in Hh. injection Hh. intros. split; [done|]. split; [lia|done].
Qed.

(** ** Claims *)

(** C4. For every protocol that satisfies the framing interface and every way a stream
    of byte values is cut into chunks, feeding them to a new bounded parser never raises,
    and the delivered frames, every health counter and the retained bytes are those
    of the unbounded one-byte-at-a-time scanner on the whole stream. *)
Theorem feed_implements_scanner (chunks : list bytes) (Hw : wf_bytes (concat chunks)) :
  exists p es, feed_all new_parser chunks = Ok (p, frames_of es) /\
    scans (concat chunks) es (unread p) /\
    health p = fold_left observe es (mkHealth false 0 0 0 0 0 0) /\
    corruption_events p = (header_errors p + checksum_errors p + payload_errors p)%nat /\
    bytes_received p = length (concat chunks).
Proof.
  destruct (feed_all_simulates chunks new_parser new_parser_inv Hw)
    as (p & es & Hf & Hp & Hs & Hh & Hr).
  exists p, es. repeat (split; [done|]). split; [apply Hp|done].
Qed.

(** Chunk boundaries do not matter: two ways of cutting the same stream deliver
    the same frames, leave the same bytes pending and the same counters. *)
Theorem chunking_invariance (chunks1 chunks2 : list bytes)
    (Hw : wf_bytes (concat chunks1)) (Hsame : concat chunks1 = concat chunks2) :
  exists p1 p2 frames,
    feed_all new_parser chunks1 = Ok (p1, frames) /\
    feed_all new_parser chunks2 = Ok (p2, frames) /\
    unread p1 = unread p2 /\ health p1 = health p2 /\
    corruption_events p1 = corruption_events p2 /\ bytes_received p1 = bytes_received p2.
Proof.
  destruct (feed_all_simulates chunks1 new_parser new_parser_inv Hw)
    as (p1 & es1 & Hf1 & Hp1 & Hs1 & Hh1 & Hr1).
  destruct (feed_all_simulates chunks2 new_parser new_parser_inv ltac:(by rewrite <-Hsame))
    as (p2 & es2 & Hf2 & Hp2 & Hs2 & Hh2 & Hr2).
  cbn [app unread new_parser _buffer _scan_start] in Hs1, Hs2. rewrite Hsame in Hs1, Hr1.
  destruct (scans_det _ _ _ _ _ Hs1 Hs2) as [<- Hu].
  exists p1, p2, (frames_of es1). do 3 (split; [done|]).
  assert (Hh : health p1 = health p2) by congruence.
  split; [done|]. split; [|congruence].
  rewrite (ok_corruption _ (inv_ok _ Hp1)), (ok_corruption _ (inv_ok _ Hp2)).
  unfold health in Hh. congruence.
Qed.

(** Memory is bounded and nothing fails: after any sequence of feeds and resets,
    started on a new parser, the retained bytes and the high-water mark stay within
    [max_buffered_bytes], and the corruption total is the sum of its categories. *)
Theorem parser_bounded (ops : list parser_op) (Hw : Forall wf_op ops) :
  exists p frames, apply_ops (FrameT:=FrameT) new_parser ops = Ok (p, frames) /\
    (buffered_bytes p <= high_water_mark p)%nat /\
    (high_water_mark p <= max_buffered_bytes)%nat /\
    (buffered_bytes p < max_frame_bytes)%nat /\
    corruption_events p = (header_errors p + checksum_errors p + payload_errors p)%nat.
Proof.
  destruct (apply_ops_inv ops new_parser new_parser_inv Hw) as (p & frames & Heq & Hp).
  exists p, frames. split; [done|]. split; [apply Hp|]. split; [apply Hp|].
  split; [|apply Hp]. rewrite <-length_unread. apply next_action_Wait_bound, Hp.
Qed.

(** Every received byte is accounted for exactly once: it belongs to a delivered
    frame, was discarded, or is still buffered; each frame's size is within the
    protocol's limits and [frames_decoded] counts the frames. *)
Theorem bytes_conserved (chunks : list bytes) (Hw : wf_bytes (concat chunks)) :
  exists p frames sizes, feed_all new_parser chunks = Ok (p, frames) /\
    length sizes = length frames /\ frames_decoded p = length frames /\
    Forall (fun n => header_size <= n <= max_frame_bytes)%nat sizes /\
    bytes_received p = (sum_list sizes + bytes_discarded p + buffered_bytes p)%nat.
Proof.
  destruct (feed_all_simulates chunks new_parser new_parser_inv Hw)
    as (p & es & Hf & Hp & Hs & Hh & Hr).
  destruct (frame_sizes_bounds _ _ _ Hs) as [Hb Hl].
  destruct (observe_counts es (health (new_parser (HeaderT:=HeaderT)))) as [Hc1 Hc2].
  rewrite <-Hh in Hc1, Hc2. cbn in Hc1, Hc2.
  pose proof (scans_bytes _ _ _ Hs) as Hsum. rewrite length_unread in Hsum. cbn in Hsum, Hr.
  exists p, (frames_of es), (frame_sizes es). repeat (split; [done|]). lia.
Qed.

(** C33. Recovery: after noise in which no position opens the magic, every valid frame
    is delivered whatever the chunking; exactly the noise is discarded, in one
    loss-of-alignment episode, with no corruption reported and nothing retained. *)
Theorem recovers_after_noise (noise : bytes) (raws : list bytes) (frames : list FrameT)
    (chunks : list bytes) (Hw : wf_bytes (concat chunks))
    (Hstream : concat chunks = noise ++ concat raws)
    (Hraws : raws <> []) (Hframes : Forall2 complete_frame raws frames)
    (Hnoise : forall j, (j < length noise)%nat ->
       starts_with magic_bytes (drop j (noise ++ concat raws)) = false) :
  exists p, feed_all new_parser chunks = Ok (p, frames) /\
    bytes_discarded p = length noise /\
    resynchronizations p = (if decide (noise = []) then 0 else 1)%nat /\
    corruption_events p = 0%nat /\ buffered_bytes p = 0%nat /\ _resynchronizing p = false.
Proof.
  destruct (feed_all_simulates chunks new_parser new_parser_inv Hw)
    as (p & es & Hf & Hp & Hs & Hh & Hr).
  destruct (scans_frames raws frames Hframes) as (es' & Hs' & Hfr & Hem).
  cbn [app unread new_parser _buffer _scan_start] in Hs. rewrite Hstream in Hs.
  assert (Hscan : scans (noise ++ concat raws) (replicate (length noise) (Dropped None) ++ es') []).
  { apply scans_skip; [len| |by rewrite drop_app_exact]. intros j Hj.
    apply no_magic_drops; [by apply Hnoise|].
    apply not_true_iff_false. intros Hx. apply starts_with_spec in Hx as [y Hy].
    destruct Hframes as [|raw f raws' fs (Hm & _) _]; [done|].
    apply starts_with_spec in Hm as [z ->]. apply (f_equal length) in Hy.
    cbn [concat] in Hy. rewrite !length_app, length_drop, !length_app in Hy. lia. }
  destruct (scans_det _ _ _ _ _ Hs Hscan) as [-> Hu].
  unfold frames_of in Hf. rewrite omap_app in Hf. fold (frames_of es') in Hf.
  fold (frames_of (replicate (length noise) (@Dropped FrameT None))) in Hf.
  rewrite frames_of_dropped, Hfr in Hf. exists p. split; [done|].
  assert (Hne : es' <> []).
  { intros ->. destruct Hframes; [done|]. cbn in Hfr. discriminate. }
  rewrite fold_observe_app, observe_emitted in Hh by done.
  rewrite (ok_corruption _ (inv_ok _ Hp)), <-length_unread, Hu.
  destruct es' as [|e es']; [done|].
  destruct noise as [|b noise]; [|rewrite observe_replicate in Hh by (cbn; lia)];
    unfold health in Hh; cbn in Hh; injection Hh; intros; cbn [length];
    (split; [done|]); (split; [by case_decide|]); (split; [lia|]); done.
Qed.

(** A session reset forgets only wire state: it keeps the lifetime counters, and
    what is fed afterwards is decoded exactly as by a new parser. *)
Theorem reset_session_fresh (ops : list parser_op) (chunks : list bytes) (Hw : Forall wf_op ops) (Hc : wf_bytes (concat chunks)) :
  exists p frames p1 p2 more,
    apply_ops (FrameT:=FrameT) new_parser ops = Ok (p, frames) /\
    feed_all (reset_session p) chunks = Ok (p1, more) /\
    feed_all new_parser chunks = Ok (p2, more) /\
    unread p1 = unread p2 /\
    frames_decoded p1 = (frames_decoded p + frames_decoded p2)%nat /\
    bytes_received p1 = (bytes_received p + bytes_received p2)%nat.
Proof.
  destruct (apply_ops_inv ops new_parser new_parser_inv Hw) as (p & frames & Heq & Hp).
  destruct (feed_all_simulates chunks _ (reset_session_inv p Hp) Hc)
    as (p1 & es1 & Hf1 & Hp1 & Hs1 & Hh1 & Hr1).
  destruct (feed_all_simulates chunks new_parser new_parser_inv Hc)
    as (p2 & es2 & Hf2 & Hp2 & Hs2 & Hh2 & Hr2).
  destruct (scans_det _ _ _ _ _ Hs1 Hs2) as [<- Hu].
  exists p, frames, p1, p2, (frames_of es1). repeat (split; [done|]).
  pose proof (proj1 (observe_counts es1 (health (reset_session p)))) as Hc1.
  pose proof (proj1 (observe_counts es1 (health (new_parser (HeaderT:=HeaderT))))) as Hc2.
  rewrite <-Hh1 in Hc1. rewrite <-Hh2 in Hc2. cbn in Hc1, Hc2, Hr1, Hr2. lia.
Qed.

End Refinement.
