(* ===== verification/V3Constants.v ===== *)
(** * Public protocol-v3 constants ([_generated/protocol_v3_constants.py]).

    The schema's scalar bounds, enumerations, record formats and wire tables, under
    the names the Python modules use ([c.FrameKind.ADC_DATA] is
    [FrameKind.ADC_DATA]).  Bit-flag enumerations ([IntFlag]) keep unknown bits, so
    they are plain integers with named bits. *)

From S2P Require Import Prelude PyStruct.

(** [bytes.fromhex] *)
Definition hex_digit (c : Ascii.ascii) : Z :=
  let k := Z.of_nat (Ascii.nat_of_ascii c) in if k <? 58 then k - 48 else k - 87.

Fixpoint fromhex (s : string) : bytes :=
  match s with
  | String a (String b s) => (16 * hex_digit a + hex_digit b) :: fromhex s
  | _ => []
  end.

(** ** Scalars *)

Definition MAGIC : Z := 3735928559.
Definition PROTOCOL_VERSION : Z := 3.
Definition HEADER_SIZE : Z := 44.
Definition TRAILER_SIZE : Z := 4.
Definition STATUS_DIAGNOSTIC_COUNT : Z := 37.
Definition MIN_FRAME_BYTES : Z := 48.
Definition MAX_COMMAND_PAYLOAD_BYTES : Z := 20.
Definition MAX_COMMAND_FRAME_BYTES : Z := 68.
Definition MAX_CONTROL_FRAME_BYTES : Z := 2048.
Definition DATA_PREFIX_BYTES : Z := 12.
Definition MAX_LOGICAL_PAYLOAD_BYTES : Z := 4048.
Definition MAX_ENCODED_SAMPLE_BYTES : Z := 4048.
Definition MAX_DATA_FRAME_BYTES : Z := 4108.
Definition MAX_ADC_PAIRS : Z := 1012.
Definition MAX_GPIO8_SAMPLES : Z := 4048.
Definition MAX_GPIO16_SAMPLES : Z := 2024.
Definition MAX_CPU_PROFILES : Z := 2.
Definition MAX_RATE_PROFILES : Z := 1.
Definition MAX_CONFIGURATION_TUPLES : Z := 64.
Definition TIMESTAMP_HZ : Z := 8000000.
Definition ADC_PAIR_RATE_HZ : Z := 1000000.
Definition GPIO_SAMPLE_RATE_HZ : Z := 1000000.
Definition ADC_PAIR_PERIOD_TICKS : Z := 8.
Definition GPIO_SAMPLE_PERIOD_TICKS : Z := 8.
Definition ADC1_PHASE_TICKS : Z := 4.
Definition RESPONSE_PREFIX_PAYLOAD_SIZE : Z := 4.
Definition SETTINGS_PAYLOAD_SIZE : Z := 20.
Definition CPU_PROFILE_INFO_PAYLOAD_SIZE : Z := 24.
Definition RATE_PROFILE_INFO_PAYLOAD_SIZE : Z := 20.
Definition SETTINGS_RESPONSE_PAYLOAD_SIZE : Z := 48.
Definition INFO_RESPONSE_PAYLOAD_SIZE : Z := 132.
Definition INFO_RESPONSE_HARDWARE_SERIAL_COUNT : Z := 32.
Definition INFO_RESPONSE_FIRMWARE_VERSION_COUNT : Z := 16.
Definition INFO_RESPONSE_BUILD_ID_COUNT : Z := 48.
Definition CAPABILITIES_RESPONSE_PAYLOAD_SIZE : Z := 1404.
Definition STATUS_RESPONSE_PAYLOAD_SIZE : Z := 384.
Definition STOP_RESPONSE_PAYLOAD_SIZE : Z := 16.
Definition ERROR_RESPONSE_PAYLOAD_SIZE : Z := 8.

(** ** Enumerations *)

Module FrameKind.
Inductive FrameKind := ADC_DATA | GPIO_DATA | INFO_REQUEST | INFO_RESPONSE |
  CONFIGURE_REQUEST | CONFIGURE_RESPONSE | START_REQUEST | START_RESPONSE |
  GET_STATUS_REQUEST | GET_STATUS_RESPONSE | STOP_REQUEST | STOP_RESPONSE |
  GET_CAPABILITIES_REQUEST | GET_CAPABILITIES_RESPONSE | GET_SETTINGS_REQUEST |
  GET_SETTINGS_RESPONSE | ERROR_RESPONSE.
#[global] Instance FrameKind_eq_dec : EqDecision FrameKind.
Proof. solve_decision. Defined.
#[global] Instance FrameKind_enum : IntEnum FrameKind.
Proof.
  refine {|
    int_of a := match a with
      | ADC_DATA => 1 | GPIO_DATA => 2 | INFO_REQUEST => 16 | INFO_RESPONSE => 144
      | CONFIGURE_REQUEST => 17 | CONFIGURE_RESPONSE => 145 | START_REQUEST => 18
      | START_RESPONSE => 146 | GET_STATUS_REQUEST => 19 | GET_STATUS_RESPONSE => 147
      | STOP_REQUEST => 20 | STOP_RESPONSE => 148 | GET_CAPABILITIES_REQUEST => 28
      | GET_CAPABILITIES_RESPONSE => 156 | GET_SETTINGS_REQUEST => 29
      | GET_SETTINGS_RESPONSE => 157 | ERROR_RESPONSE => 159 end;
    members := [ADC_DATA; GPIO_DATA; INFO_REQUEST; INFO_RESPONSE; CONFIGURE_REQUEST;
      CONFIGURE_RESPONSE; START_REQUEST; START_RESPONSE; GET_STATUS_REQUEST;
      GET_STATUS_RESPONSE; STOP_REQUEST; STOP_RESPONSE; GET_CAPABILITIES_REQUEST;
      GET_CAPABILITIES_RESPONSE; GET_SETTINGS_REQUEST; GET_SETTINGS_RESPONSE;
      ERROR_RESPONSE] |}; enum_laws.
Defined.
End FrameKind.
Abbreviation FrameKind := FrameKind.FrameKind.

Module CommandKind.
Inductive CommandKind := INFO | CONFIGURE | START | GET_STATUS | STOP | GET_CAPABILITIES
  | GET_SETTINGS.
#[global] Instance CommandKind_eq_dec : EqDecision CommandKind.
Proof. solve_decision. Defined.
#[global] Instance CommandKind_enum : IntEnum CommandKind.
Proof.
  refine {|
    int_of a := match a with
      | INFO => 16 | CONFIGURE => 17 | START => 18 | GET_STATUS => 19 | STOP => 20
      | GET_CAPABILITIES => 28 | GET_SETTINGS => 29 end;
    members := [INFO; CONFIGURE; START; GET_STATUS; STOP; GET_CAPABILITIES;
      GET_SETTINGS] |}; enum_laws.
Defined.
End CommandKind.
Abbreviation CommandKind := CommandKind.CommandKind.

Module FrameFlag.
Definition SYNTHETIC : Z := 1.
Definition GAP_BEFORE : Z := 2.
Definition EPOCH_START : Z := 4.
Definition OVERRUN_BEFORE : Z := 8.
Definition RESPONSE_ERROR : Z := 32768.
End FrameFlag.

Module ChecksumAlgorithm.
Inductive ChecksumAlgorithm := ADLER32.
#[global] Instance ChecksumAlgorithm_eq_dec : EqDecision ChecksumAlgorithm.
Proof. solve_decision. Defined.
#[global] Instance ChecksumAlgorithm_enum : IntEnum ChecksumAlgorithm.
Proof.
  refine {|
    int_of a := match a with
      | ADLER32 => 1 end;
    members := [ADLER32] |}; enum_laws.
Defined.
End ChecksumAlgorithm.
Abbreviation ChecksumAlgorithm := ChecksumAlgorithm.ChecksumAlgorithm.

Module ResponseStatus.
Inductive ResponseStatus := OK | ERROR.
#[global] Instance ResponseStatus_eq_dec : EqDecision ResponseStatus.
Proof. solve_decision. Defined.
#[global] Instance ResponseStatus_enum : IntEnum ResponseStatus.
Proof.
  refine {|
    int_of a := match a with
      | OK => 0 | ERROR => 1 end;
    members := [OK; ERROR] |}; enum_laws.
Defined.
End ResponseStatus.
Abbreviation ResponseStatus := ResponseStatus.ResponseStatus.

Module ErrorCode.
Inductive ErrorCode := OK | UNSUPPORTED_VERSION | UNKNOWN_FRAME_KIND | INVALID_FLAGS |
  INVALID_LENGTH | INVALID_PAYLOAD | UNSUPPORTED_CHECKSUM | INVALID_STATE |
  UNSUPPORTED_CONFIGURATION | INVALID_REQUEST_ID | BUSY | INTERNAL_ERROR |
  CHECKSUM_MISMATCH.
#[global] Instance ErrorCode_eq_dec : EqDecision ErrorCode.
Proof. solve_decision. Defined.
#[global] Instance ErrorCode_enum : IntEnum ErrorCode.
Proof.
  refine {|
    int_of a := match a with
      | OK => 0 | UNSUPPORTED_VERSION => 1 | UNKNOWN_FRAME_KIND => 2
      | INVALID_FLAGS => 3 | INVALID_LENGTH => 4 | INVALID_PAYLOAD => 5
      | UNSUPPORTED_CHECKSUM => 6 | INVALID_STATE => 7
      | UNSUPPORTED_CONFIGURATION => 8 | INVALID_REQUEST_ID => 9 | BUSY => 10
      | INTERNAL_ERROR => 11 | CHECKSUM_MISMATCH => 12 end;
    members := [OK; UNSUPPORTED_VERSION; UNKNOWN_FRAME_KIND; INVALID_FLAGS;
      INVALID_LENGTH; INVALID_PAYLOAD; UNSUPPORTED_CHECKSUM; INVALID_STATE;
      UNSUPPORTED_CONFIGURATION; INVALID_REQUEST_ID; BUSY; INTERNAL_ERROR;
      CHECKSUM_MISMATCH] |}; enum_laws.
Defined.
End ErrorCode.
Abbreviation ErrorCode := ErrorCode.ErrorCode.

Module StreamMask.
Definition ADC : Z := 1.
Definition GPIO : Z := 2.
End StreamMask.

Module Source.
Inductive Source := HARDWARE | SYNTHETIC.
#[global] Instance Source_eq_dec : EqDecision Source.
Proof. solve_decision. Defined.
#[global] Instance Source_enum : IntEnum Source.
Proof.
  refine {|
    int_of a := match a with
      | HARDWARE => 0 | SYNTHETIC => 1 end;
    members := [HARDWARE; SYNTHETIC] |}; enum_laws.
Defined.
End Source.
Abbreviation Source := Source.Source.

Module AuxBankMode.
Inductive AuxBankMode := DISABLED | INPUT.
#[global] Instance AuxBankMode_eq_dec : EqDecision AuxBankMode.
Proof. solve_decision. Defined.
#[global] Instance AuxBankMode_enum : IntEnum AuxBankMode.
Proof.
  refine {|
    int_of a := match a with
      | DISABLED => 0 | INPUT => 1 end;
    members := [DISABLED; INPUT] |}; enum_laws.
Defined.
End AuxBankMode.
Abbreviation AuxBankMode := AuxBankMode.AuxBankMode.

Module DeviceState.
Inductive DeviceState := STOPPED | RUNNING | DRAINING.
#[global] Instance DeviceState_eq_dec : EqDecision DeviceState.
Proof. solve_decision. Defined.
#[global] Instance DeviceState_enum : IntEnum DeviceState.
Proof.
  refine {|
    int_of a := match a with
      | STOPPED => 1 | RUNNING => 3 | DRAINING => 4 end;
    members := [STOPPED; RUNNING; DRAINING] |}; enum_laws.
Defined.
End DeviceState.
Abbreviation DeviceState := DeviceState.DeviceState.

Module BoardId.
Inductive BoardId := TEENSY_40.
#[global] Instance BoardId_eq_dec : EqDecision BoardId.
Proof. solve_decision. Defined.
#[global] Instance BoardId_enum : IntEnum BoardId.
Proof.
  refine {|
    int_of a := match a with
      | TEENSY_40 => 1 end;
    members := [TEENSY_40] |}; enum_laws.
Defined.
End BoardId.
Abbreviation BoardId := BoardId.BoardId.

Module McuId.
Inductive McuId := IMXRT1062.
#[global] Instance McuId_eq_dec : EqDecision McuId.
Proof. solve_decision. Defined.
#[global] Instance McuId_enum : IntEnum McuId.
Proof.
  refine {|
    int_of a := match a with
      | IMXRT1062 => 1 end;
    members := [IMXRT1062] |}; enum_laws.
Defined.
End McuId.
Abbreviation McuId := McuId.McuId.

Module CpuProfile.
Inductive CpuProfile := CPU_600MHZ | CPU_450MHZ.
#[global] Instance CpuProfile_eq_dec : EqDecision CpuProfile.
Proof. solve_decision. Defined.
#[global] Instance CpuProfile_enum : IntEnum CpuProfile.
Proof.
  refine {|
    int_of a := match a with
      | CPU_600MHZ => 1 | CPU_450MHZ => 2 end;
    members := [CPU_600MHZ; CPU_450MHZ] |}; enum_laws.
Defined.
End CpuProfile.
Abbreviation CpuProfile := CpuProfile.CpuProfile.

Module RateProfile.
Inductive RateProfile := ADC_1MHZ_GPIO_1MHZ.
#[global] Instance RateProfile_eq_dec : EqDecision RateProfile.
Proof. solve_decision. Defined.
#[global] Instance RateProfile_enum : IntEnum RateProfile.
Proof.
  refine {|
    int_of a := match a with
      | ADC_1MHZ_GPIO_1MHZ => 4 end;
    members := [ADC_1MHZ_GPIO_1MHZ] |}; enum_laws.
Defined.
End RateProfile.
Abbreviation RateProfile := RateProfile.RateProfile.

Module GpioPolicy.
Inductive GpioPolicy := RAW | RLE_AUTO.
#[global] Instance GpioPolicy_eq_dec : EqDecision GpioPolicy.
Proof. solve_decision. Defined.
#[global] Instance GpioPolicy_enum : IntEnum GpioPolicy.
Proof.
  refine {|
    int_of a := match a with
      | RAW => 0 | RLE_AUTO => 1 end;
    members := [RAW; RLE_AUTO] |}; enum_laws.
Defined.
End GpioPolicy.
Abbreviation GpioPolicy := GpioPolicy.GpioPolicy.

Module AdcPolicy.
Inductive AdcPolicy := RAW | PACK12.
#[global] Instance AdcPolicy_eq_dec : EqDecision AdcPolicy.
Proof. solve_decision. Defined.
#[global] Instance AdcPolicy_enum : IntEnum AdcPolicy.
Proof.
  refine {|
    int_of a := match a with
      | RAW => 0 | PACK12 => 1 end;
    members := [RAW; PACK12] |}; enum_laws.
Defined.
End AdcPolicy.
Abbreviation AdcPolicy := AdcPolicy.AdcPolicy.

Module Encoding.
Inductive Encoding := RAW | GPIO_RLE | ADC_PACK12.
#[global] Instance Encoding_eq_dec : EqDecision Encoding.
Proof. solve_decision. Defined.
#[global] Instance Encoding_enum : IntEnum Encoding.
Proof.
  refine {|
    int_of a := match a with
      | RAW => 0 | GPIO_RLE => 1 | ADC_PACK12 => 2 end;
    members := [RAW; GPIO_RLE; ADC_PACK12] |}; enum_laws.
Defined.
End Encoding.
Abbreviation Encoding := Encoding.Encoding.

(** ** Record formats *)

Definition HEADER_STRUCT_FORMAT : list fcode :=
  Eval vm_compute in struct_format "<IBBHHBBIIIIIQI".
Definition RESPONSE_PREFIX_STRUCT_FORMAT : list fcode :=
  Eval vm_compute in struct_format "<BBH".
Definition SETTINGS_STRUCT_FORMAT : list fcode :=
  Eval vm_compute in struct_format "<BBBBBBBBBBBBII".
Definition CPU_PROFILE_INFO_STRUCT_FORMAT : list fcode :=
  Eval vm_compute in struct_format "<BBHIIIII".
Definition RATE_PROFILE_INFO_STRUCT_FORMAT : list fcode :=
  Eval vm_compute in struct_format "<BBHIIHHHH".
Definition CONFIGURE_REQUEST_STRUCT_FORMAT : list fcode :=
  Eval vm_compute in struct_format "<20s".
Definition SETTINGS_RESPONSE_STRUCT_FORMAT : list fcode :=
  Eval vm_compute in struct_format "<BBH20s24s".
Definition INFO_RESPONSE_STRUCT_FORMAT : list fcode :=
  Eval vm_compute in struct_format "<BBHHHBBBB32s16s48s24s".
Definition CAPABILITIES_RESPONSE_STRUCT_FORMAT : list fcode :=
  Eval vm_compute in struct_format "<BBHBBBBIIIIIII20s48s20s1280s".
Definition STATUS_RESPONSE_STRUCT_FORMAT : list fcode :=
  Eval vm_compute in struct_format "<BBHBBHIIQQQQQQQQQQQQQQQQQQQQQQQQQQQQQQQQQQQQQQQQQQQQQQ".
Definition STOP_RESPONSE_STRUCT_FORMAT : list fcode :=
  Eval vm_compute in struct_format "<BBHBBHII".
Definition ERROR_RESPONSE_STRUCT_FORMAT : list fcode :=
  Eval vm_compute in struct_format "<BBHBBH".
Definition DATA_PREFIX_STRUCT_FORMAT : list fcode :=
  Eval vm_compute in struct_format "<BBHII".
Definition ADC_RAW_PAIR_STRUCT_FORMAT : list fcode :=
  Eval vm_compute in struct_format "<HH".
Definition ADC_PACK12_PAIR_STRUCT_FORMAT : list fcode :=
  Eval vm_compute in struct_format "<BBB".
Definition GPIO8_RLE_RECORD_STRUCT_FORMAT : list fcode :=
  Eval vm_compute in struct_format "<HB".
Definition GPIO16_RLE_RECORD_STRUCT_FORMAT : list fcode :=
  Eval vm_compute in struct_format "<HH".

(** ** Wire tables *)

Definition CPU_PROFILES : list bytes := Eval vm_compute in
  map fromhex [
    "010000000046c32380d1f00860343c0200366e0100127a00";
    "020000008074d21a80d1f00860343c0200366e0100127a00"]%string.

Definition RATE_PROFILES : list bytes := Eval vm_compute in
  map fromhex [
    "0400000040420f0040420f000800080004000000"]%string.

Definition SELECTABLE_CONFIGURATIONS : list bytes := Eval vm_compute in
  map fromhex [
    "010001030104000800000c0040420f0040420f00";
    "010101030104000800000c0040420f0040420f00";
    "020001030104000800000c0040420f0040420f00";
    "020101030104000800000c0040420f0040420f00";
    "030001030104000800000c0040420f0040420f00";
    "030101030104000800000c0040420f0040420f00";
    "010001030104000800010c0040420f0040420f00";
    "010101030104000800010c0040420f0040420f00";
    "020001030104000800010c0040420f0040420f00";
    "020101030104000800010c0040420f0040420f00";
    "030001030104000800010c0040420f0040420f00";
    "030101030104000800010c0040420f0040420f00";
    "010001030104000801000c0040420f0040420f00";
    "010101030104000801000c0040420f0040420f00";
    "020001030104000801000c0040420f0040420f00";
    "020101030104000801000c0040420f0040420f00";
    "030001030104000801000c0040420f0040420f00";
    "030101030104000801000c0040420f0040420f00";
    "010001030104000801010c0040420f0040420f00";
    "010101030104000801010c0040420f0040420f00";
    "020001030104000801010c0040420f0040420f00";
    "020101030104000801010c0040420f0040420f00";
    "030001030104000801010c0040420f0040420f00";
    "030101030104000801010c0040420f0040420f00";
    "010001030104011000000c0040420f0040420f00";
    "010101030104011000000c0040420f0040420f00";
    "020001030104011000000c0040420f0040420f00";
    "020101030104011000000c0040420f0040420f00";
    "030001030104011000000c0040420f0040420f00";
    "030101030104011000000c0040420f0040420f00";
    "010001030104011000010c0040420f0040420f00";
    "010101030104011000010c0040420f0040420f00";
    "020001030104011000010c0040420f0040420f00";
    "020101030104011000010c0040420f0040420f00";
    "030001030104011000010c0040420f0040420f00";
    "030101030104011000010c0040420f0040420f00";
    "010001030104011001000c0040420f0040420f00";
    "010101030104011001000c0040420f0040420f00";
    "020001030104011001000c0040420f0040420f00";
    "020101030104011001000c0040420f0040420f00";
    "030001030104011001000c0040420f0040420f00";
    "030101030104011001000c0040420f0040420f00";
    "010001030104011001010c0040420f0040420f00";
    "010101030104011001010c0040420f0040420f00";
    "020001030104011001010c0040420f0040420f00";
    "020101030104011001010c0040420f0040420f00";
    "030001030104011001010c0040420f0040420f00";
    "030101030104011001010c0040420f0040420f00";
    "010001030204000800000c0040420f0040420f00";
    "010101030204000800000c0040420f0040420f00";
    "020001030204000800000c0040420f0040420f00";
    "020101030204000800000c0040420f0040420f00";
    "030001030204000800000c0040420f0040420f00";
    "030101030204000800000c0040420f0040420f00";
    "010001030204011000000c0040420f0040420f00";
    "010101030204011000000c0040420f0040420f00";
    "020001030204011000000c0040420f0040420f00";
    "020101030204011000000c0040420f0040420f00";
    "030001030204011000000c0040420f0040420f00";
    "030101030204011000000c0040420f0040420f00"]%string.

Definition DEFAULT_SETTINGS : list bytes := Eval vm_compute in
  map fromhex [
    "030001030104000801010c0040420f0040420f00"]%string.

Definition COMMAND_RESPONSE_KINDS (kind : CommandKind) : FrameKind :=
  match kind with
  | CommandKind.INFO => FrameKind.INFO_RESPONSE
  | CommandKind.CONFIGURE => FrameKind.CONFIGURE_RESPONSE
  | CommandKind.START => FrameKind.START_RESPONSE
  | CommandKind.GET_STATUS => FrameKind.GET_STATUS_RESPONSE
  | CommandKind.STOP => FrameKind.STOP_RESPONSE
  | CommandKind.GET_CAPABILITIES => FrameKind.GET_CAPABILITIES_RESPONSE
  | CommandKind.GET_SETTINGS => FrameKind.GET_SETTINGS_RESPONSE
  end.
