(* ===== verification/V3Header.v ===== *)
(** * Protocol-v3 frame headers ([protocol_v3.py], lines 24-225).

    The validation errors, the header record with [to_bytes], and
    [_decode_v3_header].  [header_wf] states declaratively which headers exist on
    the wire; the decoder accepts exactly their encodings. *)

From S2P Require Import Prelude PyStruct V3Constants.

(** ** Errors *)

(** [V3FrameValidationError], its subclass [V3ChecksumMismatchError], and any other
    exception, which would escape the callers' handlers. *)
Inductive v3_error :=
| V3FrameValidationError (message : string) (error_code : ErrorCode)
| V3ChecksumMismatchError (expected observed : Z)
| Uncaught (exception : string).

#[export] Instance v3_error_eq_dec : EqDecision v3_error.
Proof. solve_decision. Defined.

Abbreviation v3 := (result v3_error).

(** The error a caller of the v3 modules is told to expect. *)
Definition is_validation_error (e : v3_error) : bool :=
  match e with Uncaught _ => false | _ => true end.

Definition error_code_of (e : v3_error) : ErrorCode :=
  match e with
  | V3FrameValidationError _ code => code
  | V3ChecksumMismatchError _ _ => ErrorCode.CHECKSUM_MISMATCH
  | Uncaught _ => ErrorCode.INTERNAL_ERROR
  end.

Definition invalid (message : string) : v3_error :=
  V3FrameValidationError message ErrorCode.INVALID_PAYLOAD.

Definition _require (condition : bool) (message : string) : v3 unit :=
  require condition (invalid message).

Definition _bounded_bytes (data : bytes) (minimum maximum : Z) : v3 bytes :=
  _ ← _require ((minimum <=? zlen data) && (zlen data <=? maximum))
        "payload length outside bounds";
  Ok data.

(** Every exception that [m] raises is a validation error. *)
Definition caught {A} (m : v3 A) : Prop :=
  match m with Ok _ => True | Err e => is_validation_error e = true end.

Lemma caught_bind {A B} (m : v3 A) (k : A -> v3 B) :
  caught m -> (forall a, m = Ok a -> caught (k a)) -> caught (m ≫= k).
Proof. destruct m as [a|e]; cbn; auto. Qed.

Lemma caught_require condition message : caught (_require condition message).
Proof. by destruct condition. Qed.

Lemma caught_of_option {A} (o : option A) e :
  (o = None -> is_validation_error e = true) -> caught (of_option o e).
Proof. destruct o; cbn; auto. Qed.

Lemma caught_mapR {A B} (f : A -> v3 B) l : (forall a, caught (f a)) -> caught (mapR f l).
Proof.
  intros Hf. induction l as [|a l IH]; [done|]. cbn [mapR].
  apply caught_bind; [apply Hf|intros b _]. by apply caught_bind.
Qed.

#[export] Hint Resolve caught_require caught_mapR : daq.

(** Walks a function body, leaving the calls and lookups it does not know. *)
Ltac caught :=
  intros; repeat first
    [ progress eauto 2 with daq
    | exact I
    | reflexivity
    | apply caught_bind; [|intros ? ?]
    | match goal with
      | |- caught (let '(_, _) := ?x in _) => destruct x
      | |- caught (match ?x with _ => _ end) => destruct x eqn:?
      | |- caught (of_option _ _) => apply caught_of_option; intros ?
      | |- is_validation_error (invalid _) = true => reflexivity
      end
    | progress cbv zeta ].

(** ** Header record *)

Module V3FrameHeader.
Record V3FrameHeader := mk {
  kind : FrameKind;
  flags : Z;
  total_length : Z;
  payload_length : Z;
  run_id : Z;
  sequence : Z;
  request_id : Z;
  first_sample_ticks : Z;
  item_count : Z;
  version : Z;
  header_length : Z;
  checksum_algorithm : ChecksumAlgorithm
}.

#[global] Instance V3FrameHeader_eq_dec : EqDecision V3FrameHeader.
Proof. solve_decision. Defined.
End V3FrameHeader.
Abbreviation V3FrameHeader := V3FrameHeader.V3FrameHeader.

(** The constructor call with the three defaulted fields left out. *)
Definition new_header (kind : FrameKind)
    (flags total payload run sequence request ticks count : Z) : V3FrameHeader :=
  V3FrameHeader.mk kind flags total payload run sequence request ticks count
    PROTOCOL_VERSION HEADER_SIZE ChecksumAlgorithm.ADLER32.

Module V3Frame.
Record V3Frame := mk {
  header : V3FrameHeader;
  payload : bytes;
  checksum : Z
}.

#[global] Instance V3Frame_eq_dec : EqDecision V3Frame.
Proof. solve_decision. Defined.
End V3Frame.
Abbreviation V3Frame := V3Frame.V3Frame.

(** The values [V3FrameHeader.to_bytes] packs, in wire order. *)
Definition header_fields (h : V3FrameHeader) : fvals HEADER_STRUCT_FORMAT :=
  (MAGIC, (h.(V3FrameHeader.version), (int_of h.(V3FrameHeader.kind),
  (h.(V3FrameHeader.flags), (h.(V3FrameHeader.header_length),
  (int_of h.(V3FrameHeader.checksum_algorithm), (0,
  (h.(V3FrameHeader.total_length), (h.(V3FrameHeader.payload_length),
  (h.(V3FrameHeader.run_id), (h.(V3FrameHeader.sequence),
  (h.(V3FrameHeader.request_id), (h.(V3FrameHeader.first_sample_ticks),
  (h.(V3FrameHeader.item_count), tt)))))))))))))).

(** [V3FrameHeader.to_bytes] *)
Definition header_to_bytes (h : V3FrameHeader) : v3 bytes :=
  of_option (pack HEADER_STRUCT_FORMAT (header_fields h))
    (invalid "header scalar outside wire range").

(** ** Kind tables *)

(** [kind in _DATA_KINDS] *)
Definition _DATA_KINDS (kind : FrameKind) : bool :=
  bool_decide (kind ∈ [FrameKind.ADC_DATA; FrameKind.GPIO_DATA]).

(** [kind in _REQUEST_KINDS]: the frame kinds whose value is a command's. *)
Definition _REQUEST_KINDS (kind : FrameKind) : bool :=
  bool_decide (is_Some (enum_of (A:=CommandKind) (int_of kind))).

(** [_RESPONSE_SIZES[kind]]; [None] is [KeyError]. *)
Definition _RESPONSE_SIZES (kind : FrameKind) : option Z :=
  match kind with
  | FrameKind.INFO_RESPONSE => Some INFO_RESPONSE_PAYLOAD_SIZE
  | FrameKind.CONFIGURE_RESPONSE => Some SETTINGS_RESPONSE_PAYLOAD_SIZE
  | FrameKind.START_RESPONSE => Some SETTINGS_RESPONSE_PAYLOAD_SIZE
  | FrameKind.GET_STATUS_RESPONSE => Some STATUS_RESPONSE_PAYLOAD_SIZE
  | FrameKind.STOP_RESPONSE => Some STOP_RESPONSE_PAYLOAD_SIZE
  | FrameKind.GET_CAPABILITIES_RESPONSE => Some CAPABILITIES_RESPONSE_PAYLOAD_SIZE
  | FrameKind.GET_SETTINGS_RESPONSE => Some SETTINGS_RESPONSE_PAYLOAD_SIZE
  | FrameKind.ERROR_RESPONSE => Some ERROR_RESPONSE_PAYLOAD_SIZE
  | _ => None
  end.

(** ** [_decode_v3_header] *)

(** Lines 173-196: data frames. *)
Definition check_data_header (kind : FrameKind)
    (flags payload run request ticks count : Z) : v3 unit :=
  _ ← _require ((DATA_PREFIX_BYTES <? payload)
                && (payload <=? DATA_PREFIX_BYTES + MAX_ENCODED_SAMPLE_BYTES))
        "data payload outside bounds";
  _ ← _require (Z.land flags (Z.lnot 15) =? 0) "invalid data flags";
  _ ← _require (negb (has flags FrameFlag.OVERRUN_BEFORE) || has flags FrameFlag.GAP_BEFORE)
        "OVERRUN_BEFORE requires GAP_BEFORE";
  _ ← _require (negb (run =? 0) && (request =? 0)) "invalid data run/request ID";
  let maximum := if decide (kind = FrameKind.ADC_DATA)
                 then MAX_ADC_PAIRS else MAX_GPIO8_SAMPLES in
  _ ← _require ((1 <=? count) && (count <=? maximum)) "logical item count outside bounds";
  _ ← _require (ticks mod ADC_PAIR_PERIOD_TICKS =? 0) "unaligned timestamp";
  _require (ticks + count * ADC_PAIR_PERIOD_TICKS <=? Z.shiftl 1 64 - 1)
    "timestamp range would wrap within run".

(** Lines 211-223: the payload size a response must have. *)
Definition response_expected (kind : FrameKind) (flags run request : Z) : v3 Z :=
  _ ← _require (Z.land flags (Z.lnot FrameFlag.RESPONSE_ERROR) =? 0) "invalid response flags";
  let is_error := has flags FrameFlag.RESPONSE_ERROR in
  _ ← _require (negb (request =? 0) || is_error) "zero request ID requires an error";
  expected ←
    (if decide (kind = FrameKind.ERROR_RESPONSE) then
       _ ← _require is_error "generic response requires an error";
       Ok ERROR_RESPONSE_PAYLOAD_SIZE
     else if is_error then Ok RESPONSE_PREFIX_PAYLOAD_SIZE
     else of_option (_RESPONSE_SIZES kind) (Uncaught "KeyError"));
  _ ← (if decide (kind = FrameKind.START_RESPONSE) then
         if is_error then Ok tt else _require (negb (run =? 0)) "START requires a nonzero run ID"
       else Ok tt);
  Ok expected.

(** Lines 198-224: control frames. *)
Definition check_control_header (kind : FrameKind)
    (flags total payload run sequence request ticks count : Z) : v3 unit :=
  _ ← _require (total <=? MAX_CONTROL_FRAME_BYTES) "control frame outside bounds";
  _ ← _require ((sequence =? ticks) && (ticks =? count) && (count =? 0))
        "nonzero data-only control fields";
  expected ←
    (if _REQUEST_KINDS kind then
       _ ← _require ((flags =? 0) && (run =? 0) && negb (request =? 0))
             "invalid request fields";
       Ok (if decide (kind = FrameKind.CONFIGURE_REQUEST) then SETTINGS_PAYLOAD_SIZE else 0)
     else response_expected kind flags run request);
  _require (payload =? expected) "incorrect control payload size".

Definition _decode_v3_header (data : bytes) (offset : nat) : v3 V3FrameHeader :=
  _ ← _require (HEADER_SIZE <=? zlen data - Z.of_nat offset) "truncated header";
  '(magic, (version, (kind, (flags, (size, (checksum, (reserved, (total, (payload,
    (run, (sequence, (request, (ticks, (count, _)))))))))))))) ←
      of_option (unpack_from HEADER_STRUCT_FORMAT data offset) (Uncaught "struct.error");
  _ ← _require ((magic =? MAGIC) && (version =? PROTOCOL_VERSION)) "invalid magic/version";
  _ ← _require ((size =? HEADER_SIZE) && (reserved =? 0)) "invalid header size/reserved";
  _ ← _require (checksum =? int_of ChecksumAlgorithm.ADLER32) "unsupported checksum";
  kind ← of_option (enum_of kind) (invalid "unknown frame kind");
  let header := new_header kind flags total payload run sequence request ticks count in
  _ ← _require (total =? MIN_FRAME_BYTES + payload) "inconsistent frame length";
  _ ← (if _DATA_KINDS kind
       then check_data_header kind flags payload run request ticks count
       else check_control_header kind flags total payload run sequence request ticks count);
  Ok header.

(** ** Which headers exist *)

(** Data frames: flags below [RESPONSE_ERROR], a live run, a stamp whose samples do
    not wrap the 64-bit clock. *)
Definition data_header_wf (h : V3FrameHeader) : Prop :=
  DATA_PREFIX_BYTES < h.(V3FrameHeader.payload_length)
    <= DATA_PREFIX_BYTES + MAX_ENCODED_SAMPLE_BYTES /\
  0 <= h.(V3FrameHeader.flags) < 16 /\
  (Z.testbit h.(V3FrameHeader.flags) 3 = true -> Z.testbit h.(V3FrameHeader.flags) 1 = true) /\
  h.(V3FrameHeader.run_id) <> 0 /\ h.(V3FrameHeader.request_id) = 0 /\
  1 <= h.(V3FrameHeader.item_count)
    <= (if decide (h.(V3FrameHeader.kind) = FrameKind.ADC_DATA) then 1012 else 4048) /\
  (8 | h.(V3FrameHeader.first_sample_ticks)) /\
  h.(V3FrameHeader.first_sample_ticks) + 8 * h.(V3FrameHeader.item_count) < 2 ^ 64.

Definition no_sample_fields (h : V3FrameHeader) : Prop :=
  h.(V3FrameHeader.sequence) = 0 /\ h.(V3FrameHeader.first_sample_ticks) = 0 /\
  h.(V3FrameHeader.item_count) = 0.

Definition request_header_wf (h : V3FrameHeader) : Prop :=
  no_sample_fields h /\ h.(V3FrameHeader.flags) = 0 /\ h.(V3FrameHeader.run_id) = 0 /\
  h.(V3FrameHeader.request_id) <> 0 /\
  h.(V3FrameHeader.payload_length)
  = (if decide (h.(V3FrameHeader.kind) = FrameKind.CONFIGURE_REQUEST) then 20 else 0).

(** A response either succeeds, with its kind's payload, or reports an error, with
    the four-byte prefix (eight bytes for the generic error). *)
Definition response_header_wf (h : V3FrameHeader) : Prop :=
  no_sample_fields h /\
  ((h.(V3FrameHeader.flags) = 0 /\ h.(V3FrameHeader.request_id) <> 0 /\
    h.(V3FrameHeader.kind) <> FrameKind.ERROR_RESPONSE /\
    _RESPONSE_SIZES h.(V3FrameHeader.kind) = Some h.(V3FrameHeader.payload_length) /\
    (h.(V3FrameHeader.kind) = FrameKind.START_RESPONSE -> h.(V3FrameHeader.run_id) <> 0))
   \/
   (h.(V3FrameHeader.flags) = FrameFlag.RESPONSE_ERROR /\
    h.(V3FrameHeader.payload_length)
    = (if decide (h.(V3FrameHeader.kind) = FrameKind.ERROR_RESPONSE) then 8 else 4))).

Definition in_width (h : V3FrameHeader) : Prop :=
  0 <= h.(V3FrameHeader.run_id) < 2 ^ 32 /\ 0 <= h.(V3FrameHeader.sequence) < 2 ^ 32 /\
  0 <= h.(V3FrameHeader.request_id) < 2 ^ 32 /\
  0 <= h.(V3FrameHeader.first_sample_ticks) < 2 ^ 64.

Definition header_wf (h : V3FrameHeader) : Prop :=
  h.(V3FrameHeader.version) = 3 /\ h.(V3FrameHeader.header_length) = 44 /\
  h.(V3FrameHeader.total_length) = 48 + h.(V3FrameHeader.payload_length) /\
  in_width h /\
  if _DATA_KINDS h.(V3FrameHeader.kind) then data_header_wf h
  else if _REQUEST_KINDS h.(V3FrameHeader.kind) then request_header_wf h
  else response_header_wf h.

(** ** Flag arithmetic *)

Lemma data_flags_ok f : 0 <= f -> (Z.land f (Z.lnot 15) =? 0) = true <-> f < 16.
Proof. intros. rewrite Z.eqb_eq. by apply (land_lnot_ones f 4). Qed.

Lemma response_flags_ok f :
  (Z.land f (Z.lnot FrameFlag.RESPONSE_ERROR) =? 0) = true <->
  f = 0 \/ f = FrameFlag.RESPONSE_ERROR.
Proof. rewrite Z.eqb_eq. by apply (land_lnot_pow2 f 15). Qed.

Lemma overrun_gap_ok f :
  negb (has f FrameFlag.OVERRUN_BEFORE) || has f FrameFlag.GAP_BEFORE = true <->
  (Z.testbit f 3 = true -> Z.testbit f 1 = true).
Proof.
  change FrameFlag.OVERRUN_BEFORE with (2 ^ 3). change FrameFlag.GAP_BEFORE with (2 ^ 1).
  rewrite !has_testbit by lia. destruct (Z.testbit f 3), (Z.testbit f 1); cbn; intuition congruence.
Qed.

(** ** The guards of the decoder are [header_wf] *)

Lemma check_data_header_ok h u :
  0 <= h.(V3FrameHeader.flags) ->
  check_data_header h.(V3FrameHeader.kind) h.(V3FrameHeader.flags)
    h.(V3FrameHeader.payload_length) h.(V3FrameHeader.run_id) h.(V3FrameHeader.request_id)
    h.(V3FrameHeader.first_sample_ticks) h.(V3FrameHeader.item_count) = Ok u <->
  data_header_wf h.
Proof.
  intros Hf. unfold check_data_header, data_header_wf, _require.
  rewrite !require_bind, require_Ok, data_flags_ok, overrun_gap_ok by done.
  rewrite !andb_true_iff, negb_true_iff, !Z.leb_le, Z.ltb_lt, !Z.eqb_eq, Z.eqb_neq.
  change ADC_PAIR_PERIOD_TICKS with 8. change (Z.shiftl 1 64 - 1) with (2 ^ 64 - 1).
  rewrite <-Z.mod_divide by lia.
  unfold DATA_PREFIX_BYTES, MAX_ENCODED_SAMPLE_BYTES, MAX_ADC_PAIRS, MAX_GPIO8_SAMPLES.
  intuition lia.
Qed.

Lemma response_expected_ok h expected :
  response_expected h.(V3FrameHeader.kind) h.(V3FrameHeader.flags) h.(V3FrameHeader.run_id)
    h.(V3FrameHeader.request_id) = Ok expected /\
  h.(V3FrameHeader.payload_length) = expected <->
  (h.(V3FrameHeader.flags) = 0 /\ h.(V3FrameHeader.request_id) <> 0 /\
   h.(V3FrameHeader.kind) <> FrameKind.ERROR_RESPONSE /\
   _RESPONSE_SIZES h.(V3FrameHeader.kind) = Some expected /\
   (h.(V3FrameHeader.kind) = FrameKind.START_RESPONSE -> h.(V3FrameHeader.run_id) <> 0) /\
   h.(V3FrameHeader.payload_length) = expected) \/
  (h.(V3FrameHeader.flags) = FrameFlag.RESPONSE_ERROR /\
   expected = (if decide (h.(V3FrameHeader.kind) = FrameKind.ERROR_RESPONSE) then 8 else 4) /\
   h.(V3FrameHeader.payload_length) = expected).
Proof.
  unfold response_expected, _require. rewrite require_bind, response_flags_ok.
  destruct h as [k f tot pl run sq rq tk cnt ver hl ck]; cbn [V3FrameHeader.kind
    V3FrameHeader.flags V3FrameHeader.payload_length V3FrameHeader.run_id V3FrameHeader.request_id].
  assert (Hzero : has 0 FrameFlag.RESPONSE_ERROR = false) by done.
  assert (Hbit : has FrameFlag.RESPONSE_ERROR FrameFlag.RESPONSE_ERROR = true) by done.
  assert (Hne : 0 <> FrameFlag.RESPONSE_ERROR) by done.
  split.
  - intros [[[->| ->] H] Hp]; rewrite ?Hzero, ?Hbit, ?orb_false_r, ?orb_true_r in H;
      apply require_bind in H as [Hr H].
    + left. apply negb_true_iff, Z.eqb_neq in Hr.
      destruct k; cbn in H; try discriminate; try (injection H as <-);
        try (repeat split; try done; intros; discriminate).
      destruct (run =? 0) eqn:E; [discriminate|]. injection H as <-. apply Z.eqb_neq in E.
      repeat split; done.
    + right. destruct k; cbn in H; injection H as <-; done.
  - intros [(-> & Hr & Hk & Hs & Hrun & Hp)|(-> & -> & Hp)]; (split; [|done]); (split; [auto|]);
      rewrite ?Hzero, ?Hbit, ?orb_false_r, ?orb_true_r; apply require_bind.
    + split; [by apply negb_true_iff, Z.eqb_neq|].
      destruct k; try done; cbn; try (by injection Hs as ->).
      rewrite (proj2 (Z.eqb_neq _ _)) by auto. cbn. by injection Hs as ->.
    + split; [done|]. by destruct k.
Qed.

Lemma check_control_header_ok h u :
  h.(V3FrameHeader.total_length) = 48 + h.(V3FrameHeader.payload_length) ->
  check_control_header h.(V3FrameHeader.kind) h.(V3FrameHeader.flags)
    h.(V3FrameHeader.total_length) h.(V3FrameHeader.payload_length) h.(V3FrameHeader.run_id)
    h.(V3FrameHeader.sequence) h.(V3FrameHeader.request_id)
    h.(V3FrameHeader.first_sample_ticks) h.(V3FrameHeader.item_count) = Ok u <->
  (if _REQUEST_KINDS h.(V3FrameHeader.kind) then request_header_wf h else response_header_wf h).
Proof.
  intros Htot. unfold check_control_header, request_header_wf, response_header_wf,
    no_sample_fields, _require.
  rewrite !require_bind, !andb_true_iff, Z.leb_le, !Z.eqb_eq, Htot.
  destruct (_REQUEST_KINDS _) eqn:Hk.
  - destruct (require _ _ ≫= _) as [e|e] eqn:Hb; cbn [mbind result_bind].
    + apply require_bind in Hb as [Hb He]. injection He as <-.
      rewrite require_Ok, Z.eqb_eq. rewrite !andb_true_iff, negb_true_iff, !Z.eqb_eq, Z.eqb_neq in Hb.
      unfold MAX_CONTROL_FRAME_BYTES, SETTINGS_PAYLOAD_SIZE.
      destruct (decide (V3FrameHeader.kind h = FrameKind.CONFIGURE_REQUEST)); intuition lia.
    + split; [intros (_ & _ & [=])|]. intros (_ & Hf & Hr & Hq & _). exfalso.
      rewrite Hf, Hr in Hb. rewrite (proj2 (Z.eqb_neq _ _) Hq) in Hb. discriminate.
  - split.
    + intros (Ht & Hz & H). apply bind_Ok_inv in H as (expected & He & Hp).
      apply require_Ok, Z.eqb_eq in Hp.
      destruct (proj1 (response_expected_ok h expected) (conj He Hp)) as
        [(H1 & H2 & H3 & H4 & H5 & _)|(H1 & -> & _)]; (split; [lia|]); [left|right; done].
      by rewrite Hp.
    + intros [Hz Hr]. assert (He : exists expected,
        response_expected (V3FrameHeader.kind h) (V3FrameHeader.flags h)
          (V3FrameHeader.run_id h) (V3FrameHeader.request_id h) = Ok expected /\
        V3FrameHeader.payload_length h = expected).
      { exists (V3FrameHeader.payload_length h). apply response_expected_ok.
        destruct Hr as [(? & ? & ? & ? & ?)|[? ?]]; [left; by repeat split|right; by repeat split]. }
      destruct He as (expected & He & Hp).
      assert (Hmax : V3FrameHeader.payload_length h <= 1404).
      { destruct Hr as [(_ & _ & _ & Hs & _)|[_ ->]]; [|case_decide; lia].
        destruct (V3FrameHeader.kind h); cbn in Hs; try discriminate; injection Hs as <-; done. }
      rewrite He. cbn [mbind result_bind]. rewrite require_Ok, Z.eqb_eq.
      unfold MAX_CONTROL_FRAME_BYTES. intuition lia.
Qed.

Lemma header_wf_payload h :
  header_wf h -> 0 <= h.(V3FrameHeader.payload_length) <= 4060 /\
  0 <= h.(V3FrameHeader.flags) < 2 ^ 16 /\ 0 <= h.(V3FrameHeader.item_count) < 2 ^ 32.
Proof.
  intros (_ & _ & _ & _ & H). destruct (_DATA_KINDS _).
  - destruct H as (Hp & Hf & _ & _ & _ & Hc & _).
    unfold DATA_PREFIX_BYTES, MAX_ENCODED_SAMPLE_BYTES in Hp. pow_lit.
    repeat split; try lia. case_decide; lia.
  - destruct (_REQUEST_KINDS _).
    + destruct H as ((_ & _ & ->) & -> & _ & _ & ->). case_decide; done.
    + destruct H as ((_ & _ & ->) & [(-> & _ & _ & Hs & _)|[-> ->]]).
      * destruct (V3FrameHeader.kind h); cbn in Hs; try discriminate; injection Hs as <-; done.
      * case_decide; done.
Qed.

Lemma header_wf_fields h : header_wf h -> fvals_ok HEADER_STRUCT_FORMAT (header_fields h).
Proof.
  intros H. destruct (header_wf_payload h H) as (Hp & Hf & Hc).
  destruct H as (Hv & Hl & Ht & (Hr & Hs & Hq & Htk) & _).
  assert (0 <= int_of (V3FrameHeader.kind h) < 256) by (destruct (V3FrameHeader.kind h); done).
  assert (0 <= int_of (V3FrameHeader.checksum_algorithm h) < 256)
    by (destruct (V3FrameHeader.checksum_algorithm h); done).
  cbn -[Z.pow int_of]. rewrite Hv, Hl, Ht. unfold MAGIC. pow_lit. repeat split; lia.
Qed.

Lemma HEADER_SIZE_calc : calcsize HEADER_STRUCT_FORMAT = 44%nat.
Proof. reflexivity. Qed.

(** Lines 135-225 without the length check, on unpacked fields. *)
Lemma decode_fields_wf data offset h :
  wf_bytes data -> (offset + 44 <= length data)%nat ->
  _decode_v3_header data offset = Ok h ->
  header_wf h /\ header_fields h = unpack_fields HEADER_STRUCT_FORMAT (drop offset data).
Proof.
  intros Hw Hlen. unfold _decode_v3_header, _require.
  rewrite require_bind, of_option_bind. unfold unpack_from. rewrite HEADER_SIZE_calc.
  rewrite (proj2 (Nat.leb_le _ _)) by done. intros (_ & vs & Hvs & H).
  pose proof (unpack_fields_ok HEADER_STRUCT_FORMAT (drop offset data)
    (wf_bytes_drop _ _ Hw) ltac:(rewrite HEADER_SIZE_calc; len)) as Hok.
  assert (Hvs' : unpack_fields HEADER_STRUCT_FORMAT (drop offset data) = vs) by congruence.
  rewrite Hvs' in *. clear Hvs Hvs'.
  destruct vs as
    (magic & version & kind & flags & size & checksum & reserved & total & payload & run &
     sequence & request & ticks & count & []).
  cbn -[Z.pow] in Hok. destruct Hok as (_ & _ & Hk & Hf & _ & _ & _ & Ht & Hp & Hr & Hs & Hq & Htk & Hc & _).
  rewrite !require_bind, of_option_bind, !andb_true_iff, !Z.eqb_eq in H.
  destruct H as ((-> & ->) & (-> & ->) & -> & k & Hkind & H).
  apply enum_of_Some in Hkind. rewrite require_bind, Z.eqb_eq in H. destruct H as [-> H].
  apply bind_Ok_inv in H as ([] & Hchk & [= <-]).
  set (h := new_header k flags _ payload run sequence request ticks count) in *.
  split; [|unfold header_fields; cbn [h new_header V3FrameHeader.kind]; by rewrite Hkind].
  split; [done|]. split; [done|]. split; [done|].
  split; [exact (conj Hr (conj Hs (conj Hq Htk)))|].
  change (V3FrameHeader.kind h) with k. destruct (_DATA_KINDS k) eqn:Hd.
  - apply (check_data_header_ok h tt); [apply Hf|done].
  - apply (check_control_header_ok h tt); done.
Qed.

Lemma header_wf_decode data offset h :
  (offset + 44 <= length data)%nat -> header_wf h ->
  header_fields h = unpack_fields HEADER_STRUCT_FORMAT (drop offset data) ->
  _decode_v3_header data offset = Ok h.
Proof.
  intros Hlen Hwf Hfields. unfold _decode_v3_header, _require.
  rewrite require_bind, of_option_bind. unfold unpack_from. rewrite HEADER_SIZE_calc.
  rewrite (proj2 (Nat.leb_le _ _)) by done. rewrite <-Hfields.
  split; [unfold HEADER_SIZE, zlen; lia|]. eexists. split; [done|].
  destruct (header_wf_payload h Hwf) as (_ & Hf & _).
  destruct Hwf as (Hv & Hl & Ht & _ & Hk). unfold header_fields.
  rewrite !require_bind, of_option_bind, !andb_true_iff, !Z.eqb_eq.
  split; [done|]. split; [done|]. split; [by destruct (V3FrameHeader.checksum_algorithm h)|].
  exists (V3FrameHeader.kind h). split; [apply enum_of_int|].
  rewrite require_bind, Z.eqb_eq. split; [done|].
  assert (Hnew : new_header (V3FrameHeader.kind h) (V3FrameHeader.flags h)
    (V3FrameHeader.total_length h) (V3FrameHeader.payload_length h) (V3FrameHeader.run_id h)
    (V3FrameHeader.sequence h) (V3FrameHeader.request_id h)
    (V3FrameHeader.first_sample_ticks h) (V3FrameHeader.item_count h) = h).
  { destruct h as [? ? ? ? ? ? ? ? ? v hl ck]; cbn in *. subst. by destruct ck. }
  destruct (_DATA_KINDS _).
  - rewrite (proj2 (check_data_header_ok h tt (proj1 Hf)) Hk). cbn. by rewrite Hnew.
  - rewrite (proj2 (check_control_header_ok h tt Ht) Hk). cbn. by rewrite Hnew.
Qed.

(** The decoder accepts exactly the encodings of well-formed headers. *)
Lemma decode_header_iff data offset h :
  wf_bytes data ->
  _decode_v3_header data offset = Ok h <->
  header_wf h /\ (offset + 44 <= length data)%nat /\
  header_to_bytes h = Ok (slice offset (offset + 44) data).
Proof.
  intros Hw. replace (slice offset (offset + 44) data) with (take 44 (drop offset data))
    by (unfold slice; f_equal; lia).
  split.
  - intros H. assert (Hlen : (offset + 44 <= length data)%nat).
    { unfold _decode_v3_header, _require in H. rewrite require_bind, Z.leb_le in H.
      unfold HEADER_SIZE, zlen in H. lia. }
    destruct (decode_fields_wf data offset h Hw Hlen H) as [Hwf Hfields].
    split; [done|]. split; [done|]. unfold header_to_bytes. rewrite Hfields.
    rewrite pack_unpack_fields by (eauto with daq || (rewrite HEADER_SIZE_calc; len)). done.
  - intros (Hwf & Hlen & Hb). apply header_wf_decode; [done|done|].
    apply of_option_Ok_inv in Hb.
    rewrite <-(take_drop 44 (drop offset data)).
    symmetry. apply unpack_fields_pack; [by apply header_wf_fields|done].
Qed.

(** ** Consequences *)

Lemma header_wf_to_bytes h :
  header_wf h -> exists b, header_to_bytes h = Ok b /\ wf_bytes b /\ length b = 44%nat.
Proof.
  intros H. destruct (fvals_ok_pack _ _ (header_wf_fields h H)) as (b & Hb & Hw).
  exists b. unfold header_to_bytes. rewrite Hb. split; [done|]. split; [done|].
  by apply pack_length in Hb.
Qed.

Lemma header_roundtrip h b :
  header_wf h -> header_to_bytes h = Ok b -> _decode_v3_header b 0 = Ok h.
Proof.
  intros Hwf Hb. destruct (header_wf_to_bytes h Hwf) as (b' & Hb' & Hw & Hl).
  assert (b' = b) as -> by congruence. apply decode_header_iff; [done|].
  split; [done|]. split; [lia|]. unfold slice. by rewrite drop_0, take_ge by lia.
Qed.

(** Only validation errors: the table lookup and the unpacking never fail. *)
Lemma caught_response_expected kind flags run request :
  _DATA_KINDS kind = false -> _REQUEST_KINDS kind = false ->
  caught (response_expected kind flags run request).
Proof.
  intros Hd Hr. unfold response_expected. caught. by destruct kind.
Qed.

Lemma caught_decode_header data offset : caught (_decode_v3_header data offset).
Proof.
  unfold _decode_v3_header. apply caught_bind; [apply caught_require|intros u Hlen].
  apply require_Ok, Z.leb_le in Hlen. unfold HEADER_SIZE, zlen in Hlen.
  apply caught_bind.
  { unfold unpack_from. rewrite HEADER_SIZE_calc, (proj2 (Nat.leb_le _ _)) by lia. done. }
  unfold check_data_header, check_control_header. caught.
  all: by match goal with k : FrameKind |- _ => destruct k end.
Qed.

(** ** Claims *)

(** The header decoder accepts, at any offset of any buffer, exactly the 44-byte
    encodings of well-formed headers: what it returns is well-formed and encodes back
    to the bytes read, and every well-formed header is accepted. *)
Theorem decode_header_exact (data : bytes) (offset : nat) (h : V3FrameHeader)
    (Hdata : wf_bytes data) :
  _decode_v3_header data offset = Ok h <->
  header_wf h /\ (offset + 44 <= length data)%nat /\
  header_to_bytes h = Ok (slice offset (offset + 44) data).
Proof. by apply decode_header_iff. Qed.

Definition example_header : V3FrameHeader :=
  new_header FrameKind.ADC_DATA 3 (48 + 15) 15 7 2 0 1600 1.

Lemma decode_header_exact_witness :
  exists wire, header_to_bytes example_header = Ok wire /\ header_wf example_header /\
    wf_bytes (255 :: wire) /\ _decode_v3_header (255 :: wire) 1 = Ok example_header.
Proof.
  assert (Hwf : header_wf example_header).
  { split; [reflexivity|]. split; [reflexivity|]. split; [reflexivity|].
    split; [vm_compute; intuition discriminate|].
    change (data_header_wf example_header). unfold data_header_wf.
    repeat split; try (vm_compute; discriminate). exists 200. reflexivity. }
  eexists. split; [vm_compute; reflexivity|]. split; [exact Hwf|].
  match goal with |- wf_bytes ?l /\ _ => assert (Hw : wf_bytes l) end.
  { apply (bool_decide_unpack _). vm_compute. exact I. }
  split; [exact Hw|]. apply (decode_header_exact _ _ _ Hw).
  split; [exact Hwf|]. split; [vm_compute; lia|]. vm_compute. reflexivity.
Defined.
