(* ===== verification/V3Samples.v ===== *)
(** * Protocol-v3 sample codecs ([protocol_v3.py], lines 228-383).

    The data-payload prefix, the RAW, PACK12 and run-length encodings with every
    length check, and the two encoders.  The strided slice assignments and the
    big-integer nibble merge of the PACK12 expansion are modelled as written; they
    are compared with the three-bytes-per-pair definition [unpack12]. *)

From S2P Require Import Prelude PyStruct V3Constants V3Header.

(** ** Python byte-sequence operations *)

(** [data[start::step]], [step] at least one. *)
Fixpoint stride (start step : nat) (data : bytes) : bytes :=
  match data with
  | [] => []
  | b :: data =>
      match start with
      | O => b :: stride (step - 1) step data
      | S k => stride k step data
      end
  end.

(** [target[start::step] = values]; [None] is the [ValueError] of a size mismatch. *)
Fixpoint set_stride (start step : nat) (values target : bytes) : option bytes :=
  match target with
  | [] => match values with [] => Some [] | _ => None end
  | b :: target =>
      match start with
      | O => match values with
             | v :: values => cons v <$> set_stride (step - 1) step values target
             | [] => None
             end
      | S k => cons b <$> set_stride k step values target
      end
  end.

(** [data.translate(table)] *)
Definition translate (table data : bytes) : bytes :=
  map (fun b => default 0 (table !! Z.to_nat b)) data.

(** [value.to_bytes(size, "little")]; [None] is [OverflowError]. *)
Definition int_to_bytes (value : Z) (size : nat) : option bytes :=
  if fits size value then Some (to_le size value) else None.

(** [struct.iter_unpack(fmt, data)]; [None] is [struct.error].  The fuel is the
    byte count: every record takes at least one byte. *)
Fixpoint iter_unpack_loop (fmt : list fcode) (fuel : nat) (data : bytes) :
    option (list (fvals fmt)) :=
  match data, fuel with
  | [], _ => Some []
  | _, O => None
  | _, S fuel =>
      r ← unpack_from fmt data 0;
      rs ← iter_unpack_loop fmt fuel (drop (calcsize fmt) data);
      Some (r :: rs)
  end.

Definition iter_unpack (fmt : list fcode) (data : bytes) : option (list (fvals fmt)) :=
  iter_unpack_loop fmt (length data) data.

Definition _LOW_NIBBLE : bytes := Eval vm_compute in map (fun i => Z.land i 15) (seqZ 0 256).
Definition _HIGH_NIBBLE : bytes := Eval vm_compute in map (fun i => Z.shiftr i 4) (seqZ 0 256).
Definition _LOW_NIBBLE_SHIFT : bytes :=
  Eval vm_compute in map (fun i => Z.shiftl (Z.land i 15) 4) (seqZ 0 256).

(** [protocol.adc_payload_codes_valid]: every high byte is at most 15. *)
Definition adc_payload_codes_valid (payload : bytes) : bool :=
  bool_decide (filter (fun b => ~ (0 <= b < 16)) (stride 1 2 payload) = []).

(** ** Decoding *)

Module V3DecodedData.
Record V3DecodedData := mk {
  encoding : Encoding;
  item_bytes : Z;
  item_count : Z;
  payload : bytes;
  encoded_sample_bytes : Z
}.
End V3DecodedData.
Abbreviation V3DecodedData := V3DecodedData.V3DecodedData.

(** Lines 275-286: the bulk PACK12 expansion. *)
Definition pack12_expand (samples : bytes) (item_count decoded : Z) : option bytes :=
  let expanded := replicate (Z.to_nat decoded) 0 in
  let middle := stride 1 3 samples in
  let high := stride 2 3 samples in
  expanded ← set_stride 0 4 (stride 0 3 samples) expanded;
  expanded ← set_stride 1 4 (translate _LOW_NIBBLE middle) expanded;
  merged ← int_to_bytes
             (Z.lor (from_le (translate _HIGH_NIBBLE middle))
                    (from_le (translate _LOW_NIBBLE_SHIFT high)))
             (Z.to_nat item_count);
  expanded ← set_stride 2 4 merged expanded;
  set_stride 3 4 (translate _HIGH_NIBBLE high) expanded.

(** A run-length record: its length and value. *)
Definition rle_record : Type := (Z * Z)%type.

(** [iter_unpack] with the record format of the item width. *)
Definition rle_records (width : Z) (samples : bytes) : option (list rle_record) :=
  if width =? 1
  then map (fun r : fvals GPIO8_RLE_RECORD_STRUCT_FORMAT => (r.1, r.2.1))
         <$> iter_unpack GPIO8_RLE_RECORD_STRUCT_FORMAT samples
  else map (fun r : fvals GPIO16_RLE_RECORD_STRUCT_FORMAT => (r.1, r.2.1))
         <$> iter_unpack GPIO16_RLE_RECORD_STRUCT_FORMAT samples.

(** Lines 299-307: the validating pass; returns the total. *)
Fixpoint rle_validate (item_count total : Z) (previous : option Z)
    (records : list rle_record) : v3 Z :=
  match records with
  | [] => Ok total
  | (length, value) :: records =>
      _ ← _require ((0 <? length) && (total + length <=? item_count)) "zero/overflow RLE run";
      _ ← _require (negb (bool_decide (Some value = previous))) "adjacent RLE runs must differ";
      rle_validate item_count (total + length) (Some value) records
  end.

(** Lines 309-312: the expanding pass. *)
Fixpoint rle_expand (width : Z) (records : list rle_record) : v3 bytes :=
  match records with
  | [] => Ok []
  | (length, value) :: records =>
      item ← of_option (int_to_bytes value (Z.to_nat width)) (Uncaught "OverflowError");
      rest ← rle_expand width records;
      Ok (concat (replicate (Z.to_nat length) item) ++ rest)
  end.

(** Lines 265-312: the sample bytes by encoding. *)
Definition decode_samples (kind : FrameKind) (encoding width decoded runs item_count : Z)
    (samples : bytes) : v3 bytes :=
  if encoding =? int_of Encoding.RAW then
    _ ← _require ((runs =? 0) && (zlen samples =? decoded)) "invalid RAW length/run count";
    _ ← (if decide (kind = FrameKind.ADC_DATA)
         then _require (adc_payload_codes_valid samples) "ADC code outside 0..4095" else Ok tt);
    Ok samples
  else if encoding =? int_of Encoding.ADC_PACK12 then
    _ ← _require (bool_decide (kind = FrameKind.ADC_DATA) && (runs =? 0))
          "illegal PACK12 kind/run count";
    _ ← _require (zlen samples =? 3 * item_count) "truncated or excess PACK12 samples";
    of_option (pack12_expand samples item_count decoded) (Uncaught "ValueError")
  else if encoding =? int_of Encoding.GPIO_RLE then
    _ ← _require (bool_decide (kind = FrameKind.GPIO_DATA)) "RLE requires GPIO";
    _ ← _require ((1 <=? runs) && (runs <=? item_count) && (zlen samples =? runs * (2 + width)))
          "invalid RLE record count/length";
    _ ← _require (zlen samples <? decoded) "RLE must be strictly smaller than RAW";
    records ← of_option (rle_records width samples) (Uncaught "struct.error");
    total ← rle_validate item_count 0 None records;
    _ ← _require (total =? item_count) "RLE runs do not cover exact logical count";
    rle_expand width records
  else Err (invalid "unknown data encoding").

Definition decode_data_payload (kind : FrameKind) (payload : bytes) (item_count : Z) :
    v3 V3DecodedData :=
  data ← _bounded_bytes payload DATA_PREFIX_BYTES (DATA_PREFIX_BYTES + MAX_ENCODED_SAMPLE_BYTES);
  '(encoding, (width, (reserved, (decoded, (runs, _))))) ←
      of_option (unpack_from DATA_PREFIX_STRUCT_FORMAT data 0) (Uncaught "struct.error");
  _ ← _require (_DATA_KINDS kind) "encoding requires a data kind";
  _ ← _require (reserved =? 0) "nonzero data prefix reserved field";
  _ ← _require (if decide (kind = FrameKind.ADC_DATA) then width =? 4
                else (width =? 1) || (width =? 2))
        "illegal item width for data kind";
  _ ← _require ((1 <=? item_count) && (item_count <=? MAX_LOGICAL_PAYLOAD_BYTES / width))
        "logical item count outside bounds";
  _ ← _require (decoded =? item_count * width) "decoded byte count mismatch";
  let samples := drop (Z.to_nat DATA_PREFIX_BYTES) data in
  raw ← decode_samples kind encoding width decoded runs item_count samples;
  encoding ← of_option (enum_of encoding) (Uncaught "ValueError");
  Ok (V3DecodedData.mk encoding width item_count raw (zlen samples)).

(** ** Encoding *)

(** [_PREFIX.pack(encoding, width, 0, decoded, runs)] *)
Definition pack_prefix (encoding : Encoding) (width decoded runs : Z) : v3 bytes :=
  of_option (pack DATA_PREFIX_STRUCT_FORMAT
               (int_of encoding, (width, (0, (decoded, (runs, tt))))))
    (Uncaught "struct.error").

Definition adc_code_ok (value : Z) : bool := (0 <=? value) && (value <=? 4095).

(** One pass of the loop at lines 326-339. *)
Definition encode_pair (policy : AdcPolicy) (pair : Z * Z) : v3 bytes :=
  let '(a, b) := pair in
  _ ← _require (adc_code_ok a && adc_code_ok b) "ADC code outside 0..4095";
  match policy with
  | AdcPolicy.PACK12 =>
      Ok [Z.land a 255; Z.lor (Z.shiftr a 8) (Z.shiftl (Z.land b 15) 4); Z.shiftr b 4]
  | AdcPolicy.RAW =>
      of_option (pack ADC_RAW_PAIR_STRUCT_FORMAT (a, (b, tt))) (Uncaught "struct.error")
  end.

Definition encode_adc_payload (pairs : list (Z * Z)) (policy : AdcPolicy) : v3 bytes :=
  _ ← _require ((1 <=? zlen pairs) && (zlen pairs <=? MAX_ADC_PAIRS))
        "ADC pair count outside bounds";
  samples ← mapR (encode_pair policy) pairs;
  let encoding := match policy with
                  | AdcPolicy.PACK12 => Encoding.ADC_PACK12 | AdcPolicy.RAW => Encoding.RAW end in
  prefix ← pack_prefix encoding 4 (4 * zlen pairs) 0;
  Ok (prefix ++ concat samples).

(** State of the loop at lines 361-377. *)
Record rle_state := mkRle {
  st_raw : bytes; st_rle : bytes; st_previous : option Z; st_length : Z; st_runs : Z
}.

(** [length.to_bytes(2, "little") + previous.to_bytes(width, "little")] *)
Definition rle_record_bytes (width length previous : Z) : v3 bytes :=
  l ← of_option (int_to_bytes length 2) (Uncaught "OverflowError");
  v ← of_option (int_to_bytes previous (Z.to_nat width)) (Uncaught "OverflowError");
  Ok (l ++ v).

Definition gpio_step (width_bits width : Z) (st : rle_state) (value : Z) : v3 rle_state :=
  _ ← _require ((0 <=? value) && (value <? Z.shiftl 1 width_bits)) "GPIO sample outside width";
  item ← of_option (int_to_bytes value (Z.to_nat width)) (Uncaught "OverflowError");
  let raw := st_raw st ++ item in
  if bool_decide (Some value = st_previous st)
  then Ok (mkRle raw (st_rle st) (st_previous st) (st_length st + 1) (st_runs st))
  else
    match st_previous st with
    | Some previous =>
        record ← rle_record_bytes width (st_length st) previous;
        Ok (mkRle raw (st_rle st ++ record) (Some value) 1 (st_runs st + 1))
    | None => Ok (mkRle raw (st_rle st) (Some value) 1 (st_runs st))
    end.

Fixpoint gpio_loop (width_bits width : Z) (st : rle_state) (values : list Z) : v3 rle_state :=
  match values with
  | [] => Ok st
  | value :: values => st ← gpio_step width_bits width st value; gpio_loop width_bits width st values
  end.

Definition encode_gpio_payload (values : list Z) (width_bits : Z) (policy : GpioPolicy) :
    v3 bytes :=
  _ ← _require ((width_bits =? 8) || (width_bits =? 16)) "GPIO width must be 8 or 16";
  let width := width_bits / 8 in
  _ ← _require ((1 <=? zlen values) && (zlen values <=? MAX_LOGICAL_PAYLOAD_BYTES / width))
        "GPIO count outside bounds";
  st ← gpio_loop width_bits width (mkRle [] [] None 0 0) values;
  previous ← of_option (st_previous st) (Uncaught "AssertionError");
  record ← rle_record_bytes width (st_length st) previous;
  let rle := st_rle st ++ record in
  let runs := st_runs st + 1 in
  let raw := st_raw st in
  if bool_decide (policy = GpioPolicy.RLE_AUTO) && (zlen rle <? zlen raw)
  then prefix ← pack_prefix Encoding.GPIO_RLE width (zlen raw) runs; Ok (prefix ++ rle)
  else prefix ← pack_prefix Encoding.RAW width (zlen raw) 0; Ok (prefix ++ raw).

(** ** What the encodings mean *)

(** Two little-endian sixteen-bit codes. *)
Definition raw_pair (pair : Z * Z) : bytes := to_le 2 pair.1 ++ to_le 2 pair.2.

Definition pack12_pair (pair : Z * Z) : bytes :=
  [Z.land pair.1 255; Z.lor (Z.shiftr pair.1 8) (Z.shiftl (Z.land pair.2 15) 4);
   Z.shiftr pair.2 4].

(** Three bytes [x y z] hold the codes [x + 256 * (y mod 16)] and [y / 16 + 16 * z]. *)
Fixpoint unpack12 (samples : bytes) : bytes :=
  match samples with
  | x :: y :: z :: samples =>
      [x; Z.land y 15; Z.lor (Z.shiftr y 4) (Z.shiftl (Z.land z 15) 4); Z.shiftr z 4]
        ++ unpack12 samples
  | _ => []
  end.

(** Maximal runs of equal values, as (length, value). *)
Definition merge_run (run : rle_record) (runs : list rle_record) : list rle_record :=
  match runs with
  | (n, w) :: rest => if run.2 =? w then (run.1 + n, w) :: rest else run :: runs
  | [] => [run]
  end.

Fixpoint runs_of (values : list Z) : list rle_record :=
  match values with
  | [] => []
  | v :: values => merge_run (1, v) (runs_of values)
  end.

Definition values_of (runs : list rle_record) : list Z :=
  concat (map (fun r : rle_record => replicate (Z.to_nat r.1) r.2) runs).

Fixpoint run_total (runs : list rle_record) : Z :=
  match runs with [] => 0 | r :: runs => r.1 + run_total runs end.

Definition rle_wire (width : Z) (runs : list rle_record) : bytes :=
  concat (map (fun r : rle_record => to_le 2 r.1 ++ to_le (Z.to_nat width) r.2) runs).

Definition gpio_raw (width : Z) (values : list Z) : bytes :=
  concat (map (to_le (Z.to_nat width)) values).

(** ** Bulk byte operations *)

Lemma translate_table (f : Z -> Z) l : wf_bytes l -> translate (map f (seqZ 0 256)) l = map f l.
Proof.
  induction 1 as [|b l Hb _ IH]; [done|]. unfold translate in *. cbn [map]. f_equal; [|done].
  unfold is_byte in Hb. rewrite list_lookup_fmap, lookup_seqZ_lt by lia. cbn.
  f_equal. lia.
Qed.

Lemma translate_low l : wf_bytes l -> translate _LOW_NIBBLE l = map (fun b => Z.land b 15) l.
Proof. apply (translate_table (fun b => Z.land b 15)). Qed.
Lemma translate_high l : wf_bytes l -> translate _HIGH_NIBBLE l = map (fun b => Z.shiftr b 4) l.
Proof. apply (translate_table (fun b => Z.shiftr b 4)). Qed.
Lemma translate_shift l :
  wf_bytes l -> translate _LOW_NIBBLE_SHIFT l = map (fun b => Z.shiftl (Z.land b 15) 4) l.
Proof. apply (translate_table (fun b => Z.shiftl (Z.land b 15) 4)). Qed.

Lemma lor_byte a b : is_byte a -> is_byte b -> is_byte (Z.lor a b).
Proof.
  unfold is_byte. intros Ha Hb. assert (0 <= Z.lor a b) by (apply Z.lor_nonneg; lia).
  split; [done|]. apply land_lnot_ones with (n := 8); [lia|done|].
  rewrite Z.land_lor_distr_l.
  rewrite (proj2 (land_lnot_ones a 8 ltac:(lia) ltac:(lia))) by (pow_lit; lia).
  by rewrite (proj2 (land_lnot_ones b 8 ltac:(lia) ltac:(lia))) by (pow_lit; lia).
Qed.

(** Disjoint or overlapping, [|] on the integers is [|] on their bytes. *)
Lemma from_le_lor a b :
  wf_bytes a -> wf_bytes b -> length a = length b ->
  Z.lor (from_le a) (from_le b) = from_le (zip_with Z.lor a b).
Proof.
  intros Ha. revert b. induction Ha as [|x a Hx _ IH]; intros b Hb Hl; destruct Hb as [|y b Hy Hb];
    try discriminate; [done|].
  cbn [zip_with]. cbv [from_le]; fold from_le. unfold is_byte in *.
  rewrite <-IH by (done || (cbn in Hl; lia)).
  rewrite !(Z.add_comm _ (256 * _)), !(Z.mul_comm 256). change 256 with (2 ^ 8).
  assert (Hxy : 0 <= Z.lor x y < 2 ^ 8) by (apply lor_byte; [exact Hx|exact Hy]).
  rewrite <-!lor_shiftl_add by (pow_lit; lia).
  rewrite Z.shiftl_lor. apply Z.bits_inj'. intros i Hi. rewrite !Z.lor_spec.
  destruct (Z.testbit (Z.shiftl (from_le a) 8) i), (Z.testbit x i),
    (Z.testbit (Z.shiftl (from_le b) 8) i), (Z.testbit y i); done.
Qed.

Lemma wf_zip_lor a b : wf_bytes a -> wf_bytes b -> wf_bytes (zip_with Z.lor a b).
Proof.
  intros Ha. revert b. induction Ha as [|x a Hx _ IH]; intros b Hb; destruct Hb as [|y b Hy Hb];
    cbn [zip_with]; constructor; [by apply lor_byte|by apply IH].
Qed.

Lemma int_to_bytes_from_le l : wf_bytes l -> int_to_bytes (from_le l) (length l) = Some l.
Proof.
  intros Hl. unfold int_to_bytes. rewrite (proj2 (fits_spec _ _)); [by rewrite to_from_le|].
  pose proof (from_le_bound l Hl) as Hb. by unfold zlen in Hb.
Qed.

Lemma wf_stride start step l : wf_bytes l -> wf_bytes (stride start step l).
Proof.
  intros Hl. revert start. induction Hl as [|b l Hb _ IH]; intros start; cbn; [constructor|].
  destruct start; [constructor; [done|apply IH]|apply IH].
Qed.

Lemma wf_map_byte (f : Z -> Z) l :
  (forall b, is_byte b -> is_byte (f b)) -> wf_bytes l -> wf_bytes (map f l).
Proof. intros Hf. induction 1; cbn; constructor; auto. Qed.

Lemma high_nibble_byte b : is_byte b -> is_byte (Z.shiftr b 4).
Proof. unfold is_byte. intros. rewrite Z.shiftr_div_pow2 by lia. change (2 ^ 4) with 16. zlia. Qed.
Lemma low_nibble_byte b : is_byte b -> is_byte (Z.land b 15).
Proof. unfold is_byte. intros. rewrite (land_ones_mod 4) by lia. change (2 ^ 4) with 16. zlia. Qed.
Lemma shift_nibble_byte b : is_byte b -> is_byte (Z.shiftl (Z.land b 15) 4).
Proof.
  unfold is_byte. intros. rewrite (land_ones_mod 4), Z.shiftl_mul_pow2 by lia.
  change (2 ^ 4) with 16. zlia.
Qed.
#[export] Hint Resolve wf_stride high_nibble_byte low_nibble_byte shift_nibble_byte lor_byte : daq.

(** The byte lanes of the merged nibbles. *)
Definition merged_lane (samples : bytes) : bytes :=
  zip_with Z.lor (map (fun b => Z.shiftr b 4) (stride 1 3 samples))
    (map (fun b => Z.shiftl (Z.land b 15) 4) (stride 2 3 samples)).

(** The four assignments on the untouched target of [unpack12]'s size. *)
Lemma pack12_lanes n samples :
  length samples = (3 * n)%nat ->
  exists e1 e2 e3,
    set_stride 0 4 (stride 0 3 samples) (replicate (4 * n) 0) = Some e1 /\
    set_stride 1 4 (map (fun b => Z.land b 15) (stride 1 3 samples)) e1 = Some e2 /\
    set_stride 2 4 (merged_lane samples) e2 = Some e3 /\
    set_stride 3 4 (map (fun b => Z.shiftr b 4) (stride 2 3 samples)) e3 = Some (unpack12 samples) /\
    length (stride 1 3 samples) = n /\ length (stride 2 3 samples) = n.
Proof.
  revert samples. induction n as [|n IH]; intros samples Hl.
  - destruct samples; [|cbn in Hl; lia]. by exists [], [], [].
  - destruct samples as [|x [|y [|z samples]]]; try (cbn in Hl; lia).
    destruct (IH samples) as (e1 & e2 & e3 & H1 & H2 & H3 & H4 & H5 & H6); [cbn in Hl; lia|].
    replace (4 * S n)%nat with (S (S (S (S (4 * n))))) by lia.
    unfold merged_lane in *. cbn [stride replicate set_stride map Nat.sub zip_with unpack12].
    rewrite H1. cbn [fmap option_fmap option_map]. eexists _, _, _. split; [done|].
    cbn [set_stride Nat.sub]. rewrite H2. cbn [fmap option_fmap option_map]. split; [done|].
    cbn [set_stride Nat.sub]. rewrite H3. cbn [fmap option_fmap option_map]. split; [done|].
    cbn [set_stride Nat.sub]. rewrite H4. cbn. split; [done|]. by rewrite H5, H6.
Qed.

Lemma pack12_expand_unpack12 samples item_count :
  wf_bytes samples -> zlen samples = 3 * item_count ->
  pack12_expand samples item_count (item_count * 4) = Some (unpack12 samples).
Proof.
  intros Hw Hl. unfold zlen in Hl. set (n := Z.to_nat item_count).
  assert (Hn : length samples = (3 * n)%nat) by lia.
  unfold pack12_expand. rewrite !translate_low, !translate_high, translate_shift by auto with daq.
  replace (Z.to_nat (item_count * 4)) with (4 * n)%nat by lia. fold n.
  destruct (pack12_lanes n samples Hn) as (e1 & e2 & e3 & H1 & H2 & H3 & H4 & H5 & H6).
  rewrite H1. cbn [mbind option_bind]. rewrite H2. cbn [mbind option_bind].
  assert (Hm : wf_bytes (map (fun b => Z.shiftr b 4) (stride 1 3 samples))).
  { apply wf_map_byte; auto with daq. }
  assert (Hh : wf_bytes (map (fun b => Z.shiftl (Z.land b 15) 4) (stride 2 3 samples))).
  { apply wf_map_byte; auto with daq. }
  rewrite from_le_lor by (done || (rewrite !length_map; lia)).
  fold (merged_lane samples).
  replace n with (length (merged_lane samples)) at 1
    by (unfold merged_lane; rewrite length_zip_with, !length_map; lia).
  rewrite int_to_bytes_from_le by (apply wf_zip_lor; done). cbn [mbind option_bind].
  rewrite H3. cbn [mbind option_bind]. by rewrite H4.
Qed.

(** ** PACK12 against the raw pairs *)

Definition adc_pair_ok (pair : Z * Z) : Prop := 0 <= pair.1 <= 4095 /\ 0 <= pair.2 <= 4095.

Lemma lor_low_high a b n : 0 <= n -> 0 <= a < 2 ^ n -> Z.lor a (Z.shiftl b n) = b * 2 ^ n + a.
Proof. intros. rewrite Z.lor_comm. by apply lor_shiftl_add. Qed.

Lemma pack12_pair_bytes a b :
  0 <= a <= 4095 -> 0 <= b <= 4095 ->
  pack12_pair (a, b) = [a mod 256; (b mod 16) * 16 + a / 256; b / 16].
Proof.
  intros Ha Hb. unfold pack12_pair. cbn [fst snd].
  rewrite land_255, (land_ones_mod 4), !Z.shiftr_div_pow2 by lia.
  change (2 ^ 8) with 256. change (2 ^ 4) with 16.
  rewrite lor_low_high; [done|lia|]. change (2 ^ 4) with 16. zlia.
Qed.

Lemma unpack12_bytes x y z :
  is_byte x -> is_byte y -> is_byte z ->
  unpack12 [x; y; z] = [x; y mod 16; (z mod 16) * 16 + y / 16; z / 16].
Proof.
  unfold is_byte. intros Hx Hy Hz. cbn [unpack12 app].
  rewrite !(land_ones_mod 4), !Z.shiftr_div_pow2 by lia. change (2 ^ 4) with 16.
  rewrite lor_low_high; [done|lia|]. change (2 ^ 4) with 16. zlia.
Qed.

Lemma raw_pair_bytes a b :
  0 <= a <= 4095 -> 0 <= b <= 4095 ->
  raw_pair (a, b) = [a mod 256; a / 256; b mod 256; b / 256].
Proof.
  intros Ha Hb. unfold raw_pair, to_le. cbn [fst snd app].
  rewrite !(Z.mod_small (_ / 256)) by zlia. done.
Qed.

Lemma unpack12_app3 x y z rest : unpack12 (x :: y :: z :: rest) = unpack12 [x; y; z] ++ unpack12 rest.
Proof. done. Qed.

Lemma unpack12_pack12_pair pair rest :
  adc_pair_ok pair -> unpack12 (pack12_pair pair ++ rest) = raw_pair pair ++ unpack12 rest.
Proof.
  destruct pair as [a b]. intros [Ha Hb]. cbn in Ha, Hb.
  rewrite pack12_pair_bytes, raw_pair_bytes by done. cbn [app].
  rewrite unpack12_app3, unpack12_bytes by (unfold is_byte; zlia). cbn [app].
  do 4 (f_equal; try zlia).
Qed.

Lemma unpack12_pack12 pairs :
  Forall adc_pair_ok pairs ->
  unpack12 (concat (map pack12_pair pairs)) = concat (map raw_pair pairs).
Proof.
  induction 1 as [|p pairs Hp _ IH]; [done|]. cbn [map concat].
  by rewrite unpack12_pack12_pair, IH.
Qed.

(** Every three bytes are the packing of one pair of twelve-bit codes. *)
Lemma pack12_surjective x y z :
  is_byte x -> is_byte y -> is_byte z ->
  exists pair, adc_pair_ok pair /\ pack12_pair pair = [x; y; z].
Proof.
  unfold is_byte. intros Hx Hy Hz.
  exists (x + 256 * (y mod 16), y / 16 + 16 * z). unfold adc_pair_ok. cbn [fst snd].
  assert (Ha : 0 <= x + 256 * (y mod 16) <= 4095) by zlia.
  assert (Hb : 0 <= y / 16 + 16 * z <= 4095) by zlia.
  split; [done|]. rewrite pack12_pair_bytes by done. do 3 (f_equal; try zlia).
Qed.

Lemma pack12_pairs n samples :
  wf_bytes samples -> length samples = (3 * n)%nat ->
  exists pairs, Forall adc_pair_ok pairs /\ length pairs = n /\
    concat (map pack12_pair pairs) = samples.
Proof.
  revert samples. induction n as [|n IH]; intros samples Hw Hl.
  - destruct samples; [|cbn in Hl; lia]. by exists [].
  - destruct samples as [|x [|y [|z samples]]]; try (cbn in Hl; lia).
    apply Forall_cons in Hw as [Hx Hw]. apply Forall_cons in Hw as [Hy Hw].
    apply Forall_cons in Hw as [Hz Hw].
    destruct (IH samples Hw) as (pairs & Hp & Hn & Hc); [cbn in Hl; lia|].
    destruct (pack12_surjective x y z Hx Hy Hz) as (p & Hpp & Hpb).
    exists (p :: pairs). split; [by constructor|]. split; [cbn; lia|].
    cbn [map concat]. by rewrite Hpb, Hc.
Qed.

(** ** The raw code check *)

Lemma codes_valid_spec payload :
  adc_payload_codes_valid payload = true <-> Forall (fun b => 0 <= b < 16) (stride 1 2 payload).
Proof.
  unfold adc_payload_codes_valid. rewrite bool_decide_eq_true.
  induction (stride 1 2 payload) as [|b l IH]; [done|].
  rewrite filter_cons, Forall_cons. case_decide as Hb.
  - split; [discriminate|]. intros [? _]. done.
  - rewrite IH. split; [|by intros [_ ?]]. intros Hl. split; [|done].
    destruct (decide (0 <= b < 16)); [done|]. by destruct Hb.
Qed.

(** A RAW payload that passes the check is a list of twelve-bit pairs. *)
Lemma raw_pairs n samples :
  wf_bytes samples -> length samples = (4 * n)%nat ->
  adc_payload_codes_valid samples = true <->
  exists pairs, Forall adc_pair_ok pairs /\ length pairs = n /\
    concat (map raw_pair pairs) = samples.
Proof.
  intros Hw Hl. rewrite codes_valid_spec. split.
  - revert samples Hw Hl. induction n as [|n IH]; intros samples Hw Hl Hv.
    + destruct samples; [|cbn in Hl; lia]. by exists [].
    + destruct samples as [|b0 [|b1 [|b2 [|b3 samples]]]]; try (cbn in Hl; lia).
      change (wf_bytes ([b0; b1; b2; b3] ++ samples)) in Hw. apply wf_bytes_app in Hw as [Hw4 Hw].
      repeat (apply Forall_cons in Hw4 as [? Hw4]). cbn [stride Nat.sub] in Hv.
      apply Forall_cons in Hv as [Hv1 Hv]. apply Forall_cons in Hv as [Hv3 Hv].
      destruct (IH samples Hw) as (pairs & Hp & Hn & Hc); [cbn in Hl; lia|done|].
      unfold is_byte in *. exists ((b0 + 256 * b1, b2 + 256 * b3) :: pairs).
      split; [constructor; [split; cbn; lia|done]|]. split; [cbn; lia|].
      cbn [map concat]. rewrite raw_pair_bytes, Hc by lia. cbn [app].
      do 4 (f_equal; try zlia).
  - intros (pairs & Hp & _ & <-). clear Hw Hl.
    induction Hp as [|[a b] pairs [Ha Hb] _ IH]; [constructor|]. cbn in Ha, Hb.
    cbn [map concat]. rewrite raw_pair_bytes by done. cbn [app stride Nat.sub].
    constructor; [zlia|]. constructor; [zlia|]. done.
Qed.

Lemma length_raw_pairs pairs : length (concat (map raw_pair pairs)) = (4 * length pairs)%nat.
Proof. induction pairs as [|p pairs IH]; [done|]. cbn [map concat]. unfold raw_pair in *. len. Qed.

Lemma length_pack12_pairs pairs : length (concat (map pack12_pair pairs)) = (3 * length pairs)%nat.
Proof. induction pairs as [|p pairs IH]; [done|]. cbn [map concat]. unfold pack12_pair in *. len. Qed.

Lemma wf_raw_pairs pairs : wf_bytes (concat (map raw_pair pairs)).
Proof.
  induction pairs as [|p pairs IH]; [constructor|]. cbn [map concat].
  apply wf_bytes_app. split; [|done]. apply wf_bytes_app. split; apply wf_to_le.
Qed.

Lemma wf_pack12_pairs pairs : Forall adc_pair_ok pairs -> wf_bytes (concat (map pack12_pair pairs)).
Proof.
  induction 1 as [|[a b] pairs [Ha Hb] _ IH]; [constructor|]. cbn [map concat].
  cbn in Ha, Hb. rewrite pack12_pair_bytes by done. unfold wf_bytes in *.
  repeat (apply Forall_app; split; [|done]). repeat constructor; unfold is_byte; zlia.
Qed.

(** ** The payload prefix *)

Lemma pack_prefix_ok encoding width decoded runs :
  0 <= width < 256 -> 0 <= decoded < 2 ^ 32 -> 0 <= runs < 2 ^ 32 ->
  exists prefix, pack_prefix encoding width decoded runs = Ok prefix /\ wf_bytes prefix /\
    length prefix = 12%nat /\
    forall samples, unpack_from DATA_PREFIX_STRUCT_FORMAT (prefix ++ samples) 0
                    = Some (int_of encoding, (width, (0, (decoded, (runs, tt))))).
Proof.
  intros Hw Hd Hr.
  assert (Hok : fvals_ok DATA_PREFIX_STRUCT_FORMAT (int_of encoding, (width, (0, (decoded, (runs, tt)))))).
  { cbn -[Z.pow int_of]. pow_lit. assert (0 <= int_of encoding < 256) by (by destruct encoding).
    repeat split; lia. }
  destruct (fvals_ok_pack _ _ Hok) as (b & Hb & Hwf). pose proof (pack_length _ _ _ Hb) as Hl.
  exists b. unfold pack_prefix. rewrite Hb. split; [done|]. split; [done|]. split; [done|].
  intros samples. unfold unpack_from. rewrite (proj2 (Nat.leb_le _ _)) by len.
  rewrite drop_0. f_equal. by apply unpack_fields_pack.
Qed.

(** Decoding a payload whose prefix is known. *)
Lemma decode_known_prefix kind prefix samples encoding width decoded runs item_count :
  length prefix = 12%nat ->
  unpack_from DATA_PREFIX_STRUCT_FORMAT (prefix ++ samples) 0
  = Some (int_of encoding, (width, (0, (decoded, (runs, tt))))) ->
  _DATA_KINDS kind = true ->
  (if decide (kind = FrameKind.ADC_DATA) then width = 4 else width = 1 \/ width = 2) ->
  1 <= item_count <= MAX_LOGICAL_PAYLOAD_BYTES / width ->
  decoded = item_count * width -> zlen samples <= 4048 ->
  decode_data_payload kind (prefix ++ samples) item_count =
  (raw ← decode_samples kind (int_of encoding) width decoded runs item_count samples;
   Ok (V3DecodedData.mk encoding width item_count raw (zlen samples))).
Proof.
  intros Hl Hu Hk Hw Hc -> Hs. unfold decode_data_payload, _bounded_bytes.
  change DATA_PREFIX_BYTES with 12. change MAX_ENCODED_SAMPLE_BYTES with 4048.
  assert (Hz : zlen (prefix ++ samples) = 12 + zlen samples) by len. rewrite Hz.
  rewrite (proj2 (Z.leb_le 12 _)), (proj2 (Z.leb_le _ (12 + 4048))) by len.
  cbn [andb _require require mbind result_bind]. rewrite Hu.
  cbn [of_option mbind result_bind]. rewrite Hk. cbn [_require require mbind result_bind Z.eqb].
  replace (if decide (kind = FrameKind.ADC_DATA) then width =? 4 else (width =? 1) || (width =? 2))
    with true by (case_decide; lia). cbn [_require require mbind result_bind].
  rewrite (proj2 (Z.leb_le 1 _)), (proj2 (Z.leb_le _ _)) by lia.
  cbn [andb _require require mbind result_bind]. rewrite Z.eqb_refl.
  cbn [_require require mbind result_bind].
  rewrite drop_app_exact by done. rewrite enum_of_int. done.
Qed.

(** ** ADC payloads *)

Lemma encode_pairs policy pairs :
  Forall adc_pair_ok pairs ->
  mapR (encode_pair policy) pairs =
  Ok (map (match policy with AdcPolicy.PACK12 => pack12_pair | AdcPolicy.RAW => raw_pair end) pairs).
Proof.
  intros Hp. apply mapR_ok. eapply Forall_impl; [exact Hp|]. intros [a b] [Ha Hb].
  cbn in Ha, Hb. unfold encode_pair, adc_code_ok.
  rewrite !(proj2 (Z.leb_le _ _)) by lia. cbn [andb _require require mbind result_bind].
  destruct policy; [|done]. cbn -[to_le raw_pair fits].
  rewrite !(proj2 (fits_spec _ _)) by (pow_lit; lia). cbn -[to_le raw_pair].
  by rewrite app_nil_r.
Qed.

Lemma zlen_pos_le {A} (l : list A) n : zlen l <= n -> (length l <= Z.to_nat n)%nat.
Proof. unfold zlen. lia. Qed.

Lemma adc_roundtrip policy pairs :
  1 <= zlen pairs <= 1012 -> Forall adc_pair_ok pairs ->
  exists payload, encode_adc_payload pairs policy = Ok payload /\ wf_bytes payload /\
    decode_data_payload FrameKind.ADC_DATA payload (zlen pairs) =
    Ok (V3DecodedData.mk
          (match policy with AdcPolicy.PACK12 => Encoding.ADC_PACK12 | AdcPolicy.RAW => Encoding.RAW end)
          4 (zlen pairs) (concat (map raw_pair pairs))
          (match policy with AdcPolicy.PACK12 => 3 * zlen pairs | AdcPolicy.RAW => 4 * zlen pairs end)).
Proof.
  intros Hn Hp. unfold encode_adc_payload, _require.
  rewrite !(proj2 (Z.leb_le _ _)) by (unfold MAX_ADC_PAIRS; lia). cbn [andb require mbind result_bind].
  rewrite encode_pairs by done. cbn [mbind result_bind].
  set (enc := match policy with AdcPolicy.RAW => Encoding.RAW | _ => _ end).
  destruct (pack_prefix_ok enc 4 (4 * zlen pairs) 0) as (prefix & -> & Hw & Hl & Hu);
    [lia|pow_lit; lia|pow_lit; lia|]. cbn [mbind result_bind]. eexists. split; [done|].
  assert (Hdec : forall samples, zlen samples <= 4048 ->
    decode_data_payload FrameKind.ADC_DATA (prefix ++ samples) (zlen pairs) =
    (raw ← decode_samples FrameKind.ADC_DATA (int_of enc) 4 (4 * zlen pairs) 0 (zlen pairs) samples;
     Ok (V3DecodedData.mk enc 4 (zlen pairs) raw (zlen samples)))).
  { intros samples Hs. apply decode_known_prefix; [done|apply Hu|done| | |lia|done].
    - by rewrite decide_True.
    - by change (MAX_LOGICAL_PAYLOAD_BYTES / 4) with 1012. }
  destruct policy.
  - pose proof (length_raw_pairs pairs) as Hlen. split; [apply wf_bytes_app; auto using wf_raw_pairs|].
    rewrite Hdec by (unfold zlen in *; lia). unfold decode_samples. cbn [enc int_of Encoding.Encoding_enum Z.eqb Pos.eqb].
    cbn [andb]. rewrite (proj2 (Z.eqb_eq _ _)) by (unfold zlen; lia). cbn [_require require mbind result_bind].
    rewrite decide_True by done.
    rewrite (proj2 (raw_pairs (length pairs) _ (wf_raw_pairs pairs) Hlen)) by eauto.
    cbn [_require require mbind result_bind]. do 2 f_equal. unfold zlen. lia.
  - pose proof (length_pack12_pairs pairs) as Hlen.
    pose proof (wf_pack12_pairs pairs Hp) as Hws. split; [by apply wf_bytes_app|].
    rewrite Hdec by (unfold zlen in *; lia). unfold decode_samples. cbn [enc int_of Encoding.Encoding_enum Z.eqb Pos.eqb].
    rewrite bool_decide_eq_true_2 by done. cbn [andb _require require mbind result_bind].
    assert (Hz : zlen (concat (map pack12_pair pairs)) = 3 * zlen pairs) by (unfold zlen; lia).
    rewrite Hz, Z.eqb_refl. cbn [_require require mbind result_bind].
    rewrite (Z.mul_comm 4), pack12_expand_unpack12 by done. cbn [of_option mbind result_bind].
    by rewrite unpack12_pack12.
Qed.

(** ** Runs *)

(** Positive lengths, adjacent values different: what a validated record list is. *)
Fixpoint runs_ok (previous : option Z) (runs : list rle_record) : Prop :=
  match runs with
  | [] => True
  | (n, v) :: runs => 0 < n /\ Some v <> previous /\ runs_ok (Some v) runs
  end.

Lemma runs_of_cons v values : exists n runs, runs_of (v :: values) = (n, v) :: runs.
Proof.
  cbn. destruct (runs_of values) as [|[n w] runs]; cbn; [eauto|].
  destruct (Z.eqb_spec v w); subst; eauto.
Qed.

Lemma merge_run_ok n v runs previous :
  0 < n -> Some v <> previous -> runs_ok None runs -> runs_ok previous (merge_run (n, v) runs).
Proof.
  intros Hn Hv. destruct runs as [|[m w] runs]; cbn; [done|]. intros (Hm & _ & Hr).
  destruct (Z.eqb_spec v w) as [->|Hne]; cbn; repeat split; try done; try lia. congruence.
Qed.

Lemma runs_of_ok values previous :
  (forall v, head values = Some v -> Some v <> previous) -> runs_ok previous (runs_of values).
Proof.
  revert previous. induction values as [|v values IH]; intros previous Hp; [done|].
  cbn [runs_of]. apply merge_run_ok; [lia|by apply Hp|]. by apply IH.
Qed.

Lemma merge_run_total n v runs : run_total (merge_run (n, v) runs) = n + run_total runs.
Proof. destruct runs as [|[m w] runs]; cbn; [done|]. destruct (v =? w); cbn; lia. Qed.

Lemma runs_of_total values : run_total (runs_of values) = zlen values.
Proof.
  induction values as [|v values IH]; [done|]. cbn [runs_of]. rewrite merge_run_total, IH. len.
Qed.

Lemma values_of_merge n v runs :
  0 <= n -> runs_ok None runs ->
  values_of (merge_run (n, v) runs) = replicate (Z.to_nat n) v ++ values_of runs.
Proof.
  intros Hn. unfold values_of. destruct runs as [|[m w] runs]; cbn; [done|]. intros (Hm & _).
  destruct (Z.eqb_spec v w) as [->|Hne]; cbn; [|done].
  by rewrite Z2Nat.inj_add, replicate_add, <-app_assoc by lia.
Qed.

Lemma values_of_runs_of values : values_of (runs_of values) = values.
Proof.
  induction values as [|v values IH]; [done|]. cbn [runs_of].
  rewrite values_of_merge, IH; [done|lia|by apply runs_of_ok].
Qed.

Lemma runs_of_replicate n v values :
  runs_of (replicate (S n) v ++ values) = merge_run (Z.of_nat (S n), v) (runs_of values).
Proof.
  induction n as [|n IH]; [done|].
  change (runs_of (replicate (S (S n)) v ++ values))
    with (merge_run (1, v) (runs_of (replicate (S n) v ++ values))).
  rewrite IH. replace (Z.of_nat (S (S n))) with (1 + Z.of_nat (S n)) by lia.
  destruct (runs_of values) as [|[m w] runs]; cbn [merge_run fst snd].
  - by rewrite Z.eqb_refl.
  - destruct (Z.eqb_spec v w) as [->|Hne]; cbn [merge_run fst snd]; rewrite Z.eqb_refl; [|done].
    by rewrite Z.add_assoc.
Qed.

Lemma runs_of_values_of runs previous : runs_ok previous runs -> runs_of (values_of runs) = runs.
Proof.
  revert previous. induction runs as [|[n v] runs IH]; intros previous; [done|].
  intros (Hn & _ & Hr). change (values_of ((n, v) :: runs))
    with (replicate (Z.to_nat n) v ++ values_of runs).
  destruct (Z.to_nat n) as [|k] eqn:Hk; [lia|]. rewrite runs_of_replicate, (IH _ Hr).
  replace (Z.of_nat (S k)) with n by lia.
  destruct runs as [|[m w] runs]; cbn; [done|]. destruct Hr as (_ & Hne & _).
  destruct (Z.eqb_spec v w); [congruence|done].
Qed.

Lemma rle_validate_iff item_count total previous runs t :
  rle_validate item_count total previous runs = Ok t <->
  runs_ok previous runs /\ t = total + run_total runs /\ (runs = [] \/ t <= item_count).
Proof.
  revert total previous. induction runs as [|[n v] runs IH]; intros total previous; cbn.
  - split; [intros [= <-]; split; [done|split; [lia|auto]]|intros (_ & -> & _); f_equal; lia].
  - unfold _require. rewrite !require_bind, andb_true_iff, Z.ltb_lt, Z.leb_le, negb_true_iff,
      bool_decide_eq_false, IH. split.
    + intros ((Hn & Hle) & Hv & Hr & -> & Hc). split; [done|]. split; [lia|]. right.
      destruct Hc as [->|Hc]; cbn in *; lia.
    + intros ((Hn & Hv & Hr) & -> & [?|Hc]); [done|].
      assert (0 <= run_total runs).
      { clear -Hr. revert Hr. generalize (Some v). induction runs as [|[m w] runs IH]; intros o; cbn; [lia|].
        intros (? & _ & Hr). specialize (IH _ Hr). lia. }
      split; [lia|]. split; [done|]. split; [done|]. split; [lia|]. right. lia.
Qed.

(** ** Record bytes *)

Definition gpio_item_ok (width v : Z) : Prop := 0 <= v < 256 ^ width.

Definition run_wire_ok (width : Z) (r : rle_record) : Prop :=
  0 <= r.1 < 65536 /\ gpio_item_ok width r.2.

Lemma int_to_bytes_ok width v :
  0 <= width -> gpio_item_ok width v ->
  int_to_bytes v (Z.to_nat width) = Some (to_le (Z.to_nat width) v).
Proof.
  intros Hw Hv. unfold int_to_bytes. rewrite (proj2 (fits_spec _ _)); [done|].
  rewrite Z2Nat.id by done. exact Hv.
Qed.

Lemma rle_expand_values width runs :
  0 <= width -> Forall (fun r : rle_record => gpio_item_ok width r.2) runs ->
  rle_expand width runs = Ok (gpio_raw width (values_of runs)).
Proof.
  intros Hw. induction 1 as [|[n v] runs Hv _ IH]; [done|]. cbn [rle_expand].
  rewrite int_to_bytes_ok by done. cbn [of_option mbind result_bind]. rewrite IH.
  cbn [mbind result_bind]. unfold gpio_raw. unfold values_of. cbn [map concat fst snd].
  rewrite map_app, concat_app. do 2 f_equal. f_equal. clear. induction (Z.to_nat n); cbn; congruence.
Qed.

Lemma length_gpio_raw width values :
  length (gpio_raw width values) = (Z.to_nat width * length values)%nat.
Proof.
  unfold gpio_raw. induction values as [|v values IH]; [cbn; lia|]. cbn [map concat].
  rewrite length_app, IH, length_to_le. cbn [length]. lia.
Qed.

Lemma length_rle_wire width runs :
  length (rle_wire width runs) = ((2 + Z.to_nat width) * length runs)%nat.
Proof.
  unfold rle_wire. induction runs as [|r runs IH]; [cbn; lia|]. cbn [map concat].
  rewrite length_app, IH. len.
Qed.

(** [iter_unpack] splits what packing the records one after another produced. *)
Lemma iter_unpack_pack fmt rs bs :
  (0 < calcsize fmt)%nat ->
  Forall2 (fun r b => fvals_ok fmt r /\ pack fmt r = Some b) rs bs ->
  iter_unpack fmt (concat bs) = Some rs.
Proof.
  intros Hpos H. unfold iter_unpack.
  assert (Hfuel : (length (concat bs) <= length (concat bs))%nat) by lia.
  revert Hfuel. generalize (length (concat bs)) at 2 3. intros fuel. revert fuel.
  induction H as [|r b rs bs [Hok Hp] _ IH]; intros fuel Hfuel; [by destruct fuel|].
  pose proof (pack_length _ _ _ Hp) as Hl. cbn [concat] in *. rewrite length_app in Hfuel.
  destruct b as [|x b]; [cbn in Hl; lia|]. destruct fuel as [|fuel]; [cbn in Hfuel; lia|].
  cbn [iter_unpack_loop app].
  change (x :: b ++ concat bs) with ((x :: b) ++ concat bs).
  unfold unpack_from. rewrite (proj2 (Nat.leb_le _ _)) by len. rewrite drop_0.
  rewrite (unpack_fields_pack _ _ _ _ Hok Hp). cbn [mbind option_bind].
  rewrite drop_app_exact by done. rewrite IH; [done|]. cbn in Hfuel. lia.
Qed.

Lemma iter_unpack_inv fmt data rs :
  wf_bytes data -> iter_unpack fmt data = Some rs ->
  exists bs, data = concat bs /\ Forall2 (fun r b => fvals_ok fmt r /\ pack fmt r = Some b) rs bs.
Proof.
  intros Hw. unfold iter_unpack. generalize (length data) at 1. intros fuel.
  revert data rs Hw. induction fuel as [|fuel IH]; intros data rs Hw; destruct data as [|x data];
    cbn [iter_unpack_loop]; try discriminate; try (intros [= <-]; by exists []).
  unfold unpack_from. set (d := x :: data) in *. rewrite drop_0. cbn [Nat.add].
  destruct (calcsize fmt <=? length d)%nat eqn:Hle; [|discriminate]. apply Nat.leb_le in Hle.
  cbn [mbind option_bind].
  destruct (iter_unpack_loop fmt fuel (drop (calcsize fmt) d)) as [rs'|] eqn:Hrs; [|discriminate].
  cbn [mbind option_bind]. intros [= <-].
  destruct (IH _ _ (wf_bytes_drop _ _ Hw) Hrs) as (bs & Hbs & HF).
  exists (take (calcsize fmt) d :: bs). cbn [concat]. rewrite <-Hbs, take_drop. split; [done|].
  constructor; [|done]. split; [by apply unpack_fields_ok|by apply pack_unpack_fields].
Qed.

(** ** Records of one item width *)

(** The two record formats, by item width. *)
Definition record_fields (width : Z) (b : bytes) (r : rle_record) : Prop :=
  run_wire_ok width r /\ b = to_le 2 r.1 ++ to_le (Z.to_nat width) r.2.

Lemma rle_records_wire width runs :
  width = 1 \/ width = 2 -> Forall (run_wire_ok width) runs ->
  rle_records width (rle_wire width runs) = Some runs.
Proof.
  intros Hwidth Hok. unfold rle_records, rle_wire.
  assert (Hid : map (fun r : Z * (Z * unit) => (r.1, r.2.1))
                  (map (fun r : rle_record => (r.1, (r.2, tt))) runs) = runs).
  { rewrite map_map. rewrite <-(map_id runs) at 2. apply map_ext. by intros [n v]. }
  destruct Hwidth as [-> | ->]; cbn [Z.eqb].
  - change (1 =? 1) with true. cbv iota.
    rewrite (iter_unpack_pack GPIO8_RLE_RECORD_STRUCT_FORMAT
      (map (fun r : rle_record => (r.1, (r.2, tt))) runs)); [cbn; by rewrite Hid|cbn; lia|].
    clear Hid. induction Hok as [|[n v] runs [Hn Hv] _ IH]; [constructor|].
    unfold gpio_item_ok in Hv. cbn [fst snd] in *. change (256 ^ 1) with 256 in Hv.
    cbn [map]. constructor; [|done]. split; [cbn -[Z.pow]; pow_lit; lia|].
    cbn -[to_le fits]. rewrite !(proj2 (fits_spec _ _)) by (pow_lit; lia). cbn -[to_le].
    by rewrite app_nil_r.
  - change (2 =? 1) with false. cbv iota.
    rewrite (iter_unpack_pack GPIO16_RLE_RECORD_STRUCT_FORMAT
      (map (fun r : rle_record => (r.1, (r.2, tt))) runs)); [cbn; by rewrite Hid|cbn; lia|].
    clear Hid. induction Hok as [|[n v] runs [Hn Hv] _ IH]; [constructor|].
    unfold gpio_item_ok in Hv. cbn [fst snd] in *. change (256 ^ 2) with 65536 in Hv.
    cbn [map]. constructor; [|done]. split; [cbn -[Z.pow]; pow_lit; lia|].
    cbn -[to_le fits]. rewrite !(proj2 (fits_spec _ _)) by (pow_lit; lia). cbn -[to_le].
    by rewrite app_nil_r.
Qed.

Lemma rle_records_inv width samples runs :
  width = 1 \/ width = 2 -> wf_bytes samples -> rle_records width samples = Some runs ->
  Forall (run_wire_ok width) runs /\ samples = rle_wire width runs.
Proof.
  intros Hwidth Hw. unfold rle_records, rle_wire. destruct Hwidth as [-> | ->].
  - change (1 =? 1) with true. cbv iota.
    destruct (iter_unpack _ _) as [rs|] eqn:Hi; [|discriminate]. intros [= <-].
    destruct (iter_unpack_inv _ _ _ Hw Hi) as (bs & -> & HF). clear Hi Hw.
    induction HF as [|[n [v []]] b rs bs [Hok Hp] _ [IH1 IH2]]; [done|].
    cbn -[Z.pow] in Hok. pow_lit. destruct Hok as (Hn & Hv & _). cbn [map concat fst snd].
    split; [constructor; [|done]; split; unfold gpio_item_ok; cbn -[Z.pow]; pow_lit; lia|].
    rewrite IH2. f_equal.
    cbn -[to_le fits] in Hp. rewrite !(proj2 (fits_spec _ _)) in Hp by (pow_lit; lia).
    cbn -[to_le] in Hp. rewrite app_nil_r in Hp. injection Hp as Hp. exact (eq_sym Hp).
  - change (2 =? 1) with false. cbv iota.
    destruct (iter_unpack _ _) as [rs|] eqn:Hi; [|discriminate]. intros [= <-].
    destruct (iter_unpack_inv _ _ _ Hw Hi) as (bs & -> & HF). clear Hi Hw.
    induction HF as [|[n [v []]] b rs bs [Hok Hp] _ [IH1 IH2]]; [done|].
    cbn -[Z.pow] in Hok. pow_lit. destruct Hok as (Hn & Hv & _). cbn [map concat fst snd].
    split; [constructor; [|done]; split; unfold gpio_item_ok; cbn -[Z.pow]; pow_lit; lia|].
    rewrite IH2. f_equal.
    cbn -[to_le fits] in Hp. rewrite !(proj2 (fits_spec _ _)) in Hp by (pow_lit; lia).
    cbn -[to_le] in Hp. rewrite app_nil_r in Hp. injection Hp as Hp. exact (eq_sym Hp).
Qed.

Lemma rle_record_bytes_ok width n v :
  0 <= width -> 0 <= n < 65536 -> gpio_item_ok width v ->
  rle_record_bytes width n v = Ok (to_le 2 n ++ to_le (Z.to_nat width) v).
Proof.
  intros Hw Hn Hv. unfold rle_record_bytes. rewrite int_to_bytes_ok by done.
  unfold int_to_bytes. by rewrite (proj2 (fits_spec _ _)) by (pow_lit; lia).
Qed.

(** ** The run-length encoder *)

Section Encoder.
Variables (width_bits width : Z).
Hypothesis Hbits : width_bits = 8 * width.
Hypothesis Hwidth : width = 1 \/ width = 2.

Lemma shiftl_width : Z.shiftl 1 width_bits = 256 ^ width.
Proof. rewrite Hbits. by destruct Hwidth as [-> | ->]. Qed.

Lemma gpio_step_ok st v :
  gpio_item_ok width v ->
  gpio_step width_bits width st v =
  (let raw := st_raw st ++ to_le (Z.to_nat width) v in
   if bool_decide (Some v = st_previous st)
   then Ok (mkRle raw (st_rle st) (st_previous st) (st_length st + 1) (st_runs st))
   else match st_previous st with
        | Some previous =>
            record ← rle_record_bytes width (st_length st) previous;
            Ok (mkRle raw (st_rle st ++ record) (Some v) 1 (st_runs st + 1))
        | None => Ok (mkRle raw (st_rle st) (Some v) 1 (st_runs st))
        end).
Proof.
  intros Hv. unfold gpio_step. rewrite shiftl_width. unfold gpio_item_ok in Hv.
  rewrite (proj2 (Z.leb_le _ _)), (proj2 (Z.ltb_lt _ _)) by lia.
  cbn [andb _require require mbind result_bind].
  by rewrite int_to_bytes_ok by (done || lia).
Qed.

(** From a pending run [(n, p)], the loop's output with the pending run appended is
    the wire form of the runs of everything seen. *)
Lemma gpio_loop_runs values raw rle p n runs :
  gpio_item_ok width p -> 1 <= n -> n + zlen values < 65536 ->
  Forall (gpio_item_ok width) values ->
  exists rle' p' n' runs',
    gpio_loop width_bits width (mkRle raw rle (Some p) n runs) values
      = Ok (mkRle (raw ++ gpio_raw width values) rle' (Some p') n' runs') /\
    rle' ++ rle_wire width [(n', p')] = rle ++ rle_wire width (merge_run (n, p) (runs_of values)) /\
    runs' + 1 = runs + zlen (merge_run (n, p) (runs_of values)) /\
    gpio_item_ok width p' /\ 0 <= n' < 65536.
Proof.
  intros Hp Hn Hlen Hv. revert raw rle p n runs Hp Hn Hlen.
  induction Hv as [|v values Hv _ IH]; intros raw rle p n runs Hp Hn Hlen.
  { exists rle, p, n, runs. cbn [gpio_loop gpio_raw map concat runs_of merge_run].
    rewrite app_nil_r. unfold zlen in Hlen. cbn in Hlen. unfold gpio_item_ok in *.
    split; [done|]. split; [done|]. split; [done|]. split; [done|lia]. }
  cbn [gpio_loop]. rewrite gpio_step_ok by done. cbn [st_raw st_rle st_previous st_length st_runs].
  assert (Hraw : forall l, (raw ++ to_le (Z.to_nat width) v) ++ gpio_raw width l
                           = raw ++ gpio_raw width (v :: l)).
  { intros l. by rewrite <-app_assoc. }
  assert (Hz : zlen (v :: values) = 1 + zlen values) by len. rewrite Hz in Hlen.
  pose proof (zlen_nonneg values) as Hnn.
  case_bool_decide as Hvp; cbn [mbind result_bind].
  - injection Hvp as <-.
    destruct (IH (raw ++ to_le (Z.to_nat width) v) rle v (n + 1) runs) as
      (rle' & p' & n' & runs' & -> & H1 & H2 & H3); [done|lia|lia|].
    exists rle', p', n', runs'. rewrite Hraw. split; [done|].
    assert (Hm : merge_run (n, v) (runs_of (v :: values)) = merge_run (n + 1, v) (runs_of values)).
    { cbn [runs_of]. destruct (runs_of values) as [|[m w] rs]; cbn.
      - by rewrite Z.eqb_refl.
      - destruct (Z.eqb_spec v w) as [->|]; cbn; rewrite Z.eqb_refl; [by rewrite Z.add_assoc|done]. }
    by rewrite Hm.
  - rewrite rle_record_bytes_ok by (done || lia). cbn [mbind result_bind].
    set (rec := to_le 2 n ++ to_le (Z.to_nat width) p).
    destruct (IH (raw ++ to_le (Z.to_nat width) v) (rle ++ rec) v 1 (runs + 1)) as
      (rle' & p' & n' & runs' & -> & H1 & H2 & H3); [done|lia|lia|].
    exists rle', p', n', runs'. rewrite Hraw. split; [done|].
    assert (Hm : merge_run (n, p) (runs_of (v :: values)) = (n, p) :: runs_of (v :: values)).
    { destruct (runs_of_cons v values) as (m & rs & ->). cbn.
      destruct (Z.eqb_spec p v); [congruence|done]. }
    rewrite Hm. cbn [runs_of]. split; [|split; [rewrite H2; len|done]].
    rewrite H1, <-app_assoc. done.
Qed.

Lemma gpio_encoder values :
  values <> [] -> zlen values < 65535 -> Forall (gpio_item_ok width) values ->
  exists st p record,
    gpio_loop width_bits width (mkRle [] [] None 0 0) values = Ok st /\
    st_previous st = Some p /\ st_raw st = gpio_raw width values /\
    rle_record_bytes width (st_length st) p = Ok record /\
    st_rle st ++ record = rle_wire width (runs_of values) /\
    st_runs st + 1 = zlen (runs_of values).
Proof.
  intros Hne Hlen Hv. destruct Hv as [|v values Hv Hvs]; [done|].
  cbn [gpio_loop]. rewrite gpio_step_ok by done. cbn [st_raw st_rle st_previous st_length st_runs].
  rewrite bool_decide_eq_false_2 by discriminate. cbn [mbind result_bind app].
  assert (Hz : zlen (v :: values) = 1 + zlen values) by len. rewrite Hz in Hlen.
  pose proof (zlen_nonneg values) as Hnn.
  destruct (gpio_loop_runs values (to_le (Z.to_nat width) v) [] v 1 0) as
    (rle' & p' & n' & runs' & -> & H1 & H2 & H3 & H4); [done|lia|lia|done|].
  eexists _, p', _. split; [done|]. split; [done|]. split; [done|].
  split; [by apply rle_record_bytes_ok; [lia| |]|]. split; [|done].
  cbn [st_rle]. unfold rle_wire in H1 at 1. cbn [map concat fst snd app] in H1.
  by rewrite app_nil_r in H1.
Qed.

(** The encoder's output, on every admissible input. *)
Lemma encode_gpio_value values policy :
  1 <= zlen values <= 4048 / width -> Forall (gpio_item_ok width) values ->
  encode_gpio_payload values width_bits policy =
  (let rle := rle_wire width (runs_of values) in
   let raw := gpio_raw width values in
   if bool_decide (policy = GpioPolicy.RLE_AUTO) && (zlen rle <? zlen raw)
   then prefix ← pack_prefix Encoding.GPIO_RLE width (zlen raw) (zlen (runs_of values));
        Ok (prefix ++ rle)
   else prefix ← pack_prefix Encoding.RAW width (zlen raw) 0; Ok (prefix ++ raw)).
Proof.
  intros Hlen Hv. unfold encode_gpio_payload.
  assert (Hb : (width_bits =? 8) || (width_bits =? 16) = true)
    by (destruct Hwidth as [-> | ->]; lia).
  assert (Hdiv : width_bits / 8 = width) by (rewrite Hbits, Z.mul_comm; by apply Z.div_mul).
  rewrite Hb, Hdiv. cbn [_require require mbind result_bind].
  change MAX_LOGICAL_PAYLOAD_BYTES with 4048.
  rewrite !(proj2 (Z.leb_le _ _)) by lia. cbn [andb _require require mbind result_bind].
  destruct (gpio_encoder values) as (st & p & record & -> & Hp & Hraw & Hrec & Hrle & Hruns);
    [intros ->; unfold zlen in Hlen; cbn in Hlen; lia|destruct Hwidth as [-> | ->]; zlia|done|].
  cbn [mbind result_bind]. rewrite Hp. cbn [of_option mbind result_bind]. rewrite Hrec.
  cbn [mbind result_bind]. by rewrite Hrle, Hruns, Hraw.
Qed.

End Encoder.

Lemma runs_ok_bounds runs previous :
  runs_ok previous runs ->
  Forall (fun r : rle_record => 0 < r.1 <= run_total runs) runs /\ zlen runs <= run_total runs.
Proof.
  revert previous. induction runs as [|[n v] runs IH]; intros previous; [done|].
  intros (Hn & _ & Hr). destruct (IH _ Hr) as [HF Hl]. cbn [run_total fst snd].
  pose proof (zlen_nonneg runs). split; [|len].
  constructor; [cbn; lia|]. eapply Forall_impl; [exact HF|]. intros r. cbn. lia.
Qed.

Lemma runs_of_values_ok (P : Z -> Prop) values :
  Forall P values -> Forall (fun r : rle_record => P r.2) (runs_of values).
Proof.
  induction 1 as [|v values Hv _ IH]; [constructor|]. cbn [runs_of].
  destruct (runs_of values) as [|[n w] runs]; cbn; [by repeat constructor|].
  apply Forall_cons in IH as [Hw IH]. destruct (v =? w); by repeat constructor.
Qed.

Lemma runs_of_wire_ok width values :
  zlen values < 65536 -> Forall (gpio_item_ok width) values ->
  Forall (run_wire_ok width) (runs_of values).
Proof.
  intros Hl Hv. pose proof (runs_of_ok values None ltac:(done)) as Hok.
  apply runs_ok_bounds in Hok as [HF _]. rewrite runs_of_total in HF.
  pose proof (runs_of_values_ok _ _ Hv) as HV.
  induction HF as [|r runs Hr _ IH]; [constructor|].
  apply Forall_cons in HV as [HV1 HV]. constructor; [split; [lia|done]|by apply IH].
Qed.

Lemma runs_wire_values width runs :
  Forall (run_wire_ok width) runs -> Forall (fun r : rle_record => gpio_item_ok width r.2) runs.
Proof. intros H. eapply Forall_impl; [exact H|]. by intros r [_ ?]. Qed.

(** Decoding the wire form of a validated run list. *)
Lemma decode_samples_rle width runs :
  width = 1 \/ width = 2 -> Forall (run_wire_ok width) runs -> runs_ok None runs -> runs <> [] ->
  zlen (rle_wire width runs) < run_total runs * width ->
  decode_samples FrameKind.GPIO_DATA (int_of Encoding.GPIO_RLE) width (run_total runs * width)
    (zlen runs) (run_total runs) (rle_wire width runs) = Ok (gpio_raw width (values_of runs)).
Proof.
  intros Hwidth Hw Hok Hne Hlt. unfold decode_samples. cbn [int_of Encoding.Encoding_enum Z.eqb Pos.eqb].
  rewrite bool_decide_eq_true_2 by done. cbn [_require require mbind result_bind].
  pose proof (runs_ok_bounds _ _ Hok) as [_ Hle].
  assert (Hl : zlen (rle_wire width runs) = zlen runs * (2 + width)).
  { unfold zlen. rewrite length_rle_wire. destruct Hwidth as [-> | ->]; lia. }
  assert (Hpos : 1 <= zlen runs) by (destruct runs as [|r runs]; [by destruct Hne|len]).
  rewrite !(proj2 (Z.leb_le _ _)), (proj2 (Z.eqb_eq _ _)) by lia.
  cbn [andb _require require mbind result_bind].
  rewrite (proj2 (Z.ltb_lt _ _)) by done. cbn [_require require mbind result_bind].
  rewrite rle_records_wire by done. cbn [of_option mbind result_bind].
  rewrite (proj2 (rle_validate_iff (run_total runs) 0 None runs (run_total runs)))
    by (split; [done|split; [lia|right; lia]]).
  cbn [mbind result_bind]. rewrite Z.eqb_refl. cbn [_require require mbind result_bind].
  apply rle_expand_values; [lia|by apply runs_wire_values].
Qed.

Lemma gpio_roundtrip width values policy :
  width = 1 \/ width = 2 -> 1 <= zlen values <= 4048 / width ->
  Forall (gpio_item_ok width) values ->
  exists payload encoding,
    encode_gpio_payload values (8 * width) policy = Ok payload /\ wf_bytes payload /\
    decode_data_payload FrameKind.GPIO_DATA payload (zlen values) =
    Ok (V3DecodedData.mk encoding width (zlen values) (gpio_raw width values)
          (zlen payload - 12)) /\
    zlen payload <= 12 + width * zlen values /\
    (encoding = Encoding.GPIO_RLE /\ policy = GpioPolicy.RLE_AUTO /\
     zlen payload < 12 + width * zlen values \/ encoding = Encoding.RAW).
Proof.
  intros Hwidth Hlen Hv. rewrite (encode_gpio_value (8 * width) width eq_refl Hwidth) by done.
  set (runs := runs_of values). set (rle := rle_wire width runs). set (raw := gpio_raw width values).
  assert (Hraw : zlen raw = zlen values * width).
  { unfold raw, zlen. rewrite length_gpio_raw. destruct Hwidth as [-> | ->]; lia. }
  assert (Hmax : zlen values * width <= 4048) by (destruct Hwidth as [-> | ->]; zlia).
  assert (Hwb : 0 <= width < 256) by lia. pose proof (zlen_nonneg values) as Hnn.
  pose proof (runs_of_ok values None ltac:(done)) as Hok. fold runs in Hok.
  pose proof (runs_ok_bounds _ _ Hok) as [_ Hle]. pose proof (zlen_nonneg runs) as Hrn.
  assert (Htot : run_total runs = zlen values) by apply runs_of_total.
  assert (Hwr : wf_bytes raw).
  { unfold raw, gpio_raw. clear. induction values; [constructor|]. cbn [map concat].
    apply wf_bytes_app. auto using wf_to_le. }
  assert (Hwl : wf_bytes rle).
  { unfold rle, rle_wire. clear. induction runs; [constructor|]. cbn [map concat].
    rewrite !wf_bytes_app. auto using wf_to_le. }
  assert (Hdata : _DATA_KINDS FrameKind.GPIO_DATA = true) by done.
  cbv zeta. destruct (bool_decide (policy = GpioPolicy.RLE_AUTO) && (zlen rle <? zlen raw)) eqn:Hc.
  - apply andb_true_iff in Hc as [Hp Hlt]. apply bool_decide_eq_true in Hp. apply Z.ltb_lt in Hlt.
    destruct (pack_prefix_ok Encoding.GPIO_RLE width (zlen raw) (zlen runs)) as
      (prefix & -> & Hw & Hl & Hu); [lia|pow_lit; lia|pow_lit; nia|]. cbn [mbind result_bind].
    exists (prefix ++ rle), Encoding.GPIO_RLE. split; [done|]. split; [by apply wf_bytes_app|].
    assert (Hpl : zlen (prefix ++ rle) = 12 + zlen rle) by len.
    split; [|split; [lia|left; split; [done|split; [done|lia]]]].
    rewrite (decode_known_prefix _ _ _ Encoding.GPIO_RLE width (zlen raw) (zlen runs)); try done; [|lia].
    rewrite Hraw, <-Htot. unfold rle. rewrite decode_samples_rle; try done.
    + cbn [mbind result_bind]. unfold runs. rewrite values_of_runs_of. do 2 f_equal. fold runs rle. lia.
    + apply runs_of_wire_ok; [lia|done].
    + intros Hnil. rewrite Hnil in Htot. cbn in Htot. lia.
    + fold rle. lia.
  - destruct (pack_prefix_ok Encoding.RAW width (zlen raw) 0) as
      (prefix & -> & Hw & Hl & Hu); [lia|pow_lit; lia|pow_lit; lia|]. cbn [mbind result_bind].
    exists (prefix ++ raw), Encoding.RAW. split; [done|]. split; [by apply wf_bytes_app|].
    assert (Hpl : zlen (prefix ++ raw) = 12 + zlen raw) by len.
    split; [|split; [lia|by right]].
    rewrite (decode_known_prefix _ _ _ Encoding.RAW width (zlen raw) 0); try done; [|lia].
    unfold decode_samples. cbn [int_of Encoding.Encoding_enum Z.eqb Pos.eqb].
    rewrite Z.eqb_refl. cbn [andb _require require mbind result_bind].
    rewrite decide_False by done. cbn [mbind result_bind]. do 2 f_equal. lia.
Qed.

(** ** What an accepted payload is *)

Lemma decode_payload_inv kind payload count d :
  wf_bytes payload -> decode_data_payload kind payload count = Ok d ->
  exists prefix samples runs width,
    payload = prefix ++ samples /\ wf_bytes samples /\ zlen samples <= 4048 /\
    length prefix = 12%nat /\
    pack_prefix d.(V3DecodedData.encoding) width (count * width) runs = Ok prefix /\
    _DATA_KINDS kind = true /\
    (if decide (kind = FrameKind.ADC_DATA) then width = 4 else width = 1 \/ width = 2) /\
    1 <= count <= 4048 / width /\
    decode_samples kind (int_of d.(V3DecodedData.encoding)) width (count * width) runs count samples
      = Ok d.(V3DecodedData.payload) /\
    d.(V3DecodedData.item_bytes) = width /\ d.(V3DecodedData.item_count) = count /\
    d.(V3DecodedData.encoded_sample_bytes) = zlen samples.
Proof.
  intros Hw. unfold decode_data_payload, _bounded_bytes, _require.
  change DATA_PREFIX_BYTES with 12. change (12 + MAX_ENCODED_SAMPLE_BYTES) with 4060.
  change MAX_LOGICAL_PAYLOAD_BYTES with 4048. intros H.
  apply bind_Ok_inv in H as (data & Hd & H). apply require_bind in Hd as [Hb [= <-]].
  apply andb_true_iff in Hb as [Hb1 Hb2]. apply Z.leb_le in Hb1, Hb2.
  apply bind_Ok_inv in H as (vs & Hvs & H). apply of_option_Ok_inv in Hvs.
  assert (Hfit : (0 + calcsize DATA_PREFIX_STRUCT_FORMAT <= length payload)%nat)
    by (change (calcsize DATA_PREFIX_STRUCT_FORMAT) with 12%nat; unfold zlen in Hb1; lia).
  unfold unpack_from in Hvs. rewrite (proj2 (Nat.leb_le _ _) Hfit), drop_0 in Hvs.
  pose proof (pack_unpack_fields DATA_PREFIX_STRUCT_FORMAT payload Hw Hfit) as Hpk.
  assert (Hvs' : unpack_fields DATA_PREFIX_STRUCT_FORMAT payload = vs) by congruence.
  rewrite Hvs' in Hpk. clear Hvs Hvs'. destruct vs as (encoding & width & reserved & decoded & runs & []).
  rewrite !require_bind, andb_true_iff, !Z.leb_le, !Z.eqb_eq in H.
  destruct H as (Hk & -> & Hwidth & Hcount & -> & H).
  apply bind_Ok_inv in H as (raw & Hraw & H). apply bind_Ok_inv in H as (enc & Henc & [= <-]).
  apply of_option_Ok_inv, enum_of_Some in Henc. subst encoding.
  exists (take 12 payload), (drop 12 payload), runs, width. cbn [V3DecodedData.encoding
    V3DecodedData.item_bytes V3DecodedData.item_count V3DecodedData.payload
    V3DecodedData.encoded_sample_bytes].
  split; [by rewrite take_drop|]. split; [auto with daq|]. split; [len|]. split; [len|].
  split; [unfold pack_prefix; by rewrite Hpk|]. split; [done|].
  split; [case_decide; lia|]. split; [exact Hcount|]. done.
Qed.

Lemma gpio_values width n samples :
  width = 1 \/ width = 2 -> wf_bytes samples -> zlen samples = Z.of_nat n * width ->
  exists values, Forall (gpio_item_ok width) values /\ length values = n /\
    gpio_raw width values = samples.
Proof.
  intros Hwidth. revert samples. induction n as [|n IH]; intros samples Hw Hl.
  - destruct samples; [|unfold zlen in Hl; cbn in Hl; lia]. by exists [].
  - set (k := Z.to_nat width).
    assert (Hk : Z.of_nat k = width) by lia.
    assert (Hlk : (k <= length samples)%nat) by (unfold zlen in Hl; nia).
    destruct (IH (drop k samples)) as (values & Hv & Hn & Hc);
      [auto with daq|len; nia|].
    pose proof (from_le_bound (take k samples) (wf_bytes_take _ _ Hw)) as Hb.
    unfold zlen in Hb. rewrite length_take_le, Hk in Hb by done.
    exists (from_le (take k samples) :: values). split; [by constructor|]. split; [cbn; lia|].
    unfold gpio_raw in *. cbn [map concat]. rewrite Hc. fold k.
    rewrite <-(take_drop k samples) at 3. f_equal.
    rewrite <-(length_take_le samples k Hlk) at 1. apply to_from_le. auto with daq.
Qed.

(** Every accepted payload is what the encoder produces for the decoded items. *)
Lemma payload_is_encoded kind payload count d :
  wf_bytes payload -> decode_data_payload kind payload count = Ok d ->
  (kind = FrameKind.ADC_DATA /\ exists pairs policy,
     Forall adc_pair_ok pairs /\ zlen pairs = count /\
     d.(V3DecodedData.payload) = concat (map raw_pair pairs) /\
     encode_adc_payload pairs policy = Ok payload) \/
  (kind = FrameKind.GPIO_DATA /\ exists values policy,
     Forall (gpio_item_ok d.(V3DecodedData.item_bytes)) values /\ zlen values = count /\
     d.(V3DecodedData.payload) = gpio_raw d.(V3DecodedData.item_bytes) values /\
     encode_gpio_payload values (8 * d.(V3DecodedData.item_bytes)) policy = Ok payload).
Proof.
  intros Hw H. destruct (decode_payload_inv _ _ _ _ Hw H) as (prefix & samples & runs & width &
    -> & Hws & Hs & Hl & Hpre & Hk & Hwidth & Hc & Hdec & -> & _ & _). clear H.
  destruct d as [enc ? ? raw ?]. cbn [V3DecodedData.encoding V3DecodedData.payload] in *.
  assert (Hkind : kind = FrameKind.ADC_DATA \/ kind = FrameKind.GPIO_DATA) by (destruct kind; auto; done).
  unfold decode_samples, _require in Hdec. destruct Hkind as [-> | ->]; [left|right]; (split; [done|]).
  - rewrite decide_True in Hwidth by done. subst width. change (4048 / 4) with 1012 in Hc.
    set (n := Z.to_nat count). destruct enc; cbn [int_of Encoding.Encoding_enum Z.eqb Pos.eqb] in Hdec.
    + rewrite decide_True, !require_bind, andb_true_iff, !Z.eqb_eq in Hdec by done.
      destruct Hdec as ((-> & Hn) & Hv & [= <-]).
      apply (raw_pairs n) in Hv as (pairs & Hp & Hpn & Hraw); [|done|unfold zlen in Hn; lia].
      exists pairs, AdcPolicy.RAW. split; [done|]. assert (Hz : zlen pairs = count) by (unfold zlen; lia).
      split; [done|]. split; [done|]. unfold encode_adc_payload, _require. rewrite Hz.
      change MAX_ADC_PAIRS with 1012.
      rewrite !(proj2 (Z.leb_le _ _)) by lia. cbn [andb require mbind result_bind].
      rewrite encode_pairs by done. cbn [mbind result_bind]. rewrite (Z.mul_comm 4), Hpre.
      cbn [mbind result_bind]. by rewrite Hraw.
    + rewrite require_bind, bool_decide_eq_true in Hdec. by destruct Hdec.
    + rewrite !require_bind, andb_true_iff, !Z.eqb_eq in Hdec.
      destruct Hdec as ((_ & ->) & Hn & Hx). apply of_option_Ok_inv in Hx.
      rewrite pack12_expand_unpack12 in Hx by done. injection Hx as <-.
      destruct (pack12_pairs n samples) as (pairs & Hp & Hpn & Hraw); [done|unfold zlen in Hn; lia|].
      exists pairs, AdcPolicy.PACK12. split; [done|]. assert (Hz : zlen pairs = count) by (unfold zlen; lia).
      split; [done|]. split; [by rewrite <-Hraw, unpack12_pack12|].
      unfold encode_adc_payload, _require. rewrite Hz. change MAX_ADC_PAIRS with 1012.
      rewrite !(proj2 (Z.leb_le _ _)) by lia. cbn [andb require mbind result_bind].
      rewrite encode_pairs by done. cbn [mbind result_bind]. rewrite (Z.mul_comm 4), Hpre.
      cbn [mbind result_bind]. by rewrite Hraw.
  - rewrite decide_False in Hwidth by done. cbn [V3DecodedData.item_bytes].
    destruct enc; cbn [int_of Encoding.Encoding_enum Z.eqb Pos.eqb] in Hdec.
    + rewrite decide_False, !require_bind, andb_true_iff, !Z.eqb_eq in Hdec by done.
      destruct Hdec as ((-> & Hn) & [= <-]).
      destruct (gpio_values width (Z.to_nat count) samples) as (values & Hv & Hvn & Hraw); [done|done|lia|].
      assert (Hz : zlen values = count) by (unfold zlen; lia).
      exists values, GpioPolicy.RAW. split; [done|]. split; [done|]. split; [done|].
      rewrite (encode_gpio_value (8 * width) width eq_refl Hwidth) by (done || lia).
      cbv zeta. rewrite bool_decide_eq_false_2 by done. cbn [andb]. rewrite Hraw, Hn, Hpre. done.
    + rewrite bool_decide_eq_true_2, !require_bind, !andb_true_iff, !Z.leb_le, Z.eqb_eq, Z.ltb_lt in Hdec by done.
      destruct Hdec as (_ & ((Hr1 & Hr2) & Hn) & Hlt & H).
      apply bind_Ok_inv in H as (records & Hrec & H). apply of_option_Ok_inv in Hrec.
      apply bind_Ok_inv in H as (total & Hval & H). apply rle_validate_iff in Hval as (Hok & -> & _).
      rewrite require_bind, Z.eqb_eq in H. destruct H as [Htot H].
      apply rle_records_inv in Hrec as [Hwire ->]; [|done|done].
      rewrite rle_expand_values in H by (lia || by apply runs_wire_values). injection H as <-.
      assert (Hrl : zlen records = runs).
      { unfold zlen in *. rewrite length_rle_wire in Hn. destruct Hwidth as [-> | ->]; lia. }
      assert (Hrv : runs_of (values_of records) = records) by (by eapply runs_of_values_of).
      assert (Hz : zlen (values_of records) = count) by (rewrite <-runs_of_total, Hrv; lia).
      assert (Hvok : Forall (gpio_item_ok width) (values_of records)).
      { clear -Hwire. unfold values_of. induction Hwire as [|[m v] rs [_ Hv] _ IH]; [constructor|].
        cbn [map concat fst snd]. apply Forall_app. split; [by apply Forall_replicate|done]. }
      exists (values_of records), GpioPolicy.RLE_AUTO. split; [done|]. split; [done|]. split; [done|].
      rewrite (encode_gpio_value (8 * width) width eq_refl Hwidth) by (done || lia).
      cbv zeta. rewrite Hrv, bool_decide_eq_true_2 by done.
      assert (Hrz : zlen (gpio_raw width (values_of records)) = count * width).
      { unfold zlen in *. rewrite length_gpio_raw. destruct Hwidth as [-> | ->]; lia. }
      rewrite Hrz, (proj2 (Z.ltb_lt _ _)) by done. cbn [andb]. by rewrite Hrl, Hpre.
    + rewrite require_bind, andb_true_iff, bool_decide_eq_true in Hdec. by destruct Hdec as [[? _] _].
Qed.

(** ** Only validation errors *)

Lemma iter_unpack_total fmt k data :
  (0 < calcsize fmt)%nat -> length data = (k * calcsize fmt)%nat ->
  exists rs, iter_unpack fmt data = Some rs.
Proof.
  intros Hpos. unfold iter_unpack. intros Hk.
  assert (Hf : (length data <= length data)%nat) by lia. revert Hf.
  generalize (length data) at 2 3. intros fuel. revert k data Hk.
  induction fuel as [|fuel IH]; intros k data Hk Hf; destruct data as [|x data]; cbn in Hf;
    try lia; cbn [iter_unpack_loop]; eauto.
  set (d := x :: data) in *. assert (Hd : length d = S (length data)) by done.
  destruct k as [|k]; [lia|]. cbn [Nat.mul] in Hk. unfold unpack_from.
  rewrite (proj2 (Nat.leb_le _ _)) by lia. cbn [mbind option_bind].
  destruct (IH k (drop (calcsize fmt) d)) as [rs Hrs]; [rewrite length_drop; lia..|].
  unfold unpack_from in Hrs. rewrite Hrs. cbn. eauto.
Qed.

Lemma rle_records_total width runs samples :
  width = 1 \/ width = 2 -> zlen samples = runs * (2 + width) ->
  exists records, rle_records width samples = Some records.
Proof.
  intros Hwidth Hl. unfold rle_records, zlen in *. destruct Hwidth as [-> | ->].
  - destruct (iter_unpack_total GPIO8_RLE_RECORD_STRUCT_FORMAT (Z.to_nat runs) samples) as [rs Hrs];
      [cbn; lia|change (calcsize _) with 3%nat; lia|]. rewrite Hrs. cbn. eauto.
  - destruct (iter_unpack_total GPIO16_RLE_RECORD_STRUCT_FORMAT (Z.to_nat runs) samples) as [rs Hrs];
      [cbn; lia|change (calcsize _) with 4%nat; lia|]. rewrite Hrs. cbn. eauto.
Qed.

Lemma caught_rle_validate item_count total previous records :
  caught (rle_validate item_count total previous records).
Proof.
  revert total previous. induction records as [|[n v] records IH]; intros total previous; [done|].
  cbn [rle_validate]. caught.
Qed.
#[export] Hint Resolve caught_rle_validate : daq.

Lemma caught_decode_samples kind encoding width runs item_count samples :
  wf_bytes samples -> width = 4 \/ width = 1 \/ width = 2 ->
  (kind = FrameKind.ADC_DATA -> width = 4) -> (kind <> FrameKind.ADC_DATA -> width = 1 \/ width = 2) ->
  caught (decode_samples kind encoding width (item_count * width) runs item_count samples).
Proof.
  intros Hw Hwidth Ha Hg. unfold decode_samples. caught.
  - (* PACK12 *)
    match goal with H : _require (bool_decide _ && _) _ = Ok _ |- _ =>
      apply require_Ok, andb_true_iff in H as [Hk _]; apply bool_decide_eq_true in Hk end.
    match goal with H : _require (zlen _ =? _) _ = Ok _ |- _ => apply require_Ok, Z.eqb_eq in H as Hl end.
    match goal with H : pack12_expand _ _ _ = None |- _ =>
      rewrite (Ha Hk), pack12_expand_unpack12 in H by done; discriminate end.
  - (* record split *)
    match goal with H : _require (bool_decide _) _ = Ok _ |- _ =>
      apply require_Ok, bool_decide_eq_true in H as Hk end.
    match goal with H : _require (_ && _ && _) _ = Ok _ |- _ =>
      apply require_Ok, andb_true_iff in H as [_ Hl]; apply Z.eqb_eq in Hl end.
    destruct (rle_records_total width runs samples) as [rs Hrs]; [apply Hg; by rewrite Hk|done|].
    congruence.
  - (* expansion *)
    match goal with H : _require (bool_decide _) _ = Ok _ |- _ =>
      apply require_Ok, bool_decide_eq_true in H as Hk end.
    match goal with H : of_option (rle_records _ _) _ = Ok _ |- _ => apply of_option_Ok_inv in H as Hr end.
    apply rle_records_inv in Hr as [Hok _]; [|apply Hg; by rewrite Hk|done].
    rewrite rle_expand_values; [done|lia|by apply runs_wire_values].
Qed.

Lemma decode_samples_encoding kind encoding width decoded runs item_count samples raw :
  decode_samples kind encoding width decoded runs item_count samples = Ok raw ->
  exists e : Encoding, enum_of encoding = Some e.
Proof.
  unfold decode_samples.
  destruct (Z.eqb_spec encoding (int_of Encoding.RAW)) as [->|_]; [eauto using enum_of_int|].
  destruct (Z.eqb_spec encoding (int_of Encoding.ADC_PACK12)) as [->|_]; [eauto using enum_of_int|].
  destruct (Z.eqb_spec encoding (int_of Encoding.GPIO_RLE)) as [->|_]; [eauto using enum_of_int|].
  discriminate.
Qed.

Lemma caught_decode_data kind payload item_count :
  wf_bytes payload -> caught (decode_data_payload kind payload item_count).
Proof.
  intros Hw. unfold decode_data_payload, _bounded_bytes.
  apply caught_bind; [caught|]. intros data Hd. apply bind_Ok_inv in Hd as (u & Hd & [= <-]).
  apply require_Ok, andb_true_iff in Hd as [Hd _]. apply Z.leb_le in Hd. unfold DATA_PREFIX_BYTES in Hd.
  assert (Hfit : (0 + calcsize DATA_PREFIX_STRUCT_FORMAT <= length payload)%nat)
    by (change (calcsize DATA_PREFIX_STRUCT_FORMAT) with 12%nat; unfold zlen in Hd; lia).
  apply caught_bind; [unfold unpack_from; by rewrite (proj2 (Nat.leb_le _ _) Hfit)|].
  intros vs _. destruct vs as (encoding & width & reserved & decoded & runs & []).
  apply caught_bind; [caught|intros ? Hk]. apply require_Ok in Hk.
  apply caught_bind; [caught|intros ? _].
  apply caught_bind; [caught|intros ? Hwidth]. apply require_Ok in Hwidth.
  apply caught_bind; [caught|intros ? _].
  apply caught_bind; [caught|intros ? Hdec]. apply require_Ok, Z.eqb_eq in Hdec. subst decoded.
  apply caught_bind.
  - apply caught_decode_samples; [auto with daq|case_decide; lia|..]; intros Hkind.
    + rewrite decide_True in Hwidth by done. lia.
    + rewrite decide_False in Hwidth by done. lia.
  - intros raw Hraw. destruct (decode_samples_encoding _ _ _ _ _ _ _ _ Hraw) as [e He].
    by rewrite He.
Qed.

(** ** Claims *)

(** C18. ADC samples are lossless under both policies: 1 to 1012 pairs of twelve-bit
    codes encode without error, and the decoder (whose PACK12 path works on whole byte
    lanes) returns exactly the little-endian sixteen-bit pairs. *)
Theorem adc_payload_roundtrip (policy : AdcPolicy) (pairs : list (Z * Z))
    (Hlen : 1 <= zlen pairs <= 1012) (Hcodes : Forall adc_pair_ok pairs) :
  exists payload, encode_adc_payload pairs policy = Ok payload /\ wf_bytes payload /\
    decode_data_payload FrameKind.ADC_DATA payload (zlen pairs) =
    Ok (V3DecodedData.mk
          (match policy with AdcPolicy.PACK12 => Encoding.ADC_PACK12 | AdcPolicy.RAW => Encoding.RAW end)
          4 (zlen pairs) (concat (map raw_pair pairs))
          (match policy with AdcPolicy.PACK12 => 3 * zlen pairs | AdcPolicy.RAW => 4 * zlen pairs end)).
Proof. by apply adc_roundtrip. Qed.

Lemma adc_payload_roundtrip_witness :
  exists payload, encode_adc_payload [(0xABC, 0x123); (4095, 0)] AdcPolicy.PACK12 = Ok payload /\
    wf_bytes payload /\
    decode_data_payload FrameKind.ADC_DATA payload 2 =
    Ok (V3DecodedData.mk Encoding.ADC_PACK12 4 2
          [0xBC; 0x0A; 0x23; 0x01; 0xFF; 0x0F; 0x00; 0x00] 6).
Proof.
  apply (adc_payload_roundtrip AdcPolicy.PACK12 [(0xABC, 0x123); (4095, 0)]).
  - vm_compute. intuition discriminate.
  - repeat constructor; vm_compute; intuition discriminate.
Defined.

(** C10. GPIO samples are lossless at both widths and policies: the decoder returns the
    little-endian samples, the payload is never larger than RAW, and the run-length form
    is used only under RLE_AUTO and only when strictly smaller. *)
Theorem gpio_payload_roundtrip (width : Z) (values : list Z) (policy : GpioPolicy)
    (Hwidth : width = 1 \/ width = 2) (Hlen : 1 <= zlen values <= 4048 / width)
    (Hvalues : Forall (gpio_item_ok width) values) :
  exists payload encoding,
    encode_gpio_payload values (8 * width) policy = Ok payload /\ wf_bytes payload /\
    decode_data_payload FrameKind.GPIO_DATA payload (zlen values) =
    Ok (V3DecodedData.mk encoding width (zlen values) (gpio_raw width values)
          (zlen payload - 12)) /\
    zlen payload <= 12 + width * zlen values /\
    (encoding = Encoding.GPIO_RLE /\ policy = GpioPolicy.RLE_AUTO /\
     zlen payload < 12 + width * zlen values \/ encoding = Encoding.RAW).
Proof. by apply gpio_roundtrip. Qed.

Lemma gpio_payload_roundtrip_witness :
  exists payload encoding,
    encode_gpio_payload [7; 7; 7; 7; 7; 9] 8 GpioPolicy.RLE_AUTO = Ok payload /\ wf_bytes payload /\
    decode_data_payload FrameKind.GPIO_DATA payload 6 =
    Ok (V3DecodedData.mk encoding 1 6 [7; 7; 7; 7; 7; 9] (zlen payload - 12)) /\
    zlen payload <= 12 + 1 * 6 /\
    (encoding = Encoding.GPIO_RLE /\ GpioPolicy.RLE_AUTO = GpioPolicy.RLE_AUTO /\
     zlen payload < 12 + 1 * 6 \/ encoding = Encoding.RAW).
Proof.
  apply (gpio_payload_roundtrip 1 [7; 7; 7; 7; 7; 9] GpioPolicy.RLE_AUTO).
  - left. reflexivity.
  - vm_compute. intuition discriminate.
  - repeat constructor; vm_compute; (discriminate || reflexivity).
Defined.

(** An accepted data payload carries at least one sample byte and at most 4,048. *)
Lemma decode_data_size kind payload count d :
  decode_data_payload kind payload count = Ok d -> 12 < zlen payload <= 4060.
Proof.
  unfold decode_data_payload. intros H. apply bind_Ok_inv in H as (data & Hd & H).
  unfold _bounded_bytes in Hd. apply require_bind in Hd as [Hb Hd]. apply Ok_inj in Hd. subst data.
  unfold DATA_PREFIX_BYTES, MAX_ENCODED_SAMPLE_BYTES in Hb.
  assert (12 <= zlen payload <= 4060) by lia. enough (zlen payload <> 12) by lia. intros Hz.
  apply bind_Ok_inv in H as ((encoding & width & reserved & decoded & runs & []) & _ & H).
  unfold _require in H. rewrite !require_bind in H. destruct H as (_ & _ & Hwid & Hc & Hdec & H).
  apply bind_Ok_inv in H as (raw & Hs & _).
  assert (Hn : drop (Z.to_nat DATA_PREFIX_BYTES) payload = []) by (apply drop_ge; unfold DATA_PREFIX_BYTES, zlen in *; lia).
  rewrite Hn in Hs. apply Z.eqb_eq in Hdec. change (fval U8) with Z in *. change (fval U32) with Z in *.
  assert (1 <= width) by (case_decide; lia). assert (1 <= count) by lia.
  unfold decode_samples, _require in Hs. change (zlen (@nil Z)) with 0 in Hs.
  repeat case_match; rewrite ?require_bind in Hs; try discriminate.
  all: destruct Hs as (Ha & Hs); try (destruct Hs as (Hs & _)); nia.
Qed.

(** The wire form of samples is canonical: a data payload that the decoder accepts
    is, byte for byte, what the encoder of its kind produces for the decoded items
    under one of the policies; in particular ADC codes fit twelve bits. *)
Theorem payload_canonical (kind : FrameKind) (payload : bytes) (count : Z) (d : V3DecodedData)
    (Hpayload : wf_bytes payload) (Hdecode : decode_data_payload kind payload count = Ok d) :
  (kind = FrameKind.ADC_DATA /\ exists pairs policy,
     Forall adc_pair_ok pairs /\ zlen pairs = count /\
     d.(V3DecodedData.payload) = concat (map raw_pair pairs) /\
     encode_adc_payload pairs policy = Ok payload) \/
  (kind = FrameKind.GPIO_DATA /\ exists values policy,
     Forall (gpio_item_ok d.(V3DecodedData.item_bytes)) values /\ zlen values = count /\
     d.(V3DecodedData.payload) = gpio_raw d.(V3DecodedData.item_bytes) values /\
     encode_gpio_payload values (8 * d.(V3DecodedData.item_bytes)) policy = Ok payload).
Proof. by apply payload_is_encoded. Qed.

Lemma payload_canonical_witness :
  (FrameKind.GPIO_DATA = FrameKind.ADC_DATA /\ exists pairs policy,
     Forall adc_pair_ok pairs /\ zlen pairs = 5 /\
     [8; 8; 8; 8; 8] = concat (map raw_pair pairs) /\
     encode_adc_payload pairs policy = Ok [1; 1; 0; 0; 5; 0; 0; 0; 1; 0; 0; 0; 5; 0; 8]) \/
  (FrameKind.GPIO_DATA = FrameKind.GPIO_DATA /\ exists values policy,
     Forall (gpio_item_ok 1) values /\ zlen values = 5 /\
     [8; 8; 8; 8; 8] = gpio_raw 1 values /\
     encode_gpio_payload values (8 * 1) policy = Ok [1; 1; 0; 0; 5; 0; 0; 0; 1; 0; 0; 0; 5; 0; 8]).
Proof.
  apply (payload_canonical FrameKind.GPIO_DATA [1; 1; 0; 0; 5; 0; 0; 0; 1; 0; 0; 0; 5; 0; 8] 5
           (V3DecodedData.mk Encoding.GPIO_RLE 1 5 [8; 8; 8; 8; 8] 3)).
  - repeat constructor; vm_compute; (discriminate || reflexivity).
  - vm_compute. reflexivity.
Defined.
