(* ===== verification/ModelsV3.v ===== *)
(** * Protocol-v3 control records ([models_v3.py]).

    Settings, clocks, rates, applied settings, identity, capabilities, stop and status
    records with their payload codecs, settings selection, and the decoding of a
    response.  Each codec's two directions are shown to be inverse to one another. *)

From S2P Require Import Prelude PyStruct V3Constants V3Header.

(** ** Helpers *)

(** [bytes(n)] and [data.ljust(n)] with NUL fill *)
Definition ljust (data : bytes) (n : nat) : bytes := data ++ replicate (n - length data) 0.

Definition all_zero (data : bytes) : bool := forallb (fun b => b =? 0) data.

Definition _OK : bytes := replicate (Z.to_nat RESPONSE_PREFIX_PAYLOAD_SIZE) 0.

Definition _LIMITS : list Z :=
  [MAX_DATA_FRAME_BYTES; MAX_CONTROL_FRAME_BYTES; MAX_LOGICAL_PAYLOAD_BYTES;
   MAX_ENCODED_SAMPLE_BYTES; MAX_ADC_PAIRS; MAX_GPIO8_SAMPLES; MAX_GPIO16_SAMPLES].

Definition _pack (fmt : list fcode) (values : fvals fmt) : v3 bytes :=
  of_option (pack fmt values) (invalid "record scalar outside wire range").

Definition _success (payload : bytes) (size : Z) : v3 bytes :=
  data ← _bounded_bytes payload size size;
  _ ← _require (bool_decide (take 4 data = _OK)) "expected successful response prefix";
  Ok data.

(** An enum lookup inside [try ... except ValueError]. *)
Definition enum_field {A} `{IntEnum A} (value : Z) (message : string) : v3 A :=
  of_option (enum_of value) (invalid message).

(** ** Settings *)

(** The thirteen constructor arguments as integers. *)
Module SettingsFields.
Record SettingsFields := mk {
  stream_mask : Z; source : Z; checksum_algorithm : Z; wire_version : Z; cpu_profile : Z;
  rate_profile : Z; aux_bank_mode : Z; gpio_width_bits : Z; gpio_policy : Z; adc_policy : Z;
  adc_resolution_bits : Z; adc_pair_rate_hz : Z; gpio_sample_rate_hz : Z
}.
#[global] Instance SettingsFields_eq_dec : EqDecision SettingsFields.
Proof. solve_decision. Defined.
End SettingsFields.
Abbreviation SettingsFields := SettingsFields.SettingsFields.

Module V3Settings.
Record V3Settings := mk {
  stream_mask : Z;
  source : Source;
  checksum_algorithm : ChecksumAlgorithm;
  wire_version : Z;
  cpu_profile : CpuProfile;
  rate_profile : RateProfile;
  aux_bank_mode : AuxBankMode;
  gpio_width_bits : Z;
  gpio_policy : GpioPolicy;
  adc_policy : AdcPolicy;
  adc_resolution_bits : Z;
  adc_pair_rate_hz : Z;
  gpio_sample_rate_hz : Z
}.
#[global] Instance V3Settings_eq_dec : EqDecision V3Settings.
Proof. solve_decision. Defined.
End V3Settings.
Abbreviation V3Settings := V3Settings.V3Settings.

(** The attributes of a settings object, enums as their values. *)
Definition fields_of (s : V3Settings) : SettingsFields :=
  SettingsFields.mk s.(V3Settings.stream_mask) (int_of s.(V3Settings.source))
    (int_of s.(V3Settings.checksum_algorithm)) s.(V3Settings.wire_version)
    (int_of s.(V3Settings.cpu_profile)) (int_of s.(V3Settings.rate_profile))
    (int_of s.(V3Settings.aux_bank_mode)) s.(V3Settings.gpio_width_bits)
    (int_of s.(V3Settings.gpio_policy)) (int_of s.(V3Settings.adc_policy))
    s.(V3Settings.adc_resolution_bits) s.(V3Settings.adc_pair_rate_hz)
    s.(V3Settings.gpio_sample_rate_hz).

(** In wire order, with the reserved byte. *)
Definition settings_wire (f : SettingsFields) : fvals SETTINGS_STRUCT_FORMAT :=
  (f.(SettingsFields.stream_mask), (f.(SettingsFields.source),
  (f.(SettingsFields.checksum_algorithm), (f.(SettingsFields.wire_version),
  (f.(SettingsFields.cpu_profile), (f.(SettingsFields.rate_profile),
  (f.(SettingsFields.aux_bank_mode), (f.(SettingsFields.gpio_width_bits),
  (f.(SettingsFields.gpio_policy), (f.(SettingsFields.adc_policy),
  (f.(SettingsFields.adc_resolution_bits), (0,
  (f.(SettingsFields.adc_pair_rate_hz), (f.(SettingsFields.gpio_sample_rate_hz), tt)))))))))))))).

(** [V3Settings.to_bytes] *)
Definition settings_to_bytes (s : V3Settings) : v3 bytes :=
  data ← _pack SETTINGS_STRUCT_FORMAT (settings_wire (fields_of s));
  if bool_decide (data ∈ SELECTABLE_CONFIGURATIONS) then Ok data
  else Err (V3FrameValidationError "unsupported settings tuple"
              ErrorCode.UNSUPPORTED_CONFIGURATION).

(** [V3Settings(...)] on integers: [__post_init__]. *)
Definition settings_new (f : SettingsFields) : v3 V3Settings :=
  source ← enum_field f.(SettingsFields.source) "unknown source";
  checksum ← enum_field f.(SettingsFields.checksum_algorithm) "unknown checksum_algorithm";
  cpu ← enum_field f.(SettingsFields.cpu_profile) "unknown cpu_profile";
  rate ← enum_field f.(SettingsFields.rate_profile) "unknown rate_profile";
  aux ← enum_field f.(SettingsFields.aux_bank_mode) "unknown aux_bank_mode";
  gpio ← enum_field f.(SettingsFields.gpio_policy) "unknown gpio_policy";
  adc ← enum_field f.(SettingsFields.adc_policy) "unknown adc_policy";
  _ ← _require ((1 <=? f.(SettingsFields.stream_mask)) && (f.(SettingsFields.stream_mask) <=? 3))
        "invalid stream mask";
  let self := V3Settings.mk f.(SettingsFields.stream_mask) source checksum
    f.(SettingsFields.wire_version) cpu rate aux f.(SettingsFields.gpio_width_bits) gpio adc
    f.(SettingsFields.adc_resolution_bits) f.(SettingsFields.adc_pair_rate_hz)
    f.(SettingsFields.gpio_sample_rate_hz) in
  _ ← settings_to_bytes self;
  Ok self.

(** [V3Settings.from_bytes] *)
Definition settings_from_bytes (payload : bytes) : v3 V3Settings :=
  data ← _bounded_bytes payload SETTINGS_PAYLOAD_SIZE SETTINGS_PAYLOAD_SIZE;
  '(mask, (source, (checksum, (wire, (cpu, (rate, (aux, (width, (gpio, (adc, (resolution,
    (reserved, (adc_rate, (gpio_rate, _)))))))))))))) ←
      of_option (unpack SETTINGS_STRUCT_FORMAT data) (Uncaught "struct.error");
  _ ← _require (reserved =? 0) "nonzero settings reserved byte";
  settings_new (SettingsFields.mk mask source checksum wire cpu rate aux width gpio adc
                  resolution adc_rate gpio_rate).

(** [V3Settings.defaults] *)
Definition settings_defaults : v3 V3Settings :=
  match DEFAULT_SETTINGS with
  | data :: _ => settings_from_bytes data
  | [] => Err (Uncaught "IndexError")
  end.

(** ** Clocks *)

Module V3Clocks.
Record V3Clocks := mk {
  cpu_profile : CpuProfile;
  cpu_clock_hz : Z;
  ipg_clock_hz : Z;
  adc_clock_hz : Z;
  pit_clock_hz : Z;
  timestamp_hz : Z
}.
#[global] Instance V3Clocks_eq_dec : EqDecision V3Clocks.
Proof. solve_decision. Defined.
End V3Clocks.
Abbreviation V3Clocks := V3Clocks.V3Clocks.

Definition clocks_to_bytes (c : V3Clocks) : v3 bytes :=
  data ← _pack CPU_PROFILE_INFO_STRUCT_FORMAT
    (int_of c.(V3Clocks.cpu_profile), (0, (0, (c.(V3Clocks.cpu_clock_hz),
    (c.(V3Clocks.ipg_clock_hz), (c.(V3Clocks.adc_clock_hz), (c.(V3Clocks.pit_clock_hz),
    (c.(V3Clocks.timestamp_hz), tt))))))));
  _ ← _require (bool_decide (data ∈ CPU_PROFILES)) "unknown or contradictory CPU clocks";
  Ok data.

Definition clocks_from_bytes (payload : bytes) : v3 V3Clocks :=
  data ← _bounded_bytes payload CPU_PROFILE_INFO_PAYLOAD_SIZE CPU_PROFILE_INFO_PAYLOAD_SIZE;
  _ ← _require (bool_decide (data ∈ CPU_PROFILES)) "unknown or contradictory CPU clock record";
  '(profile, (_, (_, (cpu, (ipg, (adc, (pit, (timestamp, _)))))))) ←
      of_option (unpack CPU_PROFILE_INFO_STRUCT_FORMAT data) (Uncaught "struct.error");
  profile ← of_option (enum_of profile) (Uncaught "ValueError");
  Ok (V3Clocks.mk profile cpu ipg adc pit timestamp).

(** [V3Clocks.for_profile] *)
Definition clocks_for_profile (profile : CpuProfile) : v3 V3Clocks :=
  match List.find (fun data => default 0 (head data) =? int_of profile) CPU_PROFILES with
  | Some data => clocks_from_bytes data
  | None => Err (invalid "unknown CPU profile")
  end.

(** ** Rates *)

Module V3Rate.
Record V3Rate := mk {
  rate_profile : RateProfile;
  adc_pair_rate_hz : Z;
  gpio_sample_rate_hz : Z;
  adc_pair_period_ticks : Z;
  gpio_sample_period_ticks : Z;
  adc1_phase_ticks : Z
}.
#[global] Instance V3Rate_eq_dec : EqDecision V3Rate.
Proof. solve_decision. Defined.
End V3Rate.
Abbreviation V3Rate := V3Rate.V3Rate.

Definition rate_to_bytes (r : V3Rate) : v3 bytes :=
  data ← _pack RATE_PROFILE_INFO_STRUCT_FORMAT
    (int_of r.(V3Rate.rate_profile), (0, (0, (r.(V3Rate.adc_pair_rate_hz),
    (r.(V3Rate.gpio_sample_rate_hz), (r.(V3Rate.adc_pair_period_ticks),
    (r.(V3Rate.gpio_sample_period_ticks), (r.(V3Rate.adc1_phase_ticks), (0, tt)))))))));
  _ ← _require (bool_decide (data ∈ RATE_PROFILES)) "unknown or contradictory rate";
  Ok data.

Definition rate_from_bytes (payload : bytes) : v3 V3Rate :=
  data ← _bounded_bytes payload RATE_PROFILE_INFO_PAYLOAD_SIZE RATE_PROFILE_INFO_PAYLOAD_SIZE;
  _ ← _require (bool_decide (data ∈ RATE_PROFILES)) "unknown or contradictory rate record";
  '(profile, (_, (_, (adc, (gpio, (adc_ticks, (gpio_ticks, (phase, (_, _))))))))) ←
      of_option (unpack RATE_PROFILE_INFO_STRUCT_FORMAT data) (Uncaught "struct.error");
  profile ← of_option (enum_of profile) (Uncaught "ValueError");
  Ok (V3Rate.mk profile adc gpio adc_ticks gpio_ticks phase).

(** ** Applied settings *)

Module V3AppliedSettings.
Record V3AppliedSettings := mk { settings : V3Settings; clocks : V3Clocks }.
#[global] Instance V3AppliedSettings_eq_dec : EqDecision V3AppliedSettings.
Proof. solve_decision. Defined.
End V3AppliedSettings.
Abbreviation V3AppliedSettings := V3AppliedSettings.V3AppliedSettings.

Definition applied_to_payload (a : V3AppliedSettings) : v3 bytes :=
  _ ← _require (bool_decide (a.(V3AppliedSettings.settings).(V3Settings.cpu_profile)
                             = a.(V3AppliedSettings.clocks).(V3Clocks.cpu_profile)))
        "settings/clock mismatch";
  settings ← settings_to_bytes a.(V3AppliedSettings.settings);
  clocks ← clocks_to_bytes a.(V3AppliedSettings.clocks);
  Ok (_OK ++ settings ++ clocks).

Definition applied_from_payload (payload : bytes) : v3 V3AppliedSettings :=
  data ← _success payload SETTINGS_RESPONSE_PAYLOAD_SIZE;
  settings ← settings_from_bytes (slice 4 24 data);
  clocks ← clocks_from_bytes (drop 24 data);
  let result := V3AppliedSettings.mk settings clocks in
  _ ← applied_to_payload result;
  Ok result.

(** ** Identity *)

(** A Python [str] as its code points. *)
Definition text : Type := list Z.

#[export] Instance text_eq_dec : EqDecision text.
Proof. unfold text. apply _. Defined.

Definition printable (ch : Z) : bool := (32 <=? ch) && (ch <=? 126).

Definition _ascii_encode (value : text) (size : Z) : v3 bytes :=
  _ ← _require ((0 <? zlen value) && (zlen value <? size) && forallb printable value)
        "identity must be nonempty printable ASCII with room for terminator";
  Ok (ljust value (Z.to_nat size)).

(** [data.partition] at the first NUL: the head, whether a NUL was found, the tail. *)
Fixpoint partition_nul (data : bytes) : bytes * bool * bytes :=
  match data with
  | [] => ([], false, [])
  | b :: rest =>
      if b =? 0 then ([], true, rest)
      else let '(head, found, tail) := partition_nul rest in (b :: head, found, tail)
  end.

Definition _ascii_decode (data : bytes) : v3 text :=
  let '(text, separator, padding) := partition_nul data in
  _ ← _require ((0 <? zlen text) && separator && all_zero padding && forallb printable text)
        "invalid NUL-padded identity";
  Ok text.

Module V3Info.
Record V3Info := mk {
  board_id : BoardId;
  mcu_id : McuId;
  simulated : bool;
  hardware_serial : text;
  firmware_version : text;
  build_id : text;
  clocks : V3Clocks;
  protocol_version : Z;
  adc_resolution_bits : Z
}.
#[global] Instance V3Info_eq_dec : EqDecision V3Info.
Proof. solve_decision. Defined.
End V3Info.
Abbreviation V3Info := V3Info.V3Info.

(** The code points of the serial prefix SIM-. *)
Definition SIM_PREFIX : text := [83; 73; 77; 45].

Definition info_to_payload (i : V3Info) : v3 bytes :=
  _ ← _require (bool_decide (i.(V3Info.board_id) = BoardId.TEENSY_40)
                && bool_decide (i.(V3Info.mcu_id) = McuId.IMXRT1062)) "unknown board/MCU";
  _ ← _require ((i.(V3Info.protocol_version) =? PROTOCOL_VERSION)
                && (i.(V3Info.adc_resolution_bits) =? 12)) "unsupported protocol/resolution";
  _ ← _require (negb i.(V3Info.simulated)
                || bool_decide (take 4 i.(V3Info.hardware_serial) = SIM_PREFIX))
        "simulated identity requires SIM- serial";
  serial ← _ascii_encode i.(V3Info.hardware_serial) INFO_RESPONSE_HARDWARE_SERIAL_COUNT;
  firmware ← _ascii_encode i.(V3Info.firmware_version) INFO_RESPONSE_FIRMWARE_VERSION_COUNT;
  build ← _ascii_encode i.(V3Info.build_id) INFO_RESPONSE_BUILD_ID_COUNT;
  clocks ← clocks_to_bytes i.(V3Info.clocks);
  _pack INFO_RESPONSE_STRUCT_FORMAT
    (0, (0, (0, (int_of i.(V3Info.board_id), (int_of i.(V3Info.mcu_id),
    (Z.b2z i.(V3Info.simulated), (i.(V3Info.protocol_version),
    (i.(V3Info.adc_resolution_bits), (0, (serial, (firmware, (build, (clocks, tt))))))))))))).

Definition info_from_payload (payload : bytes) : v3 V3Info :=
  data ← _success payload INFO_RESPONSE_PAYLOAD_SIZE;
  '(_, (_, (_, (board, (mcu, (simulated, (version, (resolution, (reserved,
    (serial, (firmware, (build, (clocks, _))))))))))))) ←
      of_option (unpack INFO_RESPONSE_STRUCT_FORMAT data) (Uncaught "struct.error");
  _ ← _require ((reserved =? 0) && ((simulated =? 0) || (simulated =? 1)))
        "invalid INFO reserved/boolean";
  _ ← _require ((board =? int_of BoardId.TEENSY_40) && (mcu =? int_of McuId.IMXRT1062))
        "unknown board/MCU";
  board ← of_option (enum_of board) (Uncaught "ValueError");
  mcu ← of_option (enum_of mcu) (Uncaught "ValueError");
  serial ← _ascii_decode serial;
  firmware ← _ascii_decode firmware;
  build ← _ascii_decode build;
  clocks ← clocks_from_bytes clocks;
  let result := V3Info.mk board mcu (negb (simulated =? 0)) serial firmware build clocks
                  version resolution in
  _ ← info_to_payload result;
  Ok result.

(** ** Capabilities *)

Module V3Capabilities.
Record V3Capabilities := mk {
  defaults : V3Settings;
  cpu_profiles : list V3Clocks;
  rate_profiles : list V3Rate;
  configurations : list V3Settings;
  max_data_frame_bytes : Z;
  max_control_frame_bytes : Z;
  max_logical_payload_bytes : Z;
  max_encoded_sample_bytes : Z;
  max_adc_pairs : Z;
  max_gpio8_samples : Z;
  max_gpio16_samples : Z
}.
#[global] Instance V3Capabilities_eq_dec : EqDecision V3Capabilities.
Proof. solve_decision. Defined.
End V3Capabilities.
Abbreviation V3Capabilities := V3Capabilities.V3Capabilities.

(** [_validate_limits] on its seven values. *)
Definition _validate_limits (frame control logical encoded adc gpio8 gpio16 : Z) : v3 unit :=
  _ ← mapR (fun '(value, maximum) =>
              _require ((0 <? value) && (value <=? maximum))
                "advertised limit outside canonical bounds")
        (zip [frame; control; logical; encoded; adc; gpio8; gpio16] _LIMITS);
  _require ((MIN_FRAME_BYTES + CAPABILITIES_RESPONSE_PAYLOAD_SIZE <=? control)
            && (MIN_FRAME_BYTES + DATA_PREFIX_BYTES + encoded <=? frame)
            && (adc * 4 <=? logical) && (gpio8 <=? logical) && (gpio16 * 2 <=? logical))
    "inconsistent device limits".

Definition validate_limits_of (c : V3Capabilities) : v3 unit :=
  _validate_limits c.(V3Capabilities.max_data_frame_bytes)
    c.(V3Capabilities.max_control_frame_bytes) c.(V3Capabilities.max_logical_payload_bytes)
    c.(V3Capabilities.max_encoded_sample_bytes) c.(V3Capabilities.max_adc_pairs)
    c.(V3Capabilities.max_gpio8_samples) c.(V3Capabilities.max_gpio16_samples).

(** [1 <= count <= capacity] *)
Definition count_ok (count capacity : Z) : bool := (1 <=? count) && (count <=? capacity).

Definition capabilities_to_payload (c : V3Capabilities) : v3 bytes :=
  _ ← validate_limits_of c;
  let nc := zlen c.(V3Capabilities.cpu_profiles) in
  let nr := zlen c.(V3Capabilities.rate_profiles) in
  let ns := zlen c.(V3Capabilities.configurations) in
  _ ← _require (count_ok nc MAX_CPU_PROFILES && count_ok nr MAX_RATE_PROFILES
                && count_ok ns MAX_CONFIGURATION_TUPLES) "table count outside capacity";
  cpus ← mapR clocks_to_bytes c.(V3Capabilities.cpu_profiles);
  rates ← mapR rate_to_bytes c.(V3Capabilities.rate_profiles);
  settings ← mapR settings_to_bytes c.(V3Capabilities.configurations);
  _ ← _require (bool_decide (NoDup cpus) && bool_decide (NoDup rates)
                && bool_decide (NoDup settings)) "duplicate table records";
  defaults ← settings_to_bytes c.(V3Capabilities.defaults);
  _ ← _require (bool_decide (c.(V3Capabilities.defaults) ∈ c.(V3Capabilities.configurations)))
        "defaults absent from configurations";
  let cpu_ids := map V3Clocks.cpu_profile c.(V3Capabilities.cpu_profiles) in
  let rate_ids := map V3Rate.rate_profile c.(V3Capabilities.rate_profiles) in
  _ ← _require (forallb (fun record => bool_decide (record.(V3Settings.cpu_profile) ∈ cpu_ids)
                                       && bool_decide (record.(V3Settings.rate_profile) ∈ rate_ids))
                  c.(V3Capabilities.configurations)) "tuple references absent profile";
  _pack CAPABILITIES_RESPONSE_STRUCT_FORMAT
    (0, (0, (0, (nc, (nr, (ns, (0,
    (c.(V3Capabilities.max_data_frame_bytes), (c.(V3Capabilities.max_control_frame_bytes),
    (c.(V3Capabilities.max_logical_payload_bytes), (c.(V3Capabilities.max_encoded_sample_bytes),
    (c.(V3Capabilities.max_adc_pairs), (c.(V3Capabilities.max_gpio8_samples),
    (c.(V3Capabilities.max_gpio16_samples), (defaults,
    (ljust (concat cpus) (Z.to_nat (MAX_CPU_PROFILES * CPU_PROFILE_INFO_PAYLOAD_SIZE)),
    (ljust (concat rates) (Z.to_nat (MAX_RATE_PROFILES * RATE_PROFILE_INFO_PAYLOAD_SIZE)),
    (ljust (concat settings) (Z.to_nat (MAX_CONFIGURATION_TUPLES * SETTINGS_PAYLOAD_SIZE)),
     tt)))))))))))))))))).

(** [_table]: the first [count] records of [size] bytes. *)
Definition _table (data : bytes) (count capacity size : Z) : v3 (list bytes) :=
  _ ← _require (count_ok count capacity) "table count outside capacity";
  _ ← _require (all_zero (drop (Z.to_nat (count * size)) data)) "unused table records must be zero";
  let records := map (fun i => slice (i * Z.to_nat size) ((i + 1) * Z.to_nat size) data)
                   (seq 0 (Z.to_nat count)) in
  _ ← _require (bool_decide (NoDup records)) "duplicate table records";
  Ok records.

Definition capabilities_from_payload (payload : bytes) : v3 V3Capabilities :=
  data ← _success payload CAPABILITIES_RESPONSE_PAYLOAD_SIZE;
  '(_, (_, (_, (nc, (nr, (ns, (reserved, (frame, (control, (logical, (encoded, (adc, (gpio8,
    (gpio16, (default, (cpus, (rates, (settings, _)))))))))))))))))) ←
      of_option (unpack CAPABILITIES_RESPONSE_STRUCT_FORMAT data) (Uncaught "struct.error");
  _ ← _require (reserved =? 0) "nonzero capability reserved field";
  _ ← _validate_limits frame control logical encoded adc gpio8 gpio16;
  cpu_records ← _table cpus nc MAX_CPU_PROFILES CPU_PROFILE_INFO_PAYLOAD_SIZE;
  rate_records ← _table rates nr MAX_RATE_PROFILES RATE_PROFILE_INFO_PAYLOAD_SIZE;
  settings_records ← _table settings ns MAX_CONFIGURATION_TUPLES SETTINGS_PAYLOAD_SIZE;
  default ← settings_from_bytes default;
  cpus ← mapR clocks_from_bytes cpu_records;
  rates ← mapR rate_from_bytes rate_records;
  settings ← mapR settings_from_bytes settings_records;
  let result := V3Capabilities.mk default cpus rates settings frame control logical encoded
                  adc gpio8 gpio16 in
  _ ← capabilities_to_payload result;
  Ok result.

(** [V3Capabilities.canonical] *)
Definition capabilities_canonical : v3 V3Capabilities :=
  default ← settings_defaults;
  cpus ← mapR clocks_from_bytes CPU_PROFILES;
  rates ← mapR rate_from_bytes RATE_PROFILES;
  settings ← mapR settings_from_bytes SELECTABLE_CONFIGURATIONS;
  Ok (V3Capabilities.mk default cpus rates settings MAX_DATA_FRAME_BYTES MAX_CONTROL_FRAME_BYTES
        MAX_LOGICAL_PAYLOAD_BYTES MAX_ENCODED_SAMPLE_BYTES MAX_ADC_PAIRS MAX_GPIO8_SAMPLES
        MAX_GPIO16_SAMPLES).

(** [V3Capabilities.require_supported] *)
Definition require_supported (c : V3Capabilities) (settings : V3Settings) : v3 unit :=
  _ ← capabilities_to_payload c;
  _ ← settings_to_bytes settings;
  require (bool_decide (settings ∈ c.(V3Capabilities.configurations)))
    (V3FrameValidationError "settings not advertised by device" ErrorCode.UNSUPPORTED_CONFIGURATION).

(** *** [select_settings] *)

(** The keyword options; [None] is an omitted option. *)
Module Selection.
Record Selection := mk {
  adc : option bool; gpio : option bool; source : option Z; checksum_algorithm : option Z;
  cpu_profile : option Z; rate_profile : option Z; aux_bank_mode : option Z;
  gpio_policy : option Z; adc_policy : option Z; adc_resolution_bits : option Z;
  adc_pair_rate_hz : option Z; gpio_sample_rate_hz : option Z
}.
End Selection.
Abbreviation Selection := Selection.Selection.

(** Lines 523-527: set or clear one stream bit. *)
Definition apply_stream (enabled : option bool) (bit mask : Z) : Z :=
  match enabled with
  | None => mask
  | Some true => Z.lor mask bit
  | Some false => Z.land mask (Z.lnot bit)
  end.

(** Lines 516-527: defaults, overridden by the options given. *)
Definition initial_request (d : SettingsFields) (o : Selection) : SettingsFields :=
  SettingsFields.mk
    (apply_stream o.(Selection.gpio) StreamMask.GPIO
       (apply_stream o.(Selection.adc) StreamMask.ADC d.(SettingsFields.stream_mask)))
    (default d.(SettingsFields.source) o.(Selection.source))
    (default d.(SettingsFields.checksum_algorithm) o.(Selection.checksum_algorithm))
    d.(SettingsFields.wire_version)
    (default d.(SettingsFields.cpu_profile) o.(Selection.cpu_profile))
    (default d.(SettingsFields.rate_profile) o.(Selection.rate_profile))
    (default d.(SettingsFields.aux_bank_mode) o.(Selection.aux_bank_mode))
    d.(SettingsFields.gpio_width_bits)
    (default d.(SettingsFields.gpio_policy) o.(Selection.gpio_policy))
    (default d.(SettingsFields.adc_policy) o.(Selection.adc_policy))
    (default d.(SettingsFields.adc_resolution_bits) o.(Selection.adc_resolution_bits))
    (default d.(SettingsFields.adc_pair_rate_hz) o.(Selection.adc_pair_rate_hz))
    (default d.(SettingsFields.gpio_sample_rate_hz) o.(Selection.gpio_sample_rate_hz)).

Definition set_width (width : Z) (f : SettingsFields) : SettingsFields :=
  SettingsFields.mk f.(SettingsFields.stream_mask) f.(SettingsFields.source)
    f.(SettingsFields.checksum_algorithm) f.(SettingsFields.wire_version)
    f.(SettingsFields.cpu_profile) f.(SettingsFields.rate_profile)
    f.(SettingsFields.aux_bank_mode) width f.(SettingsFields.gpio_policy)
    f.(SettingsFields.adc_policy) f.(SettingsFields.adc_resolution_bits)
    f.(SettingsFields.adc_pair_rate_hz) f.(SettingsFields.gpio_sample_rate_hz).

Definition set_rates (profile adc gpio : Z) (f : SettingsFields) : SettingsFields :=
  SettingsFields.mk f.(SettingsFields.stream_mask) f.(SettingsFields.source)
    f.(SettingsFields.checksum_algorithm) f.(SettingsFields.wire_version)
    f.(SettingsFields.cpu_profile) profile f.(SettingsFields.aux_bank_mode)
    f.(SettingsFields.gpio_width_bits) f.(SettingsFields.gpio_policy)
    f.(SettingsFields.adc_policy) f.(SettingsFields.adc_resolution_bits) adc gpio.

(** Lines 528-535: an explicit bank mode with one advertised width selects it. *)
Definition select_width (c : V3Capabilities) (aux : option Z) (f : SettingsFields) : SettingsFields :=
  match aux with
  | None => f
  | Some aux =>
      let widths := remove_dups (map V3Settings.gpio_width_bits
        (List.filter (fun r => int_of r.(V3Settings.aux_bank_mode) =? aux)
           c.(V3Capabilities.configurations))) in
      match widths with [width] => set_width width f | _ => f end
  end.

Definition opt_matches (o : option Z) (value : Z) : bool :=
  match o with None => true | Some v => value =? v end.

(** Lines 536-564: explicit rates select one advertised record. *)
Definition select_rates (c : V3Capabilities) (o : Selection) (f : SettingsFields) :
    v3 SettingsFields :=
  match o.(Selection.rate_profile), o.(Selection.adc_pair_rate_hz),
        o.(Selection.gpio_sample_rate_hz) with
  | None, None, None => Ok f
  | profile, adc, gpio =>
      let rates := List.filter (fun r =>
        opt_matches profile (int_of r.(V3Rate.rate_profile))
        && opt_matches adc r.(V3Rate.adc_pair_rate_hz)
        && opt_matches gpio r.(V3Rate.gpio_sample_rate_hz)) c.(V3Capabilities.rate_profiles) in
      match rates with
      | [rate] => Ok (set_rates (int_of rate.(V3Rate.rate_profile))
                        rate.(V3Rate.adc_pair_rate_hz) rate.(V3Rate.gpio_sample_rate_hz) f)
      | _ => Err (V3FrameValidationError
                    "rates/profile do not select one advertised rate record; inspect get_capabilities().rate_profiles"
                    ErrorCode.UNSUPPORTED_CONFIGURATION)
      end
  end.

Definition select_settings (c : V3Capabilities) (o : Selection) : v3 V3Settings :=
  _ ← capabilities_to_payload c;
  let requested := initial_request (fields_of c.(V3Capabilities.defaults)) o in
  let requested := select_width c o.(Selection.aux_bank_mode) requested in
  requested ← select_rates c o requested;
  match List.find (fun record => bool_decide (fields_of record = requested))
          c.(V3Capabilities.configurations) with
  | Some record => Ok record
  | None => Err (V3FrameValidationError "settings tuple not advertised"
                   ErrorCode.UNSUPPORTED_CONFIGURATION)
  end.

(** ** Stop and status *)

Module V3Stop.
Record V3Stop := mk { state : DeviceState; run_id : Z; pending_frames : Z }.
#[global] Instance V3Stop_eq_dec : EqDecision V3Stop.
Proof. solve_decision. Defined.
End V3Stop.
Abbreviation V3Stop := V3Stop.V3Stop.

Definition stop_to_payload (s : V3Stop) : v3 bytes :=
  _ ← _require (bool_decide (s.(V3Stop.state) <> DeviceState.STOPPED)
                || (s.(V3Stop.pending_frames) =? 0)) "STOPPED requires an empty queue";
  _ ← _require (bool_decide (s.(V3Stop.state) <> DeviceState.DRAINING)
                || (0 <? s.(V3Stop.pending_frames))) "DRAINING requires pending frames";
  _ ← _require (bool_decide (s.(V3Stop.state) = DeviceState.STOPPED)
                || negb (s.(V3Stop.run_id) =? 0)) "active state requires a run";
  _pack STOP_RESPONSE_STRUCT_FORMAT
    (0, (0, (0, (int_of s.(V3Stop.state), (0, (0, (s.(V3Stop.run_id),
    (s.(V3Stop.pending_frames), tt)))))))).

Definition stop_from_payload (payload : bytes) : v3 V3Stop :=
  data ← _success payload STOP_RESPONSE_PAYLOAD_SIZE;
  '(_, (_, (_, (state, (reserved, (reserved2, (run, (pending, _)))))))) ←
      of_option (unpack STOP_RESPONSE_STRUCT_FORMAT data) (Uncaught "struct.error");
  _ ← _require ((reserved =? reserved2) && (reserved2 =? 0)) "nonzero state reserved field";
  state ← enum_field state "unknown device state";
  let result := V3Stop.mk state run pending in
  _ ← stop_to_payload result;
  Ok result.

(** [V3Status] extends [V3Stop]; the eight counters are paired as produced/dropped in
    field order, and the 37 optional diagnostics are the remaining fields in order. *)
Module V3Status.
Record V3Status := mk {
  stop : V3Stop;
  counts : list Z;
  diagnostics : list (option Z)
}.
#[global] Instance V3Status_eq_dec : EqDecision V3Status.
Proof. solve_decision. Defined.
End V3Status.
Abbreviation V3Status := V3Status.V3Status.

(** [struct.pack] of n values with the format <nQ. *)
Fixpoint pack_u64s (values : list Z) : option bytes :=
  match values with
  | [] => Some []
  | v :: values =>
      if fits 8 v then bs ← pack_u64s values; Some (to_le 8 v ++ bs) else None
  end.

(** [struct.unpack_from] with the format <nQ. *)
Fixpoint unpack_u64s (n : nat) (data : bytes) : list Z :=
  match n with
  | O => []
  | S n => from_le (take 8 data) :: unpack_u64s n (drop 8 data)
  end.

(** [zip(counts[::2], counts[1::2])]: dropped never exceeds produced. *)
Fixpoint counts_ok (counts : list Z) : bool :=
  match counts with
  | produced :: dropped :: counts =>
      (0 <=? dropped) && (dropped <=? produced) && counts_ok counts
  | _ => true
  end.

(** [sum(1 << i for i, value in enumerate(diagnostics) if value is not None)] *)
Fixpoint validity_of (i : Z) (diagnostics : list (option Z)) : Z :=
  match diagnostics with
  | [] => 0
  | None :: rest => validity_of (i + 1) rest
  | Some _ :: rest => Z.shiftl 1 i + validity_of (i + 1) rest
  end.

Definition status_to_payload (s : V3Status) : v3 bytes :=
  prefix ← stop_to_payload s.(V3Status.stop);
  _ ← _require (counts_ok s.(V3Status.counts)) "dropped count exceeds produced";
  let values := s.(V3Status.counts) ++ map (default 0) s.(V3Status.diagnostics)
                ++ [validity_of 0 s.(V3Status.diagnostics)] in
  rest ← of_option (pack_u64s values) (invalid "record scalar outside wire range");
  Ok (prefix ++ rest).

(** [value if validity & (1 << i) else None], and the zero check of lines 718-724. *)
Definition diagnostic_at (validity i value : Z) : option Z :=
  if has validity (Z.shiftl 1 i) then Some value else None.

Definition status_from_payload (payload : bytes) : v3 V3Status :=
  data ← _success payload STATUS_RESPONSE_PAYLOAD_SIZE;
  stop ← stop_from_payload (take (Z.to_nat STOP_RESPONSE_PAYLOAD_SIZE) data);
  let values := unpack_u64s (8 + Z.to_nat STATUS_DIAGNOSTIC_COUNT + 1)
                  (drop (Z.to_nat STOP_RESPONSE_PAYLOAD_SIZE) data) in
  let validity := default 0 (last values) in
  let wire := take (Z.to_nat STATUS_DIAGNOSTIC_COUNT) (drop 8 values) in
  _ ← _require (validity <? Z.shiftl 1 STATUS_DIAGNOSTIC_COUNT)
        "unknown diagnostic validity bits";
  let diagnostics := imap (fun i value => diagnostic_at validity (Z.of_nat i) value) wire in
  _ ← _require (forallb (fun b => b)
                  (imap (fun i value => (value =? 0) || has validity (Z.shiftl 1 (Z.of_nat i))) wire))
        "unavailable diagnostic must have zero wire value";
  let result := V3Status.mk stop (take 8 values) diagnostics in
  _ ← status_to_payload result;
  Ok result.

(** ** Responses *)

Inductive V3ResponseValue :=
| InfoValue (v : V3Info)
| CapabilitiesValue (v : V3Capabilities)
| AppliedValue (v : V3AppliedSettings)
| StopValue (v : V3Stop)
| StatusValue (v : V3Status).

#[export] Instance V3ResponseValue_eq_dec : EqDecision V3ResponseValue.
Proof. solve_decision. Defined.

(** [value.to_payload()] *)
Definition value_to_payload (v : V3ResponseValue) : v3 bytes :=
  match v with
  | InfoValue v => info_to_payload v
  | CapabilitiesValue v => capabilities_to_payload v
  | AppliedValue v => applied_to_payload v
  | StopValue v => stop_to_payload v
  | StatusValue v => status_to_payload v
  end.

Module V3Response.
Record V3Response := mk {
  kind : FrameKind;
  request_id : Z;
  run_id : Z;
  status : ResponseStatus;
  error_code : ErrorCode;
  value : option V3ResponseValue;
  rejected_kind : option Z
}.
#[global] Instance V3Response_eq_dec : EqDecision V3Response.
Proof. solve_decision. Defined.
End V3Response.
Abbreviation V3Response := V3Response.V3Response.

(** [kind in c.COMMAND_RESPONSE_KINDS.values()] *)
Definition is_command_response (kind : FrameKind) : bool :=
  bool_decide (kind ∈ map COMMAND_RESPONSE_KINDS members).

(** [isinstance(value, V3Stop)]: the run the value reports. *)
Definition reported_run (v : option V3ResponseValue) : option Z :=
  match v with
  | Some (StopValue s) => Some s.(V3Stop.run_id)
  | Some (StatusValue s) => Some s.(V3Status.stop).(V3Stop.run_id)
  | _ => None
  end.

(** Lines 888-904: the value of a successful response. *)
Definition decode_value (kind : FrameKind) (data : bytes) : v3 V3ResponseValue :=
  match kind with
  | FrameKind.INFO_RESPONSE => v ← info_from_payload data; Ok (InfoValue v)
  | FrameKind.GET_CAPABILITIES_RESPONSE =>
      v ← capabilities_from_payload data; Ok (CapabilitiesValue v)
  | FrameKind.CONFIGURE_RESPONSE | FrameKind.START_RESPONSE | FrameKind.GET_SETTINGS_RESPONSE =>
      v ← applied_from_payload data; Ok (AppliedValue v)
  | FrameKind.GET_STATUS_RESPONSE => v ← status_from_payload data; Ok (StatusValue v)
  | FrameKind.STOP_RESPONSE =>
      v ← stop_from_payload data;
      _ ← _require (bool_decide (v.(V3Stop.state) <> DeviceState.RUNNING))
            "STOP cannot report RUNNING";
      Ok (StopValue v)
  | _ => Err (invalid "generic response requires error status")
  end.

(** Lines 876-887: an error response's payload shape; returns the rejected kind. *)
Definition decode_rejection (kind : FrameKind) (data : bytes) : v3 (option Z) :=
  if decide (kind = FrameKind.ERROR_RESPONSE) then
    _ ← _require ((zlen data =? ERROR_RESPONSE_PAYLOAD_SIZE) && all_zero (drop 5 data))
          "invalid generic error size/reserved";
    Ok (data !! 4%nat)
  else
    _ ← _require (zlen data =? RESPONSE_PREFIX_PAYLOAD_SIZE) "error must contain only prefix";
    Ok None.

Definition decode_v3_response (frame : V3Frame) : v3 V3Response :=
  let header := frame.(V3Frame.header) in
  let kind := header.(V3FrameHeader.kind) in
  _ ← _require (is_command_response kind || bool_decide (kind = FrameKind.ERROR_RESPONSE))
        "frame is not a response";
  data ← _bounded_bytes frame.(V3Frame.payload) RESPONSE_PREFIX_PAYLOAD_SIZE
           (MAX_CONTROL_FRAME_BYTES - MIN_FRAME_BYTES);
  '(status, (reserved, (error, _))) ←
      of_option (unpack_from RESPONSE_PREFIX_STRUCT_FORMAT data 0) (Uncaught "struct.error");
  status ← enum_field status "invalid response prefix";
  error ← enum_field error "invalid response prefix";
  _ ← _require (reserved =? 0) "invalid response prefix";
  _ ← _require (bool_decide (has header.(V3FrameHeader.flags) FrameFlag.RESPONSE_ERROR = true
                             <-> status = ResponseStatus.ERROR)
                && bool_decide (status = ResponseStatus.OK <-> error = ErrorCode.OK))
        "response flag/status/error disagree";
  _ ← _require (negb (header.(V3FrameHeader.request_id) =? 0)
                || bool_decide (error = ErrorCode.INVALID_REQUEST_ID))
        "zero request ID only allowed for INVALID_REQUEST_ID";
  '(value, rejected) ←
      (match status with
       | ResponseStatus.ERROR => rejected ← decode_rejection kind data; Ok (None, rejected)
       | ResponseStatus.OK => value ← decode_value kind data; Ok (Some value, None)
       end);
  _ ← (match reported_run value with
       | Some run => _require (run =? header.(V3FrameHeader.run_id)) "state/header run ID mismatch"
       | None => Ok tt
       end);
  Ok (V3Response.mk kind header.(V3FrameHeader.request_id) header.(V3FrameHeader.run_id)
        status error value rejected).

(** ** Shared facts *)

Lemma bounded_bytes_Ok data lo hi d :
  _bounded_bytes data lo hi = Ok d <-> d = data /\ lo <= zlen data <= hi.
Proof.
  unfold _bounded_bytes, _require. rewrite require_bind, andb_true_iff, !Z.leb_le.
  split; [intros [? [= <-]]; done|by intros [-> ?]].
Qed.

Lemma success_Ok payload size d :
  _success payload size = Ok d <-> d = payload /\ zlen payload = size /\ take 4 payload = _OK.
Proof.
  unfold _success, _require. split.
  - intros H. apply bind_Ok_inv in H as (x & Hx & H). apply bounded_bytes_Ok in Hx as [-> Hl].
    apply require_bind in H as [Ht [= <-]]. apply bool_decide_eq_true in Ht. split; [done|]. split; [lia|done].
  - intros (-> & Hl & Ht). rewrite (proj2 (bounded_bytes_Ok payload size size payload)) by (split; [done|lia]).
    cbn [mbind result_bind]. by rewrite bool_decide_eq_true_2.
Qed.

Lemma enum_field_Ok {A} `{IntEnum A} z m (a : A) : enum_field z m = Ok a <-> z = int_of a.
Proof.
  unfold enum_field. split; [intros Hz; by apply of_option_Ok_inv, enum_of_Some in Hz|].
  intros ->. by rewrite enum_of_int.
Qed.

Lemma pack_field_Ok fmt values b : _pack fmt values = Ok b <-> pack fmt values = Some b.
Proof. unfold _pack. destruct (pack fmt values); cbn; split; congruence. Qed.

(** ** Settings *)

Lemma configurations_masks :
  Forall (fun b => exists m rest, b = m :: rest /\ 1 <= m <= 3) SELECTABLE_CONFIGURATIONS.
Proof.
  unfold SELECTABLE_CONFIGURATIONS.
  repeat (apply Forall_cons; split; [eexists _, _; split; [reflexivity|lia]|]). constructor.
Qed.

Lemma settings_to_bytes_Ok s b :
  settings_to_bytes s = Ok b <->
  pack SETTINGS_STRUCT_FORMAT (settings_wire (fields_of s)) = Some b /\
  b ∈ SELECTABLE_CONFIGURATIONS.
Proof.
  unfold settings_to_bytes. split.
  - intros H. apply bind_Ok_inv in H as (d & Hd & H). apply pack_field_Ok in Hd.
    case_bool_decide; [|discriminate]. injection H as <-. done.
  - intros [Hp Hin]. apply pack_field_Ok in Hp. rewrite Hp. cbn. by rewrite bool_decide_eq_true_2.
Qed.

Lemma settings_bytes_facts s b :
  settings_to_bytes s = Ok b ->
  unpack SETTINGS_STRUCT_FORMAT b = Some (settings_wire (fields_of s)) /\ wf_bytes b /\
  length b = 20%nat /\ 1 <= s.(V3Settings.stream_mask) <= 3.
Proof.
  intros H. apply settings_to_bytes_Ok in H as [Hp Hin].
  assert (Hs : strs_ok SETTINGS_STRUCT_FORMAT (settings_wire (fields_of s))) by (cbn; tauto).
  destruct (pack_unpack _ _ _ Hs Hp) as (Hu & Hw & Hl). split; [done|]. split; [done|]. split; [done|].
  pose proof configurations_masks as HF. rewrite Forall_forall in HF.
  destruct (HF b Hin) as (m & rest & -> & Hm3).
  assert (Hm : from_le (take 1 (m :: rest)) = s.(V3Settings.stream_mask)).
  { unfold unpack in Hu. rewrite Hl, Nat.eqb_refl in Hu.
    apply (f_equal (fun o : option (fvals SETTINGS_STRUCT_FORMAT) =>
                      match o with Some v => v.1 | None => 0 end)) in Hu. exact Hu. }
  rewrite firstn_cons, take_0 in Hm. unfold from_le in Hm. lia.
Qed.

(** Every selectable configuration has the sample width of its bank mode. *)
Lemma settings_widths s b :
  settings_to_bytes s = Ok b ->
  s.(V3Settings.gpio_width_bits) = if decide (s.(V3Settings.aux_bank_mode) = AuxBankMode.DISABLED) then 8 else 16.
Proof.
  intros H. destruct (settings_bytes_facts s b H) as (Hu & _). apply settings_to_bytes_Ok in H as [_ Hin].
  assert (Hall : forallb (fun b => match unpack SETTINGS_STRUCT_FORMAT b with
      | Some (_, (_, (_, (_, (_, (_, (aux, (width, _)))))))) =>
          (aux =? int_of AuxBankMode.DISABLED) && (width =? 8) || (aux =? int_of AuxBankMode.INPUT) && (width =? 16)
      | None => false end) SELECTABLE_CONFIGURATIONS = true) by (vm_compute; reflexivity).
  rewrite forallb_forall in Hall. specialize (Hall b (proj1 (list_elem_of_In _ _) Hin)).
  rewrite Hu in Hall. unfold settings_wire, fields_of in Hall.
  cbn [SettingsFields.aux_bank_mode SettingsFields.gpio_width_bits] in Hall.
  case_decide as Hm; destruct (V3Settings.aux_bank_mode s); try done; cbn in Hall; lia.
Qed.

Lemma settings_new_Ok f s :
  settings_new f = Ok s <->
  fields_of s = f /\ 1 <= f.(SettingsFields.stream_mask) <= 3 /\ exists b, settings_to_bytes s = Ok b.
Proof.
  unfold settings_new. split.
  - intros H. inv_bind H. repeat match goal with
      | Hv : enum_of _ = Some _ |- _ => apply enum_of_Some in Hv
      | Hv : _ && _ = true |- _ => apply andb_true_iff in Hv as [Hm1 Hm2]
      end.
    injection H as <-. apply Z.leb_le in Hm1, Hm2. split; [|split; [lia|eauto]].
    destruct f. unfold fields_of. cbn in *. congruence.
  - intros (<- & Hm & b & Hb). destruct s as [mask src ck wire cpu rate aux width gp ap res ar gr].
    unfold fields_of in *. cbn [SettingsFields.source SettingsFields.checksum_algorithm
      SettingsFields.cpu_profile SettingsFields.rate_profile SettingsFields.aux_bank_mode
      SettingsFields.gpio_policy SettingsFields.adc_policy SettingsFields.stream_mask
      SettingsFields.wire_version SettingsFields.gpio_width_bits SettingsFields.adc_resolution_bits
      SettingsFields.adc_pair_rate_hz SettingsFields.gpio_sample_rate_hz
      V3Settings.stream_mask V3Settings.source V3Settings.checksum_algorithm V3Settings.wire_version
      V3Settings.cpu_profile V3Settings.rate_profile V3Settings.aux_bank_mode
      V3Settings.gpio_width_bits V3Settings.gpio_policy V3Settings.adc_policy
      V3Settings.adc_resolution_bits V3Settings.adc_pair_rate_hz V3Settings.gpio_sample_rate_hz] in *.
    do 7 (rewrite (proj2 (enum_field_Ok _ _ _) eq_refl); cbn [mbind result_bind]).
    rewrite !(proj2 (Z.leb_le _ _)) by lia. cbn [andb _require require mbind result_bind].
    by rewrite Hb.
Qed.

Lemma settings_from_to s b : settings_to_bytes s = Ok b -> settings_from_bytes b = Ok s.
Proof.
  intros H. destruct (settings_bytes_facts s b H) as (Hu & Hw & Hl & Hm).
  unfold settings_from_bytes. rewrite (proj2 (bounded_bytes_Ok b _ _ b))
    by (split; [done|unfold zlen, SETTINGS_PAYLOAD_SIZE; lia]).
  cbn [mbind result_bind]. rewrite Hu. cbn [of_option mbind result_bind settings_wire].
  apply settings_new_Ok. split; [by destruct (fields_of s)|]. split; [done|eauto].
Qed.

Lemma settings_to_from s b : wf_bytes b -> settings_from_bytes b = Ok s -> settings_to_bytes s = Ok b.
Proof.
  intros Hw H. unfold settings_from_bytes in H. apply bind_Ok_inv in H as (d & Hd & H).
  apply bounded_bytes_Ok in Hd as [-> Hl]. apply bind_Ok_inv in H as (vs & Hvs & H).
  apply of_option_Ok_inv in Hvs. destruct (unpack_packed SETTINGS_STRUCT_FORMAT _ _ Hw Hvs) as [Hp _].
  destruct vs as (mask & src & ck & wire & cpu & rate & aux & width & gp & ap & res & zero & ar & gr & []).
  apply require_bind in H as [Hz H]. apply Z.eqb_eq in Hz. subst zero.
  apply settings_new_Ok in H as (Hf & _ & b' & Hb'). pose proof Hb' as Hb2.
  apply settings_to_bytes_Ok in Hb2 as [Hp' _]. rewrite Hf in Hp'.
  change (pack SETTINGS_STRUCT_FORMAT (settings_wire _)) with
    (pack SETTINGS_STRUCT_FORMAT (mask, (src, (ck, (wire, (cpu, (rate, (aux, (width, (gp, (ap,
      (res, (0, (ar, (gr, tt))))))))))))))) in Hp'. congruence.
Qed.

Lemma settings_to_bytes_inj s s' b :
  settings_to_bytes s = Ok b -> settings_to_bytes s' = Ok b -> s = s'.
Proof. intros H H'. apply settings_from_to in H, H'. congruence. Qed.

(** ** Clocks and rates: finite tables *)

Lemma clocks_to_bytes_Ok c b :
  clocks_to_bytes c = Ok b -> wf_bytes b /\ length b = 24%nat /\ clocks_from_bytes b = Ok c.
Proof.
  unfold clocks_to_bytes. intros H. apply bind_Ok_inv in H as (d & Hd & H).
  apply require_bind in H as [Hin [= <-]]. apply pack_field_Ok in Hd.
  edestruct (pack_unpack CPU_PROFILE_INFO_STRUCT_FORMAT) as (Hu & Hw & Hl); [|exact Hd|]; [cbn; tauto|]. split; [done|]. split; [done|].
  unfold clocks_from_bytes. rewrite (proj2 (bounded_bytes_Ok d _ _ d))
    by (split; [done|unfold zlen, CPU_PROFILE_INFO_PAYLOAD_SIZE; rewrite Hl; cbn; lia]).
  cbn [mbind result_bind]. rewrite Hin. cbn [_require require mbind result_bind]. rewrite Hu.
  cbn [of_option mbind result_bind]. rewrite enum_of_int. by destruct c.
Qed.

Lemma clocks_from_bytes_Ok c b :
  wf_bytes b -> clocks_from_bytes b = Ok c -> clocks_to_bytes c = Ok b.
Proof.
  intros Hw H. unfold clocks_from_bytes in H. apply bind_Ok_inv in H as (d & Hd & H).
  apply bounded_bytes_Ok in Hd as [-> _]. apply require_bind in H as [Hin H].
  apply bool_decide_eq_true in Hin.
  revert c H. clear Hw. revert b Hin. refine (proj1 (Forall_forall _ _) _). unfold CPU_PROFILES.
  repeat (apply Forall_cons; split; [intros c H; vm_compute in H; injection H as <-; vm_compute; reflexivity|]). constructor.
Qed.

Lemma rate_to_bytes_Ok r b :
  rate_to_bytes r = Ok b -> wf_bytes b /\ length b = 20%nat /\ rate_from_bytes b = Ok r.
Proof.
  unfold rate_to_bytes. intros H. apply bind_Ok_inv in H as (d & Hd & H).
  apply require_bind in H as [Hin [= <-]]. apply pack_field_Ok in Hd.
  edestruct (pack_unpack RATE_PROFILE_INFO_STRUCT_FORMAT) as (Hu & Hw & Hl); [|exact Hd|]; [cbn; tauto|]. split; [done|]. split; [done|].
  unfold rate_from_bytes. rewrite (proj2 (bounded_bytes_Ok d _ _ d))
    by (split; [done|unfold zlen, RATE_PROFILE_INFO_PAYLOAD_SIZE; rewrite Hl; cbn; lia]).
  cbn [mbind result_bind]. rewrite Hin. cbn [_require require mbind result_bind]. rewrite Hu.
  cbn [of_option mbind result_bind]. rewrite enum_of_int. by destruct r.
Qed.

Lemma rate_from_bytes_Ok r b :
  wf_bytes b -> rate_from_bytes b = Ok r -> rate_to_bytes r = Ok b.
Proof.
  intros Hw H. unfold rate_from_bytes in H. apply bind_Ok_inv in H as (d & Hd & H).
  apply bounded_bytes_Ok in Hd as [-> _]. apply require_bind in H as [Hin H].
  apply bool_decide_eq_true in Hin.
  revert r H. clear Hw. revert b Hin. refine (proj1 (Forall_forall _ _) _). unfold RATE_PROFILES.
  repeat (apply Forall_cons; split; [intros r H; vm_compute in H; injection H as <-; vm_compute; reflexivity|]). constructor.
Qed.

(** ** The success prefix *)

Lemma ok_prefix_pack fs vs b :
  pack (U8 :: U8 :: U16 :: fs) (0, (0, (0, vs))) = Some b -> take 4 b = _OK.
Proof.
  intros H. cbn [pack] in H. change (fpack U8 0) with (Some [0]) in H.
  change (fpack U16 0) with (Some [0; 0]) in H. cbn [mbind option_bind] in H.
  destruct (pack fs vs) as [rest|]; [|discriminate]. cbn in H. injection H as <-. done.
Qed.

Lemma ok_prefix_unpack fs data x y z vs :
  take 4 data = _OK -> unpack (U8 :: U8 :: U16 :: fs) data = Some (x, (y, (z, vs))) ->
  x = 0 /\ y = 0 /\ z = 0.
Proof.
  intros Ht. unfold unpack. destruct (_ =? _)%nat; [|discriminate]. cbn [unpack_fields].
  intros H. assert (Hf : funpack U8 data = x /\ funpack U8 (drop 1 data) = y /\
                         funpack U16 (drop 1 (drop 1 data)) = z).
  { cbn [fsize] in H. repeat split; congruence. }
  destruct Hf as (<- & <- & <-). destruct data as [|a [|b [|c [|d data]]]]; try discriminate.
  change _OK with [0; 0; 0; 0] in Ht. cbn in Ht. injection Ht as -> -> -> ->. done.
Qed.

Lemma zlen_calc fs (data : bytes) : length data = calcsize fs -> zlen data = Z.of_nat (calcsize fs).
Proof. unfold zlen. by intros ->. Qed.

(** ** Identity text *)

Lemma printable_byte ch : printable ch = true -> is_byte ch /\ ch <> 0.
Proof. unfold printable, is_byte. lia. Qed.

Lemma partition_nul_app v pad :
  Forall (fun ch => ch <> 0) v -> partition_nul (v ++ 0 :: pad) = (v, true, pad).
Proof.
  induction 1 as [|ch v Hch _ IH]; [done|]. cbn [app partition_nul].
  rewrite (proj2 (Z.eqb_neq _ _) Hch). by rewrite IH.
Qed.

Lemma partition_nul_inv data v pad : partition_nul data = (v, true, pad) -> data = v ++ 0 :: pad.
Proof.
  revert v. induction data as [|b data IH]; intros v; cbn [partition_nul]; [discriminate|].
  destruct (Z.eqb_spec b 0) as [->|_]; [by intros [= <- <-]|].
  destruct (partition_nul data) as [[h f] t]. intros [= <- -> ->]. cbn. f_equal. by apply IH.
Qed.

Lemma all_zero_replicate data : all_zero data = true <-> data = replicate (length data) 0.
Proof.
  induction data as [|b data IH]; [done|]. cbn. rewrite andb_true_iff, Z.eqb_eq.
  unfold all_zero in IH. rewrite IH. split; [by intros [-> <-]|]. intros H. by injection H as -> <-.
Qed.

Lemma forallb_printable v :
  forallb printable v = true -> wf_bytes v /\ Forall (fun ch => ch <> 0) v.
Proof.
  intros H. rewrite forallb_forall in H.
  split; apply Forall_forall; intros ch Hch; apply printable_byte, H; by apply list_elem_of_In.
Qed.

Lemma ascii_encode_Ok v size b :
  _ascii_encode v size = Ok b <->
  0 < zlen v < size /\ forallb printable v = true /\ b = ljust v (Z.to_nat size).
Proof.
  unfold _ascii_encode, _require. rewrite require_bind, !andb_true_iff, !Z.ltb_lt.
  split; [intros [[[? ?] ?] [= <-]]|intros ([? ?] & ? & ->)]; done.
Qed.

Lemma ascii_encode_field v size b :
  _ascii_encode v size = Ok b -> wf_bytes b /\ length b = Z.to_nat size /\ _ascii_decode b = Ok v.
Proof.
  intros H. apply ascii_encode_Ok in H as (Hl & Hp & ->).
  destruct (forallb_printable _ Hp) as [Hw Hnz]. unfold ljust.
  split; [apply wf_bytes_app; auto with daq|]. split; [len|].
  destruct (Z.to_nat size - length v)%nat as [|k] eqn:Hk; [len|].
  unfold _ascii_decode. change (replicate (S k) 0) with (0 :: replicate k 0).
  rewrite partition_nul_app by done. rewrite Hp, (proj2 (Z.ltb_lt _ _)) by lia.
  rewrite (proj2 (all_zero_replicate _)); [done|by rewrite length_replicate].
Qed.

Lemma ascii_decode_field data v size :
  _ascii_decode data = Ok v -> length data = Z.to_nat size -> _ascii_encode v size = Ok data.
Proof.
  unfold _ascii_decode. destruct (partition_nul data) as [[h f] t] eqn:Hpart.
  unfold _require. rewrite require_bind, !andb_true_iff, Z.ltb_lt.
  intros ((((Hl & ->) & Hz) & Hp) & [= <-]) Hlen.
  apply partition_nul_inv in Hpart as ->. apply ascii_encode_Ok.
  rewrite length_app in Hlen. cbn [length] in Hlen. split; [unfold zlen in *; lia|]. split; [done|].
  unfold ljust. f_equal. apply all_zero_replicate in Hz.
  replace (Z.to_nat size - length h)%nat with (S (length t)) by lia.
  cbn [replicate]. by rewrite <-Hz.
Qed.

(** ** The payload codecs *)

(** What every typed payload promises: encoding and decoding are inverse.  [valid] is
    what the Python type itself guarantees of its fields. *)
Class PayloadCodec (A : Type) := {
  to_payload : A -> v3 bytes;
  from_payload : bytes -> v3 A;
  valid : A -> Prop;
  from_to a b : valid a -> to_payload a = Ok b -> wf_bytes b /\ from_payload b = Ok a;
  to_from a b : wf_bytes b -> from_payload b = Ok a -> to_payload a = Ok b /\ valid a
}.

Lemma pack_prefix_success fs vs b size :
  strs_ok fs vs -> pack (U8 :: U8 :: U16 :: fs) (0, (0, (0, vs))) = Some b ->
  size = Z.of_nat (4 + calcsize fs) ->
  wf_bytes b /\ unpack (U8 :: U8 :: U16 :: fs) b = Some (0, (0, (0, vs))) /\
  _success b size = Ok b.
Proof.
  intros Hs Hp ->. destruct (pack_unpack (U8 :: U8 :: U16 :: fs) (0, (0, (0, vs))) b) as (Hu & Hw & Hl);
    [done|done|]. split; [done|]. split; [done|]. apply success_Ok. split; [done|].
  split; [exact (zlen_calc _ _ Hl)|by eapply ok_prefix_pack].
Qed.

Lemma applied_from_to a b :
  applied_to_payload a = Ok b -> wf_bytes b /\ applied_from_payload b = Ok a.
Proof.
  intros H. pose proof H as Hto. unfold applied_to_payload in H. destruct a as [s c]. cbn in H.
  apply bind_Ok_inv in H as (u & Hu & H). apply bind_Ok_inv in H as (bs & Hs & H).
  apply bind_Ok_inv in H as (bc & Hc & [= <-]).
  destruct (settings_bytes_facts s bs Hs) as (_ & Hws & Hls & _).
  destruct (clocks_to_bytes_Ok c bc Hc) as (Hwc & Hlc & Hfc).
  change (0 :: 0 :: 0 :: 0 :: bs ++ bc) with (_OK ++ bs ++ bc) in *.
  split; [apply wf_bytes_app; split; [apply wf_bytes_zeros|by apply wf_bytes_app]|].
  unfold applied_from_payload. change _OK with [0; 0; 0; 0] in *.
  rewrite (proj2 (success_Ok _ _ _)) by
    (split; [done|split; [unfold zlen, SETTINGS_RESPONSE_PAYLOAD_SIZE; len|done]]).
  cbn [mbind result_bind].
  change (slice 4 24 ([0; 0; 0; 0] ++ bs ++ bc)) with (take 20 (bs ++ bc)).
  rewrite take_app_exact by done.
  rewrite (settings_from_to s bs Hs). cbn [mbind result_bind].
  change (drop 24 ([0; 0; 0; 0] ++ bs ++ bc)) with (drop 20 (bs ++ bc)).
  rewrite drop_app_exact by done.
  rewrite Hfc. cbn [mbind result_bind]. by rewrite Hto.
Qed.

Lemma applied_to_from a b :
  wf_bytes b -> applied_from_payload b = Ok a -> applied_to_payload a = Ok b.
Proof.
  intros Hw H. unfold applied_from_payload in H. apply bind_Ok_inv in H as (d & Hd & H).
  apply success_Ok in Hd as (-> & Hl & Hok). apply bind_Ok_inv in H as (s & Hs & H).
  apply bind_Ok_inv in H as (c & Hc & H). apply bind_Ok_inv in H as (b' & Hb' & [= <-]).
  rewrite Hb'. unfold applied_to_payload in Hb'. cbn in Hb'.
  apply bind_Ok_inv in Hb' as (u & _ & Hb').
  rewrite (settings_to_from s (slice 4 24 b)) in Hb' by auto with daq.
  rewrite (clocks_from_bytes_Ok c (drop 24 b)) in Hb' by auto with daq.
  cbn [mbind result_bind] in Hb'. apply Ok_inj in Hb'. subst b'. f_equal. rewrite <-Hok. unfold slice.
  change (24 - 4)%nat with 20%nat. change (drop 24 b) with (drop (4 + 20) b).
  rewrite app_assoc, take_take_drop. by rewrite take_drop.
Qed.

#[export] Instance applied_codec : PayloadCodec V3AppliedSettings := {
  to_payload := applied_to_payload;
  from_payload := applied_from_payload;
  valid _ := True;
  from_to a b _ := applied_from_to a b;
  to_from a b Hw H := conj (applied_to_from a b Hw H) I
}.

(** *** INFO *)

(** The fields after the success prefix, in wire order. *)
Definition INFO_REST : list fcode := Eval vm_compute in drop 3 INFO_RESPONSE_STRUCT_FORMAT.

Lemma info_from_to i b : info_to_payload i = Ok b -> wf_bytes b /\ info_from_payload b = Ok i.
Proof.
  intros H. pose proof H as Hto. unfold info_to_payload in H.
  apply require_bind in H as [Hb H]. apply require_bind in H as [Hv H].
  apply require_bind in H as [_ H].
  apply bind_Ok_inv in H as (serial & Hs & H). apply bind_Ok_inv in H as (firmware & Hf & H).
  apply bind_Ok_inv in H as (build & Hbd & H). apply bind_Ok_inv in H as (clocks & Hc & H).
  apply pack_field_Ok in H.
  destruct (ascii_encode_field _ _ _ Hs) as (Hws & Hls & Hds).
  destruct (ascii_encode_field _ _ _ Hf) as (Hwf & Hlf & Hdf).
  destruct (ascii_encode_field _ _ _ Hbd) as (Hwb & Hlb & Hdb).
  destruct (clocks_to_bytes_Ok _ _ Hc) as (Hwc & Hlc & Hdc).
  destruct (pack_prefix_success INFO_REST
    (int_of (V3Info.board_id i), (int_of (V3Info.mcu_id i), (Z.b2z (V3Info.simulated i),
     (V3Info.protocol_version i, (V3Info.adc_resolution_bits i, (0, (serial, (firmware,
     (build, (clocks, tt)))))))))) b INFO_RESPONSE_PAYLOAD_SIZE) as (Hw & Hu & Hok);
    [cbn; tauto|exact H|done|].
  split; [done|]. unfold info_from_payload. rewrite Hok. cbn [mbind result_bind].
  change INFO_RESPONSE_STRUCT_FORMAT with (U8 :: U8 :: U16 :: INFO_REST). rewrite Hu.
  cbn [of_option mbind result_bind]. rewrite !enum_of_int.
  replace ((0 =? 0) && ((Z.b2z (V3Info.simulated i) =? 0) || (Z.b2z (V3Info.simulated i) =? 1)))
    with true by (by destruct (V3Info.simulated i)).
  replace ((int_of (V3Info.board_id i) =? int_of BoardId.TEENSY_40)
           && (int_of (V3Info.mcu_id i) =? int_of McuId.IMXRT1062))
    with true by (by destruct (V3Info.board_id i), (V3Info.mcu_id i)).
  cbn [_require require of_option mbind result_bind].
  rewrite Hds, Hdf, Hdb, Hdc. cbn [mbind result_bind].
  replace (negb (Z.b2z (V3Info.simulated i) =? 0)) with (V3Info.simulated i)
    by (by destruct (V3Info.simulated i)).
  destruct i as [board mcu sim sn fw bd ck ver res]. cbn in Hto |- *. by rewrite Hto.
Qed.

Lemma info_to_from i b : wf_bytes b -> info_from_payload b = Ok i -> info_to_payload i = Ok b.
Proof.
  intros Hw H. unfold info_from_payload in H. apply bind_Ok_inv in H as (d & Hd & H).
  apply success_Ok in Hd as (-> & Hl & Hok). apply bind_Ok_inv in H as (vs & Hvs & H).
  apply of_option_Ok_inv in Hvs.
  change INFO_RESPONSE_STRUCT_FORMAT with (U8 :: U8 :: U16 :: INFO_REST) in Hvs.
  destruct (unpack_packed (U8 :: U8 :: U16 :: INFO_REST) b vs Hw Hvs) as [Hp Hv].
  destruct vs as (z0 & z1 & z2 & board & mcu & sim & ver & res & zero & serial & firmware & build & clocks & []).
  destruct (ok_prefix_unpack INFO_REST _ _ _ _ _ Hok Hvs) as (-> & -> & ->).
  cbn -[Z.pow] in Hv. destruct Hv as (_ & _ & _ & _ & _ & _ & _ & _ & _ & Hs & Hf & Hb & Hc & _).
  apply require_bind in H as [Hz H]. apply andb_true_iff in Hz as [Hz Hsim].
  apply Z.eqb_eq in Hz. subst zero. apply require_bind in H as [_ H].
  apply bind_Ok_inv in H as (bid & Hbid & H). apply of_option_Ok_inv, enum_of_Some in Hbid.
  apply bind_Ok_inv in H as (mid & Hmid & H). apply of_option_Ok_inv, enum_of_Some in Hmid.
  apply bind_Ok_inv in H as (sn & Hsn & H). apply bind_Ok_inv in H as (fw & Hfw & H).
  apply bind_Ok_inv in H as (bd & Hbd & H). apply bind_Ok_inv in H as (ck & Hck & H).
  apply bind_Ok_inv in H as (b' & Hb' & H). apply Ok_inj in H. subst i board mcu.
  rewrite Hb'. unfold info_to_payload in Hb'. cbn in Hb'.
  apply bind_Ok_inv in Hb' as (u1 & _ & Hb'). apply bind_Ok_inv in Hb' as (u2 & _ & Hb').
  apply bind_Ok_inv in Hb' as (u3 & _ & Hb').
  rewrite (ascii_decode_field _ _ INFO_RESPONSE_HARDWARE_SERIAL_COUNT Hsn) in Hb' by apply Hs.
  rewrite (ascii_decode_field _ _ INFO_RESPONSE_FIRMWARE_VERSION_COUNT Hfw) in Hb' by apply Hf.
  rewrite (ascii_decode_field _ _ INFO_RESPONSE_BUILD_ID_COUNT Hbd) in Hb' by apply Hb.
  rewrite (clocks_from_bytes_Ok _ _ (proj2 Hc) Hck) in Hb'. cbn [mbind result_bind] in Hb'.
  apply pack_field_Ok in Hb'. f_equal. apply Some_inj'. rewrite <-Hb', <-Hp.
  replace (Z.b2z (negb (sim =? 0))) with sim; [done|].
  apply orb_true_iff in Hsim as [Hx|Hx]; apply Z.eqb_eq in Hx; by subst.
Qed.

#[export] Instance info_codec : PayloadCodec V3Info := {
  to_payload := info_to_payload;
  from_payload := info_from_payload;
  valid _ := True;
  from_to a b _ := info_from_to a b;
  to_from a b Hw H := conj (info_to_from a b Hw H) I
}.

(** *** STOP *)

Definition STOP_REST : list fcode := Eval vm_compute in drop 3 STOP_RESPONSE_STRUCT_FORMAT.

Lemma stop_pack s b :
  stop_to_payload s = Ok b ->
  pack (U8 :: U8 :: U16 :: STOP_REST)
    (0, (0, (0, (int_of (V3Stop.state s), (0, (0, (V3Stop.run_id s, (V3Stop.pending_frames s, tt))))))))
  = Some b.
Proof.
  unfold stop_to_payload. intros H. apply require_bind in H as [_ H].
  apply require_bind in H as [_ H]. apply require_bind in H as [_ H]. by apply pack_field_Ok in H.
Qed.

Lemma stop_from_to s b : stop_to_payload s = Ok b -> wf_bytes b /\ stop_from_payload b = Ok s.
Proof.
  intros Hto. pose proof (stop_pack s b Hto) as H.
  destruct (pack_prefix_success STOP_REST
    (int_of (V3Stop.state s), (0, (0, (V3Stop.run_id s, (V3Stop.pending_frames s, tt))))) b
    STOP_RESPONSE_PAYLOAD_SIZE) as (Hw & Hu & Hok); [cbn; tauto|exact H|done|].
  split; [done|]. unfold stop_from_payload. rewrite Hok. cbn [mbind result_bind].
  change STOP_RESPONSE_STRUCT_FORMAT with (U8 :: U8 :: U16 :: STOP_REST). rewrite Hu.
  cbn [of_option mbind result_bind]. cbn [Z.eqb andb _require require mbind result_bind].
  rewrite (proj2 (enum_field_Ok _ _ _) eq_refl). cbn [mbind result_bind].
  destruct s as [st run pending]. cbn in Hto |- *. by rewrite Hto.
Qed.

Lemma stop_to_from s b : wf_bytes b -> stop_from_payload b = Ok s -> stop_to_payload s = Ok b.
Proof.
  intros Hw H. unfold stop_from_payload in H. apply bind_Ok_inv in H as (d & Hd & H).
  apply success_Ok in Hd as (-> & Hl & Hok). apply bind_Ok_inv in H as (vs & Hvs & H).
  apply of_option_Ok_inv in Hvs.
  change STOP_RESPONSE_STRUCT_FORMAT with (U8 :: U8 :: U16 :: STOP_REST) in Hvs.
  destruct (unpack_packed (U8 :: U8 :: U16 :: STOP_REST) b vs Hw Hvs) as [Hp _].
  destruct vs as (z0 & z1 & z2 & st & r1 & r2 & run & pending & []).
  destruct (ok_prefix_unpack STOP_REST _ _ _ _ _ Hok Hvs) as (-> & -> & ->).
  apply require_bind in H as [Hr H]. apply andb_true_iff in Hr as [H1 H2].
  apply Z.eqb_eq in H1, H2. subst r1 r2.
  apply bind_Ok_inv in H as (state & Hst & H). apply enum_field_Ok in Hst. subst st.
  apply bind_Ok_inv in H as (b' & Hb' & H). apply Ok_inj in H. subst s.
  rewrite Hb'. apply stop_pack in Hb'. cbn in Hb', Hp. f_equal. apply Some_inj'.
  rewrite <-Hb', <-Hp. done.
Qed.

#[export] Instance stop_codec : PayloadCodec V3Stop := {
  to_payload := stop_to_payload;
  from_payload := stop_from_payload;
  valid _ := True;
  from_to a b _ := stop_from_to a b;
  to_from a b Hw H := conj (stop_to_from a b Hw H) I
}.

(** *** STATUS *)

Lemma pack_u64s_Some values bs :
  pack_u64s values = Some bs ->
  length bs = (8 * length values)%nat /\ wf_bytes bs /\
  forall rest, unpack_u64s (length values) (bs ++ rest) = values.
Proof.
  revert bs. induction values as [|v values IH]; intros bs; cbn [pack_u64s].
  - intros [= <-]. split; [done|]. split; [constructor|done].
  - destruct (fits 8 v) eqn:Hf; [|discriminate].
    destruct (pack_u64s values) as [bs'|] eqn:Hb; [|discriminate]. cbn [mbind option_bind].
    intros H. apply Some_inj' in H. subst bs. destruct (IH bs' eq_refl) as (Hl & Hw & Hu).
    split; [rewrite length_app, Hl, length_to_le; cbn [length]; lia|].
    split; [apply wf_bytes_app; auto using wf_to_le|]. intros rest.
    cbn [length unpack_u64s]. rewrite <-app_assoc.
    rewrite take_app_exact, drop_app_exact, Hu by len. f_equal.
    apply fits_spec in Hf. by apply from_to_le_small.
Qed.

Lemma length_unpack_u64s n data : length (unpack_u64s n data) = n.
Proof. revert data. induction n; intros; cbn; auto. Qed.

Lemma unpack_u64s_nonneg n data : wf_bytes data -> Forall (fun v => 0 <= v) (unpack_u64s n data).
Proof.
  revert data. induction n as [|n IH]; intros data Hw; [constructor|]. cbn [unpack_u64s].
  constructor; [apply from_le_bound|apply IH]; auto with daq.
Qed.

Lemma pack_unpack_u64s n data :
  wf_bytes data -> (8 * n <= length data)%nat ->
  pack_u64s (unpack_u64s n data) = Some (take (8 * n) data).
Proof.
  revert data. induction n as [|n IH]; intros data Hw Hl; [done|].
  cbn [unpack_u64s pack_u64s].
  assert (Hl8 : length (take 8 data) = 8%nat) by len.
  pose proof (from_le_bound (take 8 data) (wf_bytes_take _ _ Hw)) as Hb.
  unfold zlen in Hb. rewrite Hl8 in Hb. rewrite (proj2 (fits_spec 8 _) Hb).
  rewrite IH by (auto with daq || len). cbn [mbind option_bind]. f_equal.
  rewrite <-Hl8 at 1. rewrite to_from_le by auto with daq.
  replace (8 * S n)%nat with (8 + 8 * n)%nat by lia. by rewrite take_take_drop.
Qed.

(** *** Validity bits *)

Lemma validity_of_shift i ds : 0 <= i -> validity_of i ds = 2 ^ i * validity_of 0 ds.
Proof.
  intros Hi. assert (Hgen : forall j, 0 <= j -> validity_of (i + j) ds = 2 ^ i * validity_of j ds).
  { induction ds as [|[d|] ds IH]; intros j Hj; cbn [validity_of]; [lia| |].
    - rewrite !Z.shiftl_mul_pow2, <-Z.add_assoc, IH, Z.pow_add_r by lia. lia.
    - rewrite <-Z.add_assoc. apply IH. lia. }
  rewrite <-(Z.add_0_r i) at 1. by apply Hgen.
Qed.

Lemma validity_of_cons d ds :
  validity_of 0 (d :: ds) = Z.b2z (bool_decide (is_Some d)) + 2 * validity_of 0 ds.
Proof.
  destruct d; cbn [validity_of]; rewrite validity_of_shift by lia; change (2 ^ (0 + 1)) with 2.
  - rewrite bool_decide_eq_true_2 by eauto. done.
  - rewrite bool_decide_eq_false_2 by (by intros [? [=]]). done.
Qed.

Lemma validity_of_range ds : 0 <= validity_of 0 ds < 2 ^ zlen ds.
Proof.
  induction ds as [|d ds IH]; [unfold zlen; cbn; lia|]. rewrite validity_of_cons.
  assert (Hz : zlen (d :: ds) = Z.succ (zlen ds)) by len. rewrite Hz, Z.pow_succ_r by apply zlen_nonneg.
  destruct (bool_decide _); cbn [Z.b2z]; lia.
Qed.

Lemma validity_of_bit ds (j : nat) :
  Z.testbit (validity_of 0 ds) (Z.of_nat j)
  = match ds !! j with Some (Some _) => true | _ => false end.
Proof.
  revert j. induction ds as [|d ds IH]; intros j; [apply Z.testbit_0_l|].
  rewrite validity_of_cons, Z.add_comm. destruct j as [|j].
  - change (Z.of_nat 0) with 0. rewrite Z.testbit_0_r. cbn. destruct d; [by rewrite bool_decide_eq_true_2 by eauto|].
    by rewrite bool_decide_eq_false_2 by (by intros [? [=]]).
  - rewrite Nat2Z.inj_succ. cbn [lookup list_lookup]. rewrite <-IH.
    apply Z.testbit_succ_r. lia.
Qed.

Lemma has_shiftl v (j : nat) : has v (Z.shiftl 1 (Z.of_nat j)) = Z.testbit v (Z.of_nat j).
Proof. rewrite Z.shiftl_1_l. apply has_testbit. lia. Qed.

Lemma diagnostics_back ds :
  imap (fun i value => diagnostic_at (validity_of 0 ds) (Z.of_nat i) value) (map (default 0) ds) = ds.
Proof.
  apply list_eq. intros j. rewrite list_lookup_imap, list_lookup_fmap.
  pose proof (validity_of_bit ds j) as Hb. destruct (ds !! j) as [d|] eqn:Hd; [|done]. cbn.
  unfold diagnostic_at. rewrite has_shiftl, Hb. by destruct d.
Qed.

Lemma diagnostics_checked ds :
  forallb (fun b => b)
    (imap (fun i value => (value =? 0) || has (validity_of 0 ds) (Z.shiftl 1 (Z.of_nat i)))
       (map (default 0) ds)) = true.
Proof.
  apply forallb_forall. intros x Hx. apply list_elem_of_In, elem_of_lookup_imap in Hx as (j & v & -> & Hv).
  rewrite list_lookup_fmap in Hv. rewrite has_shiftl, validity_of_bit.
  destruct (ds !! j) as [[d|]|]; [by rewrite orb_true_r| |discriminate].
  injection Hv as <-. done.
Qed.

Lemma validity_rebuilt validity (wire : list Z) :
  0 <= validity < 2 ^ zlen wire ->
  validity_of 0 (imap (fun i value => diagnostic_at validity (Z.of_nat i) value) wire) = validity.
Proof.
  intros Hv. apply Z.bits_inj'. intros n Hn. rewrite <-(Z2Nat.id n) by done.
  rewrite validity_of_bit, list_lookup_imap. set (j := Z.to_nat n).
  destruct (wire !! j) as [v|] eqn:Hj; cbn.
  - unfold diagnostic_at. rewrite has_shiftl. by destruct (Z.testbit validity (Z.of_nat j)).
  - apply lookup_ge_None in Hj. symmetry. apply (testbit_above (zlen wire)); [done|].
    unfold zlen. lia.
Qed.

Lemma wire_rebuilt validity (wire : list Z) :
  forallb (fun b => b)
    (imap (fun i value => (value =? 0) || has validity (Z.shiftl 1 (Z.of_nat i))) wire) = true ->
  map (default 0) (imap (fun i value => diagnostic_at validity (Z.of_nat i) value) wire) = wire.
Proof.
  intros H. rewrite forallb_forall in H. apply list_eq. intros j.
  rewrite list_lookup_fmap, list_lookup_imap. destruct (wire !! j) as [v|] eqn:Hj; [|done]. cbn.
  unfold diagnostic_at. destruct (has validity _) eqn:Hb; [done|]. cbn.
  specialize (H ((v =? 0) || has validity (Z.shiftl 1 (Z.of_nat j)))).
  rewrite Hb, orb_false_r in H. f_equal. symmetry. apply Z.eqb_eq, H.
  apply list_elem_of_In, elem_of_lookup_imap. exists j, v. split; [by rewrite Hb, orb_false_r|done].
Qed.

Definition status_valid (s : V3Status) : Prop :=
  length s.(V3Status.counts) = 8%nat /\ length s.(V3Status.diagnostics) = 37%nat.

Lemma stop_bytes_facts s b :
  stop_to_payload s = Ok b -> wf_bytes b /\ length b = 16%nat /\ take 4 b = _OK.
Proof.
  intros H. apply stop_pack in H.
  destruct (pack_prefix_success STOP_REST
    (int_of (V3Stop.state s), (0, (0, (V3Stop.run_id s, (V3Stop.pending_frames s, tt))))) b
    STOP_RESPONSE_PAYLOAD_SIZE) as (Hw & Hu & Hok); [cbn; tauto|exact H|done|].
  apply success_Ok in Hok as (_ & Hl & Ht). split; [done|]. split; [|done].
  unfold zlen, STOP_RESPONSE_PAYLOAD_SIZE in Hl. lia.
Qed.

Lemma status_values_split (counts : list Z) (ds : list (option Z)) validity :
  length counts = 8%nat -> length ds = 37%nat ->
  let values := counts ++ map (default 0) ds ++ [validity] in
  length values = 46%nat /\ take 8 values = counts /\ take 37 (drop 8 values) = map (default 0) ds /\
  last values = Some validity.
Proof.
  intros Hc Hd. cbn zeta. split; [rewrite !length_app, length_map; cbn; lia|].
  rewrite take_app_exact, drop_app_exact, take_app_exact by (rewrite ?length_map; lia).
  split; [done|]. split; [done|]. by rewrite app_assoc, last_snoc.
Qed.

Lemma status_from_to s b :
  status_valid s -> status_to_payload s = Ok b -> wf_bytes b /\ status_from_payload b = Ok s.
Proof.
  intros [Hc Hd] H. pose proof H as Hto. unfold status_to_payload in H.
  apply bind_Ok_inv in H as (prefix & Hp & H). apply require_bind in H as [_ H].
  apply bind_Ok_inv in H as (rest & Hr & H). apply of_option_Ok_inv in Hr. apply Ok_inj in H. subst b.
  destruct (stop_bytes_facts _ _ Hp) as (Hwp & Hlp & Htp).
  destruct (pack_u64s_Some _ _ Hr) as (Hlr & Hwr & Hur).
  destruct s as [st cs ds]. cbn [V3Status.counts V3Status.diagnostics V3Status.stop] in *.
  destruct (status_values_split cs ds (validity_of 0 ds) Hc Hd) as (Hlv & H8 & H37 & Hlast).
  rewrite Hlv in Hlr, Hur. split; [by apply wf_bytes_app|].
  unfold status_from_payload. rewrite (proj2 (success_Ok _ _ _)) by
    (split; [done|split; [unfold zlen, STATUS_RESPONSE_PAYLOAD_SIZE; rewrite length_app; lia|]];
     rewrite take_app_le by lia; done).
  cbn [mbind result_bind].
  change (Z.to_nat STOP_RESPONSE_PAYLOAD_SIZE) with 16%nat.
  change (Z.to_nat STATUS_DIAGNOSTIC_COUNT) with 37%nat. change (8 + 37 + 1)%nat with 46%nat.
  rewrite take_app_exact, drop_app_exact by done.
  rewrite (proj2 (stop_from_to _ _ Hp)). cbn [mbind result_bind].
  specialize (Hur []). rewrite app_nil_r in Hur. rewrite Hur, Hlast, H8, H37. cbn [from_option id].
  pose proof (validity_of_range ds) as Hv. unfold zlen in Hv. rewrite Hd in Hv.
  change (Z.shiftl 1 STATUS_DIAGNOSTIC_COUNT) with (2 ^ Z.of_nat 37).
  rewrite (proj2 (Z.ltb_lt _ _)) by apply Hv. cbn [_require require mbind result_bind].
  rewrite diagnostics_checked. cbn [_require require mbind result_bind].
  rewrite diagnostics_back, Hto. done.
Qed.

Lemma status_to_from s b :
  wf_bytes b -> status_from_payload b = Ok s -> status_to_payload s = Ok b /\ status_valid s.
Proof.
  intros Hw H. unfold status_from_payload in H. apply bind_Ok_inv in H as (d & Hd & H).
  apply success_Ok in Hd as (-> & Hl & Hok). unfold zlen, STATUS_RESPONSE_PAYLOAD_SIZE in Hl.
  apply bind_Ok_inv in H as (st & Hst & H). cbv zeta in H.
  change (Z.to_nat STOP_RESPONSE_PAYLOAD_SIZE) with 16%nat in *.
  change (Z.to_nat STATUS_DIAGNOSTIC_COUNT) with 37%nat in *. change (8 + 37 + 1)%nat with 46%nat in *.
  set (values := unpack_u64s 46 (drop 16 b)) in *.
  assert (Hlv : length values = 46%nat) by apply length_unpack_u64s.
  assert (Hpv : pack_u64s values = Some (drop 16 b)).
  { unfold values. rewrite pack_unpack_u64s by (auto with daq || len). by rewrite take_ge by len. }
  assert (Hsplit : values = take 8 values ++ take 37 (drop 8 values) ++ [default 0 (last values)]).
  { reflexivity. }
  pose proof (unpack_u64s_nonneg 46 (drop 16 b) (wf_bytes_drop _ _ Hw)) as Hnn. fold values in Hnn.
  clearbody values.
  set (validity := default 0 (last values)) in *. set (wire := take 37 (drop 8 values)) in *.
  assert (Hlw : length wire = 37%nat) by (unfold wire; len).
  apply require_bind in H as [Hv H]. apply Z.ltb_lt in Hv. apply require_bind in H as [Hz H].
  apply bind_Ok_inv in H as (b' & Hb' & H). apply Ok_inj in H. subst s.
  assert (Hvr : 0 <= validity < 2 ^ zlen wire).
  { split; [|unfold zlen; rewrite Hlw; exact Hv].
    assert (Hin : validity ∈ take 8 values ++ wire ++ [validity]) by set_solver.
    rewrite <-Hsplit in Hin.
    rewrite Forall_forall in Hnn. by apply Hnn. }
  split; [|split; cbn; [len|by rewrite length_imap]].
  rewrite Hb'. unfold status_to_payload in Hb'. cbn [V3Status.stop V3Status.counts V3Status.diagnostics] in Hb'.
  rewrite (stop_to_from st (take 16 b)) in Hb' by auto with daq. cbn [mbind result_bind] in Hb'.
  apply require_bind in Hb' as [_ Hb']. rewrite wire_rebuilt, validity_rebuilt in Hb' by done.
  rewrite <-Hsplit, Hpv in Hb'. cbn [of_option mbind result_bind] in Hb'. apply Ok_inj in Hb'.
  subst b'. by rewrite take_drop.
Qed.

#[export] Instance status_codec : PayloadCodec V3Status := {
  to_payload := status_to_payload;
  from_payload := status_from_payload;
  valid := status_valid;
  from_to := status_from_to;
  to_from := status_to_from
}.

(** *** CAPABILITIES *)

Lemma mapR_flip {A B} (f : A -> v3 B) (g : B -> v3 A) (P : A -> Prop) l l' :
  (forall a b, P a -> f a = Ok b -> g b = Ok a) -> Forall P l -> mapR f l = Ok l' ->
  mapR g l' = Ok l.
Proof.
  intros Hfg HP H. apply mapR_Forall2 in H. apply mapR_Forall2.
  induction H as [|a b l l' Hab _ IH]; [constructor|].
  apply Forall_cons in HP as [Ha HP]. constructor; auto.
Qed.

Lemma mapR_outputs {A B} (f : A -> v3 B) (P : B -> Prop) l l' :
  (forall a b, f a = Ok b -> P b) -> mapR f l = Ok l' -> Forall P l'.
Proof.
  intros Hf H. apply mapR_Forall2 in H. induction H; constructor; eauto.
Qed.

Definition record_of_size (size : nat) (r : bytes) : Prop := wf_bytes r /\ length r = size.

Lemma concat_records size recs :
  Forall (record_of_size size) recs ->
  wf_bytes (concat recs) /\ length (concat recs) = (length recs * size)%nat.
Proof.
  induction 1 as [|r recs [Hw Hl] _ [IH1 IH2]]; cbn [concat length]; [split; [constructor|done]|].
  split; [by apply wf_bytes_app|]. rewrite length_app, Hl, IH2. lia.
Qed.

Lemma slice_records size recs rest i r :
  Forall (record_of_size size) recs -> recs !! i = Some r ->
  slice (i * size) ((i + 1) * size) (concat recs ++ rest) = r.
Proof.
  intros H. revert i. induction H as [|x recs [_ Hl] _ IH]; intros i Hi; [done|]. unfold slice in *.
  destruct i as [|i]; cbn [lookup list_lookup] in Hi.
  - injection Hi as <-. cbn [concat]. rewrite drop_0, <-app_assoc.
    replace ((0 + 1) * size - 0 * size)%nat with (length x) by lia. by apply take_app_exact.
  - cbn [concat]. rewrite <-app_assoc.
    replace (S i * size)%nat with (length x + i * size)%nat by lia.
    rewrite <-drop_drop, drop_app_exact by done.
    replace ((S i + 1) * size - (length x + i * size))%nat with ((i + 1) * size - i * size)%nat by lia.
    by apply IH.
Qed.

Lemma table_ljust recs n capacity size :
  0 <= size -> Forall (record_of_size (Z.to_nat size)) recs -> NoDup recs ->
  count_ok (zlen recs) capacity = true ->
  _table (ljust (concat recs) n) (zlen recs) capacity size = Ok recs.
Proof.
  intros Hs Hr Hnd Hc. unfold _table. rewrite Hc. cbn [_require require mbind result_bind].
  destruct (concat_records _ _ Hr) as [_ Hl]. unfold ljust.
  replace (Z.to_nat (zlen recs * size)) with (length (concat recs))
    by (rewrite Hl; unfold zlen; nia).
  rewrite drop_app_exact by done.
  rewrite (proj2 (all_zero_replicate _)) by (by rewrite length_replicate).
  cbn [_require require mbind result_bind].
  assert (Hmap : map (fun i => slice (i * Z.to_nat size) ((i + 1) * Z.to_nat size)
            (concat recs ++ replicate (n - length (concat recs)) 0)) (seq 0 (Z.to_nat (zlen recs))) = recs).
  { unfold zlen. rewrite Nat2Z.id. apply list_eq. intros i. rewrite list_lookup_fmap.
    destruct (decide (i < length recs)%nat) as [Hi|Hi].
    - rewrite lookup_seq_lt by done. cbn. destruct (lookup_lt_is_Some_2 recs i Hi) as [r Hri].
      rewrite Hri. f_equal. by apply slice_records.
    - rewrite lookup_seq_ge by lia. cbn. symmetry. apply lookup_ge_None. lia. }
  rewrite Hmap, bool_decide_eq_true_2 by done. done.
Qed.

Lemma table_records data count capacity size recs :
  wf_bytes data -> 0 < size -> zlen data = capacity * size ->
  _table data count capacity size = Ok recs ->
  zlen recs = count /\ Forall (record_of_size (Z.to_nat size)) recs /\ NoDup recs /\
  data = ljust (concat recs) (length data).
Proof.
  intros Hw Hs Hl H. unfold _table in H. apply require_bind in H as [Hc H].
  unfold count_ok in Hc. apply andb_true_iff in Hc as [Hc1 Hc2]. apply Z.leb_le in Hc1, Hc2.
  apply require_bind in H as [Hz H]. apply require_bind in H as [Hnd H].
  apply bool_decide_eq_true in Hnd. apply Ok_inj in H. rewrite H in Hnd.
  set (s := Z.to_nat size) in *. set (k := Z.to_nat count) in *.
  assert (Hle : (k * s <= length data)%nat) by (unfold zlen, k, s in *; nia).
  replace (Z.to_nat (count * size)) with (k * s)%nat in Hz by (unfold k, s; lia).
  subst recs. split; [unfold zlen; rewrite length_map, length_seq; lia|]. split; [|split; [done|]].
  - apply Forall_forall. intros r Hr. apply list_elem_of_fmap in Hr as (i & -> & Hi).
    apply elem_of_seq in Hi. split; [auto with daq|]. unfold slice.
    rewrite length_take, length_drop. nia.
  - assert (Hcat : forall m, (m <= k)%nat ->
      concat (map (fun i => slice (i * s) ((i + 1) * s) data) (seq 0 m)) = take (m * s) data).
    { induction m as [|m IH]; intros Hm; [done|]. rewrite seq_S, map_app, concat_app, IH by lia.
      cbn [map concat]. rewrite app_nil_r. unfold slice. cbn [Nat.add].
      replace ((m + 1) * s - m * s)%nat with s by lia. replace (S m * s)%nat with (m * s + s)%nat by lia.
      apply take_take_drop. }
    rewrite Hcat by lia. unfold ljust. rewrite length_take_le by done.
    apply all_zero_replicate in Hz. rewrite length_drop in Hz. rewrite <-Hz. by rewrite take_drop.
Qed.

Definition CAPABILITIES_REST : list fcode :=
  Eval vm_compute in drop 3 CAPABILITIES_RESPONSE_STRUCT_FORMAT.

Lemma clocks_records l l' :
  mapR clocks_to_bytes l = Ok l' -> Forall (record_of_size 24) l' /\ mapR clocks_from_bytes l' = Ok l.
Proof.
  intros H. split.
  - eapply mapR_outputs; [|exact H]. intros a b Hab. apply clocks_to_bytes_Ok in Hab as (? & ? & _). done.
  - eapply (mapR_flip _ _ (fun _ => True)); [|by apply Forall_true|exact H].
    intros a b _ Hab. by apply clocks_to_bytes_Ok in Hab as (_ & _ & ?).
Qed.

Lemma rate_records l l' :
  mapR rate_to_bytes l = Ok l' -> Forall (record_of_size 20) l' /\ mapR rate_from_bytes l' = Ok l.
Proof.
  intros H. split.
  - eapply mapR_outputs; [|exact H]. intros a b Hab. apply rate_to_bytes_Ok in Hab as (? & ? & _). done.
  - eapply (mapR_flip _ _ (fun _ => True)); [|by apply Forall_true|exact H].
    intros a b _ Hab. by apply rate_to_bytes_Ok in Hab as (_ & _ & ?).
Qed.

Lemma settings_records l l' :
  mapR settings_to_bytes l = Ok l' -> Forall (record_of_size 20) l' /\ mapR settings_from_bytes l' = Ok l.
Proof.
  intros H. split.
  - eapply mapR_outputs; [|exact H]. intros a b Hab. apply settings_bytes_facts in Hab as (_ & ? & ? & _). done.
  - eapply (mapR_flip _ _ (fun _ => True)); [|by apply Forall_true|exact H].
    intros a b _ Hab. by apply settings_from_to.
Qed.

Lemma ljust_field recs size n :
  Forall (record_of_size size) recs -> (length recs * size <= n)%nat ->
  length (ljust (concat recs) n) = n /\ wf_bytes (ljust (concat recs) n).
Proof.
  intros Hr Hn. destruct (concat_records _ _ Hr) as [Hw Hl]. unfold ljust. split; [len|].
  apply wf_bytes_app. auto with daq.
Qed.

Lemma count_ok_le count capacity : count_ok count capacity = true -> 1 <= count <= capacity.
Proof. unfold count_ok. lia. Qed.

Lemma capabilities_from_to c b :
  capabilities_to_payload c = Ok b -> wf_bytes b /\ capabilities_from_payload b = Ok c.
Proof.
  intros H. pose proof H as Hto. unfold capabilities_to_payload in H.
  apply bind_Ok_inv in H as (u & Hlim & H). cbv zeta in H.
  apply require_bind in H as [Hcnt H]. apply andb_true_iff in Hcnt as [Hcnt Hns].
  apply andb_true_iff in Hcnt as [Hnc Hnr].
  apply bind_Ok_inv in H as (cpus & Hcpus & H). apply bind_Ok_inv in H as (rates & Hrates & H).
  apply bind_Ok_inv in H as (settings & Hset & H). apply require_bind in H as [Hnd H].
  apply andb_true_iff in Hnd as [Hnd Hnd3]. apply andb_true_iff in Hnd as [Hnd1 Hnd2].
  apply bool_decide_eq_true in Hnd1, Hnd2, Hnd3.
  apply bind_Ok_inv in H as (d & Hd & H). apply require_bind in H as [_ H].
  apply require_bind in H as [_ H]. apply pack_field_Ok in H.
  pose proof (mapR_Ok_length _ _ _ Hcpus) as Lc. pose proof (mapR_Ok_length _ _ _ Hrates) as Lr.
  pose proof (mapR_Ok_length _ _ _ Hset) as Ls.
  destruct (clocks_records _ _ Hcpus) as [Rc Fc]. destruct (rate_records _ _ Hrates) as [Rr Fr].
  destruct (settings_records _ _ Hset) as [Rs Fs].
  destruct (settings_bytes_facts _ _ Hd) as (_ & Wd & Ld & _).
  apply count_ok_le in Hnc as Bc, Hnr as Br, Hns as Bs.
  unfold MAX_CPU_PROFILES, MAX_RATE_PROFILES, MAX_CONFIGURATION_TUPLES, zlen in Bc, Br, Bs.
  destruct (ljust_field cpus 24 48 Rc ltac:(lia)) as [LJc WJc].
  destruct (ljust_field rates 20 20 Rr ltac:(lia)) as [LJr WJr].
  destruct (ljust_field settings 20 1280 Rs ltac:(lia)) as [LJs WJs].
  match type of H with pack _ (_, (_, (_, ?vs))) = _ =>
    destruct (pack_prefix_success CAPABILITIES_REST vs b CAPABILITIES_RESPONSE_PAYLOAD_SIZE)
      as (Hw & Hu & Hok); [cbn -[ljust]; tauto|exact H|done|] end.
  split; [done|]. unfold capabilities_from_payload. rewrite Hok. cbn [mbind result_bind].
  change CAPABILITIES_RESPONSE_STRUCT_FORMAT with (U8 :: U8 :: U16 :: CAPABILITIES_REST).
  rewrite Hu. cbn [of_option mbind result_bind]. cbn [Z.eqb _require require mbind result_bind].
  unfold validate_limits_of in Hlim. rewrite Hlim. cbn [mbind result_bind].
  rewrite <-(f_equal Z.of_nat Lc : zlen cpus = zlen _), <-(f_equal Z.of_nat Lr : zlen rates = zlen _),
    <-(f_equal Z.of_nat Ls : zlen settings = zlen _) in *.
  rewrite (table_ljust cpus), (table_ljust rates), (table_ljust settings) by (done || exact Rc || exact Rr || exact Rs).
  cbn [mbind result_bind]. rewrite (settings_from_to _ _ Hd). cbn [mbind result_bind].
  rewrite Fc. cbn [mbind result_bind]. rewrite Fr. cbn [mbind result_bind]. rewrite Fs. cbn [mbind result_bind].
  destruct c. cbn in Hto |- *. by rewrite Hto.
Qed.

Lemma records_wf size recs : Forall (record_of_size size) recs -> Forall wf_bytes recs.
Proof. intros H. eapply Forall_impl; [exact H|]. by intros r [? _]. Qed.

Lemma capabilities_to_from c b :
  wf_bytes b -> capabilities_from_payload b = Ok c -> capabilities_to_payload c = Ok b.
Proof.
  intros Hw H. unfold capabilities_from_payload in H. apply bind_Ok_inv in H as (d & Hd & H).
  apply success_Ok in Hd as (-> & Hl & Hok). apply bind_Ok_inv in H as (vs & Hvs & H).
  apply of_option_Ok_inv in Hvs.
  change CAPABILITIES_RESPONSE_STRUCT_FORMAT with (U8 :: U8 :: U16 :: CAPABILITIES_REST) in Hvs.
  destruct (unpack_packed (U8 :: U8 :: U16 :: CAPABILITIES_REST) b vs Hw Hvs) as [Hp Hv].
  destruct vs as (z0 & z1 & z2 & nc & nr & ns & zero & frame & control & logical & encoded & adc &
    gpio8 & gpio16 & default & cpus & rates & settings & []).
  destruct (ok_prefix_unpack CAPABILITIES_REST _ _ _ _ _ Hok Hvs) as (-> & -> & ->).
  cbn -[Z.pow] in Hv.
  destruct Hv as (_ & _ & _ & _ & _ & _ & _ & _ & _ & _ & _ & _ & _ & _ & [Ld Wd] & [Lc Wc] & [Lr Wr] & [Ls Ws] & _).
  apply require_bind in H as [Hz H]. apply Z.eqb_eq in Hz. subst zero.
  apply bind_Ok_inv in H as (u & Hlim & H).
  apply bind_Ok_inv in H as (crecs & Hcrecs & H). apply bind_Ok_inv in H as (rrecs & Hrrecs & H).
  apply bind_Ok_inv in H as (srecs & Hsrecs & H). apply bind_Ok_inv in H as (dflt & Hdflt & H).
  apply bind_Ok_inv in H as (ccs & Hccs & H). apply bind_Ok_inv in H as (rrs & Hrrs & H).
  apply bind_Ok_inv in H as (sss & Hsss & H). apply bind_Ok_inv in H as (b' & Hb' & H).
  apply Ok_inj in H. subst c. rewrite Hb'. f_equal.
  destruct (table_records cpus nc MAX_CPU_PROFILES
    CPU_PROFILE_INFO_PAYLOAD_SIZE _ Wc eq_refl
    (f_equal Z.of_nat Lc) Hcrecs) as (Zc & Rc & _ & Ec).
  destruct (table_records rates nr MAX_RATE_PROFILES
    RATE_PROFILE_INFO_PAYLOAD_SIZE _ Wr eq_refl
    (f_equal Z.of_nat Lr) Hrrecs) as (Zr & Rr & _ & Er).
  destruct (table_records settings ns MAX_CONFIGURATION_TUPLES
    SETTINGS_PAYLOAD_SIZE _ Ws eq_refl
    (f_equal Z.of_nat Ls) Hsrecs) as (Zs & Rs & _ & Es).
  pose proof (mapR_flip _ _ _ _ _ (fun x y Hx => clocks_from_bytes_Ok y x Hx) (records_wf _ _ Rc) Hccs) as Fc.
  pose proof (mapR_flip _ _ _ _ _ (fun x y Hx => rate_from_bytes_Ok y x Hx) (records_wf _ _ Rr) Hrrs) as Fr.
  pose proof (mapR_flip _ _ _ _ _ (fun x y Hx => settings_to_from y x Hx) (records_wf _ _ Rs) Hsss) as Fs.
  unfold capabilities_to_payload in Hb'. cbn [V3Capabilities.cpu_profiles V3Capabilities.rate_profiles
    V3Capabilities.configurations V3Capabilities.defaults V3Capabilities.max_data_frame_bytes
    V3Capabilities.max_control_frame_bytes V3Capabilities.max_logical_payload_bytes
    V3Capabilities.max_encoded_sample_bytes V3Capabilities.max_adc_pairs
    V3Capabilities.max_gpio8_samples V3Capabilities.max_gpio16_samples] in Hb'.
  apply bind_Ok_inv in Hb' as (u1 & _ & Hb'). cbv zeta in Hb'.
  apply require_bind in Hb' as [_ Hb'].
  rewrite Fc in Hb'. cbn [mbind result_bind] in Hb'. rewrite Fr in Hb'. cbn [mbind result_bind] in Hb'.
  rewrite Fs in Hb'. cbn [mbind result_bind] in Hb'. apply require_bind in Hb' as [_ Hb'].
  rewrite (settings_to_from dflt default Wd Hdflt) in Hb'. cbn [mbind result_bind] in Hb'.
  apply require_bind in Hb' as [_ Hb']. apply require_bind in Hb' as [_ Hb'].
  apply pack_field_Ok in Hb'. apply mapR_Ok_length in Fc, Fr, Fs.
  rewrite <-(f_equal Z.of_nat Fc : zlen crecs = zlen _), <-(f_equal Z.of_nat Fr : zlen rrecs = zlen _),
    <-(f_equal Z.of_nat Fs : zlen srecs = zlen _), Zc, Zr, Zs in Hb'.
  change (Z.to_nat (MAX_CPU_PROFILES * CPU_PROFILE_INFO_PAYLOAD_SIZE)) with 48%nat in Hb'.
  change (Z.to_nat (MAX_RATE_PROFILES * RATE_PROFILE_INFO_PAYLOAD_SIZE)) with 20%nat in Hb'.
  change (Z.to_nat (MAX_CONFIGURATION_TUPLES * SETTINGS_PAYLOAD_SIZE)) with 1280%nat in Hb'.
  rewrite Lc in Ec. rewrite Lr in Er. rewrite Ls in Es. rewrite <-Ec, <-Er, <-Es in Hb'.
  apply Some_inj'. rewrite <-Hb', <-Hp. done.
Qed.

#[export] Instance capabilities_codec : PayloadCodec V3Capabilities := {
  to_payload := capabilities_to_payload;
  from_payload := capabilities_from_payload;
  valid _ := True;
  from_to a b _ := capabilities_from_to a b;
  to_from a b Hw H := conj (capabilities_to_from a b Hw H) I
}.

(** ** Responses *)

(** The literal format <BBH of line 815. *)
Definition REJECTED_STRUCT_FORMAT : list fcode := Eval vm_compute in struct_format "<BBH".

(** [V3Response.to_bytes], lines 786-820: the payload and the flags. *)
Definition response_body (r : V3Response) : v3 (bytes * Z) :=
  match r.(V3Response.status) with
  | ResponseStatus.OK =>
      match r.(V3Response.value) with
      | Some v =>
          _ ← _require (bool_decide (r.(V3Response.error_code) = ErrorCode.OK)
                        && bool_decide (r.(V3Response.rejected_kind) = None))
                "invalid success response";
          payload ← value_to_payload v;
          Ok (payload, 0)
      | None => Err (invalid "invalid success response")
      end
  | ResponseStatus.ERROR =>
      _ ← _require (bool_decide (r.(V3Response.error_code) <> ErrorCode.OK)
                    && bool_decide (r.(V3Response.value) = None)) "invalid error response";
      payload ← _pack RESPONSE_PREFIX_STRUCT_FORMAT
                  (int_of ResponseStatus.ERROR, (0, (int_of r.(V3Response.error_code), tt)));
      if decide (r.(V3Response.kind) = FrameKind.ERROR_RESPONSE) then
        rejected ← of_option r.(V3Response.rejected_kind)
                     (invalid "generic error requires rejected kind");
        rest ← _pack REJECTED_STRUCT_FORMAT (rejected, (0, (0, tt)));
        Ok (payload ++ rest, FrameFlag.RESPONSE_ERROR)
      else
        _ ← _require (bool_decide (r.(V3Response.rejected_kind) = None))
              "typed error cannot carry rejected kind";
        Ok (payload, FrameFlag.RESPONSE_ERROR)
  end.

(** What the Python types guarantee of a response value. *)
Definition value_valid (v : V3ResponseValue) : Prop :=
  match v with StatusValue s => status_valid s | _ => True end.

Lemma success_size payload size d : _success payload size = Ok d -> zlen payload = size.
Proof. intros H. by apply success_Ok in H as (_ & ? & _). Qed.

Definition value_size (v : V3ResponseValue) : Z :=
  match v with
  | InfoValue _ => INFO_RESPONSE_PAYLOAD_SIZE
  | CapabilitiesValue _ => CAPABILITIES_RESPONSE_PAYLOAD_SIZE
  | AppliedValue _ => SETTINGS_RESPONSE_PAYLOAD_SIZE
  | StopValue _ => STOP_RESPONSE_PAYLOAD_SIZE
  | StatusValue _ => STATUS_RESPONSE_PAYLOAD_SIZE
  end.

(** The value a payload decodes to under its own type. *)
Definition value_from_payload (v : V3ResponseValue) (data : bytes) : v3 V3ResponseValue :=
  match v with
  | InfoValue _ => InfoValue <$> from_payload data
  | CapabilitiesValue _ => CapabilitiesValue <$> from_payload data
  | AppliedValue _ => AppliedValue <$> from_payload data
  | StopValue _ => StopValue <$> from_payload data
  | StatusValue _ => StatusValue <$> from_payload data
  end.

Lemma value_codec v data :
  value_valid v -> value_to_payload v = Ok data ->
  wf_bytes data /\ value_from_payload v data = Ok v /\ zlen data = value_size v /\ take 4 data = _OK.
Proof.
  intros Hv H.
  assert (Hc : wf_bytes data /\ value_from_payload v data = Ok v).
  { destruct v as [v|v|v|v|v]; cbn in H |- *.
    - pose proof (from_to v data) as Hft. destruct (Hft I H) as [? Hf]. cbn in Hf. by rewrite Hf.
    - pose proof (from_to v data) as Hft. destruct (Hft I H) as [? Hf]. cbn in Hf. by rewrite Hf.
    - pose proof (from_to v data) as Hft. destruct (Hft I H) as [? Hf]. cbn in Hf. by rewrite Hf.
    - pose proof (from_to v data) as Hft. destruct (Hft I H) as [? Hf]. cbn in Hf. by rewrite Hf.
    - pose proof (from_to v data) as Hft. destruct (Hft Hv H) as [? Hf]. cbn in Hf. by rewrite Hf. }
  destruct Hc as [Hw Hf]. split; [done|]. split; [done|].
  assert (Hs : exists d, _success data (value_size v) = Ok d).
  { destruct v as [v|v|v|v|v]; cbn in Hf |- *;
      [unfold info_from_payload in Hf|unfold capabilities_from_payload in Hf|
       unfold applied_from_payload in Hf|unfold stop_from_payload in Hf|
       unfold status_from_payload in Hf];
      (destruct (_success data _) as [d|]; [by exists d|discriminate]). }
  destruct Hs as [d Hs]. by apply success_Ok in Hs as (_ & ? & ?).
Qed.

(** A decoded value encodes back to the payload it was decoded from. *)
Lemma decode_value_codec kind data v :
  wf_bytes data -> decode_value kind data = Ok v ->
  value_to_payload v = Ok data /\ value_valid v /\
  _RESPONSE_SIZES kind = Some (value_size v).
Proof.
  intros Hw H. destruct kind; try discriminate; unfold decode_value in H;
    apply bind_Ok_inv in H as (x & Hx & H); cbn [mbind result_bind] in H.
  all: try (apply Ok_inj in H; subst v; pose proof (to_from x data Hw) as Htf; destruct (Htf Hx) as [? ?]; done).
  apply require_bind in H as [_ H]. apply Ok_inj in H. subst v.
  pose proof (to_from x data Hw) as Htf. destruct (Htf Hx) as [? ?]. done.
Qed.

Lemma prefix_fields data :
  wf_bytes data -> (4 <= length data)%nat ->
  exists status reserved error,
    unpack_from RESPONSE_PREFIX_STRUCT_FORMAT data 0 = Some (status, (reserved, (error, tt))) /\
    pack RESPONSE_PREFIX_STRUCT_FORMAT (status, (reserved, (error, tt))) = Some (take 4 data).
Proof.
  intros Hw Hl. unfold unpack_from. rewrite (proj2 (Nat.leb_le _ _)) by (cbn; lia). rewrite drop_0.
  eexists _, _, _. split; [reflexivity|]. exact (pack_unpack_fields RESPONSE_PREFIX_STRUCT_FORMAT data Hw Hl).
Qed.

(** Decoding a response loses nothing of the payload, and fixes the flags. *)
Lemma decode_response_body frame r :
  wf_bytes frame.(V3Frame.payload) -> decode_v3_response frame = Ok r ->
  (exists flags, response_body r = Ok (frame.(V3Frame.payload), flags) /\
     has flags FrameFlag.RESPONSE_ERROR = has frame.(V3Frame.header).(V3FrameHeader.flags) FrameFlag.RESPONSE_ERROR /\
     (flags = 0 \/ flags = FrameFlag.RESPONSE_ERROR)) /\
  r.(V3Response.kind) = frame.(V3Frame.header).(V3FrameHeader.kind) /\
  r.(V3Response.request_id) = frame.(V3Frame.header).(V3FrameHeader.request_id) /\
  r.(V3Response.run_id) = frame.(V3Frame.header).(V3FrameHeader.run_id) /\
  (forall v, r.(V3Response.value) = Some v -> value_valid v) /\
  (reported_run r.(V3Response.value) = None \/
   reported_run r.(V3Response.value) = Some r.(V3Response.run_id)).
Proof.
  intros Hw H. unfold decode_v3_response in H. set (h := V3Frame.header frame) in *.
  set (data := V3Frame.payload frame) in *. cbv zeta in H.
  apply require_bind in H as [Hkind H]. apply bind_Ok_inv in H as (d & Hd & H).
  apply bounded_bytes_Ok in Hd as [-> [Hl _]]. unfold RESPONSE_PREFIX_PAYLOAD_SIZE, zlen in Hl.
  destruct (prefix_fields data Hw) as (st & rs & er & Hu & Hp); [lia|].
  rewrite Hu in H. cbn [of_option mbind result_bind] in H.
  apply bind_Ok_inv in H as (status & Hst & H). apply enum_field_Ok in Hst. subst st.
  apply bind_Ok_inv in H as (error & Her & H). apply enum_field_Ok in Her. subst er.
  apply require_bind in H as [Hrs H]. apply Z.eqb_eq in Hrs. subst rs.
  apply require_bind in H as [Hag H]. apply andb_true_iff in Hag as [Hflag Herr].
  apply bool_decide_eq_true in Hflag, Herr. apply require_bind in H as [_ H].
  apply bind_Ok_inv in H as ([value rejected] & Hval & H). cbv beta iota in H.
  apply bind_Ok_inv in H as (u & Hrun & H). apply Ok_inj in H. subst r.
  cbn [V3Response.kind V3Response.request_id V3Response.run_id V3Response.value].
  assert (Hrep : reported_run value = None \/ reported_run value = Some (V3FrameHeader.run_id h)).
  { destruct (reported_run value) as [run|]; [right|by left].
    apply require_Ok, Z.eqb_eq in Hrun. by subst. }
  destruct status.
  - apply bind_Ok_inv in Hval as (v & Hv & Hval). apply Ok_inj in Hval. injection Hval as <- <-.
    destruct (decode_value_codec _ _ _ Hw Hv) as (Hto & Hvv & _).
    split; [|split; [done|split; [done|split; [done|split; [by intros ? [= <-]|done]]]]].
    exists 0. unfold response_body. cbn [V3Response.status V3Response.value V3Response.error_code
      V3Response.rejected_kind]. rewrite (proj1 Herr eq_refl), !bool_decide_eq_true_2 by done.
    cbn [andb _require require mbind result_bind]. rewrite Hto. split; [done|]. split; [|by left].
    destruct (has (V3FrameHeader.flags h) _); [|done]. discriminate (proj1 Hflag eq_refl).
  - apply bind_Ok_inv in Hval as (rej & Hrej & Hval). apply Ok_inj in Hval. injection Hval as <- <-.
    split; [|split; [done|split; [done|split; [done|split; [discriminate|done]]]]].
    exists FrameFlag.RESPONSE_ERROR. rewrite (proj2 Hflag eq_refl).
    split; [|split; [done|by right]].
    unfold response_body. cbn [V3Response.status V3Response.value V3Response.error_code
      V3Response.rejected_kind V3Response.kind].
    rewrite (bool_decide_eq_true_2 (error <> ErrorCode.OK))
      by (intros ->; discriminate (proj2 Herr eq_refl)).
    rewrite (bool_decide_eq_true_2 (None = None)) by done. cbn [andb _require require mbind result_bind].
    assert (Hp4 : _pack RESPONSE_PREFIX_STRUCT_FORMAT
              (int_of ResponseStatus.ERROR, (0, (int_of error, tt))) = Ok (take 4 data))
      by (apply pack_field_Ok; exact Hp).
    rewrite Hp4. cbn [mbind result_bind].
    unfold decode_rejection in Hrej. destruct (decide _) as [Hk|Hk].
    + apply require_bind in Hrej as [Hz Hrej]. apply andb_true_iff in Hz as [Hz1 Hz2].
      apply Z.eqb_eq in Hz1. apply Ok_inj in Hrej. subst rej.
      unfold ERROR_RESPONSE_PAYLOAD_SIZE, zlen in Hz1.
      destruct (drop 4 data) as [|x rest] eqn:Hdr; [apply (f_equal length) in Hdr; len|].
      assert (Hx : data !! 4%nat = Some x) by (rewrite <-(Nat.add_0_r 4), <-lookup_drop, Hdr; done).
      rewrite Hx. cbn [of_option mbind result_bind].
      assert (Hrest : drop 5 data = rest) by (change 5%nat with (4 + 1)%nat; by rewrite <-drop_drop, Hdr).
      rewrite Hrest in Hz2. apply all_zero_replicate in Hz2.
      assert (Hlr : length rest = 3%nat) by (rewrite <-Hrest; len). rewrite Hlr in Hz2.
      assert (Hbx : is_byte x).
      { assert (Hwd : wf_bytes (x :: rest)) by (rewrite <-Hdr; auto with daq). by apply Forall_cons in Hwd as [? _]. }
      unfold is_byte in Hbx.
      assert (Hpk : _pack REJECTED_STRUCT_FORMAT (x, (0, (0, tt))) = Ok [x; 0; 0; 0]).
      { unfold _pack, REJECTED_STRUCT_FORMAT. cbn -[fits to_le]. rewrite (proj2 (fits_spec 1 x)) by (pow_lit; lia).
        cbn -[to_le]. unfold to_le. rewrite Z.mod_small by lia. done. }
      match goal with |- (?m ≫= _) = _ => replace m with (Ok (E:=v3_error) [x; 0; 0; 0])
        by (symmetry; exact Hpk) end.
      cbn [mbind result_bind]. do 2 f_equal.
      rewrite <-(take_drop 4 data) at 2. rewrite Hdr, Hz2. done.
    + apply require_bind in Hrej as [Hz Hrej]. apply Z.eqb_eq in Hz. apply Ok_inj in Hrej. subst rej.
      rewrite bool_decide_eq_true_2 by done. cbn [_require require mbind result_bind].
      unfold RESPONSE_PREFIX_PAYLOAD_SIZE, zlen in Hz. by rewrite take_ge by lia.
Qed.

(** ** A response body determines the response *)

Lemma value_to_payload_inj v v' p :
  value_valid v -> value_valid v' -> value_to_payload v = Ok p -> value_to_payload v' = Ok p -> v = v'.
Proof.
  intros Hv Hv' H H'. destruct (value_codec v p Hv H) as (_ & Hf & Hz & _).
  destruct (value_codec v' p Hv' H') as (_ & Hf' & Hz' & _). rewrite Hz in Hz'.
  destruct v, v'; try discriminate; cbn [value_from_payload] in Hf, Hf'; congruence.
Qed.

Lemma prefix_strs_ok vs : strs_ok RESPONSE_PREFIX_STRUCT_FORMAT vs.
Proof. destruct vs as (a & b & c & []). cbn. tauto. Qed.
Lemma rejected_strs_ok vs : strs_ok REJECTED_STRUCT_FORMAT vs.
Proof. destruct vs as (a & b & c & []). cbn. tauto. Qed.

Lemma error_prefix_inj (e e' : ErrorCode) p :
  _pack RESPONSE_PREFIX_STRUCT_FORMAT (int_of ResponseStatus.ERROR, (0, (int_of e, tt))) = Ok p ->
  _pack RESPONSE_PREFIX_STRUCT_FORMAT (int_of ResponseStatus.ERROR, (0, (int_of e', tt))) = Ok p ->
  e = e'.
Proof.
  intros H H'. apply pack_field_Ok in H, H'.
  pose proof (pack_inj RESPONSE_PREFIX_STRUCT_FORMAT _ _ p (prefix_strs_ok _) (prefix_strs_ok _) H H') as Heq.
  apply int_of_inj. congruence.
Qed.

Lemma error_prefix_head (e : ErrorCode) p :
  _pack RESPONSE_PREFIX_STRUCT_FORMAT (int_of ResponseStatus.ERROR, (0, (int_of e, tt))) = Ok p ->
  length p = 4%nat /\ head p = Some 1.
Proof.
  intros H. apply pack_field_Ok in H. split; [by apply (pack_length RESPONSE_PREFIX_STRUCT_FORMAT) in H|].
  destruct e; vm_compute in H; injection H as <-; done.
Qed.

Lemma response_body_inj r r' p f f' :
  (forall v, r.(V3Response.value) = Some v -> value_valid v) ->
  (forall v, r'.(V3Response.value) = Some v -> value_valid v) ->
  response_body r = Ok (p, f) -> response_body r' = Ok (p, f') ->
  r.(V3Response.kind) = r'.(V3Response.kind) ->
  r.(V3Response.request_id) = r'.(V3Response.request_id) ->
  r.(V3Response.run_id) = r'.(V3Response.run_id) -> r = r'.
Proof.
  destruct r as [k q n st e v rj], r' as [k' q' n' st' e' v' rj'].
  cbn [V3Response.kind V3Response.request_id V3Response.run_id V3Response.value].
  intros Hv Hv' H H' <- <- <-.
  assert (Hok : forall st e v rj f, (forall x, v = Some x -> value_valid x) ->
    response_body (V3Response.mk k q n st e v rj) = Ok (p, f) -> st = ResponseStatus.OK ->
    exists x, v = Some x /\ e = ErrorCode.OK /\ rj = None /\ value_to_payload x = Ok p /\ take 4 p = _OK).
  { clear. intros st e v rj f Hv H ->. unfold response_body in H.
    cbn [V3Response.status V3Response.value V3Response.error_code V3Response.rejected_kind
      V3Response.kind] in H.
    destruct v as [x|]; [|discriminate]. apply require_bind in H as [Hc H].
    apply andb_true_iff in Hc as [H1 H2]. apply bool_decide_eq_true in H1, H2.
    apply bind_Ok_inv in H as (b & Hb & H). apply Ok_inj in H. injection H as <- <-.
    exists x. repeat (split; [done|]).
    by destruct (value_codec x b (Hv x eq_refl) Hb) as (_ & _ & _ & ?). }
  assert (Herr : forall st e v rj f,
    response_body (V3Response.mk k q n st e v rj) = Ok (p, f) -> st = ResponseStatus.ERROR ->
    v = None /\ exists pre, take 4 p = pre /\ head p = Some 1 /\
      _pack RESPONSE_PREFIX_STRUCT_FORMAT (int_of ResponseStatus.ERROR, (0, (int_of e, tt))) = Ok pre /\
      (if decide (k = FrameKind.ERROR_RESPONSE)
       then exists x, rj = Some x /\ _pack REJECTED_STRUCT_FORMAT (x, (0, (0, tt))) = Ok (drop 4 p)
       else rj = None)).
  { clear. intros st e v rj f H ->. unfold response_body in H.
    cbn [V3Response.status V3Response.value V3Response.error_code V3Response.rejected_kind
      V3Response.kind] in H.
    apply require_bind in H as [Hc H]. apply andb_true_iff in Hc as [_ H2]. apply bool_decide_eq_true in H2.
    apply bind_Ok_inv in H as (pre & Hpre & H). split; [done|]. exists pre.
    destruct (error_prefix_head e pre Hpre) as [Hl Hh]. destruct (decide _).
    - apply bind_Ok_inv in H as (x & Hx & H). apply of_option_Ok_inv in Hx.
      apply bind_Ok_inv in H as (rest & Hrest & H). apply Ok_inj in H. injection H as <- <-.
      split; [by apply take_app_exact|]. split; [by destruct pre|]. split; [done|].
      exists x. split; [done|]. by rewrite drop_app_exact.
    - apply require_bind in H as [Hr H]. apply bool_decide_eq_true in Hr. apply Ok_inj in H. injection H as <- <-.
      split; [by rewrite take_ge by lia|]. done. }
  destruct st, st'.
  - destruct (Hok _ _ _ _ _ Hv H eq_refl) as (x & -> & -> & -> & Hx & _).
    destruct (Hok _ _ _ _ _ Hv' H' eq_refl) as (x' & -> & -> & -> & Hx' & _).
    rewrite (value_to_payload_inj x x' p); auto.
  - destruct (Hok _ _ _ _ _ Hv H eq_refl) as (x & _ & _ & _ & _ & Ht).
    destruct (Herr _ _ _ _ _ H' eq_refl) as (_ & pre & _ & Hh & _).
    destruct p; [discriminate|]. injection Hh as ->. discriminate.
  - destruct (Hok _ _ _ _ _ Hv' H' eq_refl) as (x & _ & _ & _ & _ & Ht).
    destruct (Herr _ _ _ _ _ H eq_refl) as (_ & pre & _ & Hh & _).
    destruct p; [discriminate|]. injection Hh as ->. discriminate.
  - destruct (Herr _ _ _ _ _ H eq_refl) as (-> & pre & <- & _ & Hp & Hr).
    destruct (Herr _ _ _ _ _ H' eq_refl) as (-> & pre' & <- & _ & Hp' & Hr').
    rewrite (error_prefix_inj e e' _ Hp Hp'). destruct (decide _); [|by subst].
    destruct Hr as (x & -> & Hx), Hr' as (x' & -> & Hx'). apply pack_field_Ok in Hx, Hx'.
    pose proof (pack_inj REJECTED_STRUCT_FORMAT _ _ _ (rejected_strs_ok _) (rejected_strs_ok _) Hx Hx') as Heq.
    congruence.
Qed.

(** ** Only validation errors *)

Lemma caught_settings_to_bytes s : caught (settings_to_bytes s).
Proof. unfold settings_to_bytes, _pack. caught. Qed.

Lemma caught_settings_new f : caught (settings_new f).
Proof.
  pose proof caught_settings_to_bytes. unfold settings_new, enum_field. caught.
Qed.

Lemma unpack_sized fs (data : bytes) size :
  size = Z.of_nat (calcsize fs) -> zlen data = size -> exists vs, unpack fs data = Some vs.
Proof.
  intros -> Hl. unfold unpack, zlen in *. rewrite (proj2 (Nat.eqb_eq _ _)) by lia. eauto.
Qed.

Lemma caught_unpack {A} fs (data : bytes) size (k : fvals fs -> v3 A) e :
  size = Z.of_nat (calcsize fs) -> zlen data = size ->
  (forall vs, unpack fs data = Some vs -> caught (k vs)) ->
  caught (of_option (unpack fs data) e ≫= k).
Proof. intros Hs Hl Hk. destruct (unpack_sized fs data size Hs Hl) as [vs Hvs]. rewrite Hvs. cbn. auto. Qed.

Lemma caught_bounded data lo hi : caught (_bounded_bytes data lo hi).
Proof. unfold _bounded_bytes. caught. Qed.

Lemma caught_settings_from_bytes payload : caught (settings_from_bytes payload).
Proof.
  unfold settings_from_bytes. apply caught_bind; [apply caught_bounded|]. intros d Hd.
  apply bounded_bytes_Ok in Hd as [-> Hl].
  apply (caught_unpack SETTINGS_STRUCT_FORMAT payload SETTINGS_PAYLOAD_SIZE); [done|lia|].
  intros vs _. destruct vs as (? & ? & ? & ? & ? & ? & ? & ? & ? & ? & ? & ? & ? & ? & []).
  apply caught_bind; [caught|intros ? _]. apply caught_settings_new.
Qed.

Lemma caught_clocks_from_bytes payload : caught (clocks_from_bytes payload).
Proof.
  unfold clocks_from_bytes. apply caught_bind; [apply caught_bounded|]. intros d Hd.
  apply bounded_bytes_Ok in Hd as [-> Hl]. apply caught_bind; [caught|]. intros ? Hin.
  apply require_Ok, bool_decide_eq_true in Hin. clear Hl. revert payload Hin.
  refine (proj1 (Forall_forall _ _) _). unfold CPU_PROFILES.
  repeat (apply Forall_cons; split; [vm_compute; exact I|]). constructor.
Qed.

Lemma caught_rate_from_bytes payload : caught (rate_from_bytes payload).
Proof.
  unfold rate_from_bytes. apply caught_bind; [apply caught_bounded|]. intros d Hd.
  apply bounded_bytes_Ok in Hd as [-> Hl]. apply caught_bind; [caught|]. intros ? Hin.
  apply require_Ok, bool_decide_eq_true in Hin. clear Hl. revert payload Hin.
  refine (proj1 (Forall_forall _ _) _). unfold RATE_PROFILES.
  repeat (apply Forall_cons; split; [vm_compute; exact I|]). constructor.
Qed.

Lemma caught_clocks_to_bytes c : caught (clocks_to_bytes c).
Proof. unfold clocks_to_bytes, _pack. caught. Qed.
Lemma caught_rate_to_bytes r : caught (rate_to_bytes r).
Proof. unfold rate_to_bytes, _pack. caught. Qed.
Lemma caught_ascii_encode v size : caught (_ascii_encode v size).
Proof. unfold _ascii_encode. caught. Qed.
Lemma caught_ascii_decode data : caught (_ascii_decode data).
Proof. unfold _ascii_decode. caught. Qed.
Lemma caught_success payload size : caught (_success payload size).
Proof. unfold _success. apply caught_bind; [apply caught_bounded|]. caught. Qed.
Lemma caught_pack fmt values : caught (_pack fmt values).
Proof. unfold _pack. by destruct (pack fmt values). Qed.
Lemma caught_table data count capacity size : caught (_table data count capacity size).
Proof. unfold _table. caught. Qed.
Lemma caught_limits a b c d e f g : caught (_validate_limits a b c d e f g).
Proof.
  unfold _validate_limits. apply caught_bind; [|caught]. apply caught_mapR. intros [v m].
  apply caught_require.
Qed.
#[export] Hint Resolve caught_settings_to_bytes caught_settings_new caught_bounded
  caught_settings_from_bytes caught_clocks_from_bytes caught_rate_from_bytes
  caught_clocks_to_bytes caught_rate_to_bytes caught_ascii_encode caught_ascii_decode
  caught_success caught_pack caught_table caught_limits : daq.

Lemma caught_stop_to_payload s : caught (stop_to_payload s).
Proof. unfold stop_to_payload. caught. Qed.
Lemma caught_applied_to_payload a : caught (applied_to_payload a).
Proof. unfold applied_to_payload. caught. Qed.
Lemma caught_info_to_payload i : caught (info_to_payload i).
Proof. unfold info_to_payload. caught. Qed.
Lemma caught_status_to_payload s : caught (status_to_payload s).
Proof.
  unfold status_to_payload. apply caught_bind; [apply caught_stop_to_payload|]. caught.
Qed.
Lemma caught_capabilities_to_payload c : caught (capabilities_to_payload c).
Proof.
  unfold capabilities_to_payload, validate_limits_of. cbv zeta.
  repeat (apply caught_bind; [eauto 3 with daq|intros ? _]).
  apply caught_pack.
Qed.
#[export] Hint Resolve caught_stop_to_payload caught_applied_to_payload caught_info_to_payload
  caught_status_to_payload caught_capabilities_to_payload : daq.

Lemma caught_stop_from_payload payload : caught (stop_from_payload payload).
Proof.
  unfold stop_from_payload. apply caught_bind; [auto with daq|]. intros d Hd.
  apply success_Ok in Hd as (-> & Hl & _).
  apply (caught_unpack STOP_RESPONSE_STRUCT_FORMAT payload STOP_RESPONSE_PAYLOAD_SIZE); [done|done|].
  intros vs _. destruct vs as (? & ? & ? & ? & ? & ? & ? & ? & []). unfold enum_field. caught.
Qed.

Lemma caught_applied_from_payload payload : caught (applied_from_payload payload).
Proof. unfold applied_from_payload. caught. Qed.

Lemma caught_info_from_payload payload : caught (info_from_payload payload).
Proof.
  unfold info_from_payload. apply caught_bind; [auto with daq|]. intros d Hd.
  apply success_Ok in Hd as (-> & Hl & _).
  apply (caught_unpack INFO_RESPONSE_STRUCT_FORMAT payload INFO_RESPONSE_PAYLOAD_SIZE); [done|done|].
  intros vs _. destruct vs as (? & ? & ? & board & mcu & ? & ? & ? & ? & ? & ? & ? & ? & []).
  apply caught_bind; [caught|intros ? _]. apply caught_bind; [caught|intros ? Hb].
  apply require_Ok, andb_true_iff in Hb as [H1 H2]. apply Z.eqb_eq in H1, H2. subst.
  rewrite !enum_of_int. cbn [of_option mbind result_bind]. caught.
Qed.

Lemma caught_status_from_payload payload : caught (status_from_payload payload).
Proof.
  unfold status_from_payload. apply caught_bind; [auto with daq|]. intros d _.
  apply caught_bind; [apply caught_stop_from_payload|]. intros st _. caught.
Qed.

Lemma caught_capabilities_from_payload payload : caught (capabilities_from_payload payload).
Proof.
  unfold capabilities_from_payload. apply caught_bind; [auto with daq|]. intros d Hd.
  apply success_Ok in Hd as (-> & Hl & _).
  apply (caught_unpack CAPABILITIES_RESPONSE_STRUCT_FORMAT payload CAPABILITIES_RESPONSE_PAYLOAD_SIZE);
    [done|done|]. intros vs _.
  destruct vs as (? & ? & ? & ? & ? & ? & ? & ? & ? & ? & ? & ? & ? & ? & ? & ? & ? & ? & []).
  repeat (apply caught_bind; [eauto 3 with daq|intros ? _]). done.
Qed.
#[export] Hint Resolve caught_stop_from_payload caught_applied_from_payload
  caught_info_from_payload caught_status_from_payload caught_capabilities_from_payload : daq.

Lemma caught_decode_v3_response frame : caught (decode_v3_response frame).
Proof.
  unfold decode_v3_response. cbv zeta. apply caught_bind; [caught|]. intros ? Hkind.
  apply caught_bind; [auto with daq|]. intros d Hd. apply bounded_bytes_Ok in Hd as [-> [Hl _]].
  apply caught_bind.
  { unfold unpack_from. rewrite (proj2 (Nat.leb_le _ _)); [done|].
    change (calcsize RESPONSE_PREFIX_STRUCT_FORMAT) with 4%nat.
    unfold zlen, RESPONSE_PREFIX_PAYLOAD_SIZE in Hl. lia. }
  intros vs _. destruct vs as (? & ? & ? & []).
  unfold enum_field, decode_rejection, decode_value. caught.
Qed.
#[export] Hint Resolve caught_decode_v3_response : daq.

(** ** Settings selection *)

Lemma apply_stream_bit enabled mask b j :
  0 <= b -> 0 <= j ->
  Z.testbit (apply_stream enabled (2 ^ b) mask) j =
  if j =? b then default (Z.testbit mask j) enabled else Z.testbit mask j.
Proof.
  intros Hb Hj. destruct enabled as [[]|]; cbn [apply_stream].
  - rewrite Z.lor_spec, Z.pow2_bits_eqb by done. rewrite (Z.eqb_sym b).
    destruct (j =? b); cbn; [apply orb_true_r|apply orb_false_r].
  - rewrite Z.land_spec, Z.lnot_spec, Z.pow2_bits_eqb by done. rewrite (Z.eqb_sym b).
    destruct (j =? b); cbn; [apply andb_false_r|apply andb_true_r].
  - by destruct (j =? b).
Qed.

(** The fields that neither the width nor the rate selection touches. *)
Definition unrated (f : SettingsFields) : Z * Z * Z * Z * Z * Z * Z * Z * Z :=
  (f.(SettingsFields.stream_mask), f.(SettingsFields.source), f.(SettingsFields.checksum_algorithm),
   f.(SettingsFields.wire_version), f.(SettingsFields.cpu_profile), f.(SettingsFields.aux_bank_mode),
   f.(SettingsFields.gpio_policy), f.(SettingsFields.adc_policy), f.(SettingsFields.adc_resolution_bits)).

Definition rates_of (f : SettingsFields) : Z * Z * Z :=
  (f.(SettingsFields.rate_profile), f.(SettingsFields.adc_pair_rate_hz),
   f.(SettingsFields.gpio_sample_rate_hz)).

Lemma select_width_unrated c aux f :
  unrated (select_width c aux f) = unrated f /\ rates_of (select_width c aux f) = rates_of f.
Proof. unfold select_width. destruct aux as [aux|]; [|done]. by case_match; [|case_match]. Qed.

(** The rates after selection: unchanged, or those of an advertised record that
    matches every rate option given. *)
Lemma select_rates_spec c o f f' :
  select_rates c o f = Ok f' ->
  unrated f' = unrated f /\ f'.(SettingsFields.gpio_width_bits) = f.(SettingsFields.gpio_width_bits) /\
  ((o.(Selection.rate_profile) = None /\ o.(Selection.adc_pair_rate_hz) = None /\
    o.(Selection.gpio_sample_rate_hz) = None /\ f' = f) \/
   exists r, r ∈ c.(V3Capabilities.rate_profiles) /\
     rates_of f' = (int_of r.(V3Rate.rate_profile), r.(V3Rate.adc_pair_rate_hz), r.(V3Rate.gpio_sample_rate_hz)) /\
     opt_matches o.(Selection.rate_profile) (int_of r.(V3Rate.rate_profile)) = true /\
     opt_matches o.(Selection.adc_pair_rate_hz) r.(V3Rate.adc_pair_rate_hz) = true /\
     opt_matches o.(Selection.gpio_sample_rate_hz) r.(V3Rate.gpio_sample_rate_hz) = true).
Proof.
  intros H.
  assert (Hgo : (o.(Selection.rate_profile) = None /\ o.(Selection.adc_pair_rate_hz) = None /\
    o.(Selection.gpio_sample_rate_hz) = None /\ f' = f) \/
    exists r, r ∈ List.filter (fun r =>
        opt_matches o.(Selection.rate_profile) (int_of r.(V3Rate.rate_profile))
        && opt_matches o.(Selection.adc_pair_rate_hz) r.(V3Rate.adc_pair_rate_hz)
        && opt_matches o.(Selection.gpio_sample_rate_hz) r.(V3Rate.gpio_sample_rate_hz))
        c.(V3Capabilities.rate_profiles) /\
      f' = set_rates (int_of r.(V3Rate.rate_profile)) r.(V3Rate.adc_pair_rate_hz)
             r.(V3Rate.gpio_sample_rate_hz) f).
  { unfold select_rates in H.
    destruct (Selection.rate_profile o), (Selection.adc_pair_rate_hz o),
      (Selection.gpio_sample_rate_hz o); try (left; by injection H as <-); right;
      (destruct (List.filter _ _) as [|r [|r2 l]]; [discriminate| |discriminate]);
      apply Ok_inj in H; exists r; (split; [by apply list_elem_of_here|done]). }
  destruct Hgo as [(? & ? & ? & ->)|(r & Hr & ->)]; [split; [done|split; [done|by left]]|].
  split; [done|]. split; [done|]. right. exists r.
  apply list_elem_of_In, filter_In in Hr as [Hin Hm]. rewrite !andb_true_iff in Hm.
  destruct Hm as [[H1 H2] H3]. split; [by apply list_elem_of_In|]. done.
Qed.

(** ** Claims *)

(** A settings record exists on the wire exactly when it is one of the 60 schema
    tuples: decoding accepts precisely the selectable configurations, and encoding is
    its inverse. *)
Theorem settings_exact (data : bytes) (s : V3Settings) (Hdata : wf_bytes data) :
  settings_from_bytes data = Ok s <->
  settings_to_bytes s = Ok data /\ data ∈ SELECTABLE_CONFIGURATIONS.
Proof.
  split.
  - intros H. apply settings_to_from in H; [|done]. split; [done|].
    by apply settings_to_bytes_Ok in H as [_ ?].
  - intros [H _]. by apply settings_from_to.
Qed.

Lemma settings_exact_witness :
  exists s, settings_from_bytes [1; 0; 1; 3; 1; 4; 0; 8; 0; 0; 12; 0; 64; 66; 15; 0; 64; 66; 15; 0] = Ok s.
Proof.
  eexists. apply (settings_exact _ (V3Settings.mk 1 Source.HARDWARE ChecksumAlgorithm.ADLER32 3
    CpuProfile.CPU_600MHZ RateProfile.ADC_1MHZ_GPIO_1MHZ AuxBankMode.DISABLED 8 GpioPolicy.RAW
    AdcPolicy.RAW 12 1000000 1000000)).
  - apply (bool_decide_unpack _). vm_compute. exact I.
  - split; [vm_compute; reflexivity|]. apply (bool_decide_unpack _). vm_compute. exact I.
Defined.

(** Identity, capabilities, applied-settings, stop and status payloads: whatever a
    response decodes to encodes back to the same bytes, and whatever a record encodes to
    decodes back to the same record, with the payload size its frame kind requires. *)
Theorem control_value_roundtrip (kind : FrameKind) (data : bytes) (v : V3ResponseValue)
    (Hdata : wf_bytes data) :
  (decode_value kind data = Ok v ->
     value_to_payload v = Ok data /\ value_valid v /\ _RESPONSE_SIZES kind = Some (zlen data)) /\
  (value_valid v -> value_to_payload v = Ok data ->
     value_from_payload v data = Ok v /\ zlen data = value_size v /\ take 4 data = _OK).
Proof.
  split.
  - intros H. destruct (decode_value_codec kind data v Hdata H) as (Hto & Hv & Hs).
    split; [done|]. split; [done|]. rewrite Hs. by destruct (value_codec v data Hv Hto) as (_ & _ & -> & _).
  - intros Hv Hto. by destruct (value_codec v data Hv Hto) as (_ & ? & ? & ?).
Qed.

Lemma control_value_roundtrip_witness :
  decode_value FrameKind.STOP_RESPONSE [0; 0; 0; 0; 4; 0; 0; 0; 7; 0; 0; 0; 2; 0; 0; 0]
  = Ok (StopValue (V3Stop.mk DeviceState.DRAINING 7 2)) /\
  value_to_payload (StopValue (V3Stop.mk DeviceState.DRAINING 7 2))
  = Ok [0; 0; 0; 0; 4; 0; 0; 0; 7; 0; 0; 0; 2; 0; 0; 0].
Proof.
  assert (H : decode_value FrameKind.STOP_RESPONSE [0; 0; 0; 0; 4; 0; 0; 0; 7; 0; 0; 0; 2; 0; 0; 0]
    = Ok (StopValue (V3Stop.mk DeviceState.DRAINING 7 2))) by (vm_compute; reflexivity).
  split; [exact H|].
  apply (control_value_roundtrip FrameKind.STOP_RESPONSE) in H; [exact (proj1 H)|].
  apply (bool_decide_unpack _). vm_compute. exact I.
Defined.

(** The canonical capability record (two clocks, one rate, all 60 tuples) is valid:
    it encodes to the fixed 1404-byte payload, which decodes to it. *)
Theorem canonical_capabilities_valid :
  exists c payload, capabilities_canonical = Ok c /\ length c.(V3Capabilities.configurations) = 60%nat /\
    capabilities_to_payload c = Ok payload /\ length payload = 1404%nat /\
    capabilities_from_payload payload = Ok c.
Proof.
  destruct capabilities_canonical as [c|e] eqn:Hc; [|vm_compute in Hc; discriminate].
  destruct (capabilities_to_payload c) as [payload|e] eqn:Hp.
  - exists c, payload. split; [done|]. split.
    { vm_compute in Hc. injection Hc as <-. reflexivity. }
    split; [done|]. destruct (value_codec (CapabilitiesValue c) payload I Hp) as (_ & Hf & Hz & _).
    split; [unfold zlen in Hz; cbn in Hz; unfold CAPABILITIES_RESPONSE_PAYLOAD_SIZE in Hz; lia|].
    by apply capabilities_from_to.
  - vm_compute in Hc. injection Hc as <-. vm_compute in Hp. discriminate.
Qed.

(** Settings selection returns an advertised tuple that honours every option given
    and takes the omitted ones from the defaults: in particular choosing a CPU clock
    never changes an encoding policy, and explicit rates come from an advertised rate
    record. *)
Theorem select_settings_honours (c : V3Capabilities) (o : Selection) (s : V3Settings)
    (Hselect : select_settings c o = Ok s) :
  let d := fields_of c.(V3Capabilities.defaults) in
  let f := fields_of s in
  s ∈ c.(V3Capabilities.configurations) /\
  Z.testbit f.(SettingsFields.stream_mask) 0
    = default (Z.testbit d.(SettingsFields.stream_mask) 0) o.(Selection.adc) /\
  Z.testbit f.(SettingsFields.stream_mask) 1
    = default (Z.testbit d.(SettingsFields.stream_mask) 1) o.(Selection.gpio) /\
  f.(SettingsFields.source) = default d.(SettingsFields.source) o.(Selection.source) /\
  f.(SettingsFields.cpu_profile) = default d.(SettingsFields.cpu_profile) o.(Selection.cpu_profile) /\
  f.(SettingsFields.aux_bank_mode) = default d.(SettingsFields.aux_bank_mode) o.(Selection.aux_bank_mode) /\
  f.(SettingsFields.gpio_policy) = default d.(SettingsFields.gpio_policy) o.(Selection.gpio_policy) /\
  f.(SettingsFields.adc_policy) = default d.(SettingsFields.adc_policy) o.(Selection.adc_policy) /\
  f.(SettingsFields.adc_resolution_bits)
    = default d.(SettingsFields.adc_resolution_bits) o.(Selection.adc_resolution_bits) /\
  opt_matches o.(Selection.rate_profile) f.(SettingsFields.rate_profile) = true /\
  opt_matches o.(Selection.adc_pair_rate_hz) f.(SettingsFields.adc_pair_rate_hz) = true /\
  opt_matches o.(Selection.gpio_sample_rate_hz) f.(SettingsFields.gpio_sample_rate_hz) = true.
Proof.
  cbn zeta. unfold select_settings in Hselect. apply bind_Ok_inv in Hselect as (u & _ & H).
  cbv zeta in H. set (f0 := initial_request _ o) in H.
  apply bind_Ok_inv in H as (f & Hr & H).
  destruct (List.find _ _) as [record|] eqn:Hfind; [|discriminate]. apply Ok_inj in H. subst record.
  apply List.find_some in Hfind as [Hin Hf]. apply bool_decide_eq_true in Hf. rewrite Hf.
  apply list_elem_of_In in Hin. split; [done|].
  apply select_rates_spec in Hr as (Hu & _ & Hrates).
  destruct (select_width_unrated c (Selection.aux_bank_mode o) f0) as [Hw1 _]. rewrite Hw1 in Hu.
  unfold unrated in Hu. injection Hu as Hm Hs _ _ Hc Ha Hg Hd Hres.
  rewrite Hm, Hs, Hc, Ha, Hg, Hd, Hres. unfold f0. cbn [initial_request SettingsFields.stream_mask].
  change StreamMask.ADC with (2 ^ 0). change StreamMask.GPIO with (2 ^ 1).
  split; [rewrite !apply_stream_bit by lia; done|].
  split; [rewrite !apply_stream_bit by lia; done|].
  do 6 (split; [done|]).
  destruct Hrates as [(-> & -> & -> & _)|(r & _ & Hrs & H1 & H2 & H3)]; [done|].
  unfold rates_of in Hrs. injection Hrs as -> -> ->. done.
Qed.

Lemma select_settings_honours_witness :
  exists c s,
    capabilities_canonical = Ok c /\
    select_settings c (Selection.mk None (Some false) None None (Some 2) None None (Some 0) (Some 0)
                         None None None) = Ok s /\
    (fields_of s).(SettingsFields.cpu_profile) = 2 /\ (fields_of s).(SettingsFields.gpio_policy) = 0.
Proof.
  eexists _, (V3Settings.mk 1 Source.HARDWARE ChecksumAlgorithm.ADLER32 3
    CpuProfile.CPU_450MHZ RateProfile.ADC_1MHZ_GPIO_1MHZ AuxBankMode.DISABLED 8 GpioPolicy.RAW
    AdcPolicy.RAW 12 1000000 1000000). split; [vm_compute; reflexivity|].
  match goal with |- select_settings ?c ?o = Ok ?x /\ _ =>
    assert (Hsel : select_settings c o = Ok x) by (vm_compute; reflexivity) end.
  split; [exact Hsel|].
  pose proof (select_settings_honours _ _ _ Hsel) as (_ & _ & _ & _ & Hcpu & _ & Hgpio & _).
  split; [exact Hcpu|exact Hgpio].
Defined.
