(* ===== verification/V3Frames.v ===== *)
(** * Protocol-v3 frames ([protocol_v3.py], lines 77-81 and 386-462; the command and
    response frames of [models_v3.py]).

    Whole frames: checksum, payload validation, [encode_v3_frame] and
    [decode_v3_frame], the streaming parser as an instance of the framing interface,
    and the typed commands and responses. *)

From S2P Require Import Prelude PyStruct Checksum Incremental V3Constants V3Header V3Samples ModelsV3.

(** ** Frames *)

(** Adler-32 does not depend on the host byte order. *)
Definition compute_v3_checksum (data : bytes) : v3 Z :=
  match compute_checksum_value true data Checksum.ADLER32 with
  | Ok (Some v) => Ok v
  | Ok None => Err (Uncaught "AssertionError")
  | Err _ => Err (Uncaught "IndexError")
  end.

Definition CHECKSUM_STRUCT_FORMAT : list fcode := Eval vm_compute in struct_format "<I".

Definition pack_checksum (checksum : Z) : v3 bytes :=
  of_option (pack CHECKSUM_STRUCT_FORMAT (checksum, tt)) (Uncaught "struct.error").

(** [V3Frame.to_bytes] *)
Definition frame_to_bytes (f : V3Frame) : v3 bytes :=
  header ← header_to_bytes f.(V3Frame.header);
  trailer ← pack_checksum f.(V3Frame.checksum);
  Ok (header ++ f.(V3Frame.payload) ++ trailer).

Definition _validate_payload (frame : V3Frame) : v3 unit :=
  let kind := frame.(V3Frame.header).(V3FrameHeader.kind) in
  if _DATA_KINDS kind then
    _ ← decode_data_payload kind frame.(V3Frame.payload)
          frame.(V3Frame.header).(V3FrameHeader.item_count); Ok tt
  else if decide (kind = FrameKind.CONFIGURE_REQUEST) then
    _ ← settings_from_bytes frame.(V3Frame.payload); Ok tt
  else if _REQUEST_KINDS kind then Ok tt
  else _ ← decode_v3_response frame; Ok tt.

Definition _decode_buffered_v3_frame (data : bytes) (offset : nat) (header : V3FrameHeader) :
    v3 V3Frame :=
  let end_ := (offset + Z.to_nat header.(V3FrameHeader.total_length) - Z.to_nat TRAILER_SIZE)%nat in
  expected ← compute_v3_checksum (slice offset end_ data);
  '(observed, _) ← of_option (unpack_from CHECKSUM_STRUCT_FORMAT data end_) (Uncaught "struct.error");
  if expected =? observed then
    let frame := V3Frame.mk header (slice (offset + Z.to_nat HEADER_SIZE) end_ data) observed in
    _ ← _validate_payload frame;
    Ok frame
  else Err (V3ChecksumMismatchError expected observed).

Definition decode_v3_frame (data : bytes) : v3 V3Frame :=
  wire ← _bounded_bytes data MIN_FRAME_BYTES MAX_DATA_FRAME_BYTES;
  header ← _decode_v3_header wire 0;
  _ ← _require (zlen wire =? header.(V3FrameHeader.total_length)) "truncated or trailing frame bytes";
  _decode_buffered_v3_frame wire 0 header.

(** [flags] is non-negative, as in every call. *)
Definition encode_v3_frame (kind : Z) (payload : bytes)
    (flags run_id sequence request_id first_sample_ticks item_count : Z) : v3 bytes :=
  data ← _bounded_bytes payload 0 (DATA_PREFIX_BYTES + MAX_ENCODED_SAMPLE_BYTES);
  kind ← of_option (enum_of kind) (invalid "unknown frame kind/flags");
  let header := new_header kind flags (MIN_FRAME_BYTES + zlen data) (zlen data) run_id sequence
                  request_id first_sample_ticks item_count in
  head ← header_to_bytes header;
  header ← _decode_v3_header head 0;
  _ ← _validate_payload (V3Frame.mk header data 0);
  head ← header_to_bytes header;
  let wire := head ++ data in
  checksum ← compute_v3_checksum wire;
  trailer ← pack_checksum checksum;
  Ok (wire ++ trailer).

(** ** The streaming parser *)

(** [except V3ChecksumMismatchError] and [except V3FrameValidationError] of the loop. *)
Definition v3_fault (e : v3_error) : frame_fault :=
  match e with V3ChecksumMismatchError _ _ => ChecksumFault | Uncaught exception => Escaped exception | _ => ValidationFault end.

(** [V3FrameParser.__init__]: the callbacks given to the shared framing loop. *)
#[export] Instance v3_codec : FrameCodec V3FrameHeader V3Frame := {
  magic_bytes := to_le 4 MAGIC;
  header_size := Z.to_nat HEADER_SIZE;
  max_frame_bytes := Z.to_nat MAX_DATA_FRAME_BYTES;
  total_length h := Z.to_nat h.(V3FrameHeader.total_length);
  decode_header data offset := sorted_by v3_fault (_decode_v3_header data offset);
  decode_frame data offset h := sorted_by v3_fault (_decode_buffered_v3_frame data offset h)
}.

Definition V3FrameParser : Type := Parser V3FrameHeader.

(** ** Commands *)

Module V3Command.
Record V3Command := mk {
  kind : CommandKind;
  request_id : Z;
  settings : option V3Settings
}.
#[global] Instance V3Command_eq_dec : EqDecision V3Command.
Proof. solve_decision. Defined.
End V3Command.
Abbreviation V3Command := V3Command.V3Command.

(** [V3Command.to_bytes] *)
Definition command_to_bytes (c : V3Command) : v3 bytes :=
  _ ← _require (bool_decide (c.(V3Command.kind) = CommandKind.CONFIGURE
                             <-> is_Some c.(V3Command.settings))) "only CONFIGURE carries settings";
  payload ← (match c.(V3Command.settings) with
             | Some s => settings_to_bytes s
             | None => Ok []
             end);
  encode_v3_frame (int_of c.(V3Command.kind)) payload 0 0 0 c.(V3Command.request_id) 0 0.

(** [V3Command.from_frame] *)
Definition command_from_frame (frame : V3Frame) : v3 V3Command :=
  wire ← frame_to_bytes frame;
  frame ← decode_v3_frame wire;
  kind ← of_option (enum_of (int_of frame.(V3Frame.header).(V3FrameHeader.kind)))
           (invalid "frame is not a command");
  settings ← (if decide (kind = CommandKind.CONFIGURE)
              then s ← settings_from_bytes frame.(V3Frame.payload); Ok (Some s)
              else Ok None);
  Ok (V3Command.mk kind frame.(V3Frame.header).(V3FrameHeader.request_id) settings).

(** ** Responses *)

(** [V3Response.to_bytes] *)
Definition response_to_bytes (r : V3Response) : v3 bytes :=
  '(payload, flags) ← response_body r;
  encode_v3_frame (int_of r.(V3Response.kind)) payload flags r.(V3Response.run_id) 0
    r.(V3Response.request_id) 0 0.

(** [V3Response.validate_for] *)
Definition validate_for (r : V3Response) (command : V3Command) : v3 unit :=
  _ ← _require (r.(V3Response.request_id) =? command.(V3Command.request_id))
        "response request ID mismatch";
  _ ← _require (bool_decide (r.(V3Response.kind) = COMMAND_RESPONSE_KINDS command.(V3Command.kind)))
        "response kind mismatch";
  if bool_decide (r.(V3Response.status) = ResponseStatus.OK)
     && bool_decide (command.(V3Command.kind) = CommandKind.CONFIGURE)
  then match r.(V3Response.value) with
       | Some (AppliedValue a) =>
           _require (bool_decide (Some a.(V3AppliedSettings.settings) = command.(V3Command.settings)))
             "applied settings differ from CONFIGURE request"
       | _ => Err (invalid "applied settings differ from CONFIGURE request")
       end
  else Ok tt.

(** ** Frame facts *)

Lemma compute_v3_checksum_Ok data : wf_bytes data -> compute_v3_checksum data = Ok (zlib_adler32 data).
Proof. intros Hw. unfold compute_v3_checksum. by rewrite compute_checksum_reference. Qed.

Lemma pack_checksum_Ok c : 0 <= c < 2 ^ 32 -> pack_checksum c = Ok (to_le 4 c).
Proof.
  intros Hc. unfold pack_checksum. cbn -[fits to_le]. rewrite (proj2 (fits_spec 4 c)) by (pow_lit; lia).
  cbn -[to_le]. by rewrite app_nil_r.
Qed.

Lemma unpack_checksum data end_ :
  (end_ + 4 <= length data)%nat ->
  unpack_from CHECKSUM_STRUCT_FORMAT data end_ = Some (from_le (take 4 (drop end_ data)), tt).
Proof.
  intros H. unfold unpack_from. change (calcsize CHECKSUM_STRUCT_FORMAT) with 4%nat.
  by rewrite (proj2 (Nat.leb_le _ _)) by lia.
Qed.

Lemma caught_validate_payload frame :
  wf_bytes frame.(V3Frame.payload) -> caught (_validate_payload frame).
Proof.
  intros Hw. unfold _validate_payload. cbv zeta. pose proof caught_decode_data. caught.
Qed.

Lemma caught_decode_buffered data offset header :
  wf_bytes data -> (4 <= Z.to_nat header.(V3FrameHeader.total_length))%nat ->
  (offset + Z.to_nat header.(V3FrameHeader.total_length) <= length data)%nat ->
  caught (_decode_buffered_v3_frame data offset header).
Proof.
  intros Hw H4 Hl. unfold _decode_buffered_v3_frame. cbv zeta.
  change (Z.to_nat TRAILER_SIZE) with 4%nat.
  rewrite compute_v3_checksum_Ok by auto with daq. cbn [mbind result_bind].
  rewrite unpack_checksum by lia. cbn [of_option mbind result_bind].
  case_match; [|done]. apply caught_bind; [|done]. apply caught_validate_payload. cbn. auto with daq.
Qed.

Lemma caught_decode_v3_frame data : wf_bytes data -> caught (decode_v3_frame data).
Proof.
  intros Hw. unfold decode_v3_frame. apply caught_bind; [auto with daq|]. intros wire Hd.
  apply bounded_bytes_Ok in Hd as [-> [Hl _]]. unfold MIN_FRAME_BYTES, zlen in Hl.
  apply caught_bind; [apply caught_decode_header|]. intros h Hh.
  apply caught_bind; [caught|]. intros ? Ht. apply require_Ok, Z.eqb_eq in Ht. unfold zlen in Ht.
  apply caught_decode_buffered; [done|lia|lia].
Qed.

(** The decoder accepts a buffer exactly when it is the encoding of the frame it
    returns, with the right checksum and a valid payload. *)
Lemma decode_buffered_iff wire h f :
  wf_bytes wire -> header_wf h -> zlen wire = h.(V3FrameHeader.total_length) ->
  header_to_bytes h = Ok (take 44 wire) ->
  _decode_buffered_v3_frame wire 0 h = Ok f <->
  exists body, wire = body ++ to_le 4 (zlib_adler32 body) /\
    f = V3Frame.mk h (drop 44 body) (zlib_adler32 body) /\ _validate_payload f = Ok tt.
Proof.
  intros Hw Hwf Hl Hb. destruct (header_wf_payload h Hwf) as (Hp & _ & _).
  destruct Hwf as (_ & _ & Ht & _). unfold zlen in Hl.
  set (e := (length wire - 4)%nat). assert (He : (e + 4 = length wire)%nat) by lia.
  assert (Hbody : wf_bytes (take e wire)) by auto with daq.
  unfold _decode_buffered_v3_frame. cbv zeta. change (Z.to_nat TRAILER_SIZE) with 4%nat.
  change (Z.to_nat HEADER_SIZE) with 44%nat.
  replace (0 + Z.to_nat (V3FrameHeader.total_length h) - 4)%nat with e by lia.
  assert (Hs0 : slice 0 e wire = take e wire) by (unfold slice; by rewrite drop_0, Nat.sub_0_r).
  assert (Hs44 : slice (0 + 44) e wire = drop 44 (take e wire)).
  { unfold slice. cbn [Nat.add]. by rewrite skipn_firstn_comm. }
  rewrite Hs0, Hs44, compute_v3_checksum_Ok by done. cbn [mbind result_bind].
  rewrite unpack_checksum by lia. cbn [of_option mbind result_bind].
  assert (Htl : take 4 (drop e wire) = drop e wire) by (apply take_ge; len). rewrite Htl.
  pose proof (zlib_adler32_range (take e wire)) as Hr.
  split.
  - destruct (Z.eqb_spec (zlib_adler32 (take e wire)) (from_le (drop e wire))) as [Heq|]; [|discriminate].
    intros H. apply bind_Ok_inv in H as ([] & Hv & H). apply Ok_inj in H. subst f.
    exists (take e wire). rewrite Heq.
    assert (Htr : to_le 4 (from_le (drop e wire)) = drop e wire).
    { assert (Hl4 : length (drop e wire) = 4%nat) by len. rewrite <-Hl4 at 1. apply to_from_le. auto with daq. }
    rewrite Htr, take_drop. split; [done|]. split; [done|]. exact Hv.
  - intros (body & Hwire & -> & Hv).
    assert (Hlb : length body = e) by (apply (f_equal length) in Hwire; len).
    assert (Htake : take e wire = body) by (rewrite Hwire; by apply take_app_exact).
    assert (Hdrop : drop e wire = to_le 4 (zlib_adler32 body)) by (rewrite Hwire; by apply drop_app_exact).
    rewrite Htake in *. rewrite Hdrop, from_to_le_small by (pow_lit; lia).
    rewrite Z.eqb_refl, Hv. done.
Qed.

(** ** [decode_v3_frame] *)

(** What a frame on the wire is. *)
Definition frame_on_wire (f : V3Frame) (wire : bytes) : Prop :=
  exists head, header_to_bytes f.(V3Frame.header) = Ok head /\ header_wf f.(V3Frame.header) /\
    wf_bytes f.(V3Frame.payload) /\
    zlen f.(V3Frame.payload) = f.(V3Frame.header).(V3FrameHeader.payload_length) /\
    f.(V3Frame.checksum) = zlib_adler32 (head ++ f.(V3Frame.payload)) /\
    wire = head ++ f.(V3Frame.payload) ++ to_le 4 f.(V3Frame.checksum) /\
    _validate_payload f = Ok tt.

Lemma frame_on_wire_size f wire :
  frame_on_wire f wire ->
  wf_bytes wire /\ zlen wire = f.(V3Frame.header).(V3FrameHeader.total_length) /\
  48 <= zlen wire <= 4108.
Proof.
  intros (head & Hh & Hwf & Hwp & Hlp & _ & -> & _).
  destruct (header_wf_to_bytes _ Hwf) as (head' & Hh' & Hw & Hl). assert (head' = head) as -> by congruence.
  split; [rewrite !wf_bytes_app; auto with daq|].
  destruct (header_wf_payload _ Hwf) as (Hp & _ & _). destruct Hwf as (_ & _ & Ht & _).
  unfold zlen in *. rewrite !length_app, length_to_le. lia.
Qed.

Lemma decode_v3_frame_iff wire f :
  wf_bytes wire -> decode_v3_frame wire = Ok f <-> frame_on_wire f wire.
Proof.
  intros Hw. split.
  - intros H. unfold decode_v3_frame in H. apply bind_Ok_inv in H as (d & Hd & H).
    apply bounded_bytes_Ok in Hd as [-> Hl]. apply bind_Ok_inv in H as (h & Hh & H).
    apply require_bind in H as [Ht H]. apply Z.eqb_eq in Ht.
    apply decode_header_iff in Hh as (Hwf & Hlen & Hb); [|done].
    unfold slice in Hb. rewrite drop_0 in Hb. cbn [Nat.sub Nat.add] in Hb.
    apply decode_buffered_iff in H as (body & Hwire & -> & Hv); [|done..].
    assert (Hlb : (44 <= length body)%nat).
    { apply (f_equal length) in Hwire. unfold zlen, MIN_FRAME_BYTES in Hl.
      rewrite length_app, length_to_le in Hwire. lia. }
    assert (Hhead : take 44 wire = take 44 body) by (rewrite Hwire; by rewrite take_app_le by lia).
    rewrite Hhead in Hb. exists (take 44 body). cbn [V3Frame.header V3Frame.payload V3Frame.checksum].
    split; [done|]. split; [done|]. rewrite take_drop.
    assert (Hwb : wf_bytes body) by (rewrite Hwire in Hw; by apply wf_bytes_app in Hw as [? _]).
    split; [auto with daq|]. split.
    { destruct Hwf as (_ & _ & Htot & _). apply (f_equal length) in Hwire.
      unfold zlen in *. rewrite length_app, length_to_le in Hwire. rewrite length_drop. lia. }
    split; [done|]. split; [|done]. by rewrite app_assoc, take_drop.
  - intros Hf. destruct (frame_on_wire_size f wire Hf) as (_ & Hz & Hl).
    destruct Hf as (head & Hh & Hwf & Hwp & Hlp & Hc & Hwire & Hv).
    destruct (header_wf_to_bytes _ Hwf) as (head' & Hh' & Hwh & Hlh). assert (head' = head) as -> by congruence.
    assert (Htk : take 44 wire = head) by (rewrite Hwire; by apply take_app_exact).
    unfold decode_v3_frame. rewrite (proj2 (bounded_bytes_Ok wire _ _ wire))
      by (split; [done|unfold MIN_FRAME_BYTES, MAX_DATA_FRAME_BYTES; lia]).
    cbn [mbind result_bind]. rewrite (proj2 (decode_header_iff wire 0 (V3Frame.header f) Hw)).
    2: { split; [done|]. split; [unfold zlen in Hl; lia|]. unfold slice. rewrite drop_0.
         cbn [Nat.sub Nat.add]. by rewrite Htk. }
    cbn [mbind result_bind]. rewrite (proj2 (Z.eqb_eq _ _)) by done.
    cbn [_require require mbind result_bind].
    apply decode_buffered_iff; [done|done|done|by rewrite Htk|].
    exists (head ++ V3Frame.payload f). rewrite <-Hc, <-app_assoc. split; [done|].
    split; [|done]. rewrite drop_app_exact by done. by destruct f.
Qed.

(** The frame determines its bytes: [to_bytes] returns what was decoded. *)
Lemma frame_on_wire_to_bytes f wire : frame_on_wire f wire -> frame_to_bytes f = Ok wire.
Proof.
  intros (head & Hh & Hwf & _ & _ & Hc & -> & _). unfold frame_to_bytes. rewrite Hh.
  cbn [mbind result_bind]. rewrite pack_checksum_Ok by (rewrite Hc; apply zlib_adler32_range). done.
Qed.

(** ** [encode_v3_frame] *)

Lemma header_fields_inj h h' : header_fields h = header_fields h' -> h = h'.
Proof.
  destruct h as [k f tot pl run sq rq tk cnt ver hl ck], h' as [k' f' tot' pl' run' sq' rq' tk' cnt' ver' hl' ck'].
  unfold header_fields. cbn [V3FrameHeader.kind V3FrameHeader.flags V3FrameHeader.total_length
    V3FrameHeader.payload_length V3FrameHeader.run_id V3FrameHeader.sequence V3FrameHeader.request_id
    V3FrameHeader.first_sample_ticks V3FrameHeader.item_count V3FrameHeader.version
    V3FrameHeader.header_length V3FrameHeader.checksum_algorithm].
  intros H. assert (int_of k = int_of k') as Hk by congruence. apply int_of_inj in Hk.
  assert (int_of ck = int_of ck') as Hck by congruence. apply int_of_inj in Hck. congruence.
Qed.

Lemma header_strs_ok (vs : fvals HEADER_STRUCT_FORMAT) : strs_ok HEADER_STRUCT_FORMAT vs.
Proof. destruct vs as (? & ? & ? & ? & ? & ? & ? & ? & ? & ? & ? & ? & ? & ? & []). cbn. tauto. Qed.

Lemma header_to_bytes_inj h h' b :
  header_to_bytes h = Ok b -> header_to_bytes h' = Ok b -> h = h'.
Proof.
  unfold header_to_bytes. intros H H'. apply of_option_Ok_inv in H, H'. apply header_fields_inj.
  by eapply (pack_inj HEADER_STRUCT_FORMAT); eauto using header_strs_ok.
Qed.

Lemma header_to_bytes_wf h b : header_to_bytes h = Ok b -> wf_bytes b /\ length b = 44%nat.
Proof.
  unfold header_to_bytes. intros H. apply of_option_Ok_inv in H.
  by destruct (pack_unpack HEADER_STRUCT_FORMAT _ b (header_strs_ok _) H) as (_ & ? & ?).
Qed.

Lemma validate_any_checksum h p c c' :
  _validate_payload (V3Frame.mk h p c) = _validate_payload (V3Frame.mk h p c').
Proof. reflexivity. Qed.

Lemma encode_v3_frame_Ok kind payload flags run_id sequence request_id ticks count wire :
  wf_bytes payload ->
  encode_v3_frame kind payload flags run_id sequence request_id ticks count = Ok wire <->
  exists k f, kind = int_of k /\ zlen payload <= 4060 /\ frame_on_wire f wire /\
    f.(V3Frame.payload) = payload /\
    f.(V3Frame.header) = new_header k flags (48 + zlen payload) (zlen payload) run_id sequence
                           request_id ticks count.
Proof.
  intros Hw. unfold encode_v3_frame. change (DATA_PREFIX_BYTES + MAX_ENCODED_SAMPLE_BYTES) with 4060.
  change MIN_FRAME_BYTES with 48. split.
  - intros H. apply bind_Ok_inv in H as (d & Hd & H). apply bounded_bytes_Ok in Hd as [-> [_ Hl]].
    apply bind_Ok_inv in H as (k & Hk & H). apply of_option_Ok_inv, enum_of_Some in Hk.
    apply bind_Ok_inv in H as (head & Hh & H). apply bind_Ok_inv in H as (h & Hdec & H).
    destruct (header_to_bytes_wf _ _ Hh) as [Hwh Hlh].
    apply decode_header_iff in Hdec as (Hwf & _ & Hb); [|done].
    unfold slice in Hb. rewrite drop_0, take_ge in Hb by lia.
    pose proof (header_to_bytes_inj _ _ _ Hh Hb) as <-. 
    apply bind_Ok_inv in H as ([] & Hv & H). rewrite Hh in H. cbn [mbind result_bind] in H.
    rewrite compute_v3_checksum_Ok in H by (by apply wf_bytes_app). cbn [mbind result_bind] in H.
    pose proof (zlib_adler32_range (head ++ payload)) as Hr.
    rewrite pack_checksum_Ok in H by done. cbn [mbind result_bind] in H. apply Ok_inj in H. subst wire.
    exists k, (V3Frame.mk (new_header k flags (48 + zlen payload) (zlen payload) run_id sequence
                 request_id ticks count) payload (zlib_adler32 (head ++ payload))).
    split; [done|]. split; [done|]. split; [|done]. exists head.
    cbn [V3Frame.header V3Frame.payload V3Frame.checksum].
    split; [done|]. split; [done|]. split; [done|]. split; [done|]. split; [done|].
    split; [by rewrite <-app_assoc|]. done.
  - intros (k & f & -> & Hl & Hf & <- & Hh). pose proof (zlen_nonneg (V3Frame.payload f)) as Hnn.
    rewrite (proj2 (bounded_bytes_Ok _ _ _ (V3Frame.payload f))) by (split; [done|lia]).
    cbn [mbind result_bind]. rewrite enum_of_int. cbn [of_option mbind result_bind].
    destruct Hf as (head & Hhead & Hwf & _ & Hlp & Hc & -> & Hv). rewrite <-Hh, Hhead.
    cbn [mbind result_bind]. rewrite (header_roundtrip _ head Hwf Hhead). cbn [mbind result_bind].
    rewrite (validate_any_checksum _ _ 0 (V3Frame.checksum f)).
    replace (V3Frame.mk (V3Frame.header f) (V3Frame.payload f) (V3Frame.checksum f)) with f by (by destruct f).
    rewrite Hv. cbn [mbind result_bind]. rewrite Hhead. cbn [mbind result_bind].
    destruct (header_to_bytes_wf _ _ Hhead) as [Hwh _].
    rewrite compute_v3_checksum_Ok by (by apply wf_bytes_app). cbn [mbind result_bind].
    rewrite <-Hc, pack_checksum_Ok by (rewrite Hc; apply zlib_adler32_range). cbn [mbind result_bind].
    by rewrite <-app_assoc.
Qed.

(** ** The parser's interface laws *)

Lemma decode_header_total data offset h :
  _decode_v3_header data offset = Ok h -> 48 <= h.(V3FrameHeader.total_length) <= 4108.
Proof.
  intros H. unfold _decode_v3_header in H. apply require_bind in H as [_ H].
  apply bind_Ok_inv in H as (vs & _ & H).
  destruct vs as (magic & version & kind & flags & size & checksum & reserved & total & payload & run &
     sequence & request & ticks & count & []).
  apply require_bind in H as [_ H]. apply require_bind in H as [_ H]. apply require_bind in H as [_ H].
  apply bind_Ok_inv in H as (k & _ & H). apply require_bind in H as [Ht H]. apply Z.eqb_eq in Ht.
  apply bind_Ok_inv in H as (u & Hc & H). apply Ok_inj in H. subst h. cbn [new_header V3FrameHeader.total_length].
  unfold MIN_FRAME_BYTES in Ht. destruct (_DATA_KINDS k).
  - unfold check_data_header in Hc. apply require_bind in Hc as [Hb _].
    unfold DATA_PREFIX_BYTES, MAX_ENCODED_SAMPLE_BYTES in Hb. lia.
  - unfold check_control_header in Hc. apply require_bind in Hc as [Hb Hc].
    apply require_bind in Hc as [_ Hc]. apply bind_Ok_inv in Hc as (expected & He & Hc).
    apply require_Ok, Z.eqb_eq in Hc. unfold MAX_CONTROL_FRAME_BYTES in Hb.
    assert (0 <= expected); [|lia]. destruct (_REQUEST_KINDS k).
    + apply require_bind in He as [_ He]. apply Ok_inj in He. subst expected. by case_decide.
    + unfold response_expected in He. apply require_bind in He as [_ He]. apply require_bind in He as [_ He].
      apply bind_Ok_inv in He as (x & Hx & He). apply bind_Ok_inv in He as (u' & _ & He).
      apply Ok_inj in He. subst x. case_decide.
      * apply require_bind in Hx as [_ Hx]. apply Ok_inj in Hx. by subst.
      * destruct (has _ _); [apply Ok_inj in Hx; by subst|]. apply of_option_Ok_inv in Hx.
        destruct k; cbn in Hx; try discriminate; by injection Hx as <-.
Qed.

Lemma decode_header_slice data offset :
  (offset + 44 <= length data)%nat ->
  _decode_v3_header data offset = _decode_v3_header (take 44 (drop offset data)) 0.
Proof.
  intros H. unfold _decode_v3_header, unpack_from. rewrite HEADER_SIZE_calc.
  assert (Hl : length (take 44 (drop offset data)) = 44%nat) by len.
  unfold zlen. rewrite Hl. rewrite !(proj2 (Nat.leb_le _ _)) by lia.
  rewrite !(proj2 (Z.leb_le _ _)) by (unfold HEADER_SIZE; lia). rewrite drop_0.
  assert (Hu : unpack_fields HEADER_STRUCT_FORMAT (drop offset data) =
               unpack_fields HEADER_STRUCT_FORMAT (take 44 (drop offset data))).
  { pose proof (unpack_fields_app HEADER_STRUCT_FORMAT (take 44 (drop offset data))
      (drop 44 (drop offset data))) as He. rewrite take_drop in He. apply He.
    rewrite HEADER_SIZE_calc. lia. }
  by rewrite Hu.
Qed.

Lemma slice_shift (data : bytes) o a b : slice (o + a) (o + b) data = slice a b (drop o data).
Proof. unfold slice. rewrite drop_drop. f_equal. lia. Qed.

Lemma slice_take (data : bytes) n a b : (b <= n)%nat -> slice a b (take n data) = slice a b data.
Proof. intros. unfold slice. rewrite skipn_firstn_comm, take_take. f_equal. lia. Qed.

Lemma decode_buffered_slice data offset h :
  let n := Z.to_nat h.(V3FrameHeader.total_length) in
  (44 <= n)%nat -> (offset + n <= length data)%nat ->
  _decode_buffered_v3_frame data offset h = _decode_buffered_v3_frame (take n (drop offset data)) 0 h.
Proof.
  intros n Hn Hl. unfold _decode_buffered_v3_frame. cbv zeta. fold n.
  change (Z.to_nat TRAILER_SIZE) with 4%nat. change (Z.to_nat HEADER_SIZE) with 44%nat.
  assert (Hlt : length (take n (drop offset data)) = n) by len.
  rewrite !unpack_checksum by lia. replace (offset + n - 4)%nat with (offset + (n - 4))%nat by lia.
  replace (slice offset (offset + (n - 4)) data) with (slice 0 (n - 4) (drop offset data))
    by (rewrite <-slice_shift; f_equal; lia).
  rewrite (slice_shift data offset 44 (n - 4)). cbn [Nat.add].
  rewrite !slice_take by lia.
  assert (Hd : take 4 (drop (offset + (n - 4)) data) = take 4 (drop (n - 4) (take n (drop offset data)))).
  { rewrite skipn_firstn_comm, take_take, drop_drop. f_equal. lia. }
  by rewrite Hd.
Qed.

#[export] Instance v3_codec_laws : FrameCodecLaws v3_codec.
Proof.
  split.
  - discriminate.
  - vm_compute. lia.
  - cbn. unfold HEADER_SIZE, MAX_DATA_FRAME_BYTES. lia.
  - intros data offset h. cbn. intros Hd. apply sorted_by_Ok, decode_header_total in Hd. unfold HEADER_SIZE, MAX_DATA_FRAME_BYTES. lia.
  - intros data offset Hl. cbn. by rewrite (decode_header_slice data offset Hl).
  - intros data offset h Hd Hl. cbn [decode_header decode_frame total_length header_size v3_codec] in *.
    apply sorted_by_Ok, decode_header_total in Hd. by rewrite <-(decode_buffered_slice data offset h ltac:(lia) Hl).
  - intros data offset exception _. apply (sorted_by_caught _ is_validation_error); [by intros []|apply caught_decode_header].
  - intros data offset h exception Hw Hd Hl. cbn [decode_header decode_frame total_length v3_codec] in *.
    apply sorted_by_Ok, decode_header_total in Hd. apply (sorted_by_caught _ is_validation_error); [by intros []|].
    apply caught_decode_buffered; [done|lia|done].
Qed.

Lemma frame_complete wire f : wf_bytes wire -> decode_v3_frame wire = Ok f -> complete_frame wire f.
Proof.
  intros Hw H. pose proof H as Hf. apply decode_v3_frame_iff in Hf; [|done].
  destruct (frame_on_wire_size f wire Hf) as (_ & Hz & Hl). unfold zlen in Hz, Hl.
  unfold decode_v3_frame in H. apply bind_Ok_inv in H as (d & Hd & H).
  apply bounded_bytes_Ok in Hd as [-> _]. apply bind_Ok_inv in H as (h & Hh & H).
  apply require_bind in H as [Ht H]. apply Z.eqb_eq in Ht. unfold zlen in Ht.
  split.
  - destruct Hf as (head & Hhead & _ & _ & _ & _ & -> & _). apply starts_with_spec.
    unfold header_to_bytes in Hhead. apply of_option_Ok_inv in Hhead. unfold header_fields in Hhead.
    change HEADER_STRUCT_FORMAT with (U32 :: drop 1 HEADER_STRUCT_FORMAT) in Hhead.
    cbn [pack] in Hhead. apply bind_Some in Hhead as (b1 & Hb1 & Hhead).
    apply bind_Some in Hhead as (b2 & _ & Hhead). apply Some_inj' in Hhead. subst head.
    assert (b1 = to_le 4 MAGIC) as -> by (vm_compute in Hb1; injection Hb1 as <-; done).
    rewrite <-app_assoc. by eexists.
  - split; [cbn [header_size v3_codec]; unfold HEADER_SIZE; lia|].
    exists h. cbn [decode_header decode_frame total_length v3_codec]. rewrite Hh, H.
    split; [done|]. split; [lia|done].
Qed.

(** A frame header rebuilt from its own fields. *)
Lemma header_wf_new h :
  header_wf h ->
  h = new_header h.(V3FrameHeader.kind) h.(V3FrameHeader.flags) (48 + h.(V3FrameHeader.payload_length))
        h.(V3FrameHeader.payload_length) h.(V3FrameHeader.run_id) h.(V3FrameHeader.sequence)
        h.(V3FrameHeader.request_id) h.(V3FrameHeader.first_sample_ticks) h.(V3FrameHeader.item_count).
Proof.
  intros (Hv & Hl & Ht & _). destruct h as [k f tot pl run sq rq tk cnt ver hl []].
  cbn in Hv, Hl, Ht. by subst.
Qed.

(** Encoding with exactly the fields of a frame on the wire gives that wire. *)
Lemma encode_frame_on_wire f wire :
  frame_on_wire f wire ->
  encode_v3_frame (int_of f.(V3Frame.header).(V3FrameHeader.kind)) f.(V3Frame.payload)
    f.(V3Frame.header).(V3FrameHeader.flags) f.(V3Frame.header).(V3FrameHeader.run_id)
    f.(V3Frame.header).(V3FrameHeader.sequence) f.(V3Frame.header).(V3FrameHeader.request_id)
    f.(V3Frame.header).(V3FrameHeader.first_sample_ticks)
    f.(V3Frame.header).(V3FrameHeader.item_count) = Ok wire.
Proof.
  intros Hf. destruct (frame_on_wire_size f wire Hf) as (_ & Hz & Hl).
  pose proof Hf as (head & _ & Hwf & Hwp & Hlp & _).
  apply encode_v3_frame_Ok; [done|]. exists (V3FrameHeader.kind (V3Frame.header f)), f.
  destruct (header_wf_payload _ Hwf) as (Hp & _ & _). pose proof Hwf as (_ & _ & Ht & _).
  split; [done|]. split; [lia|]. split; [done|]. split; [done|]. rewrite Hlp. by apply header_wf_new.
Qed.

Lemma frame_on_wire_det f f' wire : frame_on_wire f wire -> frame_on_wire f' wire -> f = f'.
Proof.
  intros H H'. destruct (frame_on_wire_size f wire H) as (Hw & _ & _).
  apply decode_v3_frame_iff in H, H'; [|done..]. congruence.
Qed.

Lemma frames_differ_in_two_bytes pre post b b' f g :
  b <> b' -> is_byte b -> is_byte b' ->
  frame_on_wire f (pre ++ b :: post) -> frame_on_wire g (pre ++ b' :: post) -> False.
Proof.
  intros Hne Hb Hb' (h1 & Hh1 & _ & _ & _ & Hc1 & Hw1 & _) (h2 & Hh2 & _ & _ & _ & Hc2 & Hw2 & _).
  rewrite app_assoc in Hw1, Hw2. pose proof (zlib_adler32_range (h1 ++ V3Frame.payload f)) as Hr1.
  pose proof (zlib_adler32_range (h2 ++ V3Frame.payload g)) as Hr2. rewrite <-Hc1 in Hr1. rewrite <-Hc2 in Hr2.
  destruct (single_byte_trailer _ _ _ _ _ _ _ _ Hne Hr1 Hr2 Hw1 Hw2) as [(He & Hx)|(rest & H1 & H2 & He & _)].
  - apply Hx. by rewrite Hc1, Hc2, He.
  - rewrite Hc1, Hc2, H1, H2 in He. by apply adler_single_byte in He.
Qed.

(** ** Commands *)

Lemma command_kind_request (K : CommandKind) (k : FrameKind) :
  int_of K = int_of k ->
  _DATA_KINDS k = false /\ _REQUEST_KINDS k = true /\
  (K = CommandKind.CONFIGURE <-> k = FrameKind.CONFIGURE_REQUEST).
Proof.
  destruct K, k; cbn; intros H; try discriminate; split_and!; try reflexivity; split; congruence.
Qed.

Lemma command_forward c wire :
  command_to_bytes c = Ok wire ->
  exists f, frame_on_wire f wire /\ command_from_frame f = Ok c.
Proof.
  unfold command_to_bytes. intros H. apply require_bind in H as [Hc H]. apply bool_decide_eq_true in Hc.
  apply bind_Ok_inv in H as (payload & Hp & H).
  assert (Hwp : wf_bytes payload).
  { destruct (V3Command.settings c) as [s|]; [by destruct (settings_bytes_facts s _ Hp) as (_ & ? & _)|].
    apply Ok_inj in Hp. subst. constructor. }
  apply encode_v3_frame_Ok in H as (k & f & Hk & _ & Hf & Hpf & Hh); [|done].
  exists f. split; [done|]. destruct (frame_on_wire_size f wire Hf) as (Hw & _ & _).
  unfold command_from_frame. rewrite (frame_on_wire_to_bytes f wire Hf). cbn [mbind result_bind].
  rewrite (proj2 (decode_v3_frame_iff wire f Hw) Hf). cbn [mbind result_bind].
  rewrite Hh. cbn [V3FrameHeader.kind V3FrameHeader.request_id new_header].
  rewrite <-Hk, enum_of_int, Hpf. cbn [of_option mbind result_bind].
  destruct c as [K q s]. cbn [V3Command.kind V3Command.settings V3Command.request_id] in *. case_decide as HK.
  - apply Hc in HK as [s' ->]. rewrite (settings_from_to _ _ Hp). done.
  - destruct s as [s|]; [|done]. exfalso. apply HK, Hc. by eexists.
Qed.

Lemma command_backward c f wire :
  frame_on_wire f wire -> command_from_frame f = Ok c -> command_to_bytes c = Ok wire.
Proof.
  intros Hf. destruct (frame_on_wire_size f wire Hf) as (Hw & _ & _).
  unfold command_from_frame. rewrite (frame_on_wire_to_bytes f wire Hf). cbn [mbind result_bind].
  rewrite (proj2 (decode_v3_frame_iff wire f Hw) Hf). cbn [mbind result_bind]. intros H.
  apply bind_Ok_inv in H as (K & HK & H). apply of_option_Ok_inv, enum_of_Some in HK.
  destruct (command_kind_request _ _ HK) as (Hnd & Hrk & Hcfg).
  apply bind_Ok_inv in H as (s & Hs & H). apply Ok_inj in H. subst c.
  pose proof Hf as (head & _ & Hwf & Hwp & Hlp & _).
  pose proof Hwf as (_ & _ & _ & _ & Hreq). rewrite Hnd, Hrk in Hreq.
  destruct Hreq as ((Hsq & Htk & Hct) & Hfl & Hrun & _ & Hpl).
  pose proof (encode_frame_on_wire f wire Hf) as He. rewrite Hfl, Hrun, Hsq, Htk, Hct, <-HK in He.
  unfold command_to_bytes. cbn [V3Command.kind V3Command.settings V3Command.request_id].
  destruct (decide (K = CommandKind.CONFIGURE)) as [Hc|Hc].
  - apply bind_Ok_inv in Hs as (s' & Hs' & Hs). apply Ok_inj in Hs. subst s.
    apply settings_to_from in Hs'; [|done].
    rewrite bool_decide_eq_true_2 by (split; [by eexists|done]). cbn [_require require mbind result_bind].
    by rewrite Hs'.
  - apply Ok_inj in Hs. subst s. rewrite decide_False in Hpl by tauto.
    rewrite bool_decide_eq_true_2 by (split; [done|by intros [? ?]]). cbn [_require require mbind result_bind].
    destruct (V3Frame.payload f); [done|]. unfold zlen in Hlp. cbn in Hlp. lia.
Qed.

(** ** Responses *)

Lemma response_kind_facts k :
  is_command_response k || bool_decide (k = FrameKind.ERROR_RESPONSE) = true ->
  _DATA_KINDS k = false /\ _REQUEST_KINDS k = false /\ k <> FrameKind.CONFIGURE_REQUEST.
Proof. destruct k; cbn; intros H; try discriminate; split_and!; (reflexivity || discriminate). Qed.

Lemma response_body_flags r p flags :
  response_body r = Ok (p, flags) ->
  (flags = 0 /\ exists v, r.(V3Response.value) = Some v /\ value_to_payload v = Ok p) \/
  (flags = FrameFlag.RESPONSE_ERROR /\ wf_bytes p).
Proof.
  destruct r as [k q n st e v rj]. unfold response_body.
  cbn [V3Response.status V3Response.value V3Response.error_code V3Response.rejected_kind V3Response.kind].
  destruct st; intros H.
  - left. destruct v as [v|]; [|discriminate]. apply require_bind in H as [_ H].
    apply bind_Ok_inv in H as (b & Hb & H). apply Ok_inj in H. injection H as <- <-. eauto.
  - right. apply require_bind in H as [_ H]. apply bind_Ok_inv in H as (b & Hb & H).
    apply pack_field_Ok in Hb.
    destruct (pack_unpack RESPONSE_PREFIX_STRUCT_FORMAT _ b (prefix_strs_ok _) Hb) as (_ & Hwb & _).
    case_decide.
    + apply bind_Ok_inv in H as (x & _ & H). apply bind_Ok_inv in H as (b2 & Hb2 & H).
      apply pack_field_Ok in Hb2.
      destruct (pack_unpack REJECTED_STRUCT_FORMAT _ b2 (rejected_strs_ok _) Hb2) as (_ & Hwb2 & _).
      apply Ok_inj in H. injection H as <- <-. split; [done|]. by apply wf_bytes_app.
    + apply require_bind in H as [_ H]. apply Ok_inj in H. by injection H as <- <-.
Qed.

(** A frame whose flags, sequence, stamp and item count are those of a response is
    one: neither data nor request headers admit them with a response payload. *)
Lemma response_frame_kind h flags :
  header_wf h -> h.(V3FrameHeader.flags) = flags -> h.(V3FrameHeader.item_count) = 0 ->
  (flags = FrameFlag.RESPONSE_ERROR \/ 20 < h.(V3FrameHeader.payload_length) \/
   h.(V3FrameHeader.payload_length) = 16) ->
  _DATA_KINDS h.(V3FrameHeader.kind) = false /\ _REQUEST_KINDS h.(V3FrameHeader.kind) = false.
Proof.
  intros (_ & _ & _ & _ & Hwf) Hfl Hcnt Hcase. destruct (_DATA_KINDS _).
  - destruct Hwf as (_ & _ & _ & _ & _ & Hc & _). lia.
  - split; [done|]. destruct (_REQUEST_KINDS _); [|done].
    destruct Hwf as (_ & Hf0 & _ & _ & Hpl). unfold FrameFlag.RESPONSE_ERROR in Hcase.
    case_decide; lia.
Qed.

Lemma value_size_response v :
  20 < value_size v \/ value_size v = 16.
Proof. destruct v; vm_compute; tauto. Qed.

Lemma response_forward r wire :
  (forall v, r.(V3Response.value) = Some v -> value_valid v) ->
  response_to_bytes r = Ok wire ->
  exists f, frame_on_wire f wire /\ decode_v3_response f = Ok r.
Proof.
  intros Hval H. unfold response_to_bytes in H. apply bind_Ok_inv in H as ([p flags] & Hb & H).
  pose proof (response_body_flags r p flags Hb) as Hfl.
  assert (Hwp : wf_bytes p).
  { destruct Hfl as [(_ & v & Hv & Hp)|[_ ?]]; [|done]. by destruct (value_codec v p (Hval v Hv) Hp) as (? & _). }
  apply encode_v3_frame_Ok in H as (k & f & Hk & _ & Hf & Hpf & Hh); [|done]. apply int_of_inj in Hk.
  exists f. split; [done|]. pose proof Hf as (head & _ & Hwf & _ & Hlp & _ & _ & Hv).
  destruct (response_frame_kind _ flags Hwf) as [Hnd Hnr].
  { by rewrite Hh. } { by rewrite Hh. }
  { destruct Hfl as [(_ & v & Hx & Hp)|[-> _]]; [right|by left].
    destruct (value_codec v p (Hval v Hx) Hp) as (_ & _ & Hz & _). rewrite <-Hlp, Hpf, Hz. apply value_size_response. }
  unfold _validate_payload in Hv. cbv zeta in Hv. rewrite Hnd, Hnr in Hv. rewrite decide_False in Hv.
  2: { intros Hx. rewrite Hx in Hnr. discriminate. }
  apply bind_Ok_inv in Hv as (r' & Hr' & _).
  destruct (decode_response_body f r') as ((fl' & Hb' & _) & Hk' & Hq' & Hn' & Hval' & _); [by rewrite Hpf|done|].
  rewrite Hr'. f_equal. rewrite Hh in Hk', Hq', Hn'.
  cbn [new_header V3FrameHeader.kind V3FrameHeader.request_id V3FrameHeader.run_id] in Hk', Hq', Hn'.
  rewrite Hpf in Hb'. eapply (response_body_inj r' r p); eauto; congruence.
Qed.

Lemma response_backward r f wire :
  frame_on_wire f wire -> decode_v3_response f = Ok r ->
  response_to_bytes r = Ok wire /\ (forall v, r.(V3Response.value) = Some v -> value_valid v).
Proof.
  intros Hf Hr. pose proof Hf as (head & _ & Hwf & Hwp & _).
  destruct (decode_response_body f r Hwp Hr) as ((flags & Hb & Hhas & Hfl) & Hk & Hq & Hn & Hval & _).
  split; [|done]. unfold decode_v3_response in Hr. cbv zeta in Hr. apply require_bind in Hr as [Hkind _].
  destruct (response_kind_facts _ Hkind) as (Hnd & Hnr & _).
  pose proof Hwf as (_ & _ & _ & _ & Hreq). rewrite Hnd, Hnr in Hreq.
  destruct Hreq as ((Hsq & Htk & Hct) & Hcase).
  pose proof (encode_frame_on_wire f wire Hf) as He. rewrite Hsq, Htk, Hct, <-Hk, <-Hq, <-Hn in He.
  assert (Hflags : V3FrameHeader.flags (V3Frame.header f) = flags).
  { destruct Hcase as [(Hz & _)|(Hz & _)]; rewrite Hz in Hhas |- *;
      destruct Hfl as [->| ->]; done || (vm_compute in Hhas; discriminate). }
  rewrite Hflags in He. unfold response_to_bytes. rewrite Hb. exact He.
Qed.

(** ** Responses that can be sent *)

Lemma encode_valid_frame h p :
  wf_bytes p -> header_wf h -> h.(V3FrameHeader.payload_length) = zlen p ->
  (forall c, _validate_payload (V3Frame.mk h p c) = Ok tt) ->
  exists wire f,
    encode_v3_frame (int_of h.(V3FrameHeader.kind)) p h.(V3FrameHeader.flags) h.(V3FrameHeader.run_id)
      h.(V3FrameHeader.sequence) h.(V3FrameHeader.request_id) h.(V3FrameHeader.first_sample_ticks)
      h.(V3FrameHeader.item_count) = Ok wire /\
    frame_on_wire f wire /\ f.(V3Frame.header) = h /\ f.(V3Frame.payload) = p /\ zlen wire = 48 + zlen p.
Proof.
  intros Hw Hwf Hlp Hv. destruct (header_wf_to_bytes h Hwf) as (head & Hh & Hwh & Hlh).
  set (c := zlib_adler32 (head ++ p)). set (f := V3Frame.mk h p c).
  assert (Hf : frame_on_wire f (head ++ p ++ to_le 4 c)) by (exists head; repeat (split; [done|]); apply Hv).
  exists (head ++ p ++ to_le 4 c), f. split; [exact (encode_frame_on_wire f _ Hf)|].
  do 3 (split; [done|]). unfold zlen in *. rewrite !length_app, length_to_le, Hlh. lia.
Qed.

Lemma encode_response_frame k p flags run q r :
  wf_bytes p ->
  header_wf (new_header k flags (48 + zlen p) (zlen p) run 0 q 0 0) ->
  is_command_response k || bool_decide (k = FrameKind.ERROR_RESPONSE) = true ->
  (forall c, decode_v3_response
     (V3Frame.mk (new_header k flags (48 + zlen p) (zlen p) run 0 q 0 0) p c) = Ok r) ->
  exists wire, encode_v3_frame (int_of k) p flags run 0 q 0 0 = Ok wire /\ zlen wire = 48 + zlen p.
Proof.
  intros Hw Hwf Hk Hr. destruct (response_kind_facts k Hk) as (Hnd & Hnr & Hnc).
  destruct (encode_valid_frame _ p Hw Hwf eq_refl) as (wire & f & He & _ & _ & _ & Hl); [|by exists wire].
  intros c. unfold _validate_payload. cbv zeta.
  cbn [V3Frame.header V3Frame.payload new_header V3FrameHeader.kind].
  rewrite Hnd, Hnr, decide_False by done. by rewrite Hr.
Qed.

(** A data frame whose header passes the checks and whose payload decodes. *)
Lemma encode_data_frame h p d :
  wf_bytes p -> header_wf h -> h.(V3FrameHeader.payload_length) = zlen p ->
  _DATA_KINDS h.(V3FrameHeader.kind) = true ->
  decode_data_payload h.(V3FrameHeader.kind) p h.(V3FrameHeader.item_count) = Ok d ->
  exists wire f,
    encode_v3_frame (int_of h.(V3FrameHeader.kind)) p h.(V3FrameHeader.flags) h.(V3FrameHeader.run_id)
      h.(V3FrameHeader.sequence) h.(V3FrameHeader.request_id) h.(V3FrameHeader.first_sample_ticks)
      h.(V3FrameHeader.item_count) = Ok wire /\
    frame_on_wire f wire /\ f.(V3Frame.header) = h /\ f.(V3Frame.payload) = p /\ zlen wire = 48 + zlen p.
Proof.
  intros Hw Hwf Hl Hk Hd. apply encode_valid_frame; [done..|]. intros c. unfold _validate_payload. cbv zeta.
  cbn [V3Frame.header V3Frame.payload]. by rewrite Hk, Hd.
Qed.

(** The kinds of response a value may travel in. *)
Definition value_kind_ok (k : FrameKind) (run : Z) (v : V3ResponseValue) : Prop :=
  match v with
  | InfoValue _ => k = FrameKind.INFO_RESPONSE
  | CapabilitiesValue _ => k = FrameKind.GET_CAPABILITIES_RESPONSE
  | AppliedValue _ => k = FrameKind.CONFIGURE_RESPONSE \/ k = FrameKind.GET_SETTINGS_RESPONSE \/
                      k = FrameKind.START_RESPONSE /\ run <> 0
  | StopValue s => k = FrameKind.STOP_RESPONSE /\ s.(V3Stop.run_id) = run /\
                   s.(V3Stop.state) <> DeviceState.RUNNING
  | StatusValue s => k = FrameKind.GET_STATUS_RESPONSE /\ s.(V3Status.stop).(V3Stop.run_id) = run
  end.

Lemma value_kind_facts k run v :
  value_kind_ok k run v ->
  is_command_response k = true /\ _RESPONSE_SIZES k = Some (value_size v) /\
  k <> FrameKind.ERROR_RESPONSE /\ (k = FrameKind.START_RESPONSE -> run <> 0) /\
  (reported_run (Some v) = None \/ reported_run (Some v) = Some run).
Proof.
  destruct v as [v|v|v|v|v]; cbn [value_kind_ok reported_run].
  - intros ->. split_and!; first [done | discriminate | by left].
  - intros ->. split_and!; first [done | discriminate | by left].
  - intros [->|[->|[-> Hr]]]; split_and!; first [done | discriminate | by left].
  - intros (-> & Hr & _). split_and!; first [done | discriminate | right; by f_equal].
  - intros (-> & Hr). split_and!; first [done | discriminate | right; by f_equal].
Qed.

Lemma decode_value_of k run v p :
  value_kind_ok k run v -> value_from_payload v p = Ok v -> decode_value k p = Ok v.
Proof.
  destruct v as [v|v|v|v|v]; cbn [value_kind_ok value_from_payload]; intros Hk Hv.
  - subst k. cbn [from_payload info_codec] in Hv. cbn [decode_value].
    by destruct (info_from_payload p).
  - subst k. cbn [from_payload capabilities_codec] in Hv. cbn [decode_value].
    by destruct (capabilities_from_payload p).
  - cbn [from_payload applied_codec] in Hv.
    destruct Hk as [->|[->|[-> _]]]; cbn [decode_value]; by destruct (applied_from_payload p).
  - destruct Hk as (-> & _ & Hs). cbn [from_payload stop_codec] in Hv. cbn [decode_value].
    destruct (stop_from_payload p) as [x|]; [|discriminate]. cbn in Hv. injection Hv as ->.
    cbn [mbind result_bind]. by rewrite bool_decide_eq_true_2.
  - destruct Hk as [-> _]. cbn [from_payload status_codec] in Hv. cbn [decode_value].
    by destruct (status_from_payload p).
Qed.

Lemma success_response_encodes k q run v p :
  0 < q < 2 ^ 32 -> 0 <= run < 2 ^ 32 -> value_kind_ok k run v -> value_valid v ->
  value_to_payload v = Ok p ->
  exists wire, response_to_bytes (V3Response.mk k q run ResponseStatus.OK ErrorCode.OK (Some v) None)
    = Ok wire /\ zlen wire <= 2048.
Proof.
  intros Hq Hrun Hk Hv Hp. destruct (value_codec v p Hv Hp) as (Hw & Hfrom & Hl & Hpre).
  destruct (value_kind_facts k run v Hk) as (Hcr & Hsz & Hne & Hst & Hrep).
  assert (Hsize : 4 <= value_size v <= 2000) by (destruct v; vm_compute; split; discriminate).
  destruct (encode_response_frame k p 0 run q
    (V3Response.mk k q run ResponseStatus.OK ErrorCode.OK (Some v) None) Hw) as (wire & He & Hlw).
  - rewrite Hl. split; [done|]. split; [done|]. split; [done|].
    split; [unfold in_width; cbn; pow_lit; lia|].
    destruct (response_kind_facts k) as (Hnd & Hnr & _); [by rewrite Hcr|].
    cbn [new_header V3FrameHeader.kind]. rewrite Hnd, Hnr. split; [done|]. left.
    cbn [new_header V3FrameHeader.kind V3FrameHeader.flags V3FrameHeader.request_id V3FrameHeader.payload_length
      V3FrameHeader.run_id]. split; [done|]. split; [lia|]. done.
  - by rewrite Hcr.
  - intros c. unfold decode_v3_response.
    cbn [V3Frame.header V3Frame.payload new_header V3FrameHeader.kind V3FrameHeader.flags
      V3FrameHeader.request_id V3FrameHeader.run_id]. rewrite Hcr. cbn [orb _require require mbind result_bind].
    rewrite (proj2 (bounded_bytes_Ok p _ _ p)) by (split; [done|];
      unfold RESPONSE_PREFIX_PAYLOAD_SIZE, MAX_CONTROL_FRAME_BYTES, MIN_FRAME_BYTES; lia).
    cbn [mbind result_bind].
    assert (Hu : unpack_from RESPONSE_PREFIX_STRUCT_FORMAT p 0 = Some (0, (0, (0, tt)))).
    { unfold unpack_from, zlen in *. rewrite (proj2 (Nat.leb_le _ _)) by (cbn; lia). rewrite drop_0.
      pose proof (unpack_fields_app RESPONSE_PREFIX_STRUCT_FORMAT (take 4 p) (drop 4 p)) as Hx.
      rewrite take_drop in Hx. rewrite Hx by (rewrite length_take; change (calcsize RESPONSE_PREFIX_STRUCT_FORMAT) with 4%nat; lia). rewrite Hpre. reflexivity. }
    rewrite Hu. cbn [of_option mbind result_bind].
    rewrite (proj2 (enum_field_Ok 0 _ ResponseStatus.OK)) by done. cbn [mbind result_bind].
    rewrite (proj2 (enum_field_Ok 0 _ ErrorCode.OK)) by done. cbn [mbind result_bind].
    cbn [Z.eqb _require require mbind result_bind].
    rewrite (bool_decide_eq_true_2 (has 0 FrameFlag.RESPONSE_ERROR = true <-> ResponseStatus.OK = ResponseStatus.ERROR))
      by (split; discriminate).
    rewrite (bool_decide_eq_true_2 (ResponseStatus.OK = ResponseStatus.OK <-> ErrorCode.OK = ErrorCode.OK)) by done.
    cbn [andb require mbind result_bind]. rewrite (proj2 (Z.eqb_neq q 0)) by lia.
    cbn [negb orb require mbind result_bind].
    rewrite (decode_value_of k run v p Hk Hfrom). cbn [mbind result_bind].
    destruct Hrep as [->| ->]; [done|]. by rewrite Z.eqb_refl.
  - exists wire. unfold response_to_bytes, response_body.
    cbn [V3Response.status V3Response.value V3Response.error_code V3Response.rejected_kind V3Response.kind
      V3Response.request_id V3Response.run_id].
    rewrite !bool_decide_eq_true_2 by done. cbn [andb _require require mbind result_bind]. rewrite Hp.
    cbn [mbind result_bind]. split; [done|]. lia.
Qed.

(** What an error reply carries: the rejected kind only in the generic response. *)
Definition rejected_ok (k : FrameKind) (rejected : option Z) : Prop :=
  if decide (k = FrameKind.ERROR_RESPONSE)
  then exists x, rejected = Some x /\ 0 <= x < 256 else rejected = None.

Lemma error_prefix_pack (e : ErrorCode) :
  _pack RESPONSE_PREFIX_STRUCT_FORMAT (int_of ResponseStatus.ERROR, (0, (int_of e, tt)))
  = Ok (1 :: 0 :: to_le 2 (int_of e)).
Proof. by destruct e. Qed.

Lemma rejected_pack x :
  0 <= x < 256 -> _pack REJECTED_STRUCT_FORMAT (x, (0, (0, tt))) = Ok [x; 0; 0; 0].
Proof.
  intros Hx. apply pack_field_Ok. cbn -[fits to_le]. rewrite (proj2 (fits_spec 1 x)) by (pow_lit; lia).
  cbn -[to_le]. unfold to_le. by rewrite Z.mod_small by lia.
Qed.

Lemma unpack_error_prefix (e : ErrorCode) rest :
  unpack_from RESPONSE_PREFIX_STRUCT_FORMAT ((1 :: 0 :: to_le 2 (int_of e)) ++ rest) 0
  = Some (int_of ResponseStatus.ERROR, (0, (int_of e, tt))).
Proof.
  unfold unpack_from. change (calcsize RESPONSE_PREFIX_STRUCT_FORMAT) with 4%nat.
  assert (Hl : length (1 :: 0 :: to_le 2 (int_of e)) = 4%nat) by (cbn [length]; by rewrite length_to_le).
  rewrite (proj2 (Nat.leb_le _ _)) by (rewrite length_app, Hl; lia). rewrite drop_0.
  pose proof (unpack_fields_app RESPONSE_PREFIX_STRUCT_FORMAT (1 :: 0 :: to_le 2 (int_of e)) rest) as Hx.
  change (calcsize RESPONSE_PREFIX_STRUCT_FORMAT) with 4%nat in Hx.
  rewrite Hx by lia. by destruct e.
Qed.

Lemma error_response_encodes k q run e rejected :
  0 <= q < 2 ^ 32 -> 0 <= run < 2 ^ 32 -> (q = 0 -> e = ErrorCode.INVALID_REQUEST_ID) ->
  is_command_response k || bool_decide (k = FrameKind.ERROR_RESPONSE) = true ->
  e <> ErrorCode.OK -> rejected_ok k rejected ->
  exists wire, response_to_bytes (V3Response.mk k q run ResponseStatus.ERROR e None rejected) = Ok wire /\
    zlen wire <= 2048.
Proof.
  intros Hq Hrun Hz Hk He Hrj. unfold rejected_ok in Hrj.
  set (tail := match rejected with Some x => [x; 0; 0; 0] | None => [] end).
  set (p := (1 :: 0 :: to_le 2 (int_of e)) ++ tail).
  set (r := V3Response.mk k q run ResponseStatus.ERROR e None rejected).
  assert (Hbody : response_body r = Ok (p, FrameFlag.RESPONSE_ERROR)).
  { unfold response_body, r. cbn [V3Response.status V3Response.value V3Response.error_code
      V3Response.rejected_kind V3Response.kind].
    rewrite (bool_decide_eq_true_2 (e <> ErrorCode.OK)) by exact He.
    rewrite (bool_decide_eq_true_2 (None = None)) by done. cbn [andb _require require mbind result_bind].
    rewrite error_prefix_pack. cbn [mbind result_bind]. case_decide.
    - destruct Hrj as (x & -> & Hx). cbn [of_option mbind result_bind]. rewrite rejected_pack by done. done.
    - subst rejected. cbn [_require require mbind result_bind]. unfold p, tail. by rewrite app_nil_r. }
  assert (Hwp : wf_bytes p).
  { apply response_body_flags in Hbody as [[? _]|[_ ?]]; [discriminate|done]. }
  assert (Hlp : zlen p = if decide (k = FrameKind.ERROR_RESPONSE) then 8 else 4).
  { unfold p, tail, zlen. case_decide; [destruct Hrj as (x & -> & _)|subst rejected]; done. }
  destruct (encode_response_frame k p FrameFlag.RESPONSE_ERROR run q r Hwp) as (wire & Henc & Hlw).
  - split; [done|]. split; [done|]. split; [done|]. split; [unfold in_width; cbn; pow_lit; lia|].
    cbn [new_header V3FrameHeader.kind]. destruct (response_kind_facts k Hk) as (-> & -> & _).
    split; [done|]. right. cbn [new_header V3FrameHeader.kind V3FrameHeader.flags V3FrameHeader.payload_length].
    split; [done|]. exact Hlp.
  - done.
  - intros c. unfold decode_v3_response.
    cbn [V3Frame.header V3Frame.payload new_header V3FrameHeader.kind V3FrameHeader.flags
      V3FrameHeader.request_id V3FrameHeader.run_id]. rewrite Hk. cbn [_require require mbind result_bind].
    rewrite (proj2 (bounded_bytes_Ok p _ _ p)) by (split; [done|];
      unfold RESPONSE_PREFIX_PAYLOAD_SIZE, MAX_CONTROL_FRAME_BYTES, MIN_FRAME_BYTES; rewrite Hlp; case_decide; lia).
    cbn [mbind result_bind].
    rewrite (unpack_error_prefix e tail : unpack_from RESPONSE_PREFIX_STRUCT_FORMAT p 0 = _).
    cbn [of_option mbind result_bind].
    rewrite (proj2 (enum_field_Ok _ _ ResponseStatus.ERROR)) by done. cbn [mbind result_bind].
    rewrite (proj2 (enum_field_Ok _ _ e)) by done. cbn [mbind result_bind].
    cbn [Z.eqb _require require mbind result_bind].
    rewrite (bool_decide_eq_true_2 (has FrameFlag.RESPONSE_ERROR FrameFlag.RESPONSE_ERROR = true
      <-> ResponseStatus.ERROR = ResponseStatus.ERROR)) by done.
    rewrite (bool_decide_eq_true_2 (ResponseStatus.ERROR = ResponseStatus.OK <-> e = ErrorCode.OK)) by (split; done).
    cbn [andb require mbind result_bind].
    assert (Hq0 : negb (q =? 0) || bool_decide (e = ErrorCode.INVALID_REQUEST_ID) = true).
    { destruct (Z.eqb_spec q 0) as [H0|]; [|done]. by rewrite bool_decide_eq_true_2 by auto. }
    rewrite Hq0. cbn [require mbind result_bind].
    assert (Hrej : decode_rejection k p = Ok rejected).
    { unfold decode_rejection. rewrite Hlp. case_decide.
      - destruct Hrj as (x & Hx & _). unfold p, tail. rewrite Hx. done.
      - by rewrite Hrj. }
    rewrite Hrej. done.
  - exists wire. unfold response_to_bytes. rewrite Hbody. cbn [mbind result_bind]. split; [done|].
    rewrite Hlw, Hlp. case_decide; lia.
Qed.

(** ** Properties *)

(** C7. The frame decoder is exact: a byte string decodes to a frame if and only if
    it is that frame's header, its payload and the Adler-32 of both, with every
    header rule satisfied and a payload its kind can decode; re-encoding the frame
    gives back the very bytes. *)
Theorem decode_v3_frame_exact (wire : bytes) (f : V3Frame) (Hw : wf_bytes wire) :
  (decode_v3_frame wire = Ok f <-> frame_on_wire f wire) /\
  (decode_v3_frame wire = Ok f -> frame_to_bytes f = Ok wire).
Proof.
  split; [by apply decode_v3_frame_iff|].
  intros H. by apply frame_on_wire_to_bytes, decode_v3_frame_iff.
Qed.

(** Whatever [encode_v3_frame] returns decodes, to a frame carrying the payload
    and the header fields the caller passed, with nothing added or lost. *)
Theorem encode_decode_frame (kind : Z) (payload : bytes)
    (flags run_id sequence request_id ticks count : Z) (wire : bytes)
    (Hw : wf_bytes payload)
    (Henc : encode_v3_frame kind payload flags run_id sequence request_id ticks count = Ok wire) :
  48 <= zlen wire <= 4108 /\
  exists k c, kind = int_of k /\
    decode_v3_frame wire =
      Ok (V3Frame.mk (new_header k flags (48 + zlen payload) (zlen payload) run_id sequence
                        request_id ticks count) payload c).
Proof.
  apply encode_v3_frame_Ok in Henc as (k & f & Hk & _ & Hf & <- & Hh); [|done].
  destruct (frame_on_wire_size f wire Hf) as (Hww & _ & Hl). split; [done|].
  exists k, (V3Frame.checksum f). split; [done|].
  rewrite <-Hh, (proj2 (decode_v3_frame_iff wire f Hww) Hf). by destruct f.
Qed.

(** On arbitrary bytes the frame decoder either returns a frame or raises one of
    its two documented errors, never anything else. *)
Theorem decode_v3_frame_fails_cleanly (wire : bytes) (Hw : wf_bytes wire) :
  (exists f, decode_v3_frame wire = Ok f) \/
  (exists m c, decode_v3_frame wire = Err (V3FrameValidationError m c)) \/
  (exists e o, decode_v3_frame wire = Err (V3ChecksumMismatchError e o)).
Proof.
  pose proof (caught_decode_v3_frame wire Hw) as Hc.
  destruct (decode_v3_frame wire) as [f|[m c|e o|m]]; [eauto|eauto|eauto|done].
Qed.

(** Any single corrupted byte of a valid frame, header, payload or trailer, is
    detected. *)
Theorem single_byte_corruption_detected (pre post : bytes) (b b' : Z) (f g : V3Frame)
    (Hw : wf_bytes (pre ++ b :: post)) (Hb : is_byte b') (Hne : b <> b')
    (Hdec : decode_v3_frame (pre ++ b :: post) = Ok f) :
  decode_v3_frame (pre ++ b' :: post) <> Ok g.
Proof.
  intros Hdec'. assert (Hbb : is_byte b) by (apply wf_bytes_app in Hw as [_ Hx]; by inversion Hx).
  assert (Hw' : wf_bytes (pre ++ b' :: post)).
  { apply wf_bytes_app in Hw as [Hx Hy]. inversion Hy. apply wf_bytes_app. split; [done|by constructor]. }
  apply (frames_differ_in_two_bytes pre post b b' f g); [done..| |]; by apply decode_v3_frame_iff.
Qed.

(** Commands and their frames correspond one to one: a command's bytes are
    exactly those that decode to a frame whose command it is. *)
Theorem command_frame_exact (c : V3Command) (wire : bytes) (Hw : wf_bytes wire) :
  command_to_bytes c = Ok wire <->
  exists f, decode_v3_frame wire = Ok f /\ command_from_frame f = Ok c.
Proof.
  split.
  - intros H. destruct (command_forward c wire H) as (f & Hf & Hc). exists f.
    split; [by apply decode_v3_frame_iff|done].
  - intros (f & Hf & Hc). eapply command_backward; [by apply decode_v3_frame_iff|done].
Qed.

(** Responses and their frames correspond one to one, success and error responses
    alike: a response's bytes are exactly those that decode to a frame whose
    response it is. *)
Theorem response_frame_exact (r : V3Response) (wire : bytes) (Hw : wf_bytes wire)
    (Hr : forall v, r.(V3Response.value) = Some v -> value_valid v) :
  response_to_bytes r = Ok wire <->
  exists f, decode_v3_frame wire = Ok f /\ decode_v3_response f = Ok r.
Proof.
  split.
  - intros H. destruct (response_forward r wire Hr H) as (f & Hf & Hd). exists f.
    split; [by apply decode_v3_frame_iff|done].
  - intros (f & Hf & Hd). eapply response_backward; [by apply decode_v3_frame_iff|done].
Qed.

(** ** Witnesses: an INFO command, a STOP response, and streams of them. *)

Definition info_wire : bytes :=
  Eval vm_compute in
  match command_to_bytes (V3Command.mk CommandKind.INFO 7 None) with Ok w => w | Err _ => [] end.

Definition stop_response : V3Response :=
  V3Response.mk FrameKind.STOP_RESPONSE 9 4 ResponseStatus.OK ErrorCode.OK
    (Some (StopValue (V3Stop.mk DeviceState.STOPPED 4 0))) None.

Definition stop_wire : bytes :=
  Eval vm_compute in match response_to_bytes stop_response with Ok w => w | Err _ => [] end.

Definition decoded (wire : bytes) : V3Frame :=
  match decode_v3_frame wire with
  | Ok f => f
  | Err _ => V3Frame.mk (new_header FrameKind.INFO_REQUEST 0 0 0 0 0 0 0 0) [] 0
  end.

Lemma info_wire_wf : wf_bytes info_wire.
Proof. apply (bool_decide_unpack _). vm_compute. exact I. Qed.
Lemma stop_wire_wf : wf_bytes stop_wire.
Proof. apply (bool_decide_unpack _). vm_compute. exact I. Qed.
Lemma info_decodes : decode_v3_frame info_wire = Ok (decoded info_wire).
Proof. vm_compute. reflexivity. Qed.
Lemma stop_decodes : decode_v3_frame stop_wire = Ok (decoded stop_wire).
Proof. vm_compute. reflexivity. Qed.

Lemma decode_v3_frame_exact_witness :
  wf_bytes info_wire /\ frame_on_wire (decoded info_wire) info_wire /\
  frame_to_bytes (decoded info_wire) = Ok info_wire.
Proof.
  pose proof info_wire_wf as Hw. pose proof info_decodes as Hd. split; [exact Hw|]. split.
  - exact (proj1 (proj1 (decode_v3_frame_exact info_wire (decoded info_wire) Hw)) Hd).
  - exact (proj2 (decode_v3_frame_exact info_wire (decoded info_wire) Hw) Hd).
Defined.

Lemma encode_decode_frame_witness :
  wf_bytes [] /\ 48 <= zlen info_wire <= 4108.
Proof.
  split; [constructor|].
  apply (encode_decode_frame (int_of CommandKind.INFO) [] 0 0 0 7 0 0 info_wire); [constructor|vm_compute; reflexivity].
Defined.

Lemma decode_v3_frame_fails_cleanly_witness :
  wf_bytes [1; 2; 3] /\
  ((exists f, decode_v3_frame [1; 2; 3] = Ok f) \/
   (exists m c, decode_v3_frame [1; 2; 3] = Err (V3FrameValidationError m c)) \/
   (exists e o, decode_v3_frame [1; 2; 3] = Err (V3ChecksumMismatchError e o))).
Proof.
  assert (Hw : wf_bytes [1; 2; 3]) by (apply (bool_decide_unpack _); vm_compute; exact I).
  split; [exact Hw|]. exact (decode_v3_frame_fails_cleanly _ Hw).
Defined.

Lemma single_byte_corruption_detected_witness :
  decode_v3_frame (take 28 info_wire ++ 7 :: drop 29 info_wire) = Ok (decoded info_wire) /\
  decode_v3_frame (take 28 info_wire ++ 9 :: drop 29 info_wire) <> Ok (decoded info_wire).
Proof.
  split; [vm_compute; reflexivity|].
  apply (single_byte_corruption_detected _ _ 7 9 (decoded info_wire)).
  - apply (bool_decide_unpack _). vm_compute. exact I.
  - unfold is_byte. lia.
  - discriminate.
  - vm_compute. reflexivity.
Defined.

Lemma command_frame_exact_witness :
  wf_bytes info_wire /\
  exists f, decode_v3_frame info_wire = Ok f /\
    command_from_frame f = Ok (V3Command.mk CommandKind.INFO 7 None).
Proof.
  split; [exact info_wire_wf|].
  apply (command_frame_exact (V3Command.mk CommandKind.INFO 7 None) info_wire info_wire_wf).
  vm_compute. reflexivity.
Defined.

Lemma response_frame_exact_witness :
  wf_bytes stop_wire /\
  exists f, decode_v3_frame stop_wire = Ok f /\ decode_v3_response f = Ok stop_response.
Proof.
  split; [exact stop_wire_wf|].
  apply (response_frame_exact stop_response stop_wire stop_wire_wf); [intros v [= <-]; exact I|].
  vm_compute. reflexivity.
Defined.

(** The generic parser, at this protocol. *)

Lemma feed_implements_scanner_witness :
  wf_bytes (concat [take 20 info_wire; drop 20 info_wire]) /\
  exists p es, feed_all (new_parser : V3FrameParser) [take 20 info_wire; drop 20 info_wire] =
    Ok (p, frames_of es) /\
    scans (concat [take 20 info_wire; drop 20 info_wire]) es (unread p).
Proof.
  assert (Hw : wf_bytes (concat [take 20 info_wire; drop 20 info_wire])) by (apply (bool_decide_unpack _); vm_compute; exact I). split; [exact Hw|].
  destruct (feed_implements_scanner (C:=v3_codec) [take 20 info_wire; drop 20 info_wire] Hw)
    as (p & es & H1 & H2 & _). exists p, es. split; [exact H1|exact H2].
Defined.

Lemma chunking_invariance_witness :
  exists p1 p2 frames,
    feed_all (new_parser : V3FrameParser) [info_wire] = Ok (p1, frames) /\
    feed_all (new_parser : V3FrameParser) [take 3 info_wire; drop 3 info_wire] = Ok (p2, frames).
Proof.
  destruct (chunking_invariance (C:=v3_codec) [info_wire] [take 3 info_wire; drop 3 info_wire])
    as (p1 & p2 & frames & H1 & H2 & _); [apply (bool_decide_unpack _); vm_compute; exact I|reflexivity|].
  exists p1, p2, frames. split; [exact H1|exact H2].
Defined.

Lemma parser_bounded_witness :
  exists p frames,
    apply_ops (FrameT:=V3Frame) (new_parser : V3FrameParser) [Feed stop_wire; ResetSession; Feed [1]]
      = Ok (p, frames) /\ (buffered_bytes p < 4108)%nat.
Proof.
  destruct (parser_bounded (C:=v3_codec) [Feed stop_wire; ResetSession; Feed [1]])
    as (p & frames & H1 & _ & _ & H2 & _);
    [repeat constructor; try exact stop_wire_wf; unfold is_byte; lia|]. exists p, frames. split; [exact H1|exact H2].
Defined.

Lemma bytes_conserved_witness :
  exists p frames,
    feed_all (new_parser : V3FrameParser) [[0; 0]; stop_wire] = Ok (p, frames) /\
    frames_decoded p = length frames.
Proof.
  destruct (bytes_conserved (C:=v3_codec) [[0; 0]; stop_wire]) as (p & frames & sizes & H1 & _ & H2 & _);
    [apply (bool_decide_unpack _); vm_compute; exact I|].
  exists p, frames. split; [exact H1|exact H2].
Defined.

Lemma recovers_after_noise_witness :
  exists p, feed_all (new_parser : V3FrameParser) [[1; 2] ++ take 9 info_wire; drop 9 info_wire ++ stop_wire]
      = Ok (p, [decoded info_wire; decoded stop_wire]) /\ bytes_discarded p = 2%nat.
Proof.
  destruct (recovers_after_noise (C:=v3_codec) [1; 2] [info_wire; stop_wire]
    [decoded info_wire; decoded stop_wire] [[1; 2] ++ take 9 info_wire; drop 9 info_wire ++ stop_wire])
    as (p & H1 & H2 & _).
  - apply (bool_decide_unpack _); vm_compute; exact I.
  - reflexivity.
  - discriminate.
  - repeat constructor; apply frame_complete;
      first [exact info_wire_wf | exact stop_wire_wf | exact info_decodes | exact stop_decodes].
  - intros [|[|j]] Hj; [reflexivity|reflexivity|cbn in Hj; lia].
  - exists p. split; [exact H1|exact H2].
Defined.

Lemma reset_session_fresh_witness :
  exists p frames p1 p2 more,
    apply_ops (FrameT:=V3Frame) (new_parser : V3FrameParser) [Feed (take 30 stop_wire)] = Ok (p, frames) /\
    feed_all (reset_session p) [info_wire] = Ok (p1, more) /\
    feed_all (new_parser : V3FrameParser) [info_wire] = Ok (p2, more).
Proof.
  destruct (reset_session_fresh (C:=v3_codec) [Feed (take 30 stop_wire)] [info_wire])
    as (p & frames & p1 & p2 & more & H1 & H2 & H3 & _);
    [apply Forall_singleton; cbn [wf_op]; apply wf_bytes_take, stop_wire_wf|apply (bool_decide_unpack _); vm_compute; exact I|].
  exists p, frames, p1, p2, more. split; [exact H1|]. split; [exact H2|exact H3].
Defined.
