(* ===== verification/Synthetic.v ===== *)
(** * Deterministic synthetic sources ([synthetic.py]).

    The ADC ramp and the GPIO stress patterns, generated from cached one-period
    buffers, and the validators that compare a payload with them segment by segment.
    The specification gives every sample by its formula, with no cycle. *)

From S2P Require Import Prelude PyStruct V3Constants.

(** ** Data *)

Definition ADC_RESOLUTION_BITS : Z := 12.
Definition ADC_BYTES_PER_PAIR : Z := 4.

Inductive AdcConverter := ADC0 | ADC1.
#[export] Instance AdcConverter_eq_dec : EqDecision AdcConverter.
Proof. solve_decision. Defined.
#[export] Instance AdcConverter_enum : IntEnum AdcConverter.
Proof.
  refine {| int_of a := match a with ADC0 => 0 | ADC1 => 1 end; members := [ADC0; ADC1] |}; enum_laws.
Defined.

Inductive SyntheticGPIOPattern := ALL_ZERO | WALKING_BIT | COUNTER | HIGH_TRANSITION.
#[export] Instance SyntheticGPIOPattern_eq_dec : EqDecision SyntheticGPIOPattern.
Proof. solve_decision. Defined.

(** [ValueError]; [SyntheticPatternError] with the facts its message states; any
    other exception. *)
Inductive synthetic_error :=
| ValueError (message : string)
| WrongLength (observed expected : Z)
| AdcMismatch (sample_index : Z) (observed expected : Z * Z)
| GpioMismatch (sample_index : Z) (observed expected : Z)
| UncaughtError (exception : string).

Abbreviation syn := (result synthetic_error).

(** ** Formulas *)

Definition _sample_index (value : Z) : syn Z :=
  _ ← require (0 <=? value) (ValueError "sample index must be a nonnegative integer");
  Ok value.

Definition synthetic_adc_code (converter sample_index : Z) : syn Z :=
  selected_converter ← of_option (enum_of (A:=AdcConverter) converter)
                         (ValueError "converter must be ADC0 or ADC1");
  index ← _sample_index sample_index;
  let code_mask := Z.shiftl 1 ADC_RESOLUTION_BITS - 1 in
  Ok (Z.land (2 * index + int_of selected_converter) code_mask).

Definition synthetic_adc0_code (sample_index : Z) : syn Z :=
  synthetic_adc_code (int_of ADC0) sample_index.
Definition synthetic_adc1_code (sample_index : Z) : syn Z :=
  synthetic_adc_code (int_of ADC1) sample_index.

Definition synthetic_gpio_byte (sample_index : Z) : syn Z :=
  index ← _sample_index sample_index; Ok (Z.land index 255).

Definition synthetic_gpio_bank_bytes (sample_index : Z) (selected : SyntheticGPIOPattern) :
    syn (Z * Z) :=
  index ← _sample_index sample_index;
  Ok match selected with
     | ALL_ZERO => (0, 0)
     | WALKING_BIT => (Z.shiftl 1 (index mod 8), Z.shiftl 1 ((index + 3) mod 8))
     | COUNTER => (Z.land index 255, Z.land (3 * index + 85) 255)
     | HIGH_TRANSITION => (if index mod 2 =? 0 then 170 else 85, if index mod 2 =? 0 then 15 else 240)
     end.

Definition synthetic_gpio_value (sample_index : Z) (mode : AuxBankMode)
    (pattern : SyntheticGPIOPattern) : syn Z :=
  '(primary, auxiliary) ← synthetic_gpio_bank_bytes sample_index pattern;
  Ok (if decide (mode = AuxBankMode.DISABLED) then primary
      else Z.lor primary (Z.shiftl auxiliary 8)).

(** ** One period of each pattern *)

Definition PAIR_STRUCT_FORMAT : list fcode := Eval vm_compute in struct_format "<HH".
Definition HALF_STRUCT_FORMAT : list fcode := Eval vm_compute in struct_format "<H".

Definition _adc_pattern_cycle : syn bytes :=
  let pair_period := Z.to_nat (Z.shiftl 1 (ADC_RESOLUTION_BITS - 1)) in
  let payload := replicate (pair_period * Z.to_nat ADC_BYTES_PER_PAIR) 0 in
  let code_mask := Z.shiftl 1 ADC_RESOLUTION_BITS - 1 in
  of_option
    (fold_left
       (pack_into_at PAIR_STRUCT_FORMAT (fun index => index * Z.to_nat ADC_BYTES_PER_PAIR)%nat
          (fun index => (Z.land (2 * Z.of_nat index) code_mask,
                         (Z.land (2 * Z.of_nat index + 1) code_mask, tt))))
       (seq 0 pair_period) (Some payload))
    (UncaughtError "struct.error").

(** [bytes(range(256))] *)
Definition _gpio_pattern_cycle : bytes := map Z.of_nat (seq 0 256).

(** [payload[index] = value] on a [bytearray]. *)
Definition set_byte (payload : bytes) (index : nat) (value : Z) : syn bytes :=
  _ ← require (bool_decide (is_byte value)) (UncaughtError "ValueError");
  _ ← require (index <? length payload)%nat (UncaughtError "IndexError");
  Ok (<[index := value]> payload).

Definition gpio_cycle_step (mode : AuxBankMode) (pattern : SyntheticGPIOPattern)
    (payload : syn bytes) (index : nat) : syn bytes :=
  payload ← payload;
  value ← synthetic_gpio_value (Z.of_nat index) mode pattern;
  if decide (mode = AuxBankMode.DISABLED) then set_byte payload index value
  else of_option (pack_into HALF_STRUCT_FORMAT payload (index * 2) (value, tt))
         (UncaughtError "struct.error").

Definition _gpio_mode_pattern_cycle (mode : AuxBankMode) (pattern : SyntheticGPIOPattern) :
    syn bytes :=
  if decide (mode = AuxBankMode.DISABLED /\ pattern = COUNTER) then Ok _gpio_pattern_cycle
  else
    let payload := replicate (256 * (if decide (mode = AuxBankMode.DISABLED) then 1 else 2)) 0 in
    fold_left (gpio_cycle_step mode pattern) (seq 0 256) (Ok payload).

(** ** Cyclic views; [start] and [length] are nonnegative, [cycle] nonempty. *)

Definition _cyclic_bytes (cycle : bytes) (start length : nat) : bytes :=
  let period := List.length cycle in
  if (length =? 0)%nat then []
  else
    let offset := (start mod period)%nat in
    let first := Nat.min length (period - offset) in
    if (first =? length)%nat then slice offset (offset + length) cycle
    else
      let remaining := (length - first)%nat in
      let repeats := (remaining / period)%nat in
      let tail := (remaining mod period)%nat in
      drop offset cycle ++ concat (replicate repeats cycle) ++ take tail cycle.

(** The inner [for] loop: the first differing offset of two segments. *)
Fixpoint first_difference (actual expected : bytes) (relative : nat) : option nat :=
  match actual, expected with
  | a :: actual, e :: expected =>
      if a =? e then first_difference actual expected (S relative) else Some relative
  | _, _ => None
  end.

(** The [while] loop; the outer [None] is exhausted fuel. *)
Fixpoint mismatch_loop (fuel : nat) (actual cycle : bytes) (position cycle_position : nat) :
    option (option nat) :=
  match fuel with
  | O => None
  | S fuel =>
      if (position <? length actual)%nat then
        let segment_length := Nat.min (length actual - position) (length cycle - cycle_position) in
        let actual_segment := slice position (position + segment_length) actual in
        let expected_segment := slice cycle_position (cycle_position + segment_length) cycle in
        match (if bool_decide (actual_segment = expected_segment) then None
               else first_difference actual_segment expected_segment 0) with
        | Some relative => Some (Some (position + relative)%nat)
        | None => mismatch_loop fuel actual cycle (position + segment_length) 0
        end
      else Some None
  end.

(** At least one byte is compared per iteration. *)
Definition _cyclic_mismatch (payload cycle : bytes) (start : nat) : option nat :=
  default None (mismatch_loop (S (length payload)) payload cycle 0 (start mod length cycle)).

(** ** Payloads *)

Definition synthetic_adc_payload (start_index pair_count : Z) : syn bytes :=
  first ← _sample_index start_index;
  _ ← require (0 <=? pair_count) (ValueError "pair_count must be a nonnegative integer");
  cycle ← _adc_pattern_cycle;
  Ok (_cyclic_bytes cycle (Z.to_nat (first * ADC_BYTES_PER_PAIR))
        (Z.to_nat (pair_count * ADC_BYTES_PER_PAIR))).

Definition EDGES : list (Z * Z) := [(0, 0); (4095, 4095); (2748, 291); (1365, 2730)].

Definition v3_edge_step (first_pair_index : Z) (payload : option bytes) (offset : nat) :
    option bytes :=
  payload ← payload;
  let phase := (first_pair_index + Z.of_nat offset) mod 2048 in
  match EDGES !! Z.to_nat phase with
  | Some (a, b) => pack_into PAIR_STRUCT_FORMAT payload (offset * 4) (a, (b, tt))
  | None => Some payload
  end.

Definition synthetic_v3_adc_payload (first_pair_index pair_count : Z) : syn bytes :=
  payload ← synthetic_adc_payload first_pair_index pair_count;
  of_option (fold_left (v3_edge_step first_pair_index) (seq 0 (Z.to_nat pair_count)) (Some payload))
    (UncaughtError "struct.error").

Definition item_bytes (mode : AuxBankMode) : Z :=
  if decide (mode = AuxBankMode.DISABLED) then 1 else 2.

Definition synthetic_gpio_payload (start_index sample_count : Z) (mode : AuxBankMode)
    (selected_pattern : SyntheticGPIOPattern) : syn bytes :=
  first ← _sample_index start_index;
  _ ← require (0 <=? sample_count) (ValueError "sample_count must be a nonnegative integer");
  cycle ← _gpio_mode_pattern_cycle mode selected_pattern;
  Ok (_cyclic_bytes cycle (Z.to_nat (first * item_bytes mode))
        (Z.to_nat (sample_count * item_bytes mode))).

(** ** Validators *)

Definition validate_synthetic_adc_payload (payload : bytes) (start_index pair_count : Z) : syn unit :=
  first ← _sample_index start_index;
  _ ← require (0 <=? pair_count) (ValueError "pair_count must be a nonnegative integer");
  let expected_bytes := pair_count * ADC_BYTES_PER_PAIR in
  _ ← require (zlen payload =? expected_bytes) (WrongLength (zlen payload) expected_bytes);
  cycle ← _adc_pattern_cycle;
  match _cyclic_mismatch payload cycle (Z.to_nat (first * ADC_BYTES_PER_PAIR)) with
  | None => Ok tt
  | Some mismatch =>
      let pair_offset := Z.of_nat mismatch / ADC_BYTES_PER_PAIR in
      '(observed_adc0, (observed_adc1, _)) ←
          of_option (unpack_from PAIR_STRUCT_FORMAT payload (Z.to_nat (pair_offset * ADC_BYTES_PER_PAIR)))
            (UncaughtError "struct.error");
      let sample_index := first + pair_offset in
      expected0 ← synthetic_adc0_code sample_index;
      expected1 ← synthetic_adc1_code sample_index;
      Err (AdcMismatch sample_index (observed_adc0, observed_adc1) (expected0, expected1))
  end.

Definition observed_gpio (mode : AuxBankMode) (payload : bytes) (sample_offset : Z) : syn Z :=
  if decide (item_bytes mode = 1)
  then of_option (payload !! Z.to_nat sample_offset) (UncaughtError "IndexError")
  else '(value, _) ← of_option (unpack_from HALF_STRUCT_FORMAT payload
                                  (Z.to_nat (sample_offset * item_bytes mode)))
                       (UncaughtError "struct.error");
       Ok value.

Definition validate_synthetic_gpio_payload (payload : bytes) (start_index sample_count : Z)
    (mode : AuxBankMode) (selected_pattern : SyntheticGPIOPattern) : syn unit :=
  first ← _sample_index start_index;
  _ ← require (0 <=? sample_count) (ValueError "sample_count must be a nonnegative integer");
  _ ← require (zlen payload =? sample_count * item_bytes mode)
        (WrongLength (zlen payload) (sample_count * item_bytes mode));
  cycle ← _gpio_mode_pattern_cycle mode selected_pattern;
  match _cyclic_mismatch payload cycle (Z.to_nat (first * item_bytes mode)) with
  | None => Ok tt
  | Some mismatch =>
      let sample_offset := Z.of_nat mismatch / item_bytes mode in
      observed ← observed_gpio mode payload sample_offset;
      let sample_index := first + sample_offset in
      expected ← synthetic_gpio_value sample_index mode selected_pattern;
      Err (GpioMismatch sample_index observed expected)
  end.

(** ** The specification of a cyclic view: one element per position *)

Definition cyc (cycle : bytes) (start n : nat) : bytes :=
  map (fun i => nth ((start + i) mod length cycle) cycle 0) (seq 0 n).

Section Cyclic.
Context (cycle : bytes) (Hcycle : cycle <> []).

Lemma period_pos : (0 < length cycle)%nat.
Proof. destruct cycle; [done|]. cbn. lia. Qed.

Lemma length_cyc s n : length (cyc cycle s n) = n.
Proof. unfold cyc. by rewrite length_map, length_seq. Qed.

Lemma cyc_app s a b : cyc cycle s (a + b) = cyc cycle s a ++ cyc cycle (s + a) b.
Proof.
  unfold cyc. rewrite seq_app, map_app. f_equal. cbn. rewrite <-(Nat.add_0_r a) at 1.
  rewrite <-fmap_add_seq. change (@fmap list list_fmap nat nat) with (@map nat nat). rewrite map_map.
  apply map_ext. intros i. by rewrite Nat.add_assoc.
Qed.

Lemma cyc_mod s n : cyc cycle (s mod length cycle) n = cyc cycle s n.
Proof.
  unfold cyc. apply map_ext. intros i. f_equal. pose proof period_pos. apply Nat.Div0.add_mod_idemp_l.
Qed.

Lemma cyc_slice s n :
  (s mod length cycle + n <= length cycle)%nat ->
  cyc cycle s n = slice (s mod length cycle) (s mod length cycle + n) cycle.
Proof.
  intros Hn. rewrite <-cyc_mod. set (o := (s mod length cycle)%nat) in *. apply list_eq. intros i. unfold cyc, slice.
  replace (o + n - o)%nat with n by lia.
  destruct (decide (i < n)%nat) as [Hi|Hi].
  - rewrite lookup_take_lt, lookup_drop by lia. change (@map nat Z) with (fmap (M:=list) (A:=nat) (B:=Z)).
    rewrite list_lookup_fmap, lookup_seq_lt by lia. cbn. rewrite Nat.mod_small by lia.
    destruct (lookup_lt_is_Some_2 cycle (o + i)) as [x Hx]; [lia|].
    by rewrite Hx, (nth_lookup_Some _ _ 0 _ Hx).
  - rewrite lookup_ge_None_2 by (rewrite length_map, length_seq; lia).
    by rewrite lookup_take_ge by lia.
Qed.

Lemma cyc_periods q : cyc cycle 0 (q * length cycle) = concat (replicate q cycle).
Proof.
  induction q as [|q IH]; [done|]. cbn [Nat.mul replicate concat]. rewrite cyc_app. f_equal.
  - rewrite cyc_slice by (rewrite Nat.Div0.mod_0_l; lia). rewrite Nat.Div0.mod_0_l. unfold slice.
    rewrite drop_0. apply take_ge. lia.
  - rewrite <-cyc_mod, Nat.Div0.mod_same. exact IH.
Qed.

(** The three pieces of [_cyclic_bytes] are one cyclic view. *)
Lemma cyclic_bytes_cyc s n : _cyclic_bytes cycle s n = cyc cycle s n.
Proof.
  pose proof period_pos as HL. unfold _cyclic_bytes. destruct (Nat.eqb_spec n 0) as [->|Hn]; [done|].
  set (L := length cycle) in *. set (o := (s mod L)%nat).
  assert (Ho : (o < L)%nat) by (apply Nat.mod_upper_bound; lia).
  destruct (Nat.eqb_spec (Nat.min n (L - o)) n) as [Hf|Hf].
  - symmetry. apply cyc_slice. fold L o. lia.
  - replace (Nat.min n (L - o)) with (L - o)%nat by lia. set (r := (n - (L - o))%nat).
    replace n with ((L - o) + r)%nat at 1 by lia. rewrite cyc_app. f_equal.
    + rewrite cyc_slice by (fold L o; lia). fold L o. unfold slice. symmetry. apply take_ge. rewrite length_drop. lia.
    + assert (Hz : ((s + (L - o)) mod L = 0)%nat).
      { rewrite <-Nat.Div0.add_mod_idemp_l. fold o. replace (o + (L - o))%nat with L by lia. apply Nat.Div0.mod_same. }
      rewrite <-cyc_mod. fold L. rewrite Hz. rewrite (Nat.div_mod_eq r L) at 3. rewrite (Nat.mul_comm L), cyc_app.
      unfold L at 3. rewrite cyc_periods. f_equal. rewrite <-cyc_mod. fold L. rewrite Nat.add_0_l, Nat.Div0.mod_mul.
      pose proof (Nat.mod_upper_bound r L). rewrite cyc_slice; fold L; rewrite Nat.Div0.mod_0_l; [|lia].
      unfold slice. rewrite drop_0. f_equal. lia.
Qed.
End Cyclic.

(** ** The segment comparison finds the first difference *)

Lemma first_difference_shift a e r k :
  first_difference a e (r + k) = (fun x => x + k)%nat <$> first_difference a e r.
Proof.
  revert e r. induction a as [|x a IH]; intros [|y e] r; try done. cbn.
  destruct (x =? y); [|done]. by rewrite <-IH.
Qed.

Lemma first_difference_refl a r : first_difference a a r = None.
Proof. revert r. induction a as [|x a IH]; intros r; [done|]. cbn. by rewrite Z.eqb_refl. Qed.

Lemma first_difference_app a e a' e' r :
  length a = length e ->
  first_difference (a ++ a') (e ++ e') r
  = match first_difference a e r with
    | Some m => Some m
    | None => first_difference a' e' (r + length a)
    end.
Proof.
  revert e r. induction a as [|x a IH]; intros [|y e] r Hl; try discriminate; cbn.
  - by rewrite Nat.add_0_r.
  - destruct (x =? y); [|done]. injection Hl as Hl. rewrite IH by done. by rewrite <-Nat.add_succ_comm.
Qed.

Lemma first_difference_None a e r :
  length a = length e -> first_difference a e r = None <-> a = e.
Proof.
  intros Hl. split; [|intros ->; apply first_difference_refl].
  revert e r Hl. induction a as [|x a IH]; intros [|y e] r Hl; try done. cbn.
  destruct (Z.eqb_spec x y) as [->|]; [|done]. intros H. f_equal. injection Hl as Hl. by apply (IH e (S r)).
Qed.

Lemma first_difference_Some a e r m :
  first_difference a e r = Some m ->
  exists i, m = (r + i)%nat /\ (i < length a)%nat /\ take i a = take i e /\ a !! i <> e !! i.
Proof.
  revert e r. induction a as [|x a IH]; intros [|y e] r; try discriminate. cbn.
  destruct (Z.eqb_spec x y) as [->|Hne]; intros H.
  - apply IH in H as (i & -> & Hi & Ht & Hl). exists (S i). cbn. rewrite Ht. repeat split; [lia|lia|done].
  - injection H as <-. exists 0%nat. cbn. repeat split; [lia|lia|congruence].
Qed.

Lemma mismatch_loop_spec cycle start actual fuel position :
  cycle <> [] -> (position <= length actual)%nat -> (length actual - position < fuel)%nat ->
  mismatch_loop fuel actual cycle position ((start + position) mod length cycle)
  = Some (first_difference (drop position actual)
            (cyc cycle (start + position) (length actual - position)) position).
Proof.
  intros Hc. pose proof (period_pos cycle Hc) as HL. revert position.
  induction fuel as [|fuel IH]; intros position Hp Hf; [lia|]. cbn [mismatch_loop].
  destruct (Nat.ltb_spec position (length actual)) as [Hlt|Hge].
  2: { by rewrite drop_ge by lia. }
  set (L := length cycle) in *. set (o := ((start + position) mod L)%nat).
  assert (Ho : (o < L)%nat) by (apply Nat.mod_upper_bound; lia).
  set (seg := Nat.min (length actual - position) (L - o)). assert (Hseg : (0 < seg)%nat) by lia.
  replace (length actual - position)%nat with (seg + (length actual - position - seg))%nat by lia.
  rewrite cyc_app. rewrite (cyc_slice cycle Hc (start + position) seg) by (fold L o; lia). fold L o.
  replace (slice position (position + seg) actual) with (take seg (drop position actual))
    by (unfold slice; f_equal; lia).
  replace (first_difference (drop position actual))
    with (first_difference (take seg (drop position actual) ++ drop seg (drop position actual)))
    by (by rewrite take_drop).
  set (a := take seg (drop position actual)). set (e := slice o (o + seg) cycle).
  assert (Hla : length a = seg) by (unfold a; rewrite length_take, length_drop; lia).
  assert (Hle : length e = seg) by (unfold e, slice; rewrite length_take, length_drop; fold L; lia).
  rewrite first_difference_app by lia. case_bool_decide as Heq.
  - rewrite Heq, first_difference_refl, Hle. rewrite drop_drop.
    destruct (decide (seg = length actual - position)%nat) as [Hend|Hmore].
    + rewrite Hend. replace (position + (length actual - position))%nat with (length actual) by lia.
      destruct fuel; [lia|]. cbn [mismatch_loop]. rewrite Nat.ltb_irrefl, drop_ge by lia. done.
    + assert (Hz : ((start + (position + seg)) mod L = 0)%nat).
      { rewrite Nat.add_assoc, <-Nat.Div0.add_mod_idemp_l. fold o. replace (o + seg)%nat with L by lia.
        apply Nat.Div0.mod_same. }
      rewrite <-Hz at 1. rewrite IH by lia. rewrite Nat.add_assoc. do 3 f_equal. lia.
  - destruct (first_difference a e position) as [m|] eqn:Hm.
    + replace position with (0 + position)%nat in Hm by lia. rewrite first_difference_shift in Hm.
      destruct (first_difference a e 0) as [m0|]; [|discriminate]. injection Hm as <-. do 2 f_equal. lia.
    + exfalso. apply Heq. apply first_difference_None in Hm; [done|lia].
Qed.

Lemma cyclic_mismatch_first payload cycle start :
  cycle <> [] ->
  _cyclic_mismatch payload cycle start = first_difference payload (cyc cycle start (length payload)) 0.
Proof.
  intros Hc. unfold _cyclic_mismatch. pose proof (mismatch_loop_spec cycle start payload (S (length payload)) 0 Hc) as H.
  rewrite Nat.add_0_r, Nat.sub_0_r in H. rewrite H by lia. done.
Qed.

(** ** Streams of fixed-size records *)

Section Records.
Context (k : nat) (w : nat -> bytes) (Hw : forall i, length (w i) = k).

Lemma length_records n s : length (concat (map w (seq s n))) = (n * k)%nat.
Proof. revert s. induction n as [|n IH]; intros s; [done|]. cbn. rewrite length_app, Hw, IH. lia. Qed.

Lemma record_slice n i : (i < n)%nat -> slice (k * i) (k * i + k) (concat (map w (seq 0 n))) = w i.
Proof.
  intros Hi. replace n with (i + S (n - i - 1))%nat by lia. rewrite seq_app, map_app, concat_app. cbn [seq map concat].
  unfold slice. rewrite drop_app_exact by (rewrite length_records; lia). rewrite take_app_exact by (rewrite Hw; lia). done.
Qed.

Context (period : nat) (Hk : (0 < k)%nat) (Hperiod : (0 < period)%nat).

(** A cyclic view of one period of records is the stream of records. *)
Lemma cyc_records s n :
  cyc (concat (map w (seq 0 period))) (k * s) (k * n)
  = concat (map (fun i => w (i mod period)%nat) (seq s n)).
Proof.
  set (c := concat (map w (seq 0 period))).
  assert (Hl : length c = (k * period)%nat) by (unfold c; rewrite length_records; lia).
  assert (Hc : c <> []) by (intros Hx; rewrite Hx in Hl; cbn in Hl; nia).
  revert s. induction n as [|n IH]; intros s; [by rewrite Nat.mul_0_r|].
  cbn [seq map concat]. replace (k * S n)%nat with (k + k * n)%nat by lia. rewrite cyc_app. f_equal.
  - assert (Hm : ((k * s) mod length c = k * (s mod period))%nat) by (rewrite Hl; apply Nat.Div0.mul_mod_distr_l).
    pose proof (Nat.mod_upper_bound s period) as Hb.
    rewrite (cyc_slice c Hc), Hm by (rewrite Hm, Hl; nia). apply record_slice. lia.
  - replace (k * s + k)%nat with (k * S s)%nat by lia. apply IH.
Qed.
End Records.

(** ** The ADC ramp *)

Definition adc_record (n : Z) : bytes := to_le 2 ((2 * n) mod 4096) ++ to_le 2 ((2 * n + 1) mod 4096).

Lemma length_adc_record n : length (adc_record n) = 4%nat.
Proof. unfold adc_record. by rewrite length_app, !length_to_le. Qed.

Lemma land_code_mask a : Z.land a (Z.shiftl 1 ADC_RESOLUTION_BITS - 1) = a mod 4096.
Proof. apply (land_ones_mod 12). lia. Qed.

Lemma pack_pair a b :
  0 <= a < 4096 -> 0 <= b < 4096 -> pack PAIR_STRUCT_FORMAT (a, (b, tt)) = Some (to_le 2 a ++ to_le 2 b).
Proof.
  intros Ha Hb. cbn -[fits to_le]. rewrite !(proj2 (fits_spec 2 _)) by (pow_lit; lia). cbn -[to_le].
  by rewrite app_nil_r.
Qed.

Lemma adc_period : Z.to_nat (Z.shiftl 1 (ADC_RESOLUTION_BITS - 1)) = 2048%nat.
Proof. reflexivity. Qed.

Lemma adc_cycle_records :
  _adc_pattern_cycle = Ok (concat (map (fun i => adc_record (Z.of_nat i)) (seq 0 2048))).
Proof.
  unfold _adc_pattern_cycle. cbv zeta. rewrite adc_period. generalize 2048%nat. intros n.
  rewrite (pack_into_fill PAIR_STRUCT_FORMAT _ (fun i => adc_record (Z.of_nat i))).
  - done.
  - intros i _. unfold adc_record. rewrite !land_code_mask.
    apply pack_pair; apply Z.mod_pos_bound; lia.
  - apply length_replicate.
Qed.

Lemma adc_record_period n : adc_record (n mod 2048) = adc_record n.
Proof.
  unfold adc_record. do 2 f_equal.
  - by rewrite <-Zmult_mod_distr_l at 1; rewrite Z.mod_mod by lia.
  - replace (2 * (n mod 2048) + 1) with (2 * n + 1 + - (n / 2048) * 4096) by (rewrite Z.mod_eq by lia; lia).
    by rewrite Z.mod_add by lia.
Qed.

Definition adc_ramp (start n : nat) : bytes := concat (map (fun i => adc_record (Z.of_nat i)) (seq start n)).

(** The cached period generates the ramp. *)
Lemma adc_cycle_ramp :
  exists cycle, _adc_pattern_cycle = Ok cycle /\ cycle <> [] /\
    forall s n, cyc cycle (4 * s) (4 * n) = adc_ramp s n.
Proof.
  exists (concat (map (fun i => adc_record (Z.of_nat i)) (seq 0 2048))). split; [apply adc_cycle_records|].
  split.
  - intros H. apply (f_equal length) in H.
    rewrite (length_records 4) in H by (intros; apply length_adc_record). cbn [length] in H. lia.
  - intros s n. rewrite cyc_records by (lia || (intros; apply length_adc_record)).
    unfold adc_ramp. f_equal. apply map_ext. intros i. rewrite Nat2Z.inj_mod. apply adc_record_period.
Qed.

Lemma synthetic_adc_payload_ramp start count :
  0 <= start -> 0 <= count ->
  synthetic_adc_payload start count = Ok (adc_ramp (Z.to_nat start) (Z.to_nat count)).
Proof.
  intros Hs Hc. unfold synthetic_adc_payload, _sample_index.
  destruct adc_cycle_ramp as (cycle & Hcycle & Hne & Hcyc). revert Hcycle. generalize _adc_pattern_cycle. intros ? ->.
  rewrite (proj2 (Z.leb_le 0 start)), (proj2 (Z.leb_le 0 count)) by done. cbn [require mbind result_bind]. f_equal.
  rewrite cyclic_bytes_cyc by done. rewrite <-Hcyc. unfold ADC_BYTES_PER_PAIR. f_equal; lia.
Qed.

Lemma adc_codes n :
  0 <= n -> synthetic_adc0_code n = Ok ((2 * n) mod 4096) /\ synthetic_adc1_code n = Ok ((2 * n + 1) mod 4096).
Proof.
  intros Hn. unfold synthetic_adc0_code, synthetic_adc1_code, synthetic_adc_code, _sample_index.
  rewrite !enum_of_int, (proj2 (Z.leb_le 0 n)) by done. cbn [of_option require mbind result_bind].
  rewrite !land_code_mask. cbn [int_of AdcConverter_enum]. by rewrite Z.add_0_r.
Qed.

(** ** The GPIO patterns *)

Definition gpio_value (n : Z) (mode : AuxBankMode) (pattern : SyntheticGPIOPattern) : Z :=
  let '(primary, auxiliary) :=
    match pattern with
    | ALL_ZERO => (0, 0)
    | WALKING_BIT => (2 ^ (n mod 8), 2 ^ ((n + 3) mod 8))
    | COUNTER => (n mod 256, (3 * n + 85) mod 256)
    | HIGH_TRANSITION => if n mod 2 =? 0 then (170, 15) else (85, 240)
    end in
  match mode with AuxBankMode.DISABLED => primary | AuxBankMode.INPUT => primary + 256 * auxiliary end.

Definition gpio_width (mode : AuxBankMode) : nat :=
  match mode with AuxBankMode.DISABLED => 1 | AuxBankMode.INPUT => 2 end.

Definition gpio_record (mode : AuxBankMode) (pattern : SyntheticGPIOPattern) (n : Z) : bytes :=
  to_le (gpio_width mode) (gpio_value n mode pattern).

Lemma gpio_cycle_records mode pattern :
  _gpio_mode_pattern_cycle mode pattern
  = Ok (concat (map (fun i => gpio_record mode pattern (Z.of_nat i)) (seq 0 256))).
Proof. destruct mode, pattern; vm_compute; reflexivity. Qed.

Lemma gpio_value_period n mode pattern : gpio_value (n mod 256) mode pattern = gpio_value n mode pattern.
Proof.
  assert (H8 : (n mod 256) mod 8 = n mod 8) by (apply Z.mod_mod_divide; by exists 32).
  assert (H2 : (n mod 256) mod 2 = n mod 2) by (apply Z.mod_mod_divide; by exists 128).
  assert (H83 : (n mod 256 + 3) mod 8 = (n + 3) mod 8).
  { rewrite <-(Zplus_mod_idemp_l (n mod 256)), H8. apply Zplus_mod_idemp_l. }
  assert (H3 : (3 * (n mod 256) + 85) mod 256 = (3 * n + 85) mod 256).
  { rewrite <-Zplus_mod_idemp_l, Zmult_mod_idemp_r. apply Zplus_mod_idemp_l. }
  unfold gpio_value. by rewrite H8, H2, H83, H3, Z.mod_mod.
Qed.

Lemma gpio_bank_range n pattern :
  0 <= n -> exists p x, synthetic_gpio_bank_bytes n pattern = Ok (p, x) /\ is_byte p /\ is_byte x /\
    gpio_value n AuxBankMode.DISABLED pattern = p /\ gpio_value n AuxBankMode.INPUT pattern = p + 256 * x.
Proof.
  intros Hn. unfold synthetic_gpio_bank_bytes, _sample_index. rewrite (proj2 (Z.leb_le 0 n)) by done.
  cbn [require mbind result_bind].
  assert (Hbit : forall m, is_byte (2 ^ (m mod 8))).
  { intros m. pose proof (Z.mod_pos_bound m 8). unfold is_byte. split; [lia|].
    change 256 with (2 ^ 8). apply Z.pow_lt_mono_r; lia. }
  assert (Hm : forall m, is_byte (m mod 256)) by (intros m; unfold is_byte; apply Z.mod_pos_bound; lia).
  destruct pattern.
  - exists 0, 0. unfold is_byte. repeat split; lia.
  - pose proof (Z.mod_pos_bound n 8). pose proof (Z.mod_pos_bound (n + 3) 8).
    rewrite !Z.shiftl_mul_pow2, !Z.mul_1_l by lia. eexists _, _. split; [done|].
    split; [apply Hbit|]. split; [apply Hbit|done].
  - rewrite !land_255. eexists _, _. split; [done|]. split; [apply Hm|]. split; [apply Hm|done].
  - unfold gpio_value. destruct (n mod 2 =? 0); eexists _, _; unfold is_byte; (split; [done|]); repeat split; lia.
Qed.

Lemma synthetic_gpio_value_formula n mode pattern :
  0 <= n -> synthetic_gpio_value n mode pattern = Ok (gpio_value n mode pattern) /\
  0 <= gpio_value n mode pattern < 256 ^ Z.of_nat (gpio_width mode).
Proof.
  intros Hn. destruct (gpio_bank_range n pattern Hn) as (p & x & Hb & Hp & Hx & H8 & H16).
  unfold synthetic_gpio_value. rewrite Hb. cbn [mbind result_bind]. unfold is_byte in Hp, Hx. destruct mode.
  - rewrite decide_True, H8 by done. split; [done|]. cbn [gpio_width]. pow_lit. lia.
  - rewrite decide_False, H16 by done. rewrite Z.lor_comm, (lor_shiftl_add 8) by (cbn; lia).
    cbn [gpio_width]. pow_lit. split; [f_equal; lia|lia].
Qed.

Definition gpio_stream (mode : AuxBankMode) (pattern : SyntheticGPIOPattern) (start n : nat) : bytes :=
  concat (map (fun i => gpio_record mode pattern (Z.of_nat i)) (seq start n)).

Lemma length_gpio_record mode pattern n : length (gpio_record mode pattern n) = gpio_width mode.
Proof. apply length_to_le. Qed.

Lemma item_bytes_width mode : item_bytes mode = Z.of_nat (gpio_width mode).
Proof. by destruct mode. Qed.

Lemma gpio_width_pos mode : (0 < gpio_width mode)%nat.
Proof. destruct mode; cbn; lia. Qed.

Lemma synthetic_gpio_payload_stream start count mode pattern :
  0 <= start -> 0 <= count ->
  synthetic_gpio_payload start count mode pattern
  = Ok (gpio_stream mode pattern (Z.to_nat start) (Z.to_nat count)).
Proof.
  intros Hs Hc. unfold synthetic_gpio_payload, _sample_index.
  rewrite (proj2 (Z.leb_le 0 start)), (proj2 (Z.leb_le 0 count)) by done. cbn [require mbind result_bind].
  rewrite gpio_cycle_records. cbn [mbind result_bind]. f_equal. pose proof (gpio_width_pos mode) as Hw.
  rewrite cyclic_bytes_cyc.
  2: { intros H. apply (f_equal length) in H.
       rewrite (length_records (gpio_width mode)) in H;
         [cbn [length] in H; lia|intros; apply length_gpio_record]. }
  rewrite item_bytes_width.
  replace (Z.to_nat (start * Z.of_nat (gpio_width mode))) with (gpio_width mode * Z.to_nat start)%nat by nia.
  replace (Z.to_nat (count * Z.of_nat (gpio_width mode))) with (gpio_width mode * Z.to_nat count)%nat by nia.
  rewrite cyc_records by (lia || (intros; apply length_gpio_record)).
  unfold gpio_stream. f_equal. apply map_ext. intros i. unfold gpio_record. f_equal.
  rewrite Nat2Z.inj_mod. apply gpio_value_period.
Qed.

(** ** The v3 ramp, with its four edge pairs per period *)

Definition v3_pair (n : Z) : Z * Z :=
  default ((2 * n) mod 4096, (2 * n + 1) mod 4096) (EDGES !! Z.to_nat (n mod 2048)).

Definition v3_record (n : Z) : bytes := to_le 2 (v3_pair n).1 ++ to_le 2 (v3_pair n).2.

Lemma edges_range i a b : EDGES !! i = Some (a, b) -> 0 <= a < 4096 /\ 0 <= b < 4096.
Proof. destruct i as [|[|[|[|i]]]]; cbn; intros [= <- <-]; lia. Qed.

Lemma v3_pair_range n : 0 <= (v3_pair n).1 < 4096 /\ 0 <= (v3_pair n).2 < 4096.
Proof.
  unfold v3_pair. destruct (EDGES !! _) as [[a b]|] eqn:He; cbn.
  - by apply edges_range in He.
  - split; apply Z.mod_pos_bound; lia.
Qed.

Definition v3_stream (start n : nat) : bytes := concat (map (fun i => v3_record (Z.of_nat i)) (seq start n)).

Lemma length_v3_record n : length (v3_record n) = 4%nat.
Proof. unfold v3_record. by rewrite length_app, !length_to_le. Qed.

Lemma adc_ramp_app s a b : adc_ramp s (a + b) = adc_ramp s a ++ adc_ramp (s + a) b.
Proof. unfold adc_ramp. by rewrite seq_app, map_app, concat_app. Qed.

Lemma v3_edge_steps start n k :
  (k <= n)%nat ->
  fold_left (v3_edge_step (Z.of_nat start)) (seq 0 k) (Some (adc_ramp start n))
  = Some (v3_stream start k ++ adc_ramp (start + k) (n - k)).
Proof.
  induction k as [|k IH]; intros Hk.
  { by rewrite Nat.add_0_r, Nat.sub_0_r. }
  rewrite seq_S, fold_left_app, IH by lia. cbn [fold_left Nat.add]. unfold v3_edge_step.
  cbn [mbind option_bind]. replace (n - k)%nat with (1 + (n - S k))%nat by lia. rewrite adc_ramp_app.
  rewrite <-Nat2Z.inj_add. set (m := (start + k)%nat).
  replace (adc_ramp m 1) with (adc_record (Z.of_nat m)) by (cbn; by rewrite app_nil_r).
  replace (start + S k)%nat with (m + 1)%nat by lia.
  assert (Hst : v3_stream start (S k) = v3_stream start k ++ v3_record (Z.of_nat m)).
  { unfold v3_stream. rewrite seq_S, map_app, concat_app. cbn. by rewrite app_nil_r. }
  rewrite Hst, <-app_assoc.
  assert (Hls : length (v3_stream start k) = (k * 4)%nat) by (apply length_records; intros; apply length_v3_record).
  unfold v3_record, v3_pair. destruct (EDGES !! Z.to_nat (Z.of_nat m mod 2048)) as [[a b]|] eqn:He; [|done].
  destruct (edges_range _ _ _ He) as [Ha Hb]. unfold pack_into. rewrite pack_pair by done.
  cbn [mbind option_bind default fst snd]. change (calcsize PAIR_STRUCT_FORMAT) with 4%nat.
  rewrite (proj2 (Nat.leb_le _ _)) by (rewrite !length_app, Hls, length_adc_record; lia).
  rewrite take_app_exact by lia. do 2 f_equal. rewrite drop_app_ge by lia. f_equal.
  rewrite drop_app_exact; [done|]. rewrite length_adc_record. lia.
Qed.

Lemma synthetic_v3_payload_stream start count :
  0 <= start -> 0 <= count ->
  synthetic_v3_adc_payload start count = Ok (v3_stream (Z.to_nat start) (Z.to_nat count)).
Proof.
  intros Hs Hc. unfold synthetic_v3_adc_payload. rewrite synthetic_adc_payload_ramp by done.
  cbn [mbind result_bind]. rewrite <-(Z2Nat.id start) at 1 by done. rewrite v3_edge_steps by lia.
  rewrite Nat.sub_diag. by rewrite app_nil_r.
Qed.

(** ** The validators *)

(** The record where two streams first differ. *)
Lemma first_bad_record k w n payload m :
  (0 < k)%nat -> (forall i, length (w i) = k) -> length payload = (n * k)%nat ->
  first_difference payload (concat (map w (seq 0 n))) 0 = Some m ->
  let j := (m / k)%nat in
  (j < n)%nat /\ slice (k * j) (k * j + k) payload <> w j /\
  take (k * j) payload = take (k * j) (concat (map w (seq 0 n))).
Proof.
  intros Hk Hw Hl H. apply first_difference_Some in H as (i & -> & Hi & Ht & Hne). cbn [Nat.add]. cbv zeta.
  set (j := (i / k)%nat). pose proof (Nat.div_mod_eq i k) as Hdm. fold j in Hdm.
  pose proof (Nat.mod_upper_bound i k) as Hm.
  assert (Hj : (j < n)%nat) by (apply Nat.Div0.div_lt_upper_bound; lia).
  split; [done|]. split.
  - intros Heq. apply Hne. rewrite <-(record_slice k w Hw n j Hj) in Heq.
    apply (f_equal (fun l : bytes => l !! (i mod k)%nat)) in Heq. unfold slice in Heq.
    rewrite !lookup_take_lt, !lookup_drop in Heq by lia. by rewrite <-Hdm in Heq.
  - apply (f_equal (take (k * j))) in Ht. rewrite !take_take in Ht.
    by replace ((k * j) `min` i)%nat with (k * j)%nat in Ht by lia.
Qed.

Definition gpio_sample_at (mode : AuxBankMode) (payload : bytes) (j : nat) : Z :=
  from_le (slice (gpio_width mode * j) (gpio_width mode * j + gpio_width mode) payload).

Definition adc_pair_at (payload : bytes) (j : nat) : Z * Z :=
  (from_le (slice (4 * j) (4 * j + 2) payload), from_le (slice (4 * j + 2) (4 * j + 4) payload)).

Lemma unpack_pair_at payload j :
  (4 * j + 4 <= length payload)%nat ->
  unpack_from PAIR_STRUCT_FORMAT payload (4 * j)
  = Some ((adc_pair_at payload j).1, ((adc_pair_at payload j).2, tt)).
Proof.
  intros H. unfold unpack_from. change (calcsize PAIR_STRUCT_FORMAT) with 4%nat.
  rewrite (proj2 (Nat.leb_le _ _)) by lia. unfold adc_pair_at, slice. cbn [fst snd].
  replace (4 * j + 2 - 4 * j)%nat with 2%nat by lia. replace (4 * j + 4 - (4 * j + 2))%nat with 2%nat by lia.
  rewrite <-drop_drop. reflexivity.
Qed.

Lemma adc_pair_at_record pre a b rest j :
  length pre = (4 * j)%nat -> 0 <= a < 65536 -> 0 <= b < 65536 ->
  adc_pair_at (pre ++ to_le 2 a ++ to_le 2 b ++ rest) j = (a, b).
Proof.
  intros Hl Ha Hb. unfold adc_pair_at, slice.
  replace (4 * j + 2 - 4 * j)%nat with 2%nat by lia. replace (4 * j + 4 - (4 * j + 2))%nat with 2%nat by lia.
  rewrite <-drop_drop, (drop_app_exact pre) by done. rewrite (drop_app_exact (to_le 2 a)) by done.
  rewrite !take_app_exact by done. by rewrite !from_to_le_small by (pow_lit; lia).
Qed.

Lemma adc_pair_record payload j n :
  wf_bytes payload -> (4 * j + 4 <= length payload)%nat ->
  adc_pair_at payload j = ((2 * n) mod 4096, (2 * n + 1) mod 4096) ->
  slice (4 * j) (4 * j + 4) payload = adc_record n.
Proof.
  intros Hw Hl H. pose proof (f_equal fst H) as H0. pose proof (f_equal snd H) as H1.
  unfold adc_pair_at in H0, H1. cbn [fst snd] in H0, H1. clear H.
  assert (Hs : slice (4 * j) (4 * j + 4) payload
               = slice (4 * j) (4 * j + 2) payload ++ slice (4 * j + 2) (4 * j + 4) payload).
  { unfold slice. replace (4 * j + 4 - 4 * j)%nat with (2 + 2)%nat by lia.
    replace (4 * j + 2 - 4 * j)%nat with 2%nat by lia. replace (4 * j + 4 - (4 * j + 2))%nat with 2%nat by lia.
    by rewrite <-drop_drop, take_take_drop. }
  rewrite Hs. unfold adc_record. rewrite <-H0, <-H1.
  assert (Hb : forall a, (4 * j <= a)%nat -> (a + 2 <= length payload)%nat ->
    to_le 2 (from_le (slice a (a + 2) payload)) = slice a (a + 2) payload).
  { intros a _ Ha. assert (length (slice a (a + 2) payload) = 2%nat) as Hl2
      by (unfold slice; rewrite length_take, length_drop; lia).
    rewrite <-Hl2 at 1. apply to_from_le. auto with daq. }
  replace (4 * j + 4)%nat with (4 * j + 2 + 2)%nat by lia. by rewrite !Hb by lia.
Qed.

Lemma validate_adc_cases payload start count :
  wf_bytes payload -> 0 <= start -> 0 <= count ->
  match validate_synthetic_adc_payload payload start count with
  | Ok _ => payload = adc_ramp (Z.to_nat start) (Z.to_nat count)
  | Err e =>
      (zlen payload <> 4 * count /\ e = WrongLength (zlen payload) (4 * count)) \/
      (zlen payload = 4 * count /\ exists j n, 0 <= Z.of_nat j < count /\ n = start + Z.of_nat j /\
         adc_pair_at payload j <> ((2 * n) mod 4096, (2 * n + 1) mod 4096) /\
         take (4 * j) payload = adc_ramp (Z.to_nat start) j /\
         e = AdcMismatch n (adc_pair_at payload j) ((2 * n) mod 4096, (2 * n + 1) mod 4096))
  end.
Proof.
  intros Hw Hs Hc. unfold validate_synthetic_adc_payload, _sample_index.
  destruct adc_cycle_ramp as (cycle & Hcycle & Hcne & Hcyc). revert Hcycle. generalize _adc_pattern_cycle. intros ? ->.
  rewrite (proj2 (Z.leb_le 0 start)), (proj2 (Z.leb_le 0 count)) by done. cbn [require mbind result_bind].
  unfold ADC_BYTES_PER_PAIR. rewrite (Z.mul_comm count). destruct (Z.eqb_spec (zlen payload) (4 * count)) as [Hl|Hl].
  2: { cbn [require mbind result_bind]. by left. }
  cbn [require mbind result_bind].
  set (s := Z.to_nat start). set (n := Z.to_nat count).
  assert (Hln : length payload = (n * 4)%nat) by (unfold zlen in Hl; lia).
  rewrite cyclic_mismatch_first by done. replace (Z.to_nat (start * 4)) with (4 * s)%nat by lia.
  replace (length payload) with (4 * n)%nat by lia. rewrite Hcyc.
  assert (Hshift : forall k, adc_ramp s k = concat (map (fun i => adc_record (start + Z.of_nat i)) (seq 0 k))).
  { intros k. unfold adc_ramp. rewrite <-(Nat.add_0_r s), <-fmap_add_seq.
    change (@fmap list list_fmap nat nat) with (@map nat nat). rewrite map_map. f_equal. apply map_ext.
    intros i. f_equal. lia. }
  destruct (first_difference payload (adc_ramp s n) 0) as [m|] eqn:Hm.
  - rewrite Hshift in Hm. apply (first_bad_record 4) in Hm as (Hj & Hne & Htk);
      [|lia|intros; apply length_adc_record|done].
    set (j := (m / 4)%nat) in *.
    assert (Hpre : take (4 * j) payload = adc_ramp s j).
    { rewrite Htk, Hshift. replace n with (j + (n - j))%nat by lia. rewrite seq_app, map_app, concat_app.
      apply take_app_exact. rewrite (length_records 4) by (intros; apply length_adc_record). lia. }
    replace (Z.of_nat m / 4) with (Z.of_nat j) by (unfold j; rewrite Nat2Z.inj_div; done).
    replace (Z.to_nat (Z.of_nat j * 4)) with (4 * j)%nat by lia.
    rewrite unpack_pair_at by lia. cbn [of_option mbind result_bind].
    destruct (adc_codes (start + Z.of_nat j)) as [-> ->]; [lia|]. cbn [mbind result_bind].
    right. split; [done|]. exists j, (start + Z.of_nat j). split; [lia|]. split; [done|].
    split; [|split; [done|by destruct (adc_pair_at payload j)]].
    intros Heq. apply Hne. by apply adc_pair_record; [done|lia|].
  - apply first_difference_None in Hm; [done|].
    rewrite Hln, Hshift, (length_records 4) by (intros; apply length_adc_record). lia.
Qed.

Lemma observed_gpio_sample mode payload j :
  (gpio_width mode * j + gpio_width mode <= length payload)%nat ->
  observed_gpio mode payload (Z.of_nat j) = Ok (gpio_sample_at mode payload j).
Proof.
  intros Hl. unfold observed_gpio, gpio_sample_at, slice. rewrite item_bytes_width. destruct mode; cbn [gpio_width] in *.
  - rewrite decide_True by done. replace (Z.to_nat (Z.of_nat j)) with j by lia.
    destruct (lookup_lt_is_Some_2 payload j) as [x Hx]; [lia|]. rewrite Hx. cbn [of_option]. f_equal.
    rewrite Nat.mul_1_l. replace (j + 1 - j)%nat with 1%nat by lia.
    rewrite (drop_S _ _ _ Hx), firstn_cons, take_0. unfold from_le. lia.
  - rewrite decide_False by lia. replace (Z.to_nat (Z.of_nat j * Z.of_nat 2)) with (2 * j)%nat by lia.
    unfold unpack_from. change (calcsize HALF_STRUCT_FORMAT) with 2%nat. rewrite (proj2 (Nat.leb_le _ _)) by lia.
    cbn [of_option mbind result_bind unpack_fields funpack HALF_STRUCT_FORMAT]. do 3 f_equal. lia.
Qed.

Lemma validate_gpio_cases payload start count mode pattern :
  wf_bytes payload -> 0 <= start -> 0 <= count ->
  match validate_synthetic_gpio_payload payload start count mode pattern with
  | Ok _ => payload = gpio_stream mode pattern (Z.to_nat start) (Z.to_nat count)
  | Err e =>
      (zlen payload <> count * item_bytes mode /\ e = WrongLength (zlen payload) (count * item_bytes mode)) \/
      (zlen payload = count * item_bytes mode /\ exists j n, 0 <= Z.of_nat j < count /\ n = start + Z.of_nat j /\
         gpio_sample_at mode payload j <> gpio_value n mode pattern /\
         take (gpio_width mode * j) payload = gpio_stream mode pattern (Z.to_nat start) j /\
         e = GpioMismatch n (gpio_sample_at mode payload j) (gpio_value n mode pattern))
  end.
Proof.
  intros Hw Hs Hc. unfold validate_synthetic_gpio_payload, _sample_index.
  rewrite (proj2 (Z.leb_le 0 start)), (proj2 (Z.leb_le 0 count)) by done. cbn [require mbind result_bind].
  destruct (Z.eqb_spec (zlen payload) (count * item_bytes mode)) as [Hl|Hl].
  2: { cbn [require mbind result_bind]. by left. }
  cbn [require mbind result_bind]. rewrite gpio_cycle_records. cbn [mbind result_bind].
  pose proof (gpio_width_pos mode) as Hwp. rewrite item_bytes_width in *.
  set (s := Z.to_nat start). set (n := Z.to_nat count). set (w := gpio_width mode) in *.
  set (rec := gpio_record mode pattern).
  assert (Hrec : forall i, length (rec i) = w) by (intros; apply length_gpio_record).
  assert (Hln : length payload = (n * w)%nat) by (unfold zlen in Hl; nia).
  assert (Hcyc : concat (map (fun i => rec (Z.of_nat i)) (seq 0 256)) <> []).
  { intros H. apply (f_equal length) in H. rewrite (length_records w) in H by done. cbn [length] in H. lia. }
  rewrite cyclic_mismatch_first by done.
  replace (Z.to_nat (start * Z.of_nat w)) with (w * s)%nat by nia.
  replace (length payload) with (w * n)%nat by lia.
  rewrite cyc_records by (lia || done).
  assert (Hstream : concat (map (fun i => rec (Z.of_nat (i mod 256))) (seq s n)) = gpio_stream mode pattern s n).
  { unfold gpio_stream, rec, gpio_record. f_equal. apply map_ext. intros i. f_equal.
    rewrite Nat2Z.inj_mod. apply gpio_value_period. }
  rewrite Hstream.
  assert (Hshift : forall k, gpio_stream mode pattern s k = concat (map (fun i => rec (start + Z.of_nat i)) (seq 0 k))).
  { intros k. unfold gpio_stream. rewrite <-(Nat.add_0_r s), <-fmap_add_seq.
    change (@fmap list list_fmap nat nat) with (@map nat nat). rewrite map_map. f_equal. apply map_ext.
    intros i. unfold rec. f_equal. lia. }
  destruct (first_difference payload (gpio_stream mode pattern s n) 0) as [m|] eqn:Hm.
  - rewrite Hshift in Hm. apply (first_bad_record w) in Hm as (Hj & Hne & Htk); [|done|done|done].
    set (j := (m / w)%nat) in *.
    assert (Hpre : take (w * j) payload = gpio_stream mode pattern s j).
    { rewrite Htk, Hshift. replace n with (j + (n - j))%nat by lia. rewrite seq_app, map_app, concat_app.
      apply take_app_exact. rewrite (length_records w) by done. lia. }
    replace (Z.of_nat m / Z.of_nat w) with (Z.of_nat j) by (unfold j; rewrite Nat2Z.inj_div; done).
    rewrite observed_gpio_sample by (fold w; nia). cbn [mbind result_bind].
    destruct (synthetic_gpio_value_formula (start + Z.of_nat j) mode pattern) as [-> Hr]; [lia|].
    cbn [mbind result_bind].
    right. split; [done|]. exists j, (start + Z.of_nat j). split; [lia|]. split; [done|]. split; [|done].
    intros Heq. apply Hne. unfold rec, gpio_record. rewrite <-Heq. unfold gpio_sample_at. fold w.
    assert (Hfit : (w * j + w <= n * w)%nat) by nia.
    assert (Hlw : length (slice (w * j) (w * j + w) payload) = w) by (unfold slice; rewrite length_take, length_drop; lia).
    symmetry. apply to_from_le_length; [auto with daq|done].
  - apply first_difference_None in Hm; [done|].
    rewrite Hln, Hshift, (length_records w) by done. lia.
Qed.

(** ** Properties *)

(** The cyclic generators compute the per-sample formulas: for every start index and
    count the ADC ramp, the v3 ramp with its edge pairs and each GPIO pattern in either
    bank mode are the concatenation, sample by sample, of the codes the scalar functions
    return; no index is out of range and no scalar leaves its wire width. *)
Theorem synthetic_payloads_formula (start count : Z) (mode : AuxBankMode)
    (pattern : SyntheticGPIOPattern) (Hstart : 0 <= start) (Hcount : 0 <= count) :
  let s := Z.to_nat start in let n := Z.to_nat count in
  synthetic_adc_payload start count = Ok (adc_ramp s n) /\
  synthetic_v3_adc_payload start count = Ok (v3_stream s n) /\
  synthetic_gpio_payload start count mode pattern = Ok (gpio_stream mode pattern s n) /\
  (forall i, 0 <= i ->
     synthetic_adc0_code i = Ok ((2 * i) mod 4096) /\
     synthetic_adc1_code i = Ok ((2 * i + 1) mod 4096) /\
     synthetic_gpio_value i mode pattern = Ok (gpio_value i mode pattern) /\
     0 <= gpio_value i mode pattern < 256 ^ item_bytes mode).
Proof.
  cbv zeta. split; [by apply synthetic_adc_payload_ramp|].
  split; [by apply synthetic_v3_payload_stream|]. split; [by apply synthetic_gpio_payload_stream|].
  intros i Hi. destruct (adc_codes i Hi) as [H0 H1].
  destruct (synthetic_gpio_value_formula i mode pattern Hi) as [Hv Hr]. rewrite item_bytes_width. done.
Qed.

(** The ADC validator accepts exactly the generator's payload; otherwise it reports
    the wrong length, or the first pair that differs with the two codes it holds and the
    two the formula gives. *)
Theorem validate_adc_exact (payload : bytes) (start count : Z)
    (Hw : wf_bytes payload) (Hstart : 0 <= start) (Hcount : 0 <= count) :
  (validate_synthetic_adc_payload payload start count = Ok tt <->
     synthetic_adc_payload start count = Ok payload) /\
  (forall e, validate_synthetic_adc_payload payload start count = Err e ->
     (zlen payload <> 4 * count /\ e = WrongLength (zlen payload) (4 * count)) \/
     exists n c0 c1, start <= n < start + count /\
       synthetic_adc0_code n = Ok c0 /\ synthetic_adc1_code n = Ok c1 /\
       adc_pair_at payload (Z.to_nat (n - start)) <> (c0, c1) /\
       synthetic_adc_payload start (n - start) = Ok (take (4 * Z.to_nat (n - start)) payload) /\
       e = AdcMismatch n (adc_pair_at payload (Z.to_nat (n - start))) (c0, c1)).
Proof.
  pose proof (validate_adc_cases payload start count Hw Hstart Hcount) as H.
  split.
  - rewrite synthetic_adc_payload_ramp by done. split.
    + intros Hv. rewrite Hv in H. by rewrite H.
    + intros [= <-]. destruct (validate_synthetic_adc_payload _ _ _) as [[]|e]; [done|]. exfalso.
      assert (Hl : forall s n, length (adc_ramp s n) = (n * 4)%nat)
        by (intros s n; apply length_records; intros; apply length_adc_record).
      destruct H as [[Hz _]|(Hz & j & n & Hj & -> & Hne & _)].
      { apply Hz. unfold zlen. rewrite Hl. lia. }
      apply Hne. replace (Z.to_nat count) with (j + S (Z.to_nat count - j - 1))%nat by lia.
      rewrite adc_ramp_app. replace (S (Z.to_nat count - j - 1)) with (1 + (Z.to_nat count - j - 1))%nat by lia.
      rewrite adc_ramp_app.
      assert (Hr : adc_ramp (Z.to_nat start + j) 1 = adc_record (start + Z.of_nat j)).
      { unfold adc_ramp. cbn [seq map concat]. rewrite app_nil_r. f_equal. lia. }
      rewrite Hr. unfold adc_record. rewrite <-!app_assoc.
      pose proof (Z.mod_pos_bound (2 * (start + Z.of_nat j)) 4096).
      pose proof (Z.mod_pos_bound (2 * (start + Z.of_nat j) + 1) 4096).
      apply adc_pair_at_record; [rewrite Hl; lia|lia|lia].
  - intros e He. rewrite He in H. destruct H as [H|(_ & j & n & Hj & -> & Hne & Ht & ->)]; [by left|right].
    destruct (adc_codes (start + Z.of_nat j)) as [H0 H1]; [lia|].
    exists (start + Z.of_nat j), ((2 * (start + Z.of_nat j)) mod 4096), ((2 * (start + Z.of_nat j) + 1) mod 4096).
    replace (start + Z.of_nat j - start) with (Z.of_nat j) by lia. rewrite Nat2Z.id.
    split; [lia|]. split; [done|]. split; [done|]. split; [done|]. split; [|done].
    rewrite synthetic_adc_payload_ramp, Nat2Z.id by lia. by rewrite Ht.
Qed.

(** The GPIO validator accepts exactly the generator's payload, for every pattern and
    bank mode; otherwise it reports the wrong length, or the first sample that differs
    with the value it holds and the value the formula gives. *)
Theorem validate_gpio_exact (payload : bytes) (start count : Z) (mode : AuxBankMode)
    (pattern : SyntheticGPIOPattern)
    (Hw : wf_bytes payload) (Hstart : 0 <= start) (Hcount : 0 <= count) :
  (validate_synthetic_gpio_payload payload start count mode pattern = Ok tt <->
     synthetic_gpio_payload start count mode pattern = Ok payload) /\
  (forall e, validate_synthetic_gpio_payload payload start count mode pattern = Err e ->
     (zlen payload <> count * item_bytes mode /\
      e = WrongLength (zlen payload) (count * item_bytes mode)) \/
     exists n v, start <= n < start + count /\ synthetic_gpio_value n mode pattern = Ok v /\
       gpio_sample_at mode payload (Z.to_nat (n - start)) <> v /\
       synthetic_gpio_payload start (n - start) mode pattern
         = Ok (take (gpio_width mode * Z.to_nat (n - start)) payload) /\
       e = GpioMismatch n (gpio_sample_at mode payload (Z.to_nat (n - start))) v).
Proof.
  pose proof (validate_gpio_cases payload start count mode pattern Hw Hstart Hcount) as H.
  split.
  - rewrite synthetic_gpio_payload_stream by done. split.
    + intros Hv. rewrite Hv in H. by rewrite H.
    + intros [= <-]. destruct (validate_synthetic_gpio_payload _ _ _ _ _) as [[]|e]; [done|]. exfalso.
      destruct H as [[Hz _]|(Hz & j & n & Hj & -> & Hne & _)].
      { apply Hz. unfold zlen, gpio_stream.
        rewrite (length_records (gpio_width mode)) by (intros; apply length_gpio_record).
        rewrite item_bytes_width. lia. }
      apply Hne. replace (Z.to_nat count) with (j + S (Z.to_nat count - j - 1))%nat by lia.
      unfold gpio_stream. rewrite seq_app, map_app, concat_app. cbn [seq map concat].
      unfold gpio_sample_at, slice. rewrite drop_app_exact.
      2: { rewrite (length_records (gpio_width mode)) by (intros; apply length_gpio_record). lia. }
      rewrite take_app_exact by (rewrite length_gpio_record; lia). unfold gpio_record.
      replace (Z.of_nat (Z.to_nat start + j)) with (start + Z.of_nat j) by lia.
      apply from_to_le_small, synthetic_gpio_value_formula. lia.
  - intros e He. rewrite He in H. destruct H as [H|(_ & j & n & Hj & -> & Hne & Ht & ->)]; [by left|right].
    destruct (synthetic_gpio_value_formula (start + Z.of_nat j) mode pattern) as [Hv _]; [lia|].
    exists (start + Z.of_nat j), (gpio_value (start + Z.of_nat j) mode pattern).
    replace (start + Z.of_nat j - start) with (Z.of_nat j) by lia. rewrite Nat2Z.id.
    split; [lia|]. split; [done|]. split; [done|]. split; [|done].
    rewrite synthetic_gpio_payload_stream, Nat2Z.id by lia. by rewrite Ht.
Qed.

(** ** Witnesses *)

Lemma synthetic_payloads_formula_witness :
  synthetic_adc_payload 2047 2 = Ok (adc_ramp 2047 2) /\
  synthetic_v3_adc_payload 2047 2 = Ok (v3_stream 2047 2).
Proof.
  destruct (synthetic_payloads_formula 2047 2 AuxBankMode.INPUT COUNTER) as (H1 & H2 & _); [lia|lia|].
  split; [exact H1|exact H2].
Defined.

Lemma validate_adc_exact_witness :
  synthetic_adc_payload 3 1 = Ok [6; 0; 7; 0] /\ validate_synthetic_adc_payload [6; 0; 7; 0] 3 1 = Ok tt.
Proof.
  assert (Hw : wf_bytes [6; 0; 7; 0]) by (apply (bool_decide_unpack _); vm_compute; exact I).
  assert (Hp : synthetic_adc_payload 3 1 = Ok [6; 0; 7; 0]) by (vm_compute; reflexivity).
  split; [exact Hp|]. apply (validate_adc_exact [6; 0; 7; 0] 3 1 Hw); [lia|lia|exact Hp].
Defined.

Lemma validate_gpio_exact_witness :
  synthetic_gpio_payload 0 2 AuxBankMode.INPUT HIGH_TRANSITION = Ok [170; 15; 85; 240] /\
  validate_synthetic_gpio_payload [170; 15; 85; 240] 0 2 AuxBankMode.INPUT HIGH_TRANSITION = Ok tt.
Proof.
  assert (Hw : wf_bytes [170; 15; 85; 240]) by (apply (bool_decide_unpack _); vm_compute; exact I).
  assert (Hp : synthetic_gpio_payload 0 2 AuxBankMode.INPUT HIGH_TRANSITION = Ok [170; 15; 85; 240])
    by (vm_compute; reflexivity).
  split; [exact Hp|]. apply (validate_gpio_exact [170; 15; 85; 240] 0 2 _ _ Hw); [lia|lia|exact Hp].
Defined.
