(* ===== verification/SimulatorV3.v ===== *)
(** * The simulated v3 device ([simulator_v3.py]).

    The peer a host talks to in tests: a lenient request parser (an instance of the
    framing interface), the command handler with its replay window and its
    STOPPED/RUNNING/DRAINING states, and the data-frame producer. *)

From S2P Require Import Prelude PyStruct Checksum Incremental V3Constants V3Header V3Samples ModelsV3 V3Frames Synthetic.

Definition _U64_MAX : Z := Z.shiftl 1 64 - 1.

(** The exceptions of a device call. *)
Inductive sim_error :=
| SimulatorInputError (maximum : Z)
| SimValueError (message : string)
| SimFrameError (e : v3_error)
| SimParserError (e : feed_failure)
| SimSyntheticError (e : synthetic_error).

Abbreviation sim := (result sim_error).

(** A callee's exception, propagated. *)
Definition lift {E A} (f : E -> sim_error) (m : result E A) : sim A :=
  match m with Ok a => Ok a | Err e => Err (f e) end.

(** ** The request framing *)

Module _Envelope.
Record _Envelope := mk { total_length : Z }.
End _Envelope.
Abbreviation _Envelope := _Envelope._Envelope.

Definition _request_header (data : bytes) (offset : nat) : v3 _Envelope :=
  '(magic, (version, (_, (_, (size, (checksum, (_, (total, (payload,
    (_, (_, (_, (_, (_, _)))))))))))))) ←
      of_option (unpack_from HEADER_STRUCT_FORMAT data offset) (Uncaught "struct.error");
  if negb (magic =? MAGIC) || negb (version =? PROTOCOL_VERSION) || negb (size =? HEADER_SIZE)
     || negb (checksum =? int_of ChecksumAlgorithm.ADLER32)
     || negb (total =? MIN_FRAME_BYTES + payload)
     || negb ((MIN_FRAME_BYTES <=? total) && (total <=? MAX_COMMAND_FRAME_BYTES))
  then Err (invalid "untrusted command framing")
  else Ok (_Envelope.mk total).

Definition _request_bytes (data : bytes) (offset : nat) (header : _Envelope) : v3 bytes :=
  let wire := slice offset (offset + Z.to_nat header.(_Envelope.total_length)) data in
  let end_ := (length wire - 4)%nat in
  expected ← compute_v3_checksum (take end_ wire);
  '(observed, _) ← of_option (unpack_from CHECKSUM_STRUCT_FORMAT wire end_) (Uncaught "struct.error");
  if expected =? observed then Ok wire else Err (V3ChecksumMismatchError expected observed).

#[export] Instance request_codec : FrameCodec _Envelope bytes := {
  magic_bytes := to_le 4 MAGIC;
  header_size := Z.to_nat HEADER_SIZE;
  max_frame_bytes := Z.to_nat MAX_COMMAND_FRAME_BYTES;
  total_length h := Z.to_nat h.(_Envelope.total_length);
  decode_header data offset := sorted_by v3_fault (_request_header data offset);
  decode_frame data offset h := sorted_by v3_fault (_request_bytes data offset h)
}.

(** ** Device state *)

(** A two-element list indexed by stream: ADC is 0, GPIO is 1. *)
Record per_stream (A : Type) := mkPer { on_adc : A; on_gpio : A }.
Arguments mkPer {A} on_adc on_gpio.
Arguments on_adc {A} p.
Arguments on_gpio {A} p.

Definition at_stream {A} (p : per_stream A) (stream : nat) : A :=
  match stream with O => on_adc p | S _ => on_gpio p end.
Definition set_stream {A} (stream : nat) (a : A) (p : per_stream A) : per_stream A :=
  match stream with O => mkPer a (on_gpio p) | S _ => mkPer (on_adc p) a end.

(** What [_reset_epoch] resets. *)
Module Epoch.
Record Epoch := mk {
  frames : per_stream Z;
  items : per_stream Z;
  frames_dropped : per_stream Z;
  items_dropped : per_stream Z;
  gap_before : per_stream bool;
  epoch_start : per_stream bool;
  last_epoch_start : bool;
  next_stream_index : nat;
  last_stream_index : nat;
  last_item_count : Z
}.
End Epoch.
Abbreviation Epoch := Epoch.Epoch.

Definition _reset_epoch : Epoch :=
  Epoch.mk (mkPer 0 0) (mkPer 0 0) (mkPer 0 0) (mkPer 0 0) (mkPer false false) (mkPer true true)
    false 0 0 0.

Module SimulatedV3Device.
Record SimulatedV3Device := mk {
  _build_id : text;
  _max_receive_bytes : Z;
  _max_requests_per_receive : Z;
  _capabilities : V3Capabilities;
  _request_parser : Parser _Envelope;
  _recent_request_ids : list Z;
  _settings : V3Settings;
  _state : DeviceState;
  _run_id : Z;
  _pending_data : bool;
  _transport_errors : Z;
  _epoch : Epoch
}.

(** Assignments to one attribute. *)
Definition set_parser (p : Parser _Envelope) (d : SimulatedV3Device) : SimulatedV3Device :=
  mk d.(_build_id) d.(_max_receive_bytes) d.(_max_requests_per_receive) d.(_capabilities) p
    d.(_recent_request_ids) d.(_settings) d.(_state) d.(_run_id) d.(_pending_data)
    d.(_transport_errors) d.(_epoch).
Definition set_recent (ids : list Z) (d : SimulatedV3Device) : SimulatedV3Device :=
  mk d.(_build_id) d.(_max_receive_bytes) d.(_max_requests_per_receive) d.(_capabilities)
    d.(_request_parser) ids d.(_settings) d.(_state) d.(_run_id) d.(_pending_data)
    d.(_transport_errors) d.(_epoch).
Definition set_settings (s : V3Settings) (d : SimulatedV3Device) : SimulatedV3Device :=
  mk d.(_build_id) d.(_max_receive_bytes) d.(_max_requests_per_receive) d.(_capabilities)
    d.(_request_parser) d.(_recent_request_ids) s d.(_state) d.(_run_id) d.(_pending_data)
    d.(_transport_errors) d.(_epoch).
Definition set_state (s : DeviceState) (d : SimulatedV3Device) : SimulatedV3Device :=
  mk d.(_build_id) d.(_max_receive_bytes) d.(_max_requests_per_receive) d.(_capabilities)
    d.(_request_parser) d.(_recent_request_ids) d.(_settings) s d.(_run_id) d.(_pending_data)
    d.(_transport_errors) d.(_epoch).
Definition set_run_id (run : Z) (d : SimulatedV3Device) : SimulatedV3Device :=
  mk d.(_build_id) d.(_max_receive_bytes) d.(_max_requests_per_receive) d.(_capabilities)
    d.(_request_parser) d.(_recent_request_ids) d.(_settings) d.(_state) run d.(_pending_data)
    d.(_transport_errors) d.(_epoch).
Definition set_pending_data (b : bool) (d : SimulatedV3Device) : SimulatedV3Device :=
  mk d.(_build_id) d.(_max_receive_bytes) d.(_max_requests_per_receive) d.(_capabilities)
    d.(_request_parser) d.(_recent_request_ids) d.(_settings) d.(_state) d.(_run_id) b
    d.(_transport_errors) d.(_epoch).
Definition set_transport_errors (n : Z) (d : SimulatedV3Device) : SimulatedV3Device :=
  mk d.(_build_id) d.(_max_receive_bytes) d.(_max_requests_per_receive) d.(_capabilities)
    d.(_request_parser) d.(_recent_request_ids) d.(_settings) d.(_state) d.(_run_id)
    d.(_pending_data) n d.(_epoch).
Definition set_epoch (e : Epoch) (d : SimulatedV3Device) : SimulatedV3Device :=
  mk d.(_build_id) d.(_max_receive_bytes) d.(_max_requests_per_receive) d.(_capabilities)
    d.(_request_parser) d.(_recent_request_ids) d.(_settings) d.(_state) d.(_run_id)
    d.(_pending_data) d.(_transport_errors) e.
End SimulatedV3Device.
Export SimulatedV3Device(set_parser, set_recent, set_settings, set_state, set_run_id,
  set_pending_data, set_transport_errors, set_epoch).
Abbreviation SimulatedV3Device := SimulatedV3Device.SimulatedV3Device.

(** ** Construction, reboot, sessions *)

(** A [str] literal. *)
Definition text_of (s : string) : text :=
  map (fun a => Z.of_nat (Ascii.nat_of_ascii a)) (String.list_ascii_of_string s).

Definition info (d : SimulatedV3Device) : v3 V3Info :=
  clocks ← clocks_for_profile d.(SimulatedV3Device._settings).(V3Settings.cpu_profile);
  Ok (V3Info.mk BoardId.TEENSY_40 McuId.IMXRT1062 true (text_of "SIM-TEENSY40-V3")
        (text_of "0.3.0-sim") d.(SimulatedV3Device._build_id) clocks PROTOCOL_VERSION 12).

Definition reboot (d : SimulatedV3Device) : SimulatedV3Device :=
  let d := set_settings d.(SimulatedV3Device._capabilities).(V3Capabilities.defaults) d in
  let d := set_state DeviceState.STOPPED d in
  let d := set_run_id 0 d in
  let d := set_pending_data false d in
  let d := set_transport_errors 0 d in
  let d := set_epoch _reset_epoch d in
  let d := set_parser (reset d.(SimulatedV3Device._request_parser)) d in
  set_recent [] d.

(** The capabilities of the fixed CPU profile (lines 98-108). *)
Definition restrict_cpu (canonical : V3Capabilities) : V3Capabilities :=
  let cpu := canonical.(V3Capabilities.defaults).(V3Settings.cpu_profile) in
  V3Capabilities.mk canonical.(V3Capabilities.defaults)
    (filter (fun p => p.(V3Clocks.cpu_profile) = cpu) canonical.(V3Capabilities.cpu_profiles))
    canonical.(V3Capabilities.rate_profiles)
    (filter (fun s => s.(V3Settings.cpu_profile) = cpu) canonical.(V3Capabilities.configurations))
    canonical.(V3Capabilities.max_data_frame_bytes) canonical.(V3Capabilities.max_control_frame_bytes)
    canonical.(V3Capabilities.max_logical_payload_bytes)
    canonical.(V3Capabilities.max_encoded_sample_bytes) canonical.(V3Capabilities.max_adc_pairs)
    canonical.(V3Capabilities.max_gpio8_samples) canonical.(V3Capabilities.max_gpio16_samples).

Definition init_device (build_id : text) (max_receive_bytes max_requests_per_receive : Z) :
    sim SimulatedV3Device :=
  _ ← require (MIN_FRAME_BYTES <=? max_receive_bytes)
        (SimValueError "max_receive_bytes must hold at least one frame");
  _ ← require (0 <? max_requests_per_receive)
        (SimValueError "max_requests_per_receive must be positive");
  canonical ← lift SimFrameError capabilities_canonical;
  let capabilities := restrict_cpu canonical in
  parser ← of_option init_parser (SimValueError "framing magic/header bounds are invalid");
  let d := reboot (SimulatedV3Device.mk build_id max_receive_bytes max_requests_per_receive
             capabilities parser [] canonical.(V3Capabilities.defaults) DeviceState.STOPPED 0 false 0
             _reset_epoch) in
  i ← lift SimFrameError (info d);
  _ ← lift SimFrameError (info_to_payload i);
  Ok d.

Definition begin_host_session (d : SimulatedV3Device) : SimulatedV3Device :=
  set_recent [] (set_parser (reset_session d.(SimulatedV3Device._request_parser)) d).

Definition record_transport_error (d : SimulatedV3Device) : SimulatedV3Device :=
  set_transport_errors (Z.min (d.(SimulatedV3Device._transport_errors) + 1) _U64_MAX) d.

Definition set_transport_pending_data (pending : bool) (d : SimulatedV3Device) : SimulatedV3Device :=
  let d := set_pending_data pending d in
  if negb pending && bool_decide (d.(SimulatedV3Device._state) = DeviceState.DRAINING)
  then set_state DeviceState.STOPPED d else d.

Definition discard_transport_data (d : SimulatedV3Device) : SimulatedV3Device :=
  let d :=
    if d.(SimulatedV3Device._pending_data) then
      let e := d.(SimulatedV3Device._epoch) in
      let stream := e.(Epoch.last_stream_index) in
      set_epoch
        (Epoch.mk e.(Epoch.frames) e.(Epoch.items)
           (set_stream stream (Z.min (at_stream e.(Epoch.frames_dropped) stream + 1) _U64_MAX)
              e.(Epoch.frames_dropped))
           (set_stream stream
              (Z.min (at_stream e.(Epoch.items_dropped) stream + e.(Epoch.last_item_count)) _U64_MAX)
              e.(Epoch.items_dropped))
           (set_stream stream true e.(Epoch.gap_before))
           (set_stream stream e.(Epoch.last_epoch_start) e.(Epoch.epoch_start))
           e.(Epoch.last_epoch_start) e.(Epoch.next_stream_index) e.(Epoch.last_stream_index)
           e.(Epoch.last_item_count)) d
    else d in
  set_transport_pending_data false d.

(** [int(self._pending_data)] *)
Definition pending_int (d : SimulatedV3Device) : Z :=
  if d.(SimulatedV3Device._pending_data) then 1 else 0.

Definition status (d : SimulatedV3Device) : V3Status :=
  let e := d.(SimulatedV3Device._epoch) in
  V3Status.mk
    (V3Stop.mk d.(SimulatedV3Device._state) d.(SimulatedV3Device._run_id) (pending_int d))
    [on_adc e.(Epoch.frames); on_adc e.(Epoch.frames_dropped);
     on_adc e.(Epoch.items); on_adc e.(Epoch.items_dropped);
     on_gpio e.(Epoch.frames); on_gpio e.(Epoch.frames_dropped);
     on_gpio e.(Epoch.items); on_gpio e.(Epoch.items_dropped)]
    (replicate (Z.to_nat STATUS_DIAGNOSTIC_COUNT) None).

(** ** Commands *)

Definition _reply (d : SimulatedV3Device) (kind request_id : Z) (value : option V3ResponseValue)
    (error : ErrorCode) : v3 bytes :=
  response_to_bytes
    (V3Response.mk
       (match enum_of (A:=CommandKind) kind with
        | Some known => COMMAND_RESPONSE_KINDS known
        | None => FrameKind.ERROR_RESPONSE
        end)
       request_id d.(SimulatedV3Device._run_id)
       (if decide (error = ErrorCode.OK) then ResponseStatus.OK else ResponseStatus.ERROR)
       error value
       (match enum_of (A:=CommandKind) kind with Some _ => None | None => Some kind end)).

Definition reply_error (d : SimulatedV3Device) (kind request_id : Z) (error : ErrorCode) :
    v3 (SimulatedV3Device * bytes) :=
  reply ← _reply d kind request_id None error; Ok (d, reply).

(** [deque(maxlen=16).append] *)
Definition append_recent (request_id : Z) (ids : list Z) : list Z :=
  let ids := ids ++ [request_id] in drop (length ids - 16) ids.

(** The checks of lines 264-270; [None] goes on. *)
Definition check_fields (kind : CommandKind) (flags reserved payload_size run sequence ticks count : Z) :
    option ErrorCode :=
  if negb (flags =? 0) then Some ErrorCode.INVALID_FLAGS
  else
    let expected := if decide (kind = CommandKind.CONFIGURE) then SETTINGS_PAYLOAD_SIZE else 0 in
    if negb (payload_size =? expected) then Some ErrorCode.INVALID_LENGTH
    else if negb (reserved =? 0) || negb (run =? 0) || negb (sequence =? 0) || negb (ticks =? 0)
            || negb (count =? 0)
    then Some ErrorCode.INVALID_PAYLOAD else None.

(** Lines 271-280: what the CONFIGURE payload asks for. *)
Inductive candidate := NoCandidate | Candidate (s : V3Settings) | Unsupported | Refused (e : ErrorCode).

Definition parse_candidate (d : SimulatedV3Device) (kind : CommandKind) (wire : bytes) : v3 candidate :=
  if decide (kind = CommandKind.CONFIGURE) then
    match (s ← settings_from_bytes (slice (Z.to_nat HEADER_SIZE) (length wire - 4) wire);
           _ ← require_supported d.(SimulatedV3Device._capabilities) s; Ok s) with
    | Ok s => Ok (Candidate s)
    | Err e =>
        if is_validation_error e then
          if decide (error_code_of e = ErrorCode.UNSUPPORTED_CONFIGURATION) then Ok Unsupported
          else Ok (Refused (error_code_of e))
        else Err e
    end
  else Ok NoCandidate.

(** Lines 283-287: the state check of CONFIGURE and START. *)
Definition busy_state (d : SimulatedV3Device) (kind : CommandKind) : option ErrorCode :=
  if decide (kind = CommandKind.CONFIGURE \/ kind = CommandKind.START) then
    if decide (d.(SimulatedV3Device._state) = DeviceState.RUNNING) then Some ErrorCode.INVALID_STATE
    else if bool_decide (d.(SimulatedV3Device._state) = DeviceState.DRAINING)
            || d.(SimulatedV3Device._pending_data) then Some ErrorCode.BUSY
    else None
  else None.

(** [(self._run_id + 1) & 0xFFFFFFFF or 1] *)
Definition next_run_id (run : Z) : Z :=
  let n := Z.land (run + 1) 4294967295 in if n =? 0 then 1 else n.

Definition applied (d : SimulatedV3Device) : v3 V3ResponseValue :=
  clocks ← clocks_for_profile d.(SimulatedV3Device._settings).(V3Settings.cpu_profile);
  Ok (AppliedValue (V3AppliedSettings.mk d.(SimulatedV3Device._settings) clocks)).

(** Lines 293-314: the command itself. *)
Definition execute (d : SimulatedV3Device) (kind : CommandKind) (c : candidate) :
    v3 (SimulatedV3Device * V3ResponseValue) :=
  match kind with
  | CommandKind.INFO => i ← info d; Ok (d, InfoValue i)
  | CommandKind.GET_CAPABILITIES => Ok (d, CapabilitiesValue d.(SimulatedV3Device._capabilities))
  | CommandKind.GET_STATUS => Ok (d, StatusValue (status d))
  | CommandKind.STOP =>
      let d := set_state (if d.(SimulatedV3Device._pending_data) then DeviceState.DRAINING
                          else DeviceState.STOPPED) d in
      Ok (d, StopValue (V3Stop.mk d.(SimulatedV3Device._state) d.(SimulatedV3Device._run_id)
                          (pending_int d)))
  | CommandKind.CONFIGURE =>
      match c with
      | Candidate s => let d := set_settings s d in v ← applied d; Ok (d, v)
      | _ => Err (Uncaught "AssertionError")
      end
  | CommandKind.START =>
      let d := set_run_id (next_run_id d.(SimulatedV3Device._run_id)) d in
      let d := set_epoch _reset_epoch d in
      let d := set_state DeviceState.RUNNING d in
      v ← applied d; Ok (d, v)
  | CommandKind.GET_SETTINGS => v ← applied d; Ok (d, v)
  end.

(** Lines 263-315, once the request ID is fresh. *)
Definition handle_known (d : SimulatedV3Device) (wire : bytes) (busy : bool) (command : CommandKind)
    (flags reserved payload_size run sequence request_id ticks count : Z) :
    v3 (SimulatedV3Device * bytes) :=
  let kind := int_of command in
  match check_fields command flags reserved payload_size run sequence ticks count with
  | Some error => reply_error d kind request_id error
  | None =>
      candidate ← parse_candidate d command wire;
      match candidate with
      | Refused error => reply_error d kind request_id error
      | _ =>
          if busy then reply_error d kind request_id ErrorCode.BUSY
          else match busy_state d command with
               | Some error => reply_error d kind request_id error
               | None =>
                   match candidate with
                   | Unsupported => reply_error d kind request_id ErrorCode.UNSUPPORTED_CONFIGURATION
                   | _ =>
                       '(d, value) ← execute d command candidate;
                       reply ← _reply d kind request_id (Some value) ErrorCode.OK;
                       Ok (d, reply)
                   end
               end
      end
  end.

Definition _handle_request (d : SimulatedV3Device) (wire : bytes) (busy : bool) :
    v3 (SimulatedV3Device * bytes) :=
  '(_, (_, (kind, (flags, (_, (_, (reserved, (_, (payload_size, (run, (sequence, (request_id,
    (ticks, (count, _)))))))))))))) ←
      of_option (unpack_from HEADER_STRUCT_FORMAT wire 0) (Uncaught "struct.error");
  let recent := d.(SimulatedV3Device._recent_request_ids) in
  match enum_of (A:=CommandKind) kind with
  | None =>
      let d := if negb (request_id =? 0) && negb (bool_decide (request_id ∈ recent))
               then set_recent (append_recent request_id recent) d else d in
      reply_error d kind request_id
        (if request_id =? 0 then ErrorCode.INVALID_REQUEST_ID else ErrorCode.UNKNOWN_FRAME_KIND)
  | Some command =>
      if (request_id =? 0) || bool_decide (request_id ∈ recent)
      then reply_error d kind request_id ErrorCode.INVALID_REQUEST_ID
      else handle_known (set_recent (append_recent request_id recent) d) wire busy command
             flags reserved payload_size run sequence request_id ticks count
  end.

(** [enumerate] over the parsed requests, replies in order. *)
Fixpoint handle_all (d : SimulatedV3Device) (index : Z) (wires : list bytes) :
    v3 (SimulatedV3Device * list bytes) :=
  match wires with
  | [] => Ok (d, [])
  | wire :: wires =>
      '(d, reply) ← _handle_request d wire
          (d.(SimulatedV3Device._max_requests_per_receive) <=? index);
      '(d, replies) ← handle_all d (index + 1) wires;
      Ok (d, reply :: replies)
  end.

Definition device_receive (d : SimulatedV3Device) (data : bytes) :
    sim (SimulatedV3Device * list bytes) :=
  _ ← require (zlen data <=? d.(SimulatedV3Device._max_receive_bytes))
        (SimulatorInputError d.(SimulatedV3Device._max_receive_bytes));
  '(parser, wires) ← lift SimParserError (feed d.(SimulatedV3Device._request_parser) data);
  lift SimFrameError (handle_all (set_parser parser d) 0 wires).

(** ** Data frames *)

(** [streams]: the indices of the enabled streams. *)
Definition enabled_streams (s : V3Settings) : list nat :=
  (if has s.(V3Settings.stream_mask) StreamMask.ADC then [0%nat] else []) ++
  (if has s.(V3Settings.stream_mask) StreamMask.GPIO then [1%nat] else []).

(** Lines 342-347. *)
Definition adc_payload_at (settings : V3Settings) (first count : Z) : sim bytes :=
  raw ← lift SimSyntheticError (synthetic_v3_adc_payload first count);
  pairs ← of_option (iter_unpack PAIR_STRUCT_FORMAT raw) (SimFrameError (Uncaught "struct.error"));
  lift SimFrameError
    (encode_adc_payload (map (fun p : fvals PAIR_STRUCT_FORMAT => (p.1, p.2.1)) pairs)
       settings.(V3Settings.adc_policy)).

(** [samples]: the items of the packed source. *)
Definition gpio_samples (settings : V3Settings) (raw : bytes) : sim (list Z) :=
  if settings.(V3Settings.gpio_width_bits) =? 8 then Ok raw
  else values ← of_option (iter_unpack HALF_STRUCT_FORMAT raw)
                  (SimFrameError (Uncaught "struct.error"));
       Ok (map (fun v : fvals HALF_STRUCT_FORMAT => v.1) values).

(** Lines 350-368. *)
Definition gpio_payload_at (settings : V3Settings) (sequence first count : Z) : sim bytes :=
  let pattern := if sequence mod 2 =? 0 then ALL_ZERO else HIGH_TRANSITION in
  raw ← lift SimSyntheticError
          (synthetic_gpio_payload first count settings.(V3Settings.aux_bank_mode) pattern);
  samples ← gpio_samples settings raw;
  lift SimFrameError
    (encode_gpio_payload samples settings.(V3Settings.gpio_width_bits) settings.(V3Settings.gpio_policy)).

(** [c.MAX_LOGICAL_PAYLOAD_BYTES // (settings.gpio_width_bits // 8)] *)
Definition stream_count (settings : V3Settings) (stream : nat) : Z :=
  match stream with
  | O => MAX_ADC_PAIRS
  | S _ => MAX_LOGICAL_PAYLOAD_BYTES / (settings.(V3Settings.gpio_width_bits) / 8)
  end.

Definition stream_kind (stream : nat) : FrameKind :=
  match stream with O => FrameKind.ADC_DATA | S _ => FrameKind.GPIO_DATA end.

Definition data_flags (settings : V3Settings) (e : Epoch) (stream : nat) : Z :=
  let flags := if at_stream e.(Epoch.epoch_start) stream then FrameFlag.EPOCH_START else 0 in
  let flags := if at_stream e.(Epoch.gap_before) stream then Z.lor flags FrameFlag.GAP_BEFORE else flags in
  if decide (settings.(V3Settings.source) = Source.SYNTHETIC)
  then Z.lor flags FrameFlag.SYNTHETIC else flags.

(** Lines 387-394: the bookkeeping of a sent frame. *)
Definition advance (e : Epoch) (stream : nat) (sequence first count : Z) (n_streams : nat) : Epoch :=
  Epoch.mk (set_stream stream (Z.min (sequence + 1) _U64_MAX) e.(Epoch.frames))
    (set_stream stream (Z.min (first + count) _U64_MAX) e.(Epoch.items))
    e.(Epoch.frames_dropped) e.(Epoch.items_dropped)
    (set_stream stream false e.(Epoch.gap_before))
    (set_stream stream false e.(Epoch.epoch_start))
    (at_stream e.(Epoch.epoch_start) stream)
    ((e.(Epoch.next_stream_index) + 1) mod n_streams)%nat stream count.

Definition next_data_frame (d : SimulatedV3Device) : sim (SimulatedV3Device * option bytes) :=
  if negb (bool_decide (d.(SimulatedV3Device._state) = DeviceState.RUNNING))
     || d.(SimulatedV3Device._pending_data) then Ok (d, None)
  else
    let settings := d.(SimulatedV3Device._settings) in
    let e := d.(SimulatedV3Device._epoch) in
    let streams := enabled_streams settings in
    stream ← of_option (streams !! (e.(Epoch.next_stream_index) mod length streams)%nat)
               (SimValueError "integer modulo by zero");
    let first := at_stream e.(Epoch.items) stream in
    let sequence := at_stream e.(Epoch.frames) stream in
    let count := stream_count settings stream in
    payload ← (match stream with
               | O => adc_payload_at settings first count
               | S _ => gpio_payload_at settings sequence first count
               end);
    if _U64_MAX <? (first + count) * ADC_PAIR_PERIOD_TICKS
    then Ok (set_state DeviceState.STOPPED d, None)
    else
      wire ← lift SimFrameError
               (encode_v3_frame (int_of (stream_kind stream)) payload (data_flags settings e stream)
                  d.(SimulatedV3Device._run_id) (Z.land sequence 4294967295) 0
                  (first * ADC_PAIR_PERIOD_TICKS) count);
      Ok (set_epoch (advance e stream sequence first count (length streams)) d, Some wire).

(** ** The request framing obeys the interface *)

Lemma request_header_total data offset h :
  _request_header data offset = Ok h -> 48 <= h.(_Envelope.total_length) <= 68.
Proof.
  unfold _request_header. intros H. apply bind_Ok_inv in H as (vs & _ & H).
  destruct vs as (magic & version & kind & flags & size & checksum & reserved & total & payload & run &
     sequence & request & ticks & count & []).
  destruct (_ || _) eqn:Hc; [discriminate|]. apply Ok_inj in H. subst h. cbn [_Envelope.total_length].
  apply orb_false_iff in Hc as [_ Hc]. unfold MIN_FRAME_BYTES, MAX_COMMAND_FRAME_BYTES in Hc. lia.
Qed.

Lemma request_header_slice data offset :
  (offset + 44 <= length data)%nat ->
  _request_header data offset = _request_header (take 44 (drop offset data)) 0.
Proof.
  intros H. unfold _request_header, unpack_from. rewrite HEADER_SIZE_calc.
  assert (Hl : length (take 44 (drop offset data)) = 44%nat) by len. rewrite Hl.
  rewrite !(proj2 (Nat.leb_le _ _)) by lia. rewrite drop_0.
  assert (Hu : unpack_fields HEADER_STRUCT_FORMAT (drop offset data) =
               unpack_fields HEADER_STRUCT_FORMAT (take 44 (drop offset data))).
  { pose proof (unpack_fields_app HEADER_STRUCT_FORMAT (take 44 (drop offset data))
      (drop 44 (drop offset data))) as He. rewrite take_drop in He. apply He.
    rewrite HEADER_SIZE_calc. lia. }
  by rewrite Hu.
Qed.

#[export] Instance request_codec_laws : FrameCodecLaws request_codec.
Proof.
  split.
  - discriminate.
  - vm_compute. lia.
  - cbn. unfold HEADER_SIZE, MAX_COMMAND_FRAME_BYTES. lia.
  - intros data offset h. cbn. destruct (_request_header data offset) as [h'|] eqn:Hd; [|discriminate].
    intros [= <-]. apply request_header_total in Hd. unfold HEADER_SIZE, MAX_COMMAND_FRAME_BYTES. lia.
  - intros data offset Hl. cbn. by rewrite (request_header_slice data offset Hl).
  - intros data offset h Hn Hl. cbn [decode_frame total_length header_size request_codec] in *.
    unfold _request_bytes. cbv zeta. set (n := Z.to_nat (_Envelope.total_length h)) in *.
    assert (Hs : slice offset (offset + n) data = slice 0 (0 + n) (take n (drop offset data))).
    { unfold slice. rewrite drop_0. cbn [Nat.add]. rewrite Nat.sub_0_r, take_take, Nat.min_id.
      f_equal. lia. }
    by rewrite Hs.
  - intros data offset exception Hl. cbn [decode_header header_size request_codec] in *.
    apply (sorted_by_caught _ is_validation_error); [by intros []|]. unfold _request_header, unpack_from.
    rewrite HEADER_SIZE_calc, (proj2 (Nat.leb_le _ _)) by (unfold HEADER_SIZE in Hl; lia).
    apply raises_only_bind; [done|]. intros vs _. by repeat case_match.
  - intros data offset h exception Hw Hd Hl. cbn [decode_header decode_frame total_length request_codec] in *.
    apply sorted_by_Ok, request_header_total in Hd.
    apply (sorted_by_caught _ is_validation_error); [by intros []|]. unfold _request_bytes. cbv zeta.
    set (n := Z.to_nat (_Envelope.total_length h)) in *.
    assert (Hs : length (slice offset (offset + n) data) = n) by (unfold slice; len).
    rewrite compute_v3_checksum_Ok by auto with daq. apply raises_only_bind; [done|]. intros expected _.
    rewrite unpack_checksum by lia. apply raises_only_bind; [done|]. intros [observed []] _. by case_match.
Qed.

(** A request as the parser delivers it. *)
Definition request_wire (wire : bytes) : Prop :=
  (48 <= length wire <= 68)%nat /\ exists h, _request_header wire 0 = Ok h /\
    _request_bytes wire 0 h = Ok wire /\ h.(_Envelope.total_length) = zlen wire.

(** ** The invariant of a device *)

Definition counters_ok (dropped produced limit : Z) : Prop := 0 <= dropped <= produced /\ produced <= limit.

(** The last frame of the epoch was produced and is not counted as dropped. *)
Definition unaccounted (e : Epoch) : Prop :=
  let s := e.(Epoch.last_stream_index) in
  at_stream e.(Epoch.frames_dropped) s + 1 <= at_stream e.(Epoch.frames) s /\
  at_stream e.(Epoch.items_dropped) s + e.(Epoch.last_item_count) <= at_stream e.(Epoch.items) s.

Record epoch_inv (e : Epoch) (pending : bool) : Prop := {
  ei_frames s : counters_ok (at_stream e.(Epoch.frames_dropped) s) (at_stream e.(Epoch.frames) s)
                  (at_stream e.(Epoch.items) s);
  ei_items s : counters_ok (at_stream e.(Epoch.items_dropped) s) (at_stream e.(Epoch.items) s)
                 (_U64_MAX / 8);
  ei_count : 0 <= e.(Epoch.last_item_count);
  ei_pending : pending = true -> unaccounted e
}.

Record device_inv (d : SimulatedV3Device) : Prop := {
  di_caps : exists p, capabilities_to_payload d.(SimulatedV3Device._capabilities) = Ok p;
  di_one_cpu s : s ∈ d.(SimulatedV3Device._capabilities).(V3Capabilities.configurations) ->
    s.(V3Settings.cpu_profile)
    = d.(SimulatedV3Device._capabilities).(V3Capabilities.defaults).(V3Settings.cpu_profile);
  di_settings : d.(SimulatedV3Device._settings)
    ∈ d.(SimulatedV3Device._capabilities).(V3Capabilities.configurations);
  di_info : exists i p, info d = Ok i /\ info_to_payload i = Ok p;
  di_parser : parser_inv d.(SimulatedV3Device._request_parser);
  di_wire : wf_bytes (unread d.(SimulatedV3Device._request_parser));
  di_recent : NoDup d.(SimulatedV3Device._recent_request_ids) /\
    (length d.(SimulatedV3Device._recent_request_ids) <= 16)%nat;
  di_run : 0 <= d.(SimulatedV3Device._run_id) < 2 ^ 32;
  di_active : d.(SimulatedV3Device._state) <> DeviceState.STOPPED -> d.(SimulatedV3Device._run_id) <> 0;
  di_stopped : d.(SimulatedV3Device._state) = DeviceState.STOPPED ->
    d.(SimulatedV3Device._pending_data) = false;
  di_draining : d.(SimulatedV3Device._state) = DeviceState.DRAINING ->
    d.(SimulatedV3Device._pending_data) = true;
  di_epoch : epoch_inv d.(SimulatedV3Device._epoch) d.(SimulatedV3Device._pending_data);
  di_limits : 48 <= d.(SimulatedV3Device._max_receive_bytes) /\
    0 < d.(SimulatedV3Device._max_requests_per_receive)
}.

Lemma reset_epoch_inv pending : pending = false -> epoch_inv _reset_epoch pending.
Proof.
  intros ->. assert (0 <= _U64_MAX / 8) by (vm_compute; discriminate).
  split; [intros [|s]..| |discriminate]; unfold counters_ok; cbn; lia.
Qed.

(** ** What the fixed tables give *)

Lemma clocks_for_profile_ok p :
  exists c, clocks_for_profile p = Ok c /\ c.(V3Clocks.cpu_profile) = p /\ exists b, clocks_to_bytes c = Ok b.
Proof.
  destruct (clocks_for_profile p) as [c|e] eqn:Hc; [|destruct p; vm_compute in Hc; discriminate].
  exists c. split; [done|].
  destruct p; vm_compute in Hc; apply Ok_inj in Hc; subst c; (split; [reflexivity|]); eexists; vm_compute; reflexivity.
Qed.

Lemma capability_settings c p s :
  capabilities_to_payload c = Ok p -> s ∈ c.(V3Capabilities.configurations) ->
  exists b, settings_to_bytes s = Ok b.
Proof.
  intros H Hs. unfold capabilities_to_payload in H. cbv zeta in H.
  apply bind_Ok_inv in H as (_ & _ & H). apply require_bind in H as [_ H].
  apply bind_Ok_inv in H as (cpus & _ & H). apply bind_Ok_inv in H as (rates & _ & H).
  apply bind_Ok_inv in H as (settings & Hm & _). apply mapR_Forall2 in Hm.
  apply list_elem_of_lookup in Hs as [i Hi].
  destruct (Forall2_lookup_l _ _ _ _ _ Hm Hi) as (b & _ & Hb). by exists b.
Qed.

Lemma capability_defaults c p :
  capabilities_to_payload c = Ok p -> c.(V3Capabilities.defaults) ∈ c.(V3Capabilities.configurations).
Proof.
  intros H. unfold capabilities_to_payload in H. cbv zeta in H.
  apply bind_Ok_inv in H as (_ & _ & H). apply require_bind in H as [_ H].
  apply bind_Ok_inv in H as (cpus & _ & H). apply bind_Ok_inv in H as (rates & _ & H).
  apply bind_Ok_inv in H as (settings & _ & H). apply require_bind in H as [_ H].
  apply bind_Ok_inv in H as (d & _ & H). apply require_bind in H as [Hd _].
  by apply bool_decide_eq_true in Hd.
Qed.

Lemma applied_ok d b :
  settings_to_bytes d.(SimulatedV3Device._settings) = Ok b ->
  exists a p, applied d = Ok (AppliedValue a) /\
    a.(V3AppliedSettings.settings) = d.(SimulatedV3Device._settings) /\
    value_to_payload (AppliedValue a) = Ok p.
Proof.
  intros Hb. unfold applied.
  destruct (clocks_for_profile_ok (V3Settings.cpu_profile (SimulatedV3Device._settings d)))
    as (c & Hc & Hp & cb & Hcb). rewrite Hc. cbn [mbind result_bind].
  eexists _, _. split; [done|]. split; [done|]. cbn [value_to_payload]. unfold applied_to_payload.
  cbn [V3AppliedSettings.settings V3AppliedSettings.clocks]. rewrite bool_decide_eq_true_2 by done.
  cbn [_require require mbind result_bind]. rewrite Hb. cbn [mbind result_bind]. rewrite Hcb. reflexivity.
Qed.

(** ** Replies *)

Definition reply_kind (kind : Z) : FrameKind :=
  match enum_of (A:=CommandKind) kind with
  | Some known => COMMAND_RESPONSE_KINDS known
  | None => FrameKind.ERROR_RESPONSE
  end.

(** [reply] is a frame the host decodes to [r], the answer to request [q] of [kind]. *)
Definition answers (kind q : Z) (reply : bytes) (r : V3Response) : Prop :=
  wf_bytes reply /\ zlen reply <= 2048 /\
  (exists f, decode_v3_frame reply = Ok f /\ decode_v3_response f = Ok r) /\
  r.(V3Response.request_id) = q /\ r.(V3Response.kind) = reply_kind kind.

Lemma answers_of_bytes kind q r reply :
  (forall v, r.(V3Response.value) = Some v -> value_valid v) -> response_to_bytes r = Ok reply ->
  zlen reply <= 2048 -> r.(V3Response.request_id) = q -> r.(V3Response.kind) = reply_kind kind ->
  answers kind q reply r.
Proof.
  intros Hv H Hl Hq Hk. destruct (response_forward r reply Hv H) as (f & Hf & Hd).
  destruct (frame_on_wire_size f reply Hf) as (Hw & _ & _).
  split; [done|]. split; [done|]. split; [|done]. exists f. split; [|done]. by apply decode_v3_frame_iff.
Qed.

Lemma reply_kind_response kind :
  is_command_response (reply_kind kind) || bool_decide (reply_kind kind = FrameKind.ERROR_RESPONSE) = true.
Proof. unfold reply_kind. destruct (enum_of kind) as [[]|]; reflexivity. Qed.

Definition error_response (d : SimulatedV3Device) (kind q : Z) (e : ErrorCode) : V3Response :=
  V3Response.mk (reply_kind kind) q d.(SimulatedV3Device._run_id) ResponseStatus.ERROR e None
    (match enum_of (A:=CommandKind) kind with Some _ => None | None => Some kind end).

Lemma reply_error_answers d kind q e :
  0 <= d.(SimulatedV3Device._run_id) < 2 ^ 32 -> 0 <= q < 2 ^ 32 -> 0 <= kind < 256 ->
  e <> ErrorCode.OK -> (q = 0 -> e = ErrorCode.INVALID_REQUEST_ID) ->
  exists reply, reply_error d kind q e = Ok (d, reply) /\
    answers kind q reply (error_response d kind q e).
Proof.
  intros Hrun Hq Hk He Hz. unfold reply_error, _reply. fold (reply_kind kind).
  rewrite decide_False by done. fold (error_response d kind q e).
  destruct (error_response_encodes (reply_kind kind) q (SimulatedV3Device._run_id d) e
    (V3Response.rejected_kind (error_response d kind q e)) Hq Hrun Hz (reply_kind_response kind) He)
    as (reply & Hr & Hl).
  { unfold rejected_ok, reply_kind, error_response. cbn [V3Response.rejected_kind].
    destruct (enum_of kind) as [known|]; [|by exists kind].
    rewrite decide_False by (by destruct known). done. }
  unfold error_response in *. cbn [V3Response.rejected_kind] in Hr. rewrite Hr. cbn [mbind result_bind].
  exists reply. split; [done|]. by apply answers_of_bytes.
Qed.

Definition ok_response (d : SimulatedV3Device) (kind q : Z) (v : V3ResponseValue) : V3Response :=
  V3Response.mk (reply_kind kind) q d.(SimulatedV3Device._run_id) ResponseStatus.OK ErrorCode.OK (Some v)
    None.

Lemma reply_ok_answers d (command : CommandKind) q v p :
  0 <= d.(SimulatedV3Device._run_id) < 2 ^ 32 -> 0 < q < 2 ^ 32 ->
  value_kind_ok (COMMAND_RESPONSE_KINDS command) d.(SimulatedV3Device._run_id) v ->
  value_valid v -> value_to_payload v = Ok p ->
  exists reply, _reply d (int_of command) q (Some v) ErrorCode.OK = Ok reply /\
    answers (int_of command) q reply (ok_response d (int_of command) q v).
Proof.
  intros Hrun Hq Hk Hv Hp. unfold _reply, ok_response, reply_kind. rewrite enum_of_int.
  rewrite decide_True by done.
  destruct (success_response_encodes _ q _ v p Hq Hrun Hk Hv Hp) as (reply & Hr & Hl). rewrite Hr.
  exists reply. split; [done|]. apply answers_of_bytes; [by intros ? [= <-]|done|done|done|].
  unfold reply_kind. by rewrite enum_of_int.
Qed.
