(* ===== verification/DeviceV3.v ===== *)
(** * What the simulated v3 device promises.

    Public calls made when their conditions hold ([call_ok]) keep the device invariant and
    raise nothing, and outside those conditions STATUS cannot be packed; every request
    gets one reply the host decodes, commands follow the abstract state machine
    [command_step], request IDs are not replayed, and data frames form gap-free
    streams of the synthetic samples. *)

From S2P Require Import Prelude PyStruct Checksum Incremental V3Constants V3Header V3Samples ModelsV3 V3Frames Synthetic SimulatorV3.

(** ** Requests as the parser delivers them *)

(** The header fields of a request. *)
Definition request_fields (wire : bytes) : fvals HEADER_STRUCT_FORMAT :=
  unpack_fields HEADER_STRUCT_FORMAT wire.

Definition request_kind (wire : bytes) : Z :=
  let '(_, (_, (kind, _))) := request_fields wire in kind.

Definition request_id_of (wire : bytes) : Z :=
  let '(_, (_, (_, (_, (_, (_, (_, (_, (_, (_, (_, (id, _)))))))))))) := request_fields wire in id.

Lemma emitted_request l f n :
  next_action (FrameT:=bytes) l = Emit f n -> wf_bytes l -> request_wire f /\ wf_bytes f /\ length f = n.
Proof.
  intros H Hw. pose proof (next_action_Emit_bounds _ _ _ H) as Hn. unfold next_action in H.
  destruct (starts_with magic_bytes l); [|by destruct (starts_with l magic_bytes)].
  destruct (length l <? header_size)%nat eqn:Hh; [done|]. apply Nat.ltb_ge in Hh.
  destruct (decode_header l 0) as [h|?] eqn:Hd; [|done].
  destruct (length l <? total_length h)%nat eqn:Ht; [done|]. apply Nat.ltb_ge in Ht.
  destruct (decode_frame l 0 h) as [f'|[]] eqn:Hf; [|done..].
  injection H as -> <-. pose proof (total_length_bounds _ _ _ Hd) as Hb.
  rewrite (decode_frame_local l 0 _ Hd Ht), drop_0 in Hf.
  rewrite (decode_header_local l 0 Hh), drop_0 in Hd.
  cbn [decode_frame decode_header total_length header_size max_frame_bytes request_codec] in *.
  set (n := Z.to_nat (_Envelope.total_length h)) in *.
  apply sorted_by_Ok in Hd as Hr.
  pose proof (request_header_total _ _ _ Hr) as Htot.
  apply sorted_by_Ok in Hf as Hq.
  assert (Hfl : f = take n l).
  { clear -Hq. unfold _request_bytes in Hq. cbv zeta in Hq. apply bind_Ok_inv in Hq as (e & _ & Hq).
    apply bind_Ok_inv in Hq as ([o []] & _ & Hq). destruct (e =? o); [|done]. apply Ok_inj in Hq. subst f.
    unfold slice. fold n. by rewrite drop_0, Nat.add_0_l, Nat.sub_0_r, take_take, Nat.min_id. }
  assert (Hlf : length f = n) by (subst f; rewrite length_take; lia).
  split; [|split; [subst f; auto with daq|done]]. unfold request_wire.
  split; [unfold n in Hlf; lia|]. exists h. subst f. split.
  - rewrite request_header_slice by (unfold HEADER_SIZE in *; cbn in *; lia).
    rewrite drop_0, take_take, Nat.min_l by (unfold HEADER_SIZE in *; lia). exact Hr.
  - split; [done|]. unfold zlen. rewrite Hlf. unfold n. lia.
Qed.

Lemma feed_requests p data :
  parser_inv p -> wf_bytes (unread p) -> wf_bytes data ->
  exists p' wires, feed p data = Ok (p', wires) /\ parser_inv p' /\ wf_bytes (unread p') /\
    Forall (fun w => request_wire w /\ wf_bytes w) wires.
Proof.
  intros Hp Hu Hw. destruct (feed_simulates p data Hp Hw) as (p' & es & Hf & Hp' & Hs & _).
  destruct (scans_emitted _ _ _ Hs) as [[k Hr] He].
  assert (Hl : wf_bytes (unread p ++ data)) by (by apply wf_bytes_app).
  exists p', (frames_of es). split; [done|]. split; [done|]. split; [rewrite Hr; auto with daq|].
  eapply Forall_impl; [exact He|]. intros f (j & n & Hn). cbv beta.
  apply emitted_request in Hn as (? & ? & _); [done|auto with daq].
Qed.

(** ** The invariant under the setters *)

Lemma set_parser_inv p d :
  parser_inv p -> wf_bytes (unread p) -> device_inv d -> device_inv (set_parser p d).
Proof. intros Hp Hw []. by split. Qed.

Lemma set_recent_inv ids d :
  NoDup ids -> (length ids <= 16)%nat -> device_inv d -> device_inv (set_recent ids d).
Proof. intros Hn Hl []. by split. Qed.

Lemma append_recent_ok q ids :
  q ∉ ids -> NoDup ids -> (length ids <= 16)%nat ->
  NoDup (append_recent q ids) /\ (length (append_recent q ids) <= 16)%nat.
Proof.
  intros Hq Hn Hl. unfold append_recent. split; [|len].
  assert (Ha : NoDup (ids ++ [q])).
  { apply NoDup_app. split; [done|]. split; [|apply NoDup_singleton]. by intros x Hx ->%list_elem_of_singleton. }
  rewrite <-(take_drop (length (ids ++ [q]) - 16) (ids ++ [q])) in Ha. by apply NoDup_app in Ha as (_ & _ & ?).
Qed.

Lemma append_recent_in q ids : q ∈ append_recent q ids.
Proof.
  unfold append_recent. rewrite drop_app_le by len. apply elem_of_app. right. by constructor.
Qed.

Lemma next_run_id_range run : 0 < next_run_id run < 2 ^ 32.
Proof.
  unfold next_run_id. change 4294967295 with (2 ^ 32 - 1). rewrite land_ones_mod by lia.
  pose proof (Z.mod_pos_bound (run + 1) (2 ^ 32)). destruct (Z.eqb_spec ((run + 1) mod 2 ^ 32) 0); lia.
Qed.

Lemma configurations_cpu d s :
  device_inv d -> s ∈ d.(SimulatedV3Device._capabilities).(V3Capabilities.configurations) ->
  s.(V3Settings.cpu_profile) = d.(SimulatedV3Device._settings).(V3Settings.cpu_profile).
Proof. intros [] Hs. by rewrite (di_one_cpu s), <-(di_one_cpu _ di_settings). Qed.

Lemma set_settings_inv s d :
  device_inv d -> s ∈ d.(SimulatedV3Device._capabilities).(V3Capabilities.configurations) ->
  device_inv (set_settings s d).
Proof.
  intros H Hs. pose proof (configurations_cpu d s H Hs) as Hc. destruct H. split; try done.
  unfold info in *. cbn. by rewrite Hc.
Qed.

Lemma start_inv d :
  device_inv d -> d.(SimulatedV3Device._pending_data) = false ->
  device_inv (set_state DeviceState.RUNNING
    (set_epoch _reset_epoch (set_run_id (next_run_id d.(SimulatedV3Device._run_id)) d))).
Proof.
  intros [] Hp. pose proof (next_run_id_range (SimulatedV3Device._run_id d)). split; try done; cbn.
  - lia.
  - intros _. lia.
  - by apply reset_epoch_inv.
Qed.

Lemma stop_inv d :
  device_inv d ->
  device_inv (set_state (if d.(SimulatedV3Device._pending_data) then DeviceState.DRAINING
                         else DeviceState.STOPPED) d).
Proof.
  intros []. split; try done; cbn; destruct (SimulatedV3Device._pending_data d) eqn:Hp; try done.
  intros _. apply di_active. intros Hs. by specialize (di_stopped Hs).
Qed.

(** ** What the commands do: the abstract state machine *)

Module Snapshot.
Record Snapshot := mk {
  state : DeviceState;
  run_id : Z;
  settings : V3Settings;
  pending : bool
}.
End Snapshot.
Abbreviation Snapshot := Snapshot.Snapshot.

Definition snapshot (d : SimulatedV3Device) : Snapshot :=
  Snapshot.mk d.(SimulatedV3Device._state) d.(SimulatedV3Device._run_id)
    d.(SimulatedV3Device._settings) d.(SimulatedV3Device._pending_data).

Section Machine.
Context (supported : list V3Settings).

(** Why CONFIGURE or START is refused in a state. *)
Definition refusal (s : Snapshot) : option ErrorCode :=
  match s.(Snapshot.state) with
  | DeviceState.RUNNING => Some ErrorCode.INVALID_STATE
  | DeviceState.DRAINING => Some ErrorCode.BUSY
  | DeviceState.STOPPED => if s.(Snapshot.pending) then Some ErrorCode.BUSY else None
  end.

(** The effect of an accepted command. *)
Inductive accepted : CommandKind -> option V3Settings -> Snapshot -> Snapshot -> Prop :=
| accept_query k s :
    k ∈ [CommandKind.INFO; CommandKind.GET_CAPABILITIES; CommandKind.GET_STATUS;
         CommandKind.GET_SETTINGS] -> accepted k None s s
| accept_configure c s :
    refusal s = None -> c ∈ supported ->
    accepted CommandKind.CONFIGURE (Some c) s
      (Snapshot.mk s.(Snapshot.state) s.(Snapshot.run_id) c s.(Snapshot.pending))
| accept_start s :
    refusal s = None ->
    accepted CommandKind.START None s
      (Snapshot.mk DeviceState.RUNNING (next_run_id s.(Snapshot.run_id)) s.(Snapshot.settings)
         s.(Snapshot.pending))
| accept_stop s :
    accepted CommandKind.STOP None s
      (Snapshot.mk (if s.(Snapshot.pending) then DeviceState.DRAINING else DeviceState.STOPPED)
         s.(Snapshot.run_id) s.(Snapshot.settings) s.(Snapshot.pending)).

(** The error of a refused command, the replay window apart. *)
Inductive refused : CommandKind -> option V3Settings -> bool -> Snapshot -> ErrorCode -> Prop :=
| refuse_busy k c s : refused k c true s ErrorCode.BUSY
| refuse_state k c s e :
    k ∈ [CommandKind.CONFIGURE; CommandKind.START] -> refusal s = Some e -> refused k c false s e
| refuse_unsupported c s :
    refusal s = None -> c ∉ supported ->
    refused CommandKind.CONFIGURE (Some c) false s ErrorCode.UNSUPPORTED_CONFIGURATION.
End Machine.

(** ** Every value the device reports can be sent *)

Lemma pack_u64s_ok values :
  Forall (fun v => 0 <= v < 2 ^ 64) values -> exists bs, pack_u64s values = Some bs.
Proof.
  induction 1 as [|v values Hv _ [bs IH]]; [by exists []|]. exists (to_le 8 v ++ bs). cbn [pack_u64s].
  rewrite (proj2 (fits_spec 8 v)) by (pow_lit; lia). by rewrite IH.
Qed.

Lemma stop_encodes d :
  device_inv d ->
  exists p, stop_to_payload (V3Stop.mk d.(SimulatedV3Device._state) d.(SimulatedV3Device._run_id) (pending_int d))
            = Ok p.
Proof.
  intros []. unfold stop_to_payload, pending_int.
  cbn [V3Stop.state V3Stop.run_id V3Stop.pending_frames].
  rewrite (proj2 (orb_true_iff (bool_decide (_ <> DeviceState.STOPPED)) _)).
  2: { destruct (decide (SimulatedV3Device._state d = DeviceState.STOPPED)) as [Hs|Hs];
       [right; by rewrite di_stopped|left; by apply bool_decide_eq_true]. }
  rewrite (proj2 (orb_true_iff (bool_decide (_ <> DeviceState.DRAINING)) _)).
  2: { destruct (decide (SimulatedV3Device._state d = DeviceState.DRAINING)) as [Hs|Hs];
       [right; by rewrite di_draining|left; by apply bool_decide_eq_true]. }
  rewrite (proj2 (orb_true_iff (bool_decide (_ = DeviceState.STOPPED)) _)).
  2: { destruct (decide (SimulatedV3Device._state d = DeviceState.STOPPED)) as [Hs|Hs];
       [left; by apply bool_decide_eq_true|right; by rewrite (proj2 (Z.eqb_neq _ _)) by auto]. }
  cbn [_require require mbind result_bind].
  destruct (fvals_ok_pack STOP_RESPONSE_STRUCT_FORMAT
    (0, (0, (0, (int_of (SimulatedV3Device._state d), (0, (0, (SimulatedV3Device._run_id d,
      ((if SimulatedV3Device._pending_data d then 1 else 0), tt)))))))))
    as (b & Hb & _); [|exists b; by apply pack_field_Ok].
  cbn -[Z.pow]. destruct (SimulatedV3Device._state d), (SimulatedV3Device._pending_data d); pow_lit; cbn; lia.
Qed.

Lemma counters_ok_u64 dropped produced limit :
  counters_ok dropped produced limit -> limit < 2 ^ 64 -> 0 <= produced < 2 ^ 64 /\ 0 <= dropped < 2 ^ 64.
Proof. unfold counters_ok. lia. Qed.

Lemma status_encodes d :
  device_inv d -> status_valid (status d) /\ exists p, status_to_payload (status d) = Ok p.
Proof.
  intros H. split; [done|]. destruct (stop_encodes d H) as [p Hp].
  destruct H as [_ _ _ _ _ _ _ _ _ _ _ [Hf Hi _ _] _].
  assert (HU : _U64_MAX / 8 < 2 ^ 64) by reflexivity.
  assert (Hu : forall s, let e := SimulatedV3Device._epoch d in
    0 <= at_stream e.(Epoch.frames) s < 2 ^ 64 /\ 0 <= at_stream e.(Epoch.frames_dropped) s < 2 ^ 64 /\
    0 <= at_stream e.(Epoch.items) s < 2 ^ 64 /\ 0 <= at_stream e.(Epoch.items_dropped) s < 2 ^ 64 /\
    at_stream e.(Epoch.frames_dropped) s <= at_stream e.(Epoch.frames) s /\
    at_stream e.(Epoch.items_dropped) s <= at_stream e.(Epoch.items) s).
  { intros s. cbv zeta. specialize (Hf s). specialize (Hi s). unfold counters_ok in *. lia. }
  pose proof (Hu 0%nat) as H0. pose proof (Hu 1%nat) as H1. cbn [at_stream] in H0, H1. cbv zeta in H0, H1.
  unfold status_to_payload, status. cbn [V3Status.stop V3Status.counts V3Status.diagnostics].
  rewrite Hp. cbn [mbind result_bind counts_ok].
  rewrite !(proj2 (Z.leb_le _ _)) by lia. cbn [andb _require require mbind result_bind].
  destruct (pack_u64s_ok
    ([on_adc (Epoch.frames (SimulatedV3Device._epoch d)); on_adc (Epoch.frames_dropped (SimulatedV3Device._epoch d));
      on_adc (Epoch.items (SimulatedV3Device._epoch d)); on_adc (Epoch.items_dropped (SimulatedV3Device._epoch d));
      on_gpio (Epoch.frames (SimulatedV3Device._epoch d)); on_gpio (Epoch.frames_dropped (SimulatedV3Device._epoch d));
      on_gpio (Epoch.items (SimulatedV3Device._epoch d)); on_gpio (Epoch.items_dropped (SimulatedV3Device._epoch d))]
     ++ map (default 0) (replicate (Z.to_nat STATUS_DIAGNOSTIC_COUNT) None)
     ++ [validity_of 0 (replicate (Z.to_nat STATUS_DIAGNOSTIC_COUNT) None)])) as [bs Hbs].
  { apply Forall_app. split; [repeat constructor; lia|].
    assert (Hz : map (default 0) (replicate (Z.to_nat STATUS_DIAGNOSTIC_COUNT) None)
      ++ [validity_of 0 (replicate (Z.to_nat STATUS_DIAGNOSTIC_COUNT) None)] = replicate 38 0)
      by (vm_compute; reflexivity).
    rewrite Hz. apply Forall_replicate. lia. }
  rewrite Hbs. cbn [of_option mbind result_bind]. eauto.
Qed.

(** What a reported value says of the device. *)
Definition reports (d : SimulatedV3Device) (v : V3ResponseValue) : Prop :=
  match v with
  | InfoValue i => info d = Ok i
  | CapabilitiesValue c => c = d.(SimulatedV3Device._capabilities)
  | AppliedValue a => applied d = Ok (AppliedValue a)
  | StopValue s => s = (status d).(V3Status.stop)
  | StatusValue s => s = status d
  end.

Lemma applied_reports d :
  device_inv d ->
  exists a p, applied d = Ok (AppliedValue a) /\ reports d (AppliedValue a) /\
    value_to_payload (AppliedValue a) = Ok p.
Proof.
  intros []. destruct di_caps as [p Hp]. destruct (capability_settings _ _ _ Hp di_settings) as [b Hb].
  destruct (applied_ok d b Hb) as (a & q & ? & ? & ?). by exists a, q.
Qed.

(** The applied value is the settings of the device with their clocks. *)
Lemma applied_value d a :
  applied d = Ok (AppliedValue a) ->
  a.(V3AppliedSettings.settings) = d.(SimulatedV3Device._settings) /\
  clocks_for_profile d.(SimulatedV3Device._settings).(V3Settings.cpu_profile) = Ok a.(V3AppliedSettings.clocks).
Proof. unfold applied. intros H. apply bind_Ok_inv in H as (c & Hc & H). by apply Ok_inj in H as [= <-]. Qed.

(** ** One request *)

(** Settings bytes that are refused carry an error code a reply may carry. *)
Lemma settings_from_bytes_code payload e :
  settings_from_bytes payload = Err e -> is_validation_error e = true /\ error_code_of e <> ErrorCode.OK.
Proof.
  intros H. split; [pose proof (caught_settings_from_bytes payload) as Hc; by rewrite H in Hc|].
  unfold settings_from_bytes, settings_new, settings_to_bytes, enum_field, _pack, _bounded_bytes, _require in H.
  repeat match type of H with
    | (?m ≫= _) = Err _ =>
        let Hm := fresh in destruct m eqn:Hm;
        [cbn [mbind result_bind] in H; clear Hm|injection H as ->; rename Hm into H]
    | require ?b _ = Err _ => destruct b; [discriminate|injection H as <-; done]
    | of_option ?o _ = Err _ => destruct o; [discriminate|injection H as <-; done]
    | (if ?b then _ else _) = Err _ => destruct b; [discriminate|injection H as <-; done]
    | (let '_ := ?v in _) = Err _ => destruct v
    | Ok _ = Err _ => discriminate
    end.
Qed.

Definition configure_payload (wire : bytes) : bytes :=
  slice (Z.to_nat HEADER_SIZE) (length wire - 4) wire.

Lemma parse_candidate_cases d k wire :
  device_inv d -> wf_bytes wire ->
  match parse_candidate d k wire with
  | Ok NoCandidate => k <> CommandKind.CONFIGURE
  | Ok (Candidate s) => k = CommandKind.CONFIGURE /\ settings_from_bytes (configure_payload wire) = Ok s /\
      s ∈ d.(SimulatedV3Device._capabilities).(V3Capabilities.configurations)
  | Ok Unsupported => k = CommandKind.CONFIGURE /\
      forall s, settings_from_bytes (configure_payload wire) = Ok s ->
        s ∉ d.(SimulatedV3Device._capabilities).(V3Capabilities.configurations)
  | Ok (Refused e) => k = CommandKind.CONFIGURE /\ e <> ErrorCode.OK /\
      exists err, settings_from_bytes (configure_payload wire) = Err err
  | Err _ => False
  end.
Proof.
  intros [[p Hp] _ _ _ _ _ _ _ _ _ _ _ _] Hw. unfold parse_candidate. case_decide as Hk; [|done].
  fold (configure_payload wire). destruct (settings_from_bytes (configure_payload wire)) as [s|e] eqn:Hs.
  - cbn [mbind result_bind]. unfold require_supported. rewrite Hp. cbn [mbind result_bind].
    rewrite (settings_to_from s (configure_payload wire)) by (done || unfold configure_payload; auto with daq).
    cbn [mbind result_bind]. destruct (bool_decide _) eqn:Hb; cbn [require mbind result_bind].
    + apply bool_decide_eq_true in Hb. done.
    + apply bool_decide_eq_false in Hb. cbn [is_validation_error error_code_of].
      rewrite decide_True by done. split; [done|]. by intros s' [= <-].
  - cbn [mbind result_bind]. destruct (settings_from_bytes_code _ _ Hs) as [-> He].
    case_decide; [by split|]. split; [done|]. eauto.
Qed.

(** The attributes no command assigns. *)
Definition same_frame (d d' : SimulatedV3Device) : Prop :=
  d'.(SimulatedV3Device._recent_request_ids) = d.(SimulatedV3Device._recent_request_ids) /\
  d'.(SimulatedV3Device._capabilities) = d.(SimulatedV3Device._capabilities) /\
  d'.(SimulatedV3Device._request_parser) = d.(SimulatedV3Device._request_parser) /\
  d'.(SimulatedV3Device._max_receive_bytes) = d.(SimulatedV3Device._max_receive_bytes) /\
  d'.(SimulatedV3Device._max_requests_per_receive) = d.(SimulatedV3Device._max_requests_per_receive) /\
  d'.(SimulatedV3Device._pending_data) = d.(SimulatedV3Device._pending_data) /\
  d'.(SimulatedV3Device._build_id) = d.(SimulatedV3Device._build_id).

Definition settings_of (c : candidate) : option V3Settings :=
  match c with Candidate s => Some s | _ => None end.

Lemma configure_or_start k :
  k ∈ [CommandKind.CONFIGURE; CommandKind.START] <-> k = CommandKind.CONFIGURE \/ k = CommandKind.START.
Proof. rewrite !elem_of_cons. split; [intros [?|[?|[]%elem_of_nil]]; tauto|tauto]. Qed.

Lemma busy_state_refusal d k :
  device_inv d -> k ∈ [CommandKind.CONFIGURE; CommandKind.START] ->
  busy_state d k = refusal (snapshot d).
Proof.
  intros [] Hk. unfold busy_state, refusal, snapshot. cbn [Snapshot.state Snapshot.pending].
  rewrite decide_True by (by apply configure_or_start).
  by destruct (SimulatedV3Device._state d), (SimulatedV3Device._pending_data d).
Qed.

Lemma busy_state_free d k :
  k ∉ [CommandKind.CONFIGURE; CommandKind.START] -> busy_state d k = None.
Proof.
  intros Hk. unfold busy_state. rewrite decide_False; [done|]. by rewrite <-configure_or_start.
Qed.

Definition supported (d : SimulatedV3Device) : list V3Settings :=
  d.(SimulatedV3Device._capabilities).(V3Capabilities.configurations).

(** The success of [execute]: the state machine moves, the value tells the new state. *)
Lemma execute_ok d k c :
  device_inv d -> busy_state d k = None ->
  match c with
  | Candidate s => k = CommandKind.CONFIGURE /\ s ∈ supported d
  | _ => k <> CommandKind.CONFIGURE
  end ->
  exists d' v p, execute d k c = Ok (d', v) /\ device_inv d' /\ same_frame d d' /\
    accepted (supported d) k (settings_of c) (snapshot d) (snapshot d') /\ reports d' v /\
    value_kind_ok (COMMAND_RESPONSE_KINDS k) d'.(SimulatedV3Device._run_id) v /\ value_valid v /\
    value_to_payload v = Ok p /\ (k = CommandKind.START -> d'.(SimulatedV3Device._epoch) = _reset_epoch).
Proof.
  intros H Hb Hc.
  assert (Hq : forall k, k ∈ [CommandKind.INFO; CommandKind.GET_CAPABILITIES; CommandKind.GET_STATUS;
    CommandKind.GET_SETTINGS] -> accepted (supported d) k None (snapshot d) (snapshot d)) by (by constructor).
  assert (Hsf : same_frame d d) by done.
  destruct k; cbn [execute].
  - destruct (di_info d H) as (i & p & Hi & Hp). rewrite Hi. cbn [mbind result_bind].
    exists d, (InfoValue i), p. split_and!; try done. destruct c; try (by destruct Hc); apply Hq; set_solver.
  - destruct c as [|s| |]; try done. destruct Hc as [_ Hs]. pose proof (set_settings_inv s d H Hs) as H'.
    destruct (applied_reports _ H') as (a & p & Ha & Hr & Hp). rewrite Ha. cbn [mbind result_bind].
    exists (set_settings s d), (AppliedValue a), p. split_and!; try done; [|by left].
    apply accept_configure; [|done]. rewrite <-(busy_state_refusal d CommandKind.CONFIGURE H) by set_solver. done.
  - assert (Hcn : settings_of c = None) by (destruct c; try done; by destruct Hc). rewrite Hcn.
    pose proof Hb as Hr. rewrite (busy_state_refusal d _ H) in Hr by set_solver.
    assert (Hpd : SimulatedV3Device._pending_data d = false).
    { unfold refusal, snapshot in Hr. cbn in Hr. by destruct (SimulatedV3Device._state d), (SimulatedV3Device._pending_data d). }
    pose proof (start_inv d H Hpd) as H'. destruct (applied_reports _ H') as (a & p & Ha & Hrep & Hp).
    rewrite Ha. cbn [mbind result_bind]. eexists _, (AppliedValue a), p. split_and!; try done.
    + by apply accept_start.
    + right; right. split; [done|]. cbn. pose proof (next_run_id_range (SimulatedV3Device._run_id d)). lia.
  - destruct (status_encodes d H) as (Hv & p & Hp). exists d, (StatusValue (status d)), p.
    split_and!; try done. destruct c; try (by destruct Hc); apply Hq; set_solver.
  - pose proof (stop_inv d H) as H'. set (d' := set_state _ d) in *. cbv zeta. destruct (stop_encodes d' H') as [p Hp].
    exists d', (StopValue (V3Stop.mk (SimulatedV3Device._state d') (SimulatedV3Device._run_id d') (pending_int d'))), p.
    split_and!; try done.
    + destruct c; try (by destruct Hc); apply accept_stop.
    + cbn. by destruct (SimulatedV3Device._pending_data d).
  - destruct (di_caps d H) as [p Hp]. exists d, (CapabilitiesValue (SimulatedV3Device._capabilities d)), p.
    split_and!; try done. destruct c; try (by destruct Hc); apply Hq; set_solver.
  - destruct (applied_reports _ H) as (a & p & Ha & Hr & Hp). rewrite Ha. cbn [mbind result_bind].
    exists d, (AppliedValue a), p. split_and!; try done; [|right; by left].
    destruct c; try (by destruct Hc); apply Hq; set_solver.
Qed.

(** The reply to a request that reached the command checks. *)
Definition outcome (d : SimulatedV3Device) (k : CommandKind) (q : Z) (busy : bool)
    (wanted : option V3Settings) (d' : SimulatedV3Device) (r : V3Response) : Prop :=
  (exists v, r = ok_response d' (int_of k) q v /\ reports d' v /\
     accepted (supported d) k wanted (snapshot d) (snapshot d')) \/
  (exists e, e <> ErrorCode.OK /\ r = error_response d (int_of k) q e /\ d' = d).

Lemma handle_known_ok d wire busy k flags reserved size run sequence q ticks count :
  device_inv d -> wf_bytes wire -> 0 < q < 2 ^ 32 ->
  exists d' reply r wanted,
    handle_known d wire busy k flags reserved size run sequence q ticks count = Ok (d', reply) /\
    device_inv d' /\ same_frame d d' /\ answers (int_of k) q reply r /\ outcome d k q busy wanted d' r.
Proof.
  intros H Hw Hq. pose proof (di_run d H) as Hrun.
  assert (Hkind : 0 <= int_of k < 256) by (destruct k; cbn; lia).
  assert (Herr : forall e, e <> ErrorCode.OK -> exists d' reply r wanted,
    reply_error d (int_of k) q e = Ok (d', reply) /\
    device_inv d' /\ same_frame d d' /\ answers (int_of k) q reply r /\ outcome d k q busy wanted d' r).
  { intros e He. destruct (reply_error_answers d (int_of k) q e Hrun) as (reply & Hr & Ha); [lia|done|done|lia|].
    exists d, reply, (error_response d (int_of k) q e), None. split_and!; try done. right. eauto. }
  unfold handle_known. cbv zeta.
  destruct (check_fields _ _ _ _ _ _ _ _) as [e|] eqn:Hcf.
  { apply Herr. intros ->. unfold check_fields in Hcf. by repeat case_match. }
  pose proof (parse_candidate_cases d k wire H Hw) as Hpc.
  destruct (parse_candidate d k wire) as [c|]; [|done]. cbn [mbind result_bind].
  assert (Hgo : match c with Candidate s => k = CommandKind.CONFIGURE /\ s ∈ supported d
                | _ => k <> CommandKind.CONFIGURE end -> busy_state d k = None ->
    exists d' reply r wanted,
    ('(d, value) ← execute d k c; reply ← _reply d (int_of k) q (Some value) ErrorCode.OK; Ok (d, reply))
      = Ok (d', reply) /\
    device_inv d' /\ same_frame d d' /\ answers (int_of k) q reply r /\ outcome d k q busy wanted d' r).
  { intros Hc Hb. destruct (execute_ok d k c H Hb Hc) as (d' & v & p & He & H' & Hsf & Hac & Hrep & Hvk & Hvv & Hvp & Hep).
    rewrite He. cbn [mbind result_bind].
    destruct (reply_ok_answers d' k q v p (di_run d' H') Hq Hvk Hvv Hvp) as (reply & Hr & Ha).
    rewrite Hr. cbn [mbind result_bind]. exists d', reply, (ok_response d' (int_of k) q v), (settings_of c).
    split_and!; try done. left. eauto. }
  assert (Hbusy : forall e, busy_state d k = Some e -> e <> ErrorCode.OK).
  { intros e Hb ->. unfold busy_state in Hb. by repeat case_match. }
  destruct c as [|s| |e].
  - destruct busy; [by apply Herr|]. destruct (busy_state d k) as [e|] eqn:Hb; [by apply Herr, Hbusy|by apply Hgo].
  - destruct busy; [by apply Herr|]. destruct (busy_state d k) as [e|] eqn:Hb; [by apply Herr, Hbusy|].
    apply Hgo; [|done]. by destruct Hpc as (? & _ & ?).
  - destruct busy; [by apply Herr|]. destruct (busy_state d k) as [e|] eqn:Hb; [by apply Herr, Hbusy|by apply Herr].
  - apply Herr. by destruct Hpc as (_ & ? & _).
Qed.

Definition known_kind (wire : bytes) : option CommandKind := enum_of (request_kind wire).

(** The effect of a request as its fields decide it. *)
Definition request_effect (d : SimulatedV3Device) (wire : bytes) (busy : bool) (d' : SimulatedV3Device)
    (r : V3Response) : Prop :=
  let q := request_id_of wire in
  let recent := d.(SimulatedV3Device._recent_request_ids) in
  match known_kind wire with
  | None =>
      r = error_response d (request_kind wire) q
            (if q =? 0 then ErrorCode.INVALID_REQUEST_ID else ErrorCode.UNKNOWN_FRAME_KIND) /\
      d' = (if negb (q =? 0) && negb (bool_decide (q ∈ recent)) then set_recent (append_recent q recent) d else d)
  | Some k =>
      if (q =? 0) || bool_decide (q ∈ recent)
      then r = error_response d (request_kind wire) q ErrorCode.INVALID_REQUEST_ID /\ d' = d
      else exists wanted, outcome (set_recent (append_recent q recent) d) k q busy wanted d' r
  end.

Lemma handle_request_ok d wire busy :
  device_inv d -> wf_bytes wire -> (44 <= length wire)%nat ->
  exists d' reply r, _handle_request d wire busy = Ok (d', reply) /\ device_inv d' /\
    (exists ids, same_frame (set_recent ids d) d') /\
    answers (request_kind wire) (request_id_of wire) reply r /\ request_effect d wire busy d' r.
Proof.
  intros H Hw Hl. pose proof (di_run d H) as Hrun.
  pose proof (unpack_fields_ok HEADER_STRUCT_FORMAT wire Hw ltac:(rewrite HEADER_SIZE_calc; lia)) as Hok.
  unfold request_effect, known_kind, _handle_request, unpack_from, request_kind, request_id_of, request_fields.
  rewrite HEADER_SIZE_calc, (proj2 (Nat.leb_le _ _)), drop_0 by lia. cbn [of_option mbind result_bind].
  destruct (unpack_fields HEADER_STRUCT_FORMAT wire) as
    (magic & version & kind & flags & size & checksum & reserved & total & payload & run &
     sequence & q & ticks & count & []).
  cbn -[Z.pow] in Hok. destruct Hok as (_ & _ & Hk & _ & _ & _ & _ & _ & _ & _ & _ & Hq & _).
  assert (Hq' : 0 <= q < 2 ^ 32) by exact Hq. clear Hq. assert (Hk' : 0 <= kind < 256) by exact Hk. clear Hk.
  cbv zeta. destruct (enum_of kind) as [k|] eqn:Hkind.
  - pose proof (enum_of_Some _ _ Hkind) as Hint.
    destruct (Z.eqb_spec q 0) as [Hq0|Hq0]; cbn [orb];
      [|case_bool_decide as Hin].
    + destruct (reply_error_answers d kind q ErrorCode.INVALID_REQUEST_ID Hrun Hq' Hk') as (reply & Hr & Ha);
        [done|done|]. eexists d, reply, _. do 2 (split; [done|]). split; [by eexists|]. by split.
    + destruct (reply_error_answers d kind q ErrorCode.INVALID_REQUEST_ID Hrun Hq' Hk') as (reply & Hr & Ha);
        [done|done|]. rewrite ?bool_decide_eq_true_2 by exact Hin. eexists d, reply, _. do 2 (split; [done|]). split; [by eexists|]. by split.
    + rewrite ?bool_decide_eq_false_2 by exact Hin. destruct (di_recent d H) as [Hnd Hlen].
      destruct (append_recent_ok q _ Hin Hnd Hlen) as [Hnd' Hlen'].
      pose proof (set_recent_inv _ d Hnd' Hlen' H) as H1.
      destruct (handle_known_ok _ wire busy k flags reserved payload run sequence q ticks count H1 Hw)
        as (d' & reply & r & wanted & He & H' & Hsf & Ha & Ho); [lia|].
      exists d', reply, r. do 2 (split; [done|]). split; [by eexists|]. split; [by rewrite <-Hint|by exists wanted].
  - set (d1 := if negb (q =? 0) && _ then _ else d).
    assert (H1 : device_inv d1 /\ exists ids, same_frame (set_recent ids d) d1).
    { unfold d1. case_match eqn:Hn; [|split; [done|by eexists]].
      apply andb_true_iff in Hn as [_ Hin]. apply negb_true_iff, bool_decide_eq_false in Hin.
      destruct (di_recent d H) as [Hnd Hlen]. destruct (append_recent_ok q _ Hin Hnd Hlen) as [Hnd' Hlen'].
      split; [by apply set_recent_inv|by eexists]. }
    destruct H1 as [H1 Hsf].
    destruct (reply_error_answers d1 kind q (if q =? 0 then ErrorCode.INVALID_REQUEST_ID
      else ErrorCode.UNKNOWN_FRAME_KIND)) as (reply & Hr & Ha);
      [apply H1|done|done|by destruct (q =? 0)|by intros ->|].
    eexists d1, reply, _. split; [exact Hr|]. do 2 (split; [done|]). split; [exact Ha|].
    split; [|done]. unfold error_response. f_equal. unfold d1. by destruct (_ && _).
Qed.

(** ** [receive] *)

Lemma same_frame_recent_trans d d1 d2 :
  (exists ids, same_frame (set_recent ids d) d1) -> (exists ids, same_frame (set_recent ids d1) d2) ->
  exists ids, same_frame (set_recent ids d) d2.
Proof.
  intros (i1 & _ & ? & ? & ? & ? & ? & ?) (i2 & ? & ? & ? & ? & ? & ? & ?). exists i2.
  unfold same_frame in *. cbn in *. split_and!; congruence.
Qed.

(** [replies] answer [wires] one by one. *)
Definition all_answered (wires replies : list bytes) : Prop :=
  Forall2 (fun wire reply => exists r, answers (request_kind wire) (request_id_of wire) reply r) wires replies.

Lemma handle_all_ok wires d index :
  device_inv d -> Forall (fun w => request_wire w /\ wf_bytes w) wires ->
  exists d' replies, handle_all d index wires = Ok (d', replies) /\ device_inv d' /\
    (exists ids, same_frame (set_recent ids d) d') /\ all_answered wires replies.
Proof.
  intros H Hf. revert d index H. induction Hf as [|w wires [[Hl _] Hw] _ IH]; intros d index H.
  - exists d, []. split; [done|]. split; [done|]. split; [by eexists|constructor].
  - cbn [handle_all]. destruct (handle_request_ok d w
      (SimulatedV3Device._max_requests_per_receive d <=? index) H Hw) as (d1 & reply & r & -> & H1 & Hs1 & Ha & _);
      [lia|]. cbn [mbind result_bind].
    destruct (IH d1 (index + 1) H1) as (d2 & replies & -> & H2 & Hs2 & Hall). cbn [mbind result_bind].
    exists d2, (reply :: replies). split; [done|]. split; [done|].
    split; [by eapply same_frame_recent_trans|]. constructor; [by exists r|done].
Qed.

Lemma device_receive_ok d data :
  device_inv d -> wf_bytes data -> zlen data <= d.(SimulatedV3Device._max_receive_bytes) ->
  exists p wires d' replies,
    feed d.(SimulatedV3Device._request_parser) data = Ok (p, wires) /\
    device_receive d data = Ok (d', replies) /\ device_inv d' /\
    (exists ids, same_frame (set_recent ids (set_parser p d)) d') /\ all_answered wires replies.
Proof.
  intros H Hw Hl. destruct (feed_requests _ data (di_parser d H) (di_wire d H) Hw) as (p & wires & Hf & Hp & Hu & Hr).
  pose proof (set_parser_inv p d Hp Hu H) as H1.
  destruct (handle_all_ok wires _ 0 H1 Hr) as (d' & replies & Hh & H' & Hs & Ha).
  exists p, wires, d', replies. split; [done|]. unfold device_receive.
  rewrite (proj2 (Z.leb_le _ _)) by done. cbn [require mbind result_bind]. rewrite Hf. cbn [lift mbind result_bind].
  by rewrite Hh.
Qed.

(** ** Data frames *)

(** The samples a frame must carry: the synthetic source from index [first] on. *)
Definition stream_samples (settings : V3Settings) (stream : nat) (sequence first : Z) : bytes :=
  let n := Z.to_nat (stream_count settings stream) in
  match stream with
  | O => v3_stream (Z.to_nat first) n
  | S _ => gpio_stream settings.(V3Settings.aux_bank_mode)
             (if sequence mod 2 =? 0 then ALL_ZERO else HIGH_TRANSITION) (Z.to_nat first) n
  end.

Definition stream_payload (settings : V3Settings) (stream : nat) (sequence first : Z) : sim bytes :=
  match stream with
  | O => adc_payload_at settings first (stream_count settings stream)
  | S _ => gpio_payload_at settings sequence first (stream_count settings stream)
  end.

(** The encoding the negotiated policies prescribe for a stream. *)
Definition encoded_as (settings : V3Settings) (stream : nat) (s : V3DecodedData) : Prop :=
  match stream with
  | O => s.(V3DecodedData.encoding) =
           (if decide (settings.(V3Settings.adc_policy) = AdcPolicy.PACK12) then Encoding.ADC_PACK12 else Encoding.RAW)
  | S _ => s.(V3DecodedData.item_bytes) * 8 = settings.(V3Settings.gpio_width_bits) /\
      (settings.(V3Settings.gpio_policy) = GpioPolicy.RLE_AUTO \/ s.(V3DecodedData.encoding) = Encoding.RAW)
  end.

Lemma v3_stream_pairs s n :
  iter_unpack PAIR_STRUCT_FORMAT (v3_stream s n)
  = Some (map (fun i => ((v3_pair (Z.of_nat i)).1, ((v3_pair (Z.of_nat i)).2, tt))) (seq s n)).
Proof.
  unfold v3_stream. apply iter_unpack_pack; [cbn; lia|]. apply Forall2_fmap_2, Forall2_same_length_lookup_2; [done|].
  intros i a b Ha Hb. assert (a = b) as <- by congruence.
  destruct (v3_pair_range (Z.of_nat a)) as [H1 H2]. split; [|by apply pack_pair].
  cbn -[Z.pow]. pow_lit. lia.
Qed.

Lemma adc_payload_at_ok settings first count :
  0 <= first -> 1 <= count <= 1012 ->
  exists payload d, adc_payload_at settings first count = Ok payload /\ wf_bytes payload /\
    decode_data_payload FrameKind.ADC_DATA payload count = Ok d /\
    d.(V3DecodedData.payload) = v3_stream (Z.to_nat first) (Z.to_nat count) /\ encoded_as settings 0 d.
Proof.
  intros Hf Hc. unfold adc_payload_at. rewrite synthetic_v3_payload_stream by lia. cbn [lift mbind result_bind].
  rewrite v3_stream_pairs. cbn [of_option mbind result_bind]. rewrite map_map. cbn [fst snd].
  set (pairs := map (fun i => ((v3_pair (Z.of_nat i)).1, (v3_pair (Z.of_nat i)).2)) (seq (Z.to_nat first) (Z.to_nat count))).
  assert (Hl : zlen pairs = count) by (unfold zlen, pairs; rewrite length_map, length_seq; lia).
  assert (Hp : Forall adc_pair_ok pairs).
  { apply Forall_fmap, Forall_true. intros i. destruct (v3_pair_range (Z.of_nat i)). unfold adc_pair_ok. cbn. lia. }
  destruct (adc_roundtrip (V3Settings.adc_policy settings) pairs) as (payload & He & Hw & Hd); [lia|done|].
  rewrite Hl in Hd. eexists payload, _. split; [exact (f_equal (lift SimFrameError) He)|].
  split; [done|]. split; [exact Hd|]. cbn [V3DecodedData.payload]. split; [unfold pairs; by rewrite map_map|].
  unfold encoded_as. cbn [V3DecodedData.encoding]. by destruct (V3Settings.adc_policy settings).
Qed.

Definition gpio_values (mode : AuxBankMode) (pattern : SyntheticGPIOPattern) (s n : nat) : list Z :=
  map (fun i => gpio_value (Z.of_nat i) mode pattern) (seq s n).

Lemma gpio_stream_raw mode pattern s n :
  gpio_stream mode pattern s n = gpio_raw (Z.of_nat (gpio_width mode)) (gpio_values mode pattern s n).
Proof. unfold gpio_stream, gpio_raw, gpio_values, gpio_record. by rewrite map_map, Nat2Z.id. Qed.

(** The samples [next_data_frame] reads back from the packed bytes. *)
Lemma gpio_samples_of mode pattern s n :
  (if gpio_width mode =? 1 then Some (gpio_stream mode pattern s n)
   else map (fun v : fvals HALF_STRUCT_FORMAT => v.1) <$> iter_unpack HALF_STRUCT_FORMAT (gpio_stream mode pattern s n))%nat
  = Some (gpio_values mode pattern s n).
Proof.
  pose proof (fun i => proj2 (synthetic_gpio_value_formula (Z.of_nat i) mode pattern ltac:(lia))) as Hr.
  destruct mode; cbn [gpio_width Nat.eqb] in *.
  - f_equal. unfold gpio_stream, gpio_values, gpio_record. generalize (seq s n). intros l.
    induction l as [|i l IH]; [done|]. cbn [map concat]. rewrite IH. cbn [gpio_width]. unfold to_le.
    rewrite Z.mod_small by (specialize (Hr i); revert Hr; pow_lit; lia). done.
  - unfold gpio_stream. rewrite (iter_unpack_pack HALF_STRUCT_FORMAT
      (map (fun i => (gpio_value (Z.of_nat i) AuxBankMode.INPUT pattern, tt)) (seq s n))).
    + cbn [fmap option_fmap option_map]. rewrite map_map. done.
    + cbn. lia.
    + apply Forall2_fmap_2, Forall2_same_length_lookup_2; [done|].
      intros i a b Ha Hb. assert (a = b) as <- by congruence. specialize (Hr a).
      split; [by split|]. cbn -[fits to_le]. rewrite (proj2 (fits_spec 2 _)) by exact Hr. cbn -[to_le].
      by rewrite app_nil_r.
Qed.

Lemma gpio_payload_at_ok settings sequence first b :
  0 <= first -> settings_to_bytes settings = Ok b ->
  let count := stream_count settings 1 in
  1 <= count <= 4048 /\
  exists payload d, gpio_payload_at settings sequence first count = Ok payload /\ wf_bytes payload /\
    decode_data_payload FrameKind.GPIO_DATA payload count = Ok d /\
    d.(V3DecodedData.payload) = stream_samples settings 1 sequence first /\ encoded_as settings 1 d.
Proof.
  intros Hf Hb. cbv zeta. pose proof (settings_widths settings b Hb) as Hw. set (w := gpio_width (V3Settings.aux_bank_mode settings)).
  assert (Hbits : V3Settings.gpio_width_bits settings = 8 * Z.of_nat w).
  { unfold w. rewrite Hw. case_decide as Hm; [by rewrite Hm|by destruct (V3Settings.aux_bank_mode settings)]. }
  assert (Hw12 : Z.of_nat w = 1 \/ Z.of_nat w = 2) by (unfold w; destruct (V3Settings.aux_bank_mode settings); cbn; lia).
  assert (Hcount : stream_count settings 1 = 4048 / Z.of_nat w).
  { unfold stream_count. rewrite Hbits, (Z.mul_comm 8), Z.div_mul by lia. done. }
  assert (Hrange : 1 <= stream_count settings 1 <= 4048) by (rewrite Hcount; destruct Hw12 as [-> | ->]; vm_compute; split; discriminate).
  split; [done|]. unfold gpio_payload_at, stream_samples.
  set (pattern := if sequence mod 2 =? 0 then ALL_ZERO else HIGH_TRANSITION).
  rewrite synthetic_gpio_payload_stream by lia. cbn [lift mbind result_bind].
  revert Hcount Hrange. generalize (stream_count settings 1). intros count Hcount Hrange.
  pose proof (gpio_samples_of (V3Settings.aux_bank_mode settings) pattern (Z.to_nat first) (Z.to_nat count)) as Hsm. fold w in Hsm.
  set (values := gpio_values (V3Settings.aux_bank_mode settings) pattern (Z.to_nat first) (Z.to_nat count)) in *.
  set (raw := gpio_stream (V3Settings.aux_bank_mode settings) pattern (Z.to_nat first) (Z.to_nat count)) in *.
  assert (Hread : gpio_samples settings raw = Ok values).
  { unfold gpio_samples. rewrite Hbits. destruct Hw12 as [H1|H2].
    - replace w with 1%nat in Hsm by lia. cbn [Nat.eqb] in Hsm. rewrite H1. cbn [Z.eqb Z.mul Pos.eqb Pos.mul].
      exact (f_equal (fun o => match o with Some l => Ok l | None => Err (SimValueError EmptyString) end) Hsm).
    - replace w with 2%nat in Hsm by lia. cbn [Nat.eqb] in Hsm. rewrite H2. cbn [Z.eqb Z.mul Pos.eqb Pos.mul].
      destruct (iter_unpack HALF_STRUCT_FORMAT raw) as [vs|]; [|discriminate]. exact (f_equal (fun o => match o with Some l => Ok l | None => Err (SimValueError EmptyString) end) Hsm). }
  rewrite Hread. cbn [mbind result_bind].
  assert (Hlv : zlen values = count) by (unfold zlen, values, gpio_values; rewrite length_map, length_seq; lia).
  destruct (gpio_roundtrip (Z.of_nat w) values (V3Settings.gpio_policy settings)) as (payload & enc & He & Hwp & Hd & _ & Henc).
  - done.
  - rewrite Hlv, <-Hcount. lia.
  - unfold values, gpio_values. apply Forall_fmap, Forall_true. intros i. unfold compose, gpio_item_ok.
    apply synthetic_gpio_value_formula. lia.
  - rewrite Hbits, He. rewrite Hlv in Hd. eexists payload, _. split; [done|]. split; [done|]. split; [exact Hd|].
    cbn [V3DecodedData.payload]. split; [symmetry; apply gpio_stream_raw|].
    split; cbn [V3DecodedData.item_bytes V3DecodedData.encoding]; [lia|].
    destruct Henc as [(_ & Hpol & _)|Hraw]; [by left|by right].
Qed.

Lemma stream_payload_ok settings stream sequence first b :
  0 <= first -> settings_to_bytes settings = Ok b ->
  let count := stream_count settings stream in
  1 <= count <= (if decide (stream_kind stream = FrameKind.ADC_DATA) then 1012 else 4048) /\
  exists payload d, stream_payload settings stream sequence first = Ok payload /\ wf_bytes payload /\
    decode_data_payload (stream_kind stream) payload count = Ok d /\
    d.(V3DecodedData.payload) = stream_samples settings stream sequence first /\ encoded_as settings stream d.
Proof.
  intros Hf Hb. destruct stream as [|n].
  - cbv zeta. unfold stream_payload, stream_kind, stream_samples. change (stream_count settings 0) with 1012.
    split; [rewrite decide_True by done; lia|]. destruct (adc_payload_at_ok settings first 1012 Hf) as (p & d & ?); [lia|eauto].
  - exact (gpio_payload_at_ok settings sequence first b Hf Hb).
Qed.

Lemma data_flags_range settings e stream :
  let f := data_flags settings e stream in
  0 <= f < 16 /\ Z.testbit f 3 = false /\
  Z.testbit f 0 = bool_decide (settings.(V3Settings.source) = Source.SYNTHETIC) /\
  Z.testbit f 1 = at_stream e.(Epoch.gap_before) stream /\
  Z.testbit f 2 = at_stream e.(Epoch.epoch_start) stream.
Proof.
  cbv zeta. unfold data_flags. destruct (V3Settings.source settings), (at_stream (Epoch.epoch_start e) stream),
    (at_stream (Epoch.gap_before e) stream); vm_compute; repeat split; intros; try discriminate.
Qed.

Lemma enabled_streams_nonempty settings b :
  settings_to_bytes settings = Ok b -> enabled_streams settings <> [].
Proof.
  intros H. destruct (settings_bytes_facts settings b H) as (_ & _ & _ & Hm). unfold enabled_streams.
  destruct (V3Settings.stream_mask settings) as [|[[p|p|]|[p|p|]|]|p]; try lia; done.
Qed.

(** The frame the device owes next on [stream], and the device after it. *)
Definition owed_frame (d : SimulatedV3Device) (stream : nat) (wire : bytes) (d' : SimulatedV3Device) : Prop :=
  let settings := d.(SimulatedV3Device._settings) in
  let e := d.(SimulatedV3Device._epoch) in
  let first := at_stream e.(Epoch.items) stream in
  let sequence := at_stream e.(Epoch.frames) stream in
  let count := stream_count settings stream in
  wf_bytes wire /\
  (exists f s, decode_v3_frame wire = Ok f /\
     f.(V3Frame.header) =
       new_header (stream_kind stream) (data_flags settings e stream) (48 + zlen f.(V3Frame.payload))
         (zlen f.(V3Frame.payload)) d.(SimulatedV3Device._run_id) (sequence mod 2 ^ 32) 0 (8 * first) count /\
     decode_data_payload (stream_kind stream) f.(V3Frame.payload) count = Ok s /\
     s.(V3DecodedData.payload) = stream_samples settings stream sequence first /\ encoded_as settings stream s) /\
  d' = set_epoch (advance e stream sequence first count (length (enabled_streams settings))) d.

Lemma advance_inv e stream count n pending :
  epoch_inv e false -> 1 <= count ->
  (at_stream e.(Epoch.items) stream + count) * 8 <= _U64_MAX ->
  epoch_inv (advance e stream (at_stream e.(Epoch.frames) stream) (at_stream e.(Epoch.items) stream) count n) pending.
Proof.
  intros [Hf Hi _ _] Hc Hlim.
  assert (Hi' : at_stream e.(Epoch.items) stream + count <= _U64_MAX / 8) by (apply Z.div_le_lower_bound; lia).
  assert (HU : _U64_MAX / 8 <= _U64_MAX) by (vm_compute; discriminate).
  pose proof (Hf stream) as Hfs. pose proof (Hi stream) as His. unfold counters_ok in *.
  assert (Hmin : forall a, a <= _U64_MAX / 8 -> Z.min a _U64_MAX = a) by lia.
  unfold advance. rewrite !Hmin by lia.
  assert (Hat : forall A (p : per_stream A) a s, at_stream (set_stream stream a p) s
    = if (match s, stream with O, O | S _, S _ => true | _, _ => false end) then a else at_stream p s).
  { intros A p a [|s]; by destruct stream. }
  split; cbn [Epoch.frames Epoch.items Epoch.frames_dropped Epoch.items_dropped Epoch.last_stream_index Epoch.last_item_count].
  - intros s. rewrite !Hat. unfold counters_ok. specialize (Hf s). specialize (Hi s). destruct s, stream; cbn in *; lia.
  - intros s. rewrite !Hat. unfold counters_ok. specialize (Hi s). destruct s, stream; cbn in *; lia.
  - lia.
  - intros _. unfold unaccounted. cbn [Epoch.frames Epoch.items Epoch.frames_dropped Epoch.items_dropped Epoch.last_stream_index Epoch.last_item_count].
    cbv zeta. rewrite !Hat. destruct stream; cbn in *; lia.
Qed.

Lemma advance_device_inv d stream count n :
  device_inv d -> d.(SimulatedV3Device._state) = DeviceState.RUNNING ->
  d.(SimulatedV3Device._pending_data) = false -> 1 <= count ->
  let e := d.(SimulatedV3Device._epoch) in
  (at_stream e.(Epoch.items) stream + count) * 8 <= _U64_MAX ->
  let d' := set_epoch (advance e stream (at_stream e.(Epoch.frames) stream) (at_stream e.(Epoch.items) stream) count n) d in
  device_inv d' /\ device_inv (set_pending_data true d').
Proof.
  intros H Hr Hp Hc e Hlim d'. pose proof (di_epoch d H) as He. rewrite Hp in He.
  pose proof (fun p => advance_inv e stream count n p He Hc Hlim) as Ha.
  destruct H. split; split; try done; cbn; try apply Ha; congruence.
Qed.

Lemma next_data_frame_ok d :
  device_inv d ->
  (next_data_frame d = Ok (d, None) /\
     (d.(SimulatedV3Device._state) <> DeviceState.RUNNING \/ d.(SimulatedV3Device._pending_data) = true)) \/
  (d.(SimulatedV3Device._state) = DeviceState.RUNNING /\ d.(SimulatedV3Device._pending_data) = false /\
   exists stream, let e := d.(SimulatedV3Device._epoch) in
     let settings := d.(SimulatedV3Device._settings) in
     enabled_streams settings !! (e.(Epoch.next_stream_index) mod length (enabled_streams settings))%nat = Some stream /\
     ((next_data_frame d = Ok (set_state DeviceState.STOPPED d, None) /\ device_inv (set_state DeviceState.STOPPED d) /\
       2 ^ 64 <= (at_stream e.(Epoch.items) stream + stream_count settings stream) * 8) \/
      (exists wire d', next_data_frame d = Ok (d', Some wire) /\ owed_frame d stream wire d' /\
         device_inv d' /\ device_inv (set_pending_data true d')))).
Proof.
  intros H. unfold next_data_frame.
  destruct (decide (SimulatedV3Device._state d = DeviceState.RUNNING)) as [Hr|Hr].
  2: { left. rewrite bool_decide_eq_false_2 by done. split; [done|by left]. }
  destruct (SimulatedV3Device._pending_data d) eqn:Hp.
  { left. rewrite orb_true_r. split; [done|by right]. }
  right. split; [done|]. split; [done|]. rewrite bool_decide_eq_true_2 by done. cbn [negb orb]. cbv zeta.
  set (settings := SimulatedV3Device._settings d). set (e := SimulatedV3Device._epoch d).
  destruct (di_caps d H) as [cp Hcp]. destruct (capability_settings _ _ _ Hcp (di_settings d H)) as [b Hb].
  fold settings in Hb. pose proof (enabled_streams_nonempty settings b Hb) as Hne.
  destruct (lookup_lt_is_Some_2 (enabled_streams settings)
    (Epoch.next_stream_index e mod length (enabled_streams settings))%nat) as [stream Hs].
  { apply Nat.mod_upper_bound. by destruct (enabled_streams settings). }
  exists stream. split; [done|]. rewrite Hs. cbn [of_option mbind result_bind].
  pose proof (di_epoch d H) as He. fold e in He. rewrite Hp in He.
  pose proof (ei_frames _ _ He stream) as Hf. pose proof (ei_items _ _ He stream) as Hi. unfold counters_ok in Hf, Hi.
  set (first := at_stream (Epoch.items e) stream) in *. set (sequence := at_stream (Epoch.frames e) stream) in *.
  destruct (stream_payload_ok settings stream sequence first b) as (Hc & payload & s & Hpay & Hwp & Hdec & Hraw & Henc_s);
    [unfold first; lia|done|]. set (count := stream_count settings stream) in *.
  unfold stream_payload in Hpay. fold count in Hpay. rewrite Hpay. cbn [mbind result_bind].
  change ADC_PAIR_PERIOD_TICKS with 8. destruct (Z.ltb_spec _U64_MAX ((first + count) * 8)) as [Hlim|Hlim].
  { left. split; [done|]. split; [|unfold _U64_MAX in Hlim; change (Z.shiftl 1 64) with (2 ^ 64) in Hlim; lia].
    pose proof (di_epoch d H) as Hep. destruct H. split; try done. }
  right. destruct (advance_device_inv d stream count (length (enabled_streams settings)) H Hr Hp) as [H1 H2]; [lia|done|].
  fold e first sequence in H1, H2.
  set (h := new_header (stream_kind stream) (data_flags settings e stream) (48 + zlen payload) (zlen payload)
              (SimulatedV3Device._run_id d) (sequence mod 2 ^ 32) 0 (first * 8) count).
  destruct (data_flags_range settings e stream) as (Hfr & Hb3 & _).
  pose proof (decode_data_size _ _ _ _ Hdec) as Hsz. pose proof (di_run d H) as Hrun.
  assert (Hrz : SimulatedV3Device._run_id d <> 0) by (apply (di_active d H); by rewrite Hr).
  change _U64_MAX with (2 ^ 64 - 1) in Hlim.
  assert (Hdk : _DATA_KINDS (stream_kind stream) = true) by (by destruct stream).
  destruct (encode_data_frame h payload s Hwp) as (wire & f & Henc & Hfw & Hfh & Hfp & _).
  - split; [done|]. split; [done|]. split; [done|]. split.
    { split; [done|]. split; [apply Z.mod_pos_bound; lia|]. cbn. lia. }
    cbn [h new_header V3FrameHeader.kind]. rewrite Hdk. unfold data_header_wf, h.
    cbn [new_header V3FrameHeader.kind V3FrameHeader.flags V3FrameHeader.payload_length V3FrameHeader.run_id
      V3FrameHeader.request_id V3FrameHeader.item_count V3FrameHeader.first_sample_ticks].
    split; [unfold DATA_PREFIX_BYTES, MAX_ENCODED_SAMPLE_BYTES; lia|]. split; [done|].
    split; [by rewrite Hb3|]. split; [done|]. split; [done|]. split; [exact Hc|].
    split; [by exists first|]. lia.
  - done.
  - exact Hdk.
  - exact Hdec.
  - change 4294967295 with (2 ^ 32 - 1). rewrite land_ones_mod by lia.
    cbn [h new_header V3FrameHeader.kind V3FrameHeader.flags V3FrameHeader.run_id V3FrameHeader.sequence
      V3FrameHeader.request_id V3FrameHeader.first_sample_ticks V3FrameHeader.item_count] in Henc.
    rewrite Henc. cbn [lift mbind result_bind]. eexists wire, _. split; [done|]. split; [|done].
    destruct (frame_on_wire_size f wire Hfw) as (Hww & _). split; [done|].
    split; [|done]. exists f, s. split; [by apply decode_v3_frame_iff|]. rewrite Hfp, Hfh. fold settings e first sequence count.
    split; [unfold h; f_equal; lia|]. done.
Qed.

(** ** Sequences of public calls *)

Inductive device_call :=
| Receive (data : bytes)
| NextFrame
| SetPending (pending : bool)
| DiscardData
| Reboot
| BeginSession
| TransportFault.

Definition apply_call (d : SimulatedV3Device) (c : device_call) : sim (SimulatedV3Device * list bytes) :=
  match c with
  | Receive data => device_receive d data
  | NextFrame => '(d, frame) ← next_data_frame d; Ok (d, option_list frame)
  | SetPending pending => Ok (set_transport_pending_data pending d, [])
  | DiscardData => Ok (discard_transport_data d, [])
  | Reboot => Ok (reboot d, [])
  | BeginSession => Ok (begin_host_session d, [])
  | TransportFault => Ok (record_transport_error d, [])
  end.

Fixpoint apply_calls (d : SimulatedV3Device) (calls : list device_call) : sim (SimulatedV3Device * list bytes) :=
  match calls with
  | [] => Ok (d, [])
  | c :: calls =>
      '(d, out) ← apply_call d c;
      '(d, more) ← apply_calls d calls;
      Ok (d, out ++ more)
  end.

(** A transport may hold a frame of the device: the run is not over, and a frame was produced
    that is not yet counted as dropped. *)
Definition holdable (d : SimulatedV3Device) : Prop :=
  d.(SimulatedV3Device._state) <> DeviceState.STOPPED /\ unaccounted d.(SimulatedV3Device._epoch).

(** The caller's side: [receive] gets bytes, at most [max_receive_bytes] of them, and a frame
    is reported as pending only when there is one to hold. *)
Definition call_ok (d : SimulatedV3Device) (c : device_call) : Prop :=
  match c with
  | Receive data => wf_bytes data /\ zlen data <= d.(SimulatedV3Device._max_receive_bytes)
  | SetPending true => holdable d
  | _ => True
  end.

Fixpoint calls_ok (d : SimulatedV3Device) (calls : list device_call) : Prop :=
  match calls with
  | [] => True
  | c :: calls => call_ok d c /\ forall d' out, apply_call d c = Ok (d', out) -> calls_ok d' calls
  end.

#[export] Instance unaccounted_dec e : Decision (unaccounted e).
Proof. unfold unaccounted. cbv zeta. apply _. Defined.
#[export] Instance holdable_dec d : Decision (holdable d).
Proof. unfold holdable. apply _. Defined.
#[export] Instance call_ok_dec d c : Decision (call_ok d c).
Proof. destruct c as [data| |[]| | | |]; cbn [call_ok]; apply _. Defined.

(** [calls_ok], computed. *)
Fixpoint calls_okb (d : SimulatedV3Device) (calls : list device_call) : bool :=
  match calls with
  | [] => true
  | c :: calls => bool_decide (call_ok d c) && match apply_call d c with Ok (d, _) => calls_okb d calls | Err _ => true end
  end.

Lemma calls_okb_sound calls : forall d, calls_okb d calls = true -> calls_ok d calls.
Proof.
  induction calls as [|c calls IH]; [done|]. intros d H. cbn [calls_okb] in H.
  apply andb_true_iff in H as [Hc%bool_decide_eq_true H]. split; [done|]. intros d' out He. rewrite He in H. by apply IH.
Qed.

Lemma next_frames_ok n : forall d, calls_ok d (replicate n NextFrame).
Proof. induction n as [|n IH]; [done|]. intros d. split; [done|]. intros d' out _. apply IH. Qed.

(** What leaves the device is always a frame the host decodes. *)
Definition emits (wire : bytes) : Prop := wf_bytes wire /\ exists f, decode_v3_frame wire = Ok f.

Lemma drained_inv d : device_inv d -> device_inv (set_transport_pending_data false d).
Proof.
  intros [? ? ? ? ? ? ? ? Hact Hstop Hdrain [? ? ? ?] ?]. unfold set_transport_pending_data. cbn [negb andb].
  case_bool_decide as Hs; split; try done; cbn; try done; split; done.
Qed.

Lemma pending_inv d : device_inv d -> holdable d -> device_inv (set_transport_pending_data true d).
Proof. intros [? ? ? ? ? ? ? ? Hact Hstop Hdrain [? ? ? ?] ?] [Hs Hu]. by split. Qed.

Lemma discard_inv d : device_inv d -> device_inv (discard_transport_data d).
Proof.
  intros H. unfold discard_transport_data. destruct (SimulatedV3Device._pending_data d) eqn:Hp;
    [|by apply drained_inv].
  pose proof (di_epoch d H) as [Hf Hi Hn Hpd]. rewrite Hp in Hpd. specialize (Hpd eq_refl). unfold unaccounted in Hpd. cbv zeta in Hpd.
  set (e := SimulatedV3Device._epoch d) in *. set (k := Epoch.last_stream_index e) in *.
  assert (HU : _U64_MAX / 8 <= _U64_MAX) by (vm_compute; discriminate).
  pose proof (Hf k) as Hfk. pose proof (Hi k) as Hik. unfold counters_ok in Hfk, Hik.
  assert (Hat : forall A (p : per_stream A) a s, at_stream (set_stream k a p) s
    = if (match s, k with O, O | S _, S _ => true | _, _ => false end) then a else at_stream p s).
  { intros A p a [|s]; by destruct k. }
  assert (He : epoch_inv (SimulatedV3Device._epoch (set_epoch
        (Epoch.mk e.(Epoch.frames) e.(Epoch.items)
           (set_stream k (Z.min (at_stream e.(Epoch.frames_dropped) k + 1) _U64_MAX) e.(Epoch.frames_dropped))
           (set_stream k (Z.min (at_stream e.(Epoch.items_dropped) k + e.(Epoch.last_item_count)) _U64_MAX)
              e.(Epoch.items_dropped))
           (set_stream k true e.(Epoch.gap_before)) (set_stream k e.(Epoch.last_epoch_start) e.(Epoch.epoch_start))
           e.(Epoch.last_epoch_start) e.(Epoch.next_stream_index) k e.(Epoch.last_item_count)) d)) false).
  { split; [| |exact Hn|discriminate]; intros s; cbn [SimulatedV3Device._epoch set_epoch Epoch.frames Epoch.items
      Epoch.frames_dropped Epoch.items_dropped]; rewrite !Hat; unfold counters_ok; specialize (Hf s);
      specialize (Hi s); unfold counters_ok in Hf, Hi; destruct s, k; cbn in *; lia. }
  destruct H. unfold set_transport_pending_data. cbn [negb andb].
  case_bool_decide as Hs; split; try done; cbn; try exact He; try done; congruence.
Qed.

Lemma reboot_inv d : device_inv d -> device_inv (reboot d).
Proof.
  intros H. destruct (di_caps d H) as [p Hp]. pose proof (capability_defaults _ _ Hp) as Hd.
  pose proof (configurations_cpu d _ H Hd) as Hc. destruct H.
  unfold reboot. split; try done; cbn.
  - unfold info in *. cbn. by rewrite Hc.
  - by apply reset_inv.
  - unfold unread. cbn. rewrite ?drop_nil. constructor.
  - split; [constructor|cbn; lia].
  - by apply reset_epoch_inv.
Qed.

Lemma begin_session_inv d : device_inv d -> device_inv (begin_host_session d).
Proof.
  intros []. unfold begin_host_session. split; try done; cbn.
  - by apply reset_session_inv.
  - unfold unread. cbn. rewrite ?drop_nil. constructor.
  - split; [constructor|cbn; lia].
Qed.

Lemma transport_error_inv d : device_inv d -> device_inv (record_transport_error d).
Proof. intros []. by split. Qed.

(** The device with capabilities [caps], as the constructor leaves it. *)
Definition fresh_device (build_id : text) (max_bytes max_requests : Z) (caps : V3Capabilities)
    (settings : V3Settings) : SimulatedV3Device :=
  reboot (SimulatedV3Device.mk build_id max_bytes max_requests caps new_parser [] settings
            DeviceState.STOPPED 0 false 0 _reset_epoch).

Lemma fresh_device_inv build_id max_bytes max_requests caps settings p i q :
  capabilities_to_payload caps = Ok p ->
  (forall s, s ∈ caps.(V3Capabilities.configurations) ->
     s.(V3Settings.cpu_profile) = caps.(V3Capabilities.defaults).(V3Settings.cpu_profile)) ->
  info (fresh_device build_id max_bytes max_requests caps settings) = Ok i -> info_to_payload i = Ok q ->
  48 <= max_bytes -> 0 < max_requests ->
  device_inv (fresh_device build_id max_bytes max_requests caps settings).
Proof.
  intros Hcp Hcpu Hi Hq Hb Hr. pose proof (capability_defaults _ _ Hcp) as Hdef.
  split; try done; [by exists p|by exists i, q|apply reset_inv, new_parser_inv| | |].
  - unfold unread. cbn. constructor.
  - split; [constructor|cbn; lia].
  - by apply reset_epoch_inv.
Qed.

Lemma restricted_capabilities canonical :
  capabilities_canonical = Ok canonical -> exists p, capabilities_to_payload (restrict_cpu canonical) = Ok p.
Proof.
  intros H. vm_compute in H. apply Ok_inj in H. subst canonical. eexists. vm_compute. reflexivity.
Qed.

Lemma lift_Ok_inv {E A} (f : E -> sim_error) (m : result E A) a : lift f m = Ok a -> m = Ok a.
Proof. destruct m; [|discriminate]. intros H. apply Ok_inj in H. by subst. Qed.

Lemma init_device_inv build_id max_bytes max_requests d :
  init_device build_id max_bytes max_requests = Ok d ->
  device_inv d /\ d.(SimulatedV3Device._max_receive_bytes) = max_bytes /\
  d.(SimulatedV3Device._max_requests_per_receive) = max_requests.
Proof.
  unfold init_device. intros H. apply require_bind in H as [Hb H]. apply require_bind in H as [Hr H].
  apply bind_Ok_inv in H as (canonical & Hc & H). apply lift_Ok_inv in Hc. cbv zeta in H.
  apply bind_Ok_inv in H as (parser & Hp & H).
  apply of_option_Ok_inv in Hp. rewrite init_parser_new in Hp. apply Some_inj' in Hp. subst parser.
  change (reboot _) with (fresh_device build_id max_bytes max_requests (restrict_cpu canonical)
    (V3Capabilities.defaults canonical)) in H.
  destruct (restricted_capabilities canonical Hc) as [p Hcp].
  apply bind_Ok_inv in H as (i & Hi & H). apply lift_Ok_inv in Hi.
  apply bind_Ok_inv in H as (q & Hq & H). apply lift_Ok_inv in Hq.
  apply Ok_inj in H. subst d. apply Z.leb_le in Hb. apply Z.ltb_lt in Hr. split; [|split; reflexivity].
  eapply fresh_device_inv; [exact Hcp| |exact Hi|exact Hq|exact Hb|exact Hr].
  intros s Hs. unfold restrict_cpu in Hs |- *. cbn [V3Capabilities.configurations V3Capabilities.defaults] in *.
  by apply list_elem_of_filter in Hs as [? _].
Qed.

Lemma apply_call_ok d c :
  device_inv d -> call_ok d c -> exists d' out, apply_call d c = Ok (d', out) /\ device_inv d' /\ Forall emits out.
Proof.
  intros H Hc. destruct c as [data| |[]| | | |]; cbn [apply_call].
  - destruct Hc as [Hw Hl]. destruct (device_receive_ok d data H Hw Hl)
      as (p & wires & d' & replies & _ & -> & H' & _ & Ha).
    exists d', replies. split; [done|]. split; [done|].
    eapply Forall2_Forall_r; [exact Ha|]. apply Forall_true. intros w reply (r & Hwr & _ & (f & Hf & _) & _).
    split; [done|by exists f].
  - destruct (next_data_frame_ok d H) as [[-> _]|(_ & _ & s & _ & [(-> & H1 & _)|(wire & d' & -> & Ho & H1 & _)])];
      cbn [mbind result_bind option_list]; [exists d, []|eexists _, []|exists d', [wire]]; try (by split_and!).
    destruct Ho as (Hw & (f & _ & Hf & _) & ->). split_and!; try done. repeat constructor; [done|by exists f].
  - eexists _, []. split; [done|]. split; [by apply pending_inv|constructor].
  - eexists _, []. split; [done|]. split; [by apply drained_inv|constructor].
  - eexists _, []. split; [done|]. split; [by apply discard_inv|constructor].
  - eexists _, []. split; [done|]. split; [by apply reboot_inv|constructor].
  - eexists _, []. split; [done|]. split; [by apply begin_session_inv|constructor].
  - eexists _, []. split; [done|]. split; [by apply transport_error_inv|constructor].
Qed.

Lemma apply_calls_ok calls d :
  device_inv d -> calls_ok d calls ->
  exists d' out, apply_calls d calls = Ok (d', out) /\ device_inv d' /\ Forall emits out.
Proof.
  revert d. induction calls as [|c calls IH]; intros d H Hc; [by exists d, []|].
  destruct Hc as [Hc Hcs]. destruct (apply_call_ok d c H Hc) as (d1 & o1 & He & H1 & Ho1).
  destruct (IH d1 H1 (Hcs _ _ He)) as (d2 & o2 & He2 & H2 & Ho2).
  exists d2, (o1 ++ o2). cbn [apply_calls]. rewrite He. cbn [mbind result_bind]. rewrite He2.
  split; [done|]. split; [done|]. by apply Forall_app.
Qed.

(** ** The host's commands *)

Lemma command_request c wire :
  command_to_bytes c = Ok wire ->
  wf_bytes wire /\ (48 <= length wire)%nat /\ 0 < c.(V3Command.request_id) < 2 ^ 32 /\
  (exists total checksum size,
    request_fields wire = (MAGIC, (PROTOCOL_VERSION, (int_of c.(V3Command.kind), (0, (HEADER_SIZE, (checksum, (0, (total, (size,
      (0, (0, (c.(V3Command.request_id), (0, (0, tt)))))))))))))) /\
    size = (if decide (c.(V3Command.kind) = CommandKind.CONFIGURE) then SETTINGS_PAYLOAD_SIZE else 0) /\
    total = 48 + size /\ checksum = int_of ChecksumAlgorithm.ADLER32 /\ zlen wire = total) /\
  match c.(V3Command.settings) with
  | Some s => c.(V3Command.kind) = CommandKind.CONFIGURE /\ settings_to_bytes s = Ok (configure_payload wire)
  | None => c.(V3Command.kind) <> CommandKind.CONFIGURE
  end.
Proof.
  intros H. destruct (command_forward c wire H) as (f & Hf & Hc).
  destruct (frame_on_wire_size f wire Hf) as (Hw & Hz & Hl).
  unfold command_to_bytes in H. apply require_bind in H as [Hcs H]. apply bool_decide_eq_true in Hcs.
  apply bind_Ok_inv in H as (payload & Hp & H).
  assert (Hwp : wf_bytes payload).
  { destruct (V3Command.settings c) as [s|]; [by destruct (settings_bytes_facts s _ Hp) as (_ & ? & _)|].
    apply Ok_inj in Hp. subst. constructor. }
  apply encode_v3_frame_Ok in H as (k & f' & Hk & _ & Hf' & Hpf & Hh); [|done].
  rewrite <-(frame_on_wire_det f f' wire Hf Hf') in *. clear f' Hf'.
  destruct (command_kind_request _ _ Hk) as (Hnd & Hrk & Hcfg).
  destruct Hf as (head & Hhead & Hwf & _ & Hlp & _ & Hwire & _).
  pose proof Hwf as (_ & _ & _ & Hiw & Hreq). rewrite Hh in Hreq, Hiw. cbn [new_header V3FrameHeader.kind] in Hreq.
  rewrite Hnd, Hrk in Hreq. destruct Hreq as (_ & _ & _ & Hq & Hsize). destruct Hiw as (_ & _ & Hqr & _).
  cbn [new_header V3FrameHeader.request_id V3FrameHeader.payload_length V3FrameHeader.kind] in Hq, Hqr, Hsize.
  destruct (header_wf_to_bytes _ Hwf) as (head' & Hh' & _ & Hlh). assert (head' = head) as -> by congruence.
  split; [done|]. split; [unfold zlen in *; lia|]. split; [lia|]. split.
  - eexists (48 + zlen payload), _, (zlen payload). split_and!; [| |done|reflexivity|by rewrite Hz, Hh].
    + unfold request_fields. rewrite Hwire. unfold header_to_bytes in Hhead. apply of_option_Ok_inv in Hhead.
      rewrite (unpack_fields_pack _ _ _ _ (header_wf_fields _ Hwf) Hhead). rewrite Hh. unfold header_fields.
      cbn [new_header V3FrameHeader.kind V3FrameHeader.flags V3FrameHeader.total_length V3FrameHeader.payload_length
        V3FrameHeader.run_id V3FrameHeader.sequence V3FrameHeader.request_id V3FrameHeader.first_sample_ticks
        V3FrameHeader.item_count V3FrameHeader.version V3FrameHeader.header_length V3FrameHeader.checksum_algorithm].
      rewrite <-Hk. reflexivity.
    + rewrite Hsize. destruct (decide (V3Command.kind c = CommandKind.CONFIGURE)) as [Hc1|Hc1];
        destruct (decide (k = FrameKind.CONFIGURE_REQUEST)) as [Hc2|Hc2]; tauto.
  - assert (Hcp : configure_payload wire = payload).
    { unfold configure_payload, slice. rewrite Hwire, Hpf. change (Z.to_nat HEADER_SIZE) with 44%nat.
      rewrite drop_app_exact by done. apply take_app_exact. rewrite !length_app, length_to_le, Hlh. lia. }
    destruct (V3Command.settings c) as [s|]; [|intros Hx; apply Hcs in Hx as [? ?]; discriminate].
    split; [apply Hcs; by eexists|]. by rewrite Hcp.
Qed.

(** The reply to a host command: it passes the host's checks, and either the state
    machine accepts the command and the value tells the new state, or the command is
    refused for the reason the machine gives and nothing moves. *)
Definition command_outcome (d : SimulatedV3Device) (c : V3Command) (busy : bool)
    (d' : SimulatedV3Device) (r : V3Response) : Prop :=
  validate_for r c = Ok tt /\
  ((exists v, busy = false /\ r.(V3Response.status) = ResponseStatus.OK /\ r.(V3Response.value) = Some v /\
      r.(V3Response.run_id) = d'.(SimulatedV3Device._run_id) /\
      value_kind_ok (COMMAND_RESPONSE_KINDS c.(V3Command.kind)) d'.(SimulatedV3Device._run_id) v /\
      reports d' v /\
      accepted (supported d) c.(V3Command.kind) c.(V3Command.settings) (snapshot d) (snapshot d') /\
      (c.(V3Command.kind) = CommandKind.START -> d'.(SimulatedV3Device._epoch) = _reset_epoch)) \/
   (r.(V3Response.status) = ResponseStatus.ERROR /\ r.(V3Response.value) = None /\
      refused (supported d) c.(V3Command.kind) c.(V3Command.settings) busy (snapshot d) r.(V3Response.error_code) /\
      snapshot d' = snapshot d)).

Lemma reply_kind_command k : reply_kind (int_of k) = COMMAND_RESPONSE_KINDS k.
Proof. unfold reply_kind. by rewrite enum_of_int. Qed.

Lemma validate_error d c e :
  e <> ErrorCode.OK ->
  validate_for (error_response d (int_of c.(V3Command.kind)) c.(V3Command.request_id) e) c = Ok tt.
Proof.
  intros _. unfold validate_for, error_response.
  cbn [V3Response.request_id V3Response.kind V3Response.status].
  rewrite Z.eqb_refl, reply_kind_command.
  rewrite (bool_decide_eq_true_2 (COMMAND_RESPONSE_KINDS _ = COMMAND_RESPONSE_KINDS _)) by done.
  by rewrite (bool_decide_eq_false_2 (ResponseStatus.ERROR = ResponseStatus.OK)) by done.
Qed.

Lemma validate_ok d k c v :
  reports d v -> value_kind_ok (COMMAND_RESPONSE_KINDS c.(V3Command.kind)) d.(SimulatedV3Device._run_id) v ->
  k = c.(V3Command.kind) ->
  (k = CommandKind.CONFIGURE -> c.(V3Command.settings) = Some d.(SimulatedV3Device._settings)) ->
  validate_for (ok_response d (int_of k) c.(V3Command.request_id) v) c = Ok tt.
Proof.
  intros Hr Hk -> Hc. unfold validate_for, ok_response.
  cbn [V3Response.request_id V3Response.kind V3Response.status V3Response.value].
  rewrite Z.eqb_refl, reply_kind_command.
  rewrite (bool_decide_eq_true_2 (COMMAND_RESPONSE_KINDS _ = COMMAND_RESPONSE_KINDS _)) by done.
  rewrite (bool_decide_eq_true_2 (ResponseStatus.OK = ResponseStatus.OK)) by done.
  cbn [_require require mbind result_bind andb].
  case_bool_decide as Hcf; [|done]. rewrite Hcf in Hk. specialize (Hc Hcf).
  destruct v; cbn [value_kind_ok COMMAND_RESPONSE_KINDS] in Hk; [done|done| |by destruct Hk|by destruct Hk].
  apply applied_value in Hr as [Hr _]. rewrite Hr, Hc. by rewrite bool_decide_eq_true_2.
Qed.

Lemma accepted_configure supp k c s s' : accepted supp k (Some c) s s' -> s'.(Snapshot.settings) = c.
Proof. inversion 1. done. Qed.

Lemma known_command_ok d wire busy c size :
  device_inv d -> wf_bytes wire -> 0 < c.(V3Command.request_id) < 2 ^ 32 ->
  size = (if decide (c.(V3Command.kind) = CommandKind.CONFIGURE) then SETTINGS_PAYLOAD_SIZE else 0) ->
  match c.(V3Command.settings) with
  | Some s => c.(V3Command.kind) = CommandKind.CONFIGURE /\ settings_to_bytes s = Ok (configure_payload wire)
  | None => c.(V3Command.kind) <> CommandKind.CONFIGURE
  end ->
  exists d' reply r,
    handle_known d wire busy c.(V3Command.kind) 0 0 size 0 0 c.(V3Command.request_id) 0 0 = Ok (d', reply) /\
    device_inv d' /\ same_frame d d' /\
    answers (int_of c.(V3Command.kind)) c.(V3Command.request_id) reply r /\ command_outcome d c busy d' r.
Proof.
  intros H Hw Hq Hsize Hcs. set (k := V3Command.kind c) in *. set (q := V3Command.request_id c) in *.
  pose proof (di_run d H) as Hrun.
  assert (Hkind : 0 <= int_of k < 256) by (destruct k; cbn; lia).
  assert (Herr : forall e, e <> ErrorCode.OK -> refused (supported d) k (V3Command.settings c) busy (snapshot d) e ->
    exists d' reply r, reply_error d (int_of k) q e = Ok (d', reply) /\
    device_inv d' /\ same_frame d d' /\ answers (int_of k) q reply r /\ command_outcome d c busy d' r).
  { intros e He Hrf. destruct (reply_error_answers d (int_of k) q e Hrun) as (reply & Hr & Ha); [lia|done|done|lia|].
    exists d, reply, (error_response d (int_of k) q e). do 3 (split; [done|]). split; [done|].
    split; [by apply validate_error|]. right. by split_and!. }
  unfold handle_known. cbv zeta.
  assert (Hcf : check_fields k 0 0 size 0 0 0 0 = None).
  { unfold check_fields. rewrite Hsize. by destruct k. }
  rewrite Hcf. assert (Hgo : forall c', settings_of c' = V3Command.settings c ->
    match c' with Candidate s => k = CommandKind.CONFIGURE /\ s ∈ supported d | _ => k <> CommandKind.CONFIGURE end ->
    busy = false -> busy_state d k = None -> exists d' reply r,
    ('(d, value) ← execute d k c'; reply ← _reply d (int_of k) q (Some value) ErrorCode.OK; Ok (d, reply))
      = Ok (d', reply) /\
    device_inv d' /\ same_frame d d' /\ answers (int_of k) q reply r /\ command_outcome d c busy d' r).
  { intros c' Hset Hc' Hbz Hb.
    destruct (execute_ok d k c' H Hb Hc') as (d' & v & p & He & H' & Hsf & Hac & Hrep & Hvk & Hvv & Hvp & Hep).
    rewrite He. cbn [mbind result_bind].
    destruct (reply_ok_answers d' k q v p (di_run d' H') Hq Hvk Hvv Hvp) as (reply & Hr & Ha).
    rewrite Hr. cbn [mbind result_bind]. exists d', reply, (ok_response d' (int_of k) q v).
    do 3 (split; [done|]). split; [done|]. split.
    - apply validate_ok; [done|done|done|]. intros Hk.
      destruct c' as [|s| |]; [by destruct Hc'| |by destruct Hc'..]. cbn [settings_of] in *.
      rewrite <-Hset. f_equal. exact (eq_sym (accepted_configure _ _ _ _ _ Hac)).
    - left. exists v. rewrite <-Hset. by split_and!. }
  assert (Hbusy : forall e, busy_state d k = Some e -> busy = false -> e <> ErrorCode.OK /\
    refused (supported d) k (V3Command.settings c) busy (snapshot d) e).
  { intros e Hb ->. split; [intros ->; unfold busy_state in Hb; by repeat case_match|].
    assert (Hin : k ∈ [CommandKind.CONFIGURE; CommandKind.START]).
    { destruct (decide (k ∈ [CommandKind.CONFIGURE; CommandKind.START])); [done|]. by rewrite busy_state_free in Hb. }
    apply refuse_state; [done|]. by rewrite <-(busy_state_refusal d k H). }
  pose proof (parse_candidate_cases d k wire H Hw) as Hpc.
  destruct (parse_candidate d k wire) as [c'|]; [|done]. cbn [mbind result_bind].
  destruct (V3Command.settings c) as [s|] eqn:Hst.
  - destruct Hcs as [Hk Hs]. apply settings_from_to in Hs. destruct c' as [|s'| |e]; [done| | |].
    + destruct Hpc as (_ & Hs' & Hin). assert (s' = s) as -> by congruence.
      destruct busy; [apply Herr; [done|constructor]|]. destruct (busy_state d k) as [e|] eqn:Hb.
      * destruct (Hbusy e eq_refl eq_refl). by apply Herr.
      * by apply Hgo.
    + destruct Hpc as (_ & Hns). specialize (Hns s Hs).
      destruct busy; [apply Herr; [done|constructor]|]. destruct (busy_state d k) as [e|] eqn:Hb.
      * destruct (Hbusy e eq_refl eq_refl). by apply Herr.
      * apply Herr; [done|]. rewrite Hk. apply refuse_unsupported; [|done].
        rewrite <-(busy_state_refusal d k H); [done|]. apply configure_or_start. by left.
    + destruct Hpc as (_ & _ & err & He). congruence.
  - destruct c' as [|s'| |e]; [|by destruct Hpc..].
    destruct busy; [apply Herr; [done|constructor]|]. destruct (busy_state d k) as [e|] eqn:Hb.
    * destruct (Hbusy e eq_refl eq_refl). by apply Herr.
    * by apply Hgo.
Qed.

(** A fresh command: the outcome, and what stays as it was. *)
Lemma fresh_command_ok d c wire busy :
  device_inv d -> command_to_bytes c = Ok wire ->
  c.(V3Command.request_id) ∉ d.(SimulatedV3Device._recent_request_ids) ->
  exists d' reply r, _handle_request d wire busy = Ok (d', reply) /\ device_inv d' /\
    same_frame (set_recent (append_recent c.(V3Command.request_id) d.(SimulatedV3Device._recent_request_ids)) d) d' /\
    answers (int_of c.(V3Command.kind)) c.(V3Command.request_id) reply r /\
    command_outcome d c busy d' r.
Proof.
  intros Hd Hwire Hfresh. destruct (command_request c wire Hwire) as (Hw & Hl & Hq & (total & checksum & size & Hf & Hsize & _) & Hcs).
  unfold _handle_request, unpack_from. rewrite HEADER_SIZE_calc, (proj2 (Nat.leb_le _ _)), drop_0 by lia.
  cbn [of_option mbind result_bind]. unfold request_fields in Hf. rewrite Hf. cbv zeta. rewrite enum_of_int.
  rewrite (proj2 (Z.eqb_neq _ 0)) by lia. rewrite bool_decide_eq_false_2 by done. cbn [orb].
  destruct (di_recent d Hd) as [Hnd Hlen]. destruct (append_recent_ok _ _ Hfresh Hnd Hlen) as [Hnd' Hlen'].
  destruct (known_command_ok _ wire busy c size (set_recent_inv _ d Hnd' Hlen' Hd) Hw Hq Hsize Hcs)
    as (d' & reply & r & He & Hd' & Hsf & Ha & Ho).
  by exists d', reply, r.
Qed.

(** ** A run without losses *)

(** How many of the first [i] frames of a run went to the stream at position [p] of
    [n]: the streams take turns. *)
Definition turns (n p i : nat) : nat := ((i + (n - 1 - p)) / n)%nat.

Lemma turns_now n p i : (0 < n)%nat -> (i mod n = p)%nat -> turns n p i = (i / n)%nat.
Proof.
  intros Hn <-. unfold turns. pose proof (Nat.div_mod_eq i n) as He. pose proof (Nat.mod_upper_bound i n).
  rewrite He at 1. replace (n * (i / n) + i mod n + (n - 1 - i mod n))%nat with ((n - 1) + (i / n) * n)%nat by lia.
  rewrite Nat.div_add, Nat.div_small by lia. lia.
Qed.

Lemma turns_step n p i :
  (p < n)%nat -> turns n p (S i) = (if decide (i mod n = p)%nat then S (turns n p i) else turns n p i).
Proof.
  intros Hp. unfold turns. pose proof (Nat.div_mod_eq i n) as He. pose proof (Nat.mod_upper_bound i n ltac:(lia)) as Hm.
  set (q := (i / n)%nat) in *. set (r := (i mod n)%nat) in *. rewrite He.
  replace (S (n * q + r) + (n - 1 - p))%nat with ((r + (n - p)) + q * n)%nat by lia.
  replace (n * q + r + (n - 1 - p))%nat with ((r + (n - 1 - p)) + q * n)%nat by lia.
  rewrite !Nat.div_add by lia. case_decide as Hr.
  - rewrite (Nat.div_small (r + (n - 1 - p))) by lia. replace (r + (n - p))%nat with (1 * n)%nat by lia.
    rewrite Nat.div_mul by lia. lia.
  - destruct (decide (r < p)%nat).
    + by rewrite !Nat.div_small by lia.
    + replace (r + (n - p))%nat with ((r - p) + 1 * n)%nat by lia.
      replace (r + (n - 1 - p))%nat with ((r - p - 1) + 1 * n)%nat by lia.
      by rewrite !Nat.div_add, !Nat.div_small by lia.
Qed.

Lemma next_turn n i : (0 < n)%nat -> ((i mod n + 1) mod n = S i mod n)%nat.
Proof. intros Hn. rewrite Nat.Div0.add_mod_idemp_l. f_equal. lia. Qed.

(** Position [p] of the enabled streams identifies the stream. *)
Lemma enabled_stream_positions settings p1 p2 s1 s2 :
  enabled_streams settings !! p1 = Some s1 -> enabled_streams settings !! p2 = Some s2 ->
  (s1 <= 1)%nat /\ (p1 = p2 <-> s1 = s2).
Proof.
  unfold enabled_streams. destruct (has _ _), (has _ _); cbn [app];
    destruct p1 as [|[|p1]], p2 as [|[|p2]]; cbn; intros [= <-] [= <-]; lia.
Qed.

Lemma at_set_stream {A} (p : per_stream A) a s s' :
  (s <= 1)%nat -> (s' <= 1)%nat -> at_stream (set_stream s a p) s' = if decide (s' = s) then a else at_stream p s'.
Proof. intros. destruct s as [|[|s]], s' as [|[|s']]; cbn; (done || lia). Qed.

(** The device after [i] lossless frames of a run. *)
Record run_state (d0 d : SimulatedV3Device) (i : nat) : Prop := {
  rs_inv : device_inv d;
  rs_state : d.(SimulatedV3Device._state) = DeviceState.RUNNING;
  rs_pending : d.(SimulatedV3Device._pending_data) = false;
  rs_settings : d.(SimulatedV3Device._settings) = d0.(SimulatedV3Device._settings);
  rs_run : d.(SimulatedV3Device._run_id) = d0.(SimulatedV3Device._run_id);
  rs_next : d.(SimulatedV3Device._epoch).(Epoch.next_stream_index)
            = (i mod length (enabled_streams d0.(SimulatedV3Device._settings)))%nat;
  rs_stream p s : let streams := enabled_streams d0.(SimulatedV3Device._settings) in
    let e := d.(SimulatedV3Device._epoch) in
    let k := turns (length streams) p i in
    streams !! p = Some s ->
    at_stream e.(Epoch.frames) s = Z.of_nat k /\
    at_stream e.(Epoch.items) s = Z.of_nat k * stream_count d0.(SimulatedV3Device._settings) s /\
    at_stream e.(Epoch.gap_before) s = false /\
    at_stream e.(Epoch.epoch_start) s = (k =? 0)%nat
}.

(** Frame [i] of a run: its stream, number, first sample, flags and samples. *)
Definition run_frame (d : SimulatedV3Device) (i : nat) (wire : bytes) : Prop :=
  let settings := d.(SimulatedV3Device._settings) in
  let n := length (enabled_streams settings) in
  exists stream f samples, let k := Z.of_nat (i / n) in
    let first := k * stream_count settings stream in
    enabled_streams settings !! (i mod n)%nat = Some stream /\
    decode_v3_frame wire = Ok f /\
    f.(V3Frame.header).(V3FrameHeader.kind) = stream_kind stream /\
    f.(V3Frame.header).(V3FrameHeader.run_id) = d.(SimulatedV3Device._run_id) /\
    f.(V3Frame.header).(V3FrameHeader.sequence) = k mod 2 ^ 32 /\
    f.(V3Frame.header).(V3FrameHeader.first_sample_ticks) = 8 * first /\
    f.(V3Frame.header).(V3FrameHeader.item_count) = stream_count settings stream /\
    Z.testbit f.(V3Frame.header).(V3FrameHeader.flags) 2 = (k =? 0) /\
    Z.testbit f.(V3Frame.header).(V3FrameHeader.flags) 1 = false /\
    Z.testbit f.(V3Frame.header).(V3FrameHeader.flags) 3 = false /\
    Z.testbit f.(V3Frame.header).(V3FrameHeader.flags) 0 = bool_decide (settings.(V3Settings.source) = Source.SYNTHETIC) /\
    decode_data_payload (stream_kind stream) f.(V3Frame.payload) (stream_count settings stream) = Ok samples /\
    samples.(V3DecodedData.payload) = stream_samples settings stream k first /\ encoded_as settings stream samples.

Lemma stream_count_range d stream :
  device_inv d -> 1 <= stream_count d.(SimulatedV3Device._settings) stream <= 4048.
Proof.
  intros H. destruct (di_caps d H) as [cp Hcp]. destruct (capability_settings _ _ _ Hcp (di_settings d H)) as [b Hb].
  destruct (stream_payload_ok _ stream 0 0 b ltac:(lia) Hb) as [Hc _]. case_decide; lia.
Qed.

Lemma run_step d0 d i :
  run_state d0 d i -> (Z.of_nat i + 1) * 32384 < 2 ^ 64 ->
  exists wire d', next_data_frame d = Ok (d', Some wire) /\ run_state d0 d' (S i) /\ run_frame d0 i wire.
Proof.
  intros [H Hst Hp Hset Hrun Hnext Hstr] Hlim. cbv zeta in Hstr.
  pose proof (fun s => stream_count_range d s H) as Hcr.
  set (streams := enabled_streams (SimulatedV3Device._settings d0)) in *.
  assert (Hne : (0 < length streams)%nat).
  { destruct (di_caps d H) as [cp Hcp]. destruct (capability_settings _ _ _ Hcp (di_settings d H)) as [b Hb].
    pose proof (enabled_streams_nonempty _ b Hb) as Hn. rewrite Hset in Hn. fold streams in Hn.
    destruct streams; [done|cbn; lia]. }
  pose proof (Nat.mod_upper_bound i (length streams)) as Hub.
  destruct (next_data_frame_ok d H) as [[_ [Hx|Hx]]|(_ & _ & s & Hs & Hcase)]; [congruence|congruence|].
  cbv zeta in Hs, Hcase. rewrite Hset in Hs, Hcase, Hcr. fold streams in Hs.
  rewrite Hnext, Nat.Div0.mod_mod in Hs.
  destruct (Hstr _ _ Hs) as (Hf & Hi & Hg & He). rewrite (turns_now _ _ i) in Hf, Hi, He by (lia || done).
  set (k := (i / length streams)%nat) in *.
  assert (Hki : (k <= i)%nat) by (apply Nat.Div0.div_le_upper_bound; nia).
  specialize (Hcr s). destruct Hcase as [(_ & _ & Hx)|(wire & d' & Hnf & Ho & H' & _)]; [exfalso; rewrite Hi in Hx; nia|].
  exists wire, d'. split; [done|]. destruct Ho as (_ & (f & smp & Hdec & Hh & Hpay & Hraw & Henc) & Hd').
  rewrite Hset, Hf, Hi in *. fold streams in Hd'.
  destruct (enabled_stream_positions _ _ _ _ _ Hs Hs) as [Hs1 _].
  assert (HU : forall a, 0 <= a < 2 ^ 64 -> Z.min a _U64_MAX = a) by (intros a Ha; change _U64_MAX with (2 ^ 64 - 1); lia).
  split.
  - subst d'. split; try done; cbn [SimulatedV3Device._epoch set_epoch].
    + cbn [advance Epoch.next_stream_index]. rewrite Hnext. fold streams. by apply next_turn.
    + intros p s'. cbv zeta. fold streams. intros Hs'.
      destruct (Hstr _ _ Hs') as (Hf' & Hi' & Hg' & He').
      destruct (enabled_stream_positions _ _ _ _ _ Hs' Hs) as [Hs1' Hpos].
      cbn [advance Epoch.frames Epoch.items Epoch.gap_before Epoch.epoch_start]. rewrite !at_set_stream by done.
      rewrite turns_step by (by apply lookup_lt_Some in Hs').
      destruct (decide (s' = s)) as [->|Hne'].
      * assert (p = i mod length streams)%nat as -> by (by apply Hpos).
        rewrite decide_True by done. rewrite turns_now by (lia || done). fold k. rewrite !HU by nia.
        split_and!; try done; lia.
      * rewrite decide_False by (intros Heq; apply Hne', Hpos; done). done.
  - unfold run_frame. cbv zeta. fold streams k. exists s, f, smp. rewrite Hh.
    cbn [new_header V3FrameHeader.kind V3FrameHeader.run_id V3FrameHeader.sequence V3FrameHeader.first_sample_ticks
      V3FrameHeader.item_count V3FrameHeader.flags].
    destruct (data_flags_range (SimulatedV3Device._settings d0) (SimulatedV3Device._epoch d) s) as (_ & Hb3 & Hb0 & Hb1 & Hb2).
    rewrite Hb0, Hb1, Hb2, Hb3, Hg, He, Hrun. split_and!; try done. destruct (Nat.eqb_spec k 0), (Z.eqb_spec (Z.of_nat k) 0); (done || lia).
Qed.

Lemma run_state_start d :
  device_inv d -> d.(SimulatedV3Device._state) = DeviceState.RUNNING -> d.(SimulatedV3Device._pending_data) = false ->
  d.(SimulatedV3Device._epoch) = _reset_epoch -> run_state d d 0.
Proof.
  intros Hd Hrunning Hpending Hepoch. split; try done; rewrite Hepoch.
  - by rewrite Nat.Div0.mod_0_l.
  - intros p s. cbv zeta. intros Hp. apply lookup_lt_Some in Hp.
    assert (Ht : forall m, (p < m)%nat -> turns m p 0 = 0%nat) by (intros m Hm; unfold turns; apply Nat.div_small; lia).
    rewrite Ht by done. by destruct s.
Qed.

Lemma run_frames d0 n :
  forall d i, run_state d0 d i -> (Z.of_nat i + Z.of_nat n) * 32384 < 2 ^ 64 ->
  exists d' wires, apply_calls d (replicate n NextFrame) = Ok (d', wires) /\ run_state d0 d' (i + n) /\
    length wires = n /\ forall j wire, wires !! j = Some wire -> run_frame d0 (i + j) wire.
Proof.
  induction n as [|n IH]; intros d i Hr Hlim.
  - exists d, []. rewrite Nat.add_0_r. split_and!; done.
  - destruct (run_step d0 d i Hr) as (wire & d1 & Hn & H1 & Hw); [lia|].
    destruct (IH d1 (S i) H1) as (d2 & wires & Ha & H2 & Hl & Hall); [lia|].
    exists d2, (wire :: wires). cbn [replicate apply_calls apply_call]. rewrite Hn. cbn [mbind result_bind option_list].
    rewrite Ha. split; [done|]. split; [by rewrite Nat.add_succ_r|]. split; [cbn; lia|].
    intros [|j] w; cbn [lookup list_lookup]; [intros [= <-]; by rewrite Nat.add_0_r|].
    intros Hj. rewrite Nat.add_succ_r. by apply (Hall j).
Qed.

(** ** The replay window *)

Definition last16 (l : list Z) : list Z := drop (length l - 16) l.

Lemma append_recent_last16 q l : append_recent q (last16 l) = last16 (l ++ [q]).
Proof.
  unfold append_recent, last16. cbv zeta. rewrite <-(drop_app_le l [q]) by lia. rewrite drop_drop. f_equal.
  rewrite length_drop, !length_app. cbn [length]. lia.
Qed.

Lemma window_fold later l : fold_left (fun ids q => append_recent q ids) later (last16 l) = last16 (l ++ later).
Proof.
  revert l. induction later as [|q later IH]; intros l; cbn [fold_left]; [by rewrite app_nil_r|].
  by rewrite append_recent_last16, IH, <-app_assoc.
Qed.

(** *** Reporting a frame that is not there *)

(** While STOPPED: STATUS cannot be packed. *)
Lemma pending_stopped d :
  d.(SimulatedV3Device._state) = DeviceState.STOPPED ->
  status_to_payload (status (set_transport_pending_data true d)) = Err (invalid "STOPPED requires an empty queue").
Proof. intros Hs. unfold status_to_payload, status, stop_to_payload. cbn. by rewrite Hs. Qed.

(** Otherwise its discard counts a drop of nothing, and STATUS cannot be packed. *)
Lemma pending_dropped d :
  device_inv d -> d.(SimulatedV3Device._state) <> DeviceState.STOPPED -> ~ unaccounted d.(SimulatedV3Device._epoch) ->
  status_to_payload (status (discard_transport_data (set_transport_pending_data true d)))
  = Err (invalid "dropped count exceeds produced").
Proof.
  intros H Hs Hu. set (d2 := discard_transport_data (set_transport_pending_data true d)).
  set (e := SimulatedV3Device._epoch d) in *. set (k := Epoch.last_stream_index e) in *.
  destruct (stop_encodes _ (drained_inv d H)) as [p Hp].
  assert (Hstop : V3Status.stop (status d2) = V3Status.stop (status (set_transport_pending_data false d))).
  { unfold d2, discard_transport_data, set_transport_pending_data, status, pending_int. cbn -[bool_decide]. by case_bool_decide. }
  assert (He : SimulatedV3Device._epoch d2 = Epoch.mk e.(Epoch.frames) e.(Epoch.items)
      (set_stream k (Z.min (at_stream e.(Epoch.frames_dropped) k + 1) _U64_MAX) e.(Epoch.frames_dropped))
      (set_stream k (Z.min (at_stream e.(Epoch.items_dropped) k + e.(Epoch.last_item_count)) _U64_MAX) e.(Epoch.items_dropped))
      (set_stream k true e.(Epoch.gap_before)) (set_stream k e.(Epoch.last_epoch_start) e.(Epoch.epoch_start))
      e.(Epoch.last_epoch_start) e.(Epoch.next_stream_index) k e.(Epoch.last_item_count)).
  { unfold d2, discard_transport_data, set_transport_pending_data. cbn -[bool_decide at_stream set_stream Z.min]. by case_bool_decide. }
  assert (Hc : counts_ok (V3Status.counts (status d2)) = false).
  { destruct (di_epoch d H) as [Hf Hi Hn _]. fold e in Hf, Hi, Hn. pose proof (Hf k) as Hfk. pose proof (Hi k) as Hik.
    unfold counters_ok in Hfk, Hik. assert (_U64_MAX / 8 < _U64_MAX) by (vm_compute; reflexivity).
    assert (Hbad : at_stream (Epoch.frames e) k < at_stream (Epoch.frames_dropped e) k + 1 \/
      at_stream (Epoch.items e) k < at_stream (Epoch.items_dropped e) k + Epoch.last_item_count e).
    { unfold unaccounted in Hu. fold k in Hu. lia. }
    unfold status. rewrite He. cbn [V3Status.counts counts_ok Epoch.frames Epoch.items Epoch.frames_dropped Epoch.items_dropped].
    rewrite !andb_false_iff, !Z.leb_gt. destruct k; cbn in *; lia. }
  unfold status_to_payload. rewrite Hstop. change (V3Status.stop (status (set_transport_pending_data false d))) with
    (V3Stop.mk (SimulatedV3Device._state (set_transport_pending_data false d)) (SimulatedV3Device._run_id (set_transport_pending_data false d))
       (pending_int (set_transport_pending_data false d))).
  rewrite Hp. cbn [mbind result_bind]. by rewrite Hc.
Qed.

(** A frame just produced can be held. *)
Lemma produced_holdable d : device_inv d -> forall d1 wire, next_data_frame d = Ok (d1, Some wire) -> holdable d1.
Proof.
  intros H d1 wire Hn. destruct (next_data_frame_ok d H) as [[He _]|(Hr & _ & s & _ & [(He & _)|(w & d' & He & Ho & _ & H1)])];
    rewrite He in Hn; try discriminate.
  assert (d' = d1) as <- by (apply Ok_inj in Hn; congruence). split.
  - destruct Ho as (_ & _ & ->). cbn. by rewrite Hr.
  - apply (ei_pending _ _ (di_epoch _ H1)). reflexivity.
Qed.

Lemma window_keeps q ids later :
  (length later <= 15)%nat -> q ∈ fold_left (fun ids q => append_recent q ids) later (append_recent q ids).
Proof.
  intros Hl. change (append_recent q ids) with (last16 (ids ++ [q])). rewrite window_fold, <-app_assoc.
  unfold last16. rewrite drop_app_le by (rewrite length_app; cbn; lia). apply elem_of_app. right. by left.
Qed.

(** ** Properties *)

(** C34. A device once constructed never fails when it is used as its transport uses it.  Any
    sequence of public calls succeeds, with any bytes of at most [max_receive_bytes] per
    call, if [set_transport_pending_data(True)] is only called while the device is not
    STOPPED and produced a frame that is not yet counted as dropped, which is so after
    every frame that [next_data_frame] returns.  Every frame that leaves the device then
    decodes on the host, and the device invariant holds afterwards: DRAINING means a
    pending frame, an active state has a run, losses never exceed what was produced, and
    STATUS can be reported.  The condition is needed: otherwise STATUS cannot be packed,
    on a STOPPED device at once, and on any other after the frame that is not there was
    discarded. *)
Theorem device_calls_safe (build_id : text) (max_bytes max_requests : Z) (d : SimulatedV3Device)
    (calls : list device_call)
    (Hinit : init_device build_id max_bytes max_requests = Ok d)
    (Hcalls : calls_ok d calls) :
  exists d' out, apply_calls d calls = Ok (d', out) /\ Forall emits out /\ device_inv d' /\
    (exists p, status_to_payload (status d') = Ok p) /\
    (forall d1 wire, next_data_frame d' = Ok (d1, Some wire) -> holdable d1) /\
    (d'.(SimulatedV3Device._state) = DeviceState.STOPPED ->
       status_to_payload (status (set_transport_pending_data true d')) = Err (invalid "STOPPED requires an empty queue")) /\
    (d'.(SimulatedV3Device._state) <> DeviceState.STOPPED -> ~ unaccounted d'.(SimulatedV3Device._epoch) ->
       status_to_payload (status (discard_transport_data (set_transport_pending_data true d')))
       = Err (invalid "dropped count exceeds produced")).
Proof.
  apply init_device_inv in Hinit as (Hd & Hm & _).
  destruct (apply_calls_ok calls d Hd Hcalls) as (d' & out & Ha & Hd' & Ho).
  exists d', out. destruct (status_encodes d' Hd') as [_ Hs].
  do 4 (split; [done|]). split; [by apply produced_holdable|]. split; [apply pending_stopped|by apply pending_dropped].
Qed.

(** C39. Every request that passes the framing gets exactly one reply, in order, of at most
    2,048 bytes, that the host decodes to a response with the request's kind and ID,
    whatever its fields say. *)
Theorem requests_answered (d : SimulatedV3Device) (data : bytes)
    (Hd : device_inv d) (Hw : wf_bytes data) (Hl : zlen data <= d.(SimulatedV3Device._max_receive_bytes)) :
  exists p wires d' replies,
    feed d.(SimulatedV3Device._request_parser) data = Ok (p, wires) /\
    device_receive d data = Ok (d', replies) /\ device_inv d' /\ all_answered wires replies.
Proof.
  destruct (device_receive_ok d data Hd Hw Hl) as (p & wires & d' & replies & Hf & Hr & Hd' & _ & Ha).
  by exists p, wires, d', replies.
Qed.

(** C11. The device implements the command state machine: the reply to a fresh host
    command passes the host's [validate_for]; an accepted command moves the
    STOPPED/RUNNING/DRAINING machine as [accepted] says and reports the new state; a
    refused one changes nothing and carries the error [refused] names; either way its
    request ID enters the replay window. *)
Theorem command_effect (d : SimulatedV3Device) (c : V3Command) (wire : bytes) (busy : bool)
    (Hd : device_inv d) (Hwire : command_to_bytes c = Ok wire)
    (Hfresh : c.(V3Command.request_id) ∉ d.(SimulatedV3Device._recent_request_ids)) :
  exists d' reply r, _handle_request d wire busy = Ok (d', reply) /\ device_inv d' /\
    answers (int_of c.(V3Command.kind)) c.(V3Command.request_id) reply r /\
    command_outcome d c busy d' r /\
    c.(V3Command.request_id) ∈ d'.(SimulatedV3Device._recent_request_ids).
Proof.
  destruct (fresh_command_ok d c wire busy Hd Hwire Hfresh) as (d' & reply & r & Hh & Hd' & Hsf & Ha & Ho).
  exists d', reply, r. do 4 (split; [done|]). destruct Hsf as (Hr & _). rewrite Hr. apply append_recent_in.
Qed.
(** Replays are refused: a request of a known kind whose ID is zero or among the last
    sixteen accepted IDs is answered INVALID_REQUEST_ID and changes nothing; an ID once
    accepted stays in the window through the next fifteen. *)
Theorem replay_rejected (d : SimulatedV3Device) (wire : bytes) (busy : bool) (k : CommandKind)
    (Hd : device_inv d) (Hw : wf_bytes wire) (Hl : (44 <= length wire)%nat)
    (Hkind : known_kind wire = Some k)
    (Hseen : request_id_of wire = 0 \/ request_id_of wire ∈ d.(SimulatedV3Device._recent_request_ids)) :
  (exists reply r, _handle_request d wire busy = Ok (d, reply) /\
     answers (int_of k) (request_id_of wire) reply r /\
     r.(V3Response.error_code) = ErrorCode.INVALID_REQUEST_ID /\ r.(V3Response.value) = None) /\
  (forall q ids later, (length later <= 15)%nat ->
     q ∈ fold_left (fun ids q => append_recent q ids) later (append_recent q ids)).
Proof.
  split.
  - destruct (handle_request_ok d wire busy Hd Hw Hl) as (d' & reply & r & He & _ & _ & Ha & Hr).
    unfold request_effect in Hr. cbv zeta in Hr. rewrite Hkind in Hr.
    assert (Hs : (request_id_of wire =? 0) || bool_decide (request_id_of wire ∈ SimulatedV3Device._recent_request_ids d) = true).
    { destruct Hseen as [->|Hin]; [done|]. by rewrite bool_decide_eq_true_2, orb_true_r. }
    rewrite Hs in Hr. destruct Hr as [-> ->]. unfold known_kind in Hkind. apply enum_of_Some in Hkind.
    rewrite Hkind. by exists reply, (error_response d (request_kind wire) (request_id_of wire) ErrorCode.INVALID_REQUEST_ID).
  - intros q ids later. apply window_keeps.
Qed.

(** C19. A run without losses is gap-free: after START, frame [i] goes to the enabled
    streams in turn, is numbered [i / n] within its stream modulo 2^32, starts at the
    sample where the stream's previous frame ended, is marked EPOCH_START exactly when
    first and never GAP_BEFORE, and its payload decodes to the synthetic source at those
    samples; the 64-bit clock bounds the run. *)
Theorem run_without_losses (d : SimulatedV3Device) (n : nat)
    (Hd : device_inv d) (Hrunning : d.(SimulatedV3Device._state) = DeviceState.RUNNING)
    (Hpending : d.(SimulatedV3Device._pending_data) = false)
    (Hepoch : d.(SimulatedV3Device._epoch) = _reset_epoch)
    (Hclock : Z.of_nat n * 32384 < 2 ^ 64) :
  exists d' wires, apply_calls d (replicate n NextFrame) = Ok (d', wires) /\ device_inv d' /\
    length wires = n /\ forall i wire, wires !! i = Some wire -> run_frame d i wire.
Proof.
  pose proof (run_state_start d Hd Hrunning Hpending Hepoch) as Hs.
  destruct (run_frames d n d 0 Hs) as (d' & wires & Ha & Hr & Hl & Hw); [lia|].
  exists d', wires. split; [done|]. split; [apply Hr|]. by split.
Qed.

(** ** Witnesses *)

Lemma example_device : exists d, init_device (text_of "thingdaq-simulator-v3") 2048 8 = Ok d.
Proof.
  destruct (init_device (text_of "thingdaq-simulator-v3") 2048 8) as [d|e] eqn:H; [by exists d|].
  vm_compute in H. discriminate.
Qed.

Definition info_command : V3Command := V3Command.mk CommandKind.INFO 7 None.

Lemma info_request : command_to_bytes info_command = Ok info_wire.
Proof. vm_compute. reflexivity. Qed.

(** A whole frame of a run is held until its last byte is read, a second one is discarded. *)
Definition start_wire : bytes :=
  Eval vm_compute in match command_to_bytes (V3Command.mk CommandKind.START 8 None) with Ok wire => wire | Err _ => [] end.
Definition example_session : list device_call :=
  [Receive info_wire; Receive start_wire; NextFrame; SetPending true; SetPending false; NextFrame; SetPending true; DiscardData; BeginSession].

Lemma device_calls_safe_witness :
  exists d d' out, init_device (text_of "thingdaq-simulator-v3") 2048 8 = Ok d /\
    apply_calls d example_session = Ok (d', out) /\ Forall emits out.
Proof.
  assert (Hok : match init_device (text_of "thingdaq-simulator-v3") 2048 8 with
                | Ok d => calls_okb d example_session | Err _ => false end = true) by (vm_compute; reflexivity).
  destruct example_device as [d Hd]. rewrite Hd in Hok.
  destruct (device_calls_safe _ _ _ d example_session Hd (calls_okb_sound _ d Hok)) as (d' & out & Ha & Ho & _).
  exists d, d', out. split; [exact Hd|]. split; [exact Ha|exact Ho].
Defined.

Lemma requests_answered_witness :
  exists d p wires d' replies, feed d.(SimulatedV3Device._request_parser) info_wire = Ok (p, wires) /\
    device_receive d info_wire = Ok (d', replies) /\ all_answered wires replies.
Proof.
  destruct example_device as [d Hd]. destruct (init_device_inv _ _ _ d Hd) as (Hi & Hm & _).
  destruct (requests_answered d info_wire Hi info_wire_wf) as (p & wires & d' & replies & Hf & Hr & _ & Ha).
  - rewrite Hm. vm_compute. discriminate.
  - exists d, p, wires, d', replies. repeat (split; [assumption|]). assumption.
Defined.

Lemma init_recent build_id a b d :
  init_device build_id a b = Ok d -> d.(SimulatedV3Device._recent_request_ids) = [].
Proof.
  unfold init_device. intros H. apply require_bind in H as [_ H]. apply require_bind in H as [_ H].
  apply bind_Ok_inv in H as (c & _ & H). cbv zeta in H. apply bind_Ok_inv in H as (p & _ & H).
  apply bind_Ok_inv in H as (i & _ & H). apply bind_Ok_inv in H as (q & _ & H). apply Ok_inj in H. by subst d.
Qed.

Lemma command_effect_witness :
  exists d d' reply r, _handle_request d info_wire false = Ok (d', reply) /\
    command_outcome d info_command false d' r.
Proof.
  destruct example_device as [d Hd]. destruct (init_device_inv _ _ _ d Hd) as (Hi & _).
  destruct (command_effect d info_command info_wire false Hi info_request) as (d' & reply & r & He & _ & _ & Ho & _).
  - rewrite (init_recent _ _ _ d Hd). apply not_elem_of_nil.
  - exists d, d', reply, r. split; assumption.
Defined.

Lemma replay_rejected_witness :
  exists d reply, 7 ∈ d.(SimulatedV3Device._recent_request_ids) /\ _handle_request d info_wire false = Ok (d, reply).
Proof.
  destruct example_device as [d Hd]. destruct (init_device_inv _ _ _ d Hd) as (Hi & _).
  assert (H7 : device_inv (set_recent [7] d)) by (apply set_recent_inv; [apply NoDup_singleton|cbn; lia|exact Hi]).
  destruct (replay_rejected (set_recent [7] d) info_wire false CommandKind.INFO H7 info_wire_wf) as [(reply & r & He & _) _].
  - vm_compute. lia.
  - vm_compute. reflexivity.
  - right. change (request_id_of info_wire) with 7. left.
  - exists (set_recent [7] d), reply. split; [left|exact He].
Defined.

Lemma run_without_losses_witness :
  exists d d' wires, d.(SimulatedV3Device._state) = DeviceState.RUNNING /\
    apply_calls d (replicate 5 NextFrame) = Ok (d', wires) /\ length wires = 5%nat.
Proof.
  destruct example_device as [d Hd]. destruct (init_device_inv _ _ _ d Hd) as (Hi & _).
  assert (Hp : SimulatedV3Device._pending_data (reboot d) = false) by reflexivity.
  pose proof (start_inv (reboot d) (reboot_inv d Hi) Hp) as Hs.
  destruct (run_without_losses _ 5 Hs) as (d' & wires & Ha & _ & Hl & _); [reflexivity..|].
  eexists _, d', wires. split; [|split; [exact Ha|exact Hl]]. reflexivity.
Defined.
