(* ===== verification/MemoryTransport.v ===== *)
(** * The in-memory transport over the v3 device ([transport.py], [InMemoryTransport]).

    A bounded byte queue between the host and the simulated device: writes are cut so
    that every reply fits, reads produce at most one data frame into an empty queue, and
    the device is told when the last byte of a data frame has been read.  The transport
    is the branch whose device is a [SimulatedV3Device]; the lock serialises the methods,
    so each is one step.  [monotonic()] readings are arguments, in units the interval is
    given in. *)

From S2P Require Import Prelude PyStruct Checksum Incremental V3Constants V3Header V3Samples ModelsV3 V3Frames Synthetic SimulatorV3 DeviceV3.

(** [constants.MIN_FRAME_BYTES] of protocol version 1. *)
Definition V1_MIN_FRAME_BYTES : Z := 48.

Inductive transport_error :=
| TransportClosedError
| TransportBufferError
| TransportValueError (message : string)
| DeviceRaised (e : sim_error).

Module InMemoryTransport.
Record InMemoryTransport := mk {
  device : SimulatedV3Device;
  _read_chunk_size : option Z;
  _write_chunk_size : option Z;
  _max_pending_bytes : Z;
  _stream_interval : option Z;
  _demand_driven : bool;
  _stream_credits : Z;
  _next_stream_at : Z;
  _pending : bytes;
  _pending_data_bytes : Z;
  _is_open : bool
}.

Definition set_device (d : SimulatedV3Device) (t : InMemoryTransport) : InMemoryTransport :=
  mk d t.(_read_chunk_size) t.(_write_chunk_size) t.(_max_pending_bytes) t.(_stream_interval)
    t.(_demand_driven) t.(_stream_credits) t.(_next_stream_at) t.(_pending) t.(_pending_data_bytes)
    t.(_is_open).
Definition set_schedule (credits next_at : Z) (t : InMemoryTransport) : InMemoryTransport :=
  mk t.(device) t.(_read_chunk_size) t.(_write_chunk_size) t.(_max_pending_bytes) t.(_stream_interval)
    t.(_demand_driven) credits next_at t.(_pending) t.(_pending_data_bytes) t.(_is_open).
Definition set_queue (pending : bytes) (data_bytes : Z) (t : InMemoryTransport) : InMemoryTransport :=
  mk t.(device) t.(_read_chunk_size) t.(_write_chunk_size) t.(_max_pending_bytes) t.(_stream_interval)
    t.(_demand_driven) t.(_stream_credits) t.(_next_stream_at) pending data_bytes t.(_is_open).
Definition set_closed (t : InMemoryTransport) : InMemoryTransport :=
  mk t.(device) t.(_read_chunk_size) t.(_write_chunk_size) t.(_max_pending_bytes) t.(_stream_interval)
    t.(_demand_driven) t.(_stream_credits) t.(_next_stream_at) t.(_pending) t.(_pending_data_bytes) false.
End InMemoryTransport.
Export InMemoryTransport(set_device, set_schedule, set_queue, set_closed).
Abbreviation InMemoryTransport := InMemoryTransport.InMemoryTransport.

(** [self._max_control_frame_bytes] for a v3 device. *)
Definition _max_control_frame_bytes : Z := MAX_CONTROL_FRAME_BYTES.

Definition positive_or_none (o : option Z) : bool :=
  match o with Some n => 0 <? n | None => true end.

Definition init_transport (d : SimulatedV3Device) (read_chunk_size write_chunk_size : option Z)
    (max_pending_bytes : Z) (stream_interval : option Z) (demand_driven : bool) (now : Z) :
    result transport_error InMemoryTransport :=
  _ ← require (positive_or_none read_chunk_size) (TransportValueError "read_chunk_size must be positive");
  _ ← require (positive_or_none write_chunk_size) (TransportValueError "write_chunk_size must be positive");
  let minimum_pending := MAX_DATA_FRAME_BYTES + _max_control_frame_bytes in
  _ ← require (minimum_pending <=? max_pending_bytes)
        (TransportValueError "max_pending_bytes is below the minimum");
  _ ← require (positive_or_none stream_interval)
        (TransportValueError "stream_interval must be positive or None");
  Ok (InMemoryTransport.mk (begin_host_session d) read_chunk_size write_chunk_size max_pending_bytes
        stream_interval demand_driven 0 now [] 0 true).

(** A method: the state it leaves, and its value or exception. *)
Definition step (A : Type) : Type := (InMemoryTransport * result transport_error A)%type.

Definition closed {A} (t : InMemoryTransport) : step A := (t, Err TransportClosedError).

Definition min_opt (n : Z) (limit : option Z) : Z :=
  match limit with Some m => Z.min n m | None => n end.

(** How many maximum-size replies still fit (lines 601-602). *)
Definition response_slots (t : InMemoryTransport) : Z :=
  (t.(InMemoryTransport._max_pending_bytes) - zlen t.(InMemoryTransport._pending)) / _max_control_frame_bytes.

(** Lines 605-611: the bytes one [write] accepts. *)
Definition accepted_bytes (t : InMemoryTransport) (view : bytes) : Z :=
  let accepted := Z.min (zlen view) t.(InMemoryTransport.device).(SimulatedV3Device._max_receive_bytes) in
  let accepted := Z.min accepted (response_slots t * V1_MIN_FRAME_BYTES) in
  min_opt accepted t.(InMemoryTransport._write_chunk_size).

Definition write (t : InMemoryTransport) (view : bytes) (now : Z) : step Z :=
  if negb t.(InMemoryTransport._is_open) then closed t
  else if (length view =? 0)%nat then (t, Ok 0)
  else if response_slots t =? 0 then (t, Ok 0)
  else
    let accepted := accepted_bytes t view in
    match device_receive t.(InMemoryTransport.device) (take (Z.to_nat accepted) view) with
    | Err e => (t, Err (DeviceRaised e))
    | Ok (d, responses) =>
        let changed := bool_decide (d.(SimulatedV3Device._state)
                         <> t.(InMemoryTransport.device).(SimulatedV3Device._state)) in
        let t := set_device d t in
        let t := if changed then set_schedule 0 now t else t in
        let response_bytes := sum_list_with length responses in
        if t.(InMemoryTransport._max_pending_bytes)
             <? zlen t.(InMemoryTransport._pending) + Z.of_nat response_bytes
        then (set_device (record_transport_error d) t, Err TransportBufferError)
        else (set_queue (t.(InMemoryTransport._pending) ++ concat responses)
                t.(InMemoryTransport._pending_data_bytes) t, Ok accepted)
    end.

Definition _bounded_read_size_locked (t : InMemoryTransport) (requested : Z) : Z :=
  min_opt (Z.min requested (zlen t.(InMemoryTransport._pending))) t.(InMemoryTransport._read_chunk_size).

Definition _data_bytes_read_locked (t : InMemoryTransport) (returned : Z) : InMemoryTransport :=
  if t.(InMemoryTransport._pending_data_bytes) =? 0 then t
  else
    let rest := Z.max 0 (t.(InMemoryTransport._pending_data_bytes) - returned) in
    let t := set_queue t.(InMemoryTransport._pending) rest t in
    if rest =? 0 then set_device (set_transport_pending_data false t.(InMemoryTransport.device)) t
    else t.

(** [monotonic()] is read before the interval is checked. *)
Definition _produce_stream_frame_locked (t : InMemoryTransport) (now : Z) :
    result sim_error InMemoryTransport :=
  if negb (length t.(InMemoryTransport._pending) =? 0)%nat then Ok t
  else if t.(InMemoryTransport._demand_driven) && (t.(InMemoryTransport._stream_credits) =? 0) then Ok t
  else if match t.(InMemoryTransport._stream_interval) with
          | Some _ => now <? t.(InMemoryTransport._next_stream_at) | None => false end then Ok t
  else
    '(d, data_frame) ← next_data_frame t.(InMemoryTransport.device);
    match data_frame with
    | None => Ok (set_device d t)
    | Some frame =>
        let t := set_device (set_transport_pending_data true d) t in
        let t := set_queue (t.(InMemoryTransport._pending) ++ frame) (zlen frame) t in
        Ok (set_schedule
              (if t.(InMemoryTransport._demand_driven) then t.(InMemoryTransport._stream_credits) - 1
               else t.(InMemoryTransport._stream_credits))
              (match t.(InMemoryTransport._stream_interval) with
               | Some interval => now + interval | None => t.(InMemoryTransport._next_stream_at) end) t)
    end.

(** Lines 634-642 and 653-664: what [read] and [readinto] share. *)
Definition take_chunk (t : InMemoryTransport) (requested now : Z) : step bytes :=
  match _produce_stream_frame_locked t now with
  | Err e => (t, Err (DeviceRaised e))
  | Ok t =>
      if (length t.(InMemoryTransport._pending) =? 0)%nat then (t, Ok [])
      else
        let returned := _bounded_read_size_locked t requested in
        let n := Z.to_nat returned in
        let chunk := take n t.(InMemoryTransport._pending) in
        let t := set_queue (drop n t.(InMemoryTransport._pending)) t.(InMemoryTransport._pending_data_bytes) t in
        (_data_bytes_read_locked t returned, Ok chunk)
  end.

Definition read (t : InMemoryTransport) (size now : Z) : step bytes :=
  if negb t.(InMemoryTransport._is_open) then closed t
  else if size <=? 0 then (t, Err (TransportValueError "read size must be positive"))
  else take_chunk t size now.

(** The caller's buffer is returned with the chunk at its front. *)
Definition readinto (t : InMemoryTransport) (buffer : bytes) (now : Z) : step (bytes * Z) :=
  if (length buffer =? 0)%nat then (t, Ok (buffer, 0))
  else if negb t.(InMemoryTransport._is_open) then closed t
  else match take_chunk t (zlen buffer) now with
       | (t, Ok chunk) => (t, Ok (chunk ++ drop (length chunk) buffer, zlen chunk))
       | (t, Err e) => (t, Err e)
       end.

Definition request_stream_frame (t : InMemoryTransport) : step unit :=
  if negb t.(InMemoryTransport._is_open) then closed t
  else (if t.(InMemoryTransport._demand_driven)
        then set_schedule (t.(InMemoryTransport._stream_credits) + 1) t.(InMemoryTransport._next_stream_at) t
        else t, Ok tt).

Definition flush (t : InMemoryTransport) : step unit :=
  if negb t.(InMemoryTransport._is_open) then closed t else (t, Ok tt).

Definition close (t : InMemoryTransport) : InMemoryTransport :=
  if t.(InMemoryTransport._is_open) then
    let t := set_closed t in
    let t := set_queue [] 0 t in
    let t := set_device (discard_transport_data t.(InMemoryTransport.device)) t in
    set_schedule 0 t.(InMemoryTransport._next_stream_at) t
  else t.

(** ** How many requests a write completes

    A request is at least 48 bytes and the parser holds at most one unfinished
    candidate; the fixed bytes 0-19 of a candidate's header hold no second magic, so a
    request embedded in a rejected candidate still ends past everything buffered. *)

Lemma request_size l f n : next_action (FrameT:=bytes) l = Emit f n -> (48 <= n <= 68)%nat.
Proof.
  intros H. unfold next_action in H.
  destruct (starts_with magic_bytes l); [|by destruct (starts_with l magic_bytes)].
  destruct (length l <? header_size)%nat; [done|].
  destruct (decode_header l 0) as [h|?] eqn:Hd; [|done].
  destruct (length l <? total_length h)%nat; [done|].
  destruct (decode_frame l 0 h) as [f'|[]]; [|done..]. injection H as _ <-.
  cbn [decode_header request_codec] in Hd. apply sorted_by_Ok, request_header_total in Hd. cbn [total_length request_codec]. lia.
Qed.

(** No second magic opens in the first twenty bytes of an accepted header. *)
Lemma no_inner_magic l h k :
  wf_bytes l -> _request_header l 0 = Ok h -> (1 <= k <= 19)%nat ->
  starts_with (magic_bytes (FrameCodec:=request_codec)) (drop k l) = false.
Proof.
  intros Hw H Hk. pose proof (request_header_total _ _ _ H) as Ht. apply not_true_iff_false. intros Hm.
  unfold starts_with in Hm. apply bool_decide_eq_true in Hm.
  change (magic_bytes (FrameCodec:=request_codec)) with [239; 190; 173; 222] in Hm. cbn [length] in Hm.
  unfold _request_header in H. apply bind_Ok_inv in H as (vs & Hvs & H).
  apply of_option_Ok_inv in Hvs. unfold unpack_from in Hvs. rewrite HEADER_SIZE_calc, drop_0 in Hvs.
  destruct (0 + 44 <=? length l)%nat eqn:Hl; [|discriminate]. apply Nat.leb_le in Hl. apply Some_inj' in Hvs.
  do 20 (destruct l as [|? l]; [cbn in Hl; lia|]). cbn -[from_le take drop] in Hvs. subst vs.
  destruct (_ || _) eqn:Hc; [discriminate|]. apply Ok_inj in H. subst h. cbn [_Envelope.total_length] in Ht.
  rewrite !orb_false_iff, !negb_false_iff, !Z.eqb_eq in Hc. destruct Hc as (((((Hmg & Hv) & Hs) & Ha) & Hp) & _).
  cbn [take firstn drop skipn] in Hmg, Hv, Hs, Ha, Hp, Ht.
  rewrite from_le_4 in Hmg, Ht. rewrite !from_le_4 in Hp. rewrite from_le_1 in Hv, Ha. rewrite from_le_2 in Hs.
  do 20 (apply Forall_cons in Hw as [? Hw]). unfold is_byte in *. clear Hw.
  unfold MAGIC, PROTOCOL_VERSION, HEADER_SIZE, MIN_FRAME_BYTES in *.
  change (int_of ChecksumAlgorithm.ADLER32) with 1 in Ha.
  clear Hl. destruct Hk as [Hk1 Hk2].
  do 20 (destruct k as [|k]; [clear Hk2; first [lia | cbn [drop skipn take firstn] in Hm; injection Hm; clear Hm; intros; lia]|]).
  lia.
Qed.

(** The first request completed after [buffered] was left waiting ends in the new bytes. *)
Lemma first_request_end buffered data k f n :
  wf_bytes (buffered ++ data) -> next_action (FrameT:=bytes) buffered = Wait ->
  next_action (drop k (buffered ++ data)) = Emit f n -> (length buffered < k + n)%nat.
Proof.
  intros Hw Hwait He. destruct (Nat.lt_ge_cases (length buffered) (k + n)) as [|Hle]; [done|exfalso].
  pose proof (request_size _ _ _ He) as Hn. unfold next_action in Hwait.
  destruct (starts_with magic_bytes buffered) eqn:Hm.
  2: { destruct (starts_with buffered magic_bytes) eqn:Hp; [|done]. unfold starts_with in Hp.
       apply bool_decide_eq_true in Hp. apply (f_equal length) in Hp. rewrite length_take in Hp.
       change (length (magic_bytes (FrameCodec:=request_codec))) with 4%nat in Hp. lia. }
  change header_size with 44%nat in Hwait.
  destruct (length buffered <? 44)%nat eqn:Hh; [apply Nat.ltb_lt in Hh; lia|]. apply Nat.ltb_ge in Hh.
  destruct (decode_header buffered 0) as [h|?] eqn:Hd; [|done].
  destruct (length buffered <? total_length h)%nat eqn:Ht.
  2: { by destruct (decode_frame buffered 0 h) as [?|[]]. }
  apply Nat.ltb_lt in Ht. cbn [decode_header total_length request_codec] in Hd, Ht.
  apply sorted_by_Ok in Hd as Hr.
  pose proof (request_header_total _ _ _ Hr) as Htot.
  apply wf_bytes_app in Hw as [Hwb _].
  destruct (decide (k = 0%nat)) as [->|Hk].
  - (* the waiting candidate itself: its length is known and not yet here *)
    rewrite drop_0 in He. unfold next_action in He. rewrite (starts_with_app _ _ data Hm) in He.
    change header_size with 44%nat in He.
    destruct (length (buffered ++ data) <? 44)%nat; [done|].
    assert (Hd' : decode_header (buffered ++ data) 0 = Ok h).
    { rewrite decode_header_app by (change header_size with 44%nat; lia). cbn [decode_header request_codec]. by rewrite Hr. }
    rewrite Hd' in He. destruct (length (buffered ++ data) <? total_length h)%nat; [done|].
    destruct (decode_frame (buffered ++ data) 0 h) as [?|[]]; [|done..]. injection He as _ <-.
    cbn [total_length request_codec] in Hle. lia.
  - assert (Hk19 : (1 <= k <= 19)%nat) by lia.
    pose proof (no_inner_magic buffered h k Hwb Hr Hk19) as Hno.
    assert (Hyes : starts_with magic_bytes (drop k (buffered ++ data)) = true).
    { unfold next_action in He. destruct (starts_with magic_bytes (drop k (buffered ++ data))) eqn:Hs; [done|].
      by destruct (starts_with (drop k (buffered ++ data)) magic_bytes). }
    rewrite drop_app_le in Hyes by lia. unfold starts_with in Hno, Hyes.
    rewrite take_app_le in Hyes by (rewrite length_drop;
      change (length (magic_bytes (FrameCodec:=request_codec))) with 4%nat; lia). congruence.
Qed.

Lemma requests_completed p data p' wires :
  parser_inv p -> wf_bytes (unread p) -> wf_bytes data -> feed p data = Ok (p', wires) ->
  forall slots, (length data <= slots * 48)%nat -> (length wires <= slots)%nat.
Proof.
  intros Hp Hu Hw Hf slots Hl.
  destruct (feed_simulates p data Hp Hw) as (q & es & Hf' & _ & Hs & _).
  rewrite Hf in Hf'. injection Hf' as _ ->.
  destruct (scans_first_frame _ _ _ Hs) as [->|(k & f & n & es' & He & Hkn & Hs' & -> & _)]; [cbn; lia|].
  pose proof (first_request_end (unread p) data k f n) as Hend.
  specialize (Hend ltac:(by apply wf_bytes_app) (inv_rest _ Hp) He).
  pose proof (scans_frame_count 48 _ _ _ (fun l f n H => proj1 (request_size l f n H)) Hs') as Hc.
  rewrite length_drop, length_app in Hc. rewrite length_app in Hkn. cbn [length]. lia.
Qed.

(** ** The invariant *)

Record transport_inv (t : InMemoryTransport) : Prop := {
  ti_device : device_inv t.(InMemoryTransport.device);
  ti_maximum : MAX_DATA_FRAME_BYTES + MAX_CONTROL_FRAME_BYTES <= t.(InMemoryTransport._max_pending_bytes);
  ti_queue : zlen t.(InMemoryTransport._pending) <= t.(InMemoryTransport._max_pending_bytes);
  ti_data : 0 <= t.(InMemoryTransport._pending_data_bytes) <= zlen t.(InMemoryTransport._pending);
  ti_flag : t.(InMemoryTransport.device).(SimulatedV3Device._pending_data)
            = negb (t.(InMemoryTransport._pending_data_bytes) =? 0);
  ti_credits : 0 <= t.(InMemoryTransport._stream_credits);
  ti_chunks : positive_or_none t.(InMemoryTransport._read_chunk_size) = true /\
              positive_or_none t.(InMemoryTransport._write_chunk_size) = true;
  ti_closed : t.(InMemoryTransport._is_open) = false -> t.(InMemoryTransport._pending) = []
}.

Lemma emits_size wire : emits wire -> 48 <= zlen wire <= 4108.
Proof.
  intros (Hw & f & Hf). apply decode_v3_frame_iff in Hf; [|done]. by destruct (frame_on_wire_size _ _ Hf) as (_ & _ & ?).
Qed.

Lemma all_answered_facts wires replies :
  all_answered wires replies ->
  length replies = length wires /\ Forall emits replies /\
  Z.of_nat (sum_list_with length replies) <= MAX_CONTROL_FRAME_BYTES * zlen replies.
Proof.
  induction 1 as [|w r wires replies (resp & Hw & Hl & (f & Hf & _) & _) _ (IHl & IHe & IHs)]; [done|].
  split; [cbn; lia|]. split; [constructor; [split; [done|by exists f]|done]|].
  unfold zlen, MAX_CONTROL_FRAME_BYTES in *. cbn [sum_list_with length]. lia.
Qed.

Lemma length_concat_sum (ls : list bytes) : length (concat ls) = sum_list_with length ls.
Proof. induction ls as [|l ls IH]; [done|]. cbn. by rewrite length_app, IH. Qed.

Lemma response_slots_nonneg t : transport_inv t -> 0 <= response_slots t.
Proof.
  intros []. unfold response_slots. change _max_control_frame_bytes with 2048. apply Z.div_pos; lia.
Qed.

Lemma accepted_bytes_range t view :
  transport_inv t -> view <> [] -> response_slots t <> 0 ->
  1 <= accepted_bytes t view <= zlen view /\
  accepted_bytes t view <= t.(InMemoryTransport.device).(SimulatedV3Device._max_receive_bytes) /\
  accepted_bytes t view <= response_slots t * 48.
Proof.
  intros H Hv Hs. pose proof (response_slots_nonneg t H). destruct H. destruct (di_limits _ ti_device0) as [Hm _].
  assert (1 <= zlen view) by (unfold zlen; destruct view; [done|cbn; lia]).
  unfold accepted_bytes, min_opt, V1_MIN_FRAME_BYTES, positive_or_none in *.
  destruct (InMemoryTransport._write_chunk_size t); lia.
Qed.

(** *** [write] *)

Lemma write_ok t view now :
  transport_inv t -> t.(InMemoryTransport._is_open) = true -> wf_bytes view ->
  exists t' n replies, write t view now = (t', Ok n) /\ transport_inv t' /\ t'.(InMemoryTransport._is_open) = true /\
    0 <= n <= zlen view /\ (view <> [] -> response_slots t <> 0 -> 1 <= n) /\ Forall emits replies /\
    t'.(InMemoryTransport._pending) = t.(InMemoryTransport._pending) ++ concat replies.
Proof.
  intros H Ho Hw. unfold write. rewrite Ho. cbn [negb].
  destruct (Nat.eqb_spec (length view) 0) as [Hz|Hz].
  { exists t, 0, []. apply length_zero_iff_nil in Hz. subst view. cbn [concat]. rewrite app_nil_r. by split_and!. }
  assert (Hne : view <> []) by (by intros ->).
  destruct (Z.eqb_spec (response_slots t) 0) as [Hs|Hs].
  { exists t, 0, []. cbn [concat]. rewrite app_nil_r. pose proof (zlen_nonneg view). by split_and!. }
  destruct (accepted_bytes_range t view H Hne Hs) as (Ha & Hm & Hcap). cbv zeta.
  set (n := accepted_bytes t view) in *. set (data := take (Z.to_nat n) view).
  assert (Hld : zlen data = n) by (unfold data, zlen in *; rewrite length_take; lia).
  assert (Hwd : wf_bytes data) by (unfold data; auto with daq).
  pose proof (ti_device t H) as Hd.
  destruct (device_receive_ok _ data Hd Hwd) as (p & wires & d & replies & Hf & Hr & Hd' & (ids & Hsf) & Hall); [lia|].
  rewrite Hr. destruct Hsf as (_ & _ & _ & _ & _ & Hpd & _). cbn [SimulatedV3Device._pending_data set_recent set_parser] in Hpd.
  destruct (all_answered_facts _ _ Hall) as (Hlr & Hem & Hsum).
  pose proof (requests_completed _ _ _ _ (di_parser _ Hd) (di_wire _ Hd) Hwd Hf (Z.to_nat (response_slots t))) as Hc.
  specialize (Hc ltac:(unfold zlen in Hld; lia)).
  assert (Hfit : zlen (InMemoryTransport._pending t) + Z.of_nat (sum_list_with length replies)
                 <= InMemoryTransport._max_pending_bytes t).
  { pose proof (response_slots_nonneg t H). unfold zlen, MAX_CONTROL_FRAME_BYTES in Hsum.
    assert (response_slots t * 2048 <= InMemoryTransport._max_pending_bytes t - zlen (InMemoryTransport._pending t))
      by (unfold response_slots; change _max_control_frame_bytes with 2048; pose proof (Z.mul_div_le
        (InMemoryTransport._max_pending_bytes t - zlen (InMemoryTransport._pending t)) 2048); lia).
    nia. }
  set (t1 := if bool_decide _ then _ else _).
  assert (Ht1 : InMemoryTransport._pending t1 = InMemoryTransport._pending t /\
    InMemoryTransport._max_pending_bytes t1 = InMemoryTransport._max_pending_bytes t /\
    InMemoryTransport._pending_data_bytes t1 = InMemoryTransport._pending_data_bytes t /\
    InMemoryTransport.device t1 = d /\ InMemoryTransport._is_open t1 = true /\
    InMemoryTransport._read_chunk_size t1 = InMemoryTransport._read_chunk_size t /\
    InMemoryTransport._write_chunk_size t1 = InMemoryTransport._write_chunk_size t /\
    0 <= InMemoryTransport._stream_credits t1).
  { pose proof (ti_credits t H). unfold t1. case_bool_decide; cbn; split_and!; done. }
  destruct Ht1 as (E1 & E2 & E3 & E4 & E5 & E6 & E7 & E8). rewrite E1, E2, E3.
  rewrite (proj2 (Z.ltb_ge _ _)) by done. eexists _, n, replies. split; [done|].
  assert (Hinv : transport_inv (set_queue (InMemoryTransport._pending t ++ concat replies)
                   (InMemoryTransport._pending_data_bytes t) t1)).
  { destruct H. split; cbn; rewrite ?E4, ?E2, ?E6, ?E7; try done.
    - unfold zlen in *. rewrite length_app, length_concat_sum. lia.
    - unfold zlen in *. rewrite length_app. lia.
    - by rewrite Hpd.
    - by rewrite E5. }
  split; [exact Hinv|]. split; [done|]. split; [lia|]. split; [lia|]. by split.
Qed.

(** *** [read] *)

(** What one production adds: at most one frame, into an empty queue, for one credit. *)
Definition produced (t t' : InMemoryTransport) (frames : list bytes) : Prop :=
  Forall emits frames /\
  t'.(InMemoryTransport._pending) = t.(InMemoryTransport._pending) ++ concat frames /\
  t'.(InMemoryTransport._is_open) = t.(InMemoryTransport._is_open) /\
  (frames = [] /\ t'.(InMemoryTransport._stream_credits) = t.(InMemoryTransport._stream_credits) \/
   t.(InMemoryTransport._pending) = [] /\ length frames = 1%nat /\
   t'.(InMemoryTransport._stream_credits)
   = t.(InMemoryTransport._stream_credits) - (if t.(InMemoryTransport._demand_driven) then 1 else 0)).

Lemma produce_ok t now :
  transport_inv t -> t.(InMemoryTransport._is_open) = true ->
  exists t' frames, _produce_stream_frame_locked t now = Ok t' /\ transport_inv t' /\ produced t t' frames.
Proof.
  intros H Ho. unfold _produce_stream_frame_locked.
  assert (Hsame : produced t t []) by (unfold produced; cbn [concat]; rewrite app_nil_r; split_and!; try done; by left).
  destruct (Nat.eqb_spec (length (InMemoryTransport._pending t)) 0) as [Hz|Hz]; cbn [negb]; [|by exists t, []].
  apply length_zero_iff_nil in Hz.
  destruct (InMemoryTransport._demand_driven t && (InMemoryTransport._stream_credits t =? 0)) eqn:Hc; [by exists t, []|].
  destruct (match InMemoryTransport._stream_interval t with Some _ => _ | None => _ end); [by exists t, []|].
  assert (Hpdb : InMemoryTransport._pending_data_bytes t = 0) by (destruct H; rewrite Hz in ti_data0; unfold zlen in ti_data0; cbn in ti_data0; lia).
  destruct (next_data_frame_ok _ (ti_device t H)) as [[-> _]|(Hrun & Hpd & s & _ & [(-> & H1 & _)|(wire & d' & -> & Hw & _ & H1)])];
    cbn [mbind result_bind].
  - exists (set_device (InMemoryTransport.device t) t), []. split; [done|]. split; [by destruct t|]. by destruct t.
  - eexists _, []. split; [done|]. split; [|exact Hsame].
    destruct H. by split.
  - assert (He : emits wire) by (destruct Hw as (Hww & (f & _ & Hf & _) & _); split; [done|by exists f]).
    assert (Hpd' : SimulatedV3Device._pending_data (set_transport_pending_data true d') = true) by reflexivity.
    pose proof (emits_size wire He) as Hsz. eexists _, [wire]. split; [done|].
    assert (Hcr : 0 <= (if InMemoryTransport._demand_driven t then InMemoryTransport._stream_credits t - 1
                        else InMemoryTransport._stream_credits t)).
    { pose proof (ti_credits t H). destruct (InMemoryTransport._demand_driven t); [|done]. cbn in Hc. lia. }
    split.
    + destruct H. unfold MAX_DATA_FRAME_BYTES, MAX_CONTROL_FRAME_BYTES in ti_maximum0. split; cbn; try done.
      * rewrite Hz. cbn [app]. lia.
      * rewrite Hz. cbn [app]. lia.
      * rewrite (proj2 (Z.eqb_neq _ _)) by lia. done.
      * intros Hx. congruence.
    + unfold produced. cbn. rewrite app_nil_r. split; [by constructor|]. split; [done|]. split; [done|]. right.
      split; [done|]. split; [done|]. destruct (InMemoryTransport._demand_driven t); lia.
Qed.

Lemma data_bytes_read_inv t n :
  transport_inv t -> 0 <= n <= zlen t.(InMemoryTransport._pending) ->
  transport_inv (_data_bytes_read_locked
    (set_queue (drop (Z.to_nat n) t.(InMemoryTransport._pending)) t.(InMemoryTransport._pending_data_bytes) t) n).
Proof.
  intros H Hn. destruct H. unfold _data_bytes_read_locked.
  set (pending := drop (Z.to_nat n) (InMemoryTransport._pending t)).
  assert (Hl : zlen pending = zlen (InMemoryTransport._pending t) - n)
    by (unfold pending, zlen in *; rewrite length_drop; lia).
  assert (Hcl : InMemoryTransport._is_open t = false -> pending = [])
    by (intros Hx; unfold pending; by rewrite (ti_closed0 Hx), drop_nil).
  cbn [InMemoryTransport._pending_data_bytes InMemoryTransport._pending InMemoryTransport.device set_queue set_device].
  destruct (Z.eqb_spec (InMemoryTransport._pending_data_bytes t) 0) as [Hz|Hz].
  - split; cbn; try done; try lia. by rewrite ti_flag0, Hz.
  - set (rest := Z.max 0 _). destruct (Z.eqb_spec rest 0) as [Hr|Hr].
    + split; cbn; try done; try lia.
      * by apply drained_inv.
      * rewrite Hr. unfold set_transport_pending_data. by case_match.
    + split; cbn; try done; try lia. rewrite ti_flag0. f_equal. lia.
Qed.

Lemma data_bytes_read_same t n :
  let t' := _data_bytes_read_locked t n in
  t'.(InMemoryTransport._pending) = t.(InMemoryTransport._pending) /\
  t'.(InMemoryTransport._is_open) = t.(InMemoryTransport._is_open) /\
  t'.(InMemoryTransport._stream_credits) = t.(InMemoryTransport._stream_credits).
Proof. cbv zeta. unfold _data_bytes_read_locked. cbv zeta. by repeat case_match. Qed.

Lemma take_chunk_ok t requested now :
  transport_inv t -> t.(InMemoryTransport._is_open) = true -> 0 < requested ->
  exists t' chunk frames, take_chunk t requested now = (t', Ok chunk) /\ transport_inv t' /\
    t'.(InMemoryTransport._is_open) = true /\ zlen chunk <= requested /\ Forall emits frames /\
    chunk ++ t'.(InMemoryTransport._pending) = t.(InMemoryTransport._pending) ++ concat frames /\
    (chunk = [] -> t'.(InMemoryTransport._pending) = []).
Proof.
  intros H Ho Hreq. unfold take_chunk.
  destruct (produce_ok t now H Ho) as (t1 & frames & -> & H1 & He & Hp & Ho1 & _). rewrite Ho in Ho1.
  destruct (Nat.eqb_spec (length (InMemoryTransport._pending t1)) 0) as [Hz|Hz].
  { apply length_zero_iff_nil in Hz. exists t1, [], frames. split; [done|]. split; [done|]. split; [done|].
    split; [unfold zlen; cbn; lia|]. split; [done|]. by rewrite <-Hp. }
  cbv zeta. set (n := _bounded_read_size_locked t1 requested).
  assert (Hn : 1 <= n <= zlen (InMemoryTransport._pending t1) /\ n <= requested).
  { assert (1 <= zlen (InMemoryTransport._pending t1)) by (unfold zlen; lia).
    destruct (ti_chunks t1 H1) as [Hc _]. unfold n, _bounded_read_size_locked, min_opt, positive_or_none in *.
    destruct (InMemoryTransport._read_chunk_size t1); lia. }
  set (t2 := set_queue (drop (Z.to_nat n) (InMemoryTransport._pending t1)) (InMemoryTransport._pending_data_bytes t1) t1).
  destruct (data_bytes_read_same t2 n) as (E1 & E2 & _).
  exists (_data_bytes_read_locked t2 n), (take (Z.to_nat n) (InMemoryTransport._pending t1)), frames.
  split; [done|]. split; [apply data_bytes_read_inv; [done|lia]|]. split; [by rewrite E2|].
  assert (Hlc : zlen (take (Z.to_nat n) (InMemoryTransport._pending t1)) = n) by (unfold zlen in *; rewrite length_take; lia).
  split; [lia|]. split; [done|]. split; [rewrite E1; cbn; by rewrite take_drop|].
  intros Hx. rewrite Hx in Hlc. unfold zlen in Hlc. cbn in Hlc. lia.
Qed.

(** *** [close] *)

Lemma close_inv t : transport_inv t -> transport_inv (close t).
Proof.
  intros H. unfold close. destruct (InMemoryTransport._is_open t) eqn:Ho; [|done]. cbv zeta.
  pose proof (discard_inv _ (ti_device t H)) as Hd. destruct H.
  unfold MAX_DATA_FRAME_BYTES, MAX_CONTROL_FRAME_BYTES in ti_maximum0. split; cbn; try done; try lia.
  - unfold zlen. cbn. lia.
  - unfold discard_transport_data, set_transport_pending_data. by repeat case_match.
Qed.

Lemma init_transport_inv d r w maximum interval demand now t :
  device_inv d -> d.(SimulatedV3Device._pending_data) = false ->
  init_transport d r w maximum interval demand now = Ok t ->
  transport_inv t /\ t.(InMemoryTransport._is_open) = true /\ t.(InMemoryTransport._pending) = [].
Proof.
  intros Hd Hp H. unfold init_transport in H. cbv zeta in H. rewrite !require_bind in H.
  destruct H as (Hr & Hw & Hm & _ & H). apply Ok_inj in H. subst t. apply Z.leb_le in Hm. unfold _max_control_frame_bytes in Hm.
  split; [|done]. split; cbn; try done; try lia.
  - by apply begin_session_inv.
  - unfold zlen, MAX_DATA_FRAME_BYTES, MAX_CONTROL_FRAME_BYTES in *. cbn. lia.
Qed.

(** ** Sequences of calls *)

Inductive transport_call :=
| Write (view : bytes) (now : Z)
| Read (size now : Z)
| ReadInto (buffer : bytes) (now : Z)
| RequestFrame
| Flush
| Close.

Inductive call_value :=
| Accepted (count : Z)
| Chunk (data : bytes)
| Filled (buffer : bytes) (count : Z)
| Returned.

Definition valued {A} (f : A -> call_value) (s : step A) : step call_value :=
  match s with (t, Ok a) => (t, Ok (f a)) | (t, Err e) => (t, Err e) end.

Definition transport_step (t : InMemoryTransport) (c : transport_call) : step call_value :=
  match c with
  | Write view now => valued Accepted (write t view now)
  | Read size now => valued Chunk (read t size now)
  | ReadInto buffer now => valued (fun r => Filled r.1 r.2) (readinto t buffer now)
  | RequestFrame => valued (fun _ => Returned) (request_stream_frame t)
  | Flush => valued (fun _ => Returned) (flush t)
  | Close => (close t, Ok Returned)
  end.

Fixpoint transport_run (t : InMemoryTransport) (calls : list transport_call) :
    InMemoryTransport * list (result transport_error call_value) :=
  match calls with
  | [] => (t, [])
  | c :: calls =>
      let '(t, o) := transport_step t c in
      let '(t, outcomes) := transport_run t calls in (t, o :: outcomes)
  end.

(** The bytes a call hands to the host. *)
Definition delivered (o : result transport_error call_value) : bytes :=
  match o with
  | Ok (Chunk data) => data
  | Ok (Filled buffer count) => take (Z.to_nat count) buffer
  | _ => []
  end.

Definition bytes_ok (c : transport_call) : Prop :=
  match c with Write view _ => wf_bytes view | _ => True end.

(** What a call may end with: never a full queue or a device error; TransportClosedError
    only once closed, ValueError only for a read of no bytes. *)
Definition outcome_ok (t : InMemoryTransport) (c : transport_call) (o : result transport_error call_value) : Prop :=
  match o with
  | Ok _ => True
  | Err TransportClosedError => t.(InMemoryTransport._is_open) = false
  | Err (TransportValueError _) => exists size now, c = Read size now /\ size <= 0
  | Err TransportBufferError | Err (DeviceRaised _) => False
  end.

Definition step_ok (t : InMemoryTransport) (c : transport_call) : Prop :=
  exists t' o frames, transport_step t c = (t', o) /\ transport_inv t' /\ outcome_ok t c o /\ Forall emits frames /\
    (c <> Close -> t'.(InMemoryTransport._is_open) = t.(InMemoryTransport._is_open) /\
       delivered o ++ t'.(InMemoryTransport._pending) = t.(InMemoryTransport._pending) ++ concat frames).

(** A call that moves no bytes. *)
Lemma idle_step t c o t' :
  transport_step t c = (t', o) -> transport_inv t' -> outcome_ok t c o -> delivered o = [] ->
  t'.(InMemoryTransport._is_open) = t.(InMemoryTransport._is_open) ->
  t'.(InMemoryTransport._pending) = t.(InMemoryTransport._pending) -> step_ok t c.
Proof.
  intros Hs Hi Ho Hd Hopen Hp. exists t', o, []. rewrite Hd, Hp. cbn [concat app]. rewrite app_nil_r. by split_and!.
Qed.

Lemma transport_step_ok t c : transport_inv t -> bytes_ok c -> step_ok t c.
Proof.
  intros H Hc. destruct c as [view now|size now|buffer now| | |].
  - destruct (InMemoryTransport._is_open t) eqn:Ho.
    + destruct (write_ok t view now H Ho Hc) as (t' & n & replies & Hw & H' & Ho' & _ & _ & He & Hp).
      exists t', (Ok (Accepted n)), replies. cbn [transport_step]. rewrite Hw, Ho, Ho'. by split_and!.
    + apply (idle_step t _ (Err TransportClosedError) t); try done.
      cbn [transport_step]. unfold write. by rewrite Ho.
  - destruct (InMemoryTransport._is_open t) eqn:Ho.
    2: { apply (idle_step t _ (Err TransportClosedError) t); try done.
         cbn [transport_step]. unfold read. by rewrite Ho. }
    destruct (Z.leb_spec size 0) as [Hs|Hs].
    + apply (idle_step t _ (Err (TransportValueError "read size must be positive")) t); try done.
      * cbn [transport_step]. unfold read. rewrite Ho. cbn [negb]. by rewrite (proj2 (Z.leb_le _ _)).
      * by exists size, now.
    + destruct (take_chunk_ok t size now H Ho Hs) as (t' & chunk & frames & Ht & H' & Ho' & _ & He & Hp & _).
      exists t', (Ok (Chunk chunk)), frames. cbn [transport_step]. unfold read. rewrite Ho. cbn [negb].
      rewrite (proj2 (Z.leb_gt _ _)), Ht, Ho' by done. by split_and!.
  - destruct (Nat.eqb_spec (length buffer) 0) as [Hb|Hb].
    { apply (idle_step t _ (Ok (Filled buffer 0)) t); try done.
      cbn [transport_step]. unfold readinto. by rewrite (proj2 (Nat.eqb_eq _ _)). }
    destruct (InMemoryTransport._is_open t) eqn:Ho.
    2: { apply (idle_step t _ (Err TransportClosedError) t); try done.
         cbn [transport_step]. unfold readinto. by rewrite (proj2 (Nat.eqb_neq _ _)), Ho. }
    destruct (take_chunk_ok t (zlen buffer) now H Ho) as (t' & chunk & frames & Ht & H' & Ho' & _ & He & Hp & _);
      [unfold zlen; lia|].
    exists t', (Ok (Filled (chunk ++ drop (length chunk) buffer) (zlen chunk))), frames.
    cbn [transport_step]. unfold readinto. rewrite (proj2 (Nat.eqb_neq _ _)), Ho by done. cbn [negb]. rewrite Ht, Ho'.
    split_and!; try done. intros _. split; [done|]. cbn [delivered]. unfold zlen. rewrite Nat2Z.id.
    by rewrite take_app_exact by done.
  - destruct (InMemoryTransport._is_open t) eqn:Ho.
    + apply (idle_step t _ (Ok Returned) (if InMemoryTransport._demand_driven t
        then set_schedule (InMemoryTransport._stream_credits t + 1) (InMemoryTransport._next_stream_at t) t else t));
        try done; try (by destruct (InMemoryTransport._demand_driven t)).
      * cbn [transport_step]. unfold request_stream_frame. by rewrite Ho.
      * destruct (InMemoryTransport._demand_driven t); [|done]. destruct H. split; try done. cbn. lia.
    + apply (idle_step t _ (Err TransportClosedError) t); try done.
      cbn [transport_step]. unfold request_stream_frame. by rewrite Ho.
  - destruct (InMemoryTransport._is_open t) eqn:Ho.
    + apply (idle_step t _ (Ok Returned) t); try done. cbn [transport_step]. unfold flush. by rewrite Ho.
    + apply (idle_step t _ (Err TransportClosedError) t); try done.
      cbn [transport_step]. unfold flush. by rewrite Ho.
  - exists (close t), (Ok Returned), []. split; [done|]. split; [by apply close_inv|]. by split_and!.
Qed.

(** Every call of a run ends as [outcome_ok] allows in the state it met. *)
Fixpoint run_outcomes_ok (t : InMemoryTransport) (calls : list transport_call) : Prop :=
  match calls with
  | [] => True
  | c :: calls =>
      let '(t', o) := transport_step t c in
      outcome_ok t c o /\ zlen t'.(InMemoryTransport._pending) <= t.(InMemoryTransport._max_pending_bytes) /\
      run_outcomes_ok t' calls
  end.

Lemma transport_run_ok calls t :
  transport_inv t -> Forall bytes_ok calls ->
  transport_inv (transport_run t calls).1 /\
  (Forall (fun c => c <> Close) calls ->
   exists frames, Forall emits frames /\
     concat (map delivered (transport_run t calls).2) ++ (transport_run t calls).1.(InMemoryTransport._pending)
     = t.(InMemoryTransport._pending) ++ concat frames).
Proof.
  revert t. induction calls as [|c calls IH]; intros t H Hc.
  - split; [done|]. intros _. exists []. cbn. by rewrite app_nil_r.
  - apply Forall_cons in Hc as [Hc Hcs]. destruct (transport_step_ok t c H Hc) as (t' & o & frames & Hs & H' & _ & He & Hb).
    destruct (IH t' H' Hcs) as [Hi Hf]. cbn [transport_run]. rewrite Hs.
    destruct (transport_run t' calls) as [t2 os] eqn:Hr. cbn [fst snd] in *. split; [done|].
    intros Hnc. apply Forall_cons in Hnc as [Hn Hns]. destruct (Hb Hn) as [_ Hp].
    destruct (Hf Hns) as (more & Hm & Hd). exists (frames ++ more). split; [by apply Forall_app|].
    cbn [map concat]. by rewrite <-app_assoc, Hd, app_assoc, Hp, concat_app, <-app_assoc.
Qed.

Lemma data_bytes_read_maximum t n :
  (_data_bytes_read_locked t n).(InMemoryTransport._max_pending_bytes) = t.(InMemoryTransport._max_pending_bytes).
Proof. unfold _data_bytes_read_locked. cbv zeta. by repeat case_match. Qed.

Lemma produce_maximum t now t' :
  _produce_stream_frame_locked t now = Ok t' ->
  t'.(InMemoryTransport._max_pending_bytes) = t.(InMemoryTransport._max_pending_bytes).
Proof.
  unfold _produce_stream_frame_locked. intros H. repeat (case_match; [by apply Ok_inj in H as ->|]).
  apply bind_Ok_inv in H as ([d [frame|]] & _ & H); apply Ok_inj in H; by subst t'.
Qed.

Lemma take_chunk_maximum t n now :
  (take_chunk t n now).1.(InMemoryTransport._max_pending_bytes) = t.(InMemoryTransport._max_pending_bytes).
Proof.
  unfold take_chunk. destruct (_produce_stream_frame_locked t now) as [t1|] eqn:Hp; [|done].
  apply produce_maximum in Hp. case_match; cbn [fst]; [done|]. by rewrite data_bytes_read_maximum.
Qed.

Lemma step_maximum t c :
  (transport_step t c).1.(InMemoryTransport._max_pending_bytes) = t.(InMemoryTransport._max_pending_bytes).
Proof.
  destruct c as [view now|size now|buffer now| | |]; cbn [transport_step].
  - unfold write. case_match; [done|]. case_match; [done|]. case_match; [done|]. cbv zeta.
    destruct (device_receive _ _) as [[d rs]|]; [|done]. by repeat case_match.
  - unfold read. case_match; [done|]. case_match; [done|]. pose proof (take_chunk_maximum t size now).
    by destruct (take_chunk t size now) as [t' [o|]].
  - unfold readinto. case_match; [done|]. case_match; [done|]. pose proof (take_chunk_maximum t (zlen buffer) now).
    by destruct (take_chunk t (zlen buffer) now) as [t' [o|]].
  - unfold request_stream_frame. by repeat case_match.
  - unfold flush. by repeat case_match.
  - unfold close. by case_match.
Qed.

Lemma run_outcomes calls t : transport_inv t -> Forall bytes_ok calls -> run_outcomes_ok t calls.
Proof.
  revert t. induction calls as [|c calls IH]; intros t H Hc; [done|].
  apply Forall_cons in Hc as [Hc Hcs]. destruct (transport_step_ok t c H Hc) as (t' & o & frames & Hs & H' & Ho & _).
  pose proof (step_maximum t c) as Hm. cbn [run_outcomes_ok]. rewrite Hs in *. cbn [fst] in Hm.
  split; [done|]. split; [rewrite <-Hm; apply H'|by apply IH].
Qed.

(** ** Properties *)

(** The queue stays bounded and nothing unexpected is raised: whatever the host does,
    in any order, the queue never exceeds [max_pending_bytes], a write never meets a full
    queue because it accepts no more bytes than the replies they can complete have room
    for, the device never fails, and the only exceptions are use after close and a read
    of no bytes. *)
Theorem transport_never_overflows (d : SimulatedV3Device) (read_chunk write_chunk interval : option Z)
    (maximum : Z) (demand : bool) (now : Z) (t : InMemoryTransport) (calls : list transport_call)
    (Hd : device_inv d) (Hidle : d.(SimulatedV3Device._pending_data) = false)
    (Hinit : init_transport d read_chunk write_chunk maximum interval demand now = Ok t)
    (Hcalls : Forall bytes_ok calls) :
  run_outcomes_ok t calls.
Proof.
  apply init_transport_inv in Hinit as (Ht & _ & _); [|done..]. by apply run_outcomes.
Qed.

(** The byte stream is faithful end to end: however reads and writes are sized and
    interleaved, the bytes handed to the host followed by those still queued are whole
    frames, none lost, repeated, torn or reordered; once the queue is empty the host's
    own parser, fed the very chunks, delivers each of those frames and discards nothing. *)
Theorem transport_stream_faithful (d : SimulatedV3Device) (read_chunk write_chunk interval : option Z)
    (maximum : Z) (demand : bool) (now : Z) (t : InMemoryTransport) (calls : list transport_call)
    (Hd : device_inv d) (Hidle : d.(SimulatedV3Device._pending_data) = false)
    (Hinit : init_transport d read_chunk write_chunk maximum interval demand now = Ok t)
    (Hcalls : Forall bytes_ok calls) (Hopen : Forall (fun c => c <> Close) calls) :
  let '(t', outcomes) := transport_run t calls in
  exists wires frames, Forall2 (fun w f => decode_v3_frame w = Ok f) wires frames /\
    concat (map delivered outcomes) ++ t'.(InMemoryTransport._pending) = concat wires /\
    (t'.(InMemoryTransport._pending) = [] ->
     exists p, feed_all (C:=v3_codec) new_parser (map delivered outcomes) = Ok (p, frames) /\
       bytes_discarded p = 0%nat /\ corruption_events p = 0%nat /\ buffered_bytes p = 0%nat).
Proof.
  apply init_transport_inv in Hinit as (Ht & _ & Hp); [|done..].
  destruct (transport_run_ok calls t Ht Hcalls) as [_ Hf]. destruct (Hf Hopen) as (wires & He & Hs).
  destruct (transport_run t calls) as [t' outcomes]. cbn [fst snd] in Hs. rewrite Hp in Hs. cbn [app] in Hs.
  assert (Hd2 : exists frames, Forall2 (fun w f => wf_bytes w /\ decode_v3_frame w = Ok f) wires frames).
  { clear -He. induction He as [|w ws (Hw & f & Hf) _ [fs IH]]; [by exists []|]. exists (f :: fs). by constructor. }
  destruct Hd2 as [frames Hfr]. exists wires, frames.
  split; [eapply Forall2_impl; [exact Hfr|by intros ? ? [? ?]]|]. split; [done|]. intros Hempty.
  rewrite Hempty, app_nil_r in Hs. apply (frames_delivered wires frames); [rewrite Hs; apply wf_bytes_concat; eapply Forall_impl; [exact He|by intros w [? _]]|done|].
  eapply Forall2_impl; [exact Hfr|]. intros w f [Hw Hf']. by apply frame_complete.
Qed.

(** Draining ends exactly with the last data byte: while the device is DRAINING a read
    produces no new frame, returns queued bytes in order, and the device is STOPPED
    afterwards if and only if the chunk reached the end of the data frame. *)
Theorem drain_on_last_byte (t : InMemoryTransport) (size now : Z)
    (Ht : transport_inv t) (Hopen : t.(InMemoryTransport._is_open) = true) (Hsize : 0 < size)
    (Hdraining : t.(InMemoryTransport.device).(SimulatedV3Device._state) = DeviceState.DRAINING) :
  exists t' chunk, read t size now = (t', Ok chunk) /\ chunk <> [] /\
    t.(InMemoryTransport._pending) = chunk ++ t'.(InMemoryTransport._pending) /\
    t'.(InMemoryTransport._pending_data_bytes) = Z.max 0 (t.(InMemoryTransport._pending_data_bytes) - zlen chunk) /\
    t'.(InMemoryTransport.device).(SimulatedV3Device._state)
    = (if t.(InMemoryTransport._pending_data_bytes) <=? zlen chunk then DeviceState.STOPPED else DeviceState.DRAINING).
Proof.
  pose proof (di_draining _ (ti_device t Ht) Hdraining) as Hpd. rewrite (ti_flag t Ht) in Hpd.
  apply negb_true_iff, Z.eqb_neq in Hpd. pose proof (ti_data t Ht) as Hdata.
  assert (Hne : length (InMemoryTransport._pending t) <> 0%nat) by (unfold zlen in Hdata; lia).
  unfold read. rewrite Hopen, (proj2 (Z.leb_gt _ _)) by done. cbn [negb]. unfold take_chunk, _produce_stream_frame_locked.
  rewrite (proj2 (Nat.eqb_neq _ _) Hne). cbn [negb]. rewrite (proj2 (Nat.eqb_neq _ _) Hne). cbv zeta.
  set (n := _bounded_read_size_locked t size).
  assert (Hn : 1 <= n <= zlen (InMemoryTransport._pending t)).
  { destruct (ti_chunks t Ht) as [Hc _]. unfold n, _bounded_read_size_locked, min_opt, positive_or_none, zlen in *.
    destruct (InMemoryTransport._read_chunk_size t); lia. }
  set (chunk := take (Z.to_nat n) (InMemoryTransport._pending t)).
  assert (Hlc : zlen chunk = n) by (unfold chunk, zlen in *; rewrite length_take; lia).
  eexists _, chunk. split; [done|]. split; [intros Hx; rewrite Hx in Hlc; unfold zlen in Hlc; cbn in Hlc; lia|].
  match goal with |- context [_data_bytes_read_locked ?s n] => destruct (data_bytes_read_same s n) as (E1 & _) end.
  rewrite E1. cbn [InMemoryTransport._pending set_queue]. split; [symmetry; apply take_drop|].
  unfold _data_bytes_read_locked. cbn [InMemoryTransport._pending_data_bytes set_queue InMemoryTransport.device].
  rewrite (proj2 (Z.eqb_neq _ _) Hpd), Hlc. set (rest := Z.max 0 _).
  destruct (Z.eqb_spec rest 0) as [Hr|Hr]; destruct (Z.leb_spec (InMemoryTransport._pending_data_bytes t) n) as [Hle|Hle];
    unfold rest in Hr; try lia.
  - split; [done|]. cbn. unfold set_transport_pending_data. cbn [negb andb].
    rewrite bool_decide_eq_true_2 by (cbn; done). done.
  - split; [done|]. exact Hdraining.
Qed.

(** ** Witnesses *)

Lemma init_idle build_id a b d :
  init_device build_id a b = Ok d -> d.(SimulatedV3Device._pending_data) = false.
Proof.
  unfold init_device. intros H. apply require_bind in H as [_ H]. apply require_bind in H as [_ H].
  apply bind_Ok_inv in H as (c & _ & H). cbv zeta in H. apply bind_Ok_inv in H as (p & _ & H).
  apply bind_Ok_inv in H as (i & _ & H). apply bind_Ok_inv in H as (q & _ & H). apply Ok_inj in H. by subst d.
Qed.

Definition example_calls : list transport_call :=
  [Write info_wire 0; RequestFrame; Read 7 1; ReadInto (replicate 100 0) 2; Flush].

Lemma example_calls_ok : Forall bytes_ok example_calls.
Proof. apply Forall_cons. split; [exact info_wire_wf|]. repeat constructor. Qed.

Lemma transport_never_overflows_witness :
  exists d t, init_transport d None (Some 5) 6156 None true 0 = Ok t /\ run_outcomes_ok t example_calls.
Proof.
  destruct example_device as [d Hd]. pose proof (init_device_inv _ _ _ d Hd) as (Hi & _). pose proof (init_idle _ _ _ d Hd) as Hp.
  clear Hd. eexists d, _. split; [reflexivity|].
  apply (transport_never_overflows d None (Some 5) None 6156 true 0 _ example_calls Hi Hp);
    [reflexivity|exact example_calls_ok].
Defined.

Lemma transport_stream_faithful_witness :
  exists d t, init_transport d (Some 3) None 6156 (Some 10) true 0 = Ok t /\
    exists wires, concat (map delivered (transport_run t example_calls).2)
      ++ (transport_run t example_calls).1.(InMemoryTransport._pending) = concat wires.
Proof.
  destruct example_device as [d Hd]. pose proof (init_device_inv _ _ _ d Hd) as (Hi & _). pose proof (init_idle _ _ _ d Hd) as Hp.
  clear Hd. eexists d, _. split; [reflexivity|].
  pose proof (transport_stream_faithful d (Some 3) None (Some 10) 6156 true 0 _ example_calls Hi Hp eq_refl example_calls_ok) as H.
  destruct (transport_run _ example_calls) as [t' os]. destruct H as (wires & frames & _ & Hs & _); [by repeat constructor|].
  exists wires. exact Hs.
Defined.

Lemma draining_example :
  exists t, transport_inv t /\ t.(InMemoryTransport._is_open) = true /\
    t.(InMemoryTransport._pending_data_bytes) = 10 /\
    t.(InMemoryTransport.device).(SimulatedV3Device._state) = DeviceState.DRAINING.
Proof.
  destruct example_device as [d Hd]. pose proof (init_device_inv _ _ _ d Hd) as (Hi & _). pose proof (init_idle _ _ _ d Hd) as Hp.
  clear Hd. pose proof (start_inv d Hi Hp) as Hs. set (d1 := set_state _ _) in Hs.
  assert (Hclock : (at_stream (Epoch.items (SimulatedV3Device._epoch d1)) 0 + 1) * 8 <= _U64_MAX) by (vm_compute; discriminate).
  destruct (advance_device_inv d1 0 1 1 Hs eq_refl Hp ltac:(lia) Hclock) as [_ H2].
  set (d2 := set_pending_data true _) in H2. pose proof (stop_inv d2 H2) as H3. set (d3 := set_state _ _) in H3.
  exists (InMemoryTransport.mk d3 None None 6156 None true 0 0 (replicate 10 0) 10 true).
  split; [|done]. split; try done; cbn; unfold MAX_DATA_FRAME_BYTES, MAX_CONTROL_FRAME_BYTES, zlen; cbn; lia.
Qed.

Lemma drain_on_last_byte_witness :
  exists t t' chunk, t.(InMemoryTransport.device).(SimulatedV3Device._state) = DeviceState.DRAINING /\
    read t 4 0 = (t', Ok chunk) /\ chunk <> [].
Proof.
  destruct draining_example as (t & Ht & Ho & _ & Hd).
  destruct (drain_on_last_byte t 4 0 Ht Ho ltac:(lia) Hd) as (t' & chunk & Hr & Hne & _).
  exists t, t', chunk. split; [exact Hd|]. split; [exact Hr|exact Hne].
Defined.
