(* ===== verification/Profiles.v ===== *)
(** * Rate profiles, GPIO layouts and ADC metadata ([models.py], lines 165-1075).

    The generated tables of [_generated/protocol_v2_constants.py] (five exact rate
    profiles, two auxiliary-bank layouts), the records built from them, and the
    metadata attached to an ADC block: trigger schedule, calibration evidence,
    acquisition counters and the block metadata that joins them.  Each
    [__post_init__] is a [validate] function that accepts or raises. *)

From S2P Require Import Prelude PyStruct Checksum V3Constants V3Header.

(** ** Errors *)

(** [ValueError] with its message or with the field that fails the integer check;
    a validation error of the v3 modules; any other exception. *)
Inductive model_error :=
| ValueError (message : string)
| NotUnsigned (name : string) (bits : Z)
| Negative (name : string)
| V3Error (e : v3_error)
| UncaughtError (exception : string).

#[export] Instance model_error_eq_dec : EqDecision model_error.
Proof. solve_decision. Defined.

Abbreviation mdl := (result model_error).

Definition unsigned_ok (value bits : Z) : bool := (0 <=? value) && (value <? Z.shiftl 1 bits).

Definition _unsigned (name : string) (value bits : Z) : mdl unit :=
  require (unsigned_ok value bits) (NotUnsigned name bits).

Definition _nonnegative (name : string) (value : Z) : mdl unit :=
  require (0 <=? value) (Negative name).

(** A loop [for name, value in ...: _unsigned(name, value, bits)]. *)
Fixpoint all_unsigned (bits : Z) (fields : list (string * Z)) : mdl unit :=
  match fields with
  | [] => Ok tt
  | (name, value) :: fields => _ ← _unsigned name value bits; all_unsigned bits fields
  end.

Lemma unsigned_ok_iff value bits : 0 <= bits -> unsigned_ok value bits = true <-> 0 <= value < 2 ^ bits.
Proof. intros Hb. unfold unsigned_ok. rewrite Z.shiftl_1_l. lia. Qed.

Lemma all_unsigned_Ok bits fields u :
  all_unsigned bits fields = Ok u <-> Forall (fun f => unsigned_ok f.2 bits = true) fields.
Proof.
  destruct u. induction fields as [|[name value] fields IH]; cbn [all_unsigned].
  { split; [constructor|done]. }
  unfold _unsigned. by rewrite require_bind, IH, Forall_cons.
Qed.

(** ** Generated enumerations and tables *)

(** [constants.FrameKind] of protocol v1, the kind of a block's stream. *)
Module V1FrameKind.
Inductive FrameKind := ADC_DATA | GPIO_DATA | INFO_REQUEST | CONFIGURE_REQUEST | START_REQUEST
| GET_STATUS_REQUEST | STOP_REQUEST | RESET_STATS_REQUEST | PING_REQUEST
| CHECKSUM_BENCHMARK_REQUEST | GPIO_CLOCK_DIAGNOSTIC_REQUEST | GPIO_CAPTURE_DIAGNOSTIC_REQUEST
| INFO_RESPONSE | CONFIGURE_RESPONSE | START_RESPONSE | GET_STATUS_RESPONSE | STOP_RESPONSE
| RESET_STATS_RESPONSE | PING_RESPONSE | CHECKSUM_BENCHMARK_RESPONSE
| GPIO_CLOCK_DIAGNOSTIC_RESPONSE | GPIO_CAPTURE_DIAGNOSTIC_RESPONSE | ERROR_RESPONSE.
#[global] Instance V1FrameKind_eq_dec : EqDecision FrameKind.
Proof. solve_decision. Defined.
End V1FrameKind.

(** [v2_constants.RateProfile]; the auxiliary-bank modes and sources of the three
    protocol versions have the same members, so [V3Constants]' are used. *)
Module V2RateProfile.
Inductive RateProfile := ADC_1MHZ_GPIO_4MHZ | ADC_500KHZ_GPIO_2MHZ | ADC_250KHZ_GPIO_1MHZ
| ADC_125KHZ_GPIO_500KHZ | ADC_1MHZ_GPIO_1MHZ.
#[global] Instance V2RateProfile_eq_dec : EqDecision RateProfile.
Proof. solve_decision. Defined.
#[global] Instance V2RateProfile_enum : IntEnum RateProfile.
Proof.
  refine {|
    int_of a := match a with
      | ADC_1MHZ_GPIO_4MHZ => 0 | ADC_500KHZ_GPIO_2MHZ => 1 | ADC_250KHZ_GPIO_1MHZ => 2
      | ADC_125KHZ_GPIO_500KHZ => 3 | ADC_1MHZ_GPIO_1MHZ => 4 end;
    members := [ADC_1MHZ_GPIO_4MHZ; ADC_500KHZ_GPIO_2MHZ; ADC_250KHZ_GPIO_1MHZ;
      ADC_125KHZ_GPIO_500KHZ; ADC_1MHZ_GPIO_1MHZ] |}; enum_laws.
Defined.
End V2RateProfile.
Abbreviation V2RateProfile := V2RateProfile.RateProfile.

Definition DEFAULT_RATE_PROFILE : V2RateProfile := V2RateProfile.ADC_1MHZ_GPIO_4MHZ.
Definition PRIMARY_GPIO_PINS_BY_BIT : list Z := [6; 7; 8; 9; 10; 11; 12; 13].
Definition AUX_GPIO_PINS_BY_BIT : list Z := [16; 17; 18; 19; 20; 21; 22; 23].
Definition GPIO_16_PINS_BY_BIT : list Z :=
  [6; 7; 8; 9; 10; 11; 12; 13; 16; 17; 18; 19; 20; 21; 22; 23].

Definition ADC_PRIMARY_RESOLUTION_BITS : Z := 12.
Definition ADC_FALLBACK_RESOLUTION_BITS : Z := 10.
Definition V1_ADC_RESOLUTION_BITS : Z := 12.
Definition ADC_CODE_MIN : Z := 0.
Definition ADC_CONTAINER_BITS : Z := 16.
Definition ADC_CALIBRATION_DEADLINE_US : Z := 10000.
Definition ADC_TRIGGER_PIT_CLOCK_HZ : Z := 24000000.
Definition ADC_TRIGGER_DWT_CLOCK_HZ : Z := 600000000.
Definition ADC_TRIGGER_IPG_CLOCK_HZ : Z := 150000000.
Definition ADC_TRIGGER_GPIO_MASTER_PIT_CHANNEL : Z := 0.
Definition ADC_TRIGGER_PAIR_PIT_CHANNEL : Z := 1.
Definition ADC_TRIGGER_XBAR_INPUTS : Z * Z := (57, 57).
Definition ADC_TRIGGER_XBAR_OUTPUTS : Z * Z := (103, 107).
Definition ADC_TRIGGER_QUEUES : Z * Z := (0, 4).
Definition ADC_COMPLETION_TOLERANCE_DWT_CYCLES : Z := 120.
Definition KNOWN_ADC_CONFIGURATION_FLAG_MASK : Z := 511.
Definition KNOWN_ADC_INITIALIZATION_ERROR_MASK : Z := 2047.
Definition KNOWN_ADC_TRIGGER_CONFIGURATION_FLAG_MASK : Z := 255.
Definition KNOWN_ADC_TRIGGER_ERROR_MASK : Z := 32767.
Definition UINT64_MAX : Z := 0xFFFFFFFFFFFFFFFF.

(** ** Rate-profile timing *)

Module RateProfileTiming.
Record RateProfileTiming := mk {
  profile : V2RateProfile;
  adc_pair_rate_hz : Z;
  gpio_sample_rate_hz : Z;
  adc_pair_period_ticks : Z;
  adc1_phase_ticks : Z;
  gpio_sample_period_ticks : Z;
  gpio_master_pit_divider : Z;
  gpio_master_pit_load : Z;
  adc_pair_pit_divider : Z;
  adc_pair_pit_load : Z;
  adc_etc_predivider : Z;
  adc_etc_chain_length : Z;
  adc0_initial_delay : Z;
  adc1_initial_delay : Z;
  adc0_effective_delay : Z;
  adc1_effective_delay : Z;
  adc1_phase_ipg_cycles : Z;
  completion_expected_dwt_cycles : Z;
  disabled_frame_coverage_ticks : Z;
  input_frame_coverage_ticks : Z
}.
#[global] Instance RateProfileTiming_eq_dec : EqDecision RateProfileTiming.
Proof. solve_decision. Defined.
End RateProfileTiming.
Abbreviation RateProfileTiming := RateProfileTiming.RateProfileTiming.

(** [RATE_PROFILE_TIMING[profile]] with the profile itself in front. *)
Definition RATE_PROFILE_TIMING (profile : V2RateProfile) : RateProfileTiming :=
  let row := RateProfileTiming.mk profile in
  match profile with
  | V2RateProfile.ADC_1MHZ_GPIO_4MHZ =>
      row 1000000 4000000 8 4 2 6 5 4 3 0 1 0 75 1 76 75 300 8096 4048
  | V2RateProfile.ADC_500KHZ_GPIO_2MHZ =>
      row 500000 2000000 16 8 4 12 11 4 3 0 1 0 150 1 151 150 600 16192 8096
  | V2RateProfile.ADC_250KHZ_GPIO_1MHZ =>
      row 250000 1000000 32 16 8 24 23 4 3 0 1 0 300 1 301 300 1200 32384 16192
  | V2RateProfile.ADC_125KHZ_GPIO_500KHZ =>
      row 125000 500000 64 32 16 48 47 4 3 0 1 0 600 1 601 600 2400 64768 32384
  | V2RateProfile.ADC_1MHZ_GPIO_1MHZ =>
      row 1000000 1000000 8 4 8 24 23 1 0 0 1 0 75 1 76 75 300 8096 4048
  end.

(** [from_profile] at a member, and at an integer. *)
Definition from_profile (profile : V2RateProfile) : RateProfileTiming := RATE_PROFILE_TIMING profile.

Definition from_profile_value (profile : Z) : mdl RateProfileTiming :=
  selected ← of_option (enum_of profile) (ValueError "rate profile is not one of the five exact profiles");
  Ok (from_profile selected).

Definition RATE_PROFILE_TIMINGS : list RateProfileTiming := map from_profile members.

Definition from_rates (adc_pair_rate_hz gpio_sample_rate_hz : Z) : mdl RateProfileTiming :=
  _ ← require ((0 <? adc_pair_rate_hz) && (0 <? gpio_sample_rate_hz))
        (ValueError "ADC and GPIO rates must be positive integers");
  of_option
    (List.find (fun timing =>
       (RateProfileTiming.adc_pair_rate_hz timing =? adc_pair_rate_hz)
       && (RateProfileTiming.gpio_sample_rate_hz timing =? gpio_sample_rate_hz))
       RATE_PROFILE_TIMINGS)
    (ValueError "rates must match an exact generated 4:1 ADC/GPIO profile").

Definition at_cpu_clock (t : RateProfileTiming) (clock_hz : Z) : mdl RateProfileTiming :=
  _ ← require ((clock_hz =? 450000000) || (clock_hz =? 600000000))
        (ValueError "unsupported acquisition core clock");
  let '(RateProfileTiming.mk p ar gr ap ph gp gd gl pd pl pre chain i0 i1 e0 e1 ipg _ dc ic) := t in
  Ok (RateProfileTiming.mk p ar gr ap ph gp gd gl pd pl pre chain i0 i1 e0 e1 ipg
        (clock_hz / (2 * ar)) dc ic).

Definition frame_coverage_ticks (t : RateProfileTiming) (mode : AuxBankMode) : Z :=
  if decide (mode = AuxBankMode.DISABLED) then RateProfileTiming.disabled_frame_coverage_ticks t
  else RateProfileTiming.input_frame_coverage_ticks t.

(** ** GPIO layouts *)

Module GPIOLayout.
Record GPIOLayout := mk {
  aux_bank_mode : AuxBankMode;
  packed_width_bits : Z;
  item_bytes : Z;
  items_per_frame : Z;
  payload_bytes : Z;
  total_frame_bytes : Z;
  adc_items_per_frame : Z;
  adc_payload_bytes : Z;
  adc_total_frame_bytes : Z;
  pins_by_bit : list Z;
  primary_pins_by_bit : list Z;
  auxiliary_pins_by_bit : list Z
}.
End GPIOLayout.
Abbreviation GPIOLayout := GPIOLayout.GPIOLayout.

(** [AUX_BANK_LAYOUTS[mode]]: width, item bytes, items, payload and frame bytes of
    the GPIO stream, then items, payload and frame bytes of the ADC stream. *)
Definition AUX_BANK_LAYOUTS (mode : AuxBankMode) : Z * Z * Z * Z * Z * Z * Z * Z :=
  match mode with
  | AuxBankMode.DISABLED => (8, 1, 4048, 4048, 4096, 1012, 4048, 4096)
  | AuxBankMode.INPUT => (16, 2, 2024, 4048, 4096, 506, 2024, 2072)
  end.

Definition from_mode (selected : AuxBankMode) : GPIOLayout :=
  let '(width, item, items, payload, total, adc_items, adc_payload, adc_total) :=
    AUX_BANK_LAYOUTS selected in
  let pins := if decide (selected = AuxBankMode.DISABLED) then PRIMARY_GPIO_PINS_BY_BIT
              else GPIO_16_PINS_BY_BIT in
  GPIOLayout.mk selected width item items payload total adc_items adc_payload adc_total pins
    PRIMARY_GPIO_PINS_BY_BIT AUX_GPIO_PINS_BY_BIT.

(** ** ADC trigger schedule evidence *)

(** Flag fields hold the nonnegative integer of the [IntFlag]. *)
Module AdcTriggerMetadata.
Record AdcTriggerMetadata := mk {
  configuration_flags : Z;
  error_flags : Z;
  pit_clock_hz : Z;
  dwt_clock_hz : Z;
  gpio_master_rate_hz : Z;
  pair_rate_hz : Z;
  ipg_clock_hz : Z;
  gpio_master_pit_channel : Z;
  pair_pit_channel : Z;
  gpio_master_pit_load : Z;
  pair_pit_load : Z;
  predivider : Z;
  chain_length : Z;
  xbar_inputs : Z * Z;
  xbar_outputs : Z * Z;
  trigger_queues : Z * Z;
  initial_delays : Z * Z;
  effective_delays : Z * Z;
  phase_ipg_cycles : Z;
  ccm_cscmr1_configured : Z;
  ccm_ccgr1_configured : Z;
  ccm_ccgr2_configured : Z;
  pit_mcr_configured : Z;
  gpio_master_tctrl_configured : Z;
  pair_tctrl_configured : Z;
  adc_etc_ctrl_configured : Z;
  trigger_ctrl_configured : Z * Z;
  trigger_counter_configured : Z * Z;
  chain_configured : Z * Z;
  done0_1_irq_final : Z;
  done2_err_irq_final : Z;
  completion_counts : Z * Z;
  completion_delta_cycles : Z;
  completion_expected_delta_cycles : Z;
  completion_tolerance_cycles : Z;
  diagnostic_elapsed_cycles : Z;
  trigger_error_count : Z;
  xbar_sel_configured : Z * Z
}.
#[global] Instance AdcTriggerMetadata_eq_dec : EqDecision AdcTriggerMetadata.
Proof. solve_decision. Defined.
End AdcTriggerMetadata.
Abbreviation AdcTriggerMetadata := AdcTriggerMetadata.AdcTriggerMetadata.

(** Members of [AdcTriggerConfigurationFlag] the checks read. *)
Definition ARM_SEQUENCE_EXERCISED : Z := 32.
Definition COMPLETION_TIMING_VALID : Z := 64.
Definition STOPPED_AFTER_DIAGNOSTIC : Z := 128.

(** [int(flags) & ~mask] is nonzero. *)
Definition reserved_bits (flags mask : Z) : bool := has flags (Z.lnot mask).

(** Lines 376-402: the scalar fields that the schedule fixes, with their values. *)
Definition trigger_fixed_scalars (m : AdcTriggerMetadata) (timing : RateProfileTiming) : list (Z * Z) :=
  let dwt := AdcTriggerMetadata.dwt_clock_hz m in
  [(AdcTriggerMetadata.pit_clock_hz m, ADC_TRIGGER_PIT_CLOCK_HZ);
   (dwt, dwt);
   (AdcTriggerMetadata.gpio_master_rate_hz m, RateProfileTiming.gpio_sample_rate_hz timing);
   (AdcTriggerMetadata.pair_rate_hz m, RateProfileTiming.adc_pair_rate_hz timing);
   (AdcTriggerMetadata.ipg_clock_hz m, ADC_TRIGGER_IPG_CLOCK_HZ);
   (AdcTriggerMetadata.gpio_master_pit_channel m, ADC_TRIGGER_GPIO_MASTER_PIT_CHANNEL);
   (AdcTriggerMetadata.pair_pit_channel m, ADC_TRIGGER_PAIR_PIT_CHANNEL);
   (AdcTriggerMetadata.gpio_master_pit_load m, RateProfileTiming.gpio_master_pit_load timing);
   (AdcTriggerMetadata.pair_pit_load m, RateProfileTiming.adc_pair_pit_load timing);
   (AdcTriggerMetadata.predivider m, RateProfileTiming.adc_etc_predivider timing);
   (AdcTriggerMetadata.chain_length m, RateProfileTiming.adc_etc_chain_length timing);
   (AdcTriggerMetadata.phase_ipg_cycles m, RateProfileTiming.adc1_phase_ipg_cycles timing);
   (AdcTriggerMetadata.completion_expected_delta_cycles m,
    RateProfileTiming.completion_expected_dwt_cycles timing);
   (AdcTriggerMetadata.completion_tolerance_cycles m,
    ADC_COMPLETION_TOLERANCE_DWT_CYCLES * dwt / ADC_TRIGGER_DWT_CLOCK_HZ)].

(** Lines 411-423. *)
Definition trigger_fixed_pairs (m : AdcTriggerMetadata) (timing : RateProfileTiming) :
    list ((Z * Z) * (Z * Z)) :=
  [(AdcTriggerMetadata.xbar_inputs m, ADC_TRIGGER_XBAR_INPUTS);
   (AdcTriggerMetadata.xbar_outputs m, ADC_TRIGGER_XBAR_OUTPUTS);
   (AdcTriggerMetadata.trigger_queues m, ADC_TRIGGER_QUEUES);
   (AdcTriggerMetadata.initial_delays m,
    (RateProfileTiming.adc0_initial_delay timing, RateProfileTiming.adc1_initial_delay timing));
   (AdcTriggerMetadata.effective_delays m,
    (RateProfileTiming.adc0_effective_delay timing, RateProfileTiming.adc1_effective_delay timing))].

(** Lines 430-443. *)
Definition trigger_pairs_unsigned (m : AdcTriggerMetadata) : mdl unit :=
  let both (name : string) (v : Z * Z) := [(name, v.1); (name, v.2)] in
  _ ← all_unsigned 32 (both "trigger_ctrl_configured" (AdcTriggerMetadata.trigger_ctrl_configured m));
  _ ← all_unsigned 32 (both "trigger_counter_configured" (AdcTriggerMetadata.trigger_counter_configured m));
  _ ← all_unsigned 32 (both "chain_configured" (AdcTriggerMetadata.chain_configured m));
  _ ← all_unsigned 32 (both "completion_counts" (AdcTriggerMetadata.completion_counts m));
  all_unsigned 16 (both "xbar_sel_configured" (AdcTriggerMetadata.xbar_sel_configured m)).

(** Lines 445-459. *)
Definition trigger_scalars_unsigned (m : AdcTriggerMetadata) : mdl unit :=
  all_unsigned 32
    [("ccm_cscmr1_configured", AdcTriggerMetadata.ccm_cscmr1_configured m);
     ("ccm_ccgr1_configured", AdcTriggerMetadata.ccm_ccgr1_configured m);
     ("ccm_ccgr2_configured", AdcTriggerMetadata.ccm_ccgr2_configured m);
     ("pit_mcr_configured", AdcTriggerMetadata.pit_mcr_configured m);
     ("gpio_master_tctrl_configured", AdcTriggerMetadata.gpio_master_tctrl_configured m);
     ("pair_tctrl_configured", AdcTriggerMetadata.pair_tctrl_configured m);
     ("adc_etc_ctrl_configured", AdcTriggerMetadata.adc_etc_ctrl_configured m);
     ("done0_1_irq_final", AdcTriggerMetadata.done0_1_irq_final m);
     ("done2_err_irq_final", AdcTriggerMetadata.done2_err_irq_final m);
     ("completion_delta_cycles", AdcTriggerMetadata.completion_delta_cycles m);
     ("diagnostic_elapsed_cycles", AdcTriggerMetadata.diagnostic_elapsed_cycles m);
     ("trigger_error_count", AdcTriggerMetadata.trigger_error_count m)]%string.

(** Lines 461-473: claimed completion timing without the evidence for it. *)
Definition trigger_timing_inconsistent (m : AdcTriggerMetadata) : bool :=
  let flags := AdcTriggerMetadata.configuration_flags m in
  let required := Z.lor ARM_SEQUENCE_EXERCISED STOPPED_AFTER_DIAGNOSTIC in
  let counts := AdcTriggerMetadata.completion_counts m in
  has flags COMPLETION_TIMING_VALID
  && (negb (AdcTriggerMetadata.error_flags m =? 0)
      || negb (Z.land flags required =? required)
      || negb (negb (counts.1 =? 0) && negb (counts.2 =? 0))
      || (AdcTriggerMetadata.completion_tolerance_cycles m
          <? Z.abs (AdcTriggerMetadata.completion_delta_cycles m
                    - AdcTriggerMetadata.completion_expected_delta_cycles m))).

(** [AdcTriggerMetadata.__post_init__] *)
Definition trigger_validate (m : AdcTriggerMetadata) : mdl AdcTriggerMetadata :=
  _ ← require (negb (reserved_bits (AdcTriggerMetadata.configuration_flags m)
                       KNOWN_ADC_TRIGGER_CONFIGURATION_FLAG_MASK))
        (ValueError "ADC trigger configuration contains reserved flags");
  _ ← require (negb (reserved_bits (AdcTriggerMetadata.error_flags m) KNOWN_ADC_TRIGGER_ERROR_MASK))
        (ValueError "ADC trigger metadata contains reserved error flags");
  timing ← match timing ← from_rates (AdcTriggerMetadata.pair_rate_hz m)
                            (AdcTriggerMetadata.gpio_master_rate_hz m);
                 at_cpu_clock timing (AdcTriggerMetadata.dwt_clock_hz m) with
           | Ok timing => Ok timing
           | Err _ => Err (ValueError "ADC trigger schedule is not an exact rate profile")
           end;
  _ ← require (forallb (fun f => f.1 =? f.2) (trigger_fixed_scalars m timing))
        (ValueError "ADC trigger schedule is incompatible");
  _ ← require (forallb (fun f => bool_decide (f.1 = f.2)) (trigger_fixed_pairs m timing))
        (ValueError "ADC trigger routes/delays are incompatible");
  _ ← trigger_pairs_unsigned m;
  _ ← trigger_scalars_unsigned m;
  _ ← require (negb (trigger_timing_inconsistent m))
        (ValueError "ADC completion timing evidence is inconsistent");
  Ok m.

(** [for_rate_profile] without evidence: the defaults of the other fields. *)
Definition trigger_for_rate_profile (profile : V2RateProfile) : mdl AdcTriggerMetadata :=
  let t := from_profile profile in
  trigger_validate
    (AdcTriggerMetadata.mk 0 0 ADC_TRIGGER_PIT_CLOCK_HZ ADC_TRIGGER_DWT_CLOCK_HZ
       (RateProfileTiming.gpio_sample_rate_hz t) (RateProfileTiming.adc_pair_rate_hz t)
       ADC_TRIGGER_IPG_CLOCK_HZ ADC_TRIGGER_GPIO_MASTER_PIT_CHANNEL ADC_TRIGGER_PAIR_PIT_CHANNEL
       (RateProfileTiming.gpio_master_pit_load t) (RateProfileTiming.adc_pair_pit_load t)
       (RateProfileTiming.adc_etc_predivider t) (RateProfileTiming.adc_etc_chain_length t)
       ADC_TRIGGER_XBAR_INPUTS ADC_TRIGGER_XBAR_OUTPUTS ADC_TRIGGER_QUEUES
       (RateProfileTiming.adc0_initial_delay t, RateProfileTiming.adc1_initial_delay t)
       (RateProfileTiming.adc0_effective_delay t, RateProfileTiming.adc1_effective_delay t)
       (RateProfileTiming.adc1_phase_ipg_cycles t)
       0 0 0 0 0 0 0 (0, 0) (0, 0) (0, 0) 0 0 (0, 0) 0
       (RateProfileTiming.completion_expected_dwt_cycles t)
       ADC_COMPLETION_TOLERANCE_DWT_CYCLES 0 0 (0, 0)).

(** Every schedule, readback and diagnostic gate passed. *)
Definition trigger_ready (m : AdcTriggerMetadata) : bool :=
  (AdcTriggerMetadata.configuration_flags m =? KNOWN_ADC_TRIGGER_CONFIGURATION_FLAG_MASK)
  && (AdcTriggerMetadata.error_flags m =? 0).

(** ** Calibration evidence *)

Module AdcCalibrationState.
Inductive AdcCalibrationState := NOT_RUN | SUCCEEDED | FAILED | TIMED_OUT | ROUTE_INVALID
| CONFIGURATION_INVALID | CLOCK_UNAVAILABLE.
#[global] Instance AdcCalibrationState_eq_dec : EqDecision AdcCalibrationState.
Proof. solve_decision. Defined.
End AdcCalibrationState.
Abbreviation AdcCalibrationState := AdcCalibrationState.AdcCalibrationState.

Module AdcConfigurationFlag.
Definition INITIALIZED : Z := 1.
Definition NO_HARDWARE_AVERAGING : Z := 2.
Definition HIGH_SPEED : Z := 4.
Definition SHORTEST_SAMPLE : Z := 8.
Definition ROUTES_VALIDATED : Z := 16.
Definition CONFIGURATION_READBACK_VALID : Z := 32.
Definition CALIBRATION_COMPLETE : Z := 64.
Definition PRIMARY_12_BIT : Z := 128.
Definition FALLBACK_10_BIT : Z := 256.
End AdcConfigurationFlag.

Definition _DEFAULT_ADC_CONFIGURATION_FLAGS : Z :=
  Z.lor (Z.lor (Z.lor AdcConfigurationFlag.NO_HARDWARE_AVERAGING AdcConfigurationFlag.HIGH_SPEED)
           AdcConfigurationFlag.SHORTEST_SAMPLE) AdcConfigurationFlag.PRIMARY_12_BIT.

Module AdcCalibrationMetadata.
Record AdcCalibrationMetadata := mk {
  states : AdcCalibrationState * AdcCalibrationState;
  cycles : Z * Z;
  deadline_us : Z;
  configuration_flags : Z;
  error_flags : Z
}.
#[global] Instance AdcCalibrationMetadata_eq_dec : EqDecision AdcCalibrationMetadata.
Proof. solve_decision. Defined.
End AdcCalibrationMetadata.
Abbreviation AdcCalibrationMetadata := AdcCalibrationMetadata.AdcCalibrationMetadata.

(** [AdcCalibrationMetadata()] *)
Definition default_calibration : AdcCalibrationMetadata :=
  AdcCalibrationMetadata.mk (AdcCalibrationState.NOT_RUN, AdcCalibrationState.NOT_RUN) (0, 0)
    ADC_CALIBRATION_DEADLINE_US _DEFAULT_ADC_CONFIGURATION_FLAGS 0.

(** Lines 732-750: INITIALIZED claimed without its evidence. *)
Definition calibration_inconsistent (m : AdcCalibrationMetadata) : bool :=
  let flags := AdcCalibrationMetadata.configuration_flags m in
  let required := Z.lor (Z.lor AdcConfigurationFlag.ROUTES_VALIDATED
                           AdcConfigurationFlag.CONFIGURATION_READBACK_VALID)
                    AdcConfigurationFlag.CALIBRATION_COMPLETE in
  has flags AdcConfigurationFlag.INITIALIZED
  && (negb (AdcCalibrationMetadata.error_flags m =? 0)
      || negb (bool_decide (AdcCalibrationMetadata.states m =
                 (AdcCalibrationState.SUCCEEDED, AdcCalibrationState.SUCCEEDED)))
      || negb (Z.land flags required =? required)).

(** [AdcCalibrationMetadata.__post_init__] *)
Definition calibration_validate (m : AdcCalibrationMetadata) : mdl AdcCalibrationMetadata :=
  let cycles := AdcCalibrationMetadata.cycles m in
  _ ← all_unsigned 32 [("ADC calibration cycles", cycles.1); ("ADC calibration cycles", cycles.2)]%string;
  _ ← _unsigned "ADC calibration deadline" (AdcCalibrationMetadata.deadline_us m) 32;
  _ ← require (AdcCalibrationMetadata.deadline_us m =? ADC_CALIBRATION_DEADLINE_US)
        (ValueError "ADC calibration deadline is incompatible with protocol v1");
  _ ← require (negb (reserved_bits (AdcCalibrationMetadata.configuration_flags m)
                       KNOWN_ADC_CONFIGURATION_FLAG_MASK))
        (ValueError "ADC calibration configuration contains reserved flags");
  _ ← require (negb (reserved_bits (AdcCalibrationMetadata.error_flags m)
                       KNOWN_ADC_INITIALIZATION_ERROR_MASK))
        (ValueError "ADC calibration errors contain reserved flags");
  _ ← require (negb (calibration_inconsistent m))
        (ValueError "initialized ADC calibration metadata is inconsistent");
  Ok m.

Definition calibration_ready (m : AdcCalibrationMetadata) : bool :=
  has (AdcCalibrationMetadata.configuration_flags m) AdcConfigurationFlag.INITIALIZED.

(** ** Acquisition counters *)

Module AdcAcquisitionStatus.
Record AdcAcquisitionStatus := mk {
  adc0_dma_major_loops : Z; adc1_dma_major_loops : Z; adc0_dma_results : Z; adc1_dma_results : Z;
  adc_paired_major_loops : Z; adc_buffers_completed : Z; adc_buffers_acquired : Z;
  adc_buffers_released : Z; adc_pairs_captured : Z; adc_pairs_delivered : Z; adc_pairs_framed : Z;
  adc_pairs_transmitted : Z; adc_raw_pairs_lost : Z; adc_stop_pairs_discarded : Z;
  adc_incomplete_conversions : Z; adc_overwritten_conversions : Z; adc_raw_ring_overruns : Z;
  adc_incomplete_buffers : Z; adc_raw_ready_depth : Z; adc_raw_ready_high_water : Z;
  adc_etc_error_events : Z; adc_etc_error_flags : Z; adc_dma_error_events : Z;
  adc_completion_mismatches : Z; adc_destination_mismatches : Z; adc_schedule_exhaustions : Z;
  adc_raw_invariant_errors : Z; adc_stale_completions : Z; adc_resource_conflicts : Z;
  adc_start_errors : Z; adc_stop_errors : Z; adc_stale_interrupts : Z;
  adc_packer_source_errors : Z; adc_packer_pipeline_errors : Z; adc_packer_chronology_errors : Z;
  adc_cache_dma_discards : Z; adc_cache_cpu_invalidations : Z
}.
#[global] Instance AdcAcquisitionStatus_eq_dec : EqDecision AdcAcquisitionStatus.
Proof. solve_decision. Defined.
End AdcAcquisitionStatus.
Abbreviation AdcAcquisitionStatus := AdcAcquisitionStatus.AdcAcquisitionStatus.

(** The tables of field names, with [getattr] applied. *)
Definition _ADC_ACQUISITION_U64_FIELDS (m : AdcAcquisitionStatus) : list (string * Z) :=
  [("adc0_dma_major_loops", AdcAcquisitionStatus.adc0_dma_major_loops m);
   ("adc1_dma_major_loops", AdcAcquisitionStatus.adc1_dma_major_loops m);
   ("adc0_dma_results", AdcAcquisitionStatus.adc0_dma_results m);
   ("adc1_dma_results", AdcAcquisitionStatus.adc1_dma_results m);
   ("adc_paired_major_loops", AdcAcquisitionStatus.adc_paired_major_loops m);
   ("adc_buffers_completed", AdcAcquisitionStatus.adc_buffers_completed m);
   ("adc_buffers_acquired", AdcAcquisitionStatus.adc_buffers_acquired m);
   ("adc_buffers_released", AdcAcquisitionStatus.adc_buffers_released m);
   ("adc_pairs_captured", AdcAcquisitionStatus.adc_pairs_captured m);
   ("adc_pairs_delivered", AdcAcquisitionStatus.adc_pairs_delivered m);
   ("adc_pairs_framed", AdcAcquisitionStatus.adc_pairs_framed m);
   ("adc_pairs_transmitted", AdcAcquisitionStatus.adc_pairs_transmitted m);
   ("adc_raw_pairs_lost", AdcAcquisitionStatus.adc_raw_pairs_lost m);
   ("adc_stop_pairs_discarded", AdcAcquisitionStatus.adc_stop_pairs_discarded m);
   ("adc_incomplete_conversions", AdcAcquisitionStatus.adc_incomplete_conversions m);
   ("adc_overwritten_conversions", AdcAcquisitionStatus.adc_overwritten_conversions m);
   ("adc_raw_ring_overruns", AdcAcquisitionStatus.adc_raw_ring_overruns m);
   ("adc_incomplete_buffers", AdcAcquisitionStatus.adc_incomplete_buffers m)]%string.

Definition _ADC_ACQUISITION_U32_FIELDS (m : AdcAcquisitionStatus) : list (string * Z) :=
  [("adc_etc_error_events", AdcAcquisitionStatus.adc_etc_error_events m);
   ("adc_etc_error_flags", AdcAcquisitionStatus.adc_etc_error_flags m);
   ("adc_dma_error_events", AdcAcquisitionStatus.adc_dma_error_events m);
   ("adc_completion_mismatches", AdcAcquisitionStatus.adc_completion_mismatches m);
   ("adc_destination_mismatches", AdcAcquisitionStatus.adc_destination_mismatches m);
   ("adc_schedule_exhaustions", AdcAcquisitionStatus.adc_schedule_exhaustions m);
   ("adc_raw_invariant_errors", AdcAcquisitionStatus.adc_raw_invariant_errors m);
   ("adc_stale_completions", AdcAcquisitionStatus.adc_stale_completions m);
   ("adc_resource_conflicts", AdcAcquisitionStatus.adc_resource_conflicts m);
   ("adc_start_errors", AdcAcquisitionStatus.adc_start_errors m);
   ("adc_stop_errors", AdcAcquisitionStatus.adc_stop_errors m);
   ("adc_stale_interrupts", AdcAcquisitionStatus.adc_stale_interrupts m);
   ("adc_packer_source_errors", AdcAcquisitionStatus.adc_packer_source_errors m);
   ("adc_packer_pipeline_errors", AdcAcquisitionStatus.adc_packer_pipeline_errors m);
   ("adc_packer_chronology_errors", AdcAcquisitionStatus.adc_packer_chronology_errors m);
   ("adc_cache_dma_discards", AdcAcquisitionStatus.adc_cache_dma_discards m);
   ("adc_cache_cpu_invalidations", AdcAcquisitionStatus.adc_cache_cpu_invalidations m)]%string.

(** [AdcAcquisitionStatus.__post_init__] *)
Definition acquisition_validate (m : AdcAcquisitionStatus) : mdl AdcAcquisitionStatus :=
  let depth := AdcAcquisitionStatus.adc_raw_ready_depth m in
  let high := AdcAcquisitionStatus.adc_raw_ready_high_water m in
  _ ← all_unsigned 64 (_ADC_ACQUISITION_U64_FIELDS m);
  _ ← all_unsigned 32 (_ADC_ACQUISITION_U32_FIELDS m);
  _ ← _unsigned "adc_raw_ready_depth" depth 16;
  _ ← _unsigned "adc_raw_ready_high_water" high 16;
  _ ← require (depth <=? high) (ValueError "ADC current ready depth exceeds its high-water depth");
  Ok m.

Definition has_conversion_errors (m : AdcAcquisitionStatus) : bool :=
  negb ((AdcAcquisitionStatus.adc_etc_error_events m =? 0)
        && (AdcAcquisitionStatus.adc_etc_error_flags m =? 0)
        && (AdcAcquisitionStatus.adc_dma_error_events m =? 0)
        && (AdcAcquisitionStatus.adc_incomplete_conversions m =? 0)
        && (AdcAcquisitionStatus.adc_overwritten_conversions m =? 0)).

Definition nonzero_error_fields (m : AdcAcquisitionStatus) : list (string * Z) :=
  filter (fun f => f.2 <> 0)
    (("adc_incomplete_conversions", AdcAcquisitionStatus.adc_incomplete_conversions m)
     :: ("adc_overwritten_conversions", AdcAcquisitionStatus.adc_overwritten_conversions m)
     :: _ADC_ACQUISITION_U32_FIELDS m)%string.

Definition has_errors (m : AdcAcquisitionStatus) : bool :=
  negb (bool_decide (nonzero_error_fields m = [])).

Definition has_loss (m : AdcAcquisitionStatus) : bool :=
  negb ((AdcAcquisitionStatus.adc_raw_pairs_lost m =? 0)
        && (AdcAcquisitionStatus.adc_stop_pairs_discarded m =? 0)
        && (AdcAcquisitionStatus.adc_raw_ring_overruns m =? 0)
        && (AdcAcquisitionStatus.adc_incomplete_buffers m =? 0)
        && negb (has_conversion_errors m)).

(** ** Block metadata *)

Module AdcBlockMetadata.
Record AdcBlockMetadata := mk {
  source : Source;
  timestamp_hz : Z;
  pair_rate_hz : Z;
  pair_period_ticks : Z;
  adc1_phase_ticks : Z;
  resolution_bits : Z;
  container_bytes : Z;
  code_min : Z;
  code_max : Z;
  hardware_serial : Z;
  calibration : AdcCalibrationMetadata;
  trigger : AdcTriggerMetadata;
  acquisition : option AdcAcquisitionStatus
}.
#[global] Instance AdcBlockMetadata_eq_dec : EqDecision AdcBlockMetadata.
Proof. solve_decision. Defined.
End AdcBlockMetadata.
Abbreviation AdcBlockMetadata := AdcBlockMetadata.AdcBlockMetadata.

(** Lines 973-983: the values fixed by the profile with this pair rate. *)
Definition metadata_fixed_values (m : AdcBlockMetadata) (timing : RateProfileTiming) : list (Z * Z) :=
  [(AdcBlockMetadata.timestamp_hz m, TIMESTAMP_HZ);
   (AdcBlockMetadata.pair_period_ticks m, RateProfileTiming.adc_pair_period_ticks timing);
   (AdcBlockMetadata.adc1_phase_ticks m, RateProfileTiming.adc1_phase_ticks timing);
   (AdcBlockMetadata.container_bytes m, ADC_CONTAINER_BITS / 8);
   (AdcBlockMetadata.code_min m, ADC_CODE_MIN)].

(** [AdcBlockMetadata.__post_init__]; the nested metadata validated itself. *)
Definition metadata_validate (m : AdcBlockMetadata) : mdl AdcBlockMetadata :=
  timing ← of_option
    (List.find (fun item => RateProfileTiming.adc_pair_rate_hz item =? AdcBlockMetadata.pair_rate_hz m)
       RATE_PROFILE_TIMINGS)
    (ValueError "ADC block pair rate is not an exact profile");
  _ ← require (forallb (fun f => f.1 =? f.2) (metadata_fixed_values m timing))
        (ValueError "ADC block timing/container metadata is incompatible");
  let resolution := AdcBlockMetadata.resolution_bits m in
  _ ← require ((resolution =? ADC_PRIMARY_RESOLUTION_BITS) || (resolution =? ADC_FALLBACK_RESOLUTION_BITS))
        (ValueError "ADC block resolution must be 12 or gated 10 bits");
  _ ← require (AdcBlockMetadata.code_max m =? Z.shiftl 1 resolution - 1)
        (ValueError "ADC block code range disagrees with its resolution");
  _ ← _unsigned "hardware_serial" (AdcBlockMetadata.hardware_serial m) 32;
  let primary := resolution =? ADC_PRIMARY_RESOLUTION_BITS in
  let selected := if primary then AdcConfigurationFlag.PRIMARY_12_BIT
                  else AdcConfigurationFlag.FALLBACK_10_BIT in
  let other := if primary then AdcConfigurationFlag.FALLBACK_10_BIT
               else AdcConfigurationFlag.PRIMARY_12_BIT in
  let flags := AdcCalibrationMetadata.configuration_flags (AdcBlockMetadata.calibration m) in
  _ ← require (has flags selected && negb (has flags other))
        (ValueError "ADC block calibration flags disagree with resolution");
  Ok m.

(** [AdcBlockMetadata.for_rate_profile]: default evidence for a decoded frame. *)
Definition for_rate_profile (profile : V2RateProfile) (source : Source) : mdl AdcBlockMetadata :=
  let timing := from_profile profile in
  trigger ← trigger_for_rate_profile profile;
  calibration ← calibration_validate default_calibration;
  metadata_validate
    (AdcBlockMetadata.mk source TIMESTAMP_HZ (RateProfileTiming.adc_pair_rate_hz timing)
       (RateProfileTiming.adc_pair_period_ticks timing) (RateProfileTiming.adc1_phase_ticks timing)
       V1_ADC_RESOLUTION_BITS (ADC_CONTAINER_BITS / 8) ADC_CODE_MIN
       (Z.shiftl 1 ADC_PRIMARY_RESOLUTION_BITS - 1) 0 calibration trigger None).

Definition with_source (m : AdcBlockMetadata) (source : Source) : AdcBlockMetadata :=
  AdcBlockMetadata.mk source (AdcBlockMetadata.timestamp_hz m) (AdcBlockMetadata.pair_rate_hz m)
    (AdcBlockMetadata.pair_period_ticks m) (AdcBlockMetadata.adc1_phase_ticks m)
    (AdcBlockMetadata.resolution_bits m) (AdcBlockMetadata.container_bytes m)
    (AdcBlockMetadata.code_min m) (AdcBlockMetadata.code_max m) (AdcBlockMetadata.hardware_serial m)
    (AdcBlockMetadata.calibration m) (AdcBlockMetadata.trigger m) (AdcBlockMetadata.acquisition m).

(** ** The tables are consistent *)

(** Default metadata exists for every profile and carries its timing. *)
Lemma for_rate_profile_ok p source :
  exists m, for_rate_profile p source = Ok m /\ AdcBlockMetadata.source m = source
    /\ AdcBlockMetadata.pair_rate_hz m = RateProfileTiming.adc_pair_rate_hz (from_profile p)
    /\ AdcBlockMetadata.pair_period_ticks m = RateProfileTiming.adc_pair_period_ticks (from_profile p)
    /\ AdcBlockMetadata.adc1_phase_ticks m = RateProfileTiming.adc1_phase_ticks (from_profile p)
    /\ AdcBlockMetadata.code_min m = 0 /\ AdcBlockMetadata.code_max m = 4095.
Proof. destruct p, source; eexists; (split; [vm_compute; reflexivity|done]). Qed.
