(* ===== verification/Losses.v ===== *)
(** * Loss reports ([models.py], lines 6855-7620).

    The evidence records of a data stream: firmware evidence, measured stream gaps,
    anomalies and host-queue evictions.  Each record is the object after
    [__post_init__]; the constructor functions take the call's arguments and raise
    what [__post_init__] raises.  The operations that read blocks are in
    [Continuity]. *)

From S2P Require Import Prelude PyStruct Checksum V3Constants V3Header Profiles.

Inductive LossOrigin := OBSERVED | FIRMWARE | HOST_QUEUE | MIXED.
#[export] Instance LossOrigin_eq_dec : EqDecision LossOrigin.
Proof. solve_decision. Defined.

Inductive HostQueuePolicy := DROP_OLDEST_COMPLETE.
#[export] Instance HostQueuePolicy_eq_dec : EqDecision HostQueuePolicy.
Proof. solve_decision. Defined.

Inductive StreamAnomalyReason := DUPLICATE | REORDERED | STALE_RUN | TIMESTAMP_INCONSISTENT
| FIRMWARE_EVIDENCE_MISMATCH | HOST_QUEUE_RANGE_INCONSISTENT.
#[export] Instance StreamAnomalyReason_eq_dec : EqDecision StreamAnomalyReason.
Proof. solve_decision. Defined.

Definition ADC_PAIRS_PER_FRAME : Z := 1012.
Definition GPIO_SAMPLES_PER_FRAME : Z := 4048.
Definition V1_ADC_PAIR_PERIOD_TICKS : Z := 8.
Definition V1_GPIO_SAMPLE_PERIOD_TICKS : Z := 2.

Definition u32 (v : Z) : Z := Z.land v UINT32_MAX.
Definition u64 (v : Z) : Z := Z.land v UINT64_MAX.

Lemma u32_mod v : u32 v = v mod 2 ^ 32.
Proof. unfold u32. change UINT32_MAX with (Z.ones 32). by rewrite Z.land_ones. Qed.
Lemma u64_mod v : u64 v = v mod 2 ^ 64.
Proof. unfold u64. change UINT64_MAX with (Z.ones 64). by rewrite Z.land_ones. Qed.

(** [kind in {ADC_DATA, GPIO_DATA}] *)
Definition data_kind (kind : V1FrameKind.FrameKind) : bool :=
  bool_decide (kind = V1FrameKind.ADC_DATA) || bool_decide (kind = V1FrameKind.GPIO_DATA).

(** An optional field checked when present. *)
Definition check_option (check : Z -> mdl unit) (value : option Z) : mdl unit :=
  match value with Some value => check value | None => Ok tt end.

(** ** Firmware evidence *)

Module FirmwareLossEvidence.
Record FirmwareLossEvidence := mk {
  source : Source;
  gap_before : bool;
  overrun_before : bool;
  stats_generation : option Z;
  cumulative_dropped_frames : option Z;
  cumulative_dropped_items : option Z;
  cumulative_dropped_bytes : option Z;
  expected_cumulative_frames : Z;
  expected_cumulative_items : Z;
  flags_match : bool;
  counters_match : option bool;
  errors : list string
}.
#[global] Instance FirmwareLossEvidence_eq_dec : EqDecision FirmwareLossEvidence.
Proof. solve_decision. Defined.
End FirmwareLossEvidence.
Abbreviation FirmwareLossEvidence := FirmwareLossEvidence.FirmwareLossEvidence.

(** [FirmwareLossEvidence.__post_init__] *)
Definition evidence_validate (e : FirmwareLossEvidence) : mdl FirmwareLossEvidence :=
  _ ← require (negb (FirmwareLossEvidence.overrun_before e) || FirmwareLossEvidence.gap_before e)
        (ValueError "firmware overrun evidence requires GAP_BEFORE");
  _ ← check_option (_nonnegative "stats_generation") (FirmwareLossEvidence.stats_generation e);
  _ ← check_option (_nonnegative "cumulative_dropped_frames")
        (FirmwareLossEvidence.cumulative_dropped_frames e);
  _ ← check_option (_nonnegative "cumulative_dropped_items")
        (FirmwareLossEvidence.cumulative_dropped_items e);
  _ ← check_option (_nonnegative "cumulative_dropped_bytes")
        (FirmwareLossEvidence.cumulative_dropped_bytes e);
  _ ← require (negb (bool_decide (FirmwareLossEvidence.stats_generation e = Some 0)))
        (ValueError "firmware statistics generation must be nonzero");
  _ ← _nonnegative "expected_cumulative_frames" (FirmwareLossEvidence.expected_cumulative_frames e);
  _ ← _nonnegative "expected_cumulative_items" (FirmwareLossEvidence.expected_cumulative_items e);
  _ ← require (negb (bool_decide (EmptyString ∈ FirmwareLossEvidence.errors e)))
        (ValueError "firmware evidence errors must be nonempty strings");
  Ok e.

Definition consistent (e : FirmwareLossEvidence) : bool :=
  FirmwareLossEvidence.flags_match e
  && negb (bool_decide (FirmwareLossEvidence.counters_match e = Some false))
  && bool_decide (FirmwareLossEvidence.errors e = []).

(** The evidence of one frame's flags, all other fields defaulted. *)
Definition flag_evidence (source : Source) (gap_before overrun_before : bool) (frames items : Z)
    (flags_match : bool) (errors : list string) : mdl FirmwareLossEvidence :=
  evidence_validate
    (FirmwareLossEvidence.mk source gap_before overrun_before None None None None frames items
       flags_match None errors).

(** ** Stream gaps *)

Module StreamGap.
Record StreamGap := mk {
  kind : V1FrameKind.FrameKind;
  run_id : Z;
  expected_sequence : Z;
  observed_sequence : Z;
  missing_frames : Z;
  missing_items : Z;
  expected_first_sample_ticks : Z;
  observed_first_sample_ticks : Z;
  firmware_reported : bool;
  firmware_overrun : bool;
  host_queue_drops : Z;
  source : Source;
  sequence_inferred_items : option Z;
  firmware_evidence : option FirmwareLossEvidence;
  period_ticks : Z;
  frame_item_count : Z;
  variable_frame_items : bool
}.
#[global] Instance StreamGap_eq_dec : EqDecision StreamGap.
Proof. solve_decision. Defined.
End StreamGap.
Abbreviation StreamGap := StreamGap.StreamGap.

Definition default_period (kind : V1FrameKind.FrameKind) : Z :=
  if decide (kind = V1FrameKind.ADC_DATA) then V1_ADC_PAIR_PERIOD_TICKS
  else V1_GPIO_SAMPLE_PERIOD_TICKS.

Definition default_count (kind : V1FrameKind.FrameKind) : Z :=
  if decide (kind = V1FrameKind.ADC_DATA) then ADC_PAIRS_PER_FRAME else GPIO_SAMPLES_PER_FRAME.

(** Lines 7051-7062: firmware evidence must describe the same gap. *)
Definition gap_evidence_check (evidence : option FirmwareLossEvidence) (source : Source)
    (firmware_reported firmware_overrun : bool) : mdl unit :=
  match evidence with
  | None => Ok tt
  | Some e =>
      _ ← require (bool_decide (FirmwareLossEvidence.source e = source))
            (ValueError "firmware evidence source disagrees with stream gap");
      require (eqb (FirmwareLossEvidence.gap_before e) firmware_reported
               && eqb (FirmwareLossEvidence.overrun_before e) firmware_overrun)
        (ValueError "firmware evidence flags disagree with stream gap")
  end.

(** [StreamGap(...)], that is, the record built by [__post_init__]. *)
Definition new_gap (kind : V1FrameKind.FrameKind)
    (run_id expected_sequence observed_sequence missing_frames missing_items
     expected_first_sample_ticks observed_first_sample_ticks : Z)
    (firmware_reported firmware_overrun : bool) (host_queue_drops : Z) (source : Source)
    (sequence_inferred_items : option Z) (firmware_evidence : option FirmwareLossEvidence)
    (period_ticks frame_item_count : option Z) (variable_frame_items : bool) : mdl StreamGap :=
  _ ← require (data_kind kind) (ValueError "stream gaps apply only to ADC_DATA or GPIO_DATA");
  _ ← _unsigned "run_id" run_id 32;
  _ ← _unsigned "expected_sequence" expected_sequence 32;
  _ ← _unsigned "observed_sequence" observed_sequence 32;
  _ ← _unsigned "expected_first_sample_ticks" expected_first_sample_ticks 64;
  _ ← _unsigned "observed_first_sample_ticks" observed_first_sample_ticks 64;
  _ ← _unsigned "missing_frames" missing_frames 32;
  _ ← _unsigned "missing_items" missing_items 64;
  _ ← _nonnegative "host_queue_drops" host_queue_drops;
  _ ← require (negb (run_id =? 0)) (ValueError "stream gap run ID must be nonzero");
  _ ← require (negb firmware_overrun || firmware_reported)
        (ValueError "firmware overrun attribution requires a gap marker");
  let period := default (default_period kind) period_ticks in
  let count := default (default_count kind) frame_item_count in
  _ ← require ((0 <? period) && (0 <? count))
        (ValueError "stream gap timing/layout metadata must be positive");
  _ ← require (negb (variable_frame_items
                     && (negb (eqb (negb (missing_frames =? 0)) (negb (missing_items =? 0)))
                         || (missing_items <? missing_frames))))
        (ValueError "variable-frame gap requires items for each missing frame");
  let sequence_items :=
    match sequence_inferred_items with
    | None => if variable_frame_items then None else Some (missing_frames * count)
    | Some items => Some items
    end in
  _ ← check_option (_nonnegative "sequence_inferred_items") sequence_items;
  _ ← check_option (fun items => require (items =? missing_items)
        (ValueError "sequence and timestamp imply different missing item counts")) sequence_items;
  _ ← gap_evidence_check firmware_evidence source firmware_reported firmware_overrun;
  _ ← require (observed_sequence =? u32 (expected_sequence + missing_frames))
        (ValueError "missing frame count disagrees with stream sequences");
  _ ← require (observed_first_sample_ticks =?
               u64 (expected_first_sample_ticks + missing_items * period))
        (ValueError "missing item count disagrees with stream timestamps");
  Ok (StreamGap.mk kind run_id expected_sequence observed_sequence missing_frames missing_items
        expected_first_sample_ticks observed_first_sample_ticks firmware_reported firmware_overrun
        host_queue_drops source sequence_items firmware_evidence period count variable_frame_items).

Definition stream_of (kind : V1FrameKind.FrameKind) : Z :=
  if decide (kind = V1FrameKind.ADC_DATA) then StreamMask.ADC else StreamMask.GPIO.

Definition previous_sequence (g : StreamGap) : Z := u32 (StreamGap.expected_sequence g - 1).

Definition missing_duration_ticks (g : StreamGap) : Z :=
  StreamGap.missing_items g * StreamGap.period_ticks g.

Definition gap_origin (g : StreamGap) : LossOrigin :=
  let drops := negb (StreamGap.host_queue_drops g =? 0) in
  if StreamGap.firmware_reported g && drops then MIXED
  else if StreamGap.firmware_reported g then FIRMWARE
  else if drops then HOST_QUEUE
  else OBSERVED.

(** ** Anomalies *)

Module StreamAnomaly.
Record StreamAnomaly := mk {
  reason : StreamAnomalyReason;
  kind : V1FrameKind.FrameKind;
  source : Source;
  active_run_id : Z;
  observed_run_id : Z;
  observed_sequence : Z;
  observed_first_sample_ticks : Z;
  expected_sequence : option Z;
  expected_first_sample_ticks : option Z;
  sequence_inferred_items : option Z;
  timestamp_inferred_items : option Z;
  firmware_evidence : option FirmwareLossEvidence;
  occurrences : Z
}.
#[global] Instance StreamAnomaly_eq_dec : EqDecision StreamAnomaly.
Proof. solve_decision. Defined.
End StreamAnomaly.
Abbreviation StreamAnomaly := StreamAnomaly.StreamAnomaly.

(** [StreamAnomaly.__post_init__] *)
Definition anomaly_validate (a : StreamAnomaly) : mdl StreamAnomaly :=
  _ ← require (data_kind (StreamAnomaly.kind a))
        (ValueError "stream anomalies require an ADC or GPIO data kind");
  _ ← _unsigned "active_run_id" (StreamAnomaly.active_run_id a) 32;
  _ ← _unsigned "observed_run_id" (StreamAnomaly.observed_run_id a) 32;
  _ ← require (negb ((StreamAnomaly.active_run_id a =? 0) || (StreamAnomaly.observed_run_id a =? 0)))
        (ValueError "stream anomalies require nonzero run identities");
  _ ← _unsigned "observed_sequence" (StreamAnomaly.observed_sequence a) 32;
  _ ← _unsigned "observed_first_sample_ticks" (StreamAnomaly.observed_first_sample_ticks a) 64;
  _ ← check_option (fun v => _unsigned "expected_sequence" v 32) (StreamAnomaly.expected_sequence a);
  _ ← check_option (fun v => _unsigned "expected_first_sample_ticks" v 64)
        (StreamAnomaly.expected_first_sample_ticks a);
  _ ← check_option (_nonnegative "sequence_inferred_items") (StreamAnomaly.sequence_inferred_items a);
  _ ← check_option (_nonnegative "timestamp_inferred_items") (StreamAnomaly.timestamp_inferred_items a);
  _ ← _nonnegative "occurrences" (StreamAnomaly.occurrences a);
  _ ← require (negb (StreamAnomaly.occurrences a =? 0))
        (ValueError "stream anomaly occurrences must be positive");
  _ ← match StreamAnomaly.firmware_evidence a with
      | None => Ok tt
      | Some e => require (bool_decide (FirmwareLossEvidence.source e = StreamAnomaly.source a))
                    (ValueError "firmware evidence source disagrees with anomaly")
      end;
  Ok a.

(** [StreamAnomaly.merged_with]: the newest evidence, the occurrences added. *)
Definition anomaly_merged_with (self other : StreamAnomaly) : mdl StreamAnomaly :=
  _ ← require (bool_decide (StreamAnomaly.reason self = StreamAnomaly.reason other)
               && bool_decide (StreamAnomaly.kind self = StreamAnomaly.kind other)
               && bool_decide (StreamAnomaly.source self = StreamAnomaly.source other)
               && (StreamAnomaly.active_run_id self =? StreamAnomaly.active_run_id other)
               && (StreamAnomaly.observed_run_id self =? StreamAnomaly.observed_run_id other))
        (ValueError "cannot merge unrelated stream anomalies");
  let '(StreamAnomaly.mk r k s ar orun oseq oticks eseq eticks sitems titems ev occurrences) := other in
  anomaly_validate
    (StreamAnomaly.mk r k s ar orun oseq oticks eseq eticks sitems titems ev
       (StreamAnomaly.occurrences self + occurrences)).

(** ** Host-queue evictions *)

Module HostQueueLoss.
Record HostQueueLoss := mk {
  kind : V1FrameKind.FrameKind;
  source : Source;
  run_id : Z;
  first_sequence : Z;
  last_sequence : Z;
  first_sample_ticks : Z;
  end_sample_ticks : Z;
  dropped_blocks : Z;
  dropped_items : Z;
  policy : HostQueuePolicy;
  firmware_gap_blocks : Z;
  firmware_overrun_blocks : Z;
  contiguous : bool;
  period_ticks : Z;
  frame_item_count : Z;
  variable_frame_items : bool
}.
#[global] Instance HostQueueLoss_eq_dec : EqDecision HostQueueLoss.
Proof. solve_decision. Defined.
End HostQueueLoss.
Abbreviation HostQueueLoss := HostQueueLoss.HostQueueLoss.

(** Lines 7465-7475: a contiguous range has neither a sequence nor a timestamp hole. *)
Definition contiguous_check (l : HostQueueLoss) : mdl unit :=
  if HostQueueLoss.contiguous l then
    _ ← require (HostQueueLoss.last_sequence l =?
                 u32 (HostQueueLoss.first_sequence l + HostQueueLoss.dropped_blocks l - 1))
          (ValueError "contiguous host queue range has a sequence hole");
    require (HostQueueLoss.end_sample_ticks l =?
             u64 (HostQueueLoss.first_sample_ticks l
                  + HostQueueLoss.dropped_items l * HostQueueLoss.period_ticks l))
      (ValueError "contiguous host queue range has a timestamp hole")
  else Ok tt.

(** [HostQueueLoss(...)] with its two optional fields given, as every caller of the
    package does, so that [__post_init__] leaves the record as it is. *)
Definition loss_validate (l : HostQueueLoss) : mdl HostQueueLoss :=
  _ ← require (data_kind (HostQueueLoss.kind l))
        (ValueError "host queue loss requires an ADC or GPIO data kind");
  _ ← require ((0 <? HostQueueLoss.period_ticks l) && (0 <? HostQueueLoss.frame_item_count l))
        (ValueError "host queue timing/layout metadata must be positive");
  _ ← _unsigned "run_id" (HostQueueLoss.run_id l) 32;
  _ ← _unsigned "first_sequence" (HostQueueLoss.first_sequence l) 32;
  _ ← _unsigned "last_sequence" (HostQueueLoss.last_sequence l) 32;
  _ ← _unsigned "first_sample_ticks" (HostQueueLoss.first_sample_ticks l) 64;
  _ ← _unsigned "end_sample_ticks" (HostQueueLoss.end_sample_ticks l) 64;
  _ ← _nonnegative "dropped_blocks" (HostQueueLoss.dropped_blocks l);
  _ ← _nonnegative "dropped_items" (HostQueueLoss.dropped_items l);
  _ ← _nonnegative "firmware_gap_blocks" (HostQueueLoss.firmware_gap_blocks l);
  _ ← _nonnegative "firmware_overrun_blocks" (HostQueueLoss.firmware_overrun_blocks l);
  _ ← require (negb ((HostQueueLoss.run_id l =? 0) || (HostQueueLoss.dropped_blocks l =? 0)
                     || (HostQueueLoss.dropped_items l =? 0)))
        (ValueError "host queue loss requires a nonempty active run range");
  _ ← require (negb (HostQueueLoss.variable_frame_items l
                     && (HostQueueLoss.dropped_items l <? HostQueueLoss.dropped_blocks l)))
        (ValueError "variable-frame loss requires items for each dropped block");
  _ ← require (HostQueueLoss.variable_frame_items l
               || (HostQueueLoss.dropped_items l =?
                   HostQueueLoss.dropped_blocks l * HostQueueLoss.frame_item_count l))
        (ValueError "host queue block and item counts disagree");
  _ ← require (HostQueueLoss.firmware_gap_blocks l <=? HostQueueLoss.dropped_blocks l)
        (ValueError "host queue gap evidence exceeds dropped blocks");
  _ ← require (HostQueueLoss.firmware_overrun_blocks l <=? HostQueueLoss.firmware_gap_blocks l)
        (ValueError "host queue overrun evidence requires gap evidence");
  _ ← contiguous_check l;
  Ok l.

(** The stream two reports must share to be combined. *)
Definition same_stream (self other : HostQueueLoss) : bool :=
  bool_decide (HostQueueLoss.kind self = HostQueueLoss.kind other)
  && bool_decide (HostQueueLoss.source self = HostQueueLoss.source other)
  && (HostQueueLoss.run_id self =? HostQueueLoss.run_id other)
  && (HostQueueLoss.period_ticks self =? HostQueueLoss.period_ticks other)
  && eqb (HostQueueLoss.variable_frame_items self) (HostQueueLoss.variable_frame_items other)
  && (HostQueueLoss.variable_frame_items self
      || (HostQueueLoss.frame_item_count self =? HostQueueLoss.frame_item_count other)).

Definition can_merge (self other : HostQueueLoss) : bool :=
  same_stream self other
  && (HostQueueLoss.first_sequence other =? u32 (HostQueueLoss.last_sequence self + 1))
  && (HostQueueLoss.first_sample_ticks other =? HostQueueLoss.end_sample_ticks self).

(** The two ranges spanned, their units added. *)
Definition spanned (self other : HostQueueLoss) (contiguous : bool) : HostQueueLoss :=
  HostQueueLoss.mk (HostQueueLoss.kind self) (HostQueueLoss.source self) (HostQueueLoss.run_id self)
    (HostQueueLoss.first_sequence self) (HostQueueLoss.last_sequence other)
    (HostQueueLoss.first_sample_ticks self) (HostQueueLoss.end_sample_ticks other)
    (HostQueueLoss.dropped_blocks self + HostQueueLoss.dropped_blocks other)
    (HostQueueLoss.dropped_items self + HostQueueLoss.dropped_items other)
    (HostQueueLoss.policy self)
    (HostQueueLoss.firmware_gap_blocks self + HostQueueLoss.firmware_gap_blocks other)
    (HostQueueLoss.firmware_overrun_blocks self + HostQueueLoss.firmware_overrun_blocks other)
    contiguous (HostQueueLoss.period_ticks self) (HostQueueLoss.frame_item_count self)
    (HostQueueLoss.variable_frame_items self).

Definition merged_with (self other : HostQueueLoss) : mdl HostQueueLoss :=
  _ ← require (can_merge self other) (ValueError "cannot merge noncontiguous host queue losses");
  loss_validate (spanned self other true).

Definition aggregated_with (self other : HostQueueLoss) : mdl HostQueueLoss :=
  _ ← require (same_stream self other) (ValueError "cannot aggregate unrelated host queue losses");
  if can_merge self other && HostQueueLoss.contiguous self && HostQueueLoss.contiguous other
  then merged_with self other
  else loss_validate (spanned self other false).

(** ** What the constructors accept *)

Lemma unit_bind {E A} (m : result E unit) (k : result E A) x :
  (m ≫= fun _ => k) = Ok x <-> m = Ok tt /\ k = Ok x.
Proof. destruct m as [[]|e]; cbn; split; [done|by intros [_ ?]|discriminate|by intros [? _]]. Qed.

Lemma unsigned_Ok name v bits : 0 <= bits -> _unsigned name v bits = Ok tt <-> 0 <= v < 2 ^ bits.
Proof. intros Hb. unfold _unsigned. rewrite require_Ok. by apply unsigned_ok_iff. Qed.

Lemma nonnegative_Ok name v : _nonnegative name v = Ok tt <-> 0 <= v.
Proof. unfold _nonnegative. rewrite require_Ok. lia. Qed.

Record loss_wf (l : HostQueueLoss) : Prop := {
  lw_kind : data_kind (HostQueueLoss.kind l) = true;
  lw_period : 0 < HostQueueLoss.period_ticks l;
  lw_count : 0 < HostQueueLoss.frame_item_count l;
  lw_run : 0 < HostQueueLoss.run_id l < 2 ^ 32;
  lw_first : 0 <= HostQueueLoss.first_sequence l < 2 ^ 32;
  lw_last : 0 <= HostQueueLoss.last_sequence l < 2 ^ 32;
  lw_start : 0 <= HostQueueLoss.first_sample_ticks l < 2 ^ 64;
  lw_end : 0 <= HostQueueLoss.end_sample_ticks l < 2 ^ 64;
  lw_blocks : 0 < HostQueueLoss.dropped_blocks l;
  lw_items : 0 < HostQueueLoss.dropped_items l;
  lw_variable : HostQueueLoss.variable_frame_items l = true ->
    HostQueueLoss.dropped_blocks l <= HostQueueLoss.dropped_items l;
  lw_fixed : HostQueueLoss.variable_frame_items l = false ->
    HostQueueLoss.dropped_items l =
    HostQueueLoss.dropped_blocks l * HostQueueLoss.frame_item_count l;
  lw_gaps : 0 <= HostQueueLoss.firmware_overrun_blocks l
            <= HostQueueLoss.firmware_gap_blocks l;
  lw_gap_blocks : HostQueueLoss.firmware_gap_blocks l <= HostQueueLoss.dropped_blocks l;
  lw_sequence_range : HostQueueLoss.contiguous l = true ->
    HostQueueLoss.last_sequence l =
    (HostQueueLoss.first_sequence l + HostQueueLoss.dropped_blocks l - 1) mod 2 ^ 32;
  lw_tick_range : HostQueueLoss.contiguous l = true ->
    HostQueueLoss.end_sample_ticks l =
    (HostQueueLoss.first_sample_ticks l
     + HostQueueLoss.dropped_items l * HostQueueLoss.period_ticks l) mod 2 ^ 64
}.

Lemma contiguous_check_Ok l :
  contiguous_check l = Ok tt <->
  (HostQueueLoss.contiguous l = true ->
   HostQueueLoss.last_sequence l =
   (HostQueueLoss.first_sequence l + HostQueueLoss.dropped_blocks l - 1) mod 2 ^ 32 /\
   HostQueueLoss.end_sample_ticks l =
   (HostQueueLoss.first_sample_ticks l
    + HostQueueLoss.dropped_items l * HostQueueLoss.period_ticks l) mod 2 ^ 64).
Proof.
  unfold contiguous_check. rewrite <- u32_mod, <- u64_mod.
  destruct (HostQueueLoss.contiguous l); [|done].
  rewrite require_bind, require_Ok, !Z.eqb_eq. naive_solver.
Qed.

Lemma loss_validate_iff l l' : loss_validate l = Ok l' <-> l' = l /\ loss_wf l.
Proof.
  unfold loss_validate.
  rewrite !unit_bind, !require_Ok, !unsigned_Ok, !nonnegative_Ok, contiguous_check_Ok by done.
  split.
  - intros (H1 & H2 & H3 & H4 & H5 & H6 & H7 & H8 & H9 & H10 & H11 & H12 & H13 & H14 & H15 & H16
            & H17 & Heq). apply Ok_inj in Heq. split; [done|].
    split; [assumption|lia..| | | | | |].
    + intros Hv. rewrite Hv in H13. lia.
    + intros Hv. rewrite Hv in H14. cbn in H14. lia.
    + lia.
    + lia.
    + intros Hc. apply (H17 Hc).
    + intros Hc. apply (H17 Hc).
  - intros [-> []]. split_and!; try assumption; try lia; try done.
    + destruct (HostQueueLoss.variable_frame_items l); [|done].
      pose proof (lw_variable0 eq_refl). lia.
    + destruct (HostQueueLoss.variable_frame_items l); [done|]. cbn.
      pose proof (lw_fixed0 eq_refl). lia.
    + intros Hc. split; auto.
Qed.

(** ** Combining evictions *)

Record same_stream_spec (a b : HostQueueLoss) : Prop := {
  ss_kind : HostQueueLoss.kind a = HostQueueLoss.kind b;
  ss_source : HostQueueLoss.source a = HostQueueLoss.source b;
  ss_run : HostQueueLoss.run_id a = HostQueueLoss.run_id b;
  ss_period : HostQueueLoss.period_ticks a = HostQueueLoss.period_ticks b;
  ss_variable : HostQueueLoss.variable_frame_items a = HostQueueLoss.variable_frame_items b;
  ss_count : HostQueueLoss.variable_frame_items a = false ->
    HostQueueLoss.frame_item_count a = HostQueueLoss.frame_item_count b
}.

Lemma same_stream_iff a b : same_stream a b = true <-> same_stream_spec a b.
Proof.
  unfold same_stream. rewrite !andb_true_iff, !bool_decide_eq_true, !Z.eqb_eq, eqb_true_iff, orb_true_iff, Z.eqb_eq.
  split.
  - intros (((((?&?)&?)&?)&?)&[Hv|Hc]); split; try done. by rewrite Hv.
  - intros [? ? ? ? ? Hc]. split_and!; try done.
    destruct (HostQueueLoss.variable_frame_items a); [by left|right; auto].
Qed.

Lemma spanned_wf a b contiguous :
  loss_wf a -> loss_wf b -> same_stream_spec a b ->
  (contiguous = true -> can_merge a b = true /\ HostQueueLoss.contiguous a = true
                        /\ HostQueueLoss.contiguous b = true) ->
  loss_wf (spanned a b contiguous).
Proof.
  intros [] [] [? ? ? ? Hv Hcnt] Hc. unfold spanned.
  split; cbn; try assumption; try lia.
  - intros Hva. pose proof (lw_variable0 Hva). rewrite Hv in Hva. pose proof (lw_variable1 Hva). lia.
  - intros Hva. pose proof (lw_fixed0 Hva). pose proof (Hcnt Hva).
    rewrite Hv in Hva. pose proof (lw_fixed1 Hva). nia.
  - intros ->. destruct Hc as (Hm & Ha & Hb); [done|].
    unfold can_merge in Hm. rewrite !andb_true_iff, !Z.eqb_eq, u32_mod in Hm. destruct Hm as [[_ Hs] _].
    rewrite (lw_sequence_range1 Hb), Hs, (lw_sequence_range0 Ha). pow_lit. zlia.
  - intros ->. destruct Hc as (Hm & Ha & Hb); [done|].
    unfold can_merge in Hm. rewrite !andb_true_iff, !Z.eqb_eq in Hm. destruct Hm as [_ Ht].
    rewrite (lw_tick_range1 Hb), Ht, (lw_tick_range0 Ha).
    rewrite Zplus_mod_idemp_l. f_equal. nia.
Qed.

Lemma merged_with_Ok a b l :
  loss_wf a -> loss_wf b -> HostQueueLoss.contiguous a = true -> HostQueueLoss.contiguous b = true ->
  merged_with a b = Ok l <-> can_merge a b = true /\ l = spanned a b true.
Proof.
  intros Ha Hb Hca Hcb. unfold merged_with. rewrite require_bind, loss_validate_iff.
  split; [by intros (? & ? & _)|]. intros [Hm ->]. split_and!; [done|done|].
  apply spanned_wf; [done|done| |done]. apply same_stream_iff.
  unfold can_merge in Hm. by apply andb_true_iff in Hm as [[? _]%andb_true_iff _].
Qed.

(** Reports of one stream always combine. *)
Lemma aggregated_Ok a b :
  loss_wf a -> loss_wf b -> same_stream a b = true ->
  let contiguous := can_merge a b && HostQueueLoss.contiguous a && HostQueueLoss.contiguous b in
  aggregated_with a b = Ok (spanned a b contiguous) /\ loss_wf (spanned a b contiguous).
Proof.
  intros Ha Hb Hs contiguous. pose proof (proj1 (same_stream_iff a b) Hs) as Hss.
  assert (Hwf : loss_wf (spanned a b contiguous)).
  { apply spanned_wf; [done..|]. unfold contiguous. rewrite !andb_true_iff. tauto. }
  split; [|done]. unfold aggregated_with. rewrite Hs. cbn [require mbind result_bind].
  fold contiguous. destruct contiguous eqn:Hm; [|by apply loss_validate_iff].
  unfold contiguous in Hm. apply andb_true_iff in Hm as [[Hmm Hca]%andb_true_iff Hcb].
  by apply merged_with_Ok.
Qed.

(** Aggregating two eviction reports of one stream never fails and loses no
    unit: the result is a valid report whose block, item, gap and overrun counts are
    the sums, spanning from the first report's start to the second one's end, and it
    is marked contiguous exactly when the two ranges are contiguous and adjacent. *)
Theorem aggregation_exact (a b : HostQueueLoss) :
  loss_wf a -> loss_wf b -> same_stream a b = true ->
  exists l, aggregated_with a b = Ok l /\ loss_wf l
    /\ HostQueueLoss.dropped_blocks l = HostQueueLoss.dropped_blocks a + HostQueueLoss.dropped_blocks b
    /\ HostQueueLoss.dropped_items l = HostQueueLoss.dropped_items a + HostQueueLoss.dropped_items b
    /\ HostQueueLoss.firmware_gap_blocks l
       = HostQueueLoss.firmware_gap_blocks a + HostQueueLoss.firmware_gap_blocks b
    /\ HostQueueLoss.firmware_overrun_blocks l
       = HostQueueLoss.firmware_overrun_blocks a + HostQueueLoss.firmware_overrun_blocks b
    /\ HostQueueLoss.first_sequence l = HostQueueLoss.first_sequence a
    /\ HostQueueLoss.end_sample_ticks l = HostQueueLoss.end_sample_ticks b
    /\ HostQueueLoss.contiguous l
       = can_merge a b && HostQueueLoss.contiguous a && HostQueueLoss.contiguous b.
Proof.
  intros Ha Hb Hs. destruct (aggregated_Ok a b Ha Hb Hs) as [Hagg Hwf].
  eexists. split; [exact Hagg|]. by split.
Qed.

Lemma can_merge_spanned_l a b c :
  same_stream a b = true -> can_merge (spanned a b true) c = can_merge b c.
Proof.
  intros [Hk Hs Hr Hp Hv Hcnt]%same_stream_iff. unfold can_merge, same_stream, spanned. cbn.
  rewrite Hk, Hs, Hr, Hp, Hv. rewrite Hv in Hcnt.
  destruct (HostQueueLoss.variable_frame_items b); [done|]. by rewrite (Hcnt eq_refl).
Qed.

Lemma can_merge_spanned_r a b c :
  same_stream b c = true -> can_merge a (spanned b c true) = can_merge a b.
Proof. done. Qed.

Lemma can_merge_same_stream a b : can_merge a b = true -> same_stream a b = true.
Proof. unfold can_merge. by intros [[? _]%andb_true_iff _]%andb_true_iff. Qed.

Lemma merged_with_fail a b :
  can_merge a b = false ->
  merged_with a b = Err (ValueError "cannot merge noncontiguous host queue losses").
Proof. unfold merged_with. by intros ->. Qed.

(** Merging contiguous evictions does not depend on the order in which adjacent
    reports are coalesced. *)
Theorem merging_associative (a b c : HostQueueLoss) :
  loss_wf a -> loss_wf b -> loss_wf c ->
  HostQueueLoss.contiguous a = true -> HostQueueLoss.contiguous b = true ->
  HostQueueLoss.contiguous c = true ->
  (ab ← merged_with a b; merged_with ab c) = (bc ← merged_with b c; merged_with a bc).
Proof.
  intros Ha Hb Hc Hca Hcb Hcc.
  destruct (can_merge a b) eqn:Hab, (can_merge b c) eqn:Hbc.
  - pose proof (can_merge_same_stream _ _ Hab) as Sab. pose proof (can_merge_same_stream _ _ Hbc) as Sbc.
    assert (Wab : loss_wf (spanned a b true)) by (apply spanned_wf; auto; by apply same_stream_iff).
    assert (Wbc : loss_wf (spanned b c true)) by (apply spanned_wf; auto; by apply same_stream_iff).
    rewrite (proj2 (merged_with_Ok a b _ Ha Hb Hca Hcb) (conj Hab eq_refl)).
    rewrite (proj2 (merged_with_Ok b c _ Hb Hc Hcb Hcc) (conj Hbc eq_refl)). cbn [mbind result_bind].
    rewrite (proj2 (merged_with_Ok _ c _ Wab Hc eq_refl Hcc)
               (conj (eq_trans (can_merge_spanned_l a b c Sab) Hbc) eq_refl)).
    rewrite (proj2 (merged_with_Ok a _ _ Ha Wbc Hca eq_refl)
               (conj (eq_trans (can_merge_spanned_r a b c Sbc) Hab) eq_refl)).
    unfold spanned. cbn. by rewrite !Z.add_assoc.
  - pose proof (can_merge_same_stream _ _ Hab) as Sab.
    rewrite (proj2 (merged_with_Ok a b _ Ha Hb Hca Hcb) (conj Hab eq_refl)).
    cbn [mbind result_bind].
    rewrite (merged_with_fail _ _ Hbc), (merged_with_fail (spanned a b true) c); [done|].
    by rewrite can_merge_spanned_l.
  - pose proof (can_merge_same_stream _ _ Hbc) as Sbc.
    rewrite (proj2 (merged_with_Ok b c _ Hb Hc Hcb Hcc) (conj Hbc eq_refl)).
    rewrite (merged_with_fail _ _ Hab). cbn [mbind result_bind].
    rewrite (merged_with_fail a (spanned b c true)); [done|by rewrite can_merge_spanned_r].
  - by rewrite (merged_with_fail _ _ Hab), (merged_with_fail _ _ Hbc).
Qed.

(** Three consecutive evicted v3 blocks, the last one after a hole. *)
Definition example_loss (sequence ticks items : Z) : HostQueueLoss :=
  HostQueueLoss.mk V1FrameKind.ADC_DATA Source.HARDWARE 7 sequence sequence ticks
    (ticks + 8 * items) 1 items DROP_OLDEST_COMPLETE 0 0 true 8 items true.

Lemma example_loss_wf sequence ticks items :
  loss_validate (example_loss sequence ticks items) = Ok (example_loss sequence ticks items) ->
  loss_wf (example_loss sequence ticks items).
Proof. by intros [_ H]%loss_validate_iff. Qed.

Lemma aggregation_exact_witness :
  exists l, aggregated_with (example_loss 4 0 1012) (example_loss 9 64000 500) = Ok l
            /\ HostQueueLoss.dropped_items l = 1512 /\ HostQueueLoss.contiguous l = false.
Proof.
  destruct (aggregation_exact (example_loss 4 0 1012) (example_loss 9 64000 500))
    as (l & Hl & _ & _ & Hi & _ & _ & _ & _ & Hc);
    [apply example_loss_wf; vm_compute; reflexivity .. | reflexivity |].
  exists l. split; [exact Hl|]. split; [exact Hi|exact Hc].
Defined.

Lemma merging_associative_witness :
  (ab ← merged_with (example_loss 4 0 1012) (example_loss 5 8096 1012);
   merged_with ab (example_loss 6 16192 4)) =
  (bc ← merged_with (example_loss 5 8096 1012) (example_loss 6 16192 4);
   merged_with (example_loss 4 0 1012) bc).
Proof.
  apply (merging_associative (example_loss 4 0 1012) (example_loss 5 8096 1012)
           (example_loss 6 16192 4));
    first [apply example_loss_wf; vm_compute; reflexivity | reflexivity].
Defined.
