(* ===== verification/Blocks.v ===== *)
(** * Decoded data blocks ([models.py], lines 534-548 and 5930-6852; [decode_v3_block]).

    [ADCBlock] and [GPIOBlock] with the checks of their [__post_init__], the sample
    and timestamp views over them, and [protocol_v3.decode_v3_block], which turns a
    received v3 frame into a block.  The NumPy, calibration and float-valued views
    are not modelled. *)

From S2P Require Import Prelude PyStruct Checksum V3Constants V3Header V3Samples ModelsV3 V3Frames Synthetic Profiles Losses.

(** [constants.PROTOCOL_VERSION] and [v2_constants.PROTOCOL_VERSION]. *)
Definition V1_PROTOCOL_VERSION : Z := 1.
Definition V2_PROTOCOL_VERSION : Z := 2.
Definition V1_HEADER_SIZE : Z := 44.
Definition V1_TRAILER_SIZE : Z := 4.

Definition lift_v3 {A} (m : v3 A) : mdl A :=
  match m with Ok a => Ok a | Err e => Err (V3Error e) end.

(** ** Shared checks *)

(** [ALLOWED_FLAGS_BY_KIND[FrameKind.ADC_DATA]] *)
Definition ALLOWED_DATA_FLAGS : Z :=
  Z.lor (Z.lor (Z.lor FrameFlag.SYNTHETIC FrameFlag.GAP_BEFORE) FrameFlag.EPOCH_START)
    FrameFlag.OVERRUN_BEFORE.

Definition _validated_data_flags (flags : Z) : mdl Z :=
  _ ← require (negb (reserved_bits flags ALLOWED_DATA_FLAGS))
        (ValueError "data flags contain reserved or response-only bits");
  _ ← require (negb (has flags FrameFlag.OVERRUN_BEFORE && negb (has flags FrameFlag.GAP_BEFORE)))
        (ValueError "OVERRUN_BEFORE requires GAP_BEFORE");
  Ok flags.

Definition _validate_v3_block_payload (payload : bytes) (encoded_payload : option bytes)
    (kind : FrameKind) (item_bytes : Z) (profile : V2RateProfile) (first_sample_ticks : Z)
    (checksum_algorithm : Checksum.ChecksumAlgorithm) : mdl unit :=
  _ ← require (bool_decide (checksum_algorithm = Checksum.ADLER32))
        (ValueError "protocol-v3 blocks require Adler-32");
  _ ← require (bool_decide (profile = V2RateProfile.ADC_1MHZ_GPIO_1MHZ))
        (ValueError "protocol-v3 blocks require the 1 MHz rate profile");
  encoded ← of_option encoded_payload
              (UncaughtError "TypeError: protocol-v3 blocks require immutable encoded_payload bytes");
  _ ← require ((0 <? zlen payload) && (zlen payload <=? MAX_LOGICAL_PAYLOAD_BYTES)
               && (zlen payload mod item_bytes =? 0))
        (ValueError "protocol-v3 decoded sample length is invalid");
  let count := zlen payload / item_bytes in
  _ ← require ((first_sample_ticks mod ADC_PAIR_PERIOD_TICKS =? 0)
               && (first_sample_ticks + count * ADC_PAIR_PERIOD_TICKS <=? UINT64_MAX))
        (ValueError "protocol-v3 block timestamp is unaligned or would wrap");
  decoded ← lift_v3 (decode_data_payload kind encoded count);
  require ((V3DecodedData.item_bytes decoded =? item_bytes)
           && bool_decide (V3DecodedData.payload decoded = payload))
    (ValueError "protocol-v3 encoded samples disagree with decoded payload").

(** The version check of both constructors. *)
Definition version_check (stream : string) (protocol_version : Z) (mode : AuxBankMode)
    (profile : V2RateProfile) : mdl unit :=
  _ ← require ((protocol_version =? V1_PROTOCOL_VERSION) || (protocol_version =? V2_PROTOCOL_VERSION)
               || (protocol_version =? PROTOCOL_VERSION))
        (ValueError (stream ++ " block protocol version must be 1, 2 or 3"));
  require (negb ((protocol_version =? V1_PROTOCOL_VERSION)
                 && (negb (bool_decide (mode = AuxBankMode.DISABLED))
                     || negb (bool_decide (profile = DEFAULT_RATE_PROFILE)))))
    (ValueError ("protocol-v1 " ++ stream ++ " blocks require the legacy layout/rate")).

(** The identity and checksum checks of both constructors. *)
Definition identity_check (stream : string) (run_id sequence first_sample_ticks flags : Z)
    (checksum : Checksum.ChecksumAlgorithm) : mdl unit :=
  _ ← _unsigned "run_id" run_id 32;
  _ ← _unsigned "sequence" sequence 32;
  _ ← _unsigned "first_sample_ticks" first_sample_ticks 64;
  _ ← require (negb (run_id =? 0)) (ValueError (stream ++ " blocks require a nonzero run ID"));
  _ ← _validated_data_flags flags;
  require (bool_decide (checksum ∈ HOST_SUPPORTED_CHECKSUM_ALGORITHMS))
    (ValueError "host has no implementation for checksum algorithm").

(** [SYNTHETIC if flags & SYNTHETIC else HARDWARE] *)
Definition source_of_flags (flags : Z) : Source :=
  if has flags FrameFlag.SYNTHETIC then Source.SYNTHETIC else Source.HARDWARE.

(** ** ADC blocks *)

Module ADCBlock.
Record ADCBlock := mk {
  run_id : Z;
  sequence : Z;
  first_sample_ticks : Z;
  payload : bytes;
  flags : Z;
  checksum_algorithm : Checksum.ChecksumAlgorithm;
  metadata : AdcBlockMetadata;
  aux_bank_mode : AuxBankMode;
  rate_profile : V2RateProfile;
  protocol_version : Z;
  gap : option StreamGap;
  encoded_payload : option bytes
}.
End ADCBlock.
Abbreviation ADCBlock := ADCBlock.ADCBlock.

(** Lines 6126-6143: the payload of each protocol version. *)
Definition adc_payload_check (b : ADCBlock) : mdl unit :=
  let mode := ADCBlock.aux_bank_mode b in
  if ADCBlock.protocol_version b =? PROTOCOL_VERSION then
    _validate_v3_block_payload (ADCBlock.payload b) (ADCBlock.encoded_payload b) FrameKind.ADC_DATA 4
      (ADCBlock.rate_profile b) (ADCBlock.first_sample_ticks b) (ADCBlock.checksum_algorithm b)
  else if negb (bool_decide (ADCBlock.encoded_payload b = None)) then
    Err (ValueError "encoded_payload is only valid for protocol-v3 blocks")
  else if negb (zlen (ADCBlock.payload b) =? GPIOLayout.adc_payload_bytes (from_mode mode)) then
    Err (ValueError (if decide (mode = AuxBankMode.DISABLED)
                     then "ADC blocks require exactly 1012 sample pairs"
                     else "ADC blocks in INPUT mode require exactly 506 sample pairs"))
  else Ok tt.

(** Lines 6146-6151: the metadata of the block's rate profile. *)
Definition adc_timing_agrees (m : AdcBlockMetadata) (profile : V2RateProfile) : bool :=
  let timing := from_profile profile in
  (AdcBlockMetadata.pair_rate_hz m =? RateProfileTiming.adc_pair_rate_hz timing)
  && (AdcBlockMetadata.pair_period_ticks m =? RateProfileTiming.adc_pair_period_ticks timing)
  && (AdcBlockMetadata.adc1_phase_ticks m =? RateProfileTiming.adc1_phase_ticks timing).

(** Lines 6153-6163: the source the frame's flag states replaces the metadata's. *)
Definition with_wire_source (m : AdcBlockMetadata) (flags : Z) : mdl AdcBlockMetadata :=
  if decide (AdcBlockMetadata.source m = source_of_flags flags) then Ok m
  else metadata_validate (with_source m (source_of_flags flags)).

(** Lines 6164-6172: every code lies in the advertised range. *)
Definition adc_codes_in_range (m : AdcBlockMetadata) (payload : bytes) : mdl bool :=
  let low := AdcBlockMetadata.code_min m in
  let high := AdcBlockMetadata.code_max m in
  if (low =? 0) && (high =? 4095) then Ok (adc_payload_codes_valid payload)
  else
    pairs ← of_option (iter_unpack PAIR_STRUCT_FORMAT payload) (UncaughtError "struct.error");
    Ok (forallb (fun pair : fvals PAIR_STRUCT_FORMAT =>
          (low <=? pair.1) && (pair.1 <=? high) && ((low <=? pair.2.1) && (pair.2.1 <=? high))) pairs).

(** Lines 6177-6186. *)
Definition adc_gap_describes (b : ADCBlock) : bool :=
  match ADCBlock.gap b with
  | None => true
  | Some g =>
      bool_decide (StreamGap.kind g = V1FrameKind.ADC_DATA)
      && (StreamGap.run_id g =? ADCBlock.run_id b)
      && (StreamGap.observed_sequence g =? ADCBlock.sequence b)
      && (StreamGap.observed_first_sample_ticks g =? ADCBlock.first_sample_ticks b)
  end.

(** [ADCBlock(...)]: [__post_init__] and the block it leaves. *)
Definition new_adc_block (b : ADCBlock) : mdl ADCBlock :=
  _ ← identity_check "ADC" (ADCBlock.run_id b) (ADCBlock.sequence b) (ADCBlock.first_sample_ticks b)
        (ADCBlock.flags b) (ADCBlock.checksum_algorithm b);
  _ ← version_check "ADC" (ADCBlock.protocol_version b) (ADCBlock.aux_bank_mode b)
        (ADCBlock.rate_profile b);
  _ ← adc_payload_check b;
  _ ← require (adc_timing_agrees (ADCBlock.metadata b) (ADCBlock.rate_profile b))
        (ValueError "ADC block metadata disagrees with its rate profile");
  metadata ← with_wire_source (ADCBlock.metadata b) (ADCBlock.flags b);
  in_range ← adc_codes_in_range metadata (ADCBlock.payload b);
  _ ← require in_range (ValueError "ADC codes must fit the advertised range");
  _ ← require (adc_gap_describes b) (ValueError "ADC gap metadata does not describe this block");
  Ok (ADCBlock.mk (ADCBlock.run_id b) (ADCBlock.sequence b) (ADCBlock.first_sample_ticks b)
        (ADCBlock.payload b) (ADCBlock.flags b) (ADCBlock.checksum_algorithm b) metadata
        (ADCBlock.aux_bank_mode b) (ADCBlock.rate_profile b) (ADCBlock.protocol_version b)
        (ADCBlock.gap b) (ADCBlock.encoded_payload b)).

(** The properties shared by the two block classes, at an [encoded_payload]. *)
Definition encoding_of (encoded_payload : option bytes) : mdl Encoding :=
  match encoded_payload with
  | None => Ok Encoding.RAW
  | Some encoded =>
      value ← of_option (encoded !! 0%nat) (UncaughtError "IndexError");
      of_option (enum_of value) (ValueError "Encoding")
  end.

Definition encoded_sample_bytes_of (payload : bytes) (encoded_payload : option bytes) : Z :=
  match encoded_payload with None => zlen payload | Some encoded => zlen encoded - DATA_PREFIX_BYTES end.

Definition wire_bytes_of (payload : bytes) (encoded_payload : option bytes) : Z :=
  V1_HEADER_SIZE + zlen (default payload encoded_payload) + V1_TRAILER_SIZE.

Definition adc_item_count (b : ADCBlock) : Z := zlen (ADCBlock.payload b) / ADC_BYTES_PER_PAIR.
Definition pair_period_ticks (b : ADCBlock) : Z :=
  AdcBlockMetadata.pair_period_ticks (ADCBlock.metadata b).
Definition adc1_phase_ticks (b : ADCBlock) : Z :=
  AdcBlockMetadata.adc1_phase_ticks (ADCBlock.metadata b).
Definition adc_source (b : ADCBlock) : Source := AdcBlockMetadata.source (ADCBlock.metadata b).

Definition gap_before (b : ADCBlock) : bool :=
  negb (bool_decide (ADCBlock.gap b = None)) || has (ADCBlock.flags b) FrameFlag.GAP_BEFORE.

Definition adc_end_tick_exclusive (b : ADCBlock) : Z :=
  u64 (ADCBlock.first_sample_ticks b + adc_item_count b * pair_period_ticks b).

Definition first_pair_index (b : ADCBlock) : Z := ADCBlock.first_sample_ticks b / pair_period_ticks b.

(** [index += count if index < 0]; out of range raises [IndexError]. *)
Definition position_of (index count : Z) : mdl Z :=
  let position := if index <? 0 then index + count else index in
  _ ← require ((0 <=? position) && (position <? count)) (UncaughtError "IndexError");
  Ok position.

(** [AdcChannelView.__getitem__] at an integer. *)
Definition adc_channel_get (b : ADCBlock) (converter : AdcConverter) (index : Z) : mdl Z :=
  position ← position_of index (adc_item_count b);
  let offset := position * ADC_BYTES_PER_PAIR + 2 * int_of converter in
  '(code, _) ← of_option (unpack_from HALF_STRUCT_FORMAT (ADCBlock.payload b) (Z.to_nat offset))
                 (UncaughtError "struct.error");
  Ok code.

Definition pair (b : ADCBlock) (index : Z) : mdl (Z * Z) :=
  code0 ← adc_channel_get b ADC0 index;
  code1 ← adc_channel_get b ADC1 index;
  Ok (code0, code1).

Definition pair_ticks (b : ADCBlock) (index : Z) : mdl (Z * Z) :=
  index ← position_of index (adc_item_count b);
  let adc0_tick := u64 (ADCBlock.first_sample_ticks b + index * pair_period_ticks b) in
  Ok (adc0_tick, u64 (adc0_tick + adc1_phase_ticks b)).

Module AdcSample.
Record AdcSample := mk { pair_index : Z; converter : AdcConverter; code : Z; timestamp_ticks : Z }.
End AdcSample.
Abbreviation AdcSample := AdcSample.AdcSample.

(** [AdcSample.__post_init__] *)
Definition new_sample (pair_index : Z) (converter : AdcConverter) (code timestamp_ticks : Z) :
    mdl AdcSample :=
  _ ← _nonnegative "pair_index" pair_index;
  _ ← _unsigned "code" code ADC_RESOLUTION_BITS;
  _ ← _unsigned "timestamp_ticks" timestamp_ticks 64;
  Ok (AdcSample.mk pair_index converter code timestamp_ticks).

(** One pass of the loop of [interleave_adc]. *)
Definition interleave_pair (b : ADCBlock) (pair_index : Z) : mdl (list AdcSample) :=
  '(adc0_tick, adc1_tick) ← pair_ticks b pair_index;
  code0 ← adc_channel_get b ADC0 pair_index;
  s0 ← new_sample pair_index ADC0 code0 adc0_tick;
  code1 ← adc_channel_get b ADC1 pair_index;
  s1 ← new_sample pair_index ADC1 code1 adc1_tick;
  Ok [s0; s1].

Definition interleave_adc (b : ADCBlock) : mdl (list AdcSample) :=
  samples ← mapR (interleave_pair b) (seqZ 0 (adc_item_count b));
  Ok (concat samples).

(** ** GPIO blocks *)

Module GPIOBlock.
Record GPIOBlock := mk {
  run_id : Z;
  sequence : Z;
  first_sample_ticks : Z;
  payload : bytes;
  flags : Z;
  checksum_algorithm : Checksum.ChecksumAlgorithm;
  aux_bank_mode : AuxBankMode;
  rate_profile : V2RateProfile;
  protocol_version : Z;
  encoded_payload : option bytes
}.
End GPIOBlock.
Abbreviation GPIOBlock := GPIOBlock.GPIOBlock.

Definition layout (b : GPIOBlock) : GPIOLayout := from_mode (GPIOBlock.aux_bank_mode b).

(** Lines 6596-6613: the payload of each protocol version. *)
Definition gpio_payload_check (b : GPIOBlock) : mdl unit :=
  if GPIOBlock.protocol_version b =? PROTOCOL_VERSION then
    _validate_v3_block_payload (GPIOBlock.payload b) (GPIOBlock.encoded_payload b) FrameKind.GPIO_DATA
      (GPIOLayout.item_bytes (layout b)) (GPIOBlock.rate_profile b) (GPIOBlock.first_sample_ticks b)
      (GPIOBlock.checksum_algorithm b)
  else if negb (bool_decide (GPIOBlock.encoded_payload b = None)) then
    Err (ValueError "encoded_payload is only valid for protocol-v3 blocks")
  else if negb (zlen (GPIOBlock.payload b) =? GPIOLayout.payload_bytes (layout b)) then
    Err (ValueError (if decide (GPIOBlock.aux_bank_mode b = AuxBankMode.DISABLED)
                     then "GPIO blocks require exactly 4048 packed samples"
                     else "GPIO blocks in INPUT mode require exactly 2024 packed samples"))
  else Ok tt.

(** [GPIOBlock(...)], that is, [__post_init__]. *)
Definition new_gpio_block (b : GPIOBlock) : mdl GPIOBlock :=
  _ ← identity_check "GPIO" (GPIOBlock.run_id b) (GPIOBlock.sequence b) (GPIOBlock.first_sample_ticks b)
        (GPIOBlock.flags b) (GPIOBlock.checksum_algorithm b);
  _ ← version_check "GPIO" (GPIOBlock.protocol_version b) (GPIOBlock.aux_bank_mode b)
        (GPIOBlock.rate_profile b);
  _ ← gpio_payload_check b;
  Ok b.

Definition gpio_item_bytes (b : GPIOBlock) : Z := GPIOLayout.item_bytes (layout b).
Definition gpio_item_count (b : GPIOBlock) : Z := zlen (GPIOBlock.payload b) / gpio_item_bytes b.
Definition gpio_source (b : GPIOBlock) : Source := source_of_flags (GPIOBlock.flags b).
Definition packed_width_bits (b : GPIOBlock) : Z := GPIOLayout.packed_width_bits (layout b).
Definition sample_mask (b : GPIOBlock) : Z := Z.shiftl 1 (packed_width_bits b) - 1.

Definition sample_period_ticks (b : GPIOBlock) : Z :=
  RateProfileTiming.gpio_sample_period_ticks (from_profile (GPIOBlock.rate_profile b)).

Definition gpio_end_tick_exclusive (b : GPIOBlock) : Z :=
  u64 (GPIOBlock.first_sample_ticks b + gpio_item_count b * sample_period_ticks b).

Definition first_sample_index (b : GPIOBlock) : Z :=
  GPIOBlock.first_sample_ticks b / sample_period_ticks b.

Definition sample (b : GPIOBlock) (index : Z) : mdl Z :=
  index ← position_of index (gpio_item_count b);
  if gpio_item_bytes b =? 1
  then of_option (GPIOBlock.payload b !! Z.to_nat index) (UncaughtError "IndexError")
  else
    '(value, _) ← of_option (unpack_from HALF_STRUCT_FORMAT (GPIOBlock.payload b)
                               (Z.to_nat (index * gpio_item_bytes b)))
                    (UncaughtError "struct.error");
    Ok value.

Definition sample_ticks (b : GPIOBlock) (index : Z) : mdl Z :=
  index ← position_of index (gpio_item_count b);
  Ok (u64 (GPIOBlock.first_sample_ticks b + index * sample_period_ticks b)).

(** [tuple.index] *)
Fixpoint index_of (v : Z) (l : list Z) : option Z :=
  match l with
  | [] => None
  | x :: l => if x =? v then Some 0 else Z.succ <$> index_of v l
  end.

(** [GpioChannelView(block, pin)]: the bit the view reads. *)
Definition channel (b : GPIOBlock) (pin : Z) : mdl Z :=
  of_option (index_of pin (GPIOLayout.pins_by_bit (layout b)))
    (ValueError (if decide (GPIOBlock.aux_bank_mode b = AuxBankMode.DISABLED)
                 then "GPIO pin must be one of D6 through D13"
                 else "GPIO pin must be one of D6 through D13 or D16 through D23")).

(** [GpioChannelView.__getitem__] at an integer. *)
Definition gpio_channel_get (b : GPIOBlock) (bit index : Z) : mdl bool :=
  position ← position_of index (gpio_item_count b);
  value ← sample b position;
  Ok (has value (Z.shiftl 1 bit)).

(** ** Either block *)

Inductive DataBlock := AdcData (b : ADCBlock) | GpioData (b : GPIOBlock).

Definition block_kind (b : DataBlock) : V1FrameKind.FrameKind :=
  match b with AdcData _ => V1FrameKind.ADC_DATA | GpioData _ => V1FrameKind.GPIO_DATA end.

Definition block_source (b : DataBlock) : Source :=
  match b with AdcData b => adc_source b | GpioData b => gpio_source b end.
Definition block_run_id (b : DataBlock) : Z :=
  match b with AdcData b => ADCBlock.run_id b | GpioData b => GPIOBlock.run_id b end.
Definition block_sequence (b : DataBlock) : Z :=
  match b with AdcData b => ADCBlock.sequence b | GpioData b => GPIOBlock.sequence b end.
Definition block_ticks (b : DataBlock) : Z :=
  match b with AdcData b => ADCBlock.first_sample_ticks b | GpioData b => GPIOBlock.first_sample_ticks b end.
Definition block_payload (b : DataBlock) : bytes :=
  match b with AdcData b => ADCBlock.payload b | GpioData b => GPIOBlock.payload b end.
Definition block_flags (b : DataBlock) : Z :=
  match b with AdcData b => ADCBlock.flags b | GpioData b => GPIOBlock.flags b end.
Definition block_version (b : DataBlock) : Z :=
  match b with AdcData b => ADCBlock.protocol_version b | GpioData b => GPIOBlock.protocol_version b end.
Definition block_count (b : DataBlock) : Z :=
  match b with AdcData b => adc_item_count b | GpioData b => gpio_item_count b end.
(** [pair_period_ticks if isinstance(block, ADCBlock) else sample_period_ticks] *)
Definition block_period (b : DataBlock) : Z :=
  match b with AdcData b => pair_period_ticks b | GpioData b => sample_period_ticks b end.
Definition block_end_tick (b : DataBlock) : Z :=
  match b with AdcData b => adc_end_tick_exclusive b | GpioData b => gpio_end_tick_exclusive b end.

(** ** Decoding a v3 data frame *)

(** [v1.FrameFlag(header.flags)] keeps every bit. *)
Definition decode_v3_block (frame : V3Frame) (settings : V3Settings) : mdl DataBlock :=
  let header := V3Frame.header frame in
  wire ← lift_v3 (frame_to_bytes frame);
  frame ← lift_v3 (decode_v3_frame wire);
  data ← lift_v3 (decode_data_payload (V3FrameHeader.kind header) (V3Frame.payload frame)
                    (V3FrameHeader.item_count header));
  _ ← lift_v3 (settings_to_bytes settings);
  let is_adc := bool_decide (V3FrameHeader.kind header = FrameKind.ADC_DATA) in
  let stream := if is_adc then StreamMask.ADC else StreamMask.GPIO in
  _ ← lift_v3 (_require (has (V3Settings.stream_mask settings) stream) "data for a disabled stream");
  _ ← lift_v3 (_require (eqb (has (V3FrameHeader.flags header) FrameFlag.SYNTHETIC)
                            (bool_decide (V3Settings.source settings = Source.SYNTHETIC)))
                 "data source differs from settings");
  profile ← of_option (enum_of (int_of (V3Settings.rate_profile settings))) (ValueError "RateProfile");
  if is_adc then
    let expected := if decide (V3Settings.adc_policy settings = AdcPolicy.PACK12)
                    then Encoding.ADC_PACK12 else Encoding.RAW in
    _ ← lift_v3 (_require (bool_decide (V3DecodedData.encoding data = expected))
                   "ADC encoding differs from policy");
    metadata ← for_rate_profile profile (V3Settings.source settings);
    b ← new_adc_block
          (ADCBlock.mk (V3FrameHeader.run_id header) (V3FrameHeader.sequence header)
             (V3FrameHeader.first_sample_ticks header) (V3DecodedData.payload data)
             (V3FrameHeader.flags header) Checksum.ADLER32 metadata (V3Settings.aux_bank_mode settings)
             profile PROTOCOL_VERSION None (Some (V3Frame.payload frame)));
    Ok (AdcData b)
  else
    _ ← lift_v3 (_require (V3DecodedData.item_bytes data * 8 =? V3Settings.gpio_width_bits settings)
                   "GPIO width differs from settings");
    _ ← lift_v3 (_require (bool_decide (V3Settings.gpio_policy settings = GpioPolicy.RLE_AUTO)
                            || bool_decide (V3DecodedData.encoding data = Encoding.RAW))
                   "GPIO encoding differs from policy");
    b ← new_gpio_block
          (GPIOBlock.mk (V3FrameHeader.run_id header) (V3FrameHeader.sequence header)
             (V3FrameHeader.first_sample_ticks header) (V3DecodedData.payload data)
             (V3FrameHeader.flags header) Checksum.ADLER32 (V3Settings.aux_bank_mode settings)
             profile PROTOCOL_VERSION (Some (V3Frame.payload frame)));
    Ok (GpioData b).

(** ** Decoded samples *)

Lemma decoded_samples kind payload count d :
  wf_bytes payload -> decode_data_payload kind payload count = Ok d ->
  1 <= count /\ zlen (V3DecodedData.payload d) = count * V3DecodedData.item_bytes d
  /\ count * V3DecodedData.item_bytes d <= 4048
  /\ V3DecodedData.item_count d = count
  /\ (kind = FrameKind.ADC_DATA /\ V3DecodedData.item_bytes d = 4 /\
        (exists pairs, Forall adc_pair_ok pairs /\ zlen pairs = count /\
           V3DecodedData.payload d = concat (map raw_pair pairs))
      \/ kind = FrameKind.GPIO_DATA /\
           (V3DecodedData.item_bytes d = 1 \/ V3DecodedData.item_bytes d = 2) /\
        exists values, Forall (gpio_item_ok (V3DecodedData.item_bytes d)) values /\ zlen values = count
           /\ V3DecodedData.payload d = gpio_raw (V3DecodedData.item_bytes d) values).
Proof.
  intros Hw Hd. pose proof (decode_payload_inv _ _ _ _ Hw Hd)
    as (_ & _ & _ & width & _ & _ & _ & _ & _ & _ & Hwidth & Hc & _ & Hi & Hn & _).
  destruct (payload_is_encoded _ _ _ _ Hw Hd) as [(-> & pairs & _ & Hp & Hl & Hr & _)|
                                                 (-> & values & _ & Hp & Hl & Hr & _)].
  - rewrite decide_True in Hwidth by done. subst width.
    split; [lia|]. split.
    { rewrite Hr, Hi. unfold zlen in *. rewrite length_raw_pairs. lia. }
    split; [rewrite Hi; zlia|]. split; [done|]. left. eauto 10.
  - rewrite decide_False in Hwidth by done.
    split; [lia|]. split.
    { rewrite Hr. rewrite Hi in *. unfold zlen in *. rewrite length_gpio_raw. lia. }
    split; [rewrite Hi; destruct Hwidth as [-> | ->]; zlia|]. split; [done|]. right.
    rewrite Hi in *. eauto 10.
Qed.

Lemma v3_payload_accepted kind payload count d ticks :
  wf_bytes payload -> decode_data_payload kind payload count = Ok d ->
  (8 | ticks) -> ticks + 8 * count < 2 ^ 64 ->
  _validate_v3_block_payload (V3DecodedData.payload d) (Some payload) kind (V3DecodedData.item_bytes d)
    V2RateProfile.ADC_1MHZ_GPIO_1MHZ ticks Checksum.ADLER32 = Ok tt.
Proof.
  intros Hw Hd Hal Hwrap. destruct (decoded_samples _ _ _ _ Hw Hd) as (Hc & Hl & Hmax & Hn & Hk).
  set (width := V3DecodedData.item_bytes d) in *.
  assert (Hwidth : 0 < width) by (destruct Hk as [(_ & -> & _)|(_ & [-> | ->] & _)]; lia).
  unfold _validate_v3_block_payload. rewrite Hl, Z.mod_mul, Z.div_mul by lia.
  cbn [bool_decide require of_option mbind result_bind decide decide_rel]. rewrite !bool_decide_eq_true_2 by done.
  cbn [require of_option mbind result_bind]. unfold MAX_LOGICAL_PAYLOAD_BYTES, ADC_PAIR_PERIOD_TICKS.
  rewrite (proj2 (Z.ltb_lt 0 _)), (proj2 (Z.leb_le _ 4048)) by nia.
  cbn [andb Z.eqb require mbind result_bind].
  destruct Hal as [k ->]. rewrite Z.mod_mul by lia. cbn [andb Z.eqb].
  rewrite (proj2 (Z.leb_le _ UINT64_MAX)) by (unfold UINT64_MAX; pow_lit; lia).
  cbn [require mbind result_bind]. rewrite Hd. cbn [lift_v3 mbind result_bind].
  fold width. by rewrite Z.eqb_refl, bool_decide_eq_true_2.
Qed.

(** ** Constructors on a valid v3 header *)

Lemma data_flags_validated f :
  0 <= f < 16 -> (Z.testbit f 3 = true -> Z.testbit f 1 = true) -> _validated_data_flags f = Ok f.
Proof.
  intros Hf Ho. unfold _validated_data_flags, reserved_bits.
  change ALLOWED_DATA_FLAGS with (2 ^ 4 - 1).
  replace (has f (Z.lnot (2 ^ 4 - 1))) with false
    by (unfold has; by rewrite (proj2 (land_lnot_ones f 4 ltac:(lia) ltac:(lia))) by lia).
  apply overrun_gap_ok in Ho. cbn [negb require mbind result_bind].
  by rewrite negb_andb, negb_involutive, Ho.
Qed.

Lemma identity_accepted stream run sequence ticks flags :
  0 < run < 2 ^ 32 -> 0 <= sequence < 2 ^ 32 -> 0 <= ticks < 2 ^ 64 -> 0 <= flags < 16 ->
  (Z.testbit flags 3 = true -> Z.testbit flags 1 = true) ->
  identity_check stream run sequence ticks flags Checksum.ADLER32 = Ok tt.
Proof.
  intros Hr Hs Ht Hf Ho. unfold identity_check.
  rewrite (proj2 (unsigned_Ok _ run 32 ltac:(lia))) by lia.
  rewrite (proj2 (unsigned_Ok _ sequence 32 ltac:(lia))) by lia.
  rewrite (proj2 (unsigned_Ok _ ticks 64 ltac:(lia))) by lia.
  rewrite (proj2 (Z.eqb_neq run 0)) by lia. rewrite (data_flags_validated flags Hf Ho). done.
Qed.

Lemma from_mode_item mode :
  GPIOLayout.item_bytes (from_mode mode) = if decide (mode = AuxBankMode.DISABLED) then 1 else 2.
Proof. by destruct mode. Qed.

(** The block that a frame's header, payload and decoded samples make. *)
Definition v3_block (h : V3FrameHeader) (encoded : bytes) (s : V3Settings) (d : V3DecodedData)
    (m : AdcBlockMetadata) : DataBlock :=
  if decide (V3FrameHeader.kind h = FrameKind.ADC_DATA) then
    AdcData (ADCBlock.mk (V3FrameHeader.run_id h) (V3FrameHeader.sequence h)
      (V3FrameHeader.first_sample_ticks h) (V3DecodedData.payload d) (V3FrameHeader.flags h)
      Checksum.ADLER32 m (V3Settings.aux_bank_mode s) V2RateProfile.ADC_1MHZ_GPIO_1MHZ
      PROTOCOL_VERSION None (Some encoded))
  else
    GpioData (GPIOBlock.mk (V3FrameHeader.run_id h) (V3FrameHeader.sequence h)
      (V3FrameHeader.first_sample_ticks h) (V3DecodedData.payload d) (V3FrameHeader.flags h)
      Checksum.ADLER32 (V3Settings.aux_bank_mode s) V2RateProfile.ADC_1MHZ_GPIO_1MHZ
      PROTOCOL_VERSION (Some encoded)).

(** The negotiated policies a data frame must obey. *)
Definition obeys_settings (h : V3FrameHeader) (s : V3Settings) (d : V3DecodedData) : Prop :=
  (Z.testbit (V3FrameHeader.flags h) 0 = true <-> V3Settings.source s = Source.SYNTHETIC) /\
  if decide (V3FrameHeader.kind h = FrameKind.ADC_DATA)
  then Z.testbit (V3Settings.stream_mask s) 0 = true /\
       V3DecodedData.encoding d =
         (if decide (V3Settings.adc_policy s = AdcPolicy.PACK12) then Encoding.ADC_PACK12 else Encoding.RAW)
  else Z.testbit (V3Settings.stream_mask s) 1 = true /\
       V3DecodedData.item_bytes d * 8 = V3Settings.gpio_width_bits s /\
       (V3Settings.gpio_policy s = GpioPolicy.RLE_AUTO \/ V3DecodedData.encoding d = Encoding.RAW).

Lemma v3_adc_accepted h encoded s d m :
  wf_bytes encoded -> data_header_wf h -> in_width h -> V3FrameHeader.kind h = FrameKind.ADC_DATA ->
  decode_data_payload FrameKind.ADC_DATA encoded (V3FrameHeader.item_count h) = Ok d ->
  for_rate_profile V2RateProfile.ADC_1MHZ_GPIO_1MHZ (V3Settings.source s) = Ok m ->
  (Z.testbit (V3FrameHeader.flags h) 0 = true <-> V3Settings.source s = Source.SYNTHETIC) ->
  let b := ADCBlock.mk (V3FrameHeader.run_id h) (V3FrameHeader.sequence h)
      (V3FrameHeader.first_sample_ticks h) (V3DecodedData.payload d) (V3FrameHeader.flags h)
      Checksum.ADLER32 m (V3Settings.aux_bank_mode s) V2RateProfile.ADC_1MHZ_GPIO_1MHZ
      PROTOCOL_VERSION None (Some encoded) in
  new_adc_block b = Ok b.
Proof.
  intros Hw (Hl & Hf & Ho & Hr & _ & Hc & Hal & Hwrap) (Hri & Hse & _ & Hti) Hk Hd Hm Hsrc b.
  destruct (decoded_samples _ _ _ _ Hw Hd) as (_ & Hlen & _ & _ & [(_ & Hi & pairs & Hp & Hn & Hraw)|(? & _)]);
    [|done].
  destruct (for_rate_profile_ok V2RateProfile.ADC_1MHZ_GPIO_1MHZ (V3Settings.source s))
    as (m' & Hm' & Hs & H1 & H2 & H3 & Hlo & Hhi). assert (m' = m) as -> by congruence.
  unfold new_adc_block, b. cbn [ADCBlock.run_id ADCBlock.sequence ADCBlock.first_sample_ticks ADCBlock.flags
    ADCBlock.checksum_algorithm ADCBlock.protocol_version ADCBlock.aux_bank_mode ADCBlock.rate_profile
    ADCBlock.metadata ADCBlock.payload ADCBlock.gap ADCBlock.encoded_payload].
  rewrite identity_accepted by (done || lia). cbn [mbind result_bind version_check].
  unfold adc_payload_check. cbn [ADCBlock.protocol_version ADCBlock.payload ADCBlock.encoded_payload
    ADCBlock.rate_profile ADCBlock.first_sample_ticks ADCBlock.checksum_algorithm Z.eqb PROTOCOL_VERSION Pos.eqb].
  pose proof (v3_payload_accepted _ _ _ _ (V3FrameHeader.first_sample_ticks h) Hw Hd Hal ltac:(lia)) as Hv.
  rewrite Hi in Hv. rewrite Hv. cbn [mbind result_bind].
  replace (adc_timing_agrees m V2RateProfile.ADC_1MHZ_GPIO_1MHZ) with true
    by (unfold adc_timing_agrees; by rewrite H1, H2, H3, !Z.eqb_refl).
  cbn [require mbind result_bind].
  assert (Hsm : AdcBlockMetadata.source m = source_of_flags (V3FrameHeader.flags h)).
  { rewrite Hs. unfold source_of_flags. change FrameFlag.SYNTHETIC with (2 ^ 0). rewrite has_testbit by lia.
    destruct (Z.testbit (V3FrameHeader.flags h) 0); [by apply Hsrc|].
    destruct (V3Settings.source s); [done|]. by pose proof (proj2 Hsrc eq_refl). }
  unfold with_wire_source. rewrite decide_True by done. cbn [mbind result_bind].
  unfold adc_codes_in_range. rewrite Hlo, Hhi. cbn [Z.eqb andb Pos.eqb mbind result_bind].
  rewrite (proj2 (raw_pairs (length pairs) (V3DecodedData.payload d)
                    ltac:(rewrite Hraw; apply wf_raw_pairs)
                    ltac:(rewrite Hraw; apply length_raw_pairs))); [done|].
  by exists pairs.
Qed.

Lemma v3_gpio_accepted h encoded s d sb :
  wf_bytes encoded -> data_header_wf h -> in_width h -> V3FrameHeader.kind h = FrameKind.GPIO_DATA ->
  decode_data_payload FrameKind.GPIO_DATA encoded (V3FrameHeader.item_count h) = Ok d ->
  settings_to_bytes s = Ok sb -> V3DecodedData.item_bytes d * 8 = V3Settings.gpio_width_bits s ->
  let b := GPIOBlock.mk (V3FrameHeader.run_id h) (V3FrameHeader.sequence h)
      (V3FrameHeader.first_sample_ticks h) (V3DecodedData.payload d) (V3FrameHeader.flags h)
      Checksum.ADLER32 (V3Settings.aux_bank_mode s) V2RateProfile.ADC_1MHZ_GPIO_1MHZ
      PROTOCOL_VERSION (Some encoded) in
  new_gpio_block b = Ok b.
Proof.
  intros Hw (Hl & Hf & Ho & Hr & _ & Hc & Hal & Hwrap) (Hri & Hse & _ & Hti) Hk Hd Hsb Hwidth b.
  unfold new_gpio_block, b. cbn [GPIOBlock.run_id GPIOBlock.sequence GPIOBlock.first_sample_ticks GPIOBlock.flags
    GPIOBlock.checksum_algorithm GPIOBlock.protocol_version GPIOBlock.aux_bank_mode GPIOBlock.rate_profile].
  rewrite identity_accepted by (done || lia). cbn [mbind result_bind version_check].
  unfold gpio_payload_check, layout. cbn [GPIOBlock.protocol_version GPIOBlock.payload GPIOBlock.encoded_payload
    GPIOBlock.rate_profile GPIOBlock.first_sample_ticks GPIOBlock.checksum_algorithm GPIOBlock.aux_bank_mode
    Z.eqb PROTOCOL_VERSION Pos.eqb].
  pose proof (v3_payload_accepted _ _ _ _ (V3FrameHeader.first_sample_ticks h) Hw Hd Hal ltac:(lia)) as Hv.
  rewrite (settings_widths s sb Hsb) in Hwidth.
  replace (V3DecodedData.item_bytes d) with (GPIOLayout.item_bytes (from_mode (V3Settings.aux_bank_mode s))) in Hv
    by (rewrite from_mode_item; case_decide; lia).
  by rewrite Hv.
Qed.

Lemma rate_profile_value (r : RateProfile) :
  enum_of (A:=V2RateProfile) (int_of r) = Some V2RateProfile.ADC_1MHZ_GPIO_1MHZ.
Proof. by destruct r. Qed.

(** What the policy checks and the constructors do to a decoded frame. *)
Definition policy_outcome (h : V3FrameHeader) (encoded : bytes) (s : V3Settings) (d : V3DecodedData)
    (r : mdl DataBlock) : Prop :=
  (obeys_settings h s d /\
   exists m, for_rate_profile V2RateProfile.ADC_1MHZ_GPIO_1MHZ (V3Settings.source s) = Ok m
             /\ r = Ok (v3_block h encoded s d m))
  \/ (~ obeys_settings h s d /\ exists message, r = Err (V3Error (invalid message))).

Lemma source_flag_iff f s :
  eqb (has f FrameFlag.SYNTHETIC) (bool_decide (s = Source.SYNTHETIC)) = true
  <-> (Z.testbit f 0 = true <-> s = Source.SYNTHETIC).
Proof.
  change FrameFlag.SYNTHETIC with (2 ^ 0). rewrite has_testbit by lia.
  rewrite eqb_true_iff. case_bool_decide; destruct (Z.testbit f 0); intuition congruence.
Qed.

(** One policy check: refused, the requirement fails; passed, the rest decides. *)
Lemma policy_step b message (k : unit -> mdl DataBlock) h encoded s d :
  (obeys_settings h s d -> b = true) ->
  (b = true -> policy_outcome h encoded s d (k tt)) ->
  policy_outcome h encoded s d (lift_v3 (_require b message) ≫= k).
Proof.
  intros Hneed Hrest. destruct b; cbn; [by apply Hrest|]. right.
  split; [intros Ho; by apply Hneed in Ho|by exists message].
Qed.

(** A received data frame decodes, and the policy checks decide the rest. *)
Lemma decode_v3_block_outcome (frame : V3Frame) (wire : bytes) (s : V3Settings) (sb : bytes) :
  frame_on_wire frame wire -> _DATA_KINDS (V3FrameHeader.kind (V3Frame.header frame)) = true ->
  settings_to_bytes s = Ok sb ->
  exists d, decode_data_payload (V3FrameHeader.kind (V3Frame.header frame)) (V3Frame.payload frame)
              (V3FrameHeader.item_count (V3Frame.header frame)) = Ok d
    /\ policy_outcome (V3Frame.header frame) (V3Frame.payload frame) s d (decode_v3_block frame s).
Proof.
  intros Hf Hk Hs. pose proof (frame_on_wire_size _ _ Hf) as (Hww & _ & _).
  pose proof (proj2 (decode_v3_frame_iff _ _ Hww) Hf) as Hdec.
  pose proof (frame_on_wire_to_bytes _ _ Hf) as Hto.
  destruct Hf as (_ & _ & (_ & _ & _ & Hin & Hdh) & Hwp & _ & _ & _ & Hval).
  unfold _validate_payload in Hval. cbv zeta in Hval. rewrite Hk in Hval, Hdh.
  apply bind_Ok_inv in Hval as (d & Hd & _). exists d. split; [done|].
  unfold decode_v3_block. rewrite Hto. cbn [lift_v3 mbind result_bind]. rewrite Hdec.
  cbn [lift_v3 mbind result_bind]. rewrite Hd. cbn [lift_v3 mbind result_bind].
  rewrite Hs. cbn [lift_v3 mbind result_bind]. rewrite rate_profile_value. cbn [of_option].
  apply policy_step.
  { intros [_ Ho]. case_decide as Hkd.
    - rewrite bool_decide_eq_true_2 by done. change StreamMask.ADC with (2 ^ 0).
      rewrite has_testbit by lia. apply Ho.
    - rewrite bool_decide_eq_false_2 by done. change StreamMask.GPIO with (2 ^ 1).
      rewrite has_testbit by lia. apply Ho. }
  intros Hmask. apply policy_step; [intros [Hsrc _]; by apply source_flag_iff|].
  intros Hsrc. apply source_flag_iff in Hsrc. cbn [mbind result_bind].
  destruct (for_rate_profile_ok V2RateProfile.ADC_1MHZ_GPIO_1MHZ (V3Settings.source s)) as (m & Hm & _).
  destruct (decide (V3FrameHeader.kind (V3Frame.header frame) = FrameKind.ADC_DATA)) as [Hadc|Hadc].
  - rewrite bool_decide_eq_true_2 in * by done. change StreamMask.ADC with (2 ^ 0) in Hmask.
    rewrite has_testbit in Hmask by lia. apply policy_step.
    { intros [_ Ho]. rewrite decide_True in Ho by done. destruct Ho as [_ ->]. by apply bool_decide_eq_true_2. }
    intros Henc. apply bool_decide_eq_true in Henc. rewrite Hm. cbn [mbind result_bind]. rewrite Hadc in Hd.
    pose proof (v3_adc_accepted _ _ s _ m Hwp Hdh Hin Hadc Hd Hm Hsrc) as Hnew. cbv zeta in Hnew. rewrite Hnew.
    cbn [mbind result_bind]. left. split.
    + split; [done|]. rewrite decide_True by done. done.
    + exists m. split; [done|]. unfold v3_block. by rewrite decide_True.
  - rewrite bool_decide_eq_false_2 in * by done. change StreamMask.GPIO with (2 ^ 1) in Hmask.
    rewrite has_testbit in Hmask by lia. apply policy_step.
    { intros [_ Ho]. rewrite decide_False in Ho by done. destruct Ho as (_ & -> & _). by apply Z.eqb_eq. }
    intros Hwidth. apply Z.eqb_eq in Hwidth. apply policy_step.
    { intros [_ Ho]. rewrite decide_False in Ho by done. destruct Ho as (_ & _ & Ho).
      apply orb_true_iff. by rewrite !bool_decide_eq_true. }
    intros Hpol. rewrite orb_true_iff, !bool_decide_eq_true in Hpol.
    assert (Hg : V3FrameHeader.kind (V3Frame.header frame) = FrameKind.GPIO_DATA)
      by (destruct (V3FrameHeader.kind (V3Frame.header frame)); done).
    rewrite Hg in Hd. pose proof (v3_gpio_accepted _ _ s _ sb Hwp Hdh Hin Hg Hd Hs Hwidth) as Hnew.
    cbv zeta in Hnew. rewrite Hnew. cbn [mbind result_bind]. left. split.
    + split; [done|]. by rewrite decide_False.
    + exists m. split; [done|]. unfold v3_block. by rewrite decide_False.
Qed.

(** ** The invariant of a constructed block *)

Definition block_item_bytes (b : DataBlock) : Z :=
  match b with AdcData _ => 4 | GpioData b => gpio_item_bytes b end.

Record block_wf (b : DataBlock) : Prop := {
  bw_run : 0 < block_run_id b < 2 ^ 32;
  bw_sequence : 0 <= block_sequence b < 2 ^ 32;
  bw_ticks : 0 <= block_ticks b < 2 ^ 64;
  bw_period : 0 < block_period b;
  bw_count : 0 < block_count b <= 4048;
  bw_size : zlen (block_payload b) = block_count b * block_item_bytes b;
  bw_overrun : has (block_flags b) FrameFlag.OVERRUN_BEFORE = true ->
    has (block_flags b) FrameFlag.GAP_BEFORE = true;
  bw_source : block_source b = source_of_flags (block_flags b);
  bw_v3 : block_version b = PROTOCOL_VERSION ->
    block_period b = 8 /\ (8 | block_ticks b)
    /\ block_ticks b + block_count b * 8 <= UINT64_MAX
    /\ block_count b * block_item_bytes b <= MAX_LOGICAL_PAYLOAD_BYTES
}.

Lemma identity_inv stream run sequence ticks flags checksum u :
  identity_check stream run sequence ticks flags checksum = Ok u ->
  0 < run < 2 ^ 32 /\ 0 <= sequence < 2 ^ 32 /\ 0 <= ticks < 2 ^ 64 /\
  (has flags FrameFlag.OVERRUN_BEFORE = true -> has flags FrameFlag.GAP_BEFORE = true).
Proof.
  unfold identity_check. intros H. rewrite !unit_bind, !unsigned_Ok, require_Ok in H by lia.
  destruct H as (Hr & Hs & Ht & Hz & H). apply bind_Ok_inv in H as (f & Hf & _).
  unfold _validated_data_flags in Hf. rewrite !require_bind in Hf. destruct Hf as (_ & Ho & _).
  split; [lia|]. split; [done|]. split; [done|]. intros Hov. rewrite Hov in Ho. cbn in Ho.
  by apply negb_true_iff, negb_false_iff in Ho.
Qed.

Lemma v3_payload_inv payload encoded kind width profile ticks checksum u :
  0 < width -> _validate_v3_block_payload payload encoded kind width profile ticks checksum = Ok u ->
  profile = V2RateProfile.ADC_1MHZ_GPIO_1MHZ /\ 0 < zlen payload <= MAX_LOGICAL_PAYLOAD_BYTES /\
  zlen payload = zlen payload / width * width /\ (8 | ticks) /\
  ticks + zlen payload / width * 8 <= UINT64_MAX.
Proof.
  intros Hw. unfold _validate_v3_block_payload. rewrite !require_bind, bool_decide_eq_true.
  intros (_ & Hp & H). apply bool_decide_eq_true in Hp. apply of_option_bind in H as (e & _ & H). cbv zeta in H.
  rewrite !require_bind, !andb_true_iff, !Z.eqb_eq, !Z.leb_le in H.
  destruct H as (((Hlo & Hhi) & Hm) & (Hal & Hwrap) & _). apply Z.ltb_lt in Hlo.
  unfold ADC_PAIR_PERIOD_TICKS in *. split; [done|]. split; [done|].
  split; [pose proof (Z.div_mod (zlen payload) width); lia|].
  split; [by apply Z.mod_divide|done].
Qed.

Lemma timing_period_pos p :
  0 < RateProfileTiming.adc_pair_period_ticks (from_profile p) /\
  0 < RateProfileTiming.gpio_sample_period_ticks (from_profile p).
Proof. by destruct p. Qed.

Lemma with_wire_source_inv m flags m' :
  with_wire_source m flags = Ok m' ->
  AdcBlockMetadata.source m' = source_of_flags flags /\
  AdcBlockMetadata.pair_period_ticks m' = AdcBlockMetadata.pair_period_ticks m /\
  AdcBlockMetadata.adc1_phase_ticks m' = AdcBlockMetadata.adc1_phase_ticks m.
Proof.
  unfold with_wire_source. case_decide as Hs; [by intros <-%Ok_inj|].
  unfold metadata_validate. intros H. apply of_option_bind in H as (t & _ & H). cbv zeta in H.
  rewrite !require_bind in H. destruct H as (_ & _ & _ & H). apply unit_bind in H as (_ & H).
  apply require_bind in H as (_ & H). apply Ok_inj in H. by subst m'.
Qed.

(** A decoded payload of positive length, in whole items, holds at least one. *)
Lemma whole_items size width count :
  0 < width -> 0 < size <= MAX_LOGICAL_PAYLOAD_BYTES -> size = count * width -> 0 < count <= 4048.
Proof. unfold MAX_LOGICAL_PAYLOAD_BYTES. nia. Qed.

Lemma new_adc_block_version x b :
  new_adc_block x = Ok b -> ADCBlock.protocol_version b = ADCBlock.protocol_version x
    /\ ADCBlock.run_id b = ADCBlock.run_id x /\ ADCBlock.checksum_algorithm b = ADCBlock.checksum_algorithm x.
Proof.
  unfold new_adc_block. intros H. apply unit_bind in H as (_ & H). apply unit_bind in H as (_ & H).
  apply unit_bind in H as (_ & H). apply require_bind in H as (_ & H).
  apply bind_Ok_inv in H as (m & _ & H). apply bind_Ok_inv in H as (r & _ & H).
  rewrite !require_bind in H. destruct H as (_ & _ & H). apply Ok_inj in H. by subst b.
Qed.

Lemma new_adc_block_wf x b : new_adc_block x = Ok b -> block_wf (AdcData b).
Proof.
  unfold new_adc_block. intros H. apply unit_bind in H as (Hid & H). apply unit_bind in H as (Hver & H).
  apply unit_bind in H as (Hpay & H). apply require_bind in H as (Ht & H).
  apply bind_Ok_inv in H as (m & Hm & H). apply bind_Ok_inv in H as (r & _ & H).
  rewrite !require_bind in H. destruct H as (_ & _ & H). apply Ok_inj in H. subst b.
  apply identity_inv in Hid as (Hr & Hs & Hti & Ho). apply with_wire_source_inv in Hm as (Hsrc & Hper & _).
  unfold adc_timing_agrees in Ht. rewrite !andb_true_iff, !Z.eqb_eq in Ht. destruct Ht as ((_ & Hp) & _).
  assert (Hpos : 0 < AdcBlockMetadata.pair_period_ticks m) by (rewrite Hper, Hp; apply timing_period_pos).
  assert (Hsize : 0 < zlen (ADCBlock.payload x) <= MAX_LOGICAL_PAYLOAD_BYTES /\
    zlen (ADCBlock.payload x) = zlen (ADCBlock.payload x) / 4 * 4 /\
    (ADCBlock.protocol_version x = PROTOCOL_VERSION ->
     AdcBlockMetadata.pair_period_ticks m = 8 /\ (8 | ADCBlock.first_sample_ticks x) /\
     ADCBlock.first_sample_ticks x + zlen (ADCBlock.payload x) / 4 * 8 <= UINT64_MAX)).
  { unfold adc_payload_check in Hpay. case_match eqn:Hv3.
    - apply v3_payload_inv in Hpay as (Hprof & Hl & Hd & Hal & Hw); [|lia].
      rewrite Hper, Hp, Hprof. done.
    - apply Z.eqb_neq in Hv3. case_match; [done|]. case_match eqn:Hlen; [done|].
      apply negb_false_iff, Z.eqb_eq in Hlen. rewrite Hlen.
      destruct (ADCBlock.aux_bank_mode x); (split; [done|]); (split; [done|]); intros; contradiction. }
  destruct Hsize as (Hl & Hd & Hv3).
  split; cbn; try done.
  - apply (whole_items (zlen (ADCBlock.payload x)) 4); [lia|done|exact Hd].
  - intros Hv. destruct (Hv3 Hv) as (H8 & Hal & Hw). split; [exact H8|]. split; [exact Hal|].
    split; [exact Hw|]. unfold adc_item_count, ADC_BYTES_PER_PAIR. cbn [ADCBlock.payload]. lia.
Qed.

Lemma new_gpio_block_wf x b : new_gpio_block x = Ok b -> block_wf (GpioData b).
Proof.
  unfold new_gpio_block. intros H. apply unit_bind in H as (Hid & H). apply unit_bind in H as (Hver & H).
  apply unit_bind in H as (Hpay & H). apply Ok_inj in H. subst b.
  apply identity_inv in Hid as (Hr & Hs & Hti & Ho).
  assert (Hwidth : 0 < gpio_item_bytes x).
  { unfold gpio_item_bytes, layout. rewrite from_mode_item. case_decide; lia. }
  assert (Hsize : 0 < zlen (GPIOBlock.payload x) <= MAX_LOGICAL_PAYLOAD_BYTES /\
    zlen (GPIOBlock.payload x) = gpio_item_count x * gpio_item_bytes x /\
    (GPIOBlock.protocol_version x = PROTOCOL_VERSION ->
     sample_period_ticks x = 8 /\ (8 | GPIOBlock.first_sample_ticks x) /\
     GPIOBlock.first_sample_ticks x + gpio_item_count x * 8 <= UINT64_MAX)).
  { unfold gpio_payload_check in Hpay. case_match eqn:Hv3.
    - apply v3_payload_inv in Hpay as (Hprof & Hl & Hd & Hal & Hw); [|done].
      unfold sample_period_ticks. rewrite Hprof. done.
    - apply Z.eqb_neq in Hv3. case_match; [done|]. case_match eqn:Hlen; [done|].
      apply negb_false_iff, Z.eqb_eq in Hlen. unfold gpio_item_count. rewrite Hlen.
      unfold gpio_item_bytes, layout in *.
      destruct (GPIOBlock.aux_bank_mode x); (split; [done|]); (split; [done|]); intros; contradiction. }
  destruct Hsize as (Hl & Hd & Hv3).
  split; cbn; try done.
  - unfold sample_period_ticks. apply timing_period_pos.
  - by apply (whole_items (zlen (GPIOBlock.payload x)) (gpio_item_bytes x)).
  - intros Hv. destruct (Hv3 Hv) as (H8 & Hal & Hw). split_and!; try done. lia.
Qed.

(** C17. [decode_v3_block] is exact: on a received v3 data frame and settings of the
    published table it yields a block precisely when the frame obeys the negotiated
    stream mask, source, width and encoding policies; the block carries the header's
    identity and timestamp and the decoded samples.  Every refusal is a validation
    error: the block constructors never raise. *)
Theorem decode_v3_block_exact (frame : V3Frame) (wire : bytes) (s : V3Settings) (sb : bytes) :
  frame_on_wire frame wire -> _DATA_KINDS (V3FrameHeader.kind (V3Frame.header frame)) = true ->
  settings_to_bytes s = Ok sb ->
  exists d, decode_data_payload (V3FrameHeader.kind (V3Frame.header frame)) (V3Frame.payload frame)
              (V3FrameHeader.item_count (V3Frame.header frame)) = Ok d
    /\ policy_outcome (V3Frame.header frame) (V3Frame.payload frame) s d (decode_v3_block frame s).
Proof. apply decode_v3_block_outcome. Qed.

(** A hardware ADC frame of two raw pairs under the default settings. *)
Definition example_settings : V3Settings :=
  V3Settings.mk 1 Source.HARDWARE ChecksumAlgorithm.ADLER32 3 CpuProfile.CPU_600MHZ
    RateProfile.ADC_1MHZ_GPIO_1MHZ AuxBankMode.DISABLED 8 GpioPolicy.RAW AdcPolicy.RAW 12 1000000 1000000.

Definition example_wire : bytes :=
  Eval vm_compute in
    match encode_adc_payload [(1, 2); (3, 4095)] AdcPolicy.RAW with
    | Ok payload =>
        match encode_v3_frame (int_of FrameKind.ADC_DATA) payload 0 9 0 0 16 2 with Ok w => w | Err _ => [] end
    | Err _ => []
    end.

Lemma decode_v3_block_exact_witness :
  exists d m, decode_data_payload FrameKind.ADC_DATA (V3Frame.payload (decoded example_wire)) 2 = Ok d /\
    decode_v3_block (decoded example_wire) example_settings
    = Ok (v3_block (V3Frame.header (decoded example_wire)) (V3Frame.payload (decoded example_wire))
            example_settings d m).
Proof.
  assert (Hw : wf_bytes example_wire) by (apply (bool_decide_unpack _); vm_compute; exact I).
  assert (Hd : decode_v3_frame example_wire = Ok (decoded example_wire)) by (vm_compute; reflexivity).
  destruct (decode_v3_block_exact (decoded example_wire) example_wire example_settings
    [1; 0; 1; 3; 1; 4; 0; 8; 0; 0; 12; 0; 64; 66; 15; 0; 64; 66; 15; 0]) as (d & Hp & [Hok|Hno]).
  - exact (proj1 (decode_v3_frame_iff _ _ Hw) Hd).
  - vm_compute. reflexivity.
  - vm_compute. reflexivity.
  - destruct Hok as (_ & m & _ & Hb). exists d, m. split; [exact Hp|exact Hb].
  - destruct Hno as (_ & message & Hm). vm_compute in Hm. discriminate.
Defined.
