(* ===== verification/Views.v ===== *)
(** * The lazy views over a block read its samples.

    Correctness of the channel views, the chronological interleaving and the GPIO pin
    views of [Blocks] against the list of samples the payload encodes. *)

From Stdlib Require Import Sorting.Sorted.
From S2P Require Import Prelude PyStruct Checksum V3Constants V3Header V3Samples ModelsV3 V3Frames Synthetic Profiles Losses Blocks.

(** ** Indexing *)

Lemma position_of_inside i count : 0 <= i < count -> position_of i count = Ok i.
Proof.
  intros Hi. unfold position_of. rewrite (proj2 (Z.ltb_ge i 0)) by lia.
  by rewrite (proj2 (Z.leb_le 0 i)), (proj2 (Z.ltb_lt i count)) by lia.
Qed.

Lemma position_of_negative i count : 0 <= i < count -> position_of (i - count) count = Ok i.
Proof.
  intros Hi. unfold position_of. rewrite (proj2 (Z.ltb_lt (i - count) 0)) by lia.
  replace (i - count + count) with i by lia.
  by rewrite (proj2 (Z.leb_le 0 i)), (proj2 (Z.ltb_lt i count)) by lia.
Qed.

Lemma position_of_outside i count :
  0 <= count -> i < - count \/ count <= i -> position_of i count = Err (UncaughtError "IndexError").
Proof.
  intros Hc Hi. unfold position_of. destruct (Z.ltb_spec i 0).
  - rewrite (proj2 (Z.leb_gt 0 (i + count))) by lia. done.
  - rewrite (proj2 (Z.ltb_ge i count)), andb_false_r by lia. done.
Qed.

Lemma unpack_half payload offset :
  (offset + 2 <= length payload)%nat ->
  unpack_from HALF_STRUCT_FORMAT payload offset = Some (from_le (slice offset (offset + 2) payload), tt).
Proof.
  intros H. unfold unpack_from. change (calcsize HALF_STRUCT_FORMAT) with 2%nat.
  rewrite (proj2 (Nat.leb_le _ _)) by lia. unfold slice.
  by replace (offset + 2 - offset)%nat with 2%nat by lia.
Qed.

(** ** ADC channels *)

Section ADC.
Context (b : ADCBlock) (pairs : list (Z * Z)).
Context (Hpayload : ADCBlock.payload b = concat (map raw_pair pairs)) (Hpairs : Forall adc_pair_ok pairs).

Lemma adc_count : adc_item_count b = zlen pairs.
Proof.
  unfold adc_item_count, ADC_BYTES_PER_PAIR, zlen. rewrite Hpayload, length_raw_pairs. zlia.
Qed.

Lemma pair_at i p : pairs !! i = Some p -> adc_pair_at (ADCBlock.payload b) i = p.
Proof.
  intros Hi. rewrite Hpayload. rewrite <-(take_drop_middle pairs i p Hi).
  rewrite map_app, concat_app. cbn [map concat]. unfold raw_pair at 2. rewrite <-app_assoc.
  destruct (proj1 (Forall_lookup adc_pair_ok pairs) Hpairs i p Hi) as [H1 H2].
  rewrite adc_pair_at_record; [by destruct p| |lia|lia].
  rewrite length_raw_pairs, length_take. apply lookup_lt_Some in Hi. lia.
Qed.

Lemma channel_at converter index i p :
  position_of index (zlen pairs) = Ok (Z.of_nat i) -> pairs !! i = Some p ->
  adc_channel_get b converter index = Ok (match converter with ADC0 => p.1 | ADC1 => p.2 end).
Proof.
  intros Hpos Hi. unfold adc_channel_get. rewrite adc_count, Hpos. cbn [mbind result_bind].
  pose proof (lookup_lt_Some _ _ _ Hi) as Hlt.
  assert (Hl : (4 * i + 4 <= length (ADCBlock.payload b))%nat) by (rewrite Hpayload, length_raw_pairs; lia).
  pose proof (pair_at i p Hi) as Hp. unfold adc_pair_at in Hp. unfold ADC_BYTES_PER_PAIR.
  destruct converter; cbn [int_of AdcConverter_enum].
  - replace (Z.to_nat (Z.of_nat i * 4 + 2 * 0)) with (4 * i)%nat by lia.
    rewrite unpack_half by lia. cbn [of_option mbind result_bind]. by rewrite <-Hp.
  - replace (Z.to_nat (Z.of_nat i * 4 + 2 * 1)) with (4 * i + 2)%nat by lia.
    rewrite unpack_half by lia. cbn [of_option mbind result_bind].
    replace (4 * i + 2 + 2)%nat with (4 * i + 4)%nat by lia. by rewrite <-Hp.
Qed.

Lemma pair_get index i p :
  position_of index (zlen pairs) = Ok (Z.of_nat i) -> pairs !! i = Some p -> pair b index = Ok p.
Proof.
  intros Hpos Hi. unfold pair. rewrite (channel_at ADC0 _ _ _ Hpos Hi), (channel_at ADC1 _ _ _ Hpos Hi).
  by destruct p.
Qed.
End ADC.

(** The two channel views of an ADC block read exactly its sample pairs: index [i]
    and its negative form give pair [i], every other index raises [IndexError]. *)
Theorem adc_views_exact (b : ADCBlock) (pairs : list (Z * Z))
    (Hpayload : ADCBlock.payload b = concat (map raw_pair pairs)) (Hpairs : Forall adc_pair_ok pairs) :
  adc_item_count b = zlen pairs
  /\ (forall i p, pairs !! i = Some p ->
        pair b (Z.of_nat i) = Ok p /\ pair b (Z.of_nat i - zlen pairs) = Ok p)
  /\ (forall index, index < - zlen pairs \/ zlen pairs <= index ->
        pair b index = Err (UncaughtError "IndexError")).
Proof.
  split; [by apply adc_count|]. split.
  - intros i p Hi. pose proof (lookup_lt_Some _ _ _ Hi). unfold zlen in *.
    split; (apply (pair_get b pairs Hpayload Hpairs _ i); [|done]).
    + apply position_of_inside. unfold zlen. lia.
    + apply position_of_negative. unfold zlen. lia.
  - intros index Hi. unfold pair, adc_channel_get. rewrite (adc_count b pairs Hpayload).
    by rewrite position_of_outside by (unfold zlen in *; lia).
Qed.

Lemma adc_views_exact_witness :
  let b := ADCBlock.mk 1 0 0 [1; 0; 2; 0; 3; 0; 255; 15] 0 Checksum.ADLER32
             (AdcBlockMetadata.mk Source.HARDWARE 8000000 1000000 8 4 12 2 0 4095 0 default_calibration
                (AdcTriggerMetadata.mk 0 0 0 0 0 0 0 0 0 0 0 0 0 (0, 0) (0, 0) (0, 0) (0, 0) (0, 0) 0 0 0 0 0 0 0 0
                   (0, 0) (0, 0) (0, 0) 0 0 (0, 0) 0 0 0 0 0 (0, 0)) None)
             AuxBankMode.DISABLED V2RateProfile.ADC_1MHZ_GPIO_1MHZ 3 None None in
  pair b 1 = Ok (3, 4095) /\ pair b (-1) = Ok (3, 4095) /\ pair b 2 = Err (UncaughtError "IndexError").
Proof.
  intros b. destruct (adc_views_exact b [(1, 2); (3, 4095)]) as (_ & Hin & Hout).
  - reflexivity.
  - repeat constructor; cbn; lia.
  - destruct (Hin 1%nat (3, 4095) eq_refl) as [H1 H2].
    split; [exact H1|]. split; [exact H2|]. apply Hout. right. unfold zlen. cbn. lia.
Defined.

(** ** Chronological interleaving *)

Lemma v3_adc_phase x b :
  new_adc_block x = Ok b -> ADCBlock.protocol_version b = PROTOCOL_VERSION -> adc1_phase_ticks b = 4.
Proof.
  unfold new_adc_block. intros H Hv. apply unit_bind in H as (_ & H). apply unit_bind in H as (_ & H).
  apply unit_bind in H as (Hpay & H). apply require_bind in H as (Ht & H).
  apply bind_Ok_inv in H as (m & Hm & H). apply bind_Ok_inv in H as (r & _ & H).
  rewrite !require_bind in H. destruct H as (_ & _ & H). apply Ok_inj in H. subst b. cbn in Hv.
  apply with_wire_source_inv in Hm as (_ & _ & Hph). unfold adc_timing_agrees in Ht.
  rewrite !andb_true_iff, !Z.eqb_eq in Ht. destruct Ht as (_ & Hp).
  unfold adc1_phase_ticks. cbn [ADCBlock.metadata]. rewrite Hph, Hp.
  unfold adc_payload_check in Hpay. rewrite Hv in Hpay. cbn [Z.eqb PROTOCOL_VERSION Pos.eqb] in Hpay.
  apply v3_payload_inv in Hpay as (-> & _); [done|lia].
Qed.

(** The two samples of pair [i] of a block that starts at [t0]. *)
Definition sample_pair (t0 : Z) (pairs : list (Z * Z)) (i : Z) : list AdcSample :=
  let p := nth (Z.to_nat i) pairs (0, 0) in
  [AdcSample.mk i ADC0 p.1 (t0 + 8 * i); AdcSample.mk i ADC1 p.2 (t0 + 8 * i + 4)].

Lemma new_sample_ok i c code ticks :
  0 <= i -> 0 <= code <= 4095 -> 0 <= ticks < 2 ^ 64 -> new_sample i c code ticks = Ok (AdcSample.mk i c code ticks).
Proof.
  intros Hi Hc Ht. unfold new_sample. rewrite (proj2 (nonnegative_Ok _ i) Hi).
  rewrite (proj2 (unsigned_Ok _ code ADC_RESOLUTION_BITS ltac:(unfold ADC_RESOLUTION_BITS; lia)))
    by (unfold ADC_RESOLUTION_BITS; lia).
  by rewrite (proj2 (unsigned_Ok _ ticks 64 ltac:(lia))) by lia.
Qed.

Lemma u64_small v : 0 <= v < 2 ^ 64 -> u64 v = v.
Proof. intros Hv. rewrite u64_mod. by apply Z.mod_small. Qed.

Lemma interleave_pair_ok x b pairs i :
  new_adc_block x = Ok b -> ADCBlock.protocol_version b = PROTOCOL_VERSION ->
  ADCBlock.payload b = concat (map raw_pair pairs) -> Forall adc_pair_ok pairs -> 0 <= i < zlen pairs ->
  interleave_pair b i = Ok (sample_pair (ADCBlock.first_sample_ticks b) pairs i).
Proof.
  intros Hb Hv Hraw Hp Hi. pose proof (new_adc_block_wf _ _ Hb) as [_ _ Ht _ _ _ _ _ Hv3].
  destruct (Hv3 Hv) as (Hper & _ & Hend & _). cbn in Ht, Hper, Hend.
  pose proof (v3_adc_phase _ _ Hb Hv) as Hph. pose proof (adc_count b pairs Hraw) as Hn.
  rewrite Hn in Hend. change UINT64_MAX with (2 ^ 64 - 1) in Hend.
  assert (Hnth : pairs !! Z.to_nat i = Some (nth (Z.to_nat i) pairs (0, 0))).
  { destruct (lookup_lt_is_Some_2 pairs (Z.to_nat i)) as [p Hlk]; [unfold zlen in Hi; lia|].
    by rewrite Hlk, (nth_lookup_Some _ _ (0, 0) _ Hlk). }
  assert (Hok : adc_pair_ok (nth (Z.to_nat i) pairs (0, 0)))
    by (eapply (proj1 (Forall_lookup _ _) Hp); exact Hnth).
  destruct Hok as [H1 H2].
  assert (Hpos : position_of i (zlen pairs) = Ok (Z.of_nat (Z.to_nat i)))
    by (rewrite Z2Nat.id by lia; by apply position_of_inside).
  unfold interleave_pair, pair_ticks. rewrite Hn, position_of_inside, Hper, Hph by done.
  cbn [mbind result_bind]. rewrite !u64_small by (rewrite ?u64_small; lia).
  rewrite (channel_at b pairs Hraw Hp ADC0 _ _ _ Hpos Hnth). cbn [mbind result_bind].
  rewrite new_sample_ok by lia. cbn [mbind result_bind].
  rewrite (channel_at b pairs Hraw Hp ADC1 _ _ _ Hpos Hnth). cbn [mbind result_bind].
  rewrite new_sample_ok by lia. cbn [mbind result_bind]. unfold sample_pair. do 4 f_equal; lia.
Qed.

Lemma sample_pairs_sorted t0 pairs n start :
  let samples := concat (map (sample_pair t0 pairs) (seqZ start (Z.of_nat n))) in
  Forall (fun s => t0 + 8 * start <= AdcSample.timestamp_ticks s) samples /\
  StronglySorted (fun s s' => AdcSample.timestamp_ticks s < AdcSample.timestamp_ticks s') samples.
Proof.
  cbv zeta. revert start. induction n as [|n IH]; intros start.
  { split; constructor. }
  rewrite seqZ_cons by lia. replace (Z.pred (Z.of_nat (S n))) with (Z.of_nat n) by lia.
  cbn [map concat]. destruct (IH (Z.succ start)) as [Hlo Hs]. unfold sample_pair at 1 3.
  set (rest := concat (map (sample_pair t0 pairs) (seqZ (Z.succ start) (Z.of_nat n)))) in *.
  cbn [app]. split.
  - constructor; [cbn; lia|]. constructor; [cbn; lia|].
    eapply Forall_impl; [exact Hlo|]. cbn. intros s ?. lia.
  - assert (Hlt : forall t, t < t0 + 8 * Z.succ start -> Forall (fun s' => t < AdcSample.timestamp_ticks s') rest).
    { intros t Htt. eapply Forall_impl; [exact Hlo|]. cbn. intros s ?. lia. }
    constructor; [constructor; [exact Hs|apply Hlt; cbn; lia]|].
    constructor; [cbn; lia|]. apply Hlt. cbn. lia.
Qed.

(** Interleaving a protocol-v3 ADC block lists every sample once, ADC0 before ADC1
    of each pair, with the nominal times [t0 + 8 i] and [t0 + 8 i + 4]; the timestamps
    strictly increase and no 64-bit wrap occurs. *)
Theorem interleaved_chronological (x b : ADCBlock) (pairs : list (Z * Z))
    (Hb : new_adc_block x = Ok b) (Hv : ADCBlock.protocol_version b = PROTOCOL_VERSION)
    (Hpayload : ADCBlock.payload b = concat (map raw_pair pairs)) (Hpairs : Forall adc_pair_ok pairs) :
  let samples := concat (map (sample_pair (ADCBlock.first_sample_ticks b) pairs) (seqZ 0 (zlen pairs))) in
  interleave_adc b = Ok samples
  /\ StronglySorted (fun s s' => AdcSample.timestamp_ticks s < AdcSample.timestamp_ticks s') samples.
Proof.
  cbv zeta. split; [|apply (sample_pairs_sorted _ _ (length pairs) 0)].
  unfold interleave_adc. rewrite (adc_count b pairs Hpayload).
  rewrite (mapR_ok _ (sample_pair (ADCBlock.first_sample_ticks b) pairs)); [done|].
  apply Forall_seqZ. intros i Hi. apply (interleave_pair_ok x); auto; lia.
Qed.

(** A two-pair protocol-v3 block at tick 16, stored raw. *)
Definition example_adc_block : mdl ADCBlock :=
  metadata ← for_rate_profile V2RateProfile.ADC_1MHZ_GPIO_1MHZ Source.HARDWARE;
  encoded ← lift_v3 (encode_adc_payload [(1, 2); (3, 4095)] AdcPolicy.PACK12);
  new_adc_block
    (ADCBlock.mk 1 0 16 (concat (map raw_pair [(1, 2); (3, 4095)])) 0 Checksum.ADLER32 metadata
       AuxBankMode.DISABLED V2RateProfile.ADC_1MHZ_GPIO_1MHZ 3 None (Some encoded)).

Lemma interleaved_chronological_witness :
  exists b, example_adc_block = Ok b /\
    interleave_adc b = Ok [AdcSample.mk 0 ADC0 1 16; AdcSample.mk 0 ADC1 2 20;
                           AdcSample.mk 1 ADC0 3 24; AdcSample.mk 1 ADC1 4095 28].
Proof.
  assert (He : exists b, example_adc_block = Ok b /\ new_adc_block b = Ok b
            /\ ADCBlock.protocol_version b = 3 /\ ADCBlock.first_sample_ticks b = 16
            /\ ADCBlock.payload b = concat (map raw_pair [(1, 2); (3, 4095)]))
    by (eexists; split; [vm_compute; reflexivity|]; split; [vm_compute; reflexivity|done]).
  destruct He as (b & Hb & Hnew & Hv & Ht & Hp). exists b. split; [exact Hb|].
  destruct (interleaved_chronological b b [(1, 2); (3, 4095)] Hnew Hv Hp) as [Hi _].
  - repeat constructor; cbn; lia.
  - rewrite Hi, Ht. reflexivity.
Defined.

(** ** GPIO pins *)

Section GPIO.
Context (b : GPIOBlock) (values : list Z).
Let width := gpio_item_bytes b.
Context (Hpayload : GPIOBlock.payload b = gpio_raw width values) (Hvalues : Forall (gpio_item_ok width) values).

Lemma width_cases : width = 1 \/ width = 2.
Proof. unfold width, gpio_item_bytes, layout. rewrite from_mode_item. case_decide; auto. Qed.

Lemma gpio_count : gpio_item_count b = zlen values.
Proof.
  unfold gpio_item_count, zlen. fold width. rewrite Hpayload, length_gpio_raw.
  destruct width_cases as [-> | ->]; zlia.
Qed.

Lemma gpio_slice i v : values !! i = Some v ->
  slice (Z.to_nat width * i) (Z.to_nat width * i + Z.to_nat width) (GPIOBlock.payload b)
  = to_le (Z.to_nat width) v.
Proof.
  intros Hi. rewrite Hpayload. rewrite <-(take_drop_middle values i v Hi). unfold gpio_raw.
  rewrite map_app, concat_app. cbn [map concat]. unfold slice.
  pose proof (lookup_lt_Some _ _ _ Hi) as Hlt.
  pose proof (length_gpio_raw width (take i values)) as Hl. unfold gpio_raw in Hl. rewrite length_take in Hl.
  rewrite drop_app_exact by lia.
  replace (Z.to_nat width * i + Z.to_nat width - Z.to_nat width * i)%nat with (Z.to_nat width) by lia.
  apply take_app_exact. symmetry. apply length_to_le.
Qed.

Lemma sample_at index i v :
  position_of index (zlen values) = Ok (Z.of_nat i) -> values !! i = Some v -> sample b index = Ok v.
Proof.
  intros Hpos Hi. unfold sample. rewrite gpio_count, Hpos. cbn [mbind result_bind]. fold width.
  pose proof (gpio_slice i v Hi) as Hs. pose proof (lookup_lt_Some _ _ _ Hi) as Hlt.
  pose proof (proj1 (Forall_lookup _ _) Hvalues i v Hi) as Hv. unfold gpio_item_ok in Hv.
  assert (Hlen : length (GPIOBlock.payload b) = (Z.to_nat width * length values)%nat)
    by (rewrite Hpayload; apply length_gpio_raw).
  destruct width_cases as [Hw|Hw]; rewrite Hw in *.
  - cbn [Z.eqb Pos.eqb]. rewrite Nat2Z.id. change (Z.to_nat 1) with 1%nat in *. rewrite !Nat.mul_1_l in *.
    destruct (lookup_lt_is_Some_2 (GPIOBlock.payload b) i) as [x Hx]; [lia|].
    transitivity (@Ok model_error Z x); [exact (f_equal (fun o => of_option o (UncaughtError "IndexError")) Hx)|].
    f_equal. unfold slice in Hs. rewrite (drop_S _ _ _ Hx) in Hs.
    replace (i + 1 - i)%nat with 1%nat in Hs by lia. cbn [take firstn] in Hs.
    apply (f_equal from_le) in Hs. rewrite from_to_le_small in Hs by (pow_lit; lia).
    rewrite from_le_1 in Hs. congruence.
  - cbn [Z.eqb Pos.eqb]. change (Z.to_nat 2) with 2%nat in *.
    replace (Z.to_nat (Z.of_nat i * 2)) with (2 * i)%nat by lia.
    rewrite unpack_half by lia. cbn [of_option mbind result_bind]. rewrite Hs.
    by rewrite from_to_le_small by (pow_lit; lia).
Qed.
End GPIO.

Lemma index_of_lookup pin l bit : index_of pin l = Some bit -> l !! Z.to_nat bit = Some pin /\ 0 <= bit.
Proof.
  revert bit. induction l as [|x l IH]; intros bit; cbn; [done|].
  destruct (Z.eqb_spec x pin) as [->|Hne]; [by intros [= <-]|].
  destruct (index_of pin l) as [k|]; [|done]. intros [= <-]. destruct (IH k eq_refl) as [Hk Hp].
  split; [|lia]. by rewrite Z2Nat.inj_succ by done.
Qed.

Lemma has_bit v n : 0 <= n -> has v (Z.shiftl 1 n) = Z.testbit v n.
Proof. intros Hn. rewrite Z.shiftl_1_l. by apply has_testbit. Qed.

Lemma from_mode_width mode :
  GPIOLayout.packed_width_bits (from_mode mode) = zlen (GPIOLayout.pins_by_bit (from_mode mode)).
Proof. by destruct mode. Qed.

(** The pin views of a GPIO block: a pin has a view exactly when the bank mode
    exposes it, the view's bit is the pin's position in the advertised order, and
    reading sample [i] through it gives that bit of the [i]-th packed value. *)
Theorem gpio_pin_views (b : GPIOBlock) (values : list Z)
    (Hpayload : GPIOBlock.payload b = gpio_raw (gpio_item_bytes b) values)
    (Hvalues : Forall (gpio_item_ok (gpio_item_bytes b)) values) :
  gpio_item_count b = zlen values
  /\ (forall pin, is_Ok (channel b pin) <-> pin ∈ GPIOLayout.pins_by_bit (layout b))
  /\ (forall pin bit i v, channel b pin = Ok bit -> values !! i = Some v ->
        GPIOLayout.pins_by_bit (layout b) !! Z.to_nat bit = Some pin
        /\ 0 <= bit < packed_width_bits b
        /\ sample b (Z.of_nat i) = Ok v
        /\ gpio_channel_get b bit (Z.of_nat i) = Ok (Z.testbit v bit)
        /\ gpio_channel_get b bit (Z.of_nat i - zlen values) = Ok (Z.testbit v bit)).
Proof.
  pose proof (gpio_count b values Hpayload Hvalues) as Hn. split; [exact Hn|]. split.
  - intros pin. unfold channel. induction (GPIOLayout.pins_by_bit (layout b)) as [|x l IH]; cbn [index_of].
    { split; [by intros [? [=]]|]. by intros ?%elem_of_nil. }
    rewrite elem_of_cons. destruct (Z.eqb_spec x pin) as [->|Hne].
    { split; [auto|]. intros _. by exists 0. }
    destruct (index_of pin l) as [k|]; cbn.
    + split; [|intros _; by eexists]. intros _. right. apply IH. by exists k.
    + split; [by intros [? [=]]|]. intros [->|Hin]; [done|]. by apply IH in Hin as [? [=]].
  - intros pin bit i v Hc Hi. unfold channel in Hc. apply of_option_Ok_inv in Hc.
    apply index_of_lookup in Hc as [Hpin Hbit]. pose proof (lookup_lt_Some _ _ _ Hi) as Hlt.
    assert (Hin : 0 <= Z.of_nat i < zlen values) by (unfold zlen; lia).
    assert (Hget : forall index, position_of index (zlen values) = Ok (Z.of_nat i) ->
              gpio_channel_get b bit index = Ok (Z.testbit v bit)).
    { intros index Hpos. unfold gpio_channel_get. rewrite Hn, Hpos. cbn [mbind result_bind].
      rewrite (sample_at b values Hpayload Hvalues _ i v) by (done || by apply position_of_inside).
      cbn [mbind result_bind]. by rewrite has_bit. }
    split; [done|]. split.
    { split; [done|]. apply lookup_lt_Some in Hpin. unfold packed_width_bits.
      unfold layout in *. rewrite from_mode_width. unfold zlen. lia. }
    split; [apply (sample_at b values Hpayload Hvalues _ i v); [by apply position_of_inside|done]|].
    split; apply Hget; [by apply position_of_inside|by apply position_of_negative].
Qed.

Lemma gpio_pin_views_witness :
  let b := GPIOBlock.mk 1 0 0 [5; 128; 0; 1] 0 Checksum.ADLER32 AuxBankMode.INPUT
             V2RateProfile.ADC_1MHZ_GPIO_1MHZ 3 None in
  channel b 16 = Ok 8 /\ gpio_channel_get b 8 1 = Ok true /\ gpio_channel_get b 8 (-2) = Ok false
  /\ sample b 0 = Ok 32773 /\ ~ is_Ok (channel b 14).
Proof.
  intros b. destruct (gpio_pin_views b [32773; 256]) as (_ & Hpins & Hread).
  - reflexivity.
  - repeat constructor; cbn; lia.
  - destruct (Hread 16 8 1%nat 256 eq_refl eq_refl) as (_ & _ & _ & H1 & _).
    destruct (Hread 16 8 0%nat 32773 eq_refl eq_refl) as (_ & _ & Hs & _ & H2).
    split; [reflexivity|]. split; [exact H1|]. split; [exact H2|]. split; [exact Hs|].
    intros H. apply Hpins in H. revert H. apply (bool_decide_unpack (~ _)). vm_compute. exact I.
Defined.
