(* ===== verification/Continuity.v ===== *)
(** * Stream continuity ([models.py], lines 7121-7330, 7513-7541 and 7623-7762).

    The operations of [Losses]' records that read blocks: measuring a gap against an
    expectation, the stale-run anomaly, the eviction report of one block, and
    [analyze_stream_continuity], which classifies each received block. *)

From S2P Require Import Prelude PyStruct Checksum V3Constants V3Header V3Samples ModelsV3 V3Frames Synthetic Profiles Losses Blocks.

(** [bool(block.flags & GAP_BEFORE)] and [OVERRUN_BEFORE]. *)
Definition marked_gap (b : DataBlock) : bool := has (block_flags b) FrameFlag.GAP_BEFORE.
Definition marked_overrun (b : DataBlock) : bool := has (block_flags b) FrameFlag.OVERRUN_BEFORE.

(** [HostQueueLoss.from_block] *)
Definition from_block (b : DataBlock) : mdl HostQueueLoss :=
  loss_validate
    (HostQueueLoss.mk (block_kind b) (block_source b) (block_run_id b) (block_sequence b)
       (block_sequence b) (block_ticks b) (block_end_tick b) 1 (block_count b) DROP_OLDEST_COMPLETE
       (Z.b2z (marked_gap b)) (Z.b2z (marked_overrun b)) true (block_period b) (block_count b)
       (block_version b =? 3)).

(** [StreamGap.from_expected] *)
Definition from_expected (current : DataBlock)
    (expected_sequence expected_first_sample_ticks host_queue_drops : Z) : mdl (option StreamGap) :=
  _ ← _unsigned "expected_sequence" expected_sequence 32;
  _ ← _unsigned "expected_first_sample_ticks" expected_first_sample_ticks 64;
  _ ← _nonnegative "host_queue_drops" host_queue_drops;
  let missing_frames := u32 (block_sequence current - expected_sequence) in
  _ ← require (missing_frames <=? UINT32_MAX / 2)
        (ValueError "duplicate or reversed sequence is not a forward gap");
  let tick_delta := u64 (block_ticks current - expected_first_sample_ticks) in
  _ ← require (tick_delta <=? UINT64_MAX / 2) (ValueError "reversed timestamp is not a forward gap");
  let period := block_period current in
  _ ← require (tick_delta mod period =? 0)
        (ValueError "stream timestamp gap is not sample-period aligned");
  let missing_items := tick_delta / period in
  let sequence_inferred_items :=
    if block_version current =? 3 then None else Some (missing_frames * block_count current) in
  _ ← check_option (fun items => require (items =? missing_items)
        (ValueError "sequence and timestamp imply different missing item counts"))
        sequence_inferred_items;
  let firmware_reported := marked_gap current in
  if (missing_frames =? 0) && (missing_items =? 0) && negb firmware_reported then Ok None
  else
    let source := block_source current in
    let flag_errors := if eqb (negb (missing_items =? 0)) firmware_reported then []
                       else ["GAP_BEFORE does not match the inferred stream discontinuity"%string] in
    evidence ← flag_evidence source firmware_reported (marked_overrun current) missing_frames
                 missing_items (bool_decide (flag_errors = [])) flag_errors;
    gap ← new_gap (block_kind current) (block_run_id current) expected_sequence
            (block_sequence current) missing_frames missing_items expected_first_sample_ticks
            (block_ticks current) firmware_reported (marked_overrun current)
            (Z.min host_queue_drops missing_frames) source sequence_inferred_items (Some evidence)
            (Some period) (Some (block_count current)) (block_version current =? 3);
    Ok (Some gap).

(** [StreamGap.between] *)
Definition between (previous current : DataBlock) : mdl (option StreamGap) :=
  _ ← require (bool_decide (block_kind previous = block_kind current))
        (ValueError "cannot compare different stream types");
  _ ← require (block_run_id previous =? block_run_id current)
        (ValueError "a run change is an epoch boundary, not a stream gap");
  _ ← require (negb (negb (block_period previous =? block_period current)
                     || (negb (block_version current =? 3)
                         && negb (block_count previous =? block_count current))
                     || negb (block_version previous =? block_version current)))
        (ValueError "stream profile changed inside one run");
  from_expected current (u32 (block_sequence previous + 1)) (block_end_tick previous) 0.

(** [StreamAnomaly.stale_run] *)
Definition stale_run (b : DataBlock) (active_run_id : Z) : mdl StreamAnomaly :=
  evidence ← flag_evidence (block_source b) (marked_gap b) (marked_overrun b) 0 0 true [];
  anomaly_validate
    (StreamAnomaly.mk STALE_RUN (block_kind b) (block_source b) active_run_id (block_run_id b)
       (block_sequence b) (block_ticks b) None None None None (Some evidence) 1).

Inductive report := ReportGap (g : StreamGap) | ReportAnomaly (a : StreamAnomaly).

(** [dataclass_replace(evidence, flags_match=False, errors=(message,))] *)
Definition flags_disagree (evidence : FirmwareLossEvidence) (message : string) :
    mdl FirmwareLossEvidence :=
  let '(FirmwareLossEvidence.mk source gap over gen frames items bytes eframes eitems _ counters _) := evidence in
  evidence_validate
    (FirmwareLossEvidence.mk source gap over gen frames items bytes eframes eitems false counters [message]).

(** An anomaly of the current block against the expectation. *)
Definition anomaly_at (current : DataBlock) (reason : StreamAnomalyReason)
    (active_run_id expected_sequence expected_first_sample_ticks : Z)
    (sequence_items timestamp_items : option Z) (evidence : FirmwareLossEvidence) :
    mdl (option report) :=
  a ← anomaly_validate
        (StreamAnomaly.mk reason (block_kind current) (block_source current) active_run_id
           (block_run_id current) (block_sequence current) (block_ticks current)
           (Some expected_sequence) (Some expected_first_sample_ticks) sequence_items timestamp_items
           (Some evidence) 1);
  Ok (Some (ReportAnomaly a)).

(** Lines 7698-7709: do the sequence and timestamp counts agree? *)
Definition counts_consistent (current : DataBlock) (sequence_delta : Z)
    (timestamp_items sequence_items : option Z) : bool :=
  if block_version current =? 3 then
    let max_items := match current with
                     | AdcData _ => MAX_ADC_PAIRS
                     | GpioData b => MAX_LOGICAL_PAYLOAD_BYTES / gpio_item_bytes b
                     end in
    match timestamp_items with
    | None => false
    | Some items => (sequence_delta <=? items) && (items <=? sequence_delta * max_items)
    end
  else bool_decide (timestamp_items = sequence_items).

(** Lines 7695-7697. *)
Definition timestamp_items_of (tick_delta period : Z) : option Z :=
  if (tick_delta <=? UINT64_MAX / 2) && (tick_delta mod period =? 0)
  then Some (tick_delta / period) else None.

Definition analyze_stream_continuity (current : DataBlock)
    (expected_sequence expected_first_sample_ticks active_run_id : Z) (previous_sequence : option Z) :
    mdl (option report) :=
  _ ← _unsigned "expected_sequence" expected_sequence 32;
  _ ← _unsigned "expected_first_sample_ticks" expected_first_sample_ticks 64;
  _ ← _unsigned "active_run_id" active_run_id 32;
  _ ← check_option (fun previous =>
        _ ← _unsigned "previous_sequence" previous 32;
        require (expected_sequence =? u32 (previous + 1))
          (ValueError "previous and expected stream sequences disagree")) previous_sequence;
  evidence ← flag_evidence (block_source current) (marked_gap current) (marked_overrun current) 0 0 true [];
  if negb (block_run_id current =? active_run_id) then
    a ← stale_run current active_run_id; Ok (Some (ReportAnomaly a))
  else
  let sequence_delta := u32 (block_sequence current - expected_sequence) in
  let tick_delta := u64 (block_ticks current - expected_first_sample_ticks) in
  if UINT32_MAX / 2 <? sequence_delta then
    let reason := if bool_decide (previous_sequence = Some (block_sequence current))
                  then DUPLICATE else REORDERED in
    evidence ← (if FirmwareLossEvidence.gap_before evidence
                then flags_disagree evidence "firmware marked a gap on a duplicate or reordered frame"
                else Ok evidence);
    anomaly_at current reason active_run_id expected_sequence expected_first_sample_ticks None None evidence
  else
  let sequence_items :=
    if block_version current =? 3 then None else Some (sequence_delta * block_count current) in
  let timestamp_items := timestamp_items_of tick_delta (block_period current) in
  if bool_decide (timestamp_items = None)
     || negb (counts_consistent current sequence_delta timestamp_items sequence_items) then
    evidence ← (if eqb (FirmwareLossEvidence.gap_before evidence) (0 <? sequence_delta) then Ok evidence
                else flags_disagree evidence
                       "GAP_BEFORE does not match the sequence-inferred stream discontinuity");
    anomaly_at current TIMESTAMP_INCONSISTENT active_run_id expected_sequence
      expected_first_sample_ticks sequence_items timestamp_items evidence
  else if sequence_delta =? 0 then
    if negb (FirmwareLossEvidence.gap_before evidence) then Ok None
    else
      evidence ← flags_disagree evidence "firmware marked a gap where continuity is complete";
      anomaly_at current FIRMWARE_EVIDENCE_MISMATCH active_run_id expected_sequence
        expected_first_sample_ticks (Some 0) (Some 0) evidence
  else
    gap ← from_expected current expected_sequence expected_first_sample_ticks 0;
    Ok (option_map ReportGap gap).

(** ** The constructors accept what the analysis builds *)

Lemma block_data_kind b : data_kind (block_kind b) = true.
Proof. by destruct b. Qed.

Lemma flag_evidence_ok source gap over frames items matches errors :
  (over = true -> gap = true) -> 0 <= frames -> 0 <= items -> EmptyString ∉ errors ->
  flag_evidence source gap over frames items matches errors
  = Ok (FirmwareLossEvidence.mk source gap over None None None None frames items matches None errors).
Proof.
  intros Ho Hf Hi He. unfold flag_evidence, evidence_validate. cbn -[bool_decide].
  rewrite (proj2 (nonnegative_Ok _ frames) Hf), (proj2 (nonnegative_Ok _ items) Hi).
  replace (negb over || gap) with true by (destruct over; [by rewrite Ho|done]).
  cbn -[bool_decide]. rewrite (bool_decide_eq_false_2 (EmptyString ∈ errors)) by done. done.
Qed.

(** The evidence of a block's own flags. *)
Definition own_evidence (b : DataBlock) : FirmwareLossEvidence :=
  FirmwareLossEvidence.mk (block_source b) (marked_gap b) (marked_overrun b) None None None None 0 0
    true None [].

Lemma own_evidence_ok b :
  block_wf b ->
  flag_evidence (block_source b) (marked_gap b) (marked_overrun b) 0 0 true [] = Ok (own_evidence b).
Proof. intros H. apply flag_evidence_ok; [apply (bw_overrun b H)|lia|lia|apply not_elem_of_nil]. Qed.

Lemma flags_disagree_ok b message :
  block_wf b -> message <> EmptyString ->
  exists e, flags_disagree (own_evidence b) message = Ok e /\ FirmwareLossEvidence.source e = block_source b
            /\ evidence_validate e = Ok e.
Proof.
  intros H Hm. pose proof (bw_overrun b H) as Ho. unfold flags_disagree, own_evidence, evidence_validate.
  cbn -[bool_decide]. replace (negb (marked_overrun b) || marked_gap b) with true.
  2: { unfold marked_overrun, marked_gap. destruct (has _ FrameFlag.OVERRUN_BEFORE); [by rewrite Ho|done]. }
  cbn -[bool_decide]. rewrite (bool_decide_eq_false_2 (EmptyString ∈ [message])).
  2: { rewrite list_elem_of_singleton. by intros <-. }
  eexists. split; [done|]. split; [done|]. unfold evidence_validate. cbn -[bool_decide].
  replace (negb (marked_overrun b) || marked_gap b) with true.
  2: { unfold marked_overrun, marked_gap. destruct (has _ FrameFlag.OVERRUN_BEFORE); [by rewrite Ho|done]. }
  cbn -[bool_decide]. rewrite (bool_decide_eq_false_2 (EmptyString ∈ [message])); [done|].
  rewrite list_elem_of_singleton. by intros <-.
Qed.

Lemma check_option_ok check (v : option Z) (P : Z -> Prop) :
  (forall n, P n -> check n = Ok tt) -> (forall n, v = Some n -> P n) -> check_option check v = Ok tt.
Proof. destruct v; cbn; auto. Qed.

(** The anomaly of a block, with what was expected where it is known. *)
Definition block_anomaly (b : DataBlock) (reason : StreamAnomalyReason) (active : Z)
    (es et sitems titems : option Z) (e : FirmwareLossEvidence) : StreamAnomaly :=
  StreamAnomaly.mk reason (block_kind b) (block_source b) active (block_run_id b) (block_sequence b)
    (block_ticks b) es et sitems titems (Some e) 1.

Lemma block_anomaly_ok b reason active es et sitems titems e :
  block_wf b -> 0 < active < 2 ^ 32 ->
  (forall v, es = Some v -> 0 <= v < 2 ^ 32) -> (forall v, et = Some v -> 0 <= v < 2 ^ 64) ->
  (forall n, sitems = Some n -> 0 <= n) -> (forall n, titems = Some n -> 0 <= n) ->
  FirmwareLossEvidence.source e = block_source b ->
  anomaly_validate (block_anomaly b reason active es et sitems titems e)
  = Ok (block_anomaly b reason active es et sitems titems e).
Proof.
  intros [Hr Hs Ht _ _ _ _ _ _] Ha Hes Het Hsi Hti He. unfold anomaly_validate, block_anomaly.
  cbn [StreamAnomaly.kind StreamAnomaly.active_run_id StreamAnomaly.observed_run_id StreamAnomaly.source
    StreamAnomaly.observed_sequence StreamAnomaly.observed_first_sample_ticks StreamAnomaly.expected_sequence
    StreamAnomaly.expected_first_sample_ticks StreamAnomaly.sequence_inferred_items
    StreamAnomaly.timestamp_inferred_items StreamAnomaly.occurrences StreamAnomaly.firmware_evidence].
  rewrite block_data_kind, He, bool_decide_eq_true_2 by done.
  rewrite (proj2 (unsigned_Ok _ active 32 ltac:(lia))), (proj2 (unsigned_Ok _ (block_run_id b) 32 ltac:(lia))),
    (proj2 (unsigned_Ok _ (block_sequence b) 32 ltac:(lia))), (proj2 (unsigned_Ok _ (block_ticks b) 64 ltac:(lia)))
    by lia.
  rewrite (proj2 (Z.eqb_neq active 0)), (proj2 (Z.eqb_neq (block_run_id b) 0)) by lia.
  rewrite (check_option_ok (fun v => _unsigned _ v 32) es (fun v => 0 <= v < 2 ^ 32)),
    (check_option_ok (fun v => _unsigned _ v 64) et (fun v => 0 <= v < 2 ^ 64)),
    (check_option_ok (_nonnegative "sequence_inferred_items") sitems (fun v => 0 <= v)),
    (check_option_ok (_nonnegative "timestamp_inferred_items") titems (fun v => 0 <= v));
    try done; intros n; (by apply nonnegative_Ok) || (by apply unsigned_Ok).
Qed.

Lemma anomaly_at_ok b reason active es et sitems titems e :
  block_wf b -> 0 < active < 2 ^ 32 -> 0 <= es < 2 ^ 32 -> 0 <= et < 2 ^ 64 ->
  (forall n, sitems = Some n -> 0 <= n) -> (forall n, titems = Some n -> 0 <= n) ->
  FirmwareLossEvidence.source e = block_source b ->
  anomaly_at b reason active es et sitems titems e
  = Ok (Some (ReportAnomaly (block_anomaly b reason active (Some es) (Some et) sitems titems e))).
Proof.
  intros H Ha Hes Het Hsi Hti He. unfold anomaly_at. fold (block_anomaly b reason active (Some es) (Some et) sitems titems e).
  rewrite block_anomaly_ok; [done|done|done|by intros v [= <-]|by intros v [= <-]|done..].
Qed.

Lemma stale_run_ok b active :
  block_wf b -> 0 < active < 2 ^ 32 ->
  stale_run b active = Ok (block_anomaly b STALE_RUN active None None None None (own_evidence b)).
Proof.
  intros H Ha. unfold stale_run. rewrite own_evidence_ok by done. cbn [mbind result_bind].
  by apply block_anomaly_ok.
Qed.

(** ** A measured gap *)

(** How many frames and items lie between an expectation and a block. *)
Record missing (b : DataBlock) (es et k m : Z) : Prop := {
  ms_frames : k = (block_sequence b - es) mod 2 ^ 32;
  ms_forward : k < 2 ^ 31;
  ms_ticks : m * block_period b = (block_ticks b - et) mod 2 ^ 64;
  ms_future : m * block_period b < 2 ^ 63;
  ms_agree : if decide (block_version b = 3) then (k = 0 <-> m = 0) /\ k <= m
             else m = k * block_count b
}.

Definition gap_evidence (b : DataBlock) (k m : Z) : FirmwareLossEvidence :=
  let errors := if eqb (negb (m =? 0)) (marked_gap b) then []
                else ["GAP_BEFORE does not match the inferred stream discontinuity"%string] in
  FirmwareLossEvidence.mk (block_source b) (marked_gap b) (marked_overrun b) None None None None k m
    (bool_decide (errors = [])) None errors.

Definition gap_with (b : DataBlock) (es et drops k m : Z) (e : FirmwareLossEvidence) : StreamGap :=
  StreamGap.mk (block_kind b) (block_run_id b) es (block_sequence b) k m et (block_ticks b)
    (marked_gap b) (marked_overrun b) (Z.min drops k) (block_source b)
    (if block_version b =? 3 then None else Some (k * block_count b)) (Some e)
    (block_period b) (block_count b) (block_version b =? 3).

Definition gap_at (b : DataBlock) (es et drops k m : Z) : StreamGap :=
  gap_with b es et drops k m (gap_evidence b k m).

(** Evidence that describes the block's own source and flags. *)
Definition describes (e : FirmwareLossEvidence) (b : DataBlock) : Prop :=
  FirmwareLossEvidence.source e = block_source b /\ FirmwareLossEvidence.gap_before e = marked_gap b
  /\ FirmwareLossEvidence.overrun_before e = marked_overrun b.

Lemma new_gap_ok b es et drops k m e :
  block_wf b -> 0 <= es < 2 ^ 32 -> 0 <= et < 2 ^ 64 -> 0 <= drops -> missing b es et k m -> describes e b ->
  new_gap (block_kind b) (block_run_id b) es (block_sequence b) k m et (block_ticks b) (marked_gap b)
    (marked_overrun b) (Z.min drops k) (block_source b)
    (if block_version b =? 3 then None else Some (k * block_count b)) (Some e)
    (Some (block_period b)) (Some (block_count b)) (block_version b =? 3)
  = Ok (gap_with b es et drops k m e).
Proof.
  intros [Hr Hs Ht Hp Hc _ Ho _ _] Hes Het Hd [Hk Hkf Hm Hmf Ha] (He1 & He2 & He3).
  assert (Hk0 : 0 <= k) by (rewrite Hk; apply Z.mod_pos_bound; lia).
  assert (Hm0 : 0 <= m) by (pose proof (Z.mod_pos_bound (block_ticks b - et) (2 ^ 64)); nia).
  assert (Hmlt : m < 2 ^ 63) by nia.
  unfold new_gap, gap_evidence_check. rewrite He1, He2, He3.
  rewrite block_data_kind, (proj2 (unsigned_Ok _ (block_run_id b) 32 ltac:(lia))),
    (proj2 (unsigned_Ok _ es 32 ltac:(lia))), (proj2 (unsigned_Ok _ (block_sequence b) 32 ltac:(lia))),
    (proj2 (unsigned_Ok _ et 64 ltac:(lia))), (proj2 (unsigned_Ok _ (block_ticks b) 64 ltac:(lia))),
    (proj2 (unsigned_Ok _ k 32 ltac:(lia))), (proj2 (unsigned_Ok _ m 64 ltac:(lia))),
    (proj2 (nonnegative_Ok _ (Z.min drops k))), (proj2 (Z.eqb_neq (block_run_id b) 0)) by (pow_lit; lia).
  cbn [require mbind result_bind negb default from_option id].
  replace (negb (marked_overrun b) || marked_gap b) with true
    by (unfold marked_overrun, marked_gap; destruct (has _ FrameFlag.OVERRUN_BEFORE); [by rewrite Ho|done]).
  rewrite (proj2 (Z.ltb_lt 0 (block_period b))), (proj2 (Z.ltb_lt 0 (block_count b))) by lia.
  cbn [require mbind result_bind andb].
  replace (u32 (es + k)) with (block_sequence b)
    by (rewrite u32_mod, Hk, Zplus_mod_idemp_r; symmetry; replace (es + (block_sequence b - es)) with (block_sequence b) by lia; apply Z.mod_small; lia).
  replace (u64 (et + m * block_period b)) with (block_ticks b)
    by (rewrite u64_mod, Hm, Zplus_mod_idemp_r; symmetry; replace (et + (block_ticks b - et)) with (block_ticks b) by lia; apply Z.mod_small; lia).
  rewrite !eqb_reflx, !Z.eqb_refl, (bool_decide_eq_true_2 (block_source b = block_source b)) by done.
  destruct (Z.eqb_spec (block_version b) 3) as [Hv|Hv].
  - rewrite decide_True in Ha by done. destruct Ha as [Hiff Hle].
    rewrite (proj2 (Z.ltb_ge m k)) by done.
    replace (eqb (negb (k =? 0)) (negb (m =? 0))) with true
      by (destruct (Z.eqb_spec k 0), (Z.eqb_spec m 0); cbn; try done; lia).
    cbn. unfold gap_with. by rewrite (proj2 (Z.eqb_eq _ _) Hv).
  - rewrite decide_False in Ha by done. cbn [andb negb require mbind result_bind check_option].
    rewrite (proj2 (nonnegative_Ok _ (k * block_count b))) by nia. cbn [mbind result_bind].
    rewrite (proj2 (Z.eqb_eq (k * block_count b) m)) by lia. cbn.
    unfold gap_with. by rewrite (proj2 (Z.eqb_neq _ _) Hv).
Qed.

Lemma from_expected_ok b es et drops k m :
  block_wf b -> 0 <= es < 2 ^ 32 -> 0 <= et < 2 ^ 64 -> 0 <= drops -> missing b es et k m ->
  from_expected b es et drops
  = Ok (if (k =? 0) && (m =? 0) && negb (marked_gap b) then None else Some (gap_at b es et drops k m)).
Proof.
  intros H Hes Het Hd Hms. pose proof (new_gap_ok b es et drops k m (gap_evidence b k m) H Hes Het Hd Hms
    (conj eq_refl (conj eq_refl eq_refl))) as Hgap.
  destruct Hms as [Hk Hkf Hm Hmf Ha]. pose proof (bw_period b H) as Hp. pose proof (bw_overrun b H) as Ho.
  pose proof (Z.mod_pos_bound (block_ticks b - et) (2 ^ 64)) as Hb.
  pose proof (Z.mod_pos_bound (block_sequence b - es) (2 ^ 32)) as Hbs.
  unfold from_expected. rewrite (proj2 (unsigned_Ok _ es 32 ltac:(lia))), (proj2 (unsigned_Ok _ et 64 ltac:(lia))),
    (proj2 (nonnegative_Ok _ drops)) by done. cbn [mbind result_bind].
  rewrite u32_mod, u64_mod, <-Hk, <-Hm, Z.mod_mul, Z.div_mul by lia.
  change (UINT32_MAX / 2) with (2 ^ 31 - 1). change (UINT64_MAX / 2) with (2 ^ 63 - 1).
  rewrite (proj2 (Z.leb_le k _)), (proj2 (Z.leb_le (m * block_period b) _)) by lia.
  cbn [require mbind result_bind Z.eqb].
  replace (check_option _ _) with (@Ok model_error unit tt).
  2: { destruct (Z.eqb_spec (block_version b) 3) as [Hv|Hv]; [done|]. rewrite decide_False in Ha by done.
       cbn. by rewrite (proj2 (Z.eqb_eq (k * block_count b) m)). }
  cbn [mbind result_bind]. destruct (_ && _ && _) eqn:Hnone; [done|].
  rewrite flag_evidence_ok; [|done|nia|nia|].
  2: { destruct (eqb _ _); [apply not_elem_of_nil|]. by rewrite list_elem_of_singleton. }
  cbn [mbind result_bind]. unfold gap_evidence in Hgap. cbv zeta in Hgap. by rewrite Hgap.
Qed.

(** ** The classification *)

(** The most items a v3 frame of the block's stream can hold. *)
Definition max_items (b : DataBlock) : Z :=
  match b with
  | AdcData _ => MAX_ADC_PAIRS
  | GpioData b => MAX_LOGICAL_PAYLOAD_BYTES / gpio_item_bytes b
  end.

(** Sequence and timestamp tell one story: [k] frames holding [m] items are missing. *)
Definition plausible (b : DataBlock) (es et k m : Z) : Prop :=
  missing b es et k m /\ (block_version b = 3 -> m <= k * max_items b).

Definition anomaly_of (b : DataBlock) (active : Z) (reason : StreamAnomalyReason) (r : option report) : Prop :=
  exists es et sitems titems e, (FirmwareLossEvidence.source e = block_source b /\ evidence_validate e = Ok e) /\
    r = Some (ReportAnomaly (block_anomaly b reason active es et sitems titems e)).

Inductive verdict (b : DataBlock) (es et active : Z) (previous : option Z) (r : option report) : Prop :=
| stale_block : block_run_id b <> active -> anomaly_of b active STALE_RUN r ->
    verdict b es et active previous r
| behind : block_run_id b = active -> 2 ^ 31 <= (block_sequence b - es) mod 2 ^ 32 ->
    anomaly_of b active (if decide (previous = Some (block_sequence b)) then DUPLICATE else REORDERED) r ->
    verdict b es et active previous r
| inconsistent_time : block_run_id b = active -> (block_sequence b - es) mod 2 ^ 32 < 2 ^ 31 ->
    (forall k m, ~ plausible b es et k m) -> anomaly_of b active TIMESTAMP_INCONSISTENT r ->
    verdict b es et active previous r
| unfounded_mark : block_run_id b = active -> block_sequence b = es -> block_ticks b = et ->
    marked_gap b = true -> anomaly_of b active FIRMWARE_EVIDENCE_MISMATCH r ->
    verdict b es et active previous r
| continuous : block_run_id b = active -> block_sequence b = es -> block_ticks b = et ->
    marked_gap b = false -> r = None -> verdict b es et active previous r
| measured_gap k m : block_run_id b = active -> plausible b es et k m -> 0 < k ->
    r = Some (ReportGap (gap_at b es et 0 k m)) -> verdict b es et active previous r.

Definition consistent_previous (es : Z) (previous : option Z) : Prop :=
  match previous with None => True | Some p => 0 <= p < 2 ^ 32 /\ es = (p + 1) mod 2 ^ 32 end.

(** The executable consistency check decides plausibility. *)
Lemma counts_consistent_iff b es et k :
  block_wf b -> k = (block_sequence b - es) mod 2 ^ 32 -> k < 2 ^ 31 ->
  let titems := timestamp_items_of (u64 (block_ticks b - et)) (block_period b) in
  let sitems := if block_version b =? 3 then None else Some (k * block_count b) in
  match titems with
  | Some m =>
      0 <= m /\ (counts_consistent b k titems sitems = true <-> plausible b es et k m)
  | None => True
  end /\ (forall m, plausible b es et k m -> titems = Some m).
Proof.
  intros H Hk Hkf. cbv zeta. pose proof (bw_period b H) as Hp. pose proof (bw_count b H) as Hcnt.
  assert (Hk0 : 0 <= k) by (rewrite Hk; apply Z.mod_pos_bound; lia).
  pose proof (Z.mod_pos_bound (block_ticks b - et) (2 ^ 64) ltac:(lia)) as Hb.
  unfold timestamp_items_of. rewrite u64_mod. set (t := (block_ticks b - et) mod 2 ^ 64) in *.
  change (UINT64_MAX / 2) with (2 ^ 63 - 1). split.
  - destruct (_ && _) eqn:Ht; [|done]. rewrite andb_true_iff, Z.leb_le, Z.eqb_eq in Ht. destruct Ht as [Htf Hal].
    assert (Hd : t = t / block_period b * block_period b) by (pose proof (Z.div_mod t (block_period b)); lia).
    set (m := t / block_period b) in *. assert (Hm0 : 0 <= m) by nia. split; [done|].
    unfold counts_consistent, plausible.
    fold (max_items b). destruct (Z.eqb_spec (block_version b) 3) as [Hv|Hv].
    + rewrite andb_true_iff, !Z.leb_le. split.
      * intros [Hlo Hhi]. split; [|done]. split; try done; try lia.
        rewrite decide_True by done. split; [|done].
        assert (0 < max_items b) by (unfold max_items; destruct b as [?|g]; [done|]; unfold gpio_item_bytes, layout; rewrite from_mode_item; case_decide; done).
        nia.
      * intros [[_ _ _ _ Ha] Hhi]. rewrite decide_True in Ha by done. split; [apply Ha|auto].
    + rewrite bool_decide_eq_true. split.
      * intros Heq. apply Some_inj' in Heq. split; [|done]. split; try done; try lia.
        by rewrite decide_False.
      * intros [[_ _ _ _ Ha] _]. rewrite decide_False in Ha by done. by f_equal.
  - intros m [[_ _ Hm Hmf _] _]. fold t in Hm.
    rewrite <-Hm, Z.mod_mul, Z.div_mul by lia.
    by rewrite (proj2 (Z.leb_le (m * block_period b) _)) by lia.
Qed.

Lemma at_expectation b es et :
  block_wf b -> 0 <= es < 2 ^ 32 -> 0 <= et < 2 ^ 64 -> plausible b es et 0 0 ->
  block_sequence b = es /\ block_ticks b = et.
Proof.
  intros [_ Hs Ht Hp _ _ _ _ _] Hes Het [[Hk _ Hm _ _] _]. pow_lit. split.
  - clear Hm. zlia.
  - rewrite Z.mul_0_l in Hm. clear Hk. zlia.
Qed.

Lemma no_items_without_frames b es et m :
  block_wf b -> plausible b es et 0 m -> m = 0.
Proof. intros H [[_ _ _ _ Ha] _]. case_decide; [by apply Ha|lia]. Qed.

(** The guards of the analysis pass, and it starts from the block's own evidence. *)
Lemma previous_ok es previous :
  consistent_previous es previous ->
  check_option (fun previous =>
        _ ← _unsigned "previous_sequence" previous 32;
        require (es =? u32 (previous + 1))
          (ValueError "previous and expected stream sequences disagree")) previous = Ok tt.
Proof.
  destruct previous as [p|]; [|done]. intros [Hp ->]. cbn [check_option].
  rewrite (proj2 (unsigned_Ok _ p 32 ltac:(lia))) by done. cbn [mbind result_bind].
  by rewrite u32_mod, Z.eqb_refl.
Qed.

Lemma evidence_choice_ok b (c : bool) message :
  block_wf b -> message <> EmptyString ->
  exists e, (FirmwareLossEvidence.source e = block_source b /\ evidence_validate e = Ok e) /\
    (if c then flags_disagree (own_evidence b) message else Ok (own_evidence b)) = Ok e.
Proof.
  intros H Hm. destruct c.
  - destruct (flags_disagree_ok b message H Hm) as (e & He & Hsrc & Hv). by exists e.
  - exists (own_evidence b). split; [|done]. split; [done|]. by apply own_evidence_ok.
Qed.

Lemma continuity_verdict (b : DataBlock) (es et active : Z) (previous : option Z)
    (Hb : block_wf b) (Hes : 0 <= es < 2 ^ 32) (Het : 0 <= et < 2 ^ 64) (Ha : 0 < active < 2 ^ 32)
    (Hprev : consistent_previous es previous) :
  exists r, analyze_stream_continuity b es et active previous = Ok r /\ verdict b es et active previous r.
Proof.
  unfold analyze_stream_continuity.
  rewrite (proj2 (unsigned_Ok _ es 32 ltac:(lia))), (proj2 (unsigned_Ok _ et 64 ltac:(lia))),
    (proj2 (unsigned_Ok _ active 32 ltac:(lia))), (previous_ok es previous Hprev), own_evidence_ok by (done || lia).
  cbn [mbind result_bind]. destruct (Z.eqb_spec (block_run_id b) active) as [Hrun|Hrun]; cbn [negb].
  2: { rewrite stale_run_ok by done. eexists. split; [done|]. eapply stale_block; [done|].
       exists None, None, None, None, (own_evidence b). split; [|done]. split; [done|]. by apply own_evidence_ok. }
  cbv zeta. rewrite u32_mod. set (k := (block_sequence b - es) mod 2 ^ 32).
  pose proof (Z.mod_pos_bound (block_sequence b - es) (2 ^ 32) ltac:(lia)) as Hkb. fold k in Hkb.
  change (UINT32_MAX / 2) with (2 ^ 31 - 1). change (FirmwareLossEvidence.gap_before (own_evidence b)) with (marked_gap b).
  destruct (Z.ltb_spec (2 ^ 31 - 1) k) as [Hback|Hfwd].
  - destruct (evidence_choice_ok b (marked_gap b) "firmware marked a gap on a duplicate or reordered frame" Hb)
      as (e & Hs & ->); [done|].
    cbn [mbind result_bind]. rewrite anomaly_at_ok by (done || apply Hs). eexists. split; [done|].
    apply behind; [done|fold k; lia|]. eexists _, _, _, _, e. split; [done|].
    by case_bool_decide; case_decide.
  - destruct (counts_consistent_iff b es et k Hb eq_refl ltac:(lia)) as [Hdec Hinv]. cbv zeta in Hdec, Hinv.
    set (titems := timestamp_items_of _ _) in *. set (sitems := if block_version b =? 3 then None else _) in *.
    pose proof (bw_count b Hb) as Hcnt.
    assert (Hsi : forall n, sitems = Some n -> 0 <= n)
      by (intros n; unfold sitems; destruct (block_version b =? 3); [done|intros [= <-]; nia]).
    assert (Hti : forall n, titems = Some n -> 0 <= n) by (intros n Hn; rewrite Hn in Hdec; tauto).
    destruct (bool_decide (titems = None) || negb (counts_consistent b k titems sitems)) eqn:Hbad.
    + replace (if eqb (marked_gap b) (0 <? k) then Ok (own_evidence b) else _)
        with (if negb (eqb (marked_gap b) (0 <? k)) then flags_disagree (own_evidence b) "GAP_BEFORE does not match the sequence-inferred stream discontinuity" else Ok (own_evidence b))
        by (by destruct (eqb (marked_gap b) (0 <? k))).
      destruct (evidence_choice_ok b (negb (eqb (marked_gap b) (0 <? k)))
        "GAP_BEFORE does not match the sequence-inferred stream discontinuity" Hb) as (e & Hs & ->); [done|].
      cbn [mbind result_bind]. rewrite anomaly_at_ok by (done || apply Hs). eexists. split; [done|].
      apply inconsistent_time; [done|fold k; lia| |by eexists _, _, _, _, e].
      intros k' m Hpl. assert (k' = k) as -> by apply (ms_frames _ _ _ _ _ (proj1 Hpl)).
      pose proof (Hinv m Hpl) as Hm. rewrite Hm in Hdec, Hbad. destruct Hdec as [_ Hiff].
      rewrite bool_decide_eq_false_2 in Hbad by done. cbn in Hbad. apply negb_true_iff in Hbad.
      apply Hiff in Hpl. congruence.
    + apply orb_false_iff in Hbad as [Hsome Hcc]. apply bool_decide_eq_false in Hsome. apply negb_false_iff in Hcc.
      destruct titems as [m|] eqn:Hm; [|done]. destruct Hdec as [Hm0 Hiff].
      apply Hiff in Hcc as Hpl. destruct (Z.eqb_spec k 0) as [Hz|Hz].
      * rewrite Hz in Hpl. assert (m = 0) as -> by (by apply (no_items_without_frames b es et)).
        destruct (at_expectation b es et Hb Hes Het Hpl) as [Hseq Htk].
        destruct (marked_gap b) eqn:Hmk; cbn [negb].
        -- destruct (flags_disagree_ok b "firmware marked a gap where continuity is complete" Hb) as (e & -> & Hs); [done|].
           cbn [mbind result_bind]. rewrite anomaly_at_ok; [|done|done|done|done|by intros n [= <-]|by intros n [= <-]|apply Hs].
           eexists. split; [done|]. apply unfounded_mark; [done..|]. by eexists _, _, _, _, e.
        -- eexists. split; [done|]. by apply continuous.
      * rewrite (from_expected_ok b es et 0 k m) by (done || apply Hpl).
        rewrite (proj2 (Z.eqb_neq k 0)) by done. cbn [andb mbind result_bind option_map].
        eexists. split; [done|]. apply (measured_gap _ _ _ _ _ _ k m); [done|done|lia|done].
Qed.

Lemma verdict_None b es et active previous r :
  verdict b es et active previous r ->
  r = None <-> block_run_id b = active /\ block_sequence b = es /\ block_ticks b = et /\ marked_gap b = false.
Proof.
  intros [Hr (?&?&?&?&?&_&->)|Hr Hk (?&?&?&?&?&_&->)|Hr Hk Hno (?&?&?&?&?&_&->)
         |Hr Hs Ht Hm (?&?&?&?&?&_&->)|Hr Hs Ht Hm ->|k m Hr [[Hk _ _ _ _] _] Hk0 ->]; try done.
  - split; [done|]. by intros [? _].
  - split; [done|]. intros (_ & Hs & _). rewrite Hs, Z.sub_diag in Hk. done.
  - split; [done|]. intros (_ & Hs & Ht & _). destruct (Hno 0 0). split; [|lia].
    split; rewrite ?Hs, ?Ht, ?Z.sub_diag; try done. case_decide; lia.
  - split; [done|]. intros (_ & _ & _ & ?). congruence.
  - split; [done|]. intros (_ & Hs & _). rewrite Hs, Z.sub_diag, Zmod_0_l in Hk. lia.
Qed.

(** C13. [analyze_stream_continuity] is total on constructed blocks and classifies each
    one correctly: another run is stale; a sequence at or behind the previous one is a
    duplicate or reordered; a forward block whose sequence and timestamp agree on [k]
    missing frames and [m] missing items is reported as exactly that gap (nothing when
    both are zero, an evidence mismatch when the firmware marked one anyway); a forward
    block for which no such pair exists is a timestamp inconsistency.  Nothing is reported exactly for an unmarked block of
    the active run that continues at the expected sequence and tick. *)
Theorem continuity_classified (b : DataBlock) (es et active : Z) (previous : option Z)
    (Hb : block_wf b) (Hes : 0 <= es < 2 ^ 32) (Het : 0 <= et < 2 ^ 64) (Ha : 0 < active < 2 ^ 32)
    (Hprev : consistent_previous es previous) :
  exists r, analyze_stream_continuity b es et active previous = Ok r /\ verdict b es et active previous r /\
    (r = None <-> block_run_id b = active /\ block_sequence b = es /\ block_ticks b = et /\ marked_gap b = false).
Proof.
  destruct (continuity_verdict b es et active previous Hb Hes Het Ha Hprev) as (r & Hr & Hv).
  exists r. split; [done|]. split; [done|]. by eapply verdict_None.
Qed.

(** ** Gaps between consecutive blocks, and eviction reports *)

(** Between two blocks of one stream and run, [k] lost frames holding [m] items are
    measured exactly, across the wrap of the 32-bit sequence and of the 64-bit clock;
    adjacent unmarked blocks show no gap. *)
Theorem gap_between_exact (previous current : DataBlock) (k m : Z)
    (Hp : block_wf previous) (Hc : block_wf current)
    (Hkind : block_kind previous = block_kind current) (Hrun : block_run_id previous = block_run_id current)
    (Hper : block_period previous = block_period current)
    (Hver : block_version previous = block_version current) (Hk : 0 <= k < 2 ^ 31)
    (Hseq : block_sequence current = (block_sequence previous + 1 + k) mod 2 ^ 32)
    (Hticks : block_ticks current = (block_end_tick previous + m * block_period current) mod 2 ^ 64)
    (Hm : 0 <= m /\ m * block_period current < 2 ^ 63)
    (Hagree : if decide (block_version current = 3) then (k = 0 <-> m = 0) /\ k <= m
              else m = k * block_count current /\ block_count previous = block_count current) :
  between previous current
  = Ok (if (k =? 0) && (m =? 0) && negb (marked_gap current) then None
        else Some (gap_at current ((block_sequence previous + 1) mod 2 ^ 32) (block_end_tick previous) 0 k m)).
Proof.
  assert (Hend : 0 <= block_end_tick previous < 2 ^ 64)
    by (destruct previous; cbn; unfold adc_end_tick_exclusive, gpio_end_tick_exclusive; rewrite u64_mod; by apply Z.mod_pos_bound).
  unfold between. rewrite bool_decide_eq_true_2, Hrun, Hper, Hver, !Z.eqb_refl by done.
  cbn [negb orb require mbind result_bind].
  replace (negb (block_version current =? 3) && negb (block_count previous =? block_count current)) with false.
  2: { case_decide as Hv; [by rewrite Hv|]. destruct Hagree as [_ ->]. by rewrite Z.eqb_refl, andb_false_r. }
  cbn [negb orb require mbind result_bind]. rewrite u32_mod.
  assert (Hpos : 0 <= (block_sequence previous + 1) mod 2 ^ 32 < 2 ^ 32) by (apply Z.mod_pos_bound; lia).
  apply from_expected_ok; [done|done|done|done|]. split.
  - rewrite Hseq, <-Zminus_mod. replace (block_sequence previous + 1 + k - (block_sequence previous + 1)) with k by lia.
    symmetry. apply Z.mod_small. lia.
  - lia.
  - rewrite Hticks, Zminus_mod_idemp_l.
    replace (block_end_tick previous + m * block_period current - block_end_tick previous)
      with (m * block_period current) by lia. symmetry. apply Z.mod_small. pose proof (bw_period current Hc). nia.
  - lia.
  - case_decide; tauto.
Qed.

(** The report of one evicted block. *)
Definition eviction (b : DataBlock) : HostQueueLoss :=
  HostQueueLoss.mk (block_kind b) (block_source b) (block_run_id b) (block_sequence b) (block_sequence b)
    (block_ticks b) (block_end_tick b) 1 (block_count b) DROP_OLDEST_COMPLETE
    (Z.b2z (marked_gap b)) (Z.b2z (marked_overrun b)) true (block_period b) (block_count b)
    (block_version b =? 3).

Lemma block_end_mod b : block_end_tick b = (block_ticks b + block_count b * block_period b) mod 2 ^ 64.
Proof. destruct b; apply u64_mod. Qed.

Lemma eviction_wf b : block_wf b -> loss_wf (eviction b).
Proof.
  intros [Hr Hs Ht Hp Hc _ Ho _ _]. pose proof (block_end_mod b) as He.
  pose proof (Z.mod_pos_bound (block_ticks b + block_count b * block_period b) (2 ^ 64)) as Hb.
  assert (Hg : Z.b2z (marked_overrun b) <= Z.b2z (marked_gap b)).
  { unfold marked_overrun, marked_gap. destruct (has _ FrameFlag.OVERRUN_BEFORE); [by rewrite Ho|].
    destruct (has _ _); cbn; lia. }
  split; cbn; try done; try lia.
  - by apply block_data_kind.
  - destruct (marked_overrun b); cbn in *; lia.
  - destruct (marked_gap b); cbn; lia.
  - intros _. rewrite Z.add_simpl_r. symmetry. by apply Z.mod_small.
Qed.

Lemma from_block_ok b : block_wf b -> from_block b = Ok (eviction b).
Proof. intros H. apply loss_validate_iff. split; [done|by apply eviction_wf]. Qed.

(** ** Witnesses *)

(** A two-pair protocol-v3 ADC block of run 1. *)
Definition example_block (sequence ticks flags : Z) : mdl ADCBlock :=
  metadata ← for_rate_profile V2RateProfile.ADC_1MHZ_GPIO_1MHZ Source.HARDWARE;
  encoded ← lift_v3 (encode_adc_payload [(1, 2); (3, 4095)] AdcPolicy.PACK12);
  new_adc_block
    (ADCBlock.mk 1 sequence ticks (concat (map raw_pair [(1, 2); (3, 4095)])) flags Checksum.ADLER32
       metadata AuxBankMode.DISABLED V2RateProfile.ADC_1MHZ_GPIO_1MHZ 3 None (Some encoded)).

Lemma example_block_wf sequence ticks flags b :
  example_block sequence ticks flags = Ok b -> block_wf (AdcData b).
Proof.
  unfold example_block. intros H. apply bind_Ok_inv in H as (m & _ & H). apply bind_Ok_inv in H as (e & _ & H).
  by apply new_adc_block_wf in H.
Qed.

(** The frame after the sequence wrap, marked, three frames of two pairs late. *)
Lemma continuity_classified_witness :
  exists b r, example_block 1 96 FrameFlag.GAP_BEFORE = Ok b /\
    analyze_stream_continuity (AdcData b) 4294967294 48 1 (Some 4294967293) = Ok r /\
    verdict (AdcData b) 4294967294 48 1 (Some 4294967293) r /\ r <> None.
Proof.
  assert (He : exists b, example_block 1 96 FrameFlag.GAP_BEFORE = Ok b) by (eexists; vm_compute; reflexivity).
  destruct He as (b & Hb). exists b.
  destruct (continuity_classified (AdcData b) 4294967294 48 1 (Some 4294967293)) as (r & Hr & Hv & Hn);
    [exact (example_block_wf _ _ _ _ Hb)|lia|lia|lia|split; [lia|reflexivity]|].
  exists r. split; [exact Hb|]. split; [exact Hr|]. split; [exact Hv|]. intros Hx. apply Hn in Hx as (_ & Hs & _).
  assert (Hq : block_sequence (AdcData b) = 1) by (revert Hb; vm_compute; intros [= <-]; reflexivity).
  rewrite Hq in Hs. discriminate.
Defined.

Lemma gap_between_exact_witness :
  exists p b, example_block 4294967295 0 0 = Ok p /\ example_block 2 48 0 = Ok b /\
    between (AdcData p) (AdcData b) = Ok (Some (gap_at (AdcData b) 0 16 0 2 4)).
Proof.
  assert (Hp : exists p, example_block 4294967295 0 0 = Ok p) by (eexists; vm_compute; reflexivity).
  assert (Hb : exists b, example_block 2 48 0 = Ok b) by (eexists; vm_compute; reflexivity).
  destruct Hp as (p & Hp), Hb as (b & Hb). exists p, b. split; [exact Hp|]. split; [exact Hb|].
  pose proof (example_block_wf _ _ _ _ Hp) as Wp. pose proof (example_block_wf _ _ _ _ Hb) as Wb.
  vm_compute in Hp. apply Ok_inj in Hp. subst p. vm_compute in Hb. apply Ok_inj in Hb. subst b.
  etransitivity; [apply (gap_between_exact _ _ 2 4 Wp Wb)|]; try reflexivity; try (cbn; lia).
  rewrite decide_True by reflexivity. lia.
Defined.
