(* ===== verification/StreamQueues.v ===== *)
(** * Decoded stream queues of the background reader ([reader.py]).

    The state [BackgroundReader._dispatch_block], [_enqueue_stream_report_locked],
    [get_stream_item], [get_block], [_activate_run_locked] and [_deactivate_stream_locked]
    share: the bounded queue of decoded blocks, which drops its oldest block when full,
    the bounded queue of loss reports, which coalesces, and their counters; and what
    closing the reader and data without settings do to them.  Every operation is one critical section of the reader's lock.  A raised exception leaves
    the changes made before it, so an operation returns its state next to its result. *)

From S2P Require Import Prelude PyStruct Checksum V3Constants V3Header V3Samples ModelsV3 V3Frames Synthetic Profiles Losses Blocks Continuity.

(** ** State *)

Inductive stream_report := LossReport (l : HostQueueLoss) | AnomalyReport (a : StreamAnomaly).

(** What [get_stream_item] returns. *)
Inductive stream_item := ItemReport (r : stream_report) | ItemBlock (b : DataBlock).

(** The [_adc_*] or [_gpio_*] counters. *)
Module StreamTally.
Record StreamTally := mk {
  frames_received : Z;
  items_received : Z;
  decoded_bytes_received : Z;
  wire_bytes_received : Z;
  block_queue_drops : Z;
  item_queue_drops : Z;
  stale_blocks_discarded : Z;
  boundary_blocks_discarded : Z
}.
End StreamTally.
Abbreviation StreamTally := StreamTally.StreamTally.

Module QueueCounters.
Record QueueCounters := mk {
  adc : StreamTally;
  gpio : StreamTally;
  stale_blocks_discarded : Z;
  boundary_blocks_discarded : Z;
  host_block_queue_drops : Z;
  block_queue_high_water : Z;
  loss_report_queue_drops : Z
}.
End QueueCounters.
Abbreviation QueueCounters := QueueCounters.QueueCounters.

Module StreamQueues.
Record StreamQueues := mk {
  _max_queued_blocks : Z;
  _max_stream_reports : Z;
  _blocks : list DataBlock;
  _stream_reports : list stream_report;
  _active_run_id : Z;
  _active_checksum_algorithm : Checksum.ChecksumAlgorithm;
  _stream_active : bool;
  counters : QueueCounters
}.
End StreamQueues.
Abbreviation StreamQueues := StreamQueues.StreamQueues.

(** Exceptions of the reader, and those of the records it builds. *)
Inductive queue_error :=
| ProtocolError (message : string)
| StreamStopped
| ModelRaised (e : model_error).

(** [protocol_constants.DEFAULT_CHECKSUM_ALGORITHM] and [SUPPORTED_CHECKSUM_ALGORITHMS] *)
Definition DEFAULT_CHECKSUM_ALGORITHM : Checksum.ChecksumAlgorithm := Checksum.ADLER32.
Definition SUPPORTED_CHECKSUM_ALGORITHMS : list Checksum.ChecksumAlgorithm :=
  [Checksum.ADLER32; Checksum.CRC32C; Checksum.CRC32_ISO_HDLC].

Definition no_tally : StreamTally := StreamTally.mk 0 0 0 0 0 0 0 0.
Definition no_counters : QueueCounters := QueueCounters.mk no_tally no_tally 0 0 0 0 0.

(** The part of [__init__]: [max(2, max_queued_events)] reports. *)
Definition new_queues (max_queued_blocks max_queued_events : Z) : StreamQueues :=
  StreamQueues.mk max_queued_blocks (Z.max 2 max_queued_events) [] [] 0
    DEFAULT_CHECKSUM_ALGORITHM false no_counters.

Definition set_blocks (blocks : list DataBlock) (q : StreamQueues) : StreamQueues :=
  StreamQueues.mk (StreamQueues._max_queued_blocks q) (StreamQueues._max_stream_reports q) blocks
    (StreamQueues._stream_reports q) (StreamQueues._active_run_id q)
    (StreamQueues._active_checksum_algorithm q) (StreamQueues._stream_active q) (StreamQueues.counters q).
Definition set_reports (reports : list stream_report) (q : StreamQueues) : StreamQueues :=
  StreamQueues.mk (StreamQueues._max_queued_blocks q) (StreamQueues._max_stream_reports q)
    (StreamQueues._blocks q) reports (StreamQueues._active_run_id q)
    (StreamQueues._active_checksum_algorithm q) (StreamQueues._stream_active q) (StreamQueues.counters q).
Definition set_counters (c : QueueCounters) (q : StreamQueues) : StreamQueues :=
  StreamQueues.mk (StreamQueues._max_queued_blocks q) (StreamQueues._max_stream_reports q)
    (StreamQueues._blocks q) (StreamQueues._stream_reports q) (StreamQueues._active_run_id q)
    (StreamQueues._active_checksum_algorithm q) (StreamQueues._stream_active q) c.

(** ** Counters *)

(** Update the tally of the block's stream. *)
Definition tally (b : DataBlock) (f : StreamTally -> StreamTally) (c : QueueCounters) : QueueCounters :=
  let '(QueueCounters.mk adc gpio stale boundary drops high reports) := c in
  match b with
  | AdcData _ => QueueCounters.mk (f adc) gpio stale boundary drops high reports
  | GpioData _ => QueueCounters.mk adc (f gpio) stale boundary drops high reports
  end.

Definition block_wire_bytes (b : DataBlock) : Z :=
  match b with
  | AdcData b => wire_bytes_of (ADCBlock.payload b) (ADCBlock.encoded_payload b)
  | GpioData b => wire_bytes_of (GPIOBlock.payload b) (GPIOBlock.encoded_payload b)
  end.

Definition count_received (b : DataBlock) : QueueCounters -> QueueCounters :=
  tally b (fun '(StreamTally.mk frames items decoded wire drops item_drops stale boundary) =>
    StreamTally.mk (frames + 1) (items + block_count b) (decoded + zlen (block_payload b))
      (wire + block_wire_bytes b) drops item_drops stale boundary).

Definition count_stale (b : DataBlock) (c : QueueCounters) : QueueCounters :=
  let '(QueueCounters.mk adc gpio stale boundary drops high reports) := c in
  tally b (fun '(StreamTally.mk frames items decoded wire drops item_drops stale boundary) =>
      StreamTally.mk frames items decoded wire drops item_drops (stale + 1) boundary)
    (QueueCounters.mk adc gpio (stale + 1) boundary drops high reports).

Definition count_dropped (b : DataBlock) (c : QueueCounters) : QueueCounters :=
  let '(QueueCounters.mk adc gpio stale boundary drops high reports) := c in
  tally b (fun '(StreamTally.mk frames items decoded wire drops item_drops stale boundary) =>
      StreamTally.mk frames items decoded wire (drops + 1) (item_drops + block_count b) stale boundary)
    (QueueCounters.mk adc gpio stale boundary (drops + 1) high reports).

Definition count_boundary (c : QueueCounters) (b : DataBlock) : QueueCounters :=
  tally b (fun '(StreamTally.mk frames items decoded wire drops item_drops stale boundary) =>
    StreamTally.mk frames items decoded wire drops item_drops stale (boundary + 1)) c.

Definition count_high_water (depth : Z) (c : QueueCounters) : QueueCounters :=
  let '(QueueCounters.mk adc gpio stale boundary drops high reports) := c in
  QueueCounters.mk adc gpio stale boundary drops (Z.max high depth) reports.

(** A data frame that arrives while no settings are known: it is not decoded, so no stream
    counts it. *)
Definition count_unknown (c : QueueCounters) : QueueCounters :=
  let '(QueueCounters.mk adc gpio stale boundary drops high reports) := c in
  QueueCounters.mk adc gpio (stale + 1) boundary drops high reports.

Definition count_report_drop (c : QueueCounters) : QueueCounters :=
  let '(QueueCounters.mk adc gpio stale boundary drops high reports) := c in
  QueueCounters.mk adc gpio stale boundary drops high (reports + 1).

(** ** Loss reports *)

(** [except ValueError] *)
Definition is_value_error (e : model_error) : bool :=
  match e with
  | ValueError _ | NotUnsigned _ _ | Negative _ => true
  | V3Error e => is_validation_error e
  | UncaughtError _ => false
  end.

(** The loop of [_enqueue_stream_report_locked], over the reports from the last to the
    first: the queue with the report coalesced, or [None]. *)
Fixpoint coalesce (latest_first : list stream_report) (report : stream_report) :
    mdl (option (list stream_report)) :=
  match latest_first with
  | [] => Ok None
  | existing :: rest =>
      let continue := option_map (cons existing) <$> coalesce rest report in
      match existing, report with
      | LossReport e, LossReport r =>
          if bool_decide (HostQueueLoss.kind e = HostQueueLoss.kind r)
             && bool_decide (HostQueueLoss.source e = HostQueueLoss.source r)
             && (HostQueueLoss.run_id e =? HostQueueLoss.run_id r)
          then l ← aggregated_with e r; Ok (Some (LossReport l :: rest))
          else continue
      | AnomalyReport e, AnomalyReport r =>
          match anomaly_merged_with e r with
          | Ok a => Ok (Some (AnomalyReport a :: rest))
          | Err e => if is_value_error e then continue else Err e
          end
      | _, _ => continue
      end
  end.

Definition is_anomaly (r : stream_report) : bool :=
  match r with AnomalyReport _ => true | LossReport _ => false end.

(** [del self._stream_reports[anomaly_index]] for the first anomaly, if there is one. *)
Fixpoint without_first_anomaly (reports : list stream_report) : option (list stream_report) :=
  match reports with
  | [] => None
  | r :: rest => if is_anomaly r then Some rest else cons r <$> without_first_anomaly rest
  end.

Definition _enqueue_stream_report_locked (q : StreamQueues) (report : stream_report) :
    StreamQueues * result queue_error unit :=
  match coalesce (reverse (StreamQueues._stream_reports q)) report with
  | Err e => (q, Err (ModelRaised e))
  | Ok (Some reports) => (set_reports (reverse reports) q, Ok tt)
  | Ok None =>
      let reports := StreamQueues._stream_reports q in
      if StreamQueues._max_stream_reports q <=? zlen reports then
        match without_first_anomaly reports with
        | None => (set_counters (count_report_drop (StreamQueues.counters q)) q, Ok tt)
        | Some reports =>
            (set_reports (reports ++ [report]) (set_counters (count_report_drop (StreamQueues.counters q)) q), Ok tt)
        end
      else (set_reports (reports ++ [report]) q, Ok tt)
  end.

(** ** Blocks *)

Definition block_checksum (b : DataBlock) : Checksum.ChecksumAlgorithm :=
  match b with
  | AdcData b => ADCBlock.checksum_algorithm b
  | GpioData b => GPIOBlock.checksum_algorithm b
  end.

(** The eviction at the head of a full queue. *)
Definition drop_oldest (q : StreamQueues) : StreamQueues * result queue_error unit :=
  match StreamQueues._blocks q with
  | [] => (q, Err (ModelRaised (UncaughtError "IndexError")))
  | dropped :: blocks =>
      let q := set_blocks blocks q in
      match from_block dropped with
      | Err e => (q, Err (ModelRaised e))
      | Ok loss =>
          match _enqueue_stream_report_locked q (LossReport loss) with
          | (q, Err e) => (q, Err e)
          | (q, Ok _) => (set_counters (count_dropped dropped (StreamQueues.counters q)) q, Ok tt)
          end
      end
  end.

(** [self._blocks.append(block)] and the high-water mark. *)
Definition append_block (b : DataBlock) (q : StreamQueues) : StreamQueues :=
  let blocks := StreamQueues._blocks q ++ [b] in
  set_counters (count_high_water (zlen blocks) (StreamQueues.counters q)) (set_blocks blocks q).

Definition _dispatch_block (q : StreamQueues) (b : DataBlock) : StreamQueues * result queue_error unit :=
  let q := set_counters (count_received b (StreamQueues.counters q)) q in
  if negb (StreamQueues._stream_active q) || negb (block_run_id b =? StreamQueues._active_run_id q) then
    let q := set_counters (count_stale b (StreamQueues.counters q)) q in
    if StreamQueues._stream_active q then
      match stale_run b (StreamQueues._active_run_id q) with
      | Err e => (q, Err (ModelRaised e))
      | Ok a => _enqueue_stream_report_locked q (AnomalyReport a)
      end
    else (q, Ok tt)
  else if negb (bool_decide (block_checksum b = StreamQueues._active_checksum_algorithm q)) then
    (q, Err (ProtocolError "run data used another checksum than configured"))
  else if StreamQueues._max_queued_blocks q <=? zlen (StreamQueues._blocks q) then
    match drop_oldest q with
    | (q, Err e) => (q, Err e)
    | (q, Ok _) => (append_block b q, Ok tt)
    end
  else (append_block b q, Ok tt).

(** [get_stream_item] once its wait is over: a report before a block; [None]: still
    nothing, and the caller waits again while the stream is active. *)
Definition take_stream_item (q : StreamQueues) : StreamQueues * option stream_item :=
  match StreamQueues._stream_reports q, StreamQueues._blocks q with
  | r :: reports, _ => (set_reports reports q, Some (ItemReport r))
  | [], b :: blocks => (set_blocks blocks q, Some (ItemBlock b))
  | [], [] => (q, None)
  end.

(** [get_block]: the reports stay queued. *)
Definition take_block (q : StreamQueues) : StreamQueues * option DataBlock :=
  match StreamQueues._blocks q with
  | b :: blocks => (set_blocks blocks q, Some b)
  | [] => (q, None)
  end.

(** ** Runs *)

Definition _record_boundary_blocks_locked (q : StreamQueues) : StreamQueues :=
  let '(QueueCounters.mk adc gpio stale boundary drops high reports) := StreamQueues.counters q in
  set_counters
    (fold_left count_boundary (StreamQueues._blocks q)
       (QueueCounters.mk adc gpio stale (boundary + zlen (StreamQueues._blocks q)) drops high reports)) q.

Definition _activate_run_locked (q : StreamQueues) (run_id : Z) (checksum : Checksum.ChecksumAlgorithm) :
    StreamQueues * result queue_error unit :=
  if run_id =? 0 then (q, Err (ProtocolError "successful START established run ID zero"))
  else if negb (bool_decide (checksum ∈ SUPPORTED_CHECKSUM_ALGORITHMS)) then
    (q, Err (ProtocolError "successful START selected an unsupported checksum algorithm"))
  else
    let q := _record_boundary_blocks_locked q in
    (StreamQueues.mk (StreamQueues._max_queued_blocks q) (StreamQueues._max_stream_reports q) [] []
       run_id checksum true (StreamQueues.counters q), Ok tt).

Definition _deactivate_stream_locked (q : StreamQueues) : StreamQueues :=
  let q := _record_boundary_blocks_locked q in
  StreamQueues.mk (StreamQueues._max_queued_blocks q) (StreamQueues._max_stream_reports q) [] []
    (StreamQueues._active_run_id q) DEFAULT_CHECKSUM_ALGORITHM false (StreamQueues.counters q).

(** The queues after [close]: cleared, and nothing is counted. *)
Definition clear_queues (q : StreamQueues) : StreamQueues :=
  StreamQueues.mk (StreamQueues._max_queued_blocks q) (StreamQueues._max_stream_reports q) [] []
    (StreamQueues._active_run_id q) (StreamQueues._active_checksum_algorithm q) false (StreamQueues.counters q).

(** The queues after [_terminate]: the stream stops, decoded items stay. *)
Definition stop_stream (q : StreamQueues) : StreamQueues :=
  StreamQueues.mk (StreamQueues._max_queued_blocks q) (StreamQueues._max_stream_reports q)
    (StreamQueues._blocks q) (StreamQueues._stream_reports q) (StreamQueues._active_run_id q)
    (StreamQueues._active_checksum_algorithm q) false (StreamQueues.counters q).

(** ** The blocks a loss report stands for *)

(** [b] continues the stream right after [a]. *)
Definition adjacent (a b : DataBlock) : Prop :=
  block_sequence b = (block_sequence a + 1) mod 2 ^ 32 /\ block_ticks b = block_end_tick a.

Fixpoint chained (bs : list DataBlock) : Prop :=
  match bs with
  | a :: (b :: _) as rest => adjacent a b /\ chained rest
  | _ => True
  end.

Definition total_items (bs : list DataBlock) : Z := fold_right Z.add 0 (map block_count bs).
Definition count_marked (mark : DataBlock -> bool) (bs : list DataBlock) : Z :=
  fold_right Z.add 0 (map (fun b => Z.b2z (mark b)) bs).

(** The report [l] describes exactly the evicted blocks [bs], oldest first. *)
Record loss_covers (l : HostQueueLoss) (bs : list DataBlock) : Prop := {
  lc_wf : loss_wf l;
  lc_stream : Forall (fun b => block_kind b = HostQueueLoss.kind l /\ block_source b = HostQueueLoss.source l
                               /\ block_run_id b = HostQueueLoss.run_id l) bs;
  lc_first : exists b, head bs = Some b /\ HostQueueLoss.first_sequence l = block_sequence b
                       /\ HostQueueLoss.first_sample_ticks l = block_ticks b;
  lc_last : exists b, last bs = Some b /\ HostQueueLoss.last_sequence l = block_sequence b
                      /\ HostQueueLoss.end_sample_ticks l = block_end_tick b;
  lc_blocks : HostQueueLoss.dropped_blocks l = zlen bs;
  lc_items : HostQueueLoss.dropped_items l = total_items bs;
  lc_gaps : HostQueueLoss.firmware_gap_blocks l = count_marked marked_gap bs;
  lc_overruns : HostQueueLoss.firmware_overrun_blocks l = count_marked marked_overrun bs;
  lc_contiguous : HostQueueLoss.contiguous l = true <-> chained bs;
  lc_v3 : HostQueueLoss.period_ticks l = 8 /\ HostQueueLoss.variable_frame_items l = true
}.

Lemma chained_snoc bs a b : last bs = Some a -> chained (bs ++ [b]) <-> chained bs /\ adjacent a b.
Proof.
  induction bs as [|x bs IH]; [done|]. destruct bs as [|y bs].
  - intros [= ->]. cbn. tauto.
  - intros H. change (last (y :: bs) = Some a) in H. specialize (IH H).
    cbn [app chained] in *. rewrite IH. tauto.
Qed.

Lemma total_items_snoc bs b : total_items (bs ++ [b]) = total_items bs + block_count b.
Proof. unfold total_items. induction bs as [|x bs IH]; cbn in *; lia. Qed.

Lemma count_marked_snoc mark bs b : count_marked mark (bs ++ [b]) = count_marked mark bs + Z.b2z (mark b).
Proof. unfold count_marked. induction bs as [|x bs IH]; cbn in *; lia. Qed.

(** A decoded protocol-v3 block. *)
Definition v3_wf (b : DataBlock) : Prop := block_wf b /\ block_version b = PROTOCOL_VERSION.

Lemma v3_period b : v3_wf b -> block_period b = 8.
Proof. intros [H Hv]. by destruct (bw_v3 b H Hv). Qed.

Lemma covers_one b : v3_wf b -> loss_covers (eviction b) [b].
Proof.
  intros H. pose proof (v3_period b H) as Hp. destruct H as [H Hv].
  split; cbn; try done; [by apply eviction_wf|by repeat constructor|by exists b|by exists b|..]; try lia.
  by rewrite Hv, Hp.
Qed.

Lemma covers_more l bs b :
  loss_covers l bs -> v3_wf b -> block_kind b = HostQueueLoss.kind l ->
  block_source b = HostQueueLoss.source l -> block_run_id b = HostQueueLoss.run_id l ->
  exists l', aggregated_with l (eviction b) = Ok l' /\ loss_covers l' (bs ++ [b]).
Proof.
  intros [Hwf Hs (bf & Hbf & Hff & Hft) (bl & Hbl & Hls & Hle) Hb Hi Hg Ho Hc [Hp Hv]] Hb3 Hk Hsrc Hrun.
  pose proof (eviction_wf b (proj1 Hb3)) as Hew. pose proof (v3_period b Hb3) as Hper.
  assert (Hss : same_stream l (eviction b) = true).
  { apply same_stream_iff. split; cbn; try done; [by rewrite Hper|by rewrite Hv, (proj2 Hb3)|by rewrite Hv]. }
  pose proof (aggregated_Ok l (eviction b) Hwf Hew Hss) as (Hagg & Hwf').
  eexists. split; [exact Hagg|]. set (contiguous := can_merge l (eviction b) && _ && _) in *.
  split; cbn; try done.
  - apply Forall_app. split; [done|]. by repeat constructor.
  - exists bf. split; [|done]. by destruct bs.
  - exists b. by rewrite last_snoc.
  - rewrite Hb. unfold zlen. rewrite length_app. cbn. lia.
  - by rewrite total_items_snoc, Hi.
  - by rewrite count_marked_snoc, Hg.
  - by rewrite count_marked_snoc, Ho.
  - rewrite (chained_snoc _ _ _ Hbl), <-Hc. unfold contiguous, can_merge. rewrite Hss. cbn [eviction HostQueueLoss.contiguous
      HostQueueLoss.first_sequence HostQueueLoss.first_sample_ticks].
    rewrite !andb_true_iff, !Z.eqb_eq, u32_mod, Hls, Hle. unfold adjacent. tauto.
Qed.

Lemma aggregated_stream a b l :
  aggregated_with a b = Ok l ->
  HostQueueLoss.kind l = HostQueueLoss.kind a /\ HostQueueLoss.source l = HostQueueLoss.source a
  /\ HostQueueLoss.run_id l = HostQueueLoss.run_id a.
Proof.
  unfold aggregated_with, merged_with. intros H. apply require_bind in H as [_ H].
  destruct (_ && _ && _); [apply require_bind in H as [_ H]|]; by apply loss_validate_iff in H as [-> _].
Qed.

(** What a queued or delivered report stands for: evicted blocks, or none. *)
Definition report_covers (r : stream_report) (bs : list DataBlock) : Prop :=
  match r with LossReport l => loss_covers l bs | AnomalyReport _ => bs = [] end.

Definition item_covers (i : stream_item) (bs : list DataBlock) : Prop :=
  match i with ItemReport r => report_covers r bs | ItemBlock b => bs = [b] end.

Definition loss_kinds (reports : list stream_report) : list V1FrameKind.FrameKind :=
  omap (fun r => match r with LossReport l => Some (HostQueueLoss.kind l) | AnomalyReport _ => None end) reports.

(** The blocks of one stream, in order. *)
Definition of_kind (k : V1FrameKind.FrameKind) (bs : list DataBlock) : list DataBlock :=
  filter (fun b => block_kind b = k) bs.

Lemma of_kind_app k a b : of_kind k (a ++ b) = of_kind k a ++ of_kind k b.
Proof. apply filter_app. Qed.

Lemma of_kind_all k bs : Forall (fun b => block_kind b = k) bs -> of_kind k bs = bs.
Proof.
  induction 1 as [|b bs Hb _ IH]; [done|]. unfold of_kind in *. by rewrite filter_cons_True, IH.
Qed.

Lemma of_kind_none k bs : Forall (fun b => block_kind b <> k) bs -> of_kind k bs = [].
Proof.
  induction 1 as [|b bs Hb _ IH]; [done|]. unfold of_kind in *. by rewrite filter_cons_False, IH.
Qed.

Lemma covers_kind l bs : loss_covers l bs -> Forall (fun b => block_kind b = HostQueueLoss.kind l) bs.
Proof. intros H. eapply Forall_impl; [apply (lc_stream _ _ H)|]. by intros b (? & _). Qed.

Lemma covered_elsewhere k reports covs :
  Forall2 report_covers reports covs -> k ∉ loss_kinds reports -> of_kind k (concat covs) = [].
Proof.
  induction 1 as [|r bs reports covs Hr _ IH]; [done|]. intros Hk. cbn [concat]. rewrite of_kind_app.
  destruct r as [l|a]; cbn in Hk.
  - apply not_elem_of_cons in Hk as [Hk Hks]. rewrite (IH Hks), app_nil_r. apply of_kind_none.
    eapply Forall_impl; [apply (covers_kind _ _ Hr)|]. intros b -> <-. by apply Hk.
  - cbn in Hr. subst bs. by apply IH.
Qed.

Lemma loss_kinds_app a b : loss_kinds (a ++ b) = loss_kinds a ++ loss_kinds b.
Proof. apply omap_app. Qed.

(** ** Coalescing *)

Lemma coalesce_loss rl e :
  (forall l, LossReport l ∈ rl ->
     HostQueueLoss.source l = HostQueueLoss.source e /\ HostQueueLoss.run_id l = HostQueueLoss.run_id e) ->
  ((HostQueueLoss.kind e ∉ loss_kinds rl) /\ coalesce rl (LossReport e) = Ok None) \/
  exists pre l post, rl = pre ++ LossReport l :: post /\ HostQueueLoss.kind l = HostQueueLoss.kind e /\
    coalesce rl (LossReport e) = (l' ← aggregated_with l e; Ok (Some (pre ++ LossReport l' :: post))).
Proof.
  induction rl as [|r rl IH]; intros Hall; [left; split; [apply not_elem_of_nil|done]|].
  assert (Hrest : forall l, LossReport l ∈ rl -> HostQueueLoss.source l = HostQueueLoss.source e /\
                    HostQueueLoss.run_id l = HostQueueLoss.run_id e).
  { intros l Hl. apply Hall. by right. }
  specialize (IH Hrest). cbn [coalesce].
  assert (Hskip : forall x, match x with LossReport l => HostQueueLoss.kind l <> HostQueueLoss.kind e | _ => True end ->
    ((HostQueueLoss.kind e ∉ loss_kinds (x :: rl)) /\
       (option_map (cons x) <$> coalesce rl (LossReport e)) = Ok None) \/
    exists pre l post, x :: rl = pre ++ LossReport l :: post /\ HostQueueLoss.kind l = HostQueueLoss.kind e /\
      (option_map (cons x) <$> coalesce rl (LossReport e))
      = (l' ← aggregated_with l e; Ok (Some (pre ++ LossReport l' :: post)))).
  { intros x Hx. destruct IH as [[Hk ->]|(pre & l & post & -> & Hk & ->)].
    - left. split; [|done]. destruct x as [l|a]; [|done]. cbn. apply not_elem_of_cons. split; [congruence|done].
    - right. exists (x :: pre), l, post. split; [done|]. split; [done|]. by destruct (aggregated_with l e). }
  destruct r as [l|a]; [|by apply (Hskip (AnomalyReport a))].
  destruct (Hall l) as [Hs Hr]; [by left|]. rewrite (bool_decide_eq_true_2 (HostQueueLoss.source l = _)) by done.
  rewrite (proj2 (Z.eqb_eq _ _) Hr). case_bool_decide as Hk; cbn [andb]; [|by apply (Hskip (LossReport l))].
  right. by exists [], l, rl.
Qed.

Lemma merged_anomaly_error a b e : anomaly_merged_with a b = Err e -> is_value_error e = true.
Proof.
  unfold anomaly_merged_with, anomaly_validate, check_option, _unsigned, _nonnegative. intros H.
  repeat match type of H with
    | (?m ≫= _) = Err _ =>
        let Hm := fresh in destruct m eqn:Hm; [cbn [mbind result_bind] in H; clear Hm|injection H as ->; rename Hm into H]
    | require ?b _ = Err _ => destruct b; [discriminate|injection H as <-; done]
    | (match ?x with _ => _ end) = Err _ => destruct x
    | (let '_ := ?v in _) = Err _ => destruct v
    | Ok _ = Err _ => discriminate
    end.
Qed.

Lemma coalesce_anomaly rl a :
  coalesce rl (AnomalyReport a) = Ok None \/
  exists pre x y post, rl = pre ++ AnomalyReport x :: post /\
    coalesce rl (AnomalyReport a) = Ok (Some (pre ++ AnomalyReport y :: post)).
Proof.
  induction rl as [|r rl IH]; [by left|]. cbn [coalesce].
  assert (Hskip : forall x, (option_map (cons x) <$> coalesce rl (AnomalyReport a)) = Ok None \/
    exists pre u v post, x :: rl = pre ++ AnomalyReport u :: post /\
      (option_map (cons x) <$> coalesce rl (AnomalyReport a)) = Ok (Some (pre ++ AnomalyReport v :: post))).
  { intros x. destruct IH as [->|(pre & u & v & post & -> & ->)]; [by left|]. right. by exists (x :: pre), u, v, post. }
  destruct r as [l|x]; [apply Hskip|]. destruct (anomaly_merged_with x a) as [y|e] eqn:Hm.
  - right. by exists [], x, y, rl.
  - rewrite (merged_anomaly_error _ _ _ Hm). apply Hskip.
Qed.

Lemma without_first_anomaly_cases reports :
  match without_first_anomaly reports with
  | Some rest => exists pre a post, reports = pre ++ AnomalyReport a :: post /\ rest = pre ++ post
  | None => length (loss_kinds reports) = length reports
  end.
Proof.
  induction reports as [|r reports IH]; [done|]. cbn [without_first_anomaly]. destruct r as [l|a]; cbn [is_anomaly].
  - destruct (without_first_anomaly reports) as [rest|]; cbn [fmap option_fmap option_map].
    + destruct IH as (pre & a & post & -> & ->). by exists (LossReport l :: pre), a, post.
    + change (S (length (loss_kinds reports)) = S (length reports)). by rewrite IH.
  - by exists [], a, reports.
Qed.

(** ** The report queue *)

(** Queued reports: at most one loss per stream, each for exactly the evicted blocks
    [covs] records; within the bound. *)
Record reports_ok (s : Source) (run : Z) (maximum : Z) (reports : list stream_report)
    (covs : list (list DataBlock)) : Prop := {
  ro_covers : Forall2 report_covers reports covs;
  ro_stream l : LossReport l ∈ reports -> HostQueueLoss.source l = s /\ HostQueueLoss.run_id l = run;
  ro_kinds : NoDup (loss_kinds reports);
  ro_bound : zlen reports <= maximum
}.

Lemma reports_ok_nil s run maximum : 0 <= maximum -> reports_ok s run maximum [] [].
Proof. split; [constructor|by intros l ?%not_elem_of_nil|constructor|done]. Qed.

(** Replacing an anomaly by another, or dropping one, changes no loss. *)
Lemma reports_ok_anomaly s run maximum pre a post mid covs :
  reports_ok s run maximum (pre ++ AnomalyReport a :: post) covs ->
  Forall (fun r => is_anomaly r = true) mid -> zlen (pre ++ mid ++ post) <= maximum ->
  exists covs', reports_ok s run maximum (pre ++ mid ++ post) covs' /\
    forall k, of_kind k (concat covs') = of_kind k (concat covs).
Proof.
  intros [Hc Hs Hk Hb] Hm Hl. apply Forall2_app_inv_l in Hc as (c1 & c2 & H1 & H2 & ->).
  apply Forall2_cons_inv_l in H2 as (c & c3 & Hx & H3 & ->). cbn in Hx. subst c.
  assert (Hmid : Forall2 report_covers mid (replicate (length mid) []) /\ loss_kinds mid = [] /\
                 concat (replicate (length mid) []) = ([] : list DataBlock)).
  { clear -Hm. induction Hm as [|r mid Hr _ (IH1 & IH2 & IH3)]; [by repeat constructor|].
    destruct r as [l|b]; [done|]. cbn. split; [by constructor|]. by split. }
  destruct Hmid as (Hm1 & Hm2 & Hm3). exists (c1 ++ replicate (length mid) [] ++ c3). split.
  - split; [by repeat apply Forall2_app| | |done].
    + intros l Hin. apply Hs. rewrite !elem_of_app in Hin. rewrite elem_of_app, elem_of_cons.
      destruct Hin as [?|[Hin|?]]; [by left| |by right; right].
      rewrite Forall_forall in Hm. by specialize (Hm _ Hin).
    + rewrite !loss_kinds_app, Hm2. rewrite loss_kinds_app in Hk. exact Hk.
  - intros k. rewrite !concat_app, Hm3. done.
Qed.

(** Extending the one loss of a stream by the newest eviction. *)
Lemma reports_ok_extend s run maximum pre l l' post covs b :
  reports_ok s run maximum (pre ++ LossReport l :: post) covs ->
  (forall bs, loss_covers l bs -> loss_covers l' (bs ++ [b])) ->
  HostQueueLoss.kind l' = HostQueueLoss.kind l -> HostQueueLoss.source l' = s -> HostQueueLoss.run_id l' = run ->
  block_kind b = HostQueueLoss.kind l ->
  exists covs', reports_ok s run maximum (pre ++ LossReport l' :: post) covs' /\
    forall k, of_kind k (concat covs') = of_kind k (concat covs) ++ of_kind k [b].
Proof.
  intros [Hc Hs Hk Hb] Hext Hkind Hsrc Hrun Hbk. apply Forall2_app_inv_l in Hc as (c1 & c2 & H1 & H2 & ->).
  apply Forall2_cons_inv_l in H2 as (c & c3 & Hx & H3 & ->). cbn in Hx.
  exists (c1 ++ (c ++ [b]) :: c3). split.
  - split.
    + apply Forall2_app; [done|]. constructor; [by apply Hext|done].
    + intros x. rewrite elem_of_app, elem_of_cons. intros [Hin|[[= ->]|Hin]]; [|done|];
        apply Hs; rewrite elem_of_app, elem_of_cons; [by left|by right; right].
    + rewrite loss_kinds_app in Hk |- *. cbn in Hk |- *. by rewrite Hkind.
    + unfold zlen in *. rewrite length_app in *. cbn in *. lia.
  - intros k. rewrite !concat_app. cbn [concat]. rewrite !of_kind_app, <-!app_assoc. do 2 f_equal.
    destruct (decide (block_kind b = k)) as [Hbk'|Hbk'].
    + rewrite (covered_elsewhere k post c3 H3); [by rewrite app_nil_r|]. rewrite loss_kinds_app in Hk. cbn in Hk.
      apply NoDup_app in Hk as (_ & _ & [Hk _]%NoDup_cons).
      assert (k = HostQueueLoss.kind l) as -> by congruence. exact Hk.
    + rewrite (of_kind_none k [b]) by (by repeat constructor). by rewrite app_nil_r.
Qed.

Lemma data_kinds_few (ks : list V1FrameKind.FrameKind) k :
  NoDup ks -> Forall (fun k => data_kind k = true) ks -> data_kind k = true -> k ∉ ks -> (length ks <= 1)%nat.
Proof.
  intros Hn Ha Hk Hin. destruct ks as [|a [|b ks]]; [cbn; lia..|]. exfalso.
  apply not_elem_of_cons in Hin as [Hka Hin]. apply not_elem_of_cons in Hin as [Hkb _].
  apply Forall_cons in Ha as [Ha [Hb _]%Forall_cons]. apply NoDup_cons in Hn as [Hab _].
  apply not_elem_of_cons in Hab as [Hab _]. clear -Ha Hb Hk Hka Hkb Hab. by destruct a, b, k.
Qed.

Lemma loss_kinds_data reports covs :
  Forall2 report_covers reports covs -> Forall (fun k => data_kind k = true) (loss_kinds reports).
Proof.
  induction 1 as [|r bs reports covs Hr _ IH]; [constructor|]. destruct r as [l|a]; cbn; [|done].
  constructor; [apply (lw_kind _ (lc_wf _ _ Hr))|done].
Qed.

(** What a new report stands for. *)
Definition new_report (s : Source) (run : Z) (r : stream_report) (c : list DataBlock) : Prop :=
  match r with
  | LossReport e => exists b, v3_wf b /\ block_source b = s /\ block_run_id b = run /\ e = eviction b /\ c = [b]
  | AnomalyReport _ => c = []
  end.

Definition enqueued (s : Source) (run : Z) (q : StreamQueues) (covs : list (list DataBlock))
    (c : list DataBlock) (r : StreamQueues * result queue_error unit) : Prop :=
  exists reports cnt covs', r = (set_reports reports (set_counters cnt q), Ok tt) /\
    (cnt = StreamQueues.counters q \/ cnt = count_report_drop (StreamQueues.counters q)) /\
    reports_ok s run (StreamQueues._max_stream_reports q) reports covs' /\
    forall k, of_kind k (concat covs') = of_kind k (concat covs) ++ of_kind k c.

Lemma same_counters q reports : set_reports reports q = set_reports reports (set_counters (StreamQueues.counters q) q).
Proof. by destruct q. Qed.

Lemma reports_ok_append s run maximum reports covs r c :
  reports_ok s run maximum reports covs -> new_report s run r c -> zlen reports + 1 <= maximum ->
  match r with LossReport e => HostQueueLoss.kind e ∉ loss_kinds reports | _ => True end ->
  reports_ok s run maximum (reports ++ [r]) (covs ++ [c]).
Proof.
  intros [Hc Hs Hk Hb] Hr Hl Hnew. split.
  - apply Forall2_app; [done|]. constructor; [|constructor]. destruct r as [e|a]; [|done].
    destruct Hr as (b & Hw & _ & _ & -> & ->). by apply covers_one.
  - intros l [Hin| <-%list_elem_of_singleton]%elem_of_app; [by apply Hs|].
    destruct Hr as (b & _ & <- & <- & -> & _). done.
  - rewrite loss_kinds_app. apply NoDup_app. split; [done|]. destruct r as [e|a]; cbn.
    + split; [by intros x Hx ->%list_elem_of_singleton|apply NoDup_singleton].
    + split; [by intros x _ ?%not_elem_of_nil|constructor].
  - unfold zlen in *. rewrite length_app. cbn. lia.
Qed.

(** A report that does not coalesce is appended; only an anomaly gives way to it. *)
Lemma append_report s run q covs r c :
  reports_ok s run (StreamQueues._max_stream_reports q) (StreamQueues._stream_reports q) covs ->
  2 <= StreamQueues._max_stream_reports q -> new_report s run r c ->
  match r with LossReport e => HostQueueLoss.kind e ∉ loss_kinds (StreamQueues._stream_reports q) | _ => True end ->
  coalesce (reverse (StreamQueues._stream_reports q)) r = Ok None ->
  enqueued s run q covs c (_enqueue_stream_report_locked q r).
Proof.
  intros Hok Hmax Hr Hnew Hco. unfold _enqueue_stream_report_locked. rewrite Hco. cbv zeta.
  assert (Hcat : forall covs k, of_kind k (concat (covs ++ [c])) = of_kind k (concat covs) ++ of_kind k c).
  { intros cs k. rewrite concat_app, of_kind_app. cbn. by rewrite app_nil_r. }
  destruct (Z.leb_spec (StreamQueues._max_stream_reports q) (zlen (StreamQueues._stream_reports q))) as [Hfull|Hroom].
  - pose proof (without_first_anomaly_cases (StreamQueues._stream_reports q)) as Hw.
    destruct (without_first_anomaly _) as [rest|].
    + destruct Hw as (pre & a & post & Hq & ->). rewrite Hq in Hok, Hnew.
      destruct (reports_ok_anomaly _ _ _ pre a post [] covs Hok) as (covs' & Hok' & Hk'); [constructor| |].
      { destruct Hok as [_ _ _ Hb]. unfold zlen in *. rewrite !length_app in *. cbn in *. lia. }
      exists ((pre ++ post) ++ [r]), (count_report_drop (StreamQueues.counters q)), (covs' ++ [c]).
      split; [done|]. split; [by right|]. split.
      * apply reports_ok_append; [exact Hok'|done| |].
        { destruct Hok as [_ _ _ Hb]. unfold zlen in *. rewrite !length_app in *. cbn in *. lia. }
        destruct r as [e|x]; [|done]. rewrite loss_kinds_app in *. exact Hnew.
      * intros k. rewrite Hcat. by rewrite Hk'.
    + destruct r as [e|x].
      * exfalso. destruct Hok as [Hc _ Hn _]. destruct Hr as (b & _ & _ & _ & -> & _).
        pose proof (data_kinds_few _ _ Hn (loss_kinds_data _ _ Hc) (block_data_kind b) Hnew) as Hl.
        unfold zlen in *. lia.
      * cbn in Hr. subst c. exists (StreamQueues._stream_reports q), (count_report_drop (StreamQueues.counters q)), covs.
        split; [by destruct q|]. split; [by right|]. split; [done|]. intros k. by rewrite app_nil_r.
  - exists (StreamQueues._stream_reports q ++ [r]), (StreamQueues.counters q), (covs ++ [c]).
    split; [by rewrite same_counters|]. split; [by left|]. split; [|intros k; apply Hcat].
    apply reports_ok_append; [done..|lia|done].
Qed.

Lemma enqueue_ok s run q covs r c :
  reports_ok s run (StreamQueues._max_stream_reports q) (StreamQueues._stream_reports q) covs ->
  2 <= StreamQueues._max_stream_reports q -> new_report s run r c ->
  enqueued s run q covs c (_enqueue_stream_report_locked q r).
Proof.
  intros Hok Hmax Hr.
  assert (Hsplit : forall pre x post, reverse (StreamQueues._stream_reports q) = pre ++ x :: post ->
    StreamQueues._stream_reports q = reverse post ++ x :: reverse pre).
  { intros pre x post Hq. rewrite <-(reverse_involutive (StreamQueues._stream_reports q)), Hq.
    by rewrite reverse_app, reverse_cons, <-app_assoc. }
  destruct r as [e|a].
  - pose proof Hr as (b & Hb & Hs & Hrun & -> & ->).
    destruct (coalesce_loss (reverse (StreamQueues._stream_reports q)) (eviction b))
      as [[Hk Hco]|(pre & l & post & Hq & Hk & Hco)].
    + intros l Hl. rewrite elem_of_reverse in Hl. cbn. rewrite Hs, Hrun. by apply (ro_stream _ _ _ _ _ Hok).
    + eapply append_report; [done..| |done]. intros Hin. apply Hk. clear -Hin.
      unfold loss_kinds in *. rewrite list_elem_of_omap in *. destruct Hin as (r & Hr & Hx). exists r.
      by rewrite elem_of_reverse.
    + apply Hsplit in Hq. assert (Hin : LossReport l ∈ StreamQueues._stream_reports q).
      { rewrite Hq. apply elem_of_app. right. left. }
      destruct (ro_stream _ _ _ _ _ Hok l Hin) as [Hls Hlr].
      destruct (aggregated_with l (eviction b)) as [l'|err] eqn:Hagg.
      2: { exfalso. rewrite Hq in Hok. destruct Hok as [Hc _ _ _].
           apply Forall2_app_inv_l in Hc as (c1 & c2 & _ & H2 & _). apply Forall2_cons_inv_l in H2 as (c & c3 & Hx & _).
           destruct (covers_more l c b Hx Hb) as (l' & Hl' & _); [done|congruence..]. }
      unfold _enqueue_stream_report_locked. rewrite Hco. cbn [mbind result_bind].
      rewrite reverse_app, reverse_cons, <-app_assoc. cbn [app]. rewrite Hq in Hok.
      assert (Hsame : HostQueueLoss.kind l' = HostQueueLoss.kind l /\ HostQueueLoss.source l' = HostQueueLoss.source l
                      /\ HostQueueLoss.run_id l' = HostQueueLoss.run_id l) by exact (aggregated_stream _ _ _ Hagg).
      destruct Hsame as (Hsk & Hss & Hsr).
      destruct (reports_ok_extend _ _ _ (reverse post) l l' (reverse pre) covs b Hok) as (covs' & Hok' & Hk');
        [|done|congruence|congruence|done|].
      * intros bs Hbs. destruct (covers_more l bs b Hbs Hb) as (l2 & Hl2 & Hc2); [done|congruence|congruence|].
        assert (l2 = l') as <- by congruence. done.
      * eexists _, (StreamQueues.counters q), covs'. split; [by rewrite same_counters|]. split; [by left|]. by split.
  - cbn in Hr. subst c. destruct (coalesce_anomaly (reverse (StreamQueues._stream_reports q)) a)
      as [Hco|(pre & x & y & post & Hq & Hco)]; [by eapply append_report|].
    apply Hsplit in Hq. unfold _enqueue_stream_report_locked. rewrite Hco.
    rewrite reverse_app, reverse_cons, <-app_assoc. cbn [app]. pose proof (ro_bound _ _ _ _ _ Hok) as Hb.
    rewrite Hq in Hok, Hb. destruct (reports_ok_anomaly _ _ _ (reverse post) x (reverse pre) [AnomalyReport y] covs Hok)
      as (covs' & Hok' & Hk'); [by repeat constructor| |].
    { unfold zlen in *. rewrite !length_app in *. cbn in *. lia. }
    eexists _, (StreamQueues.counters q), covs'. split; [by rewrite same_counters|]. split; [by left|].
    split; [exact Hok'|]. intros k. by rewrite app_nil_r.
Qed.

(** ** One run of the stream *)

Inductive queue_op := Dispatch (b : DataBlock) | TakeItem.

(** The reader thread's and the consumer's critical sections in any order; the items
    taken, and the exception that ends the reader, if one does. *)
Fixpoint run_queue (q : StreamQueues) (ops : list queue_op) :
    StreamQueues * list stream_item * option queue_error :=
  match ops with
  | [] => (q, [], None)
  | Dispatch b :: ops =>
      match _dispatch_block q b with
      | (q, Err e) => (q, [], Some e)
      | (q, Ok _) => run_queue q ops
      end
  | TakeItem :: ops =>
      let '(q, item) := take_stream_item q in
      let '(q, items, error) := run_queue q ops in
      (q, option_list item ++ items, error)
  end.

(** Blocks as [decode_v3_block] makes them, under one run's settings; blocks of other
    runs may arrive between them. *)
Definition op_ok (s : Source) (run : Z) (op : queue_op) : Prop :=
  match op with
  | Dispatch b => block_wf b /\
      (block_run_id b = run -> block_version b = PROTOCOL_VERSION /\ block_source b = s /\
                               block_checksum b = Checksum.ADLER32)
  | TakeItem => True
  end.

(** The blocks of the run, in the order of their arrival. *)
Definition accepted (run : Z) (ops : list queue_op) : list DataBlock :=
  omap (fun op => match op with
                  | Dispatch b => if decide (block_run_id b = run) then Some b else None
                  | TakeItem => None
                  end) ops.

(** A run has been activated on queues of positive size. *)
Definition activated (run : Z) (q : StreamQueues) : Prop :=
  0 < StreamQueues._max_queued_blocks q /\ 2 <= StreamQueues._max_stream_reports q /\
  StreamQueues._blocks q = [] /\ StreamQueues._stream_reports q = [] /\
  StreamQueues._active_run_id q = run /\ 0 < run < 2 ^ 32 /\
  StreamQueues._active_checksum_algorithm q = Checksum.ADLER32 /\ StreamQueues._stream_active q = true.

Record stream_inv (s : Source) (run : Z) (q : StreamQueues) (covs : list (list DataBlock)) : Prop := {
  si_blocks : 0 < StreamQueues._max_queued_blocks q;
  si_depth : zlen (StreamQueues._blocks q) <= StreamQueues._max_queued_blocks q;
  si_wf : Forall (fun b => v3_wf b /\ block_source b = s /\ block_run_id b = run) (StreamQueues._blocks q);
  si_reports : 2 <= StreamQueues._max_stream_reports q;
  si_ok : reports_ok s run (StreamQueues._max_stream_reports q) (StreamQueues._stream_reports q) covs;
  si_run : StreamQueues._active_run_id q = run;
  si_range : 0 < run < 2 ^ 32;
  si_checksum : StreamQueues._active_checksum_algorithm q = Checksum.ADLER32;
  si_active : StreamQueues._stream_active q = true
}.

(** The blocks of stream [k] that the queues still answer for. *)
Definition held (k : V1FrameKind.FrameKind) (q : StreamQueues) (covs : list (list DataBlock)) : list DataBlock :=
  of_kind k (concat covs) ++ of_kind k (StreamQueues._blocks q).

Lemma append_block_inv s run q covs b :
  stream_inv s run q covs -> v3_wf b -> block_source b = s -> block_run_id b = run ->
  zlen (StreamQueues._blocks q) < StreamQueues._max_queued_blocks q ->
  stream_inv s run (append_block b q) covs /\
  forall k, held k (append_block b q) covs = held k q covs ++ of_kind k [b].
Proof.
  intros [] Hb Hs Hr Hroom. split.
  - split; try done; cbn.
    + unfold zlen in *. rewrite length_app. cbn. lia.
    + apply Forall_app. split; [done|]. by apply Forall_singleton.
  - intros k. unfold held. cbn [append_block set_counters set_blocks StreamQueues._blocks]. by rewrite of_kind_app, app_assoc.
Qed.

Lemma set_counters_inv s run q covs c : stream_inv s run q covs -> stream_inv s run (set_counters c q) covs.
Proof. by intros []. Qed.

Lemma enqueue_inv s run q covs r c :
  stream_inv s run q covs -> new_report s run r c ->
  exists q' covs', _enqueue_stream_report_locked q r = (q', Ok tt) /\ stream_inv s run q' covs' /\
    StreamQueues._blocks q' = StreamQueues._blocks q /\
    StreamQueues._max_queued_blocks q' = StreamQueues._max_queued_blocks q /\
    forall k, of_kind k (concat covs') = of_kind k (concat covs) ++ of_kind k c.
Proof.
  intros [] Hr. destruct (enqueue_ok s run q covs r c si_ok0 si_reports0 Hr) as (reports & cnt & covs' & He & _ & Hok & Hk).
  exists (set_reports reports (set_counters cnt q)), covs'. split; [exact He|]. split; [by split|]. split; [done|]. split; [done|exact Hk].
Qed.

Lemma drop_oldest_inv s run q covs :
  stream_inv s run q covs -> 0 < zlen (StreamQueues._blocks q) ->
  exists q' covs', drop_oldest q = (q', Ok tt) /\ stream_inv s run q' covs' /\
    zlen (StreamQueues._blocks q') = zlen (StreamQueues._blocks q) - 1 /\
    StreamQueues._max_queued_blocks q' = StreamQueues._max_queued_blocks q /\
    forall k, held k q' covs' = held k q covs.
Proof.
  intros H Hne. unfold drop_oldest. destruct (StreamQueues._blocks q) as [|d rest] eqn:Hq; [unfold zlen in Hne; cbn in Hne; lia|].
  pose proof (si_wf _ _ _ _ H) as Hall. rewrite Hq in Hall. apply Forall_cons in Hall as [(Hd & Hs & Hr) Hrest].
  rewrite (from_block_ok d (proj1 Hd)).
  assert (H1 : stream_inv s run (set_blocks rest q) covs).
  { pose proof (si_depth _ _ _ _ H) as Hdep. rewrite Hq in Hdep. destruct H. split; try done.
    cbn. unfold zlen in *. cbn in Hdep. lia. }
  destruct (enqueue_inv s run _ covs (LossReport (eviction d)) [d] H1) as (q' & covs' & -> & H' & Hb & Hm & Hk);
    [by exists d|].
  exists (set_counters (count_dropped d (StreamQueues.counters q')) q'), covs'. split; [done|].
  split; [by apply set_counters_inv|]. cbn [StreamQueues._blocks StreamQueues._max_queued_blocks set_counters]. rewrite Hb, Hm. cbn [set_blocks StreamQueues._blocks].
  split; [unfold zlen; cbn; lia|]. split; [done|]. intros k. unfold held. cbn [set_counters StreamQueues._blocks].
  rewrite Hb, Hk, Hq. cbn [set_blocks StreamQueues._blocks]. by rewrite <-app_assoc, <-of_kind_app.
Qed.

Lemma dispatch_inv s run q covs b :
  stream_inv s run q covs -> op_ok s run (Dispatch b) ->
  exists q' covs', _dispatch_block q b = (q', Ok tt) /\ stream_inv s run q' covs' /\
    forall k, held k q' covs' = held k q covs ++ of_kind k (accepted run [Dispatch b]).
Proof.
  intros H [Hb Hop]. unfold _dispatch_block. set (q0 := set_counters _ q).
  assert (H0 : stream_inv s run q0 covs) by (by apply set_counters_inv).
  assert (Hheld : forall k, held k q0 covs = held k q covs) by done.
  rewrite (si_active _ _ _ _ H0), (si_run _ _ _ _ H0). cbn [negb orb].
  destruct (Z.eqb_spec (block_run_id b) run) as [Hr|Hr]; cbn [negb].
  - destruct (Hop Hr) as (Hv & Hs & Hc). rewrite (si_checksum _ _ _ _ H0), bool_decide_eq_true_2 by done. cbn [negb].
    assert (Hacc : accepted run [Dispatch b] = [b]) by (cbn; by rewrite decide_True). rewrite Hacc.
    assert (Hw : v3_wf b) by done.
    destruct (Z.leb_spec (StreamQueues._max_queued_blocks q0) (zlen (StreamQueues._blocks q0))) as [Hfull|Hroom].
    + destruct (drop_oldest_inv s run q0 covs H0) as (q1 & c1 & -> & H1 & Hlen & Hmax & Hk);
        [pose proof (si_blocks _ _ _ _ H0); lia|].
      destruct (append_block_inv s run q1 c1 b H1 Hw Hs Hr) as [H2 Hk2];
        [pose proof (si_depth _ _ _ _ H0); lia|].
      exists (append_block b q1), c1. split; [done|]. split; [done|]. intros k. by rewrite Hk2, Hk, Hheld.
    + destruct (append_block_inv s run q0 covs b H0 Hw Hs Hr Hroom) as [H2 Hk2].
      exists (append_block b q0), covs. split; [done|]. split; [done|]. intros k. by rewrite Hk2, Hheld.
  - set (q1 := set_counters _ q0). assert (H1 : stream_inv s run q1 covs) by (by apply set_counters_inv).
    assert (Hacc : accepted run [Dispatch b] = []) by (cbn; by rewrite decide_False). rewrite Hacc.
    rewrite (si_active _ _ _ _ H1), (si_run _ _ _ _ H1).
    rewrite (stale_run_ok b run Hb (si_range _ _ _ _ H)).
    destruct (enqueue_inv s run q1 covs (AnomalyReport (block_anomaly b STALE_RUN run None None None None (own_evidence b))) [] H1 eq_refl)
      as (q' & covs' & -> & H' & Hbl & _ & Hk).
    exists q', covs'. split; [done|]. split; [done|]. intros k. unfold held. rewrite Hbl, Hk.
    change (of_kind k []) with (@nil DataBlock). by rewrite !app_nil_r.
Qed.

Lemma take_inv s run q covs :
  stream_inv s run q covs ->
  exists q' covs' item, take_stream_item q = (q', item) /\ stream_inv s run q' covs' /\
    match item with
    | None => forall k, held k q' covs' = held k q covs
    | Some i => exists c, item_covers i c /\ forall k, of_kind k c ++ held k q' covs' = held k q covs
    end.
Proof.
  intros H. unfold take_stream_item. destruct (StreamQueues._stream_reports q) as [|r reports] eqn:Hr.
  - pose proof (si_ok _ _ _ _ H) as Hok. destruct Hok as [Hc _ _ _]. rewrite Hr in Hc.
    apply Forall2_nil_inv_l in Hc as Hcovs. destruct (StreamQueues._blocks q) as [|b blocks] eqn:Hb.
    + exists q, covs, None. split; [done|]. by split.
    + exists (set_blocks blocks q), covs, (Some (ItemBlock b)). split; [done|]. split.
      * pose proof (si_depth _ _ _ _ H) as Hd. pose proof (si_wf _ _ _ _ H) as Hw. rewrite Hb in Hd, Hw.
        apply Forall_cons in Hw as [_ Hw]. destruct H. split; try done. cbn. unfold zlen in *. cbn in Hd. lia.
      * exists [b]. split; [done|]. intros k. unfold held. rewrite Hcovs, Hb. cbn [concat set_blocks StreamQueues._blocks].
        change (of_kind k []) with (@nil DataBlock). cbn [app]. by rewrite <-of_kind_app.
  - pose proof (si_ok _ _ _ _ H) as [Hc Hs Hk Hbd]. rewrite Hr in Hc, Hs, Hk, Hbd.
    apply Forall2_cons_inv_l in Hc as (c & covs' & Hx & Hrest & ->).
    exists (set_reports reports q), covs', (Some (ItemReport r)). split; [done|]. split.
    + destruct H. split; try done. cbn. split; [done| | |unfold zlen in *; cbn in Hbd; lia].
      * intros l Hl. apply Hs. by right.
      * destruct r as [l|a]; [|done]. by apply NoDup_cons in Hk as [_ ?].
    + exists c. split; [done|]. intros k. unfold held. cbn [concat]. by rewrite of_kind_app, app_assoc.
Qed.

Lemma accepted_app run a b : accepted run (a ++ b) = accepted run a ++ accepted run b.
Proof. apply omap_app. Qed.

Lemma run_queue_inv s run ops : forall q covs,
  stream_inv s run q covs -> Forall (op_ok s run) ops ->
  exists q' items taken covs', run_queue q ops = (q', items, None) /\ stream_inv s run q' covs' /\
    Forall2 item_covers items taken /\
    forall k, of_kind k (concat taken) ++ held k q' covs' = held k q covs ++ of_kind k (accepted run ops).
Proof.
  induction ops as [|op ops IH]; intros q covs H Hops.
  - exists q, [], [], covs. split; [done|]. split; [done|]. split; [constructor|]. intros k. by rewrite app_nil_r.
  - apply Forall_cons in Hops as [Hop Hops]. destruct op as [b|]; cbn [run_queue].
    + destruct (dispatch_inv s run q covs b H Hop) as (q1 & c1 & -> & H1 & Hk1).
      destruct (IH q1 c1 H1 Hops) as (q2 & items & taken & c2 & -> & H2 & Hi & Hk2).
      exists q2, items, taken, c2. do 3 (split; [done|]). intros k. rewrite Hk2, Hk1, <-app_assoc.
      change (Dispatch b :: ops) with ([Dispatch b] ++ ops). by rewrite accepted_app, of_kind_app.
    + destruct (take_inv s run q covs H) as (q1 & c1 & item & -> & H1 & Hitem).
      destruct (IH q1 c1 H1 Hops) as (q2 & items & taken & c2 & -> & H2 & Hi & Hk2).
      destruct item as [i|]; cbn [option_list app].
      * destruct Hitem as (c & Hc & Hk1). exists q2, (i :: items), (c :: taken), c2. do 2 (split; [done|]).
        split; [by constructor|]. intros k. cbn [concat]. rewrite of_kind_app, <-app_assoc, Hk2, app_assoc, Hk1. done.
      * exists q2, items, taken, c2. do 3 (split; [done|]). intros k. by rewrite Hk2, Hitem.
Qed.

Lemma activated_inv s run q : activated run q -> stream_inv s run q [].
Proof.
  intros (Hm & Hr & Hb & Hrep & Hid & Hrange & Hc & Ha). split; try done; rewrite ?Hb, ?Hrep.
  - unfold zlen. cbn. lia.
  - constructor.
  - apply reports_ok_nil. lia.
Qed.

(** C8. Whatever the consumer's speed, nothing of a run is lost silently.  From the
    activation of a run on, under any interleaving of arriving blocks and
    [get_stream_item] calls: no exception is raised; both queues keep their bounds; and
    in each stream, the delivered items followed by the queued loss report and the
    queued blocks account for every block of the run exactly once and in order, a
    block as itself and a [HostQueueLoss] as the evicted blocks it describes, with
    their exact range, block, item and marker counts, contiguous exactly when they are. *)
Theorem stream_items_exact (s : Source) (run : Z) (q : StreamQueues) (ops : list queue_op) :
  activated run q -> Forall (op_ok s run) ops ->
  exists q' items taken covs, run_queue q ops = (q', items, None)
    /\ Forall2 item_covers items taken
    /\ reports_ok s run (StreamQueues._max_stream_reports q') (StreamQueues._stream_reports q') covs
    /\ zlen (StreamQueues._blocks q') <= StreamQueues._max_queued_blocks q'
    /\ forall k, of_kind k (accepted run ops)
                 = of_kind k (concat taken) ++ of_kind k (concat covs) ++ of_kind k (StreamQueues._blocks q').
Proof.
  intros Ha Hops. destruct (run_queue_inv s run ops q [] (activated_inv s run q Ha) Hops)
    as (q' & items & taken & covs & Hr & Hinv & Hi & Hk).
  exists q', items, taken, covs. split; [done|]. split; [done|]. split; [apply Hinv|]. split; [apply Hinv|].
  intros k. specialize (Hk k). unfold held in Hk. destruct Ha as (_ & _ & Hb & _). rewrite Hb in Hk.
  change (of_kind k (concat [])) with (@nil DataBlock) in Hk. change (of_kind k []) with (@nil DataBlock) in Hk.
  by rewrite Hk.
Qed.

(** ** Every operation, any number of runs *)

Inductive reader_op :=
| OpDispatch (b : DataBlock)
| OpUnknown
| OpTakeItem
| OpTakeBlock
| OpActivate (run : Z) (checksum : Checksum.ChecksumAlgorithm)
| OpDeactivate
| OpTerminate
| OpClose.

(** Where the blocks went: handed to the consumer, refused with an error, or thrown away by
    [close]; and the data frames that were not decoded. *)
Module Moved.
Record Moved := mk {
  delivered : list DataBlock;
  refused : list DataBlock;
  cleared : list DataBlock;
  unknown : Z
}.
End Moved.
Abbreviation Moved := Moved.Moved.

Definition nothing_moved : Moved := Moved.mk [] [] [] 0.
Definition moved_then (m n : Moved) : Moved :=
  Moved.mk (Moved.delivered m ++ Moved.delivered n) (Moved.refused m ++ Moved.refused n)
    (Moved.cleared m ++ Moved.cleared n) (Moved.unknown m + Moved.unknown n).

Definition apply_op (q : StreamQueues) (op : reader_op) : StreamQueues * Moved :=
  match op with
  | OpDispatch b =>
      match _dispatch_block q b with
      | (q, Ok _) => (q, nothing_moved)
      | (q, Err _) => (q, Moved.mk [] [b] [] 0)
      end
  | OpUnknown => (set_counters (count_unknown (StreamQueues.counters q)) q, Moved.mk [] [] [] 1)
  | OpTakeItem =>
      match take_stream_item q with
      | (q, Some (ItemBlock b)) => (q, Moved.mk [b] [] [] 0)
      | (q, _) => (q, nothing_moved)
      end
  | OpTakeBlock => let '(q, b) := take_block q in (q, Moved.mk (option_list b) [] [] 0)
  | OpActivate run checksum => ((_activate_run_locked q run checksum).1, nothing_moved)
  | OpDeactivate => (_deactivate_stream_locked q, nothing_moved)
  | OpTerminate => (stop_stream q, nothing_moved)
  | OpClose => (clear_queues q, Moved.mk [] [] (StreamQueues._blocks q) 0)
  end.

Fixpoint apply_ops (q : StreamQueues) (ops : list reader_op) : StreamQueues * Moved :=
  match ops with
  | [] => (q, nothing_moved)
  | op :: ops =>
      let '(q, m) := apply_op q op in
      let '(q, n) := apply_ops q ops in
      (q, moved_then m n)
  end.

Definition reader_op_ok (op : reader_op) : Prop :=
  match op with
  | OpDispatch b => v3_wf b
  | OpActivate run _ => 0 <= run < 2 ^ 32
  | _ => True
  end.

Definition tally_of (k : V1FrameKind.FrameKind) (c : QueueCounters) : StreamTally :=
  match k with V1FrameKind.ADC_DATA => QueueCounters.adc c | _ => QueueCounters.gpio c end.

(** The blocks of stream [k] that the counters say left the queue some other way. *)
Definition discarded (k : V1FrameKind.FrameKind) (c : QueueCounters) : Z :=
  let t := tally_of k c in
  StreamTally.block_queue_drops t + StreamTally.stale_blocks_discarded t + StreamTally.boundary_blocks_discarded t.

(** The totals are the sums over the streams, [unknown] frames apart. *)
Definition counted (unknown : Z) (c : QueueCounters) : Prop :=
  let total f := f (QueueCounters.adc c) + f (QueueCounters.gpio c) in
  QueueCounters.host_block_queue_drops c = total StreamTally.block_queue_drops /\
  QueueCounters.stale_blocks_discarded c = total StreamTally.stale_blocks_discarded + unknown /\
  QueueCounters.boundary_blocks_discarded c = total StreamTally.boundary_blocks_discarded.

Definition report_v3 (r : stream_report) : Prop :=
  match r with
  | LossReport l => loss_wf l /\ HostQueueLoss.period_ticks l = 8 /\ HostQueueLoss.variable_frame_items l = true
  | AnomalyReport _ => True
  end.

Record queues_inv (unknown : Z) (q : StreamQueues) : Prop := {
  qi_room : 0 < StreamQueues._max_queued_blocks q;
  qi_depth : zlen (StreamQueues._blocks q) <= QueueCounters.block_queue_high_water (StreamQueues.counters q)
             <= StreamQueues._max_queued_blocks q;
  qi_blocks : Forall v3_wf (StreamQueues._blocks q);
  qi_reports : zlen (StreamQueues._stream_reports q) <= StreamQueues._max_stream_reports q;
  qi_losses : Forall report_v3 (StreamQueues._stream_reports q);
  qi_slots : 2 <= StreamQueues._max_stream_reports q;
  qi_run : 0 <= StreamQueues._active_run_id q < 2 ^ 32;
  qi_active : StreamQueues._stream_active q = true -> StreamQueues._active_run_id q <> 0;
  qi_counted : counted unknown (StreamQueues.counters q)
}.

(** Received, less what is still queued or was discarded. *)
Definition balance (k : V1FrameKind.FrameKind) (q : StreamQueues) : Z :=
  StreamTally.frames_received (tally_of k (StreamQueues.counters q))
  - zlen (of_kind k (StreamQueues._blocks q)) - discarded k (StreamQueues.counters q).

Section Booking.
(** The undecoded frames so far. *)
Context (u : Z).

Lemma eviction_v3 b : v3_wf b -> report_v3 (LossReport (eviction b)).
Proof.
  intros H. split; [by apply eviction_wf, H|]. cbn. rewrite (v3_period b H), (proj2 H). done.
Qed.

Lemma coalesce_weak rl r :
  Forall report_v3 rl -> report_v3 r ->
  coalesce rl r = Ok None \/
  exists rl', coalesce rl r = Ok (Some rl') /\ Forall report_v3 rl' /\ length rl' = length rl.
Proof.
  intros H Hr. induction H as [|x rl Hx Hrl IH]; [by left|]. cbn [coalesce].
  assert (Hskip : (option_map (cons x) <$> coalesce rl r) = Ok None \/
    exists rl', (option_map (cons x) <$> coalesce rl r) = Ok (Some rl') /\ Forall report_v3 rl' /\
      length rl' = length (x :: rl)).
  { destruct IH as [->|(rl' & -> & Hf & Hl)]; [by left|]. right. exists (x :: rl'). split; [done|].
    split; [by constructor|]. cbn. by rewrite Hl. }
  destruct x as [l|a], r as [e|b]; try apply Hskip.
  - destruct (_ && _ && _) eqn:Hm; [|apply Hskip]. right. cbn in Hx, Hr. destruct Hx as (Hwl & Hpl & Hvl), Hr as (Hwe & Hpe & Hve).
    rewrite !andb_true_iff, !bool_decide_eq_true, Z.eqb_eq in Hm. destruct Hm as [[Hk Hs] Hrun].
    assert (Hss : same_stream l e = true).
    { apply same_stream_iff. split; try done; [congruence|congruence|]. by rewrite Hvl. }
    destruct (aggregated_Ok l e Hwl Hwe Hss) as [Hagg Hwf]. rewrite Hagg. cbn [mbind result_bind].
    eexists. split; [done|]. split; [|done]. constructor; [|done]. split; [done|]. by split.
  - destruct (anomaly_merged_with a b) as [y|err] eqn:Hm.
    + right. eexists. split; [done|]. split; [by constructor|done].
    + rewrite (merged_anomaly_error _ _ _ Hm). apply Hskip.
Qed.

Lemma enqueue_weak q r :
  queues_inv u q -> report_v3 r ->
  exists reports c, _enqueue_stream_report_locked q r = (set_reports reports (set_counters c q), Ok tt) /\
    (c = StreamQueues.counters q \/ c = count_report_drop (StreamQueues.counters q)) /\
    Forall report_v3 reports /\ zlen reports <= StreamQueues._max_stream_reports q.
Proof.
  intros H Hr. pose proof (qi_losses u q H) as Hl. pose proof (qi_reports u q H) as Hb. unfold _enqueue_stream_report_locked.
  destruct (coalesce_weak (reverse (StreamQueues._stream_reports q)) r) as [->|(rl & -> & Hf & Hlen)]; [by apply Forall_reverse|done| |].
  - cbv zeta. destruct (Z.leb_spec (StreamQueues._max_stream_reports q) (zlen (StreamQueues._stream_reports q))) as [Hfull|Hroom].
    + pose proof (without_first_anomaly_cases (StreamQueues._stream_reports q)) as Hw.
      destruct (without_first_anomaly _) as [rest|].
      * destruct Hw as (pre & a & post & Hq & ->). rewrite Hq in Hl, Hb.
        exists ((pre ++ post) ++ [r]), (count_report_drop (StreamQueues.counters q)). split; [done|]. split; [by right|].
        apply Forall_app in Hl as [Hl1 [_ Hl2]%Forall_cons]. split; [by repeat (apply Forall_app; split); auto|].
        unfold zlen in *. rewrite !length_app in *. cbn in *. lia.
      * exists (StreamQueues._stream_reports q), (count_report_drop (StreamQueues.counters q)). split; [by destruct q|].
        split; [by right|]. done.
    + exists (StreamQueues._stream_reports q ++ [r]), (StreamQueues.counters q). split; [by rewrite same_counters|].
      split; [by left|]. split; [apply Forall_app; split; [done|by constructor]|].
      unfold zlen in *. rewrite length_app. cbn. lia.
  - exists (reverse rl), (StreamQueues.counters q). split; [by rewrite same_counters|]. split; [by left|].
    split; [by apply Forall_reverse|]. unfold zlen in *. rewrite length_reverse, Hlen, length_reverse. done.
Qed.

(** Projections of an updated state. *)
Ltac queue_simpl :=
  cbn [append_block set_counters set_blocks set_reports StreamQueues._max_queued_blocks
       StreamQueues._max_stream_reports StreamQueues._blocks StreamQueues._stream_reports
       StreamQueues._active_run_id StreamQueues._active_checksum_algorithm StreamQueues._stream_active
       StreamQueues.counters].

(** *** What the counters do *)

(** [c'] is [c] after counting [r] received and [d] discarded blocks of stream [k]. *)
Record counts (k : V1FrameKind.FrameKind) (r d : Z) (c c' : QueueCounters) : Prop := {
  cs_received : StreamTally.frames_received (tally_of k c') = StreamTally.frames_received (tally_of k c) + r;
  cs_discarded : discarded k c' = discarded k c + d;
  cs_counted u : counted u c -> counted u c';
  cs_high : QueueCounters.block_queue_high_water c' = QueueCounters.block_queue_high_water c
}.

Definition one (k : V1FrameKind.FrameKind) (b : DataBlock) : Z := zlen (of_kind k [b]).

Lemma of_kind_cons k b bs : zlen (of_kind k (b :: bs)) = one k b + zlen (of_kind k bs).
Proof.
  change (b :: bs) with ([b] ++ bs). rewrite of_kind_app. unfold one, zlen. rewrite length_app. lia.
Qed.

Lemma one_value k b : one k b = Z.b2z (bool_decide (block_kind b = k)).
Proof. unfold one, of_kind. cbn. case_bool_decide as H; [by rewrite decide_True|by rewrite decide_False]. Qed.

Ltac count_cases k b c :=
  destruct c as [adc gpio stale boundary drops high reports]; destruct adc, gpio, b; rewrite one_value;
  split; unfold discarded, counted, tally_of; destruct k; try discriminate; cbn;
  repeat case_bool_decide; try congruence; cbn; lia.

Lemma count_received_ok k b c : data_kind k = true -> counts k (one k b) 0 c (count_received b c).
Proof. intros Hk. count_cases k b c. Qed.
Lemma count_stale_ok k b c : data_kind k = true -> counts k 0 (one k b) c (count_stale b c).
Proof. intros Hk. count_cases k b c. Qed.
Lemma count_dropped_ok k b c : data_kind k = true -> counts k 0 (one k b) c (count_dropped b c).
Proof. intros Hk. count_cases k b c. Qed.
Lemma count_report_drop_ok k c : counts k 0 0 c (count_report_drop c).
Proof. destruct c. split; unfold discarded, counted, tally_of; destruct k; cbn; try done; lia. Qed.
Lemma count_high_ok k depth c :
  StreamTally.frames_received (tally_of k (count_high_water depth c)) = StreamTally.frames_received (tally_of k c) /\
  discarded k (count_high_water depth c) = discarded k c /\ (forall u, counted u c -> counted u (count_high_water depth c)) /\
  QueueCounters.block_queue_high_water (count_high_water depth c) = Z.max (QueueCounters.block_queue_high_water c) depth.
Proof. by destruct c. Qed.

(** The boundary counters of [n] blocks, the total already added. *)
Lemma count_boundary_ok k bs : data_kind k = true -> forall c c0,
  StreamTally.frames_received (tally_of k c) = StreamTally.frames_received (tally_of k c0) ->
  let total c := StreamTally.boundary_blocks_discarded (QueueCounters.adc c)
                 + StreamTally.boundary_blocks_discarded (QueueCounters.gpio c) in
  let c' := fold_left count_boundary bs c in
  StreamTally.frames_received (tally_of k c') = StreamTally.frames_received (tally_of k c0) /\
  discarded k c' = discarded k c + zlen (of_kind k bs) /\
  total c' = total c + zlen bs /\
  QueueCounters.boundary_blocks_discarded c' = QueueCounters.boundary_blocks_discarded c /\
  QueueCounters.block_queue_high_water c' = QueueCounters.block_queue_high_water c /\
  QueueCounters.host_block_queue_drops c' = QueueCounters.host_block_queue_drops c /\
  QueueCounters.stale_blocks_discarded c' = QueueCounters.stale_blocks_discarded c /\
  (forall f, f = StreamTally.block_queue_drops \/ f = StreamTally.stale_blocks_discarded ->
     f (QueueCounters.adc c') + f (QueueCounters.gpio c') = f (QueueCounters.adc c) + f (QueueCounters.gpio c)).
Proof.
  intros Hk. induction bs as [|b bs IH]; intros c c0 Hc total c'.
  - subst c'. unfold zlen. cbn. repeat (split; [first [done|lia]|]). done.
  - specialize (IH (count_boundary c b) c0). cbv zeta in IH. unfold c'. cbn [fold_left].
    destruct IH as (H1 & H2 & H3 & H4 & H5 & H6 & H7 & H8).
    { rewrite <-Hc. clear. destruct c as [a g ? ? ? ? ?], a, g, b; by destruct k. }
    split; [done|]. unfold total. rewrite H2, H3, H4, H5, H6, H7, of_kind_cons, one_value.
    assert (Hz : zlen (b :: bs) = zlen bs + 1) by (unfold zlen; cbn; lia). rewrite Hz.
    split; [clear -Hk; destruct c as [a g ? ? ? ? ?], a, g, b; unfold discarded, tally_of;
      destruct k; try discriminate; cbn; case_bool_decide; try congruence; cbn; lia|].
    split; [clear; destruct c as [a g ? ? ? ? ?], a, g, b; cbn; lia|].
    do 4 (split; [by destruct c, b|]). intros f Hf. rewrite (H8 f Hf).
    destruct c as [a g ? ? ? ? ?], a, g, b; by destruct Hf as [-> | ->].
Qed.

(** ** Conservation *)

(** One operation keeps the invariant and books the blocks it moves. *)
Definition op_booked (q : StreamQueues) (r : StreamQueues * Moved) : Prop :=
  let '(q', m) := r in
  queues_inv (u + Moved.unknown m) q' /\
  forall k, data_kind k = true ->
    balance k q' = balance k q + zlen (of_kind k (Moved.delivered m)) + zlen (of_kind k (Moved.refused m))
                   + zlen (of_kind k (Moved.cleared m)).

(** No undecoded frame, and the blocks [d], [r] and [c]. *)
Lemma booked q q' d r c :
  queues_inv u q' ->
  (forall k, data_kind k = true ->
     balance k q' = balance k q + zlen (of_kind k d) + zlen (of_kind k r) + zlen (of_kind k c)) ->
  op_booked q (q', Moved.mk d r c 0).
Proof. intros H Hk. split; [cbn; by rewrite Z.add_0_r|done]. Qed.

Lemma balance_counts k q q' r d :
  counts k r d (StreamQueues.counters q) (StreamQueues.counters q') ->
  balance k q' = balance k q + r - d
                 + zlen (of_kind k (StreamQueues._blocks q)) - zlen (of_kind k (StreamQueues._blocks q')).
Proof. intros [Hr Hd _ _]. unfold balance. lia. Qed.

Lemma enqueue_booked q r :
  queues_inv u q -> report_v3 r ->
  exists q', _enqueue_stream_report_locked q r = (q', Ok tt) /\ queues_inv u q' /\
    StreamQueues._blocks q' = StreamQueues._blocks q /\
    StreamQueues._max_queued_blocks q' = StreamQueues._max_queued_blocks q /\
    forall k, balance k q' = balance k q.
Proof.
  intros H Hr. destruct (enqueue_weak q r H Hr) as (reports & c & -> & Hc & Hf & Hb).
  eexists. split; [done|]. assert (Hcounts : forall k, counts k 0 0 (StreamQueues.counters q) c).
  { intros k. destruct Hc as [-> | ->]; [split; (done || lia)|apply count_report_drop_ok]. }
  split; [|split; [done|split; [done|]]].
  - pose proof (Hcounts V1FrameKind.ADC_DATA) as [_ _ Hcnt Hhigh]. destruct H. split; try done; cbn; [by rewrite Hhigh|auto].
  - intros k. erewrite balance_counts; [|exact (Hcounts k)]. queue_simpl. lia.
Qed.

Lemma stale_booked b q :
  queues_inv u q ->
  let q' := set_counters (count_stale b (StreamQueues.counters q)) q in
  queues_inv u q' /\ forall k, data_kind k = true -> balance k q' = balance k q - one k b.
Proof.
  intros H q'. split.
  - pose proof (count_stale_ok V1FrameKind.ADC_DATA b (StreamQueues.counters q) eq_refl) as [_ _ Hc Hh].
    destruct H. split; try done; cbn; [by rewrite Hh|auto].
  - intros k Hk. erewrite balance_counts; [|by apply count_stale_ok]. unfold q'. queue_simpl. lia.
Qed.

Lemma append_booked b q :
  queues_inv u q -> v3_wf b -> zlen (StreamQueues._blocks q) < StreamQueues._max_queued_blocks q ->
  queues_inv u (append_block b q) /\ forall k, balance k (append_block b q) = balance k q - one k b.
Proof.
  intros H Hb Hroom. set (depth := zlen (StreamQueues._blocks q ++ [b])).
  assert (Hd : depth = zlen (StreamQueues._blocks q) + 1) by (unfold depth, zlen; rewrite length_app; cbn; lia).
  split.
  - destruct (count_high_ok V1FrameKind.ADC_DATA depth (StreamQueues.counters q)) as (_ & _ & Hc & Hh).
    destruct H. split; try done; queue_simpl; fold depth; [rewrite Hh; lia|apply Forall_app; split; [done|by constructor]|auto].
  - intros k. unfold balance. queue_simpl. fold depth. destruct (count_high_ok k depth (StreamQueues.counters q)) as (-> & -> & _ & _).
    rewrite of_kind_app. unfold one, zlen. rewrite length_app. lia.
Qed.

Lemma drop_booked q :
  queues_inv u q -> 0 < zlen (StreamQueues._blocks q) ->
  exists q', drop_oldest q = (q', Ok tt) /\ queues_inv u q' /\
    zlen (StreamQueues._blocks q') = zlen (StreamQueues._blocks q) - 1 /\
    StreamQueues._max_queued_blocks q' = StreamQueues._max_queued_blocks q /\
    forall k, data_kind k = true -> balance k q' = balance k q.
Proof.
  intros H Hne. unfold drop_oldest. pose proof (qi_blocks u q H) as Hall. pose proof (qi_depth u q H) as Hdep.
  assert (Hbal : forall k rest, balance k (set_blocks rest q) = balance k q + zlen (of_kind k (StreamQueues._blocks q)) - zlen (of_kind k rest)).
  { intros k rest. unfold balance. queue_simpl. lia. }
  destruct (StreamQueues._blocks q) as [|d rest] eqn:Hq; [unfold zlen in Hne; cbn in Hne; lia|].
  apply Forall_cons in Hall as [Hd Hrest]. rewrite (from_block_ok d (proj1 Hd)).
  assert (Hz : zlen (d :: rest) = zlen rest + 1) by (unfold zlen; cbn; lia).
  assert (H1 : queues_inv u (set_blocks rest q)) by (destruct H; split; try done; cbn; lia).
  destruct (enqueue_booked _ _ H1 (eviction_v3 d Hd)) as (q1 & -> & H2 & Hb & Hm & Hk).
  exists (set_counters (count_dropped d (StreamQueues.counters q1)) q1). split; [done|]. split.
  - pose proof (count_dropped_ok V1FrameKind.ADC_DATA d (StreamQueues.counters q1) eq_refl) as [_ _ Hc Hh].
    destruct H2. split; try done; cbn; [by rewrite Hh|auto].
  - cbn [StreamQueues._blocks StreamQueues._max_queued_blocks set_counters]. rewrite Hb, Hm.
    cbn [set_blocks StreamQueues._blocks StreamQueues._max_queued_blocks]. split; [lia|]. split; [done|].
    intros k Hdk. erewrite balance_counts; [|by apply count_dropped_ok]. rewrite Hk, Hbal, of_kind_cons.
    cbn [StreamQueues._blocks set_counters]. lia.
Qed.

Lemma dispatch_booked q b :
  queues_inv u q -> v3_wf b -> op_booked q (apply_op q (OpDispatch b)).
Proof.
  intros H Hb. unfold apply_op, _dispatch_block. set (q0 := set_counters _ q).
  assert (H0 : queues_inv u q0).
  { pose proof (count_received_ok V1FrameKind.ADC_DATA b (StreamQueues.counters q) eq_refl) as [_ _ Hc Hh].
    destruct H. split; try done; cbn; [by rewrite Hh|auto]. }
  assert (Hk0 : forall k, data_kind k = true -> balance k q0 = balance k q + one k b).
  { intros k Hk. erewrite balance_counts; [|by apply count_received_ok]. unfold q0. queue_simpl. lia. }
  assert (Hzero : forall k, zlen (of_kind k []) = 0) by done.
  destruct (negb (StreamQueues._stream_active q0) || negb (block_run_id b =? StreamQueues._active_run_id q0)).
  - destruct (stale_booked b q0 H0) as [H1 Hk1]. set (q1 := set_counters _ q0) in *.
    destruct (StreamQueues._stream_active q1) eqn:Ha.
    + rewrite stale_run_ok; [|apply Hb|pose proof (qi_run u q1 H1); pose proof (qi_active u q1 H1 Ha); lia].
      destruct (enqueue_booked q1 (AnomalyReport (block_anomaly b STALE_RUN (StreamQueues._active_run_id q1)
        None None None None (own_evidence b))) H1 I) as (q2 & -> & H2 & _ & _ & Hk2).
      apply booked; [done|]. intros k Hk. rewrite Hk2, Hk1, Hk0, !Hzero by done. lia.
    + apply booked; [done|]. intros k Hk. rewrite Hk1, Hk0, !Hzero by done. lia.
  - destruct (negb (bool_decide _)).
    + apply booked; [done|]. intros k Hk. rewrite Hk0, !Hzero by done. unfold one. lia.
    + destruct (Z.leb_spec (StreamQueues._max_queued_blocks q0) (zlen (StreamQueues._blocks q0))) as [Hfull|Hroom].
      * destruct (drop_booked q0 H0) as (q1 & -> & H1 & Hlen & Hmax & Hk1); [pose proof (qi_room u q0 H0); lia|].
        destruct (append_booked b q1 H1 Hb) as [H2 Hk2]; [pose proof (qi_depth u q0 H0); lia|].
        apply booked; [done|]. intros k Hk. rewrite Hk2, Hk1, Hk0, !Hzero by done. lia.
      * destruct (append_booked b q0 H0 Hb Hroom) as [H2 Hk2].
        apply booked; [done|]. intros k Hk. rewrite Hk2, Hk0, !Hzero by done. lia.
Qed.

(** What an undecoded frame changes. *)
Lemma unknown_counted c :
  (counted u c -> counted (u + 1) (count_unknown c)) /\
  QueueCounters.block_queue_high_water (count_unknown c) = QueueCounters.block_queue_high_water c /\
  forall k, StreamTally.frames_received (tally_of k (count_unknown c)) = StreamTally.frames_received (tally_of k c) /\
    discarded k (count_unknown c) = discarded k c.
Proof. destruct c. split; [unfold counted; cbn; lia|]. split; [done|]. by intros []. Qed.

Lemma boundary_booked q :
  queues_inv u q ->
  let q' := _record_boundary_blocks_locked q in
  counted u (StreamQueues.counters q') /\
  QueueCounters.block_queue_high_water (StreamQueues.counters q') = QueueCounters.block_queue_high_water (StreamQueues.counters q) /\
  StreamQueues._max_queued_blocks q' = StreamQueues._max_queued_blocks q /\
  StreamQueues._max_stream_reports q' = StreamQueues._max_stream_reports q /\
  forall k, data_kind k = true ->
    StreamTally.frames_received (tally_of k (StreamQueues.counters q'))
    - discarded k (StreamQueues.counters q') = balance k q.
Proof.
  intros H q'. pose proof (qi_counted u q H) as Hc. unfold q', _record_boundary_blocks_locked, balance. clear q'.
  destruct (StreamQueues.counters q) as [adc gpio stale boundary drops high reports] eqn:Hq.
  cbn [set_counters StreamQueues.counters StreamQueues._max_queued_blocks StreamQueues._max_stream_reports].
  set (c0 := QueueCounters.mk adc gpio stale (boundary + _) drops high reports).
  assert (Hspec : forall k, data_kind k = true -> _) by
    (intros k Hk; exact (count_boundary_ok k (StreamQueues._blocks q) Hk c0 c0 eq_refl)).
  cbv zeta in Hspec. set (c' := fold_left count_boundary _ c0) in *.
  destruct (Hspec V1FrameKind.ADC_DATA eq_refl) as (_ & _ & Ht & Hb & Hh & Hd & Hs & Hf).
  split.
  - unfold counted in *. cbn in Hc. rewrite Hb, Hd, Hs, Ht, (Hf _ (or_introl eq_refl)), (Hf _ (or_intror eq_refl)).
    unfold c0; cbn. lia.
  - do 3 (split; [done|]). intros k Hk. destruct (Hspec k Hk) as (H1 & H2 & _). rewrite H1, H2.
    unfold discarded, tally_of. destruct k; cbn; lia.
Qed.

Lemma op_booked_ok q op : queues_inv u q -> reader_op_ok op -> op_booked q (apply_op q op).
Proof.
  intros H Hop. assert (Hzero : forall k, zlen (of_kind k []) = 0) by done.
  assert (Hsame : op_booked q (q, nothing_moved)) by (apply booked; [done|]; intros k _; rewrite !Hzero; lia).
  assert (Hblocks : forall b rest, StreamQueues._blocks q = b :: rest -> op_booked q (set_blocks rest q, Moved.mk [b] [] [] 0)).
  { intros b rest Hq. pose proof (qi_blocks u q H) as Hall. pose proof (qi_depth u q H) as Hd. rewrite Hq in Hall, Hd.
    apply Forall_cons in Hall as [_ Hall]. assert (Hz : zlen (b :: rest) = zlen rest + 1) by (unfold zlen; cbn; lia).
    apply booked; [destruct H; split; try done; cbn; lia|]. intros k Hk. unfold balance.
    cbn [set_blocks StreamQueues._blocks StreamQueues.counters]. rewrite Hq, of_kind_cons, !Hzero. fold (one k b). lia. }
  destruct op as [b| | | |run checksum| | |]; cbn [apply_op].
  - by apply dispatch_booked.
  - destruct (unknown_counted (StreamQueues.counters q)) as (Hc & Hh & Hk). split.
    + destruct H. split; try done; queue_simpl; [by rewrite Hh|by apply Hc].
    + intros k _. unfold balance. queue_simpl. destruct (Hk k) as [-> ->]. rewrite !Hzero. lia.
  - unfold take_stream_item. destruct (StreamQueues._stream_reports q) as [|r reports] eqn:Hr.
    + destruct (StreamQueues._blocks q) as [|b rest] eqn:Hq; [done|by apply Hblocks].
    + pose proof (qi_losses u q H) as Hl. pose proof (qi_reports u q H) as Hb. rewrite Hr in Hl, Hb.
      apply Forall_cons in Hl as [_ Hl]. apply booked; [destruct H; split; try done; cbn; unfold zlen in *; cbn in Hb; lia|].
      intros k _. rewrite !Hzero. unfold balance. queue_simpl. lia.
  - unfold take_block. destruct (StreamQueues._blocks q) as [|b rest] eqn:Hq; [done|by apply Hblocks].
  - destruct (boundary_booked q H) as (Hc & Hh & Hm & Hs & Hk). unfold _activate_run_locked.
    destruct (Z.eqb_spec run 0) as [Hr|Hr]; [done|]. destruct (negb (bool_decide _)); [done|].
    destruct H. apply booked; [split; cbn; try done; rewrite ?Hm, ?Hs, ?Hh; unfold zlen in *; cbn; try lia; by try constructor|].
    intros k Hdk. rewrite !Hzero. unfold balance at 1. cbn [fst StreamQueues._blocks StreamQueues.counters].
    rewrite Hzero. pose proof (Hk k Hdk). lia.
  - destruct (boundary_booked q H) as (Hc & Hh & Hm & Hs & Hk). unfold _deactivate_stream_locked.
    assert (Hrun : StreamQueues._active_run_id (_record_boundary_blocks_locked q) = StreamQueues._active_run_id q).
    { unfold _record_boundary_blocks_locked. by destruct (StreamQueues.counters q). }
    destruct H. apply booked; [split; queue_simpl; try done; rewrite ?Hm, ?Hs, ?Hh, ?Hrun; unfold zlen in *; cbn; try lia; by try constructor|].
    intros k Hdk. rewrite !Hzero. unfold balance at 1. cbn [fst StreamQueues._blocks StreamQueues.counters].
    rewrite Hzero. pose proof (Hk k Hdk). lia.
  - destruct H. apply booked; [by split|]. intros k _. rewrite !Hzero. unfold balance, stop_stream. queue_simpl. lia.
  - assert (0 <= zlen (StreamQueues._blocks q)) by (unfold zlen; lia).
    apply booked; [destruct H; split; cbn; try done; unfold zlen in *; cbn; lia|].
    intros k _. unfold balance, clear_queues. queue_simpl. rewrite !Hzero. lia.
Qed.
End Booking.

Lemma moved_zero k m n :
  zlen (of_kind k (Moved.delivered (moved_then m n))) = zlen (of_kind k (Moved.delivered m)) + zlen (of_kind k (Moved.delivered n)) /\
  zlen (of_kind k (Moved.refused (moved_then m n))) = zlen (of_kind k (Moved.refused m)) + zlen (of_kind k (Moved.refused n)) /\
  zlen (of_kind k (Moved.cleared (moved_then m n))) = zlen (of_kind k (Moved.cleared m)) + zlen (of_kind k (Moved.cleared n)).
Proof. cbn [Moved.delivered Moved.refused Moved.cleared moved_then]. rewrite !of_kind_app. unfold zlen. rewrite !length_app. lia. Qed.

Lemma apply_ops_booked ops : forall u q,
  queues_inv u q -> Forall reader_op_ok ops -> op_booked u q (apply_ops q ops).
Proof.
  induction ops as [|op ops IH]; intros u q H Hops.
  - apply booked; [done|]. intros k _. change (zlen (of_kind k [])) with 0. lia.
  - apply Forall_cons in Hops as [Hop Hops]. cbn [apply_ops]. pose proof (op_booked_ok u q op H Hop) as Hb.
    destruct (apply_op q op) as [q1 m]. destruct Hb as [H1 Hk1]. specialize (IH _ q1 H1 Hops).
    destruct (apply_ops q1 ops) as [q2 n]. destruct IH as [H2 Hk2].
    split; [cbn [Moved.unknown moved_then]; by rewrite Z.add_assoc|]. intros k Hk.
    destruct (moved_zero k m n) as (-> & -> & ->). rewrite (Hk2 k Hk), (Hk1 k Hk). lia.
Qed.

(** The operations that are [p]. *)
Definition occurrences (p : reader_op) (ops : list reader_op) : Z :=
  fold_right (fun op n => (match op, p with OpUnknown, OpUnknown | OpClose, OpClose => 1 | _, _ => 0 end) + n) 0 ops.

Lemma moved_what ops : forall q,
  Moved.unknown (apply_ops q ops).2 = occurrences OpUnknown ops /\
  (occurrences OpClose ops = 0 -> Moved.cleared (apply_ops q ops).2 = []).
Proof.
  assert (Hpos : forall ops, 0 <= occurrences OpClose ops) by (intros ops0; induction ops0 as [|[] ? IH0]; [done|unfold occurrences in *; cbn [fold_right]; lia..]).
  induction ops as [|op ops IH]; intros q; [done|]. cbn [apply_ops].
  assert (Hop : Moved.unknown (apply_op q op).2 = occurrences OpUnknown [op] /\
    (occurrences OpClose [op] = 0 -> Moved.cleared (apply_op q op).2 = [])).
  { destruct op; cbn [apply_op]; try done.
    - by destruct (_dispatch_block q b) as [q' []].
    - by destruct (take_stream_item q) as [q' [[]|]].
    - by destruct (take_block q). }
  destruct (apply_op q op) as [q1 m]. cbn [snd] in Hop. destruct (IH q1) as [IH1 IH2].
  destruct (apply_ops q1 ops) as [q2 n]. cbn [snd] in *. specialize (Hpos ops).
  assert (Ho : forall p, occurrences p (op :: ops) = occurrences p [op] + occurrences p ops) by (intros p; unfold occurrences; cbn [fold_right]; lia).
  assert (0 <= occurrences OpClose [op]) by (destruct op; cbn; lia). rewrite !Ho. destruct Hop as [Hop1 Hop2]. split.
  - cbn [Moved.unknown moved_then]. lia.
  - intros Hz. cbn [Moved.cleared moved_then]. rewrite Hop2, IH2 by lia. done.
Qed.

(** C30. The reader's counters conserve blocks.  After any sequence of arriving frames,
    reads of either kind, run boundaries, failures and closings, both queues are within
    their bounds, the high-water mark is between the depth and the bound, and in each
    stream every received block was delivered, is queued, was refused with an error, is
    counted as exactly one of dropped, stale and boundary-discarded, or was still queued
    when [close] cleared the queue, which counts nothing.  The totals are the sums over
    the two streams, except that the stale total also counts the data frames that came
    while no settings were known, which no stream counts. *)
Theorem stream_counters_conserve (max_queued_blocks max_queued_events : Z) (ops : list reader_op) :
  0 < max_queued_blocks -> Forall reader_op_ok ops ->
  let '(q, moved) := apply_ops (new_queues max_queued_blocks max_queued_events) ops in
  let c := StreamQueues.counters q in
  zlen (StreamQueues._blocks q) <= QueueCounters.block_queue_high_water c <= StreamQueues._max_queued_blocks q /\
  zlen (StreamQueues._stream_reports q) <= StreamQueues._max_stream_reports q /\
  counted (occurrences OpUnknown ops) c /\
  (occurrences OpClose ops = 0 -> Moved.cleared moved = []) /\
  forall k, data_kind k = true ->
    StreamTally.frames_received (tally_of k c)
    = zlen (of_kind k (Moved.delivered moved)) + zlen (of_kind k (StreamQueues._blocks q))
      + zlen (of_kind k (Moved.refused moved)) + zlen (of_kind k (Moved.cleared moved)) + discarded k c.
Proof.
  intros Hm Hops. assert (H0 : queues_inv 0 (new_queues max_queued_blocks max_queued_events)).
  { split; cbn; unfold zlen; cbn; try done; try lia; try constructor; done. }
  pose proof (apply_ops_booked ops _ _ H0 Hops) as Hb.
  destruct (moved_what ops (new_queues max_queued_blocks max_queued_events)) as [Hu Hcl].
  destruct (apply_ops _ ops) as [q m]. destruct Hb as [H Hk]. cbn [snd] in Hu, Hcl. rewrite Hu in H.
  cbv zeta. split; [apply H|]. split; [apply H|]. split; [apply H|]. split; [done|]. intros k Hdk. specialize (Hk k Hdk).
  unfold balance in Hk. assert (Hz : zlen (of_kind k []) = 0) by done. cbn [new_queues StreamQueues._blocks StreamQueues.counters] in Hk.
  rewrite Hz in Hk. assert (Hn : StreamTally.frames_received (tally_of k no_counters) = 0 /\ discarded k no_counters = 0)
    by (by destruct k). lia.
Qed.

(** ** Witnesses *)

(** A decoded ADC block of run 1. *)
Definition example_at (sequence ticks : Z) : list DataBlock :=
  match example_block sequence ticks 0 with Ok b => [AdcData b] | Err _ => [] end.

Lemma example_at_wf sequence ticks :
  Forall v3_wf (example_at sequence ticks).
Proof.
  unfold example_at. destruct (example_block sequence ticks 0) as [b|e] eqn:H; [|constructor].
  constructor; [|constructor]. split; [by apply (example_block_wf _ _ _ _ H)|].
  unfold example_block in H. apply bind_Ok_inv in H as (m & _ & H). apply bind_Ok_inv in H as (e & _ & H).
  destruct (new_adc_block_version _ _ H) as [Hv _]. exact Hv.
Qed.

(** Four consecutive blocks into a queue of two, then two reads. *)
Definition example_blocks : list DataBlock :=
  example_at 0 0 ++ example_at 1 16 ++ example_at 2 32 ++ example_at 3 48.
Definition example_queues : StreamQueues := (_activate_run_locked (new_queues 2 4) 1 Checksum.ADLER32).1.

Lemma stream_items_exact_witness :
  exists q items, run_queue example_queues (map Dispatch example_blocks ++ [TakeItem; TakeItem]) = (q, items, None)
    /\ length items = 2%nat.
Proof.
  destruct (stream_items_exact Source.HARDWARE 1 example_queues (map Dispatch example_blocks ++ [TakeItem; TakeItem]))
    as (q & items & taken & covs & Hr & _).
  - split_and!; (reflexivity || vm_compute; (discriminate || reflexivity)).
  - apply Forall_app. split; [|by repeat constructor]. apply Forall_fmap.
    assert (Hw : Forall v3_wf example_blocks) by (unfold example_blocks; rewrite !Forall_app; auto using example_at_wf).
    assert (Hp : Forall (fun b => block_source b = Source.HARDWARE /\ block_checksum b = Checksum.ADLER32) example_blocks)
      by (apply (bool_decide_unpack _); vm_compute; exact I).
    rewrite Forall_forall in Hw, Hp. apply Forall_forall. intros b Hb. destruct (Hw b Hb) as [Hwf Hv], (Hp b Hb) as [Hs Hc].
    split; [exact Hwf|]. intros _. split; [exact Hv|]. split; [exact Hs|exact Hc].
  - exists q, items. split; [exact Hr|]. revert Hr. vm_compute. intros [= _ <-]. reflexivity.
Defined.

(** A frame before any settings, a run read in part, and a second run that [close] cuts off. *)
Definition example_ops : list reader_op :=
  [OpUnknown; OpActivate 1 Checksum.ADLER32] ++ map OpDispatch example_blocks
  ++ [OpTakeItem; OpTakeBlock; OpDeactivate; OpActivate 1 Checksum.ADLER32] ++ map OpDispatch (example_at 0 0) ++ [OpClose].

Lemma stream_counters_conserve_witness :
  exists q moved, apply_ops (new_queues 2 4) example_ops = (q, moved)
    /\ counted 1 (StreamQueues.counters q) /\ zlen (Moved.cleared moved) = 1.
Proof.
  assert (Hops : Forall reader_op_ok example_ops).
  { unfold example_ops. rewrite !Forall_app, !Forall_fmap. unfold example_blocks. rewrite !Forall_app.
    split_and!; try apply example_at_wf; repeat constructor; cbn; lia. }
  pose proof (stream_counters_conserve 2 4 _ ltac:(lia) Hops) as H.
  destruct (apply_ops (new_queues 2 4) example_ops) as [q moved] eqn:He. destruct H as (_ & _ & Hc & _).
  exists q, moved. split; [reflexivity|]. split; [exact Hc|]. revert He. vm_compute. intros [= _ <-]. reflexivity.
Defined.
