(* ===== verification/Reader.v ===== *)
(** * The background reader ([reader.py]): requests, responses, life cycle.

    [BackgroundReader] over a protocol-v3 session.  Each definition is one critical
    section of the reader's lock, so any interleaving of the reader thread and its
    callers is a sequence of these operations.  Request objects are shared between the
    caller and the reader thread: they live in a store and are referred to by handle.
    Times are integers on the monotonic clock, as arguments. *)

From stdpp Require Import gmap.
From S2P Require Import Prelude PyStruct Checksum V3Constants V3Header V3Samples ModelsV3 V3Frames Synthetic Profiles Losses Blocks Continuity StreamQueues.

(** ** State *)

Inductive reader_error :=
| ReaderProtocolError (message : string)
| ProtocolVersionRejected (protocol_version : Z)
| ReaderNotStartedError
| ReaderClosedError
| RequestTimeoutError (kind : CommandKind) (request_id : Z)
| DeviceDisconnectedError (message : string)
| PendingRequestLimitError
| ReaderCancelled.

(** [_PendingRequest] *)
Module PendingRequest.
Record PendingRequest := mk {
  kind : CommandKind;
  expected_kind : FrameKind;
  request_id : Z;
  deadline : Z;
  completed : bool;
  response : option V3Response;
  protocol_version : Z;
  error : option reader_error;
  negotiating : bool
}.
End PendingRequest.
Abbreviation PendingRequest := PendingRequest.PendingRequest.

(** The request map, its objects and its counters. *)
Module Requests.
Record Requests := mk {
  _max_pending_requests : Z;
  store : list PendingRequest;
  _pending : gmap Z nat;
  _next_request_id : Z;
  _responses_matched : Z;
  _late_responses : Z;
  _request_timeouts : Z;
  _pending_request_high_water : Z
}.
End Requests.
Abbreviation Requests := Requests.Requests.

Module BackgroundReader.
Record BackgroundReader := mk {
  requests : Requests;
  queues : StreamQueues;
  _active_v3_settings : option V3Settings;
  _selected_wire_version : option Z;
  _started : bool;
  _closed : bool;
  _stop_event : bool;
  _terminal_error : option reader_error;
  _frames_received : Z;
  _protocol_failures : Z;
  _disconnects : Z
}.
End BackgroundReader.
Abbreviation BackgroundReader := BackgroundReader.BackgroundReader.

(** [__init__] after its argument checks; [first_id] is 1 or [randbelow(UINT32_MAX) + 1]. *)
Definition new_reader (max_pending_requests max_queued_blocks max_queued_events first_id : Z) : BackgroundReader :=
  BackgroundReader.mk (Requests.mk max_pending_requests [] ∅ first_id 0 0 0 0)
    (new_queues max_queued_blocks max_queued_events) None None false false false None 0 0 0.

Definition set_requests (rs : Requests) (r : BackgroundReader) : BackgroundReader :=
  let '(BackgroundReader.mk _ q s v st cl ev te f pf d) := r in BackgroundReader.mk rs q s v st cl ev te f pf d.
Definition set_queues (q : StreamQueues) (r : BackgroundReader) : BackgroundReader :=
  let '(BackgroundReader.mk rs _ s v st cl ev te f pf d) := r in BackgroundReader.mk rs q s v st cl ev te f pf d.
Definition set_v3_settings (s : option V3Settings) (r : BackgroundReader) : BackgroundReader :=
  let '(BackgroundReader.mk rs q _ v st cl ev te f pf d) := r in BackgroundReader.mk rs q s v st cl ev te f pf d.
Definition set_wire_version (v : option Z) (r : BackgroundReader) : BackgroundReader :=
  let '(BackgroundReader.mk rs q s _ st cl ev te f pf d) := r in BackgroundReader.mk rs q s v st cl ev te f pf d.
Definition count_frame (r : BackgroundReader) : BackgroundReader :=
  let '(BackgroundReader.mk rs q s v st cl ev te f pf d) := r in BackgroundReader.mk rs q s v st cl ev te (f + 1) pf d.

(** ** The request map *)

(** Update one request object. *)
Definition update_request (h : nat) (f : PendingRequest -> PendingRequest) (rs : Requests) : Requests :=
  let '(Requests.mk m st p n mt lt tm hw) := rs in Requests.mk m (alter f h st) p n mt lt tm hw.
Definition set_pending (p : gmap Z nat) (rs : Requests) : Requests :=
  let '(Requests.mk m st _ n mt lt tm hw) := rs in Requests.mk m st p n mt lt tm hw.
Definition count_matched (rs : Requests) : Requests :=
  let '(Requests.mk m st p n mt lt tm hw) := rs in Requests.mk m st p n (mt + 1) lt tm hw.
Definition count_late (rs : Requests) : Requests :=
  let '(Requests.mk m st p n mt lt tm hw) := rs in Requests.mk m st p n mt (lt + 1) tm hw.
Definition count_timeout (rs : Requests) : Requests :=
  let '(Requests.mk m st p n mt lt tm hw) := rs in Requests.mk m st p n mt lt (tm + 1) hw.

Definition set_error (e : reader_error) (p : PendingRequest) : PendingRequest :=
  let '(PendingRequest.mk k ek id dl c r v _ ng) := p in PendingRequest.mk k ek id dl c r v (Some e) ng.
Definition set_response (r : V3Response) (p : PendingRequest) : PendingRequest :=
  let '(PendingRequest.mk k ek id dl c _ v e ng) := p in PendingRequest.mk k ek id dl c (Some r) v e ng.
Definition set_completed (p : PendingRequest) : PendingRequest :=
  let '(PendingRequest.mk k ek id dl _ r v e ng) := p in PendingRequest.mk k ek id dl true r v e ng.

(** [response is None and error is None] *)
Definition unsettled (p : PendingRequest) : bool :=
  bool_decide (PendingRequest.response p = None) && bool_decide (PendingRequest.error p = None).

(** [(request_id + 1) & UINT32_MAX], skipping zero. *)
Definition next_id (id : Z) : Z :=
  let next := u32 (id + 1) in if next =? 0 then 1 else next.

(** The loop of [_allocate_request_id_locked]: [tries] IDs from the next one on; the new
    next ID and the free ID. *)
Fixpoint allocate (pending : gmap Z nat) (tries : nat) (id : Z) : Z * option Z :=
  match tries with
  | O => (id, None)
  | S tries => if decide (pending !! id = None) then (next_id id, Some id) else allocate pending tries (next_id id)
  end.

Definition _allocate_request_id_locked (rs : Requests) : Requests * option Z :=
  let '(Requests.mk m st p n mt lt tm hw) := rs in
  let '(n, id) := allocate p (Z.to_nat (m + 1)) n in
  (Requests.mk m st p n mt lt tm hw, id).

(** A new object registered under its ID. *)
Definition register (p : PendingRequest) (rs : Requests) : Requests :=
  let '(Requests.mk m st pending n mt lt tm hw) := rs in
  let pending := <[PendingRequest.request_id p := length st]> pending in
  Requests.mk m (st ++ [p]) pending n mt lt tm (Z.max hw (Z.of_nat (size pending))).

(** [_fail_all_pending_locked] *)
Definition _fail_all_pending_locked (e : reader_error) (rs : Requests) : Requests :=
  let fail (p : PendingRequest) := if unsettled p then set_completed (set_error e p) else p in
  set_pending ∅
    (map_fold (fun _ h rs => update_request h fail rs) rs (Requests._pending rs)).

(** ** Errors that end the session *)

Definition _require_live_locked (r : BackgroundReader) : result reader_error unit :=
  if BackgroundReader._closed r then Err ReaderClosedError
  else match BackgroundReader._terminal_error r with
       | Some e => Err e
       | None => if BackgroundReader._started r then Ok tt else Err ReaderNotStartedError
       end.

Definition _terminate (r : BackgroundReader) (e : reader_error) (protocol_failure disconnected : bool) :
    BackgroundReader :=
  let '(BackgroundReader.mk rs q s v st cl ev te f pf d) := r in
  let q := stop_stream q in
  match te, cl with
  | None, false =>
      BackgroundReader.mk (_fail_all_pending_locked e rs) q s v st cl true (Some e) f
        (pf + Z.b2z protocol_failure) (d + Z.b2z disconnected)
  | _, _ => BackgroundReader.mk rs q s v st cl true te f pf d
  end.

(** The locked part of [close]; closing the transport and joining the thread follow. *)
Definition close (r : BackgroundReader) : BackgroundReader :=
  let '(BackgroundReader.mk rs q s v st cl ev te f pf d) := r in
  if cl then r
  else BackgroundReader.mk (_fail_all_pending_locked ReaderClosedError rs) (clear_queues q) s v st true true te f pf d.

(** [start], the thread apart. *)
Definition start (r : BackgroundReader) (transport_is_open : bool) : BackgroundReader * result reader_error unit :=
  if BackgroundReader._closed r then (r, Err ReaderClosedError)
  else match BackgroundReader._terminal_error r with
  | Some e => (r, Err e)
  | None =>
      if BackgroundReader._started r then (r, Ok tt)
      else if negb transport_is_open then (r, Err (DeviceDisconnectedError "transport is not open"))
      else let '(BackgroundReader.mk rs q s v _ cl ev te f pf d) := r in
           (BackgroundReader.mk rs q s v true cl ev te f pf d, Ok tt)
  end.

(** ** Requests *)

Inductive request_error :=
| ReaderRaised (e : reader_error)
| FrameRaised (e : v3_error)
| BadKind (message : string).

(** [request] up to the write: the handle and the wire bytes. *)
Definition begin_request (r : BackgroundReader) (kind : Z) (payload : bytes) (deadline : Z) (negotiating : bool) :
    BackgroundReader * result request_error (nat * bytes) :=
  match (enum_of kind : option FrameKind), (enum_of kind : option CommandKind) with
  | None, _ => (r, Err (BadKind "unknown request frame kind"))
  | Some _, None => (r, Err (BadKind "not a request frame kind"))
  | Some _, Some command =>
      match _require_live_locked r with
      | Err e => (r, Err (ReaderRaised e))
      | Ok _ =>
          let rs := BackgroundReader.requests r in
          if Requests._max_pending_requests rs <=? Z.of_nat (size (Requests._pending rs))
          then (r, Err (ReaderRaised PendingRequestLimitError))
          else
            match _allocate_request_id_locked rs with
            | (rs, None) => (set_requests rs r, Err (ReaderRaised PendingRequestLimitError))
            | (rs, Some id) =>
                let pending := PendingRequest.mk command (COMMAND_RESPONSE_KINDS command) id deadline false None
                                 PROTOCOL_VERSION None negotiating in
                match encode_v3_frame kind payload 0 0 0 id 0 0 with
                | Err e => (set_requests rs r, Err (FrameRaised e))
                | Ok wire => (set_requests (register pending rs) r, Ok (length (Requests.store rs), wire))
                end
            end
      end
  end.

(** [self._pending.get(request_id) is pending] *)
Definition is_pending (h : nat) (p : PendingRequest) (rs : Requests) : bool :=
  bool_decide (Requests._pending rs !! PendingRequest.request_id p = Some h).

Definition _complete_with_error (rs : Requests) (h : nat) (e : reader_error) (timeout : bool) : Requests :=
  match Requests.store rs !! h with
  | None => rs
  | Some p =>
      if negb (unsettled p) then rs
      else
        let rs := if is_pending h p rs
                  then set_pending (delete (PendingRequest.request_id p) (Requests._pending rs)) rs else rs in
        let rs := update_request h (set_error e) rs in
        let rs := if timeout then count_timeout rs else rs in
        update_request h set_completed rs
  end.

(** One expired request of [_expire_pending_requests]. *)
Definition expire (now : Z) (id : Z) (h : nat) (rs : Requests) : Requests :=
  match Requests.store rs !! h with
  | None => rs
  | Some p =>
      if PendingRequest.deadline p <=? now then
        let rs := set_pending (delete id (Requests._pending rs)) rs in
        if unsettled p then
          update_request h set_completed
            (count_timeout (update_request h (set_error (RequestTimeoutError (PendingRequest.kind p) id)) rs))
        else rs
      else rs
  end.

Definition _expire_pending_requests (now : Z) (rs : Requests) : Requests :=
  map_fold (expire now) rs (Requests._pending rs).

(** What [request] returns or raises once its wait is over. *)
Definition request_outcome (p : PendingRequest) : option (result reader_error V3Response) :=
  match PendingRequest.error p with
  | Some e => Some (Err e)
  | None => Ok <$> PendingRequest.response p
  end.

(** ** Responses *)

Definition ok (r : V3Response) : bool := bool_decide (V3Response.status r = ResponseStatus.OK).

(** An explicit rejection of the probed wire version. *)
Definition rejects_version (p : PendingRequest) (r : V3Response) (wire_version : Z) : bool :=
  PendingRequest.negotiating p
  && bool_decide (PendingRequest.kind p = CommandKind.INFO)
  && negb (ok r)
  && bool_decide (V3Response.error_code r = ErrorCode.UNSUPPORTED_VERSION)
  && ((bool_decide (V3Response.kind r = PendingRequest.expected_kind p)
       && (wire_version =? PendingRequest.protocol_version p))
      || ((wire_version =? PendingRequest.protocol_version p)
          && bool_decide (V3Response.kind r = FrameKind.ERROR_RESPONSE)
          && bool_decide (V3Response.rejected_kind r = Some (int_of (PendingRequest.kind p))))).

(** The reader after [_activate_run_locked]. *)
Definition activate_run (r : BackgroundReader) (run_id : Z) : BackgroundReader * option reader_error :=
  match _activate_run_locked (BackgroundReader.queues r) run_id Checksum.ADLER32 with
  | (q, Ok _) => (set_queues q r, None)
  | (q, Err (ProtocolError message)) => (set_queues q r, Some (ReaderProtocolError message))
  | (q, Err _) => (set_queues q r, Some (ReaderProtocolError "decoded frame violated protocol"))
  end.

Definition deactivate (r : BackgroundReader) : BackgroundReader :=
  set_queues (_deactivate_stream_locked (BackgroundReader.queues r)) r.

(** The effects of a matched response on the session: the reader, the error left on the
    request, and the error raised inside the lock. *)
Definition apply_response (r : BackgroundReader) (response : V3Response) (wire_version : Z) :
    BackgroundReader * option reader_error * option reader_error :=
  let kind := V3Response.kind response in
  let r := if ok response && (bool_decide (kind = FrameKind.CONFIGURE_RESPONSE) || bool_decide (kind = FrameKind.START_RESPONSE))
           then set_wire_version (Some wire_version) r else r in
  if ok response && bool_decide (kind = FrameKind.START_RESPONSE) then
    match V3Response.value response with
    | Some (AppliedValue a) =>
        let r := set_v3_settings (Some (V3AppliedSettings.settings a)) r in
        let '(r, raised) := activate_run r (V3Response.run_id response) in
        (r, None, raised)
    | _ => (r, Some (ReaderProtocolError "successful START response omitted its configuration"), None)
    end
  else if ok response && bool_decide (kind = FrameKind.STOP_RESPONSE) then (deactivate r, None, None)
  else (r, None, None).

Definition on_requests (f : Requests -> Requests) (r : BackgroundReader) : BackgroundReader :=
  set_requests (f (BackgroundReader.requests r)) r.

(** [_dispatch_response]; the error is the one it raises. *)
Definition _dispatch_response (r : BackgroundReader) (response : V3Response) (wire_version : Z) :
    BackgroundReader * option reader_error :=
  let id := V3Response.request_id response in
  match Requests._pending (BackgroundReader.requests r) !! id with
  | None =>
      let r := on_requests count_late r in
      (if ok response && bool_decide (V3Response.kind response = FrameKind.STOP_RESPONSE)
          && (V3Response.run_id response =? StreamQueues._active_run_id (BackgroundReader.queues r))
          && bool_decide (BackgroundReader._selected_wire_version r = Some wire_version)
       then deactivate r else r, None)
  | Some h =>
      let r := on_requests (fun rs => set_pending (delete id (Requests._pending rs)) rs) r in
      match Requests.store (BackgroundReader.requests r) !! h with
      | None => (r, None)
      | Some p =>
          let finish := on_requests (update_request h set_completed) in
          let fail e := (finish (on_requests (update_request h (set_error e)) r), Some e) in
          if rejects_version p response wire_version then
            (finish (on_requests count_matched
              (on_requests (update_request h (set_error (ProtocolVersionRejected (PendingRequest.protocol_version p)))) r)),
             None)
          else if negb (wire_version =? PendingRequest.protocol_version p) then
            fail (ReaderProtocolError "response protocol version differs from request")
          else if negb (bool_decide (V3Response.kind response = PendingRequest.expected_kind p)
                        || bool_decide (V3Response.kind response = FrameKind.ERROR_RESPONSE)) then
            fail (ReaderProtocolError "unexpected response kind")
          else
            let r := on_requests count_matched (on_requests (update_request h (set_response response)) r) in
            match apply_response r response wire_version with
            | (r, _, Some raised) => (r, Some raised)
            | (r, None, None) => (finish r, None)
            | (r, Some e, None) => (finish (on_requests (update_request h (set_error e)) r), Some e)
            end
      end
  end.

(** ** The reader thread *)

(** Data of a run whose settings are unknown: discarded. *)
Definition discard_unknown (r : BackgroundReader) : BackgroundReader :=
  let q := BackgroundReader.queues r in
  set_queues (set_counters (count_unknown (StreamQueues.counters q)) q) r.

(** One frame of the loop; the error ends the thread. *)
Definition process_frame (r : BackgroundReader) (frame : V3Frame) : BackgroundReader * option reader_error :=
  let header := V3Frame.header frame in
  let violated := Some (ReaderProtocolError "decoded frame violated protocol") in
  let is_data := _DATA_KINDS (V3FrameHeader.kind header) in
  if is_data && match BackgroundReader._selected_wire_version r with
                | Some version => negb (V3FrameHeader.version header =? version)
                | None => false
                end
  then (r, Some (ReaderProtocolError "unnegotiated data wire version"))
  else if is_data then
    match BackgroundReader._active_v3_settings r with
    | None => (discard_unknown r, None)
    | Some settings =>
        match decode_v3_block frame settings with
        | Err _ => (r, violated)
        | Ok block =>
            let r := count_frame r in
            match _dispatch_block (BackgroundReader.queues r) block with
            | (q, Ok _) => (set_queues q r, None)
            | (q, Err (ProtocolError message)) => (set_queues q r, Some (ReaderProtocolError message))
            | (q, Err _) => (set_queues q r, violated)
            end
        end
    end
  else
    match decode_v3_response frame with
    | Err _ => (r, violated)
    | Ok response => _dispatch_response (count_frame r) response (V3FrameHeader.version header)
    end.

(** The frames of one chunk: the thread stops at [_stop_event] or at an error, which
    terminates the session. *)
Fixpoint process_frames (r : BackgroundReader) (frames : list V3Frame) : BackgroundReader :=
  match frames with
  | [] => r
  | frame :: frames =>
      if BackgroundReader._stop_event r then r
      else match process_frame r frame with
           | (r, Some e) => _terminate r e true false
           | (r, None) => process_frames r frames
           end
  end.

(** [activate_v3_run] *)
Definition activate_v3_run (r : BackgroundReader) (run_id : Z) (settings : V3Settings) :
    BackgroundReader * result reader_error unit :=
  match _require_live_locked r with
  | Err e => (r, Err e)
  | Ok _ =>
      let r := set_wire_version (Some 3) (set_v3_settings (Some settings) r) in
      match activate_run r run_id with
      | (r, Some e) => (r, Err e)
      | (r, None) => (r, Ok tt)
      end
  end.

(** [deactivate_stream] *)
Definition deactivate_stream (r : BackgroundReader) : BackgroundReader * result reader_error unit :=
  match _require_live_locked r with
  | Err e => (r, Err e)
  | Ok _ => (deactivate r, Ok tt)
  end.

(** ** Request IDs *)

(** The [n]-th ID from [id] on: 1 to 2^32 - 1, then 1 again. *)
Definition nth_id (id : Z) (n : nat) : Z := (id - 1 + Z.of_nat n) mod (2 ^ 32 - 1) + 1.

Lemma nth_id_range id n : 0 < nth_id id n < 2 ^ 32.
Proof. unfold nth_id. pose proof (Z.mod_pos_bound (id - 1 + Z.of_nat n) (2 ^ 32 - 1)). pow_lit. lia. Qed.

Lemma nth_id_0 id : 0 < id < 2 ^ 32 -> nth_id id 0 = id.
Proof. intros H. unfold nth_id. rewrite Z.mod_small; lia. Qed.

Lemma next_id_nth id : 0 < id < 2 ^ 32 -> next_id id = nth_id id 1.
Proof.
  intros H. unfold next_id, nth_id. rewrite u32_mod. replace (id - 1 + Z.of_nat 1) with id by lia.
  destruct (decide (id = 2 ^ 32 - 1)) as [->|Hne]; [done|].
  rewrite !Z.mod_small by lia. destruct (Z.eqb_spec (id + 1) 0); lia.
Qed.

Lemma nth_id_next id n : 0 < id < 2 ^ 32 -> nth_id (next_id id) n = nth_id id (S n).
Proof.
  intros H. rewrite next_id_nth by done. unfold nth_id. rewrite Z.add_simpl_r, Zplus_mod_idemp_l.
  do 2 f_equal. lia.
Qed.

Lemma nth_id_inj id i j :
  Z.of_nat i < 2 ^ 32 - 1 -> Z.of_nat j < 2 ^ 32 - 1 -> nth_id id i = nth_id id j -> i = j.
Proof.
  intros Hi Hj H. unfold nth_id in H.
  assert (H' : (id - 1 + Z.of_nat i) mod (2 ^ 32 - 1) = (id - 1 + Z.of_nat j) mod (2 ^ 32 - 1)) by lia. clear H.
  assert (Hm : (Z.of_nat i - Z.of_nat j) mod (2 ^ 32 - 1) = 0).
  { replace (Z.of_nat i - Z.of_nat j) with ((id - 1 + Z.of_nat i) - (id - 1 + Z.of_nat j)) by lia.
    by rewrite Zminus_mod, H', Z.sub_diag. }
  apply Z.mod_divide in Hm as [q Hq]; [|lia]. nia.
Qed.

Lemma allocate_cases pending tries : forall id,
  0 < id < 2 ^ 32 ->
  let '(next, found) := allocate pending tries id in
  0 < next < 2 ^ 32 /\
  match found with
  | Some free => exists n, (n < tries)%nat /\ free = nth_id id n /\ pending !! free = None /\ next = next_id free /\
      forall m, (m < n)%nat -> is_Some (pending !! nth_id id m)
  | None => forall m, (m < tries)%nat -> is_Some (pending !! nth_id id m)
  end.
Proof.
  induction tries as [|tries IH]; intros id H; cbn [allocate]; [split; [done|intros m Hm; lia]|].
  assert (Hn : 0 < next_id id < 2 ^ 32) by (rewrite next_id_nth by done; apply nth_id_range).
  destruct (decide (pending !! id = None)) as [Hfree|Hused].
  - split; [done|]. exists 0%nat. rewrite nth_id_0 by done. split; [lia|]. split; [done|]. split; [done|].
    split; [done|]. intros m Hm. lia.
  - specialize (IH (next_id id) Hn). destruct (allocate pending tries (next_id id)) as [next [free|]].
    + destruct IH as (Hnext & n & Hlt & -> & Hp & -> & Hm). split; [done|]. exists (S n).
      rewrite <-nth_id_next by done. split; [lia|]. do 3 (split; [done|]). intros [|m] Hlm.
      * rewrite nth_id_0 by done. by apply not_eq_None_Some.
      * rewrite <-nth_id_next by done. apply Hm. lia.
    + destruct IH as [Hnext Hm]. split; [done|]. intros [|m] Hlm.
      * rewrite nth_id_0 by done. by apply not_eq_None_Some.
      * rewrite <-nth_id_next by done. apply Hm. lia.
Qed.

(** Distinct keys of a map are no more than its size. *)
Lemma keys_bounded {A} (m : gmap Z A) (f : nat -> Z) (n : nat) :
  (forall i, (i < n)%nat -> is_Some (m !! f i)) ->
  (forall i j, (i < n)%nat -> (j < n)%nat -> f i = f j -> i = j) -> (n <= size m)%nat.
Proof.
  intros Hin Hinj. rewrite <-size_dom.
  assert (Hnd : NoDup (map f (seq 0 n))).
  { apply NoDup_fmap_2_strong; [|apply NoDup_seq].
    intros i j Hi Hj. apply elem_of_seq in Hi, Hj. apply Hinj; lia. }
  assert (Hsub : (list_to_set (map f (seq 0 n)) : gset Z) ⊆ dom m).
  { intros x Hx. apply elem_of_list_to_set, list_elem_of_fmap in Hx as (i & -> & Hi).
    apply elem_of_seq in Hi. apply elem_of_dom, Hin. lia. }
  apply subseteq_size in Hsub. rewrite size_list_to_set in Hsub by done. by rewrite length_map, length_seq in Hsub.
Qed.

(** The allocation loop finds a free ID when the map has room. *)
Lemma request_ids_fresh_lemma (rs : Requests) :
  0 < Requests._next_request_id rs < 2 ^ 32 ->
  Z.of_nat (size (Requests._pending rs)) < Requests._max_pending_requests rs < 2 ^ 32 - 1 ->
  exists rs' id n, _allocate_request_id_locked rs = (rs', Some id)
    /\ 0 < id < 2 ^ 32 /\ Requests._pending rs !! id = None
    /\ id = nth_id (Requests._next_request_id rs) n
    /\ (forall m, (m < n)%nat -> is_Some (Requests._pending rs !! nth_id (Requests._next_request_id rs) m))
    /\ Requests._next_request_id rs' = next_id id /\ 0 < Requests._next_request_id rs' < 2 ^ 32
    /\ Requests._pending rs' = Requests._pending rs /\ Requests.store rs' = Requests.store rs
    /\ Requests._max_pending_requests rs' = Requests._max_pending_requests rs.
Proof.
  destruct rs as [m st p next mt lt tm hw]. cbn [Requests._next_request_id Requests._pending
    Requests._max_pending_requests Requests.store]. intros Hnext Hroom. unfold _allocate_request_id_locked.
  pose proof (allocate_cases p (Z.to_nat (m + 1)) next Hnext) as H.
  destruct (allocate p (Z.to_nat (m + 1)) next) as [next' [id|]].
  - destruct H as (Hn & n & Hlt & -> & Hfree & -> & Hm). eexists _, _, n. split; [done|]. split; [apply nth_id_range|].
    by repeat (split; [done|]).
  - exfalso. destruct H as [_ Hall].
    pose proof (keys_bounded p (nth_id next) (Z.to_nat (m + 1)) Hall) as Hk.
    assert (Z.to_nat (m + 1) <= size p)%nat; [|lia]. apply Hk. intros i j Hi Hj. apply nth_id_inj; lia.
Qed.

(** ** The life of a request *)

(** Responses reach only the request they answer. *)
Definition correlates (p : PendingRequest) : Prop :=
  forall r, PendingRequest.response p = Some r ->
    V3Response.request_id r = PendingRequest.request_id p /\
    (V3Response.kind r = PendingRequest.expected_kind p \/ V3Response.kind r = FrameKind.ERROR_RESPONSE).

Record requests_inv (rs : Requests) : Prop := {
  ri_limit : 0 < Requests._max_pending_requests rs < 2 ^ 32 - 1;
  ri_size : Z.of_nat (size (Requests._pending rs)) <= Requests._max_pending_requests rs;
  ri_next : 0 < Requests._next_request_id rs < 2 ^ 32;
  ri_pending id h : Requests._pending rs !! id = Some h ->
    exists p, Requests.store rs !! h = Some p /\ PendingRequest.request_id p = id /\ 0 < id < 2 ^ 32 /\
      unsettled p = true /\ PendingRequest.completed p = false;
  ri_unsettled h p : Requests.store rs !! h = Some p -> unsettled p = true ->
    Requests._pending rs !! PendingRequest.request_id p = Some h;
  ri_correlates h p : Requests.store rs !! h = Some p -> correlates p
}.

(** The parts of the state the invariant is about. *)
Definition core (rs : Requests) : Z * list PendingRequest * gmap Z nat * Z :=
  (Requests._max_pending_requests rs, Requests.store rs, Requests._pending rs, Requests._next_request_id rs).

Lemma requests_inv_core rs rs' : core rs = core rs' -> requests_inv rs -> requests_inv rs'.
Proof. destruct rs, rs'. unfold core. cbn. intros [= <- <- <- <-] []. by split. Qed.

(** What never changes in a request object, and what changes at most once. *)
Definition settles (p p' : PendingRequest) : Prop :=
  PendingRequest.kind p' = PendingRequest.kind p /\ PendingRequest.request_id p' = PendingRequest.request_id p /\
  PendingRequest.expected_kind p' = PendingRequest.expected_kind p /\
  (unsettled p = false -> unsettled p' = false /\ request_outcome p' = request_outcome p).

Definition progress (rs rs' : Requests) : Prop :=
  forall h p, Requests.store rs !! h = Some p -> exists p', Requests.store rs' !! h = Some p' /\ settles p p'.

Lemma settles_refl p : settles p p.
Proof. by repeat split. Qed.

Lemma settles_trans p1 p2 p3 : settles p1 p2 -> settles p2 p3 -> settles p1 p3.
Proof.
  intros (Hk & Hi & He & Ho) (Hk' & Hi' & He' & Ho'). split; [congruence|]. split; [congruence|]. split; [congruence|].
  intros H. destruct (Ho H) as [Hu Hq]. destruct (Ho' Hu) as [Hu' Hq']. split; [done|congruence].
Qed.

Lemma progress_trans rs1 rs2 rs3 : progress rs1 rs2 -> progress rs2 rs3 -> progress rs1 rs3.
Proof.
  intros H12 H23 h p Hp. destruct (H12 h p Hp) as (p2 & H2 & Hs2). destruct (H23 h p2 H2) as (p3 & H3 & Hs3).
  exists p3. split; [done|by eapply settles_trans].
Qed.

Lemma progress_store rs rs' : Requests.store rs = Requests.store rs' -> progress rs rs'.
Proof. intros Hs h p Hp. exists p. rewrite <-Hs. split; [done|apply settles_refl]. Qed.

Global Instance progress_preorder : PreOrder progress.
Proof.
  split; [intros rs; by apply progress_store|intros rs1 rs2 rs3; apply progress_trans].
Qed.

(** Settling one pending request and taking it out of the map. *)
Definition settle (id : Z) (h : nat) (f : PendingRequest -> PendingRequest) (rs : Requests) : Requests :=
  update_request h f (set_pending (delete id (Requests._pending rs)) rs).

(** An update that settles [p]. *)
Definition settling (p : PendingRequest) (f : PendingRequest -> PendingRequest) : Prop :=
  PendingRequest.kind (f p) = PendingRequest.kind p /\ PendingRequest.request_id (f p) = PendingRequest.request_id p /\
  PendingRequest.expected_kind (f p) = PendingRequest.expected_kind p /\ unsettled (f p) = false /\ correlates (f p).

Lemma settle_ok rs id h f :
  requests_inv rs -> Requests._pending rs !! id = Some h ->
  (forall p, Requests.store rs !! h = Some p -> PendingRequest.request_id p = id -> unsettled p = true -> settling p f) ->
  requests_inv (settle id h f rs) /\ progress rs (settle id h f rs).
Proof.
  destruct rs as [m st pend nx mt lt tm hw]. intros [Hl Hsz Hn Hp Hu Hc] Hid Hf.
  cbn [Requests._max_pending_requests Requests.store Requests._pending Requests._next_request_id] in *.
  destruct (Hp id h Hid) as (p & Hst & Hpid & Hrange & Hun & _). specialize (Hf p Hst Hpid Hun).
  unfold settle. cbn [set_pending update_request Requests._pending].
  assert (Hlook : forall h' q, alter f h st !! h' = Some q -> (h' = h /\ q = f p) \/ (h' <> h /\ st !! h' = Some q)).
  { intros h' q Hq. destruct (decide (h' = h)) as [->|Hne].
    - rewrite list_lookup_alter_eq, Hst in Hq. left. split; [done|]. by injection Hq as <-.
    - rewrite list_lookup_alter_ne in Hq by done. by right. }
  split; [split; cbn|]; try done.
  - etransitivity; [|exact Hsz]. apply Nat2Z.inj_le. rewrite map_size_delete, Hid. lia.
  - intros id' h' Hd. apply lookup_delete_Some in Hd as [Hne Hd]. destruct (Hp id' h' Hd) as (q & Hq & Hqid & ? & ? & ?).
    exists q. split; [|done]. rewrite list_lookup_alter_ne; [done|]. intros ->. congruence.
  - intros h' q Hq Huq. destruct (Hlook h' q Hq) as [[-> ->]|[Hne Hq']].
    + destruct Hf as (_ & _ & _ & Hs & _). congruence.
    + pose proof (Hu h' q Hq' Huq) as Hin. apply lookup_delete_Some. split; [|done]. intros Heq. congruence.
  - intros h' q Hq. destruct (Hlook h' q Hq) as [[-> ->]|[Hne Hq']]; [by destruct Hf as (_ & _ & _ & _ & ?)|by eapply Hc].
  - intros h' q Hq. cbn. destruct (decide (h' = h)) as [->|Hne].
    + exists (f p). rewrite list_lookup_alter_eq, Hst. split; [done|]. assert (q = p) as -> by (cbn in Hq; congruence).
      destruct Hf as (? & ? & ? & ? & _). split_and!; try done; congruence.
    + exists q. rewrite list_lookup_alter_ne by done. split; [done|apply settles_refl].
Qed.

Lemma unsettled_no_response p : unsettled p = true -> PendingRequest.response p = None /\ PendingRequest.error p = None.
Proof. unfold unsettled. rewrite andb_true_iff, !bool_decide_eq_true. done. Qed.

Lemma settling_error p e : unsettled p = true -> settling p (set_error e).
Proof.
  intros [Hr _]%unsettled_no_response. destruct p. cbn in Hr. subst. repeat split; by unfold unsettled; cbn; try done.
Qed.

Lemma settling_completed p f : settling p f -> settling p (fun p => set_completed (f p)).
Proof. intros (? & ? & ? & ? & Hc). unfold settling in *. by destruct (f p). Qed.

(** Updating a settled object without changing its outcome. *)
Lemma update_settled rs h f :
  requests_inv rs ->
  (forall p, Requests.store rs !! h = Some p -> unsettled p = false /\ settles p (f p) /\ correlates (f p)) ->
  requests_inv (update_request h f rs) /\ progress rs (update_request h f rs).
Proof.
  destruct rs as [m st pend nx mt lt tm hw]. intros [Hl Hsz Hn Hp Hu Hc] Hf. cbn [Requests.store] in *.
  assert (Hlook : forall h' q, alter f h st !! h' = Some q ->
    (exists p, h' = h /\ st !! h = Some p /\ q = f p) \/ (h' <> h /\ st !! h' = Some q)).
  { intros h' q Hq. destruct (decide (h' = h)) as [->|Hne].
    - rewrite list_lookup_alter_eq in Hq. apply fmap_Some in Hq as (p & ? & ->). left. eauto.
    - rewrite list_lookup_alter_ne in Hq by done. by right. }
  split; [split; cbn|]; try done.
  - intros id h' Hd. destruct (Hp id h' Hd) as (q & Hq & Hqid & ? & Huq & ?). exists q. split; [|done].
    rewrite list_lookup_alter_ne; [done|]. intros ->. destruct (Hf q Hq) as [? _]. congruence.
  - intros h' q Hq Huq. destruct (Hlook h' q Hq) as [(p & -> & Hst & ->)|[Hne Hq']]; [|by apply Hu].
    destruct (Hf p Hst) as (Hs & (_ & _ & _ & Ho) & _). destruct (Ho Hs) as [? _]. congruence.
  - intros h' q Hq. destruct (Hlook h' q Hq) as [(p & -> & Hst & ->)|[Hne Hq']]; [by apply Hf|by eapply Hc].
  - intros h' q Hq. cbn in *. destruct (decide (h' = h)) as [->|Hne].
    + exists (f q). rewrite list_lookup_alter_eq, Hq. split; [done|]. by apply Hf.
    + exists q. rewrite list_lookup_alter_ne by done. split; [done|apply settles_refl].
Qed.

(** Settled in one critical section: the error, and the event. *)
Definition failed (e : reader_error) (p : PendingRequest) : PendingRequest := set_completed (set_error e p).

Lemma settling_failed p e : unsettled p = true -> settling p (failed e).
Proof. intros H. by apply (settling_completed p (set_error e)), settling_error. Qed.

Lemma update_twice h f g rs : update_request h f (update_request h g rs) = update_request h (fun p => f (g p)) rs.
Proof. destruct rs. unfold update_request. f_equal. apply list_alter_alter_eq. Qed.

Lemma count_timeout_update h f rs : update_request h f (count_timeout rs) = count_timeout (update_request h f rs).
Proof. by destruct rs. Qed.

Lemma core_timeout rs : core (count_timeout rs) = core rs.
Proof. by destruct rs. Qed.
Lemma core_matched rs : core (count_matched rs) = core rs.
Proof. by destruct rs. Qed.
Lemma core_late rs : core (count_late rs) = core rs.
Proof. by destruct rs. Qed.

(** A change of counters only. *)
Lemma core_ok rs rs' rs0 : core rs = core rs' -> requests_inv rs /\ progress rs0 rs -> requests_inv rs' /\ progress rs0 rs'.
Proof.
  intros Hc [Hi Hp]. split; [by eapply requests_inv_core|]. eapply progress_trans; [exact Hp|].
  apply progress_store. destruct rs, rs'. by injection Hc.
Qed.

Lemma complete_with_error_ok rs h e timeout :
  requests_inv rs ->
  requests_inv (_complete_with_error rs h e timeout) /\ progress rs (_complete_with_error rs h e timeout).
Proof.
  intros H. unfold _complete_with_error. destruct (Requests.store rs !! h) as [p|] eqn:Hp; [|by split].
  destruct (unsettled p) eqn:Hu; cbn [negb]; [|by split].
  pose proof (ri_unsettled rs H h p Hp Hu) as Hin. unfold is_pending. rewrite bool_decide_eq_true_2 by done.
  assert (Hs : requests_inv (settle (PendingRequest.request_id p) h (failed e) rs) /\
               progress rs (settle (PendingRequest.request_id p) h (failed e) rs)).
  { apply settle_ok; [done..|]. intros q Hq _ Huq. by apply settling_failed. }
  eapply core_ok; [|exact Hs]. unfold settle. destruct timeout.
  - by rewrite count_timeout_update, update_twice, core_timeout.
  - by rewrite update_twice.
Qed.

Lemma expire_ok now rs id h :
  requests_inv rs -> Requests._pending rs !! id = Some h ->
  requests_inv (expire now id h rs) /\ progress rs (expire now id h rs) /\
  forall id', id' <> id -> Requests._pending (expire now id h rs) !! id' = Requests._pending rs !! id'.
Proof.
  intros H Hid. unfold expire. destruct (ri_pending rs H id h Hid) as (p & Hp & Hpid & _ & Hu & _). rewrite Hp.
  destruct (PendingRequest.deadline p <=? now); [|by split]. rewrite Hu.
  set (e := RequestTimeoutError (PendingRequest.kind p) id).
  assert (Hs : requests_inv (settle id h (failed e) rs) /\ progress rs (settle id h (failed e) rs)).
  { apply settle_ok; [done..|]. intros q _ _ Huq. by apply settling_failed. }
  rewrite count_timeout_update, update_twice.
  destruct (core_ok _ (count_timeout (settle id h (failed e) rs)) rs (eq_sym (core_timeout _)) Hs) as [H1 H2].
  split; [done|]. split; [done|]. intros id' Hne. destruct rs. cbn. by rewrite lookup_delete_ne.
Qed.

Lemma expire_pending_ok now rs :
  requests_inv rs ->
  requests_inv (_expire_pending_requests now rs) /\ progress rs (_expire_pending_requests now rs).
Proof.
  intros H. unfold _expire_pending_requests. rewrite map_fold_foldr.
  assert (Hgen : forall l, NoDup l.*1 -> (forall id h, (id, h) ∈ l -> Requests._pending rs !! id = Some h) ->
    let acc := foldr (uncurry (expire now)) rs l in
    requests_inv acc /\ progress rs acc /\
    forall id, id ∉ l.*1 -> Requests._pending acc !! id = Requests._pending rs !! id).
  { induction l as [|[id h] l IH]; intros Hnd Hl acc; [by split|]. cbn in Hnd. apply NoDup_cons in Hnd as [Hni Hnd].
    destruct IH as (H1 & H2 & H3); [done|intros i j Hij; apply Hl; by right|].
    unfold acc. cbn [foldr uncurry]. destruct (expire_ok now _ id h H1) as (H4 & H5 & H6).
    { rewrite H3 by done. apply Hl. left. }
    split; [done|]. split; [by eapply progress_trans|]. intros i Hi. cbn in Hi. apply not_elem_of_cons in Hi as [Hne Hi].
    rewrite H6 by done. by apply H3. }
  destruct (Hgen (map_to_list (Requests._pending rs))) as (H1 & H2 & _); [apply NoDup_fst_map_to_list| |done].
  intros id h Hin. by apply elem_of_map_to_list.
Qed.

Lemma fail_all_ok e rs :
  requests_inv rs ->
  requests_inv (_fail_all_pending_locked e rs) /\ progress rs (_fail_all_pending_locked e rs) /\
  Requests._pending (_fail_all_pending_locked e rs) = ∅.
Proof.
  intros H. unfold _fail_all_pending_locked. rewrite map_fold_foldr.
  set (fail := fun p => if unsettled p then set_completed (set_error e p) else p).
  assert (Hfail : forall p, settles p (fail p) /\ (correlates p -> correlates (fail p))).
  { intros p. unfold fail. destruct (unsettled p) eqn:Hu; [|split; [apply settles_refl|done]].
    pose proof (settling_failed p e Hu) as (? & ? & ? & ? & ?). split; [split_and!; try done; congruence|done]. }
  assert (Hgen : forall l, let acc := foldr (uncurry (fun (_ : Z) (h : nat) (rs : Requests) => update_request h fail rs)) rs l in
    Requests._max_pending_requests acc = Requests._max_pending_requests rs /\
    Requests._next_request_id acc = Requests._next_request_id rs /\
    forall h, match Requests.store rs !! h with
              | Some p => exists p', Requests.store acc !! h = Some p' /\ settles p p' /\ (correlates p -> correlates p') /\
                            (h ∈ l.*2 -> unsettled p' = false)
              | None => Requests.store acc !! h = None
              end).
  { induction l as [|[id h] l (IH1 & IH2 & IH3)]; intros acc.
    - split; [done|]. split; [done|]. intros h. unfold acc. cbn. destruct (Requests.store rs !! h) as [p|] eqn:Hp; [|done].
      exists p. split; [done|]. split; [apply settles_refl|]. split; [done|by intros ?%not_elem_of_nil].
    - unfold acc. cbn [foldr uncurry]. set (acc' := foldr _ rs l) in *. destruct acc' as [m st pd nx mt lt tm hw].
      cbn in IH1, IH2, IH3. cbn. split; [done|]. split; [done|]. intros h'. specialize (IH3 h').
      destruct (Requests.store rs !! h') as [p|] eqn:Hp.
      + destruct IH3 as (p' & Hp' & Hs & Hc & Hl). destruct (decide (h' = h)) as [->|Hne].
        * exists (fail p'). rewrite list_lookup_alter_eq, Hp'. split; [done|]. destruct (Hfail p') as [Hs' Hc'].
          split; [by eapply settles_trans|]. split; [by auto|]. intros _. unfold fail. destruct (unsettled p') eqn:Hu; [|done].
          by destruct (settling_failed p' e Hu) as (_ & _ & _ & ? & _).
        * exists p'. rewrite list_lookup_alter_ne by done. do 3 (split; [done|]).
          intros [?|?]%elem_of_cons; [done|by apply Hl].
      + destruct (decide (h' = h)) as [->|Hne]; [by rewrite list_lookup_alter_eq, IH3|by rewrite list_lookup_alter_ne]. }
  destruct (Hgen (map_to_list (Requests._pending rs))) as (Hm & Hn & Hst). cbv zeta in Hm, Hn, Hst.
  set (acc := foldr _ rs _) in *. destruct H as [Hl Hsz Hx Hp Hu Hc].
  assert (Hlook : forall h p', Requests.store acc !! h = Some p' -> exists p, Requests.store rs !! h = Some p /\
    settles p p' /\ (correlates p -> correlates p') /\ (h ∈ (map_to_list (Requests._pending rs)).*2 -> unsettled p' = false)).
  { intros h p' Hq. specialize (Hst h). destruct (Requests.store rs !! h) as [p|]; [|congruence].
    destruct Hst as (q & Hq' & ? & ? & ?). assert (q = p') as <- by congruence. by exists p. }
  split; [|split].
  - destruct acc as [m st pd nx mt lt tm hw]. cbn in *. subst m nx. split; cbn; try done.
    + rewrite map_size_empty. lia.
    + intros h p' Hq Huq. destruct (Hlook h p' Hq) as (p & Hr & (_ & _ & _ & Ho) & _ & Hin).
      destruct (unsettled p) eqn:Hup; [|destruct (Ho eq_refl); congruence].
      rewrite Hin in Huq; [done|]. apply list_elem_of_fmap. exists (PendingRequest.request_id p, h). split; [done|].
      by apply elem_of_map_to_list, Hu.
    + intros h p' Hq. destruct (Hlook h p' Hq) as (p & Hr & _ & Hcc & _). apply Hcc. by eapply Hc.
  - intros h p Hr. specialize (Hst h). rewrite Hr in Hst. destruct Hst as (p' & Hp' & Hs & _). exists p'.
    split; [by destruct acc|done].
  - by destruct acc.
Qed.

Lemma register_ok rs p :
  requests_inv rs -> Requests._pending rs !! PendingRequest.request_id p = None ->
  Z.of_nat (size (Requests._pending rs)) < Requests._max_pending_requests rs ->
  0 < PendingRequest.request_id p < 2 ^ 32 -> unsettled p = true -> PendingRequest.completed p = false ->
  requests_inv (register p rs) /\ progress rs (register p rs).
Proof.
  destruct rs as [m st pend nx mt lt tm hw]. intros [Hl Hsz Hn Hp Hu Hc] Hfree Hroom Hid Hun Hcm.
  unfold register. cbn [Requests._max_pending_requests Requests.store Requests._pending Requests._next_request_id] in *.
  set (id := PendingRequest.request_id p) in *.
  split; [split; cbn|]; try done.
  - rewrite map_size_insert_None by done. lia.
  - intros id' h. destruct (decide (id' = id)) as [->|Hne].
    + rewrite lookup_insert_eq. intros [= <-]. exists p. rewrite lookup_app_r, Nat.sub_diag by done. do 3 (split; [done|]). by split.
    + rewrite lookup_insert_ne by done. intros Hq. destruct (Hp id' h Hq) as (q & Hst & ?). exists q.
      split; [by apply lookup_app_l_Some|done].
  - intros h q Hq Huq. apply lookup_snoc_Some in Hq as [[Hlt Hq]|[-> <-]].
    + rewrite lookup_insert_ne; [by apply Hu|]. intros Heq. specialize (Hu h q Hq Huq). fold id in Heq. congruence.
    + apply lookup_insert_eq.
  - intros h q Hq. apply lookup_snoc_Some in Hq as [[_ Hq]|[_ <-]]; [by eapply Hc|].
    intros r Hr. apply unsettled_no_response in Hun as [Hx _]. congruence.
  - intros h q Hq. cbn in *. exists q. split; [by apply lookup_app_l_Some|apply settles_refl].
Qed.

Record reader_inv (r : BackgroundReader) : Prop := {
  rd_requests : requests_inv (BackgroundReader.requests r);
  rd_dead : BackgroundReader._closed r = true \/ is_Some (BackgroundReader._terminal_error r) ->
    Requests._pending (BackgroundReader.requests r) = ∅
}.

(** A step that keeps the invariant and only settles requests. *)
Definition sound (r r' : BackgroundReader) : Prop :=
  reader_inv r' /\ progress (BackgroundReader.requests r) (BackgroundReader.requests r').

(** The life-cycle attributes the dispatching code never assigns. *)
Definition same_life (r r' : BackgroundReader) : Prop :=
  BackgroundReader._closed r' = BackgroundReader._closed r /\
  BackgroundReader._terminal_error r' = BackgroundReader._terminal_error r.

Lemma sound_refl r : reader_inv r -> sound r r.
Proof. split; [done|by apply progress_store]. Qed.

Lemma sound_trans r1 r2 r3 : sound r1 r2 -> sound r2 r3 -> sound r1 r3.
Proof. intros [_ H1] [H2 H3]. split; [done|by eapply progress_trans]. Qed.

(** The requests unchanged, or changed while the session is live. *)
Lemma same_requests_sound r r' :
  reader_inv r -> same_life r r' -> BackgroundReader.requests r' = BackgroundReader.requests r -> sound r r'.
Proof.
  intros [Hr Hd] [Hc Ht] Hs. split; [|by rewrite Hs; apply progress_store].
  split; [by rewrite Hs|]. rewrite Hc, Ht, Hs. done.
Qed.

Lemma live_requests_sound r r' :
  same_life r r' -> (BackgroundReader._closed r = true \/ is_Some (BackgroundReader._terminal_error r) ->
    Requests._pending (BackgroundReader.requests r') = ∅) ->
  requests_inv (BackgroundReader.requests r') /\ progress (BackgroundReader.requests r) (BackgroundReader.requests r') ->
  sound r r'.
Proof. intros [Hc Ht] Hd [Hi Hp]. split; [|done]. split; [done|]. by rewrite Hc, Ht. Qed.

Lemma activate_run_frame r run :
  same_life r (activate_run r run).1 /\ BackgroundReader.requests (activate_run r run).1 = BackgroundReader.requests r.
Proof.
  unfold activate_run. destruct (_activate_run_locked _ _ _) as [q [[]|[message| |e]]]; by destruct r.
Qed.

Lemma apply_response_frame r response version :
  same_life r (apply_response r response version).1.1 /\
  BackgroundReader.requests (apply_response r response version).1.1 = BackgroundReader.requests r.
Proof.
  unfold apply_response. set (r0 := if _ && _ then set_wire_version _ r else r).
  assert (H0 : same_life r r0 /\ BackgroundReader.requests r0 = BackgroundReader.requests r).
  { unfold r0. destruct (_ && _); by destruct r. }
  destruct (ok response && bool_decide (V3Response.kind response = FrameKind.START_RESPONSE)).
  - destruct (V3Response.value response) as [[i|c|a|s|s]|]; try done.
    set (r1 := set_v3_settings _ r0). assert (H1 : same_life r r1 /\ BackgroundReader.requests r1 = BackgroundReader.requests r).
    { unfold r1. destruct H0 as [[? ?] ?]. by destruct r0. }
    pose proof (activate_run_frame r1 (V3Response.run_id response)) as [[Hc Ht] Hq].
    destruct (activate_run r1 (V3Response.run_id response)) as [r2 raised]. cbn [fst] in *.
    destruct H1 as [[? ?] ?]. split; [split|]; congruence.
  - clearbody r0. destruct (ok response && _); [|exact H0]. destruct H0 as [[? ?] ?]. unfold deactivate. by destruct r0.
Qed.

Lemma settled_response p response version :
  unsettled p = true -> V3Response.request_id response = PendingRequest.request_id p ->
  V3Response.kind response = PendingRequest.expected_kind p \/ V3Response.kind response = FrameKind.ERROR_RESPONSE ->
  version = PendingRequest.protocol_version p ->
  settling p (set_response response) /\ settling p (fun p => set_completed (set_response response p)) /\
  forall e, settling p (fun p => set_completed (set_error e (set_response response p))).
Proof.
  intros _ Hid Hk _. destruct p as [k ek id dl c r v e ng]. cbn in *. unfold settling, correlates, unsettled. cbn.
  split_and!; try done; try (by intros r' [= <-]). intros e'. split_and!; try done; try (by intros r' [= <-]).
Qed.

Lemma on_requests_requests f r : BackgroundReader.requests (on_requests f r) = f (BackgroundReader.requests r).
Proof. by destruct r. Qed.

Lemma on_requests_life f r : same_life r (on_requests f r).
Proof. by destruct r. Qed.

Lemma same_life_trans r1 r2 r3 : same_life r1 r2 -> same_life r2 r3 -> same_life r1 r3.
Proof. intros [? ?] [? ?]. split; congruence. Qed.

Lemma settle_sound r r' id h f :
  reader_inv r -> Requests._pending (BackgroundReader.requests r) !! id = Some h -> same_life r r' ->
  core (BackgroundReader.requests r') = core (settle id h f (BackgroundReader.requests r)) ->
  (forall p, Requests.store (BackgroundReader.requests r) !! h = Some p -> PendingRequest.request_id p = id ->
     unsettled p = true -> settling p f) ->
  sound r r'.
Proof.
  intros [Hi Hd] Hid Hl Hc Hf. apply live_requests_sound; [done| |].
  - intros Hdead. rewrite (Hd Hdead) in Hid. discriminate.
  - eapply core_ok; [symmetry; exact Hc|]. by apply settle_ok.
Qed.

(** The state after the response has been taken from the map. *)
Lemma settle_steps id h f r :
  core (BackgroundReader.requests (on_requests (update_request h f)
    (on_requests (fun rs => set_pending (delete id (Requests._pending rs)) rs) r)))
  = core (settle id h f (BackgroundReader.requests r)).
Proof. by destruct r. Qed.

Lemma dispatch_response_sound r response version :
  reader_inv r ->
  sound r (_dispatch_response r response version).1 /\ same_life r (_dispatch_response r response version).1.
Proof.
  intros H. unfold _dispatch_response. set (id := V3Response.request_id response).
  destruct (Requests._pending (BackgroundReader.requests r) !! id) as [h|] eqn:Hid.
  2: { set (r1 := on_requests count_late r).
       assert (H1 : sound r r1 /\ same_life r r1).
       { split; [|apply on_requests_life]. apply live_requests_sound; [apply on_requests_life| |].
         - intros Hdead. unfold r1. rewrite on_requests_requests. destruct (BackgroundReader.requests r) eqn:Hr.
           pose proof (rd_dead r H Hdead) as Hd. rewrite Hr in Hd. exact Hd.
         - unfold r1. rewrite on_requests_requests. eapply core_ok; [symmetry; apply core_late|].
           split; [apply H|by apply progress_store]. }
       cbv zeta. cbn [fst]. clearbody r1. destruct (_ && _); [|done]. destruct H1 as [Hs Hl].
       assert (Hd : same_life r1 (deactivate r1) /\ BackgroundReader.requests (deactivate r1) = BackgroundReader.requests r1)
         by (unfold deactivate; by destruct r1).
       split; [eapply sound_trans; [exact Hs|]; apply same_requests_sound; [apply Hs|apply Hd..]|].
       eapply same_life_trans; [exact Hl|apply Hd]. }
  destruct (ri_pending _ (rd_requests r H) id h Hid) as (p & Hp & Hpid & _ & Hu & _).
  set (r1 := on_requests (fun rs => set_pending _ rs) r).
  assert (Hl1 : same_life r r1) by apply on_requests_life.
  assert (Hst : Requests.store (BackgroundReader.requests r1) !! h = Some p).
  { unfold r1. rewrite on_requests_requests. by destruct (BackgroundReader.requests r). }
  cbv zeta. rewrite Hst.
  assert (Hgo : forall r' f, same_life r r' ->
    core (BackgroundReader.requests r') = core (settle id h f (BackgroundReader.requests r)) ->
    settling p f -> sound r r' /\ same_life r r').
  { intros r' f Hl Hc Hf. split; [|done]. eapply settle_sound; [done|exact Hid|done|exact Hc|].
    intros q Hq _ _. assert (q = p) as -> by congruence. exact Hf. }
  assert (Hlife : forall f r2, same_life r r2 -> same_life r (on_requests f r2)).
  { intros f r2 Hl. eapply same_life_trans; [exact Hl|apply on_requests_life]. }
  pose proof (fun e => settling_failed p e Hu) as Hfailed.
  destruct (rejects_version p response version).
  { apply (Hgo _ (failed (ProtocolVersionRejected (PendingRequest.protocol_version p)))); [by repeat apply Hlife| |done].
    cbn [fst]. unfold r1. rewrite !on_requests_requests. destruct (BackgroundReader.requests r).
    unfold settle, core. cbn. by rewrite list_alter_alter_eq. }
  destruct (Z.eqb_spec version (PendingRequest.protocol_version p)) as [Hv|Hv]; cbn [negb].
  2: { apply (Hgo _ (failed (ReaderProtocolError "response protocol version differs from request"))); [by repeat apply Hlife| |done].
       cbn [fst]. unfold r1. rewrite !on_requests_requests. destruct (BackgroundReader.requests r).
       unfold settle, core. cbn. by rewrite list_alter_alter_eq. }
  destruct (bool_decide (V3Response.kind response = PendingRequest.expected_kind p)
            || bool_decide (V3Response.kind response = FrameKind.ERROR_RESPONSE)) eqn:Hk; cbn [negb].
  2: { apply (Hgo _ (failed (ReaderProtocolError "unexpected response kind"))); [by repeat apply Hlife| |done].
       cbn [fst]. unfold r1. rewrite !on_requests_requests. destruct (BackgroundReader.requests r).
       unfold settle, core. cbn. by rewrite list_alter_alter_eq. }
  rewrite orb_true_iff, !bool_decide_eq_true in Hk.
  destruct (settled_response p response version Hu (eq_sym Hpid) Hk Hv) as (Hs1 & Hs2 & Hs3).
  set (r2 := on_requests count_matched (on_requests (update_request h (set_response response)) r1)).
  assert (Hr2 : core (BackgroundReader.requests r2) = core (settle id h (set_response response) (BackgroundReader.requests r))).
  { unfold r2. rewrite on_requests_requests, core_matched. apply settle_steps. }
  pose proof (apply_response_frame r2 response version) as [Hl2 Hq2].
  destruct (apply_response r2 response version) as [[r3 left_error] raised]. cbn [fst] in Hl2, Hq2.
  assert (Hl3 : same_life r r3) by (eapply same_life_trans; [|exact Hl2]; by repeat apply Hlife).
  rewrite <-Hq2 in Hr2. clear Hq2 Hl2. clearbody r2 r1.
  assert (Hfin : forall f, core (update_request h f (BackgroundReader.requests r3))
    = core (settle id h (fun p => f (set_response response p)) (BackgroundReader.requests r))).
  { intros f. destruct (BackgroundReader.requests r3), (BackgroundReader.requests r). unfold core, settle in *. cbn in *.
    injection Hr2 as -> -> -> ->. by rewrite list_alter_alter_eq. }
  destruct raised as [raised|]; [|destruct left_error as [e|]]; cbn [fst].
  - destruct left_error; exact (Hgo r3 (set_response response) Hl3 Hr2 Hs1).
  - apply (Hgo _ (fun p => set_completed (set_error e (set_response response p)))); [by repeat apply Hlife| |done].
    rewrite !on_requests_requests, update_twice. apply Hfin.
  - apply (Hgo _ (fun p => set_completed (set_response response p))); [by repeat apply Hlife| |done].
    rewrite !on_requests_requests. apply Hfin.
Qed.

Lemma process_frame_sound r frame : reader_inv r -> sound r (process_frame r frame).1.
Proof.
  intros H. unfold process_frame. cbv zeta. destruct (_ && _); [by apply sound_refl|].
  assert (Hcount : sound r (count_frame r)) by (apply same_requests_sound; [done|by destruct r..]).
  destruct (_DATA_KINDS _).
  - destruct (BackgroundReader._active_v3_settings r) as [settings|].
    + destruct (decode_v3_block frame settings) as [block|e]; [|by apply sound_refl].
      eapply sound_trans; [exact Hcount|]. set (r1 := count_frame r) in *. destruct Hcount as [H1 _]. clearbody r1.
      destruct (_dispatch_block _ block) as [q [u|[message| |e]]];
        (apply same_requests_sound; [done|by destruct r1..]).
    + unfold discard_unknown. apply same_requests_sound; [done|by destruct r..].
  - destruct (decode_v3_response frame) as [response|e]; [|by apply sound_refl].
    eapply sound_trans; [exact Hcount|]. apply dispatch_response_sound. apply Hcount.
Qed.

Lemma terminate_sound r e pf d : reader_inv r -> sound r (_terminate r e pf d).
Proof.
  intros H. pose proof (rd_dead r H) as Hd. pose proof (rd_requests r H) as Hi. destruct r as [rs q s v st cl ev te f pfs ds].
  cbn in Hd, Hi. unfold _terminate. destruct te as [te|], cl;
    try (apply same_requests_sound; [done|done|done]).
  destruct (fail_all_ok e rs Hi) as (H1 & H2 & H3). split; [split; cbn; [done|by intros _]|done].
Qed.

Lemma close_sound r : reader_inv r -> sound r (close r).
Proof.
  intros H. pose proof (rd_requests r H) as Hi. unfold close. destruct r as [rs q s v st cl ev te f pfs ds].
  cbn in Hi. destruct cl; [by apply sound_refl|].
  destruct (fail_all_ok ReaderClosedError rs Hi) as (H1 & H2 & H3). split; [split; cbn; [done|by intros _]|done].
Qed.

Lemma process_frames_sound frames : forall r, reader_inv r -> sound r (process_frames r frames).
Proof.
  induction frames as [|frame frames IH]; intros r H; cbn [process_frames]; [by apply sound_refl|].
  destruct (BackgroundReader._stop_event r); [by apply sound_refl|].
  pose proof (process_frame_sound r frame H) as Hs. destruct (process_frame r frame) as [r1 [e|]]; cbn [fst] in Hs.
  - eapply sound_trans; [exact Hs|]. apply terminate_sound, Hs.
  - eapply sound_trans; [exact Hs|]. apply IH, Hs.
Qed.

(** ** Any sequence of calls *)

Inductive call :=
| Start (transport_is_open : bool)
| BeginRequest (kind : Z) (payload : bytes) (deadline : Z) (negotiating : bool)
| CompleteWithError (h : nat) (e : reader_error) (timeout : bool)
| Expire (now : Z)
| Frames (frames : list V3Frame)
| Terminate (e : reader_error) (protocol_failure disconnected : bool)
| Close
| ActivateRun (run : Z) (settings : V3Settings)
| DeactivateStream
| TakeStreamItem.

Definition apply_call (r : BackgroundReader) (c : call) : BackgroundReader :=
  match c with
  | Start is_open => (start r is_open).1
  | BeginRequest kind payload deadline negotiating => (begin_request r kind payload deadline negotiating).1
  | CompleteWithError h e timeout => on_requests (fun rs => _complete_with_error rs h e timeout) r
  | Expire now => on_requests (_expire_pending_requests now) r
  | Frames frames => process_frames r frames
  | Terminate e protocol_failure disconnected => _terminate r e protocol_failure disconnected
  | Close => close r
  | ActivateRun run settings => (activate_v3_run r run settings).1
  | DeactivateStream => (deactivate_stream r).1
  | TakeStreamItem => set_queues (take_stream_item (BackgroundReader.queues r)).1 r
  end.

(** Requests may be settled in the map of a dead session only if there are any. *)
Lemma on_requests_sound r f :
  reader_inv r ->
  requests_inv (f (BackgroundReader.requests r)) /\ progress (BackgroundReader.requests r) (f (BackgroundReader.requests r)) ->
  (Requests._pending (BackgroundReader.requests r) = ∅ -> Requests._pending (f (BackgroundReader.requests r)) = ∅) ->
  sound r (on_requests f r).
Proof.
  intros H Hf He. apply live_requests_sound; [apply on_requests_life| |by rewrite on_requests_requests].
  intros Hdead. rewrite on_requests_requests. by apply He, (rd_dead r H).
Qed.

Lemma complete_empty rs h e timeout :
  requests_inv rs -> Requests._pending rs = ∅ -> Requests._pending (_complete_with_error rs h e timeout) = ∅.
Proof.
  intros H He. unfold _complete_with_error. destruct (Requests.store rs !! h) as [p|] eqn:Hp; [|done].
  destruct (unsettled p) eqn:Hu; [|done]. pose proof (ri_unsettled rs H h p Hp Hu) as Hx. by rewrite He in Hx.
Qed.

Lemma begin_request_sound r kind payload deadline negotiating :
  reader_inv r -> sound r (begin_request r kind payload deadline negotiating).1.
Proof.
  intros H. unfold begin_request. destruct (enum_of kind) as [k|]; [|by apply sound_refl].
  destruct (enum_of kind) as [command|]; [|by apply sound_refl].
  destruct (_require_live_locked r) as [u|e] eqn:Hlive; [|by apply sound_refl]. cbv zeta.
  pose proof (rd_requests r H) as Hi.
  destruct (Z.leb_spec (Requests._max_pending_requests (BackgroundReader.requests r))
    (Z.of_nat (size (Requests._pending (BackgroundReader.requests r))))) as [Hfull|Hroom]; [by apply sound_refl|].
  destruct (request_ids_fresh_lemma (BackgroundReader.requests r) (ri_next _ Hi)) as (rs & id & n & -> & Hid & Hfree & _ & _ & Hn & Hnr & Hp & Hs & Hm).
  { split; [lia|]. apply (ri_limit _ Hi). }
  assert (Hrs : requests_inv rs /\ progress (BackgroundReader.requests r) rs).
  { split; [|by apply progress_store]. destruct (BackgroundReader.requests r), rs. cbn in *. subst.
    destruct Hi. by split. }
  assert (Hdead : BackgroundReader._closed r = false /\ BackgroundReader._terminal_error r = None).
  { unfold _require_live_locked in Hlive. destruct (BackgroundReader._closed r); [done|].
    by destruct (BackgroundReader._terminal_error r). }
  assert (Hset : forall rs', requests_inv rs' /\ progress (BackgroundReader.requests r) rs' -> sound r (set_requests rs' r)).
  { intros rs' Hrs'. apply live_requests_sound; [by destruct r| |by destruct r].
    destruct Hdead as [-> ->]. intros [?|[? ?]]; discriminate. }
  destruct (encode_v3_frame kind payload 0 0 0 id 0 0) as [wire|e]; cbn [fst]; [|by apply Hset].
  apply Hset. set (p := PendingRequest.mk command _ id deadline false None _ None negotiating).
  destruct (register_ok rs p (proj1 Hrs)) as [H1 H2]; [by rewrite Hp|rewrite Hp, Hm; exact Hroom|done|done|done|].
  split; [done|]. eapply progress_trans; [apply Hrs|exact H2].
Qed.

Lemma apply_call_sound r c : reader_inv r -> sound r (apply_call r c).
Proof.
  intros H. destruct c as [is_open|kind payload deadline ng|h e timeout|now|frames|e pf d| |run settings| |]; cbn [apply_call].
  - unfold start. destruct (BackgroundReader._closed r) eqn:Hc; [by apply sound_refl|].
    destruct (BackgroundReader._terminal_error r) eqn:Ht; [by apply sound_refl|].
    destruct (BackgroundReader._started r); [by apply sound_refl|]. destruct is_open; [|by apply sound_refl].
    apply same_requests_sound; [done|by destruct r..].
  - by apply begin_request_sound.
  - apply on_requests_sound; [done|by apply complete_with_error_ok, H|by apply complete_empty, H].
  - apply on_requests_sound; [done|by apply expire_pending_ok, H|]. intros He. unfold _expire_pending_requests.
    by rewrite He, map_fold_empty.
  - by apply process_frames_sound.
  - by apply terminate_sound.
  - by apply close_sound.
  - unfold activate_v3_run. destruct (_require_live_locked r); [|by apply sound_refl].
    set (r1 := set_wire_version _ _). assert (H1 : same_life r r1 /\ BackgroundReader.requests r1 = BackgroundReader.requests r)
      by (by destruct r).
    pose proof (activate_run_frame r1 run) as [Hl Hq]. destruct (activate_run r1 run) as [r2 [e|]]; cbn [fst] in *;
      (apply same_requests_sound; [done|by eapply same_life_trans; [apply H1|]|rewrite Hq; apply H1]).
  - unfold deactivate_stream. destruct (_require_live_locked r); [|by apply sound_refl].
    apply same_requests_sound; [done|by destruct r..].
  - apply same_requests_sound; [done|by destruct r..].
Qed.

Definition apply_calls (r : BackgroundReader) (calls : list call) : BackgroundReader := fold_left apply_call calls r.

Lemma apply_calls_sound calls : forall r, reader_inv r -> sound r (apply_calls r calls).
Proof.
  induction calls as [|c calls IH]; intros r H; [by apply sound_refl|].
  pose proof (apply_call_sound r c H) as Hs. eapply sound_trans; [exact Hs|]. apply IH, Hs.
Qed.

Lemma new_reader_inv max_pending max_blocks max_events first_id :
  0 < max_pending < 2 ^ 32 - 1 -> 0 < first_id < 2 ^ 32 ->
  reader_inv (new_reader max_pending max_blocks max_events first_id).
Proof.
  intros Hm Hf. split; [|done]. split; try done; cbn.
  - rewrite map_size_empty. lia.
Qed.

(** *** A dead session stays dead *)

Definition dead (r : BackgroundReader) : Prop :=
  BackgroundReader._closed r = true \/ is_Some (BackgroundReader._terminal_error r).

Lemma dead_not_live r : dead r -> exists e, _require_live_locked r = Err e.
Proof.
  unfold _require_live_locked. intros [->|[e He]]; [by eexists|]. rewrite He.
  destruct (BackgroundReader._closed r); by eexists.
Qed.

Lemma same_life_dead r r' : same_life r r' -> dead r -> dead r'.
Proof. intros [Hc Ht]. unfold dead. by rewrite Hc, Ht. Qed.

Lemma terminate_dead r e pf d : dead (_terminate r e pf d).
Proof.
  destruct r as [rs q s v st cl ev [te|] f pfs ds]; [right; by eexists|].
  destruct cl; [by left|right; by eexists].
Qed.

Lemma process_frame_life r frame : reader_inv r -> same_life r (process_frame r frame).1.
Proof.
  intros H. unfold process_frame. cbv zeta. destruct (_ && _); [done|].
  assert (Hcount : sound r (count_frame r)) by (apply same_requests_sound; [done|by destruct r..]).
  destruct (_DATA_KINDS _).
  - destruct (BackgroundReader._active_v3_settings r) as [settings|].
    + destruct (decode_v3_block frame settings) as [block|e]; [|done].
      destruct (_dispatch_block _ block) as [q [u|[message| |e]]]; by destruct r.
    + unfold discard_unknown. by destruct r.
  - destruct (decode_v3_response frame) as [response|e]; [|done].
    eapply same_life_trans; [|apply dispatch_response_sound, Hcount]. by destruct r.
Qed.

Lemma process_frames_dead frames : forall r, reader_inv r -> dead r -> dead (process_frames r frames).
Proof.
  induction frames as [|frame frames IH]; intros r H Hd; cbn [process_frames]; [done|].
  destruct (BackgroundReader._stop_event r); [done|].
  pose proof (process_frame_sound r frame H) as [Hs _]. pose proof (process_frame_life r frame H) as Hl.
  destruct (process_frame r frame) as [r1 [e|]]; cbn [fst] in *; [apply terminate_dead|].
  apply IH; [done|by eapply same_life_dead].
Qed.

Lemma apply_call_dead r c : reader_inv r -> dead r -> dead (apply_call r c).
Proof.
  intros H Hd. destruct (dead_not_live r Hd) as [err Hlive].
  destruct c as [is_open|kind payload deadline ng|h e timeout|now|frames|e pf d| |run settings| |]; cbn [apply_call].
  - unfold start. destruct (BackgroundReader._closed r) eqn:Hc; [done|].
    destruct (BackgroundReader._terminal_error r) eqn:Ht; [done|]. by destruct Hd as [?|[? ?]]; congruence.
  - unfold begin_request. destruct (enum_of kind); [|done]. destruct (enum_of kind); [|done]. by rewrite Hlive.
  - by eapply same_life_dead; [apply on_requests_life|].
  - by eapply same_life_dead; [apply on_requests_life|].
  - by apply process_frames_dead.
  - apply terminate_dead.
  - unfold close. destruct r as [rs q s v st [|] ev te f pfs ds]; by left.
  - unfold activate_v3_run. by rewrite Hlive.
  - unfold deactivate_stream. by rewrite Hlive.
  - by destruct r.
Qed.

Lemma apply_calls_dead calls : forall r, reader_inv r -> dead r -> dead (apply_calls r calls).
Proof.
  induction calls as [|c calls IH]; intros r H Hd; [done|]. cbn. apply IH; [apply apply_call_sound|apply apply_call_dead]; done.
Qed.

Lemma dead_settled r h p :
  reader_inv r -> dead r -> Requests.store (BackgroundReader.requests r) !! h = Some p -> unsettled p = false.
Proof.
  intros [Hi Hd] Hdead Hp. destruct (unsettled p) eqn:Hu; [|done].
  pose proof (ri_unsettled _ Hi h p Hp Hu) as Hx. by rewrite (Hd Hdead) in Hx.
Qed.

Lemma settled_outcome p : unsettled p = false -> is_Some (request_outcome p).
Proof.
  unfold unsettled, request_outcome. destruct (PendingRequest.error p), (PendingRequest.response p); cbn; eauto; discriminate.
Qed.

Lemma outcome_settled p o : request_outcome p = Some o -> unsettled p = false.
Proof.
  unfold unsettled, request_outcome. destruct (PendingRequest.error p), (PendingRequest.response p); cbn; done.
Qed.

(** ** Properties *)

(** A free request ID is always found when the map has room, without searching the
    whole ID space: it is nonzero, fits in 32 bits, belongs to no pending request, and is
    the first such ID in cyclic order from the last one handed out. *)
Theorem request_ids_fresh (rs : Requests) :
  0 < Requests._next_request_id rs < 2 ^ 32 ->
  Z.of_nat (size (Requests._pending rs)) < Requests._max_pending_requests rs < 2 ^ 32 - 1 ->
  exists rs' id n, _allocate_request_id_locked rs = (rs', Some id)
    /\ 0 < id < 2 ^ 32 /\ Requests._pending rs !! id = None
    /\ id = nth_id (Requests._next_request_id rs) n
    /\ (forall m, (m < n)%nat -> is_Some (Requests._pending rs !! nth_id (Requests._next_request_id rs) m))
    /\ Requests._next_request_id rs' = next_id id /\ 0 < Requests._next_request_id rs' < 2 ^ 32
    /\ Requests._pending rs' = Requests._pending rs /\ Requests.store rs' = Requests.store rs.
Proof.
  intros Hn Hr. destruct (request_ids_fresh_lemma rs Hn Hr) as (rs' & id & n & ? & ? & ? & ? & ? & ? & ? & ? & ? & _).
  exists rs', id, n. by repeat (split; [done|]).
Qed.

(** C16. A request settles at most once and only by its own answer.  In every session, in
    any interleaving of calls, timeouts, failures and received frames: an object that is
    in the request map has no outcome yet, one that has no outcome is in the map under
    its own nonzero 32-bit ID, and the map keeps its bound; an outcome, once there, never
    changes; and a response only ever reaches the request whose ID it echoes, with the
    kind that request expects or ERROR_RESPONSE. *)
Theorem requests_settle_once (max_pending max_blocks max_events first_id : Z) (before after : list call) :
  0 < max_pending < 2 ^ 32 - 1 -> 0 < first_id < 2 ^ 32 ->
  let r1 := apply_calls (new_reader max_pending max_blocks max_events first_id) before in
  let r2 := apply_calls r1 after in
  requests_inv (BackgroundReader.requests r2) /\
  forall h p, Requests.store (BackgroundReader.requests r1) !! h = Some p ->
    exists p', Requests.store (BackgroundReader.requests r2) !! h = Some p' /\
      PendingRequest.request_id p' = PendingRequest.request_id p /\
      correlates p' /\
      (forall outcome, request_outcome p = Some outcome -> request_outcome p' = Some outcome).
Proof.
  intros Hm Hf r1 r2. pose proof (new_reader_inv max_pending max_blocks max_events first_id Hm Hf) as H0.
  destruct (apply_calls_sound before _ H0) as [H1 _]. destruct (apply_calls_sound after _ H1) as [H2 Hp].
  fold r1 in H1, H2, Hp. fold r2 in H2, Hp. split; [apply H2|]. intros h p Hh.
  destruct (Hp h p Hh) as (p' & Hh' & _ & Hid & _ & Ho). exists p'. split; [done|]. split; [done|].
  split; [by apply (ri_correlates _ (rd_requests _ H2) h)|]. intros outcome Hout.
  destruct (Ho (outcome_settled _ _ Hout)) as [_ ->]. exact Hout.
Qed.

(** C31. No caller waits on a dead session: once the reader is closed or has failed, it
    stays so, every request it ever registered has its outcome, and every further
    request, activation or deactivation is refused and changes nothing. *)
Theorem failure_settles_all (max_pending max_blocks max_events first_id : Z) (before after : list call) :
  0 < max_pending < 2 ^ 32 - 1 -> 0 < first_id < 2 ^ 32 ->
  let r1 := apply_calls (new_reader max_pending max_blocks max_events first_id) before in
  dead r1 ->
  let r2 := apply_calls r1 after in
  dead r2 /\ Requests._pending (BackgroundReader.requests r2) = ∅ /\
  (forall h p, Requests.store (BackgroundReader.requests r2) !! h = Some p -> is_Some (request_outcome p)) /\
  (forall kind payload deadline negotiating, exists e, begin_request r2 kind payload deadline negotiating = (r2, Err e)) /\
  (forall run settings, exists e, activate_v3_run r2 run settings = (r2, Err e)) /\
  (exists e, deactivate_stream r2 = (r2, Err e)).
Proof.
  intros Hm Hf r1 Hd r2. pose proof (new_reader_inv max_pending max_blocks max_events first_id Hm Hf) as H0.
  destruct (apply_calls_sound before _ H0) as [H1 _]. destruct (apply_calls_sound after _ H1) as [H2 _].
  fold r1 in H1, H2. fold r2 in H2. pose proof (apply_calls_dead after r1 H1 Hd) as Hd2. fold r2 in Hd2.
  destruct (dead_not_live r2 Hd2) as [e Hlive].
  split; [done|]. split; [by apply (rd_dead r2 H2)|]. split; [intros h p Hp; by eapply settled_outcome, dead_settled|].
  split; [|split].
  - intros kind payload deadline ng. unfold begin_request. destruct (enum_of kind); [|by eexists].
    destruct (enum_of kind); [|by eexists]. rewrite Hlive. by eexists.
  - intros run settings. unfold activate_v3_run. rewrite Hlive. by eexists.
  - unfold deactivate_stream. rewrite Hlive. by eexists.
Qed.

(** ** Witnesses *)

(** INFO is requested twice; the second request expires, then the session is closed. *)
Definition example_calls : list call :=
  [Start true; BeginRequest 16 [] 1000 false; BeginRequest 16 [] 50 false; Expire 60].

Lemma request_ids_fresh_witness :
  exists rs', _allocate_request_id_locked
    (Requests.mk 32 [] {[4294967295 := 0%nat; 1 := 1%nat]} 4294967295 0 0 0 0) = (rs', Some 2).
Proof.
  destruct (request_ids_fresh (Requests.mk 32 [] {[4294967295 := 0%nat; 1 := 1%nat]} 4294967295 0 0 0 0))
    as (rs' & id & n & H & _); [cbn; lia|split; vm_compute; reflexivity|].
  exists rs'. rewrite H. vm_compute in H. injection H as _ <-. reflexivity.
Defined.

Lemma requests_settle_once_witness :
  exists p p', Requests.store (BackgroundReader.requests (apply_calls (new_reader 32 512 32 1) example_calls)) !! 1%nat = Some p
    /\ request_outcome p = Some (Err (RequestTimeoutError CommandKind.INFO 2))
    /\ Requests.store (BackgroundReader.requests (apply_calls (apply_calls (new_reader 32 512 32 1) example_calls) [Close])) !! 1%nat = Some p'
    /\ request_outcome p' = Some (Err (RequestTimeoutError CommandKind.INFO 2)).
Proof.
  destruct (requests_settle_once 32 512 32 1 example_calls [Close]) as [_ H]; [lia|lia|].
  destruct (Requests.store (BackgroundReader.requests (apply_calls (new_reader 32 512 32 1) example_calls)) !! 1%nat)
    as [p|] eqn:Hp; [|vm_compute in Hp; discriminate].
  destruct (H 1%nat p Hp) as (p' & Hp' & _ & _ & Ho).
  assert (Hout : request_outcome p = Some (Err (RequestTimeoutError CommandKind.INFO 2))).
  { vm_compute in Hp. injection Hp as <-. reflexivity. }
  exists p, p'. split; [reflexivity|]. split; [exact Hout|]. split; [exact Hp'|exact (Ho _ Hout)].
Defined.

Lemma failure_settles_all_witness :
  let r := apply_calls (new_reader 32 512 32 1) (example_calls ++ [Close]) in
  dead r /\ exists e, begin_request (apply_calls r [Expire 2000]) 16 [] 5000 false = (apply_calls r [Expire 2000], Err e).
Proof.
  intros r. assert (Hd : dead r) by (left; vm_compute; reflexivity).
  destruct (failure_settles_all 32 512 32 1 (example_calls ++ [Close]) [Expire 2000]) as (_ & _ & _ & Hb & _);
    [lia|lia|exact Hd|]. split; [exact Hd|exact (Hb 16 [] 5000 false)].
Defined.
