(* ===== verification/Validator.v ===== *)
(** * Strict validation of a synthetic stream ([synthetic.py], [streaming.py]).

    [validate_synthetic_block] of [synthetic.py] and the [SyntheticStreamValidator] of
    [streaming.py], over protocol-v3 status reports.  An
    [UnexpectedStreamValidationError] is its category; the message only repeats the
    values compared. *)

From S2P Require Import Prelude PyStruct Checksum V3Constants V3Header V3Samples ModelsV3 V3Frames Synthetic Profiles Losses Blocks Continuity StreamQueues.

(** ** One block *)

Inductive block_error :=
| MissingFlag
| NotAligned
| SamplesDiffer
| PatternRaised (e : synthetic_error).

(** [except SyntheticPatternError] *)
Definition is_pattern_error (e : block_error) : bool :=
  match e with
  | MissingFlag | NotAligned | SamplesDiffer => true
  | PatternRaised (WrongLength _ _ | AdcMismatch _ _ _ | GpioMismatch _ _ _) => true
  | PatternRaised (Synthetic.ValueError _ | Synthetic.UncaughtError _) => false
  end.

Definition lift_pattern {A} (m : syn A) : result block_error A :=
  match m with Ok a => Ok a | Err e => Err (PatternRaised e) end.

(** The pattern of a v3 GPIO frame. *)
Definition v3_pattern (sequence : Z) : SyntheticGPIOPattern :=
  if sequence mod 2 =? 0 then ALL_ZERO else HIGH_TRANSITION.

Definition validate_synthetic_block (block : DataBlock) (gpio_pattern : SyntheticGPIOPattern) :
    result block_error unit :=
  if negb (has (block_flags block) FrameFlag.SYNTHETIC) then Err MissingFlag
  else if block_version block =? 3 then
    expected ← lift_pattern
      match block with
      | AdcData b => synthetic_v3_adc_payload (first_pair_index b) (adc_item_count b)
      | GpioData b =>
          synthetic_gpio_payload (first_sample_index b) (gpio_item_count b) (GPIOBlock.aux_bank_mode b)
            (v3_pattern (GPIOBlock.sequence b))
      end;
    if bool_decide (block_payload block = expected) then Ok tt else Err SamplesDiffer
  else
    match block with
    | AdcData b =>
        if negb (ADCBlock.first_sample_ticks b mod pair_period_ticks b =? 0) then Err NotAligned
        else lift_pattern (validate_synthetic_adc_payload (ADCBlock.payload b) (first_pair_index b) (adc_item_count b))
    | GpioData b =>
        if negb (GPIOBlock.first_sample_ticks b mod sample_period_ticks b =? 0) then Err NotAligned
        else lift_pattern (validate_synthetic_gpio_payload (GPIOBlock.payload b) (first_sample_index b)
               (gpio_item_count b) (GPIOBlock.aux_bank_mode b) gpio_pattern)
    end.

(** ** The stream validator *)

Inductive validation_error :=
| Unexpected (category : string)
| InvalidArgument (message : string)
| BlockRaised (e : block_error).

(** The counters of [ReaderCounters] the health check reads. *)
Module ReaderHealth.
Record ReaderHealth := mk {
  host_block_queue_drops : Z;
  host_event_queue_drops : Z;
  stale_blocks_discarded : Z
}.
End ReaderHealth.
Abbreviation ReaderHealth := ReaderHealth.ReaderHealth.

(** The two dictionaries, keyed by the enabled data kinds, are one option per kind. *)
Module Expected.
Record Expected := mk { sequence : Z; ticks : Z }.
End Expected.
Abbreviation Expected := Expected.Expected.

Module SyntheticStreamValidator.
Record SyntheticStreamValidator := mk {
  run_id : Z;
  stream_mask : Z;
  reader_baseline : ReaderHealth;
  parser_baseline : Z;
  adc_expected : option Expected;
  gpio_expected : option Expected;
  adc_frames_validated : Z;
  gpio_frames_validated : Z
}.
End SyntheticStreamValidator.
Abbreviation SyntheticStreamValidator := SyntheticStreamValidator.SyntheticStreamValidator.

Abbreviation checked := (result validation_error).

(** [__init__] *)
Definition new_validator (run_id stream_mask : Z) (reader_baseline : ReaderHealth) (parser_baseline : Z) :
    checked SyntheticStreamValidator :=
  _ ← require (0 <? run_id) (InvalidArgument "run_id must be a nonzero integer");
  _ ← require (negb (stream_mask =? 0) && negb (has stream_mask (Z.lnot (Z.lor StreamMask.ADC StreamMask.GPIO))))
        (InvalidArgument "stream_mask must enable ADC, GPIO, or both");
  let start stream := if has stream_mask stream then Some (Expected.mk 0 0) else None in
  Ok (SyntheticStreamValidator.mk run_id stream_mask reader_baseline parser_baseline
        (start StreamMask.ADC) (start StreamMask.GPIO) 0 0).

(** A stream item of the client. *)
Inductive client_item :=
| ClientBlock (b : DataBlock)
| ClientGap (g : StreamGap)
| ClientLoss (l : HostQueueLoss)
| ClientAnomaly (a : StreamAnomaly).

Definition expected_for (v : SyntheticStreamValidator) (b : DataBlock) : option Expected :=
  match b with
  | AdcData _ => SyntheticStreamValidator.adc_expected v
  | GpioData _ => SyntheticStreamValidator.gpio_expected v
  end.

(** The bookkeeping of an accepted block. *)
Definition account (v : SyntheticStreamValidator) (b : DataBlock) : SyntheticStreamValidator :=
  let '(SyntheticStreamValidator.mk run mask rb pb adc gpio adc_frames gpio_frames) := v in
  let next := Some (Expected.mk (u32 (block_sequence b + 1)) (block_end_tick b)) in
  match b with
  | AdcData _ => SyntheticStreamValidator.mk run mask rb pb next gpio (adc_frames + 1) gpio_frames
  | GpioData _ => SyntheticStreamValidator.mk run mask rb pb adc next adc_frames (gpio_frames + 1)
  end.

Definition validate (v : SyntheticStreamValidator) (item : client_item) :
    SyntheticStreamValidator * checked DataBlock :=
  match item with
  | ClientGap _ => (v, Err (Unexpected "stream_gap"))
  | ClientLoss _ => (v, Err (Unexpected "host_queue_loss"))
  | ClientAnomaly _ => (v, Err (Unexpected "stream_anomaly"))
  | ClientBlock block =>
      match expected_for v block with
      | None => (v, Err (Unexpected "disabled_stream"))
      | Some expected =>
          if negb (block_run_id block =? SyntheticStreamValidator.run_id v) then (v, Err (Unexpected "run_id"))
          else if has (block_flags block) (Z.lor FrameFlag.GAP_BEFORE FrameFlag.OVERRUN_BEFORE)
          then (v, Err (Unexpected "firmware_gap_flag"))
          else if negb (block_sequence block =? Expected.sequence expected) then (v, Err (Unexpected "sequence"))
          else if negb (block_ticks block =? Expected.ticks expected) then (v, Err (Unexpected "timestamp"))
          else
            match validate_synthetic_block block COUNTER with
            | Err e => (v, Err (if is_pattern_error e then Unexpected "synthetic_pattern" else BlockRaised e))
            | Ok _ => (account v block, Ok block)
            end
      end
  end.

(** [_delta] *)
Definition _delta (current baseline : Z) : checked Z :=
  if current <? baseline then Err (Unexpected "counter_regression") else Ok (current - baseline).

Definition validate_host_health (v : SyntheticStreamValidator) (reader : ReaderHealth) (corruption_events : Z)
    (after_stop : bool) : checked unit :=
  let base := SyntheticStreamValidator.reader_baseline v in
  parser_errors ← _delta corruption_events (SyntheticStreamValidator.parser_baseline v);
  _ ← require (parser_errors =? 0) (Unexpected "parser_errors");
  block_drops ← _delta (ReaderHealth.host_block_queue_drops reader) (ReaderHealth.host_block_queue_drops base);
  _ ← require (block_drops =? 0) (Unexpected "host_queue_drops");
  event_drops ← _delta (ReaderHealth.host_event_queue_drops reader) (ReaderHealth.host_event_queue_drops base);
  _ ← require (event_drops =? 0) (Unexpected "host_event_queue_drops");
  if after_stop then Ok tt
  else
    stale ← _delta (ReaderHealth.stale_blocks_discarded reader) (ReaderHealth.stale_blocks_discarded base);
    require (stale =? 0) (Unexpected "stale_blocks").

(** A count of [V3Status], zero past the eight the record has. *)
Definition status_count (s : V3Status) (i : nat) : Z := default 0 (V3Status.counts s !! i).

(** [_available_frames] *)
Definition _available_frames (s : V3Status) : Z * Z :=
  (status_count s 0 - status_count s 1, status_count s 4 - status_count s 5).

(** [validate_status] on a v3 status. *)
Definition validate_status (v : SyntheticStreamValidator) (status : V3Status) (response_run_id : Z) (final : bool) :
    checked unit :=
  let stop := V3Status.stop status in
  let run_id := SyntheticStreamValidator.run_id v in
  _ ← require (response_run_id =? run_id) (Unexpected "status_run_id");
  let expected_v3_state := if final then DeviceState.STOPPED else DeviceState.RUNNING in
  _ ← require ((V3Stop.run_id stop =? run_id) && bool_decide (V3Stop.state stop = expected_v3_state))
        (Unexpected "status_state");
  _ ← require ((status_count status 3 =? 0) && (status_count status 7 =? 0)) (Unexpected "firmware_drops");
  _ ← require (negb (final && negb (V3Stop.pending_frames stop =? 0))) (Unexpected "status_state");
  let '(adc_frames, gpio_frames) := _available_frames status in
  require (negb ((adc_frames <? SyntheticStreamValidator.adc_frames_validated v)
                 || (gpio_frames <? SyntheticStreamValidator.gpio_frames_validated v)))
    (Unexpected "frame_counter").

(** ** What one block must be *)

(** The synthetic samples of a v3 block, from its own position in the stream. *)
Definition expected_samples (b : DataBlock) : bytes :=
  let first := Z.to_nat (block_ticks b / block_period b) in
  match b with
  | AdcData _ => v3_stream first (Z.to_nat (block_count b))
  | GpioData g => gpio_stream (GPIOBlock.aux_bank_mode g) (v3_pattern (block_sequence b)) first (Z.to_nat (block_count b))
  end.

Lemma validate_v3_block_iff b pattern :
  v3_wf b ->
  (validate_synthetic_block b pattern = Ok tt <->
     Z.testbit (block_flags b) 0 = true /\ block_payload b = expected_samples b) /\
  (forall e, validate_synthetic_block b pattern = Err e -> is_pattern_error e = true).
Proof.
  intros [Hb Hv]. pose proof (bw_period b Hb) as Hp. pose proof (bw_count b Hb) as Hc. pose proof (bw_ticks b Hb) as Ht.
  assert (Hi : 0 <= block_ticks b / block_period b) by (apply Z.div_pos; lia).
  unfold validate_synthetic_block. change FrameFlag.SYNTHETIC with (2 ^ 0). rewrite has_testbit by lia.
  destruct (Z.testbit (block_flags b) 0); cbn [negb].
  2: { split; [split; [done|by intros [? _]]|by intros e [= <-]]. }
  rewrite Hv. change (PROTOCOL_VERSION =? 3) with true. cbn [negb].
  set (expected := match b with AdcData b => _ | GpioData b => _ end).
  assert (He : expected = Ok (expected_samples b)).
  { unfold expected, expected_samples. destruct b as [a|g].
    - change (first_pair_index a) with (block_ticks (AdcData a) / block_period (AdcData a)).
      change (adc_item_count a) with (block_count (AdcData a)). by rewrite synthetic_v3_payload_stream by lia.
    - change (first_sample_index g) with (block_ticks (GpioData g) / block_period (GpioData g)).
      change (gpio_item_count g) with (block_count (GpioData g)). by rewrite synthetic_gpio_payload_stream by lia. }
  rewrite He. cbn [lift_pattern mbind result_bind]. case_bool_decide as Hx.
  - split; [done|discriminate].
  - split; [split; [done|by intros [_ ?]]|by intros e [= <-]].
Qed.

(** ** What the validator accepts *)

(** A block that continues the validated stream. *)
Definition continues (v : SyntheticStreamValidator) (b : DataBlock) : Prop :=
  exists e, expected_for v b = Some e /\ block_run_id b = SyntheticStreamValidator.run_id v /\
    Z.testbit (block_flags b) 0 = true /\ marked_gap b = false /\ marked_overrun b = false /\
    block_sequence b = Expected.sequence e /\ block_ticks b = Expected.ticks e /\
    block_payload b = expected_samples b.

Lemma has_either f a b : has f (Z.lor a b) = has f a || has f b.
Proof.
  unfold has. rewrite Z.land_lor_distr_r. destruct (Z.eqb_spec (Z.land f a) 0) as [->|Ha]; cbn [negb orb].
  - by rewrite Z.lor_0_l.
  - apply negb_true_iff, Z.eqb_neq. intros H. apply Z.lor_eq_0_iff in H. tauto.
Qed.

Lemma validate_cases v b :
  v3_wf b ->
  (continues v b /\ validate v (ClientBlock b) = (account v b, Ok b)) \/
  (~ continues v b /\ exists category, validate v (ClientBlock b) = (v, Err (Unexpected category))).
Proof.
  intros Hb. unfold validate, continues. destruct (expected_for v b) as [e|] eqn:He.
  2: { right. split; [intros (? & ? & _); congruence|by eexists]. }
  destruct (Z.eqb_spec (block_run_id b) (SyntheticStreamValidator.run_id v)) as [Hr|Hr]; cbn [negb].
  2: { right. split; [intros (? & _ & ? & _); congruence|by eexists]. }
  rewrite has_either. change (has (block_flags b) FrameFlag.GAP_BEFORE) with (marked_gap b).
  change (has (block_flags b) FrameFlag.OVERRUN_BEFORE) with (marked_overrun b).
  destruct (marked_gap b) eqn:Hg; cbn [orb].
  { right. split; [intros (? & _ & _ & _ & ? & _); congruence|by eexists]. }
  destruct (marked_overrun b) eqn:Ho.
  { right. split; [intros (? & _ & _ & _ & _ & ? & _); congruence|by eexists]. }
  destruct (Z.eqb_spec (block_sequence b) (Expected.sequence e)) as [Hs|Hs]; cbn [negb].
  2: { right. split; [intros (e' & [= <-] & _ & _ & _ & _ & ? & _); congruence|by eexists]. }
  destruct (Z.eqb_spec (block_ticks b) (Expected.ticks e)) as [Ht|Ht]; cbn [negb].
  2: { right. split; [intros (e' & [= <-] & _ & _ & _ & _ & _ & ? & _); congruence|by eexists]. }
  destruct (validate_v3_block_iff b COUNTER Hb) as [Hiff Herr].
  destruct (validate_synthetic_block b COUNTER) as [[]|err].
  - destruct (proj1 Hiff eq_refl) as [H0 Hp]. left. split; [|done]. exists e. by repeat (split; [done|]).
  - rewrite (Herr err eq_refl). right. split; [|by eexists]. intros (e' & _ & _ & H0 & _ & _ & _ & _ & Hp).
    assert (Err err = (Ok tt : result block_error unit)) by (by apply Hiff). discriminate.
Qed.

(** ** A whole stream *)

(** Validate the items in order; the first failure raises. *)
Fixpoint validate_all (v : SyntheticStreamValidator) (items : list client_item) :
    SyntheticStreamValidator * checked unit :=
  match items with
  | [] => (v, Ok tt)
  | item :: items =>
      match validate v item with
      | (v, Err e) => (v, Err e)
      | (v, Ok _) => validate_all v items
      end
  end.

(** What the validator expects after the blocks [bs] of one stream, from [e] on. *)
Fixpoint follows (run : Z) (e : Expected) (bs : list DataBlock) : Prop :=
  match bs with
  | [] => True
  | b :: bs =>
      block_run_id b = run /\ Z.testbit (block_flags b) 0 = true /\
      marked_gap b = false /\ marked_overrun b = false /\
      block_sequence b = Expected.sequence e /\ block_ticks b = Expected.ticks e /\
      block_payload b = expected_samples b /\
      follows run (Expected.mk (u32 (block_sequence b + 1)) (block_end_tick b)) bs
  end.

Definition stream_follows (k : V1FrameKind.FrameKind) (v : SyntheticStreamValidator) (bs : list DataBlock) : Prop :=
  let expected := match k with
                  | V1FrameKind.ADC_DATA => SyntheticStreamValidator.adc_expected v
                  | _ => SyntheticStreamValidator.gpio_expected v
                  end in
  match expected with
  | Some e => follows (SyntheticStreamValidator.run_id v) e (of_kind k bs)
  | None => of_kind k bs = []
  end.

Lemma of_kind_step k b bs :
  of_kind k (b :: bs) = if decide (block_kind b = k) then b :: of_kind k bs else of_kind k bs.
Proof. unfold of_kind. rewrite filter_cons. done. Qed.

Lemma stream_follows_step v b bs :
  (stream_follows V1FrameKind.ADC_DATA v (b :: bs) /\ stream_follows V1FrameKind.GPIO_DATA v (b :: bs)) <->
  continues v b /\ stream_follows V1FrameKind.ADC_DATA (account v b) bs /\
  stream_follows V1FrameKind.GPIO_DATA (account v b) bs.
Proof.
  destruct v as [run mask rb pb adc gpio fa fg]. unfold stream_follows, continues.
  rewrite !of_kind_step. destruct b as [a|g].
  - rewrite (decide_True (P:=block_kind (AdcData a) = _)) by done.
    rewrite (decide_False (P:=block_kind (AdcData a) = _)) by done.
    cbn [account expected_for SyntheticStreamValidator.adc_expected SyntheticStreamValidator.gpio_expected
      SyntheticStreamValidator.run_id]. destruct adc as [e|]; cbn [follows]; [|split; [by intros [? _]|by intros ((? & ? & _) & _)]].
    split.
    + intros [(H1 & H2 & H3 & H4 & H5 & H6 & H7 & H8) Hg]. split; [|done]. exists e. by repeat (split; [done|]).
    + intros [(e' & [= <-] & H1 & H2 & H3 & H4 & H5 & H6 & H7) [H8 Hg]]. split; [|done]. by repeat (split; [done|]).
  - rewrite (decide_False (P:=block_kind (GpioData g) = _)) by done.
    rewrite (decide_True (P:=block_kind (GpioData g) = _)) by done.
    cbn [account expected_for SyntheticStreamValidator.adc_expected SyntheticStreamValidator.gpio_expected
      SyntheticStreamValidator.run_id]. destruct gpio as [e|]; cbn [follows]; [|split; [by intros [_ ?]|by intros ((? & ? & _) & _)]].
    split.
    + intros [Ha (H1 & H2 & H3 & H4 & H5 & H6 & H7 & H8)]. split; [|done]. exists e. by repeat (split; [done|]).
    + intros [(e' & [= <-] & H1 & H2 & H3 & H4 & H5 & H6 & H7) [Ha H8]]. split; [done|]. by repeat (split; [done|]).
Qed.

Lemma account_frames v bs :
  let v' := fold_left account bs v in
  SyntheticStreamValidator.adc_frames_validated v'
  = SyntheticStreamValidator.adc_frames_validated v + zlen (of_kind V1FrameKind.ADC_DATA bs) /\
  SyntheticStreamValidator.gpio_frames_validated v'
  = SyntheticStreamValidator.gpio_frames_validated v + zlen (of_kind V1FrameKind.GPIO_DATA bs).
Proof.
  revert v. induction bs as [|b bs IH]; intros v v'.
  - subst v'. cbn [fold_left]. change (of_kind _ []) with (@nil DataBlock). unfold zlen. cbn [length]. lia.
  - subst v'. cbn [fold_left]. destruct (IH (account v b)) as [-> ->]. rewrite !of_kind_step.
    destruct v, b as [a|g]; rewrite ?(decide_True (P:=block_kind (AdcData a) = V1FrameKind.ADC_DATA)),
      ?(decide_False (P:=block_kind (AdcData a) = V1FrameKind.GPIO_DATA)),
      ?(decide_False (P:=block_kind (GpioData g) = V1FrameKind.ADC_DATA)),
      ?(decide_True (P:=block_kind (GpioData g) = V1FrameKind.GPIO_DATA)) by done; unfold zlen; cbn [length account
      SyntheticStreamValidator.adc_frames_validated SyntheticStreamValidator.gpio_frames_validated]; lia.
Qed.

Lemma validate_blocks bs : forall v,
  Forall v3_wf bs ->
  (stream_follows V1FrameKind.ADC_DATA v bs /\ stream_follows V1FrameKind.GPIO_DATA v bs /\
   validate_all v (map ClientBlock bs) = (fold_left account bs v, Ok tt)) \/
  (~ (stream_follows V1FrameKind.ADC_DATA v bs /\ stream_follows V1FrameKind.GPIO_DATA v bs) /\
   exists v' category, validate_all v (map ClientBlock bs) = (v', Err (Unexpected category))).
Proof.
  induction bs as [|b bs IH]; intros v Hw.
  - left. destruct v as [run mask rb pb adc gpio fa fg]. unfold stream_follows. cbn.
    split; [by destruct adc|]. split; [by destruct gpio|done].
  - apply Forall_cons in Hw as [Hb Hw]. cbn [map validate_all fold_left].
    destruct (validate_cases v b Hb) as [[Hc ->]|[Hc (category & ->)]].
    + destruct (IH (account v b) Hw) as [(Ha & Hg & ->)|[Hno Hex]].
      * left. destruct (proj2 (stream_follows_step v b bs)) as [H1 H2]; [done|]. done.
      * right. split; [|done]. intros Hy. apply Hno. by apply stream_follows_step in Hy as (_ & ? & ?).
    + right. split; [|by eexists _, _]. intros Hy. apply Hc. by apply stream_follows_step in Hy as (? & _).
Qed.

(** C29. The validator accepts a sequence of v3 blocks exactly when it is a strict epoch:
    in each enabled stream every block has the run's ID and the SYNTHETIC flag, carries no
    loss marker, is numbered and timestamped where the one before ended (the first at
    zero), and holds the generator's samples for its own position; blocks of a disabled
    stream, gaps, losses and anomalies are refused.  An accepted sequence is counted
    exactly; a refused one raises [UnexpectedStreamValidationError], never anything else. *)
Theorem validator_exact (run mask : Z) (rb : ReaderHealth) (pb : Z) (v : SyntheticStreamValidator) (bs : list DataBlock) :
  new_validator run mask rb pb = Ok v -> Forall v3_wf bs ->
  let strict k stream := if has mask stream then follows run (Expected.mk 0 0) (of_kind k bs) else of_kind k bs = [] in
  ((exists v', validate_all v (map ClientBlock bs) = (v', Ok tt)) <->
     strict V1FrameKind.ADC_DATA StreamMask.ADC /\ strict V1FrameKind.GPIO_DATA StreamMask.GPIO) /\
  (forall v' u, validate_all v (map ClientBlock bs) = (v', Ok u) ->
     SyntheticStreamValidator.adc_frames_validated v' = zlen (of_kind V1FrameKind.ADC_DATA bs) /\
     SyntheticStreamValidator.gpio_frames_validated v' = zlen (of_kind V1FrameKind.GPIO_DATA bs)) /\
  (forall v' e, validate_all v (map ClientBlock bs) = (v', Err e) -> exists category, e = Unexpected category).
Proof.
  intros Hv Hw strict. unfold new_validator in Hv. apply require_bind in Hv as [_ Hv]. apply require_bind in Hv as [_ Hv].
  apply Ok_inj in Hv. subst v. set (v := SyntheticStreamValidator.mk _ _ _ _ _ _ _ _).
  assert (Hs : strict V1FrameKind.ADC_DATA StreamMask.ADC /\ strict V1FrameKind.GPIO_DATA StreamMask.GPIO <->
    stream_follows V1FrameKind.ADC_DATA v bs /\ stream_follows V1FrameKind.GPIO_DATA v bs).
  { unfold strict, stream_follows, v. cbn [SyntheticStreamValidator.adc_expected SyntheticStreamValidator.gpio_expected
      SyntheticStreamValidator.run_id]. by destruct (has mask StreamMask.ADC), (has mask StreamMask.GPIO). }
  rewrite Hs. destruct (account_frames v bs) as [Ha Hg].
  destruct (validate_blocks bs v Hw) as [(H1 & H2 & ->)|[Hno (v' & category & ->)]].
  - split; [split; [done|by eexists]|]. split; [|discriminate]. intros v' u [= <- <-]. by rewrite Ha, Hg.
  - split; [split; [by intros [? ?]|done]|]. split; [discriminate|]. intros ? ? [= _ <-]. by eexists.
Qed.

(** ** Witness *)

(** A two-pair synthetic ADC block of run 1, the first of its stream. *)
Definition example_synthetic : mdl ADCBlock :=
  metadata ← for_rate_profile V2RateProfile.ADC_1MHZ_GPIO_1MHZ Source.SYNTHETIC;
  encoded ← lift_v3 (encode_adc_payload [v3_pair 0; v3_pair 1] AdcPolicy.PACK12);
  new_adc_block
    (ADCBlock.mk 1 0 0 (concat (map raw_pair [v3_pair 0; v3_pair 1])) FrameFlag.SYNTHETIC Checksum.ADLER32
       metadata AuxBankMode.DISABLED V2RateProfile.ADC_1MHZ_GPIO_1MHZ 3 None (Some encoded)).

Lemma example_synthetic_wf b : example_synthetic = Ok b -> v3_wf (AdcData b).
Proof.
  unfold example_synthetic. intros H. apply bind_Ok_inv in H as (m & _ & H). apply bind_Ok_inv in H as (e & _ & H).
  destruct (new_adc_block_version _ _ H) as [Hv _]. split; [by apply new_adc_block_wf in H|exact Hv].
Qed.

Lemma validator_exact_witness :
  exists b v v', example_synthetic = Ok b /\ new_validator 1 StreamMask.ADC (ReaderHealth.mk 0 0 0) 0 = Ok v /\
    validate_all v [ClientBlock (AdcData b)] = (v', Ok tt) /\ SyntheticStreamValidator.adc_frames_validated v' = 1.
Proof.
  assert (Hb : exists b, example_synthetic = Ok b) by (eexists; vm_compute; reflexivity). destruct Hb as (b & Hb).
  assert (Hv : exists v, new_validator 1 StreamMask.ADC (ReaderHealth.mk 0 0 0) 0 = Ok v) by (eexists; vm_compute; reflexivity).
  destruct Hv as (v & Hv). exists b, v. pose proof (example_synthetic_wf b Hb) as Hw.
  destruct (validator_exact 1 StreamMask.ADC (ReaderHealth.mk 0 0 0) 0 v [AdcData b] Hv) as (_ & Hc & _);
    [constructor; [exact Hw|constructor]|].
  assert (Hok : exists v', validate_all v [ClientBlock (AdcData b)] = (v', Ok tt)).
  { clear Hc Hw. vm_compute in Hb. apply Ok_inj in Hb. subst b. vm_compute in Hv. apply Ok_inj in Hv. subst v.
    eexists. vm_compute. reflexivity. }
  destruct Hok as (v' & Hok). exists v'. do 3 (split; [assumption|]). destruct (Hc v' tt Hok) as [Ha _]. rewrite Ha. reflexivity.
Defined.
