(* ===== verification/ClientStream.v ===== *)
(** * The client's stream bookkeeping ([client.py]).

    The part of [ThingDAQ] that turns the reader's items into what [read_block] returns:
    the per-stream expectations, [_process_block], [_process_host_queue_loss],
    [_process_reader_anomaly], the firmware evidence attached to each loss, and the
    reconciliation of the loss counters.  A protocol-v3 session: the branch that
    replaces ADC metadata in v1/v2 sessions is not modelled.  What the client asks of
    its session and reader while it processes an item is an argument ([Surroundings]):
    the answer of the STATUS command, the applied settings, the parser's counter. *)

From stdpp Require Import pretty.
From S2P Require Import Prelude PyStruct Checksum V3Constants V3Header V3Samples ModelsV3 V3Frames Synthetic Profiles Losses Blocks Continuity StreamQueues Validator.

(** ** State *)

(** [constants.DeviceState] *)
Module V1DeviceState.
Inductive DeviceState := BOOT | IDLE | CONFIGURED | RUNNING.
#[global] Instance DeviceState_eq_dec : EqDecision DeviceState.
Proof. solve_decision. Defined.
End V1DeviceState.

(** The fields of [DAQConfiguration] the bookkeeping reads. *)
Module StreamConfiguration.
Record StreamConfiguration := mk { stream_mask : Z; source : Source; aux_bank_mode : AuxBankMode }.
End StreamConfiguration.
Abbreviation StreamConfiguration := StreamConfiguration.StreamConfiguration.

(** The entries of [_expected_sequence], [_expected_ticks], [_previous_sequence] and
    [_unanchored_streams] for one enabled stream. *)
Module Expectation.
Record Expectation := mk {
  sequence : Z;
  ticks : Z;
  previous : option Z;
  unanchored : bool
}.
End Expectation.
Abbreviation Expectation := Expectation.Expectation.

(** The entries of [_inferred_missing_frames] and [_inferred_missing_items]. *)
Module Inferred.
Record Inferred := mk { frames : Z; items : Z }.
End Inferred.
Abbreviation Inferred := Inferred.Inferred.

(** What [_telemetry_error_messages] records.  The messages of the reconciliation and of firmware
    evidence are the strings of the source, because an equal one is not counted again; of the
    others, which are only counted, the facts are kept. *)
Inductive telemetry :=
| AnomalyMessage (kind : V1FrameKind.FrameKind) (reason : StreamAnomalyReason) (run sequence : Z)
| RangeMessage (kind : V1FrameKind.FrameKind)
| EvidenceMessage (message : string).

#[export] Instance telemetry_eq_dec : EqDecision telemetry.
Proof. solve_decision. Defined.

(** What [_reset_loss_observations] clears. *)
Module Observed.
Record Observed := mk {
  stream_gaps : Z;
  stream_anomalies : Z;
  host_queue_losses : Z;
  telemetry_errors : Z;
  messages : list telemetry
}.
End Observed.
Abbreviation Observed := Observed.Observed.

Module ClientStream.
Record ClientStream := mk {
  _strict : bool;
  _state : option V1DeviceState.DeviceState;
  _run_id : Z;
  _configuration : option StreamConfiguration;
  _adc : option Expectation;
  _gpio : option Expectation;
  _adc_inferred : option Inferred;
  _gpio_inferred : option Inferred;
  _pending_items : list client_item;
  _loss_stats_generation : option Z;
  observed : Observed;
  _stream_parser_error_baseline : Z
}.
End ClientStream.
Abbreviation ClientStream := ClientStream.ClientStream.

Inductive client_error :=
| DAQStateError
| BlockTimeoutError
| UnexpectedMessageError (message : string)
| UnexpectedStreamAnomalyError (a : StreamAnomaly) (b : option DataBlock)
| UnexpectedStreamGapError (g : StreamGap) (b : DataBlock)
| UnexpectedHostQueueLossError (l : HostQueueLoss)
| UnexpectedStreamValidationError (category : string)
| StatusRaised
| ClientKeyError
| ClientModelRaised (e : model_error)
| ClientBlockRaised (e : block_error).

(** [self.status()]: a report, one of the exceptions [_firmware_evidence] catches, or
    another exception. *)
Inductive status_outcome := StatusIs (s : V3Status) | StatusUnavailable | StatusRaises.

Module Surroundings.
Record Surroundings := mk {
  applied : V3Settings;
  status : status_outcome;
  corruption_events : Z
}.
End Surroundings.
Abbreviation Surroundings := Surroundings.Surroundings.

Definition lift_model {A} (m : mdl A) : result client_error A :=
  match m with Ok a => Ok a | Err e => Err (ClientModelRaised e) end.

(** ** Access by stream *)

Definition expectation_of (k : V1FrameKind.FrameKind) (c : ClientStream) : option Expectation :=
  match k with
  | V1FrameKind.ADC_DATA => ClientStream._adc c
  | V1FrameKind.GPIO_DATA => ClientStream._gpio c
  | _ => None
  end.

Definition inferred_of (k : V1FrameKind.FrameKind) (c : ClientStream) : option Inferred :=
  match k with
  | V1FrameKind.ADC_DATA => ClientStream._adc_inferred c
  | V1FrameKind.GPIO_DATA => ClientStream._gpio_inferred c
  | _ => None
  end.

Definition set_expectation (k : V1FrameKind.FrameKind) (e : Expectation) (c : ClientStream) : ClientStream :=
  let '(ClientStream.mk st state run cfg a g ai gi p gen o base) := c in
  match k with
  | V1FrameKind.ADC_DATA => ClientStream.mk st state run cfg (Some e) g ai gi p gen o base
  | V1FrameKind.GPIO_DATA => ClientStream.mk st state run cfg a (Some e) ai gi p gen o base
  | _ => c
  end.

Definition set_inferred (k : V1FrameKind.FrameKind) (i : Inferred) (c : ClientStream) : ClientStream :=
  let '(ClientStream.mk st state run cfg a g ai gi p gen o base) := c in
  match k with
  | V1FrameKind.ADC_DATA => ClientStream.mk st state run cfg a g (Some i) gi p gen o base
  | V1FrameKind.GPIO_DATA => ClientStream.mk st state run cfg a g ai (Some i) p gen o base
  | _ => c
  end.

Definition set_pending_items (items : list client_item) (c : ClientStream) : ClientStream :=
  let '(ClientStream.mk st state run cfg a g ai gi _ gen o base) := c in
  ClientStream.mk st state run cfg a g ai gi items gen o base.
Definition set_generation (generation : option Z) (c : ClientStream) : ClientStream :=
  let '(ClientStream.mk st state run cfg a g ai gi p _ o base) := c in
  ClientStream.mk st state run cfg a g ai gi p generation o base.
Definition set_observed (seen : Observed) (c : ClientStream) : ClientStream :=
  let '(ClientStream.mk st state run cfg a g ai gi p gen _ base) := c in
  ClientStream.mk st state run cfg a g ai gi p gen seen base.
Definition set_run (run_id : Z) (state : V1DeviceState.DeviceState) (c : ClientStream) : ClientStream :=
  let '(ClientStream.mk st _ _ cfg a g ai gi p gen o base) := c in
  ClientStream.mk st (Some state) run_id cfg a g ai gi p gen o base.

Definition observe (f : Observed -> Observed) (c : ClientStream) : ClientStream :=
  set_observed (f (ClientStream.observed c)) c.
Definition count_gap (o : Observed) : Observed :=
  let '(Observed.mk gaps anomalies losses errors messages) := o in Observed.mk (gaps + 1) anomalies losses errors messages.
Definition count_anomalies (n : Z) (o : Observed) : Observed :=
  let '(Observed.mk gaps anomalies losses errors messages) := o in Observed.mk gaps (anomalies + n) losses errors messages.
Definition count_loss (o : Observed) : Observed :=
  let '(Observed.mk gaps anomalies losses errors messages) := o in Observed.mk gaps anomalies (losses + 1) errors messages.

(** [_telemetry_error_messages.update(new)]: a set, in order of first insertion. *)
Definition add_messages (new old : list telemetry) : list telemetry :=
  fold_left (fun ms m => if bool_decide (m ∈ ms) then ms else ms ++ [m]) new old.

(** [_protocol_telemetry_errors += n] with the messages [new]. *)
Definition telemetry_error (n : Z) (new : list telemetry) (o : Observed) : Observed :=
  let '(Observed.mk gaps anomalies losses errors messages) := o in
  Observed.mk gaps anomalies losses (errors + n) (add_messages new messages).

(** ** Expectations *)

(** [_clear_stream_expectations] *)
Definition _clear_stream_expectations (preserve_inferred : bool) (c : ClientStream) : ClientStream :=
  let '(ClientStream.mk st state run cfg _ _ ai gi p gen o base) := c in
  let keep (i : option Inferred) := if preserve_inferred then i else None in
  ClientStream.mk st state run cfg None None (keep ai) (keep gi) p gen o base.

(** [_initialize_stream_expectations] *)
Definition _initialize_stream_expectations (configuration : StreamConfiguration) (epoch_start : bool) (c : ClientStream) :
    ClientStream :=
  let mask := StreamConfiguration.stream_mask configuration in
  let c := _clear_stream_expectations false c in
  let start k c := set_inferred k (Inferred.mk 0 0) (set_expectation k (Expectation.mk 0 0 None (negb epoch_start)) c) in
  let c := if has mask StreamMask.ADC then start V1FrameKind.ADC_DATA c else c in
  if has mask StreamMask.GPIO then start V1FrameKind.GPIO_DATA c else c.

(** [_reset_loss_observations], the host baselines apart. *)
Definition _reset_loss_observations (c : ClientStream) : ClientStream := set_observed (Observed.mk 0 0 0 0 []) c.

(** [_v3_stream_configuration] *)
Definition _v3_stream_configuration (settings : V3Settings) : StreamConfiguration :=
  StreamConfiguration.mk (V3Settings.stream_mask settings) (V3Settings.source settings)
    (if has (V3Settings.stream_mask settings) StreamMask.GPIO then V3Settings.aux_bank_mode settings
     else AuxBankMode.DISABLED).

(** [start] once [self._v3.start()] returned [run_id], the device RUNNING. *)
Definition start_stream (settings : V3Settings) (run_id parser_baseline : Z) (c : ClientStream) : ClientStream :=
  let configuration := _v3_stream_configuration settings in
  let '(ClientStream.mk st _ _ _ a g ai gi _ _ o _) := c in
  set_generation None
    (_reset_loss_observations
       (_initialize_stream_expectations configuration true
          (ClientStream.mk st (Some V1DeviceState.RUNNING) run_id (Some configuration) a g ai gi [] None o parser_baseline))).

(** [stop] once [self._v3.stop()] returned. *)
Definition stop_session (c : ClientStream) : ClientStream :=
  let '(ClientStream.mk st _ run cfg a g ai gi p gen o base) := c in
  set_pending_items []
    (_clear_stream_expectations true (ClientStream.mk st (Some V1DeviceState.CONFIGURED) run cfg a g ai gi p gen o base)).

(** The expectation after a retained block or a reported range: its last sequence and
    the tick it ends at. *)
Definition resume_after (k : V1FrameKind.FrameKind) (last_sequence end_ticks : Z) (c : ClientStream) : ClientStream :=
  let unanchored := match expectation_of k c with Some e => Expectation.unanchored e | None => false end in
  set_expectation k (Expectation.mk (u32 (last_sequence + 1)) end_ticks (Some last_sequence) unanchored) c.

(** [_advance_expectation] *)
Definition _advance_expectation (b : DataBlock) (c : ClientStream) : ClientStream :=
  resume_after (block_kind b) (block_sequence b) (block_end_tick b) c.

(** [_unanchored_streams.remove(kind)] *)
Definition anchor (k : V1FrameKind.FrameKind) (c : ClientStream) : ClientStream :=
  match expectation_of k c with
  | None => c
  | Some e => set_expectation k (Expectation.mk (Expectation.sequence e) (Expectation.ticks e) (Expectation.previous e) false) c
  end.

(** ** Firmware evidence *)

(** The fields of [FirmwareCounters] that [_v3_counters] sets; the others are zero. *)
Module FirmwareCounters.
Record FirmwareCounters := mk {
  stats_generation : Z;
  adc_frames_dropped : Z;
  adc_items_dropped : Z;
  adc_payload_bytes_dropped : Z;
  gpio_frames_dropped : Z;
  gpio_items_dropped : Z;
  gpio_payload_bytes_dropped : Z
}.
End FirmwareCounters.
Abbreviation FirmwareCounters := FirmwareCounters.FirmwareCounters.

(** [FirmwareCounters.__post_init__] on those fields. *)
Definition counters_validate (f : FirmwareCounters) : mdl FirmwareCounters :=
  _ ← _unsigned "adc_items_dropped" (FirmwareCounters.adc_items_dropped f) 64;
  _ ← _unsigned "gpio_items_dropped" (FirmwareCounters.gpio_items_dropped f) 64;
  _ ← _unsigned "adc_frames_dropped" (FirmwareCounters.adc_frames_dropped f) 64;
  _ ← _unsigned "gpio_frames_dropped" (FirmwareCounters.gpio_frames_dropped f) 64;
  _ ← _unsigned "adc_payload_bytes_dropped" (FirmwareCounters.adc_payload_bytes_dropped f) 64;
  _ ← _unsigned "gpio_payload_bytes_dropped" (FirmwareCounters.gpio_payload_bytes_dropped f) 64;
  _ ← _unsigned "stats_generation" (FirmwareCounters.stats_generation f) 32;
  _ ← require (negb (FirmwareCounters.stats_generation f =? 0)) (ValueError "stats_generation must be nonzero");
  Ok f.

(** [configuration.gpio_layout.item_bytes], or a default without a configuration. *)
Definition gpio_bytes_per_item (c : ClientStream) (otherwise : Z) : Z :=
  match ClientStream._configuration c with
  | Some cfg => GPIOLayout.item_bytes (from_mode (StreamConfiguration.aux_bank_mode cfg))
  | None => otherwise
  end.

Definition _v3_counters (c : ClientStream) (applied : V3Settings) (status : V3Status) : mdl FirmwareCounters :=
  let run := V3Stop.run_id (V3Status.stop status) in
  let width := gpio_bytes_per_item c (V3Settings.gpio_width_bits applied / 8) in
  counters_validate
    (FirmwareCounters.mk (if run =? 0 then 1 else run) (status_count status 1) (status_count status 3)
       (status_count status 3 * 4) (status_count status 5) (status_count status 7) (status_count status 7 * width)).

(** [_observe_loss_stats_generation]: the message when the generation changed. *)
Definition _observe_loss_stats_generation (observed : Z) (c : ClientStream) : ClientStream * option string :=
  match ClientStream._loss_stats_generation c with
  | None => (set_generation (Some observed) c, None)
  | Some generation =>
      (c, if generation =? observed then None
          else Some ("firmware statistics generation changed within the active run: expected " +:+ pretty generation
                     +:+ ", observed " +:+ pretty observed)%string)
  end.

(** [status] on a v3 session: the run and state it reports become the client's. *)
Definition adopt_status (s : V3Status) (c : ClientStream) : ClientStream :=
  let stop := V3Status.stop s in
  set_run (V3Stop.run_id stop)
    (if decide (V3Stop.state stop = DeviceState.RUNNING) then V1DeviceState.RUNNING else V1DeviceState.CONFIGURED) c.

(** Frames, items and bytes the firmware reports dropped in a stream, and the bytes of
    one item. *)
Definition dropped_of (k : V1FrameKind.FrameKind) (c : ClientStream) (f : FirmwareCounters) : Z * Z * Z * Z :=
  match k with
  | V1FrameKind.ADC_DATA =>
      (FirmwareCounters.adc_frames_dropped f, FirmwareCounters.adc_items_dropped f,
       FirmwareCounters.adc_payload_bytes_dropped f, ADC_BYTES_PER_PAIR)
  | _ => (FirmwareCounters.gpio_frames_dropped f, FirmwareCounters.gpio_items_dropped f,
          FirmwareCounters.gpio_payload_bytes_dropped f, gpio_bytes_per_item c 1)
  end.

(** The text of the caught error, which follows, is left out. *)
Definition counters_unavailable : string := "firmware loss counters unavailable".

(** The message of counters that disagree, in the evidence and in the reconciliation. *)
Definition counters_disagree (k : V1FrameKind.FrameKind) (frames items bytes actual_frames actual_items actual_bytes : Z) : string :=
  ((if decide (k = V1FrameKind.ADC_DATA) then "ADC_DATA" else "GPIO_DATA")
   +:+ " cumulative loss counters disagree: host inferred frames/items/bytes=" +:+ pretty frames +:+ "/" +:+ pretty items
   +:+ "/" +:+ pretty bytes +:+ ", firmware reported " +:+ pretty actual_frames +:+ "/" +:+ pretty actual_items +:+ "/"
   +:+ pretty actual_bytes)%string.

(** Whether the firmware's counters match the host's inference: yes, ahead of the
    consumer ([None]), or no. *)
Definition counters_verdict (frames items bytes dropped_frames dropped_items dropped_bytes bytes_per_item : Z) :
    option bool :=
  let units := dropped_bytes =? dropped_items * bytes_per_item in
  if (dropped_frames =? frames) && (dropped_items =? items) && (dropped_bytes =? bytes) && units then Some true
  else if (frames <=? dropped_frames) && (items <=? dropped_items) && (bytes <=? dropped_bytes) && units then None
  else Some false.

(** What a loss record's own evidence starts from. *)
Definition base_evidence (base : option FirmwareLossEvidence) : bool * bool * bool * list string :=
  match base with
  | None => (false, false, true, [])
  | Some e => (FirmwareLossEvidence.gap_before e, FirmwareLossEvidence.overrun_before e,
               FirmwareLossEvidence.flags_match e, FirmwareLossEvidence.errors e)
  end.

Definition _firmware_evidence (c : ClientStream) (w : Surroundings) (k : V1FrameKind.FrameKind) (source : Source)
    (base : option FirmwareLossEvidence) : ClientStream * result client_error FirmwareLossEvidence :=
  let inferred := default (Inferred.mk 0 0) (inferred_of k c) in
  let frames := Inferred.frames inferred in
  let items := Inferred.items inferred in
  let '(gap, over, flags_match, errors) := base_evidence base in
  match Surroundings.status w with
  | StatusRaises => (c, Err StatusRaised)
  | StatusUnavailable =>
      (c, lift_model (evidence_validate
            (FirmwareLossEvidence.mk source gap over None None None None frames items flags_match None
               (errors ++ [counters_unavailable]))))
  | StatusIs status =>
      let c := adopt_status status c in
      match _v3_counters c (Surroundings.applied w) status with
      | Err e => (c, Err (ClientModelRaised e))
      | Ok counters =>
          let generation := FirmwareCounters.stats_generation counters in
          let '(c, changed) := _observe_loss_stats_generation generation c in
          let errors := errors ++ option_list changed in
          let '(dropped_frames, dropped_items, dropped_bytes, bytes_per_item) := dropped_of k c counters in
          let expected := items * bytes_per_item in
          let verdict := counters_verdict frames items expected dropped_frames dropped_items
                           dropped_bytes bytes_per_item in
          let errors := match verdict with
                        | Some false =>
                            errors ++ [counters_disagree k frames items expected dropped_frames dropped_items dropped_bytes]
                        | _ => errors
                        end in
          (c, lift_model (evidence_validate
                (FirmwareLossEvidence.mk source gap over (Some generation) (Some dropped_frames) (Some dropped_items)
                   (Some dropped_bytes) frames items flags_match verdict errors)))
      end
  end.

(** [replace(gap, firmware_evidence=evidence)] *)
Definition gap_with_evidence (g : StreamGap) (evidence : FirmwareLossEvidence) : mdl StreamGap :=
  let '(StreamGap.mk kind run es os frames items et ot reported overrun drops source inferred _ period count variable) := g in
  new_gap kind run es os frames items et ot reported overrun drops source inferred (Some evidence)
    (Some period) (Some count) variable.

(** [replace(anomaly, firmware_evidence=evidence)] *)
Definition anomaly_with_evidence (a : StreamAnomaly) (evidence : FirmwareLossEvidence) : mdl StreamAnomaly :=
  let '(StreamAnomaly.mk reason kind source active run sequence ticks es et si ti _ occurrences) := a in
  anomaly_validate (StreamAnomaly.mk reason kind source active run sequence ticks es et si ti (Some evidence) occurrences).

(** [_finalize_gap_evidence] *)
Definition _finalize_gap_evidence (c : ClientStream) (w : Surroundings) (g : StreamGap) :
    ClientStream * result client_error StreamGap :=
  let '(c, evidence) := _firmware_evidence c w (StreamGap.kind g) (StreamGap.source g) (StreamGap.firmware_evidence g) in
  (c, evidence ≫= fun e => lift_model (gap_with_evidence g e)).

(** [_finalize_anomaly_evidence] *)
Definition _finalize_anomaly_evidence (c : ClientStream) (w : Surroundings) (a : StreamAnomaly) :
    ClientStream * result client_error StreamAnomaly :=
  let '(c, evidence) :=
    _firmware_evidence c w (StreamAnomaly.kind a) (StreamAnomaly.source a) (StreamAnomaly.firmware_evidence a) in
  (c, evidence ≫= fun e => lift_model (anomaly_with_evidence a e)).

(** ** Processing one item *)

Abbreviation processed := (ClientStream * result client_error client_item)%type.

(** [_validate_clean_block] *)
Definition _validate_clean_block (c : ClientStream) (w : Surroundings) (b : DataBlock) : result client_error unit :=
  if negb (ClientStream._strict c) then Ok tt
  else if negb (Surroundings.corruption_events w - ClientStream._stream_parser_error_baseline c =? 0)
  then Err (UnexpectedStreamValidationError "parser_errors")
  else
    match ClientStream._configuration c with
    | Some cfg =>
        if decide (StreamConfiguration.source cfg = Source.SYNTHETIC) then
          match validate_synthetic_block b COUNTER with
          | Ok _ => Ok tt
          | Err e => Err (if is_pattern_error e then UnexpectedStreamValidationError "synthetic_pattern"
                          else ClientBlockRaised e)
          end
        else Ok tt
    | None => Ok tt
    end.

(** A block that needs no report. *)
Definition deliver_clean (c : ClientStream) (w : Surroundings) (b : DataBlock) : processed :=
  let c := _advance_expectation b c in
  (c, _validate_clean_block c w b ≫= fun _ => Ok (ClientBlock b)).

Definition anomaly_message (a : StreamAnomaly) : telemetry :=
  AnomalyMessage (StreamAnomaly.kind a) (StreamAnomaly.reason a) (StreamAnomaly.observed_run_id a)
    (StreamAnomaly.observed_sequence a).

Definition record_anomaly (a : StreamAnomaly) (c : ClientStream) : ClientStream :=
  let n := StreamAnomaly.occurrences a in
  observe (fun o => telemetry_error n [anomaly_message a] (count_anomalies n o)) c.

Definition retained (r : StreamAnomalyReason) : bool :=
  match r with DUPLICATE | REORDERED | STALE_RUN => false | _ => true end.

(** [_pending_items.append(item)] *)
Definition defer (item : client_item) (c : ClientStream) : ClientStream :=
  set_pending_items (ClientStream._pending_items c ++ [item]) c.

(** The branch of [_process_block] for an anomaly. *)
Definition process_anomaly (c : ClientStream) (w : Surroundings) (b : DataBlock) (a : StreamAnomaly) : processed :=
  match _finalize_anomaly_evidence c w a with
  | (c, Err e) => (c, Err e)
  | (c, Ok a) =>
      let c := record_anomaly a c in
      let retain := retained (StreamAnomaly.reason a) in
      let c := if retain then _advance_expectation b c else c in
      if ClientStream._strict c then (c, Err (UnexpectedStreamAnomalyError a (Some b)))
      else ((if retain then defer (ClientBlock b) c else c), Ok (ClientAnomaly a))
  end.

(** [replace(block, gap=gap)] on ADC blocks. *)
Definition block_with_gap (b : DataBlock) (g : StreamGap) : mdl DataBlock :=
  match b with
  | AdcData (ADCBlock.mk run sequence ticks payload flags checksum metadata mode profile version _ encoded) =>
      b ← new_adc_block (ADCBlock.mk run sequence ticks payload flags checksum metadata mode profile version (Some g) encoded);
      Ok (AdcData b)
  | GpioData _ => Ok b
  end.

(** The counts of the evidence's own errors. *)
Definition record_evidence (evidence : option FirmwareLossEvidence) (o : Observed) : Observed :=
  match evidence with
  | Some e => if consistent e then o else telemetry_error 1 (map EvidenceMessage (FirmwareLossEvidence.errors e)) o
  | None => o
  end.

(** The branch of [_process_block] for a gap. *)
Definition process_gap (c : ClientStream) (w : Surroundings) (b : DataBlock) (g : StreamGap) : processed :=
  match inferred_of (block_kind b) c with
  | None => (c, Err ClientKeyError)
  | Some i =>
      let c := set_inferred (block_kind b)
                 (Inferred.mk (Inferred.frames i + StreamGap.missing_frames g) (Inferred.items i + StreamGap.missing_items g)) c in
      match _finalize_gap_evidence c w g with
      | (c, Err e) => (c, Err e)
      | (c, Ok g) =>
          let c := _advance_expectation b c in
          match block_with_gap b g with
          | Err e => (c, Err (ClientModelRaised e))
          | Ok b =>
              let c := observe (fun o => record_evidence (StreamGap.firmware_evidence g) (count_gap o)) c in
              if ClientStream._strict c then (c, Err (UnexpectedStreamGapError g b))
              else (defer (ClientBlock b) c, Ok (ClientGap g))
          end
      end
  end.

Definition _process_block (c : ClientStream) (w : Surroundings) (b : DataBlock) : processed :=
  match expectation_of (block_kind b) c with
  | None => (c, Err (UnexpectedMessageError "received disabled stream for the active configuration"))
  | Some e =>
      match ClientStream._configuration c with
      | None => (c, Err (UnexpectedMessageError "data arrived without an active configuration"))
      | Some cfg =>
          if negb (bool_decide (block_source b = StreamConfiguration.source cfg))
          then (c, Err (UnexpectedMessageError "source flag disagrees with the active configuration"))
          else if Expectation.unanchored e then deliver_clean (anchor (block_kind b) c) w b
          else
            match analyze_stream_continuity b (Expectation.sequence e) (Expectation.ticks e)
                    (ClientStream._run_id c) (Expectation.previous e) with
            | Err error => (c, Err (ClientModelRaised error))
            | Ok None => deliver_clean c w b
            | Ok (Some (ReportAnomaly a)) => process_anomaly c w b a
            | Ok (Some (ReportGap g)) => process_gap c w b g
            end
      end
  end.

(** Lines 2530-2538: the loss continues the application's expectation. *)
Definition range_valid (c : ClientStream) (l : HostQueueLoss) : bool :=
  match ClientStream._configuration c, expectation_of (HostQueueLoss.kind l) c with
  | Some cfg, Some e =>
      (HostQueueLoss.run_id l =? ClientStream._run_id c)
      && bool_decide (HostQueueLoss.source l = StreamConfiguration.source cfg)
      && HostQueueLoss.contiguous l
      && (HostQueueLoss.first_sequence l =? Expectation.sequence e)
      && (HostQueueLoss.first_sample_ticks l =? Expectation.ticks e)
  | _, _ => false
  end.

Definition resume_after_loss (l : HostQueueLoss) (c : ClientStream) : ClientStream :=
  resume_after (HostQueueLoss.kind l) (HostQueueLoss.last_sequence l) (HostQueueLoss.end_sample_ticks l) c.

Definition range_anomaly (c : ClientStream) (l : HostQueueLoss) : mdl StreamAnomaly :=
  let e := expectation_of (HostQueueLoss.kind l) c in
  anomaly_validate
    (StreamAnomaly.mk HOST_QUEUE_RANGE_INCONSISTENT (HostQueueLoss.kind l) (HostQueueLoss.source l)
       (ClientStream._run_id c) (HostQueueLoss.run_id l) (HostQueueLoss.first_sequence l)
       (HostQueueLoss.first_sample_ticks l) (Expectation.sequence <$> e) (Expectation.ticks <$> e) None None None 1).

Definition _process_host_queue_loss (c : ClientStream) (l : HostQueueLoss) : processed :=
  let kind := HostQueueLoss.kind l in
  if range_valid c l then
    let c := observe count_loss (resume_after_loss l c) in
    (c, if ClientStream._strict c then Err (UnexpectedHostQueueLossError l) else Ok (ClientLoss l))
  else
    match range_anomaly c l with
    | Err e => (c, Err (ClientModelRaised e))
    | Ok anomaly =>
        let c := observe (fun o => count_loss (telemetry_error 1 [RangeMessage kind] (count_anomalies 1 o))) c in
        let c := if negb (bool_decide (expectation_of kind c = None)) && (HostQueueLoss.run_id l =? ClientStream._run_id c)
                 then resume_after_loss l c else c in
        if ClientStream._strict c then (c, Err (UnexpectedStreamAnomalyError anomaly None))
        else (defer (ClientLoss l) c, Ok (ClientAnomaly anomaly))
    end.

Definition _process_reader_anomaly (c : ClientStream) (a : StreamAnomaly) : processed :=
  let c := record_anomaly a c in
  (c, if ClientStream._strict c then Err (UnexpectedStreamAnomalyError a None) else Ok (ClientAnomaly a)).

Definition process_item (c : ClientStream) (w : Surroundings) (item : stream_item) : processed :=
  match item with
  | ItemReport (LossReport l) => _process_host_queue_loss c l
  | ItemReport (AnomalyReport a) => _process_reader_anomaly c a
  | ItemBlock b => _process_block c w b
  end.

(** [read_block]: deferred items first, then the item of [get_stream_item], [None] when
    its wait times out; [reader_run] is the reader's active run.  A consumed reader item
    is dropped from [feed]. *)
Definition read_block (c : ClientStream) (reader_run : Z) (feed : list (Surroundings * stream_item)) :
    processed * list (Surroundings * stream_item) :=
  if negb (bool_decide (ClientStream._state c = Some V1DeviceState.RUNNING)) then ((c, Err DAQStateError), feed)
  else if negb (reader_run =? ClientStream._run_id c)
  then ((c, Err (UnexpectedMessageError "block reads require a RUNNING epoch established by this instance")), feed)
  else
    match ClientStream._pending_items c with
    | item :: rest => ((set_pending_items rest c, Ok item), feed)
    | [] =>
        match feed with
        | [] => ((c, Err BlockTimeoutError), [])
        | (w, item) :: feed => (process_item c w item, feed)
        end
    end.

(** ** Reconciling the counters *)

(** One stream of [_counter_reconciliation_errors]. *)
Definition stream_reconciles (k : V1FrameKind.FrameKind) (c : ClientStream) (f : FirmwareCounters) : list telemetry :=
  match inferred_of k c with
  | None => []
  | Some i =>
      let '(frames, items, bytes, bytes_per_item) := dropped_of k c f in
      let expected := Inferred.items i * bytes_per_item in
      if negb (frames =? Inferred.frames i) || negb (items =? Inferred.items i) || negb (bytes =? expected)
      then [EvidenceMessage (counters_disagree k (Inferred.frames i) (Inferred.items i) expected frames items bytes)] else []
  end.

Definition _counter_reconciliation_errors (c : ClientStream) (f : FirmwareCounters) : ClientStream * list telemetry :=
  let '(c, changed) := _observe_loss_stats_generation (FirmwareCounters.stats_generation f) c in
  (c, map EvidenceMessage (option_list changed)
      ++ stream_reconciles V1FrameKind.ADC_DATA c f ++ stream_reconciles V1FrameKind.GPIO_DATA c f).

(** The counters of [loss_counters] once firmware counters were observed: new
    disagreements are counted once, and refused in strict mode. *)
Definition reconcile_counters (c : ClientStream) (f : FirmwareCounters) : ClientStream * result client_error unit :=
  let '(c, errors) := _counter_reconciliation_errors c f in
  let known := Observed.messages (ClientStream.observed c) in
  let new := List.filter (fun m => negb (bool_decide (m ∈ known))) errors in
  let c := match new with
           | [] => c
           | _ => observe (telemetry_error (zlen new) new) c
           end in
  (c, if ClientStream._strict c && negb (bool_decide (errors = []))
      then Err (UnexpectedStreamValidationError "protocol_telemetry") else Ok tt).
