(* ===== verification/Delivery.v ===== *)
(** * What the application is told ([client.py], [read_block])

    A consumer that only looks at the items [read_block] returns can follow each stream
    from the start of the run: every item begins where the previous one ended.  The
    specification is the executable walk below; the theorem says that the client's
    bookkeeping implements it. *)

From S2P Require Import Prelude PyStruct Checksum V3Constants V3Header V3Samples ModelsV3 V3Frames Synthetic Profiles Losses Blocks Continuity StreamQueues Validator ClientStream.

(** ** The consumer's walk *)

(** The next sequence and tick of a stream. *)
Definition cursor : Type := Z * Z.

(** One item seen by a consumer of stream [k] of run [run]: [None] when it does not
    begin at the cursor. *)
Definition walk (k : V1FrameKind.FrameKind) (run : Z) (at_ : cursor) (i : client_item) : option cursor :=
  let '(s, t) := at_ in
  match i with
  | ClientBlock b =>
      if negb (bool_decide (block_kind b = k)) then Some at_
      else if (block_run_id b =? run) && (block_sequence b =? s) && (block_ticks b =? t)
      then Some (u32 (block_sequence b + 1), block_end_tick b) else None
  | ClientGap g =>
      if negb (bool_decide (StreamGap.kind g = k)) then Some at_
      else if (StreamGap.run_id g =? run) && (StreamGap.expected_sequence g =? s)
              && (StreamGap.expected_first_sample_ticks g =? t) && (0 <? StreamGap.missing_frames g)
              && (0 <? StreamGap.missing_items g)
      then Some (StreamGap.observed_sequence g, StreamGap.observed_first_sample_ticks g) else None
  | ClientLoss l =>
      if negb (bool_decide (HostQueueLoss.kind l = k)) || negb (HostQueueLoss.run_id l =? run) then Some at_
      else if (HostQueueLoss.first_sequence l =? s) && (HostQueueLoss.first_sample_ticks l =? t)
      then Some (u32 (HostQueueLoss.last_sequence l + 1), HostQueueLoss.end_sample_ticks l) else None
  | ClientAnomaly a =>
      match StreamAnomaly.reason a with
      | TIMESTAMP_INCONSISTENT | HOST_QUEUE_RANGE_INCONSISTENT =>
          if bool_decide (StreamAnomaly.kind a = k) && (StreamAnomaly.observed_run_id a =? run)
          then Some (StreamAnomaly.observed_sequence a, StreamAnomaly.observed_first_sample_ticks a)
          else Some at_
      | _ => Some at_
      end
  end.

Fixpoint walk_all (k : V1FrameKind.FrameKind) (run : Z) (at_ : cursor) (items : list client_item) : option cursor :=
  match items with
  | [] => Some at_
  | i :: items => match walk k run at_ i with Some at_ => walk_all k run at_ items | None => None end
  end.

(** Read until the feed and the deferred items are exhausted, at most [fuel] times. *)
Fixpoint read_blocks (fuel : nat) (run : Z) (c : ClientStream) (feed : list (Surroundings * stream_item)) :
    ClientStream * list (result client_error client_item) * list (Surroundings * stream_item) :=
  match fuel with
  | O => (c, [], feed)
  | S fuel =>
      match ClientStream._pending_items c, feed with
      | [], [] => (c, [], [])
      | _, _ =>
          let '((c, r), feed) := read_block c run feed in
          let '((c, rs), feed) := read_blocks fuel run c feed in
          ((c, r :: rs), feed)
      end
  end.

(** Frames and items that gaps of stream [k] report missing. *)
Definition gap_frames (k : V1FrameKind.FrameKind) (items : list client_item) : Z :=
  fold_right Z.add 0 (map (fun i => match i with
                                    | ClientGap g => if decide (StreamGap.kind g = k) then StreamGap.missing_frames g else 0
                                    | _ => 0 end) items).
Definition gap_items (k : V1FrameKind.FrameKind) (items : list client_item) : Z :=
  fold_right Z.add 0 (map (fun i => match i with
                                    | ClientGap g => if decide (StreamGap.kind g = k) then StreamGap.missing_items g else 0
                                    | _ => 0 end) items).

Lemma walk_app k run at_ xs ys :
  walk_all k run at_ (xs ++ ys) = match walk_all k run at_ xs with Some at_ => walk_all k run at_ ys | None => None end.
Proof. revert at_. induction xs as [|x xs IH]; intros at_; [done|]. cbn. destruct (walk k run at_ x); [apply IH|done]. Qed.

Lemma gap_frames_app k xs ys : gap_frames k (xs ++ ys) = gap_frames k xs + gap_frames k ys.
Proof. unfold gap_frames. induction xs as [|x xs IH]; cbn [app map fold_right]; lia. Qed.

Lemma gap_items_app k xs ys : gap_items k (xs ++ ys) = gap_items k xs + gap_items k ys.
Proof. unfold gap_items. induction xs as [|x xs IH]; cbn [app map fold_right]; lia. Qed.

(** ** What the client is fed *)

(** A decoded block is rebuilt unchanged by its constructor. *)
Definition rebuilds (b : DataBlock) : Prop :=
  match b with AdcData a => new_adc_block a = Ok a | GpioData g => new_gpio_block g = Ok g end.

(** A STATUS of the running session whose byte totals fit their fields. *)
Definition status_ok (run : Z) (o : status_outcome) : Prop :=
  match o with
  | StatusIs s =>
      V3Stop.run_id (V3Status.stop s) = run /\ V3Stop.state (V3Status.stop s) = DeviceState.RUNNING /\
      Forall (fun n => 0 <= n < 2 ^ 62) (V3Status.counts s)
  | StatusUnavailable => True
  | StatusRaises => False
  end.

(** What the v3 reader hands over in a run of [settings]. *)
Definition item_ok (settings : V3Settings) (i : stream_item) : Prop :=
  match i with
  | ItemBlock b =>
      v3_wf b /\ rebuilds b /\ block_source b = V3Settings.source settings /\
      has (V3Settings.stream_mask settings) (stream_of (block_kind b)) = true
  | ItemReport (LossReport l) => loss_wf l
  | ItemReport (AnomalyReport a) => StreamAnomaly.reason a = STALE_RUN
  end.

Definition feed_ok (settings : V3Settings) (run : Z) (x : Surroundings * stream_item) : Prop :=
  status_ok run (Surroundings.status x.1) /\ item_ok settings x.2.

(** ** The client's invariant *)

Record client_inv (settings : V3Settings) (run : Z) (c : ClientStream) : Prop := {
  ci_mode : ClientStream._strict c = false;
  ci_state : ClientStream._state c = Some V1DeviceState.RUNNING;
  ci_run : ClientStream._run_id c = run /\ 0 < run < 2 ^ 32;
  ci_configuration : ClientStream._configuration c = Some (_v3_stream_configuration settings);
  ci_expected k e : expectation_of k c = Some e ->
    0 <= Expectation.sequence e < 2 ^ 32 /\ 0 <= Expectation.ticks e < 2 ^ 64 /\
    consistent_previous (Expectation.sequence e) (Expectation.previous e) /\ Expectation.unanchored e = false;
  ci_inferred k : match inferred_of k c with
                  | Some i => 0 <= Inferred.frames i /\ 0 <= Inferred.items i
                  | None => expectation_of k c = None
                  end;
  ci_generation : match ClientStream._loss_stats_generation c with Some g => 0 < g | None => True end;
  ci_tracked k : data_kind k = true ->
    (has (V3Settings.stream_mask settings) (stream_of k) = true <-> expectation_of k c <> None)
}.

(** Stream [k] stands at [at_] after gaps of [frames] and [items]. *)
Definition stands (k : V1FrameKind.FrameKind) (c : ClientStream) (at_ : cursor) (frames items : Z) : Prop :=
  (exists e, expectation_of k c = Some e /\ at_ = (Expectation.sequence e, Expectation.ticks e)) /\
  inferred_of k c = Some (Inferred.mk frames items).

(** The step from [c] to [c'] that makes the items [new] visible, for every stream. *)
Definition tells (run : Z) (c c' : ClientStream) (new : list client_item) : Prop :=
  forall k at_ frames items, stands k c at_ frames items ->
  exists at_', walk_all k run at_ new = Some at_' /\
    stands k c' at_' (frames + gap_frames k new) (items + gap_items k new).

(** ** Fields an operation leaves alone *)

(** Everything but the run, the state, the generation, the observations and the baseline. *)
Definition core (c : ClientStream) :=
  (ClientStream._strict c, ClientStream._configuration c, ClientStream._adc c, ClientStream._gpio c,
   ClientStream._adc_inferred c, ClientStream._gpio_inferred c, ClientStream._pending_items c).

Definition live (run : Z) (c : ClientStream) : Prop :=
  ClientStream._run_id c = run /\ ClientStream._state c = Some V1DeviceState.RUNNING /\
  match ClientStream._loss_stats_generation c with Some g => 0 < g | None => True end.

Lemma core_streams c c' k : core c' = core c -> expectation_of k c' = expectation_of k c /\ inferred_of k c' = inferred_of k c.
Proof. destruct c, c'. intros [= -> -> -> -> -> -> ->]. by destruct k. Qed.

Lemma core_mode c c' :
  core c' = core c -> ClientStream._strict c' = ClientStream._strict c
    /\ ClientStream._configuration c' = ClientStream._configuration c
    /\ ClientStream._pending_items c' = ClientStream._pending_items c.
Proof. destruct c, c'. by intros [= -> -> -> -> -> -> ->]. Qed.

Lemma inv_core settings run c c' :
  client_inv settings run c -> core c' = core c -> live run c' -> client_inv settings run c'.
Proof.
  intros [Hm Hs Hr Hcfg He Hi Hg Ht] Hc (Hr' & Hs' & Hg'). destruct (core_mode c c' Hc) as (Hm' & Hcfg' & _).
  split; try congruence; [split; [done|apply Hr]|..].
  - intros k e. rewrite (proj1 (core_streams c c' k Hc)). apply He.
  - intros k. destruct (core_streams c c' k Hc) as [-> ->]. apply Hi.
  - intros k Hk. destruct (core_streams c c' k Hc) as [-> _]. by apply Ht.
Qed.

Lemma inv_live settings run c : client_inv settings run c -> live run c.
Proof. intros [? ? [? _] ? ? ? ? ?]. done. Qed.

Lemma stands_core k c c' at_ f i : core c' = core c -> stands k c at_ f i <-> stands k c' at_ f i.
Proof. intros H. unfold stands. by destruct (core_streams c c' k H) as [-> ->]. Qed.

Lemma observe_core f c : core (observe f c) = core c.
Proof. by destruct c. Qed.

Lemma observe_live f c run : live run (observe f c) <-> live run c.
Proof. by destruct c. Qed.

Lemma defer_live i c run : live run (defer i c) <-> live run c.
Proof. by destruct c. Qed.

Lemma defer_streams i c k :
  expectation_of k (defer i c) = expectation_of k c /\ inferred_of k (defer i c) = inferred_of k c
  /\ ClientStream._pending_items (defer i c) = ClientStream._pending_items c ++ [i].
Proof. destruct c. by destruct k. Qed.

Lemma inv_pending settings run p c : client_inv settings run c -> client_inv settings run (set_pending_items p c).
Proof.
  intros [Hm Hs Hr Hcfg He Hi Hg Ht]. by destruct c.
Qed.

(** ** Moving one stream *)

Lemma set_expectation_streams k k' e c :
  data_kind k = true ->
  expectation_of k' (set_expectation k e c) = (if decide (k' = k) then Some e else expectation_of k' c)
  /\ inferred_of k' (set_expectation k e c) = inferred_of k' c.
Proof. intros Hk. destruct c. by destruct k, k'. Qed.

Lemma set_inferred_streams k k' i c :
  data_kind k = true ->
  inferred_of k' (set_inferred k i c) = (if decide (k' = k) then Some i else inferred_of k' c)
  /\ expectation_of k' (set_inferred k i c) = expectation_of k' c.
Proof. intros Hk. destruct c. by destruct k, k'. Qed.

Lemma inv_expectation settings run k e c :
  client_inv settings run c -> data_kind k = true -> expectation_of k c <> None ->
  0 <= Expectation.sequence e < 2 ^ 32 -> 0 <= Expectation.ticks e < 2 ^ 64 ->
  consistent_previous (Expectation.sequence e) (Expectation.previous e) -> Expectation.unanchored e = false ->
  client_inv settings run (set_expectation k e c).
Proof.
  intros [Hm Hs Hr Hcfg He Hi Hg Ht] Hk Hsome Hs1 Ht1 Hp Hu.
  split; try (by destruct c, k).
  - intros k' e'. rewrite (proj1 (set_expectation_streams k k' e c Hk)). case_decide; [by intros [= <-]|apply He].
  - intros k'. destruct (set_expectation_streams k k' e c Hk) as [-> ->]. specialize (Hi k').
    case_decide as Hkk; [subst k'|done]. destruct (inferred_of k c); [done|contradiction].
  - intros k' Hk'. rewrite (Ht k' Hk'), (proj1 (set_expectation_streams k k' e c Hk)). case_decide as Hkk; [|done].
    subst k'. by split.
Qed.

Lemma inv_inferred settings run k i c :
  client_inv settings run c -> data_kind k = true -> 0 <= Inferred.frames i -> 0 <= Inferred.items i ->
  client_inv settings run (set_inferred k i c).
Proof.
  intros [Hm Hs Hr Hcfg He Hi Hg Ht] Hk Hf Hit. split; try (by destruct c, k).
  intros k'. destruct (set_inferred_streams k k' i c Hk) as [-> ->]. specialize (Hi k'). by case_decide.
Qed.

(** A range ending at a sequence and tick moves the stream's cursor there. *)
Lemma resume_inv settings run k last ticks c :
  client_inv settings run c -> data_kind k = true -> expectation_of k c <> None ->
  0 <= last < 2 ^ 32 -> 0 <= ticks < 2 ^ 64 -> client_inv settings run (resume_after k last ticks c).
Proof.
  intros H Hk Hsome Hl Ht. unfold resume_after. apply inv_expectation; try done; cbn [Expectation.sequence
    Expectation.ticks Expectation.previous Expectation.unanchored].
  - rewrite u32_mod. by apply Z.mod_pos_bound.
  - split; [done|]. by rewrite u32_mod.
  - destruct (expectation_of k c) as [e|] eqn:He; [|done]. by apply (ci_expected _ _ _ H k e He).
Qed.

Lemma resume_streams k last ticks c k' :
  data_kind k = true ->
  (k' <> k -> expectation_of k' (resume_after k last ticks c) = expectation_of k' c)
  /\ (exists e, expectation_of k (resume_after k last ticks c) = Some e
        /\ (Expectation.sequence e, Expectation.ticks e) = (u32 (last + 1), ticks))
  /\ inferred_of k' (resume_after k last ticks c) = inferred_of k' c.
Proof.
  intros Hk. unfold resume_after. set (e := Expectation.mk _ _ _ _).
  destruct (set_expectation_streams k k' e c Hk) as [He Hi].
  destruct (set_expectation_streams k k e c Hk) as [Hk' _]. rewrite decide_True in Hk' by done.
  split; [intros Hne; by rewrite He, decide_False|]. split; [by exists e|done].
Qed.

(** ** Items of other streams do not matter *)

Definition item_kind (i : client_item) : V1FrameKind.FrameKind :=
  match i with
  | ClientBlock b => block_kind b
  | ClientGap g => StreamGap.kind g
  | ClientLoss l => HostQueueLoss.kind l
  | ClientAnomaly a => StreamAnomaly.kind a
  end.

Lemma walk_other k run at_ i : item_kind i <> k -> walk k run at_ i = Some at_.
Proof.
  intros H. destruct at_ as [s t], i as [b|g|l|a]; cbn in *; rewrite bool_decide_eq_false_2 by done; [done..|].
  by destruct (StreamAnomaly.reason a).
Qed.

Lemma walk_all_other k run at_ items : Forall (fun i => item_kind i <> k) items -> walk_all k run at_ items = Some at_.
Proof. induction 1 as [|i items Hi _ IH]; cbn; [done|]. by rewrite walk_other. Qed.

Lemma gaps_other k items : Forall (fun i => item_kind i <> k) items -> gap_frames k items = 0 /\ gap_items k items = 0.
Proof.
  unfold gap_frames, gap_items. induction 1 as [|i items Hi _ IH]; [done|]. destruct IH as [IH1 IH2].
  cbn [map fold_right]. rewrite IH1, IH2. destruct i; cbn in Hi; rewrite ?decide_False by done; lia.
Qed.

(** A step about stream [k0] alone. *)
Lemma tells_stream run k0 c c' new :
  Forall (fun i => item_kind i = k0) new ->
  (forall k, k <> k0 -> expectation_of k c' = expectation_of k c /\ inferred_of k c' = inferred_of k c) ->
  (forall at_ frames items, stands k0 c at_ frames items ->
   exists at_', walk_all k0 run at_ new = Some at_' /\
     stands k0 c' at_' (frames + gap_frames k0 new) (items + gap_items k0 new)) ->
  tells run c c' new.
Proof.
  intros Hk Hsame Hk0 k at_ frames items Hst. destruct (decide (k = k0)) as [->|Hne]; [by apply Hk0|].
  assert (Ho : Forall (fun i => item_kind i <> k) new) by (eapply Forall_impl; [exact Hk|]; intros i ->; congruence).
  exists at_. split; [by apply walk_all_other|]. destruct (gaps_other k new Ho) as [-> ->].
  rewrite !Z.add_0_r. unfold stands in *. by destruct (Hsame k Hne) as [-> ->].
Qed.

(** ** Firmware evidence never fails a healthy session *)

Definition nonneg_option (v : option Z) : Prop := match v with Some n => 0 <= n | None => True end.

Lemma nonneg_option_check name v : check_option (_nonnegative name) v = Ok tt <-> nonneg_option v.
Proof. destruct v; cbn; [apply nonnegative_Ok|done]. Qed.

Record evidence_wf (e : FirmwareLossEvidence) : Prop := {
  ew_over : FirmwareLossEvidence.overrun_before e = true -> FirmwareLossEvidence.gap_before e = true;
  ew_generation : match FirmwareLossEvidence.stats_generation e with Some g => 0 < g | None => True end;
  ew_frames : nonneg_option (FirmwareLossEvidence.cumulative_dropped_frames e);
  ew_items : nonneg_option (FirmwareLossEvidence.cumulative_dropped_items e);
  ew_bytes : nonneg_option (FirmwareLossEvidence.cumulative_dropped_bytes e);
  ew_expected : 0 <= FirmwareLossEvidence.expected_cumulative_frames e
                /\ 0 <= FirmwareLossEvidence.expected_cumulative_items e;
  ew_errors : EmptyString ∉ FirmwareLossEvidence.errors e
}.

Lemma evidence_validate_iff e x : evidence_validate e = Ok x <-> x = e /\ evidence_wf e.
Proof.
  unfold evidence_validate. rewrite !unit_bind, !nonneg_option_check, !require_Ok, !nonnegative_Ok.
  assert (Hover : negb (FirmwareLossEvidence.overrun_before e) || FirmwareLossEvidence.gap_before e = true
    <-> (FirmwareLossEvidence.overrun_before e = true -> FirmwareLossEvidence.gap_before e = true))
    by (destruct (FirmwareLossEvidence.overrun_before e), (FirmwareLossEvidence.gap_before e); cbn; intuition discriminate).
  rewrite Hover, !negb_true_iff, !bool_decide_eq_false. split.
  - intros (Ho & Hg & Hf & Hi & Hb & Hz & He1 & He2 & Hs & Hx). apply Ok_inj in Hx. split; [done|].
    split; try done. destruct (FirmwareLossEvidence.stats_generation e) as [g|]; [|done]. cbn in Hg.
    assert (g <> 0) by congruence. lia.
  - intros (-> & [Ho Hg Hf Hi Hb [He1 He2] Hs]). split; [done|].
    destruct (FirmwareLossEvidence.stats_generation e) as [g|]; cbn; intuition (try congruence); try lia.
    injection H as ->. lia.
Qed.

Lemma evidence_validate_ok e : evidence_wf e -> evidence_validate e = Ok e.
Proof. intros H. by apply evidence_validate_iff. Qed.

Lemma status_count_range s i : Forall (fun n => 0 <= n < 2 ^ 62) (V3Status.counts s) -> 0 <= status_count s i < 2 ^ 62.
Proof.
  intros H. unfold status_count. destruct (V3Status.counts s !! i) as [n|] eqn:Hn; cbn; [|lia].
  by apply (proj1 (Forall_lookup _ _) H i n).
Qed.

Lemma item_bytes_of_mode mode : 1 <= GPIOLayout.item_bytes (from_mode mode) <= 2.
Proof. rewrite from_mode_item. case_decide; lia. Qed.

Lemma v3_counters_ok settings run c applied s :
  client_inv settings run c -> V3Stop.run_id (V3Status.stop s) = run ->
  Forall (fun n => 0 <= n < 2 ^ 62) (V3Status.counts s) ->
  exists f, _v3_counters c applied s = Ok f /\ FirmwareCounters.stats_generation f = run /\
    forall k, let '(a, b, d, _) := dropped_of k c f in 0 <= a /\ 0 <= b /\ 0 <= d.
Proof.
  intros H Hrun Hs. destruct (ci_run _ _ _ H) as [_ Hr].
  pose proof (status_count_range s 1 Hs). pose proof (status_count_range s 3 Hs).
  pose proof (status_count_range s 5 Hs). pose proof (status_count_range s 7 Hs).
  unfold _v3_counters, gpio_bytes_per_item. rewrite (ci_configuration _ _ _ H), Hrun.
  pose proof (item_bytes_of_mode (StreamConfiguration.aux_bank_mode (_v3_stream_configuration settings))) as Hw.
  generalize dependent (GPIOLayout.item_bytes (from_mode (StreamConfiguration.aux_bank_mode (_v3_stream_configuration settings)))).
  intros width Hw. rewrite (proj2 (Z.eqb_neq run 0)) by lia. set (f := FirmwareCounters.mk _ _ _ _ _ _ _). exists f.
  split; [|split; [reflexivity|]].
  - unfold f, counters_validate. cbn [FirmwareCounters.adc_items_dropped FirmwareCounters.gpio_items_dropped
      FirmwareCounters.adc_frames_dropped FirmwareCounters.gpio_frames_dropped FirmwareCounters.adc_payload_bytes_dropped
      FirmwareCounters.gpio_payload_bytes_dropped FirmwareCounters.stats_generation].
    rewrite (proj2 (Z.eqb_neq run 0)) by lia.
    rewrite !(fun n v => proj2 (unsigned_Ok n v 64 ltac:(lia))), (proj2 (unsigned_Ok _ run 32 ltac:(lia))) by (pow_lit; nia).
    done.
  - intros []; cbn; nia.
Qed.

Lemma adopt_status_core s c : core (adopt_status s c) = core c.
Proof. by destruct c. Qed.

Lemma adopt_status_live run s c :
  V3Stop.run_id (V3Status.stop s) = run -> V3Stop.state (V3Status.stop s) = DeviceState.RUNNING ->
  live run c -> live run (adopt_status s c).
Proof. intros Hr Hs (_ & _ & Hg). destruct c. unfold adopt_status. by rewrite Hs, Hr. Qed.

Lemma observe_generation_ok g c run :
  0 < g -> live run c ->
  core (_observe_loss_stats_generation g c).1 = core c /\ live run (_observe_loss_stats_generation g c).1.
Proof.
  intros Hg (Hr & Hs & Hgen). unfold _observe_loss_stats_generation.
  destruct (ClientStream._loss_stats_generation c) eqn:Hc; cbn; [|by destruct c].
  unfold live. by rewrite Hc.
Qed.

(** The messages are not empty. *)
Lemma generation_message g c : EmptyString ∉ option_list (_observe_loss_stats_generation g c).2.
Proof.
  unfold _observe_loss_stats_generation. destruct (ClientStream._loss_stats_generation c) as [x|]; cbn [snd]; [|apply not_elem_of_nil].
  destruct (x =? g); [apply not_elem_of_nil|]. intros Hin. by apply list_elem_of_singleton in Hin.
Qed.

Lemma counters_message k f i b f' i' b' : EmptyString <> counters_disagree k f i b f' i' b'.
Proof. unfold counters_disagree. by case_decide. Qed.


Lemma firmware_evidence_ok settings run c w k source base :
  client_inv settings run c -> status_ok run (Surroundings.status w) -> evidence_wf base ->
  exists c' e, _firmware_evidence c w k source (Some base) = (c', Ok e) /\ core c' = core c /\
    client_inv settings run c' /\ FirmwareLossEvidence.source e = source /\ evidence_wf e /\
    FirmwareLossEvidence.gap_before e = FirmwareLossEvidence.gap_before base /\
    FirmwareLossEvidence.overrun_before e = FirmwareLossEvidence.overrun_before base.
Proof.
  intros H Hs [Ho Hg Hf Hi Hb He Herr]. unfold _firmware_evidence, base_evidence.
  set (inferred := default (Inferred.mk 0 0) (inferred_of k c)).
  assert (Hinf : 0 <= Inferred.frames inferred /\ 0 <= Inferred.items inferred).
  { pose proof (ci_inferred _ _ _ H k) as Hk. unfold inferred. destruct (inferred_of k c); cbn; [done|lia]. }
  clearbody inferred. destruct (Surroundings.status w) as [s| |]; [|clear Hs|done].
  2: { cbv zeta.
       match goal with |- context [evidence_validate ?e] =>
         assert (Hwf : evidence_wf e); [|exists c, e; rewrite (evidence_validate_ok e Hwf)] end.
       - split; try done. cbn. rewrite not_elem_of_app, list_elem_of_singleton. by split.
       - by repeat (split; [reflexivity || eassumption|]). }
  destruct Hs as (Hrun & Hst & Hcnt). pose proof (adopt_status_core s c) as Hcore.
  assert (H' : client_inv settings run (adopt_status s c))
    by (eapply inv_core; [exact H|exact Hcore|apply adopt_status_live; [done|done|by apply (inv_live settings)]]).
  destruct (v3_counters_ok settings run _ (Surroundings.applied w) s H' Hrun Hcnt) as (f & Hfok & Hgen & Hdrop).
  cbv zeta. rewrite Hfok, Hgen.
  destruct (observe_generation_ok run (adopt_status s c) run ltac:(apply H) ltac:(by apply (inv_live settings))) as [Hc2 Hl2].
  pose proof (generation_message run (adopt_status s c)) as Hmsg.
  destruct (_observe_loss_stats_generation run (adopt_status s c)) as [c2 changed]. cbn [fst snd] in Hc2, Hl2, Hmsg.
  assert (H2 : client_inv settings run c2) by (by eapply inv_core).
  assert (Hd2 : dropped_of k c2 f = dropped_of k (adopt_status s c) f)
    by (unfold dropped_of, gpio_bytes_per_item; by rewrite (proj1 (proj2 (core_mode _ _ Hc2)))).
  rewrite Hd2. specialize (Hdrop k). destruct (dropped_of k (adopt_status s c) f) as [[[df di] db] bpi].
  set (verdict := counters_verdict _ _ _ _ _ _ _). clearbody verdict.
  match goal with |- context [evidence_validate ?e] => assert (Hwf : evidence_wf e); [|exists c2, e; rewrite (evidence_validate_ok e Hwf)] end.
  - split; try done; cbn; try (by apply Hdrop); try apply H.
    destruct verdict as [[]|]; cbn [FirmwareLossEvidence.errors];
      rewrite ?not_elem_of_app, ?list_elem_of_singleton; repeat split; try done. intros Hx. by eapply counters_message.
  - split; [reflexivity|]. split; [congruence|]. by repeat (split; [reflexivity || eassumption|]).
Qed.

(** ** The evidence attached to a report *)

Lemma flag_errors_wf b k m : EmptyString ∉ FirmwareLossEvidence.errors (gap_evidence b k m).
Proof.
  unfold gap_evidence. cbv zeta. cbn [FirmwareLossEvidence.errors].
  destruct (eqb _ _); [apply not_elem_of_nil|]. by rewrite list_elem_of_singleton.
Qed.

Lemma gap_evidence_wf b k m : block_wf b -> 0 <= k -> 0 <= m -> evidence_wf (gap_evidence b k m).
Proof. intros H Hk Hm. split; try done; [apply (bw_overrun b H)|apply flag_errors_wf]. Qed.

Lemma missing_nonneg b es et k m : block_wf b -> missing b es et k m -> 0 <= k /\ 0 <= m.
Proof.
  intros H [Hk _ Hm _ _]. pose proof (bw_period b H). split; [rewrite Hk; by apply Z.mod_pos_bound|].
  pose proof (Z.mod_pos_bound (block_ticks b - et) (2 ^ 64)). nia.
Qed.

Lemma finalize_gap_ok settings run c w b es et k m :
  client_inv settings run c -> status_ok run (Surroundings.status w) ->
  block_wf b -> 0 <= es < 2 ^ 32 -> 0 <= et < 2 ^ 64 -> missing b es et k m ->
  exists c' e, _finalize_gap_evidence c w (gap_at b es et 0 k m) = (c', Ok (gap_with b es et 0 k m e)) /\
    core c' = core c /\ client_inv settings run c'.
Proof.
  intros H Hs Hb Hes Het Hm. destruct (missing_nonneg b es et k m Hb Hm) as [Hk0 Hm0].
  destruct (firmware_evidence_ok settings run c w (block_kind b) (block_source b) (gap_evidence b k m) H Hs
    (gap_evidence_wf b k m Hb Hk0 Hm0)) as (c' & e & He & Hc & Hi & Hsrc & _ & Hg & Ho).
  exists c', e. split; [|done]. unfold _finalize_gap_evidence, gap_at, gap_with.
  cbn [StreamGap.kind StreamGap.source StreamGap.firmware_evidence]. rewrite He. cbn [mbind result_bind gap_with_evidence].
  rewrite (new_gap_ok b es et 0 k m e Hb Hes Het ltac:(lia) Hm); [done|]. by split.
Qed.

Definition anomaly_with (a : StreamAnomaly) (e : FirmwareLossEvidence) : StreamAnomaly :=
  let '(StreamAnomaly.mk reason kind source active run sequence ticks es et si ti _ occurrences) := a in
  StreamAnomaly.mk reason kind source active run sequence ticks es et si ti (Some e) occurrences.

Lemma anomaly_with_evidence_ok a e :
  anomaly_validate a = Ok a -> FirmwareLossEvidence.source e = StreamAnomaly.source a ->
  anomaly_with_evidence a e = Ok (anomaly_with a e).
Proof.
  destruct a. cbn [StreamAnomaly.source]. intros H Hs. unfold anomaly_with_evidence, anomaly_with.
  unfold anomaly_validate in *.
  cbn [StreamAnomaly.kind StreamAnomaly.active_run_id StreamAnomaly.observed_run_id StreamAnomaly.source
    StreamAnomaly.observed_sequence StreamAnomaly.observed_first_sample_ticks StreamAnomaly.expected_sequence
    StreamAnomaly.expected_first_sample_ticks StreamAnomaly.sequence_inferred_items
    StreamAnomaly.timestamp_inferred_items StreamAnomaly.occurrences StreamAnomaly.firmware_evidence] in *.
  rewrite !unit_bind in *. rewrite Hs, bool_decide_eq_true_2 by done. tauto.
Qed.

Lemma anomaly_validate_same x a : anomaly_validate x = Ok a -> anomaly_validate a = Ok a.
Proof.
  intros H. assert (a = x) as ->; [|done]. unfold anomaly_validate in H. rewrite !unit_bind in H.
  destruct H as (_ & _ & _ & _ & _ & _ & _ & _ & _ & _ & _ & _ & _ & H). by apply Ok_inj in H.
Qed.

Lemma anomaly_at_valid b reason active es et si ti e a :
  anomaly_at b reason active es et si ti e = Ok (Some (ReportAnomaly a)) -> anomaly_validate a = Ok a.
Proof.
  unfold anomaly_at. intros H. apply bind_Ok_inv in H as (x & Hx & H). apply Ok_inj in H.
  injection H as <-. by eapply anomaly_validate_same.
Qed.

Lemma reported_anomaly_valid b es et active previous a :
  analyze_stream_continuity b es et active previous = Ok (Some (ReportAnomaly a)) -> anomaly_validate a = Ok a.
Proof.
  unfold analyze_stream_continuity. rewrite !unit_bind. intros (_ & _ & _ & _ & H).
  apply bind_Ok_inv in H as (ev & _ & H). destruct (negb _) in H.
  { apply bind_Ok_inv in H as (x & Hx & H). apply Ok_inj in H. injection H as <-. unfold stale_run in Hx.
    apply bind_Ok_inv in Hx as (e & _ & Hx). by eapply anomaly_validate_same. }
  cbv zeta in H. destruct (_ <? u32 _) in H; [apply bind_Ok_inv in H as (e & _ & H); by eapply anomaly_at_valid|].
  destruct (_ || _) in H; [apply bind_Ok_inv in H as (e & _ & H); by eapply anomaly_at_valid|].
  destruct (_ =? 0) in H.
  - destruct (negb _) in H; [done|]. apply bind_Ok_inv in H as (e & _ & H). by eapply anomaly_at_valid.
  - apply bind_Ok_inv in H as (g & _ & H). destruct g; discriminate.
Qed.

Lemma finalize_anomaly_ok settings run c w a :
  client_inv settings run c -> status_ok run (Surroundings.status w) -> anomaly_validate a = Ok a ->
  match StreamAnomaly.firmware_evidence a with Some e => evidence_wf e | None => False end ->
  exists c' e, _finalize_anomaly_evidence c w a = (c', Ok (anomaly_with a e)) /\ core c' = core c /\ client_inv settings run c'.
Proof.
  intros H Hs Ha He. destruct (StreamAnomaly.firmware_evidence a) as [e0|] eqn:He0; [|done].
  destruct (firmware_evidence_ok settings run c w (StreamAnomaly.kind a) (StreamAnomaly.source a) e0 H Hs He)
    as (c' & e & Hev & Hc & Hi & Hsrc & _). exists c', e. split; [|done].
  unfold _finalize_anomaly_evidence. rewrite He0, Hev. cbn [mbind result_bind].
  by rewrite (anomaly_with_evidence_ok a e Ha Hsrc).
Qed.

(** ** An ADC block keeps its place when a gap is attached *)

Definition attach (b : DataBlock) (g : StreamGap) : DataBlock :=
  match b with
  | AdcData (ADCBlock.mk run sequence ticks payload flags checksum metadata mode profile version _ encoded) =>
      AdcData (ADCBlock.mk run sequence ticks payload flags checksum metadata mode profile version (Some g) encoded)
  | GpioData _ => b
  end.

Lemma block_with_gap_ok b es et k m e :
  rebuilds b -> block_with_gap b (gap_with b es et 0 k m e) = Ok (attach b (gap_with b es et 0 k m e)).
Proof.
  destruct b as [a|g]; [|done]. intros H. set (g := gap_with _ _ _ _ _ _ _).
  assert (Hg : StreamGap.kind g = V1FrameKind.ADC_DATA /\ StreamGap.run_id g = ADCBlock.run_id a /\
    StreamGap.observed_sequence g = ADCBlock.sequence a /\ StreamGap.observed_first_sample_ticks g = ADCBlock.first_sample_ticks a)
    by done. clearbody g. destruct a as [run sequence ticks payload flags checksum metadata mode profile version gap encoded].
  cbn in Hg. destruct Hg as (Hk & Hr & Hs & Ht). unfold block_with_gap, attach.
  unfold rebuilds, new_adc_block in H. rewrite !unit_bind in H. destruct H as (Hid & Hver & Hpay & Htim & H).
  apply bind_Ok_inv in H as (m' & Hm & H). apply bind_Ok_inv in H as (r & Hrange & H). rewrite !unit_bind in H.
  destruct H as (Hin & _ & H). apply Ok_inj in H. injection H as H.
  cbn [ADCBlock.run_id ADCBlock.sequence ADCBlock.first_sample_ticks ADCBlock.flags ADCBlock.checksum_algorithm
    ADCBlock.protocol_version ADCBlock.aux_bank_mode ADCBlock.rate_profile ADCBlock.metadata ADCBlock.payload] in *.
  unfold new_adc_block. cbn [ADCBlock.run_id ADCBlock.sequence ADCBlock.first_sample_ticks ADCBlock.flags ADCBlock.checksum_algorithm
    ADCBlock.protocol_version ADCBlock.aux_bank_mode ADCBlock.rate_profile ADCBlock.metadata ADCBlock.payload ADCBlock.gap ADCBlock.encoded_payload].
  rewrite Hid, Hver. unfold adc_payload_check in *. cbn [ADCBlock.run_id ADCBlock.sequence ADCBlock.first_sample_ticks ADCBlock.flags ADCBlock.checksum_algorithm
    ADCBlock.protocol_version ADCBlock.aux_bank_mode ADCBlock.rate_profile ADCBlock.metadata ADCBlock.payload ADCBlock.gap ADCBlock.encoded_payload] in *.
  cbn [mbind result_bind]. rewrite Hpay. cbn [mbind result_bind]. rewrite Htim, Hm. cbn [mbind result_bind]. rewrite Hrange.
  cbn [mbind result_bind]. rewrite Hin. cbn [mbind result_bind]. unfold adc_gap_describes.
  cbn [ADCBlock.gap ADCBlock.run_id ADCBlock.sequence ADCBlock.first_sample_ticks].
  rewrite Hk, Hr, Hs, Ht, !Z.eqb_refl. cbn. by rewrite H.
Qed.

Lemma attach_same b g :
  block_kind (attach b g) = block_kind b /\ block_run_id (attach b g) = block_run_id b /\
  block_sequence (attach b g) = block_sequence b /\ block_ticks (attach b g) = block_ticks b /\
  block_end_tick (attach b g) = block_end_tick b /\ block_count (attach b g) = block_count b.
Proof. by destruct b as [[]|]. Qed.

(** ** One item *)

Lemma resume_pending k last ticks c :
  ClientStream._pending_items (resume_after k last ticks c) = ClientStream._pending_items c.
Proof. unfold resume_after. generalize (Expectation.mk (u32 (last + 1)) ticks (Some last) (match expectation_of k c with Some e => Expectation.unanchored e | None => false end)). intros e. by destruct c, k. Qed.

Lemma advance_pending b c : ClientStream._pending_items (_advance_expectation b c) = ClientStream._pending_items c.
Proof. apply resume_pending. Qed.

Lemma set_inferred_pending k i c : ClientStream._pending_items (set_inferred k i c) = ClientStream._pending_items c.
Proof. by destruct c, k. Qed.

Lemma inv_defer settings run i c : client_inv settings run c -> client_inv settings run (defer i c).
Proof. apply inv_pending. Qed.

Lemma inv_observe settings run f c : client_inv settings run c -> client_inv settings run (observe f c).
Proof. intros H. eapply inv_core; [exact H|apply observe_core|]. apply observe_live. by apply (inv_live settings). Qed.

(** The item is returned, and with the deferred ones it tells the step. *)
Definition good_step (settings : V3Settings) (run : Z) (c : ClientStream) (p : processed) : Prop :=
  exists c' i, p = (c', Ok i) /\ client_inv settings run c' /\
    tells run c c' (i :: ClientStream._pending_items c') /\ (length (ClientStream._pending_items c') <= 1)%nat.

Lemma block_end_range b : 0 <= block_end_tick b < 2 ^ 64.
Proof. rewrite block_end_mod. by apply Z.mod_pos_bound. Qed.

Lemma advance_expectation_inv settings run b c :
  client_inv settings run c -> block_wf b -> expectation_of (block_kind b) c <> None ->
  client_inv settings run (_advance_expectation b c).
Proof.
  intros H Hb He. apply resume_inv; [done|apply block_data_kind|done|apply (bw_sequence b Hb)|apply block_end_range].
Qed.

(** A block at the cursor moves it to the block's end. *)
Lemma walk_block k run b :
  block_kind b = k -> block_run_id b = run ->
  walk k run (block_sequence b, block_ticks b) (ClientBlock b) = Some (u32 (block_sequence b + 1), block_end_tick b).
Proof. intros <- <-. cbn. rewrite bool_decide_eq_true_2 by done. by rewrite !Z.eqb_refl. Qed.

Lemma stands_resume k last ticks c f i at_ :
  data_kind k = true -> stands k c at_ f i -> stands k (resume_after k last ticks c) (u32 (last + 1), ticks) f i.
Proof.
  intros Hk [_ Hi]. destruct (resume_streams k last ticks c k Hk) as (_ & (e & He & Hc) & Hinf).
  split; [by exists e|by rewrite Hinf].
Qed.

Lemma stands_defer k i c at_ f n : stands k (defer i c) at_ f n <-> stands k c at_ f n.
Proof. unfold stands. by destruct (defer_streams i c k) as (-> & -> & _). Qed.

Lemma stands_observe k g c at_ f n : stands k (observe g c) at_ f n <-> stands k c at_ f n.
Proof. symmetry. apply stands_core, observe_core. Qed.

(** The cursor of a stream that has an expectation. *)
Lemma stands_cursor k c at_ f i e :
  stands k c at_ f i -> expectation_of k c = Some e -> at_ = (Expectation.sequence e, Expectation.ticks e).
Proof. intros [(e' & He' & ->) _] He. congruence. Qed.

Lemma clean_step settings run c w b e :
  client_inv settings run c -> ClientStream._pending_items c = [] -> block_wf b ->
  expectation_of (block_kind b) c = Some e -> block_run_id b = run ->
  block_sequence b = Expectation.sequence e -> block_ticks b = Expectation.ticks e ->
  good_step settings run c (deliver_clean c w b).
Proof.
  intros H Hp Hb He Hr Hs Ht. assert (H' : client_inv settings run (_advance_expectation b c)) by (apply advance_expectation_inv; [done..|congruence]).
  exists (_advance_expectation b c), (ClientBlock b). unfold deliver_clean, _validate_clean_block.
  rewrite (ci_mode _ _ _ H'). split; [done|]. split; [done|]. rewrite advance_pending, Hp.
  split; [|cbn; lia]. apply (tells_stream run (block_kind b)); [by repeat constructor|..].
  - intros k Hk. destruct (resume_streams (block_kind b) (block_sequence b) (block_end_tick b) c k (block_data_kind b)) as (Ho & _ & Hi).
    unfold _advance_expectation. by rewrite (Ho Hk), Hi.
  - intros at_ f i Hst. rewrite (stands_cursor _ _ _ _ _ _ Hst He), <-Hs, <-Ht. eexists. cbn [walk_all].
    rewrite walk_block by done. split; [reflexivity|]. cbn [gap_frames gap_items map fold_right]. rewrite !Z.add_0_r.
    eapply stands_resume; [apply block_data_kind|exact Hst].
Qed.

(** Where the walk stands after an anomaly about the block [b]. *)
Definition placed (run : Z) (b : DataBlock) (e : Expectation) (reason : StreamAnomalyReason) : Prop :=
  match reason with
  | STALE_RUN | DUPLICATE | REORDERED => True
  | TIMESTAMP_INCONSISTENT => block_run_id b = run
  | FIRMWARE_EVIDENCE_MISMATCH =>
      block_run_id b = run /\ block_sequence b = Expectation.sequence e /\ block_ticks b = Expectation.ticks e
  | HOST_QUEUE_RANGE_INCONSISTENT => False
  end.

Lemma anomaly_step settings run c w b e reason es et si ti ev :
  client_inv settings run c -> ClientStream._pending_items c = [] -> status_ok run (Surroundings.status w) ->
  block_wf b -> expectation_of (block_kind b) c = Some e -> placed run b e reason ->
  anomaly_validate (block_anomaly b reason run es et si ti ev) = Ok (block_anomaly b reason run es et si ti ev) ->
  evidence_wf ev ->
  good_step settings run c (process_anomaly c w b (block_anomaly b reason run es et si ti ev)).
Proof.
  intros H Hp Hs Hb He Hplace Ha Hev.
  destruct (finalize_anomaly_ok settings run c w _ H Hs Ha Hev) as (c1 & ev' & Hf & Hcore & H1).
  unfold process_anomaly. rewrite Hf. unfold anomaly_with, block_anomaly.
  set (a := StreamAnomaly.mk _ _ _ _ _ _ _ _ _ _ _ _ _).
  change (StreamAnomaly.reason a) with reason.
  assert (H2 : client_inv settings run (record_anomaly a c1)) by (by apply inv_observe).
  assert (Hst : forall k at_ f i, stands k c at_ f i <-> stands k (record_anomaly a c1) at_ f i).
  { intros k at_ f i. unfold record_anomaly. rewrite stands_observe. by apply stands_core. }
  assert (Hp2 : ClientStream._pending_items (record_anomaly a c1) = []).
  { destruct (core_mode _ _ (observe_core (fun o => telemetry_error (StreamAnomaly.occurrences a) [anomaly_message a] (count_anomalies (StreamAnomaly.occurrences a) o)) c1)) as (_ & _ & Hx).
    unfold record_anomaly. rewrite Hx. destruct (core_mode _ _ Hcore) as (_ & _ & ->). done. }
  assert (Hstr : forall k, expectation_of k (record_anomaly a c1) = expectation_of k c /\ inferred_of k (record_anomaly a c1) = inferred_of k c).
  { intros k. apply core_streams. unfold record_anomaly. by rewrite observe_core. }
  generalize dependent (record_anomaly a c1). intros c2 H2 Hst Hp2 Hstr.
  assert (He2 : expectation_of (block_kind b) c2 = Some e) by (by rewrite (proj1 (Hstr _))).
  destruct (retained reason) eqn:Hret.
  - assert (H3 : client_inv settings run (_advance_expectation b c2)) by (apply advance_expectation_inv; [done..|congruence]).
    rewrite (ci_mode _ _ _ H3). eexists _, (ClientAnomaly a). split; [reflexivity|]. split; [by apply inv_defer|].
    rewrite (proj2 (proj2 (defer_streams _ _ (block_kind b)))). rewrite advance_pending, Hp2.
    split; [|cbn; lia]. apply (tells_stream run (block_kind b)); [by repeat constructor|..].
    + intros k Hk. destruct (defer_streams (ClientBlock b) (_advance_expectation b c2) k) as (-> & -> & _).
      destruct (resume_streams (block_kind b) (block_sequence b) (block_end_tick b) c2 k (block_data_kind b)) as (Ho & _ & Hi).
      unfold _advance_expectation. rewrite (Ho Hk), Hi. apply Hstr.
    + intros at_ f i Hc. pose proof (stands_cursor _ _ _ _ _ _ Hc He) as ->. eexists. cbn [app walk_all].
      assert (Hw : walk (block_kind b) run (Expectation.sequence e, Expectation.ticks e) (ClientAnomaly a)
                   = Some (block_sequence b, block_ticks b)).
      { cbn [walk]. change (StreamAnomaly.reason a) with reason. change (StreamAnomaly.kind a) with (block_kind b).
        change (StreamAnomaly.observed_run_id a) with (block_run_id b).
        change (StreamAnomaly.observed_sequence a) with (block_sequence b).
        change (StreamAnomaly.observed_first_sample_ticks a) with (block_ticks b).
        destruct reason; try done; cbn in Hplace.
        - rewrite bool_decide_eq_true_2, Hplace, Z.eqb_refl by done. done.
        - destruct Hplace as (_ & -> & ->). done. }
      assert (Hr : block_run_id b = run) by (destruct reason; cbn in Hplace; try done; tauto).
      rewrite Hw, walk_block by done. split; [reflexivity|]. cbn [gap_frames gap_items map fold_right]. rewrite !Z.add_0_r.
      apply stands_defer. eapply stands_resume; [apply block_data_kind|]. apply Hst. exact Hc.
  - rewrite (ci_mode _ _ _ H2). exists c2, (ClientAnomaly a). split; [done|]. split; [done|]. rewrite Hp2.
    split; [|cbn; lia]. apply (tells_stream run (block_kind b)); [by repeat constructor|intros k _; apply Hstr|].
    intros at_ f i Hc. exists at_. split.
    + destruct at_ as [s t]. cbn [walk_all walk]. change (StreamAnomaly.reason a) with reason. by destruct reason.
    + cbn [gap_frames gap_items map fold_right]. rewrite !Z.add_0_r. by apply Hst.
Qed.

Lemma gap_step settings run c w b e k m :
  client_inv settings run c -> ClientStream._pending_items c = [] -> status_ok run (Surroundings.status w) ->
  v3_wf b -> rebuilds b -> expectation_of (block_kind b) c = Some e -> block_run_id b = run ->
  missing b (Expectation.sequence e) (Expectation.ticks e) k m -> 0 < k ->
  good_step settings run c (process_gap c w b (gap_at b (Expectation.sequence e) (Expectation.ticks e) 0 k m)).
Proof.
  intros H Hp Hs [Hb Hv] Hre He Hr Hm Hk. destruct (ci_expected _ _ _ H _ e He) as (Hes & Het & _ & _).
  destruct (missing_nonneg _ _ _ _ _ Hb Hm) as [_ Hm0].
  assert (Hmpos : 0 < m).
  { destruct Hm as [_ _ _ _ Ha]. rewrite decide_True in Ha by exact Hv. lia. }
  set (kd := block_kind b) in *. assert (Hkd : data_kind kd = true) by apply block_data_kind.
  unfold process_gap. fold kd. pose proof (ci_inferred _ _ _ H kd) as Hinf.
  destruct (inferred_of kd c) as [i|] eqn:Hi; [|congruence].
  change (StreamGap.missing_frames (gap_at b _ _ 0 k m)) with k. change (StreamGap.missing_items (gap_at b _ _ 0 k m)) with m.
  set (i' := Inferred.mk (Inferred.frames i + k) (Inferred.items i + m)).
  assert (H1 : client_inv settings run (set_inferred kd i' c)) by (apply inv_inferred; [done|done|cbn; lia|cbn; lia]).
  destruct (finalize_gap_ok settings run _ w b _ _ k m H1 Hs Hb Hes Het Hm) as (c2 & ev & Hf & Hcore & H2).
  rewrite Hf. destruct (core_streams _ _ kd Hcore) as [He2 Hi2].
  destruct (set_inferred_streams kd kd i' c Hkd) as [Hi1 He1]. rewrite decide_True in Hi1 by done.
  assert (H3 : client_inv settings run (_advance_expectation b c2)) by (apply advance_expectation_inv; [done|done|]; change (expectation_of kd c2 <> None); congruence).
  rewrite block_with_gap_ok by done. set (g := gap_with b _ _ 0 k m ev).
  rewrite (ci_mode _ _ _ (inv_observe _ _ _ _ H3)).
  eexists _, (ClientGap g). split; [reflexivity|]. split; [by apply inv_defer, inv_observe|].
  rewrite (proj2 (proj2 (defer_streams _ _ kd))).
  rewrite (proj2 (proj2 (core_mode _ _ (observe_core _ _)))), advance_pending, (proj2 (proj2 (core_mode _ _ Hcore))),
    set_inferred_pending, Hp.
  split; [|cbn; lia]. destruct (attach_same b g) as (Hak & Har & Has & Hat & Hae & _).
  apply (tells_stream run kd); [constructor; [done|by constructor]|..].
  - intros k' Hk'. destruct (defer_streams (ClientBlock (attach b g)) (observe (fun o => record_evidence (StreamGap.firmware_evidence g) (count_gap o)) (_advance_expectation b c2)) k') as (-> & -> & _).
    destruct (core_streams _ _ k' (observe_core (fun o => record_evidence (StreamGap.firmware_evidence g) (count_gap o)) (_advance_expectation b c2))) as [-> ->].
    destruct (resume_streams kd (block_sequence b) (block_end_tick b) c2 k' Hkd) as (Ho & _ & Hinf').
    unfold _advance_expectation. fold kd. rewrite (Ho Hk'), Hinf'. destruct (core_streams _ _ k' Hcore) as [-> ->].
    destruct (set_inferred_streams kd k' i' c Hkd) as [-> ->]. by rewrite decide_False.
  - intros at_ f n Hst. pose proof (stands_cursor _ _ _ _ _ _ Hst He) as ->. eexists. cbn [app walk_all].
    assert (Hw : walk kd run (Expectation.sequence e, Expectation.ticks e) (ClientGap g) = Some (block_sequence b, block_ticks b)).
    { unfold walk, g, gap_with. cbn [StreamGap.kind StreamGap.run_id StreamGap.expected_sequence StreamGap.expected_first_sample_ticks
        StreamGap.missing_frames StreamGap.missing_items StreamGap.observed_sequence StreamGap.observed_first_sample_ticks].
      rewrite bool_decide_eq_true_2, Hr, !Z.eqb_refl, !(fun x => proj2 (Z.ltb_lt 0 x)) by done. done. }
    rewrite Hw, <-Has, <-Hat, walk_block by (first [exact Hak|congruence]). split; [reflexivity|].
    assert (Hg1 : gap_frames kd [ClientGap g; ClientBlock (attach b g)] = k)
      by (unfold gap_frames, g, gap_with; cbn [map fold_right StreamGap.kind StreamGap.missing_frames]; rewrite decide_True by done; lia).
    assert (Hg2 : gap_items kd [ClientGap g; ClientBlock (attach b g)] = m)
      by (unfold gap_items, g, gap_with; cbn [map fold_right StreamGap.kind StreamGap.missing_items]; rewrite decide_True by done; lia).
    rewrite Hg1, Hg2, Has, Hae. apply stands_defer, stands_observe.
    eapply stands_resume; [done|]. split; [exists e; split; [etransitivity; [exact He2|by rewrite He1]|reflexivity]|].
    etransitivity; [exact Hi2|]. rewrite Hi1. destruct Hst as [_ Hi0]. rewrite Hi in Hi0. apply Some_inj' in Hi0. unfold i'. by rewrite Hi0.
Qed.

Lemma raised_evidence_wf e : evidence_validate e = Ok e -> evidence_wf e.
Proof. intros H. by apply evidence_validate_iff in H as [_ H]. Qed.

Lemma block_step settings run c w b :
  client_inv settings run c -> ClientStream._pending_items c = [] -> status_ok run (Surroundings.status w) ->
  v3_wf b -> rebuilds b -> block_source b = V3Settings.source settings -> expectation_of (block_kind b) c <> None ->
  good_step settings run c (_process_block c w b).
Proof.
  intros H Hp Hs Hb Hre Hsrc Hsome. unfold _process_block. destruct (expectation_of (block_kind b) c) as [e|] eqn:He; [|done].
  destruct (ci_expected _ _ _ H _ e He) as (Hes & Het & Hprev & Hun). destruct (ci_run _ _ _ H) as [Hrun Hrr].
  rewrite (ci_configuration _ _ _ H), Hun, Hrun. rewrite bool_decide_eq_true_2 by exact Hsrc. cbn [negb].
  destruct (continuity_verdict b _ _ run _ (proj1 Hb) Hes Het Hrr Hprev) as (r & Hr & Hv). rewrite Hr.
  assert (Hval : forall a, r = Some (ReportAnomaly a) -> anomaly_validate a = Ok a).
  { intros a ->. by eapply reported_anomaly_valid. }
  destruct Hv as [Hr' (es & et & si & ti & ev & [_ Hev] & ->)|Hr' Hk (es & et & si & ti & ev & [_ Hev] & ->)
    |Hr' Hk Hno (es & et & si & ti & ev & [_ Hev] & ->)|Hr' Hsq Htk Hmk (es & et & si & ti & ev & [_ Hev] & ->)
    |Hr' Hsq Htk Hmk ->|k m Hr' [Hm _] Hk ->].
  - apply (anomaly_step settings run c w b e); try done; [by apply Hb|by apply Hval|by apply raised_evidence_wf].
  - apply (anomaly_step settings run c w b e); try done; [by apply Hb|by case_decide|by apply Hval|by apply raised_evidence_wf].
  - apply (anomaly_step settings run c w b e); try done; [by apply Hb|by apply Hval|by apply raised_evidence_wf].
  - apply (anomaly_step settings run c w b e); try done; [by apply Hb|by apply Hval|by apply raised_evidence_wf].
  - apply (clean_step settings run c w b e); try done. apply Hb.
  - by apply gap_step.
Qed.

Lemma loss_resume_inv settings run l c :
  client_inv settings run c -> loss_wf l -> expectation_of (HostQueueLoss.kind l) c <> None ->
  client_inv settings run (resume_after_loss l c).
Proof. intros H Hl He. apply resume_inv; [done|apply Hl|done|apply Hl|apply Hl]. Qed.

Lemma range_anomaly_ok settings run c l :
  client_inv settings run c -> loss_wf l ->
  range_anomaly c l = Ok (StreamAnomaly.mk HOST_QUEUE_RANGE_INCONSISTENT (HostQueueLoss.kind l) (HostQueueLoss.source l)
    run (HostQueueLoss.run_id l) (HostQueueLoss.first_sequence l) (HostQueueLoss.first_sample_ticks l)
    (Expectation.sequence <$> expectation_of (HostQueueLoss.kind l) c)
    (Expectation.ticks <$> expectation_of (HostQueueLoss.kind l) c) None None None 1).
Proof.
  intros H Hl. destruct (ci_run _ _ _ H) as [Hrun Hrr]. unfold range_anomaly. rewrite Hrun.
  destruct Hl as [Hk _ _ Hr Hf _ Ht _ _ _ _ _ _ _ _ _]. unfold anomaly_validate.
  cbn [StreamAnomaly.kind StreamAnomaly.active_run_id StreamAnomaly.observed_run_id StreamAnomaly.source
    StreamAnomaly.observed_sequence StreamAnomaly.observed_first_sample_ticks StreamAnomaly.expected_sequence
    StreamAnomaly.expected_first_sample_ticks StreamAnomaly.sequence_inferred_items
    StreamAnomaly.timestamp_inferred_items StreamAnomaly.occurrences StreamAnomaly.firmware_evidence].
  rewrite Hk, (proj2 (unsigned_Ok _ run 32 ltac:(lia))), (proj2 (unsigned_Ok _ (HostQueueLoss.run_id l) 32 ltac:(lia))),
    (proj2 (unsigned_Ok _ (HostQueueLoss.first_sequence l) 32 ltac:(lia))),
    (proj2 (unsigned_Ok _ (HostQueueLoss.first_sample_ticks l) 64 ltac:(lia))) by lia.
  rewrite (proj2 (Z.eqb_neq run 0)), (proj2 (Z.eqb_neq (HostQueueLoss.run_id l) 0)) by lia.
  cbn [orb negb require mbind result_bind check_option].
  destruct (expectation_of (HostQueueLoss.kind l) c) as [e|] eqn:He; [|done].
  destruct (ci_expected _ _ _ H _ e He) as (Hes & Het & _).
  cbn [fmap option_fmap option_map check_option].
  by rewrite (proj2 (unsigned_Ok _ _ 32 ltac:(lia)) Hes), (proj2 (unsigned_Ok _ _ 64 ltac:(lia)) Het).
Qed.

Lemma walk_loss run l :
  HostQueueLoss.run_id l = run ->
  walk (HostQueueLoss.kind l) run (HostQueueLoss.first_sequence l, HostQueueLoss.first_sample_ticks l) (ClientLoss l)
  = Some (u32 (HostQueueLoss.last_sequence l + 1), HostQueueLoss.end_sample_ticks l).
Proof. intros <-. cbn. rewrite bool_decide_eq_true_2 by done. by rewrite !Z.eqb_refl. Qed.

Lemma observed_streams f c k :
  expectation_of k (observe f c) = expectation_of k c /\ inferred_of k (observe f c) = inferred_of k c
  /\ ClientStream._pending_items (observe f c) = ClientStream._pending_items c.
Proof.
  destruct (core_streams _ _ k (observe_core f c)) as [-> ->]. by destruct (core_mode _ _ (observe_core f c)) as (_ & _ & ->).
Qed.

Lemma loss_resume_streams l c k :
  loss_wf l ->
  (k <> HostQueueLoss.kind l -> expectation_of k (resume_after_loss l c) = expectation_of k c) /\
  inferred_of k (resume_after_loss l c) = inferred_of k c /\
  ClientStream._pending_items (resume_after_loss l c) = ClientStream._pending_items c.
Proof.
  intros Hl. unfold resume_after_loss.
  destruct (resume_streams (HostQueueLoss.kind l) (HostQueueLoss.last_sequence l) (HostQueueLoss.end_sample_ticks l) c k (lw_kind l Hl))
    as (Ho & _ & Hi). by rewrite resume_pending.
Qed.

Lemma valid_loss_step settings run c l :
  client_inv settings run c -> ClientStream._pending_items c = [] -> loss_wf l -> range_valid c l = true ->
  good_step settings run c (_process_host_queue_loss c l).
Proof.
  intros H Hp Hl Hvalid. unfold _process_host_queue_loss. rewrite Hvalid.
  unfold range_valid in Hvalid. rewrite (ci_configuration _ _ _ H) in Hvalid.
  destruct (expectation_of (HostQueueLoss.kind l) c) as [e|] eqn:He; [|done].
  rewrite !andb_true_iff, !Z.eqb_eq, (proj1 (ci_run _ _ _ H)) in Hvalid. destruct Hvalid as ((((Hr & _) & _) & Hs) & Ht).
  assert (H1 : client_inv settings run (observe count_loss (resume_after_loss l c)))
    by (apply inv_observe, loss_resume_inv; [done|done|congruence]).
  rewrite (ci_mode _ _ _ H1). eexists _, (ClientLoss l). split; [reflexivity|]. split; [done|].
  destruct (observed_streams count_loss (resume_after_loss l c) (HostQueueLoss.kind l)) as (_ & _ & ->).
  rewrite (proj2 (proj2 (loss_resume_streams l c (HostQueueLoss.kind l) Hl))), Hp. split; [|cbn; lia].
  apply (tells_stream run (HostQueueLoss.kind l)); [by repeat constructor|..].
  - intros k Hk. destruct (observed_streams count_loss (resume_after_loss l c) k) as (-> & -> & _).
    destruct (loss_resume_streams l c k Hl) as (Ho & -> & _). by rewrite (Ho Hk).
  - intros at_ f i Hst. rewrite (stands_cursor _ _ _ _ _ _ Hst He), <-Hs, <-Ht. eexists. cbn [walk_all].
    rewrite walk_loss by done. split; [reflexivity|]. cbn [gap_frames gap_items map fold_right]. rewrite !Z.add_0_r.
    apply stands_observe. eapply stands_resume; [apply Hl|exact Hst].
Qed.

(** The counts of an inconsistent range. *)
Definition range_counts (k : V1FrameKind.FrameKind) (o : Observed) : Observed :=
  count_loss (telemetry_error 1 [RangeMessage k] (count_anomalies 1 o)).

Lemma invalid_loss_step settings run c l :
  client_inv settings run c -> ClientStream._pending_items c = [] -> loss_wf l -> range_valid c l = false ->
  good_step settings run c (_process_host_queue_loss c l).
Proof.
  intros H Hp Hl Hinvalid. unfold _process_host_queue_loss. rewrite Hinvalid, (range_anomaly_ok settings run c l H Hl).
  set (a := StreamAnomaly.mk _ _ _ _ _ _ _ _ _ _ _ _ _). set (kd := HostQueueLoss.kind l).
  change (fun o => count_loss (telemetry_error 1 [RangeMessage kd] (count_anomalies 1 o))) with (range_counts kd).
  set (c1 := observe (range_counts kd) c). assert (H1 : client_inv settings run c1) by (by apply inv_observe).
  assert (Hst : forall k, expectation_of k c1 = expectation_of k c /\ inferred_of k c1 = inferred_of k c
    /\ ClientStream._pending_items c1 = ClientStream._pending_items c) by (intros k; apply observed_streams).
  assert (Hrun : ClientStream._run_id c1 = run) by apply (ci_run _ _ _ H1). rewrite Hrun. clearbody c1.
  set (c2 := if negb _ && _ then _ else c1).
  assert (H2 : client_inv settings run c2 /\ ClientStream._pending_items c2 = [] /\
    (forall k, inferred_of k c2 = inferred_of k c) /\
    (forall k, k <> kd -> expectation_of k c2 = expectation_of k c) /\
    (forall e, expectation_of kd c = Some e ->
       (HostQueueLoss.run_id l = run /\ c2 = resume_after_loss l c1) \/ (HostQueueLoss.run_id l <> run /\ c2 = c1))).
  { unfold c2. destruct (Hst kd) as (He1 & _ & Hp1). rewrite He1. case_bool_decide as Hnone; cbn [negb andb].
    - split; [done|]. split; [by rewrite Hp1|]. split; [intros k; apply (Hst k)|]. split; [intros k _; apply (Hst k)|].
      intros e He. congruence.
    - destruct (Z.eqb_spec (HostQueueLoss.run_id l) run) as [Hr|Hr].
      + split; [apply loss_resume_inv; [done|done|fold kd; by rewrite He1]|].
        split; [by rewrite (proj2 (proj2 (loss_resume_streams l c1 kd Hl))), Hp1|].
        split; [intros k; destruct (loss_resume_streams l c1 k Hl) as (_ & -> & _); apply (Hst k)|].
        split; [intros k Hk; destruct (loss_resume_streams l c1 k Hl) as (-> & _ & _); [apply (Hst k)|done]|]. by left.
      + split; [done|]. split; [by rewrite Hp1|]. split; [intros k; apply (Hst k)|]. split; [intros k _; apply (Hst k)|]. by right. }
  clearbody c2. destruct H2 as (H2 & Hp2 & Hi2 & Ho2 & Hk2). rewrite (ci_mode _ _ _ H2).
  eexists _, (ClientAnomaly a). split; [reflexivity|]. split; [by apply inv_defer|].
  rewrite (proj2 (proj2 (defer_streams _ _ kd))), Hp2. split; [|cbn; lia].
  apply (tells_stream run kd); [by repeat constructor|..].
  - intros k Hk. destruct (defer_streams (ClientLoss l) c2 k) as (-> & -> & _). by rewrite (Ho2 k Hk), Hi2.
  - intros at_ f i Hc. pose proof Hc as [(e & He & Hat) Hinf]. cbn [app walk_all].
    assert (Hg : gap_frames kd [ClientAnomaly a; ClientLoss l] = 0 /\ gap_items kd [ClientAnomaly a; ClientLoss l] = 0) by done.
    destruct Hg as [-> ->]. rewrite !Z.add_0_r. destruct at_ as [s t]. unfold walk at 1.
    change (StreamAnomaly.reason a) with HOST_QUEUE_RANGE_INCONSISTENT. change (StreamAnomaly.kind a) with kd.
    change (StreamAnomaly.observed_run_id a) with (HostQueueLoss.run_id l).
    rewrite bool_decide_eq_true_2 by done. cbn [andb].
    destruct (Hk2 e He) as [[Hr Hc2]|[Hr Hc2]].
    + rewrite (proj2 (Z.eqb_eq _ _) Hr). change (StreamAnomaly.observed_sequence a) with (HostQueueLoss.first_sequence l).
      change (StreamAnomaly.observed_first_sample_ticks a) with (HostQueueLoss.first_sample_ticks l).
      unfold kd at 1. rewrite walk_loss by done. eexists. split; [reflexivity|]. apply stands_defer. rewrite Hc2.
      eapply stands_resume; [apply Hl|]. split; [exists e; split; [|exact Hat]|].
      * etransitivity; [apply (proj1 (Hst kd))|exact He].
      * etransitivity; [apply (proj1 (proj2 (Hst kd)))|exact Hinf].
    + rewrite (proj2 (Z.eqb_neq _ _) Hr). exists (s, t). split.
      * cbn [walk]. rewrite (proj2 (Z.eqb_neq (HostQueueLoss.run_id l) run)) by done. by rewrite orb_true_r.
      * apply stands_defer. rewrite Hc2. split; [exists e; split; [|exact Hat]|].
        -- etransitivity; [apply (proj1 (Hst kd))|exact He].
        -- etransitivity; [apply (proj1 (proj2 (Hst kd)))|exact Hinf].
Qed.

Lemma reader_anomaly_step settings run c a :
  client_inv settings run c -> ClientStream._pending_items c = [] -> StreamAnomaly.reason a = STALE_RUN ->
  good_step settings run c (_process_reader_anomaly c a).
Proof.
  intros H Hp Ha. unfold _process_reader_anomaly, record_anomaly.
  assert (H1 : client_inv settings run (record_anomaly a c)) by (by apply inv_observe).
  unfold record_anomaly in H1. rewrite (ci_mode _ _ _ H1). eexists _, (ClientAnomaly a). split; [reflexivity|].
  split; [done|].
  destruct (observed_streams (fun o => telemetry_error (StreamAnomaly.occurrences a) [anomaly_message a] (count_anomalies (StreamAnomaly.occurrences a) o)) c V1FrameKind.ADC_DATA)
    as (_ & _ & ->). rewrite Hp. split; [|cbn; lia].
  intros k at_ f i Hst. exists at_. split.
  - destruct at_ as [s t]. cbn. by rewrite Ha.
  - change (gap_frames k [ClientAnomaly a]) with 0. change (gap_items k [ClientAnomaly a]) with 0.
    rewrite !Z.add_0_r. by apply stands_observe.
Qed.

Lemma item_step settings run c w i :
  client_inv settings run c -> ClientStream._pending_items c = [] -> feed_ok settings run (w, i) ->
  good_step settings run c (process_item c w i).
Proof.
  intros H Hp [Hs Hi]. cbn [fst snd] in *. destruct i as [[l|a]|b]; cbn [process_item item_ok] in *.
  - destruct (range_valid c l) eqn:Hv; [by apply valid_loss_step|by apply invalid_loss_step].
  - by apply reader_anomaly_step.
  - destruct Hi as (Hb & Hre & Hsrc & Hk). apply block_step; try done. apply (ci_tracked _ _ _ H); [apply block_data_kind|done].
Qed.

(** ** Reading a whole feed *)

Lemma tells_trans run c c1 c2 xs ys : tells run c c1 xs -> tells run c1 c2 ys -> tells run c c2 (xs ++ ys).
Proof.
  intros H1 H2 k at_ f i Hst. destruct (H1 k at_ f i Hst) as (at1 & Hw1 & Hs1).
  destruct (H2 k at1 _ _ Hs1) as (at2 & Hw2 & Hs2). exists at2.
  rewrite walk_app, Hw1, gap_frames_app, gap_items_app, !Z.add_assoc. by split.
Qed.

Lemma tells_same run c0 c c' items : core c' = core (set_pending_items (ClientStream._pending_items c') c) ->
  tells run c0 c items -> tells run c0 c' items.
Proof.
  intros Hc H k at_ f i Hst. destruct (H k at_ f i Hst) as (at1 & Hw & Hs). exists at1. split; [done|].
  unfold stands in *. destruct (core_streams _ _ k Hc) as [-> ->].
  assert (Hset : forall p, expectation_of k (set_pending_items p c) = expectation_of k c
    /\ inferred_of k (set_pending_items p c) = inferred_of k c) by (intros p; by destruct c, k).
  by destruct (Hset (ClientStream._pending_items c')) as [-> ->].
Qed.

(** The work left: two reads per item of the feed and one per deferred item. *)
Definition work (c : ClientStream) (feed : list (Surroundings * stream_item)) : nat :=
  (2 * length feed + length (ClientStream._pending_items c))%nat.

Lemma read_block_step settings run c feed :
  client_inv settings run c -> Forall (feed_ok settings run) feed ->
  (length (ClientStream._pending_items c) <= 1)%nat -> (0 < work c feed)%nat ->
  exists c' i feed', read_block c run feed = ((c', Ok i), feed') /\ client_inv settings run c' /\
    Forall (feed_ok settings run) feed' /\ (length (ClientStream._pending_items c') <= 1)%nat /\
    (work c' feed' < work c feed)%nat /\
    forall c0 told, tells run c0 c (told ++ ClientStream._pending_items c) ->
      tells run c0 c' ((told ++ [i]) ++ ClientStream._pending_items c').
Proof.
  intros H Hf Hp Hwork. destruct (ci_run _ _ _ H) as [Hr _]. unfold read_block, work in *.
  rewrite (ci_state _ _ _ H), bool_decide_eq_true_2, Hr, Z.eqb_refl by done. cbn [negb].
  destruct (ClientStream._pending_items c) as [|i pending] eqn:Hpend.
  - destruct feed as [|[w item] feed]; [cbn in Hwork; lia|]. apply Forall_cons in Hf as [Hi Hf].
    destruct (item_step settings run c w item H Hpend Hi) as (c' & i & Hstep & H' & Htells & Hlen).
    exists c', i, feed. rewrite Hstep. split; [done|]. split; [done|]. split; [done|]. split; [done|].
    split; [cbn [length]; lia|]. intros c0 told Htold. rewrite app_nil_r in Htold.
    rewrite <-app_assoc. by eapply tells_trans.
  - exists (set_pending_items pending c), i, feed. split; [done|]. split; [by apply inv_pending|]. split; [done|].
    assert (Hset : ClientStream._pending_items (set_pending_items pending c) = pending) by (by destruct c). rewrite Hset.
    cbn [length] in *. split; [lia|]. split; [lia|]. intros c0 told Htold. rewrite <-app_assoc.
    eapply tells_same; [|exact Htold]. by rewrite Hset.
Qed.

Lemma read_blocks_told settings run c0 fuel : forall c feed told,
  client_inv settings run c -> Forall (feed_ok settings run) feed ->
  (length (ClientStream._pending_items c) <= 1)%nat -> tells run c0 c (told ++ ClientStream._pending_items c) ->
  exists c' items rest, read_blocks fuel run c feed = (c', map Ok items, rest) /\ client_inv settings run c' /\
    tells run c0 c' ((told ++ items) ++ ClientStream._pending_items c') /\
    ((work c feed <= fuel)%nat -> rest = [] /\ ClientStream._pending_items c' = []).
Proof.
  induction fuel as [|fuel IH]; intros c feed told H Hf Hp Htold.
  { exists c, [], feed. cbn. rewrite app_nil_r. split; [done|]. split; [done|]. split; [done|].
    unfold work. intros Hw. destruct feed; [|cbn in Hw; lia]. destruct (ClientStream._pending_items c); [done|cbn in Hw; lia]. }
  cbn [read_blocks]. destruct (decide (work c feed = 0%nat)) as [Hz|Hz].
  { unfold work in Hz. destruct feed; [|cbn in Hz; lia]. destruct (ClientStream._pending_items c) as [|] eqn:Hpe; [|cbn in Hz; lia].
    exists c, [], []. rewrite !app_nil_r in *. rewrite Hpe, app_nil_r. done. }
  destruct (read_block_step settings run c feed H Hf Hp ltac:(lia)) as (c1 & i & feed1 & Hread & H1 & Hf1 & Hp1 & Hw1 & Htell).
  destruct (IH c1 feed1 (told ++ [i]) H1 Hf1 Hp1 (Htell c0 told Htold)) as (c' & items & rest & Hrs & H' & Ht' & Hdone).
  exists c', (i :: items), rest. rewrite Hread, Hrs.
  replace (told ++ i :: items) with ((told ++ [i]) ++ items) by (by rewrite <-app_assoc). split; [|split; [done|split; [done|]]].
  - destruct (ClientStream._pending_items c) eqn:Hpe, feed; try done. unfold work in Hz. rewrite Hpe in Hz. done.
  - intros Hfuel. apply Hdone. lia.
Qed.

(** ** The start of a run *)

Lemma start_stream_streams settings run baseline c k :
  data_kind k = true ->
  let c0 := start_stream settings run baseline c in
  expectation_of k c0 = (if has (V3Settings.stream_mask settings) (stream_of k) then Some (Expectation.mk 0 0 None false) else None)
  /\ inferred_of k c0 = (if has (V3Settings.stream_mask settings) (stream_of k) then Some (Inferred.mk 0 0) else None)
  /\ ClientStream._pending_items c0 = [].
Proof.
  intros Hk. destruct c. unfold start_stream, _initialize_stream_expectations, _v3_stream_configuration.
  cbn [StreamConfiguration.stream_mask].
  destruct k; try done; unfold stream_of; rewrite ?decide_True, ?decide_False by done;
    destruct (has (V3Settings.stream_mask settings) StreamMask.ADC) eqn:Ha, (has (V3Settings.stream_mask settings) StreamMask.GPIO) eqn:Hg;
    done.
Qed.

Lemma start_stream_inv settings run baseline c :
  ClientStream._strict c = false -> 0 < run < 2 ^ 32 -> client_inv settings run (start_stream settings run baseline c).
Proof.
  intros Hm Hr. pose proof (start_stream_streams settings run baseline c) as Hs. cbv zeta in Hs.
  split.
  - destruct c. unfold start_stream, _initialize_stream_expectations, _v3_stream_configuration. cbn in *. by repeat case_match.
  - destruct c. unfold start_stream, _initialize_stream_expectations, _v3_stream_configuration. cbn in *. by repeat case_match.
  - destruct c. unfold start_stream, _initialize_stream_expectations, _v3_stream_configuration. cbn in *. by repeat case_match.
  - destruct c. unfold start_stream, _initialize_stream_expectations. cbn [StreamConfiguration.stream_mask _v3_stream_configuration]. by repeat case_match.
  - intros k e He. destruct (data_kind k) eqn:Hk; [|by destruct k]. destruct (Hs k Hk) as (He' & _). rewrite He' in He.
    destruct (has _ _); [|done]. injection He as <-. cbn. repeat split; lia.
  - intros k. destruct (data_kind k) eqn:Hk; [|by destruct k]. destruct (Hs k Hk) as (-> & -> & _). destruct (has _ _); cbn; [lia|done].
  - destruct c. unfold start_stream, _initialize_stream_expectations, _v3_stream_configuration. cbn in *. by repeat case_match.
  - intros k Hk. destruct (Hs k Hk) as (-> & _). by destruct (has _ _).
Qed.

(** C3. Whatever the device lost, reordered or dropped and whatever the host queues
    evicted, the application is told.  From START on, a client in production mode that
    reads the items of its reader raises nothing and returns every one of them within
    two calls per item; and for each enabled stream a consumer that follows the
    returned items (and those still deferred) finds each one beginning at the sequence
    and tick where the previous one ended, from (0, 0) to exactly the position the
    client expects next, with the client's inferred losses equal to what the returned
    gaps add up to. *)
Theorem delivery_tiles (settings : V3Settings) (run baseline : Z) (c : ClientStream)
    (feed : list (Surroundings * stream_item)) (fuel : nat)
    (Hmode : ClientStream._strict c = false) (Hrun : 0 < run < 2 ^ 32) (Hfeed : Forall (feed_ok settings run) feed) :
  exists c' items rest,
    read_blocks fuel run (start_stream settings run baseline c) feed = (c', map Ok items, rest) /\
    ((2 * length feed <= fuel)%nat -> rest = [] /\ ClientStream._pending_items c' = []) /\
    forall k, data_kind k = true -> has (V3Settings.stream_mask settings) (stream_of k) = true ->
      let seen := items ++ ClientStream._pending_items c' in
      exists e, expectation_of k c' = Some e /\
        walk_all k run (0, 0) seen = Some (Expectation.sequence e, Expectation.ticks e) /\
        inferred_of k c' = Some (Inferred.mk (gap_frames k seen) (gap_items k seen)).
Proof.
  pose proof (start_stream_inv settings run baseline c Hmode Hrun) as H0.
  set (c0 := start_stream settings run baseline c) in *.
  assert (Hp0 : ClientStream._pending_items c0 = []) by apply (start_stream_streams settings run baseline c V1FrameKind.ADC_DATA eq_refl).
  destruct (read_blocks_told settings run c0 fuel c0 feed [] H0 Hfeed) as (c' & items & rest & Hr & _ & Ht & Hdone).
  - rewrite Hp0. cbn. lia.
  - rewrite Hp0. intros k at_ f i Hst. exists at_. split; [done|].
    change (gap_frames k ([] ++ [])) with 0. change (gap_items k ([] ++ [])) with 0. by rewrite !Z.add_0_r.
  - exists c', items, rest. split; [done|]. split; [intros Hf; apply Hdone; unfold work; rewrite Hp0; cbn [length]; lia|].
    intros k Hk Hm. destruct (start_stream_streams settings run baseline c k Hk) as (He & Hi & _). rewrite Hm in He, Hi.
    destruct (Ht k (0, 0) 0 0) as (at1 & Hw & (e & He' & ->) & Hi'); [by split; [eexists; split; [exact He|]|]|].
    exists e. by repeat (split; [done|]).
Qed.

(** A frame of two pairs, then one after a lost frame, the STATUS unavailable. *)
Definition example_delivered : list DataBlock := example_at 0 0 ++ example_at 2 32.
Definition example_feed : list (Surroundings * stream_item) :=
  map (fun b => (Surroundings.mk example_settings StatusUnavailable 0, ItemBlock b)) example_delivered.
Definition example_client : ClientStream :=
  ClientStream.mk false (Some V1DeviceState.CONFIGURED) 0 None None None None None [] None (Observed.mk 0 0 0 0 []) 0.

Lemma delivery_tiles_witness :
  exists c items, read_blocks 4 1 (start_stream example_settings 1 0 example_client) example_feed = (c, map Ok items, []) /\
    walk_all V1FrameKind.ADC_DATA 1 (0, 0) items = Some (3, 48) /\ length items = 3%nat /\
    gap_items V1FrameKind.ADC_DATA items = 2.
Proof.
  assert (Hw : Forall v3_wf example_delivered) by (unfold example_delivered; rewrite Forall_app; auto using example_at_wf).
  assert (Hr : Forall rebuilds example_delivered).
  { set (bs := example_delivered). vm_compute in bs. repeat constructor. }
  assert (Hs : Forall (fun b => block_source b = Source.HARDWARE /\ block_kind b = V1FrameKind.ADC_DATA) example_delivered)
    by (apply (bool_decide_unpack _); vm_compute; exact I).
  assert (Hfeed : Forall (feed_ok example_settings 1) example_feed).
  { apply Forall_fmap, Forall_forall. intros b Hb. split; [exact I|]. rewrite Forall_forall in Hw, Hr, Hs.
    split; [exact (Hw b Hb)|]. split; [exact (Hr b Hb)|]. split; [exact (proj1 (Hs b Hb))|]. rewrite (proj2 (Hs b Hb)). reflexivity. }
  destruct (delivery_tiles example_settings 1 0 example_client example_feed 4 eq_refl ltac:(lia) Hfeed)
    as (c & items & rest & Hread & Hdone & Hk).
  destruct (Hdone ltac:(vm_compute; lia)) as [-> Hp]. exists c, items. split; [exact Hread|].
  destruct (Hk V1FrameKind.ADC_DATA eq_refl eq_refl) as (e & He & Hwalk & Hi). rewrite Hp, app_nil_r in Hwalk, Hi.
  assert (Hc : expectation_of V1FrameKind.ADC_DATA c = Some (Expectation.mk 3 48 (Some 2) false)
               /\ inferred_of V1FrameKind.ADC_DATA c = Some (Inferred.mk 1 2) /\ length items = 3%nat).
  { set (r := read_blocks 4 1 (start_stream example_settings 1 0 example_client) example_feed) in Hread.
    assert (Hc : c = r.1.1) by (rewrite Hread; reflexivity).
    assert (Hl : length items = length r.1.2) by (rewrite Hread; symmetry; apply length_map).
    rewrite Hc, Hl. clear. vm_compute. split; [reflexivity|]. split; reflexivity. }
  destruct Hc as (He' & Hi' & Hl). rewrite He in He'. apply Some_inj' in He'. subst e. rewrite Hi in Hi'. injection Hi' as _ Hi'.
  split; [exact Hwalk|]. split; [exact Hl|exact Hi'].
Defined.

(** ** Adopted runs

    A host that attaches to a running device takes the first frame it reads as its
    anchor; an eviction reported before that frame is still measured against (0, 0). *)
Lemma adopted_eviction_is_inconsistent settings run c l :
  loss_wf l -> HostQueueLoss.run_id l = run -> HostQueueLoss.first_sequence l <> 0 ->
  range_valid (_initialize_stream_expectations (_v3_stream_configuration settings) false c) l = false.
Proof.
  intros Hl Hr Hf. unfold range_valid, _initialize_stream_expectations, _v3_stream_configuration.
  cbn [StreamConfiguration.stream_mask]. destruct c as [st state r cfg a g ai gi p gen o base].
  destruct cfg as [cfg|]; [|by repeat case_match].
  destruct (has _ StreamMask.ADC), (has _ StreamMask.GPIO); destruct (HostQueueLoss.kind l); cbn -[has];
    try done; rewrite (proj2 (Z.eqb_neq (HostQueueLoss.first_sequence l) 0)) by done; rewrite ?andb_false_r; done.
Qed.
