(* ===== verification/Session.v ===== *)
(** * Sessions: wire negotiation and the v3 control session
      ([negotiation.py], [session_v3.py]).

    [InfoNegotiation] probes the wire versions 3, 1, 2; [V3Session] carries the control
    state of a negotiated v3 device.  Both reach the device only through
    [BackgroundReader.request], which is an interface here ([CommandLink],
    [ProbeLink]): the theorems hold for every device and every reader behaviour, and
    [ControlPlane] instantiates the interface with the reader and the simulated device.
    The clock is a function from the number of readings taken. *)

From S2P Require Import Prelude PyStruct Checksum V3Constants V3Header V3Samples ModelsV3 V3Frames Synthetic Profiles Losses Blocks Continuity StreamQueues Reader Effects.

(** ** Wire negotiation *)

(** [reader.request(INFO_REQUEST, protocol_version=version, timeout=remaining,
    _negotiating=True)] on a link of type [L], with responses of type [R]. *)
Class ProbeLink (L R : Type) := probe_request : L -> Z -> Z -> L * result reader_error R.

Module InfoNegotiation.
Record InfoNegotiation := mk { _versions : list Z; version : Z }.
End InfoNegotiation.
Abbreviation InfoNegotiation := InfoNegotiation.InfoNegotiation.

(** [__init__] *)
Definition new_negotiation : InfoNegotiation := InfoNegotiation.mk [1; 2] 3.

Section Negotiation.
Context {L R : Type} `{P : ProbeLink L R} (now : nat -> Z).

(** The loop of [probe] from the clock reading [i] on. *)
Fixpoint probe_loop (versions : list Z) (version deadline : Z) (i : nat) (link : L) :
    L * InfoNegotiation * result reader_error R :=
  let here := InfoNegotiation.mk versions version in
  let remaining := deadline - now i in
  if remaining <=? 0 then (link, here, Err (RequestTimeoutError CommandKind.INFO 0))
  else
    match probe_request link version remaining with
    | (link, Ok response) => (link, here, Ok response)
    | (link, Err (ProtocolVersionRejected rejected)) =>
        match versions with
        | [] => (link, here, Err (ProtocolVersionRejected rejected))
        | next :: versions => probe_loop versions next deadline (S i) link
        end
    | (link, Err e) => (link, here, Err e)
    end.

Definition probe (n : InfoNegotiation) (timeout : Z) (link : L) : L * InfoNegotiation * result reader_error R :=
  probe_loop (InfoNegotiation._versions n) (InfoNegotiation.version n) (now 0%nat + timeout) 1 link.
End Negotiation.

(** ** The v3 control session *)

(** [reader.request(kind, payload, protocol_version=3, timeout=timeout)]. *)
Class CommandLink (L : Type) :=
  request : L -> CommandKind -> bytes -> Z -> L * result request_error V3Response.

Module V3Session.
Record V3Session := mk {
  timeout : Z;
  capabilities : option V3Capabilities;
  applied : option V3AppliedSettings;
  identity : option V3Info;
  state : DeviceState;
  run_id : Z;
  last_status : option V3Status
}.
End V3Session.
Abbreviation V3Session := V3Session.V3Session.

(** [__init__] *)
Definition new_session (timeout : Z) : V3Session :=
  V3Session.mk timeout None None None DeviceState.STOPPED 0 None.

Inductive session_error :=
| CommandTimeoutError
| SessionReaderError (e : request_error)
| DeviceCommandError (kind : CommandKind) (code : ErrorCode) (request_id : Z)
| SessionValueError (message : string)
| SessionAssertionError
| SessionStopIteration
| SessionFrameError (e : v3_error)
| SessionMessageError (message : string)
| DeviceIdentityMismatchError (message : string)
| OutOfFuel.

Definition set_capabilities (x : V3Capabilities) (s : V3Session) : V3Session :=
  let '(V3Session.mk t _ a i st run last) := s in V3Session.mk t (Some x) a i st run last.
Definition set_applied (x : V3AppliedSettings) (s : V3Session) : V3Session :=
  let '(V3Session.mk t c _ i st run last) := s in V3Session.mk t c (Some x) i st run last.
Definition set_identity (x : V3Info) (s : V3Session) : V3Session :=
  let '(V3Session.mk t c a _ st run last) := s in V3Session.mk t c a (Some x) st run last.
Definition set_device_state (x : DeviceState) (s : V3Session) : V3Session :=
  let '(V3Session.mk t c a i _ run last) := s in V3Session.mk t c a i x run last.
Definition set_session_run (x : Z) (s : V3Session) : V3Session :=
  let '(V3Session.mk t c a i st _ last) := s in V3Session.mk t c a i st x last.
Definition set_last_status (x : option V3Status) (s : V3Session) : V3Session :=
  let '(V3Session.mk t c a i st run _) := s in V3Session.mk t c a i st run x.

(** A method of a session over its link. *)
Abbreviation session_method L := (effect (V3Session * L) session_error).

Section Session.
Context {L : Type} `{C : CommandLink L}.
Abbreviation method := (session_method L).

Definition get_session : method V3Session := gets fst.
Definition modify_session (f : V3Session -> V3Session) : method unit := modify (fun w => (f w.1, w.2)).
Definition of_v3 {A} (m : v3 A) : method A :=
  match m with Ok a => mret a | Err e => raise (SessionFrameError e) end.

(** [command] *)
Definition command (kind : CommandKind) (payload : bytes) (timeout : option Z) : method V3Response := fun w =>
  let '(link, response) := request w.2 kind payload (default (V3Session.timeout w.1) timeout) in
  let w := (w.1, link) in
  match response with
  | Err (ReaderRaised (RequestTimeoutError _ _)) => (w, Err CommandTimeoutError)
  | Err e => (w, Err (SessionReaderError e))
  | Ok r =>
      if negb (ok r) then (w, Err (DeviceCommandError kind (V3Response.error_code r) (V3Response.request_id r)))
      else if negb (bool_decide (V3Response.kind r = COMMAND_RESPONSE_KINDS kind))
      then (w, Err (SessionValueError "v3 response kind differs from command"))
      else (w, Ok r)
  end.

(** The six fields that must not change during a session. *)
Definition same_identity (a b : V3Info) : bool :=
  bool_decide (V3Info.board_id a = V3Info.board_id b) && bool_decide (V3Info.mcu_id a = V3Info.mcu_id b)
  && eqb (V3Info.simulated a) (V3Info.simulated b)
  && bool_decide (V3Info.hardware_serial a = V3Info.hardware_serial b)
  && bool_decide (V3Info.firmware_version a = V3Info.firmware_version b)
  && bool_decide (V3Info.build_id a = V3Info.build_id b).

(** [info] *)
Definition session_info : method V3Info :=
  r ← command CommandKind.INFO [] None;
  match V3Response.value r with
  | Some (InfoValue value) =>
      s ← get_session;
      _ ← check (match V3Session.identity s with None => true | Some i => same_identity value i end)
            (DeviceIdentityMismatchError "v3 identity changed during session");
      _ ← modify_session (set_identity value);
      mret value
  | _ => raise SessionAssertionError
  end.

Definition get_capabilities : method V3Capabilities :=
  r ← command CommandKind.GET_CAPABILITIES [] None;
  match V3Response.value r with
  | Some (CapabilitiesValue value) => _ ← modify_session (set_capabilities value); mret value
  | _ => raise SessionAssertionError
  end.

(** [_validate_applied] *)
Definition _validate_applied (value : V3AppliedSettings) (refresh_info : bool) : method unit :=
  s ← get_session;
  capabilities ← of_some (V3Session.capabilities s) SessionAssertionError;
  _ ← of_v3 (require_supported capabilities (V3AppliedSettings.settings value));
  clocks ← of_some (head (filter (fun record => V3Clocks.cpu_profile record
                                    = V3Settings.cpu_profile (V3AppliedSettings.settings value))
                            (V3Capabilities.cpu_profiles capabilities))) SessionStopIteration;
  _ ← check (bool_decide (V3AppliedSettings.clocks value = clocks))
        (SessionMessageError "applied clocks differ from advertised profile");
  info ← (if refresh_info then i ← session_info; mret (Some i) else s ← get_session; mret (V3Session.identity s));
  check (bool_decide ((V3Info.clocks <$> info) = Some (V3AppliedSettings.clocks value)))
    (SessionMessageError "INFO clocks differ from applied settings").

Definition get_settings : method V3AppliedSettings :=
  r ← command CommandKind.GET_SETTINGS [] None;
  match V3Response.value r with
  | Some (AppliedValue value) =>
      s ← get_session;
      _ ← _validate_applied value (negb (bool_decide (V3Session.applied s = None)));
      s ← get_session;
      _ ← check (bool_decide (V3Session.state s = DeviceState.STOPPED) || bool_decide (V3Session.applied s = Some value))
            (SessionMessageError "v3 settings changed during run/drain");
      _ ← modify_session (set_applied value);
      mret value
  | _ => raise SessionAssertionError
  end.

Definition configure (settings : V3Settings) : method V3AppliedSettings :=
  s ← get_session;
  capabilities ← of_some (V3Session.capabilities s) SessionAssertionError;
  _ ← of_v3 (require_supported capabilities settings);
  payload ← of_v3 (settings_to_bytes settings);
  response ← command CommandKind.CONFIGURE payload None;
  match V3Response.value response with
  | Some (AppliedValue value) =>
      _ ← check (bool_decide (V3AppliedSettings.settings value = settings))
            (SessionMessageError "CONFIGURE applied settings differ from request");
      readback ← command CommandKind.GET_SETTINGS [] None;
      _ ← check (bool_decide (V3Response.value readback = Some (AppliedValue value)))
            (SessionMessageError "GET_SETTINGS differs from CONFIGURE echo");
      _ ← _validate_applied value true;
      _ ← modify_session (fun s => set_session_run (V3Response.run_id response) (set_applied value s));
      mret value
  | _ => raise (SessionMessageError "CONFIGURE applied settings differ from request")
  end.

(** [start] *)
Definition session_start : method Z :=
  s ← get_session;
  let requested := V3Session.applied s in
  current ← get_settings;
  _ ← check (bool_decide (Some current = requested)) (SessionMessageError "settings changed before START");
  response ← command CommandKind.START [] None;
  _ ← modify_session (fun s => set_last_status None
        (set_session_run (V3Response.run_id response) (set_device_state DeviceState.RUNNING s)));
  _ ← check (negb (V3Response.run_id response =? 0)
             && bool_decide (V3Response.value response = AppliedValue <$> requested))
        (SessionMessageError "START run ID/settings differ from request");
  mret (V3Response.run_id response).

(** [status] *)
Definition session_status (timeout : option Z) : method V3Status :=
  r ← command CommandKind.GET_STATUS [] timeout;
  match V3Response.value r with
  | Some (StatusValue value) =>
      let stop := V3Status.stop value in
      _ ← modify_session (fun s => set_last_status (Some value)
            (set_session_run (V3Stop.run_id stop) (set_device_state (V3Stop.state stop) s)));
      mret value
  | _ => raise SessionAssertionError
  end.

(** The drain loop of [stop]: at most [fuel] passes, the clock, in microseconds, read
    at [i] on.  [sleep] only lets the clock advance. *)
Fixpoint drain_loop (fuel : nat) (now : nat -> Z) (deadline : Z) (i : nat) : method unit :=
  s ← get_session;
  if negb (bool_decide (V3Session.state s = DeviceState.DRAINING)) then mret tt
  else
    match fuel with
    | O => raise OutOfFuel
    | S fuel =>
        _ ← check (negb (deadline - now i <=? 0)) (SessionMessageError "v3 STOP drain deadline exceeded");
        _ ← session_status (Some (Z.max 1 (deadline - now (S i))));
        drain_loop fuel now deadline (S (S i))
    end.

(** [stop] *)
Definition session_stop (fuel : nat) (now : nat -> Z) : method DeviceState :=
  s ← get_session;
  let deadline := now 0%nat + V3Session.timeout s in
  r ← command CommandKind.STOP [] None;
  match V3Response.value r with
  | Some (StopValue value) =>
      _ ← modify_session (fun s => set_session_run (V3Stop.run_id value) (set_device_state (V3Stop.state value) s));
      _ ← drain_loop fuel now deadline 1;
      s ← get_session;
      _ ← check (bool_decide (V3Session.state s = DeviceState.STOPPED)) (SessionMessageError "v3 STOP did not reach STOPPED");
      mret (V3Session.state s)
  | _ => raise SessionAssertionError
  end.
End Session.

(** ** Negotiation: which versions are tried *)

Section NegotiationFacts.
Context {L R : Type} `{P : ProbeLink L R}.

(** The link after each version of the list was tried, with its remaining time, and
    explicitly rejected. *)
Inductive rejected_from : L -> list (Z * Z) -> L -> Prop :=
| rejected_nil link : rejected_from link [] link
| rejected_cons link version remaining link1 rejected tried link2 :
    probe_request link version remaining = (link1, Err (ProtocolVersionRejected rejected)) ->
    rejected_from link1 tried link2 ->
    rejected_from link ((version, remaining) :: tried) link2.

(** What a negotiation over the versions [order] does before [deadline]: some of them are
    tried in order and rejected; then the time is over, or the next one is answered, and
    a rejection is raised only for the last. *)
Definition negotiated (now : nat -> Z) (order : list Z) (deadline : Z) (i : nat) (link : L)
    (link' : L) (n : InfoNegotiation) (outcome : result reader_error R) : Prop :=
  exists tried version rest link1,
    order = map fst tried ++ version :: rest /\
    rejected_from link tried link1 /\
    Forall (fun t => 0 < t.2) tried /\
    n = InfoNegotiation.mk rest version /\
    let remaining := deadline - now (i + length tried)%nat in
    if remaining <=? 0
    then link' = link1 /\ outcome = Err (RequestTimeoutError CommandKind.INFO 0)
    else probe_request link1 version remaining = (link', outcome) /\
         (rest <> [] -> forall rejected, outcome <> Err (ProtocolVersionRejected rejected)).

Lemma probe_loop_negotiated now versions : forall version deadline i link,
  let '(link', n, outcome) := probe_loop now versions version deadline i link in
  negotiated now (version :: versions) deadline i link link' n outcome.
Proof.
  induction versions as [|next versions IH]; intros version deadline i link; cbn [probe_loop];
    (destruct (deadline - now i <=? 0) eqn:Hr;
      [|destruct (probe_request link version (deadline - now i)) as [link1 [response|e]] eqn:Hp; [|destruct e eqn:He]]).
  all: try (exists [], version, []; exists link; cbn [map length app]; rewrite Nat.add_0_r, Hr; repeat split; eauto; constructor).
  all: try (exists [], version, (next :: versions), link; cbn [map length app]; rewrite Nat.add_0_r, Hr; repeat split; eauto;
            constructor).
  specialize (IH next deadline (S i) link1).
  destruct (probe_loop now versions next deadline (S i) link1) as [[link' n] outcome].
  destruct IH as (tried & v & rest & link2 & Ho & Hrej & Hpos & Hn & IH).
  exists ((version, deadline - now i) :: tried), v, rest, link2.
  split; [by cbn; rewrite Ho|]. split; [by econstructor|].
  split; [constructor; [cbn; lia|done]|]. split; [done|].
  cbn [length]. by replace (i + S (length tried))%nat with (S i + length tried)%nat by lia.
Qed.
End NegotiationFacts.

(** [probe] tries the wire versions 3, 1, 2 in this order and gives the next one to the
    reader only after an explicit rejection of every earlier one, each try within what is
    left of the one deadline.  It answers with the reader's own answer or error to the last
    version tried, a rejection only once all three were rejected, or with a timeout when
    the deadline has passed; [version] is the last version tried. *)
Theorem probe_order {L R : Type} `{ProbeLink L R} (now : nat -> Z) (timeout : Z) (link : L) :
  let '(link', n, outcome) := probe now new_negotiation timeout link in
  negotiated now [3; 1; 2] (now 0%nat + timeout) 1 link link' n outcome.
Proof. apply probe_loop_negotiated. Qed.

(** ** Reasoning about methods *)

Section MethodLogic.
Context {L : Type} `{C : CommandLink L}.
Abbreviation method := (session_method L).

(** From the session [s] and any link, the method returns with [Q] or raises with [E]. *)
Definition wps {A} (m : method A) (Q : A -> V3Session -> Prop) (E : session_error -> V3Session -> Prop)
    (s : V3Session) : Prop :=
  forall l, match m (s, l) with
            | (w, Ok a) => Q a w.1
            | (w, Err e) => E e w.1
            end.

Lemma wps_bind {A B} (m : method A) (k : A -> method B) Q E s :
  wps m (fun a s => wps (k a) Q E s) E s -> wps (m ≫= k) Q E s.
Proof.
  intros H l. specialize (H l). unfold mbind, effect_bind.
  destruct (m (s, l)) as [[s' l'] [a|e]]; [apply H|exact H].
Qed.

Lemma wps_consequence {A} (m : method A) Q Q' E E' s :
  wps m Q E s -> (forall a s, Q a s -> Q' a s) -> (forall e s, E e s -> E' e s) -> wps m Q' E' s.
Proof. intros H HQ HE l. specialize (H l). destruct (m (s, l)) as [? [?|?]]; auto. Qed.

Lemma wps_ret {A} (a : A) (Q : A -> V3Session -> Prop) E s : Q a s -> wps (mret a) Q E s.
Proof. intros H l. exact H. Qed.

Lemma wps_raise {A} e (Q : A -> V3Session -> Prop) (E : session_error -> V3Session -> Prop) s :
  E e s -> wps (raise e) Q E s.
Proof. intros H l. exact H. Qed.

Lemma wps_get (Q : V3Session -> V3Session -> Prop) E s : Q s s -> wps get_session Q E s.
Proof. intros H l. exact H. Qed.

Lemma wps_modify f (Q : unit -> V3Session -> Prop) E s : Q tt (f s) -> wps (modify_session f) Q E s.
Proof. intros H l. exact H. Qed.

Lemma wps_check b e (Q : unit -> V3Session -> Prop) (E : session_error -> V3Session -> Prop) s :
  (b = true -> Q tt s) -> (b = false -> E e s) -> wps (check b e) Q E s.
Proof. intros HQ HE. destruct b; [by apply wps_ret, HQ|by apply wps_raise, HE]. Qed.

Lemma wps_of_some {A} (o : option A) e (Q : A -> V3Session -> Prop) (E : session_error -> V3Session -> Prop) s :
  (forall a, o = Some a -> Q a s) -> (o = None -> E e s) -> wps (of_some o e) Q E s.
Proof. intros HQ HE. destruct o; [by apply wps_ret, HQ|by apply wps_raise, HE]. Qed.

Lemma wps_of_v3 {A} (m : v3 A) (Q : A -> V3Session -> Prop) (E : session_error -> V3Session -> Prop) s :
  (forall a, m = Ok a -> Q a s) -> (forall e, m = Err e -> E (SessionFrameError e) s) -> wps (of_v3 m) Q E s.
Proof. intros HQ HE. destruct m; [by apply wps_ret, HQ|by apply wps_raise, HE]. Qed.

(** A command leaves the session alone, and returns what the link answered; its errors are
    never the model's fuel. *)
Lemma wps_answer kind payload timeout (Q : V3Response -> V3Session -> Prop) (E : session_error -> V3Session -> Prop) s :
  (forall r l l', request l kind payload (default (V3Session.timeout s) timeout) = (l', Ok r) ->
     ok r = true -> V3Response.kind r = COMMAND_RESPONSE_KINDS kind -> Q r s) ->
  (forall e, e <> OutOfFuel -> E e s) ->
  wps (command kind payload timeout) Q E s.
Proof.
  intros HQ HE l. unfold command. cbn [fst snd].
  destruct (request l kind payload (default (V3Session.timeout s) timeout)) as [link [r|e]] eqn:Hr; [|by destruct e as [[]| |]; apply HE].
  destruct (ok r) eqn:Hok; cbn [negb]; [|by apply HE].
  case_bool_decide as Hk; cbn [negb]; [by eapply HQ|by apply HE].
Qed.

Lemma wps_command kind payload timeout (Q : V3Response -> V3Session -> Prop) (E : session_error -> V3Session -> Prop) s :
  (forall r, ok r = true -> V3Response.kind r = COMMAND_RESPONSE_KINDS kind -> Q r s) ->
  (forall e, e <> OutOfFuel -> E e s) ->
  wps (command kind payload timeout) Q E s.
Proof. intros HQ HE. apply wps_answer; [intros r l l' _; apply HQ|exact HE]. Qed.
End MethodLogic.

(** One step of a method under [wps]. *)
Ltac wps_step :=
  first
    [ apply wps_bind
    | apply wps_get
    | apply wps_modify
    | apply wps_command; [intros ? ? ?|intros ? ?]
    | apply wps_check; intros ?
    | apply wps_of_some; [intros ? ?|intros ?]
    | apply wps_of_v3; intros ? ?
    | apply wps_raise
    | apply wps_ret
    | match goal with |- wps (match ?v with _ => _ end) _ _ _ => destruct v eqn:? end ].

(** ** What the methods do to the session *)

Section SessionFacts.
Context {L : Type} `{C : CommandLink L}.
Abbreviation method := (session_method L).

(** [info] replaces the identity by one that agrees on the six stable fields. *)
Definition keeps_identity (s : V3Session) (value : V3Info) : Prop :=
  match V3Session.identity s with None => True | Some i => same_identity value i = true end.
Definition refreshed (s s' : V3Session) : Prop :=
  s' = s \/ exists value, s' = set_identity value s /\ keeps_identity s value.

(** Settings the device advertises, running on the clocks it advertises for them. *)
Definition advertised (c : V3Capabilities) (a : V3AppliedSettings) : Prop :=
  require_supported c (V3AppliedSettings.settings a) = Ok tt /\
  head (filter (fun record => V3Clocks.cpu_profile record = V3Settings.cpu_profile (V3AppliedSettings.settings a))
          (V3Capabilities.cpu_profiles c)) = Some (V3AppliedSettings.clocks a).

(** The link answers GET_CAPABILITIES with this table. *)
Definition sends_table (c : V3Capabilities) : Prop :=
  exists l payload timeout l' r, request l CommandKind.GET_CAPABILITIES payload timeout = (l', Ok r) /\
    ok r = true /\ V3Response.value r = Some (CapabilitiesValue c).

(** What [_validate_applied] establishes. *)
Definition validated (s : V3Session) (a : V3AppliedSettings) : Prop :=
  (exists c, V3Session.capabilities s = Some c /\ advertised c a) /\
  V3Info.clocks <$> V3Session.identity s = Some (V3AppliedSettings.clocks a).

Lemma session_info_wp s :
  wps session_info (fun value s' => s' = set_identity value s /\ keeps_identity s value)
    (fun e s' => e <> OutOfFuel /\ s' = s) s.
Proof.
  unfold session_info, keeps_identity. wps_step. wps_step; [|done].
  wps_step; [|by wps_step]. destruct v; try (by wps_step).
  wps_step. wps_step. wps_step. wps_step; [|done]. wps_step. wps_step. wps_step. split; [done|]. by destruct (V3Session.identity s).
Qed.

Lemma get_capabilities_wp s :
  wps get_capabilities (fun c s' => sends_table c /\ s' = set_capabilities c s) (fun e s' => e <> OutOfFuel /\ s' = s) s.
Proof.
  unfold get_capabilities. wps_step. apply wps_answer; [intros r l l' Hr Hok Hk|by intros e He].
  destruct (V3Response.value r) as [[| c | | |]|] eqn:Hv; try (by wps_step). do 3 wps_step. split; [|done].
  by exists l, [], (default (V3Session.timeout s) None), l', r.
Qed.

Lemma refreshed_capabilities s s' : refreshed s s' -> V3Session.capabilities s' = V3Session.capabilities s.
Proof. intros [->|(v & -> & _)]; [done|by destruct s]. Qed.

Lemma _validate_applied_wp value refresh s :
  wps (_validate_applied value refresh) (fun _ s' => refreshed s s' /\ validated s' value)
    (fun e s' => e <> OutOfFuel /\ refreshed s s') s.
Proof.
  assert (Hr : refreshed s s) by by left.
  unfold _validate_applied. do 2 wps_step. wps_step. wps_step; [|done].
  wps_step. wps_step; [|done]. destruct a0 as []. wps_step. wps_step; [|done]. wps_step. wps_step; [|done].
  assert (Hadv : advertised a value) by (split; [exact H0|]; apply bool_decide_eq_true_1 in H2; by rewrite H2).
  wps_step. apply (wps_consequence _ (fun info s' => refreshed s s' /\ info = V3Session.identity s')
                    (fun info s' => _) (fun e s' => e <> OutOfFuel /\ refreshed s s')); [| |done].
  - destruct refresh; [|do 3 wps_step; done]. wps_step.
    eapply wps_consequence; [apply session_info_wp| |].
    + intros v s' [-> Hk]. wps_step. split; [right; eauto|by destruct s].
    + intros e s' [He ->]. done.
  - intros info s' [Hs' ->]. wps_step; [|done]. split; [done|]. split; [|by eapply bool_decide_eq_true_1].
    exists a. by rewrite (refreshed_capabilities _ _ Hs').
Qed.

Lemma get_settings_wp s :
  wps get_settings
    (fun value s' => exists s1, refreshed s s1 /\ validated s1 value /\ s' = set_applied value s1 /\
       (V3Session.state s = DeviceState.STOPPED \/ V3Session.applied s = Some value))
    (fun e s' => e <> OutOfFuel /\ refreshed s s') s.
Proof.
  assert (Hr : refreshed s s) by by left.
  unfold get_settings. wps_step. wps_step; [|done]. wps_step; [|by wps_step].
  destruct v; try (by wps_step). do 3 wps_step. eapply wps_consequence; [apply _validate_applied_wp| |done].
  intros _ s1 [Hs1 Hv]. do 3 wps_step. wps_step; [|done]. do 3 wps_step. exists s1. repeat split; [done|apply Hv..|].
  assert (V3Session.state s1 = V3Session.state s /\ V3Session.applied s1 = V3Session.applied s) as [<- <-].
  { destruct Hs1 as [->|(i & -> & _)]; [done|by destruct s]. }
  apply orb_true_iff in H1 as [H1|H1]; apply bool_decide_eq_true_1 in H1; auto.
Qed.

Lemma configure_wp settings s :
  wps (configure settings)
    (fun value s' => V3AppliedSettings.settings value = settings /\
       exists s1 run, refreshed s s1 /\ validated s1 value /\ s' = set_session_run run (set_applied value s1))
    (fun e s' => e <> OutOfFuel /\ refreshed s s') s.
Proof.
  assert (Hr : refreshed s s) by by left.
  unfold configure. do 2 wps_step. wps_step. wps_step; [|done]. wps_step. wps_step; [|done].
  wps_step. wps_step; [|done]. wps_step. wps_step; [|done]. wps_step; [|by wps_step].
  destruct v; try (by wps_step). wps_step. wps_step; [|done]. wps_step. wps_step; [|done].
  wps_step. wps_step; [|done]. wps_step. eapply wps_consequence; [apply _validate_applied_wp| |done].
  intros _ s1 [Hs1 Hv]. do 3 wps_step.
  split; [by eapply bool_decide_eq_true_1|]. by exists s1, (V3Response.run_id r).
Qed.

(** The session after a START the device accepted. *)
Definition running (run : Z) (value : V3AppliedSettings) (s : V3Session) : V3Session :=
  set_last_status None (set_session_run run (set_device_state DeviceState.RUNNING (set_applied value s))).

Lemma session_start_wp s :
  wps session_start
    (fun run s' => run <> 0 /\ exists s1 value, refreshed s s1 /\ validated s1 value /\
       V3Session.applied s = Some value /\ s' = running run value s1)
    (fun e s' => e <> OutOfFuel /\ exists s1, refreshed s s1 /\
       (s' = s1 \/ exists value, validated s1 value /\
          (V3Session.state s = DeviceState.STOPPED \/ V3Session.applied s = Some value) /\
          (s' = set_applied value s1 \/
           V3Session.applied s = Some value /\ exists run, s' = running run value s1))) s.
Proof.
  unfold session_start. do 3 wps_step. eapply wps_consequence; [apply get_settings_wp| |].
  2: { intros e s' [He Hs']. split; [done|]. exists s'. by split; [|left]. }
  intros value s' (s1 & Hs1 & Hv & -> & Hst).
  assert (Hnot : forall e, e <> OutOfFuel -> e <> OutOfFuel /\ exists s2, refreshed s s2 /\
       (set_applied value s1 = s2 \/ exists v, validated s2 v /\
          (V3Session.state s = DeviceState.STOPPED \/ V3Session.applied s = Some v) /\
          (set_applied value s1 = set_applied v s2 \/
           V3Session.applied s = Some v /\ exists run, set_applied value s1 = running run v s2))).
  { intros e He. split; [done|]. exists s1. split; [done|]. right. exists value. auto. }
  wps_step. wps_step; [|by apply Hnot]. apply bool_decide_eq_true_1 in H. symmetry in H.
  wps_step. wps_step; [|by apply Hnot]. do 3 wps_step. wps_step.
  - wps_step. apply andb_true_iff in H2 as [Hrun _]. split; [lia|]. exists s1, value. by split_and!.
  - split; [done|]. exists s1. split; [done|]. right. exists value. split; [done|]. split; [by right|].
    right. split; [done|]. by exists (V3Response.run_id r).
Qed.

Lemma session_status_wp timeout s :
  wps (session_status timeout)
    (fun value s' => s' = set_last_status (Some value) (set_session_run (V3Stop.run_id (V3Status.stop value))
                            (set_device_state (V3Stop.state (V3Status.stop value)) s)))
    (fun e s' => e <> OutOfFuel /\ s' = s) s.
Proof.
  unfold session_status. wps_step. wps_step; [|done]. wps_step; [|by wps_step].
  by destruct v; try wps_step.
Qed.

(** Only what STATUS and STOP report has changed. *)
Definition polled (s s' : V3Session) : Prop :=
  exists state run last, s' = set_last_status last (set_session_run run (set_device_state state s)).

Lemma polled_trans s1 s2 s3 : polled s1 s2 -> polled s2 s3 -> polled s1 s3.
Proof. intros (st & r & l & ->) (st' & r' & l' & ->). exists st', r', l'. by destruct s1. Qed.

Lemma polled_refl s : polled s s.
Proof. destruct s. by eexists _, _, _. Qed.

(** The clock passes the deadline within [fuel] passes of the loop. *)
Definition enough (fuel : nat) (now : nat -> Z) (deadline : Z) (i : nat) : Prop :=
  exists n, (n < fuel)%nat /\ deadline <= now (i + 2 * n)%nat.

Lemma drain_loop_wp now deadline : forall fuel i s,
  wps (drain_loop fuel now deadline i)
    (fun _ s' => V3Session.state s' <> DeviceState.DRAINING /\ polled s s')
    (fun e s' => (enough fuel now deadline i -> e <> OutOfFuel) /\ polled s s') s.
Proof.
  induction fuel as [|fuel IH]; intros i s; pose proof (polled_refl s) as Hr; cbn [drain_loop]; do 2 wps_step;
    (case_bool_decide as Hst; cbn [negb]; [|wps_step; by split]).
  { wps_step. split; [|done]. intros (n & Hn & _). lia. }
  wps_step. wps_step; [|by split].
  wps_step. eapply wps_consequence; [apply session_status_wp| |].
  2: { intros e s' [He ->]. by split. }
  intros value s1 Hs1. assert (Hp : polled s s1) by (rewrite Hs1; by eexists _, _, _).
  eapply wps_consequence; [apply IH| |].
  - intros _ s' [Hd' Hs']. split; [done|]. by eapply polled_trans.
  - intros e s' [He Hs']. split; [|by eapply polled_trans]. intros (n & Hn & Hd). apply He.
    destruct n as [|n]; [rewrite Nat.add_0_r in Hd; lia|].
    exists n. split; [lia|]. by replace (S (S i) + 2 * n)%nat with (i + 2 * S n)%nat by lia.
Qed.

Lemma session_stop_wp fuel now s :
  wps (session_stop fuel now)
    (fun state s' => state = DeviceState.STOPPED /\ V3Session.state s' = DeviceState.STOPPED /\ polled s s')
    (fun e s' => (enough fuel now (now 0%nat + V3Session.timeout s) 1 -> e <> OutOfFuel) /\ polled s s') s.
Proof.
  pose proof (polled_refl s) as Hr. unfold session_stop. do 2 wps_step. wps_step. wps_step; [|done].
  wps_step; [|by wps_step]. destruct v; try (by wps_step). do 2 wps_step.
  assert (Hp : polled s (set_session_run (V3Stop.run_id v) (set_device_state (V3Stop.state v) s))).
  { by exists (V3Stop.state v), (V3Stop.run_id v), (V3Session.last_status s); destruct s. }
  wps_step. eapply wps_consequence; [apply drain_loop_wp| |].
  2: { intros e s' [He Hs']. split; [done|]. by eapply polled_trans. }
  intros _ s' [_ Hs']. do 3 wps_step. wps_step; [|split; [done|by eapply polled_trans]].
  apply bool_decide_eq_true_1 in H1. wps_step. split_and!; [done|done|by eapply polled_trans].
Qed.

(** ** Correctness of the control session *)



(** C36. STOP ends: when the clock passes the deadline, [stop] returns or raises within the
    fuel that covers the readings until then, whatever the device answers.  It returns only
    with the session STOPPED, and either way it touches nothing but the state, the run and
    the last status. *)
Theorem stop_terminates fuel now s
    (Hclock : enough fuel now (now 0%nat + V3Session.timeout s) 1) :
  wps (session_stop fuel now)
    (fun state s' => state = DeviceState.STOPPED /\ V3Session.state s' = DeviceState.STOPPED /\ polled s s')
    (fun e s' => e <> OutOfFuel /\ polled s s') s.
Proof. eapply wps_consequence; [apply session_stop_wp|done|]. intros e s' [He Hs']. auto. Qed.

(** ** The session over any sequence of calls *)

Inductive session_call :=
| CallInfo
| CallGetCapabilities
| CallGetSettings
| CallConfigure (settings : V3Settings)
| CallStart
| CallStatus (timeout : option Z)
| CallStop (fuel : nat) (now : nat -> Z).

(** One call, whose result or error the caller handles. *)
Definition run_call (c : session_call) (w : V3Session * L) : V3Session * L :=
  match c with
  | CallInfo => (session_info w).1
  | CallGetCapabilities => (get_capabilities w).1
  | CallGetSettings => (get_settings w).1
  | CallConfigure settings => (configure settings w).1
  | CallStart => (session_start w).1
  | CallStatus timeout => (session_status timeout w).1
  | CallStop fuel now => (session_stop fuel now w).1
  end.

(** The capability table the call returns, if it returns one. *)
Definition table_returned (c : session_call) (w : V3Session * L) : list V3Capabilities :=
  match c with
  | CallGetCapabilities => match (get_capabilities w).2 with Ok c => [c] | Err _ => [] end
  | _ => []
  end.

(** A sequence of calls, with the tables returned so far, the latest last. *)
Definition run_calls (calls : list session_call) (wt : (V3Session * L) * list V3Capabilities) :
    (V3Session * L) * list V3Capabilities :=
  foldl (fun wt call => (run_call call wt.1, wt.2 ++ table_returned call wt.1)) wt calls.

(** The tables [told] are answers of the device and the session holds the last one; one of
    them advertises the applied settings; the identity is that of [i]. *)
Record session_inv (i : V3Info) (told : list V3Capabilities) (s : V3Session) : Prop := {
  si_told : Forall sends_table told;
  si_capabilities : V3Session.capabilities s = last told;
  si_applied a : V3Session.applied s = Some a -> exists c, c ∈ told /\ advertised c a;
  si_identity : exists j, V3Session.identity s = Some j /\ same_identity j i = true
}.

Lemma same_identity_trans a b c : same_identity a b = true -> same_identity b c = true -> same_identity a c = true.
Proof.
  unfold same_identity. rewrite !andb_true_iff, !bool_decide_eq_true, !eqb_true_iff.
  intros H H'. destruct_and!. split_and!; congruence.
Qed.

Lemma refreshed_inv i told s s' : session_inv i told s -> refreshed s s' -> session_inv i told s'.
Proof.
  intros [Ht Hc Ha (j & Hj & Hij)] [->|(v & -> & Hk)]; [by split; [..|exists j]|].
  unfold keeps_identity in Hk. rewrite Hj in Hk. destruct s; split; [done..|exists v].
  split; [done|]. by eapply same_identity_trans.
Qed.

Lemma applied_inv i told s a : session_inv i told s -> validated s a -> session_inv i told (set_applied a s).
Proof.
  intros [Ht Hc Ha Hi] [(c & Hs & Hadv) _]. destruct s; cbn in *. split; [done|done| |done].
  cbn. intros a' [= <-]. exists c. split; [|done]. apply last_Some_elem_of. congruence.
Qed.

Lemma polled_inv i told s s' : session_inv i told s -> polled s s' -> session_inv i told s'.
Proof. intros [] (st & r & l & ->). destruct s. by split. Qed.

(** A new table leaves the old ones told. *)
Lemma capabilities_inv i told s c :
  session_inv i told s -> sends_table c -> session_inv i (told ++ [c]) (set_capabilities c s).
Proof.
  intros [Ht Hc Ha Hi] Hk. destruct s. split; [by apply Forall_app; split; [|constructor]|by rewrite last_snoc| |done].
  cbn. intros a Hs. destruct (Ha a Hs) as (c' & Hin & Hadv). exists c'. split; [|done]. apply elem_of_app. by left.
Qed.

Lemma wps_run {A} (m : method A) (P : V3Session -> Prop) s l :
  wps m (fun _ => P) (fun _ => P) s -> P ((m (s, l)).1.1).
Proof. intros H. specialize (H l). by destruct (m (s, l)) as [? [?|?]]. Qed.

Lemma get_capabilities_inv i told w :
  session_inv i told w.1 -> session_inv i (told ++ table_returned CallGetCapabilities w) (run_call CallGetCapabilities w).1.
Proof.
  destruct w as [s l]. intros H. cbn [run_call table_returned]. pose proof (get_capabilities_wp s l) as Hwp.
  destruct (get_capabilities (s, l)) as [w [c|e]]; cbn [fst snd].
  - destruct Hwp as [Hk ->]. by apply capabilities_inv.
  - destruct Hwp as [_ ->]. by rewrite app_nil_r.
Qed.

(** Every call keeps the invariant, whether it returns or raises. *)
Lemma run_call_inv i told call w :
  session_inv i told w.1 -> session_inv i (told ++ table_returned call w) (run_call call w).1.
Proof.
  intros H. assert (Hc : call = CallGetCapabilities \/ call <> CallGetCapabilities /\ table_returned call w = [])
    by (destruct call; (by left) || by right).
  destruct Hc as [->|[Hn Hnone]]; [by apply get_capabilities_inv|]. rewrite Hnone, app_nil_r. destruct w as [s l]. cbn [fst] in H.
  pose proof (refreshed_inv i told s) as Hr. pose proof (polled_inv i told) as Hp.
  destruct call; try done; cbn [run_call]; apply wps_run; eapply wps_consequence.
  - apply session_info_wp.
  - intros v s' [-> Hk]. apply Hr; [done|right; eauto].
  - by intros e s' [_ ->].
  - apply get_settings_wp.
  - intros v s' (s1 & Hs1 & Hv & -> & _). apply applied_inv; auto.
  - intros e s' [_ Hs']. auto.
  - apply configure_wp.
  - intros v s' (_ & s1 & run & Hs1 & Hv & ->).
    assert (Hi : session_inv i told (set_applied v s1)) by (apply applied_inv; auto). destruct Hi, s1. by split.
  - intros e s' [_ Hs']. auto.
  - apply session_start_wp.
  - intros run s' (_ & s1 & v & Hs1 & Hv & _ & ->). eapply Hp; [apply (applied_inv i told s1 v); auto|by eexists _, _, _].
  - intros e s' (_ & s1 & Hs1 & [->|(v & Hv & _ & [->|(_ & run & ->)])]); [by auto|apply applied_inv; auto|].
    eapply Hp; [apply (applied_inv i told s1 v); auto|by eexists _, _, _].
  - apply session_status_wp.
  - intros v s' ->. eapply Hp; [done|by eexists _, _, _].
  - by intros e s' [_ ->].
  - apply session_stop_wp.
  - intros st s' (_ & _ & Hs'). eauto.
  - intros e s' (_ & Hs'). eauto.
Qed.

Lemma session_calls_inv i calls : forall wt : (V3Session * L) * list V3Capabilities,
  session_inv i wt.2 wt.1.1 -> session_inv i (run_calls calls wt).2 (run_calls calls wt).1.1.
Proof.
  induction calls as [|call calls IH]; intros [w told] H; [exact H|]. cbn [fst snd] in H. apply IH. by apply run_call_inv.
Qed.
End SessionFacts.

(** The session a client opens: the identity its negotiation returned, then the
    capabilities. *)
Definition open_session {L} `{CommandLink L} (timeout : Z) (i : V3Info) (l : L) :
    (V3Session * L) * result session_error V3Capabilities :=
  get_capabilities (set_identity i (new_session timeout), l).

(** C26. From a session that read its capabilities on, whatever is called in whatever order,
    GET_CAPABILITIES again included, and whatever the device answers: the table the session
    holds is the last one that [get_capabilities] returned, which the device sent; the
    applied settings it holds are advertised, with the clocks for their CPU profile, by a
    table that was returned (by the one it holds, as long as the device sends one table);
    and the identity it holds agrees with the negotiated one on board, MCU, simulation flag,
    serial, firmware and build. *)
Theorem session_invariant {L} `{CommandLink L} timeout i l w c calls
    (Hopen : open_session timeout i l = (w, Ok c)) :
  let '((s, _), told) := run_calls calls (w, [c]) in
  session_inv i told s /\
  ((forall c', sends_table c' -> c' = c) -> forall a, V3Session.applied s = Some a ->
     V3Session.capabilities s = Some c /\ advertised c a).
Proof.
  assert (Hw : session_inv i [c] w.1).
  { revert Hopen. unfold open_session. set (s0 := set_identity i (new_session timeout)). pose proof (get_capabilities_wp s0 l) as Hwp.
    intros Hopen. rewrite Hopen in Hwp. destruct Hwp as [Hk ->]. apply (capabilities_inv i [] s0); [|done]. split; [done|done|done|].
    exists i. split; [done|]. unfold same_identity. by rewrite !bool_decide_eq_true_2, eqb_reflx. }
  pose proof (session_calls_inv i calls (w, [c]) Hw) as Hi. destruct (run_calls calls (w, [c])) as [[s l'] told]. split; [exact Hi|].
  cbn [fst snd] in Hi. intros Hone a Ha. destruct (si_applied _ _ _ Hi a Ha) as (c' & Hin & Hadv).
  pose proof (si_told _ _ _ Hi) as Ht. rewrite Forall_forall in Ht. rewrite (Hone c' (Ht c' Hin)) in Hadv. split; [|done].
  rewrite (si_capabilities _ _ _ Hi). destruct (last told) as [c2|] eqn:Hl.
  - f_equal. apply Hone, Ht. by apply last_Some_elem_of.
  - apply last_None in Hl. subst told. by apply elem_of_nil in Hin.
Qed.

(** ** Examples *)

(** A link that gives a fixed answer to each command, or none. *)
Definition canned (answers : CommandKind -> option V3ResponseValue) : CommandLink unit := fun _ kind _ _ =>
  (tt, match answers kind with
       | Some v => Ok (V3Response.mk (COMMAND_RESPONSE_KINDS kind) 1 0 ResponseStatus.OK ErrorCode.OK (Some v) None)
       | None => Err (ReaderRaised (RequestTimeoutError kind 1))
       end).

(** A device that never stops draining. *)
Definition draining (kind : CommandKind) : option V3ResponseValue :=
  let stop := V3Stop.mk DeviceState.DRAINING 1 1 in
  match kind with
  | CommandKind.STOP => Some (StopValue stop)
  | CommandKind.GET_STATUS => Some (StatusValue (V3Status.mk stop [] []))
  | _ => None
  end.

Lemma stop_terminates_witness :
  let L := canned draining in
  wps (session_stop 6 (fun i => 100 * Z.of_nat i))
    (fun state s' => state = DeviceState.STOPPED /\ V3Session.state s' = DeviceState.STOPPED /\
       polled (new_session 1000) s')
    (fun e s' => e <> OutOfFuel /\ polled (new_session 1000) s') (new_session 1000).
Proof. intros L. apply (stop_terminates (C := L) 6 _ (new_session 1000)). exists 5%nat. split; [lia|]. vm_compute. discriminate. Defined.

(** A device that answers the queries with [c], [i] and [a]. *)
Definition answering (c : V3Capabilities) (i : V3Info) (a : V3AppliedSettings) (kind : CommandKind) :
    option V3ResponseValue :=
  match kind with
  | CommandKind.INFO => Some (InfoValue i)
  | CommandKind.GET_CAPABILITIES => Some (CapabilitiesValue c)
  | CommandKind.CONFIGURE | CommandKind.START | CommandKind.GET_SETTINGS => Some (AppliedValue a)
  | _ => None
  end.

(** The table is read twice. *)
Lemma session_invariant_witness :
  exists c clocks,
    capabilities_canonical = Ok c /\ head (V3Capabilities.cpu_profiles c) = Some clocks /\
    let defaults := V3Capabilities.defaults c in
    let i := V3Info.mk BoardId.TEENSY_40 McuId.IMXRT1062 true [83] [49] [50] clocks PROTOCOL_VERSION 12 in
    let L := canned (answering c i (V3AppliedSettings.mk defaults clocks)) in
    let '((s, _), told) := run_calls [CallGetSettings; CallGetCapabilities; CallConfigure defaults]
                             ((set_capabilities c (set_identity i (new_session 1000)), tt), [c]) in
    session_inv i told s /\ told = [c; c] /\
    V3Session.applied s = Some (V3AppliedSettings.mk defaults clocks).
Proof.
  destruct capabilities_canonical as [c|] eqn:Hc; [|by vm_compute in Hc].
  destruct (head (V3Capabilities.cpu_profiles c)) as [clocks|] eqn:Hh; [|vm_compute in Hc; by apply Ok_inj in Hc as <-].
  exists c, clocks. split; [done|]. split; [done|]. intros defaults i L.
  pose proof (session_invariant (H := L) 1000 i tt (set_capabilities c (set_identity i (new_session 1000)), tt) c
    [CallGetSettings; CallGetCapabilities; CallConfigure defaults] eq_refl) as Hinv.
  destruct (run_calls _ _) as [[s l] told] eqn:Hrun. split; [apply Hinv|]. clear Hinv.
  subst L i defaults. vm_compute in Hc. apply Ok_inj in Hc. subst c. vm_compute in Hh. apply Some_inj' in Hh. subst clocks.
  vm_compute in Hrun. apply pair_equal_spec in Hrun as [Hs <-]. apply pair_equal_spec in Hs as [<- _]. split; vm_compute; reflexivity.
Defined.
