(* ===== verification/ControlPlane.v ===== *)
(** * The control plane: session, reader and simulated device together.

    [Line] puts the host's reader and parser opposite the simulated device, with the
    transport passing bytes unchanged ([MemoryTransport] shows that it does), and runs
    one request through them: the caller registers it and writes its frame, the device
    answers, the reader thread parses and dispatches the reply, the caller collects the
    outcome.  It is an instance of the [CommandLink] of [Session], so the theorems about
    the session hold over it; the theorems here add that over a working device the
    requests succeed and the session, the reader and the device agree. *)

From stdpp Require Import gmap.
From S2P Require Import Prelude Effects PyStruct Checksum Incremental V3Constants V3Header V3Samples ModelsV3 V3Frames Synthetic SimulatorV3 DeviceV3 Profiles Losses Blocks Continuity StreamQueues Reader Session.

Module Line.
Record Line := mk { reader : BackgroundReader; parser : V3FrameParser; device : SimulatedV3Device }.
End Line.
Abbreviation Line := Line.Line.

(** One pass of [_reader_loop] over a chunk that was read. *)
Definition read_chunk (r : BackgroundReader) (p : V3FrameParser) (chunk : bytes) : BackgroundReader * V3FrameParser :=
  match feed p chunk with
  | Err _ => (_terminate r (ReaderProtocolError "incremental parser failed") true false, p)
  | Ok (p, frames) => (process_frames r frames, p)
  end.

Fixpoint read_chunks (r : BackgroundReader) (p : V3FrameParser) (chunks : list bytes) : BackgroundReader * V3FrameParser :=
  match chunks with
  | [] => (r, p)
  | chunk :: chunks => let '(r, p) := read_chunk r p chunk in read_chunks r p chunks
  end.

(** The end of [request], when the wait for handle [h] is over. *)
Definition finish_request (r : BackgroundReader) (h : nat) (kind : CommandKind) (id : Z) :
    BackgroundReader * result request_error V3Response :=
  let completed r := match Requests.store (BackgroundReader.requests r) !! h with
                     | Some p => PendingRequest.completed p
                     | None => false
                     end in
  let r := if completed r then r
           else on_requests (fun rs => _complete_with_error rs h (RequestTimeoutError kind id) true) r in
  match Requests.store (BackgroundReader.requests r) !! h ≫= request_outcome with
  | Some (Ok response) => (r, Ok response)
  | Some (Err e) => (r, Err (ReaderRaised e))
  | None =>
      let e := ReaderProtocolError "request completed without a response or error" in
      (_terminate r e true false, Err (ReaderRaised e))
  end.

(** [request]: the device answers within the caller's wait, or fails and the link is
    gone. *)
Definition line_request (l : Line) (kind : CommandKind) (payload : bytes) (timeout : Z) :
    Line * result request_error V3Response :=
  let '(Line.mk r p d) := l in
  match begin_request r (int_of kind) payload timeout false with
  | (r, Err e) => (Line.mk r p d, Err e)
  | (r, Ok (h, wire)) =>
      let id := match Requests.store (BackgroundReader.requests r) !! h with
                | Some request => PendingRequest.request_id request
                | None => 0
                end in
      match device_receive d wire with
      | Err _ =>
          let r := _terminate r (DeviceDisconnectedError "transport failed while writing") false true in
          let '(r, outcome) := finish_request r h kind id in (Line.mk r p d, outcome)
      | Ok (d, replies) =>
          let '(r, p) := read_chunks r p replies in
          let '(r, outcome) := finish_request r h kind id in (Line.mk r p d, outcome)
      end
  end.

#[export] Instance line_link : CommandLink Line := line_request.

(** ** Parsers between frames *)

(** A parser that retains nothing. *)
Definition at_rest {H F : Type} `{FrameCodec H F} (p : Parser H) : Prop :=
  parser_inv (FrameT:=F) p /\ unread p = [].

Lemma feed_one {H F : Type} `{FrameCodecLaws H F} (p : Parser H) raw (f : F) :
  at_rest (F:=F) p -> wf_bytes raw -> complete_frame raw f -> exists p', feed p raw = Ok (p', [f]) /\ at_rest (F:=F) p'.
Proof.
  intros [Hp Hu] Hw Hf. destruct (feed_simulates p raw Hp Hw) as (p' & es & Hfeed & Hp' & Hs & _).
  destruct (scans_frames [raw] [f]) as (es' & Hs' & Hfr & _); [by constructor; [|constructor]|].
  rewrite Hu in Hs. cbn [app concat] in Hs, Hs'. rewrite app_nil_r in Hs'.
  destruct (scans_det _ _ _ _ _ Hs Hs') as [-> Hr]. rewrite Hfr in Hfeed. by exists p'.
Qed.

(** The device's request parser accepts a command's frame. *)
Lemma command_complete c wire :
  command_to_bytes c = Ok wire -> complete_frame (HeaderT:=_Envelope) wire wire.
Proof.
  intros Hc. destruct (command_request c wire Hc) as (Hw & Hl & _ & (total & checksum & size & Hf & Hsize & Htot & Hck & Hz) & _).
  destruct (command_forward c wire Hc) as (f & Hon & _).
  pose proof (proj2 (decode_v3_frame_iff wire f Hw) Hon) as Hd.
  destruct (frame_complete wire f Hw Hd) as (Hm & _ & _).
  assert (Hs : 0 <= size <= 20) by (rewrite Hsize; case_decide; unfold SETTINGS_PAYLOAD_SIZE; lia).
  split; [exact Hm|]. split; [change (44 <= length wire)%nat; lia|]. exists (_Envelope.mk total).
  assert (Hh : _request_header wire 0 = Ok (_Envelope.mk total)).
  { unfold _request_header, unpack_from. rewrite HEADER_SIZE_calc, (proj2 (Nat.leb_le _ _)), drop_0 by lia.
    unfold request_fields in Hf. rewrite Hf. cbn [of_option mbind result_bind].
    rewrite Hck, !Z.eqb_refl. cbn [negb orb].
    replace (total =? MIN_FRAME_BYTES + size) with true by (symmetry; apply Z.eqb_eq; unfold MIN_FRAME_BYTES; lia).
    replace (MIN_FRAME_BYTES <=? total) with true by (symmetry; apply Z.leb_le; unfold MIN_FRAME_BYTES; lia).
    by replace (total <=? MAX_COMMAND_FRAME_BYTES) with true by (symmetry; apply Z.leb_le; unfold MAX_COMMAND_FRAME_BYTES; lia). }
  assert (Hb : _request_bytes wire 0 (_Envelope.mk total) = Ok wire).
  { unfold _request_bytes. cbv zeta. cbn [_Envelope.total_length]. rewrite <-Hz. unfold zlen. rewrite Nat2Z.id.
    assert (Hsl : slice 0 (0 + length wire) wire = wire) by (unfold slice; rewrite drop_0, take_ge; [done|lia]).
    rewrite Hsl. destruct Hon as (head & _ & _ & Hwp & _ & Hcs & Hwire & _).
    set (body := head ++ V3Frame.payload f) in *.
    assert (Hwb : wire = body ++ to_le 4 (V3Frame.checksum f)) by (unfold body; by rewrite Hwire, <-app_assoc).
    assert (Hbl : (length wire - 4)%nat = length body) by (rewrite Hwb, length_app, length_to_le; lia).
    assert (Hwfb : wf_bytes body) by (rewrite Hwb in Hw; by apply wf_bytes_app in Hw as [? _]).
    rewrite Hbl. replace (take (length body) wire) with body by (rewrite Hwb; by rewrite take_app_exact).
    rewrite compute_v3_checksum_Ok by done. cbn [mbind result_bind].
    rewrite unpack_checksum by lia. cbn [of_option mbind result_bind].
    replace (drop (length body) wire) with (to_le 4 (V3Frame.checksum f)) by (rewrite Hwb; by rewrite drop_app_exact).
    rewrite take_ge by (by rewrite length_to_le). pose proof (zlib_adler32_range body).
    rewrite from_to_le_small by (rewrite Hcs; pow_lit; lia). by rewrite Hcs, Z.eqb_refl. }
  cbn [decode_header decode_frame total_length request_codec]. rewrite Hh. split; [done|].
  cbn [_Envelope.total_length]. split; [rewrite <-Hz; unfold zlen; lia|]. by rewrite Hb.
Qed.

(** ** Commands and request IDs *)

(** The settings a command carries, and their bytes. *)
Definition carries (kind : CommandKind) (settings : option V3Settings) (payload : bytes) : Prop :=
  match settings with
  | Some s => kind = CommandKind.CONFIGURE /\ settings_to_bytes s = Ok payload
  | None => kind <> CommandKind.CONFIGURE /\ payload = []
  end.

Lemma command_encodes kind q settings payload :
  0 < q < 2 ^ 32 -> carries kind settings payload ->
  exists wire, encode_v3_frame (int_of kind) payload 0 0 0 q 0 0 = Ok wire /\
    command_to_bytes (V3Command.mk kind q settings) = Ok wire.
Proof.
  intros Hq Hc.
  assert (Hk : exists k : FrameKind, int_of kind = int_of k) by (destruct kind; [exists FrameKind.INFO_REQUEST
    |exists FrameKind.CONFIGURE_REQUEST|exists FrameKind.START_REQUEST|exists FrameKind.GET_STATUS_REQUEST
    |exists FrameKind.STOP_REQUEST|exists FrameKind.GET_CAPABILITIES_REQUEST|exists FrameKind.GET_SETTINGS_REQUEST]; done).
  destruct Hk as [k Hk]. destruct (command_kind_request _ _ Hk) as (Hnd & Hrk & Hcfg).
  assert (Hp : wf_bytes payload /\ zlen payload = (if decide (k = FrameKind.CONFIGURE_REQUEST) then 20 else 0)).
  { destruct settings as [s|]; destruct Hc as [Hkd Hpl].
    - destruct (settings_bytes_facts s _ Hpl) as (_ & Hw & Hl & _). rewrite decide_True by tauto. split; [done|].
      unfold zlen. by rewrite Hl.
    - rewrite decide_False by tauto. subst payload. split; [constructor|done]. }
  destruct Hp as [Hw Hl]. set (h := new_header k 0 (48 + zlen payload) (zlen payload) 0 0 q 0 0).
  assert (Hwf : header_wf h).
  { assert (Hin : in_width h) by (unfold in_width; cbn; pow_lit; split_and!; lia).
    split; [done|]. split; [done|]. split; [done|]. split; [exact Hin|].
    cbn [h new_header V3FrameHeader.kind]. rewrite Hnd, Hrk. split_and!; try done. cbn. lia. }
  destruct (encode_valid_frame h payload Hw Hwf eq_refl) as (wire & f & He & _).
  { intros c. unfold _validate_payload. cbv zeta. cbn [V3Frame.header V3Frame.payload h new_header V3FrameHeader.kind].
    rewrite Hnd, Hrk. case_decide as Hd; [|done].
    destruct settings as [s|]; [|by destruct Hc as [? _]; tauto]. destruct Hc as [_ Hs]. by rewrite (settings_from_to s _ Hs). }
  exists wire. cbn [h new_header V3FrameHeader.kind V3FrameHeader.flags V3FrameHeader.run_id V3FrameHeader.sequence
    V3FrameHeader.request_id V3FrameHeader.first_sample_ticks V3FrameHeader.item_count] in He. rewrite <-Hk in He.
  split; [done|]. unfold command_to_bytes. cbn [V3Command.kind V3Command.settings V3Command.request_id].
  destruct settings as [s|]; destruct Hc as [Hkd Hpl].
  - rewrite bool_decide_eq_true_2 by (split; [by eexists|done]). cbn [_require require mbind result_bind]. by rewrite Hpl.
  - rewrite bool_decide_eq_true_2 by (split; [done|by intros [? ?]]). cbn [_require require mbind result_bind]. by subst.
Qed.

(** The device's window holds the IDs just before [next], in cyclic order. *)
Definition window (next : Z) (ids : list Z) : Prop :=
  forall i q, ids !! i = Some q -> 0 < q < 2 ^ 32 /\ next = nth_id q (length ids - i).

Lemma window_fresh next ids : (length ids <= 16)%nat -> window next ids -> next ∉ ids.
Proof.
  intros Hl Hw Hin. apply list_elem_of_lookup in Hin as [i Hi]. destruct (Hw i next Hi) as [Hr Hn].
  apply lookup_lt_Some in Hi. rewrite <-(nth_id_0 next Hr) in Hn at 1.
  apply nth_id_inj in Hn; pow_lit; lia.
Qed.

Lemma nth_id_succ q n : 0 < q < 2 ^ 32 -> next_id (nth_id q n) = nth_id q (S n).
Proof.
  intros Hq. rewrite next_id_nth by apply nth_id_range. unfold nth_id. rewrite Z.add_simpl_r, Zplus_mod_idemp_l.
  do 2 f_equal. lia.
Qed.

Lemma window_append next ids : 0 < next < 2 ^ 32 -> window next ids -> window (next_id next) (append_recent next ids).
Proof.
  intros Hn Hw. unfold append_recent. set (l := ids ++ [next]).
  assert (Hl : window (next_id next) l).
  { intros i q Hi. unfold l in *. rewrite length_app. cbn [length].
    apply lookup_app_Some in Hi as [Hi|[Hlen Hi]].
    - pose proof (lookup_lt_Some _ _ _ Hi). destruct (Hw i q Hi) as [Hq Hnext]. split; [done|].
      rewrite Hnext, nth_id_succ by done. f_equal. lia.
    - apply list_lookup_singleton_Some in Hi as [Hi <-]. split; [done|].
      rewrite next_id_nth by done. f_equal. lia. }
  clearbody l. intros i q Hi. rewrite lookup_drop in Hi. destruct (Hl _ _ Hi) as [Hq Hnext]. split; [done|].
  rewrite Hnext, length_drop. f_equal. lia.
Qed.

(** ** One request *)

(** The reader waits for frames and has no request under way. *)
Record reader_idle (r : BackgroundReader) : Prop := {
  id_inv : reader_inv r;
  id_live : _require_live_locked r = Ok tt;
  id_running : BackgroundReader._stop_event r = false;
  id_version : BackgroundReader._selected_wire_version r = None \/
    BackgroundReader._selected_wire_version r = Some PROTOCOL_VERSION;
  id_pending : Requests._pending (BackgroundReader.requests r) = ∅
}.

(** The link between requests. *)
Record line_inv (l : Line) : Prop := {
  li_reader : reader_idle (Line.reader l);
  li_host : at_rest (F:=V3Frame) (Line.parser l);
  li_device : device_inv (Line.device l);
  li_request : at_rest (F:=bytes) (SimulatedV3Device._request_parser (Line.device l));
  li_room : 68 <= SimulatedV3Device._max_receive_bytes (Line.device l);
  li_window : window (Requests._next_request_id (BackgroundReader.requests (Line.reader l)))
                (SimulatedV3Device._recent_request_ids (Line.device l))
}.

(** The request a caller registers on an idle reader. *)
Definition new_request (kind : CommandKind) (id deadline : Z) : PendingRequest :=
  PendingRequest.mk kind (COMMAND_RESPONSE_KINDS kind) id deadline false None PROTOCOL_VERSION None false.

(** The requests of an idle reader with one registered on top. *)
Definition with_request (p : PendingRequest) (next : Z) (high_water : Z) (rs : Requests) : Requests :=
  let '(Requests.mk m st _ _ mt lt tm _) := rs in
  Requests.mk m (st ++ [p]) {[PendingRequest.request_id p := length st]} next mt lt tm high_water.

Lemma begin_request_idle r kind payload deadline wire :
  reader_idle r -> let rs := BackgroundReader.requests r in let id := Requests._next_request_id rs in
  encode_v3_frame (int_of kind) payload 0 0 0 id 0 0 = Ok wire ->
  exists high_water,
    begin_request r (int_of kind) payload deadline false
    = (set_requests (with_request (new_request kind id deadline) (next_id id) high_water rs) r,
       Ok (length (Requests.store rs), wire)).
Proof.
  intros [Hi Hlive _ _ Hp] rs id He. unfold begin_request.
  assert (Hk : exists k : FrameKind, enum_of (int_of kind) = Some k) by (by destruct kind; eexists).
  destruct Hk as [k ->]. rewrite enum_of_int, Hlive. cbv zeta. fold rs.
  pose proof (ri_limit _ (rd_requests r Hi)) as Hlim. fold rs in Hlim, Hp.
  subst id. destruct rs as [m st p next mt lt tm hw] eqn:Hrs. cbn [Requests._pending Requests._max_pending_requests
    Requests._next_request_id Requests.store] in *. subst p.
  rewrite map_size_empty, (proj2 (Z.leb_gt _ _)) by lia. unfold _allocate_request_id_locked.
  replace (Z.to_nat (m + 1)) with (S (Z.to_nat m)) by lia. cbn [allocate]. rewrite decide_True by done.
  rewrite He. cbn [Requests.store]. eexists. unfold register, with_request, new_request. cbn [PendingRequest.request_id].
  by rewrite insert_empty.
Qed.

(** The settled request. *)
Definition answered (response : V3Response) (p : PendingRequest) : PendingRequest :=
  set_completed (set_response response p).

(** The requests after it settled, with nothing pending. *)
Definition after_request (p : PendingRequest) (next high_water : Z) (rs : Requests) : Requests :=
  let '(Requests.mk m st _ _ mt lt tm _) := rs in
  Requests.mk m (st ++ [p]) ∅ next (mt + 1) lt tm high_water.

(** A reply has its effect on the session, and that effect cannot fail. *)
Definition effect_ok (response : V3Response) : Prop :=
  ok response = true -> V3Response.kind response = FrameKind.START_RESPONSE ->
  V3Response.run_id response <> 0 /\ exists a, V3Response.value response = Some (AppliedValue a).

Lemma apply_response_ok r response version :
  effect_ok response -> exists r', apply_response r response version = (r', None, None).
Proof.
  intros He. unfold apply_response. set (r0 := if _ && _ then _ else r). clearbody r0.
  destruct (ok response && bool_decide (V3Response.kind response = FrameKind.START_RESPONSE)) eqn:Hs.
  - apply andb_true_iff in Hs as [Hok Hk]. apply bool_decide_eq_true in Hk.
    destruct (He Hok Hk) as (Hrun & a & ->). unfold activate_run, _activate_run_locked.
    rewrite (proj2 (Z.eqb_neq _ _)) by done. cbn [negb].
    rewrite bool_decide_eq_true_2 by (apply (bool_decide_unpack _); vm_compute; exact I). by eexists.
  - clear Hs. destruct (ok response && _); by eexists.
Qed.

Lemma update_last st p f : alter f (length st) (st ++ [p]) = st ++ [f p] :> list PendingRequest.
Proof. rewrite alter_app_r_alt by lia. by rewrite Nat.sub_diag. Qed.

(** The effect of a response does not look at the requests. *)
Lemma apply_response_requests rs r response version :
  apply_response (set_requests rs r) response version
  = (let '(r', left_error, raised) := apply_response r response version in (set_requests rs r', left_error, raised)).
Proof.
  unfold apply_response. set (b := ok response && (_ || _)). set (c := ok response && _). set (d := ok response && _).
  assert (Hr0 : (if b then set_wire_version (Some version) (set_requests rs r) else set_requests rs r)
                = set_requests rs (if b then set_wire_version (Some version) r else r)) by (by destruct b, r).
  rewrite Hr0. set (r0 := if b then _ else r). clearbody r0. destruct c.
  - destruct (V3Response.value response) as [[i|cc|a|s|s]|]; try done.
    assert (Ha : activate_run (set_v3_settings (Some (V3AppliedSettings.settings a)) (set_requests rs r0)) (V3Response.run_id response)
      = (let '(r', e) := activate_run (set_v3_settings (Some (V3AppliedSettings.settings a)) r0) (V3Response.run_id response) in
         (set_requests rs r', e))).
    { destruct r0. unfold activate_run. cbn [set_v3_settings set_requests BackgroundReader.queues].
      by destruct (_activate_run_locked _ _ _) as [q' [[]|[message| |e]]]. }
    rewrite Ha. clear Ha. by destruct (activate_run _ _).
  - destruct d; by destruct r0.
Qed.

(** The reply to the one pending request: it is settled with it, and the reader has
    what the reply does to the session. *)
Lemma dispatch_idle r response kind id deadline high_water :
  let rs := BackgroundReader.requests r in
  let p := new_request kind id deadline in
  V3Response.request_id response = id -> V3Response.kind response = COMMAND_RESPONSE_KINDS kind -> effect_ok response ->
  exists r0, apply_response r response PROTOCOL_VERSION = (r0, None, None) /\
    _dispatch_response (set_requests (with_request p (next_id id) high_water rs) r) response PROTOCOL_VERSION
    = (set_requests (after_request (answered response p) (next_id id) high_water rs) r0, None).
Proof.
  intros rs p Hid Hk He. destruct (apply_response_ok r response PROTOCOL_VERSION He) as [r0 Hr0].
  exists r0. split; [done|]. unfold _dispatch_response. destruct rs as [m st pend next mt lt tm hw] eqn:Hrs.
  assert (Hreq : forall x, BackgroundReader.requests (set_requests x r) = x) by (by destruct r).
  assert (Hon : forall f x y, on_requests f (set_requests x y) = set_requests (f x) y) by (intros f x []; done).
  rewrite Hreq. cbn [with_request Requests._pending]. rewrite Hid.
  cbn [PendingRequest.request_id new_request p]. rewrite lookup_singleton_eq. cbv zeta. rewrite Hon, Hreq.
  cbn [set_pending Requests.store Requests._pending]. rewrite lookup_app_r, Nat.sub_diag by lia.
  cbn [list_lookup lookup]. change (rejects_version p response PROTOCOL_VERSION) with false.
  cbn [PendingRequest.protocol_version PendingRequest.expected_kind new_request p]. rewrite Z.eqb_refl, Hk, bool_decide_eq_true_2 by done. cbn [negb orb].
  rewrite delete_singleton_eq, !Hon. cbn [update_request count_matched].
  rewrite apply_response_requests, Hr0, update_last, Hon. cbn [update_request]. by rewrite update_last.
Qed.

(** The life-cycle attributes a reply does not touch. *)
Definition same_flags (r r' : BackgroundReader) : Prop :=
  BackgroundReader._closed r' = BackgroundReader._closed r /\
  BackgroundReader._terminal_error r' = BackgroundReader._terminal_error r /\
  BackgroundReader._started r' = BackgroundReader._started r /\
  BackgroundReader._stop_event r' = BackgroundReader._stop_event r.

Lemma apply_response_flags r response version r' e x :
  apply_response r response version = (r', e, x) -> same_flags r r'.
Proof.
  unfold apply_response. set (r0 := if _ && _ then _ else r).
  assert (H0 : same_flags r r0) by (unfold r0; destruct (_ && _); by destruct r). clearbody r0.
  destruct (ok response && _).
  - destruct (V3Response.value response) as [[i|c|a|s|s]|]; try (intros [= <- _ _]; exact H0).
    unfold activate_run. destruct (_activate_run_locked _ _ _) as [q' [[]|[message| |e']]];
      destruct r0; intros [= <- _ _]; exact H0.
  - destruct (ok response && _); intros [= <- _ _]; [|exact H0]. destruct r0. exact H0.
Qed.

Lemma apply_response_version r response version r' e x :
  apply_response r response version = (r', e, x) ->
  BackgroundReader._selected_wire_version r' = BackgroundReader._selected_wire_version r \/
  BackgroundReader._selected_wire_version r' = Some version.
Proof.
  unfold apply_response. set (r0 := if _ && _ then _ else r).
  assert (H0 : BackgroundReader._selected_wire_version r0 = BackgroundReader._selected_wire_version r \/
    BackgroundReader._selected_wire_version r0 = Some version)
    by (unfold r0; destruct (_ && _); [right; by destruct r|by left]). clearbody r0.
  destruct (ok response && _).
  - destruct (V3Response.value response) as [[i|c|a|s|s]|]; try (intros [= <- _ _]; exact H0).
    unfold activate_run. destruct (_activate_run_locked _ _ _) as [q' [[]|[message| |e']]];
      destruct r0; intros [= <- _ _]; exact H0.
  - destruct (ok response && _); intros [= <- _ _]; [|exact H0]. destruct r0. exact H0.
Qed.

Lemma require_live_flags r r' : same_flags r r' -> _require_live_locked r' = _require_live_locked r.
Proof. intros (H1 & H2 & H3 & _). unfold _require_live_locked. by rewrite H1, H2, H3. Qed.

Lemma command_outcome_effect d c busy d' r :
  V3Response.kind r = COMMAND_RESPONSE_KINDS (V3Command.kind c) -> command_outcome d c busy d' r -> effect_ok r.
Proof.
  intros Hk (_ & [(v & _ & _ & Hv & Hrun & Hvk & _)|(Hst & _)]) Hok Hs.
  - rewrite Hk in Hs. rewrite Hs in Hvk. rewrite Hrun, Hv.
    destruct v as [i|cc|a|s|s]; cbn in Hvk; [discriminate|discriminate| |by destruct Hvk|by destruct Hvk].
    destruct Hvk as [Hvk|[Hvk|[_ Hne]]]; [discriminate Hvk..|]. split; [done|by eexists].
  - unfold ok in Hok. apply bool_decide_eq_true in Hok. congruence.
Qed.

(** The device takes a fresh command in one piece and answers it. *)
Lemma device_answers d c wire next :
  device_inv d -> at_rest (F:=bytes) (SimulatedV3Device._request_parser d) ->
  68 <= SimulatedV3Device._max_receive_bytes d ->
  window next (SimulatedV3Device._recent_request_ids d) -> V3Command.request_id c = next -> command_to_bytes c = Ok wire ->
  exists d' reply r, device_receive d wire = Ok (d', [reply]) /\
    device_inv d' /\ at_rest (F:=bytes) (SimulatedV3Device._request_parser d') /\
    SimulatedV3Device._max_receive_bytes d' = SimulatedV3Device._max_receive_bytes d /\
    SimulatedV3Device._recent_request_ids d' = append_recent next (SimulatedV3Device._recent_request_ids d) /\
    SimulatedV3Device._capabilities d' = SimulatedV3Device._capabilities d /\
    SimulatedV3Device._build_id d' = SimulatedV3Device._build_id d /\
    SimulatedV3Device._pending_data d' = SimulatedV3Device._pending_data d /\
    answers (int_of (V3Command.kind c)) next reply r /\ command_outcome d c false d' r.
Proof.
  intros Hd Hrest Hroom Hwin Hid Hc.
  destruct (command_request c wire Hc) as (Hw & Hl & _ & (total & checksum & size & _ & Hsize & Htot & _ & Hz) & _).
  assert (Hsz : zlen wire <= 68) by (rewrite Hz, Htot, Hsize; case_decide; unfold SETTINGS_PAYLOAD_SIZE; lia).
  destruct (feed_one _ wire wire Hrest Hw (command_complete c wire Hc)) as (p' & Hfeed & Hrest').
  unfold device_receive. rewrite (proj2 (Z.leb_le _ _)) by lia. cbn [require mbind result_bind].
  rewrite Hfeed. cbn [lift mbind result_bind handle_all].
  set (d1 := set_parser p' d).
  assert (Hd1 : device_inv d1).
  { apply set_parser_inv; [apply Hrest'| |done]. destruct Hrest' as [_ ->]. constructor. }
  rewrite (proj2 (Z.leb_gt _ _)) by apply (di_limits d1 Hd1).
  destruct (fresh_command_ok d1 c wire false Hd1 Hc) as (d' & reply & r & Hh & Hd' & Hsf & Ha & Ho).
  { rewrite Hid. apply window_fresh; [apply (di_recent d Hd)|done]. }
  rewrite Hh. cbn [mbind result_bind]. exists d', reply, r. split; [done|].
  destruct Hsf as (E1 & E2 & E3 & E4 & _ & E6 & E7). rewrite Hid in *.
  split_and!; try done. by rewrite E3.
Qed.

Lemma set_requests_flags rs r : same_flags r (set_requests rs r).
Proof. by destruct r. Qed.

Lemma same_flags_trans r1 r2 r3 : same_flags r1 r2 -> same_flags r2 r3 -> same_flags r1 r3.
Proof. intros (? & ? & ? & ?) (? & ? & ? & ?). split_and!; congruence. Qed.

(** The frame of a reply is dispatched, and the reader waits again. *)
Lemma reply_received r kind id deadline high_water reply response :
  let rs := BackgroundReader.requests r in
  let p := new_request kind id deadline in
  let r1 := set_requests (with_request p (next_id id) high_water rs) r in
  reader_idle r -> reader_inv r1 -> answers (int_of kind) id reply response -> effect_ok response ->
  exists f r0, decode_v3_frame reply = Ok f /\
    apply_response (count_frame r) response PROTOCOL_VERSION = (r0, None, None) /\
    process_frames r1 [f] = set_requests (after_request (answered response p) (next_id id) high_water rs) r0 /\
    reader_idle (set_requests (after_request (answered response p) (next_id id) high_water rs) r0).
Proof.
  intros rs p r1 Hidle Hr1 (Hw & _ & (f & Hf & Hr) & Hid & Hk) He.
  rewrite reply_kind_command in Hk. exists f.
  pose proof (proj1 (decode_v3_frame_iff reply f Hw) Hf) as (head & _ & (Hver & _) & _).
  assert (Hdata : _DATA_KINDS (V3FrameHeader.kind (V3Frame.header f)) = false).
  { unfold decode_v3_response in Hr. cbv zeta in Hr. apply require_bind in Hr as [Hkind _].
    by apply response_kind_facts in Hkind as (? & _). }
  destruct (dispatch_idle (count_frame r) response kind id deadline high_water Hid Hk He) as (r0 & Ha & Hd).
  exists r0. split; [done|]. split; [done|]. pose proof (id_version r Hidle) as Hver'.
  assert (Hc : BackgroundReader.requests (count_frame r) = rs) by (unfold rs; by destruct r). rewrite Hc in Hd. fold p in Hd.
  set (r2 := set_requests (after_request (answered response p) (next_id id) high_water rs) r0) in *.
  assert (Hpf : process_frame r1 f = (r2, None)).
  { unfold process_frame. cbv zeta. rewrite Hdata. cbn [andb]. rewrite Hr, Hver. rewrite <-Hd. f_equal.
    unfold r1. by destruct r. }
  assert (Hflags : same_flags r r2).
  { apply apply_response_flags in Ha. eapply same_flags_trans; [|apply set_requests_flags].
    eapply same_flags_trans; [|exact Ha]. by destruct r. }
  split.
  - cbn [process_frames]. destruct (set_requests_flags (with_request p (next_id id) high_water rs) r) as (_ & _ & _ & Hs).
    fold r1 in Hs. by rewrite Hs, (id_running r Hidle), Hpf.
  - split.
    + pose proof (process_frame_sound r1 f Hr1) as [Hi _]. by rewrite Hpf in Hi.
    + by rewrite (require_live_flags _ _ Hflags), (id_live r Hidle).
    + destruct Hflags as (_ & _ & _ & ->). apply Hidle.
    + assert (Hsel : BackgroundReader._selected_wire_version r2 = BackgroundReader._selected_wire_version r0)
        by (unfold r2; by destruct r0). rewrite Hsel.
      assert (Hcnt : BackgroundReader._selected_wire_version (count_frame r) = BackgroundReader._selected_wire_version r)
        by (by destruct r). rewrite <-Hcnt in Hver'.
      destruct (apply_response_version _ _ _ _ _ _ Ha) as [->| ->]; [exact Hver'|by right].
    + unfold r2. destruct r0, rs. done.
Qed.

(** A request over the line: it succeeds with the device's answer, and the line is ready
    for the next one. *)
Lemma line_request_ok l kind settings payload timeout :
  line_inv l -> carries kind settings payload ->
  exists l' r r0 rs id,
    line_request l kind payload timeout = (l', Ok r) /\ line_inv l' /\
    V3Response.kind r = COMMAND_RESPONSE_KINDS kind /\
    command_outcome (Line.device l) (V3Command.mk kind id settings) false (Line.device l') r /\
    SimulatedV3Device._capabilities (Line.device l') = SimulatedV3Device._capabilities (Line.device l) /\
    SimulatedV3Device._build_id (Line.device l') = SimulatedV3Device._build_id (Line.device l) /\
    SimulatedV3Device._pending_data (Line.device l') = SimulatedV3Device._pending_data (Line.device l) /\
    apply_response (count_frame (Line.reader l)) r PROTOCOL_VERSION = (r0, None, None) /\
    Line.reader l' = set_requests rs r0.
Proof.
  destruct l as [r p d]. intros [Hidle Hhost Hd Hrest Hroom Hwin] Hc. cbn [Line.reader Line.parser Line.device] in *.
  set (rs := BackgroundReader.requests r) in *. set (id := Requests._next_request_id rs) in *.
  pose proof (ri_next _ (rd_requests r (id_inv r Hidle))) as Hn. fold rs id in Hn.
  destruct (command_encodes kind id settings payload Hn Hc) as (wire & He & Hwire).
  destruct (begin_request_idle r kind payload timeout wire Hidle He) as [hw Hb]. cbv zeta in Hb. fold rs id in Hb.
  destruct (device_answers d (V3Command.mk kind id settings) wire id Hd Hrest Hroom Hwin eq_refl Hwire)
    as (d' & reply & resp & Hrecv & Hd' & Hrest' & Hmax & Hrecent & Hcaps & Hbuild & Hpend & Ha & Ho).
  cbn [V3Command.kind] in Ha. pose proof Ha as (Hwr & _ & _ & _ & Hk). rewrite reply_kind_command in Hk.
  pose proof (command_outcome_effect _ (V3Command.mk kind id settings) _ _ _ Hk Ho) as Heff.
  pose proof (begin_request_sound r (int_of kind) payload timeout false (id_inv r Hidle)) as [Hr1 _]. rewrite Hb in Hr1. cbn [fst] in Hr1.
  destruct (reply_received r kind id timeout hw reply resp Hidle Hr1 Ha Heff) as (f & r0 & Hf & Happ & Hpf & Hidle').
  fold rs in Hpf, Hidle'. set (q := new_request kind id timeout) in *. set (r2 := set_requests (after_request _ _ _ _) r0) in *.
  destruct (feed_one p reply f Hhost Hwr (frame_complete reply f Hwr Hf)) as (p' & Hfeed & Hhost').
  assert (Hreq : BackgroundReader.requests r2 = after_request (answered resp q) (next_id id) hw rs) by (unfold r2; by destruct r0).
  assert (Hstore : Requests.store (BackgroundReader.requests r2) !! length (Requests.store rs) = Some (answered resp q)).
  { rewrite Hreq. destruct rs. cbn [after_request Requests.store]. by rewrite lookup_app_r, Nat.sub_diag by lia. }
  exists (Line.mk r2 p' d'), resp, r0, (after_request (answered resp q) (next_id id) hw rs), id. split.
  - unfold line_request. rewrite Hb, Hrecv. cbn [read_chunks]. unfold read_chunk. rewrite Hfeed, Hpf.
    unfold finish_request. rewrite Hstore. cbn [answered set_completed set_response q new_request PendingRequest.completed].
    rewrite Hstore. done.
  - split; [|by split_and!]. split; cbn [Line.reader Line.parser Line.device]; [done..| |].
    + by rewrite Hmax.
    + rewrite Hrecent, Hreq. destruct rs. cbn. by apply window_append.
Qed.

(** ** Accepted commands *)

(** What is known once the device accepted a command and its reply came back. *)
Record exchanged (l : Line) (kind : CommandKind) (settings : option V3Settings) (l' : Line) (r : V3Response)
    (v : V3ResponseValue) : Prop := {
  ex_line : line_inv l';
  ex_ok : ok r = true;
  ex_kind : V3Response.kind r = COMMAND_RESPONSE_KINDS kind;
  ex_value : V3Response.value r = Some v;
  ex_run : V3Response.run_id r = SimulatedV3Device._run_id (Line.device l');
  ex_value_kind : value_kind_ok (COMMAND_RESPONSE_KINDS kind) (SimulatedV3Device._run_id (Line.device l')) v;
  ex_reports : reports (Line.device l') v;
  ex_accepted : DeviceV3.accepted (DeviceV3.supported (Line.device l)) kind settings (snapshot (Line.device l)) (snapshot (Line.device l'));
  ex_caps : SimulatedV3Device._capabilities (Line.device l') = SimulatedV3Device._capabilities (Line.device l);
  ex_epoch : kind = CommandKind.START -> SimulatedV3Device._epoch (Line.device l') = _reset_epoch;
  ex_build : SimulatedV3Device._build_id (Line.device l') = SimulatedV3Device._build_id (Line.device l);
  ex_reader : exists r0 rs, apply_response (count_frame (Line.reader l)) r PROTOCOL_VERSION = (r0, None, None) /\
    Line.reader l' = set_requests rs r0
}.

(** The device accepts the command in its present state. *)
Definition permitted (d : SimulatedV3Device) (kind : CommandKind) (settings : option V3Settings) : Prop :=
  kind ∈ [CommandKind.CONFIGURE; CommandKind.START] ->
  refusal (snapshot d) = None /\ forall c, settings = Some c -> c ∈ DeviceV3.supported d.

Lemma command_ok s l kind settings payload timeout :
  line_inv l -> carries kind settings payload -> permitted (Line.device l) kind settings ->
  exists l' r v, command kind payload timeout (s, l) = ((s, l'), Ok r) /\ exchanged l kind settings l' r v.
Proof.
  intros Hl Hc Hp.
  destruct (line_request_ok l kind settings payload (default (V3Session.timeout s) timeout) Hl Hc)
    as (l' & r & r0 & rs & id & Hreq & Hl' & Hk & (_ & Ho) & Hcaps & Hbuild & _ & Ha & Hr').
  cbn [V3Command.kind V3Command.settings] in Ho.
  destruct Ho as [(v & _ & Hst & Hv & Hrun & Hvk & Hrep & Hacc & Hep)|(_ & _ & Href & _)].
  - assert (Hok : ok r = true) by (unfold ok; by apply bool_decide_eq_true_2).
    exists l', r, v. split; [|split; try done; eauto].
    unfold command. cbn [fst snd]. unfold request, line_link. by rewrite Hreq, Hok, bool_decide_eq_true_2.
  - exfalso. inversion Href as [|? ? ? ? Hin Hx|? ? Hx Hno]; subst.
    + by destruct (Hp Hin) as [Hn _]; congruence.
    + destruct Hp as [_ Hsup]; [by left|]. by apply Hno, Hsup.
Qed.

Lemma query_permitted d kind settings :
  kind ∉ [CommandKind.CONFIGURE; CommandKind.START] -> permitted d kind settings.
Proof. by intros ? ?. Qed.

(** The kind of value in each answer. *)
Lemma answer_value kind run v :
  value_kind_ok (COMMAND_RESPONSE_KINDS kind) run v ->
  match kind with
  | CommandKind.INFO => exists i, v = InfoValue i
  | CommandKind.GET_CAPABILITIES => exists c, v = CapabilitiesValue c
  | CommandKind.CONFIGURE | CommandKind.START | CommandKind.GET_SETTINGS => exists a, v = AppliedValue a
  | CommandKind.STOP => exists st, v = StopValue st
  | CommandKind.GET_STATUS => exists st, v = StatusValue st
  end.
Proof.
  destruct kind, v; cbn; intros H; try discriminate; try (by destruct H); try (by destruct H as [H|[H|[H _]]]); by eexists.
Qed.

(** What an accepted command did to the stream side of the reader. *)
Lemma reader_effect l kind settings l' r v :
  exchanged l kind settings l' r v ->
  match kind with
  | CommandKind.START =>
      StreamQueues._active_run_id (BackgroundReader.queues (Line.reader l')) = V3Response.run_id r /\
      StreamQueues._stream_active (BackgroundReader.queues (Line.reader l')) = true /\
      StreamQueues._active_checksum_algorithm (BackgroundReader.queues (Line.reader l')) = Checksum.ADLER32 /\
      StreamQueues._blocks (BackgroundReader.queues (Line.reader l')) = [] /\
      StreamQueues._stream_reports (BackgroundReader.queues (Line.reader l')) = [] /\
      StreamQueues._max_queued_blocks (BackgroundReader.queues (Line.reader l'))
      = StreamQueues._max_queued_blocks (BackgroundReader.queues (Line.reader l)) /\
      exists a, v = AppliedValue a /\ BackgroundReader._active_v3_settings (Line.reader l') = Some (V3AppliedSettings.settings a)
  | CommandKind.STOP => StreamQueues._stream_active (BackgroundReader.queues (Line.reader l')) = false
  | _ => BackgroundReader.queues (Line.reader l') = BackgroundReader.queues (Line.reader l) /\
         BackgroundReader._active_v3_settings (Line.reader l') = BackgroundReader._active_v3_settings (Line.reader l)
  end.
Proof.
  intros [Hl Hok Hk Hv Hrun Hvk _ _ _ _ _ (r0 & rs & Ha & Hr)]. rewrite Hr. clear Hr.
  assert (Hq : BackgroundReader.queues (set_requests rs r0) = BackgroundReader.queues r0 /\
    BackgroundReader._active_v3_settings (set_requests rs r0) = BackgroundReader._active_v3_settings r0) by (by destruct r0).
  destruct Hq as [-> ->]. unfold apply_response in Ha. rewrite Hok, Hk in Ha. destruct (Line.reader l) as [rq q s w st cl ev te f pf dc].
  destruct kind; try (by injection Ha as <-); cbn in Hvk.
  pose proof (answer_value CommandKind.START _ v Hvk) as [a ->]. rewrite Hv in Ha. unfold activate_run, _activate_run_locked in Ha.
  destruct (V3Response.run_id r =? 0); [discriminate|]. destruct (negb _); [discriminate|].
  injection Ha as <-. do 5 (split; [done|]). split; [|by exists a].
  cbn. unfold _record_boundary_blocks_locked. by destruct q as [? ? ? ? ? ? ? []].
Qed.

(** ** A session that agrees with its device *)

(** The capabilities are those a device is built with. *)
Definition own_tables (d : SimulatedV3Device) : Prop :=
  exists canonical, capabilities_canonical = Ok canonical /\ SimulatedV3Device._capabilities d = restrict_cpu canonical.

Lemma restricted_clocks canonical k :
  capabilities_canonical = Ok canonical ->
  clocks_for_profile (V3Settings.cpu_profile (V3Capabilities.defaults canonical)) = Ok k ->
  head (filter (fun record => V3Clocks.cpu_profile record = V3Settings.cpu_profile (V3Capabilities.defaults canonical))
          (V3Capabilities.cpu_profiles (restrict_cpu canonical))) = Some k.
Proof.
  intros H. vm_compute in H. apply Ok_inj in H. subst canonical. intros Hk. vm_compute in Hk. apply Ok_inj in Hk. subst k.
  vm_compute. reflexivity.
Qed.

(** What the device applies, it advertises. *)
Lemma applied_advertised d a :
  device_inv d -> own_tables d -> applied d = Ok (AppliedValue a) -> advertised (SimulatedV3Device._capabilities d) a.
Proof.
  intros Hd (canonical & Hc & Hcaps) Ha. apply applied_value in Ha as [Hs Hk]. unfold advertised. rewrite Hs. split.
  - destruct (di_caps d Hd) as [p Hp]. destruct (capability_settings _ _ _ Hp (di_settings d Hd)) as [b Hb].
    unfold require_supported. rewrite Hp. cbn [mbind result_bind]. rewrite Hb. cbn [mbind result_bind].
    rewrite bool_decide_eq_true_2; [done|]. apply (di_settings d Hd).
  - pose proof (di_one_cpu d Hd _ (di_settings d Hd)) as Hone. rewrite Hone in Hk |- *. rewrite Hcaps in *.
    exact (restricted_clocks canonical _ Hc Hk).
Qed.

Lemma supported_required d s :
  device_inv d -> s ∈ DeviceV3.supported d -> require_supported (SimulatedV3Device._capabilities d) s = Ok tt.
Proof.
  intros Hd Hs. destruct (di_caps d Hd) as [p Hp]. destruct (capability_settings _ _ _ Hp Hs) as [b Hb].
  unfold require_supported. rewrite Hp. cbn [mbind result_bind]. rewrite Hb. cbn [mbind result_bind].
  by rewrite bool_decide_eq_true_2.
Qed.

(** The session knows the device at the other end of the line. *)
Record linked (s : V3Session) (l : Line) : Prop := {
  ln_line : line_inv l;
  ln_tables : own_tables (Line.device l);
  ln_caps : V3Session.capabilities s = Some (SimulatedV3Device._capabilities (Line.device l));
  ln_identity : exists i j, V3Session.identity s = Some i /\ info (Line.device l) = Ok j /\ same_identity j i = true
}.

(** A command that left the device and the stream side of the reader alone. *)
Definition unchanged (l l' : Line) : Prop :=
  snapshot (Line.device l') = snapshot (Line.device l) /\
  BackgroundReader.queues (Line.reader l') = BackgroundReader.queues (Line.reader l) /\
  BackgroundReader._active_v3_settings (Line.reader l') = BackgroundReader._active_v3_settings (Line.reader l).

(** INFO depends on the build and the clocks only, and its identity on the build. *)
Lemma info_identity d d' i j :
  SimulatedV3Device._build_id d' = SimulatedV3Device._build_id d -> info d = Ok i -> info d' = Ok j -> same_identity j i = true.
Proof.
  unfold info. intros Hb Hi Hj. apply bind_Ok_inv in Hi as (c & _ & Hi). apply bind_Ok_inv in Hj as (c' & _ & Hj).
  apply Ok_inj in Hi, Hj. subst i j. unfold same_identity.
  cbn [V3Info.board_id V3Info.mcu_id V3Info.simulated V3Info.hardware_serial V3Info.firmware_version V3Info.build_id].
  by rewrite Hb, !bool_decide_eq_true_2.
Qed.

Lemma info_clocks d i a :
  info d = Ok i -> applied d = Ok (AppliedValue a) -> V3Info.clocks i = V3AppliedSettings.clocks a.
Proof.
  unfold info. intros Hi Ha. apply applied_value in Ha as [_ Hk]. rewrite Hk in Hi. cbn [mbind result_bind] in Hi.
  apply Ok_inj in Hi. by subst i.
Qed.

Lemma same_settings_applied d d' v :
  SimulatedV3Device._settings d' = SimulatedV3Device._settings d -> applied d = Ok v -> applied d' = Ok v.
Proof. unfold applied. by intros ->. Qed.

Lemma snapshot_settings d d' : snapshot d' = snapshot d -> SimulatedV3Device._settings d' = SimulatedV3Device._settings d.
Proof. by intros [=]. Qed.

Lemma unchanged_trans l1 l2 l3 : unchanged l1 l2 -> unchanged l2 l3 -> unchanged l1 l3.
Proof. intros (? & ? & ?) (? & ? & ?). split_and!; congruence. Qed.

Lemma unchanged_applied l l' v : unchanged l l' -> applied (Line.device l) = Ok v -> applied (Line.device l') = Ok v.
Proof. intros [H _]. by apply same_settings_applied, snapshot_settings. Qed.

(** The link survives every accepted command. *)
Lemma linked_step s l kind settings l' r v : linked s l -> exchanged l kind settings l' r v -> linked s l'.
Proof.
  intros [Hl (canonical & Hc & Ht) Hcaps (i & j & Hi & Hj & Hij)] []. split; [done| | |].
  - exists canonical. rewrite ex_caps0. split; [exact Hc|exact Ht].
  - rewrite ex_caps0. exact Hcaps.
  - destruct (di_info _ (li_device l' ex_line0)) as (j' & _ & Hj' & _). exists i, j'. split; [exact Hi|]. split; [exact Hj'|].
    eapply same_identity_trans; [exact (info_identity _ _ _ _ ex_build0 Hj Hj')|exact Hij].
Qed.

Lemma accepted_query supp kind s s' :
  kind <> CommandKind.START -> kind <> CommandKind.STOP -> DeviceV3.accepted supp kind None s s' -> s' = s.
Proof. by inversion 3. Qed.

Definition is_query (kind : CommandKind) : bool :=
  match kind with
  | CommandKind.CONFIGURE | CommandKind.START | CommandKind.STOP => false
  | _ => true
  end.

Lemma query_unchanged l kind l' r v : is_query kind = true -> exchanged l kind None l' r v -> unchanged l l'.
Proof.
  intros Hk H. pose proof (reader_effect _ _ _ _ _ _ H) as He. pose proof (ex_accepted _ _ _ _ _ _ H) as Ha.
  assert (Hs : snapshot (Line.device l') = snapshot (Line.device l)) by (eapply accepted_query; [..|exact Ha]; by destruct kind).
  split; [done|]. by destruct kind.
Qed.

(** ** Methods over the line *)

(** A query, with the answer's value. *)
Lemma query_ok s l kind timeout :
  is_query kind = true ->
  linked s l ->
  exists l' r v, command kind [] timeout (s, l) = ((s, l'), Ok r) /\ V3Response.value r = Some v /\
    value_kind_ok (COMMAND_RESPONSE_KINDS kind) (SimulatedV3Device._run_id (Line.device l')) v /\
    reports (Line.device l') v /\ linked s l' /\ unchanged l l'.
Proof.
  intros Hk Hl.
  destruct (command_ok s l kind None [] timeout (ln_line s l Hl)) as (l' & r & v & Hc & He).
  { split; [by destruct kind|done]. }
  { apply query_permitted. destruct kind; try done; rewrite !elem_of_cons; intros [?|[?|Hn]]; try done; inversion Hn. }
  exists l', r, v. destruct (linked_step _ _ _ _ _ _ _ Hl He). pose proof (query_unchanged _ _ _ _ _ Hk He).
  destruct He. by split_and!.
Qed.

Lemma set_identity_linked s l i :
  linked s l -> info (Line.device l) = Ok i -> keeps_identity s i /\ linked (set_identity i s) l.
Proof.
  intros [Hl Ht Hcaps (i0 & j & Hi & Hj & Hij)] Hinfo. assert (i = j) as -> by congruence.
  split; [unfold keeps_identity; by rewrite Hi|]. split; [exact Hl|exact Ht|by destruct s|].
  exists j, j. destruct s. split; [done|]. split; [done|]. unfold same_identity. by rewrite !bool_decide_eq_true_2, eqb_reflx.
Qed.

Lemma session_info_ok s l :
  linked s l ->
  exists l' i, session_info (s, l) = ((set_identity i s, l'), Ok i) /\ info (Line.device l') = Ok i /\
    keeps_identity s i /\ linked (set_identity i s) l' /\ unchanged l l'.
Proof.
  intros Hl. destruct (query_ok s l CommandKind.INFO None eq_refl Hl)
    as (l' & r & v & Hc & Hv & Hvk & Hrep & Hl' & Hu).
  destruct (answer_value CommandKind.INFO _ _ Hvk) as [i ->]. destruct (set_identity_linked s l' i Hl' Hrep) as [Hkeep Hln].
  exists l', i. split; [|by split_and!]. unfold session_info. rewrite (bind_run _ _ _ _ _ Hc), Hv.
  unfold keeps_identity in Hkeep. unfold get_session, gets, check, modify_session, modify, mbind, effect_bind, mret, effect_ret. cbn [fst snd].
  destruct (V3Session.identity s); [by rewrite Hkeep|done].
Qed.

(** A session and the one after an identity refresh. *)
Lemma refreshed_fields s s' :
  refreshed s s' -> V3Session.capabilities s' = V3Session.capabilities s /\ V3Session.applied s' = V3Session.applied s /\
    V3Session.state s' = V3Session.state s /\ V3Session.run_id s' = V3Session.run_id s /\
    V3Session.timeout s' = V3Session.timeout s.
Proof. intros [->|(i & -> & _)]; [done|by destruct s]. Qed.

Lemma _validate_applied_ok s l a :
  linked s l -> applied (Line.device l) = Ok (AppliedValue a) ->
  exists s' l', _validate_applied a true (s, l) = ((s', l'), Ok tt) /\ refreshed s s' /\ linked s' l' /\ unchanged l l'.
Proof.
  intros Hl Ha. destruct (applied_advertised _ a (li_device l (ln_line s l Hl)) (ln_tables s l Hl) Ha) as [Hreq Hclk].
  destruct (session_info_ok s l Hl) as (l' & i & Hi & Hinfo & Hkeep & Hl' & Hu).
  exists (set_identity i s), l'. split; [|split_and!; try done].
  - unfold _validate_applied, get_session, gets. erewrite bind_run by done. erewrite bind_run by (cbn [fst]; by rewrite (ln_caps s l Hl)).
    erewrite bind_run by (by rewrite Hreq). erewrite bind_run by (by rewrite Hclk).
    erewrite bind_run by (by rewrite bool_decide_eq_true_2). erewrite bind_run by (by rewrite (bind_run _ _ _ _ _ Hi)).
    cbn [fmap option_fmap option_map]. rewrite (info_clocks _ _ _ Hinfo (unchanged_applied _ _ _ Hu Ha)).
    by rewrite bool_decide_eq_true_2.
  - right. exists i. by split.
Qed.

Lemma set_applied_linked s l a : linked s l -> linked (set_applied a s) l.
Proof. intros []. by destruct s. Qed.

Lemma get_settings_ok s l a :
  linked s l -> V3Session.applied s = Some a -> applied (Line.device l) = Ok (AppliedValue a) ->
  exists s' l', get_settings (s, l) = ((set_applied a s', l'), Ok a) /\ refreshed s s' /\ linked s' l' /\ unchanged l l'.
Proof.
  intros Hl Hs Ha. destruct (query_ok s l CommandKind.GET_SETTINGS None eq_refl Hl)
    as (l1 & r & v & Hc & Hv & Hvk & Hrep & Hl1 & Hu1).
  destruct (answer_value CommandKind.GET_SETTINGS _ _ Hvk) as [a' ->]. cbn [reports] in Hrep.
  pose proof (unchanged_applied _ _ _ Hu1 Ha) as Ha1. assert (a' = a) as -> by congruence.
  destruct (_validate_applied_ok s l1 a Hl1 Ha1) as (s' & l' & Hval & Hr & Hl' & Hu').
  exists s', l'. split; [|split_and!; [done|done|by eapply unchanged_trans]].
  unfold get_settings. rewrite (bind_run _ _ _ _ _ Hc), Hv. unfold get_session, gets. erewrite bind_run by done. cbn [fst].
  rewrite bool_decide_eq_false_2 by (by rewrite Hs). cbn [negb]. rewrite (bind_run _ _ _ _ _ Hval).
  erewrite bind_run by done. cbn [fst]. destruct (refreshed_fields _ _ Hr) as (_ & -> & _).
  rewrite (bool_decide_eq_true_2 (V3Session.applied s = Some a)) by done. by rewrite orb_true_r.
Qed.

(** Where the state machine goes. *)
Lemma accepted_configured supp c s s' :
  DeviceV3.accepted supp CommandKind.CONFIGURE (Some c) s s' ->
  s' = Snapshot.mk (Snapshot.state s) (Snapshot.run_id s) c (Snapshot.pending s).
Proof. by inversion 1. Qed.

Lemma accepted_started supp s s' :
  DeviceV3.accepted supp CommandKind.START None s s' ->
  s' = Snapshot.mk DeviceState.RUNNING (next_run_id (Snapshot.run_id s)) (Snapshot.settings s) (Snapshot.pending s).
Proof. inversion 1 as [k ? Hk| | |]; [|done]. subst. rewrite !elem_of_cons in Hk. destruct Hk as [?|[?|[?|[?|Hk]]]]; [done..|inversion Hk]. Qed.

Lemma accepted_stopped supp s s' :
  DeviceV3.accepted supp CommandKind.STOP None s s' ->
  s' = Snapshot.mk (if Snapshot.pending s then DeviceState.DRAINING else DeviceState.STOPPED)
         (Snapshot.run_id s) (Snapshot.settings s) (Snapshot.pending s).
Proof. inversion 1 as [k ? Hk| | |]; [|done]. subst. rewrite !elem_of_cons in Hk. destruct Hk as [?|[?|[?|[?|Hk]]]]; [done..|inversion Hk]. Qed.

(** CONFIGURE with settings the device supports, while it may be configured. *)
Lemma configure_ok s l settings :
  linked s l -> refusal (snapshot (Line.device l)) = None -> settings ∈ DeviceV3.supported (Line.device l) ->
  exists s' l' a run, configure settings (s, l) = ((set_session_run run (set_applied a s'), l'), Ok a) /\
    V3AppliedSettings.settings a = settings /\ refreshed s s' /\ linked (set_session_run run (set_applied a s')) l' /\
    applied (Line.device l') = Ok (AppliedValue a) /\
    snapshot (Line.device l')
    = Snapshot.mk (SimulatedV3Device._state (Line.device l)) (SimulatedV3Device._run_id (Line.device l)) settings
        (SimulatedV3Device._pending_data (Line.device l)) /\
    BackgroundReader.queues (Line.reader l') = BackgroundReader.queues (Line.reader l).
Proof.
  intros Hl Href Hsup. pose proof (li_device l (ln_line s l Hl)) as Hd.
  destruct (di_caps _ Hd) as [p Hp]. destruct (capability_settings _ _ _ Hp Hsup) as [b Hb].
  destruct (command_ok s l CommandKind.CONFIGURE (Some settings) b None (ln_line s l Hl)) as (l1 & r & v & Hc & He); [done| |].
  { intros _. split; [done|]. by intros c [= <-]. }
  pose proof (linked_step _ _ _ _ _ _ _ Hl He) as Hl1.
  destruct (answer_value CommandKind.CONFIGURE _ _ (ex_value_kind _ _ _ _ _ _ He)) as [a ->].
  pose proof (ex_reports _ _ _ _ _ _ He) as Ha1. cbn [reports] in Ha1.
  assert (Hsnap : snapshot (Line.device l1) = Snapshot.mk (SimulatedV3Device._state (Line.device l))
    (SimulatedV3Device._run_id (Line.device l)) settings (SimulatedV3Device._pending_data (Line.device l))).
  { exact (accepted_configured _ _ _ _ (ex_accepted _ _ _ _ _ _ He)). }
  assert (Hset : V3AppliedSettings.settings a = settings).
  { destruct (applied_value _ _ Ha1) as [-> _]. by injection Hsnap. }
  destruct (query_ok s l1 CommandKind.GET_SETTINGS None eq_refl Hl1) as (l2 & r2 & v2 & Hc2 & Hv2 & Hvk2 & Hrep2 & Hl2 & Hu2).
  destruct (answer_value CommandKind.GET_SETTINGS _ _ Hvk2) as [a2 ->]. cbn [reports] in Hrep2.
  pose proof (unchanged_applied _ _ _ Hu2 Ha1) as Ha2. assert (a2 = a) as -> by congruence.
  destruct (_validate_applied_ok s l2 a Hl2 Ha2) as (s' & l' & Hval & Hr & Hl' & Hu').
  pose proof (unchanged_trans _ _ _ Hu2 Hu') as Hu.
  exists s', l', a, (V3Response.run_id r). split; [|split_and!; try done].
  - unfold configure, get_session, gets. erewrite bind_run by done. erewrite bind_run by (cbn [fst]; by rewrite (ln_caps s l Hl)).
    erewrite bind_run by (by rewrite (supported_required _ _ Hd Hsup)). erewrite bind_run by (by rewrite Hb).
    rewrite (bind_run _ _ _ _ _ Hc), (ex_value _ _ _ _ _ _ He).
    erewrite bind_run by (by rewrite bool_decide_eq_true_2). rewrite (bind_run _ _ _ _ _ Hc2), Hv2.
    erewrite bind_run by (by rewrite bool_decide_eq_true_2). by rewrite (bind_run _ _ _ _ _ Hval).
  - apply (set_applied_linked _ _ a) in Hl'. destruct Hl'. by destruct s'.
  - by eapply unchanged_applied.
  - destruct Hu as [-> _]. exact Hsnap.
  - destruct Hu as (_ & -> & _). apply (reader_effect _ _ _ _ _ _ He).
Qed.

(** The reader streams run [run] under [settings] and nothing has arrived yet. *)
Definition streaming (r : BackgroundReader) (run : Z) (settings : V3Settings) : Prop :=
  StreamQueues._active_run_id (BackgroundReader.queues r) = run /\
  StreamQueues._stream_active (BackgroundReader.queues r) = true /\
  StreamQueues._active_checksum_algorithm (BackgroundReader.queues r) = Checksum.ADLER32 /\
  StreamQueues._blocks (BackgroundReader.queues r) = [] /\
  StreamQueues._stream_reports (BackgroundReader.queues r) = [] /\
  BackgroundReader._active_v3_settings r = Some settings.

Lemma unchanged_streaming l l' run settings :
  unchanged l l' -> streaming (Line.reader l) run settings -> streaming (Line.reader l') run settings.
Proof. unfold streaming. by intros (_ & -> & ->). Qed.

(** START, once the settings are applied on both sides. *)
Lemma session_start_ok s l a :
  linked s l -> V3Session.applied s = Some a -> applied (Line.device l) = Ok (AppliedValue a) ->
  refusal (snapshot (Line.device l)) = None ->
  let run := next_run_id (SimulatedV3Device._run_id (Line.device l)) in
  exists s' l', session_start (s, l) = ((running run a s', l'), Ok run) /\
    refreshed s s' /\ linked (running run a s') l' /\
    snapshot (Line.device l')
    = Snapshot.mk DeviceState.RUNNING run (SimulatedV3Device._settings (Line.device l)) (SimulatedV3Device._pending_data (Line.device l)) /\
    streaming (Line.reader l') run (V3AppliedSettings.settings a) /\
    SimulatedV3Device._epoch (Line.device l') = _reset_epoch /\
    StreamQueues._max_queued_blocks (BackgroundReader.queues (Line.reader l'))
    = StreamQueues._max_queued_blocks (BackgroundReader.queues (Line.reader l)).
Proof.
  intros Hl Hs Ha Href run. destruct (get_settings_ok s l a Hl Hs Ha) as (s' & l1 & Hget & Hr & Hl1 & Hu1).
  pose proof (unchanged_applied _ _ _ Hu1 Ha) as Ha1. pose proof (set_applied_linked _ _ a Hl1) as Hl1'.
  destruct (command_ok (set_applied a s') l1 CommandKind.START None [] None (ln_line _ _ Hl1')) as (l2 & r & v & Hc & He); [done| |].
  { intros _. destruct Hu1 as [-> _]. by split. }
  pose proof (linked_step _ _ _ _ _ _ _ Hl1' He) as Hl2.
  destruct (reader_effect _ _ _ _ _ _ He) as (Hq1 & Hq2 & Hq4 & Hq5 & Hq6 & Hmax & a' & -> & Hq3).
  pose proof (accepted_started _ _ _ (ex_accepted _ _ _ _ _ _ He)) as Hsnap. destruct Hu1 as (Hu1 & Hqu & _). rewrite Hu1 in Hsnap. rewrite Hqu in Hmax.
  assert (Hset : SimulatedV3Device._settings (Line.device l2) = SimulatedV3Device._settings (Line.device l)) by (by injection Hsnap).
  pose proof (ex_reports _ _ _ _ _ _ He) as Ha2. cbn [reports] in Ha2.
  pose proof (same_settings_applied _ _ _ Hset Ha) as Ha2'. assert (a' = a) as -> by congruence.
  assert (Hrun : V3Response.run_id r = run) by (rewrite (ex_run _ _ _ _ _ _ He); by injection Hsnap).
  pose proof (next_run_id_range (SimulatedV3Device._run_id (Line.device l))) as Hrange. fold run in Hrange.
  exists s', l2. split; [|split; [done|split; [|split; [exact Hsnap|split; [split_and!; congruence|exact (conj (ex_epoch _ _ _ _ _ _ He eq_refl) Hmax)]]]]].
  - unfold session_start, get_session, gets. erewrite bind_run by done. cbn [fst]. rewrite (bind_run _ _ _ _ _ Hget).
    rewrite Hs. erewrite bind_run by (by rewrite bool_decide_eq_true_2). rewrite (bind_run _ _ _ _ _ Hc).
    unfold modify_session, modify. erewrite bind_run by done. cbn [fst snd]. rewrite (ex_value _ _ _ _ _ _ He), Hrun.
    rewrite (proj2 (Z.eqb_neq _ _)) by lia. cbn [negb andb fmap option_fmap option_map].
    erewrite bind_run by (by rewrite bool_decide_eq_true_2). done.
  - destruct Hl2. by destruct s'.
Qed.

Lemma session_status_ok s l timeout :
  linked s l ->
  exists s' l' v, session_status timeout (s, l) = ((s', l'), Ok v) /\ v = status (Line.device l') /\
    s' = set_last_status (Some v) (set_session_run (SimulatedV3Device._run_id (Line.device l))
           (set_device_state (SimulatedV3Device._state (Line.device l)) s)) /\
    linked s' l' /\ unchanged l l'.
Proof.
  intros Hl. destruct (query_ok s l CommandKind.GET_STATUS timeout eq_refl Hl) as (l' & r & v & Hc & Hv & Hvk & Hrep & Hl' & Hu).
  destruct (answer_value CommandKind.GET_STATUS _ _ Hvk) as [st ->]. cbn [reports] in Hrep.
  assert (Hst : V3Stop.state (V3Status.stop st) = SimulatedV3Device._state (Line.device l) /\
    V3Stop.run_id (V3Status.stop st) = SimulatedV3Device._run_id (Line.device l)).
  { destruct Hu as [Hu _]. rewrite Hrep. by injection Hu. }
  destruct Hst as [Hst Hrun]. eexists _, l', st. split; [|split; [done|split; [|split; [|exact Hu]]]].
  - unfold session_status. rewrite (bind_run _ _ _ _ _ Hc), Hv. unfold modify_session, modify. by erewrite bind_run by done.
  - cbn [fst]. by rewrite Hst, Hrun.
  - destruct Hl'. by destruct s.
Qed.

(** STOP with no data frame under way. *)
Lemma session_stop_ok s l fuel now :
  linked s l -> SimulatedV3Device._pending_data (Line.device l) = false ->
  exists s' l', session_stop fuel now (s, l) = ((s', l'), Ok DeviceState.STOPPED) /\
    V3Session.state s' = DeviceState.STOPPED /\ V3Session.applied s' = V3Session.applied s /\ linked s' l' /\
    snapshot (Line.device l') = Snapshot.mk DeviceState.STOPPED (SimulatedV3Device._run_id (Line.device l))
      (SimulatedV3Device._settings (Line.device l)) false /\
    StreamQueues._stream_active (BackgroundReader.queues (Line.reader l')) = false.
Proof.
  intros Hl Hp. destruct (command_ok s l CommandKind.STOP None [] None (ln_line s l Hl)) as (l' & r & v & Hc & He); [done| |].
  { apply query_permitted. rewrite !elem_of_cons. intros [?|[?|Hn]]; try done. inversion Hn. }
  pose proof (linked_step _ _ _ _ _ _ _ Hl He) as Hl'.
  pose proof (accepted_stopped _ _ _ (ex_accepted _ _ _ _ _ _ He)) as Hsnap.
  change (Snapshot.pending (snapshot (Line.device l))) with (SimulatedV3Device._pending_data (Line.device l)) in Hsnap.
  rewrite Hp in Hsnap. destruct (answer_value CommandKind.STOP _ _ (ex_value_kind _ _ _ _ _ _ He)) as [st ->].
  pose proof (ex_reports _ _ _ _ _ _ He) as Hrep. cbn [reports] in Hrep.
  assert (Hst : V3Stop.state st = DeviceState.STOPPED) by (rewrite Hrep; by injection Hsnap).
  exists (set_session_run (V3Stop.run_id st) (set_device_state DeviceState.STOPPED s)), l'. split; [|split_and!].
  - unfold session_stop, get_session, gets. erewrite bind_run by done. cbv zeta. rewrite (bind_run _ _ _ _ _ Hc), (ex_value _ _ _ _ _ _ He).
    unfold modify_session, modify. erewrite bind_run by done. cbn [fst snd]. rewrite Hst. destruct fuel, s; done.
  - by destruct s.
  - by destruct s.
  - destruct Hl'. by destruct s.
  - exact Hsnap.
  - exact (reader_effect _ _ _ _ _ _ He).
Qed.

(** ** Opening a line *)

Lemma init_tables build_id a b d :
  init_device build_id a b = Ok d ->
  own_tables d /\ SimulatedV3Device._recent_request_ids d = [] /\ SimulatedV3Device._request_parser d = new_parser /\
  SimulatedV3Device._state d = DeviceState.STOPPED /\ exists i, info d = Ok i.
Proof.
  unfold init_device. intros H. apply require_bind in H as [_ H]. apply require_bind in H as [_ H].
  apply bind_Ok_inv in H as (c & Hc & H). apply lift_Ok_inv in Hc. cbv zeta in H. apply bind_Ok_inv in H as (p & Hp & H).
  apply of_option_Ok_inv in Hp. rewrite init_parser_new in Hp. apply Some_inj' in Hp. subst p.
  apply bind_Ok_inv in H as (i & Hi & H). apply lift_Ok_inv in Hi.
  apply bind_Ok_inv in H as (q & _ & H). apply Ok_inj in H. subst d.
  split; [exists c; split; [exact Hc|reflexivity]|]. do 3 (split; [reflexivity|]). exists i. exact Hi.
Qed.

(** A started reader with an empty parser opposite a newly built device. *)
Definition new_line (max_pending max_blocks max_events first_id : Z) (d : SimulatedV3Device) : Line :=
  Line.mk (start (new_reader max_pending max_blocks max_events first_id) true).1 new_parser d.

Lemma new_line_linked max_pending max_blocks max_events first_id build_id a b d i timeout :
  0 < max_pending < 2 ^ 32 - 1 -> 0 < first_id < 2 ^ 32 -> 68 <= a ->
  init_device build_id a b = Ok d -> info d = Ok i ->
  linked (set_capabilities (SimulatedV3Device._capabilities d) (set_identity i (new_session timeout)))
    (new_line max_pending max_blocks max_events first_id d).
Proof.
  intros Hmax Hid Ha Hd Hi. destruct (init_device_inv _ _ _ _ Hd) as (Hinv & Hroom & _).
  destruct (init_tables _ _ _ _ Hd) as (Ht & Hrec & Hparser & _ & _).
  split; [|exact Ht|done|].
  - split; cbn [new_line Line.reader Line.parser Line.device].
    + split; [|done|done|by left|done]. pose proof (new_reader_inv max_pending max_blocks max_events first_id Hmax Hid) as [Hr _].
      split; [exact Hr|]. intros [Hx|[e Hx]]; discriminate Hx.
    + split; [apply new_parser_inv|done].
    + exact Hinv.
    + rewrite Hparser. split; [apply new_parser_inv|done].
    + lia.
    + rewrite Hrec. intros k q Hk. discriminate Hk.
  - exists i, i. split; [done|]. split; [exact Hi|]. unfold same_identity. by rewrite !bool_decide_eq_true_2, eqb_reflx.
Qed.

(** ** The control plane works *)

(** C5. Session, reader and simulated device together carry out a whole acquisition: from a
    session that knows its device, while the device is STOPPED, CONFIGURE with any supported
    settings, START, STATUS and STOP all succeed.  CONFIGURE installs the settings in the
    device and returns them; START returns the device's next run number, and then the
    device, the session and the reader agree on that run, on RUNNING and on the settings;
    STATUS returns the device's own status; STOP leaves device and session STOPPED and
    the reader's stream inactive.  The session still knows its device, so the cycle can be
    repeated: in particular no request ID of the reader ever falls into the device's
    replay window. *)
Theorem control_cycle (s : V3Session) (l : Line) (settings : V3Settings) (fuel : nat) (now : nat -> Z)
    (Hlinked : linked s l) (Hstopped : SimulatedV3Device._state (Line.device l) = DeviceState.STOPPED)
    (Hsupported : settings ∈ V3Capabilities.configurations (SimulatedV3Device._capabilities (Line.device l))) :
  let run := next_run_id (SimulatedV3Device._run_id (Line.device l)) in
  exists w1 a w2 w3 st w4,
    configure settings (s, l) = (w1, Ok a) /\ session_start w1 = (w2, Ok run) /\
    session_status None w2 = (w3, Ok st) /\ session_stop fuel now w3 = (w4, Ok DeviceState.STOPPED) /\
    V3AppliedSettings.settings a = settings /\
    SimulatedV3Device._settings (Line.device w1.2) = settings /\
    (snapshot (Line.device w2.2) = Snapshot.mk DeviceState.RUNNING run settings false /\
     V3Session.state w2.1 = DeviceState.RUNNING /\ V3Session.run_id w2.1 = run /\ V3Session.applied w2.1 = Some a /\
     streaming (Line.reader w2.2) run settings) /\
    (st = status (Line.device w3.2) /\ V3Session.last_status w3.1 = Some st /\ V3Session.state w3.1 = DeviceState.RUNNING /\
     streaming (Line.reader w3.2) run settings) /\
    (snapshot (Line.device w4.2) = Snapshot.mk DeviceState.STOPPED run settings false /\
     V3Session.state w4.1 = DeviceState.STOPPED /\ V3Session.applied w4.1 = Some a /\
     StreamQueues._stream_active (BackgroundReader.queues (Line.reader w4.2)) = false) /\
    linked w4.1 w4.2.
Proof.
  intros run. pose proof (di_stopped _ (li_device l (ln_line s l Hlinked)) Hstopped) as Hpend.
  assert (Href : refusal (snapshot (Line.device l)) = None).
  { unfold refusal, snapshot. cbn [Snapshot.state Snapshot.pending]. by rewrite Hstopped, Hpend. }
  destruct (configure_ok s l settings Hlinked Href Hsupported)
    as (s1 & l1 & a & n & Hconf & Ha & Hr1 & Hl1 & Happ1 & Hsnap1 & _).
  rewrite Hstopped, Hpend in Hsnap1.
  set (t1 := set_session_run n (set_applied a s1)) in *.
  assert (Hap1 : V3Session.applied t1 = Some a) by (by destruct s1).
  assert (Href1 : refusal (snapshot (Line.device l1)) = None) by (by rewrite Hsnap1).
  assert (Hrun1 : next_run_id (SimulatedV3Device._run_id (Line.device l1)) = run) by (injection Hsnap1 as _ -> _ _; done).
  assert (Hset1 : SimulatedV3Device._settings (Line.device l1) = settings) by (by injection Hsnap1).
  assert (Hpend1 : SimulatedV3Device._pending_data (Line.device l1) = false) by (by injection Hsnap1).
  destruct (session_start_ok t1 l1 a Hl1 Hap1 Happ1 Href1) as (s2 & l2 & Hstart & Hr2 & Hl2 & Hsnap2 & Hstr2 & _).
  cbv zeta in Hstart, Hr2, Hl2, Hsnap2, Hstr2. rewrite Hrun1 in *. rewrite Hset1, Hpend1 in Hsnap2. rewrite Ha in Hstr2.
  set (t2 := running run a s2) in *.
  destruct (session_status_ok t2 l2 None Hl2) as (t3 & l3 & st & Hstat & Hst & Ht3 & Hl3 & Hu3).
  assert (Hdev2 : SimulatedV3Device._state (Line.device l2) = DeviceState.RUNNING) by (by injection Hsnap2).
  assert (Hsnap3 : snapshot (Line.device l3) = Snapshot.mk DeviceState.RUNNING run settings false).
  { destruct Hu3 as [-> _]. exact Hsnap2. }
  assert (Hpend3 : SimulatedV3Device._pending_data (Line.device l3) = false) by (by injection Hsnap3).
  destruct (session_stop_ok t3 l3 fuel now Hl3 Hpend3) as (t4 & l4 & Hstop & Hst4 & Hap4 & Hl4 & Hsnap4 & Hact4).
  assert (Hrs3 : SimulatedV3Device._run_id (Line.device l3) = run /\ SimulatedV3Device._settings (Line.device l3) = settings)
    by (by injection Hsnap3).
  destruct Hrs3 as [Hrun3 Hset3]. rewrite Hrun3, Hset3 in Hsnap4. rewrite Hdev2 in Ht3.
  pose proof (unchanged_streaming _ _ _ _ Hu3 Hstr2) as Hstr3.
  exists (t1, l1), a, (t2, l2), (t3, l3), st, (t4, l4). cbn [fst snd].
  do 5 (split; [done|]). split; [by rewrite ?Ha|].
  split; [|split; [|split; [|exact Hl4]]].
  - split; [exact Hsnap2|]. unfold t2, running. split_and!; [by destruct s2..|exact Hstr2].
  - split; [exact Hst|]. rewrite Ht3. unfold t2. split_and!; [by destruct s2..|exact Hstr3].
  - split; [exact Hsnap4|]. split; [exact Hst4|]. split; [|exact Hact4]. rewrite Hap4, Ht3. unfold t2, running. by destruct s2.
Qed.

Lemma control_cycle_witness :
  exists d i, init_device (text_of "thingdaq-simulator-v3") 2048 8 = Ok d /\ info d = Ok i /\
    let c := SimulatedV3Device._capabilities d in
    let s := set_capabilities c (set_identity i (new_session 1000000)) in
    let l := new_line 32 64 32 1 d in
    linked s l /\
    exists w1 a w2 w3 st w4,
      configure (V3Capabilities.defaults c) (s, l) = (w1, Ok a) /\ session_start w1 = (w2, Ok 1) /\
      session_status None w2 = (w3, Ok st) /\ session_stop 4 Z.of_nat w3 = (w4, Ok DeviceState.STOPPED) /\
      streaming (Line.reader w2.2) 1 (V3Capabilities.defaults c).
Proof.
  destruct example_device as [d Hd]. destruct (init_tables _ _ _ _ Hd) as (Ht & _ & _ & Hst & i & Hi).
  exists d, i. split; [exact Hd|]. split; [exact Hi|]. intros c s l.
  assert (Hl : linked s l).
  { apply (new_line_linked 32 64 32 1 (text_of "thingdaq-simulator-v3") 2048 8 d i); [lia|lia|lia|exact Hd|exact Hi]. }
  split; [exact Hl|].
  assert (Hdef : V3Capabilities.defaults c ∈ V3Capabilities.configurations c).
  { destruct Ht as (canonical & Hc & Hcaps). unfold c. rewrite Hcaps. vm_compute in Hc. apply Ok_inj in Hc. subst canonical.
    apply (bool_decide_unpack _). vm_compute. exact I. }
  assert (Hrun : next_run_id (SimulatedV3Device._run_id (Line.device l)) = 1).
  { cbn [l new_line Line.device]. revert Hd. unfold init_device. intros H. vm_compute in H. apply Ok_inj in H. by subst d. }
  destruct (control_cycle s l (V3Capabilities.defaults c) 4 Z.of_nat Hl Hst Hdef)
    as (w1 & a & w2 & w3 & st & w4 & H1 & H2 & H3 & H4 & _ & _ & (_ & _ & _ & _ & H5) & _).
  rewrite Hrun in *. exists w1, a, w2, w3, st, w4.
  exact (conj H1 (conj H2 (conj H3 (conj H4 H5)))).
Defined.
