(* ===== verification/EndToEnd.v ===== *)
(** * From START to the application: a whole acquisition.

    The frames the simulated device sends after START, through the host's parser, the
    decoder and the reader's queue, to the synthetic validator.  The control plane
    ([ControlPlane]) brings the line into a run; the theorem here follows the data. *)

From stdpp Require Import gmap.
From S2P Require Import Prelude PyStruct Checksum Incremental V3Constants V3Header V3Samples ModelsV3 V3Frames Synthetic SimulatorV3 DeviceV3 Profiles Losses Blocks Continuity StreamQueues Reader Validator Session ControlPlane.

(** ** The block of a frame *)

(** A decoded v3 block is well formed. *)
Lemma decode_v3_block_wf f s b : decode_v3_block f s = Ok b -> v3_wf b /\ block_checksum b = Checksum.ADLER32.
Proof.
  unfold decode_v3_block. intros H. cbv zeta in H.
  apply bind_Ok_inv in H as (wire & _ & H). apply bind_Ok_inv in H as (g & _ & H).
  apply bind_Ok_inv in H as (data & _ & H). apply bind_Ok_inv in H as (sb & _ & H).
  apply bind_Ok_inv in H as (u1 & _ & H). apply bind_Ok_inv in H as (u2 & _ & H).
  apply bind_Ok_inv in H as (profile & _ & H). case_match.
  - apply bind_Ok_inv in H as (u3 & _ & H). apply bind_Ok_inv in H as (m & _ & H).
    apply bind_Ok_inv in H as (a & Ha & H). apply Ok_inj in H. subst b.
    destruct (new_adc_block_version _ _ Ha) as (Hv & _ & Hc). split; [|exact Hc].
    split; [by apply new_adc_block_wf in Ha|exact Hv].
  - apply bind_Ok_inv in H as (u3 & _ & H). apply bind_Ok_inv in H as (u4 & _ & H).
    apply bind_Ok_inv in H as (g' & Hg & H). apply Ok_inj in H. subst b. pose proof (new_gpio_block_wf _ _ Hg) as Hw.
    assert (Hx : g' = GPIOBlock.mk (V3FrameHeader.run_id (V3Frame.header f)) (V3FrameHeader.sequence (V3Frame.header f))
      (V3FrameHeader.first_sample_ticks (V3Frame.header f)) (V3DecodedData.payload data)
      (V3FrameHeader.flags (V3Frame.header f)) Checksum.ADLER32 (V3Settings.aux_bank_mode s) profile
      PROTOCOL_VERSION (Some (V3Frame.payload g))).
    { unfold new_gpio_block in Hg. apply unit_bind in Hg as (_ & Hg). apply unit_bind in Hg as (_ & Hg).
      apply unit_bind in Hg as (_ & Hg). by apply Ok_inj in Hg. }
    subst g'. by split; [split|].
Qed.

(** Block [i] of a lossless run of the device. *)
Record run_block (d : SimulatedV3Device) (i : nat) (stream : nat) (b : DataBlock) : Prop := {
  rb_stream : enabled_streams d.(SimulatedV3Device._settings) !! (i mod length (enabled_streams d.(SimulatedV3Device._settings)))%nat
    = Some stream;
  rb_wf : v3_wf b;
  rb_checksum : block_checksum b = Checksum.ADLER32;
  rb_kind : match b with
            | AdcData _ => stream = 0%nat
            | GpioData g => stream = 1%nat /\ GPIOBlock.aux_bank_mode g = d.(SimulatedV3Device._settings).(V3Settings.aux_bank_mode)
            end;
  rb_run : block_run_id b = d.(SimulatedV3Device._run_id);
  rb_count : block_count b = stream_count d.(SimulatedV3Device._settings) stream;
  rb_unmarked : marked_gap b = false /\ marked_overrun b = false;
  rb_source : Z.testbit (block_flags b) 0 = bool_decide (d.(SimulatedV3Device._settings).(V3Settings.source) = Source.SYNTHETIC);
  rb_position : let k := Z.of_nat (i / length (enabled_streams d.(SimulatedV3Device._settings))) in
    let first := k * stream_count d.(SimulatedV3Device._settings) stream in
    block_sequence b = k mod 2 ^ 32 /\ block_ticks b = 8 * first /\
    block_payload b = stream_samples d.(SimulatedV3Device._settings) stream k first
}.

Lemma enabled_stream_mask s p stream :
  enabled_streams s !! p = Some stream ->
  stream = 0%nat /\ Z.testbit (V3Settings.stream_mask s) 0 = true \/
  stream = 1%nat /\ Z.testbit (V3Settings.stream_mask s) 1 = true.
Proof.
  unfold enabled_streams. change StreamMask.ADC with (2 ^ 0). change StreamMask.GPIO with (2 ^ 1).
  rewrite !has_testbit by lia. destruct (Z.testbit _ 0), (Z.testbit _ 1); cbn [app]; destruct p as [|[|p]]; cbn; intros [= <-]; auto.
Qed.

Lemma run_frame_block d i wire :
  device_inv d -> wf_bytes wire -> run_frame d i wire ->
  exists f b stream, decode_v3_frame wire = Ok f /\
    V3FrameHeader.version (V3Frame.header f) = PROTOCOL_VERSION /\ _DATA_KINDS (V3FrameHeader.kind (V3Frame.header f)) = true /\
    decode_v3_block f (SimulatedV3Device._settings d) = Ok b /\ run_block d i stream b.
Proof.
  intros Hd Hw (stream & f & d0 & Hs & Hf & Hk & Hrun & Hseq & Hticks & Hcount & _ & Hgap & Hover & Hsrc & Hdec & Hraw & Henc).
  set (s := SimulatedV3Device._settings d) in *.
  pose proof (proj1 (decode_v3_frame_iff wire f Hw) Hf) as Hon.
  destruct (di_caps d Hd) as [cp Hcp]. destruct (capability_settings _ _ _ Hcp (di_settings d Hd)) as [sb Hsb].
  assert (Hdata : _DATA_KINDS (V3FrameHeader.kind (V3Frame.header f)) = true) by (rewrite Hk; by destruct stream).
  destruct (decode_v3_block_outcome f wire s sb Hon Hdata Hsb) as (data & Hdd & Hout).
  rewrite Hk, Hcount in Hdd. assert (data = d0) as -> by congruence.
  pose proof Hon as (head & _ & (Hver & _) & Hwp & _).
  destruct Hout as [[_ (m & _ & Hb)]|[Hno _]].
  2: { exfalso. apply Hno. split; [rewrite Hsrc; by rewrite bool_decide_eq_true|]. rewrite Hk.
       destruct (enabled_stream_mask _ _ _ Hs) as [[-> Hm]|[-> Hm]]; cbn [stream_kind].
       - by rewrite decide_True.
       - by rewrite decide_False. }
  exists f, (v3_block (V3Frame.header f) (V3Frame.payload f) s d0 m), stream.
  split; [done|]. split; [done|]. split; [done|]. split; [done|].
  destruct (decode_v3_block_wf _ _ _ Hb) as [Hwf Hck].
  destruct (decoded_samples _ _ _ _ Hwp Hdec) as (Hc1 & Hlen & _ & _ & Hitem).
  pose proof (bw_size _ (proj1 Hwf)) as Hsize.
  unfold v3_block in *. rewrite Hk in *.
  destruct (enabled_stream_mask _ _ _ Hs) as [[-> Hm]|[-> Hm]]; cbn [stream_kind] in *.
  - rewrite decide_True in * by done. destruct Hitem as [(_ & Hi & _)|(Hx & _)]; [|discriminate].
    rewrite Hi in Hlen. split; try done.
    + change (zlen (V3DecodedData.payload d0) / 4 = stream_count s 0). rewrite Hlen. by rewrite Z.div_mul.
    + split; [change (has (V3FrameHeader.flags (V3Frame.header f)) (2 ^ 1) = false)
             |change (has (V3FrameHeader.flags (V3Frame.header f)) (2 ^ 3) = false)]; by rewrite has_testbit by lia.
  - rewrite decide_False in * by done. destruct Hitem as [(Hx & _)|(_ & Hi & _)]; [discriminate|].
    destruct Henc as [Hwidth _]. rewrite (settings_widths s sb Hsb) in Hwidth.
    split; try done.
    + assert (Hib : GPIOLayout.item_bytes (from_mode (V3Settings.aux_bank_mode s)) = V3DecodedData.item_bytes d0)
        by (rewrite from_mode_item; case_decide; lia).
      change (zlen (V3DecodedData.payload d0) / GPIOLayout.item_bytes (from_mode (V3Settings.aux_bank_mode s)) = stream_count s 1).
      rewrite Hlen, Hib. by rewrite Z.div_mul by lia.
    + split; [change (has (V3FrameHeader.flags (V3Frame.header f)) (2 ^ 1) = false)
             |change (has (V3FrameHeader.flags (V3Frame.header f)) (2 ^ 3) = false)]; by rewrite has_testbit by lia.
Qed.

(** ** Through the reader *)

(** The reader takes data of run [run] under [settings], with room for [room] blocks. *)
Record taking (r : BackgroundReader) (run : Z) (settings : V3Settings) (room : nat) : Prop := {
  tk_stop : BackgroundReader._stop_event r = false;
  tk_version : BackgroundReader._selected_wire_version r = None \/
    BackgroundReader._selected_wire_version r = Some PROTOCOL_VERSION;
  tk_settings : BackgroundReader._active_v3_settings r = Some settings;
  tk_active : StreamQueues._stream_active (BackgroundReader.queues r) = true;
  tk_run : StreamQueues._active_run_id (BackgroundReader.queues r) = run;
  tk_checksum : StreamQueues._active_checksum_algorithm (BackgroundReader.queues r) = Checksum.ADLER32;
  tk_reports : StreamQueues._stream_reports (BackgroundReader.queues r) = [];
  tk_room : zlen (StreamQueues._blocks (BackgroundReader.queues r)) + Z.of_nat room
    <= StreamQueues._max_queued_blocks (BackgroundReader.queues r)
}.

Lemma process_data r run settings room f b :
  taking r run settings (S room) -> V3FrameHeader.version (V3Frame.header f) = PROTOCOL_VERSION ->
  _DATA_KINDS (V3FrameHeader.kind (V3Frame.header f)) = true -> decode_v3_block f settings = Ok b ->
  block_run_id b = run -> block_checksum b = Checksum.ADLER32 ->
  exists r', process_frame r f = (r', None) /\ taking r' run settings room /\
    StreamQueues._blocks (BackgroundReader.queues r') = StreamQueues._blocks (BackgroundReader.queues r) ++ [b].
Proof.
  intros [Hstop Hver Hset Hact Hrun Hck Hrep Hroom] Hv Hk Hb Hbr Hbc.
  destruct r as [rq q s w st cl ev te fr pf dc]. cbn in Hstop, Hver, Hset, Hact, Hrun, Hck, Hrep, Hroom. subst ev s.
  unfold process_frame. rewrite Hv, Hk. cbn [BackgroundReader._selected_wire_version BackgroundReader._active_v3_settings].
  replace (true && match w with Some version => negb (PROTOCOL_VERSION =? version) | None => false end) with false
    by (by destruct Hver as [->| ->]). rewrite Hb. cbn [count_frame BackgroundReader.queues].
  unfold _dispatch_block. cbv zeta. destruct q as [qm qr blocks reports qrun qck qact qc].
  cbn [set_counters StreamQueues._stream_active StreamQueues._active_run_id StreamQueues._active_checksum_algorithm
    StreamQueues._max_queued_blocks StreamQueues._blocks StreamQueues.counters StreamQueues._stream_reports] in *. subst qact qrun qck reports.
  rewrite Hbr, Hbc, Z.eqb_refl. cbn [negb orb]. rewrite bool_decide_eq_true_2 by done. cbn [negb].
  rewrite (proj2 (Z.leb_gt _ _)) by lia. eexists. split; [done|]. split; [|done].
  split; try done. cbn. unfold zlen in *. rewrite length_app. cbn [length]. lia.
Qed.

(** The frames of a run, one chunk each. *)
Lemma read_run d wires : forall i r p room,
  device_inv d -> Forall wf_bytes wires -> (forall j wire, wires !! j = Some wire -> run_frame d (i + j) wire) ->
  taking r (SimulatedV3Device._run_id d) (SimulatedV3Device._settings d) (length wires + room) -> at_rest (F:=V3Frame) p ->
  exists r' p' blocks, read_chunks r p wires = (r', p') /\ at_rest (F:=V3Frame) p' /\
    taking r' (SimulatedV3Device._run_id d) (SimulatedV3Device._settings d) room /\
    StreamQueues._blocks (BackgroundReader.queues r') = StreamQueues._blocks (BackgroundReader.queues r) ++ blocks /\
    length blocks = length wires /\ forall j b, blocks !! j = Some b -> exists stream, run_block d (i + j) stream b.
Proof.
  induction wires as [|wire wires IH]; intros i r p room Hd Hw Hrf Ht Hp.
  - exists r, p, []. rewrite app_nil_r. by split_and!.
  - apply Forall_cons in Hw as [Hw Hws]. pose proof (Hrf 0%nat wire eq_refl) as H0. rewrite Nat.add_0_r in H0.
    destruct (run_frame_block d i wire Hd Hw H0) as (f & b & stream & Hf & Hv & Hk & Hb & Hrb).
    destruct (feed_one p wire f Hp Hw (frame_complete wire f Hw Hf)) as (p1 & Hfeed & Hp1).
    destruct (process_data r _ _ _ f b Ht Hv Hk Hb (rb_run _ _ _ _ Hrb) (rb_checksum _ _ _ _ Hrb)) as (r1 & Hpf & Ht1 & Hbl).
    destruct (IH (S i) r1 p1 room Hd Hws) as (r' & p' & blocks & Hrc & Hp' & Ht' & Hbl' & Hlen & Hall); [|exact Ht1|exact Hp1|].
    { intros j w Hj. rewrite Nat.add_succ_l, <-Nat.add_succ_r. by apply (Hrf (S j)). }
    exists r', p', (b :: blocks). split.
    { cbn [read_chunks]. unfold read_chunk. rewrite Hfeed. cbn [process_frames]. by rewrite (tk_stop _ _ _ _ Ht), Hpf. }
    split; [done|]. split; [done|]. split; [by rewrite Hbl', Hbl, <-app_assoc|]. split; [cbn; lia|].
    intros [|j] b' Hj; cbn in Hj.
    + injection Hj as <-. exists stream. by rewrite Nat.add_0_r.
    + destruct (Hall j b' Hj) as [stream' Hs']. exists stream'. by rewrite Nat.add_succ_r.
Qed.

(** ** What the validator sees *)

Definition expected_stream (v : SyntheticStreamValidator) (stream : nat) : option Expected :=
  match stream with O => SyntheticStreamValidator.adc_expected v | S _ => SyntheticStreamValidator.gpio_expected v end.

(** The validator after [i] blocks of the run. *)
Definition expecting (d : SimulatedV3Device) (i : nat) (v : SyntheticStreamValidator) : Prop :=
  let s := d.(SimulatedV3Device._settings) in
  SyntheticStreamValidator.run_id v = d.(SimulatedV3Device._run_id) /\
  forall p stream, enabled_streams s !! p = Some stream ->
    let k := Z.of_nat (turns (length (enabled_streams s)) p i) in
    expected_stream v stream = Some (Expected.mk (k mod 2 ^ 32) (8 * (k * stream_count s stream))).

(** The samples the validator generates are those the device sent. *)
Lemma run_block_samples d i stream b :
  device_inv d -> run_block d i stream b -> block_payload b = expected_samples b.
Proof.
  intros Hd [Hs Hwf _ Hkind _ Hcount _ _ (Hseq & Hticks & Hpay)].
  pose proof (stream_count_range d stream Hd) as Hr. rewrite Hpay. unfold expected_samples, stream_samples.
  assert (Hdiv : forall x, 8 * x / 8 = x) by (intros x; rewrite Z.mul_comm; by apply Z.div_mul).
  rewrite (v3_period b Hwf), Hcount, Hticks, Hdiv. destruct b as [a|g].
  - by subst stream.
  - destruct Hkind as [-> ->]. do 2 f_equal. unfold v3_pattern. rewrite Hseq.
    replace ((Z.of_nat (i / length (enabled_streams (SimulatedV3Device._settings d))) mod 2 ^ 32) mod 2)
      with (Z.of_nat (i / length (enabled_streams (SimulatedV3Device._settings d))) mod 2) by (pow_lit; zlia). done.
Qed.

Lemma run_block_end d i stream b :
  run_block d i stream b ->
  block_end_tick b = 8 * ((Z.of_nat (i / length (enabled_streams (SimulatedV3Device._settings d))) + 1)
                          * stream_count (SimulatedV3Device._settings d) stream).
Proof.
  intros [_ Hwf _ _ _ Hcount _ _ (_ & Hticks & _)]. pose proof (v3_period b Hwf) as Hp. destruct Hwf as [Hb Hv].
  destruct (bw_v3 b Hb Hv) as (_ & _ & Hmax & _). pose proof (bw_ticks b Hb) as Ht. pose proof (bw_count b Hb) as Hc.
  assert (He : block_end_tick b = u64 (block_ticks b + block_count b * block_period b)) by (by destruct b).
  rewrite He, Hp, u64_mod, Z.mod_small by (change UINT64_MAX with (2 ^ 64 - 1) in Hmax; lia).
  rewrite Hcount, Hticks in *. lia.
Qed.

Lemma run_block_validates d i stream b v :
  device_inv d ->
  V3Settings.source (SimulatedV3Device._settings d) = Source.SYNTHETIC ->
  expecting d i v -> run_block d i stream b ->
  validate v (ClientBlock b) = (account v b, Ok b) /\ expecting d (S i) (account v b).
Proof.
  intros Hd Hsyn [Hrun Hexp] Hrb. pose proof (rb_stream _ _ _ _ Hrb) as Hs.
  set (s := SimulatedV3Device._settings d) in *. set (n := length (enabled_streams s)) in *.
  assert (Hn : (0 < n)%nat) by (destruct (enabled_streams s); [discriminate Hs|unfold n; cbn; lia]).
  pose proof (Hexp _ _ Hs) as He. cbv zeta in He. fold n in He. rewrite (turns_now n _ i Hn eq_refl) in He.
  destruct (rb_position _ _ _ _ Hrb) as (Hseq & Hticks & _). fold s n in Hseq, Hticks.
  assert (Hfor : expected_for v b = expected_stream v stream).
  { pose proof (rb_kind _ _ _ _ Hrb) as Hk. destruct b; [by subst|by destruct Hk as [-> _]]. }
  assert (Hc : continues v b).
  { exists (Expected.mk (block_sequence b) (block_ticks b)). rewrite Hfor, He, Hseq, Hticks.
    destruct (rb_unmarked _ _ _ _ Hrb) as [Hg Ho]. split; [done|]. rewrite (rb_run _ _ _ _ Hrb). split; [done|].
    split; [rewrite (rb_source _ _ _ _ Hrb); by apply bool_decide_eq_true_2|]. do 4 (split; [done|]).
    by apply (run_block_samples d i stream). }
  destruct (validate_cases v b (rb_wf _ _ _ _ Hrb)) as [[_ Hv]|[Hno _]]; [|done]. split; [done|].
  pose proof (run_block_end _ _ _ _ Hrb) as Hend. fold s n in Hend.
  assert (Hacc : forall stream', (stream' <= 1)%nat -> expected_stream (account v b) stream'
    = if decide (stream' = stream) then Some (Expected.mk (u32 (block_sequence b + 1)) (block_end_tick b)) else expected_stream v stream').
  { pose proof (rb_kind _ _ _ _ Hrb) as Hk. intros stream' Hle. destruct v, b as [a|g]; [subst stream|destruct Hk as [-> _]];
      destruct stream' as [|[|?]]; try lia; done. }
  split; [by destruct v, b|]. fold s. fold n. intros p stream' Hp.
  destruct (enabled_stream_positions _ _ _ _ _ Hp Hs) as [Hle Hpos].
  cbv zeta. rewrite Hacc by done. rewrite turns_step by (by apply lookup_lt_Some in Hp). fold n in Hpos.
  destruct (decide (stream' = stream)) as [->|Hne].
  - assert (p = i mod n)%nat as -> by (by apply Hpos). rewrite decide_True by done.
    rewrite (turns_now n _ i Hn eq_refl), Hend, Hseq, u32_mod. do 2 f_equal; [|lia].
    rewrite Zplus_mod_idemp_l. f_equal. lia.
  - rewrite decide_False by (intros Heq; apply Hne, Hpos; by symmetry). by apply Hexp.
Qed.

Lemma run_validates d blocks : forall i v,
  device_inv d -> V3Settings.source (SimulatedV3Device._settings d) = Source.SYNTHETIC -> expecting d i v ->
  (forall j b, blocks !! j = Some b -> exists stream, run_block d (i + j) stream b) ->
  validate_all v (map ClientBlock blocks) = (fold_left account blocks v, Ok tt).
Proof.
  induction blocks as [|b blocks IH]; intros i v Hd Hsyn Hv Hall; [done|].
  destruct (Hall 0%nat b eq_refl) as [stream Hb]. rewrite Nat.add_0_r in Hb.
  destruct (run_block_validates d i stream b v Hd Hsyn Hv Hb) as [Hval Hv'].
  cbn [map validate_all fold_left]. rewrite Hval. apply (IH (S i)); [done..|].
  intros j b' Hj. rewrite Nat.add_succ_l, <-Nat.add_succ_r. by apply (Hall (S j)).
Qed.

(** A validator of a fresh run. *)
Lemma new_validator_expecting d rb pb sb :
  0 < SimulatedV3Device._run_id d -> settings_to_bytes (SimulatedV3Device._settings d) = Ok sb ->
  exists v, new_validator (SimulatedV3Device._run_id d) (V3Settings.stream_mask (SimulatedV3Device._settings d)) rb pb = Ok v /\
    expecting d 0 v /\ SyntheticStreamValidator.adc_frames_validated v = 0 /\ SyntheticStreamValidator.gpio_frames_validated v = 0.
Proof.
  intros Hrun Hsb. destruct (settings_bytes_facts _ sb Hsb) as (_ & _ & _ & Hmask).
  set (mask := V3Settings.stream_mask (SimulatedV3Device._settings d)) in *. unfold new_validator.
  rewrite (proj2 (Z.ltb_lt _ _)) by done. cbn [require mbind result_bind].
  assert (Hm : negb (mask =? 0) && negb (has mask (Z.lnot (Z.lor StreamMask.ADC StreamMask.GPIO))) = true).
  { assert (mask = 1 \/ mask = 2 \/ mask = 3) as [->|[->| ->]] by lia; done. }
  rewrite Hm. cbn [require mbind result_bind]. eexists. split; [done|]. split; [|done]. split; [done|].
  intros p stream Hp. cbv zeta. pose proof (lookup_lt_Some _ _ _ Hp) as Hlt.
  assert (Ht : turns (length (enabled_streams (SimulatedV3Device._settings d))) p 0 = 0%nat).
  { unfold turns. apply Nat.div_small. lia. }
  rewrite Ht. destruct (enabled_stream_mask _ _ _ Hp) as [[-> H]|[-> H]]; fold mask in H;
    cbn [expected_stream SyntheticStreamValidator.adc_expected SyntheticStreamValidator.gpio_expected].
  - change StreamMask.ADC with (2 ^ 0). by rewrite has_testbit, H by lia.
  - change StreamMask.GPIO with (2 ^ 1). by rewrite has_testbit, H by lia.
Qed.

Lemma length_of_kinds bs :
  zlen (of_kind V1FrameKind.ADC_DATA bs) + zlen (of_kind V1FrameKind.GPIO_DATA bs) = zlen bs.
Proof.
  induction bs as [|b bs IH]; [done|]. rewrite !of_kind_step. unfold zlen in *.
  destruct b as [a|g]; cbn [block_kind]; repeat case_decide; try discriminate; try done; cbn [length]; lia.
Qed.

(** ** A whole acquisition *)

(** C1. The synthetic acquisition the package is tested with, end to end: from a session that
    knows its STOPPED device, CONFIGURE with any supported synthetic settings and START
    succeed; whatever number of data frames the device then sends, within the reader's
    queue and the 64-bit clock, the host parser delivers each of them, the reader decodes
    and queues every one in order with no loss report, and the strict validator accepts
    them all and counts them exactly. *)
Theorem acquisition_validates (s : V3Session) (l : Line) (settings : V3Settings) (n : nat) (rb : ReaderHealth) (pb : Z)
    (Hlinked : linked s l) (Hstopped : SimulatedV3Device._state (Line.device l) = DeviceState.STOPPED)
    (Hsupported : settings ∈ V3Capabilities.configurations (SimulatedV3Device._capabilities (Line.device l)))
    (Hsynthetic : V3Settings.source settings = Source.SYNTHETIC)
    (Hroom : Z.of_nat n <= StreamQueues._max_queued_blocks (BackgroundReader.queues (Line.reader l)))
    (Hclock : Z.of_nat n * 32384 < 2 ^ 64) :
  exists w1 a w2 run d' wires r' p' v,
    configure settings (s, l) = (w1, Ok a) /\ session_start w1 = (w2, Ok run) /\
    DeviceV3.apply_calls (Line.device w2.2) (replicate n NextFrame) = Ok (d', wires) /\ length wires = n /\
    read_chunks (Line.reader w2.2) (Line.parser w2.2) wires = (r', p') /\
    new_validator run (V3Settings.stream_mask settings) rb pb = Ok v /\
    let blocks := StreamQueues._blocks (BackgroundReader.queues r') in
    length blocks = n /\ StreamQueues._stream_reports (BackgroundReader.queues r') = [] /\
    exists v', validate_all v (map ClientBlock blocks) = (v', Ok tt) /\
      SyntheticStreamValidator.adc_frames_validated v' + SyntheticStreamValidator.gpio_frames_validated v' = Z.of_nat n.
Proof.
  pose proof (di_stopped _ (li_device l (ln_line s l Hlinked)) Hstopped) as Hpend.
  assert (Href : refusal (snapshot (Line.device l)) = None).
  { unfold refusal, snapshot. cbn [Snapshot.state Snapshot.pending]. by rewrite Hstopped, Hpend. }
  destruct (configure_ok s l settings Hlinked Href Hsupported)
    as (s1 & l1 & a & m & Hconf & Ha & _ & Hl1 & Happ1 & Hsnap1 & Hq1).
  rewrite Hstopped, Hpend in Hsnap1. set (t1 := set_session_run m (set_applied a s1)) in *.
  assert (Hap1 : V3Session.applied t1 = Some a) by (by destruct s1).
  assert (Href1 : refusal (snapshot (Line.device l1)) = None) by (by rewrite Hsnap1).
  destruct (session_start_ok t1 l1 a Hl1 Hap1 Happ1 Href1) as (s2 & l2 & Hstart & _ & Hl2 & Hsnap2 & Hstr & Hepoch & Hmax).
  set (run := next_run_id _) in *. rewrite Hq1 in Hmax.
  assert (Hdev1 : SimulatedV3Device._settings (Line.device l1) = settings /\ SimulatedV3Device._pending_data (Line.device l1) = false)
    by (by injection Hsnap1).
  destruct Hdev1 as [Hset1 Hpend1]. rewrite Hset1, Hpend1 in Hsnap2.
  assert (Hdev2 : SimulatedV3Device._state (Line.device l2) = DeviceState.RUNNING /\ SimulatedV3Device._run_id (Line.device l2) = run /\
    SimulatedV3Device._settings (Line.device l2) = settings /\ SimulatedV3Device._pending_data (Line.device l2) = false) by (by injection Hsnap2).
  destruct Hdev2 as (Hst2 & Hrun2 & Hset2 & Hpend2).
  pose proof (ln_line _ _ Hl2) as Hline2. pose proof (li_device l2 Hline2) as Hd2.
  destruct (run_frames (Line.device l2) n (Line.device l2) 0 (run_state_start _ Hd2 Hst2 Hpend2 Hepoch)) as (d' & wires & Hcalls & _ & Hlen & Hrf); [lia|].
  assert (Hwf : Forall wf_bytes wires).
  { destruct (DeviceV3.apply_calls_ok (replicate n NextFrame) (Line.device l2) Hd2) as (d'' & out & Hc & _ & Hem); [apply next_frames_ok|].
    rewrite Hcalls in Hc. apply Ok_inj in Hc. injection Hc as <- <-. eapply Forall_impl; [exact Hem|]. by intros w [? _]. }
  destruct Hstr as (Q1 & Q2 & Q3 & Q4 & Q5 & Q6). rewrite Ha in Q6. destruct (li_reader l2 Hline2) as [_ _ Hstop Hver _].
  assert (Ht : taking (Line.reader l2) (SimulatedV3Device._run_id (Line.device l2)) (SimulatedV3Device._settings (Line.device l2)) (length wires + 0)).
  { rewrite Hrun2, Hset2. split; try done. rewrite Q4, Hmax, Hlen, Nat.add_0_r. unfold zlen. cbn [length]. lia. }
  destruct (read_run (Line.device l2) wires 0 (Line.reader l2) (Line.parser l2) 0 Hd2 Hwf Hrf Ht (li_host l2 Hline2))
    as (r' & p' & blocks & Hrc & _ & Ht' & Hbl & Hbn & Hblocks).
  rewrite Q4 in Hbl. cbn [app] in Hbl.
  destruct (di_caps _ Hd2) as [cp Hcp]. destruct (capability_settings _ _ _ Hcp (di_settings _ Hd2)) as [sb Hsb].
  destruct (new_validator_expecting (Line.device l2) rb pb sb) as (v & Hv & Hexp & Hv1 & Hv2); [|exact Hsb|].
  { rewrite Hrun2. apply next_run_id_range. }
  rewrite Hrun2, Hset2 in Hv.
  exists (t1, l1), a, (running run a s2, l2), run, d', wires, r', p', v. cbn [fst snd].
  do 6 (split; [done|]). cbv zeta. rewrite Hbl. split; [lia|]. split; [apply Ht'|].
  exists (fold_left account blocks v). split.
  - apply (run_validates (Line.device l2) blocks 0); [done|by rewrite Hset2|done|exact Hblocks].
  - destruct (account_frames v blocks) as [-> ->]. rewrite Hv1, Hv2. pose proof (length_of_kinds blocks). unfold zlen in *. lia.
Qed.

Lemma acquisition_validates_witness :
  exists d i settings, init_device (text_of "thingdaq-simulator-v3") 2048 8 = Ok d /\ info d = Ok i /\
    let c := SimulatedV3Device._capabilities d in
    let s := set_capabilities c (set_identity i (new_session 1000000)) in
    let l := new_line 32 64 32 1 d in
    linked s l /\ V3Settings.source settings = Source.SYNTHETIC /\
    exists w1 a w2 run d' wires r' p',
      configure settings (s, l) = (w1, Ok a) /\ session_start w1 = (w2, Ok run) /\
      DeviceV3.apply_calls (Line.device w2.2) (replicate 5 NextFrame) = Ok (d', wires) /\
      read_chunks (Line.reader w2.2) (Line.parser w2.2) wires = (r', p') /\
      length (StreamQueues._blocks (BackgroundReader.queues r')) = 5%nat.
Proof.
  destruct example_device as [d Hd]. destruct (init_tables _ _ _ _ Hd) as (Ht & _ & _ & Hst & i & Hi).
  assert (Hset : exists settings, settings ∈ V3Capabilities.configurations (SimulatedV3Device._capabilities d) /\
    V3Settings.source settings = Source.SYNTHETIC).
  { destruct Ht as (canonical & Hc & Hcaps). rewrite Hcaps. vm_compute in Hc. apply Ok_inj in Hc. subst canonical.
    eexists. split; [apply list_elem_of_lookup; exists 1%nat; vm_compute; reflexivity|reflexivity]. }
  destruct Hset as (settings & Hsup & Hsyn). exists d, i, settings. split; [exact Hd|]. split; [exact Hi|]. intros c s l.
  assert (Hl : linked s l).
  { apply (new_line_linked 32 64 32 1 (text_of "thingdaq-simulator-v3") 2048 8 d i); [lia|lia|lia|exact Hd|exact Hi]. }
  split; [exact Hl|]. split; [exact Hsyn|].
  assert (Hroom : Z.of_nat 5 <= 64) by lia. assert (Hclock : Z.of_nat 5 * 32384 < 2 ^ 64) by lia.
  destruct (acquisition_validates s l settings 5 (ReaderHealth.mk 0 0 0) 0 Hl Hst Hsup Hsyn Hroom Hclock)
    as (w1 & a & w2 & run & d' & wires & r' & p' & v & H1 & H2 & H3 & _ & H4 & _ & H5 & _).
  exists w1, a, w2, run, d', wires, r', p'. exact (conj H1 (conj H2 (conj H3 (conj H4 H5)))).
Defined.
