(* ===== verification/Alignment.v ===== *)
(** * Timestamp alignment ([alignment.py]).

    [TimestampAligner] pairs ADC and GPIO blocks of one run by their first-sample
    timestamp, with bounded retention: [AlignedInterval] and [AlignmentLoss] with the
    checks of their [__post_init__], and every method of the aligner.  The two
    dictionaries keyed by stream are [PerStream] pairs; iteration order over the other
    dictionaries never matters.  [seconds] conversions are floating point and are not
    modelled.  An error keeps its class and a short form of its message. *)

From stdpp Require Import gmap.
From S2P Require Import Prelude PyStruct Checksum V3Constants V3Header Profiles Losses Blocks Continuity Effects.

(** ** Helpers *)

Definition NO_STREAMS : Z := 0.
Definition _BOTH_STREAMS : Z := Z.lor StreamMask.ADC StreamMask.GPIO.

(** [_gap_signature] *)
Definition _gap_signature (g : StreamGap) :
    V1FrameKind.FrameKind * Z * Z * Z * Z * Z * Z * Z * bool * bool * Z * Z :=
  (StreamGap.kind g, StreamGap.run_id g, StreamGap.expected_sequence g, StreamGap.observed_sequence g,
   StreamGap.missing_frames g, StreamGap.missing_items g, StreamGap.expected_first_sample_ticks g,
   StreamGap.observed_first_sample_ticks g, StreamGap.firmware_reported g, StreamGap.firmware_overrun g,
   StreamGap.period_ticks g, StreamGap.frame_item_count g).

(** [_block_coverage_ticks] *)
Definition _block_coverage_ticks (b : DataBlock) : Z := block_count b * block_period b.

Definition block_mode (b : DataBlock) : AuxBankMode :=
  match b with AdcData b => ADCBlock.aux_bank_mode b | GpioData b => GPIOBlock.aux_bank_mode b end.
Definition block_profile (b : DataBlock) : V2RateProfile :=
  match b with AdcData b => ADCBlock.rate_profile b | GpioData b => GPIOBlock.rate_profile b end.

(** [_block_profile_signature] *)
Definition _block_profile_signature (b : DataBlock) : Z * Z * Z :=
  (block_version b, int_of (block_mode b), int_of (block_profile b)).

Inductive AlignmentLossReason := WINDOW_EXPIRED | EXPLICIT_FLUSH | END_OF_INPUT | RUN_BOUNDARY.
#[export] Instance AlignmentLossReason_eq_dec : EqDecision AlignmentLossReason.
Proof. solve_decision. Defined.

(** [TimestampAlignmentError]; another [ValueError] of a constructor; [AssertionError];
    the model's own bound on a loop. *)
Inductive align_error :=
| TimestampAlignmentError (message : string)
| AlignmentValueError (e : model_error)
| AlignmentAssertionError (message : string)
| AlignmentOutOfFuel.

(** ** Aligned intervals *)

Module AlignedInterval.
Record AlignedInterval := mk {
  adc : option ADCBlock;
  gpio : option GPIOBlock;
  stream_gaps : list StreamGap
}.
End AlignedInterval.
Abbreviation AlignedInterval := AlignedInterval.AlignedInterval.

(** The blocks of a slot, [(slot.adc, slot.gpio)] without the missing ones. *)
Definition slot_blocks (adc : option ADCBlock) (gpio : option GPIOBlock) : list DataBlock :=
  option_list (AdcData <$> adc) ++ option_list (GpioData <$> gpio).

(** The side of a slot that a gap of this kind describes. *)
Definition slot_side (kind : V1FrameKind.FrameKind) (adc : option ADCBlock) (gpio : option GPIOBlock) :
    option DataBlock :=
  if decide (kind = V1FrameKind.ADC_DATA) then AdcData <$> adc else GpioData <$> gpio.

(** Lines 146-162: the reference block covers one interval of the grid. *)
Definition interval_reference_check (b : DataBlock) : mdl unit :=
  let coverage_ticks := _block_coverage_ticks b in
  _ ← require (u64 (block_end_tick b - block_ticks b) =? coverage_ticks)
        (ValueError "source block does not cover one selected interval");
  _ ← require (block_ticks b mod coverage_ticks =? 0)
        (ValueError "source block is not aligned to a frame interval");
  require (block_ticks b + coverage_ticks <=? UINT64_MAX)
    (ValueError "aligned intervals cannot cross timestamp wrap").

(** Lines 164-176: the two sides of one interval agree. *)
Definition interval_pair_check (a g : DataBlock) : mdl unit :=
  _ ← require (block_run_id a =? block_run_id g) (ValueError "ADC and GPIO blocks belong to different runs");
  _ ← require (bool_decide (block_source a = block_source g))
        (ValueError "ADC and GPIO blocks report different sources");
  _ ← require (block_ticks a =? block_ticks g)
        (ValueError "ADC and GPIO blocks start at different timestamps");
  _ ← require (block_end_tick a =? block_end_tick g)
        (ValueError "ADC and GPIO blocks cover different intervals");
  require (bool_decide (_block_profile_signature a = _block_profile_signature g))
    (ValueError "ADC and GPIO blocks use different selected profiles").

(** Lines 178-193: the loop over the gaps. *)
Fixpoint interval_gaps_check (adc : option ADCBlock) (gpio : option GPIOBlock)
    (seen_kinds : list V1FrameKind.FrameKind) (gaps : list StreamGap) : mdl unit :=
  match gaps with
  | [] => Ok tt
  | g :: gaps =>
      _ ← require
            match slot_side (StreamGap.kind g) adc gpio with
            | None => false
            | Some b =>
                negb (bool_decide (StreamGap.kind g ∈ seen_kinds))
                && (StreamGap.run_id g =? block_run_id b)
                && (StreamGap.observed_sequence g =? block_sequence b)
                && (StreamGap.observed_first_sample_ticks g =? block_ticks b)
            end
            (ValueError "stream gap does not describe a present source block");
      interval_gaps_check adc gpio (StreamGap.kind g :: seen_kinds) gaps
  end.

(** [AlignedInterval(adc, gpio, stream_gaps)]: [__post_init__]. *)
Definition new_interval (adc : option ADCBlock) (gpio : option GPIOBlock) (stream_gaps : list StreamGap) :
    mdl AlignedInterval :=
  reference ← of_option (head (slot_blocks adc gpio))
                (ValueError "an aligned interval requires at least one source block");
  _ ← interval_reference_check reference;
  _ ← match adc, gpio with
      | Some a, Some g => interval_pair_check (AdcData a) (GpioData g)
      | _, _ => Ok tt
      end;
  _ ← interval_gaps_check adc gpio [] stream_gaps;
  Ok (AlignedInterval.mk adc gpio stream_gaps).

Definition interval_blocks (i : AlignedInterval) : list DataBlock :=
  slot_blocks (AlignedInterval.adc i) (AlignedInterval.gpio i).

(** The properties read the ADC side first. *)
Definition interval_reference (i : AlignedInterval) : option DataBlock := head (interval_blocks i).
Definition interval_run_id (i : AlignedInterval) : option Z := block_run_id <$> interval_reference i.
Definition interval_ticks (i : AlignedInterval) : option Z := block_ticks <$> interval_reference i.
Definition interval_coverage (i : AlignedInterval) : option Z := _block_coverage_ticks <$> interval_reference i.
Definition interval_end_tick (i : AlignedInterval) : option Z :=
  ticks ← interval_ticks i; coverage ← interval_coverage i; Some (u64 (ticks + coverage)).

(** [present_streams] of a slot or of an interval. *)
Definition present_streams (adc : option ADCBlock) (gpio : option GPIOBlock) : Z :=
  let streams := NO_STREAMS in
  let streams := if adc is Some _ then Z.lor streams StreamMask.ADC else streams in
  if gpio is Some _ then Z.lor streams StreamMask.GPIO else streams.

Definition missing_streams (i : AlignedInterval) : Z :=
  Z.lxor _BOTH_STREAMS (present_streams (AlignedInterval.adc i) (AlignedInterval.gpio i)).

Definition interval_complete (i : AlignedInterval) : bool :=
  present_streams (AlignedInterval.adc i) (AlignedInterval.gpio i) =? _BOTH_STREAMS.

(** ** Alignment losses *)

Module AlignmentLoss.
Record AlignmentLoss := mk {
  reason : AlignmentLossReason;
  run_id : Z;
  source : Source;
  first_sample_ticks : Z;
  interval_count : Z;
  present_streams : Z;
  missing_streams : Z;
  frame_coverage_ticks : Z
}.
End AlignmentLoss.
Abbreviation AlignmentLoss := AlignmentLoss.AlignmentLoss.

(** [AlignmentLoss.__post_init__] *)
Definition alignment_loss_validate (l : AlignmentLoss) : mdl AlignmentLoss :=
  _ ← _unsigned "run_id" (AlignmentLoss.run_id l) 32;
  _ ← _unsigned "first_sample_ticks" (AlignmentLoss.first_sample_ticks l) 64;
  _ ← require (negb (AlignmentLoss.run_id l =? 0)) (ValueError "alignment loss requires a nonzero run ID");
  _ ← require (0 <? AlignmentLoss.frame_coverage_ticks l)
        (ValueError "frame_coverage_ticks must be a positive integer");
  _ ← require (AlignmentLoss.first_sample_ticks l mod AlignmentLoss.frame_coverage_ticks l =? 0)
        (ValueError "alignment loss must begin on a frame interval");
  _ ← require (0 <? AlignmentLoss.interval_count l) (ValueError "interval_count must be a positive integer");
  let present := AlignmentLoss.present_streams l in
  let missing := AlignmentLoss.missing_streams l in
  _ ← require ((Z.land present (Z.lnot _BOTH_STREAMS) =? 0) && (Z.land missing (Z.lnot _BOTH_STREAMS) =? 0))
        (ValueError "alignment loss contains unsupported stream bits");
  _ ← require (negb (missing =? 0) && (Z.land present missing =? 0) && (Z.lor present missing =? _BOTH_STREAMS))
        (ValueError "present and missing streams must partition ADC/GPIO");
  let duration := AlignmentLoss.interval_count l * AlignmentLoss.frame_coverage_ticks l in
  _ ← require (AlignmentLoss.first_sample_ticks l + duration <=? UINT64_MAX)
        (ValueError "alignment loss crosses unsupported timestamp wrap");
  Ok l.

(** [missing_duration_ticks] *)
Definition loss_duration (l : AlignmentLoss) : Z :=
  AlignmentLoss.interval_count l * AlignmentLoss.frame_coverage_ticks l.

Definition loss_end_tick (l : AlignmentLoss) : Z := AlignmentLoss.first_sample_ticks l + loss_duration l.

Inductive AlignmentInput := InputBlock (b : DataBlock) | InputGap (g : StreamGap).
Inductive AlignmentItem := Interval (i : AlignedInterval) | Loss (l : AlignmentLoss) | Gap (g : StreamGap).

(** ** The aligner *)

(** A dictionary with the keys [ADC_DATA] and [GPIO_DATA]. *)
Module PerStream.
Record PerStream := mk { adc : Z; gpio : Z }.
End PerStream.
Abbreviation PerStream := PerStream.PerStream.

Definition of_stream (d : PerStream) (kind : V1FrameKind.FrameKind) : Z :=
  if decide (kind = V1FrameKind.ADC_DATA) then PerStream.adc d else PerStream.gpio d.
Definition set_stream (kind : V1FrameKind.FrameKind) (v : Z) (d : PerStream) : PerStream :=
  if decide (kind = V1FrameKind.ADC_DATA) then PerStream.mk v (PerStream.gpio d)
  else PerStream.mk (PerStream.adc d) v.

Module PendingInterval.
Record PendingInterval := mk { adc : option ADCBlock; gpio : option GPIOBlock }.
End PendingInterval.
Abbreviation PendingInterval := PendingInterval.PendingInterval.

(** [_PendingInterval.complete] *)
Definition complete (p : PendingInterval) : bool :=
  match PendingInterval.adc p, PendingInterval.gpio p with Some _, Some _ => true | _, _ => false end.

Definition pending_blocks (p : PendingInterval) : list DataBlock :=
  slot_blocks (PendingInterval.adc p) (PendingInterval.gpio p).

(** The side of the slot the block belongs to, filled. *)
Definition put_block (b : DataBlock) (p : PendingInterval) : PendingInterval :=
  match b with
  | AdcData a => PendingInterval.mk (Some a) (PendingInterval.gpio p)
  | GpioData g => PendingInterval.mk (PendingInterval.adc p) (Some g)
  end.

(** The kind of a data stream as a key: ADC or GPIO. *)
#[export] Instance FrameKind_countable : Countable V1FrameKind.FrameKind.
Proof.
  refine (inj_countable'
    (fun kind => match kind with
     | V1FrameKind.ADC_DATA => 0 | V1FrameKind.GPIO_DATA => 1 | V1FrameKind.INFO_REQUEST => 2
     | V1FrameKind.CONFIGURE_REQUEST => 3 | V1FrameKind.START_REQUEST => 4
     | V1FrameKind.GET_STATUS_REQUEST => 5 | V1FrameKind.STOP_REQUEST => 6
     | V1FrameKind.RESET_STATS_REQUEST => 7 | V1FrameKind.PING_REQUEST => 8
     | V1FrameKind.CHECKSUM_BENCHMARK_REQUEST => 9 | V1FrameKind.GPIO_CLOCK_DIAGNOSTIC_REQUEST => 10
     | V1FrameKind.GPIO_CAPTURE_DIAGNOSTIC_REQUEST => 11 | V1FrameKind.INFO_RESPONSE => 12
     | V1FrameKind.CONFIGURE_RESPONSE => 13 | V1FrameKind.START_RESPONSE => 14
     | V1FrameKind.GET_STATUS_RESPONSE => 15 | V1FrameKind.STOP_RESPONSE => 16
     | V1FrameKind.RESET_STATS_RESPONSE => 17 | V1FrameKind.PING_RESPONSE => 18
     | V1FrameKind.CHECKSUM_BENCHMARK_RESPONSE => 19 | V1FrameKind.GPIO_CLOCK_DIAGNOSTIC_RESPONSE => 20
     | V1FrameKind.GPIO_CAPTURE_DIAGNOSTIC_RESPONSE => 21 | V1FrameKind.ERROR_RESPONSE => 22 end)
    (fun n => default V1FrameKind.ERROR_RESPONSE
       ([V1FrameKind.ADC_DATA; V1FrameKind.GPIO_DATA; V1FrameKind.INFO_REQUEST;
         V1FrameKind.CONFIGURE_REQUEST; V1FrameKind.START_REQUEST; V1FrameKind.GET_STATUS_REQUEST;
         V1FrameKind.STOP_REQUEST; V1FrameKind.RESET_STATS_REQUEST; V1FrameKind.PING_REQUEST;
         V1FrameKind.CHECKSUM_BENCHMARK_REQUEST; V1FrameKind.GPIO_CLOCK_DIAGNOSTIC_REQUEST;
         V1FrameKind.GPIO_CAPTURE_DIAGNOSTIC_REQUEST; V1FrameKind.INFO_RESPONSE;
         V1FrameKind.CONFIGURE_RESPONSE; V1FrameKind.START_RESPONSE; V1FrameKind.GET_STATUS_RESPONSE;
         V1FrameKind.STOP_RESPONSE; V1FrameKind.RESET_STATS_RESPONSE; V1FrameKind.PING_RESPONSE;
         V1FrameKind.CHECKSUM_BENCHMARK_RESPONSE; V1FrameKind.GPIO_CLOCK_DIAGNOSTIC_RESPONSE;
         V1FrameKind.GPIO_CAPTURE_DIAGNOSTIC_RESPONSE; V1FrameKind.ERROR_RESPONSE] !! Z.to_nat n)) _).
  by intros [].
Defined.

(** The key of an announced gap: kind, run, sequence, timestamp. *)
Definition gap_key : Type := V1FrameKind.FrameKind * Z * Z * Z.

Module TimestampAligner.
Record TimestampAligner := mk {
  _max_pending_intervals : Z;
  _pending : gmap Z PendingInterval;
  _announced_gaps : gmap gap_key StreamGap;
  _active_run_id : option Z;
  _active_source : option Source;
  _frame_coverage_ticks : option Z;
  _profile_signature : option (Z * Z * Z);
  _next_output_ticks : Z;
  _expected_sequence : PerStream;
  _expected_ticks : PerStream;
  _high_water_intervals : Z;
  _closed : bool
}.
End TimestampAligner.
Abbreviation TimestampAligner := TimestampAligner.TimestampAligner.

(** [__init__] *)
Definition new_aligner (max_pending_intervals : Z) : mdl TimestampAligner :=
  _ ← require (0 <? max_pending_intervals) (ValueError "max_pending_intervals must be a positive integer");
  Ok (TimestampAligner.mk max_pending_intervals ∅ ∅ None None None None 0 (PerStream.mk 0 0)
        (PerStream.mk 0 0) 0 false).

Definition pending_intervals (s : TimestampAligner) : Z := Z.of_nat (size (TimestampAligner._pending s)).

Definition set_pending (x : gmap Z PendingInterval) (s : TimestampAligner) : TimestampAligner :=
  let '(TimestampAligner.mk m _ a r o c p n es et h cl) := s in
  TimestampAligner.mk m x a r o c p n es et h cl.
Definition set_announced (x : gmap gap_key StreamGap) (s : TimestampAligner) : TimestampAligner :=
  let '(TimestampAligner.mk m q _ r o c p n es et h cl) := s in
  TimestampAligner.mk m q x r o c p n es et h cl.
Definition set_active_source (x : option Source) (s : TimestampAligner) : TimestampAligner :=
  let '(TimestampAligner.mk m q a r _ c p n es et h cl) := s in
  TimestampAligner.mk m q a r x c p n es et h cl.
Definition set_profile_signature (x : option (Z * Z * Z)) (s : TimestampAligner) : TimestampAligner :=
  let '(TimestampAligner.mk m q a r o c _ n es et h cl) := s in
  TimestampAligner.mk m q a r o c x n es et h cl.
Definition set_next_output (x : Z) (s : TimestampAligner) : TimestampAligner :=
  let '(TimestampAligner.mk m q a r o c p _ es et h cl) := s in
  TimestampAligner.mk m q a r o c p x es et h cl.
Definition set_high_water (x : Z) (s : TimestampAligner) : TimestampAligner :=
  let '(TimestampAligner.mk m q a r o c p n es et _ cl) := s in
  TimestampAligner.mk m q a r o c p n es et x cl.
Definition set_closed (x : bool) (s : TimestampAligner) : TimestampAligner :=
  let '(TimestampAligner.mk m q a r o c p n es et h _) := s in
  TimestampAligner.mk m q a r o c p n es et h x.

(** [self._expected_sequence[kind] = sequence; self._expected_ticks[kind] = ticks] *)
Definition set_expected (kind : V1FrameKind.FrameKind) (sequence ticks : Z) (s : TimestampAligner) :
    TimestampAligner :=
  let '(TimestampAligner.mk m q a r o c p n es et h cl) := s in
  TimestampAligner.mk m q a r o c p n (set_stream kind sequence es) (set_stream kind ticks et) h cl.

Abbreviation aligner := (effect TimestampAligner align_error).

Definition alignment_error {A} (message : string) : aligner A := raise (TimestampAlignmentError message).

(** [_required_frame_coverage_ticks] *)
Definition _required_frame_coverage_ticks : aligner Z :=
  coverage ← gets TimestampAligner._frame_coverage_ticks;
  of_some coverage (AlignmentAssertionError "alignment epoch has no frame coverage").

(** [_alignment_loss] *)
Definition _alignment_loss (reason : AlignmentLossReason) (first_sample_ticks interval_count present_streams : Z) :
    aligner AlignmentLoss :=
  run ← gets TimestampAligner._active_run_id;
  source ← gets TimestampAligner._active_source;
  run ← of_some run (AlignmentAssertionError "alignment loss requires an active source epoch");
  source ← of_some source (AlignmentAssertionError "alignment loss requires an active source epoch");
  let missing := Z.lxor _BOTH_STREAMS present_streams in
  coverage ← _required_frame_coverage_ticks;
  lift AlignmentValueError
    (alignment_loss_validate
       (AlignmentLoss.mk reason run source first_sample_ticks interval_count present_streams missing coverage)).

(** [_advance] *)
Definition _advance (interval_count : Z) : aligner unit :=
  coverage ← _required_frame_coverage_ticks;
  next ← gets TimestampAligner._next_output_ticks;
  let next_ticks := next + interval_count * coverage in
  _ ← check (next_ticks <=? UINT64_MAX)
        (TimestampAlignmentError "timestamp wrap is outside the bounded alignment model");
  _ ← modify (set_next_output next_ticks);
  modify (fun s =>
    set_announced (filter (fun kg => next_ticks <= kg.1.2) (TimestampAligner._announced_gaps s)) s).

Module ContinuityResult.
Record ContinuityResult := mk {
  block : DataBlock;
  gap : option StreamGap;
  emit_gap : bool;
  announced_key : option gap_key
}.
End ContinuityResult.
Abbreviation ContinuityResult := ContinuityResult.ContinuityResult.

Definition embedded_gap (b : DataBlock) : option StreamGap :=
  match b with AdcData b => ADCBlock.gap b | GpioData _ => None end.

Definition block_key (b : DataBlock) : gap_key := (block_kind b, block_run_id b, block_sequence b, block_ticks b).

(** [_continuity_result] *)
Definition _continuity_result (b : DataBlock) : aligner ContinuityResult :=
  s ← get;
  let kind := block_kind b in
  computed ← match from_expected b (of_stream (TimestampAligner._expected_sequence s) kind)
                     (of_stream (TimestampAligner._expected_ticks s) kind) 0 with
             | Ok computed => mret computed
             | Err (UncaughtError e) => raise (AlignmentValueError (UncaughtError e))
             | Err _ => alignment_error "sequence/timestamp continuity is invalid"
             end;
  let announced := TimestampAligner._announced_gaps s !! block_key b in
  let embedded := embedded_gap b in
  let supplied := match announced with Some g => Some g | None => embedded end in
  _ ← match announced, embedded with
      | Some a, Some e =>
          check (bool_decide (_gap_signature a = _gap_signature e))
            (TimestampAlignmentError "announced and ADC-attached StreamGap evidence disagree")
      | _, _ => mret tt
      end;
  selected ← match supplied with
             | Some g =>
                 _ ← check (bool_decide (Some (_gap_signature g) = (_gap_signature <$> computed)))
                       (TimestampAlignmentError "StreamGap disagrees with aligned continuity");
                 mret (Some g)
             | None => mret computed
             end;
  mret (ContinuityResult.mk b selected
          (bool_decide (is_Some selected) && bool_decide (announced = None))
          (_ ← announced; Some (block_key b))).

(** [for x in xs: f(x)], the results collected. *)
Fixpoint each {A B} (f : A -> aligner B) (xs : list A) : aligner (list B) :=
  match xs with
  | [] => mret []
  | x :: xs => y ← f x; ys ← each f xs; mret (y :: ys)
  end.

(** The update of the expectations and announcements after an emitted interval. *)
Definition settle (r : ContinuityResult) : aligner unit :=
  let b := ContinuityResult.block r in
  _ ← modify (set_expected (block_kind b) (u32 (block_sequence b + 1)) (block_end_tick b));
  match ContinuityResult.announced_key r with
  | Some key => modify (fun s => set_announced (delete key (TimestampAligner._announced_gaps s)) s)
  | None => mret tt
  end.

(** [_emit_slot] *)
Definition _emit_slot (ticks : Z) (loss_reason : option AlignmentLossReason) : aligner (list AlignmentItem) :=
  pending ← gets TimestampAligner._pending;
  slot ← of_some (pending !! ticks) (AlignmentValueError (UncaughtError "KeyError"));
  continuity ← each _continuity_result (pending_blocks slot);
  let gaps := omap ContinuityResult.gap continuity in
  interval ← lift AlignmentValueError (new_interval (PendingInterval.adc slot) (PendingInterval.gpio slot) gaps);
  let emitted := omap (fun r => if ContinuityResult.emit_gap r then ContinuityResult.gap r else None) continuity in
  losses ← match loss_reason with
           | Some reason =>
               loss ← _alignment_loss reason ticks 1
                        (present_streams (PendingInterval.adc slot) (PendingInterval.gpio slot));
               mret [Loss loss]
           | None => mret []
           end;
  _ ← each settle continuity;
  _ ← modify (fun s => set_pending (delete ticks (TimestampAligner._pending s)) s);
  _ ← _advance 1;
  mret (map Gap emitted ++ losses ++ [Interval interval]).

(** [min(self._pending)] and [max(self._pending)]: of an empty dictionary, [ValueError]. *)
Definition keys {A} (m : gmap Z A) : list Z := map fst (map_to_list m).
Definition min_key {A} (m : gmap Z A) : option Z :=
  match keys m with [] => None | k :: ks => Some (foldr Z.min k ks) end.
Definition max_key {A} (m : gmap Z A) : option Z :=
  match keys m with [] => None | k :: ks => Some (foldr Z.max k ks) end.
Definition of_key (o : option Z) : aligner Z := of_some o (AlignmentValueError (ValueError "empty iterable")).

(** The loop of [_drain]. *)
Fixpoint drain_loop (fuel : nat) (coverage_ticks highest_seen_ticks : Z) : aligner (list AlignmentItem) :=
  match fuel with
  | O => raise AlignmentOutOfFuel
  | S fuel =>
      s ← get;
      let pending := TimestampAligner._pending s in
      let next := TimestampAligner._next_output_ticks s in
      let max_pending := TimestampAligner._max_pending_intervals s in
      if (size pending =? 0)%nat then mret []
      else
        let slot := pending !! next in
        if default false (complete <$> slot) then
          out ← _emit_slot next None;
          rest ← drain_loop fuel coverage_ticks highest_seen_ticks;
          mret (out ++ rest)
        else if highest_seen_ticks <? next then mret []
        else
          let span := (highest_seen_ticks - next) / coverage_ticks in
          if span <? max_pending then mret []
          else
            match slot with
            | Some _ =>
                out ← _emit_slot next (Some WINDOW_EXPIRED);
                rest ← drain_loop fuel coverage_ticks highest_seen_ticks;
                mret (out ++ rest)
            | None =>
                let eligible_count := span - max_pending + 1 in
                next_pending_ticks ← of_key (min_key pending);
                let pending_distance := (next_pending_ticks - next) / coverage_ticks in
                let interval_count := Z.min eligible_count pending_distance in
                _ ← check (0 <? interval_count) (AlignmentAssertionError "timestamp drain made no progress");
                loss ← _alignment_loss WINDOW_EXPIRED next interval_count NO_STREAMS;
                _ ← _advance interval_count;
                rest ← drain_loop fuel coverage_ticks highest_seen_ticks;
                mret (Loss loss :: rest)
            end
  end.

(** Passes that are enough for both loops: each one takes a slot or leads to one. *)
Definition loop_fuel (s : TimestampAligner) : nat := (2 * size (TimestampAligner._pending s) + 2)%nat.

(** [_drain] *)
Definition _drain (highest_seen_ticks : Z) : aligner (list AlignmentItem) :=
  coverage_ticks ← _required_frame_coverage_ticks;
  fuel ← gets loop_fuel;
  drain_loop fuel coverage_ticks highest_seen_ticks.

(** The loop of [_flush_pending]. *)
Fixpoint flush_loop (fuel : nat) (coverage_ticks : Z) (reason : AlignmentLossReason) :
    aligner (list AlignmentItem) :=
  match fuel with
  | O => raise AlignmentOutOfFuel
  | S fuel =>
      s ← get;
      let pending := TimestampAligner._pending s in
      let next := TimestampAligner._next_output_ticks s in
      if (size pending =? 0)%nat then mret []
      else
        next_pending_ticks ← of_key (min_key pending);
        if next_pending_ticks <? next then alignment_error "pending timestamp moved behind output"
        else if next <? next_pending_ticks then
          let delta := next_pending_ticks - next in
          _ ← check (delta mod coverage_ticks =? 0)
                (TimestampAlignmentError "pending timestamp is not frame aligned");
          let interval_count := delta / coverage_ticks in
          loss ← _alignment_loss reason next interval_count NO_STREAMS;
          _ ← _advance interval_count;
          rest ← flush_loop fuel coverage_ticks reason;
          mret (Loss loss :: rest)
        else
          slot ← of_some (pending !! next_pending_ticks) (AlignmentValueError (UncaughtError "KeyError"));
          out ← _emit_slot next_pending_ticks (if complete slot then None else Some reason);
          rest ← flush_loop fuel coverage_ticks reason;
          mret (out ++ rest)
  end.

(** [_flush_pending] *)
Definition _flush_pending (reason : AlignmentLossReason) : aligner (list AlignmentItem) :=
  coverage_ticks ← _required_frame_coverage_ticks;
  fuel ← gets loop_fuel;
  flush_loop fuel coverage_ticks reason.

(** [_start_epoch] *)
Definition _start_epoch (run_id : Z) (source : option Source) (frame_coverage_ticks : Z)
    (profile_signature : option (Z * Z * Z)) : aligner unit :=
  _ ← lift AlignmentValueError (_unsigned "run_id" run_id 32);
  _ ← check (negb (run_id =? 0)) (TimestampAlignmentError "alignment input requires a nonzero run ID");
  _ ← check (0 <? frame_coverage_ticks) (TimestampAlignmentError "frame coverage must be positive");
  modify (fun '(TimestampAligner.mk m _ _ _ _ _ _ _ _ _ h cl) =>
    TimestampAligner.mk m ∅ ∅ (Some run_id) source (Some frame_coverage_ticks) profile_signature 0
      (PerStream.mk 0 0) (PerStream.mk 0 0) h cl).

(** [_activate_epoch] *)
Definition _activate_epoch (run_id : Z) (source : option Source) (frame_coverage_ticks : Z)
    (profile_signature : option (Z * Z * Z)) : aligner (list AlignmentItem) :=
  active ← gets TimestampAligner._active_run_id;
  match active with
  | None =>
      _ ← _start_epoch run_id source frame_coverage_ticks profile_signature;
      mret []
  | Some active =>
      if negb (run_id =? active) then
        outputs ← _flush_pending RUN_BOUNDARY;
        _ ← _start_epoch run_id source frame_coverage_ticks profile_signature;
        mret outputs
      else
        coverage ← gets TimestampAligner._frame_coverage_ticks;
        _ ← check (bool_decide (Some frame_coverage_ticks = coverage))
              (TimestampAlignmentError "frame coverage changed within run");
        _ ← match profile_signature with
            | None => mret tt
            | Some signature =>
                current ← gets TimestampAligner._profile_signature;
                match current with
                | None => modify (set_profile_signature (Some signature))
                | Some current =>
                    check (bool_decide (signature = current))
                      (TimestampAlignmentError "mode/rate profile changed within run")
                end
            end;
        _ ← match source with
            | None => mret tt
            | Some source =>
                current ← gets TimestampAligner._active_source;
                match current with
                | None => modify (set_active_source (Some source))
                | Some current =>
                    check (bool_decide (source = current))
                      (TimestampAlignmentError "source changed within run")
                end
            end;
        mret []
  end.

(** [_push_announced_gap] *)
Definition _push_announced_gap (g : StreamGap) : aligner (list AlignmentItem) :=
  let coverage_ticks := StreamGap.period_ticks g * StreamGap.frame_item_count g in
  _ ← check (negb (negb (StreamGap.expected_first_sample_ticks g mod coverage_ticks =? 0)
                   || negb (StreamGap.observed_first_sample_ticks g mod coverage_ticks =? 0)))
        (TimestampAlignmentError "stream gap is not aligned to selected frame coverage");
  outputs ← _activate_epoch (StreamGap.run_id g) None coverage_ticks None;
  next ← gets TimestampAligner._next_output_ticks;
  _ ← check (negb (StreamGap.observed_first_sample_ticks g <? next))
        (TimestampAlignmentError "stream gap describes an already emitted interval");
  let key := (StreamGap.kind g, StreamGap.run_id g, StreamGap.observed_sequence g,
              StreamGap.observed_first_sample_ticks g) in
  announced ← gets TimestampAligner._announced_gaps;
  _ ← check (bool_decide (announced !! key = None)) (TimestampAlignmentError "duplicate StreamGap announcement");
  max_pending ← gets TimestampAligner._max_pending_intervals;
  _ ← check (negb (2 * max_pending <=? Z.of_nat (size announced)))
        (TimestampAlignmentError "unmatched StreamGap storage is full");
  _ ← modify (set_announced (<[key := g]> announced));
  mret (outputs ++ [Gap g]).

(** [_validate_block_interval] *)
Definition _validate_block_interval (b : DataBlock) : aligner unit :=
  let coverage_ticks := _block_coverage_ticks b in
  _ ← check (u64 (block_end_tick b - block_ticks b) =? coverage_ticks)
        (TimestampAlignmentError "block does not cover one frame interval");
  _ ← check (block_ticks b mod coverage_ticks =? 0)
        (TimestampAlignmentError "block timestamp is not frame aligned");
  check (block_ticks b + coverage_ticks <=? UINT64_MAX)
    (TimestampAlignmentError "block interval crosses timestamp wrap").

(** [slot.adc is not None] or [slot.gpio is not None], for the side of the block. *)
Definition occupied (b : DataBlock) (p : PendingInterval) : bool :=
  match b with
  | AdcData _ => bool_decide (is_Some (PendingInterval.adc p))
  | GpioData _ => bool_decide (is_Some (PendingInterval.gpio p))
  end.

(** Lines 517-531: the block goes into its slot. *)
Definition store_block (b : DataBlock) : aligner unit :=
  pending ← gets TimestampAligner._pending;
  let slot := default (PendingInterval.mk None None) (pending !! block_ticks b) in
  _ ← check (negb (occupied b slot)) (AlignmentAssertionError "slot side is taken");
  modify (fun s =>
    let pending := <[block_ticks b := put_block b slot]> (TimestampAligner._pending s) in
    set_high_water (Z.max (TimestampAligner._high_water_intervals s) (Z.of_nat (size pending)))
      (set_pending pending s)).

(** [push] of a block. *)
Definition push_block (b : DataBlock) : aligner (list AlignmentItem) :=
  _ ← check (negb (bool_decide (block_profile b = V2RateProfile.ADC_1MHZ_GPIO_1MHZ)))
        (TimestampAlignmentError "equal-rate acquisition has four ADC frames per GPIO frame");
  _ ← _validate_block_interval b;
  epoch ← _activate_epoch (block_run_id b) (Some (block_source b)) (_block_coverage_ticks b)
            (Some (_block_profile_signature b));
  next ← gets TimestampAligner._next_output_ticks;
  _ ← check (negb (block_ticks b <? next)) (TimestampAlignmentError "late or reordered interval");
  pending ← gets TimestampAligner._pending;
  _ ← check (negb (default false (occupied b <$> pending !! block_ticks b)))
        (TimestampAlignmentError "duplicate interval");
  before ← _drain (block_ticks b);
  _ ← store_block b;
  pending ← gets TimestampAligner._pending;
  highest ← of_key (max_key pending);
  after ← _drain highest;
  s ← get;
  _ ← check (negb (TimestampAligner._max_pending_intervals s <? pending_intervals s))
        (AlignmentAssertionError "timestamp aligner exceeded its configured bound");
  mret (epoch ++ before ++ after).

(** [push] *)
Definition push (item : AlignmentInput) : aligner (list AlignmentItem) :=
  closed ← gets TimestampAligner._closed;
  _ ← check (negb closed) (TimestampAlignmentError "cannot push after finish()");
  match item with
  | InputGap g => _push_announced_gap g
  | InputBlock b => push_block b
  end.

(** [flush] *)
Definition flush : aligner (list AlignmentItem) :=
  closed ← gets TimestampAligner._closed;
  if (closed : bool) then mret [] else _flush_pending EXPLICIT_FLUSH.

(** [finish] *)
Definition finish : aligner (list AlignmentItem) :=
  closed ← gets TimestampAligner._closed;
  if (closed : bool) then mret []
  else
    outputs ← _flush_pending END_OF_INPUT;
    _ ← modify (set_announced ∅);
    _ ← modify (set_closed true);
    mret outputs.

(** The loop of [align_by_timestamp]: what the generator yields, and how it ends. *)
Fixpoint align_loop (items : list AlignmentInput) (s : TimestampAligner) :
    list AlignmentItem * result align_error unit :=
  match items with
  | [] =>
      match finish s with
      | (_, Ok out) => (out, Ok tt)
      | (_, Err e) => ([], Err e)
      end
  | item :: items =>
      match push item s with
      | (s, Ok out) => let '(rest, outcome) := align_loop items s in (out ++ rest, outcome)
      | (_, Err e) => ([], Err e)
      end
  end.

(** [align_by_timestamp] *)
Definition align_by_timestamp (items : list AlignmentInput) (max_pending_intervals : Z) :
    list AlignmentItem * result align_error unit :=
  match new_aligner max_pending_intervals with
  | Ok s => align_loop items s
  | Err e => ([], Err (AlignmentValueError e))
  end.
