(* ===== verification/AlignmentSpec.v ===== *)
(** * What the timestamp aligner promises.

    [walk] follows the items an aligner returns and checks that they tile the run's
    timeline from tick 0 on, that an interval without one side follows its loss record,
    that in each stream a block begins where the previous one ended or its interval carries
    the gap measured to it, and that a gap is yielded once, before the interval that
    carries it.  The invariant of the aligner ([epoch_inv], [windowed]) and the
    effect of every method are stated with [wp]: on return the items lead on and the
    blocks no longer pending are among them ([progress], [called]); on an error the
    invariant still holds ([refused]).  [Aligned] draws the conclusions. *)

From stdpp Require Import gmap.
From S2P Require Import Prelude PyStruct Checksum V3Constants V3Header Profiles Losses Blocks Continuity Effects Alignment.

(** ** The specification *)

Module Walk.
Record Walk := mk {
  run : Z;
  tick : Z;
  sequence : PerStream;
  ticks : PerStream;
  announced : Z;
  gaps : gmap gap_key StreamGap
}.
End Walk.
Abbreviation Walk := Walk.Walk.

Definition nowhere : Walk := Walk.mk 0 0 (PerStream.mk 0 0) (PerStream.mk 0 0) NO_STREAMS ∅.

(** A run begins at tick 0 with both streams at sequence 0. *)
Definition enter (run : Z) (w : Walk) : Walk :=
  if run =? Walk.run w then w else Walk.mk run 0 (PerStream.mk 0 0) (PerStream.mk 0 0) NO_STREAMS ∅.

(** The block a gap leads to, as a key. *)
Definition key_of_gap (g : StreamGap) : gap_key :=
  (StreamGap.kind g, StreamGap.run_id g, StreamGap.observed_sequence g, StreamGap.observed_first_sample_ticks g).

(** The yielded gaps that lead to [tick] or beyond. *)
Definition gaps_from (tick : Z) (gaps : gmap gap_key StreamGap) : gmap gap_key StreamGap :=
  filter (fun kg => tick <= kg.1.2) gaps.

(** Without a gap the block stands at the position and is not marked; with one it does not, or
    is marked, and the gap leads from the position to it and counts what is missing between. *)
Definition continues (sequence ticks : Z) (gap : option StreamGap) (b : DataBlock) : bool :=
  let here := (block_sequence b =? sequence) && (block_ticks b =? ticks) in
  match gap with
  | None => here && negb (marked_gap b)
  | Some g => (negb here || marked_gap b)
              && (StreamGap.expected_sequence g =? sequence) && (StreamGap.expected_first_sample_ticks g =? ticks)
              && bool_decide (key_of_gap g = block_key b)
              && (StreamGap.missing_frames g =? (block_sequence b - sequence) mod 2 ^ 32)
              && (StreamGap.missing_items g =? (block_ticks b - ticks) mod 2 ^ 64 / block_period b)
  end.

Definition walk_block (w : option Walk) (b : DataBlock) : option Walk :=
  w ← w;
  let kind := block_kind b in
  if continues (of_stream (Walk.sequence w) kind) (of_stream (Walk.ticks w) kind) (Walk.gaps w !! block_key b) b
  then Some (Walk.mk (Walk.run w) (Walk.tick w) (set_stream kind (u32 (block_sequence b + 1)) (Walk.sequence w))
               (set_stream kind (block_end_tick b) (Walk.ticks w)) (Walk.announced w) (Walk.gaps w))
  else None.

(** The gaps an interval must carry: those yielded for its blocks. *)
Definition gaps_yielded (w : Walk) (bs : list DataBlock) : list StreamGap :=
  omap (fun b => Walk.gaps w !! block_key b) bs.

Definition walk_item (w : Walk) (item : AlignmentItem) : option Walk :=
  match item with
  | Gap g =>
      let w := enter (StreamGap.run_id g) w in
      if (Walk.tick w <=? StreamGap.observed_first_sample_ticks g) && (Walk.announced w =? NO_STREAMS)
         && bool_decide (Walk.gaps w !! key_of_gap g = None)
      then Some (Walk.mk (Walk.run w) (Walk.tick w) (Walk.sequence w) (Walk.ticks w) (Walk.announced w)
                   (<[key_of_gap g := g]> (Walk.gaps w)))
      else None
  | Loss l =>
      let w := enter (AlignmentLoss.run_id l) w in
      if (AlignmentLoss.first_sample_ticks l =? Walk.tick w) && (Walk.announced w =? NO_STREAMS) then
        if AlignmentLoss.present_streams l =? NO_STREAMS
        then Some (Walk.mk (Walk.run w) (loss_end_tick l) (Walk.sequence w) (Walk.ticks w) NO_STREAMS
                     (gaps_from (loss_end_tick l) (Walk.gaps w)))
        else if AlignmentLoss.interval_count l =? 1
        then Some (Walk.mk (Walk.run w) (Walk.tick w) (Walk.sequence w) (Walk.ticks w) (AlignmentLoss.missing_streams l)
                     (Walk.gaps w))
        else None
      else None
  | Interval i =>
      b ← interval_reference i;
      let w := enter (block_run_id b) w in
      if (block_ticks b =? Walk.tick w) && (missing_streams i =? Walk.announced w)
         && bool_decide (AlignedInterval.stream_gaps i = gaps_yielded w (interval_blocks i))
      then
        w ← foldl walk_block (Some w) (interval_blocks i);
        let tick := Walk.tick w + _block_coverage_ticks b in
        Some (Walk.mk (Walk.run w) tick (Walk.sequence w) (Walk.ticks w) NO_STREAMS (gaps_from tick (Walk.gaps w)))
      else None
  end.

Definition walk (w : option Walk) (items : list AlignmentItem) : option Walk :=
  foldl (fun w item => w ≫= fun w => walk_item w item) w items.

Definition item_blocks (item : AlignmentItem) : list DataBlock :=
  match item with Interval i => interval_blocks i | _ => [] end.
Definition input_blocks (item : AlignmentInput) : list DataBlock :=
  match item with InputBlock b => [b] | InputGap _ => [] end.

Definition blocks_out (items : list AlignmentItem) : list DataBlock := concat (map item_blocks items).

(** The gaps yielded as items, those the yielded intervals carry, and those handed in. *)
Definition gaps_out (items : list AlignmentItem) : list StreamGap :=
  omap (fun item => match item with Gap g => Some g | _ => None end) items.
Definition gaps_carried (items : list AlignmentItem) : list StreamGap :=
  concat (map (fun item => match item with Interval i => AlignedInterval.stream_gaps i | _ => [] end) items).
Definition input_gaps (item : AlignmentInput) : list StreamGap :=
  match item with InputGap g => [g] | InputBlock _ => [] end.

Lemma walk_concat w xs ys : walk w (xs ++ ys) = walk (walk w xs) ys.
Proof. apply foldl_app. Qed.

Lemma blocks_out_app xs ys : blocks_out (xs ++ ys) = blocks_out xs ++ blocks_out ys.
Proof. unfold blocks_out. by rewrite map_app, concat_app. Qed.
Lemma gaps_out_app xs ys : gaps_out (xs ++ ys) = gaps_out xs ++ gaps_out ys.
Proof. apply omap_app. Qed.
Lemma gaps_carried_app xs ys : gaps_carried (xs ++ ys) = gaps_carried xs ++ gaps_carried ys.
Proof. unfold gaps_carried. by rewrite map_app, concat_app. Qed.

(** ** The least and the greatest key *)

Section Keys.
Context {A : Type}.
Implicit Types m : gmap Z A.

Lemma elem_of_keys m k : k ∈ keys m <-> is_Some (m !! k).
Proof.
  unfold keys. rewrite list_elem_of_fmap. split.
  - intros ([k' a] & -> & H). apply elem_of_map_to_list in H. by exists a.
  - intros [a H]. exists (k, a). split; [done|]. by apply elem_of_map_to_list.
Qed.

Lemma foldr_min_spec k ks : foldr Z.min k ks ∈ k :: ks /\ forall j, j ∈ k :: ks -> foldr Z.min k ks <= j.
Proof.
  induction ks as [|i ks [IHin IH]]; cbn [foldr].
  - split; [by left|]. intros j ->%list_elem_of_singleton. lia.
  - split.
    + destruct (Z.min_spec i (foldr Z.min k ks)) as [[_ ->]|[_ ->]]; [by right; left|].
      apply elem_of_cons in IHin as [->|IHin]; [by left|by right; right].
    + intros j Hj. assert (j = i \/ j ∈ k :: ks) as [->|Hj'] by (rewrite !elem_of_cons in *; tauto); [lia|]. specialize (IH j Hj'). lia.
Qed.

Lemma foldr_max_spec k ks : foldr Z.max k ks ∈ k :: ks /\ forall j, j ∈ k :: ks -> j <= foldr Z.max k ks.
Proof.
  induction ks as [|i ks [IHin IH]]; cbn [foldr].
  - split; [by left|]. intros j ->%list_elem_of_singleton. lia.
  - split.
    + destruct (Z.max_spec i (foldr Z.max k ks)) as [[_ ->]|[_ ->]]; [|by right; left].
      apply elem_of_cons in IHin as [->|IHin]; [by left|by right; right].
    + intros j Hj. assert (j = i \/ j ∈ k :: ks) as [->|Hj'] by (rewrite !elem_of_cons in *; tauto); [lia|]. specialize (IH j Hj'). lia.
Qed.

Lemma keys_nonempty m k : is_Some (m !! k) -> exists j js, keys m = j :: js.
Proof.
  intros Hk. apply elem_of_keys in Hk. destruct (keys m) as [|j js]; [by apply elem_of_nil in Hk|eauto].
Qed.

Lemma min_key_spec m k0 :
  is_Some (m !! k0) -> exists k, min_key m = Some k /\ is_Some (m !! k) /\ forall j, is_Some (m !! j) -> k <= j.
Proof.
  intros H. destruct (keys_nonempty m k0 H) as (j & js & Hkeys). unfold min_key. rewrite Hkeys.
  destruct (foldr_min_spec j js) as [Hin Hle]. eexists. split; [done|]. split.
  - apply elem_of_keys. by rewrite Hkeys.
  - intros i Hi%elem_of_keys. apply Hle. by rewrite <-Hkeys.
Qed.

Lemma max_key_spec m k0 :
  is_Some (m !! k0) -> exists k, max_key m = Some k /\ is_Some (m !! k) /\ forall j, is_Some (m !! j) -> j <= k.
Proof.
  intros H. destruct (keys_nonempty m k0 H) as (j & js & Hkeys). unfold max_key. rewrite Hkeys.
  destruct (foldr_max_spec j js) as [Hin Hle]. eexists. split; [done|]. split.
  - apply elem_of_keys. by rewrite Hkeys.
  - intros i Hi%elem_of_keys. apply Hle. by rewrite <-Hkeys.
Qed.

Lemma size_nonzero m : size m <> 0%nat -> exists k, is_Some (m !! k).
Proof.
  intros H. destruct (map_choose m) as (k & a & Hk); [|by exists k, a].
  intros ->. by rewrite map_size_empty in H.
Qed.

(** Keys on a grid, within a window of [n] steps, are at most [n]. *)
Lemma window_size m (n : nat) (base step : Z) :
  0 < step ->
  (forall k, is_Some (m !! k) -> k mod step = 0 /\ base <= k < base + Z.of_nat n * step) ->
  base mod step = 0 -> (size m <= n)%nat.
Proof.
  intros Hs Hm Hb. rewrite <-(size_dom (D := gset Z)).
  assert (Hsub : dom m ⊆ (list_to_set ((fun i => base + Z.of_nat i * step) <$> seq 0 n) : gset Z)).
  { intros k Hk%elem_of_dom. destruct (Hm k Hk) as [Hmod Hwin]. apply elem_of_list_to_set, list_elem_of_fmap.
    exists (Z.to_nat ((k - base) / step)).
    assert (Hd : k - base = (k - base) / step * step).
    { pose proof (Z.div_mod (k - base) step ltac:(lia)) as Hdm.
      rewrite Zminus_mod, Hmod, Hb, Z.sub_diag, Z.mod_0_l in Hdm by lia. lia. }
    assert (0 <= (k - base) / step < Z.of_nat n) by nia.
    rewrite Z2Nat.id by lia. split; [lia|]. apply elem_of_seq. lia. }
  apply subseteq_size in Hsub. etransitivity; [apply Hsub|].
  rewrite size_list_to_set.
  - by rewrite length_fmap, length_seq.
  - apply NoDup_fmap_2_strong; [|apply NoDup_seq]. intros i j _ _ H. nia.
Qed.
End Keys.

(** ** The measured gap of a block *)

(** A gap that leads from the expectation to the block. *)
Record leads_to (g : StreamGap) (sequence ticks : Z) (b : DataBlock) : Prop := {
  lt_kind : StreamGap.kind g = block_kind b;
  lt_run : StreamGap.run_id g = block_run_id b;
  lt_expected : StreamGap.expected_sequence g = sequence;
  lt_observed : StreamGap.observed_sequence g = block_sequence b;
  lt_from : StreamGap.expected_first_sample_ticks g = ticks;
  lt_to : StreamGap.observed_first_sample_ticks g = block_ticks b;
  lt_frames : StreamGap.missing_frames g = (block_sequence b - sequence) mod 2 ^ 32;
  lt_items : StreamGap.missing_items g = (block_ticks b - ticks) mod 2 ^ 64 / block_period b;
  lt_needed : (block_sequence b =? sequence) && (block_ticks b =? ticks) = true -> marked_gap b = true
}.

Lemma leads_to_signature g g' sequence ticks b :
  _gap_signature g = _gap_signature g' -> leads_to g' sequence ticks b -> leads_to g sequence ticks b.
Proof. intros H []. unfold _gap_signature in H. simplify_eq. constructor; done || congruence. Qed.

Lemma leads_to_key g sequence ticks b : leads_to g sequence ticks b -> key_of_gap g = block_key b.
Proof. intros []. unfold key_of_gap, block_key. congruence. Qed.

Lemma new_gap_fields kind run es os mf mi et ot rep over drops src items e period count variable g :
  new_gap kind run es os mf mi et ot rep over drops src items e period count variable = Ok g ->
  StreamGap.kind g = kind /\ StreamGap.run_id g = run /\ StreamGap.expected_sequence g = es /\
  StreamGap.observed_sequence g = os /\ StreamGap.expected_first_sample_ticks g = et /\
  StreamGap.observed_first_sample_ticks g = ot /\ StreamGap.missing_frames g = mf /\ StreamGap.missing_items g = mi.
Proof.
  unfold new_gap. cbv zeta. intros H. repeat (apply bind_Ok_inv in H as (? & _ & H)).
  apply Ok_inj in H. by subst g.
Qed.

Lemma from_expected_some b es et drops g : from_expected b es et drops = Ok (Some g) -> leads_to g es et b.
Proof.
  unfold from_expected. cbv zeta. intros H. repeat (apply bind_Ok_inv in H as (? & _ & H)).
  case_match eqn:Hz; [discriminate|]. apply bind_Ok_inv in H as (e & _ & H). apply bind_Ok_inv in H as (g' & Hg & H).
  apply Ok_inj in H. injection H as <-. apply new_gap_fields in Hg as (? & ? & ? & ? & ? & ? & Hf & Hi).
  rewrite u32_mod in Hf, Hz. rewrite u64_mod in Hi, Hz. constructor; try done.
  rewrite andb_true_iff, !Z.eqb_eq. intros [Hs Ht]. rewrite Hs, Ht, !Z.sub_diag in Hz. by destruct (marked_gap b).
Qed.

Lemma from_expected_none b es et drops :
  block_wf b -> 0 <= es < 2 ^ 32 -> 0 <= et < 2 ^ 64 -> from_expected b es et drops = Ok None ->
  block_sequence b = es /\ block_ticks b = et /\ marked_gap b = false.
Proof.
  intros Hb Hes Het. unfold from_expected. cbv zeta. intros H.
  repeat (apply bind_Ok_inv in H as (? & ?Hx & H)).
  case_match eqn:Hz; [|apply bind_Ok_inv in H as (? & _ & H); by apply bind_Ok_inv in H as (? & _ & H)].
  rewrite !andb_true_iff, !Z.eqb_eq, negb_true_iff in Hz. destruct Hz as [[Hs Ht] Hmark].
  repeat match goal with H : require _ _ = Ok _ |- _ => apply require_Ok in H end.
  rewrite u32_mod in Hs. rewrite u64_mod in *. pose proof (bw_sequence b Hb). pose proof (bw_ticks b Hb).
  pose proof (bw_period b Hb). split_and!; [..|exact Hmark].
  - pose proof (Z.mod_divide (block_sequence b - es) (2 ^ 32) ltac:(lia)) as [Hd _]. destruct (Hd Hs) as [q Hq]. pow_lit. nia.
  - assert (Hmod : (block_ticks b - et) mod 2 ^ 64 mod block_period b = 0) by lia.
    pose proof (Z.div_mod ((block_ticks b - et) mod 2 ^ 64) (block_period b) ltac:(lia)) as Hdm.
    rewrite Ht, Hmod in Hdm. assert (Hz : (block_ticks b - et) mod 2 ^ 64 = 0) by lia.
    pose proof (Z.mod_divide (block_ticks b - et) (2 ^ 64) ltac:(lia)) as [Hd _]. destruct (Hd Hz) as [q Hq]. pow_lit. nia.
Qed.

(** Measuring a gap raises nothing but the error the aligner translates. *)
Definition tame {A} (m : mdl A) : Prop := forall x, m <> Err (UncaughtError x).

Lemma tame_bind {A B} (m : mdl A) (k : A -> mdl B) : tame m -> (forall a, tame (k a)) -> tame (m ≫= k).
Proof. intros Hm Hk x. destruct m as [a|e]; cbn; [apply Hk|]. intros [= ->]. by apply (Hm x). Qed.
Lemma tame_require b (e : model_error) : tame (@Err model_error unit e) -> tame (require b e).
Proof. by destruct b. Qed.
Lemma tame_unsigned name v bits : tame (_unsigned name v bits).
Proof. by apply tame_require. Qed.
Lemma tame_nonnegative name v : tame (_nonnegative name v).
Proof. by apply tame_require. Qed.
Lemma tame_check_option check v : (forall n, tame (check n)) -> tame (check_option check v).
Proof. intros H. by destruct v; [apply H|]. Qed.
Create HintDb tame.
#[local] Hint Resolve tame_unsigned tame_nonnegative : tame.
#[local] Hint Extern 1 (tame (Ok _)) => discriminate : tame.
#[local] Hint Extern 1 (tame (Err _)) => discriminate : tame.
#[local] Hint Extern 2 (tame (require _ _)) => apply tame_require : tame.
#[local] Hint Extern 2 (tame (check_option _ _)) => apply tame_check_option; intros : tame.
#[local] Hint Extern 3 (tame (_ ≫= _)) => apply tame_bind; [|intros] : tame.
#[local] Hint Extern 4 (tame (match ?v with _ => _ end)) => destruct v : tame.

Lemma from_expected_tame b es et drops : tame (from_expected b es et drops).
Proof.
  unfold from_expected, flag_evidence, evidence_validate, new_gap, gap_evidence_check. cbv zeta.
  auto 40 with tame.
Qed.

(** ** The invariant *)

Module Epoch.
Record Epoch := mk { run : Z; coverage : Z; source : option Source; signature : option (Z * Z * Z) }.
End Epoch.
Abbreviation Epoch := Epoch.Epoch.

(** A block that belongs at tick [t] of the epoch. *)
Record placed (E : Epoch) (t : Z) (b : DataBlock) : Prop := {
  pl_wf : block_wf b;
  pl_run : block_run_id b = Epoch.run E;
  pl_ticks : block_ticks b = t;
  pl_coverage : _block_coverage_ticks b = Epoch.coverage E;
  pl_wrap : t + Epoch.coverage E <= UINT64_MAX;
  pl_source : Epoch.source E = Some (block_source b);
  pl_signature : Epoch.signature E = Some (_block_profile_signature b)
}.

Definition slot_ok (E : Epoch) (next t : Z) (p : PendingInterval) : Prop :=
  next <= t /\ t mod Epoch.coverage E = 0 /\ pending_blocks p <> [] /\ Forall (placed E t) (pending_blocks p).

Record epoch_inv (E : Epoch) (s : TimestampAligner) : Prop := {
  ei_max : 0 < TimestampAligner._max_pending_intervals s;
  ei_active : TimestampAligner._active_run_id s = Some (Epoch.run E);
  ei_run : 0 < Epoch.run E < 2 ^ 32;
  ei_coverage : TimestampAligner._frame_coverage_ticks s = Some (Epoch.coverage E);
  ei_positive : 0 < Epoch.coverage E;
  ei_source : TimestampAligner._active_source s = Epoch.source E;
  ei_signature : TimestampAligner._profile_signature s = Epoch.signature E;
  ei_next : 0 <= TimestampAligner._next_output_ticks s <= UINT64_MAX;
  ei_grid : TimestampAligner._next_output_ticks s mod Epoch.coverage E = 0;
  ei_sequence : forall kind, 0 <= of_stream (TimestampAligner._expected_sequence s) kind < 2 ^ 32;
  ei_ticks : forall kind, 0 <= of_stream (TimestampAligner._expected_ticks s) kind < 2 ^ 64;
  ei_pending : forall t p, TimestampAligner._pending s !! t = Some p ->
    slot_ok E (TimestampAligner._next_output_ticks s) t p;
  ei_announced : Z.of_nat (size (TimestampAligner._announced_gaps s))
                 <= 2 * TimestampAligner._max_pending_intervals s;
  ei_high : TimestampAligner._high_water_intervals s <= TimestampAligner._max_pending_intervals s
}.

Definition span_end (E : Epoch) (s : TimestampAligner) : Z :=
  TimestampAligner._next_output_ticks s + TimestampAligner._max_pending_intervals s * Epoch.coverage E.

(** Every pending interval lies in the lateness window. *)
Definition windowed (E : Epoch) (s : TimestampAligner) : Prop :=
  forall t, is_Some (TimestampAligner._pending s !! t) -> t < span_end E s.

(** Where the items returned so far must have led. *)
Definition standing (E : Epoch) (s : TimestampAligner) (gaps : gmap gap_key StreamGap) : Walk :=
  Walk.mk (Epoch.run E) (TimestampAligner._next_output_ticks s) (TimestampAligner._expected_sequence s)
    (TimestampAligner._expected_ticks s) NO_STREAMS gaps.
Definition position (E : Epoch) (s : TimestampAligner) : Walk := standing E s (TimestampAligner._announced_gaps s).

(** What a step of output may change. *)
Record advanced (s s' : TimestampAligner) : Prop := {
  ad_max : TimestampAligner._max_pending_intervals s' = TimestampAligner._max_pending_intervals s;
  ad_high : TimestampAligner._high_water_intervals s' = TimestampAligner._high_water_intervals s;
  ad_closed : TimestampAligner._closed s' = TimestampAligner._closed s;
  ad_next : TimestampAligner._next_output_ticks s <= TimestampAligner._next_output_ticks s';
  ad_pending : TimestampAligner._pending s' ⊆ TimestampAligner._pending s
}.

#[export] Instance advanced_preorder : PreOrder advanced.
Proof.
  split; [by constructor|]. intros s1 s2 s3 [] []. constructor; [congruence..|lia|by etransitivity].
Qed.

Lemma windowed_advanced E s s' : 0 < Epoch.coverage E -> windowed E s -> advanced s s' -> windowed E s'.
Proof.
  intros Hc Hw [Hm _ _ Hn Hp] t [p Ht]. specialize (Hw t (ex_intro _ p (lookup_weaken _ _ _ _ Ht Hp))).
  unfold span_end in *. rewrite Hm. lia.
Qed.

Definition own_error (e : align_error) : Prop := exists message, e = TimestampAlignmentError message.

Lemma slot_blocks_kinds adc gpio b : b ∈ slot_blocks adc gpio -> slot_side (block_kind b) adc gpio = Some b.
Proof.
  destruct adc, gpio; cbn; rewrite ?elem_of_cons, ?elem_of_nil; intros Hb; repeat destruct Hb as [->|Hb]; done.
Qed.

(** ** Continuity of one block *)

Definition leads (s : TimestampAligner) (b : DataBlock) (gap : option StreamGap) : Prop :=
  let sequence := of_stream (TimestampAligner._expected_sequence s) (block_kind b) in
  let ticks := of_stream (TimestampAligner._expected_ticks s) (block_kind b) in
  match gap with
  | None => block_sequence b = sequence /\ block_ticks b = ticks /\ marked_gap b = false
  | Some g => leads_to g sequence ticks b
  end.

(** An announced gap is the one the block gets; any other gap is yielded with its interval. *)
Definition accounts (s : TimestampAligner) (b : DataBlock) (c : ContinuityResult) : Prop :=
  match TimestampAligner._announced_gaps s !! block_key b with
  | Some a => ContinuityResult.gap c = Some a /\ ContinuityResult.emit_gap c = false /\
              ContinuityResult.announced_key c = Some (block_key b)
  | None => ContinuityResult.emit_gap c = bool_decide (is_Some (ContinuityResult.gap c)) /\
            ContinuityResult.announced_key c = None
  end.

Record result_for (s : TimestampAligner) (b : DataBlock) (c : ContinuityResult) : Prop := {
  rf_block : ContinuityResult.block c = b;
  rf_leads : leads s b (ContinuityResult.gap c);
  rf_accounts : accounts s b c
}.

Lemma continuity_result_wp E s b :
  epoch_inv E s -> block_wf b ->
  wp (_continuity_result b) (fun c s' => s' = s /\ result_for s b c) (fun e s' => s' = s /\ own_error e) s.
Proof.
  intros Hs Hb. unfold _continuity_result. do 3 wp_step.
  set (es := of_stream (TimestampAligner._expected_sequence s) (block_kind b)).
  set (et := of_stream (TimestampAligner._expected_ticks s) (block_kind b)).
  pose proof (from_expected_tame b es et 0) as Htame.
  destruct (from_expected b es et 0) as [computed|e] eqn:Hf; cycle 1.
  { destruct e; try (wp_step; split; [done|by eexists]). by destruct (Htame exception). }
  assert (Hcomputed : leads s b computed).
  { destruct computed as [g|]; [by apply from_expected_some in Hf|].
    by apply from_expected_none in Hf; [|done|apply Hs..]. }
  do 2 wp_step.
  assert (Hsupplied : forall supplied : option StreamGap,
    wp (E := align_error) (match supplied with
        | Some g => _ ← check (bool_decide (Some (_gap_signature g) = (_gap_signature <$> computed)))
                          (TimestampAlignmentError "StreamGap disagrees with aligned continuity"); mret (Some g)
        | None => mret computed end)
      (fun selected s' => s' = s /\ leads s b selected /\ forall g, supplied = Some g -> selected = Some g)
      (fun e s' => s' = s /\ own_error e) s).
  { intros [g|]; [|by wp_step]. do 2 wp_step; [|split; [done|by eexists]].
    apply bool_decide_eq_true in H. wp_step. split; [done|]. split; [|done]. destruct computed as [c|]; [|done].
    cbn in H. injection H as H. eapply (leads_to_signature g c); [|done]. unfold _gap_signature. congruence. }
  assert (Hboth : wp (E := align_error) (match TimestampAligner._announced_gaps s !! block_key b, embedded_gap b with
      | Some a, Some e => check (bool_decide (_gap_signature a = _gap_signature e))
            (TimestampAlignmentError "announced and ADC-attached StreamGap evidence disagree")
      | _, _ => mret tt end) (fun _ s' => s' = s) (fun e s' => s' = s /\ own_error e) s).
  { destruct (_ !! _) as [a|], (embedded_gap b) as [e|]; try (by wp_step). wp_step; [done|split; [done|by eexists]]. }
  eapply wp_consequence; [exact Hboth| |done]. intros _ ? ->. wp_step. eapply wp_consequence; [apply Hsupplied| |done].
  intros selected ? (-> & Hl & Hsel). wp_step. split; [done|]. split; [done|done|]. unfold accounts.
  destruct (TimestampAligner._announced_gaps s !! block_key b) as [a|]; cbn.
  - split; [by apply Hsel|]. split; [by rewrite andb_false_r|done].
  - by rewrite andb_true_r.
Qed.

Lemma each_continuity_wp E s bs :
  epoch_inv E s -> Forall block_wf bs ->
  wp (each _continuity_result bs) (fun cs s' => s' = s /\ Forall2 (result_for s) bs cs)
    (fun e s' => s' = s /\ own_error e) s.
Proof.
  intros Hs. induction 1 as [|b bs Hb _ IH]; cbn [each]; [by wp_step|].
  wp_step. eapply wp_consequence; [by apply (continuity_result_wp E)| |done].
  intros c ? [-> Hc]. wp_step. eapply wp_consequence; [exact IH| |done].
  intros cs ? [-> Hcs]. wp_step. split; [done|by constructor].
Qed.

(** ** Emitting a slot *)

Definition settle_state (s : TimestampAligner) (c : ContinuityResult) : TimestampAligner :=
  let b := ContinuityResult.block c in
  let s := set_expected (block_kind b) (u32 (block_sequence b + 1)) (block_end_tick b) s in
  match ContinuityResult.announced_key c with
  | Some key => set_announced (delete key (TimestampAligner._announced_gaps s)) s
  | None => s
  end.

Lemma settle_eq c s : settle c s = (settle_state s c, Ok tt).
Proof. by destruct c as [b g emit [key|]]. Qed.

Lemma each_settle cs s : each settle cs s = (foldl settle_state s cs, Ok (map (fun _ => tt) cs)).
Proof.
  revert s. induction cs as [|c cs IH]; intros s; [done|]. cbn [each foldl map].
  unfold mbind, effect_bind. by rewrite settle_eq, IH.
Qed.

(** Everything a settled slot leaves alone. *)
Record settled (s s' : TimestampAligner) : Prop := {
  st_max : TimestampAligner._max_pending_intervals s' = TimestampAligner._max_pending_intervals s;
  st_pending : TimestampAligner._pending s' = TimestampAligner._pending s;
  st_active : TimestampAligner._active_run_id s' = TimestampAligner._active_run_id s;
  st_source : TimestampAligner._active_source s' = TimestampAligner._active_source s;
  st_coverage : TimestampAligner._frame_coverage_ticks s' = TimestampAligner._frame_coverage_ticks s;
  st_signature : TimestampAligner._profile_signature s' = TimestampAligner._profile_signature s;
  st_next : TimestampAligner._next_output_ticks s' = TimestampAligner._next_output_ticks s;
  st_high : TimestampAligner._high_water_intervals s' = TimestampAligner._high_water_intervals s;
  st_closed : TimestampAligner._closed s' = TimestampAligner._closed s;
  st_announced : (size (TimestampAligner._announced_gaps s') <= size (TimestampAligner._announced_gaps s))%nat
}.

#[export] Instance settled_preorder : PreOrder settled.
Proof. split; [by constructor|]. intros s1 s2 s3 [] []. constructor; congruence || lia. Qed.

Lemma settle_state_settled s c : settled s (settle_state s c).
Proof.
  destruct s, c as [b g emit [key|]]; constructor; try done. cbn. apply map_subseteq_size, delete_subseteq.
Qed.

Lemma foldl_settled cs s : settled s (foldl settle_state s cs).
Proof.
  revert s. induction cs as [|c cs IH]; intros s; cbn [foldl]; [done|].
  etransitivity; [apply settle_state_settled|apply IH].
Qed.

Lemma u32_range v : 0 <= u32 v < 2 ^ 32.
Proof. rewrite u32_mod. by apply Z.mod_pos_bound. Qed.

Lemma end_tick_range b : 0 <= block_end_tick b < 2 ^ 64.
Proof.
  destruct b; cbn; unfold adc_end_tick_exclusive, gpio_end_tick_exclusive; rewrite u64_mod; by apply Z.mod_pos_bound.
Qed.

Lemma of_stream_set (P : Z -> Prop) kind v d :
  P v -> (forall k, P (of_stream d k)) -> forall k, P (of_stream (set_stream kind v d) k).
Proof.
  intros Hv Hd k. pose proof (Hd V1FrameKind.ADC_DATA) as Ha. pose proof (Hd V1FrameKind.GPIO_DATA) as Hg.
  unfold of_stream, set_stream in *. by repeat case_decide.
Qed.

Lemma settle_state_expected s c :
  let b := ContinuityResult.block c in
  TimestampAligner._expected_sequence (settle_state s c)
  = set_stream (block_kind b) (u32 (block_sequence b + 1)) (TimestampAligner._expected_sequence s) /\
  TimestampAligner._expected_ticks (settle_state s c)
  = set_stream (block_kind b) (block_end_tick b) (TimestampAligner._expected_ticks s).
Proof. by destruct s, c as [b g emit [key|]]. Qed.

Lemma settled_inv E s s' :
  epoch_inv E s -> settled s s' ->
  (forall k, 0 <= of_stream (TimestampAligner._expected_sequence s') k < 2 ^ 32) ->
  (forall k, 0 <= of_stream (TimestampAligner._expected_ticks s') k < 2 ^ 64) -> epoch_inv E s'.
Proof.
  intros [] [] H1 H2. constructor; try done; try congruence; try lia.
  all: rewrite ?st_next0, ?st_pending0; done.
Qed.

Lemma settle_state_inv E s c : epoch_inv E s -> epoch_inv E (settle_state s c).
Proof.
  intros Hs. destruct (settle_state_expected s c) as [H1 H2].
  apply (settled_inv E s); [done|apply settle_state_settled|rewrite H1|rewrite H2];
    apply (of_stream_set (fun v => 0 <= v < _)); (apply u32_range || apply end_tick_range || apply Hs).
Qed.

Lemma foldl_settle_inv E cs s : epoch_inv E s -> epoch_inv E (foldl settle_state s cs).
Proof. revert s. induction cs as [|c cs IH]; intros s Hs; cbn [foldl]; [done|]. by apply IH, settle_state_inv. Qed.

(** *** Advancing *)

Definition advance_state (next_ticks : Z) (s : TimestampAligner) : TimestampAligner :=
  let s := set_next_output next_ticks s in
  set_announced (filter (fun kg => next_ticks <= kg.1.2) (TimestampAligner._announced_gaps s)) s.

Lemma advance_eq E s n :
  epoch_inv E s ->
  let next := TimestampAligner._next_output_ticks s + n * Epoch.coverage E in
  next <= UINT64_MAX -> _advance n s = (advance_state next s, Ok tt).
Proof.
  intros Hs next Hn. unfold _advance, _required_frame_coverage_ticks, mbind, effect_bind, gets.
  rewrite (ei_coverage E s Hs). cbn -[Z.leb UINT64_MAX].
  fold next. by rewrite (proj2 (Z.leb_le _ _) Hn).
Qed.

Lemma advance_state_inv E s next :
  epoch_inv E s -> TimestampAligner._next_output_ticks s <= next <= UINT64_MAX -> next mod Epoch.coverage E = 0 ->
  (forall t, is_Some (TimestampAligner._pending s !! t) -> next <= t) ->
  epoch_inv E (advance_state next s).
Proof.
  intros [] Hn Hg Hp. destruct s. constructor; cbn in *; try done; try lia.
  - intros t p Ht. destruct (ei_pending0 t p Ht) as (_ & Hm & Hne & Hpl). split; [by apply Hp; exists p|done].
  - etransitivity; [|exact ei_announced0]. apply inj_le, map_subseteq_size, map_filter_subseteq.
Qed.

(** *** Losses and intervals *)

Definition loss_at (E : Epoch) (source : Source) (reason : AlignmentLossReason) (first count present : Z) :
    AlignmentLoss :=
  AlignmentLoss.mk reason (Epoch.run E) source first count present (Z.lxor _BOTH_STREAMS present)
    (Epoch.coverage E).

Lemma alignment_loss_eq E s source reason n present :
  epoch_inv E s -> Epoch.source E = Some source -> 0 < n -> present ∈ [0; 1; 2] ->
  TimestampAligner._next_output_ticks s + n * Epoch.coverage E <= UINT64_MAX ->
  _alignment_loss reason (TimestampAligner._next_output_ticks s) n present s
  = (s, Ok (loss_at E source reason (TimestampAligner._next_output_ticks s) n present)).
Proof.
  intros Hs Hsrc Hn Hp Hw. pose proof (ei_run E s Hs). pose proof (ei_next E s Hs). pose proof (ei_positive E s Hs).
  unfold _alignment_loss, _required_frame_coverage_ticks, mbind, effect_bind, gets.
  rewrite (ei_active E s Hs), (ei_source E s Hs), Hsrc. cbn -[alignment_loss_validate].
  rewrite (ei_coverage E s Hs). cbn -[alignment_loss_validate].
  fold (loss_at E source reason (TimestampAligner._next_output_ticks s) n present).
  assert (Hl : alignment_loss_validate (loss_at E source reason (TimestampAligner._next_output_ticks s) n present)
               = Ok (loss_at E source reason (TimestampAligner._next_output_ticks s) n present)); [|by rewrite Hl].
  unfold alignment_loss_validate, loss_at.
  cbn [AlignmentLoss.run_id AlignmentLoss.first_sample_ticks AlignmentLoss.frame_coverage_ticks
       AlignmentLoss.interval_count AlignmentLoss.present_streams AlignmentLoss.missing_streams].
  unfold UINT64_MAX in *.
  rewrite (proj2 (unsigned_Ok _ (Epoch.run E) 32 ltac:(lia))), (proj2 (unsigned_Ok _ (TimestampAligner._next_output_ticks s) 64 ltac:(lia)))
    by (pow_lit; lia).
  rewrite (proj2 (Z.eqb_neq (Epoch.run E) 0)), (proj2 (Z.ltb_lt 0 (Epoch.coverage E))), (ei_grid E s Hs),
    (proj2 (Z.ltb_lt 0 n)), (proj2 (Z.leb_le _ _) Hw) by lia.
  cbn [mbind result_bind require negb Z.eqb].
  rewrite !elem_of_cons, elem_of_nil in Hp. by destruct Hp as [->|[->|[->|[]]]].
Qed.

Lemma placed_end E t b : 0 <= t -> placed E t b -> block_end_tick b = t + Epoch.coverage E.
Proof.
  intros Ht [Hb _ <- Hc Hw _ _]. rewrite <-Hc. unfold UINT64_MAX in Hw.
  pose proof (bw_count b Hb). pose proof (bw_period b Hb).
  assert (0 < _block_coverage_ticks b) by (unfold _block_coverage_ticks; nia).
  transitivity (u64 (block_ticks b + _block_coverage_ticks b)).
  - by destruct b.
  - rewrite u64_mod, Z.mod_small; [done|]. pow_lit. lia.
Qed.

Lemma reference_ok E t b :
  0 <= t -> t mod Epoch.coverage E = 0 -> 0 < Epoch.coverage E -> placed E t b -> interval_reference_check b = Ok tt.
Proof.
  intros Ht Hm Hc Hb. pose proof (placed_end E t b Ht Hb) as He. destruct Hb as [_ _ Ht' Hcov Hw _ _].
  unfold interval_reference_check. rewrite He, Ht', Hcov, Hm. unfold UINT64_MAX in *.
  rewrite u64_mod, Z.mod_small by (pow_lit; lia).
  rewrite (proj2 (Z.eqb_eq (t + Epoch.coverage E - t) (Epoch.coverage E))), (proj2 (Z.leb_le _ _) Hw) by lia.
  done.
Qed.

Lemma pair_ok E t a g : 0 <= t -> placed E t a -> placed E t g -> interval_pair_check a g = Ok tt.
Proof.
  intros Ht Ha Hg. pose proof (placed_end E t a Ht Ha) as Hea. pose proof (placed_end E t g Ht Hg) as Heg.
  destruct Ha as [_ Har Hat _ _ Has Hax], Hg as [_ Hgr Hgt _ _ Hgs Hgx].
  rewrite Has in Hgs. apply Some_inj' in Hgs. rewrite Hax in Hgx. apply Some_inj' in Hgx.
  unfold interval_pair_check. rewrite Har, Hgr, Hat, Hgt, Hea, Heg, Hgs, Hgx, !Z.eqb_refl.
  by rewrite !bool_decide_eq_true_2.
Qed.

Lemma gaps_check_cons adc gpio seen g gaps sequence ticks b :
  leads_to g sequence ticks b -> slot_side (block_kind b) adc gpio = Some b -> block_kind b ∉ seen ->
  interval_gaps_check adc gpio seen (g :: gaps) = interval_gaps_check adc gpio (block_kind b :: seen) gaps.
Proof.
  intros [Hk Hr _ Hs _ Ht] Hside Hseen. cbn [interval_gaps_check]. rewrite Hk, Hside, Hr, Hs, Ht, !Z.eqb_refl.
  by rewrite bool_decide_eq_false_2.
Qed.

(** The blocks of a slot differ in kind, so their gaps describe one side each. *)
Lemma gaps_check_ok s adc gpio bs cs seen :
  Forall2 (result_for s) bs cs -> (forall b, b ∈ bs -> slot_side (block_kind b) adc gpio = Some b) ->
  NoDup (map block_kind bs) -> (forall b, b ∈ bs -> block_kind b ∉ seen) ->
  interval_gaps_check adc gpio seen (omap ContinuityResult.gap cs) = Ok tt.
Proof.
  intros Hcs. revert seen. induction Hcs as [|b [b' [g|] emit key] bs cs [Hb Hl] Hcs IH]; intros seen Hside Hnd Hseen;
    [done|..]; cbn in Hb; subst b'; cbn [omap list_omap ContinuityResult.gap]; apply NoDup_cons in Hnd as [Hnb Hnd].
  - rewrite (gaps_check_cons _ _ _ _ _ _ _ _ Hl) by (apply Hside || apply Hseen; by left).
    apply IH; [intros c Hc; apply Hside; by right|done|]. intros c Hc [He|Hin]%elem_of_cons.
    + apply Hnb, list_elem_of_fmap. by exists c.
    + revert Hin. apply Hseen. by right.
  - apply IH; [intros c Hc; apply Hside; by right|done|]. intros c Hc. apply Hseen. by right.
Qed.

Lemma slot_kinds_NoDup adc gpio : NoDup (map block_kind (slot_blocks adc gpio)).
Proof. destruct adc, gpio; cbn; repeat constructor; rewrite ?elem_of_cons, ?elem_of_nil; intuition discriminate. Qed.

Lemma gaps_ok s adc gpio cs :
  Forall2 (result_for s) (slot_blocks adc gpio) cs ->
  interval_gaps_check adc gpio [] (omap ContinuityResult.gap cs) = Ok tt.
Proof.
  intros H. apply (gaps_check_ok s _ _ _ _ _ H); [intros b; apply slot_blocks_kinds|apply slot_kinds_NoDup|].
  intros b _. apply not_elem_of_nil.
Qed.

Lemma new_interval_ok E s next t p cs :
  0 <= next -> 0 < Epoch.coverage E -> slot_ok E next t p -> Forall2 (result_for s) (pending_blocks p) cs ->
  new_interval (PendingInterval.adc p) (PendingInterval.gpio p) (omap ContinuityResult.gap cs)
  = Ok (AlignedInterval.mk (PendingInterval.adc p) (PendingInterval.gpio p) (omap ContinuityResult.gap cs)).
Proof.
  intros Hn Hc (Ht & Hm & Hne & Hpl) Hcs. unfold new_interval.
  pose proof (gaps_ok s _ _ cs Hcs) as Hgaps.
  assert (Hr : exists b, head (pending_blocks p) = Some b /\ placed E t b).
  { destruct (pending_blocks p) as [|b bs]; [done|]. apply Forall_cons in Hpl as [Hb _]. by exists b. }
  destruct Hr as (b & Hr & Hb). fold (pending_blocks p). rewrite Hr. cbn [of_option mbind result_bind].
  rewrite (reference_ok E t b) by (done || lia). cbn [mbind result_bind]. rewrite Hgaps.
  destruct p as [[a|] [g|]]; cbn [PendingInterval.adc PendingInterval.gpio mbind result_bind]; try done.
  cbn in Hpl. rewrite !Forall_cons in Hpl. rewrite (pair_ok E t) by (lia || apply Hpl). done.
Qed.

(** *** The items of one slot lead on *)

(** The gaps that an interval yields itself. *)
Definition own_gaps (cs : list ContinuityResult) : list StreamGap :=
  omap (fun r => if ContinuityResult.emit_gap r then ContinuityResult.gap r else None) cs.

Definition add_gaps (gs : list StreamGap) (m : gmap gap_key StreamGap) : gmap gap_key StreamGap :=
  foldl (fun m g => <[key_of_gap g := g]> m) m gs.

Lemma add_gaps_other gs key : forall m, key ∉ map key_of_gap gs -> add_gaps gs m !! key = m !! key.
Proof.
  induction gs as [|g gs IH]; intros m Hk; [done|]. cbn [map] in Hk. apply not_elem_of_cons in Hk as [Hne Hk]. cbn [add_gaps foldl].
  etransitivity; [by apply IH|]. by apply lookup_insert_ne.
Qed.

(** What a result yields itself leads to its block and was not announced. *)
Lemma own_gaps_cons s b c cs :
  result_for s b c ->
  own_gaps (c :: cs) = own_gaps cs /\ TimestampAligner._announced_gaps s !! block_key b = ContinuityResult.gap c \/
  exists g, own_gaps (c :: cs) = g :: own_gaps cs /\ ContinuityResult.gap c = Some g /\ leads s b (Some g) /\
    key_of_gap g = block_key b /\ TimestampAligner._announced_gaps s !! block_key b = None.
Proof.
  intros [_ Hl Ha]. unfold own_gaps. cbn [omap list_omap]. unfold accounts in Ha.
  destruct (TimestampAligner._announced_gaps s !! block_key b) as [a|].
  - destruct Ha as (-> & -> & _). by left.
  - destruct Ha as [-> _]. destruct (ContinuityResult.gap c) as [g|]; [|by left]. right. exists g. split_and!; try done.
    by eapply leads_to_key.
Qed.

Lemma own_keys s bs cs key :
  Forall2 (result_for s) bs cs -> key ∈ map key_of_gap (own_gaps cs) -> key ∈ map block_key bs.
Proof.
  induction 1 as [|b c bs cs Hc _ IH]; [done|]. cbn [map]. rewrite elem_of_cons.
  destruct (own_gaps_cons s b c cs Hc) as [[-> _]|(g & -> & _ & _ & Hk & _)]; [by auto|].
  cbn [map]. rewrite elem_of_cons, Hk. intros [->|Hin]; auto.
Qed.

Lemma block_key_kind b bs : block_kind b ∉ map block_kind bs -> block_key b ∉ map block_key bs.
Proof.
  intros H Hin. apply H. apply list_elem_of_fmap in Hin as (c & Hk & Hc). apply list_elem_of_fmap. exists c.
  split; [|done]. unfold block_key in Hk. congruence.
Qed.

(** With them, the gaps yielded for the blocks of a slot are exactly the ones measured. *)
Lemma add_own_gaps s bs cs :
  Forall2 (result_for s) bs cs -> NoDup (map block_kind bs) ->
  forall m, (forall b, b ∈ bs -> m !! block_key b = TimestampAligner._announced_gaps s !! block_key b) ->
  Forall2 (fun b c => add_gaps (own_gaps cs) m !! block_key b = ContinuityResult.gap c) bs cs.
Proof.
  induction 1 as [|b c bs cs Hc Hcs IH]; intros Hnd m Hm; [constructor|]. cbn [map] in Hnd. apply NoDup_cons in Hnd as [Hk Hnd].
  apply block_key_kind in Hk. pose proof (fun H => Hk (own_keys s bs cs _ Hcs H)) as Hother.
  destruct (own_gaps_cons s b c cs Hc) as [[-> Ha]|(g & -> & Hg & _ & Hkey & _)].
  - constructor; [by rewrite add_gaps_other, Hm by (done || by left)|]. apply IH; [done|]. intros d Hd. apply Hm. by right.
  - cbn [add_gaps foldl]. constructor.
    + etransitivity; [by apply add_gaps_other|]. by rewrite Hkey, lookup_insert_eq.
    + apply IH; [done|]. intros d Hd. rewrite lookup_insert_ne; [by apply Hm; right|].
      rewrite Hkey. intros He. apply Hk. rewrite He. by apply list_elem_of_fmap_2.
Qed.

Lemma gaps_yielded_results w bs cs :
  Forall2 (fun b c => Walk.gaps w !! block_key b = ContinuityResult.gap c) bs cs ->
  gaps_yielded w bs = omap ContinuityResult.gap cs.
Proof.
  induction 1 as [|b c bs cs Hb _ IH]; [done|]. unfold gaps_yielded in *. cbn [omap list_omap]. by rewrite Hb, IH.
Qed.

(** Settling a slot forgets the announced gaps of its blocks only. *)
Lemma settle_announced s s' bs cs key :
  Forall2 (result_for s) bs cs -> key ∉ map block_key bs ->
  TimestampAligner._announced_gaps (foldl settle_state s' cs) !! key = TimestampAligner._announced_gaps s' !! key.
Proof.
  intros H. revert s'. induction H as [|b c bs cs [_ _ Hc] _ IH]; intros s' Hk; [done|]. cbn [map] in Hk.
  apply not_elem_of_cons in Hk as [Hne Hk]. cbn [foldl]. rewrite IH by done.
  assert (Hkey : ContinuityResult.announced_key c = Some (block_key b) \/ ContinuityResult.announced_key c = None).
  { unfold accounts in Hc. destruct (TimestampAligner._announced_gaps s !! block_key b); [left|right]; apply Hc. }
  unfold settle_state. destruct s'. destruct Hkey as [-> | ->]; cbn; [by apply lookup_delete_ne|done].
Qed.

Lemma gaps_from_ext tick m1 m2 :
  (forall key : gap_key, tick <= key.2 -> m1 !! key = m2 !! key) -> gaps_from tick m1 = gaps_from tick m2.
Proof.
  intros H. apply map_filter_strong_ext. intros key g. cbn. split; intros [Hle Hg]; (split; [done|]).
  - by rewrite <-H.
  - by rewrite H.
Qed.

(** The gaps an interval leaves for later ones. *)
Lemma gaps_left s bs cs t next :
  Forall2 (result_for s) bs cs -> (forall b, b ∈ bs -> block_ticks b = t) -> t < next ->
  gaps_from next (add_gaps (own_gaps cs) (TimestampAligner._announced_gaps s))
  = gaps_from next (TimestampAligner._announced_gaps (foldl settle_state s cs)).
Proof.
  intros Hcs Ht Hlt. apply gaps_from_ext. intros key Hle.
  assert (Hkey : key ∉ map block_key bs).
  { intros Hin. apply list_elem_of_fmap in Hin as (b & -> & Hb). specialize (Ht b Hb). cbn in Hle. lia. }
  rewrite (settle_announced s s bs cs) by done. apply add_gaps_other. intros Hin. by apply Hkey, (own_keys s bs cs).
Qed.

Lemma of_stream_set_eq kind v d : data_kind kind = true -> of_stream (set_stream kind v d) kind = v.
Proof. unfold of_stream, set_stream. by destruct kind. Qed.
Lemma of_stream_set_ne kind kind' v d :
  data_kind kind = true -> data_kind kind' = true -> kind <> kind' ->
  of_stream (set_stream kind v d) kind' = of_stream d kind'.
Proof. unfold of_stream, set_stream. by destruct kind, kind'. Qed.

(** A walk standing where [s'] expects the blocks to continue follows their settlement. *)
Lemma walk_blocks s s' gaps bs cs run tick announced :
  Forall2 (result_for s) bs cs -> Forall2 (fun b c => gaps !! block_key b = ContinuityResult.gap c) bs cs ->
  NoDup (map block_kind bs) ->
  (forall b, b ∈ bs ->
     of_stream (TimestampAligner._expected_sequence s') (block_kind b)
     = of_stream (TimestampAligner._expected_sequence s) (block_kind b) /\
     of_stream (TimestampAligner._expected_ticks s') (block_kind b)
     = of_stream (TimestampAligner._expected_ticks s) (block_kind b)) ->
  foldl walk_block
    (Some (Walk.mk run tick (TimestampAligner._expected_sequence s') (TimestampAligner._expected_ticks s') announced gaps)) bs
  = Some (Walk.mk run tick (TimestampAligner._expected_sequence (foldl settle_state s' cs))
            (TimestampAligner._expected_ticks (foldl settle_state s' cs)) announced gaps).
Proof.
  intros Hcs. revert s'. induction Hcs as [|b c bs cs [Hb Hl _] Hcs IH]; intros s' Hgaps Hnd Hs; [done|].
  apply Forall2_cons in Hgaps as [Hgap Hgaps]. cbn [map] in Hnd. apply NoDup_cons in Hnd as [Hk Hnd].
  destruct (Hs b (list_elem_of_here _ _)) as [Hseq Htick]. cbn [foldl].
  assert (Hstep : walk_block
      (Some (Walk.mk run tick (TimestampAligner._expected_sequence s') (TimestampAligner._expected_ticks s') announced gaps)) b
    = Some (Walk.mk run tick (TimestampAligner._expected_sequence (settle_state s' c))
              (TimestampAligner._expected_ticks (settle_state s' c)) announced gaps)).
  { destruct (settle_state_expected s' c) as [-> ->]. rewrite Hb.
    unfold walk_block. cbn [mbind option_bind Walk.sequence Walk.ticks Walk.run Walk.tick Walk.announced Walk.gaps].
    rewrite Hseq, Htick, Hgap. unfold continues. unfold leads in Hl.
    destruct (ContinuityResult.gap c) as [g|].
    - pose proof (leads_to_key _ _ _ _ Hl) as Hkey. destruct Hl as [_ _ -> _ -> _ -> -> Hneed].
      rewrite bool_decide_eq_true_2, !Z.eqb_refl, !andb_true_r by done.
      destruct ((block_sequence b =? _) && _); [|done]. by rewrite Hneed.
    - destruct Hl as (-> & -> & ->). by rewrite !Z.eqb_refl. }
  rewrite Hstep. apply IH; [done|done|]. intros b' Hb'.
  destruct (Hs b' (list_elem_of_further _ _ _ Hb')) as [<- <-].
  destruct (settle_state_expected s' c) as [-> ->]. rewrite Hb.
  assert (Hne : block_kind b <> block_kind b').
  { intros He. apply Hk. rewrite He. apply list_elem_of_fmap. by exists b'. }
  by rewrite !of_stream_set_ne by (apply block_data_kind || exact Hne).
Qed.

(** From the position of [s] these items lead to the position of [s']. *)
Definition emits (E : Epoch) (s s' : TimestampAligner) (out : list AlignmentItem) : Prop :=
  forall w, enter (Epoch.run E) w = position E s ->
  exists w', walk (Some w) out = Some w' /\ enter (Epoch.run E) w' = position E s' /\
    (out <> [] -> Walk.run w' = Epoch.run E).

Lemma enter_here w : enter (Walk.run w) w = w.
Proof. unfold enter. by rewrite Z.eqb_refl. Qed.

Lemma emits_nil E s : emits E s s [].
Proof. intros w Hw. by exists w. Qed.

Lemma emits_app E s1 s2 s3 xs ys : emits E s1 s2 xs -> emits E s2 s3 ys -> emits E s1 s3 (xs ++ ys).
Proof.
  intros H1 H2 w Hw. destruct (H1 w Hw) as (w1 & Hw1 & Hp1 & Hr1). destruct (H2 w1 Hp1) as (w2 & Hw2 & Hp2 & Hr2).
  exists w2. split; [by rewrite walk_concat, Hw1|]. split; [done|]. intros Hne.
  destruct ys as [|y ys]; [|by apply Hr2]. cbn in Hw2. injection Hw2 as <-. apply Hr1.
  intros ->. done.
Qed.

(** One item that leads from the position itself. *)
Lemma emits_item E s s' item :
  (forall w, enter (Epoch.run E) w = position E s -> walk_item w item = Some (position E s')) -> emits E s s' [item].
Proof.
  intros H w Hw. exists (position E s'). cbn. split; [by apply H|]. split; [|done].
  apply (enter_here (position E s')).
Qed.

(** The gaps of a slot are yielded one by one. *)
Lemma walk_gaps E s bs cs :
  Forall2 (result_for s) bs cs -> Forall (fun b => block_run_id b = Epoch.run E) bs ->
  (forall b, b ∈ bs -> block_ticks b = TimestampAligner._next_output_ticks s) -> NoDup (map block_kind bs) ->
  forall m w, (forall b, b ∈ bs -> m !! block_key b = TimestampAligner._announced_gaps s !! block_key b) ->
  enter (Epoch.run E) w = standing E s m ->
  exists w', walk (Some w) (map Gap (own_gaps cs)) = Some w' /\
    enter (Epoch.run E) w' = standing E s (add_gaps (own_gaps cs) m).
Proof.
  induction 1 as [|b c bs cs Hc Hcs IH]; intros Hrun Ht Hnd m w Hm Hw; [by exists w|].
  apply Forall_cons in Hrun as [Hrb Hrun]. cbn [map] in Hnd. apply NoDup_cons in Hnd as [Hk Hnd].
  destruct (own_gaps_cons s b c cs Hc) as [[-> _]|(g & -> & _ & Hl & Hkey & Hnone)].
  { apply (IH Hrun); try done; intros d Hd; [apply Ht|apply Hm]; by right. }
  cbn [map add_gaps foldl walk mbind option_bind]. pose proof (lt_run _ _ _ _ Hl) as Hg. rewrite Hrb in Hg.
  assert (Hstep : walk_item w (Gap g) = Some (standing E s (<[key_of_gap g := g]> m))).
  { unfold walk_item. rewrite Hg, Hw. cbn [standing Walk.run Walk.tick Walk.sequence Walk.ticks Walk.announced Walk.gaps].
    rewrite (lt_to _ _ _ _ Hl), (Ht b) by (by left). rewrite Z.leb_refl, Hkey, Hm, Hnone by (by left). done. }
  rewrite Hstep. apply (IH Hrun); [intros d Hd; apply Ht; by right|done| |apply (enter_here (standing E s _))].
  intros d Hd. rewrite lookup_insert_ne; [apply Hm; by right|]. rewrite Hkey. apply block_key_kind in Hk.
  intros He. apply Hk. rewrite He. by apply list_elem_of_fmap_2.
Qed.

Lemma emits_loss E s source reason n :
  emits E s (advance_state (TimestampAligner._next_output_ticks s + n * Epoch.coverage E) s)
    [Loss (loss_at E source reason (TimestampAligner._next_output_ticks s) n NO_STREAMS)].
Proof.
  apply emits_item. intros w Hw. unfold walk_item. cbn [loss_at AlignmentLoss.run_id]. rewrite Hw.
  cbn [position loss_at AlignmentLoss.first_sample_ticks AlignmentLoss.present_streams Walk.tick Walk.announced].
  rewrite Z.eqb_refl. cbn. by destruct s.
Qed.

(** The interval of a slot, its gaps yielded and its missing sides announced, leads to the
    next interval. *)
Lemma walk_interval E s p cs s' w :
  epoch_inv E s -> TimestampAligner._pending s !! TimestampAligner._next_output_ticks s = Some p ->
  Forall2 (result_for s) (pending_blocks p) cs ->
  let i := AlignedInterval.mk (PendingInterval.adc p) (PendingInterval.gpio p) (omap ContinuityResult.gap cs) in
  let gaps := add_gaps (own_gaps cs) (TimestampAligner._announced_gaps s) in
  enter (Epoch.run E) w
  = Walk.mk (Epoch.run E) (TimestampAligner._next_output_ticks s) (TimestampAligner._expected_sequence s)
      (TimestampAligner._expected_ticks s) (missing_streams i) gaps ->
  TimestampAligner._next_output_ticks s' = TimestampAligner._next_output_ticks s + Epoch.coverage E ->
  TimestampAligner._expected_sequence s' = TimestampAligner._expected_sequence (foldl settle_state s cs) ->
  TimestampAligner._expected_ticks s' = TimestampAligner._expected_ticks (foldl settle_state s cs) ->
  TimestampAligner._announced_gaps s'
  = gaps_from (TimestampAligner._next_output_ticks s + Epoch.coverage E) (TimestampAligner._announced_gaps (foldl settle_state s cs)) ->
  walk_item w (Interval i) = Some (position E s').
Proof.
  intros Hs Hp Hcs i gaps Hw Hnext Hseq Hticks Hann. destruct (ei_pending E s Hs _ _ Hp) as (_ & _ & Hne & Hpl).
  assert (Hnd : NoDup (map block_kind (pending_blocks p))) by apply slot_kinds_NoDup.
  assert (Hall : Forall2 (fun b c => gaps !! block_key b = ContinuityResult.gap c) (pending_blocks p) cs)
    by by apply (add_own_gaps s).
  assert (Hleft := gaps_left s (pending_blocks p) cs (TimestampAligner._next_output_ticks s)
    (TimestampAligner._next_output_ticks s + Epoch.coverage E) Hcs). rewrite <-Hleft in Hann; cycle 1.
  { intros b Hb. rewrite Forall_forall in Hpl. apply (pl_ticks _ _ _ (Hpl b Hb)). }
  { pose proof (ei_positive E s Hs). lia. }
  clear Hleft. unfold walk_item, interval_reference. change (interval_blocks i) with (pending_blocks p).
  destruct (pending_blocks p) as [|b bs] eqn:Hbs; [done|]. cbn [head mbind option_bind].
  apply Forall_cons in Hpl as [[_ Hrun Ht Hcov _ _ _] _]. rewrite Hrun, Hw.
  cbn [Walk.tick Walk.announced]. rewrite Ht, !Z.eqb_refl. cbn [andb].
  rewrite bool_decide_eq_true_2 by (symmetry; by apply gaps_yielded_results).
  rewrite (walk_blocks s s gaps (b :: bs) cs) by done.
  cbn [mbind option_bind Walk.run Walk.tick Walk.sequence Walk.ticks Walk.gaps].
  unfold position, standing. by rewrite Hcov, Hnext, Hseq, Hticks, Hann.
Qed.

Lemma present_incomplete p :
  pending_blocks p <> [] -> complete p = false ->
  present_streams (PendingInterval.adc p) (PendingInterval.gpio p) ∈ [1; 2].
Proof. destruct p as [[a|] [g|]]; try done; intros _ _; cbn; rewrite !elem_of_cons; auto. Qed.

Lemma grid_next cov next t : 0 < cov -> next mod cov = 0 -> t mod cov = 0 -> next < t -> next + cov <= t.
Proof.
  intros Hc Hn Ht Hlt. pose proof (Z.div_mod next cov ltac:(lia)). pose proof (Z.div_mod t cov ltac:(lia)).
  assert (next / cov < t / cov) by nia. nia.
Qed.

(** [_emit_slot] at the next output interval. *)
Definition slot_emitted (E : Epoch) (s : TimestampAligner) (p : PendingInterval) (out : list AlignmentItem)
    (s' : TimestampAligner) : Prop :=
  let next := TimestampAligner._next_output_ticks s in
  epoch_inv E s' /\ advanced s s' /\ TimestampAligner._pending s' = delete next (TimestampAligner._pending s) /\
  TimestampAligner._next_output_ticks s' = next + Epoch.coverage E /\
  emits E s s' out /\ out <> [] /\ blocks_out out = pending_blocks p /\ gaps_out out ⊆+ gaps_carried out.

Lemma blocks_out_gaps gaps : blocks_out (map Gap gaps) = [].
Proof. by induction gaps. Qed.

Lemma gaps_out_gaps gaps : gaps_out (map Gap gaps) = gaps.
Proof. induction gaps as [|g gaps IH]; [done|]. cbn. by f_equal. Qed.

(** A slot yields gaps that its interval carries. *)
Lemma own_gaps_carried cs : own_gaps cs ⊆+ omap ContinuityResult.gap cs.
Proof.
  induction cs as [|[b [g|] [|] key] cs IH]; [done|..]; cbn [own_gaps omap list_omap ContinuityResult.emit_gap ContinuityResult.gap];
    [by apply submseteq_skip|by apply submseteq_cons|done..].
Qed.

(** The state [_emit_slot] leaves. *)
Definition after_slot (E : Epoch) (s : TimestampAligner) (cs : list ContinuityResult) : TimestampAligner :=
  let next := TimestampAligner._next_output_ticks s in
  let s := foldl settle_state s cs in
  advance_state (next + Epoch.coverage E) (set_pending (delete next (TimestampAligner._pending s)) s).

Lemma delete_pending_inv E s t :
  epoch_inv E s -> epoch_inv E (set_pending (delete t (TimestampAligner._pending s)) s).
Proof.
  intros []. destruct s. constructor; try done. cbn in *. intros t' q Hq.
  apply lookup_delete_Some in Hq as [_ Hq]. by apply ei_pending0.
Qed.

Lemma after_slot_inv E s cs :
  epoch_inv E s -> TimestampAligner._next_output_ticks s + Epoch.coverage E <= UINT64_MAX ->
  let s' := after_slot E s cs in
  epoch_inv E s' /\ advanced s s' /\
  TimestampAligner._pending s' = delete (TimestampAligner._next_output_ticks s) (TimestampAligner._pending s) /\
  TimestampAligner._next_output_ticks s' = TimestampAligner._next_output_ticks s + Epoch.coverage E.
Proof.
  intros Hs Hwrap s'. unfold s', after_slot. pose proof (ei_positive E s Hs) as Hc. pose proof (ei_next E s Hs) as Hn.
  pose proof (ei_grid E s Hs) as Hg. set (next := TimestampAligner._next_output_ticks s) in *.
  pose proof (foldl_settled cs s) as Hset. pose proof (foldl_settle_inv E cs s Hs) as Hs2.
  set (s2 := foldl settle_state s cs) in *. pose proof (delete_pending_inv E s2 next Hs2) as Hs3.
  destruct Hset as [Hm Hp _ _ _ _ Hnx Hh Hcl _]. fold next in Hnx.
  assert (Hpending : TimestampAligner._pending (set_pending (delete next (TimestampAligner._pending s2)) s2)
                     = delete next (TimestampAligner._pending s)) by (rewrite Hp; by destruct s2).
  assert (Hnext : TimestampAligner._next_output_ticks (set_pending (delete next (TimestampAligner._pending s2)) s2) = next)
    by (rewrite <-Hnx; by destruct s2).
  split_and!.
  - apply advance_state_inv; [done|rewrite Hnext; lia| |].
    + rewrite Zplus_mod, Hg, Z_mod_same_full. by rewrite Z.mod_0_l by lia.
    + intros t [q Hq]. rewrite Hpending in Hq. apply lookup_delete_Some in Hq as [Hne Hq].
      destruct (ei_pending E s Hs _ _ Hq) as (Hle & Hgt & _). apply (grid_next (Epoch.coverage E)); try done. lia.
  - constructor.
    + rewrite <-Hm. by destruct s2.
    + rewrite <-Hh. by destruct s2.
    + rewrite <-Hcl. by destruct s2.
    + transitivity (next + Epoch.coverage E); [lia|]. by destruct s2.
    + transitivity (delete next (TimestampAligner._pending s)); [|apply delete_subseteq].
      rewrite <-Hpending. by destruct s2.
  - rewrite <-Hpending. by destruct s2.
  - by destruct s2.
Qed.

(** The records that precede an incomplete interval. *)
Definition slot_losses (E : Epoch) (source : Source) (next : Z) (p : PendingInterval)
    (reason : option AlignmentLossReason) : list AlignmentItem :=
  match reason with
  | Some reason =>
      [Loss (loss_at E source reason next 1 (present_streams (PendingInterval.adc p) (PendingInterval.gpio p)))]
  | None => []
  end.

Lemma walk_partial E source reason next w sequence ticks present gaps :
  enter (Epoch.run E) w = Walk.mk (Epoch.run E) next sequence ticks NO_STREAMS gaps -> present ∈ [1; 2] ->
  walk_item w (Loss (loss_at E source reason next 1 present))
  = Some (Walk.mk (Epoch.run E) next sequence ticks (Z.lxor _BOTH_STREAMS present) gaps).
Proof.
  intros Hw Hp. unfold walk_item, loss_at. cbn [AlignmentLoss.run_id]. rewrite Hw.
  cbn [Walk.run Walk.tick Walk.announced Walk.sequence Walk.ticks Walk.gaps AlignmentLoss.first_sample_ticks
      AlignmentLoss.present_streams AlignmentLoss.interval_count AlignmentLoss.missing_streams].
  rewrite Z.eqb_refl. rewrite !elem_of_cons, elem_of_nil in Hp. by destruct Hp as [->|[->|[]]].
Qed.

Lemma slot_items_lead E s p cs source reason :
  epoch_inv E s -> TimestampAligner._pending s !! TimestampAligner._next_output_ticks s = Some p ->
  complete p = bool_decide (reason = None) -> Forall2 (result_for s) (pending_blocks p) cs ->
  emits E s (after_slot E s cs)
    (map Gap (own_gaps cs) ++ slot_losses E source (TimestampAligner._next_output_ticks s) p reason
     ++ [Interval (AlignedInterval.mk (PendingInterval.adc p) (PendingInterval.gpio p) (omap ContinuityResult.gap cs))]).
Proof.
  intros Hs Hp Hreason Hcs. set (next := TimestampAligner._next_output_ticks s) in *. set (i := AlignedInterval.mk _ _ _).
  set (gaps := add_gaps (own_gaps cs) (TimestampAligner._announced_gaps s)).
  assert (Hwalk : forall w, enter (Epoch.run E) w
      = Walk.mk (Epoch.run E) next (TimestampAligner._expected_sequence s) (TimestampAligner._expected_ticks s) (missing_streams i) gaps ->
    walk_item w (Interval i) = Some (position E (after_slot E s cs))).
  { intros w Hw. apply (walk_interval E s p cs); try done; unfold after_slot; fold next;
      by destruct (foldl settle_state s cs). }
  destruct (ei_pending E s Hs _ _ Hp) as (_ & _ & Hne & Hpl). intros w0 Hw0.
  destruct (walk_gaps E s (pending_blocks p) cs Hcs) with (m := TimestampAligner._announced_gaps s) (w := w0) as (w & Hw1 & Hw);
    [by eapply Forall_impl; [exact Hpl|]; intros b []|intros b Hb; rewrite Forall_forall in Hpl; apply (pl_ticks _ _ _ (Hpl b Hb))
    |apply slot_kinds_NoDup|done|done|].
  exists (position E (after_slot E s cs)). rewrite walk_concat, Hw1.
  split; [|split; [apply (enter_here (position E _))|done]].
  destruct reason as [reason|]; cbn [slot_losses app walk foldl mbind option_bind].
  - rewrite bool_decide_eq_false_2 in Hreason by done. pose proof (present_incomplete p Hne Hreason) as Hpr.
    rewrite (walk_partial E source reason next w _ _ _ _ Hw Hpr).
    cbn [mbind option_bind]. apply Hwalk. unfold enter. cbn [Walk.run]. by rewrite Z.eqb_refl.
  - rewrite bool_decide_eq_true_2 in Hreason by done. apply Hwalk. rewrite Hw. unfold standing. fold gaps next.
    by destruct p as [[a|] [g|]].
Qed.

(** A pending slot lies before the wrap, and its source is known. *)
Lemma slot_source E s t p :
  epoch_inv E s -> TimestampAligner._pending s !! t = Some p ->
  exists source, Epoch.source E = Some source /\ t + Epoch.coverage E <= UINT64_MAX.
Proof.
  intros Hs Hp. destruct (ei_pending E s Hs _ _ Hp) as (_ & _ & Hne & Hpl).
  destruct (pending_blocks p) as [|b bs]; [done|]. apply Forall_cons in Hpl as [[] _]. eauto.
Qed.

(** Once the continuity of its blocks is settled, emitting a slot succeeds. *)
Lemma emit_slot_eq E s p reason source cs (Q : list AlignmentItem -> TimestampAligner -> Prop) (R : align_error -> TimestampAligner -> Prop) :
  epoch_inv E s -> TimestampAligner._pending s !! TimestampAligner._next_output_ticks s = Some p ->
  complete p = bool_decide (reason = None) -> Epoch.source E = Some source ->
  each _continuity_result (pending_blocks p) s = (s, Ok cs) -> Forall2 (result_for s) (pending_blocks p) cs ->
  Q (map Gap (own_gaps cs)
     ++ slot_losses E source (TimestampAligner._next_output_ticks s) p reason
     ++ [Interval (AlignedInterval.mk (PendingInterval.adc p) (PendingInterval.gpio p) (omap ContinuityResult.gap cs))])
    (after_slot E s cs) ->
  wp (_emit_slot (TimestampAligner._next_output_ticks s) reason) Q R s.
Proof.
  intros Hs Hp Hreason Hsource Heach Hcs HQ. pose proof (ei_positive E s Hs) as Hcov. pose proof (ei_next E s Hs) as Hn.
  pose proof (ei_pending E s Hs _ _ Hp) as Hslot. pose proof Hslot as (_ & _ & Hne & _).
  destruct (slot_source E s _ p Hs Hp) as (_ & _ & Hwrap).
  unfold _emit_slot. do 3 wp_step. rewrite Hp. do 2 wp_step. eapply wp_returns; [exact Heach|].
  wp_step. eapply wp_returns.
  { rewrite (new_interval_ok E s (TimestampAligner._next_output_ticks s) (TimestampAligner._next_output_ticks s) p cs);
      [done|lia|done..]. }
  wp_step. eapply (wp_returns _ (slot_losses E source (TimestampAligner._next_output_ticks s) p reason)).
  { destruct reason as [reason|]; [|done]. unfold mbind, effect_bind.
    rewrite (alignment_loss_eq E s source) by (done || lia || by right; apply present_incomplete). done. }
  wp_step. eapply wp_returns; [apply each_settle|]. wp_step. wp_step.
  pose proof (st_next _ _ (foldl_settled cs s)) as Hnext.
  wp_step. eapply wp_returns; [apply (advance_eq E); [by apply delete_pending_inv, foldl_settle_inv|]|].
  { transitivity (TimestampAligner._next_output_ticks s + 1 * Epoch.coverage E); [|lia]. rewrite <-Hnext.
    by destruct (foldl settle_state s cs). }
  replace (advance_state _ _) with (after_slot E s cs); cycle 1.
  { unfold after_slot. f_equal. rewrite <-Hnext, Z.mul_1_l. by destruct (foldl settle_state s cs). }
  by wp_step.
Qed.

Lemma emit_slot_wp E s p reason :
  epoch_inv E s -> TimestampAligner._pending s !! TimestampAligner._next_output_ticks s = Some p ->
  complete p = bool_decide (reason = None) ->
  wp (_emit_slot (TimestampAligner._next_output_ticks s) reason) (slot_emitted E s p)
    (fun e s' => s' = s /\ own_error e) s.
Proof.
  intros Hs Hp Hreason. destruct (ei_pending E s Hs _ _ Hp) as (_ & _ & Hne & Hpl).
  destruct (slot_source E s _ p Hs Hp) as (source & Hsource & Hwrap).
  assert (Hbs : Forall block_wf (pending_blocks p)) by (eapply Forall_impl; [exact Hpl|]; by intros b []).
  pose proof (each_continuity_wp E s (pending_blocks p) Hs Hbs) as H.
  destruct (each _continuity_result (pending_blocks p) s) as [t [cs|e]] eqn:Heach; pose proof (wp_run _ _ _ _ _ _ H Heach) as Hr; cbn in Hr.
  - destruct Hr as [-> Hcs]. apply (emit_slot_eq E s p reason source cs); try done.
    destruct (after_slot_inv E s cs Hs Hwrap) as (H1 & H2 & H3 & H4). split_and!; try done.
    + by apply slot_items_lead.
    + by destruct (map Gap _), (slot_losses _ _ _ _ _).
    + rewrite !blocks_out_app, blocks_out_gaps. destruct reason; cbn; by rewrite ?app_nil_r.
    + rewrite !gaps_out_app, !gaps_carried_app, gaps_out_gaps.
      assert (Hnone : gaps_out (slot_losses E source (TimestampAligner._next_output_ticks s) p reason) = []) by by destruct reason.
      rewrite Hnone. cbn [app]. change (gaps_out [Interval _]) with (@nil StreamGap). rewrite app_nil_r.
      apply submseteq_inserts_l, submseteq_inserts_l. cbn. rewrite app_nil_r. apply own_gaps_carried.
  - unfold _emit_slot. do 3 wp_step. rewrite Hp. do 2 wp_step. by eapply wp_raises.
Qed.

(** ** Progress *)

Definition pending_list (m : gmap Z PendingInterval) : list DataBlock :=
  concat (map (fun tp => pending_blocks tp.2) (map_to_list m)).

Lemma pending_list_delete m t p :
  m !! t = Some p -> pending_list m ≡ₚ pending_blocks p ++ pending_list (delete t m).
Proof.
  intros Ht. unfold pending_list. rewrite <-(map_to_list_delete m t p Ht). done.
Qed.

Lemma pending_list_empty : pending_list ∅ = [].
Proof. unfold pending_list. by rewrite map_to_list_empty. Qed.

(** The items lead on, and hold the blocks that are no longer pending. *)
Record progress (E : Epoch) (s s' : TimestampAligner) (out : list AlignmentItem) : Prop := {
  pg_inv : epoch_inv E s';
  pg_advanced : advanced s s';
  pg_emits : emits E s s' out;
  pg_blocks : pending_list (TimestampAligner._pending s) ≡ₚ blocks_out out ++ pending_list (TimestampAligner._pending s');
  pg_gaps : gaps_out out ⊆+ gaps_carried out
}.

Lemma progress_refl E s : epoch_inv E s -> progress E s s [].
Proof. intros H. split; [done|done|apply emits_nil|done|done]. Qed.

Lemma progress_app E s1 s2 s3 xs ys : progress E s1 s2 xs -> progress E s2 s3 ys -> progress E s1 s3 (xs ++ ys).
Proof.
  intros [_ Ha He Hb Hg] [Hi Ha' He' Hb' Hg']. split; [done|by etransitivity|by eapply emits_app| |].
  - by rewrite blocks_out_app, <-app_assoc, Hb, Hb'.
  - rewrite gaps_out_app, gaps_carried_app. by apply submseteq_app.
Qed.

Lemma slot_emitted_progress E s p out s' :
  TimestampAligner._pending s !! TimestampAligner._next_output_ticks s = Some p ->
  slot_emitted E s p out s' -> progress E s s' out.
Proof.
  intros Hp (Hi & Ha & Hd & _ & He & _ & Hb & Hg). split; try done. by rewrite Hb, Hd, <-pending_list_delete.
Qed.

Lemma slot_emitted_size E s p out s' :
  TimestampAligner._pending s !! TimestampAligner._next_output_ticks s = Some p ->
  slot_emitted E s p out s' ->
  size (TimestampAligner._pending s) = S (size (TimestampAligner._pending s')).
Proof.
  intros Hp (_ & _ & -> & _). rewrite map_size_delete, Hp.
  assert (size (TimestampAligner._pending s) <> 0%nat); [|cbn; lia].
  intros H. apply map_size_empty_iff in H. by rewrite H, lookup_empty in Hp.
Qed.

(** A skipped range before the first pending interval. *)
Record skipped (E : Epoch) (s s' : TimestampAligner) (n : Z) (reason : AlignmentLossReason) (l : AlignmentLoss) :
    Prop := {
  sk_loss : _alignment_loss reason (TimestampAligner._next_output_ticks s) n NO_STREAMS s = (s, Ok l);
  sk_advance : _advance n s = (s', Ok tt);
  sk_progress : progress E s s' [Loss l];
  sk_next : TimestampAligner._next_output_ticks s' = TimestampAligner._next_output_ticks s + n * Epoch.coverage E;
  sk_pending : TimestampAligner._pending s' = TimestampAligner._pending s
}.

Lemma skip_ok E s reason n k :
  epoch_inv E s -> 0 < n -> is_Some (TimestampAligner._pending s !! k) ->
  (forall j, is_Some (TimestampAligner._pending s !! j) -> k <= j) ->
  TimestampAligner._next_output_ticks s + n * Epoch.coverage E <= k ->
  exists s' l, skipped E s s' n reason l.
Proof.
  intros Hs Hn [p Hk] Hmin Hle. pose proof (ei_positive E s Hs) as Hc. pose proof (ei_next E s Hs) as Hx.
  destruct (slot_source E s k p Hs Hk) as (source & Hsource & Hwrap).
  exists (advance_state (TimestampAligner._next_output_ticks s + n * Epoch.coverage E) s).
  exists (loss_at E source reason (TimestampAligner._next_output_ticks s) n NO_STREAMS).
  assert (Hpend : TimestampAligner._pending (advance_state (TimestampAligner._next_output_ticks s + n * Epoch.coverage E) s)
                  = TimestampAligner._pending s) by by destruct s.
  split; [| |split; [..|done]|by destruct s|done].
  - apply (alignment_loss_eq E); try done; [by left|lia].
  - apply (advance_eq E); [done|lia].
  - apply advance_state_inv; [done|nia| |].
    + rewrite Zplus_mod, (ei_grid E s Hs), Z.mod_mul by lia. by rewrite Z.mod_0_l by lia.
    + intros t Ht. specialize (Hmin t Ht). lia.
  - constructor; [by destruct s..| |by rewrite Hpend]. transitivity (TimestampAligner._next_output_ticks s + n * Epoch.coverage E); [nia|].
    by destruct s.
  - apply emits_loss.
  - by rewrite Hpend.
Qed.

(** ** Draining *)

(** A slot that the aligner tries to emit and cannot. *)
Definition stuck (E : Epoch) (highest : Z) (s : TimestampAligner) : Prop :=
  exists p, TimestampAligner._pending s !! TimestampAligner._next_output_ticks s = Some p /\
    (complete p = true \/ span_end E s <= highest).

Definition failed (E : Epoch) (s : TimestampAligner) (e : align_error) (s' : TimestampAligner) : Prop :=
  own_error e /\ epoch_inv E s' /\ advanced s s'.

(** Nothing complete stands at the greatest tick seen. *)
Definition open_at (E : Epoch) (highest : Z) (s : TimestampAligner) : Prop :=
  highest mod Epoch.coverage E = 0 /\ TimestampAligner._next_output_ticks s <= highest /\
  forall p, TimestampAligner._pending s !! highest = Some p -> complete p = false.

Definition drained (E : Epoch) (highest : Z) (s : TimestampAligner) (out : list AlignmentItem) (s' : TimestampAligner) :
    Prop :=
  progress E s s' out /\ (TimestampAligner._pending s' = ∅ \/ highest < span_end E s') /\
  (open_at E highest s -> TimestampAligner._next_output_ticks s' <= highest) /\
  (forall p, TimestampAligner._pending s' !! TimestampAligner._next_output_ticks s' = Some p -> complete p = false).

Definition drain_failed (E : Epoch) (highest : Z) (s : TimestampAligner) (e : align_error) (s' : TimestampAligner) :
    Prop := failed E s e s' /\ stuck E highest s'.

(** The passes left: two for each pending interval, one for the range before the first. *)
Definition drain_measure (E : Epoch) (highest : Z) (s : TimestampAligner) : nat :=
  2 * size (TimestampAligner._pending s)
  + (if bool_decide (is_Some (TimestampAligner._pending s !! TimestampAligner._next_output_ticks s)) || (highest <? span_end E s)
     then 0 else 1).

Lemma failed_after E s s1 out e s' : progress E s s1 out -> failed E s1 e s' -> failed E s e s'.
Proof. intros [_ Ha _ _] (He & Hi & Ha'). split; [done|]. split; [done|]. by etransitivity. Qed.

Lemma drained_after E highest s s1 xs ys s' :
  progress E s s1 xs -> (open_at E highest s -> open_at E highest s1) -> drained E highest s1 ys s' ->
  drained E highest s (xs ++ ys) s'.
Proof.
  intros Hp Ho (Hp' & He & Hn & Hc). split; [by eapply progress_app|]. split; [done|]. split; [auto|done].
Qed.

Lemma open_at_advanced E highest s s' :
  advanced s s' -> open_at E highest s -> TimestampAligner._next_output_ticks s' <= highest -> open_at E highest s'.
Proof.
  intros Ha (Hg & _ & Hc) Hn. split; [done|]. split; [done|]. intros p Hp. apply Hc.
  by apply (lookup_weaken _ _ _ _ Hp), Ha.
Qed.

Lemma lookup_slot E s :
  epoch_inv E s -> TimestampAligner._pending s !! TimestampAligner._next_output_ticks s = None ->
  forall k, is_Some (TimestampAligner._pending s !! k) ->
  TimestampAligner._next_output_ticks s + Epoch.coverage E <= k /\
  (k - TimestampAligner._next_output_ticks s) / Epoch.coverage E * Epoch.coverage E = k - TimestampAligner._next_output_ticks s.
Proof.
  intros Hs Hnone k [q Hq]. pose proof (ei_positive E s Hs) as Hc.
  destruct (ei_pending E s Hs _ _ Hq) as (Hle & Hg & _). assert (k <> TimestampAligner._next_output_ticks s) by congruence.
  split; [apply grid_next; try done; [apply Hs|lia]|].
  pose proof (Z.div_mod (k - TimestampAligner._next_output_ticks s) (Epoch.coverage E) ltac:(lia)) as Hd.
  rewrite Zminus_mod, Hg, (ei_grid E s Hs) in Hd. rewrite Z.mod_0_l in Hd by lia. lia.
Qed.

Lemma div_below a c m : 0 < c -> a / c < m <-> a < m * c.
Proof. intros Hc. pose proof (Z.div_mod a c ltac:(lia)). pose proof (Z.mod_pos_bound a c Hc). split; nia. Qed.

Definition drain_spec (E : Epoch) (highest : Z) (fuel : nat) : Prop :=
  forall s, epoch_inv E s -> (drain_measure E highest s < fuel)%nat ->
  wp (drain_loop fuel (Epoch.coverage E) highest) (drained E highest s) (drain_failed E highest s) s.

(** A pass that emits the slot at the output position. *)
Lemma drain_emits E highest fuel s p reason :
  drain_spec E highest fuel -> epoch_inv E s -> (drain_measure E highest s < S fuel)%nat ->
  TimestampAligner._pending s !! TimestampAligner._next_output_ticks s = Some p ->
  complete p = bool_decide (reason = None) -> (complete p = true \/ span_end E s <= highest) ->
  wp (out ← _emit_slot (TimestampAligner._next_output_ticks s) reason;
      rest ← drain_loop fuel (Epoch.coverage E) highest; mret (out ++ rest))
    (drained E highest s) (drain_failed E highest s) s.
Proof.
  intros IH Hs Hfuel Hp Hreason Hwhy. pose proof (ei_positive E s Hs) as Hc. pose proof (ei_max E s Hs) as Hm.
  wp_step. eapply wp_consequence; [by apply (emit_slot_wp E)|..]; cycle 1.
  { intros e ? [-> He]. split; [by split|]. by exists p. }
  intros out s1 Hout. pose proof (slot_emitted_progress E s p out s1 Hp Hout) as Hprog.
  pose proof (slot_emitted_size E s p out s1 Hp Hout) as Hsize. destruct Hout as (Hs1 & Ha & _ & Hn1 & _).
  wp_step. eapply wp_consequence; [apply IH; [done|]|..].
  - unfold drain_measure in *. destruct (_ || _), (_ || _); lia.
  - intros rest s2 Hrest. wp_step. eapply drained_after; [done| |done]. intros Ho.
    apply (open_at_advanced E highest s s1); [done|done|]. rewrite Hn1. destruct Ho as (Hgh & Hnh & Hoc).
    destruct Hwhy as [Hcomp|Hspan]; [|unfold span_end in Hspan; nia].
    apply grid_next; try done; [apply Hs|].
    assert (highest <> TimestampAligner._next_output_ticks s); [|lia]. intros ->. by rewrite (Hoc p Hp) in Hcomp.
  - intros e s2 [Hf Hst]. split; [by eapply failed_after|done].
Qed.

(** The pass that finds nothing to do. *)
Lemma drain_stops E highest s :
  epoch_inv E s -> highest < span_end E s ->
  default false (complete <$> TimestampAligner._pending s !! TimestampAligner._next_output_ticks s) = false ->
  drained E highest s [] s.
Proof.
  intros Hs Hh Hc. split; [by apply progress_refl|]. split; [by right|]. split; [by intros (_ & ? & _)|].
  intros p Hp. by rewrite Hp in Hc.
Qed.

(** A pass that reports a range in which nothing arrived. *)
Lemma drain_skips E highest fuel s k s1 l n :
  drain_spec E highest fuel -> epoch_inv E s -> (drain_measure E highest s < S fuel)%nat ->
  TimestampAligner._pending s !! TimestampAligner._next_output_ticks s = None ->
  is_Some (TimestampAligner._pending s !! k) -> span_end E s <= highest ->
  n = Z.min ((highest - TimestampAligner._next_output_ticks s) / Epoch.coverage E - TimestampAligner._max_pending_intervals s + 1)
        ((k - TimestampAligner._next_output_ticks s) / Epoch.coverage E) ->
  skipped E s s1 n WINDOW_EXPIRED l ->
  wp (rest ← drain_loop fuel (Epoch.coverage E) highest; mret (Loss l :: rest))
    (drained E highest s) (drain_failed E highest s) s1.
Proof.
  intros IH Hs Hfuel Hnone Hk Hspan Hn [_ _ Hprog Hn1 Hp1]. pose proof (ei_positive E s Hs) as Hc.
  pose proof (ei_max E s Hs) as Hm. destruct (lookup_slot E s Hs Hnone k Hk) as [Hle Hd].
  unfold span_end in Hspan. set (next := TimestampAligner._next_output_ticks s) in *.
  set (m := TimestampAligner._max_pending_intervals s) in *. set (cov := Epoch.coverage E) in *.
  pose proof (Z.div_mod (highest - next) cov ltac:(lia)) as Hdm. pose proof (Z.mod_pos_bound (highest - next) cov Hc) as Hmb.
  assert (Hmax1 : TimestampAligner._max_pending_intervals s1 = m) by apply (ad_max _ _ (pg_advanced _ _ _ _ Hprog)).
  wp_step. eapply wp_consequence; [apply IH; [apply Hprog|]|..].
  - unfold drain_measure in *. rewrite Hp1, Hn1. fold next in Hfuel. rewrite bool_decide_eq_false_2 in Hfuel by (rewrite Hnone; by intros []).
    rewrite (proj2 (Z.ltb_ge highest (span_end E s))) in Hfuel by exact Hspan. cbn [orb] in Hfuel.
    replace (_ || _) with true; [lia|]. symmetry. apply orb_true_iff.
    destruct (Z.min_spec ((highest - next) / cov - m + 1) ((k - next) / cov)) as [[_ Hmin]|[_ Hmin]]; rewrite Hmin in Hn.
    + right. apply Z.ltb_lt. unfold span_end. rewrite Hn1, Hmax1. fold cov. nia.
    + left. apply bool_decide_eq_true. replace (next + n * cov) with k by (rewrite Hn; lia). done.
  - intros rest s2 Hrest. wp_step. apply (drained_after E highest s s1 [Loss l]); [done| |done]. intros Ho.
    apply (open_at_advanced E highest s s1); [apply Hprog|done|]. rewrite Hn1. nia.
  - intros e s2 [Hf Hst]. split; [by eapply failed_after|done].
Qed.

Lemma drain_passes_wp E highest fuel : drain_spec E highest fuel.
Proof.
  induction fuel as [|fuel IH]; intros s Hs Hfuel; [lia|]. cbn [drain_loop].
  pose proof (ei_positive E s Hs) as Hc. pose proof (ei_max E s Hs) as Hm.
  do 2 wp_step. destruct (Nat.eqb_spec (size (TimestampAligner._pending s)) 0) as [Hz|Hz].
  { apply map_size_empty_iff in Hz. wp_step. split; [by apply progress_refl|]. split; [by left|].
    split; [by intros (_ & ? & _)|]. intros p. by rewrite Hz, lookup_empty. }
  destruct (default false _) eqn:Hcomp.
  { destruct (_ !! _) as [p|] eqn:Hp; [|done]. cbn in Hcomp. apply (drain_emits E highest fuel s p); auto. }
  case_match eqn:Hlt; [apply Z.ltb_lt in Hlt; wp_step; apply drain_stops; try done; unfold span_end; nia|].
  case_match eqn:Hspan.
  { apply Z.ltb_lt, div_below in Hspan; [|done]. wp_step. apply drain_stops; try done. unfold span_end. lia. }
  apply Z.ltb_ge in Hspan. assert (Hexp : span_end E s <= highest).
  { unfold span_end. pose proof (proj2 (div_below (highest - TimestampAligner._next_output_ticks s) _
      (TimestampAligner._max_pending_intervals s) Hc)). lia. }
  destruct (_ !! _) as [p|] eqn:Hp; [by apply (drain_emits E highest fuel s p (Some WINDOW_EXPIRED)); auto|].
  destruct (size_nonzero _ Hz) as [k0 Hk0]. destruct (min_key_spec _ k0 Hk0) as (k & Hmin & Hk & Hkle).
  destruct (lookup_slot E s Hs Hp k Hk) as [Hle Hd]. rewrite Hmin. wp_step. eapply wp_returns; [done|].
  set (n := Z.min _ _).
  assert (Hn : 0 < n).
  { apply Z.min_glb_lt; [lia|]. pose proof (proj1 (div_below (k - TimestampAligner._next_output_ticks s) _ 1 Hc)). lia. }
  destruct (skip_ok E s WINDOW_EXPIRED n k Hs Hn Hk Hkle) as (s1 & l & Hskip); [unfold n; nia|].
  wp_step. wp_step; [|lia]. destruct Hskip as [Hloss Hadv Hprog Hnext Hpend] eqn:He. clear He.
  wp_step. eapply wp_returns; [exact Hloss|]. wp_step. eapply wp_returns; [exact Hadv|].
  by apply (drain_skips E highest fuel s k s1 l n).
Qed.

Lemma drain_wp E highest s :
  epoch_inv E s -> wp (_drain highest) (drained E highest s) (drain_failed E highest s) s.
Proof.
  intros Hs. unfold _drain, _required_frame_coverage_ticks. do 3 wp_step. rewrite (ei_coverage E s Hs).
  eapply wp_returns; [done|]. wp_step. wp_step. apply drain_passes_wp; [done|].
  unfold drain_measure, loop_fuel. destruct (_ || _); lia.
Qed.

(** ** Flushing *)

Definition flushed (E : Epoch) (s : TimestampAligner) (out : list AlignmentItem) (s' : TimestampAligner) : Prop :=
  progress E s s' out /\ TimestampAligner._pending s' = ∅.

Definition flush_measure (s : TimestampAligner) : nat :=
  2 * size (TimestampAligner._pending s)
  + (if bool_decide (is_Some (TimestampAligner._pending s !! TimestampAligner._next_output_ticks s)) then 0 else 1).

Lemma flushed_after E s s1 xs ys s' : progress E s s1 xs -> flushed E s1 ys s' -> flushed E s (xs ++ ys) s'.
Proof. intros Hp [Hp' He]. split; [by eapply progress_app|done]. Qed.

Lemma flush_loop_wp E reason fuel s :
  epoch_inv E s -> (flush_measure s < fuel)%nat ->
  wp (flush_loop fuel (Epoch.coverage E) reason) (flushed E s) (failed E s) s.
Proof.
  revert s. induction fuel as [|fuel IH]; intros s Hs Hfuel; [lia|]. cbn [flush_loop].
  pose proof (ei_positive E s Hs) as Hc.
  do 2 wp_step. destruct (Nat.eqb_spec (size (TimestampAligner._pending s)) 0) as [Hz|Hz].
  { apply map_size_empty_iff in Hz. wp_step. split; [by apply progress_refl|done]. }
  destruct (size_nonzero _ Hz) as [k0 Hk0]. destruct (min_key_spec _ k0 Hk0) as (k & Hmin & [p Hk] & Hkle).
  rewrite Hmin. wp_step. eapply wp_returns; [done|]. destruct (ei_pending E s Hs _ _ Hk) as (Hle & Hgrid & _).
  rewrite (proj2 (Z.ltb_ge _ _) Hle). case_match eqn:Hlt.
  - apply Z.ltb_lt in Hlt. assert (Hnone : TimestampAligner._pending s !! TimestampAligner._next_output_ticks s = None).
    { apply eq_None_not_Some. intros Hx. specialize (Hkle _ Hx). lia. }
    destruct (lookup_slot E s Hs Hnone k (ex_intro _ p Hk)) as [_ Hd].
    wp_step. wp_step; cycle 1.
    { exfalso. apply Z.eqb_neq in H. apply H. rewrite <-Hd. by apply Z.mod_mul, Z.neq_sym, Z.lt_neq. }
    set (n := (k - TimestampAligner._next_output_ticks s) / Epoch.coverage E) in *.
    destruct (skip_ok E s reason n k Hs) as (s1 & l & [Hloss Hadv Hprog Hnext Hpend]);
      [nia|by exists p|done|lia|].
    wp_step. eapply wp_returns; [exact Hloss|]. wp_step. eapply wp_returns; [exact Hadv|].
    wp_step. eapply wp_consequence; [apply IH; [apply Hprog|]|..].
    + unfold flush_measure in *. rewrite Hpend, Hnext. replace (_ + n * _) with k by lia.
      rewrite Hk, bool_decide_eq_true_2 by done. rewrite Hnone, bool_decide_eq_false_2 in Hfuel by (by intros []). lia.
    + intros rest s2 Hrest. wp_step. by apply (flushed_after E s s1 [Loss l]).
    + intros e s2 Hf. by eapply failed_after.
  - apply Z.ltb_ge in Hlt. assert (k = TimestampAligner._next_output_ticks s) as -> by lia. rewrite Hk.
    wp_step. eapply wp_returns; [done|]. wp_step. eapply wp_consequence; [apply (emit_slot_wp E); try done|..].
    + by destruct (complete p).
    + intros out s1 Hout. pose proof (slot_emitted_progress E s p out s1 Hk Hout) as Hprog.
      pose proof (slot_emitted_size E s p out s1 Hk Hout) as Hsize.
      wp_step. eapply wp_consequence; [apply IH; [apply Hprog|]|..].
      * unfold flush_measure in *. destruct (bool_decide _), (bool_decide _); lia.
      * intros rest s2 Hrest. wp_step. by eapply flushed_after.
      * intros e s2 Hf. by eapply failed_after.
    + intros e ? [-> He]. by split.
Qed.

Lemma flush_pending_wp E reason s :
  epoch_inv E s -> wp (_flush_pending reason) (flushed E s) (failed E s) s.
Proof.
  intros Hs. unfold _flush_pending, _required_frame_coverage_ticks. do 3 wp_step. rewrite (ei_coverage E s Hs).
  eapply wp_returns; [done|]. wp_step. wp_step. apply flush_loop_wp; [done|].
  unfold flush_measure, loop_fuel. destruct (bool_decide _); lia.
Qed.

(** ** The aligner between calls *)

Definition idle (s : TimestampAligner) : Prop :=
  TimestampAligner._active_run_id s = None /\ TimestampAligner._frame_coverage_ticks s = None /\
  TimestampAligner._pending s = ∅ /\ TimestampAligner._announced_gaps s = ∅.

Section Calls.
(** The configured bound, which no call changes. *)
Variable limit : Z.

Record aligner_inv (s : TimestampAligner) : Prop := {
  ai_limit : TimestampAligner._max_pending_intervals s = limit;
  ai_max : 0 < TimestampAligner._max_pending_intervals s;
  ai_high : TimestampAligner._high_water_intervals s <= TimestampAligner._max_pending_intervals s;
  ai_epoch : idle s \/ exists E, epoch_inv E s /\ windowed E s
}.

Lemma epoch_aligner_inv E s :
  TimestampAligner._max_pending_intervals s = limit -> epoch_inv E s -> windowed E s -> aligner_inv s.
Proof. intros Hl H Hw. split; [done|apply H|apply H|right; by exists E]. Qed.

Lemma epoch_not_idle E s : epoch_inv E s -> ~ idle s.
Proof. intros Hs (Ha & _). pose proof (ei_active E s Hs). congruence. Qed.

Lemma failed_inv E s e s' :
  TimestampAligner._max_pending_intervals s = limit -> windowed E s -> failed E s e s' -> own_error e /\ aligner_inv s'.
Proof.
  intros Hl Hw (He & Hi & Ha). split; [done|]. apply (epoch_aligner_inv E); [by rewrite (ad_max _ _ Ha)|done|].
  eapply windowed_advanced; [apply Hi|exact Hw|done].
Qed.

(** Where the items returned so far have led; once nothing is pending they include one of the
    current run. *)
Definition follows (E : Epoch) (w : Walk) (s : TimestampAligner) : Prop :=
  enter (Epoch.run E) w = position E s /\ (TimestampAligner._pending s = ∅ -> Walk.run w = Epoch.run E).

Definition synced (w : Walk) (s : TimestampAligner) : Prop :=
  TimestampAligner._closed s = false -> (idle s /\ w = nowhere) \/ exists E, epoch_inv E s /\ follows E w s.

Lemma pending_list_nil E s : epoch_inv E s -> pending_list (TimestampAligner._pending s) ≡ₚ [] -> TimestampAligner._pending s = ∅.
Proof.
  intros Hs Hl. apply map_empty. intros t. destruct (TimestampAligner._pending s !! t) as [p|] eqn:Hp; [|done].
  destruct (ei_pending E s Hs _ _ Hp) as (_ & _ & Hne & _). rewrite (pending_list_delete _ _ _ Hp) in Hl.
  apply Permutation_nil_r, app_nil in Hl as [Hl _]. done.
Qed.

Lemma progress_follows E w s s' out :
  epoch_inv E s -> progress E s s' out -> follows E w s -> exists w', walk (Some w) out = Some w' /\ follows E w' s'.
Proof.
  intros Hs [_ _ He Hb] [Hw Hr]. destruct (He w Hw) as (w' & Hw' & Hp & Hrun). exists w'. split; [done|]. split; [done|].
  intros Hempty. destruct out as [|item out]; [|by apply Hrun]. cbn in Hw'. injection Hw' as <-. apply Hr.
  apply (pending_list_nil E); [done|]. by rewrite Hb, Hempty, pending_list_empty.
Qed.

(** What a call that took the blocks [bs] and the gaps [gs] and returned [out] did. *)
Record called (bs : list DataBlock) (gs : list StreamGap) (s : TimestampAligner) (out : list AlignmentItem) (s' : TimestampAligner) : Prop := {
  cl_inv : aligner_inv s';
  cl_walk : forall w, synced w s -> exists w', walk (Some w) out = Some w' /\ synced w' s';
  cl_blocks : bs ++ pending_list (TimestampAligner._pending s)
              ≡ₚ blocks_out out ++ pending_list (TimestampAligner._pending s');
  cl_gaps : exists own, gaps_out out ≡ₚ gs ++ own /\ own ⊆+ gaps_carried out
}.

Definition refused (e : align_error) (s : TimestampAligner) : Prop := own_error e /\ aligner_inv s.

(** *** Epochs *)

Definition epoch_state (E : Epoch) (s : TimestampAligner) : TimestampAligner :=
  let '(TimestampAligner.mk m _ _ _ _ _ _ _ _ _ h cl) := s in
  TimestampAligner.mk m ∅ ∅ (Some (Epoch.run E)) (Epoch.source E) (Some (Epoch.coverage E)) (Epoch.signature E) 0
    (PerStream.mk 0 0) (PerStream.mk 0 0) h cl.

Lemma start_epoch_eq E s :
  0 < Epoch.run E < 2 ^ 32 -> 0 < Epoch.coverage E ->
  _start_epoch (Epoch.run E) (Epoch.source E) (Epoch.coverage E) (Epoch.signature E) s = (epoch_state E s, Ok tt).
Proof.
  intros Hr Hc. unfold _start_epoch, mbind, effect_bind. rewrite (proj2 (unsigned_Ok _ (Epoch.run E) 32 ltac:(lia)) ltac:(lia)).
  rewrite (proj2 (Z.eqb_neq (Epoch.run E) 0)), (proj2 (Z.ltb_lt 0 (Epoch.coverage E))) by lia. by destruct s.
Qed.

Lemma epoch_state_inv E s :
  0 < Epoch.run E < 2 ^ 32 -> 0 < Epoch.coverage E -> aligner_inv s ->
  epoch_inv E (epoch_state E s) /\ windowed E (epoch_state E s).
Proof.
  intros Hr Hc [_ Hm Hh _]. split.
  - destruct s. constructor; cbn in *; try done; try (by intros kind; unfold of_stream; case_decide);
      try (unfold UINT64_MAX; lia). rewrite map_size_empty. lia.
  - intros t. destruct s. cbn. rewrite lookup_empty. by intros [].
Qed.

(** The fields no input changes. *)
Definition same_limits (s s' : TimestampAligner) : Prop :=
  TimestampAligner._max_pending_intervals s' = TimestampAligner._max_pending_intervals s /\
  TimestampAligner._closed s' = TimestampAligner._closed s.

Lemma advanced_limits s s' : advanced s s' -> same_limits s s'.
Proof. by intros []. Qed.
Lemma limits_trans s1 s2 s3 : same_limits s1 s2 -> same_limits s2 s3 -> same_limits s1 s3.
Proof. intros [] []. split; congruence. Qed.

(** The epoch a call activates. *)
Definition activated (E : Epoch) (s : TimestampAligner) (out : list AlignmentItem) (s' : TimestampAligner) : Prop :=
  (epoch_inv E s' /\ windowed E s') /\ same_limits s s' /\
  (forall w, TimestampAligner._closed s = false -> synced w s ->
     exists w', walk (Some w) out = Some w' /\ enter (Epoch.run E) w' = position E s') /\
  pending_list (TimestampAligner._pending s) ≡ₚ blocks_out out ++ pending_list (TimestampAligner._pending s') /\
  gaps_out out ⊆+ gaps_carried out.

Lemma epoch_unique E E' s : epoch_inv E s -> epoch_inv E' s -> E = E'.
Proof. intros [] []. destruct E, E'. cbn in *. congruence. Qed.

Lemma activate_new_epoch E s :
  aligner_inv s -> 0 < Epoch.run E < 2 ^ 32 -> 0 < Epoch.coverage E ->
  TimestampAligner._active_run_id s <> Some (Epoch.run E) ->
  wp (_activate_epoch (Epoch.run E) (Epoch.source E) (Epoch.coverage E) (Epoch.signature E))
    (activated E s) refused s.
Proof.
  intros Hs Hr Hc Hne. destruct Hs as [Hl Hm Hh Hepoch]. unfold _activate_epoch. do 2 wp_step.
  destruct Hepoch as [Hidle|(E0 & HE0 & Hwin)].
  - destruct Hidle as (Ha & Hcv & Hp & Han). rewrite Ha. wp_step. eapply wp_returns; [by apply start_epoch_eq|]. wp_step.
    split; [apply epoch_state_inv; try done; split; try done; left; done|].
    split; [by destruct s; split|]. split; [|split; [|done]].
    + intros w Hopen [[_ ->]|(E1 & HE1 & _)]%(fun H => H Hopen); [|pose proof (ei_active E1 s HE1); congruence].
      exists nowhere. split; [done|]. unfold enter. cbn [Walk.run nowhere].
      rewrite (proj2 (Z.eqb_neq _ _)) by lia. by destruct s.
    + rewrite Hp. by destruct s.
  - rewrite (ei_active E0 s HE0) in Hne |- *. rewrite (proj2 (Z.eqb_neq _ _)) by congruence. cbn [negb].
    wp_step. eapply wp_consequence; [by apply (flush_pending_wp E0)|..]; cycle 1.
    { intros e s' Hf. by apply (failed_inv E0 s). }
    intros out s1 [Hprog Hempty]. wp_step. eapply wp_returns; [by apply start_epoch_eq|]. wp_step.
    pose proof (pg_inv _ _ _ _ Hprog) as HE1.
    split; [apply epoch_state_inv; try done; split; [by rewrite (ad_max _ _ (pg_advanced _ _ _ _ Hprog))|apply HE1|apply HE1|]|].
    { right. exists E0. split; [done|]. eapply windowed_advanced; [apply HE0|exact Hwin|apply Hprog]. }
    split; [eapply limits_trans; [apply advanced_limits, Hprog|by destruct s1; split]|]. split; [|split; [|apply Hprog]].
    + intros w Hopen [[(Hx & _) _]|(E2 & HE2 & Hw)]%(fun H => H Hopen); [pose proof (ei_active E0 s HE0); congruence|].
      pose proof (epoch_unique _ _ _ HE0 HE2) as <-.
      destruct (progress_follows E0 w s s1 out HE0 Hprog Hw) as (w' & Hw' & Hpos & Hrun).
      exists w'. split; [done|]. unfold enter. rewrite (Hrun Hempty), (proj2 (Z.eqb_neq _ _)) by congruence. by destruct s1.
    + rewrite (pg_blocks _ _ _ _ Hprog), Hempty. by destruct s1.
Qed.

(** What the input that activates an epoch says of it. *)
Definition describes_epoch (E : Epoch) (run : Z) (source : option Source) (coverage : Z)
    (signature : option (Z * Z * Z)) : Prop :=
  Epoch.run E = run /\ Epoch.coverage E = coverage /\
  (source = None \/ Epoch.source E = source) /\ (signature = None \/ Epoch.signature E = signature).

Definition with_epoch_source (x : option Source) (E : Epoch) : Epoch :=
  Epoch.mk (Epoch.run E) (Epoch.coverage E) x (Epoch.signature E).
Definition with_epoch_signature (x : option (Z * Z * Z)) (E : Epoch) : Epoch :=
  Epoch.mk (Epoch.run E) (Epoch.coverage E) (Epoch.source E) x.

Lemma set_source_inv E s x :
  epoch_inv E s -> TimestampAligner._pending s = ∅ -> epoch_inv (with_epoch_source x E) (set_active_source x s).
Proof.
  intros [] Hp. destruct s. cbn in Hp. subst. by constructor.
Qed.
Lemma set_signature_inv E s x :
  epoch_inv E s -> TimestampAligner._pending s = ∅ -> epoch_inv (with_epoch_signature x E) (set_profile_signature x s).
Proof.
  intros [] Hp. destruct s. cbn in Hp. subst. by constructor.
Qed.

Lemma pending_known E s :
  epoch_inv E s -> Epoch.source E = None \/ Epoch.signature E = None -> TimestampAligner._pending s = ∅.
Proof.
  intros Hs Hnone. apply map_empty. intros t. destruct (_ !! t) as [p|] eqn:Hp; [|done].
  destruct (ei_pending E s Hs _ _ Hp) as (_ & _ & Hne & Hpl). destruct (pending_blocks p) as [|b bs]; [done|].
  apply Forall_cons in Hpl as [[_ _ _ _ _ Hsrc Hsig] _]. destruct Hnone; congruence.
Qed.

(** The same epoch, its source or signature learnt. *)
Record learnt (E E' : Epoch) (s s' : TimestampAligner) : Prop := {
  ln_inv : epoch_inv E' s';
  ln_run : Epoch.run E' = Epoch.run E;
  ln_coverage : Epoch.coverage E' = Epoch.coverage E;
  ln_limits : same_limits s s';
  ln_pending : TimestampAligner._pending s' = TimestampAligner._pending s;
  ln_next : TimestampAligner._next_output_ticks s' = TimestampAligner._next_output_ticks s;
  ln_position : position E' s' = position E s
}.

Lemma learnt_refl E s : epoch_inv E s -> learnt E E s s.
Proof. constructor; done || by split. Qed.
Lemma learnt_trans E1 E2 E3 s1 s2 s3 : learnt E1 E2 s1 s2 -> learnt E2 E3 s2 s3 -> learnt E1 E3 s1 s3.
Proof. intros [] []. constructor; [done|congruence|congruence|by eapply limits_trans|congruence..]. Qed.

Lemma learnt_windowed E E' s s' : windowed E s -> learnt E E' s s' -> windowed E' s'.
Proof. intros Hw [_ _ Hc [Hm _] Hp Hn _] t. unfold span_end. rewrite Hp, Hn, Hm, Hc. apply Hw. Qed.

Lemma learn_signature_wp E s (signature : option (Z * Z * Z)) :
  TimestampAligner._max_pending_intervals s = limit -> epoch_inv E s -> windowed E s ->
  wp (match signature with
      | None => mret tt
      | Some signature =>
          current ← gets TimestampAligner._profile_signature;
          match current with
          | None => modify (set_profile_signature (Some signature))
          | Some current =>
              check (bool_decide (signature = current))
                (TimestampAlignmentError "mode/rate profile changed within run")
          end
      end)
    (fun _ s' => exists E', learnt E E' s s' /\ Epoch.source E' = Epoch.source E /\
                   (signature = None \/ Epoch.signature E' = signature))
    refused s.
Proof.
  intros Hl Hs Hw. destruct signature as [x|]; cycle 1.
  { wp_step. exists E. split; [by apply learnt_refl|]. split; [done|by left]. }
  do 2 wp_step. pose proof (ei_signature E s Hs) as Hsig. destruct (TimestampAligner._profile_signature s) as [y|].
  - wp_step; [|split; [by eexists|by eapply epoch_aligner_inv]]. apply bool_decide_eq_true in H. subst y.
    exists E. split; [by apply learnt_refl|]. split; [done|by right].
  - wp_step. exists (with_epoch_signature (Some x) E). split; [|split; [done|by right]].
    assert (Hp : TimestampAligner._pending s = ∅) by (apply (pending_known E); [done|by right]).
    constructor; [by apply set_signature_inv|done|done|by destruct s; split|by destruct s..].
Qed.

Lemma learn_source_wp E s (source : option Source) :
  TimestampAligner._max_pending_intervals s = limit -> epoch_inv E s -> windowed E s ->
  wp (match source with
      | None => mret tt
      | Some source =>
          current ← gets TimestampAligner._active_source;
          match current with
          | None => modify (set_active_source (Some source))
          | Some current =>
              check (bool_decide (source = current)) (TimestampAlignmentError "source changed within run")
          end
      end)
    (fun _ s' => exists E', learnt E E' s s' /\ Epoch.signature E' = Epoch.signature E /\
                   (source = None \/ Epoch.source E' = source))
    refused s.
Proof.
  intros Hl Hs Hw. destruct source as [x|]; cycle 1.
  { wp_step. exists E. split; [by apply learnt_refl|]. split; [done|by left]. }
  do 2 wp_step. pose proof (ei_source E s Hs) as Hsrc. destruct (TimestampAligner._active_source s) as [y|].
  - wp_step; [|split; [by eexists|by eapply epoch_aligner_inv]]. apply bool_decide_eq_true in H. subst y.
    exists E. split; [by apply learnt_refl|]. split; [done|by right].
  - wp_step. exists (with_epoch_source (Some x) E). split; [|split; [done|by right]].
    assert (Hp : TimestampAligner._pending s = ∅) by (apply (pending_known E); [done|by left]).
    constructor; [by apply set_source_inv|done|done|by destruct s; split|by destruct s..].
Qed.

Lemma activate_wp run source coverage signature s :
  aligner_inv s -> 0 < run < 2 ^ 32 -> 0 < coverage ->
  wp (_activate_epoch run source coverage signature)
    (fun out s' => exists E, activated E s out s' /\ describes_epoch E run source coverage signature) refused s.
Proof.
  intros Hs Hr Hc. destruct (decide (TimestampAligner._active_run_id s = Some run)) as [Ha|Ha]; cycle 1.
  { eapply wp_consequence; [by apply (activate_new_epoch (Epoch.mk run coverage source signature))| |done].
    intros out s' H. exists (Epoch.mk run coverage source signature). split; [done|]. repeat split; by right. }
  destruct (ai_epoch s Hs) as [(Hx & _)|(E & HE & Hwin)]; [congruence|].
  unfold _activate_epoch. do 2 wp_step. rewrite Ha, Z.eqb_refl. cbn [negb]. do 2 wp_step.
  rewrite (ei_coverage E s HE). do 2 wp_step; [|split; [by eexists|done]]. apply bool_decide_eq_true, Some_inj' in H.
  wp_step. eapply wp_consequence; [by apply (learn_signature_wp E); [apply Hs|..]| |done].
  intros _ s1 (E1 & L1 & Hsrc1 & Hsig1). wp_step.
  eapply wp_consequence; [apply (learn_source_wp E1); [rewrite (proj1 (ln_limits _ _ _ _ L1)); apply Hs|apply L1|by eapply learnt_windowed]| |done].
  intros _ s2 (E2 & L2 & Hsig2 & Hsrc2). wp_step. pose proof (learnt_trans _ _ _ _ _ _ L1 L2) as L.
  pose proof (ei_active E s HE) as Hrun. rewrite Ha in Hrun. apply Some_inj' in Hrun.
  exists E2. split.
  - split; [split; [apply L|by eapply learnt_windowed]|]. split; [apply L|]. split; [|split; [|done]].
    + intros w Hopen [[(Hx & _) _]|(E0 & HE0 & Hw)]%(fun H => H Hopen); [congruence|]. pose proof (epoch_unique _ _ _ HE HE0) as <-.
      exists w. split; [done|]. rewrite (ln_run _ _ _ _ L), (ln_position _ _ _ _ L). apply Hw.
    + cbn. by rewrite (ln_pending _ _ _ _ L).
  - split; [by rewrite (ln_run _ _ _ _ L)|]. split; [by rewrite (ln_coverage _ _ _ _ L)|]. split; [done|].
    by rewrite Hsig2.
Qed.

(** *** Storing a block *)

Lemma pending_list_insert m t p :
  pending_list (<[t := p]> m) ≡ₚ pending_blocks p ++ pending_list (delete t m).
Proof. rewrite (pending_list_delete _ t p) by apply lookup_insert_eq. by rewrite delete_insert_eq. Qed.

Lemma put_block_blocks b p : occupied b p = false -> pending_blocks (put_block b p) ≡ₚ b :: pending_blocks p.
Proof.
  destruct b as [a|g], p as [[a'|] [g'|]]; cbn; intros H; try discriminate; try done.
  apply Permutation_swap.
Qed.

(** The slot at a tick, empty when there is none. *)
Definition slot_at (s : TimestampAligner) (t : Z) : PendingInterval :=
  default (PendingInterval.mk None None) (TimestampAligner._pending s !! t).

Definition stored (b : DataBlock) (s : TimestampAligner) : TimestampAligner :=
  let pending := <[block_ticks b := put_block b (slot_at s (block_ticks b))]> (TimestampAligner._pending s) in
  set_high_water (Z.max (TimestampAligner._high_water_intervals s) (Z.of_nat (size pending))) (set_pending pending s).

Lemma stored_pending b s :
  TimestampAligner._pending (stored b s)
  = <[block_ticks b := put_block b (slot_at s (block_ticks b))]> (TimestampAligner._pending s).
Proof. by destruct s. Qed.

Lemma store_block_eq b s :
  occupied b (slot_at s (block_ticks b)) = false -> store_block b s = (stored b s, Ok tt).
Proof.
  intros H. unfold store_block, mbind, effect_bind, gets. fold (slot_at s (block_ticks b)). by rewrite H.
Qed.

Lemma stored_blocks b s :
  occupied b (slot_at s (block_ticks b)) = false ->
  pending_list (TimestampAligner._pending (stored b s)) ≡ₚ b :: pending_list (TimestampAligner._pending s).
Proof.
  intros H. rewrite stored_pending, pending_list_insert, put_block_blocks by done. unfold slot_at.
  destruct (TimestampAligner._pending s !! block_ticks b) as [p|] eqn:Hp; cbn [default from_option id app].
  - by rewrite (pending_list_delete (TimestampAligner._pending s) _ p Hp).
  - cbn. by rewrite delete_id.
Qed.

Lemma windowed_size E s :
  epoch_inv E s -> windowed E s -> pending_intervals s <= TimestampAligner._max_pending_intervals s.
Proof.
  intros Hs Hw. pose proof (ei_max E s Hs) as Hm. unfold pending_intervals.
  pose proof (window_size (TimestampAligner._pending s) (Z.to_nat (TimestampAligner._max_pending_intervals s))
    (TimestampAligner._next_output_ticks s) (Epoch.coverage E) (ei_positive E s Hs)) as H.
  specialize (H ltac:(intros k [p Hk]; destruct (ei_pending E s Hs _ _ Hk) as (? & ? & _);
    specialize (Hw k ltac:(by exists p)); unfold span_end in Hw; rewrite Z2Nat.id by lia; done) (ei_grid E s Hs)). lia.
Qed.

(** Either the block falls into the window, or it is the only one. *)
Definition in_reach (E : Epoch) (b : DataBlock) (s : TimestampAligner) : Prop :=
  TimestampAligner._pending s = ∅ \/ block_ticks b < span_end E s.

Lemma stored_size E b s :
  epoch_inv E s -> windowed E s -> in_reach E b s -> block_ticks b mod Epoch.coverage E = 0 ->
  TimestampAligner._next_output_ticks s <= block_ticks b ->
  Z.of_nat (size (TimestampAligner._pending (stored b s))) <= TimestampAligner._max_pending_intervals s.
Proof.
  intros Hs Hw Hreach Hg Hn. rewrite stored_pending. pose proof (ei_max E s Hs) as Hm.
  destruct Hreach as [->|Hb]; [rewrite map_size_insert_None, map_size_empty by apply lookup_empty; lia|].
  pose proof (window_size (<[block_ticks b := put_block b (slot_at s (block_ticks b))]> (TimestampAligner._pending s))
    (Z.to_nat (TimestampAligner._max_pending_intervals s))
    (TimestampAligner._next_output_ticks s) (Epoch.coverage E) (ei_positive E s Hs)) as H.
  assert (Hkeys : forall k, is_Some (<[block_ticks b := put_block b (slot_at s (block_ticks b))]> (TimestampAligner._pending s) !! k) ->
    k mod Epoch.coverage E = 0 /\ TimestampAligner._next_output_ticks s <= k
      < TimestampAligner._next_output_ticks s + Z.of_nat (Z.to_nat (TimestampAligner._max_pending_intervals s)) * Epoch.coverage E).
  { intros k [p Hk]. unfold windowed, span_end in *. rewrite Z2Nat.id by lia.
    apply lookup_insert_Some in Hk as [[<- _]|[_ Hk]]; [done|].
    destruct (ei_pending E s Hs _ _ Hk) as (? & ? & _). specialize (Hw k ltac:(by exists p)). done. }
  specialize (H Hkeys (ei_grid E s Hs)). lia.
Qed.

Lemma stored_inv E b s :
  epoch_inv E s -> windowed E s -> in_reach E b s -> placed E (block_ticks b) b ->
  block_ticks b mod Epoch.coverage E = 0 -> TimestampAligner._next_output_ticks s <= block_ticks b ->
  occupied b (slot_at s (block_ticks b)) = false ->
  epoch_inv E (stored b s) /\ (block_ticks b < span_end E s -> windowed E (stored b s)) /\
  position E (stored b s) = position E s.
Proof.
  intros Hs Hw Hreach Hpl Hg Hn Hocc. pose proof (stored_size E b s Hs Hw Hreach Hg Hn) as Hsize.
  pose proof (stored_pending b s) as Hpend. split_and!; [|intros Hb t [p Ht]|by destruct s].
  - destruct Hs. destruct s. constructor; try done; cbn [TimestampAligner._pending stored TimestampAligner._next_output_ticks set_pending set_high_water] in *.
    + intros t p Ht. apply lookup_insert_Some in Ht as [[<- <-]|[_ Ht]]; [|by apply ei_pending0].
      split; [done|]. split; [done|]. pose proof (put_block_blocks b _ Hocc) as Hperm. split.
      { intros Hnil. rewrite Hnil in Hperm. by apply Permutation_nil_cons in Hperm. }
      rewrite Hperm. constructor; [done|]. unfold slot_at. cbn.
      destruct (_ !! _) as [p0|] eqn:Hp0; [|constructor]. by destruct (ei_pending0 _ _ Hp0) as (_ & _ & _ & ?).
    + cbn in *. lia.
  - rewrite Hpend in Ht. replace (span_end E (stored b s)) with (span_end E s) by by destruct s.
    apply lookup_insert_Some in Ht as [[<- _]|[_ Ht]]; [done|]. apply Hw. by exists p.
Qed.

(** *** Accepting a block *)

(** The second drain, up to the greatest pending tick. *)
Definition settled_window (E : Epoch) (s : TimestampAligner) (out : list AlignmentItem) (s' : TimestampAligner) : Prop :=
  progress E s s' out /\ windowed E s'.

Lemma drain_stored_wp E b s :
  TimestampAligner._max_pending_intervals s = limit -> epoch_inv E s -> windowed E s -> in_reach E b s -> placed E (block_ticks b) b ->
  block_ticks b mod Epoch.coverage E = 0 -> TimestampAligner._next_output_ticks s <= block_ticks b ->
  occupied b (slot_at s (block_ticks b)) = false ->
  exists k, max_key (TimestampAligner._pending (stored b s)) = Some k /\
    wp (_drain k) (settled_window E (stored b s)) refused (stored b s).
Proof.
  intros Hl Hs Hw Hreach Hpl Hg Hn Hocc.
  destruct (stored_inv E b s Hs Hw Hreach Hpl Hg Hn Hocc) as (Hs2 & Hw2 & _). pose proof (ei_positive E s Hs) as Hc.
  assert (Hk0 : is_Some (TimestampAligner._pending (stored b s) !! block_ticks b)).
  { rewrite stored_pending, lookup_insert_eq. by eexists. }
  destruct (max_key_spec _ _ Hk0) as (k & Hmax & Hk & Hkle). exists k. split; [done|]. eapply wp_consequence; [by apply (drain_wp E)|..].
  - intros out s' (Hprog & Hex & _). split; [done|]. intros t Ht.
    destruct Hex as [He|He]; [rewrite He, lookup_empty in Ht; by destruct Ht|].
    assert (t <= k); [|lia]. apply Hkle. destruct Ht as [p Ht]. exists p.
    by apply (lookup_weaken _ _ _ _ Ht), Hprog.
  - intros e s' [Hf Hstuck]. assert (block_ticks b < span_end E s -> refused e s') as Hin.
    { intros Hb. by apply (failed_inv E (stored b s)), Hf; [destruct s|apply Hw2]. }
    destruct Hreach as [Hempty|Hb]; [|by apply Hin]. exfalso.
    destruct Hstuck as (p & Hp & Hwhy). destruct Hf as (_ & Hs' & Ha).
    pose proof (lookup_weaken _ _ _ _ Hp (ad_pending _ _ Ha)) as Hp2.
    rewrite stored_pending, Hempty, lookup_insert_Some, lookup_empty in Hp2.
    destruct Hp2 as [[Ht <-]|[_ ?]]; [|done]. unfold slot_at in *. rewrite Hempty, lookup_empty in *.
    destruct Hwhy as [Hcomp|Hspan]; [by destruct b|].
    destruct Hk as [q Hk]. rewrite stored_pending, Hempty, lookup_insert_Some, lookup_empty in Hk.
    destruct Hk as [[<- _]|[_ ?]]; [|done]. unfold span_end in Hspan. pose proof (ei_max E s' Hs'). nia.
Qed.

(** Lines 516-535: drain, store, drain, and the bound that the code asserts. *)
Definition accepted (E : Epoch) (b : DataBlock) (s : TimestampAligner) (out : list AlignmentItem) (s' : TimestampAligner) :
    Prop :=
  epoch_inv E s' /\ windowed E s' /\ same_limits s s' /\
  (forall w, enter (Epoch.run E) w = position E s -> exists w', walk (Some w) out = Some w' /\ follows E w' s') /\
  b :: pending_list (TimestampAligner._pending s) ≡ₚ blocks_out out ++ pending_list (TimestampAligner._pending s') /\
  gaps_out out ⊆+ gaps_carried out.

Lemma accept_wp E b epoch s :
  TimestampAligner._max_pending_intervals s = limit -> epoch_inv E s -> windowed E s -> placed E (block_ticks b) b -> block_ticks b mod Epoch.coverage E = 0 ->
  TimestampAligner._next_output_ticks s <= block_ticks b -> occupied b (slot_at s (block_ticks b)) = false ->
  wp (before ← _drain (block_ticks b);
      _ ← store_block b;
      pending ← gets TimestampAligner._pending;
      highest ← of_key (max_key pending);
      after ← _drain highest;
      s ← get;
      _ ← check (negb (TimestampAligner._max_pending_intervals s <? pending_intervals s))
            (AlignmentAssertionError "timestamp aligner exceeded its configured bound");
      mret (epoch ++ before ++ after))
    (fun out s' => exists rest, out = epoch ++ rest /\ accepted E b s rest s') refused s.
Proof.
  intros Hl Hs Hw Hpl Hg Hn Hocc. pose proof (ei_positive E s Hs) as Hc. wp_step.
  eapply wp_consequence; [by apply (drain_wp E)|..]; cycle 1.
  { intros e s' [Hf _]. by apply (failed_inv E s). }
  intros before s1 (Hp1 & Hex & Hopen & _). pose proof (pg_inv _ _ _ _ Hp1) as Hs1.
  pose proof (pg_advanced _ _ _ _ Hp1) as Ha1. pose proof (windowed_advanced E s s1 Hc Hw Ha1) as Hw1.
  assert (Hn1 : TimestampAligner._next_output_ticks s1 <= block_ticks b).
  { apply Hopen. split; [done|]. split; [done|]. intros p Hp. unfold slot_at in Hocc. rewrite Hp in Hocc.
    destruct b, p as [[?|] [?|]]; done. }
  assert (Hocc1 : occupied b (slot_at s1 (block_ticks b)) = false).
  { unfold slot_at in *. destruct (TimestampAligner._pending s1 !! block_ticks b) as [p|] eqn:Hp; [|by destruct b].
    by rewrite (lookup_weaken _ _ _ _ Hp (ad_pending _ _ Ha1)) in Hocc. }
  wp_step. eapply wp_returns; [by apply store_block_eq|].
  destruct (drain_stored_wp E b s1 ltac:(by rewrite (ad_max _ _ Ha1)) Hs1 Hw1 Hex Hpl Hg Hn1 Hocc1) as (k & Hmax & Hdrain).
  destruct (stored_inv E b s1 Hs1 Hw1 Hex Hpl Hg Hn1 Hocc1) as (Hs2 & _ & Hpos).
  do 3 wp_step. rewrite Hmax. eapply wp_returns; [done|]. wp_step. eapply wp_consequence; [exact Hdrain| |done].
  intros after s3 [Hp3 Hw3]. pose proof (pg_inv _ _ _ _ Hp3) as Hs3. do 4 wp_step; cycle 1.
  { apply negb_false_iff, Z.ltb_lt in H. pose proof (windowed_size E s3 Hs3 Hw3). lia. }
  wp_step. exists (before ++ after). split; [done|]. split; [done|]. split; [done|]. split; [|split; [|split]].
  - eapply limits_trans; [by apply advanced_limits|]. eapply limits_trans; [|apply advanced_limits, Hp3]. by destruct s1; split.
  - intros w Hpw. destruct (pg_emits _ _ _ _ Hp1 w Hpw) as (w1 & Hw1' & Hpos1 & _).
    destruct (progress_follows E w1 (stored b s1) s3 after Hs2 Hp3) as (w2 & Hw2' & Hf2).
    { split; [by rewrite Hpos|]. rewrite stored_pending. intros Hx. by apply insert_non_empty in Hx. }
    exists w2. split; [by rewrite walk_concat, Hw1'|done].
  - rewrite blocks_out_app, (pg_blocks _ _ _ _ Hp1), <-app_assoc, <-(pg_blocks _ _ _ _ Hp3), stored_blocks by done.
    by rewrite Permutation_middle.
  - rewrite gaps_out_app, gaps_carried_app. apply submseteq_app; [apply Hp1|apply Hp3].
Qed.

(** ** Calls *)

(** What the aligner is handed: constructed blocks and gaps. *)
Definition gap_input_wf (g : StreamGap) : Prop :=
  0 < StreamGap.run_id g < 2 ^ 32 /\ 0 < StreamGap.period_ticks g /\ 0 < StreamGap.frame_item_count g.

Definition input_wf (item : AlignmentInput) : Prop :=
  match item with InputBlock b => block_wf b | InputGap g => gap_input_wf g end.

Lemma coverage_positive b : block_wf b -> 0 < _block_coverage_ticks b.
Proof. intros Hb. unfold _block_coverage_ticks. pose proof (bw_count b Hb). pose proof (bw_period b Hb). nia. Qed.

Lemma validate_block_wp b s :
  aligner_inv s ->
  wp (_validate_block_interval b)
    (fun _ s' => s' = s /\ block_ticks b mod _block_coverage_ticks b = 0 /\
                 block_ticks b + _block_coverage_ticks b <= UINT64_MAX) refused s.
Proof.
  intros Hs. unfold _validate_block_interval. cbv zeta.
  wp_step. wp_step; [|by split; [eexists|]]. wp_step. wp_step; [|by split; [eexists|]].
  wp_step; [|by split; [eexists|]]. split; [done|]. split; [by apply Z.eqb_eq|by apply Z.leb_le].
Qed.

(** An accepted input leaves an epoch, and an open aligner open. *)
Definition started (s s' : TimestampAligner) : Prop :=
  ~ idle s' /\ TimestampAligner._closed s' = TimestampAligner._closed s.

Lemma push_block_wp b s :
  aligner_inv s -> TimestampAligner._closed s = false -> block_wf b ->
  wp (push_block b) (fun out s' => called [b] [] s out s' /\ started s s') refused s.
Proof.
  intros Hs Hopen Hb. pose proof (coverage_positive b Hb) as Hc. unfold push_block.
  wp_step. wp_step; [|by split; [eexists|]]. wp_step. eapply wp_consequence; [by apply validate_block_wp| |done].
  intros _ ? (-> & Hg & Hwrap). wp_step.
  eapply wp_consequence; [apply (activate_wp (block_run_id b) (Some (block_source b)) (_block_coverage_ticks b)
    (Some (_block_profile_signature b)) s Hs (bw_run b Hb) Hc)| |done].
  intros epoch s1 (E & (Hinv & Hmax & Hwalk & Hblocks & Hgaps) & Hrun & Hcov & Hsrc & Hsig). destruct Hinv as [Hs1 Hw1].
  assert (Hl1 : TimestampAligner._max_pending_intervals s1 = limit) by (rewrite (proj1 Hmax); apply Hs).
  pose proof (epoch_aligner_inv E s1 Hl1 Hs1 Hw1) as Hai. do 2 wp_step. wp_step.
  wp_step; [|by split; [eexists|]]. apply negb_true_iff, Z.ltb_ge in H0.
  do 2 wp_step. wp_step. wp_step; [|by split; [eexists|]]. apply negb_true_iff in H1.
  eapply wp_consequence; [apply (accept_wp E b epoch s1); try done|..]; [|by rewrite Hcov| | |done].
  - constructor; try done; [by rewrite Hcov|by destruct Hsrc|by destruct Hsig].
  - unfold slot_at. by destruct (_ !! _) as [p|]; [|destruct b].
  - intros out s2 (rest & -> & Hs2 & Hw2 & Hlim2 & Hwalk2 & Hblocks2 & Hgaps2).
    destruct (limits_trans _ _ _ Hmax Hlim2) as [Hm2 Hc2]. split; [|split; [by eapply epoch_not_idle|done]]. split.
    + apply (epoch_aligner_inv E); try done. rewrite Hm2. apply Hs.
    + intros w Hw. destruct (Hwalk w Hopen Hw) as (w1 & Hw1' & Hpos). destruct (Hwalk2 w1 Hpos) as (w2 & Hw2' & Hf).
      exists w2. split; [by rewrite walk_concat, Hw1'|]. intros _. right. by exists E.
    + rewrite blocks_out_app, <-app_assoc, <-Hblocks2, Hblocks. by rewrite <-Permutation_middle.
    + exists (gaps_out (epoch ++ rest)). split; [done|]. rewrite gaps_out_app, gaps_carried_app. by apply submseteq_app.
Qed.

Lemma announce_inv E s key g :
  epoch_inv E s -> windowed E s -> TimestampAligner._announced_gaps s !! key = None ->
  Z.of_nat (size (TimestampAligner._announced_gaps s)) < 2 * TimestampAligner._max_pending_intervals s ->
  let s' := set_announced (<[key := g]> (TimestampAligner._announced_gaps s)) s in epoch_inv E s' /\ windowed E s'.
Proof.
  intros Hs Hw Hkey Hsize s'. split; [|by destruct s]. destruct Hs. unfold s'. destruct s.
  constructor; try done. cbn in *. rewrite map_size_insert_None by done. lia.
Qed.

Lemma push_gap_wp g s :
  aligner_inv s -> TimestampAligner._closed s = false -> gap_input_wf g ->
  wp (_push_announced_gap g) (fun out s' => called [] [g] s out s' /\ started s s') refused s.
Proof.
  intros Hs Hopen (Hr & Hp & Hi). unfold _push_announced_gap. cbv zeta.
  wp_step. wp_step; [|by split; [eexists|]]. wp_step.
  eapply wp_consequence; [apply (activate_wp (StreamGap.run_id g) None (StreamGap.period_ticks g * StreamGap.frame_item_count g)
    None s Hs Hr ltac:(lia))| |done].
  intros epoch s1 (E & ([Hs1 Hw1] & Hmax & Hwalk & Hblocks & Hgaps) & Hrun & _).
  assert (Hl1 : TimestampAligner._max_pending_intervals s1 = limit) by (rewrite (proj1 Hmax); apply Hs).
  pose proof (epoch_aligner_inv E s1 Hl1 Hs1 Hw1) as Hai.
  do 2 wp_step. wp_step. wp_step; [|by split; [eexists|]]. do 2 wp_step. wp_step. wp_step; [|by split; [eexists|]].
  do 2 wp_step. wp_step. wp_step; [|by split; [eexists|]]. do 2 wp_step. wp_step.
  apply bool_decide_eq_true in H1. apply negb_true_iff, Z.leb_gt in H2.
  destruct (announce_inv E s1 _ g Hs1 Hw1 H1 H2) as [Hs2 Hw2]. set (s2 := set_announced _ s1) in *.
  assert (Hlim : same_limits s s2) by (eapply limits_trans; [exact Hmax|by destruct s1; split]).
  split; [|split; [by eapply epoch_not_idle|apply Hlim]]. split.
  - apply (epoch_aligner_inv E); try done. rewrite (proj1 Hlim). apply Hs.
  - intros w Hw. destruct (Hwalk w Hopen Hw) as (w1 & Hw1' & Hpos). exists (position E s2). rewrite walk_concat, Hw1'.
    cbn [walk foldl mbind option_bind walk_item]. rewrite Hrun in Hpos. split.
    + rewrite Hpos. unfold position, standing. cbn [Walk.run Walk.tick Walk.announced Walk.gaps Walk.sequence Walk.ticks].
      apply negb_true_iff, Z.ltb_ge, Z.leb_le in H0. unfold key_of_gap. rewrite H0, bool_decide_eq_true_2 by done. by destruct s1.
    + intros _. right. exists E. split; [done|]. split; [apply (enter_here (position E s2))|done].
  - rewrite blocks_out_app. change (blocks_out [Gap g]) with (@nil DataBlock). rewrite app_nil_r. cbn. rewrite Hblocks. by destruct s1.
  - exists (gaps_out epoch). rewrite gaps_out_app, gaps_carried_app. change (gaps_carried [Gap g]) with (@nil StreamGap). rewrite app_nil_r.
    split; [apply (Permutation_app_comm (gaps_out epoch) [g])|done].
Qed.

Lemma push_wp item s :
  aligner_inv s -> input_wf item ->
  wp (push item) (fun out s' => called (input_blocks item) (input_gaps item) s out s' /\ started s s') refused s.
Proof.
  intros Hs Hi. unfold push. do 2 wp_step. wp_step. wp_step; [|by split; [eexists|]]. apply negb_true_iff in H.
  destruct item as [b|g]; [by apply push_block_wp|by apply push_gap_wp].
Qed.

(** [flush] and [finish] need an epoch, which the first accepted input starts. *)
Definition not_ended (s : TimestampAligner) (e : align_error) (s' : TimestampAligner) : Prop :=
  aligner_inv s' /\ (own_error e \/ (exists message, e = AlignmentAssertionError message) /\ idle s).

Lemma called_refl s : aligner_inv s -> called [] [] s [] s.
Proof. intros Hs. split; try done; [intros w Hw; by exists w|by exists []]. Qed.

Lemma flush_call_wp reason s :
  aligner_inv s -> TimestampAligner._closed s = false ->
  wp (_flush_pending reason)
    (fun out s' => called [] [] s out s' /\ TimestampAligner._pending s' = ∅ /\ ~ idle s /\
                   TimestampAligner._closed s' = TimestampAligner._closed s) (not_ended s) s.
Proof.
  intros Hs Hopen. destruct (ai_epoch s Hs) as [Hidle|(E & HE & Hw)].
  - unfold _flush_pending, _required_frame_coverage_ticks. do 3 wp_step. destruct Hidle as (Ha & -> & Hp).
    wp_step; [done|]. split; [done|]. right. split; [by eexists|]. split; [done|]. split; [|done].
    destruct (ai_epoch s Hs) as [(_ & Hx & _)|(E & HE & _)]; [done|]. pose proof (ei_active E s HE). congruence.
  - eapply wp_consequence; [by apply (flush_pending_wp E)|..].
    + intros out s' [Hprog Hempty]. split; [|split; [done|split]].
      * split; [apply (epoch_aligner_inv E); [rewrite (ad_max _ _ (pg_advanced _ _ _ _ Hprog)); apply Hs|apply Hprog|eapply windowed_advanced; [apply HE|exact Hw|apply Hprog]]| | |].
        -- intros w [[(Hx & _) _]|(E0 & HE0 & Hf)]%(fun H => H Hopen); [pose proof (ei_active E s HE); congruence|].
           pose proof (epoch_unique _ _ _ HE HE0) as <-.
           destruct (progress_follows E w s s' out HE Hprog Hf) as (w' & Hw' & Hf'). exists w'. split; [done|].
           intros _. right. exists E. split; [apply Hprog|done].
        -- apply Hprog.
        -- exists (gaps_out out). split; [done|apply Hprog].
      * by apply (epoch_not_idle E).
      * apply Hprog.
    + intros e s' Hf. destruct (failed_inv E s e s' (ai_limit s Hs) Hw Hf) as [He Hi]. split; [done|by left].
Qed.

Definition close (s : TimestampAligner) : TimestampAligner := set_closed true (set_announced ∅ s).

Lemma close_epoch_inv E s : epoch_inv E s -> epoch_inv E (close s).
Proof. intros []. destruct s. constructor; try done. cbn in *. rewrite map_size_empty. lia. Qed.

Lemma close_idle s : idle s -> idle (close s).
Proof. destruct s. intros (? & ? & ? & ?). by repeat split. Qed.

Lemma close_called bs gs s out s' : called bs gs s out s' -> called bs gs s out (close s').
Proof.
  intros [[Hl Hm Hh He] Hw Hb Hg]. split; [split; [by destruct s'..|]| | |done].
  - destruct He as [Hi|(E & HE & Hwin)]; [left; by apply close_idle|].
    right. exists E. split; [by apply close_epoch_inv|]. by destruct s'.
  - intros w Hsync. destruct (Hw w Hsync) as (w' & Hw' & _). exists w'. split; [done|]. by destruct s'.
  - rewrite Hb. by destruct s'.
Qed.

Lemma flush_wp s :
  aligner_inv s -> wp flush (called [] [] s) (not_ended s) s.
Proof.
  intros Hs. unfold flush. do 2 wp_step. destruct (TimestampAligner._closed s) eqn:Hopen; [wp_step; by apply called_refl|].
  eapply wp_consequence; [by apply flush_call_wp| |done]. by intros out s' (? & _).
Qed.

Lemma finish_wp s :
  aligner_inv s ->
  wp finish
    (fun out s' => called [] [] s out s' /\
       (TimestampAligner._closed s = false -> TimestampAligner._pending s' = ∅ /\ ~ idle s)) (not_ended s) s.
Proof.
  intros Hs. unfold finish. do 2 wp_step. destruct (TimestampAligner._closed s) eqn:Hopen.
  { wp_step. split; [by apply called_refl|done]. }
  wp_step. eapply wp_consequence; [by apply flush_call_wp| |done].
  intros out s' (Hc & Hp & Hne & _). do 4 wp_step. wp_step. fold (close s'). split; [by apply close_called|].
  intros _. split; [by destruct s'|done].
Qed.

(** ** The loop of [align_by_timestamp] *)

Lemma push_closed item s s' out :
  aligner_inv s -> input_wf item -> push item s = (s', Ok out) -> TimestampAligner._closed s = false.
Proof. unfold push, mbind, effect_bind, gets. intros _ _. by destruct (TimestampAligner._closed s). Qed.

End Calls.
