(* ===== verification/Aligned.v ===== *)
(** * Theorems about the timestamp aligner: complete accounting, bounds, and exact pairing
      of two complete streams. *)

From stdpp Require Import gmap.
From S2P Require Import Prelude PyStruct Checksum V3Constants V3Header Profiles Losses Blocks Continuity Effects Alignment AlignmentSpec.

(** ** Accounting *)

Lemma new_aligner_inv limit s :
  new_aligner limit = Ok s -> 0 < limit /\ aligner_inv limit s /\ idle s /\ TimestampAligner._closed s = false.
Proof.
  unfold new_aligner. intros H. apply require_bind in H as [Hl%Z.ltb_lt H]. apply Ok_inj in H. subst s.
  split; [done|]. assert (Hi : idle (TimestampAligner.mk limit ∅ ∅ None None None None 0 (PerStream.mk 0 0) (PerStream.mk 0 0) 0 false))
    by by repeat split.
  split; [split; [done|done|cbn; lia|by left]|by split].
Qed.

Definition outcome_of (items : list AlignmentInput) (s : TimestampAligner) (out : list AlignmentItem)
    (outcome : result align_error unit) : Prop :=
  match outcome with
  | Ok _ => concat (map input_blocks items) ++ pending_list (TimestampAligner._pending s) ≡ₚ blocks_out out /\
            (exists own, gaps_out out ≡ₚ concat (map input_gaps items) ++ own /\ own ⊆+ gaps_carried out) /\
            ~ (idle s /\ items = [])
  | Err e => own_error e \/ (exists message, e = AlignmentAssertionError message) /\ idle s /\ items = []
  end.

Lemma align_loop_ok limit items s w :
  aligner_inv limit s -> synced w s -> TimestampAligner._closed s = false -> Forall input_wf items ->
  let '(out, outcome) := align_loop items s in
  (exists w', walk (Some w) out = Some w') /\ outcome_of items s out outcome.
Proof.
  revert s w. induction items as [|item items IH]; intros s w Hs Hw Hc Hwf; cbn [align_loop].
  - destruct (finish s) as [s' [out|e]] eqn:Hf; pose proof (wp_run _ _ _ _ _ _ (finish_wp limit s Hs) Hf) as H.
    + destruct H as [[_ Hwalk Hblocks Hgaps] Hempty]. destruct (Hempty Hc) as [He Hne]. split.
      { destruct (Hwalk w Hw) as (w' & ? & _). by exists w'. }
      split; [|split; [exact Hgaps|by intros [? _]]]. cbn in *. by rewrite Hblocks, He, pending_list_empty, app_nil_r.
    + destruct H as [_ He]. split; [by exists w|]. destruct He as [He|[He Hi]]; [by left|right]. by split_and!.
  - apply Forall_cons in Hwf as [Hi Hwf]. destruct (push item s) as [s1 [out|e]] eqn:Hp;
      pose proof (wp_run _ _ _ _ _ _ (push_wp limit item s Hs Hi) Hp) as H.
    + destruct H as [[Hs1 Hwalk Hblocks (own1 & Hg1 & Ho1)] [Hne Hc1]]. destruct (Hwalk w Hw) as (w1 & Hw1 & Hsync).
      specialize (IH s1 w1 Hs1 Hsync ltac:(by rewrite Hc1) Hwf).
      destruct (align_loop items s1) as [rest outcome]. destruct IH as [(w2 & Hw2) Ho]. split.
      { exists w2. by rewrite walk_concat, Hw1. }
      destruct outcome as [[]|e]; cbn in *.
      * destruct Ho as (Ho & (own & Hg & Hown) & _). split_and!; [| |by intros [_ ?]].
        -- by rewrite blocks_out_app, <-Ho, (Permutation_app_comm (input_blocks item)), <-!app_assoc, Hblocks, (Permutation_app_swap_app).
        -- exists (own1 ++ own). rewrite gaps_out_app, gaps_carried_app. split; [|by apply submseteq_app].
           rewrite Hg1, Hg, <-!app_assoc. apply Permutation_app_head, Permutation_app_swap_app.
      * destruct Ho as [Ho|(_ & Hi' & _)]; [by left|done].
    + destruct H as [He _]. split; [by exists w|by left].
Qed.

(** C14. [align_by_timestamp] accounts for everything it is given.  Whatever constructed blocks
    and gaps arrive in whatever order, the items it yields tile each run's timeline from tick
    0 on without a hole or an overlap: a loss record precedes exactly the intervals without
    one side, and a skipped range is one record.  In each stream a block of an interval
    continues the previous one unmarked, and then the interval has no gap for it; or it does
    not, or is marked GAP_BEFORE, and then the interval carries the gap that leads to it, with
    the frames and items missing in between (none, for a block that is only marked).  Every
    gap that an interval carries was yielded once, before it, and no other gap for its blocks
    was.  When the generator ends without an error, every input block is in exactly one
    interval, and the gaps yielded are the gaps handed in, once each, and gaps that intervals
    carry.  It raises nothing but [TimestampAlignmentError], except that the empty input fails
    an assertion. *)
Theorem alignment_accounts (items : list AlignmentInput) (limit : Z)
    (Hlimit : 0 < limit) (Hwf : Forall input_wf items) :
  let '(out, outcome) := align_by_timestamp items limit in
  (exists w, walk (Some nowhere) out = Some w) /\
  match outcome with
  | Ok _ => concat (map input_blocks items) ≡ₚ blocks_out out /\
            exists own, gaps_out out ≡ₚ concat (map input_gaps items) ++ own /\ own ⊆+ gaps_carried out
  | Err (TimestampAlignmentError _) => items <> []
  | Err (AlignmentAssertionError _) => items = []
  | Err _ => False
  end.
Proof.
  unfold align_by_timestamp. assert (Hnew : exists s, new_aligner limit = Ok s).
  { unfold new_aligner. rewrite (proj2 (Z.ltb_lt 0 limit)) by done. by eexists. }
  destruct Hnew as [s Hs]. rewrite Hs. destruct (new_aligner_inv limit s Hs) as (_ & Hinv & Hidle & Hc).
  assert (Hsync : synced nowhere s) by (intros _; by left).
  pose proof (align_loop_ok limit items s nowhere Hinv Hsync Hc Hwf) as H.
  assert (Hempty : items = [] -> exists message, align_loop items s = ([], Err (AlignmentAssertionError message))).
  { intros ->. unfold new_aligner in Hs. apply require_bind in Hs as [_ Hs]. apply Ok_inj in Hs. subst s. by eexists. }
  destruct (align_loop items s) as [out outcome]. destruct H as [Hw Ho]. split; [done|].
  destruct outcome as [[]|e]; cbn in Ho.
  - destruct Ho as (Ho & Hg & _). destruct Hidle as (_ & _ & Hp & _). by rewrite Hp, pending_list_empty, app_nil_r in Ho.
  - destruct Ho as [[message ->]|([message ->] & _ & ->)]; [|done]. intros ->. by destruct (Hempty eq_refl).
Qed.

(** ** Bounds over any sequence of calls *)









(** ** Two complete streams *)

(** A block that continues its stream from nothing missing. *)
Record continuing (E : Epoch) (k : nat) (b : DataBlock) : Prop := {
  cn_placed : placed E (Z.of_nat k * Epoch.coverage E) b;
  cn_sequence : block_sequence b = u32 (Z.of_nat k);
  cn_unmarked : marked_gap b = false;
  cn_no_gap : embedded_gap b = None;
  cn_profile : block_profile b <> V2RateProfile.ADC_1MHZ_GPIO_1MHZ
}.

(** No gap is measured. *)
Lemma continuity_result_clean E s b :
  epoch_inv E s -> block_wf b -> marked_gap b = false -> embedded_gap b = None ->
  TimestampAligner._announced_gaps s = ∅ ->
  of_stream (TimestampAligner._expected_sequence s) (block_kind b) = block_sequence b ->
  of_stream (TimestampAligner._expected_ticks s) (block_kind b) = block_ticks b ->
  _continuity_result b s = (s, Ok (ContinuityResult.mk b None false None)).
Proof.
  intros Hs Hb Hm He Ha Hseq Htk. unfold _continuity_result, mbind, effect_bind, get.
  rewrite Hseq, Htk, (from_expected_ok b _ _ 0 0 0 Hb (bw_sequence b Hb) (bw_ticks b Hb)); [|lia|].
  - rewrite Hm, He, Ha, lookup_empty. done.
  - pose proof (bw_period b Hb). constructor; rewrite ?Z.sub_diag; try done. case_decide; lia.
Qed.

(** The method returns [a] and leaves [s']. *)
Definition returns {A} (m : aligner A) (a : A) (s s' : TimestampAligner) : Prop :=
  wp m (fun b t => b = a /\ t = s') (fun _ _ => False) s.

Lemma returns_eq {A} (m : aligner A) a s s' : returns m a s s' -> m s = (s', Ok a).
Proof.
  unfold returns. intros H. destruct (m s) as [t [b|e]] eqn:Hm; pose proof (wp_run _ _ _ _ _ _ H Hm) as H'; [|done].
  by destruct H' as [-> ->].
Qed.

Definition paired (a : ADCBlock) (g : GPIOBlock) : AlignmentItem :=
  Interval (AlignedInterval.mk (Some a) (Some g) []).

Lemma emit_pair E s k a g :
  epoch_inv E s -> TimestampAligner._announced_gaps s = ∅ ->
  continuing E k (AdcData a) -> continuing E k (GpioData g) ->
  TimestampAligner._next_output_ticks s = Z.of_nat k * Epoch.coverage E ->
  TimestampAligner._expected_sequence s = PerStream.mk (u32 (Z.of_nat k)) (u32 (Z.of_nat k)) ->
  TimestampAligner._expected_ticks s
  = PerStream.mk (Z.of_nat k * Epoch.coverage E) (Z.of_nat k * Epoch.coverage E) ->
  TimestampAligner._pending s !! TimestampAligner._next_output_ticks s = Some (PendingInterval.mk (Some a) (Some g)) ->
  returns (_emit_slot (TimestampAligner._next_output_ticks s) None) [paired a g] s
    (after_slot E s [ContinuityResult.mk (AdcData a) None false None; ContinuityResult.mk (GpioData g) None false None]).
Proof.
  intros Hs Han [Pa Sa Ma Ga _] [Pg Sg Mg Gg _] Hn Hseq Htk Hp.
  destruct (ei_pending E s Hs _ _ Hp) as (_ & Hgrid & _ & Hpl).
  assert (Ca : _continuity_result (AdcData a) s = (s, Ok (ContinuityResult.mk (AdcData a) None false None))).
  { apply (continuity_result_clean E); try done; [apply Pa|rewrite Hseq; by symmetry|rewrite Htk; symmetry; apply (pl_ticks _ _ _ Pa)]. }
  assert (Cg : _continuity_result (GpioData g) s = (s, Ok (ContinuityResult.mk (GpioData g) None false None))).
  { apply (continuity_result_clean E); try done; [apply Pg|rewrite Hseq; by symmetry|rewrite Htk; symmetry; apply (pl_ticks _ _ _ Pg)]. }
  assert (Hsrc : exists source, Epoch.source E = Some source) by (eexists; apply (pl_source _ _ _ Pa)).
  destruct Hsrc as [source Hsrc]. apply (emit_slot_eq E s _ None source
    [ContinuityResult.mk (AdcData a) None false None; ContinuityResult.mk (GpioData g) None false None] _ _ Hs Hp); try done.
  - cbn. unfold mbind, effect_bind. by rewrite Ca, Cg.
  - assert (Hacc : forall b, accounts s b (ContinuityResult.mk b None false None)).
    { intros b. unfold accounts. by rewrite Han, lookup_empty. }
    constructor; [split; [done| |apply Hacc]|constructor; [split; [done| |apply Hacc]|constructor]]; unfold leads;
      cbn [ContinuityResult.gap]; rewrite Hseq, Htk; (split; [done|]); (split; [|done]);
      [apply (pl_ticks _ _ _ Pa)|apply (pl_ticks _ _ _ Pg)].
Qed.

(** A drain with nothing complete at the output position, inside the window. *)
Lemma drain_loop_idle E s fuel highest :
  epoch_inv E s -> highest < span_end E s ->
  default false (complete <$> TimestampAligner._pending s !! TimestampAligner._next_output_ticks s) = false ->
  returns (drain_loop (S fuel) (Epoch.coverage E) highest) [] s s.
Proof.
  intros Hs Hh Hc. unfold returns. cbn [drain_loop]. do 2 wp_step. case_match; [by wp_step|]. rewrite Hc.
  case_match eqn:Hlt; [by wp_step|]. apply Z.ltb_ge in Hlt.
  rewrite (proj2 (Z.ltb_lt _ _)); [by wp_step|]. apply div_below; [apply (ei_positive E s Hs)|]. unfold span_end in Hh. lia.
Qed.

Lemma drain_returns E s highest out s' :
  epoch_inv E s -> returns (drain_loop (loop_fuel s) (Epoch.coverage E) highest) out s s' -> returns (_drain highest) out s s'.
Proof.
  intros Hs H. unfold returns, _drain, _required_frame_coverage_ticks. do 3 wp_step. rewrite (ei_coverage E s Hs).
  eapply wp_returns; [done|]. wp_step. wp_step. exact H.
Qed.

Lemma drain_idle E s highest :
  epoch_inv E s -> highest < span_end E s ->
  default false (complete <$> TimestampAligner._pending s !! TimestampAligner._next_output_ticks s) = false ->
  returns (_drain highest) [] s s.
Proof.
  intros Hs Hh Hc. apply (drain_returns E); [done|]. unfold loop_fuel. rewrite Nat.add_comm. by apply drain_loop_idle.
Qed.

Lemma flush_empty E s reason :
  epoch_inv E s -> TimestampAligner._pending s = ∅ -> returns (_flush_pending reason) [] s s.
Proof.
  intros Hs Hp. unfold returns, _flush_pending, _required_frame_coverage_ticks. do 3 wp_step.
  rewrite (ei_coverage E s Hs). eapply wp_returns; [done|]. do 2 wp_step. unfold loop_fuel.
  rewrite Nat.add_comm. cbn [Nat.add flush_loop]. do 2 wp_step. rewrite Hp, map_size_empty. cbn [Nat.eqb]. by wp_step.
Qed.

(** A drain that finds one complete slot. *)
Lemma drain_one E s p out s' highest :
  epoch_inv E s -> epoch_inv E s' ->
  TimestampAligner._pending s !! TimestampAligner._next_output_ticks s = Some p -> complete p = true ->
  returns (_emit_slot (TimestampAligner._next_output_ticks s) None) out s s' -> highest < span_end E s' ->
  default false (complete <$> TimestampAligner._pending s' !! TimestampAligner._next_output_ticks s') = false ->
  returns (_drain highest) out s s'.
Proof.
  intros Hs Hs' Hp Hcp Hemit Hh Hc. apply (drain_returns E); [done|]. unfold loop_fuel.
  rewrite Nat.add_comm. unfold returns. cbn [Nat.add drain_loop]. do 2 wp_step.
  destruct (Nat.eqb_spec (size (TimestampAligner._pending s)) 0) as [Hz|_].
  { apply map_size_empty_iff in Hz. by rewrite Hz, lookup_empty in Hp. }
  rewrite Hp. cbn [fmap option_fmap option_map default id]. rewrite Hcp. cbn [id].
  wp_step. eapply wp_returns; [by apply returns_eq|]. wp_step.
  eapply wp_returns; [by apply returns_eq, (drain_loop_idle E)|]. wp_step. by rewrite app_nil_r.
Qed.

Lemma validate_returns E k b s :
  continuing E k b -> 0 < Epoch.coverage E -> returns (_validate_block_interval b) tt s s.
Proof.
  intros [Hpl _ _ _ _] Hc. pose proof Hpl as [_ _ Ht Hcov Hw _ _]. unfold returns, _validate_block_interval. cbv zeta.
  assert (H0 : 0 <= Z.of_nat k * Epoch.coverage E) by nia.
  pose proof (reference_ok E _ b H0 (Z_mod_mult _ _) Hc Hpl) as Hr. unfold interval_reference_check in Hr. cbv zeta in Hr.
  apply require_bind in Hr as [H1 Hr]. apply require_bind in Hr as [H2 Hr]. apply require_Ok in Hr.
  wp_step. wp_step; [|congruence]. wp_step. wp_step; [|congruence]. wp_step; [done|congruence].
Qed.

Lemma activate_returns E k b s :
  epoch_inv E s -> continuing E k b ->
  returns (_activate_epoch (block_run_id b) (Some (block_source b)) (_block_coverage_ticks b)
             (Some (_block_profile_signature b))) [] s s.
Proof.
  intros Hs [[_ Hr _ Hc _ Hsrc Hsig] _ _ _ _]. unfold returns, _activate_epoch.
  do 2 wp_step. rewrite (ei_active E s Hs), Hr, Z.eqb_refl. cbn [negb]. do 2 wp_step.
  rewrite (ei_coverage E s Hs), Hc. do 2 wp_step; [|by destruct (bool_decide_eq_false_1 _ H)].
  do 3 wp_step. rewrite (ei_signature E s Hs), Hsig. wp_step; [|by destruct (bool_decide_eq_false_1 _ H0)].
  do 3 wp_step. rewrite (ei_source E s Hs), Hsrc. wp_step; [|by destruct (bool_decide_eq_false_1 _ H1)]. by wp_step.
Qed.

Lemma activate_fresh_returns E k b s :
  TimestampAligner._active_run_id s = None -> continuing E k b -> 0 < Epoch.run E < 2 ^ 32 -> 0 < Epoch.coverage E ->
  returns (_activate_epoch (block_run_id b) (Some (block_source b)) (_block_coverage_ticks b)
             (Some (_block_profile_signature b))) [] s (epoch_state E s).
Proof.
  intros Hs [[_ Hr _ Hc _ Hsrc Hsig] _ _ _ _] Hrun Hcov. unfold returns, _activate_epoch.
  do 2 wp_step. rewrite Hs, Hr, Hc, <-Hsrc, <-Hsig. wp_step. eapply wp_returns; [by apply start_epoch_eq|]. by wp_step.
Qed.

(** A push inside the window of a drained aligner: store, then the second drain. *)
Lemma push_block_returns E c b s0 s out s' :
  returns (_activate_epoch (block_run_id b) (Some (block_source b)) (_block_coverage_ticks b)
             (Some (_block_profile_signature b))) [] s0 s ->
  epoch_inv E s -> continuing E c b -> TimestampAligner._next_output_ticks s <= block_ticks b < span_end E s ->
  default false (complete <$> TimestampAligner._pending s !! TimestampAligner._next_output_ticks s) = false ->
  occupied b (slot_at s (block_ticks b)) = false ->
  (forall k, max_key (TimestampAligner._pending (stored b s)) = Some k -> returns (_drain k) out (stored b s) s') ->
  pending_intervals s' <= TimestampAligner._max_pending_intervals s' ->
  returns (push_block b) out s0 s'.
Proof.
  intros Hact Hs Hcont [Hn Hh] Hinc Hocc Hdrain Hsize. unfold returns, push_block.
  wp_step. wp_step; [|apply negb_false_iff, bool_decide_eq_true in H; by destruct (cn_profile _ _ _ Hcont)].
  wp_step. eapply wp_returns; [by eapply returns_eq, validate_returns, ei_positive|].
  wp_step. eapply wp_returns; [by apply returns_eq|].
  do 3 wp_step. wp_step; [|apply negb_false_iff, Z.ltb_lt in H0; lia].
  do 3 wp_step. wp_step; cycle 1.
  { apply negb_false_iff in H1. unfold slot_at in Hocc. destruct (_ !! block_ticks b); cbn in *; congruence. }
  wp_step. eapply wp_returns; [by eapply returns_eq, (drain_idle E)|].
  wp_step. eapply wp_returns; [by apply store_block_eq|]. do 3 wp_step.
  assert (Hk0 : is_Some (TimestampAligner._pending (stored b s) !! block_ticks b)).
  { rewrite stored_pending, lookup_insert_eq. by eexists. }
  destruct (max_key_spec _ _ Hk0) as (k & Hmax & _). rewrite Hmax. eapply wp_returns; [done|].
  wp_step. eapply wp_returns; [by apply returns_eq, Hdrain|]. do 4 wp_step; [by wp_step|].
  apply negb_false_iff, Z.ltb_lt in H2. lia.
Qed.

(** *** The state after [i] ADC and [j] GPIO blocks *)

Section Pairing.
Context (limit : Z) (E : Epoch) (a : nat -> ADCBlock) (g : nat -> GPIOBlock) (n : nat).
Context (Hlimit : 0 < limit) (Hrun : 0 < Epoch.run E < 2 ^ 32) (Hpositive : 0 < Epoch.coverage E).
Context (Ha : forall k, (k < n)%nat -> continuing E k (AdcData (a k))).
Context (Hg : forall k, (k < n)%nat -> continuing E k (GpioData (g k))).

Abbreviation tick := (fun k : nat => Z.of_nat k * Epoch.coverage E).

(** The slot of the leading stream. *)
Definition lead (i j k : nat) : PendingInterval :=
  if (i <=? j)%nat then PendingInterval.mk None (Some (g k)) else PendingInterval.mk (Some (a k)) None.

Record lockstep (i j : nat) (s : TimestampAligner) : Prop := {
  lk_inv : epoch_inv E s;
  lk_limit : TimestampAligner._max_pending_intervals s = limit;
  lk_closed : TimestampAligner._closed s = false;
  lk_announced : TimestampAligner._announced_gaps s = ∅;
  lk_next : TimestampAligner._next_output_ticks s = tick (Nat.min i j);
  lk_sequence : TimestampAligner._expected_sequence s
                = PerStream.mk (u32 (Z.of_nat (Nat.min i j))) (u32 (Z.of_nat (Nat.min i j)));
  lk_ticks : TimestampAligner._expected_ticks s = PerStream.mk (tick (Nat.min i j)) (tick (Nat.min i j));
  lk_pending : forall t p, TimestampAligner._pending s !! t = Some p <->
    exists k, (Nat.min i j <= k < Nat.max i j)%nat /\ t = tick k /\ p = lead i j k
}.

Lemma tick_inj k k' : tick k = tick k' -> k = k'.
Proof. cbv beta. nia. Qed.

Lemma lockstep_lookup i j s k :
  lockstep i j s -> TimestampAligner._pending s !! tick k
  = if decide (Nat.min i j <= k < Nat.max i j)%nat then Some (lead i j k) else None.
Proof.
  intros Hs. case_decide as Hk.
  - apply (lk_pending _ _ _ Hs). by exists k.
  - apply eq_None_not_Some. intros [p Hp]. apply (lk_pending _ _ _ Hs) in Hp as (k' & Hk' & Ht & _).
    apply tick_inj in Ht. by subst k'.
Qed.

Lemma lockstep_incomplete i j s :
  lockstep i j s ->
  default false (complete <$> TimestampAligner._pending s !! TimestampAligner._next_output_ticks s) = false.
Proof.
  intros Hs. rewrite (lk_next _ _ _ Hs), (lockstep_lookup i j s _ Hs). case_decide; [|done].
  cbn. unfold lead. by destruct (i <=? j)%nat.
Qed.

Lemma lockstep_windowed i j s :
  lockstep i j s -> Z.of_nat (Nat.max i j) - Z.of_nat (Nat.min i j) <= limit -> windowed E s.
Proof.
  intros Hs Hskew t [p Hp]. apply (lk_pending _ _ _ Hs) in Hp as (k & Hk & -> & _).
  unfold span_end. rewrite (lk_limit _ _ _ Hs), (lk_next _ _ _ Hs). cbv beta. nia.
Qed.

(** The numbers of blocks pushed once one more of [b]'s stream is. *)
Definition next_counts (b : DataBlock) (i j : nat) : nat * nat :=
  match b with AdcData _ => (S i, j) | GpioData _ => (i, S j) end.
Definition own_count (b : DataBlock) (i j : nat) : nat := match b with AdcData _ => i | GpioData _ => j end.
Definition other_count (b : DataBlock) (i j : nat) : nat := match b with AdcData _ => j | GpioData _ => i end.
Definition nth_block (b : DataBlock) (k : nat) : DataBlock :=
  match b with AdcData _ => AdcData (a k) | GpioData _ => GpioData (g k) end.

#[local] Ltac counts := cbn [next_counts fst snd own_count other_count nth_block] in *.

Lemma stored_lockstep i j b s :
  lockstep i j s -> continuing E (own_count b i j) b -> nth_block b (own_count b i j) = b ->
  (other_count b i j <= own_count b i j)%nat ->
  Z.of_nat (S (own_count b i j)) - Z.of_nat (other_count b i j) <= limit ->
  occupied b (slot_at s (block_ticks b)) = false ->
  lockstep (next_counts b i j).1 (next_counts b i j).2 (stored b s).
Proof.
  intros Hs Hb Hnth Hlead Hskew Hocc. pose proof (pl_ticks _ _ _ (cn_placed _ _ _ Hb)) as Ht.
  assert (Hmin : Nat.min (next_counts b i j).1 (next_counts b i j).2 = Nat.min i j) by (destruct b; counts; lia).
  assert (Hw : windowed E s) by (apply (lockstep_windowed i j); [done|destruct b; counts; lia]).
  assert (Hnext : TimestampAligner._next_output_ticks s <= block_ticks b).
  { rewrite Ht, (lk_next _ _ _ Hs). cbv beta. destruct b; counts; nia. }
  assert (Hreach : in_reach E b s).
  { right. unfold span_end. rewrite Ht, (lk_limit _ _ _ Hs), (lk_next _ _ _ Hs). cbv beta. destruct b; counts; nia. }
  assert (Hgrid : block_ticks b mod Epoch.coverage E = 0) by (rewrite Ht; apply Z_mod_mult).
  assert (Hpl : placed E (block_ticks b) b) by (rewrite Ht; apply Hb).
  destruct (stored_inv E b s (lk_inv _ _ _ Hs) Hw Hreach Hpl Hgrid Hnext Hocc) as (Hinv & _ & Hpos).
  destruct Hs as [Hs Hl Hc Han Hn Hseq Htk Hpend]. unfold position, standing in Hpos. injection Hpos as Hn' Hseq' Htk' Han'.
  constructor; rewrite ?Hmin; try congruence.
  - by rewrite <-Hl; destruct s.
  - by rewrite <-Hc; destruct s.
  - intros t p. rewrite stored_pending, lookup_insert_Some, Hpend.
    assert (Hslot : slot_at s (block_ticks b) = PendingInterval.mk None None).
    { unfold slot_at. destruct (_ !! block_ticks b) as [q|] eqn:Hq; [|done]. apply Hpend in Hq as (k & Hk & Hkt & _).
      rewrite Ht in Hkt. apply tick_inj in Hkt. destruct b; counts; lia. }
    rewrite Hslot, Ht. split.
    + intros [[<- <-]|[Hne (k & Hk & -> & ->)]].
      * exists (own_count b i j). split; [destruct b; counts; lia|]. split; [done|]. rewrite <-Hnth at 1.
        unfold lead. destruct b; counts; case_match eqn:Hx; rewrite ?Nat.leb_le, ?Nat.leb_gt in Hx; try done; lia.
      * exists k. split; [destruct b; counts; lia|]. split; [done|].
        unfold lead. destruct b; counts;
          repeat case_match; rewrite ?Nat.leb_le, ?Nat.leb_gt in *; try done; lia.
    + intros (k & Hk & -> & ->). destruct (decide (k = own_count b i j)) as [->|Hne].
      * left. split; [done|]. rewrite <-Hnth at 1.
        unfold lead. destruct b; counts; case_match eqn:Hx; rewrite ?Nat.leb_le, ?Nat.leb_gt in Hx; try done; lia.
      * right. split; [intros Hx; by apply Hne, tick_inj|]. exists k. split; [destruct b; counts; lia|]. split; [done|].
        unfold lead. destruct b; counts;
          repeat case_match; rewrite ?Nat.leb_le, ?Nat.leb_gt in *; try done; lia.
Qed.

(** The trailing side arrives: the pair leaves, and both streams have advanced. *)
Definition clean_results (k : nat) : list ContinuityResult :=
  [ContinuityResult.mk (AdcData (a k)) None false None; ContinuityResult.mk (GpioData (g k)) None false None].

Lemma u32_succ k : u32 (u32 (Z.of_nat k) + 1) = u32 (Z.of_nat (S k)).
Proof. rewrite !u32_mod, Zplus_mod_idemp_l. f_equal. lia. Qed.

Lemma after_pair_lockstep i j b s :
  lockstep i j s -> nth_block b (own_count b i j) = b -> (own_count b i j < other_count b i j)%nat ->
  (other_count b i j <= n)%nat -> occupied b (slot_at s (block_ticks b)) = false ->
  epoch_inv E (after_slot E (stored b s) (clean_results (own_count b i j))) ->
  lockstep (next_counts b i j).1 (next_counts b i j).2 (after_slot E (stored b s) (clean_results (own_count b i j))).
Proof.
  intros Hs Hnth Hless Hn Hocc Hinv. set (c := own_count b i j) in *.
  assert (Hc : (c < n)%nat) by lia. pose proof (Ha c Hc) as HA. pose proof (Hg c Hc) as HG.
  assert (Hct : 0 <= tick c) by (cbv beta; nia).
  pose proof (placed_end E _ _ Hct (cn_placed _ _ _ HA)) as Ea. pose proof (placed_end E _ _ Hct (cn_placed _ _ _ HG)) as Eg.
  assert (Htick : block_ticks b = tick c).
  { rewrite <-Hnth. destruct b; cbn [nth_block]; [apply (pl_ticks _ _ _ (cn_placed _ _ _ HA))|apply (pl_ticks _ _ _ (cn_placed _ _ _ HG))]. }
  assert (Hmin : Nat.min i j = c) by (destruct b; unfold c in *; counts; lia).
  assert (Hmin' : Nat.min (next_counts b i j).1 (next_counts b i j).2 = S c) by (destruct b; unfold c in *; counts; lia).
  assert (Hmax' : Nat.max (next_counts b i j).1 (next_counts b i j).2 = Nat.max i j) by (destruct b; unfold c in *; counts; lia).
  destruct Hs as [Hs Hl Hcl Han Hnx Hseq Htk Hpend]. rewrite Hmin in *.
  constructor; rewrite ?Hmin', ?Hmax'; try done.
  - by rewrite <-Hl; destruct s.
  - by rewrite <-Hcl; destruct s.
  - destruct s. cbn in *. by rewrite Han, map_filter_empty.
  - transitivity (TimestampAligner._next_output_ticks s + Epoch.coverage E); [by destruct s|]. rewrite Hnx. cbv beta. lia.
  - pose proof (cn_sequence _ _ _ HA) as Sa. pose proof (cn_sequence _ _ _ HG) as Sg.
    transitivity (PerStream.mk (u32 (block_sequence (AdcData (a c)) + 1)) (u32 (block_sequence (GpioData (g c)) + 1)));
      [by destruct s|]. by rewrite Sa, Sg, u32_succ.
  - transitivity (PerStream.mk (block_end_tick (AdcData (a c))) (block_end_tick (GpioData (g c)))); [by destruct s|].
    rewrite Ea, Eg. cbv beta. f_equal; lia.
  - intros t p.
    replace (TimestampAligner._pending (after_slot E (stored b s) (clean_results c)))
      with (delete (tick c) (TimestampAligner._pending (stored b s))) by (rewrite <-Hnx; by destruct s).
    rewrite stored_pending, Htick, delete_insert_eq, lookup_delete_Some, Hpend. split.
    + intros (Hne & k & Hk & -> & ->). exists k. assert (k <> c) by congruence. split; [lia|]. split; [done|].
      unfold lead. destruct b; unfold c in *; counts; repeat case_match; rewrite ?Nat.leb_le, ?Nat.leb_gt in *; try done; lia.
    + intros (k & Hk & -> & ->). split; [intros Hx; apply tick_inj in Hx; lia|]. exists k. split; [lia|]. split; [done|].
      unfold lead. destruct b; unfold c in *; counts; repeat case_match; rewrite ?Nat.leb_le, ?Nat.leb_gt in *; try done; lia.
Qed.

Lemma lockstep_slot i j b s :
  lockstep i j s -> block_ticks b = tick (own_count b i j) ->
  slot_at s (block_ticks b)
  = if (own_count b i j <? other_count b i j)%nat then lead i j (own_count b i j) else PendingInterval.mk None None.
Proof.
  intros Hs Ht. unfold slot_at. rewrite Ht, (lockstep_lookup i j s _ Hs).
  case_decide as Hk; case_match eqn:Hx; rewrite ?Nat.ltb_lt, ?Nat.ltb_ge in Hx; try done; destruct b; counts; lia.
Qed.

Lemma put_pair i j b :
  nth_block b (own_count b i j) = b -> (own_count b i j < other_count b i j)%nat ->
  put_block b (lead i j (own_count b i j))
  = PendingInterval.mk (Some (a (own_count b i j))) (Some (g (own_count b i j))) /\
  occupied b (lead i j (own_count b i j)) = false.
Proof.
  intros Hnth Hless. unfold lead. rewrite <-Hnth at 1 4. destruct b; counts; case_match eqn:Hx;
    rewrite ?Nat.leb_le, ?Nat.leb_gt in Hx; try done; lia.
Qed.

(** The next block of a stream, within the window and the length of the streams. *)
Record pushable (i j : nat) (b : DataBlock) (s : TimestampAligner) : Prop := {
  pu_lockstep : lockstep i j s;
  pu_block : nth_block b (own_count b i j) = b;
  pu_own : (own_count b i j < n)%nat;
  pu_other : (other_count b i j <= n)%nat;
  pu_skew : Z.of_nat (Nat.max i j) - Z.of_nat (Nat.min i j) <= limit;
  pu_next_skew : Z.of_nat (S (own_count b i j)) - Z.of_nat (other_count b i j) <= limit
}.

Lemma pushable_continuing i j b s : pushable i j b s -> continuing E (own_count b i j) b.
Proof. intros [_ <- Hown _ _ _]. destruct b; counts; [by apply Ha|by apply Hg]. Qed.

Lemma pushable_ticks i j b s : pushable i j b s -> block_ticks b = tick (own_count b i j).
Proof. intros H. apply (pl_ticks _ _ _ (cn_placed _ _ _ (pushable_continuing i j b s H))). Qed.

Lemma pushable_window i j b s :
  pushable i j b s -> TimestampAligner._next_output_ticks s <= block_ticks b < span_end E s.
Proof.
  intros H. rewrite (pushable_ticks i j b s H). unfold span_end.
  rewrite (lk_next _ _ _ (pu_lockstep _ _ _ _ H)), (lk_limit _ _ _ (pu_lockstep _ _ _ _ H)). destruct H. cbv beta.
  assert (Z.of_nat (Nat.min i j) <= Z.of_nat (own_count b i j) < Z.of_nat (Nat.min i j) + limit) by (destruct b; counts; lia).
  nia.
Qed.

Lemma pushable_free i j b s : pushable i j b s -> occupied b (slot_at s (block_ticks b)) = false.
Proof.
  intros H. rewrite (lockstep_slot i j b s (pu_lockstep _ _ _ _ H) (pushable_ticks i j b s H)).
  case_match eqn:Hx; [apply Nat.ltb_lt in Hx; by apply put_pair; [apply (pu_block _ _ _ _ H)|]|by destruct b].
Qed.

Lemma pushable_stored i j b s :
  pushable i j b s -> epoch_inv E (stored b s) /\ windowed E (stored b s).
Proof.
  intros H. pose proof (pushable_window i j b s H) as [Hn Hh]. pose proof (pushable_ticks i j b s H) as Ht.
  pose proof (cn_placed _ _ _ (pushable_continuing i j b s H)) as Hpl.
  assert (Hgrid : block_ticks b mod Epoch.coverage E = 0) by (rewrite Ht; apply Z_mod_mult). rewrite <-Ht in Hpl.
  destruct (stored_inv E b s (lk_inv _ _ _ (pu_lockstep _ _ _ _ H))
    (lockstep_windowed i j s (pu_lockstep _ _ _ _ H) (pu_skew _ _ _ _ H)) (or_intror Hh) Hpl Hgrid Hn
    (pushable_free i j b s H)) as (H1 & H2 & _). split; [done|by apply H2].
Qed.

(** The second drain decides what the push returns. *)
Lemma pushable_returns i j b s0 s out s' :
  returns (_activate_epoch (block_run_id b) (Some (block_source b)) (_block_coverage_ticks b)
             (Some (_block_profile_signature b))) [] s0 s ->
  TimestampAligner._closed s0 = false -> pushable i j b s ->
  (forall k, k < span_end E (stored b s) -> returns (_drain k) out (stored b s) s') ->
  lockstep (next_counts b i j).1 (next_counts b i j).2 s' ->
  push (InputBlock b) s0 = (s', Ok out).
Proof.
  intros Hact Hopen H Hdrain Hs'. apply returns_eq. unfold returns, push. do 3 wp_step. rewrite Hopen.
  apply wp_check; [intros _|done]. destruct (pushable_stored i j b s H) as [Hinv Hwin].
  apply (push_block_returns E (own_count b i j) b s0 s out s'); try done.
  - apply (lk_inv _ _ _ (pu_lockstep _ _ _ _ H)).
  - by apply (pushable_continuing i j b s).
  - by apply (pushable_window i j b s).
  - by apply (lockstep_incomplete i j), H.
  - by apply (pushable_free i j).
  - intros k Hk. apply Hdrain. assert (Hk0 : is_Some (TimestampAligner._pending (stored b s) !! block_ticks b))
      by (rewrite stored_pending, lookup_insert_eq; by eexists).
    destruct (max_key_spec _ _ Hk0) as (k' & Hk' & Hin & _). rewrite Hk' in Hk. apply Some_inj' in Hk. subst k'. by apply Hwin.
  - apply (windowed_size E); [apply (lk_inv _ _ _ Hs')|]. apply (lockstep_windowed _ _ s' Hs').
    destruct H. destruct b; counts; lia.
Qed.

(** The leading stream's block waits. *)
Lemma push_leads i j b s0 s :
  returns (_activate_epoch (block_run_id b) (Some (block_source b)) (_block_coverage_ticks b)
             (Some (_block_profile_signature b))) [] s0 s ->
  TimestampAligner._closed s0 = false -> pushable i j b s -> (other_count b i j <= own_count b i j)%nat ->
  push (InputBlock b) s0 = (stored b s, Ok []) /\ lockstep (next_counts b i j).1 (next_counts b i j).2 (stored b s).
Proof.
  intros Hact Hopen H Hge. destruct (pushable_stored i j b s H) as [Hinv _].
  assert (Hs' : lockstep (next_counts b i j).1 (next_counts b i j).2 (stored b s)).
  { apply stored_lockstep; try apply H; [by apply (pushable_continuing i j b s)|done|by apply (pushable_free i j)]. }
  split; [|done]. apply (pushable_returns i j b s0 s); try done. intros k Hk.
  apply (drain_idle E); [done|done|]. by apply (lockstep_incomplete _ _ _ Hs').
Qed.

(** The trailing stream's block completes the first pending interval. *)
Lemma push_pairs i j b s0 s :
  returns (_activate_epoch (block_run_id b) (Some (block_source b)) (_block_coverage_ticks b)
             (Some (_block_profile_signature b))) [] s0 s ->
  TimestampAligner._closed s0 = false -> pushable i j b s -> (own_count b i j < other_count b i j)%nat ->
  exists s', push (InputBlock b) s0 = (s', Ok [paired (a (own_count b i j)) (g (own_count b i j))]) /\
    lockstep (next_counts b i j).1 (next_counts b i j).2 s'.
Proof.
  intros Hact Hopen H Hless. destruct (pushable_stored i j b s H) as [Hinv _]. set (c := own_count b i j) in *.
  pose proof (pu_lockstep _ _ _ _ H) as Hs. pose proof (pushable_ticks i j b s H) as Ht. fold c in Ht.
  pose proof (pushable_free i j b s H) as Hocc. pose proof (lockstep_slot i j b s Hs Ht) as Hslot.
  fold c in Hslot. rewrite (proj2 (Nat.ltb_lt _ _) Hless) in Hslot. destruct (put_pair i j b (pu_block _ _ _ _ H) Hless) as [Hput _].
  assert (Hmin : Nat.min i j = c) by (destruct b; unfold c in *; counts; lia).
  assert (Hc : (c < n)%nat) by apply H.
  assert (Hnext : TimestampAligner._next_output_ticks (stored b s) = tick c)
    by (rewrite <-Hmin, <-(lk_next _ _ _ Hs); by destruct s).
  assert (Hpend : TimestampAligner._pending (stored b s) !! TimestampAligner._next_output_ticks (stored b s)
                  = Some (PendingInterval.mk (Some (a c)) (Some (g c)))).
  { rewrite Hnext, stored_pending, Hslot. fold c in Hput. rewrite Hput, Ht. apply lookup_insert_eq. }
  assert (Hemit : returns (_emit_slot (TimestampAligner._next_output_ticks (stored b s)) None) [paired (a c) (g c)]
                    (stored b s) (after_slot E (stored b s) (clean_results c))).
  { apply (emit_pair E (stored b s) c); try done; [|by apply Ha|by apply Hg|..].
    - rewrite <-(lk_announced _ _ _ Hs). by destruct s.
    - rewrite <-Hmin, <-(lk_sequence _ _ _ Hs). by destruct s.
    - etransitivity; [|rewrite <-Hmin; apply (lk_ticks _ _ _ Hs)]. by destruct s. }
  destruct (slot_source E _ _ _ Hinv Hpend) as (_ & _ & Hwrap).
  destruct (after_slot_inv E (stored b s) (clean_results c) Hinv Hwrap) as (Hinv' & Hadv & _ & Hnext').
  assert (Hs' : lockstep (next_counts b i j).1 (next_counts b i j).2 (after_slot E (stored b s) (clean_results c))).
  { apply after_pair_lockstep; try done; apply H. }
  exists (after_slot E (stored b s) (clean_results c)). split; [|done].
  apply (pushable_returns i j b s0 s); try done. intros k Hk.
  apply (drain_one E _ (PendingInterval.mk (Some (a c)) (Some (g c)))); try done.
  - unfold span_end in *. rewrite Hnext', (ad_max _ _ Hadv). lia.
  - by apply (lockstep_incomplete _ _ _ Hs').
Qed.
(** *** The whole input *)

(** The inputs of a schedule, [true] for the next ADC block, from the [i]-th and [j]-th on. *)
Fixpoint interleaving (schedule : list bool) (i j : nat) : list AlignmentInput :=
  match schedule with
  | [] => []
  | true :: schedule => InputBlock (AdcData (a i)) :: interleaving schedule (S i) j
  | false :: schedule => InputBlock (GpioData (g j)) :: interleaving schedule i (S j)
  end.

(** Neither stream is ever more than the window ahead, and each ends after [n] blocks. *)
Fixpoint within_window (schedule : list bool) (i j : nat) : Prop :=
  Z.of_nat (Nat.max i j) - Z.of_nat (Nat.min i j) <= limit /\
  match schedule with
  | [] => i = n /\ j = n
  | true :: schedule => (i < n)%nat /\ within_window schedule (S i) j
  | false :: schedule => (j < n)%nat /\ within_window schedule i (S j)
  end.

Lemma within_counts schedule i j : within_window schedule i j -> (i <= n /\ j <= n)%nat.
Proof.
  revert i j. induction schedule as [|[|] schedule IH]; intros i j [_ H]; [lia|..]; destruct H as [? H]; apply IH in H; lia.
Qed.

Definition pairs (from : nat) : list AlignmentItem := map (fun k => paired (a k) (g k)) (seq from (n - from)).

Lemma pairs_step k : (k < n)%nat -> pairs k = paired (a k) (g k) :: pairs (S k).
Proof. intros Hk. unfold pairs. by replace (n - k)%nat with (S (n - S k)) by lia. Qed.

Lemma finish_lockstep s : lockstep n n s -> exists s', finish s = (s', Ok []).
Proof.
  intros Hs. assert (Hempty : TimestampAligner._pending s = ∅).
  { apply map_empty. intros t. apply eq_None_not_Some. intros [p Hp]. apply (lk_pending _ _ _ Hs) in Hp as (k & Hk & _). lia. }
  exists (close s). apply returns_eq. unfold returns, finish. do 2 wp_step. rewrite (lk_closed _ _ _ Hs).
  wp_step. eapply wp_returns; [by apply returns_eq, (flush_empty E), Hempty; apply Hs|]. by do 5 wp_step.
Qed.

(** One step of the loop, whichever stream it serves. *)
Lemma align_step i j b items s0 s :
  returns (_activate_epoch (block_run_id b) (Some (block_source b)) (_block_coverage_ticks b)
             (Some (_block_profile_signature b))) [] s0 s ->
  TimestampAligner._closed s0 = false -> pushable i j b s ->
  (forall s', lockstep (next_counts b i j).1 (next_counts b i j).2 s' ->
     align_loop items s' = (pairs (Nat.min (next_counts b i j).1 (next_counts b i j).2), Ok tt)) ->
  align_loop (InputBlock b :: items) s0 = (pairs (Nat.min i j), Ok tt).
Proof.
  intros Hact Hopen H Hrest. cbn [align_loop].
  destruct (Nat.lt_ge_cases (own_count b i j) (other_count b i j)) as [Hless|Hge].
  - destruct (push_pairs i j b s0 s Hact Hopen H Hless) as (s' & Hp & Hs'). rewrite Hp, (Hrest s' Hs').
    assert (Nat.min i j = own_count b i j) as -> by (destruct b; counts; lia).
    rewrite (pairs_step (own_count b i j)) by apply H.
    by replace (Nat.min (next_counts b i j).1 (next_counts b i j).2) with (S (own_count b i j)) by (destruct b; counts; lia).
  - destruct (push_leads i j b s0 s Hact Hopen H Hge) as [Hp Hs']. rewrite Hp, (Hrest _ Hs').
    by replace (Nat.min (next_counts b i j).1 (next_counts b i j).2) with (Nat.min i j) by (destruct b; counts; lia).
Qed.

Lemma next_pushable schedule i j b s :
  lockstep i j s -> nth_block b (own_count b i j) = b -> (own_count b i j < n)%nat ->
  Z.of_nat (Nat.max i j) - Z.of_nat (Nat.min i j) <= limit ->
  within_window schedule (next_counts b i j).1 (next_counts b i j).2 -> pushable i j b s.
Proof.
  intros Hs Hnth Hown Hskew Hw. pose proof (within_counts _ _ _ Hw). destruct schedule as [|[|] schedule]; destruct Hw as [Hw _];
    constructor; try done; destruct b; counts; lia.
Qed.

Lemma align_loop_lockstep schedule i j s :
  lockstep i j s -> within_window schedule i j ->
  align_loop (interleaving schedule i j) s = (pairs (Nat.min i j), Ok tt).
Proof.
  revert i j s. induction schedule as [|[|] schedule IH]; intros i j s Hs [Hskew Hw]; cbn [interleaving].
  - destruct Hw as [-> ->]. cbn [align_loop]. destruct (finish_lockstep s Hs) as [s' ->].
    unfold pairs. by rewrite Nat.min_id, Nat.sub_diag.
  - destruct Hw as [Hi Hw]. assert (Hp : pushable i j (AdcData (a i)) s) by by apply (next_pushable schedule).
    apply (align_step i j _ _ s s); [|apply (lk_closed _ _ _ Hs)|done|]; [|intros s' Hs'; by apply IH].
    eapply activate_returns; [apply (lk_inv _ _ _ Hs)|by apply (pushable_continuing i j _ s)].
  - destruct Hw as [Hi Hw]. assert (Hp : pushable i j (GpioData (g j)) s) by by apply (next_pushable schedule).
    apply (align_step i j _ _ s s); [|apply (lk_closed _ _ _ Hs)|done|]; [|intros s' Hs'; by apply IH].
    eapply activate_returns; [apply (lk_inv _ _ _ Hs)|by apply (pushable_continuing i j _ s)].
Qed.
End Pairing.

(** C23. Two complete streams come out as they went in: whatever the interleaving of the [n] ADC
    and the [n] GPIO blocks of a run, as long as neither stream is ever further ahead of the
    other than the window, [align_by_timestamp] yields exactly the [n] complete intervals in
    order, with no loss record, no gap and no error. *)
Theorem complete_streams_pair (limit : Z) (E : Epoch) (a : nat -> ADCBlock) (g : nat -> GPIOBlock) (n : nat)
    (schedule : list bool) (Hlimit : 0 < limit) (Hn : (0 < n)%nat) (Hrun : 0 < Epoch.run E < 2 ^ 32)
    (Hcoverage : 0 < Epoch.coverage E)
    (Ha : forall k, (k < n)%nat -> continuing E k (AdcData (a k)))
    (Hg : forall k, (k < n)%nat -> continuing E k (GpioData (g k)))
    (Hwindow : within_window limit n schedule 0 0) :
  align_by_timestamp (interleaving a g schedule 0 0) limit = (map (fun k => paired (a k) (g k)) (seq 0 n), Ok tt).
Proof.
  unfold align_by_timestamp, new_aligner. rewrite (proj2 (Z.ltb_lt 0 limit)) by done. cbn [require mbind result_bind].
  set (s0 := TimestampAligner.mk limit _ _ _ _ _ _ _ _ _ _ _).
  assert (Hinv0 : aligner_inv limit s0) by (split; [done|done|cbn; lia|by left; repeat split]).
  assert (Hs : lockstep limit E a g 0 0 (epoch_state E s0)).
  { constructor; try done; [by apply (epoch_state_inv limit)|]. intros t p. cbn. rewrite lookup_empty.
    split; [done|]. intros (k & Hk & _). lia. }
  replace (map _ (seq 0 n)) with (pairs a g n (Nat.min 0 0)) by (unfold pairs; by rewrite Nat.sub_0_r).
  destruct schedule as [|[|] schedule]; destruct Hwindow as [Hskew Hw]; [lia|..]; destruct Hw as [Hi Hw]; cbn [interleaving].
  - assert (Hp : pushable limit E a g n 0 0 (AdcData (a 0%nat)) (epoch_state E s0)) by by eapply (next_pushable limit E a g n) with (schedule := schedule).
    eapply (align_step limit E a g n); try done; [|intros s' Hs'; by apply (align_loop_lockstep limit E a g n)].
    by apply (activate_fresh_returns E 0); [|apply Ha|..].
  - assert (Hp : pushable limit E a g n 0 0 (GpioData (g 0%nat)) (epoch_state E s0)) by by eapply (next_pushable limit E a g n) with (schedule := schedule).
    eapply (align_step limit E a g n); try done; [|intros s' Hs'; by apply (align_loop_lockstep limit E a g n)].
    by apply (activate_fresh_returns E 0); [|apply Hg|..].
Qed.

(** ** Witnesses *)

(** The [k]-th frames of run 1 at 1 MHz and 4 MHz, all samples zero. *)
Definition example_adc (k : Z) : mdl ADCBlock :=
  metadata ← for_rate_profile DEFAULT_RATE_PROFILE Source.HARDWARE;
  new_adc_block
    (ADCBlock.mk 1 k (8096 * k) (replicate 4048 0) 0 Checksum.ADLER32 metadata AuxBankMode.DISABLED
       DEFAULT_RATE_PROFILE 1 None None).
Definition example_gpio (k : Z) : mdl GPIOBlock :=
  new_gpio_block
    (GPIOBlock.mk 1 k (8096 * k) (replicate 4048 0) 0 Checksum.ADLER32 AuxBankMode.DISABLED
       DEFAULT_RATE_PROFILE 1 None).

Definition example_epoch : Epoch := Epoch.mk 1 8096 (Some Source.HARDWARE) (Some (1, 0, 0)).

Lemma example_adc_continuing (k : nat) b :
  (k < 2)%nat -> example_adc (Z.of_nat k) = Ok b -> continuing example_epoch k (AdcData b).
Proof.
  intros Hk H. pose proof H as Hwf. unfold example_adc in Hwf. apply bind_Ok_inv in Hwf as (m & _ & Hwf).
  apply new_adc_block_wf in Hwf. assert (k = 0 \/ k = 1)%nat as [-> | ->] by lia.
  all: vm_compute in H; apply Ok_inj in H; subst b; repeat split; try exact Hwf; by vm_compute.
Qed.

Lemma example_gpio_continuing (k : nat) b :
  (k < 2)%nat -> example_gpio (Z.of_nat k) = Ok b -> continuing example_epoch k (GpioData b).
Proof.
  intros Hk H. pose proof H as Hwf. apply new_gpio_block_wf in Hwf. assert (k = 0 \/ k = 1)%nat as [-> | ->] by lia.
  all: vm_compute in H; apply Ok_inj in H; subst b; repeat split; try exact Hwf; by vm_compute.
Qed.

Lemma example_adc_built (k : Z) : k ∈ [0; 1] -> exists b, example_adc k = Ok b.
Proof. rewrite !elem_of_cons, elem_of_nil. intros [->|[->|[]]]; eexists; vm_compute; reflexivity. Qed.
Lemma example_gpio_built (k : Z) : k ∈ [0; 1] -> exists b, example_gpio k = Ok b.
Proof. rewrite !elem_of_cons, elem_of_nil. intros [->|[->|[]]]; eexists; vm_compute; reflexivity. Qed.

Lemma complete_streams_pair_witness :
  exists a0 a1 g0 g1, example_adc 0 = Ok a0 /\ example_adc 1 = Ok a1 /\ example_gpio 0 = Ok g0 /\ example_gpio 1 = Ok g1 /\
    align_by_timestamp [InputBlock (AdcData a0); InputBlock (AdcData a1); InputBlock (GpioData g0); InputBlock (GpioData g1)] 2
    = ([paired a0 g0; paired a1 g1], Ok tt).
Proof.
  destruct (example_adc_built 0 ltac:(by left)) as [a0 Ha0]. destruct (example_adc_built 1 ltac:(by right; left)) as [a1 Ha1].
  destruct (example_gpio_built 0 ltac:(by left)) as [g0 Hg0]. destruct (example_gpio_built 1 ltac:(by right; left)) as [g1 Hg1].
  exists a0, a1, g0, g1. split; [exact Ha0|]. split; [exact Ha1|]. split; [exact Hg0|]. split; [exact Hg1|].
  apply (complete_streams_pair 2 example_epoch (fun k => match k with O => a0 | _ => a1 end)
    (fun k => match k with O => g0 | _ => g1 end) 2 [true; true; false; false]); cbn; try lia.
  - intros [|[|k]] Hk; [by apply (example_adc_continuing 0)|by apply (example_adc_continuing 1)|lia].
  - intros [|[|k]] Hk; [by apply (example_gpio_continuing 0)|by apply (example_gpio_continuing 1)|lia].
Defined.

(** The second GPIO frame alone, marked, and the gap before it. *)
Definition example_late : mdl GPIOBlock :=
  new_gpio_block
    (GPIOBlock.mk 1 1 8096 (replicate 4048 0) FrameFlag.GAP_BEFORE Checksum.ADLER32 AuxBankMode.DISABLED
       DEFAULT_RATE_PROFILE 1 None).
Definition example_gap : mdl StreamGap :=
  new_gap V1FrameKind.GPIO_DATA 1 0 1 1 4048 0 8096 true false 0 Source.HARDWARE None None None None false.

Lemma alignment_accounts_witness :
  exists b g, example_late = Ok b /\ example_gap = Ok g /\
    let items := [InputGap g; InputBlock (GpioData b)] in
    let '(out, outcome) := align_by_timestamp items 1 in
    outcome = Ok tt /\ gaps_out out = [g] /\ gaps_carried out = [g] /\
    (exists w, walk (Some nowhere) out = Some w) /\ concat (map input_blocks items) ≡ₚ blocks_out out.
Proof.
  assert (Hb : exists b, example_late = Ok b) by (eexists; vm_compute; reflexivity). destruct Hb as [b Hb].
  assert (Hg : exists g, example_gap = Ok g) by (eexists; vm_compute; reflexivity). destruct Hg as [g Hg].
  exists b, g. split; [exact Hb|]. split; [exact Hg|]. intros items.
  pose proof (alignment_accounts items 1 ltac:(lia)) as H. destruct (align_by_timestamp items 1) as [out outcome] eqn:Hrun.
  assert (Hout : outcome = Ok tt /\ gaps_out out = [g] /\ gaps_carried out = [g]).
  { clear H. subst items. vm_compute in Hb, Hg. apply Ok_inj in Hb, Hg. subst b g. vm_compute in Hrun.
    apply pair_equal_spec in Hrun as [<- <-]. split; [reflexivity|]. split; vm_compute; reflexivity. }
  destruct Hout as (Ho & H1 & H2). subst outcome. destruct H as [Hw [Hblocks _]].
  { constructor; [|constructor; [|constructor]].
    - vm_compute in Hg. apply Ok_inj in Hg. subst g. vm_compute. repeat split; reflexivity.
    - cbn. unfold example_late in Hb. by apply new_gpio_block_wf in Hb. }
  split; [reflexivity|]. split; [exact H1|]. split; [exact H2|]. split; [exact Hw|exact Hblocks].
Defined.

