(* ===== verification/Identity.v ===== *)
(** * Firmware identity ([identity.py]).

    What a successful INFO says about the firmware and the device
    ([DeviceIdentitySnapshot]), what a caller can pin ([ExpectedDeviceIdentity]) and
    [validate_device_identity].  Strings are lists of code points.  Of the v1/v2
    [DeviceInfo] only the fields read here are present. *)

From S2P Require Import Prelude Checksum V3Constants ModelsV3 Profiles.

(** ** Data *)

(** [constants.BoardId] and [constants.McuId], the enums of protocol v1 *)
Module V1BoardId.
Inductive BoardId := SIMULATOR | TEENSY_40.
#[global] Instance BoardId_eq_dec : EqDecision BoardId.
Proof. solve_decision. Defined.
#[global] Instance BoardId_enum : IntEnum BoardId.
Proof.
  refine {| int_of a := match a with SIMULATOR => 0 | TEENSY_40 => 1 end; members := [SIMULATOR; TEENSY_40] |}; enum_laws.
Defined.
End V1BoardId.

Module V1McuId.
Inductive McuId := SIMULATED | IMXRT1062.
#[global] Instance McuId_eq_dec : EqDecision McuId.
Proof. solve_decision. Defined.
#[global] Instance McuId_enum : IntEnum McuId.
Proof.
  refine {| int_of a := match a with SIMULATED => 0 | IMXRT1062 => 1 end; members := [SIMULATED; IMXRT1062] |}; enum_laws.
Defined.
End V1McuId.

(** [int | str] and [tuple[int, int, int] | str]; the tuple a caller passes may have any
    length. *)
Inductive HardwareSerial := SerialNumber (n : Z) | SerialText (t : text).
#[export] Instance HardwareSerial_eq_dec : EqDecision HardwareSerial.
Proof. solve_decision. Defined.

Inductive FirmwareVersion := VersionNumbers (parts : list Z) | VersionText (t : text).
#[export] Instance FirmwareVersion_eq_dec : EqDecision FirmwareVersion.
Proof. solve_decision. Defined.

(** The identity fields of the v1/v2 [models.DeviceInfo]. *)
Module DeviceInfo.
Record DeviceInfo := mk {
  protocol_version : Z;
  firmware_version : list Z;
  build_id : text;
  hardware_serial : Z;
  board_id : V1BoardId.BoardId;
  mcu_id : V1McuId.McuId
}.
#[global] Instance DeviceInfo_eq_dec : EqDecision DeviceInfo.
Proof. solve_decision. Defined.
End DeviceInfo.
Abbreviation DeviceInfo := DeviceInfo.DeviceInfo.

(** [DeviceInfo | V3Info] *)
Inductive AnyInfo := LegacyInfo (i : DeviceInfo) | ModernInfo (i : V3Info).
#[export] Instance AnyInfo_eq_dec : EqDecision AnyInfo.
Proof. solve_decision. Defined.

Module DeviceIdentitySnapshot.
Record DeviceIdentitySnapshot := mk {
  protocol_version : Z;
  firmware_version : FirmwareVersion;
  build_id : text;
  hardware_serial : HardwareSerial;
  board_id : V1BoardId.BoardId;
  mcu_id : V1McuId.McuId
}.
#[global] Instance DeviceIdentitySnapshot_eq_dec : EqDecision DeviceIdentitySnapshot.
Proof. solve_decision. Defined.
End DeviceIdentitySnapshot.
Abbreviation DeviceIdentitySnapshot := DeviceIdentitySnapshot.DeviceIdentitySnapshot.

Module ExpectedDeviceIdentity.
Record ExpectedDeviceIdentity := mk {
  hardware_serial : option HardwareSerial;
  firmware_version : option FirmwareVersion;
  build_id : option text;
  board_id : option V1BoardId.BoardId;
  mcu_id : option V1McuId.McuId;
  protocol_version : option Z
}.
#[global] Instance ExpectedDeviceIdentity_eq_dec : EqDecision ExpectedDeviceIdentity.
Proof. solve_decision. Defined.
End ExpectedDeviceIdentity.
Abbreviation ExpectedDeviceIdentity := ExpectedDeviceIdentity.ExpectedDeviceIdentity.

Inductive identity_error :=
| IdentityValidationError (message : string)
| IdentityValueError (message : string)
| IdentityAssertionError.

Abbreviation identified := (result identity_error).

(** ** Operations *)

(** [value.isascii() and value.isdecimal()] and [int(value)] for such a value. *)
Definition decimal_digit (c : Z) : bool := (48 <=? c) && (c <=? 57).
Definition ascii_decimal (t : text) : bool := negb (bool_decide (t = [])) && forallb decimal_digit t.
Definition int_of_text (t : text) : Z := fold_left (fun n c => 10 * n + (c - 48)) t 0.

(** The serial of a v3 INFO: a number when the text is decimal. *)
Definition v3_serial (t : text) : HardwareSerial :=
  if ascii_decimal t then SerialNumber (int_of_text t) else SerialText t.

(** [constants.BoardId(info.board_id)] *)
Definition v1_board (b : BoardId) : identified V1BoardId.BoardId :=
  of_option (enum_of (int_of b)) (IdentityValueError "not a valid BoardId").
Definition v1_mcu (m : McuId) : identified V1McuId.McuId :=
  of_option (enum_of (int_of m)) (IdentityValueError "not a valid McuId").

(** [DeviceIdentitySnapshot.from_info] *)
Definition snapshot_from_info (info : AnyInfo) : identified DeviceIdentitySnapshot :=
  match info with
  | ModernInfo i =>
      board ← (if V3Info.simulated i then Ok V1BoardId.SIMULATOR else v1_board (V3Info.board_id i));
      mcu ← (if V3Info.simulated i then Ok V1McuId.SIMULATED else v1_mcu (V3Info.mcu_id i));
      Ok (DeviceIdentitySnapshot.mk 3 (VersionText (V3Info.firmware_version i)) (V3Info.build_id i)
            (v3_serial (V3Info.hardware_serial i)) board mcu)
  | LegacyInfo i =>
      Ok (DeviceIdentitySnapshot.mk (DeviceInfo.protocol_version i) (VersionNumbers (DeviceInfo.firmware_version i))
            (DeviceInfo.build_id i) (SerialNumber (DeviceInfo.hardware_serial i)) (DeviceInfo.board_id i)
            (DeviceInfo.mcu_id i))
  end.

Definition unsigned_byte (v : Z) : bool := (0 <=? v) && (v <=? 255).
Definition nonempty (t : text) : bool := negb (bool_decide (t = [])).
(** The check of an optional field: absent, or [b]. *)
Definition pinned {A} (o : option A) (b : A -> bool) : bool := match o with Some a => b a | None => true end.

Definition serial_allowed (s : HardwareSerial) : bool :=
  match s with
  | SerialText t => nonempty t
  | SerialNumber n => (0 <=? n) && (n <=? UINT32_MAX)
  end.
Definition version_allowed (v : FirmwareVersion) : bool :=
  match v with
  | VersionText t => nonempty t
  | VersionNumbers parts => (zlen parts =? 3) && forallb unsigned_byte parts
  end.

(** [ExpectedDeviceIdentity.__post_init__] *)
Definition new_expected (e : ExpectedDeviceIdentity) : identified ExpectedDeviceIdentity :=
  _ ← require (pinned (ExpectedDeviceIdentity.protocol_version e) unsigned_byte)
        (IdentityValueError "expected protocol version must be an unsigned byte");
  _ ← require (pinned (ExpectedDeviceIdentity.hardware_serial e) serial_allowed)
        (IdentityValueError "expected hardware serial must be nonempty or an unsigned uint32");
  _ ← require (pinned (ExpectedDeviceIdentity.firmware_version e) version_allowed)
        (IdentityValueError "expected firmware version must be nonempty or contain three unsigned bytes");
  _ ← require (pinned (ExpectedDeviceIdentity.build_id e) nonempty)
        (IdentityValueError "expected build ID must be a nonempty string");
  Ok e.

(** [ExpectedDeviceIdentity.from_info] *)
Definition expected_from_info (info : AnyInfo) : identified ExpectedDeviceIdentity :=
  '(DeviceIdentitySnapshot.mk protocol firmware build serial board mcu) ← snapshot_from_info info;
  new_expected (ExpectedDeviceIdentity.mk (Some serial) (Some firmware) (Some build) (Some board) (Some mcu) (Some protocol)).

(** [a < b] on tuples *)
Fixpoint tuple_lt (a b : list Z) : bool :=
  match a, b with
  | _, [] => false
  | [], _ :: _ => true
  | x :: a, y :: b => (x <? y) || ((x =? y) && tuple_lt a b)
  end.

Definition PHASE03_MINIMUM_FIRMWARE_VERSION : list Z := [0; 3; 0].

(** The code points of the prefix thingdaq-, and [_PHYSICAL_BUILD_ID.fullmatch]. *)
Definition BUILD_PREFIX : text := [116; 104; 105; 110; 103; 100; 97; 113; 45].
Definition hex_digit (c : Z) : bool := decimal_digit c || ((97 <=? c) && (c <=? 102)).
Definition physical_build_id (t : text) : bool :=
  (zlen t =? 25) && bool_decide (take 9 t = BUILD_PREFIX) && forallb hex_digit (drop 9 t).

Definition is_physical (s : DeviceIdentitySnapshot) : bool :=
  bool_decide (DeviceIdentitySnapshot.board_id s = V1BoardId.TEENSY_40)
  && bool_decide (DeviceIdentitySnapshot.mcu_id s = V1McuId.IMXRT1062).
Definition is_simulated (s : DeviceIdentitySnapshot) : bool :=
  bool_decide (DeviceIdentitySnapshot.board_id s = V1BoardId.SIMULATOR)
  && bool_decide (DeviceIdentitySnapshot.mcu_id s = V1McuId.SIMULATED).

(** The checks of a physical v1/v2 target. *)
Definition check_legacy_physical (s : DeviceIdentitySnapshot) : identified unit :=
  match DeviceIdentitySnapshot.firmware_version s with
  | VersionText _ => Err IdentityAssertionError
  | VersionNumbers version =>
      _ ← require (negb (tuple_lt version PHASE03_MINIMUM_FIRMWARE_VERSION))
            (IdentityValidationError "firmware predates the Phase 03 minimum");
      _ ← require (physical_build_id (DeviceIdentitySnapshot.build_id s))
            (IdentityValidationError "physical firmware build ID is not source-derived");
      require (negb (bool_decide (DeviceIdentitySnapshot.hardware_serial s = SerialNumber 0)))
        (IdentityValidationError "physical firmware reported hardware serial number zero")
  end.

(** The inner [require]. *)
Definition require_pin {A} `{EqDecision A} (label : string) (wanted : option A) (actual : A) : identified unit :=
  require (pinned wanted (fun w => bool_decide (actual = w))) (IdentityValidationError label).

Definition validate_device_identity (info : AnyInfo) (expected : option ExpectedDeviceIdentity) :
    identified DeviceIdentitySnapshot :=
  snapshot ← snapshot_from_info info;
  let '(DeviceIdentitySnapshot.mk protocol firmware build serial board mcu) := snapshot in
  _ ← require ((protocol =? 1) || (protocol =? 2) || (protocol =? 3))
        (IdentityValidationError "protocol version is incompatible with host protocol");
  _ ← require (is_physical snapshot || is_simulated snapshot)
        (IdentityValidationError "board and MCU identity are not a supported target pair");
  _ ← match info with
      | LegacyInfo _ => if is_physical snapshot then check_legacy_physical snapshot else Ok tt
      | ModernInfo _ => Ok tt
      end;
  match expected with
  | None => Ok snapshot
  | Some e =>
      _ ← require_pin "protocol version" (ExpectedDeviceIdentity.protocol_version e) protocol;
      _ ← require_pin "firmware version" (ExpectedDeviceIdentity.firmware_version e) firmware;
      _ ← require_pin "build ID" (ExpectedDeviceIdentity.build_id e) build;
      _ ← require_pin "hardware serial" (ExpectedDeviceIdentity.hardware_serial e) serial;
      _ ← require_pin "board ID" (ExpectedDeviceIdentity.board_id e) board;
      _ ← require_pin "MCU ID" (ExpectedDeviceIdentity.mcu_id e) mcu;
      Ok snapshot
  end.

(** ** What is accepted *)

Definition supported_target (board : V1BoardId.BoardId) (mcu : V1McuId.McuId) : Prop :=
  board = V1BoardId.TEENSY_40 /\ mcu = V1McuId.IMXRT1062 \/ board = V1BoardId.SIMULATOR /\ mcu = V1McuId.SIMULATED.

(** A v3 INFO is acceptable as it is; a v1/v2 one names a supported target, and a
    physical target runs firmware 0.3.0 or later, built from sources, with a serial. *)
Definition acceptable (info : AnyInfo) : Prop :=
  match info with
  | ModernInfo _ => True
  | LegacyInfo i =>
      1 <= DeviceInfo.protocol_version i <= 3 /\ supported_target (DeviceInfo.board_id i) (DeviceInfo.mcu_id i) /\
      (DeviceInfo.board_id i = V1BoardId.TEENSY_40 ->
       tuple_lt (DeviceInfo.firmware_version i) [0; 3; 0] = false /\
       (exists digits, DeviceInfo.build_id i = BUILD_PREFIX ++ digits /\ length digits = 16%nat /\
          Forall (fun c => 48 <= c <= 57 \/ 97 <= c <= 102) digits) /\
       DeviceInfo.hardware_serial i <> 0)
  end.

Lemma physical_build_id_iff t :
  physical_build_id t = true <->
  exists digits, t = BUILD_PREFIX ++ digits /\ length digits = 16%nat /\
    Forall (fun c => 48 <= c <= 57 \/ 97 <= c <= 102) digits.
Proof.
  unfold physical_build_id. rewrite !andb_true_iff, bool_decide_eq_true, Z.eqb_eq, forallb_forall.
  assert (Hd : forall c, hex_digit c = true <-> 48 <= c <= 57 \/ 97 <= c <= 102).
  { intros c. unfold hex_digit, decimal_digit. rewrite orb_true_iff, !andb_true_iff, !Z.leb_le. lia. }
  split.
  - intros [[Hl Hp] Hh]. exists (drop 9 t). split; [by rewrite <-Hp, take_drop|]. split; [len|].
    apply Forall_forall. intros c Hc. apply Hd, Hh. by apply list_elem_of_In.
  - intros (digits & -> & Hl & Hf). unfold text. rewrite take_app_exact, drop_app_exact by done.
    split; [split; [unfold zlen; rewrite length_app, Hl; done|done]|].
    intros c Hc. apply Hd. rewrite Forall_forall in Hf. apply Hf. by apply list_elem_of_In.
Qed.

Lemma snapshot_total info : exists s, snapshot_from_info info = Ok s.
Proof. destruct info as [i|[[] [] [] ? ? ? ? ? ?]]; cbn; eauto. Qed.

Lemma snapshot_modern_pair i s :
  snapshot_from_info (ModernInfo i) = Ok s ->
  DeviceIdentitySnapshot.protocol_version s = 3 /\
  supported_target (DeviceIdentitySnapshot.board_id s) (DeviceIdentitySnapshot.mcu_id s).
Proof. destruct i as [[] [] [] ? ? ? ? ? ?]; intros [= <-]; (split; [done|]); unfold supported_target; auto. Qed.

Lemma supported_target_iff s :
  is_physical s || is_simulated s = true <->
  supported_target (DeviceIdentitySnapshot.board_id s) (DeviceIdentitySnapshot.mcu_id s).
Proof.
  unfold is_physical, is_simulated, supported_target. by rewrite orb_true_iff, !andb_true_iff, !bool_decide_eq_true.
Qed.

(** The identity without pins. *)
Lemma validate_unpinned info s :
  validate_device_identity info None = Ok s <-> acceptable info /\ snapshot_from_info info = Ok s.
Proof.
  destruct (snapshot_total info) as [s0 Hs]. unfold validate_device_identity. rewrite Hs. cbn [mbind result_bind].
  destruct s0 as [protocol firmware build serial board mcu]. rewrite !require_bind, supported_target_iff.
  destruct info as [i|i].
  - injection Hs as <- <- <- <- <- <-. cbn [DeviceIdentitySnapshot.board_id DeviceIdentitySnapshot.mcu_id acceptable].
    rewrite !orb_true_iff, !Z.eqb_eq.
    destruct (is_physical _) eqn:Hp.
    + unfold is_physical in Hp. cbn [DeviceIdentitySnapshot.board_id DeviceIdentitySnapshot.mcu_id] in Hp.
      apply andb_true_iff in Hp as [Hb Hm]. apply bool_decide_eq_true in Hb, Hm.
      cbn [check_legacy_physical DeviceIdentitySnapshot.firmware_version DeviceIdentitySnapshot.build_id DeviceIdentitySnapshot.hardware_serial].
      split.
      * intros (H1 & H2 & H). apply bind_Ok_inv in H as (u & H3 & H). apply Ok_inj in H. subst s.
        rewrite !require_bind, require_Ok, physical_build_id_iff, !negb_true_iff in H3. destruct H3 as (H3 & H4 & H5).
        apply bool_decide_eq_false in H5. split; [|done]. split; [lia|]. split; [done|]. intros _.
        split; [exact H3|]. split; [exact H4|]. by intros Hz; apply H5; rewrite Hz.
      * intros [(H1 & H2 & H3) [= <-]]. split; [lia|]. split; [done|]. destruct (H3 Hb) as (H4 & H5 & H6).
        apply physical_build_id_iff in H5. unfold PHASE03_MINIMUM_FIRMWARE_VERSION. rewrite H4, H5.
        rewrite bool_decide_eq_false_2 by (by intros [= ?]). done.
    + split.
      * intros (H1 & H2 & H). cbn in H. apply Ok_inj in H. subst s. split; [|done]. split; [lia|]. split; [done|].
        intros Hb. exfalso. destruct H2 as [[_ Hm]|[Hb' _]]; [|congruence].
        unfold is_physical in Hp. cbn in Hp. rewrite !bool_decide_eq_true_2 in Hp; done.
      * intros [(H1 & H2 & _) [= <-]]. split; [lia|]. by split.
  - destruct (snapshot_modern_pair i _ Hs) as [Hpr Hpair]. cbn in Hpr, Hpair. subst protocol.
    cbn [acceptable mbind result_bind]. split; [intros (_ & _ & H); apply Ok_inj in H; by subst|intros [_ [= <-]]; done].
Qed.

(** Every snapshot field agrees with its pin. *)
Definition meets (e : ExpectedDeviceIdentity) (s : DeviceIdentitySnapshot) : Prop :=
  from_option (fun w => DeviceIdentitySnapshot.protocol_version s = w) True (ExpectedDeviceIdentity.protocol_version e) /\
  from_option (fun w => DeviceIdentitySnapshot.firmware_version s = w) True (ExpectedDeviceIdentity.firmware_version e) /\
  from_option (fun w => DeviceIdentitySnapshot.build_id s = w) True (ExpectedDeviceIdentity.build_id e) /\
  from_option (fun w => DeviceIdentitySnapshot.hardware_serial s = w) True (ExpectedDeviceIdentity.hardware_serial e) /\
  from_option (fun w => DeviceIdentitySnapshot.board_id s = w) True (ExpectedDeviceIdentity.board_id e) /\
  from_option (fun w => DeviceIdentitySnapshot.mcu_id s = w) True (ExpectedDeviceIdentity.mcu_id e).

Lemma require_pin_bind {A B} `{EqDecision A} label (wanted : option A) actual (m : identified B) x :
  (require_pin label wanted actual ≫= fun _ => m) = Ok x <-> from_option (fun w => actual = w) True wanted /\ m = Ok x.
Proof.
  unfold require_pin. rewrite require_bind. destruct wanted; cbn [pinned from_option default]; [by rewrite bool_decide_eq_true|by split; intros [_ ?]].
Qed.

Lemma validate_pinned info e s :
  validate_device_identity info (Some e) = Ok s <-> validate_device_identity info None = Ok s /\ meets e s.
Proof.
  destruct (snapshot_total info) as [s0 Hs]. unfold validate_device_identity, meets. rewrite Hs. cbn [mbind result_bind].
  destruct s0 as [protocol firmware build serial board mcu]. rewrite !require_bind.
  destruct (match info with LegacyInfo _ => _ | ModernInfo _ => _ end) as [u|e']; cbn [mbind result_bind].
  - rewrite !require_pin_bind. split.
    + intros (H1 & H2 & H3 & H4 & H5 & H6 & H7 & H8 & H). apply Ok_inj in H. by subst s.
    + intros ((H1 & H2 & H) & H3). apply Ok_inj in H. subst s. cbn in H3. tauto.
  - split; [by intros (_ & _ & ?)|by intros ((_ & _ & ?) & _)].
Qed.

Lemma meets_pins info e s s0 :
  snapshot_from_info info = Ok s0 -> expected_from_info info = Ok e -> meets e s <-> s = s0.
Proof.
  intros Hs He. unfold expected_from_info in He. rewrite Hs in He. cbn [mbind result_bind] in He. destruct s0.
  unfold new_expected in He. rewrite !require_bind in He. destruct He as (_ & _ & _ & _ & He). apply Ok_inj in He. subst e.
  unfold meets. cbn. destruct s; cbn. split; [by intros (-> & -> & -> & -> & -> & ->)|by intros [= -> -> -> -> -> ->]].
Qed.

(** The pins of a snapshot exist when each of its fields can be pinned. *)
Definition pinnable (s : DeviceIdentitySnapshot) : Prop :=
  0 <= DeviceIdentitySnapshot.protocol_version s <= 255 /\
  version_allowed (DeviceIdentitySnapshot.firmware_version s) = true /\
  DeviceIdentitySnapshot.build_id s <> [] /\
  match DeviceIdentitySnapshot.hardware_serial s with
  | SerialNumber n => 0 <= n < 2 ^ 32
  | SerialText t => t <> []
  end.

Lemma expected_exists info s :
  snapshot_from_info info = Ok s -> is_Ok (expected_from_info info) <-> pinnable s.
Proof.
  intros Hs. unfold is_Ok, expected_from_info. rewrite Hs. cbn [mbind result_bind]. destruct s as [p f b h bo m].
  unfold new_expected, pinnable. cbn [pinned ExpectedDeviceIdentity.protocol_version ExpectedDeviceIdentity.hardware_serial
    ExpectedDeviceIdentity.firmware_version ExpectedDeviceIdentity.build_id DeviceIdentitySnapshot.protocol_version
    DeviceIdentitySnapshot.firmware_version DeviceIdentitySnapshot.build_id DeviceIdentitySnapshot.hardware_serial].
  assert (Hp : unsigned_byte p = true <-> 0 <= p <= 255) by (unfold unsigned_byte; rewrite andb_true_iff, !Z.leb_le; lia).
  assert (Hn : forall t, nonempty t = true <-> t <> []) by (intros t; unfold nonempty; by rewrite negb_true_iff, bool_decide_eq_false).
  assert (Hh : serial_allowed h = true <-> match h with SerialNumber n => 0 <= n < 2 ^ 32 | SerialText t => t <> [] end).
  { destruct h; [|apply Hn]. unfold serial_allowed. rewrite andb_true_iff, !Z.leb_le. change UINT32_MAX with (2 ^ 32 - 1). lia. }
  rewrite <-Hp, <-Hh, <-Hn. split.
  - intros [e He]. rewrite !require_bind in He. tauto.
  - intros (H1 & H2 & H3 & H4). by rewrite H1, H2, H3, H4; eexists.
Qed.

(** C25. Pinning.  Without pins an INFO is accepted exactly when it is acceptable, and the
    snapshot is the one of its fields.  Pins are met field by field, so pins taken from a
    first INFO accept a second one exactly when both have the same snapshot.  They exist
    for exactly the snapshots whose fields fit the pins' own ranges: a v3 device with a
    decimal serial of [2 ^ 32] or more is accepted by INFO but cannot be pinned.  Nothing
    but an identity error is raised, whatever is received. *)
Theorem identity_pinning (info info0 : AnyInfo) (s0 : DeviceIdentitySnapshot) (H0 : snapshot_from_info info0 = Ok s0) :
  (forall s, validate_device_identity info None = Ok s <-> acceptable info /\ snapshot_from_info info = Ok s) /\
  (forall e s, validate_device_identity info (Some e) = Ok s <-> validate_device_identity info None = Ok s /\ meets e s) /\
  (is_Ok (expected_from_info info0) <-> pinnable s0) /\
  (forall e, expected_from_info info0 = Ok e ->
     is_Ok (validate_device_identity info (Some e)) <-> acceptable info /\ snapshot_from_info info = Ok s0) /\
  (forall pins e, validate_device_identity info pins = Err e -> exists message, e = IdentityValidationError message).
Proof.
  split; [apply validate_unpinned|]. split; [apply validate_pinned|]. split; [by apply expected_exists|]. split.
  - intros e He. unfold is_Ok. setoid_rewrite validate_pinned. setoid_rewrite validate_unpinned.
    pose proof (fun s => meets_pins info0 e s s0 H0 He) as Hm. setoid_rewrite Hm.
    split; [by intros (s & [Ha Hs] & ->)|intros [Ha Hs]; by exists s0].
  - intros pins e H. destruct (snapshot_total info) as [s Hs]. unfold validate_device_identity in H. rewrite Hs in H.
    cbn [mbind result_bind] in H. destruct s as [protocol firmware build serial board mcu].
    assert (Hr : forall A b m (k : unit -> identified A), (require b (IdentityValidationError m) ≫= k) = Err e ->
      (exists m', e = IdentityValidationError m') \/ k tt = Err e) by (intros A [] m k; cbn; [by right|intros [= <-]; left; eauto]).
    do 2 (apply Hr in H as [|H]; [done|]).
    destruct (match info with LegacyInfo _ => _ | ModernInfo _ => _ end) as [u|e'] eqn:Hl; cbn [mbind result_bind] in H.
    + destruct pins as [pins|]; [|done]. unfold require_pin in H. do 6 (apply Hr in H as [|H]; [done|]). done.
    + injection H as ->. destruct info as [i|i]; [|done]. cbn in Hs. injection Hs as <- <- <- <- <- <-.
      destruct (is_physical _); [|done]. cbn [check_legacy_physical DeviceIdentitySnapshot.firmware_version] in Hl.
      do 2 (apply Hr in Hl as [|Hl]; [done|]). destruct (bool_decide _); cbn in Hl; [|done]. injection Hl as <-. eauto.
Qed.

(** A physical v3 board with the decimal serial 4294967296. *)
Definition example_info (serial : text) : V3Info :=
  V3Info.mk BoardId.TEENSY_40 McuId.IMXRT1062 false serial [48] [48] (V3Clocks.mk CpuProfile.CPU_600MHZ 0 0 0 0 0) 3 12.
Definition large_serial : text := [52; 50; 57; 52; 57; 54; 55; 50; 57; 54].

Lemma identity_pinning_witness :
  exists s0, snapshot_from_info (ModernInfo (example_info large_serial)) = Ok s0 /\
    is_Ok (validate_device_identity (ModernInfo (example_info large_serial)) None) /\
    ~ is_Ok (expected_from_info (ModernInfo (example_info large_serial))).
Proof.
  eexists. split; [reflexivity|].
  destruct (identity_pinning (ModernInfo (example_info large_serial)) (ModernInfo (example_info large_serial)) _ eq_refl)
    as (H1 & _ & H2 & _).
  split; [eexists; apply H1; split; [exact I|reflexivity]|]. rewrite H2. intros (_ & _ & _ & H).
  vm_compute in H. destruct H as [_ H]. discriminate H.
Defined.
