(* ===== verification/Discovery.v ===== *)
(** * Device discovery ([discovery.py]).

    Enumeration and ordering of serial-port metadata, the read-only INFO probe of one
    candidate, the scan over all of them, and the choice by hardware serial.  The
    ports of the operating system are a list of metadata; opening, starting and closing
    an endpoint are an interface ([PortLink]), the INFO exchange is [Session]'s
    negotiation over it.  [casefold] of the standard library is a parameter. *)

From stdpp Require Import sorting.
From S2P Require Import Prelude Effects Checksum V3Constants V3Header ModelsV3 Profiles Reader Session Identity.

(** ** Data *)

(** The pyserial metadata of one port; a [device] that is no string is [None]. *)
Module PortMetadata.
Record PortMetadata := mk {
  device : option text;
  vid : option Z;
  pid : option Z;
  serial_number : option text;
  location : option text;
  manufacturer : option text;
  product : option text;
  interface : option text;
  description : option text
}.
End PortMetadata.
Abbreviation PortMetadata := PortMetadata.PortMetadata.

Module SerialPortCandidate.
Record SerialPortCandidate := mk {
  port : text;
  vid : Z;
  pid : Z;
  serial_number : option text;
  product : option text;
  manufacturer : option text;
  location : option text;
  interface : option text;
  description : option text
}.
#[global] Instance SerialPortCandidate_eq_dec : EqDecision SerialPortCandidate.
Proof. solve_decision. Defined.
End SerialPortCandidate.
Abbreviation SerialPortCandidate := SerialPortCandidate.SerialPortCandidate.

Module DiscoveredDevice.
Record DiscoveredDevice := mk { candidate : SerialPortCandidate; info : AnyInfo }.
#[global] Instance DiscoveredDevice_eq_dec : EqDecision DiscoveredDevice.
Proof. solve_decision. Defined.
End DiscoveredDevice.
Abbreviation DiscoveredDevice := DiscoveredDevice.DiscoveredDevice.

Inductive discovery_error :=
| DiscoveryProbeError (c : SerialPortCandidate) (message : string)
| DeviceNotFoundError
| DiscoveryValueError (message : string)
| DiscoveryIdentityError (e : identity_error).

Definition TEENSY_USB_SERIAL_VID : Z := 0x16C0.
Definition TEENSY_USB_SERIAL_PID : Z := 0x0483.
(** The code points of ThingDAQ. *)
Definition THINGDAQ_PRODUCT : text := [84; 104; 105; 110; 103; 68; 65; 81].

(** [SerialPortCandidate.__post_init__] *)
Definition new_candidate (c : SerialPortCandidate) : result discovery_error SerialPortCandidate :=
  let short v := (0 <=? v) && (v <=? 0xFFFF) in
  _ ← require (nonempty (SerialPortCandidate.port c)) (DiscoveryValueError "candidate port must be a nonempty string");
  _ ← require (short (SerialPortCandidate.vid c)) (DiscoveryValueError "candidate vid must be a 16-bit integer");
  _ ← require (short (SerialPortCandidate.pid c)) (DiscoveryValueError "candidate pid must be a 16-bit integer");
  Ok c.

(** [DiscoveredDevice.hardware_serial] *)
Definition device_serial (d : DiscoveredDevice) : identified HardwareSerial :=
  s ← snapshot_from_info (DiscoveredDevice.info d); Ok (DeviceIdentitySnapshot.hardware_serial s).

(** [DeviceIdentity(serial)], as [DiscoveredDevice.identity] builds it. *)
Definition device_identity (serial : HardwareSerial) : result discovery_error HardwareSerial :=
  _ ← require (serial_allowed serial) (DiscoveryValueError "hardware_serial must be nonempty or an unsigned 32-bit integer");
  Ok serial.

(** ** The order of candidates *)

(** [a <= b] on strings, by code points. *)
Fixpoint text_le (a b : text) : bool :=
  match a, b with
  | [], _ => true
  | _ :: _, [] => false
  | x :: a, y :: b => (x <? y) || ((x =? y) && text_le a b)
  end.

(** The key of a candidate, and [a <= b] on keys. *)
Definition candidate_key : Type := Z * text * text * text.
Definition key_le (a b : candidate_key) : bool :=
  let '(ra, sa, la, pa) := a in
  let '(rb, sb, lb, pb) := b in
  (ra <? rb)
  || ((ra =? rb)
      && (if bool_decide (sa = sb) then
            if bool_decide (la = lb) then text_le pa pb else text_le la lb
          else text_le sa sb)).

(** [list.sort]: stable, here by insertion after the elements that are not greater. *)
Section Sorting.
Context {A : Type} (le : A -> A -> bool).
Fixpoint insert (x : A) (l : list A) : list A :=
  match l with
  | [] => [x]
  | y :: l' => if le y x then y :: insert x l' else x :: l
  end.
Definition sorted_list (l : list A) : list A := fold_left (fun acc x => insert x acc) l [].
End Sorting.

(** [min(matches, key=key)]: the first of the least elements. *)
Definition min_by {A} (le : A -> A -> bool) (x : A) (l : list A) : A :=
  fold_left (fun best y => if le best y then best else y) l x.

Section Discovery.
Context (casefold : text -> text).

Definition _product_rank (product : option text) : Z :=
  match product with
  | None => 1
  | Some p => if bool_decide (p = THINGDAQ_PRODUCT) then 0 else 2
  end.

Definition _candidate_sort_key (c : SerialPortCandidate) : candidate_key :=
  (_product_rank (SerialPortCandidate.product c),
   casefold (default [] (SerialPortCandidate.serial_number c)),
   casefold (default [] (SerialPortCandidate.location c)),
   casefold (SerialPortCandidate.port c)).

Definition candidate_le (a b : SerialPortCandidate) : bool := key_le (_candidate_sort_key a) (_candidate_sort_key b).

(** [value if value else None] *)
Definition _optional_text (value : option text) : option text :=
  match value with Some (_ :: _) => value | _ => None end.

(** The candidate of one port, [None] where the loop continues. *)
Definition plausible (m : PortMetadata) (seen : list text) : option SerialPortCandidate :=
  if bool_decide (PortMetadata.vid m = Some TEENSY_USB_SERIAL_VID) && bool_decide (PortMetadata.pid m = Some TEENSY_USB_SERIAL_PID)
  then match PortMetadata.device m with
       | Some port =>
           if nonempty port && negb (bool_decide (port ∈ seen))
           then Some (SerialPortCandidate.mk port TEENSY_USB_SERIAL_VID TEENSY_USB_SERIAL_PID
                        (_optional_text (PortMetadata.serial_number m)) (_optional_text (PortMetadata.product m))
                        (_optional_text (PortMetadata.manufacturer m)) (_optional_text (PortMetadata.location m))
                        (_optional_text (PortMetadata.interface m)) (_optional_text (PortMetadata.description m)))
           else None
       | None => None
       end
  else None.

(** The loop of [enumerate_candidates]. *)
Fixpoint collect (ports : list PortMetadata) (seen : list text) : result discovery_error (list SerialPortCandidate) :=
  match ports with
  | [] => Ok []
  | m :: ports =>
      match plausible m seen with
      | None => collect ports seen
      | Some c =>
          c ← new_candidate c;
          rest ← collect ports (SerialPortCandidate.port c :: seen);
          Ok (c :: rest)
      end
  end.

Definition enumerate_candidates (ports : list PortMetadata) : result discovery_error (list SerialPortCandidate) :=
  candidates ← collect ports []; Ok (sorted_list candidate_le candidates).

(** ** Checking a probed INFO *)

Definition _usb_serial_as_int (serial_number : option text) : option Z :=
  match serial_number with
  | Some t => if ascii_decimal t then Some (int_of_text t) else None
  | None => None
  end.

Definition _validate_physical_info (c : SerialPortCandidate) (info : AnyInfo) : result discovery_error unit :=
  match validate_device_identity info None with
  | Err (IdentityValidationError _) => Err (DiscoveryProbeError c "INFO identity is incompatible")
  | Err e => Err (DiscoveryIdentityError e)
  | Ok identity =>
      _ ← require (is_physical identity) (DiscoveryProbeError c "INFO did not identify a Teensy 4.0 / i.MX RT1062 device");
      _ ← require (negb match info, SerialPortCandidate.serial_number c with
                        | ModernInfo i, Some t => negb (bool_decide (t = V3Info.hardware_serial i))
                        | _, _ => false
                        end) (DiscoveryProbeError c "USB serial metadata differs from v3 INFO");
      require (match _usb_serial_as_int (SerialPortCandidate.serial_number c) with
               | Some n => bool_decide (SerialNumber n = DeviceIdentitySnapshot.hardware_serial identity)
               | None => true
               end) (DiscoveryProbeError c "USB serial metadata changed before the INFO probe completed")
  end.

(** ** Choosing a device *)

(** The match of one device; a [HardwareSerial] is an [int] or a [str]. *)
Definition _matches_hardware_serial (d : DiscoveredDevice) (wanted : HardwareSerial) : bool :=
  match device_serial d with
  | Err _ => false
  | Ok serial =>
      match wanted with
      | SerialNumber _ => bool_decide (serial = wanted)
      | SerialText t =>
          bool_decide (serial = wanted)
          || bool_decide (SerialPortCandidate.serial_number (DiscoveredDevice.candidate d) = Some t)
          || match _usb_serial_as_int (Some t) with Some n => bool_decide (serial = SerialNumber n) | None => false end
      end
  end.

Definition device_le (a b : DiscoveredDevice) : bool :=
  candidate_le (DiscoveredDevice.candidate a) (DiscoveredDevice.candidate b).

Definition select_device (devices : list DiscoveredDevice) (wanted : HardwareSerial) : result discovery_error DiscoveredDevice :=
  _ ← match wanted with
      | SerialNumber n => require ((0 <=? n) && (n <=? UINT32_MAX))
                            (DiscoveryValueError "integer hardware_serial must be an unsigned 32-bit value")
      | SerialText t => require (nonempty t) (DiscoveryValueError "hardware_serial string must be nonempty")
      end;
  match List.filter (fun d => _matches_hardware_serial d wanted) devices with
  | [] => Err DeviceNotFoundError
  | d :: matches => Ok (min_by device_le d matches)
  end.
End Discovery.

(** ** Probing the candidates *)

(** What [InfoNegotiation.probe] returns: the response of a v3 or of an older device. *)
Inductive InfoReply :=
| V3Reply (r : V3Response)
| LegacyReply (ok : bool) (kind error_code : Z) (value : option DeviceInfo).

(** The transport factory, [BackgroundReader.start] and [BackgroundReader.close]. *)
Class PortLink (W E : Type) := {
  open_transport : SerialPortCandidate -> effect W E unit;
  start_reader : effect W E unit;
  close_reader : effect W E unit
}.

Definition INFO_RESPONSE_KIND : Z := int_of FrameKind.INFO_RESPONSE.

(** The INFO a reply carries, when it is a success of the right kind. *)
Definition reply_info (r : InfoReply) : option AnyInfo :=
  match r with
  | V3Reply r =>
      match V3Response.value r with
      | Some (InfoValue i) =>
          if ok r && (int_of (V3Response.kind r) =? INFO_RESPONSE_KIND) then Some (ModernInfo i) else None
      | _ => None
      end
  | LegacyReply ok kind _ value => if ok && (kind =? INFO_RESPONSE_KIND) then LegacyInfo <$> value else None
  end.

(** The end of the probe: the checks of the reply, any other exception wrapped. *)
Definition accept_reply (c : SerialPortCandidate) (r : InfoReply) : result discovery_error DiscoveredDevice :=
  match reply_info r with
  | None => Err (DiscoveryProbeError c "device rejected or malformed INFO")
  | Some info =>
      match _validate_physical_info c info with
      | Ok _ => Ok (DiscoveredDevice.mk c info)
      | Err (DiscoveryProbeError c message) => Err (DiscoveryProbeError c message)
      | Err _ => Err (DiscoveryProbeError c "INFO probe failed")
      end
  end.

Section Scan.
Context {W E : Type} `{PL : PortLink W E} `{P : ProbeLink W InfoReply}.
(** The clock readings during the probe of each candidate. *)
Context (casefold : text -> text) (now : SerialPortCandidate -> nat -> Z).

(** The body of the [try], once the reader exists. *)
Definition probe_started (c : SerialPortCandidate) (timeout : Z) : effect W discovery_error DiscoveredDevice := fun w =>
  match start_reader w with
  | (w, Err _) => (w, Err (DiscoveryProbeError c "INFO probe failed"))
  | (w, Ok _) =>
      match probe (now c) new_negotiation timeout w with
      | (w, _, Err _) => (w, Err (DiscoveryProbeError c "INFO probe failed"))
      | (w, _, Ok reply) => (w, accept_reply c reply)
      end
  end.

Definition _validate_timeout (timeout : Z) : result discovery_error Z :=
  _ ← require (0 <? timeout) (DiscoveryValueError "discovery timeout must be positive"); Ok timeout.

(** [probe_candidate]; the endpoint is closed on every exit. *)
Definition probe_candidate (c : SerialPortCandidate) (timeout : Z) : effect W discovery_error DiscoveredDevice := fun w =>
  match _validate_timeout timeout with
  | Err e => (w, Err e)
  | Ok timeout =>
      if negb (SerialPortCandidate.vid c =? TEENSY_USB_SERIAL_VID) || negb (SerialPortCandidate.pid c =? TEENSY_USB_SERIAL_PID)
      then (w, Err (DiscoveryProbeError c "candidate VID/PID is not Teensy USB Serial"))
      else
        match open_transport c w with
        | (w, Err _) => (w, Err (DiscoveryProbeError c "INFO probe failed"))
        | (w, Ok _) => let '(w, outcome) := probe_started c timeout w in ((close_reader w).1, outcome)
        end
  end.

(** The loop of [discover]. *)
Fixpoint probe_all (candidates : list SerialPortCandidate) (timeout : Z) : effect W discovery_error (list DiscoveredDevice) := fun w =>
  match candidates with
  | [] => (w, Ok [])
  | c :: candidates =>
      match probe_candidate c timeout w with
      | (w, Ok d) => let '(w, rest) := probe_all candidates timeout w in (w, cons d <$> rest)
      | (w, Err (DiscoveryProbeError _ _)) => probe_all candidates timeout w
      | (w, Err e) => (w, Err e)
      end
  end.

(** [discover] *)
Definition discover (ports : list PortMetadata) (timeout : Z) : effect W discovery_error (list DiscoveredDevice) := fun w =>
  match _validate_timeout timeout with
  | Err e => (w, Err e)
  | Ok timeout =>
      match enumerate_candidates casefold ports with
      | Err e => (w, Err e)
      | Ok candidates => probe_all candidates timeout w
      end
  end.
End Scan.

(** ** Orders *)

Lemma text_le_refl a : text_le a a = true.
Proof. induction a as [|x a IH]; [done|]. cbn. by rewrite Z.ltb_irrefl, Z.eqb_refl, IH. Qed.

Lemma text_le_total a : forall b, text_le a b = true \/ text_le b a = true.
Proof.
  induction a as [|x a IH]; intros [|y b]; [by left|by left|by right|]. cbn.
  destruct (Z.lt_trichotomy x y) as [H|[->|H]].
  - left. by rewrite (proj2 (Z.ltb_lt _ _) H).
  - rewrite Z.ltb_irrefl, Z.eqb_refl. cbn. apply IH.
  - right. by rewrite (proj2 (Z.ltb_lt _ _) H).
Qed.

Lemma text_le_trans a : forall b c, text_le a b = true -> text_le b c = true -> text_le a c = true.
Proof.
  induction a as [|x a IH]; intros [|y b] [|z c]; try done. cbn.
  rewrite !orb_true_iff, !andb_true_iff, !Z.ltb_lt, !Z.eqb_eq.
  intros [H1|[-> H1]] [H2|[-> H2]]; [left; lia|by left|by left|right; eauto].
Qed.

Lemma text_le_antisym a : forall b, text_le a b = true -> text_le b a = true -> a = b.
Proof.
  induction a as [|x a IH]; intros [|y b]; try done. cbn.
  rewrite !orb_true_iff, !andb_true_iff, !Z.ltb_lt, !Z.eqb_eq.
  intros [H1|[-> H1]] [H2|[? H2]]; try lia. f_equal. by apply IH.
Qed.

Lemma key_le_iff a b :
  key_le a b = true <->
  let '(ra, sa, la, pa) := a in let '(rb, sb, lb, pb) := b in
  ra < rb \/ ra = rb /\ (text_le sa sb = true /\ sa <> sb \/ sa = sb /\
    (text_le la lb = true /\ la <> lb \/ la = lb /\ text_le pa pb = true)).
Proof.
  destruct a as [[[ra sa] la] pa], b as [[[rb sb] lb] pb]. unfold key_le.
  rewrite orb_true_iff, andb_true_iff, Z.ltb_lt, Z.eqb_eq. repeat case_bool_decide; subst; intuition congruence.
Qed.

Lemma key_le_total a b : key_le a b = true \/ key_le b a = true.
Proof.
  rewrite !key_le_iff. destruct a as [[[ra sa] la] pa], b as [[[rb sb] lb] pb].
  destruct (Z.lt_trichotomy ra rb) as [?|[->|?]]; [by left; left| |by right; left].
  destruct (decide (sa = sb)) as [->|Hs]; [|destruct (text_le_total sa sb); naive_solver].
  destruct (decide (la = lb)) as [->|Hl]; [|destruct (text_le_total la lb); naive_solver].
  destruct (text_le_total pa pb); naive_solver.
Qed.

Lemma key_le_trans a b c : key_le a b = true -> key_le b c = true -> key_le a c = true.
Proof.
  rewrite !key_le_iff. destruct a as [[[ra sa] la] pa], b as [[[rb sb] lb] pb], c as [[[rc sc] lc] pc].
  assert (Ht : forall x y z, text_le x y = true -> x <> y -> text_le y z = true -> text_le x z = true /\ x <> z).
  { intros x y z Hxy Hne Hyz. split; [by eapply text_le_trans|]. intros ->. by apply Hne, text_le_antisym. }
  assert (Ht' : forall x y z, text_le x y = true -> text_le y z = true -> y <> z -> text_le x z = true /\ x <> z).
  { intros x y z Hxy Hyz Hne. split; [by eapply text_le_trans|]. intros ->. by apply Hne, text_le_antisym. }
  pose proof text_le_trans as Htr.
  intros [?|[-> [[? ?]|[-> [[? ?]|[-> ?]]]]]] [?|[-> [[? ?]|[-> [[? ?]|[-> ?]]]]]]; try (left; lia); right; split; try done.
  all: try (left; by eauto).
  all: try (right; split; [done|]; left; by eauto).
  right. split; [done|]. right. split; [done|]. by eapply Htr.
Qed.

(** ** Sorting *)

Section SortingFacts.
Context {A : Type} (le : A -> A -> bool) (Htotal : forall a b, le a b = true \/ le b a = true)
  (Htrans : forall a b c, le a b = true -> le b c = true -> le a c = true).

Lemma insert_perm x l : insert le x l ≡ₚ x :: l.
Proof. induction l as [|y l IH]; cbn; [done|]. destruct (le y x); [|done]. rewrite IH. apply Permutation_swap. Qed.

Lemma sorted_list_perm l : sorted_list le l ≡ₚ l.
Proof.
  unfold sorted_list. enough (H : forall acc, fold_left (fun acc x => insert le x acc) l acc ≡ₚ acc ++ l) by apply H.
  induction l as [|x l IH]; intros acc; [by rewrite app_nil_r|]. cbn [fold_left]. rewrite IH, insert_perm.
  by rewrite <-Permutation_middle.
Qed.

Definition ordered : list A -> Prop := StronglySorted (fun a b => le a b = true).

Lemma insert_ordered x l : ordered l -> ordered (insert le x l).
Proof.
  induction 1 as [|y l Hs IH Hy]; cbn; [repeat constructor|]. destruct (le y x) eqn:Hyx.
  - constructor; [done|]. rewrite insert_perm. by constructor.
  - assert (Hxy : le x y = true) by (destruct (Htotal x y); congruence).
    constructor; [by constructor|]. constructor; [done|]. eapply Forall_impl; [exact Hy|]. intros z Hz. by eapply Htrans.
Qed.

Lemma sorted_list_ordered l : ordered (sorted_list le l).
Proof.
  unfold sorted_list. enough (H : forall acc, ordered acc -> ordered (fold_left (fun acc x => insert le x acc) l acc)) by (apply H; constructor).
  induction l as [|x l IH]; intros acc Ha; [done|]. by apply IH, insert_ordered.
Qed.

(** The sort is stable: elements with the same key keep their order. *)
Lemma insert_stable x k l :
  ordered l ->
  List.filter (fun y => le k y && le y k) (insert le x l)
  = List.filter (fun y => le k y && le y k) l ++ (if le k x && le x k then [x] else []).
Proof.
  induction 1 as [|y l Hs IH Hy]; cbn; [by destruct (_ && _)|]. destruct (le y x) eqn:Hyx; cbn.
  { rewrite IH. by destruct (le k y && le y k). }
  destruct (le k x && le x k) eqn:Hx; [|by rewrite app_nil_r].
  apply andb_true_iff in Hx as [Hkx Hxk].
  assert (Hno : forall z, le y z = true \/ z = y -> le k z && le z k = false).
  { intros z Hz. apply andb_false_iff. right. destruct (le z k) eqn:Hzk; [|done]. exfalso.
    assert (le z x = true) by (by eapply Htrans). destruct Hz as [Hz| ->]; [|congruence].
    assert (le y x = true) by (by eapply Htrans). congruence. }
  rewrite (Hno y) by auto. assert (Hl : List.filter (fun z => le k z && le z k) l = []).
  { clear IH Hs. induction Hy as [|z l Hz _ IH]; [done|]. cbn. by rewrite (Hno z) by auto. }
  by rewrite Hl.
Qed.

Lemma sorted_list_stable k l :
  List.filter (fun y => le k y && le y k) (sorted_list le l) = List.filter (fun y => le k y && le y k) l.
Proof.
  unfold sorted_list.
  enough (H : forall acc, ordered acc -> List.filter (fun y => le k y && le y k) (fold_left (fun acc x => insert le x acc) l acc)
    = List.filter (fun y => le k y && le y k) acc ++ List.filter (fun y => le k y && le y k) l) by (apply (H []); constructor).
  induction l as [|x l IH]; intros acc Ha; [by rewrite app_nil_r|]. cbn [fold_left].
  rewrite IH by (by apply insert_ordered). rewrite insert_stable by done. rewrite <-app_assoc. cbn. by destruct (_ && _).
Qed.

Lemma min_by_spec l : forall x,
  exists before after, x :: l = before ++ min_by le x l :: after /\
    Forall (fun y => le (min_by le x l) y = true) (x :: l) /\
    Forall (fun y => le y (min_by le x l) = false) before.
Proof.
  assert (Hrefl : forall a, le a a = true) by (intros a; by destruct (Htotal a a)).
  unfold min_by. induction l as [|y l IH]; intros x.
  - exists [], []. cbn. split; [done|]. split; [by repeat constructor|constructor].
  - cbn [fold_left]. destruct (le x y) eqn:Hxy.
    + destruct (IH x) as (before & after & Heq & Hall & Hb). apply Forall_cons in Hall as [Hx Hall].
      destruct before as [|z before].
      * injection Heq as Hm Ha. rewrite <-Hm in Hall |- *. exists [], (y :: l). split; [done|]. split; [|constructor].
        constructor; [apply Hrefl|]. by constructor.
      * injection Heq as <- Ha. exists (x :: y :: before), after. split; [cbn; do 2 f_equal; exact Ha|].
        apply Forall_cons in Hb as [Hxb Hb]. split.
        -- constructor; [done|]. constructor; [by eapply Htrans|done].
        -- constructor; [done|]. constructor; [|done]. apply not_true_iff_false. intros Hy. by rewrite (Htrans _ _ _ Hxy Hy) in Hxb.
    + assert (Hyx : le y x = true) by (destruct (Htotal x y); congruence).
      destruct (IH y) as (before & after & Heq & Hall & Hb). apply Forall_cons in Hall as [Hy Hall].
      exists (x :: before), after. split; [cbn; f_equal; exact Heq|]. split.
      * constructor; [by eapply Htrans|]. by constructor.
      * constructor; [|done]. apply not_true_iff_false. intros Hx. by rewrite (Htrans _ _ _ Hx Hy) in Hxy.
Qed.
End SortingFacts.

(** ** Enumeration *)

Lemma candidate_le_total casefold a b : candidate_le casefold a b = true \/ candidate_le casefold b a = true.
Proof. apply key_le_total. Qed.
Lemma candidate_le_trans casefold a b c :
  candidate_le casefold a b = true -> candidate_le casefold b c = true -> candidate_le casefold a c = true.
Proof. apply key_le_trans. Qed.

(** The metadata of a Teensy USB Serial port with this path. *)
Definition offers (m : PortMetadata) (port : text) : Prop :=
  PortMetadata.vid m = Some TEENSY_USB_SERIAL_VID /\ PortMetadata.pid m = Some TEENSY_USB_SERIAL_PID /\
  PortMetadata.device m = Some port /\ port <> [].

Lemma plausible_iff m seen c :
  plausible m seen = Some c <-> plausible m [] = Some c /\ SerialPortCandidate.port c ∉ seen.
Proof.
  unfold plausible. destruct (_ && _); [|by split; [|intros [? _]]].
  destruct (PortMetadata.device m) as [port|]; [|by split; [|intros [? _]]].
  destruct (nonempty port); [|by split; [|intros [? _]]]. cbn [andb].
  rewrite (bool_decide_eq_false_2 (port ∈ [])) by apply not_elem_of_nil. cbn [negb].
  case_bool_decide as Hs; cbn [negb]; (split; [intros H|intros [H Hp]]); try done.
  - injection H as <-. done.
  - by injection H as <-.
Qed.

Lemma plausible_offers m c : plausible m [] = Some c -> offers m (SerialPortCandidate.port c) /\ new_candidate c = Ok c.
Proof.
  unfold plausible, offers. destruct (_ && _) eqn:Hv; [|done]. apply andb_true_iff in Hv as [Hv Hp]. apply bool_decide_eq_true in Hv, Hp.
  destruct (PortMetadata.device m) as [port|]; [|done]. destruct (nonempty port) eqn:Hn; [|done]. cbn. intros [= <-].
  cbn [SerialPortCandidate.port]. unfold new_candidate. cbn [SerialPortCandidate.port]. rewrite Hn.
  split; [|done]. split; [done|]. split; [done|]. split; [done|]. unfold nonempty in Hn. by apply negb_true_iff, bool_decide_eq_false in Hn.
Qed.

Lemma offers_plausible m port : offers m port -> exists c, plausible m [] = Some c /\ SerialPortCandidate.port c = port.
Proof.
  intros (Hv & Hp & Hd & Hn). unfold plausible. rewrite !bool_decide_eq_true_2, Hd by done. cbn [andb].
  unfold nonempty. rewrite bool_decide_eq_false_2 by done. cbn. by eexists.
Qed.

(** [c] is made from the first port of its path. *)
Definition first_offer (ports : list PortMetadata) (c : SerialPortCandidate) : Prop :=
  exists before m after, ports = before ++ m :: after /\ plausible m [] = Some c /\
    Forall (fun m' => ~ offers m' (SerialPortCandidate.port c)) before.

Lemma collect_ok ports : forall seen,
  exists cs, collect ports seen = Ok cs /\ NoDup (map SerialPortCandidate.port cs) /\
    Forall (fun c => (SerialPortCandidate.port c ∉ seen) /\ first_offer ports c) cs /\
    (forall m port, m ∈ ports -> offers m port -> port ∉ seen -> port ∈ map SerialPortCandidate.port cs).
Proof.
  induction ports as [|m ports IH]; intros seen.
  { exists []. split; [done|]. split; [constructor|]. split; [constructor|]. intros m port Hm. by apply not_elem_of_nil in Hm. }
  cbn [collect]. destruct (plausible m seen) as [c|] eqn:Hpl.
  - apply plausible_iff in Hpl as [Hpl Hc]. destruct (plausible_offers _ _ Hpl) as [Hoff Hnew]. rewrite Hnew. cbn [mbind result_bind].
    destruct (IH (SerialPortCandidate.port c :: seen)) as (cs & -> & Hnd & Hf & Hin). exists (c :: cs).
    split; [done|]. split; [|split].
    + cbn. constructor; [|done]. intros Hp. apply list_elem_of_fmap in Hp as (c' & Heq & Hc').
      rewrite Forall_forall in Hf. destruct (Hf c' Hc') as [Hns _]. apply Hns. rewrite <-Heq. by left.
    + constructor; [split; [done|]; exists [], m, ports; by split_and!|]. eapply Forall_impl; [exact Hf|].
      intros c' [Hns (before & m' & after & -> & Hpl' & Hb)]. split; [by intros ?; apply Hns; right|].
      exists (m :: before), m', after. split; [done|]. split; [done|]. constructor; [|done].
      intros (_ & _ & Hd & _). destruct Hoff as (_ & _ & Hd' & _). apply Hns. assert (SerialPortCandidate.port c' = SerialPortCandidate.port c) as -> by congruence. by left.
    + intros m' port Hm' Ho Hns. cbn. destruct (decide (port = SerialPortCandidate.port c)) as [->|Hne]; [by left|right].
      apply elem_of_cons in Hm' as [->|Hm']; [destruct Ho as (_ & _ & Hd & _), Hoff as (_ & _ & Hd' & _); congruence|].
      apply (Hin m'); [done..|]. intros Hp. apply elem_of_cons in Hp as [|]; done.
  - destruct (IH seen) as (cs & -> & Hnd & Hf & Hin). exists cs. split; [done|]. split; [done|]. split.
    + eapply Forall_impl; [exact Hf|]. intros c [Hns (before & m' & after & -> & Hpl' & Hb)]. split; [done|].
      exists (m :: before), m', after. split; [done|]. split; [done|]. constructor; [|done]. intros Ho.
      destruct (offers_plausible _ _ Ho) as (c' & Hc' & Hp). assert (plausible m seen = Some c') as Hx; [|congruence].
      apply plausible_iff. by rewrite Hp.
    + intros m' port Hm' Ho Hns. apply elem_of_cons in Hm' as [->|Hm']; [|by eapply Hin].
      destruct (offers_plausible _ _ Ho) as (c' & Hc' & Hp). assert (plausible m seen = Some c') as Hx; [|congruence].
      apply plausible_iff. by rewrite Hp.
Qed.

(** What [enumerate_candidates] returns: one candidate for each path of a Teensy port,
    made from the first metadata of the path, in the order of the keys. *)
Definition enumeration (casefold : text -> text) (ports : list PortMetadata) (cs : list SerialPortCandidate) : Prop :=
  NoDup (map SerialPortCandidate.port cs) /\ Forall (first_offer ports) cs /\
  (forall m port, m ∈ ports -> offers m port -> port ∈ map SerialPortCandidate.port cs) /\
  ordered (candidate_le casefold) cs.

Lemma enumerate_ok casefold ports :
  exists cs, enumerate_candidates casefold ports = Ok cs /\ enumeration casefold ports cs.
Proof.
  destruct (collect_ok ports []) as (cs & Hc & Hnd & Hf & Hin). unfold enumerate_candidates. rewrite Hc. cbn [mbind result_bind].
  eexists. split; [done|].
  pose proof (sorted_list_perm (candidate_le casefold) cs) as Hp. split; [by rewrite Hp|]. split; [|split].
  - rewrite Hp. eapply Forall_impl; [exact Hf|]. by intros ? [_ ?].
  - intros m port Hm Ho. rewrite Hp. apply (Hin m); [done..|]. apply not_elem_of_nil.
  - apply sorted_list_ordered; [apply candidate_le_total|apply candidate_le_trans].
Qed.

(** ** Scanning *)

(** A link with a record of the endpoints it opened and closed. *)
Inductive port_event := Opened (c : SerialPortCandidate) | Closed.

Section Logged.
Context {W E : Type} `{PL : PortLink W E} `{P : ProbeLink W InfoReply}.

Definition log {A} (event : list port_event) (m : effect W E A) : effect (W * list port_event) E A := fun w =>
  let '(w', r) := m w.1 in ((w', match r with Ok _ => w.2 ++ event | Err _ => w.2 end), r).
#[export] Instance logged_ports : PortLink (W * list port_event) E := {
  open_transport c := log [Opened c] (open_transport c);
  start_reader := log [] start_reader;
  close_reader := fun w => let '(w', r) := close_reader w.1 in ((w', w.2 ++ [Closed]), r)
}.
#[export] Instance logged_probe : ProbeLink (W * list port_event) InfoReply := fun w version timeout =>
  let '(w', r) := probe_request w.1 version timeout in ((w', w.2), r).
End Logged.

(** The endpoint of each candidate is closed before the next one is opened. *)
Definition bracketed (opened : list SerialPortCandidate) : list port_event := flat_map (fun c => [Opened c; Closed]) opened.

(** A device that is found is a physical board, and the serial number of its USB
    metadata, where it has a decimal one, is the one INFO reports. *)
Definition found (d : DiscoveredDevice) : Prop :=
  exists s, validate_device_identity (DiscoveredDevice.info d) None = Ok s /\
    DeviceIdentitySnapshot.board_id s = V1BoardId.TEENSY_40 /\ DeviceIdentitySnapshot.mcu_id s = V1McuId.IMXRT1062 /\
    (forall n, _usb_serial_as_int (SerialPortCandidate.serial_number (DiscoveredDevice.candidate d)) = Some n ->
       DeviceIdentitySnapshot.hardware_serial s = SerialNumber n) /\
    (forall i t, DiscoveredDevice.info d = ModernInfo i ->
       SerialPortCandidate.serial_number (DiscoveredDevice.candidate d) = Some t -> t = V3Info.hardware_serial i).

Lemma accept_reply_found c r d : accept_reply c r = Ok d -> DiscoveredDevice.candidate d = c /\ found d.
Proof.
  unfold accept_reply. destruct (reply_info r) as [info|]; [|done].
  destruct (_validate_physical_info c info) as [u|[]] eqn:Hv; try done. intros [= <-]. split; [done|].
  unfold _validate_physical_info in Hv. destruct (validate_device_identity info None) as [s|[]] eqn:Hs; try done.
  rewrite !require_bind, require_Ok in Hv. destruct Hv as (Hp & Hu & Hn). exists s. cbn [DiscoveredDevice.info DiscoveredDevice.candidate].
  unfold is_physical in Hp. apply andb_true_iff in Hp as [Hb Hm]. apply bool_decide_eq_true in Hb, Hm.
  split; [done|]. split; [done|]. split; [done|]. split.
  - intros n Hx. rewrite Hx in Hn. apply bool_decide_eq_true in Hn. done.
  - intros i t -> Ht. rewrite Ht, negb_true_iff, negb_false_iff in Hu. by apply bool_decide_eq_true in Hu.
Qed.

Lemma accept_reply_error c r e : accept_reply c r = Err e -> exists c' m, e = DiscoveryProbeError c' m.
Proof.
  unfold accept_reply. destruct (reply_info r) as [info|]; [|intros [= <-]; eauto].
  destruct (_validate_physical_info c info) as [u|[]]; intros [= <-]; eauto.
Qed.

Section ScanFacts.
Context {W E : Type} `{PL : PortLink W E} `{P : ProbeLink W InfoReply} (now : SerialPortCandidate -> nat -> Z).
Abbreviation world := (W * list port_event)%type.

Lemma logged_probe_request (w : world) version timeout : (probe_request w version timeout).1.2 = w.2.
Proof. unfold probe_request at 1, logged_probe. by destruct (probe_request w.1 version timeout). Qed.

Lemma logged_probe_loop now' versions : forall version deadline i (w : world),
  (probe_loop now' versions version deadline i w).1.1.2 = w.2.
Proof.
  induction versions as [|v versions IH]; intros version deadline i w; cbn [probe_loop];
    (destruct (_ <=? 0); [done|]);
    pose proof (logged_probe_request w version (deadline - now' i)) as Hl;
    destruct (probe_request w version (deadline - now' i)) as [w' [r|[]]]; cbn in Hl; subst; try done.
  rewrite <-Hl. apply IH.
Qed.

(** One candidate: nothing, or an endpoint that is opened and closed. *)
Lemma probe_candidate_step c timeout (w : world) :
  0 < timeout ->
  exists w' tried outcome, probe_candidate now c timeout w = ((w', w.2 ++ bracketed tried), outcome) /\
    (tried = [] \/ tried = [c]) /\
    match outcome with
    | Ok d => tried = [c] /\ DiscoveredDevice.candidate d = c /\ found d
    | Err e => exists c' m, e = DiscoveryProbeError c' m
    end.
Proof.
  intros Ht. unfold probe_candidate, _validate_timeout. rewrite (proj2 (Z.ltb_lt _ _)) by done. cbn [require mbind result_bind].
  destruct w as [w tr]. destruct (_ || _).
  { exists w, [], (Err (DiscoveryProbeError c "candidate VID/PID is not Teensy USB Serial")). cbn. rewrite app_nil_r. eauto 6. }
  change (open_transport c (w, tr)) with (log [Opened c] (open_transport c) (w, tr)). unfold log. cbn [fst snd].
  destruct (open_transport c w) as [w1 [u|e]].
  2: { exists w1, [], (Err (DiscoveryProbeError c "INFO probe failed")). cbn. rewrite app_nil_r. eauto 6. }
  assert (Hs : exists w2 outcome, probe_started now c timeout (w1, tr ++ [Opened c]) = ((w2, tr ++ [Opened c]), outcome) /\
    match outcome with Ok d => DiscoveredDevice.candidate d = c /\ found d | Err e => exists c' m, e = DiscoveryProbeError c' m end).
  { unfold probe_started. change (start_reader (w1, tr ++ [Opened c])) with (log [] start_reader (w1, tr ++ [Opened c])).
    unfold log. cbn [fst snd]. destruct (start_reader w1) as [w2 [u'|e']]; [|by eexists _, _; split; [done|]; eexists _, _]. rewrite app_nil_r.
    pose proof (logged_probe_loop (now c) (InfoNegotiation._versions new_negotiation) (InfoNegotiation.version new_negotiation)
                  (now c 0%nat + timeout) 1 (w2, tr ++ [Opened c])) as Hl.
    unfold probe. destruct (probe_loop _ _ _ _ _ _) as [[[w3 tr3] n] [reply|e']]; cbn in Hl; subst tr3.
    - eexists _, _. split; [done|]. destruct (accept_reply c reply) eqn:Ha; [by eapply accept_reply_found|by eapply accept_reply_error].
    - eexists _, _. split; [done|]. by eexists _, _. }
  destruct Hs as (w2 & outcome & -> & Ho). cbn [fst snd].
  change (close_reader (w2, tr ++ [Opened c])) with
    (let '(w', r) := close_reader w2 in ((w', (tr ++ [Opened c]) ++ [Closed]), r)).
  destruct (close_reader w2) as [w3 r3]. exists w3, [c], outcome. cbn. rewrite <-app_assoc. split; [done|].
  split; [by right|]. by destruct outcome.
Qed.

Lemma probe_all_scan candidates timeout : forall (w : world),
  0 < timeout ->
  exists w' opened devices, probe_all now candidates timeout w = ((w', w.2 ++ bracketed opened), Ok devices) /\
    opened `sublist_of` candidates /\ map DiscoveredDevice.candidate devices `sublist_of` opened /\ Forall found devices.
Proof.
  induction candidates as [|c candidates IH]; intros w Ht.
  { exists w.1, [], []. destruct w. cbn. rewrite app_nil_r. repeat constructor. }
  destruct (probe_candidate_step c timeout w Ht) as (w1 & tried & outcome & Hp & Htried & Ho). cbn [probe_all]. rewrite Hp.
  destruct (IH (w1, w.2 ++ bracketed tried) Ht) as (w' & opened & devices & Hrest & Hsub & Hdev & Hf). cbn [snd] in Hrest.
  assert (Happ : (w.2 ++ bracketed tried) ++ bracketed opened = w.2 ++ bracketed (tried ++ opened))
    by (unfold bracketed; by rewrite flat_map_app, app_assoc).
  assert (Hsub' : tried ++ opened `sublist_of` c :: candidates) by (destruct Htried as [->| ->]; cbn; by constructor).
  rewrite Happ in Hrest. destruct outcome as [d|e].
  - destruct Ho as (-> & Hc & Hd). exists w', ([c] ++ opened), (d :: devices). rewrite Hrest. split; [done|]. split; [done|].
    split; [|by constructor]. cbn. rewrite Hc. by constructor.
  - destruct Ho as (c' & m & ->). exists w', (tried ++ opened), devices. split; [done|]. split; [done|]. split; [|done].
    etrans; [exact Hdev|]. by apply sublist_inserts_l.
Qed.
End ScanFacts.

(** ** Correctness *)

(** C21. A scan, whatever the ports, the endpoints and the devices behind them do.  It returns
    and never raises; each Teensy path is one candidate, in the order of the keys; the
    candidates' endpoints are opened in that order, each one closed before the next is
    opened and before the scan returns; and the devices found are, in the same order,
    some of the candidates opened, each a physical Teensy 4.0 whose INFO agrees with
    its USB serial number. *)
Theorem discover_scan {W E : Type} `{PL : PortLink W E} `{P : ProbeLink W InfoReply}
    (casefold : text -> text) (now : SerialPortCandidate -> nat -> Z) (ports : list PortMetadata) (timeout : Z) (w : W)
    (events : list port_event) (Htimeout : 0 < timeout) :
  exists candidates opened devices w',
    enumerate_candidates casefold ports = Ok candidates /\ enumeration casefold ports candidates /\
    discover casefold now ports timeout (w, events) = ((w', events ++ bracketed opened), Ok devices) /\
    opened `sublist_of` candidates /\ map DiscoveredDevice.candidate devices `sublist_of` opened /\ Forall found devices.
Proof.
  destruct (enumerate_ok casefold ports) as (cs & He & Hen).
  destruct (probe_all_scan now cs timeout (w, events) Htimeout) as (w' & opened & devices & Hp & Hs & Hd & Hf).
  exists cs, opened, devices, w'. split; [done|]. split; [done|]. split; [|done].
  unfold discover, _validate_timeout. rewrite (proj2 (Z.ltb_lt _ _)) by done. cbn [require mbind result_bind]. by rewrite He.
Qed.

(** A bus with two boards, answering by path, and a port that cannot be opened. *)
Definition example_port (path : Z) (serial : text) : PortMetadata :=
  PortMetadata.mk (Some [path]) (Some TEENSY_USB_SERIAL_VID) (Some TEENSY_USB_SERIAL_PID) (Some serial) None None None None None.
Definition example_reply (serial : text) : V3Response :=
  V3Response.mk FrameKind.INFO_RESPONSE 0 1 ResponseStatus.OK ErrorCode.OK (Some (InfoValue (example_info serial))) None.
#[local] Instance example_bus : PortLink text unit := {
  open_transport c := fun w => if bool_decide (SerialPortCandidate.port c = [51]) then (w, Err tt)
                               else (default [] (SerialPortCandidate.serial_number c), Ok tt);
  start_reader := fun w => (w, Ok tt);
  close_reader := fun w => (w, Ok tt)
}.
#[local] Instance example_board : ProbeLink text InfoReply := fun w _ _ => (w, Ok (V3Reply (example_reply w))).

Lemma discover_scan_witness :
  let ports := [example_port 50 [56]; example_port 51 [57]; example_port 52 [55]; example_port 50 [49]] in
  exists candidates opened devices w',
    discover id (fun _ _ => 0) ports 200000 ([], []) = ((w', bracketed opened), Ok devices) /\
    map SerialPortCandidate.port candidates = [[52]; [50]; [51]] /\
    map SerialPortCandidate.port opened = [[52]; [50]] /\ length devices = 2%nat.
Proof.
  intros ports. destruct (discover_scan id (fun _ _ => 0) ports 200000 ([] : text) [] ltac:(lia))
    as (candidates & opened & devices & w' & He & _ & Hd & _).
  exists candidates, opened, devices, w'. split; [exact Hd|].
  assert (Hr : enumerate_candidates id ports = Ok candidates /\
    map SerialPortCandidate.port candidates = [[52]; [50]; [51]]).
  { split; [exact He|]. vm_compute in He. apply Ok_inj in He. subst candidates. reflexivity. }
  split; [apply Hr|].
  assert (Hev : bracketed opened = (discover id (fun _ _ => 0) ports 200000 (([] : text), [])).1.2) by (rewrite Hd; reflexivity).
  assert (Hdv : Ok devices = (discover id (fun _ _ => 0) ports 200000 (([] : text), [])).2) by (rewrite Hd; reflexivity).
  clear - Hev Hdv. vm_compute in Hdv. apply Ok_inj in Hdv. subst devices. split; [|reflexivity]. vm_compute in Hev.
  destruct opened as [|c1 [|c2 [|c3 opened]]]; try discriminate Hev.
  change (bracketed [c1; c2]) with [Opened c1; Closed; Opened c2; Closed] in Hev. injection Hev as -> ->. reflexivity.
Defined.

(** Choosing by serial: for an allowed serial the result is the first of the least
    devices that match, in the order of the candidates' keys, so it depends on nothing
    but this scan; without a match nothing is chosen.  Integers name the INFO serial,
    strings either serial. *)
Theorem select_device_exact (casefold : text -> text) (devices : list DiscoveredDevice) (wanted : HardwareSerial)
    (Hallowed : serial_allowed wanted = true) :
  match select_device casefold devices wanted with
  | Ok d =>
      exists before after, devices = before ++ d :: after /\ _matches_hardware_serial d wanted = true /\
        Forall (fun d' => _matches_hardware_serial d' wanted = true -> device_le casefold d d' = true) devices /\
        Forall (fun d' => _matches_hardware_serial d' wanted = true -> device_le casefold d' d = false) before
  | Err e => e = DeviceNotFoundError /\ Forall (fun d => _matches_hardware_serial d wanted = false) devices
  end.
Proof.
  unfold select_device.
  replace (match wanted with SerialNumber _ => _ | SerialText _ => _ end) with (@Ok discovery_error unit tt)
    by (destruct wanted; cbn in Hallowed; by rewrite Hallowed).
  cbn [mbind result_bind]. set (m := fun d => _matches_hardware_serial d wanted).
  destruct (List.filter m devices) as [|d matches] eqn:Hf.
  - split; [done|]. apply Forall_forall. intros d Hd. apply not_true_iff_false. intros Hm.
    assert (In d []) as []. rewrite <-Hf. apply filter_In. by rewrite <-list_elem_of_In.
  - destruct (min_by_spec (device_le casefold) (fun a b => candidate_le_total casefold _ _)
      (fun a b c => candidate_le_trans casefold _ _ _) matches d) as (before & after & Heq & Hall & Hb).
    set (x := min_by (device_le casefold) d matches) in *. rewrite Heq in Hf.
    assert (Hsplit : exists b a, devices = b ++ x :: a /\ List.filter m b = before /\ m x = true).
    { clear Heq Hall Hb. revert before Hf. induction devices as [|y l IH]; intros before Hf; [by destruct before|].
      cbn in Hf. destruct (m y) eqn:Hy.
      - destruct before as [|z before]; injection Hf as -> Hf; [by exists [], l|].
        destruct (IH before Hf) as (b & a & -> & Hb & Hx). exists (z :: b), a. cbn. by rewrite Hy, Hb.
      - destruct (IH before Hf) as (b & a & -> & Hb & Hx). exists (y :: b), a. cbn. by rewrite Hy, Hb. }
    destruct Hsplit as (b & a & Hd & Hfb & Hx). exists b, a. split; [done|]. split; [done|]. split.
    + apply Forall_forall. intros y Hy Hm. rewrite Heq, <-Hf, Forall_forall in Hall. apply Hall.
      apply list_elem_of_In, filter_In. by rewrite <-list_elem_of_In.
    + apply Forall_forall. intros y Hy Hm. rewrite <-Hfb, Forall_forall in Hb. apply Hb.
      apply list_elem_of_In, filter_In. by rewrite <-list_elem_of_In.
Qed.

(** Two paths of one board and another board. *)
Lemma select_device_exact_witness :
  let device path serial := DiscoveredDevice.mk
    (SerialPortCandidate.mk [path] TEENSY_USB_SERIAL_VID TEENSY_USB_SERIAL_PID (Some serial) None None None None None)
    (ModernInfo (example_info serial)) in
  let devices := [device 52 [48; 55]; device 50 [56]; device 51 [48; 55]] in
  exists d, select_device id devices (SerialText [55]) = Ok d /\ SerialPortCandidate.port (DiscoveredDevice.candidate d) = [51] /\
    exists before after, devices = before ++ d :: after /\ _matches_hardware_serial d (SerialText [55]) = true.
Proof.
  intros device devices. pose proof (select_device_exact id devices (SerialText [55]) eq_refl) as H.
  eexists. split; [reflexivity|]. split; [reflexivity|].
  destruct H as (before & after & Hd & Hm & _). exists before, after. split; [exact Hd|exact Hm].
Defined.
