(* ===== verification/Diagnostics.v ===== *)
(** * Firmware diagnostics on v3 STATUS snapshots ([diagnostics.py]).

    The typed list of nonzero faults and the conservation equations of one snapshot.
    The branches for the [Status] of protocols 1 and 2 are not modelled. *)

From S2P Require Import Prelude Checksum V3Constants V3Header V3Samples ModelsV3 Profiles Validator.

(** ** Data *)

Inductive EquationState := PASS | FAIL | SATURATED.
#[export] Instance EquationState_eq_dec : EqDecision EquationState.
Proof. solve_decision. Defined.

Module CounterEquation.
Record CounterEquation := mk {
  counter : string;
  expression : string;
  actual : Z;
  expected : Z;
  unit : string;
  relation : string;
  state : EquationState
}.
End CounterEquation.
Abbreviation CounterEquation := CounterEquation.CounterEquation.

Module FirmwareFault.
Record FirmwareFault := mk { counter : string; value : Z; unit : string; category : string }.
End FirmwareFault.
Abbreviation FirmwareFault := FirmwareFault.FirmwareFault.

(** The generation of a v3 snapshot is absent. *)
Module FirmwareFaultSnapshot.
Record FirmwareFaultSnapshot := mk { run_id : Z; stats_generation : option Z; faults : list FirmwareFault }.
End FirmwareFaultSnapshot.
Abbreviation FirmwareFaultSnapshot := FirmwareFaultSnapshot.FirmwareFaultSnapshot.

Module RunCounterReconciliation.
Record RunCounterReconciliation := mk {
  run_id : Z;
  stats_generation : option Z;
  equations : list CounterEquation;
  fault_snapshot : FirmwareFaultSnapshot
}.
End RunCounterReconciliation.
Abbreviation RunCounterReconciliation := RunCounterReconciliation.RunCounterReconciliation.

Inductive diagnostics_error :=
| DiagnosticsValueError (message : string)
| CounterReconciliationError (e : CounterEquation).

Abbreviation diagnosed := (result diagnostics_error).

(** ** Reports *)

Definition exact_equation (e : CounterEquation) : bool := bool_decide (CounterEquation.state e = PASS).
Definition inconsistent_equation (e : CounterEquation) : bool := bool_decide (CounterEquation.state e = FAIL).
Definition difference (e : CounterEquation) : Z := CounterEquation.actual e - CounterEquation.expected e.

(** [FirmwareFaultSnapshot.clear] and [first_fault] *)
Definition clear (s : FirmwareFaultSnapshot) : bool := match FirmwareFaultSnapshot.faults s with [] => true | _ => false end.
Definition first_fault (s : FirmwareFaultSnapshot) : option FirmwareFault := head (FirmwareFaultSnapshot.faults s).

(** The properties of [RunCounterReconciliation], and [require_exact]. *)
Definition exact (r : RunCounterReconciliation) : bool := forallb exact_equation (RunCounterReconciliation.equations r).
Definition first_inconsistent_counter (r : RunCounterReconciliation) : option string :=
  CounterEquation.counter <$> List.find inconsistent_equation (RunCounterReconciliation.equations r).
Definition first_indeterminate_counter (r : RunCounterReconciliation) : option string :=
  CounterEquation.counter <$>
    List.find (fun e => bool_decide (CounterEquation.state e = SATURATED)) (RunCounterReconciliation.equations r).
Definition first_nonexact_equation (r : RunCounterReconciliation) : option CounterEquation :=
  List.find (fun e => negb (exact_equation e)) (RunCounterReconciliation.equations r).
Definition require_exact (r : RunCounterReconciliation) : diagnosed Datatypes.unit :=
  match first_nonexact_equation r with None => Ok tt | Some e => Err (CounterReconciliationError e) end.

(** ** The attributes of a v3 status *)

(** The field names of [V3Status] after the three of [V3Stop]. *)
Definition COUNT_NAMES : list string :=
  ["adc_frames_produced"; "adc_frames_dropped"; "adc_items_produced"; "adc_items_dropped";
   "gpio_frames_produced"; "gpio_frames_dropped"; "gpio_items_produced"; "gpio_items_dropped"].
Definition DIAGNOSTIC_NAMES : list string :=
  ["adc_codec_completed"; "adc_codec_raw"; "adc_codec_deadline_drops"; "adc_codec_resource_drops"; 
   "adc_codec_work_ticks"; "adc_codec_max_work_ticks"; "adc_codec_max_age_ticks"; 
   "gpio_codec_completed"; "gpio_codec_raw"; "gpio_codec_deadline_drops"; "gpio_codec_resource_drops"; 
   "gpio_codec_work_ticks"; "gpio_codec_max_work_ticks"; "gpio_codec_max_age_ticks"; 
   "adc_wire_bytes_transmitted"; "adc_items_per_frame"; "adc_max_frame_bytes"; "adc_retention_ticks"; 
   "gpio_wire_bytes_transmitted"; "gpio_items_per_frame"; "gpio_max_frame_bytes"; 
   "gpio_retention_ticks"; "adc_logical_bytes_transmitted"; "adc_encoded_bytes_transmitted"; 
   "gpio_logical_bytes_transmitted"; "gpio_encoded_bytes_transmitted"; "parser_errors"; 
   "transport_errors"; "packet_ready_high_water"; "packet_transmit_high_water"; "adc_dma_error_events"; 
   "adc_etc_error_events"; "gpio_hardware_errors"; "adc_raw_invariant_errors"; 
   "gpio_raw_invariant_errors"; "packet_invalid_operations"; "packet_encoding_rejections"].

(** The value at a name's position. *)
Fixpoint named {A} (names : list string) (values : list A) (name : string) : option A :=
  match names, values with
  | n :: names, v :: values => if bool_decide (n = name) then Some v else named names values name
  | _, _ => None
  end.

(** [getattr(status, name, None)] *)
Definition attribute (s : V3Status) (name : string) : option Z :=
  let stop := V3Status.stop s in
  if bool_decide (name = "run_id") then Some (V3Stop.run_id stop)
  else if bool_decide (name = "state") then Some (int_of (V3Stop.state stop))
  else if bool_decide (name = "pending_frames") then Some (V3Stop.pending_frames stop)
  else match named COUNT_NAMES (V3Status.counts s) name with
       | Some v => Some v
       | None => default None (named DIAGNOSTIC_NAMES (V3Status.diagnostics s) name)
       end.

(** ** Faults *)

Definition _FAULT_FIELDS : list (string * string * string) :=
  [("adc_items_dropped", "ADC pairs", "loss");
   ("gpio_items_dropped", "GPIO sample instants", "loss");
   ("adc_frames_dropped", "ADC frames", "loss");
   ("gpio_frames_dropped", "GPIO frames", "loss");
   ("adc_raw_pairs_lost", "ADC pairs", "dma");
   ("adc_stop_pairs_discarded", "ADC pairs", "stop");
   ("adc_incomplete_conversions", "conversion results", "adc");
   ("adc_overwritten_conversions", "conversion results", "adc");
   ("adc_raw_ring_overruns", "DMA major loops", "dma");
   ("adc_incomplete_buffers", "DMA buffers", "dma");
   ("gpio_raw_samples_lost", "GPIO sample instants", "dma");
   ("gpio_packer_samples_dropped", "GPIO sample instants", "packer");
   ("gpio_raw_ring_overruns", "DMA major loops", "dma");
   ("gpio_stop_samples_discarded", "GPIO sample instants", "stop");
   ("gpio_duplicate_samples_ignored", "GPIO sample instants", "timing");
   ("packet_pool_exhaustions", "events", "packet");
   ("packet_pressure_evictions", "frames", "packet");
   ("packet_capacity_drops_without_evictable_frame", "frames", "packet");
   ("adc_frames_dropped_after_framing", "ADC frames", "packet");
   ("adc_frames_dropped_after_promotion", "ADC frames", "packet");
   ("gpio_frames_dropped_after_framing", "GPIO frames", "packet");
   ("gpio_frames_dropped_after_promotion", "GPIO frames", "packet");
   ("adc_initialization_error_flags", "bit flags", "adc");
   ("adc_etc_error_events", "events", "adc");
   ("adc_etc_error_flags", "bit flags", "adc");
   ("adc_dma_error_events", "events", "dma");
   ("adc_completion_mismatches", "events", "adc");
   ("adc_destination_mismatches", "events", "dma");
   ("adc_raw_invariant_errors", "events", "ownership");
   ("adc_packer_source_errors", "events", "ownership");
   ("adc_packer_pipeline_errors", "events", "packet");
   ("adc_packer_chronology_errors", "events", "timing");
   ("adc_schedule_exhaustions", "events", "dma");
   ("adc_stale_completions", "events", "dma");
   ("adc_stale_interrupts", "interrupts", "dma");
   ("adc_resource_conflicts", "events", "resource");
   ("adc_start_errors", "events", "lifecycle");
   ("adc_stop_errors", "events", "lifecycle");
   ("gpio_hardware_errors", "events", "dma");
   ("gpio_raw_invariant_errors", "events", "ownership");
   ("gpio_packer_source_errors", "events", "ownership");
   ("gpio_packer_pipeline_errors", "events", "packet");
   ("gpio_packer_chronology_errors", "events", "timing");
   ("gpio_resource_conflicts", "events", "resource");
   ("gpio_start_errors", "events", "lifecycle");
   ("gpio_stop_errors", "events", "lifecycle");
   ("gpio_stale_dma_completions", "events", "dma");
   ("packet_invalid_operations", "events", "packet");
   ("packet_encoding_rejections", "frames", "packet");
   ("packet_ready_queue_rejections", "frames", "queue");
   ("packet_transmit_queue_rejections", "frames", "queue");
   ("parser_errors", "candidates", "parser");
   ("bad_checksums", "candidates", "parser");
   ("bad_lengths", "candidates", "parser");
   ("bad_types", "candidates", "parser");
   ("bad_versions", "candidates", "parser");
   ("bad_flags", "candidates", "parser");
   ("bad_payloads", "candidates", "parser");
   ("bad_request_ids", "requests", "parser");
   ("state_errors", "commands", "command");
   ("response_queue_rejections", "responses", "response");
   ("response_reservations_abandoned", "responses", "response");
   ("timeouts", "events", "usb");
   ("partial_usb_writes", "writes", "usb");
   ("usb_rx_stall_events", "events", "usb");
   ("usb_tx_stall_events", "events", "usb");
   ("usb_io_errors", "events", "usb");
   ("transport_errors", "events", "usb")].

Definition codec_faults : list (string * string * string) :=
  [("adc_codec_deadline_drops", "frames", "codec"); ("adc_codec_resource_drops", "frames", "codec");
   ("gpio_codec_deadline_drops", "frames", "codec"); ("gpio_codec_resource_drops", "frames", "codec")].

(** The fault of one field, when the snapshot has a nonzero value for it. *)
Definition fault_of (s : V3Status) (field : string * string * string) : option FirmwareFault :=
  let '(counter, unit, category) := field in
  match attribute s counter with
  | Some v => if v =? 0 then None else Some (FirmwareFault.mk counter v unit category)
  | None => None
  end.

(** [snapshot_firmware_faults] on a v3 status *)
Definition snapshot_firmware_faults (s : V3Status) (run_id : Z) : diagnosed FirmwareFaultSnapshot :=
  let run := V3Stop.run_id (V3Status.stop s) in
  _ ← require ((0 <=? run_id) && (run_id <=? UINT32_MAX)) (DiagnosticsValueError "run_id must fit uint32");
  _ ← require ((run_id =? 0) || (run_id =? run)) (DiagnosticsValueError "run_id differs from V3Status");
  Ok (FirmwareFaultSnapshot.mk run None (omap (fault_of s) (_FAULT_FIELDS ++ codec_faults))).

(** ** Conservation equations *)

(** [_saturated] on a v3 status *)
Definition _saturated (s : V3Status) (fields : list string) : bool :=
  existsb (fun name => bool_decide (attribute s name = Some UINT64_MAX)) fields.

(** [_equation] with the relation [<=] *)
Definition _equation (s : V3Status) (counter expression : string) (actual expected : Z) (unit : string)
    (fields : list string) : CounterEquation :=
  CounterEquation.mk counter expression actual expected unit "<="
    (if _saturated s fields then SATURATED else if actual <=? expected then PASS else FAIL).

(** One produced/dropped pair of the loop over streams and quantities. *)
Definition pair_equation (s : V3Status) (dropped produced expression unit : string) (d p : nat) : CounterEquation :=
  _equation s dropped expression (status_count s d) (status_count s p) unit [dropped; produced].

(** [reconcile_run_counters] on a v3 status *)
Definition reconcile_run_counters (s : V3Status) (run_id : Z) : diagnosed RunCounterReconciliation :=
  faults ← snapshot_firmware_faults s run_id;
  Ok (RunCounterReconciliation.mk (V3Stop.run_id (V3Status.stop s)) None
    [pair_equation s "adc_frames_dropped" "adc_frames_produced" "adc_frames_dropped <= adc_frames_produced" "frames" 1 0;
     pair_equation s "adc_items_dropped" "adc_items_produced" "adc_items_dropped <= adc_items_produced" "ADC pairs" 3 2;
     pair_equation s "gpio_frames_dropped" "gpio_frames_produced" "gpio_frames_dropped <= gpio_frames_produced" "frames" 5 4;
     pair_equation s "gpio_items_dropped" "gpio_items_produced" "gpio_items_dropped <= gpio_items_produced"
       "GPIO sample instants" 7 6;
     _equation s "pending_frames" "pending_frames <= produced frames - dropped frames"
       (V3Stop.pending_frames (V3Status.stop s))
       (status_count s 0 + status_count s 4 - status_count s 1 - status_count s 5) "frames"
       ["adc_frames_produced"; "gpio_frames_produced"; "adc_frames_dropped"; "gpio_frames_dropped"]]
    faults).

(** ** What a report says *)

(** A status as the device can send it: eight counters of 64 bits, drops within the
    produced counts, and one entry for each diagnostic. *)
Definition well_counted (s : V3Status) : Prop :=
  exists ap ad ip id gp gd jp jd,
    V3Status.counts s = [ap; ad; ip; id; gp; gd; jp; jd] /\ length (V3Status.diagnostics s) = 37%nat /\
    0 <= ad <= ap /\ 0 <= id <= ip /\ 0 <= gd <= gp /\ 0 <= jd <= jp.

Lemma status_well_counted s b : status_to_payload s = Ok b -> status_valid s -> well_counted s.
Proof.
  unfold status_to_payload. intros H [Hc Hd]. apply bind_Ok_inv in H as (p & _ & H).
  apply require_bind in H as [Hok _]. destruct s as [st cs ds]. cbn in *.
  destruct cs as [|ap [|ad [|ip [|id [|gp [|gd [|jp [|jd [|]]]]]]]]]; try done.
  exists ap, ad, ip, id, gp, gd, jp, jd. split; [done|]. split; [done|]. cbn in Hok.
  rewrite !andb_true_iff, !Z.leb_le in Hok. lia.
Qed.

Lemma find_forall {A} (f : A -> bool) l : List.find f l = None <-> Forall (fun x => f x = false) l.
Proof.
  induction l as [|x l IH]; cbn; [done|]. rewrite Forall_cons, <-IH. destruct (f x); [by split; [|intros [? _]]|]. tauto.
Qed.

(** Faults: one for each named field that has a nonzero value, in the order of the names. *)
Lemma faults_exact s run_id fs :
  snapshot_firmware_faults s run_id = Ok fs ->
  (forall counter unit category v, FirmwareFault.mk counter v unit category ∈ FirmwareFaultSnapshot.faults fs <->
     (counter, unit, category) ∈ _FAULT_FIELDS ++ codec_faults /\ attribute s counter = Some v /\ v <> 0) /\
  (clear fs = true <-> Forall (fun field => attribute s field.1.1 = None \/ attribute s field.1.1 = Some 0) (_FAULT_FIELDS ++ codec_faults)).
Proof.
  unfold snapshot_firmware_faults. rewrite !require_bind. intros (_ & _ & H). apply Ok_inj in H. subst fs.
  cbn [FirmwareFaultSnapshot.faults clear]. split.
  - intros counter unit category v. rewrite list_elem_of_omap. split.
    + intros ([[c u] g] & Hin & Hf). unfold fault_of in Hf. destruct (attribute s c) as [w|] eqn:Ha; [|done].
      destruct (Z.eqb_spec w 0); [done|]. injection Hf as -> -> -> ->. done.
    + intros (Hin & Ha & Hv). exists (counter, unit, category). split; [done|]. unfold fault_of. rewrite Ha.
      by rewrite (proj2 (Z.eqb_neq _ _)).
  - generalize (_FAULT_FIELDS ++ codec_faults). intros l. unfold clear. cbn [FirmwareFaultSnapshot.faults].
    induction l as [|[[c u] g] l IH]; [done|]. rewrite Forall_cons, <-IH. cbn [omap list_omap fst]. unfold fault_of at 1.
    destruct (attribute s c) as [w|]; [|tauto]. destruct (Z.eqb_spec w 0) as [->|Hw]; [tauto|].
    split; [done|]. intros [[?|[= ?]] _]; done.
Qed.

(** The attributes the equations read. *)
Lemma count_attributes s ap ad ip id gp gd jp jd :
  V3Status.counts s = [ap; ad; ip; id; gp; gd; jp; jd] ->
  attribute s "adc_frames_produced" = Some ap /\ attribute s "adc_frames_dropped" = Some ad /\
  attribute s "adc_items_produced" = Some ip /\ attribute s "adc_items_dropped" = Some id /\
  attribute s "gpio_frames_produced" = Some gp /\ attribute s "gpio_frames_dropped" = Some gd /\
  attribute s "gpio_items_produced" = Some jp /\ attribute s "gpio_items_dropped" = Some jd.
Proof. unfold attribute. by intros ->. Qed.

Lemma saturated_iff s fields values :
  Forall2 (fun name v => attribute s name = Some v) fields values ->
  _saturated s fields = false <-> Forall (fun v => v <> UINT64_MAX) values.
Proof.
  induction 1 as [|name v fields values Ha _ IH]; [done|]. cbn [_saturated existsb]. rewrite orb_false_iff, Forall_cons, Ha.
  unfold _saturated in IH. rewrite IH. case_bool_decide as Hv; split; intros [Hn ?]; split; congruence.
Qed.

(** An equation never fails when it holds, and passes when moreover no operand is
    saturated. *)
Lemma equation_state s counter expression actual expected unit fields values :
  Forall2 (fun name v => attribute s name = Some v) fields values ->
  let e := _equation s counter expression actual expected unit fields in
  (exact_equation e = true <-> Forall (fun v => v <> UINT64_MAX) values /\ actual <= expected) /\
  (actual <= expected -> inconsistent_equation e = false).
Proof.
  intros Hv e. unfold e, exact_equation, inconsistent_equation, _equation. cbn [CounterEquation.state].
  rewrite <-(saturated_iff s fields values Hv). destruct (_saturated s fields), (Z.leb_spec actual expected); cbn;
    (split; [split; [intros H'; split; try done; try lia|intros [? ?]; try done; try lia]|intros ?; try done; try lia]).
Qed.

(** The facts of the equation that the context names [e]. *)
Ltac equation_facts e values X I :=
  match eval unfold e in e with
  | _equation ?s ?c ?x ?a ?b ?u ?f =>
      destruct (equation_state s c x a b u f values ltac:(repeat constructor; done)) as [X I]; fold e in X, I
  end.

Lemma require_exact_iff r : require_exact r = Ok tt <-> exact r = true.
Proof.
  unfold require_exact, first_nonexact_equation, exact. generalize (RunCounterReconciliation.equations r). intros l.
  destruct (List.find _ l) eqn:He.
  - apply find_some in He as [Hin Hn]. split; [done|]. rewrite forallb_forall. intros Hall. by rewrite (Hall _ Hin) in Hn.
  - split; [intros _|done]. apply forallb_forall. intros x Hx. apply find_forall in He. rewrite Forall_forall in He.
    apply negb_false_iff, He. by apply list_elem_of_In.
Qed.

(** The equations of a snapshot that the device can send.  The four drop equations can
    not fail, so the only inconsistent counter there can be is the number of pending
    frames; the report is exact precisely when no counter is saturated and the pending
    frames are among those produced and not dropped; and the fault list is empty
    precisely when every fault field is absent or zero, and otherwise names each one. *)
Theorem reconciliation_exact (s : V3Status) (payload : bytes) (run_id : Z)
    (Hsent : status_to_payload s = Ok payload) (Hvalid : status_valid s)
    (Hrun : (0 <= run_id <= UINT32_MAX) /\ (run_id = 0 \/ run_id = V3Stop.run_id (V3Status.stop s))) :
  let pending := V3Stop.pending_frames (V3Status.stop s) in
  let available := status_count s 0 + status_count s 4 - status_count s 1 - status_count s 5 in
  exists r, reconcile_run_counters s run_id = Ok r /\
    (first_inconsistent_counter r = None \/ first_inconsistent_counter r = Some "pending_frames"%string) /\
    (require_exact r = Ok tt <-> Forall (fun count => count <> UINT64_MAX) (V3Status.counts s) /\ pending <= available) /\
    (require_exact r = Ok tt <-> exact r = true) /\
    (forall counter unit category v,
       FirmwareFault.mk counter v unit category ∈ FirmwareFaultSnapshot.faults (RunCounterReconciliation.fault_snapshot r) <->
       (counter, unit, category) ∈ _FAULT_FIELDS ++ codec_faults /\ attribute s counter = Some v /\ v <> 0) /\
    (clear (RunCounterReconciliation.fault_snapshot r) = true <->
       Forall (fun field => attribute s field.1.1 = None \/ attribute s field.1.1 = Some 0) (_FAULT_FIELDS ++ codec_faults)).
Proof.
  intros pending available. destruct Hrun as [Hrange Heq].
  assert (Hf : exists fs, snapshot_firmware_faults s run_id = Ok fs).
  { unfold snapshot_firmware_faults.
    assert (Hb1 : (0 <=? run_id) && (run_id <=? UINT32_MAX) = true) by (apply andb_true_iff; rewrite !Z.leb_le; lia).
    assert (Hb2 : (run_id =? 0) || (run_id =? V3Stop.run_id (V3Status.stop s)) = true) by (apply orb_true_iff; rewrite !Z.eqb_eq; lia).
    rewrite Hb1, Hb2. by eexists. }
  destruct Hf as [fs Hfs]. destruct (faults_exact s run_id fs Hfs) as [Hfaults Hclear].
  unfold reconcile_run_counters. rewrite Hfs. cbn [mbind result_bind]. eexists. split; [done|].
  cbn [RunCounterReconciliation.fault_snapshot]. rewrite require_exact_iff.
  destruct (status_well_counted s payload Hsent Hvalid) as (ap & ad & ip & id & gp & gd & jp & jd & Hc & _ & H1 & H2 & H3 & H4).
  destruct (count_attributes s _ _ _ _ _ _ _ _ Hc) as (A1 & A2 & A3 & A4 & A5 & A6 & A7 & A8).
  unfold available, pair_equation, status_count. rewrite Hc. cbn [lookup list_lookup default]. unfold Datatypes.id.
  match goal with |- context [[?a; ?b; ?c; ?d; ?e]] => set (e1 := a); set (e2 := b); set (e3 := c); set (e4 := d); set (e5 := e) end.
  equation_facts e1 [ad; ap] X1 I1. equation_facts e2 [id; ip] X2 I2. equation_facts e3 [gd; gp] X3 I3.
  equation_facts e4 [jd; jp] X4 I4. equation_facts e5 [ap; gp; ad; gd] X5 I5.
  split; [|split; [|by split]].
  - unfold first_inconsistent_counter. cbn [RunCounterReconciliation.equations List.find].
    rewrite I1, I2, I3, I4 by lia. destruct (inconsistent_equation e5); [by right|by left].
  - unfold exact. cbn [RunCounterReconciliation.equations forallb]. rewrite !andb_true_iff, X1, X2, X3, X4, X5.
    rewrite !Forall_cons. intuition lia.
Qed.

(** A STOPPED device that lost one frame, without diagnostics. *)
Definition example_status (pending : Z) : V3Status :=
  V3Status.mk (V3Stop.mk (if pending =? 0 then DeviceState.STOPPED else DeviceState.DRAINING) 1 pending)
    [10; 1; 5000; 500; 0; 0; 0; 0] (replicate 37 None).

Lemma reconciliation_exact_witness :
  exists p0 p10 r0 r10,
    status_to_payload (example_status 0) = Ok p0 /\ status_to_payload (example_status 10) = Ok p10 /\
    reconcile_run_counters (example_status 0) 1 = Ok r0 /\ reconcile_run_counters (example_status 10) 0 = Ok r10 /\
    require_exact r0 = Ok tt /\ require_exact r10 <> Ok tt /\
    clear (RunCounterReconciliation.fault_snapshot r0) = false.
Proof.
  eexists _, _.
  assert (H0 : status_to_payload (example_status 0) = Ok _) by (vm_compute; reflexivity).
  assert (H10 : status_to_payload (example_status 10) = Ok _) by (vm_compute; reflexivity).
  destruct (reconciliation_exact (example_status 0) _ 1 H0 ltac:(split; reflexivity) ltac:(vm_compute; intuition congruence))
    as (r0 & R0 & _ & E0 & _ & _ & C0).
  destruct (reconciliation_exact (example_status 10) _ 0 H10 ltac:(split; reflexivity) ltac:(vm_compute; intuition congruence))
    as (r10 & R10 & _ & E10 & _).
  exists r0, r10. split; [exact H0|]. split; [exact H10|]. split; [exact R0|]. split; [exact R10|].
  split; [apply E0; split; [repeat constructor; discriminate|vm_compute; congruence]|].
  split; [intros H; apply E10 in H as [_ H]; vm_compute in H; congruence|].
  apply not_true_iff_false. rewrite C0. intros H. apply Forall_cons in H as [H _]. vm_compute in H. destruct H; discriminate.
Defined.
