(* ===== verification/Client.v ===== *)
(** * The client ([client.py], [ThingDAQ]) of a protocol-v3 device.

    Identity checks, synchronization, adoption of a running device, configuration,
    acquisition, health checks and shutdown: the state of [V3Session] and of the stream
    bookkeeping ([ClientStream]) carried by one object, over the reader as an interface
    ([ReaderLink]).  A question to the reader may find its thread one step further, so
    each one returns the link it leaves: the theorems hold whatever the thread and the
    device do between two statements.  A device that negotiates version 1 or 2 leaves
    the modelled part ([OlderProtocol]).  The evidence attached to errors, and sleeping,
    are left out. *)

From S2P Require Import Prelude Effects Checksum V3Constants V3Header V3Samples ModelsV3 Profiles Losses Blocks Continuity StreamQueues Reader Validator ClientStream Session Identity Discovery Diagnostics.

(** ** Choosing what to open *)

(** The [device] of [open]: a byte transport, a discovered device, a candidate, a port
    path, or none, with what a scan found. *)
Inductive OpenTarget :=
| OpenTransport
| OpenDevice (d : DiscoveredDevice)
| OpenCandidate (c : SerialPortCandidate)
| OpenPort (port : text)
| OpenScanned (devices : list DiscoveredDevice).

Inductive open_error :=
| OpenValueError (message : string)
| OpenDiscovery (e : discovery_error)
| MultipleDevicesFoundError
| OpenIdentityMismatch (message : string)
| OpenIdentityError (e : identity_error).

(** What is opened and what it must turn out to be. *)
Module Opening.
Record Opening := mk {
  port : option text;
  expected : option ExpectedDeviceIdentity;
  reopened : option DeviceIdentitySnapshot;
  usb_serial : option text
}.
End Opening.
Abbreviation Opening := Opening.Opening.

Definition of_identified {A} (m : identified A) : result open_error A :=
  match m with Ok a => Ok a | Err e => Err (OpenIdentityError e) end.

(** [_decimal_hardware_serial] *)
Definition _decimal_hardware_serial (value : option text) : option Z :=
  match value with
  | Some t => if ascii_decimal t && (int_of_text t <=? UINT32_MAX) then Some (int_of_text t) else None
  | None => None
  end.

(** The choice among the devices of a scan. *)
Definition choose_device (casefold : text -> text) (hardware_serial : option HardwareSerial) (devices : list DiscoveredDevice) :
    result open_error DiscoveredDevice :=
  match hardware_serial with
  | Some serial => match select_device casefold devices serial with Ok d => Ok d | Err e => Err (OpenDiscovery e) end
  | None =>
      match devices with
      | [] => Err (OpenDiscovery DeviceNotFoundError)
      | [d] => Ok d
      | _ => Err MultipleDevicesFoundError
      end
  end.

(** [replace(expected_identity or ExpectedDeviceIdentity(), hardware_serial=serial)], unless
    the caller pinned another serial. *)
Definition pin_serial (expected : option ExpectedDeviceIdentity) (serial : HardwareSerial) :
    result open_error ExpectedDeviceIdentity :=
  let '(ExpectedDeviceIdentity.mk pinned firmware build board mcu protocol) :=
    default (ExpectedDeviceIdentity.mk None None None None None None) expected in
  _ ← require (match pinned with Some s => bool_decide (s = serial) | None => true end)
        (OpenIdentityMismatch "selected hardware serial conflicts with expected_identity");
  of_identified (new_expected (ExpectedDeviceIdentity.mk (Some serial) firmware build board mcu protocol)).

(** A discovered device: its serial is pinned and its snapshot must come back. *)
Definition opening_of_device (expected : option ExpectedDeviceIdentity) (d : DiscoveredDevice) : result open_error Opening :=
  serial ← of_identified (device_serial d);
  snapshot ← of_identified (snapshot_from_info (DiscoveredDevice.info d));
  expected ← pin_serial expected serial;
  let c := DiscoveredDevice.candidate d in
  Ok (Opening.mk (Some (SerialPortCandidate.port c)) (Some expected) (Some snapshot) (SerialPortCandidate.serial_number c)).

(** [open] up to the transport. *)
Definition resolve_target (casefold : text -> text) (target : OpenTarget) (hardware_serial : option HardwareSerial)
    (expected : option ExpectedDeviceIdentity) : result open_error Opening :=
  match target with
  | OpenScanned devices =>
      d ← choose_device casefold hardware_serial devices;
      opening_of_device expected d
  | _ =>
      _ ← require (bool_decide (hardware_serial = None)) (OpenValueError "pass either device or hardware_serial, not both");
      match target with
      | OpenDevice d => opening_of_device expected d
      | OpenCandidate c =>
          expected ← match _decimal_hardware_serial (SerialPortCandidate.serial_number c) with
                     | Some n => e ← pin_serial expected (SerialNumber n); Ok (Some e)
                     | None => Ok expected
                     end;
          Ok (Opening.mk (Some (SerialPortCandidate.port c)) expected None (SerialPortCandidate.serial_number c))
      | OpenPort port => Ok (Opening.mk (Some port) expected None None)
      | _ => Ok (Opening.mk None expected None None)
      end
  end.

(** ** The reader as the client sees it *)

Module HostCounters.
Record HostCounters := mk {
  parser_corruption_events : Z;
  parser_resynchronizations : Z;
  host_block_queue_drops : Z;
  host_event_queue_drops : Z;
  stale_blocks_discarded : Z;
  boundary_blocks_discarded : Z;
  late_responses : Z;
  request_timeouts : Z;
  protocol_failures : Z;
  disconnects : Z;
  adc_block_queue_drops : Z;
  gpio_block_queue_drops : Z;
  adc_item_queue_drops : Z;
  gpio_item_queue_drops : Z;
  loss_report_queue_drops : Z
}.
End HostCounters.
Abbreviation HostCounters := HostCounters.HostCounters.

(** [HostCounters()] *)
Definition no_host_counters : HostCounters := HostCounters.mk 0 0 0 0 0 0 0 0 0 0 0 0 0 0 0.

(** The exceptions of [get_stream_item]. *)
Inductive wait_error :=
| QueueWaitTimeoutError
| StreamStoppedError
| WaitRaised (e : reader_error).

Class ReaderLink (L : Type) := {
  reader_commands :: CommandLink L;
  reader_probe :: ProbeLink L InfoReply;
  reader_start : L -> L * result reader_error unit;
  is_running : L -> L * bool;
  terminal_error : L -> L * option reader_error;
  transport_is_open : L -> L * bool;
  active_run_id : L -> L * Z;
  get_stream_item : Z -> L -> L * result wait_error stream_item;
  adopt_run : Z -> V3Settings -> L -> L * result reader_error unit;
  host_counters : L -> L * HostCounters;
  shut_reader : L -> L * result reader_error unit;
  close_transport : L -> L * unit
}.

(** ** State *)

Inductive SessionRecoveryPolicy := ADOPT | STOP.
#[export] Instance SessionRecoveryPolicy_eq_dec : EqDecision SessionRecoveryPolicy.
Proof. solve_decision. Defined.

(** What the constructor is told. *)
Module ClientOptions.
Record ClientOptions := mk {
  strict : bool;
  command_timeout : Z;
  block_timeout : Z;
  expected_identity : option ExpectedDeviceIdentity;
  reopened_identity : option DeviceIdentitySnapshot;
  expected_usb_serial : option text;
  session_policy : SessionRecoveryPolicy
}.
End ClientOptions.
Abbreviation ClientOptions := ClientOptions.ClientOptions.

(** The baselines of the host's own loss counters. *)
Module Baselines.
Record Baselines := mk {
  _host_loss_baseline : HostCounters;
  _stream_host_drop_baseline : Z;
  _stream_loss_report_drop_baseline : Z
}.
End Baselines.
Abbreviation Baselines := Baselines.Baselines.

Module ThingDAQ.
Record ThingDAQ := mk {
  options : ClientOptions;
  _v3 : option V3Session;
  stream : ClientStream;
  _negotiation : InfoNegotiation;
  _verified_identity : option DeviceIdentitySnapshot;
  _session_policy_applied : bool;
  baselines : Baselines;
  _closed : bool
}.
End ThingDAQ.
Abbreviation ThingDAQ := ThingDAQ.ThingDAQ.

Definition set_session (s : V3Session) (d : ThingDAQ) : ThingDAQ :=
  let '(ThingDAQ.mk o _ c n i p b x) := d in ThingDAQ.mk o (Some s) c n i p b x.
Definition set_stream (c : ClientStream) (d : ThingDAQ) : ThingDAQ :=
  let '(ThingDAQ.mk o s _ n i p b x) := d in ThingDAQ.mk o s c n i p b x.
Definition set_negotiation (n : InfoNegotiation) (d : ThingDAQ) : ThingDAQ :=
  let '(ThingDAQ.mk o s c _ i p b x) := d in ThingDAQ.mk o s c n i p b x.
Definition set_verified (i : DeviceIdentitySnapshot) (d : ThingDAQ) : ThingDAQ :=
  let '(ThingDAQ.mk o s c n _ p b x) := d in ThingDAQ.mk o s c n (Some i) p b x.
Definition set_policy_applied (d : ThingDAQ) : ThingDAQ :=
  let '(ThingDAQ.mk o s c n i _ b x) := d in ThingDAQ.mk o s c n i true b x.
Definition set_baselines (b : Baselines) (d : ThingDAQ) : ThingDAQ :=
  let '(ThingDAQ.mk o s c n i p _ x) := d in ThingDAQ.mk o s c n i p b x.
Definition set_closed (d : ThingDAQ) : ThingDAQ :=
  let '(ThingDAQ.mk o s c n i p b _) := d in ThingDAQ.mk o s c n i p b true.
Definition on_stream (f : ClientStream -> ClientStream) (d : ThingDAQ) : ThingDAQ := set_stream (f (ThingDAQ.stream d)) d.

(** [__init__] after its argument checks, before [self._reader.start()]. *)
Definition new_client (o : ClientOptions) : ThingDAQ :=
  ThingDAQ.mk o None
    (ClientStream.mk (ClientOptions.strict o) None 0 None None None None None [] None (Observed.mk 0 0 0 0 []) 0)
    new_negotiation None false (Baselines.mk no_host_counters 0 0) false.

#[warnings="-register-all"]
Inductive daq_error :=
| DAQClosedError (message : string)
| ReaderRaisedError (e : reader_error)
| SessionRaised (e : session_error)
| InfoRejected (error_code : Z)
| IdentityMismatch (message : string)
| DeviceSynchronizationError
| DAQStateError (operation : string) (state : option V1DeviceState.DeviceState)
| DeviceCapabilityError (e : v3_error)
| BlockTimeout
| UnexpectedMessage (message : string)
| StreamRaised (e : client_error)
| HostCounterBackwards
| UnexpectedStreamValidation (category : string)
| DAQShutdownError (stop_error : option daq_error) (reader_error : option reader_error)
| DAQValueError (message : string)
| IdentityRaised (e : identity_error)
| DiagnosticsRaised (e : diagnostics_error)
| DAQAssertionError
| OlderProtocol.

(** What [loss_counters] returns; [Observed] holds its four counts and the messages. *)
Module LossCounters.
Record LossCounters := mk { firmware : FirmwareCounters; host : HostCounters; observed : Observed }.
End LossCounters.
Abbreviation LossCounters := LossCounters.LossCounters.

(** [FirmwareCounters()] *)
Definition no_firmware_counters : FirmwareCounters := FirmwareCounters.mk 1 0 0 0 0 0 0.

(** [value - previous], which must not be negative. *)
Definition counter_delta (value previous : Z) : result daq_error Z :=
  if value <? previous then Err HostCounterBackwards else Ok (value - previous).

(** [_host_counters_since_loss_baseline] *)
Definition host_delta (c b : HostCounters) : result daq_error HostCounters :=
  h1 ← counter_delta (HostCounters.parser_corruption_events c) (HostCounters.parser_corruption_events b);
  h2 ← counter_delta (HostCounters.parser_resynchronizations c) (HostCounters.parser_resynchronizations b);
  h3 ← counter_delta (HostCounters.host_block_queue_drops c) (HostCounters.host_block_queue_drops b);
  h4 ← counter_delta (HostCounters.host_event_queue_drops c) (HostCounters.host_event_queue_drops b);
  h5 ← counter_delta (HostCounters.stale_blocks_discarded c) (HostCounters.stale_blocks_discarded b);
  h6 ← counter_delta (HostCounters.boundary_blocks_discarded c) (HostCounters.boundary_blocks_discarded b);
  h7 ← counter_delta (HostCounters.late_responses c) (HostCounters.late_responses b);
  h8 ← counter_delta (HostCounters.request_timeouts c) (HostCounters.request_timeouts b);
  h9 ← counter_delta (HostCounters.protocol_failures c) (HostCounters.protocol_failures b);
  h10 ← counter_delta (HostCounters.disconnects c) (HostCounters.disconnects b);
  h11 ← counter_delta (HostCounters.adc_block_queue_drops c) (HostCounters.adc_block_queue_drops b);
  h12 ← counter_delta (HostCounters.gpio_block_queue_drops c) (HostCounters.gpio_block_queue_drops b);
  h13 ← counter_delta (HostCounters.adc_item_queue_drops c) (HostCounters.adc_item_queue_drops b);
  h14 ← counter_delta (HostCounters.gpio_item_queue_drops c) (HostCounters.gpio_item_queue_drops b);
  h15 ← counter_delta (HostCounters.loss_report_queue_drops c) (HostCounters.loss_report_queue_drops b);
  Ok (HostCounters.mk h1 h2 h3 h4 h5 h6 h7 h8 h9 h10 h11 h12 h13 h14 h15).

(** ** Methods *)

Abbreviation daq_method L := (effect (ThingDAQ * L) daq_error).

(** The outcome of a call as a value: [try]. *)
Definition attempt {S E A} (m : effect S E A) : effect S E (result E A) := fun s => let '(s, r) := m s in (s, Ok r).
(** A caught outcome goes on. *)
Definition resume {S E A} (r : result E A) : effect S E A := match r with Ok a => mret a | Err e => raise e end.

(** [any(value is not None for value in options)] *)
Definition any_option (o : Selection) : bool :=
  let given {A} (x : option A) := match x with Some _ => true | None => false end in
  given (Selection.adc o) || given (Selection.gpio o) || given (Selection.source o) || given (Selection.checksum_algorithm o)
  || given (Selection.adc_pair_rate_hz o) || given (Selection.gpio_sample_rate_hz o) || given (Selection.adc_resolution_bits o)
  || given (Selection.aux_bank_mode o) || given (Selection.rate_profile o) || given (Selection.cpu_profile o)
  || given (Selection.gpio_policy o) || given (Selection.adc_policy o).

Section Client.
Context {L : Type} `{C : ReaderLink L}.
Abbreviation method := (daq_method L).

Definition client : method ThingDAQ := gets fst.
Definition update (f : ThingDAQ -> ThingDAQ) : method unit := modify (fun w => (f w.1, w.2)).
(** A question to the reader. *)
Definition ask {A} (q : L -> L * A) : method A := fun w => let '(l, a) := q w.2 in ((w.1, l), Ok a).
Definition stream_state : method (option V1DeviceState.DeviceState) := d ← client; mret (ClientStream._state (ThingDAQ.stream d)).

(** A method of [self._v3]. *)
Definition on_session {A} (m : session_method L A) : method A := fun w =>
  match ThingDAQ._v3 w.1 with
  | None => (w, Err OlderProtocol)
  | Some s =>
      let '((s, l), r) := m (s, w.2) in
      ((set_session s w.1, l), match r with Ok a => Ok a | Err e => Err (SessionRaised e) end)
  end.

(** [_ensure_open] *)
Definition _ensure_open : method unit :=
  d ← client;
  _ ← check (negb (ThingDAQ._closed d)) (DAQClosedError "ThingDAQ is closed");
  running ← ask is_running;
  if running : bool then
    opened ← ask transport_is_open;
    check opened (DAQClosedError "ThingDAQ transport is closed")
  else
    terminal ← ask terminal_error;
    raise (match terminal with
           | Some e => ReaderRaisedError e
           | None => DAQClosedError "ThingDAQ reader is not running"
           end).

(** [self._v3], when the device is a v3 one. *)
Definition require_v3 : method V3Session := d ← client; of_some (ThingDAQ._v3 d) OlderProtocol.

(** [_validate_info_identity] on a v3 INFO *)
Definition _validate_info_identity (i : V3Info) : method DeviceIdentitySnapshot :=
  d ← client;
  let o := ThingDAQ.options d in
  _ ← check (match ClientOptions.expected_usb_serial o with
             | Some t => bool_decide (V3Info.hardware_serial i = t)
             | None => true
             end) (IdentityMismatch "USB serial metadata differs from v3 INFO");
  who ← match validate_device_identity (ModernInfo i) (ClientOptions.expected_identity o) with
             | Ok who => mret who
             | Err (IdentityValidationError message) => raise (IdentityMismatch message)
             | Err e => raise (IdentityRaised e)
             end;
  _ ← check (match ClientOptions.reopened_identity o with Some r => bool_decide (who = r) | None => true end)
        (IdentityMismatch "reopened firmware identity differs from the discovery probe");
  _ ← check (match ThingDAQ._verified_identity d with Some v => bool_decide (who = v) | None => true end)
        (IdentityMismatch "firmware identity changed during the open session");
  mret who.

(** The negotiation of [_probe_info], and its [except]. *)
Definition negotiate (now : nat -> Z) : method InfoReply := fun w =>
  let timeout := ClientOptions.command_timeout (ThingDAQ.options w.1) in
  let '(l, n, r) := probe now (ThingDAQ._negotiation w.1) timeout w.2 in
  ((set_negotiation n w.1, l),
   match r with
   | Ok reply => Ok reply
   | Err (RequestTimeoutError _ _) => Err (SessionRaised CommandTimeoutError)
   | Err e => Err (ReaderRaisedError e)
   end).

(** [_probe_info] *)
Definition _probe_info (now : nat -> Z) : method (V3Info * DeviceIdentitySnapshot) :=
  d ← client;
  if bool_decide (ThingDAQ._v3 d = None) then
    _ ← check (bool_decide (ThingDAQ._verified_identity d = None)) OlderProtocol;
    reply ← negotiate now;
    match reply with
    | LegacyReply ok _ code _ => raise (if ok then OlderProtocol else InfoRejected code)
    | V3Reply r =>
        _ ← check (ok r) (InfoRejected (int_of (V3Response.error_code r)));
        match V3Response.value r with
        | Some (InfoValue i) =>
            who ← _validate_info_identity i;
            let timeout := ClientOptions.command_timeout (ThingDAQ.options d) in
            _ ← update (set_session (set_identity i (new_session timeout)));
            mret (i, who)
        | _ => raise (UnexpectedMessage "INFO response has no identity")
        end
    end
  else
    i ← on_session session_info;
    who ← _validate_info_identity i;
    mret (i, who).

(** [_reset_loss_observations] *)
Definition reset_observations : method unit :=
  host ← ask host_counters;
  update (fun d => set_baselines
    (Baselines.mk host (HostCounters.host_block_queue_drops host) (HostCounters.loss_report_queue_drops host))
    (on_stream _reset_loss_observations d)).

(** [stop] *)
Definition daq_stop (fuel : nat) (now : nat -> Z) : method DeviceState :=
  _ ← _ensure_open;
  _ ← require_v3;
  result ← on_session (session_stop fuel now);
  _ ← update (on_stream stop_session);
  mret result.

Definition set_client_state (state : V1DeviceState.DeviceState) (d : ThingDAQ) : ThingDAQ :=
  on_stream (fun c => set_run (ClientStream._run_id c) state c) d.

(** [_configuration = configuration] and the expectations of an adopted run. *)
Definition adopt_stream (settings : V3Settings) (c : ClientStream) : ClientStream :=
  let configuration := _v3_stream_configuration settings in
  let '(ClientStream.mk st state run _ a g ai gi p gen o base) := c in
  _initialize_stream_expectations configuration false
    (ClientStream.mk st state run (Some configuration) a g ai gi p gen o base).

(** The device was RUNNING when it was opened. *)
Definition adopt_running (snapshot : V3Status) : method unit :=
  s ← require_v3;
  applied ← of_some (V3Session.applied s) DAQAssertionError;
  let settings := V3AppliedSettings.settings applied in
  outcome ← ask (adopt_run (V3Stop.run_id (V3Status.stop snapshot)) settings);
  _ ← match outcome with Ok _ => mret tt | Err e => raise (ReaderRaisedError e) end;
  _ ← update (on_stream (adopt_stream settings));
  _ ← reset_observations;
  update (set_client_state V1DeviceState.RUNNING).

(** What [synchronize] does with an identity seen twice. *)
Definition take_over (fuel : nat) (clock : nat -> Z) : method unit :=
  _ ← on_session get_capabilities;
  _ ← on_session get_settings;
  snapshot ← on_session (session_status None);
  let stop := V3Status.stop snapshot in
  _ ← update (on_stream (set_run (V3Stop.run_id stop) V1DeviceState.CONFIGURED));
  d ← client;
  _ ← (if bool_decide (V3Stop.state stop = DeviceState.STOPPED) then mret tt
       else if bool_decide (ClientOptions.session_policy (ThingDAQ.options d) = STOP) then
         _ ← daq_stop fuel clock; mret tt
       else if bool_decide (V3Stop.state stop = DeviceState.RUNNING) then adopt_running snapshot
       else mret tt);
  update set_policy_applied.

(** The errors a synchronization attempt survives. *)
Definition retryable (e : daq_error) : bool :=
  let soft code := (code =? int_of ErrorCode.BUSY) || (code =? int_of ErrorCode.INVALID_STATE) in
  match e with
  | SessionRaised CommandTimeoutError => true
  | SessionRaised (DeviceCommandError _ code _) => soft (int_of code)
  | InfoRejected code => soft code
  | _ => false
  end.

(** The loop of [synchronize]: [attempts] are left; the probes read their own clocks. *)
Fixpoint sync_loop (attempts : nat) (now : nat -> nat -> Z) (fuel : nat) (clock : nat -> Z)
    (first : option DeviceIdentitySnapshot) (last : option daq_error) : method V3Info :=
  match attempts with
  | O => raise (default DeviceSynchronizationError last)
  | S attempts =>
      outcome ← attempt (_probe_info (now attempts));
      match outcome with
      | Err e => if retryable e then sync_loop attempts now fuel clock first (Some e) else raise e
      | Ok (info, who) =>
          match first with
          | None => sync_loop attempts now fuel clock (Some who) None
          | Some who0 =>
              _ ← check (bool_decide (who = who0))
                    (IdentityMismatch "firmware identity changed between synchronization probes");
              _ ← update (set_verified who);
              _ ← take_over fuel clock;
              mret info
          end
      end
  end.

(** [synchronize] *)
Definition synchronize (attempts : Z) (now : nat -> nat -> Z) (fuel : nat) (clock : nat -> Z) : method V3Info :=
  _ ← check (2 <=? attempts) (DAQValueError "synchronization attempts must be an integer at least two");
  sync_loop (Z.to_nat attempts) now fuel clock None None.

(** [info], [get_capabilities], [get_settings] *)
Definition daq_info : method V3Info :=
  _ ← _ensure_open;
  _ ← require_v3;
  i ← on_session session_info;
  _ ← _validate_info_identity i;
  mret i.
Definition daq_get_capabilities : method V3Capabilities :=
  _ ← _ensure_open; _ ← require_v3; on_session get_capabilities.
Definition daq_get_settings : method V3AppliedSettings :=
  _ ← _ensure_open; _ ← require_v3; on_session get_settings.

(** [configure]; the options are those of [select_settings]. *)
Definition daq_configure (configuration : option V3Settings) (options : Selection) : method V3AppliedSettings :=
  _ ← _ensure_open;
  s ← require_v3;
  capabilities ← of_some (V3Session.capabilities s) DAQAssertionError;
  _ ← check (negb (negb (bool_decide (configuration = None)) && any_option options))
        (DAQValueError "do not combine V3Settings with configuration options");
  settings ← match configuration with
             | Some settings => mret settings
             | None =>
                 match select_settings capabilities options with
                 | Ok settings => mret settings
                 | Err e => raise (DeviceCapabilityError e)
                 end
             end;
  applied ← on_session (configure settings);
  s ← require_v3;
  _ ← update (on_stream (set_run (V3Session.run_id s) V1DeviceState.CONFIGURED));
  mret applied.

(** [start] *)
Definition daq_start : method Z :=
  _ ← _ensure_open;
  _ ← require_v3;
  baseline ← ask host_counters;
  parser ← ask host_counters;
  outcome ← attempt (on_session session_start);
  s ← require_v3;
  _ ← (if bool_decide (V3Session.state s = DeviceState.RUNNING) then update (set_client_state V1DeviceState.RUNNING) else mret tt);
  run ← resume outcome;
  applied ← of_some (V3Session.applied s) DAQAssertionError;
  _ ← update (on_stream (start_stream (V3AppliedSettings.settings applied) run (HostCounters.parser_corruption_events parser)));
  _ ← reset_observations;
  _ ← update (set_baselines (Baselines.mk baseline (HostCounters.host_block_queue_drops baseline)
                               (HostCounters.loss_report_queue_drops baseline)));
  mret run.

(** [status] *)
Definition daq_status : method V3Status :=
  _ ← _ensure_open;
  _ ← require_v3;
  snapshot ← on_session (session_status None);
  _ ← update (on_stream (adopt_status snapshot));
  mret snapshot.

(** [_require_state(operation, allowed)] *)
Definition _require_state (operation : string) (allowed : V1DeviceState.DeviceState) : method unit :=
  _ ← _ensure_open;
  state ← stream_state;
  _ ← (if bool_decide (state = None) then _ ← daq_info; mret tt else mret tt);
  state ← stream_state;
  check (bool_decide (state = Some allowed)) (DAQStateError operation state).

(** ** Reading blocks *)

(** The branches of [_process_block] that ask for firmware evidence. *)
Definition reports (c : ClientStream) (b : DataBlock) : bool :=
  match expectation_of (block_kind b) c, ClientStream._configuration c with
  | Some e, Some cfg =>
      bool_decide (block_source b = StreamConfiguration.source cfg) && negb (Expectation.unanchored e)
      && match analyze_stream_continuity b (Expectation.sequence e) (Expectation.ticks e)
                 (ClientStream._run_id c) (Expectation.previous e) with
         | Ok (Some _) => true
         | _ => false
         end
  | _, _ => false
  end.
Definition consults_status (c : ClientStream) (item : stream_item) : bool :=
  match item with ItemBlock b => reports c b | ItemReport _ => false end.

(** [self.status()] inside [_firmware_evidence], what the stream makes of it apart. *)
Definition evidence_status : method V3Status := _ ← _ensure_open; on_session (session_status None).

(** The exceptions [_firmware_evidence] catches. *)
Definition status_unavailable (e : daq_error) : bool :=
  match e with
  | SessionRaised CommandTimeoutError | SessionRaised (DeviceCommandError _ _ _) | SessionRaised (SessionMessageError _)
  | UnexpectedMessage _ => true
  | _ => false
  end.

(** The outcome of the status as the stream bookkeeping sees it. *)
Definition surroundings (applied : V3Settings) (outcome : result daq_error V3Status) (corruption : Z) : Surroundings :=
  Surroundings.mk applied
    (match outcome with
     | Ok s => StatusIs s
     | Err e => if status_unavailable e then StatusUnavailable else StatusRaises
     end) corruption.

(** The processed item, to the caller of [read_block]: an exception of the STATUS request
    is raised as it is. *)
Definition deliver (outcome : result daq_error V3Status) (processed : result client_error client_item) : method client_item :=
  match processed, outcome with
  | Ok item, _ => mret item
  | Err StatusRaised, Err e => raise e
  | Err e, _ => raise (StreamRaised e)
  end.

(** The part of [read_block] that processes a reader item.  [_v3.applied] is read by
    [synchronize], so the assertion on it never fails in an opened client. *)
Definition process_reader_item (item : stream_item) : method client_item :=
  s ← require_v3;
  applied ← of_some (V3Session.applied s) DAQAssertionError;
  d ← client;
  let consults := consults_status (ThingDAQ.stream d) item in
  outcome ← (if consults then attempt evidence_status else mret (Err DAQAssertionError));
  host ← (if ClientStream._strict (ThingDAQ.stream d) && negb consults then ask host_counters else mret no_host_counters);
  d ← client;
  let w := surroundings (V3AppliedSettings.settings applied) outcome (HostCounters.parser_corruption_events host) in
  let '(c, processed) := process_item (ThingDAQ.stream d) w item in
  _ ← update (set_stream c);
  deliver outcome processed.

(** [read_block] *)
Definition daq_read_block (timeout : option Z) : method client_item :=
  d ← client;
  let timeout := default (ClientOptions.block_timeout (ThingDAQ.options d)) timeout in
  _ ← check (0 <? timeout) (DAQValueError "timeout must be positive");
  _ ← _require_state "read_block" V1DeviceState.RUNNING;
  active ← ask active_run_id;
  d ← client;
  let c := ThingDAQ.stream d in
  _ ← check (active =? ClientStream._run_id c)
        (UnexpectedMessage "block reads require a RUNNING epoch established by this ThingDAQ instance");
  match ClientStream._pending_items c with
  | item :: rest => _ ← update (on_stream (set_pending_items rest)); mret item
  | [] =>
      received ← ask (get_stream_item timeout);
      match received with
      | Err QueueWaitTimeoutError => raise BlockTimeout
      | Err StreamStoppedError => raise (UnexpectedMessage "the active stream stopped while waiting for a block")
      | Err (WaitRaised e) => raise (ReaderRaisedError e)
      | Ok item => _ ← _ensure_open; process_reader_item item
      end
  end.

(** One step of the generator [blocks]: the item and the blocks counted so far, or its
    end.  The first step checks the count, which no later one changes. *)
Definition blocks_step (count : option Z) (timeout : option Z) (emitted : Z) : method (option (client_item * Z)) :=
  _ ← check (match count with Some n => 0 <=? n | None => true end)
        (DAQValueError "block count must be a nonnegative integer or None");
  if match count with Some n => negb (emitted <? n) | None => false end then mret None
  else
    state ← stream_state;
    if negb (bool_decide (state = Some V1DeviceState.RUNNING)) then mret None
    else
      item ← daq_read_block timeout;
      mret (Some (item, match item with ClientBlock _ => emitted + 1 | _ => emitted end)).

(** ** Losses and health *)

(** [_v3_counters] on the client *)
Definition firmware_counters (status : V3Status) : method FirmwareCounters :=
  s ← require_v3;
  applied ← of_some (V3Session.applied s) DAQAssertionError;
  d ← client;
  match _v3_counters (ThingDAQ.stream d) (V3AppliedSettings.settings applied) status with
  | Ok f => mret f
  | Err e => raise (StreamRaised (ClientModelRaised e))
  end.

(** A part of the stream bookkeeping that may raise. *)
Definition stream_part {A} (f : ClientStream -> ClientStream * result client_error A) : method A :=
  d ← client;
  let '(c, r) := f (ThingDAQ.stream d) in
  _ ← update (set_stream c);
  match r with Ok a => mret a | Err e => raise (StreamRaised e) end.

(** [loss_counters] *)
Definition loss_counters (refresh : bool) : method LossCounters :=
  cached ← (if refresh then s ← daq_status; mret (Some s) else s ← require_v3; mret (V3Session.last_status s));
  firmware ← match cached with
             | Some status =>
                 f ← firmware_counters status;
                 _ ← stream_part (fun c => reconcile_counters c f);
                 mret f
             | None => mret no_firmware_counters
             end;
  host ← ask host_counters;
  d ← client;
  host ← resume (host_delta host (Baselines._host_loss_baseline (ThingDAQ.baselines d)));
  mret (LossCounters.mk firmware host (ClientStream.observed (ThingDAQ.stream d))).

(** The first nonzero count of a list of named ones. *)
Fixpoint first_nonzero (counts : list (string * Z)) : option string :=
  match counts with
  | [] => None
  | (name, n) :: counts => if n =? 0 then first_nonzero counts else Some name
  end.

(** [validate_stream_health]; the counters of parser and reader are read one after the
    other. *)
Definition validate_stream_health (status : option V3Status) : method V3Status :=
  _ ← _ensure_open;
  snapshot ← match status with Some s => mret s | None => daq_status end;
  _ ← require_v3;
  f ← firmware_counters snapshot;
  errors ← stream_part (fun c => let '(c, errors) := _counter_reconciliation_errors c f in (c, Ok errors));
  _ ← check (bool_decide (errors = [])) (UnexpectedStreamValidation "protocol_telemetry");
  parser ← ask host_counters;
  reader ← ask host_counters;
  reports ← ask host_counters;
  d ← client;
  let c := ThingDAQ.stream d in
  let b := ThingDAQ.baselines d in
  let counts :=
    [("parser_errors", HostCounters.parser_corruption_events parser - ClientStream._stream_parser_error_baseline c);
     ("host_queue_drops", HostCounters.host_block_queue_drops reader - Baselines._stream_host_drop_baseline b);
     ("loss_report_queue_drops", HostCounters.loss_report_queue_drops reports - Baselines._stream_loss_report_drop_baseline b);
     ("protocol_telemetry", Observed.telemetry_errors (ClientStream.observed c));
     ("firmware_drops", status_count snapshot 3 + status_count snapshot 7)]%string in
  _ ← match first_nonzero counts with
      | Some category => raise (UnexpectedStreamValidation category)
      | None => mret tt
      end;
  match snapshot_firmware_faults snapshot 0 with
  | Err e => raise (DiagnosticsRaised e)
  | Ok faults =>
      match FirmwareFaultSnapshot.faults faults with
      | fault :: _ => raise (UnexpectedStreamValidation (FirmwareFault.counter fault))
      | [] => mret snapshot
      end
  end.

(** ** Opening and closing *)

(** [close]; every exception of STOP and of the reader is kept. *)
Definition daq_close (stop : bool) (fuel : nat) (now : nat -> Z) : method unit :=
  d ← client;
  if ThingDAQ._closed d then mret tt
  else
    running ← (if stop then ask is_running else mret false);
    let active := match ClientStream._state (ThingDAQ.stream d) with
                  | Some V1DeviceState.CONFIGURED | Some V1DeviceState.RUNNING => true
                  | _ => false
                  end in
    stopped ← (if running && active then attempt (daq_stop fuel now) else mret (Ok DeviceState.STOPPED));
    shut ← ask shut_reader;
    _ ← update (fun d => on_stream (fun c => _clear_stream_expectations false (set_pending_items [] c)) (set_closed d));
    match stopped, shut with
    | Ok _, Ok _ => mret tt
    | _, _ =>
        raise (DAQShutdownError (match stopped with Err e => Some e | Ok _ => None end)
                 (match shut with Err e => Some e | Ok _ => None end))
    end.

(** [__exit__]: an exception of the block hides one of the close. *)
Definition daq_exit (raised : bool) (fuel : nat) (now : nat -> Z) : method unit :=
  if raised then _ ← attempt (daq_close true fuel now); mret tt else daq_close true fuel now.

(** [self._reader.start()], the end of [__init__]. *)
Definition start_client : method unit :=
  started ← ask reader_start;
  match started with Ok _ => mret tt | Err e => raise (ReaderRaisedError e) end.

(** [open] once the transport and the pins are chosen: a failure closes the transport or
    the session, without STOP. *)
Definition open_client (attempts : Z) (now : nat -> nat -> Z) (fuel : nat) (clock : nat -> Z) : method V3Info :=
  started ← attempt start_client;
  match started with
  | Err e => _ ← ask close_transport; raise e
  | Ok _ =>
      outcome ← attempt (synchronize attempts now fuel clock);
      match outcome with
      | Ok i => mret i
      | Err e => _ ← attempt (daq_close false fuel clock); raise e
      end
  end.
End Client.

(** ** Public calls *)

(** What [open] hands to the constructor for a chosen target. *)
Definition options_of (strict : bool) (command_timeout block_timeout : Z) (policy : SessionRecoveryPolicy) (p : Opening) :
    ClientOptions :=
  ClientOptions.mk strict command_timeout block_timeout (Opening.expected p) (Opening.reopened p) (Opening.usb_serial p) policy.

Inductive client_call :=
| DoSynchronize (attempts : Z) (now : nat -> nat -> Z) (fuel : nat) (clock : nat -> Z)
| DoInfo
| DoGetCapabilities
| DoGetSettings
| DoConfigure (configuration : option V3Settings) (options : Selection)
| DoStart
| DoStatus
| DoStop (fuel : nat) (clock : nat -> Z)
| DoReadBlock (timeout : option Z)
| DoBlocks (count timeout : option Z) (emitted : Z)
| DoLossCounters (refresh : bool)
| DoValidateHealth (status : option V3Status)
| DoClose (stop : bool) (fuel : nat) (clock : nat -> Z)
| DoExit (raised : bool) (fuel : nat) (clock : nat -> Z).

(** A call, its result dropped. *)
Definition perform {L} `{ReaderLink L} (c : client_call) : daq_method L unit :=
  match c with
  | DoSynchronize attempts now fuel clock => _ ← synchronize attempts now fuel clock; mret tt
  | DoInfo => _ ← daq_info; mret tt
  | DoGetCapabilities => _ ← daq_get_capabilities; mret tt
  | DoGetSettings => _ ← daq_get_settings; mret tt
  | DoConfigure configuration options => _ ← daq_configure configuration options; mret tt
  | DoStart => _ ← daq_start; mret tt
  | DoStatus => _ ← daq_status; mret tt
  | DoStop fuel clock => _ ← daq_stop fuel clock; mret tt
  | DoReadBlock timeout => _ ← daq_read_block timeout; mret tt
  | DoBlocks count timeout emitted => _ ← blocks_step count timeout emitted; mret tt
  | DoLossCounters refresh => _ ← loss_counters refresh; mret tt
  | DoValidateHealth status => _ ← validate_stream_health status; mret tt
  | DoClose stop fuel clock => daq_close stop fuel clock
  | DoExit raised fuel clock => daq_exit raised fuel clock
  end.

(** A sequence of calls, whose errors the caller handles. *)
Definition perform_all {L} `{ReaderLink L} (calls : list client_call) (w : ThingDAQ * L) : ThingDAQ * L :=
  foldl (fun w c => (perform c w).1) w calls.
