(* ===== verification/ClientSafety.v ===== *)
(** * The client's session safety ([client.py]).

    What an opened [ThingDAQ] knows about its device, for every reader and device
    ([ReaderLink]): its identity, pins, capability table and settings, as an invariant of
    every sequence of public calls.  The tables are those the device of the link can send
    ([sends_table]).  [wpd] is the logic of the methods: it speaks about the client only, so a
    statement holds for whatever link the method finds. *)

From S2P Require Import Prelude Effects Checksum V3Constants V3Header V3Samples ModelsV3 Profiles Losses Blocks Continuity StreamQueues Reader Validator ClientStream Session Identity Discovery Diagnostics Client.

(** ** Reasoning about methods *)

Section MethodLogic.
Context {L : Type} `{C : ReaderLink L}.
Abbreviation method := (daq_method L).

(** From the client [d] and any link, the method returns with [Q] or raises with [E]. *)
Definition wpd {A} (m : method A) (Q : A -> ThingDAQ -> Prop) (E : daq_error -> ThingDAQ -> Prop) (d : ThingDAQ) : Prop :=
  forall l, wp m (fun a w => Q a w.1) (fun e w => E e w.1) (d, l).

Lemma wpd_consequence {A} (m : method A) (Q Q' : A -> ThingDAQ -> Prop) (E E' : daq_error -> ThingDAQ -> Prop) d :
  wpd m Q E d -> (forall a d, Q a d -> Q' a d) -> (forall e d, E e d -> E' e d) -> wpd m Q' E' d.
Proof. intros H HQ HE l. eapply wp_consequence; [apply H|intros ? []; apply HQ|intros ? []; apply HE]. Qed.

Lemma wpd_bind {A B} (m : method A) (k : A -> method B) Q E d :
  wpd m (fun a d => wpd (k a) Q E d) E d -> wpd (m ≫= k) Q E d.
Proof. intros H l. apply wp_bind. eapply wp_consequence; [apply H| |done]. intros a [d' l'] Hk. apply Hk. Qed.

Lemma wpd_ret {A} (a : A) (Q : A -> ThingDAQ -> Prop) E d : Q a d -> wpd (mret a) Q E d.
Proof. intros H l. by apply wp_ret. Qed.

Lemma wpd_raise {A} e (Q : A -> ThingDAQ -> Prop) (E : daq_error -> ThingDAQ -> Prop) d : E e d -> wpd (raise e) Q E d.
Proof. intros H l. by apply wp_raise. Qed.

Lemma wpd_client (Q : ThingDAQ -> ThingDAQ -> Prop) E d : Q d d -> wpd client Q E d.
Proof. intros H l. by apply wp_gets. Qed.

Lemma wpd_update f (Q : unit -> ThingDAQ -> Prop) E d : Q tt (f d) -> wpd (update f) Q E d.
Proof. intros H l. by apply wp_modify. Qed.

Lemma wpd_check b e (Q : unit -> ThingDAQ -> Prop) (E : daq_error -> ThingDAQ -> Prop) d :
  (b = true -> Q tt d) -> (b = false -> E e d) -> wpd (check b e) Q E d.
Proof. intros HQ HE l. by apply wp_check. Qed.

Lemma wpd_of_some {A} (o : option A) e (Q : A -> ThingDAQ -> Prop) (E : daq_error -> ThingDAQ -> Prop) d :
  (forall a, o = Some a -> Q a d) -> (o = None -> E e d) -> wpd (of_some o e) Q E d.
Proof. intros HQ HE l. by apply wp_of_some. Qed.

Lemma wpd_ask {A} (q : L -> L * A) (Q : A -> ThingDAQ -> Prop) E d : (forall a, Q a d) -> wpd (ask q) Q E d.
Proof.
  intros H l. destruct (q l) as [l' a] eqn:Hq. eapply wp_returns; [unfold ask; cbn [fst snd]; rewrite Hq; reflexivity|]. apply H.
Qed.

Lemma wpd_attempt {A} (m : method A) (Q : result daq_error A -> ThingDAQ -> Prop) E d :
  wpd m (fun a => Q (Ok a)) (fun e => Q (Err e)) d -> wpd (attempt m) Q E d.
Proof.
  intros H l. destruct (m (d, l)) as [w r] eqn:Hm. pose proof (wp_run _ _ _ _ _ _ (H l) Hm) as Hr.
  eapply wp_returns; [unfold attempt; rewrite Hm; reflexivity|]. by destruct r.
Qed.

Lemma wpd_on_session {A} (m : session_method L A) (Q : A -> ThingDAQ -> Prop) (E : daq_error -> ThingDAQ -> Prop) d :
  (forall s, ThingDAQ._v3 d = Some s ->
     wps m (fun a s => Q a (set_session s d)) (fun e s => E (SessionRaised e) (set_session s d)) s) ->
  (ThingDAQ._v3 d = None -> E OlderProtocol d) -> wpd (on_session m) Q E d.
Proof.
  intros H Hn l. destruct (ThingDAQ._v3 d) as [s|] eqn:Hs.
  - specialize (H s eq_refl l). destruct (m (s, l)) as [[s' l'] r] eqn:Hm. cbn [fst snd] in H. destruct r as [a|e].
    + eapply wp_returns; [unfold on_session; cbn [fst snd]; rewrite Hs, Hm; reflexivity|exact H].
    + eapply wp_raises; [unfold on_session; cbn [fst snd]; rewrite Hs, Hm; reflexivity|exact H].
  - eapply wp_raises; [unfold on_session; cbn [fst snd]; rewrite Hs; reflexivity|]. by apply Hn.
Qed.

(** By what every run of the method shows. *)
Lemma wpd_outcome {A} (m : method A) (Q : A -> ThingDAQ -> Prop) (E : daq_error -> ThingDAQ -> Prop) d :
  (forall l w r, m (d, l) = (w, r) -> match r with Ok a => Q a w.1 | Err e => E e w.1 end) -> wpd m Q E d.
Proof.
  intros H l. destruct (m (d, l)) as [w r] eqn:Hm. specialize (H l w r Hm). destruct r; [by eapply wp_returns|by eapply wp_raises].
Qed.

Lemma wpd_returned {A} (m : method A) Q E d l w r :
  wpd m Q E d -> m (d, l) = (w, r) -> match r with Ok a => Q a w.1 | Err e => E e w.1 end.
Proof. intros H Hm. exact (wp_run _ _ _ _ _ _ (H l) Hm). Qed.

Lemma wpd_and {A} (m : method A) (Q Q' : A -> ThingDAQ -> Prop) (E E' : daq_error -> ThingDAQ -> Prop) d :
  wpd m Q E d -> wpd m Q' E' d -> wpd m (fun a d => Q a d /\ Q' a d) (fun e d => E e d /\ E' e d) d.
Proof.
  intros H H'. apply wpd_outcome. intros l w r Hm. pose proof (wpd_returned _ _ _ _ _ _ _ H Hm).
  pose proof (wpd_returned _ _ _ _ _ _ _ H' Hm). by destruct r.
Qed.

Lemma wpd_run {A} (m : method A) (P : ThingDAQ -> Prop) d l : wpd m (fun _ => P) (fun _ => P) d -> P (m (d, l)).1.1.
Proof. intros H. destruct (m (d, l)) as [w r] eqn:Hm. pose proof (wp_run _ _ _ _ _ _ (H l) Hm). by destruct r. Qed.
End MethodLogic.

#[global] Opaque wpd.

(** One step of a method under [wpd]. *)
Ltac wpd_step :=
  first
    [ apply wpd_bind
    | apply wpd_client
    | apply wpd_update
    | apply wpd_ask; intros ?
    | apply wpd_attempt
    | apply wpd_check; intros ?
    | apply wpd_of_some; [intros ? ?|intros ?]
    | apply wpd_raise
    | apply wpd_ret
    | match goal with |- wpd (match ?v with _ => _ end) _ _ _ => destruct v eqn:? end ]; cbv beta zeta.

(** ** What a session knows *)

(** The INFO [i] is the device the caller asked for, with the snapshot [v]. *)
Definition trusted (o : ClientOptions) (i : V3Info) (v : DeviceIdentitySnapshot) : Prop :=
  snapshot_from_info (ModernInfo i) = Ok v /\
  from_option (fun e => meets e v) True (ClientOptions.expected_identity o) /\
  from_option (fun r => v = r) True (ClientOptions.reopened_identity o) /\
  from_option (fun t => V3Info.hardware_serial i = t) True (ClientOptions.expected_usb_serial o).

Definition known (o : ClientOptions) (v : DeviceIdentitySnapshot) (s : V3Session) : Prop :=
  exists i, V3Session.identity s = Some i /\ trusted o i v.

(** The capabilities the session holds are in [T], and the applied settings are advertised by a
    table of [T]: with [sends_table] for [T], by a table the device sends, and with [eq c], by the
    session's own table [c]. *)
Definition equipped (T : V3Capabilities -> Prop) (s : V3Session) : Prop :=
  exists c a c', V3Session.capabilities s = Some c /\ T c /\ V3Session.applied s = Some a /\ T c' /\ advertised c' a.

(** What no session method takes back. *)
Definition evolves (T : V3Capabilities -> Prop) (s s' : V3Session) : Prop :=
  (forall o v, known o v s -> known o v s') /\ (equipped T s -> equipped T s').

Section Evolution.
Context {T : V3Capabilities -> Prop}.

Lemma evolves_refl s : evolves T s s.
Proof. done. Qed.

Lemma evolves_trans s1 s2 s3 : evolves T s1 s2 -> evolves T s2 s3 -> evolves T s1 s3.
Proof. intros [] []. split; auto. Qed.

Lemma same_identity_trusted o i j v : same_identity j i = true -> trusted o i v -> trusted o j v.
Proof.
  unfold same_identity, trusted. rewrite !andb_true_iff, !bool_decide_eq_true, !eqb_true_iff. intros H (Hs & He & Hr & Hu).
  destruct_and!. destruct i, j. cbn in *. subst. split_and!; done.
Qed.

Lemma refreshed_evolves s s' : refreshed s s' -> evolves T s s'.
Proof.
  intros [->|(j & -> & Hk)]; [apply evolves_refl|]. split; [|by destruct s].
  intros o v (i & Hi & Ht). exists j. split; [by destruct s|]. unfold keeps_identity in Hk. rewrite Hi in Hk.
  by eapply same_identity_trusted.
Qed.

Lemma polled_evolves s s' : polled s s' -> evolves T s s'.
Proof. intros (st & r & l & ->). by destruct s. Qed.

Lemma validated_evolves s a : validated s a -> evolves T s (set_applied a s).
Proof.
  intros [(c & Hc & Ha) _]. split; [by destruct s|]. intros (c1 & a1 & c' & Hc1 & Ht & _). assert (c1 = c) as -> by congruence.
  exists c, a, c. destruct s. done.
Qed.

Lemma capabilities_evolve s c : T c -> evolves T s (set_capabilities c s).
Proof.
  intros Hc. split; [by destruct s|]. intros (c1 & a & c' & _ & _ & Ha & Ht & Hadv). exists c, a, c'. by destruct s.
Qed.
End Evolution.

Section SessionMethods.
Context {L : Type} `{C : CommandLink L} {T : V3Capabilities -> Prop}.

(** The method takes nothing back. *)
Definition upholding {A} (m : session_method L A) : Prop :=
  forall s, wps m (fun _ s' => evolves T s s') (fun _ s' => evolves T s s') s.

Lemma session_info_upholding : upholding session_info.
Proof.
  intros s. eapply wps_consequence; [apply session_info_wp| |].
  - intros v s' [-> Hk]. apply refreshed_evolves. right; eauto.
  - by intros e s' [_ ->].
Qed.

Lemma get_capabilities_upholding : (forall c, sends_table c -> T c) -> upholding get_capabilities.
Proof.
  intros HT s. eapply wps_consequence; [apply get_capabilities_wp| |by intros e s' [_ ->]].
  intros c s' [Hc ->]. by apply capabilities_evolve, HT.
Qed.

Lemma get_settings_upholding : upholding get_settings.
Proof.
  intros s. eapply wps_consequence; [apply get_settings_wp| |].
  - intros v s' (s1 & Hs1 & Hv & -> & _). eapply evolves_trans; [by apply refreshed_evolves|by apply validated_evolves].
  - intros e s' [_ Hs']. by apply refreshed_evolves.
Qed.

Lemma configure_upholding settings : upholding (configure settings).
Proof.
  intros s. eapply wps_consequence; [apply configure_wp| |].
  - intros v s' (_ & s1 & run & Hs1 & Hv & ->). eapply evolves_trans; [by apply refreshed_evolves|].
    eapply evolves_trans; [by apply validated_evolves|]. by destruct s1.
  - intros e s' [_ Hs']. by apply refreshed_evolves.
Qed.

Lemma session_start_upholding : upholding session_start.
Proof.
  intros s. eapply wps_consequence; [apply session_start_wp| |].
  - intros run s' (_ & s1 & v & Hs1 & Hv & _ & ->). eapply evolves_trans; [by apply refreshed_evolves|].
    eapply evolves_trans; [by apply validated_evolves|]. apply polled_evolves. by eexists _, _, _.
  - intros e s' (_ & s1 & Hs1 & [->|(v & Hv & _ & [->|(_ & run & ->)])]);
      (eapply evolves_trans; [by apply refreshed_evolves|]); [done|by apply validated_evolves|].
    eapply evolves_trans; [by apply validated_evolves|]. apply polled_evolves. by eexists _, _, _.
Qed.

Lemma session_status_upholding timeout : upholding (session_status timeout).
Proof.
  intros s. eapply wps_consequence; [apply session_status_wp| |by intros e s' [_ ->]].
  intros v s' ->. apply polled_evolves. by eexists _, _, _.
Qed.

Lemma session_stop_upholding fuel now : upholding (session_stop fuel now).
Proof.
  intros s. eapply wps_consequence; [apply session_stop_wp| |].
  - intros st s' (_ & _ & Hs'). by apply polled_evolves.
  - intros e s' (_ & Hs'). by apply polled_evolves.
Qed.
End SessionMethods.

#[global] Arguments upholding {L} T {A} m.

Create HintDb client.
#[export] Hint Resolve session_info_upholding get_settings_upholding configure_upholding
  session_start_upholding session_status_upholding session_stop_upholding : client.

(** ** The stream stays that of a synchronized client *)

Definition ready (c : ClientStream) : Prop :=
  ClientStream._state c = Some V1DeviceState.CONFIGURED \/ ClientStream._state c = Some V1DeviceState.RUNNING.

Lemma ready_state c c' : ClientStream._state c' = ClientStream._state c -> ready c -> ready c'.
Proof. unfold ready. by intros ->. Qed.

Lemma set_expectation_state k e c : ClientStream._state (set_expectation k e c) = ClientStream._state c.
Proof. by destruct c, k. Qed.
Lemma set_inferred_state k i c : ClientStream._state (set_inferred k i c) = ClientStream._state c.
Proof. by destruct c, k. Qed.
Lemma set_pending_state p c : ClientStream._state (set_pending_items p c) = ClientStream._state c.
Proof. by destruct c. Qed.
Lemma observe_state f c : ClientStream._state (observe f c) = ClientStream._state c.
Proof. by destruct c. Qed.
Lemma resume_state k q t c : ClientStream._state (resume_after k q t c) = ClientStream._state c.
Proof. apply set_expectation_state. Qed.
Lemma defer_state i c : ClientStream._state (defer i c) = ClientStream._state c.
Proof. apply set_pending_state. Qed.
Lemma anchor_state k c : ClientStream._state (anchor k c) = ClientStream._state c.
Proof. unfold anchor. destruct (expectation_of k c); [apply set_expectation_state|done]. Qed.
Lemma clear_state b c : ClientStream._state (_clear_stream_expectations b c) = ClientStream._state c.
Proof. by destruct c. Qed.
Lemma initialize_state cfg b c : ClientStream._state (_initialize_stream_expectations cfg b c) = ClientStream._state c.
Proof.
  unfold _initialize_stream_expectations.
  destruct (has _ StreamMask.ADC), (has _ StreamMask.GPIO); by rewrite ?set_inferred_state, ?set_expectation_state, ?clear_state,
    ?set_inferred_state, ?set_expectation_state, ?clear_state.
Qed.
Lemma adopt_status_ready s c : ready (adopt_status s c).
Proof. unfold adopt_status, ready. destruct c. case_decide; auto. Qed.

Create Rewrite HintDb client_state.
#[export] Hint Rewrite set_expectation_state set_inferred_state set_pending_state observe_state resume_state defer_state
  anchor_state clear_state initialize_state : client_state.

Ltac stream_state :=
  cbn [fst]; unfold record_anomaly, resume_after_loss, _advance_expectation; autorewrite with client_state.

Lemma firmware_evidence_ready c w k source base : ready c -> ready (_firmware_evidence c w k source base).1.
Proof.
  intros H. unfold _firmware_evidence. destruct (base_evidence base) as [[[? ?] ?] ?].
  destruct (Surroundings.status w) as [s| |]; [|done..]. pose proof (adopt_status_ready s c) as Hs.
  destruct (_v3_counters _ _ _); [|done]. unfold _observe_loss_stats_generation.
  destruct (ClientStream._loss_stats_generation _); [|]; cbn [fst snd]; destruct (dropped_of _ _ _) as [[[? ?] ?] ?]; cbn [fst].
  - done.
  - by destruct (adopt_status s c).
Qed.

Lemma process_block_ready c w b : ready c -> ready (_process_block c w b).1.
Proof.
  intros H. unfold _process_block. destruct (expectation_of _ c) as [e|]; [|done]. destruct (ClientStream._configuration c); [|done].
  destruct (negb _); [done|]. destruct (Expectation.unanchored e).
  { eapply ready_state; [|exact H]. unfold deliver_clean. cbn [fst]. by stream_state. }
  destruct (analyze_stream_continuity _ _ _ _ _) as [[[g|a]|]|]; [| | |done].
  2: { unfold process_anomaly, _finalize_anomaly_evidence.
    pose proof (firmware_evidence_ready c w (StreamAnomaly.kind a) (StreamAnomaly.source a) (StreamAnomaly.firmware_evidence a) H) as He.
    destruct (_firmware_evidence _ _ _ _ _) as [c1 r]. cbn [fst] in He. destruct (r ≫= _) as [a'|]; [|done]. clear H.
    destruct (retained _); destruct (ClientStream._strict _); (eapply ready_state; [|exact He]); by stream_state. }
  - unfold process_gap. destruct (inferred_of _ c); [|done]. cbv zeta.
    assert (H1 : forall k i, ready (set_inferred k i c)) by (intros; eapply ready_state; [apply set_inferred_state|done]).
    unfold _finalize_gap_evidence.
    pose proof (fun k i k' => firmware_evidence_ready _ w k' (StreamGap.source g) (StreamGap.firmware_evidence g) (H1 k i)) as He.
    match goal with |- context [_firmware_evidence (set_inferred ?k ?i c) w ?k' _ _] => specialize (He k i k') end.
    destruct (_firmware_evidence _ _ _ _ _) as [c1 r]. cbn [fst] in He. destruct (r ≫= _) as [g'|]; [|done].
    destruct (block_with_gap b g'); [|by eapply ready_state; [|exact He]; stream_state].
    destruct (ClientStream._strict _); (eapply ready_state; [|exact He]); by stream_state.
  - eapply ready_state; [|exact H]. unfold deliver_clean. cbn [fst]. by stream_state.
Qed.

Lemma process_item_ready c w item : ready c -> ready (process_item c w item).1.
Proof.
  intros H. destruct item as [[l|a]|b]; cbn [process_item]; [| |by apply process_block_ready].
  - unfold _process_host_queue_loss. destruct (range_valid c l).
    { eapply ready_state; [|exact H]. cbn [fst]. by stream_state. }
    destruct (range_anomaly c l); [|done]. cbv zeta.
    destruct (negb _ && _); destruct (ClientStream._strict _); (eapply ready_state; [|exact H]); cbn [fst]; by stream_state.
  - eapply ready_state; [|exact H]. unfold _process_reader_anomaly. cbn [fst]. by stream_state.
Qed.

(** ** What every method upholds *)

(** From [d] to [d'] the client keeps its options, its verified identity, what its session
    knows and a stream that is ready; what is closed stays closed. *)
Record upholds (T : V3Capabilities -> Prop) (d d' : ThingDAQ) : Prop := {
  up_options : ThingDAQ.options d' = ThingDAQ.options d;
  up_verified v : ThingDAQ._verified_identity d = Some v -> ThingDAQ._verified_identity d' = Some v;
  up_policy : ThingDAQ._session_policy_applied d = true -> ThingDAQ._session_policy_applied d' = true;
  up_session s : ThingDAQ._v3 d = Some s -> exists s', ThingDAQ._v3 d' = Some s' /\ evolves T s s';
  up_stream : ready (ThingDAQ.stream d) -> ready (ThingDAQ.stream d');
  up_closed : ThingDAQ._closed d = true -> ThingDAQ._closed d' = true
}.

#[global] Arguments up_options {T} d d' _.
#[global] Arguments up_verified {T} d d' _ v _.
#[global] Arguments up_policy {T} d d' _ _.
#[global] Arguments up_session {T} d d' _ s _.
#[global] Arguments up_stream {T} d d' _ _.
#[global] Arguments up_closed {T} d d' _ _.

#[export] Instance upholds_preorder T : PreOrder (upholds T).
Proof.
  split.
  - intros d. split; auto. intros s Hs. by exists s.
  - intros d1 d2 d3 H1 H2. split.
    + by rewrite (up_options _ _ H2), (up_options _ _ H1).
    + intros v Hv. by apply (up_verified _ _ H2), (up_verified _ _ H1).
    + intros Hp. by apply (up_policy _ _ H2), (up_policy _ _ H1).
    + intros s Hs. destruct (up_session _ _ H1 s Hs) as (s' & Hs' & He). destruct (up_session _ _ H2 s' Hs') as (s2 & Hs2 & He2).
      exists s2. split; [done|]. by eapply evolves_trans.
    + intros Hr. by apply (up_stream _ _ H2), (up_stream _ _ H1).
    + intros Hc. by apply (up_closed _ _ H2), (up_closed _ _ H1).
Qed.

Section Upholding.
Context {T : V3Capabilities -> Prop}.

Lemma upholds_refl d : upholds T d d.
Proof. reflexivity. Qed.

Lemma upholds_stream f d : (ready (ThingDAQ.stream d) -> ready (f (ThingDAQ.stream d))) -> upholds T d (on_stream f d).
Proof. intros H. destruct d. split; try done. intros s Hs. exists s. by split. Qed.

Lemma upholds_session s s' d : ThingDAQ._v3 d = Some s -> evolves T s s' -> upholds T d (set_session s' d).
Proof. intros Hs He. destruct d. cbn in Hs. subst. split; try done. intros s0 Hs0. cbn in Hs0. simplify_eq. by exists s'. Qed.

Lemma upholds_baselines b d : upholds T d (set_baselines b d).
Proof. destruct d. split; try done. intros s Hs. by exists s. Qed.

Lemma upholds_policy d : upholds T d (set_policy_applied d).
Proof. destruct d. split; try done. intros s Hs. by exists s. Qed.

Lemma upholds_closed d : upholds T d (set_closed d).
Proof. destruct d. split; try done. intros s Hs. by exists s. Qed.

Lemma upholds_negotiation n d : upholds T d (set_negotiation n d).
Proof. destruct d. split; try done. intros s Hs. by exists s. Qed.

End Upholding.

Section Steady.
Context {L : Type} `{C : ReaderLink L} {T : V3Capabilities -> Prop}.
Abbreviation method := (daq_method L).

Definition steady {A} (m : method A) : Prop := forall d, wpd m (fun _ d' => upholds T d d') (fun _ d' => upholds T d d') d.

Lemma steady_bind {A B} (m : method A) (k : A -> method B) : steady m -> (forall a, steady (k a)) -> steady (m ≫= k).
Proof.
  intros Hm Hk d. apply wpd_bind. eapply wpd_consequence; [apply Hm| |done]. intros a d1 H1.
  eapply wpd_consequence; [apply Hk| |]; intros ? d2 H2; exact (transitivity H1 H2).
Qed.
Lemma steady_ret {A} (a : A) : steady (mret a).
Proof. intros d. apply wpd_ret, upholds_refl. Qed.
Lemma steady_raise {A} e : steady (A := A) (raise e).
Proof. intros d. apply wpd_raise, upholds_refl. Qed.
Lemma steady_client : steady client.
Proof. intros d. apply wpd_client, upholds_refl. Qed.
Lemma steady_client_bind {B} (k : ThingDAQ -> method B) :
  (forall d, wpd (k d) (fun _ d' => upholds T d d') (fun _ d' => upholds T d d') d) -> steady (client ≫= k).
Proof. intros H d. apply wpd_bind, wpd_client, H. Qed.
Lemma steady_check b e : steady (check b e).
Proof. intros d. apply wpd_check; intros; apply upholds_refl. Qed.
Lemma steady_of_some {A} (o : option A) e : steady (of_some o e).
Proof. intros d. apply wpd_of_some; intros; apply upholds_refl. Qed.
Lemma steady_ask {A} (q : L -> L * A) : steady (ask q).
Proof. intros d. apply wpd_ask. intros; apply upholds_refl. Qed.
Lemma steady_attempt {A} (m : method A) : steady m -> steady (attempt m).
Proof. intros H d. apply wpd_attempt, H. Qed.
Lemma steady_resume {A} (r : result daq_error A) : steady (resume r).
Proof. destruct r; [apply steady_ret|apply steady_raise]. Qed.
Lemma steady_on_session {A} (m : session_method L A) : upholding T m -> steady (on_session m).
Proof.
  intros H d. apply wpd_on_session; [|intros; apply upholds_refl]. intros s Hs.
  eapply wps_consequence; [apply H| |]; intros ? s' He; by apply upholds_session with s.
Qed.
Lemma steady_update f : (forall d, upholds T d (f d)) -> steady (update f).
Proof. intros H d. apply wpd_update, H. Qed.
Lemma steady_on_stream f : (forall c, ready c -> ready (f c)) -> steady (update (on_stream f)).
Proof. intros H. apply steady_update. intros d. apply upholds_stream, H. Qed.
End Steady.
#[global] Arguments steady {L} T {A} m.

#[export] Hint Resolve steady_bind steady_ret steady_raise steady_client steady_check steady_of_some steady_ask
  steady_attempt steady_resume steady_on_session steady_on_stream : client.
#[export] Hint Resolve upholds_baselines upholds_policy upholds_closed upholds_negotiation : client.

(** Take a method apart. *)
Ltac steady_step :=
  first
    [ solve [eauto 2 with client nocore]
    | apply steady_bind; [|intros ?]
    | apply steady_attempt
    | apply steady_on_session
    | match goal with |- steady _ (match ?v with _ => _ end) => destruct v end ].

Lemma set_run_ready r s c : s = V1DeviceState.CONFIGURED \/ s = V1DeviceState.RUNNING -> ready (set_run r s c).
Proof. unfold ready. destruct c. by intros [-> | ->]; [left|right]. Qed.
Lemma stop_session_ready c : ready (stop_session c).
Proof. destruct c. by left. Qed.
Lemma start_stream_ready settings run base c : ready (start_stream settings run base c).
Proof. destruct c. right. unfold start_stream, _reset_loss_observations. cbn [set_observed set_generation].
  pose proof (initialize_state (_v3_stream_configuration settings) true) as H.
  match goal with |- context [_initialize_stream_expectations ?cfg ?b ?c] => specialize (H c); destruct (_initialize_stream_expectations cfg b c) end.
  exact H.
Qed.
Lemma adopt_stream_ready settings c : ready c -> ready (adopt_stream settings c).
Proof. intros H. eapply ready_state; [|exact H]. destruct c. unfold adopt_stream. by rewrite initialize_state. Qed.
Lemma reset_ready c : ready c -> ready (_reset_loss_observations c).
Proof. by destruct c. Qed.
Lemma reconciliation_state c f : ClientStream._state (_counter_reconciliation_errors c f).1 = ClientStream._state c.
Proof.
  unfold _counter_reconciliation_errors, _observe_loss_stats_generation. destruct (ClientStream._loss_stats_generation c); [done|by destruct c].
Qed.
Lemma reconcile_ready c f : ready c -> ready (reconcile_counters c f).1.
Proof.
  apply ready_state. pose proof (reconciliation_state c f) as H. unfold reconcile_counters.
  destruct (_counter_reconciliation_errors c f) as [c1 errors]. cbn [fst] in *. destruct (List.filter _ _); [done|]. cbn [fst]. by rewrite observe_state.
Qed.

Section MethodsSteady.
Context {L : Type} `{C : ReaderLink L} {T : V3Capabilities -> Prop}.

(** The tables the device sends are in [T]. *)
Definition told_in : Prop := forall c, sends_table c -> T c.

Lemma ensure_open_steady : steady (L := L) T _ensure_open.
Proof. unfold _ensure_open. repeat steady_step. Qed.
Lemma require_v3_steady : steady (L := L) T require_v3.
Proof. unfold require_v3. repeat steady_step. Qed.
Lemma stream_state_steady : steady (L := L) T stream_state.
Proof. unfold stream_state. repeat steady_step. Qed.
Lemma validate_info_identity_steady i : steady (L := L) T (_validate_info_identity i).
Proof. unfold _validate_info_identity. repeat steady_step. Qed.
#[local] Hint Resolve ensure_open_steady require_v3_steady stream_state_steady validate_info_identity_steady : client.

Lemma negotiate_steady now : steady (L := L) T (negotiate now).
Proof.
  intros d. apply wpd_outcome. intros l w r. unfold negotiate. destruct (probe _ _ _ _) as [[l' n] r']. intros [= <- <-].
  pose proof (upholds_negotiation (T := T) n d). by destruct r' as [|[]].
Qed.

Lemma reset_observations_steady : steady (L := L) T reset_observations.
Proof.
  unfold reset_observations. steady_step; [by steady_step|]. apply steady_update. intros d. etrans; [|apply upholds_baselines].
  apply upholds_stream, reset_ready.
Qed.

Lemma set_client_state_steady s : s = V1DeviceState.CONFIGURED \/ s = V1DeviceState.RUNNING -> steady (L := L) T (update (set_client_state s)).
Proof. intros H. apply steady_update. intros d. apply upholds_stream. intros _. by apply set_run_ready. Qed.

Lemma daq_stop_steady fuel now : steady (L := L) T (daq_stop fuel now).
Proof. unfold daq_stop. repeat steady_step. apply steady_on_stream. intros c _. apply stop_session_ready. Qed.
#[local] Hint Resolve negotiate_steady reset_observations_steady daq_stop_steady : client.

Lemma adopt_running_steady snapshot : steady (L := L) T (adopt_running snapshot).
Proof.
  unfold adopt_running. repeat steady_step.
  - apply steady_on_stream, adopt_stream_ready.
  - apply set_client_state_steady. auto.
Qed.
#[local] Hint Resolve adopt_running_steady : client.

Lemma take_over_steady fuel clock : told_in -> steady (L := L) T (take_over fuel clock).
Proof.
  intros HT%get_capabilities_upholding. unfold take_over. repeat steady_step; [|by apply steady_update, upholds_policy].
  apply steady_on_stream. intros c _. apply set_run_ready. auto.
Qed.

Lemma daq_info_steady : steady (L := L) T daq_info.
Proof. unfold daq_info. repeat steady_step. Qed.
Lemma daq_get_capabilities_steady : told_in -> steady (L := L) T daq_get_capabilities.
Proof. intros HT%get_capabilities_upholding. unfold daq_get_capabilities. repeat steady_step. Qed.
Lemma daq_get_settings_steady : steady (L := L) T daq_get_settings.
Proof. unfold daq_get_settings. repeat steady_step. Qed.
#[local] Hint Resolve daq_info_steady : client.

Lemma daq_configure_steady configuration options : steady (L := L) T (daq_configure configuration options).
Proof.
  unfold daq_configure. repeat steady_step. apply steady_on_stream. intros c _. apply set_run_ready. auto.
Qed.

Lemma daq_start_steady : steady (L := L) T daq_start.
Proof.
  unfold daq_start. repeat steady_step.
  - apply set_client_state_steady. auto.
  - apply steady_on_stream. intros c _. apply start_stream_ready.
  - by apply steady_update, upholds_baselines.
Qed.

Lemma daq_status_steady : steady (L := L) T daq_status.
Proof. unfold daq_status. repeat steady_step. apply steady_on_stream. intros c _. apply adopt_status_ready. Qed.
Lemma require_state_steady operation allowed : steady (L := L) T (_require_state operation allowed).
Proof. unfold _require_state. repeat steady_step. Qed.
Lemma evidence_status_steady : steady (L := L) T evidence_status.
Proof. unfold evidence_status. repeat steady_step. Qed.
#[local] Hint Resolve daq_status_steady require_state_steady evidence_status_steady : client.
(** A part of the stream bookkeeping that keeps the stream ready. *)
Lemma steady_stream_part {A} (f : ClientStream -> ClientStream * result client_error A) :
  (forall c, ready c -> ready (f c).1) -> steady (L := L) T (stream_part f).
Proof.
  intros H. apply steady_client_bind. intros d. specialize (H (ThingDAQ.stream d)). destruct (f (ThingDAQ.stream d)) as [c r]. cbv beta iota.
  assert (Hu : upholds T d (set_stream c d)) by exact (upholds_stream (fun _ => c) d H).
  apply wpd_bind, wpd_update. destruct r; [by apply wpd_ret|by apply wpd_raise].
Qed.

Lemma process_reader_item_steady item : steady (L := L) T (process_reader_item item).
Proof.
  unfold process_reader_item. do 5 (steady_step; [by repeat steady_step|]). apply steady_client_bind. intros d. cbv zeta.
  match goal with |- context [process_item ?c ?w item] =>
    pose proof (process_item_ready c w item) as Hready; destruct (process_item c w item) as [c' r] end.
  assert (Hu : upholds T d (set_stream c' d)) by exact (upholds_stream (fun _ => c') d Hready).
  apply wpd_bind, wpd_update. unfold deliver. destruct r as [i|[]]; try (by apply wpd_ret); try (by apply wpd_raise).
  destruct a2; by apply wpd_raise.
Qed.
#[local] Hint Resolve process_reader_item_steady : client.

Lemma daq_read_block_steady timeout : steady (L := L) T (daq_read_block timeout).
Proof. unfold daq_read_block. repeat steady_step. apply steady_on_stream. intros ?. apply ready_state, set_pending_state. Qed.
#[local] Hint Resolve daq_read_block_steady : client.

Lemma blocks_step_steady count timeout emitted : steady (L := L) T (blocks_step count timeout emitted).
Proof. unfold blocks_step. repeat steady_step. Qed.

Lemma firmware_counters_steady status : steady (L := L) T (firmware_counters status).
Proof. unfold firmware_counters. repeat steady_step. Qed.
#[local] Hint Resolve firmware_counters_steady : client.

Lemma reconcile_part_steady f : steady (L := L) T (stream_part (fun c => reconcile_counters c f)).
Proof. apply steady_stream_part. intros c. apply reconcile_ready. Qed.
Lemma reconciliation_part_steady f :
  steady (L := L) T (stream_part (fun c => let '(c, errors) := _counter_reconciliation_errors c f in (c, Ok errors))).
Proof.
  apply steady_stream_part. intros c. pose proof (reconciliation_state c f) as H. destruct (_counter_reconciliation_errors c f).
  by apply ready_state.
Qed.
#[local] Hint Resolve reconcile_part_steady reconciliation_part_steady : client.

Lemma loss_counters_steady refresh : steady (L := L) T (loss_counters refresh).
Proof. unfold loss_counters. repeat steady_step. Qed.

Lemma validate_stream_health_steady status : steady (L := L) T (validate_stream_health status).
Proof. unfold validate_stream_health. repeat steady_step. Qed.

Lemma daq_close_steady stop fuel now : steady (L := L) T (daq_close stop fuel now).
Proof.
  unfold daq_close. repeat steady_step; [|destruct a1, a2; by steady_step].
  apply steady_update. intros d. etrans; [apply upholds_closed|].
  apply upholds_stream. intros H. eapply ready_state; [|exact H]. by rewrite clear_state, set_pending_state.
Qed.
#[local] Hint Resolve daq_close_steady : client.

Lemma daq_exit_steady raised fuel now : steady (L := L) T (daq_exit raised fuel now).
Proof. unfold daq_exit. repeat steady_step. Qed.
End MethodsSteady.
#[global] Arguments told_in L {C} T : rename.

(** ** Probing and synchronizing *)

(** Everything but the session and its negotiation. *)
Definition surface (d : ThingDAQ) :=
  (ThingDAQ.options d, ThingDAQ.stream d, ThingDAQ._verified_identity d, ThingDAQ._session_policy_applied d,
   ThingDAQ.baselines d, ThingDAQ._closed d).

(** A probe answered with [i], whose snapshot is [v]. *)
Definition probed (T : V3Capabilities -> Prop) (d d' : ThingDAQ) (i : V3Info) (v : DeviceIdentitySnapshot) : Prop :=
  surface d' = surface d /\ upholds T d d' /\ trusted (ThingDAQ.options d) i v /\
  (forall w, ThingDAQ._verified_identity d = Some w -> v = w) /\
  exists s, ThingDAQ._v3 d' = Some s /\ V3Session.identity s = Some i.

Lemma probed_trans T d1 d2 d3 i v : surface d2 = surface d1 -> upholds T d1 d2 -> probed T d2 d3 i v -> probed T d1 d3 i v.
Proof.
  intros Hf Hu (Hf2 & Hu2 & Ht & Hw & Hs). split; [congruence|]. split; [by etrans|].
  injection Hf as Ho _ Hv _ _ _. rewrite Ho in Ht. rewrite Hv in Hw. done.
Qed.

Section Opening.
Context {L : Type} `{C : ReaderLink L} {T : V3Capabilities -> Prop}.
Abbreviation method := (daq_method L).

Lemma validate_info_identity_wp i d :
  wpd (L := L) (_validate_info_identity i)
    (fun v d' => d' = d /\ trusted (ThingDAQ.options d) i v /\ forall w, ThingDAQ._verified_identity d = Some w -> v = w)
    (fun _ d' => d' = d) d.
Proof.
  unfold _validate_info_identity. do 2 wpd_step. wpd_step. wpd_step; [|done].
  wpd_step. wpd_step; [|wpd_step; [wpd_step; done|by wpd_step..]]. wpd_step.
  wpd_step. wpd_step; [|done]. wpd_step. wpd_step; [|done]. wpd_step.
  assert (Hv : snapshot_from_info (ModernInfo i) = Ok a /\
            from_option (fun e => meets e a) True (ClientOptions.expected_identity (ThingDAQ.options d))).
  { destruct (ClientOptions.expected_identity _) as [e|].
    - apply validate_pinned in Heqr as [Hv Hm]. apply validate_unpinned in Hv as [_ Hv]. by split.
    - by apply validate_unpinned in Heqr as [_ Hv]. }
  destruct Hv as [Hs Hm]. split; [done|]. split; [split_and!; [done|done| |]|].
  - destruct (ClientOptions.reopened_identity _); cbn; [by eapply bool_decide_eq_true_1|done].
  - destruct (ClientOptions.expected_usb_serial _); cbn; [by eapply bool_decide_eq_true_1|done].
  - intros w Hw. rewrite Hw in H1. by apply bool_decide_eq_true_1 in H1.
Qed.

Lemma probe_info_wp now d :
  wpd (L := L) (_probe_info now) (fun '(i, v) d' => probed T d d' i v) (fun _ d' => surface d' = surface d /\ upholds T d d') d.
Proof.
  unfold _probe_info. do 2 wpd_step. case_bool_decide as Hn.
  - wpd_step. wpd_step; [|by split]. wpd_step.
    eapply (wpd_consequence _ (fun _ d' => exists n, d' = set_negotiation n d) _ (fun _ d' => exists n, d' = set_negotiation n d)).
    { apply wpd_outcome. intros l w r. unfold negotiate. destruct (probe _ _ _ _) as [[l' n] r']. intros [= <- <-].
      by destruct r' as [|[]]; exists n. }
    2: { intros e d' [n ->]. split; [by destruct d|apply upholds_negotiation]. }
    intros reply d1 [n ->]. set (d1 := set_negotiation n d).
    assert (H1 : surface d1 = surface d /\ upholds T d d1) by (split; [by destruct d|apply upholds_negotiation]). destruct H1 as [Hf1 Hu1].
    assert (Hn1 : ThingDAQ._v3 d1 = None) by by destruct d. clearbody d1.
    wpd_step; [|wpd_step; by split]. wpd_step. wpd_step; [|by split]. wpd_step; [|wpd_step; by split].
    destruct v as [i| | | |]; try (wpd_step; by split).
    wpd_step. eapply wpd_consequence; [apply validate_info_identity_wp| |].
    2: { by intros e d' ->. }
    intros v d2 (-> & Ht & Hw). do 3 wpd_step.
    eapply probed_trans; [done|done|]. split; [by destruct d1|]. split.
    { destruct d1. cbn in Hn1. subst. by split. }
    split; [done|]. split; [done|]. eexists. by destruct d1.
  - wpd_step. apply wpd_on_session.
    2: { intros Hs. by split. }
    intros s Hs. eapply wps_consequence; [apply session_info_wp| |].
    2: { intros e s' [_ ->]. split; [by destruct d|]. by apply upholds_session with s. }
    intros i s' [-> Hk].
    assert (Hu : upholds T d (set_session (set_identity i s) d)).
    { apply upholds_session with s; [done|]. apply refreshed_evolves. right; eauto. }
    set (d1 := set_session _ d) in *. assert (Hf1 : surface d1 = surface d) by by destruct d.
    assert (H1 : ThingDAQ._v3 d1 = Some (set_identity i s)) by by destruct d. clearbody d1.
    wpd_step. eapply wpd_consequence; [apply validate_info_identity_wp| |].
    2: { by intros e d' ->. }
    intros v d2 (-> & Ht & Hw). wpd_step. eapply probed_trans; [done|done|].
    split; [done|]. split; [reflexivity|]. split; [done|]. split; [done|]. exists (set_identity i s). split; [done|]. by destruct s.
Qed.
Lemma ensure_open_wp d : wpd (L := L) _ensure_open (fun _ d' => d' = d) (fun _ d' => d' = d) d.
Proof. unfold _ensure_open. repeat wpd_step; done. Qed.

Lemma reset_observations_wp d :
  wpd (L := L) reset_observations
    (fun _ d' => ThingDAQ._v3 d' = ThingDAQ._v3 d /\ ThingDAQ.stream d' = _reset_loss_observations (ThingDAQ.stream d) /\
       ThingDAQ.options d' = ThingDAQ.options d) (fun _ _ => False) d.
Proof. unfold reset_observations. do 3 wpd_step. by destruct d. Qed.

Lemma daq_stop_wp fuel now d :
  wpd (L := L) (daq_stop fuel now)
    (fun state d' => state = DeviceState.STOPPED /\ ThingDAQ.stream d' = stop_session (ThingDAQ.stream d) /\
       exists s s', ThingDAQ._v3 d = Some s /\ ThingDAQ._v3 d' = Some s' /\ polled s s' /\
         V3Session.state s' = DeviceState.STOPPED)
    (fun _ _ => True) d.
Proof.
  unfold daq_stop. wpd_step. eapply wpd_consequence; [apply ensure_open_wp| |done]. intros _ d1 ->. cbv beta.
  wpd_step. unfold require_v3. do 2 wpd_step. wpd_step; [|done]. wpd_step. apply wpd_on_session; [|done]. intros s Hs.
  eapply wps_consequence; [apply session_stop_wp| |done]. intros state s' (Hst & Hs' & Hp). do 2 wpd_step. wpd_step.
  split; [done|]. split; [by destruct d|]. exists s, s'. split; [done|]. split; [by destruct d|]. done.
Qed.
End Opening.

(** ** Taking the device over *)

(** What the client expects of the streams it joins in the middle of a run. *)
Definition joined (settings : V3Settings) (c : ClientStream) : Prop :=
  ClientStream._configuration c = Some (_v3_stream_configuration settings) /\
  forall k, data_kind k = true ->
    expectation_of k c = if has (V3Settings.stream_mask settings) (stream_of k) then Some (Expectation.mk 0 0 None true) else None.

Definition expects_nothing (c : ClientStream) : Prop := forall k, expectation_of k c = None.

(** The state a recovery policy leaves: STOP leaves the device STOPPED; ADOPT leaves it
    as the STATUS reported it, and joins the run of a RUNNING one. *)
Definition settled (policy : SessionRecoveryPolicy) (s : V3Session) (c : ClientStream) : Prop :=
  match policy with
  | STOP =>
      V3Session.state s = DeviceState.STOPPED /\ ClientStream._state c = Some V1DeviceState.CONFIGURED /\ expects_nothing c
  | ADOPT =>
      exists status a, V3Session.last_status s = Some status /\ V3Session.applied s = Some a /\
        V3Session.state s = V3Stop.state (V3Status.stop status) /\
        V3Session.run_id s = V3Stop.run_id (V3Status.stop status) /\
        ClientStream._run_id c = V3Session.run_id s /\
        if decide (V3Session.state s = DeviceState.RUNNING)
        then ClientStream._state c = Some V1DeviceState.RUNNING /\ joined (V3AppliedSettings.settings a) c
        else ClientStream._state c = Some V1DeviceState.CONFIGURED /\ expects_nothing c
  end.

Lemma adopt_stream_joined settings c : joined settings (adopt_stream settings c).
Proof.
  destruct c. unfold joined, adopt_stream, _initialize_stream_expectations, _v3_stream_configuration.
  cbn [StreamConfiguration.stream_mask]. split.
  - destruct (has _ StreamMask.ADC), (has _ StreamMask.GPIO); done.
  - intros k Hk. destruct k; try done; unfold stream_of; rewrite ?decide_True, ?decide_False by done;
      destruct (has (V3Settings.stream_mask settings) StreamMask.ADC), (has (V3Settings.stream_mask settings) StreamMask.GPIO); done.
Qed.

Lemma joined_run settings r st c : joined settings c -> joined settings (set_run r st (_reset_loss_observations c)).
Proof. destruct c. intros [H1 H2]. split; [done|]. intros k Hk. specialize (H2 k Hk). by destruct k. Qed.

Lemma set_run_nothing r st c : expects_nothing c -> expects_nothing (set_run r st c).
Proof. intros H k. specialize (H k). destruct c, k; done. Qed.

Lemma stop_session_nothing c : expects_nothing (stop_session c).
Proof. intros k. by destruct c, k. Qed.

Section TakeOver.
Context {L : Type} `{C : ReaderLink L}.

(** The session holds a table the device sent, and settings that this table advertises. *)
Definition outfitted (s : V3Session) : Prop :=
  exists c a, V3Session.capabilities s = Some c /\ sends_table c /\ V3Session.applied s = Some a /\ advertised c a.

Lemma outfitted_equipped T s c :
  outfitted s -> V3Session.capabilities s = Some c -> T c -> equipped T s.
Proof. intros (c' & a & Hc' & _ & Ha & Hadv) Hc Ht. assert (c' = c) as -> by congruence. by exists c, a, c. Qed.

Lemma polled_outfitted s s' : polled s s' -> outfitted s -> outfitted s'.
Proof. intros (st & r & l & ->). by destruct s. Qed.

(** What [take_over] leaves. *)
Definition taken (policy : SessionRecoveryPolicy) (d : ThingDAQ) : Prop :=
  ready (ThingDAQ.stream d) /\ ThingDAQ._session_policy_applied d = true /\
  exists s, ThingDAQ._v3 d = Some s /\ outfitted s /\ settled policy s (ThingDAQ.stream d).

Lemma adopt_running_wp snapshot d s a :
  ThingDAQ._v3 d = Some s -> V3Session.applied s = Some a ->
  wpd (L := L) (adopt_running snapshot)
    (fun _ d' => ThingDAQ._v3 d' = Some s /\
       let c := ThingDAQ.stream d' in
       ClientStream._run_id c = ClientStream._run_id (ThingDAQ.stream d) /\
       ClientStream._state c = Some V1DeviceState.RUNNING /\ joined (V3AppliedSettings.settings a) c)
    (fun _ _ => True) d.
Proof.
  intros Hs Ha. unfold adopt_running. wpd_step. unfold require_v3. do 2 wpd_step. wpd_step; [|done].
  wpd_step. wpd_step; [|done]. wpd_step. wpd_step. wpd_step.
  eapply (wpd_consequence _ (fun _ d' => d' = d) _ (fun _ _ => True)); [destruct a2; by wpd_step| |done]. intros _ d1 ->.
  do 2 wpd_step. wpd_step. eapply wpd_consequence; [apply reset_observations_wp| |done]. intros _ d2 (Hs2 & Hc2 & _).
  cbv beta. wpd_step.
  assert (a1 = a) as -> by congruence.
  assert (Hc : ThingDAQ.stream (set_client_state V1DeviceState.RUNNING d2)
    = set_run (ClientStream._run_id (ThingDAQ.stream d2)) V1DeviceState.RUNNING (ThingDAQ.stream d2)) by by destruct d2.
  split; [destruct d2; cbn in *; destruct d; cbn in *; congruence|].
  rewrite Hc, Hc2. assert (Hst : ThingDAQ.stream (on_stream (adopt_stream (V3AppliedSettings.settings a)) d)
    = adopt_stream (V3AppliedSettings.settings a) (ThingDAQ.stream d)) by by destruct d. rewrite Hst.
  pose proof (joined_run (V3AppliedSettings.settings a)) as Hj. set (settings := V3AppliedSettings.settings a) in *.
  assert (Hr : ClientStream._run_id (adopt_stream settings (ThingDAQ.stream d)) = ClientStream._run_id (ThingDAQ.stream d)).
  { destruct (ThingDAQ.stream d). unfold adopt_stream, _initialize_stream_expectations, _v3_stream_configuration.
    cbn [StreamConfiguration.stream_mask]. by destruct (has _ StreamMask.ADC), (has _ StreamMask.GPIO). }
  split; [|split; [|apply Hj, adopt_stream_joined]].
  - rewrite <-Hr. by destruct (adopt_stream settings _).
  - by destruct (adopt_stream settings _).
Qed.
(** A session method on a client that has a session. *)
Lemma on_session_wp {A} (m : session_method L A) Q E s d :
  ThingDAQ._v3 d = Some s -> wps m Q E s ->
  wpd (on_session m) (fun a d' => exists s', d' = set_session s' d /\ ThingDAQ._v3 d' = Some s' /\ Q a s') (fun _ _ => True) d.
Proof.
  intros Hs H. apply wpd_on_session; [|done]. intros s0 Hs0. simplify_eq. eapply wps_consequence; [exact H| |done].
  intros a s' Ha. exists s'. split; [done|]. split; [by destruct d|done].
Qed.

Lemma take_over_wp fuel clock s d :
  ThingDAQ._v3 d = Some s -> expects_nothing (ThingDAQ.stream d) ->
  wpd (L := L) (take_over fuel clock)
    (fun _ d' => taken (ClientOptions.session_policy (ThingDAQ.options d)) d') (fun _ _ => True) d.
Proof.
  intros Hs Hc. set (policy := ClientOptions.session_policy (ThingDAQ.options d)). unfold take_over.
  wpd_step. eapply wpd_consequence; [eapply on_session_wp; [exact Hs|apply get_capabilities_wp]| |done].
  intros c d1 (s1 & -> & Hs1 & Htold & ->). wpd_step.
  eapply wpd_consequence; [eapply on_session_wp; [exact Hs1|apply get_settings_wp]| |done].
  intros a d2 (s2 & -> & Hs2 & s2' & Hr & [(c' & Hc' & Hadv) _] & -> & _). wpd_step.
  eapply wpd_consequence; [eapply on_session_wp; [exact Hs2|apply session_status_wp]| |done].
  intros status d3 (s3 & -> & Hs3 & Heq). cbv beta zeta.
  assert (He : outfitted s3 /\ V3Session.applied s3 = Some a /\ V3Session.last_status s3 = Some status /\
    V3Session.state s3 = V3Stop.state (V3Status.stop status) /\ V3Session.run_id s3 = V3Stop.run_id (V3Status.stop status)).
  { assert (c' = c) as -> by (rewrite (refreshed_capabilities _ _ Hr) in Hc'; destruct s; cbn in Hc'; congruence).
    rewrite Heq. destruct s2'. cbn in Hc'. split_and!; try done. exists c, a. by split_and!. }
  destruct He as (He & Ha & Hlast & Hst & Hrun).
  do 2 wpd_step. set (d4 := on_stream _ _).
  assert (H4 : ThingDAQ._v3 d4 = Some s3 /\ ThingDAQ.options d4 = ThingDAQ.options d /\
    ThingDAQ.stream d4 = set_run (V3Stop.run_id (V3Status.stop status)) V1DeviceState.CONFIGURED (ThingDAQ.stream d)).
  { by destruct d. }
  destruct H4 as (H4 & Ho4 & Hc4). clearbody d4. clear Heq Hs1 Hs2 Hs3.
  do 2 wpd_step. rewrite Ho4. change (ClientOptions.session_policy (ThingDAQ.options d)) with policy.
  assert (Hset : forall d' s', ThingDAQ._v3 d' = Some s' -> outfitted s' -> ready (ThingDAQ.stream d') ->
    settled policy s' (ThingDAQ.stream d') -> taken policy (set_policy_applied d')).
  { intros d' s' H1 H2 H3 H5. destruct d'. split; [done|]. split; [done|]. by exists s'. }
  assert (Hc4' : ClientStream._state (ThingDAQ.stream d4) = Some V1DeviceState.CONFIGURED /\ expects_nothing (ThingDAQ.stream d4)
    /\ ClientStream._run_id (ThingDAQ.stream d4) = V3Stop.run_id (V3Status.stop status)).
  { rewrite Hc4. split; [by destruct (ThingDAQ.stream d)|]. split; [by apply set_run_nothing|by destruct (ThingDAQ.stream d)]. }
  destruct Hc4' as (Hst4 & Hn4 & Hr4). wpd_step.
  case_bool_decide as Hstopped; [|case_bool_decide as Hp; [|case_bool_decide as Hrunning]].
  - do 2 wpd_step. apply (Hset d4 s3); [done|done|by left|]. destruct policy; cbn [settled].
    + exists status, a. split_and!; try done; [congruence|]. rewrite decide_False by congruence. done.
    + split_and!; [congruence|done|done].
  - wpd_step. eapply wpd_consequence; [apply daq_stop_wp| |done].
    intros st d5 (-> & Hc5 & s4 & s5 & Hs4 & Hs5 & Hpoll & Hst5). do 2 wpd_step.
    assert (s4 = s3) as -> by congruence. apply (Hset d5 s5); [done| |by rewrite Hc5; apply stop_session_ready|].
    + by apply (polled_outfitted _ _ Hpoll).
    + rewrite Hp, Hc5. split_and!; [done|by destruct (ThingDAQ.stream d4)|apply stop_session_nothing].
  - eapply wpd_consequence; [by apply (adopt_running_wp status d4 s3 a)| |done].
    intros _ d5 (Hs5 & Hr5 & Hst5 & Hj). wpd_step. apply (Hset d5 s3); [done|done|by right|].
    destruct policy; [|done]. cbn [settled]. exists status, a. split_and!; try done; [congruence|]. rewrite decide_True by congruence. done.
  - do 2 wpd_step. apply (Hset d4 s3); [done|done|by left|]. destruct policy; [|done]. cbn [settled].
    exists status, a. split_and!; try done; [congruence|]. rewrite decide_False by congruence. done.
Qed.
End TakeOver.

(** ** The invariant of an opened client *)

(** The client verified the device it was asked for, its session still has that identity,
    holds capabilities of [T], runs on settings that a table of [T] advertises, and its stream is
    ready. *)
Record opened (T : V3Capabilities -> Prop) (o : ClientOptions) (v : DeviceIdentitySnapshot) (d : ThingDAQ) : Prop := {
  op_options : ThingDAQ.options d = o;
  op_verified : ThingDAQ._verified_identity d = Some v;
  op_policy : ThingDAQ._session_policy_applied d = true;
  op_session : exists s, ThingDAQ._v3 d = Some s /\ known o v s /\ equipped T s;
  op_stream : ready (ThingDAQ.stream d)
}.

Lemma opened_upholds T o v d d' : opened T o v d -> upholds T d d' -> opened T o v d'.
Proof.
  intros [Ho Hv Hp (s & Hs & Hk & He) Hr] Hu. destruct (up_session _ _ Hu s Hs) as (s' & Hs' & Hk' & He').
  split; [rewrite (up_options _ _ Hu); done|by apply (up_verified _ _ Hu)|by apply (up_policy _ _ Hu)| |by apply (up_stream _ _ Hu)].
  exists s'. auto.
Qed.

Section Synchronize.
Context {L : Type} `{C : ReaderLink L} {T : V3Capabilities -> Prop}.

Lemma set_verified_upholds v d :
  (forall w, ThingDAQ._verified_identity d = Some w -> v = w) -> upholds T d (set_verified v d).
Proof.
  intros H. destruct d. split; try done.
  - intros w Hw. cbn in *. f_equal. auto.
  - intros s Hs. by exists s.
Qed.

(** A step of the loop whose rest upholds what it finds. *)
Lemma wpd_upheld {A} (m : daq_method L A) d d1 :
  upholds T d d1 -> wpd m (fun _ d' => upholds T d1 d') (fun _ d' => upholds T d1 d') d1 ->
  wpd m (fun _ d' => upholds T d d') (fun _ d' => upholds T d d') d1.
Proof. intros H1 Hm. eapply wpd_consequence; [exact Hm| |]; intros ? d2 H2; exact (transitivity H1 H2). Qed.

Lemma sync_loop_steady now fuel clock attempts : told_in L T -> forall first last,
  steady (L := L) T (sync_loop attempts now fuel clock first last).
Proof.
  intros HT. induction attempts as [|attempts IH]; intros first last; cbn [sync_loop]; [apply steady_raise|].
  intros d. do 2 wpd_step. eapply wpd_consequence; [apply (probe_info_wp (T := T))| |].
  2: { intros e d1 [_ Hu]. destruct (retryable e); [|by wpd_step]. apply wpd_upheld; [done|apply IH]. }
  intros [i v] d1 (Hf & Hu & _ & Hw & _). destruct first as [v0|]; [|apply wpd_upheld; [done|apply IH]].
  apply wpd_upheld; [done|]. wpd_step. wpd_step; [|reflexivity]. do 2 wpd_step.
  injection Hf as _ _ Hv _ _ _. apply wpd_upheld; [apply set_verified_upholds; rewrite Hv; exact Hw|].
  apply steady_bind; [by apply take_over_steady|intros _; apply steady_ret].
Qed.

Lemma synchronize_steady attempts now fuel clock : told_in L T -> steady (L := L) T (synchronize attempts now fuel clock).
Proof. intros HT. unfold synchronize. apply steady_bind; [apply steady_check|]. intros _. by apply sync_loop_steady. Qed.

(** A successful loop opens the client and settles the device. *)
Lemma sync_loop_wp now fuel clock attempts : forall first last d,
  expects_nothing (ThingDAQ.stream d) ->
  let o := ThingDAQ.options d in
  wpd (L := L) (sync_loop attempts now fuel clock first last)
    (fun i d' => exists v, trusted o i v /\ opened sends_table o v d' /\ taken (ClientOptions.session_policy o) d') (fun _ _ => True) d.
Proof.
  induction attempts as [|attempts IH]; intros first last d Hc o; cbn [sync_loop]; [by wpd_step|].
  do 2 wpd_step. eapply wpd_consequence; [apply (probe_info_wp (T := sends_table))| |].
  2: { intros e d1 [Hf _]. injection Hf as Ho Hc1 _ _ _ _. destruct (retryable e); [|by wpd_step].
       subst o. rewrite <-Ho. apply IH. by rewrite Hc1. }
  intros [i v] d1 (Hf & Hu & Ht & Hw & s & Hs & Hi). injection Hf as Ho Hc1 Hv _ _ _. rewrite <-Hc1 in Hc.
  destruct first as [v0|]; [|subst o; rewrite <-Ho; by apply IH].
  wpd_step. wpd_step; [|done]. do 2 wpd_step. set (d2 := set_verified v d1).
  assert (H2 : ThingDAQ._v3 d2 = Some s /\ expects_nothing (ThingDAQ.stream d2) /\ ThingDAQ._verified_identity d2 = Some v /\
    ThingDAQ.options d2 = o) by (by destruct d1). destruct H2 as (Hs2 & Hc2 & Hv2 & Ho2). clearbody d2.
  wpd_step. eapply wpd_consequence;
    [apply wpd_and; [by apply (take_over_wp fuel clock s d2)|apply (take_over_steady (T := sends_table)); by intros c]| |done].
  intros _ d3 [Htk Hu3]. wpd_step. exists v. split; [done|]. rewrite Ho2 in Htk. split; [|done].
  destruct Htk as (Hr & Hp & s3 & Hs3 & He & _). split; [by rewrite (up_options _ _ Hu3)|by apply (up_verified _ _ Hu3)|done| |done].
  destruct (up_session _ _ Hu3 s Hs2) as (s3' & Hs3' & Hk & _). exists s3. split; [done|]. split.
  - assert (s3' = s3) as -> by congruence. apply Hk. by exists i.
  - destruct He as (c & a & Hcap & Htold & Ha & Hadv). by exists c, a, c.
Qed.

(** [close] closes, whatever is raised. *)
Lemma daq_close_closes stop fuel now d :
  wpd (L := L) (daq_close stop fuel now) (fun _ d' => ThingDAQ._closed d' = true) (fun _ d' => ThingDAQ._closed d' = true) d.
Proof.
  unfold daq_close. do 2 wpd_step. destruct (ThingDAQ._closed d) eqn:Hc; [by wpd_step|].
  wpd_step. eapply (wpd_consequence _ (fun _ _ => True) _ (fun _ _ => False)); [|intros running d1 _|done].
  { destruct stop; [by wpd_step|by wpd_step]. }
  wpd_step. eapply (wpd_consequence _ (fun _ _ => True) _ (fun _ _ => False)); [|intros stopped d2 _|done].
  { destruct (running && _); [|by wpd_step]. wpd_step. apply wpd_outcome. by intros ? ? []. }
  do 2 wpd_step. do 2 wpd_step. destruct d2. destruct stopped, a; by wpd_step.
Qed.
End Synchronize.

(** ** Opening, and any calls after it *)

#[export] Hint Resolve daq_info_steady daq_get_settings_steady daq_configure_steady daq_start_steady
  daq_status_steady daq_stop_steady daq_read_block_steady blocks_step_steady loss_counters_steady
  validate_stream_health_steady daq_close_steady daq_exit_steady : client.

(** The calls that read the capabilities again. *)
Definition reads_table (c : client_call) : bool :=
  match c with DoGetCapabilities | DoSynchronize _ _ _ _ => true | _ => false end.

Lemma perform_steady {L} `{ReaderLink L} T c : (reads_table c = true -> told_in L T) -> steady (L := L) T (perform c).
Proof.
  intros HT. destruct c; cbn [perform]; try (apply steady_bind; [|intros ?; apply steady_ret]);
    first [by apply synchronize_steady, HT|by apply daq_get_capabilities_steady, HT|auto with client nocore].
Qed.

Lemma perform_all_opened {L} `{ReaderLink L} T o v calls :
  Forall (fun c => reads_table c = true -> told_in L T) calls ->
  forall w : ThingDAQ * L, opened T o v w.1 -> opened T o v (perform_all calls w).1.
Proof.
  induction 1 as [|c calls Hc _ IH]; intros [d l] Hw; cbn; [done|]. apply IH. cbn in Hw.
  apply (wpd_run (perform c) (opened T o v)). eapply wpd_consequence; [by apply perform_steady| |]; intros ? d' Hu; by eapply opened_upholds.
Qed.

Lemma new_client_nothing o : expects_nothing (ThingDAQ.stream (new_client o)).
Proof. intros []; done. Qed.

(** What the session of an opened client holds is the one table it runs on. *)
Lemma opened_own {L} `{ReaderLink L} T o v d s :
  opened T o v d -> ThingDAQ._v3 d = Some s -> outfitted (L := L) s -> exists c, sends_table (L := L) c /\ opened (eq c) o v d.
Proof.
  intros [Ho Hv Hp (s' & Hs' & Hk & _) Hr] Hs (c & a & Hc & Ht & Ha & Hadv). assert (s' = s) as -> by congruence.
  exists c. split; [done|]. split; try done. exists s. split; [done|]. split; [done|]. by exists c, a, c.
Qed.

(** The client after [open]. *)
Lemma open_client_wp {L} `{ReaderLink L} (o : ClientOptions) attempts now fuel clock :
  wpd (L := L) (open_client attempts now fuel clock)
    (fun i d => exists v s, trusted o i v /\ opened (sends_table (L := L)) o v d /\
       ThingDAQ._v3 d = Some s /\ outfitted (L := L) s /\ settled (ClientOptions.session_policy o) s (ThingDAQ.stream d))
    (fun _ d => d = new_client o \/ ThingDAQ._closed d = true)
    (new_client o).
Proof.
  unfold open_client. wpd_step. wpd_step. unfold start_client. do 2 wpd_step. wpd_step; wpd_step.
  2: { do 2 wpd_step. wpd_step. by left. }
  wpd_step. unfold synchronize. do 3 wpd_step.
  - eapply wpd_consequence; [apply sync_loop_wp, new_client_nothing| |].
    + intros i d (v & Ht & Ho & _ & _ & s & Hs & Hout & Hset). wpd_step. by exists v, s.
    + intros e d _. do 2 wpd_step. eapply wpd_consequence; [apply daq_close_closes| |]; intros; wpd_step; by right.
  - do 2 wpd_step. eapply wpd_consequence; [apply daq_close_closes| |]; intros; wpd_step; by right.
Qed.

(** ** The selected device *)

(** The target names [device], directly or as the choice of a scan. *)
Definition selects (casefold : text -> text) (target : OpenTarget) (serial : option HardwareSerial) (device : DiscoveredDevice) : Prop :=
  target = OpenDevice device \/
  exists devices, target = OpenScanned devices /\ choose_device casefold serial devices = Ok device.

Lemma pin_serial_meets expected serial e v :
  pin_serial expected serial = Ok e -> meets e v ->
  DeviceIdentitySnapshot.hardware_serial v = serial /\ from_option (fun e => meets e v) True expected.
Proof.
  unfold pin_serial. destruct (default _ expected) as [pinned firmware build board mcu protocol] eqn:Hd.
  intros H Hm. apply require_bind in H as [Hp H].
  assert (e = ExpectedDeviceIdentity.mk (Some serial) firmware build board mcu protocol) as ->.
  { unfold of_identified, new_expected in H. destruct (require _ _ ≫= _) as [e0|] eqn:He; [|done].
    rewrite !require_bind in He. destruct He as (_ & _ & _ & _ & He). apply Ok_inj in He, H. congruence. }
  destruct Hm as (H1 & H2 & H3 & H4 & H5 & H6). cbn in H1, H2, H3, H4, H5, H6. split; [done|].
  destruct expected as [e|]; cbn in Hd; [|done]. subst e. unfold meets. cbn. split_and!; try done.
  destruct pinned as [p|]; cbn; [|done]. apply bool_decide_eq_true in Hp. by subst.
Qed.

Lemma resolve_selected casefold target serial expected device p :
  resolve_target casefold target serial expected = Ok p -> selects casefold target serial device ->
  opening_of_device expected device = Ok p.
Proof.
  intros H [->|(devices & -> & Hc)]; cbn [resolve_target] in H.
  - by apply require_bind in H as [_ H].
  - by rewrite Hc in H.
Qed.

Lemma opening_of_device_pins expected device p v :
  opening_of_device expected device = Ok p ->
  from_option (fun e => meets e v) True (Opening.expected p) -> from_option (fun r => v = r) True (Opening.reopened p) ->
  snapshot_from_info (DiscoveredDevice.info device) = Ok v /\ from_option (fun e => meets e v) True expected /\
  Opening.usb_serial p = SerialPortCandidate.serial_number (DiscoveredDevice.candidate device).
Proof.
  unfold opening_of_device. intros H Hm Hr. apply bind_Ok_inv in H as (serial & Hs & H). apply bind_Ok_inv in H as (v0 & Hv & H).
  apply bind_Ok_inv in H as (e & He & H). apply Ok_inj in H. subst p. cbn in Hm, Hr. subst v0.
  split; [by destruct (snapshot_from_info _) as [x|x]; [apply Ok_inj in Hv; subst|]|].
  split; [|done]. by apply (pin_serial_meets _ _ _ _ He).
Qed.

(** C6. From opening on, whatever is called in whatever order, whatever raises, and whatever
    the reader and the device do, the client stays [opened]: the identity it verified is
    the one of the INFO it was opened with and meets every pin; its session still has an
    identity with that snapshot, holds a capability table that the device sent, and
    believes in settings that a table the device sent advertises, with the clocks
    advertised for them.  Until the table is read again (by [get_capabilities] or
    [synchronize]) the session holds the one table it was opened with, and that table
    advertises the settings.  A discovered device, given or chosen from a scan, pins its
    own snapshot: no other board or firmware takes its place, not even behind the same
    port. *)
Theorem opened_invariant {L} `{ReaderLink L} (casefold : text -> text) (target : OpenTarget) (serial : option HardwareSerial)
    (expected : option ExpectedDeviceIdentity) (p : Opening) (o : ClientOptions) (attempts : Z) (now : nat -> nat -> Z)
    (fuel : nat) (clock : nat -> Z) (l : L) (w : ThingDAQ * L) (i : V3Info) (calls : list client_call)
    (Htarget : resolve_target casefold target serial expected = Ok p)
    (Hoptions : exists strict command_timeout block_timeout policy,
       o = options_of strict command_timeout block_timeout policy p)
    (Hopen : open_client attempts now fuel clock (new_client o, l) = (w, Ok i)) :
  exists v, trusted o i v /\ opened (sends_table (L := L)) o v (perform_all calls w).1 /\
    (exists c, sends_table (L := L) c /\
       (Forall (fun call => reads_table call = false) calls -> opened (eq c) o v (perform_all calls w).1)) /\
    forall device, selects casefold target serial device ->
      snapshot_from_info (DiscoveredDevice.info device) = Ok v /\ from_option (fun e => meets e v) True expected.
Proof.
  pose proof (wpd_returned _ _ _ _ _ _ _ (open_client_wp o attempts now fuel clock) Hopen) as (v & s & Ht & Ho & Hs & Hout & _).
  exists v. split; [done|]. split; [|split].
  - apply perform_all_opened; [|done]. apply Forall_true. by intros c _ c'.
  - destruct (opened_own _ o v _ s Ho Hs Hout) as (c & Hc & Hown). exists c. split; [done|]. intros Hcalls.
    apply perform_all_opened; [|done]. eapply Forall_impl; [exact Hcalls|]. intros call Hf Ht'. cbn in Hf. congruence.
  - intros device Hsel.
    pose proof (resolve_selected _ _ _ _ _ _ Htarget Hsel) as Hd. destruct Hoptions as (st & ct & bt & pol & ->).
    destruct Ht as (_ & He & Hr & _). by destruct (opening_of_device_pins _ _ _ v Hd He Hr) as (H1 & H2 & _).
Qed.

(** ** Examples *)

(** A reader whose device gives a fixed answer to each command and sends no blocks. *)
Definition canned_reader (answers : CommandKind -> option V3ResponseValue) : ReaderLink unit := {|
  reader_commands := canned answers;
  reader_probe := fun l _ _ =>
    (l, match answers CommandKind.INFO with
        | Some v => Ok (V3Reply (V3Response.mk (COMMAND_RESPONSE_KINDS CommandKind.INFO) 1 0 ResponseStatus.OK ErrorCode.OK (Some v) None))
        | None => Err (RequestTimeoutError CommandKind.INFO 1)
        end);
  reader_start := fun l => (l, Ok tt);
  is_running := fun l => (l, true);
  terminal_error := fun l => (l, None);
  transport_is_open := fun l => (l, true);
  active_run_id := fun l => (l, 1);
  get_stream_item := fun _ l => (l, Err QueueWaitTimeoutError);
  adopt_run := fun _ _ l => (l, Ok tt);
  host_counters := fun l => (l, no_host_counters);
  shut_reader := fun l => (l, Ok tt);
  close_transport := fun l => (l, tt)
|}.

(** A device in state [state] of run 1 that stops at once. *)
Definition idle_device (c : V3Capabilities) (i : V3Info) (a : V3AppliedSettings) (state : DeviceState) (kind : CommandKind) :
    option V3ResponseValue :=
  match kind with
  | CommandKind.GET_STATUS => Some (StatusValue (V3Status.mk (V3Stop.mk state 1 1) [] []))
  | CommandKind.STOP => Some (StopValue (V3Stop.mk DeviceState.STOPPED 1 1))
  | _ => answering c i a kind
  end.

Definition example_client_info (clocks : V3Clocks) : V3Info :=
  V3Info.mk BoardId.TEENSY_40 McuId.IMXRT1062 true [83] [49] [50] clocks PROTOCOL_VERSION 12.

Definition example_device (i : V3Info) : DiscoveredDevice :=
  DiscoveredDevice.mk (SerialPortCandidate.mk [52] TEENSY_USB_SERIAL_VID TEENSY_USB_SERIAL_PID (Some (V3Info.hardware_serial i)) None None None None None)
    (ModernInfo i).

Lemma opened_invariant_witness :
  exists c clocks, capabilities_canonical = Ok c /\ head (V3Capabilities.cpu_profiles c) = Some clocks /\
    let i := example_client_info clocks in
    let H := canned_reader (idle_device c i (V3AppliedSettings.mk (V3Capabilities.defaults c) clocks) DeviceState.RUNNING) in
    exists p, resolve_target id (OpenScanned [example_device i]) None None = Ok p /\
      let o := options_of false 1000 1000 ADOPT p in
      let w := open_client 4 (fun _ _ => 0) 5 (fun i => 100 * Z.of_nat i) (new_client o, tt) in
      let calls := [DoReadBlock None; DoStop 5 (fun i => 100 * Z.of_nat i); DoStart; DoClose true 5 (fun i => 100 * Z.of_nat i)] in
      w.2 = Ok i /\ ClientStream._state (ThingDAQ.stream w.1.1) = Some V1DeviceState.RUNNING /\
      exists v, opened (eq c) o v (perform_all calls w.1).1 /\ ThingDAQ._closed (perform_all calls w.1).1 = true.
Proof.
  destruct capabilities_canonical as [c|] eqn:Hc; [|by vm_compute in Hc].
  destruct (head (V3Capabilities.cpu_profiles c)) as [clocks|] eqn:Hh; [|vm_compute in Hc; by apply Ok_inj in Hc as <-].
  exists c, clocks. split; [done|]. split; [done|]. intros i H.
  assert (Hp : exists p, resolve_target id (OpenScanned [example_device i]) None None = Ok p) by (eexists; reflexivity).
  destruct Hp as [p Hp]. exists p. split; [exact Hp|]. intros o w calls.
  pose proof (opened_invariant (H := H) id (OpenScanned [example_device i]) None None p o 4 (fun _ _ => 0) 5
    (fun i => 100 * Z.of_nat i) tt w.1 i calls Hp ltac:(by exists false, 1000, 1000, ADOPT)) as Hinv.
  assert (Hw : w.2 = Ok i /\ ClientStream._state (ThingDAQ.stream w.1.1) = Some V1DeviceState.RUNNING /\
    ThingDAQ._closed (perform_all calls w.1).1 = true).
  { clear Hinv. subst calls w o H i. vm_compute in Hc. apply Ok_inj in Hc. subst c. vm_compute in Hh. apply Some_inj' in Hh. subst clocks.
    vm_compute in Hp. apply Ok_inj in Hp. subst p. vm_compute. done. }
  destruct Hw as (Hw & Hst & Hcl). split; [exact Hw|]. split; [exact Hst|].
  destruct Hinv as (v & _ & _ & (c' & Hc' & Ho) & _).
  { rewrite <-Hw. apply surjective_pairing. }
  assert (c' = c) as -> by (destruct Hc' as (? & ? & ? & ? & r & Hr & _ & Hv); vm_compute in Hr;
    apply pair_equal_spec in Hr as [_ Hr]; apply Ok_inj in Hr; subst r; cbn in Hv; congruence).
  exists v. split; [|exact Hcl]. apply Ho. repeat constructor.
Defined.
