(* ===== verification/ClientTrace.v ===== *)
(** * What the client sends, and what it is told ([client.py]).

    Any reader can be watched: beside its own state a [recording] link keeps what a [Watch]
    notes of every command, probe and closing.  [recorded] notes the kinds of the commands
    the client sent; [observed] notes the INFO answers that came back and the closing of
    reader and transport.  [emits] bounds what a method adds to the record.  The theorems
    say how opening ends and which commands it sends, what closing sends and raises, and
    that a closed client sends nothing. *)

From S2P Require Import Prelude Effects Checksum V3Constants V3Header V3Samples ModelsV3 Profiles Losses Blocks Continuity StreamQueues Reader Validator ClientStream Session Identity Discovery Diagnostics Client ClientSafety.

(** ** The record *)

(** What is noted, of type [Ev]: the entries for a command and its answer, for an INFO probe
    and its answer, and the record after the reader and the transport are closed. *)
Module Watch.
Record Watch (Ev : Type) := mk {
  of_request : CommandKind -> result request_error V3Response -> list Ev;
  of_probe : result reader_error InfoReply -> list Ev;
  on_shut : list Ev -> list Ev;
  on_closing : list Ev -> list Ev
}.
#[global] Arguments mk {Ev}.
#[global] Arguments of_request {Ev}.
#[global] Arguments of_probe {Ev}.
#[global] Arguments on_shut {Ev}.
#[global] Arguments on_closing {Ev}.
End Watch.
Abbreviation Watch := Watch.Watch.

Section Recorded.
Context {L : Type} `{C : ReaderLink L} {Ev : Type}.

(** A question of which [note] makes the new record. *)
Definition noted {A} (note : list Ev -> list Ev) (q : L -> L * A) (w : L * list Ev) : (L * list Ev) * A :=
  let '(l, a) := q w.1 in ((l, note w.2), a).
Definition silent {A} (q : L -> L * A) (w : L * list Ev) : (L * list Ev) * A :=
  let '(l, a) := q w.1 in ((l, w.2), a).

Definition recording (W : Watch Ev) : ReaderLink (L * list Ev) := {|
  reader_commands := fun w kind payload timeout =>
    let '(l, r) := request w.1 kind payload timeout in ((l, w.2 ++ Watch.of_request W kind r), r);
  reader_probe := fun w version remaining =>
    let '(l, r) := probe_request w.1 version remaining in ((l, w.2 ++ Watch.of_probe W r), r);
  reader_start := silent reader_start;
  is_running := silent is_running;
  terminal_error := silent terminal_error;
  transport_is_open := silent transport_is_open;
  active_run_id := silent active_run_id;
  get_stream_item := fun timeout => silent (get_stream_item timeout);
  adopt_run := fun run settings => silent (adopt_run run settings);
  host_counters := silent host_counters;
  shut_reader := noted (Watch.on_shut W) shut_reader;
  close_transport := noted (Watch.on_closing W) close_transport
|}.
End Recorded.

(** The kinds of the commands sent; a probe is an INFO request. *)
Definition sent_kinds : Watch CommandKind := Watch.mk (fun kind _ => [kind]) (fun _ => [CommandKind.INFO]) id id.

(** What the client is told and what it closes. *)
Inductive event :=
| Identified (i : V3Info)
| ReaderShut
| TransportClosed.

(** The INFO answers of a successful response. *)
Definition told (r : V3Response) : list event :=
  match V3Response.value r with Some (InfoValue i) => if ok r then [Identified i] else [] | _ => [] end.

Definition events : Watch event :=
  Watch.mk (fun _ r => match r with Ok r => told r | Err _ => [] end)
    (fun r => match r with Ok (V3Reply r) => told r | _ => [] end)
    (fun log => log ++ [ReaderShut]) (fun log => log ++ [TransportClosed]).

#[export] Instance recorded {L} `{C : ReaderLink L} : ReaderLink (L * list CommandKind) := recording sent_kinds.
#[export] Instance observed {L} `{C : ReaderLink L} : ReaderLink (L * list event) := recording events.

(** ** Bounds on what is noted *)

Section Sends.
Context {L Ev : Type}.
Abbreviation R := (L * list Ev)%type.

(** Started where [I] holds, the method keeps [I], and its outcome and what is noted are in
    [Q]. *)
Definition emits {S E A} (I : S -> Prop) (Q : result E A -> list Ev -> Prop) (m : effect (S * R) E A) : Prop :=
  forall s l log, I s -> let '((s', (_, log')), r) := m (s, (l, log)) in
    I s' /\ exists new, log' = log ++ new /\ Q r new.

(** Only entries of [K] are noted. *)
Definition sends {S E A} (I : S -> Prop) (K : Ev -> Prop) (m : effect (S * R) E A) : Prop := emits I (fun _ => Forall K) m.

Lemma emits_consequence {S E A} I (Q Q' : result E A -> list Ev -> Prop) (m : effect (S * R) E A) :
  emits I Q m -> (forall r new, Q r new -> Q' r new) -> emits I Q' m.
Proof.
  intros H HQ s l log Hs. specialize (H s l log Hs). destruct (m _) as [[s1 [l1 log1]] r].
  destruct H as (HI & new & -> & Hn). split; [done|]. exists new. auto.
Qed.

Lemma emits_bind {S E A B} I Q (Q1 : A -> result E B -> list Ev -> Prop) Q' (m : effect (S * R) E A) (k : A -> effect (S * R) E B) :
  emits I Q m -> (forall a, emits I (Q1 a) (k a)) ->
  (forall e new, Q (Err e) new -> Q' (Err e) new) ->
  (forall a new r new1, Q (Ok a) new -> Q1 a r new1 -> Q' r (new ++ new1)) -> emits I Q' (m ≫= k).
Proof.
  intros Hm Hk He Ha s l log HI. specialize (Hm s l log HI). unfold mbind, effect_bind.
  destruct (m (s, (l, log))) as [[s1 [l1 log1]] [a|e]]; destruct Hm as (HI1 & new & -> & Hn); [|split; [done|]; exists new; auto].
  specialize (Hk a s1 l1 (log ++ new) HI1). destruct (k a (s1, (l1, log ++ new))) as [[s2 [l2 log2]] r].
  destruct Hk as (HI2 & new2 & -> & Hn2). split; [done|]. exists (new ++ new2). rewrite app_assoc. eauto.
Qed.

Lemma emits_pure {S E A} I Q (m : effect (S * R) E A) (f : S -> S) :
  (forall w, (m w).1 = (f w.1, w.2) /\ Q (m w).2 []) -> (forall s, I s -> I (f s)) -> emits I Q m.
Proof.
  intros Hm HI s l log Hs. destruct (Hm (s, (l, log))) as [H1 H2]. destruct (m _) as [w r]. cbn in H1, H2. subst w. split; [auto|].
  exists []. by rewrite app_nil_r.
Qed.

Lemma emits_attempt {S E A} I Q (m : effect (S * R) E A) :
  emits I (fun r => Q (Ok r)) m -> emits (E := E) I Q (attempt m).
Proof. intros H s l log Hs. specialize (H s l log Hs). unfold attempt. by destruct (m _) as [[s1 [l1 log1]] r]. Qed.

Lemma sends_bind {S E A B} I K (m : effect (S * R) E A) (k : A -> effect (S * R) E B) :
  sends I K m -> (forall a, sends I K (k a)) -> sends I K (m ≫= k).
Proof. intros Hm Hk. eapply emits_bind; [exact Hm|exact Hk|done|]. intros a new r new1. apply Forall_app_2. Qed.
Lemma sends_ret {S E A} I K (a : A) : sends (S := S) (E := E) I K (mret a).
Proof. apply emits_pure with id; [by intros []; split|done]. Qed.
Lemma sends_raise {S E A} I K e : sends (S := S) (E := E) (A := A) I K (raise e).
Proof. apply emits_pure with id; [by intros []; split|done]. Qed.
Lemma sends_check {S E} I K b e : sends (S := S) (E := E) I K (check b e).
Proof. destruct b; [apply sends_ret|apply sends_raise]. Qed.
Lemma sends_of_some {S E A} I K (o : option A) e : sends (S := S) (E := E) I K (of_some o e).
Proof. destruct o; [apply sends_ret|apply sends_raise]. Qed.
Lemma sends_gets {S E A} I K (f : S * R -> A) : sends (S := S) (E := E) I K (gets f).
Proof. apply emits_pure with id; [by intros []; split|done]. Qed.
Lemma emits_gets {S E A} I (f : S * R -> A) : emits (S := S) (E := E) I (fun r new => new = [] /\ exists a, r = Ok a) (gets f).
Proof. apply emits_pure with id; [intros []; split; [done|split; [done|by eexists]]|done]. Qed.
Lemma sends_resume {S E A} I K (r : result E A) : sends (S := S) I K (resume r).
Proof. destruct r; [apply sends_ret|apply sends_raise]. Qed.
Lemma sends_attempt {S E A} I K (m : effect (S * R) E A) : sends I K m -> sends I K (attempt m).
Proof. intros H. by apply emits_attempt. Qed.
Lemma sends_modify {S E} I K f : (forall s, I s -> I (f s)) -> sends (S := S) (E := E) I K (modify (fun w => (f w.1, w.2))).
Proof. intros HI. apply emits_pure with f; [by intros []; split|done]. Qed.
Lemma sends_weaken {S E A} I (K K' : Ev -> Prop) (m : effect (S * R) E A) :
  (forall k, K k -> K' k) -> sends I K m -> sends I K' m.
Proof. intros HK H. eapply emits_consequence; [exact H|]. intros r new Hn. exact (Forall_impl _ _ _ Hn HK). Qed.

Lemma sends_all {S E A} I Q (m : effect (S * R) E A) : emits I Q m -> sends I (fun _ => True) m.
Proof. intros H. eapply emits_consequence; [exact H|]. intros r new _. by apply Forall_true. Qed.
End Sends.

Create HintDb trace.
#[export] Hint Resolve sends_bind sends_ret sends_raise sends_check sends_of_some sends_gets sends_resume sends_attempt : trace.

(** Whatever the answer to a command of this kind, what is noted of it is in [K]. *)
Definition permits {Ev} (W : Watch Ev) (K : Ev -> Prop) (kind : CommandKind) : Prop :=
  forall r, Forall K (Watch.of_request W kind r).

Lemma permits_kind (K : CommandKind -> Prop) kind : K kind -> permits sent_kinds K kind.
Proof. intros HK r. by constructor. Qed.
Lemma permits_all {Ev} (W : Watch Ev) kind : permits W (fun _ => True) kind.
Proof. intros r. by apply Forall_true. Qed.
#[export] Hint Resolve permits_kind permits_all : trace.

(** What a command is noted as, for the outcome of [command]. *)
Definition command_noted {Ev} (W : Watch Ev) (kind : CommandKind) (r : result session_error V3Response) (new : list Ev) : Prop :=
  exists raw, new = Watch.of_request W kind raw /\
    match r with
    | Ok a => raw = Ok a /\ ok a = true
    | Err (DeviceCommandError _ _ _) => forall a, raw = Ok a -> ok a = false
    | Err CommandTimeoutError => forall a, raw <> Ok a
    | Err _ => True
    end.

(** Commands that change nothing in the device. *)
Definition query (k : CommandKind) : Prop :=
  k ∈ [CommandKind.INFO; CommandKind.GET_CAPABILITIES; CommandKind.GET_SETTINGS; CommandKind.GET_STATUS].

(** What [stop] sends. *)
Definition stopping (k : CommandKind) : Prop := k ∈ [CommandKind.STOP; CommandKind.GET_STATUS].

(** Take a method apart, as far as what is noted goes. *)
Ltac sends_step :=
  first
    [ solve [eauto 3 with trace nocore]
    | apply sends_bind; [|intros ?]
    | apply sends_attempt
    | apply sends_modify; solve [intros []; done]
    | match goal with |- sends _ _ (match ?v with _ => _ end) => destruct v end ].

Section SessionSends.
Context {L Ev : Type} `{C : ReaderLink L} (W : Watch Ev) (K : Ev -> Prop).
#[local] Hint Extern 0 (ReaderLink (L * list Ev)) => exact (recording W) : typeclass_instances.
Abbreviation any := (fun _ : V3Session => True).
Abbreviation notes := (sends (L := L) (Ev := Ev) any K).
Abbreviation allowed := (permits W K).

(** One command of a session. *)
Lemma emits_command kind payload timeout :
  emits (L := L) any (command_noted W kind) (command (L := L * list Ev) kind payload timeout).
Proof.
  intros s l log HI. unfold command. cbn [fst snd].
  change (request (L := L * list Ev) (l, log) kind payload ?t) with
    (let '(l1, r) := request (L := L) l kind payload t in ((l1, log ++ Watch.of_request W kind r), r)).
  destruct (request l kind payload _) as [l1 raw].
  destruct raw as [r|e]; [destruct (ok r) eqn:Hok; cbn [negb]; [case_bool_decide; cbn [negb]|]|destruct e as [[]| |]].
  all: split; [done|]; eexists; split; [reflexivity|]; eexists; split; [reflexivity|]; try done. by intros a [= <-].
Qed.
Lemma sends_command kind payload timeout : allowed kind -> notes (command (L := L * list Ev) kind payload timeout).
Proof. intros HK. eapply emits_consequence; [apply emits_command|]. intros r new (raw & -> & _). apply HK. Qed.
#[local] Hint Resolve sends_command : trace.

Lemma session_info_sends : allowed CommandKind.INFO -> notes session_info.
Proof. intros Hi. unfold session_info, get_session. repeat sends_step. Qed.
#[local] Hint Resolve session_info_sends : trace.

Lemma get_capabilities_sends : allowed CommandKind.GET_CAPABILITIES -> notes get_capabilities.
Proof. intros Hc. unfold get_capabilities. repeat sends_step. Qed.

Lemma of_v3_sends {A} (m : v3 A) : notes (of_v3 m).
Proof. unfold of_v3. repeat sends_step. Qed.
#[local] Hint Resolve of_v3_sends : trace.

Lemma validate_applied_sends value refresh : allowed CommandKind.INFO -> notes (_validate_applied value refresh).
Proof. intros Hi. unfold _validate_applied, get_session. repeat sends_step. Qed.
#[local] Hint Resolve validate_applied_sends : trace.

Lemma get_settings_sends : allowed CommandKind.INFO -> allowed CommandKind.GET_SETTINGS -> notes get_settings.
Proof. intros Hi Hs. unfold get_settings, get_session. repeat sends_step. Qed.

Lemma session_status_sends timeout : allowed CommandKind.GET_STATUS -> notes (session_status timeout).
Proof. intros Hs. unfold session_status. repeat sends_step. Qed.
#[local] Hint Resolve session_status_sends : trace.

Lemma drain_loop_sends now deadline fuel : allowed CommandKind.GET_STATUS -> forall i, notes (drain_loop fuel now deadline i).
Proof. intros Hs. induction fuel as [|fuel IH]; intros i; cbn [drain_loop]; unfold get_session; repeat sends_step; apply IH. Qed.

(** STOP goes first, then only STATUS. *)
Lemma session_stop_emits fuel now : allowed CommandKind.GET_STATUS ->
  emits (L := L) (Ev := Ev) any
    (fun _ new => exists raw rest, new = Watch.of_request W CommandKind.STOP raw ++ rest /\ Forall K rest) (session_stop fuel now).
Proof.
  intros HK. unfold session_stop. eapply (emits_bind _ _ (fun _ _ new => exists raw rest, new = Watch.of_request W CommandKind.STOP raw ++ rest /\ Forall K rest)).
  { apply emits_gets. }
  2: { by intros e new [_ [? ?]]. }
  2: { by intros a new r new1 [-> _] Hq. }
  intros s. cbv zeta. eapply emits_bind; [apply emits_command|..].
  2: { intros e new (raw & -> & _). exists raw, []. by rewrite app_nil_r. }
  - intros r. refine (_ : notes _). pose proof (drain_loop_sends now (now 0%nat + V3Session.timeout s) fuel HK). repeat sends_step.
  - intros a new r new1 (raw & -> & _) Hn. by exists raw, new1.
Qed.

Lemma session_stop_sends fuel now : allowed CommandKind.STOP -> allowed CommandKind.GET_STATUS -> notes (session_stop fuel now).
Proof.
  intros HK Hs. eapply emits_consequence; [by apply session_stop_emits|]. intros r new (raw & rest & -> & H).
  apply Forall_app. split; [apply HK|done].
Qed.
End SessionSends.

#[export] Hint Resolve get_capabilities_sends get_settings_sends session_info_sends session_status_sends : trace.

(** ** What the client's methods note *)

(** The client follows the policy [p]. *)
Definition following (p : SessionRecoveryPolicy) (d : ThingDAQ) : Prop :=
  ClientOptions.session_policy (ThingDAQ.options d) = p.

(** A property of the options and of being closed. *)
Definition lasting (I : ThingDAQ -> Prop) : Prop :=
  forall d d', ThingDAQ.options d' = ThingDAQ.options d -> ThingDAQ._closed d' = ThingDAQ._closed d -> I d -> I d'.

Lemma following_lasting p : lasting (following p).
Proof. intros d d' Ho _. unfold following. by rewrite Ho. Qed.

Section ClientSends.
Context {L Ev : Type} (I : ThingDAQ -> Prop).
Abbreviation R := (L * list Ev)%type.
Abbreviation fits := (sends (L := L) (Ev := Ev) I).

Lemma emits_on_session {A} (Q : result session_error A -> list Ev -> Prop) (Q' : result daq_error A -> list Ev -> Prop)
    (m : session_method R A) :
  lasting I -> emits (L := L) (fun _ => True) Q m -> Q' (Err OlderProtocol) [] ->
  (forall r new, Q r new -> Q' (match r with Ok a => Ok a | Err e => Err (SessionRaised e) end) new) ->
  emits (L := L) I Q' (on_session m).
Proof.
  intros HI Hm Hn HQ d l log Hd. unfold on_session. cbn [fst snd]. destruct (ThingDAQ._v3 d) as [s|].
  - specialize (Hm s l log Logic.I). destruct (m (s, (l, log))) as [[s1 [l1 log1]] r]. destruct Hm as (_ & new & -> & Hq).
    split; [by apply (HI d); [destruct d..|]|]. exists new. auto.
  - split; [done|]. exists []. by rewrite app_nil_r.
Qed.

Lemma on_session_sends {A} K (m : session_method R A) :
  lasting I -> sends (L := L) (fun _ => True) K m -> fits K (on_session m).
Proof. intros HI Hm. by eapply emits_on_session. Qed.

Lemma sends_client_bind {B} K (k : ThingDAQ -> daq_method R B) :
  (forall d, I d -> fits K (k d)) -> fits K (client ≫= k).
Proof. intros H d l log HI. exact (H d HI d l log HI). Qed.

Lemma sends_update K f : (forall d, I d -> I (f d)) -> fits K (update f).
Proof. apply sends_modify. Qed.

Lemma sends_update_lasting K f :
  lasting I -> (forall d, ThingDAQ.options (f d) = ThingDAQ.options d /\ ThingDAQ._closed (f d) = ThingDAQ._closed d) -> fits K (update f).
Proof. intros HI Hf. apply sends_update. intros d. destruct (Hf d). by apply HI. Qed.

Lemma sends_on_stream K f : lasting I -> fits K (update (on_stream f)).
Proof. intros HI. apply sends_update_lasting; [done|]. by intros []. Qed.

Lemma sends_policy_applied K : lasting I -> fits K (update set_policy_applied).
Proof. intros HI. apply sends_update_lasting; [done|]. by intros []. Qed.

Lemma sends_ask {A} K (q : R -> R * A) : (forall w, (q w).1.2 = w.2) -> fits K (ask q).
Proof.
  intros Hq d l log HI. specialize (Hq (l, log)). unfold ask. cbn [snd fst] in *. destruct (q (l, log)) as [[l1 log1] a].
  cbn in Hq. subst log1. split; [done|]. exists []. by rewrite app_nil_r.
Qed.

Lemma silent_quiet {A} (q : L -> L * A) (w : R) : (silent q w).1.2 = w.2.
Proof. unfold silent. by destruct (q w.1). Qed.

Lemma quiet_bind {A B} Q (m : daq_method R A) (k : A -> daq_method R B) :
  fits (fun _ => False) m -> (forall a, emits (L := L) I Q (k a)) -> (forall e, Q (Err e) []) ->
  emits (L := L) I Q (m ≫= k).
Proof.
  intros Hm Hk He. eapply (emits_bind _ _ (fun _ => Q)); [exact Hm|exact Hk|..].
  - intros e [|k0 new] Hn; [apply He|by inversion Hn].
  - intros a [|k0 new] r new1 Hn; [done|by inversion Hn].
Qed.

Lemma emits_nothing {A} Q (m : daq_method R A) :
  fits (fun _ => False) m -> (forall r, Q r []) -> emits (L := L) I Q m.
Proof. intros Hm HQ. eapply emits_consequence; [exact Hm|]. intros r [|k new] Hn; [apply HQ|by inversion Hn]. Qed.
End ClientSends.

#[export] Hint Resolve sends_on_stream on_session_sends sends_policy_applied following_lasting : trace.
#[export] Hint Extern 2 (sends _ _ (ask _)) => apply sends_ask; intros ?; apply silent_quiet : trace.
#[export] Hint Extern 2 (sends _ _ client) => apply sends_gets : trace.

(** What a negotiation that ends with [r] is noted as: the rejections, then the answer, if one
    was asked for. *)
Definition negotiation_noted {Ev} (W : Watch Ev) (r : result reader_error InfoReply) (new : list Ev) : Prop :=
  exists rejected final,
    new = concat (map (fun v => Watch.of_probe W (Err (ProtocolVersionRejected v))) rejected) ++ final /\
    (final = Watch.of_probe W r \/ final = [] /\ exists e, r = Err e).

Section OpeningSends.
Context {L Ev : Type} `{C : ReaderLink L} (W : Watch Ev) (K : Ev -> Prop) (I : ThingDAQ -> Prop) (HI : lasting I).
#[local] Hint Extern 0 (ReaderLink (L * list Ev)) => exact (recording W) : typeclass_instances.
#[local] Hint Extern 0 (lasting I) => exact HI : trace.
Abbreviation R := (L * list Ev)%type.
Abbreviation fits := (sends (L := L) (Ev := Ev) I).
Abbreviation allowed := (permits W K).

Lemma ensure_open_sends J : fits J _ensure_open.
Proof. unfold _ensure_open. repeat sends_step. Qed.
#[local] Hint Resolve ensure_open_sends : trace.

Lemma require_v3_sends J : fits J require_v3.
Proof. unfold require_v3. repeat sends_step. Qed.
#[local] Hint Resolve require_v3_sends : trace.

Lemma validate_info_identity_sends J i : fits J (_validate_info_identity i).
Proof. unfold _validate_info_identity. repeat sends_step. Qed.

Lemma daq_stop_sends fuel now : allowed CommandKind.STOP -> allowed CommandKind.GET_STATUS -> fits K (daq_stop fuel now).
Proof. intros H1 H2. unfold daq_stop. pose proof (session_stop_sends (L := L) W K fuel now H1 H2). repeat sends_step. Qed.

Lemma reset_observations_sends J : fits J reset_observations.
Proof.
  unfold reset_observations. sends_step; [by sends_step|]. apply sends_update_lasting; [done|]. by intros [].
Qed.
#[local] Hint Resolve reset_observations_sends : trace.

Lemma adopt_running_sends J snapshot : fits J (adopt_running snapshot).
Proof. unfold adopt_running, set_client_state. repeat sends_step. Qed.

Lemma take_over_sends fuel clock :
  (forall k, query k -> allowed k) -> (forall d, I d -> ClientOptions.session_policy (ThingDAQ.options d) = STOP -> allowed CommandKind.STOP) ->
  fits K (take_over fuel clock).
Proof.
  intros Hq Hstop. unfold take_over.
  assert (H1 : allowed CommandKind.INFO) by (apply Hq; unfold query; set_solver).
  assert (H2 : allowed CommandKind.GET_CAPABILITIES) by (apply Hq; unfold query; set_solver).
  assert (H3 : allowed CommandKind.GET_SETTINGS) by (apply Hq; unfold query; set_solver).
  assert (H4 : allowed CommandKind.GET_STATUS) by (apply Hq; unfold query; set_solver).
  pose proof (get_capabilities_sends (L := L) W K H2). pose proof (get_settings_sends (L := L) W K H1 H3).
  pose proof (session_status_sends (L := L) W K None H4).
  do 3 (sends_step; [by sends_step|]). cbv zeta. sends_step; [by sends_step|]. apply sends_client_bind. intros d Hd.
  sends_step; [|by sends_step]. case_bool_decide; [by sends_step|]. case_bool_decide as Hp.
  - sends_step; [|by sends_step]. apply daq_stop_sends; [by apply (Hstop d)|done].
  - case_bool_decide; [apply adopt_running_sends|by sends_step].
Qed.

Lemma start_client_sends J : fits J start_client.
Proof. unfold start_client. repeat sends_step. Qed.

Lemma probe_loop_noted now versions : forall version deadline i l log,
  let '((_, log'), _, r) := probe_loop (L := R) (R := InfoReply) now versions version deadline i (l, log) in
  exists new, log' = log ++ new /\ negotiation_noted W r new.
Proof.
  induction versions as [|next versions IH]; intros version deadline i l log; cbn [probe_loop].
  all: destruct (deadline - now i <=? 0).
  1, 3: exists []; rewrite app_nil_r; split; [done|]; exists [], []; split; [done|]; right; split; [done|]; by eexists.
  all: change (probe_request (l, log) version ?t) with
    (let '(l1, r) := probe_request (L := L) l version t in ((l1, log ++ Watch.of_probe W r), r));
    destruct (probe_request l version _) as [l1 r].
  - by destruct r as [r|[]]; eexists; (split; [reflexivity|]); exists []; eexists; (split; [reflexivity|]); left.
  - destruct r as [r|[]]; try (by eexists; (split; [reflexivity|]); exists []; eexists; (split; [reflexivity|]); left).
    match goal with |- context [Err (ProtocolVersionRejected ?v)] => set (e := v) end.
    specialize (IH next deadline (S i) l1 (log ++ Watch.of_probe W (Err (ProtocolVersionRejected e)))).
    destruct (probe_loop _ _ _ _ _ _) as [[[l2 log2] n] r]. destruct IH as (new & -> & rejected & final & -> & Hf).
    eexists. rewrite <-app_assoc. split; [reflexivity|]. exists (e :: rejected), final. cbn [map concat]. by rewrite <-app_assoc.
Qed.

Lemma negotiate_noted now :
  emits (L := L) I (fun r' new => exists r, negotiation_noted W r new /\ forall a, r' = Ok a <-> r = Ok a) (negotiate now).
Proof.
  intros d l log Hd. unfold negotiate. cbn [fst snd]. unfold probe.
  pose proof (probe_loop_noted now (InfoNegotiation._versions (ThingDAQ._negotiation d)) (InfoNegotiation.version (ThingDAQ._negotiation d))
    (now 0%nat + ClientOptions.command_timeout (ThingDAQ.options d)) 1 l log) as H.
  destruct (probe_loop _ _ _ _ _ _) as [[[l1 log1] n] r]. destruct H as (new & -> & Hn).
  split; [by apply (HI d); [destruct d..|]|].
  exists new. split; [done|]. exists r. split; [done|]. intros a. destruct r as [r|[]]; split; congruence.
Qed.
End OpeningSends.

(** ** Which commands opening sends *)

Section OpeningCommands.
Context {L : Type} `{C : ReaderLink L} (p : SessionRecoveryPolicy).
Abbreviation R := (L * list CommandKind)%type.
Abbreviation fits := (sends (L := L) (Ev := CommandKind) (following p)).

(** Queries; STOP under the policy STOP. *)
Definition careful (k : CommandKind) : Prop := query k \/ p = STOP /\ k = CommandKind.STOP.

Lemma take_over_careful fuel clock : fits careful (take_over fuel clock).
Proof.
  apply (take_over_sends sent_kinds careful (following p) (following_lasting p)).
  - intros k Hk. apply permits_kind. by left.
  - intros d Hd Hp. apply permits_kind. right. split; [|done]. by rewrite <-Hp.
Qed.

(** INFO only, and at least one for an answer. *)
Definition asked {A E} (r : result E A) (new : list CommandKind) : Prop :=
  Forall (fun k => k = CommandKind.INFO) new /\ forall a, r = Ok a -> new <> [].

Lemma negotiate_asks now : emits (L := L) (following p) asked (negotiate now).
Proof.
  eapply emits_consequence; [apply (negotiate_noted sent_kinds (following p) (following_lasting p))|].
  intros r' new (r & (rejected & final & -> & Hf) & Hr). split.
  - apply Forall_app. split; [by induction rejected; cbn; [|constructor]|]. destruct Hf as [->|[-> _]]; [by constructor|done].
  - intros a Ha Hnil. apply app_nil in Hnil as [_ ->]. destruct Hf as [Hf|(_ & e & ->)]; [done|]. by apply Hr in Ha.
Qed.

Lemma asked_bind {A B} (m : daq_method R A) (k : A -> daq_method R B) :
  emits (L := L) (following p) asked m -> (forall a, fits (fun k => k = CommandKind.INFO) (k a)) ->
  emits (L := L) (following p) asked (m ≫= k).
Proof.
  intros Hm Hk. eapply emits_bind; [exact Hm|exact Hk|by intros e new [H _]|].
  intros a new r new1 [Hn Ha] Hn1. split; [by apply Forall_app|]. intros b _ Hnil. apply app_nil in Hnil as [Hnil _]. by eapply Ha.
Qed.

(** A probe sends INFO only, and at least one for an answer. *)
Lemma probe_info_asks now : emits (L := L) (following p) asked (_probe_info now).
Proof.
  assert (He : forall A (e : daq_error), asked (A := A) (Err e) []) by done.
  pose proof (validate_info_identity_sends (L := L) (following p) (fun k => k = CommandKind.INFO)).
  unfold _probe_info. apply quiet_bind; [apply sends_gets| |done]. intros d. case_bool_decide.
  - apply quiet_bind; [apply sends_check| |done]. intros _. apply asked_bind; [apply negotiate_asks|]. intros reply.
    repeat sends_step.
  - apply asked_bind.
    + apply (emits_on_session (following p) (fun r new => asked r new)); [apply following_lasting| |done|].
      * unfold session_info. eapply emits_bind; [apply (emits_command sent_kinds)|..].
        -- intros r. refine (_ : sends (fun _ => True) (fun k => k = CommandKind.INFO) _). unfold get_session. repeat sends_step.
        -- intros e new (raw & -> & _). split; [by repeat constructor|done].
        -- intros a new r new1 (raw & -> & _) Hn. split; [by constructor|done].
      * intros r new [Hn Ha]. split; [done|]. intros a Hr. destruct r; [by eapply Ha|done].
    + intros i. repeat sends_step.
Qed.

(** [n] INFO requests or more before anything else of [K]. *)
Definition probes_first (n : nat) (K : CommandKind -> Prop) (log : list CommandKind) : Prop :=
  exists infos rest, log = infos ++ rest /\ Forall (fun k => k = CommandKind.INFO) infos /\ Forall K rest /\
    (rest <> [] -> (n <= length infos)%nat).

Lemma probes_none n : probes_first n careful [].
Proof. by exists [], []. Qed.

Lemma sync_loop_order now fuel clock attempts : forall (first : option DeviceIdentitySnapshot) last,
  emits (L := L) (following p) (fun _ => probes_first (match first with Some _ => 1 | None => 2 end) careful) (sync_loop attempts now fuel clock first last).
Proof.
  induction attempts as [|attempts IH]; intros first last; cbn [sync_loop].
  { apply emits_nothing; [apply sends_raise|]. intros r. apply probes_none. }
  pose (left (outcome : result daq_error (V3Info * DeviceIdentitySnapshot)) :=
    match outcome, first with Ok _, None => 1%nat | Err _, None => 2%nat | Ok _, Some _ => 0%nat | Err _, Some _ => 1%nat end).
  apply (emits_bind _ (fun r new => match r with Ok r => asked r new | Err _ => False end)
    (fun outcome _ => probes_first (left outcome) careful)); [apply emits_attempt, probe_info_asks| |done|].
  - intros outcome.
    destruct outcome as [[i v]|e].
    + destruct first as [v0|]; [|apply IH].
      eapply emits_consequence with (Q := fun _ => Forall careful).
      * refine (_ : fits careful _). pose proof (take_over_careful fuel clock). repeat sends_step.
      * intros r new Hn. by exists [], new.
    + destruct (retryable e); [|apply emits_nothing; [apply sends_raise|intros r; apply probes_none]].
      eapply emits_consequence; [apply (IH first (Some e))|]. by destruct first.
  - cbn beta. intros outcome new r new1 [Hn Ha] (infos & rest & -> & Hi & Hr & Hlen).
    exists (new ++ infos), rest. rewrite <-app_assoc. split; [done|]. split; [by apply Forall_app|]. split; [done|].
    intros Hne. specialize (Hlen Hne). rewrite length_app. unfold left in Hlen.
    destruct outcome as [a|e], first as [v0|]; cbn in *; try lia.
    all: specialize (Ha a eq_refl); destruct new; [done|]; cbn; lia.
Qed.

Lemma known_bind {A B} K (a : A) (k : A -> daq_method R B) : fits K (k a) -> fits K (mret a ≫= k).
Proof. intros H. exact H. Qed.

(** [close(stop=False)] *)
Lemma daq_close_quiet fuel now : fits (fun _ => False) (daq_close false fuel now).
Proof.
  unfold daq_close. apply sends_client_bind. intros d _. destruct (ThingDAQ._closed d); [apply sends_ret|].
  apply known_bind. cbv zeta. apply known_bind. apply sends_bind; [|intros a; sends_step; [|by destruct a; sends_step]].
  - apply sends_ask. intros w. unfold shut_reader at 1. cbn. unfold noted. by destruct (shut_reader w.1).
  - apply sends_update. by intros [].
Qed.

Lemma open_client_order attempts now fuel clock :
  emits (L := L) (following p) (fun _ => probes_first 2 careful) (open_client attempts now fuel clock).
Proof.
  unfold open_client. apply quiet_bind; [apply sends_attempt, start_client_sends| |by exists [], []]. intros [u|e].
  2: { apply emits_nothing; [|intros; apply probes_none]. apply sends_bind; [|intros _; by sends_step]. apply sends_ask. intros w.
       unfold close_transport at 1. cbn. unfold noted. by destruct (close_transport w.1). }
  assert (Hclosing : forall outcome : result daq_error V3Info, fits (fun _ => False)
     (match outcome with Ok i => mret i | Err e => _ ← attempt (daq_close false fuel clock); raise e end)).
  { intros outcome. pose proof (daq_close_quiet fuel clock). repeat sends_step. }
  eapply (emits_bind _ (fun _ => probes_first 2 careful)); [apply emits_attempt|exact Hclosing|done|].
  - unfold synchronize. apply quiet_bind; [apply sends_check| |intros; apply probes_none]. intros _. apply (sync_loop_order now fuel clock _ None None).
  - intros outcome new r [|k new1] Hn Hf; [by rewrite app_nil_r|by inversion Hf].
Qed.
End OpeningCommands.

(** C9. Opening a device is careful: whatever the reader and the device answer, and whether
    [open] returns or raises, the commands it sends are INFO requests, at least two of
    them before anything else, then only queries (GET_CAPABILITIES, GET_SETTINGS,
    GET_STATUS, INFO); a STOP is among them only under the policy STOP.  Nothing is ever
    configured or started, and a failed opening closes without STOP. *)
Theorem open_sends {L} `{ReaderLink L} (o : ClientOptions) (attempts : Z) (now : nat -> nat -> Z) (fuel : nat) (clock : nat -> Z) (l : L) :
  let '((_, (_, log)), _) := open_client attempts now fuel clock (new_client o, (l, [])) in
  probes_first 2 (fun k => query k \/ ClientOptions.session_policy o = STOP /\ k = CommandKind.STOP) log.
Proof.
  pose proof (open_client_order (ClientOptions.session_policy o) attempts now fuel clock (new_client o) l [] eq_refl) as Ho.
  destruct (open_client _ _ _ _ _) as [[d [l1 log]] r]. by destruct Ho as (_ & new & -> & Hn).
Qed.

(** ** Closing *)

(** The calls that begin with [_ensure_open]. *)
Definition guarded (o : ClientOptions) (c : client_call) : Prop :=
  match c with
  | DoInfo | DoGetCapabilities | DoGetSettings | DoConfigure _ _ | DoStart | DoStatus | DoStop _ _ | DoLossCounters true
  | DoValidateHealth _ => True
  | DoReadBlock timeout => 0 < default (ClientOptions.block_timeout o) timeout
  | _ => False
  end.

(** STOP first, then only STATUS. *)
Definition stop_first (sent : list CommandKind) : Prop :=
  exists rest, sent = CommandKind.STOP :: rest /\ Forall (fun k => k = CommandKind.GET_STATUS) rest.

Section Closing.
Context {L : Type} `{C : ReaderLink L}.
Abbreviation R := (L * list CommandKind)%type.

Lemma ensure_open_closed (w : ThingDAQ * L) :
  ThingDAQ._closed w.1 = true -> _ensure_open w = (w, Err (DAQClosedError "ThingDAQ is closed")).
Proof. intros Hc. unfold _ensure_open, mbind, effect_bind, client, gets. by rewrite Hc. Qed.

(** A closed client refuses and sends nothing. *)
Lemma closed_refuses c (w : ThingDAQ * L) :
  ThingDAQ._closed w.1 = true -> guarded (ThingDAQ.options w.1) c ->
  perform c w = (w, Err (DAQClosedError "ThingDAQ is closed")).
Proof.
  intros Hc Hg. pose proof (ensure_open_closed w Hc) as He. destruct c as [| | | | | | | |timeout| |[]| | |]; try done.
  all: cbn [perform]; unfold daq_info, daq_get_capabilities, daq_get_settings, daq_configure, daq_start, daq_status, daq_stop,
    daq_read_block, _require_state, loss_counters, validate_stream_health, daq_status; unfold mbind, effect_bind; try (by rewrite He).
  unfold client, gets. cbv beta iota zeta. apply Z.ltb_lt in Hg. rewrite Hg. cbn [check]. unfold mret, effect_ret. by rewrite He.
Qed.

(** The two questions of [_ensure_open] are answered with yes. *)
Definition alive (l : L) : Prop :=
  (is_running l).2 = true /\ (transport_is_open (is_running l).1).2 = true.

Lemma ask_silent {A} (q : L -> L * A) d l (log : list CommandKind) l' a :
  q l = (l', a) -> ask (silent q) (d, (l, log)) = ((d, (l', log)), Ok a).
Proof. intros Hq. unfold ask, silent. cbn [fst snd]. by rewrite Hq. Qed.

Lemma ask_running d l log l' a : is_running l = (l', a) -> ask (L := R) is_running (d, (l, log)) = ((d, (l', log)), Ok a).
Proof. apply (ask_silent is_running). Qed.
Lemma ask_open d l log l' a : transport_is_open l = (l', a) -> ask (L := R) transport_is_open (d, (l, log)) = ((d, (l', log)), Ok a).
Proof. apply (ask_silent transport_is_open). Qed.

Lemma session_stop_first fuel now :
  emits (L := L) (fun _ => True) (fun _ => stop_first) (session_stop fuel now).
Proof.
  eapply emits_consequence; [apply (session_stop_emits sent_kinds (fun k => k = CommandKind.GET_STATUS)); by apply permits_kind|].
  intros r new (raw & rest & -> & H). by exists rest.
Qed.

Lemma daq_stop_sends_stop fuel now d l log :
  ThingDAQ._closed d = false -> ThingDAQ._v3 d <> None -> alive l ->
  let '((_, (_, log')), _) := daq_stop (L := R) fuel now (d, (l, log)) in exists sent, log' = log ++ sent /\ stop_first sent.
Proof.
  intros Hc Hs [H1 H2]. destruct (ThingDAQ._v3 d) as [s|] eqn:Hs1; [|done].
  destruct (is_running l) as [l1 a] eqn:E1. cbn in H1, H2. subst a. destruct (transport_is_open l1) as [l2 b] eqn:E2. cbn in H2. subst b.
  assert (He : _ensure_open (L := R) (d, (l, log)) = ((d, (l2, log)), Ok tt)).
  { unfold _ensure_open, mbind, effect_bind, client, gets. cbn [fst snd]. rewrite Hc. cbn [negb check]. unfold mret, effect_ret.
    rewrite (ask_running d l log l1 true E1). by rewrite (ask_open d l1 log l2 true E2). }
  unfold daq_stop. rewrite (bind_run _ _ _ _ _ He).
  assert (Hv : require_v3 (d, (l2, log)) = ((d, (l2, log)), Ok s)).
  { unfold require_v3, mbind, effect_bind, client, gets. cbn [fst]. by rewrite Hs1. }
  rewrite (bind_run _ _ _ _ _ Hv).
  pose proof (session_stop_first fuel now s l2 log Logic.I) as Hse.
  destruct (session_stop fuel now (s, (l2, log))) as [[s3 [l3 log3]] r] eqn:Hstop. destruct Hse as (_ & sent & -> & Hsent).
  assert (Ho : on_session (session_stop fuel now) (d, (l2, log)) = ((set_session s3 d, (l3, log ++ sent)),
    match r with Ok a => Ok a | Err e => Err (SessionRaised e) end)).
  { unfold on_session. cbn [fst snd]. by rewrite Hs1, Hstop. }
  unfold mbind, effect_bind. rewrite Ho. destruct r; by exists sent.
Qed.
Lemma daq_stop_emits p fuel now :
  emits (L := L) (Ev := CommandKind) (following p) (fun _ sent => sent = [] \/ stop_first sent) (daq_stop fuel now).
Proof.
  unfold daq_stop. apply quiet_bind; [apply (ensure_open_sends sent_kinds)| |by left]. intros _.
  apply quiet_bind; [apply require_v3_sends| |by left]. intros _.
  apply (emits_bind _ (fun _ sent => sent = [] \/ stop_first sent) (fun _ _ sent => sent = [])).
  - eapply (emits_on_session (following p)); [apply following_lasting|apply session_stop_first|by left|]. intros r new Hn. by right.
  - intros state. apply emits_nothing; [repeat sends_step|done].
  - done.
  - intros a new r new1 Hn ->. by rewrite app_nil_r.
Qed.

End Closing.

(** ** How closing ends *)

(** The error of an outcome. *)
Definition failure {E A} (r : result E A) : option E := match r with Err e => Some e | Ok _ => None end.

(** The client configured its device, or runs it. *)
Definition streaming (c : ClientStream) : bool :=
  match ClientStream._state c with Some V1DeviceState.CONFIGURED | Some V1DeviceState.RUNNING => true | _ => false end.

(** What [close] returns for the outcomes of STOP and of the reader's own close. *)
Definition close_result (stopped : result daq_error DeviceState) (shut : result reader_error unit) : result daq_error unit :=
  match stopped, shut with
  | Ok _, Ok _ => Ok tt
  | _, _ => Err (DAQShutdownError (failure stopped) (failure shut))
  end.

Definition closed_client (d : ThingDAQ) : ThingDAQ :=
  on_stream (fun c => _clear_stream_expectations false (set_pending_items [] c)) (set_closed d).

Lemma closed_client_facts d :
  ThingDAQ._closed (closed_client d) = true /\ ClientStream._pending_items (ThingDAQ.stream (closed_client d)) = [] /\
  expects_nothing (ThingDAQ.stream (closed_client d)).
Proof. destruct d as [o s c n i p b x]. destruct c. split; [done|]. split; [done|]. by intros []. Qed.

Section CloseRun.
Context {L Ev : Type} `{C : ReaderLink L} (W : Watch Ev).
#[local] Hint Extern 0 (ReaderLink (L * list Ev)) => exact (recording W) : typeclass_instances.

(** The run of [close] on an open client, whatever is watched. *)
Lemma close_run (stop : bool) fuel now d l (log : list Ev) :
  ThingDAQ._closed d = false ->
  exists l1 running d2 l2 log2 stopped l3 shut,
    (if stop then is_running l = (l1, running) else l1 = l /\ running = false) /\
    (if running && streaming (ThingDAQ.stream d)
     then daq_stop (L := L * list Ev) fuel now (d, (l1, log)) = ((d2, (l2, log2)), stopped)
     else d2 = d /\ l2 = l1 /\ log2 = log /\ stopped = Ok DeviceState.STOPPED) /\
    shut_reader l2 = (l3, shut) /\
    daq_close (L := L * list Ev) stop fuel now (d, (l, log)) = ((closed_client d2, (l3, Watch.on_shut W log2)), close_result stopped shut).
Proof.
  intros Hc. unfold daq_close. unfold mbind at 1, effect_bind at 1. unfold client at 1, gets at 1. cbn [fst]. rewrite Hc.
  assert (Hrun : exists l1 running,
    (if stop then ask (L := L * list Ev) is_running else mret false : daq_method (L * list Ev) bool) (d, (l, log)) = ((d, (l1, log)), Ok running)
    /\ (if stop then is_running l = (l1, running) else l1 = l /\ running = false)).
  { destruct stop; [|by exists l, false]. destruct (is_running l) as [l1 running] eqn:E. exists l1, running.
    split; [|done]. unfold ask. cbn [snd fst]. change (is_running (L := L * list Ev) (l, log)) with (silent (L := L) (Ev := Ev) is_running (l, log)).
    unfold silent. cbn [fst snd]. by rewrite E. }
  destruct Hrun as (l1 & running & Hrun & Hr). rewrite (bind_run _ _ _ _ _ Hrun). cbv zeta. fold (streaming (ThingDAQ.stream d)).
  assert (Hstop : exists d2 l2 log2 stopped,
    (if running && streaming (ThingDAQ.stream d) then attempt (daq_stop (L := L * list Ev) fuel now) else mret (Ok DeviceState.STOPPED)
      : daq_method (L * list Ev) (result daq_error DeviceState)) (d, (l1, log))
      = ((d2, (l2, log2)), Ok stopped) /\
    (if running && streaming (ThingDAQ.stream d)
     then daq_stop (L := L * list Ev) fuel now (d, (l1, log)) = ((d2, (l2, log2)), stopped)
     else d2 = d /\ l2 = l1 /\ log2 = log /\ stopped = Ok DeviceState.STOPPED)).
  { destruct (running && _); [|by exists d, l1, log, (Ok DeviceState.STOPPED)]. unfold attempt.
    destruct (daq_stop fuel now (d, (l1, log))) as [[d2 [l2 log2]] stopped]. by exists d2, l2, log2, stopped. }
  destruct Hstop as (d2 & l2 & log2 & stopped & Hstop & Hwhat). rewrite (bind_run _ _ _ _ _ Hstop).
  destruct (shut_reader l2) as [l3 shut] eqn:Hshut.
  assert (Hask : ask (L := L * list Ev) shut_reader (d2, (l2, log2)) = ((d2, (l3, Watch.on_shut W log2)), Ok shut)).
  { unfold ask. cbn [snd fst]. change (shut_reader (L := L * list Ev) (l2, log2)) with (noted (L := L) (Watch.on_shut W) shut_reader (l2, log2)).
    unfold noted. cbn [fst snd]. by rewrite Hshut. }
  rewrite (bind_run _ _ _ _ _ Hask). exists l1, running, d2, l2, log2, stopped, l3, shut. split; [exact Hr|]. split; [exact Hwhat|].
  split; [done|]. by destruct stopped, shut.
Qed.
End CloseRun.

(** C12. Closing.  Whatever raises, [close] leaves the client closed, with nothing pending and
    nothing expected.  It asks for STOP when [stop] is given, the reader runs and the device
    was configured or runs, closes the reader in any case, and returns only when both
    succeeded; otherwise what it raises is one error with the failure of STOP, if it failed,
    and the failure of the reader's close, if it failed.  It sends nothing but one STOP and
    the STATUS requests of the drain: nothing with [stop=False], and the STOP of an opened
    client whose reader runs and whose transport is open.  From then on closing again does
    nothing, and every call that begins with [_ensure_open] raises and sends nothing. *)
Theorem close_outcome {L} `{ReaderLink L} (stop : bool) (fuel : nat) (now : nat -> Z) (d : ThingDAQ) (l : L) (log : list CommandKind) :
  let '((d', (l', log')), r) := daq_close stop fuel now (d, (l, log)) in
  ThingDAQ._closed d' = true /\
  (ThingDAQ._closed d = true -> d' = d /\ l' = l /\ log' = log /\ r = Ok tt) /\
  (ThingDAQ._closed d = false ->
     ClientStream._pending_items (ThingDAQ.stream d') = [] /\ expects_nothing (ThingDAQ.stream d') /\
     (exists l1 running d2 l2 stopped shut,
        (if stop then is_running l = (l1, running) else l1 = l /\ running = false) /\
        (if running && streaming (ThingDAQ.stream d) then daq_stop fuel now (d, (l1, log)) = ((d2, (l2, log')), stopped)
         else l2 = l1 /\ log' = log /\ stopped = Ok DeviceState.STOPPED) /\
        shut_reader l2 = (l', shut) /\
        r = match stopped, shut with
            | Ok _, Ok _ => Ok tt
            | _, _ => Err (DAQShutdownError (failure stopped) (failure shut))
            end) /\
     exists sent, log' = log ++ sent /\ (sent = [] \/ stop = true /\ stop_first sent) /\
       (stop = true -> ready (ThingDAQ.stream d) -> ThingDAQ._v3 d <> None ->
        (is_running l).2 = true -> alive (is_running l).1 -> stop_first sent)) /\
  forall c, guarded (ThingDAQ.options d') c ->
    perform c (d', (l', log')) = ((d', (l', log')), Err (DAQClosedError "ThingDAQ is closed")).
Proof.
  destruct (ThingDAQ._closed d) eqn:Hc.
  { unfold daq_close, mbind, effect_bind, client, gets. cbn [fst]. rewrite Hc. split; [done|]. split; [done|]. split; [done|].
    intros c. by apply (closed_refuses c (d, (l, log))). }
  destruct (close_run sent_kinds stop fuel now d l log Hc) as (l1 & running & d2 & l2 & log2 & stopped & l3 & shut & Hr & Hstop & Hshut & Hrun).
  change (@daq_close _ (recording sent_kinds)) with (@daq_close _ (@recorded L _)) in Hrun. rewrite Hrun.
  destruct (closed_client_facts d2) as (Hc3 & Hp3 & Hn3). split; [done|]. split; [done|]. split.
  - intros _. split; [done|]. split; [done|]. split.
    + exists l1, running, d2, l2, stopped, shut. split; [done|]. split; [|done]. destruct (running && _); [done|by destruct Hstop as (_ & ? & ? & ?)].
    + change (Watch.on_shut sent_kinds log2) with log2.
      destruct (running && streaming (ThingDAQ.stream d)) eqn:Hw.
      * pose proof (daq_stop_emits (ClientOptions.session_policy (ThingDAQ.options d)) fuel now d l1 log eq_refl) as He.
        pose proof (daq_stop_sends_stop fuel now d l1 log Hc) as Hs.
        change (@daq_stop _ (recording sent_kinds)) with (@daq_stop _ (@recorded L _)) in Hstop. rewrite Hstop in He, Hs. destruct He as (_ & sent & -> & Hsent).
        apply andb_true_iff in Hw as [-> _]. assert (stop = true) as -> by (destruct stop; [done|by destruct Hr]).
        exists sent. split; [done|]. split; [destruct Hsent; auto|]. intros _ _ Hv _ Ha. rewrite Hr in Ha.
        destruct (Hs Hv Ha) as (sent' & Heq & Hf). apply app_inv_head in Heq. by subst.
      * destruct Hstop as (_ & _ & -> & _). exists []. rewrite app_nil_r. split; [done|]. split; [by left|].
        intros -> Hready _ Hrunning _. rewrite Hr in Hrunning. cbn in Hrunning. subst running. unfold streaming in Hw.
        by destruct Hready as [Hst|Hst]; rewrite Hst in Hw.
  - intros c. by apply (closed_refuses c (closed_client d2, (l3, log2))).
Qed.

(** ** What opening is told *)

(** The client is open. *)
Definition awake (d : ThingDAQ) : Prop := ThingDAQ._closed d = false.

Lemma awake_lasting : lasting awake.
Proof. intros d d' _ Hc. unfold awake. by rewrite Hc. Qed.
#[export] Hint Resolve awake_lasting : trace.

(** An INFO answer, whatever it says. *)
Definition identifies (e : event) : Prop := exists i, e = Identified i.

Lemma told_identifies r : Forall identifies (told r).
Proof. unfold told. destruct (V3Response.value r) as [[]|]; try done. destruct (ok r); [|done]. constructor; [by eexists|done]. Qed.

Lemma permits_identifies kind : permits events identifies kind.
Proof. intros [r|e]; [apply told_identifies|done]. Qed.

Section OpeningEvents.
Context {L : Type} `{C : ReaderLink L}.
Abbreviation R := (L * list event)%type.
Abbreviation quiet := (sends (L := L) (Ev := event) awake (fun _ => False)).

Lemma negotiate_told now :
  emits (L := L) awake (fun r new => new = match r with Ok (V3Reply a) => told a | _ => [] end) (negotiate now).
Proof.
  eapply emits_consequence; [apply (negotiate_noted events awake awake_lasting)|].
  intros r' new (r & (rejected & final & -> & Hf) & Hr). assert (Hnil : concat (map (fun v => Watch.of_probe events (Err (ProtocolVersionRejected v))) rejected) = []).
  { by induction rejected. }
  rewrite Hnil. cbn [app]. destruct r' as [a|e].
  - assert (r = Ok a) as -> by by apply Hr. destruct Hf as [->|(_ & e & He)]; [by destruct a|done].
  - destruct Hf as [->|[-> _]]; [|done]. destruct r as [a|e']; [|done]. by assert (Err e = Ok a) by by apply Hr.
Qed.

Lemma told_ok a i : ok a = true -> V3Response.value a = Some (InfoValue i) -> told a = [Identified i].
Proof. intros Ha Hv. unfold told. by rewrite Hv, Ha. Qed.
Lemma told_refused a : ok a = false -> told a = [].
Proof. intros Ha. unfold told. destruct (V3Response.value a) as [[]|]; try done. by rewrite Ha. Qed.

(** An identity that is refused is not asked for again. *)
Lemma validate_identity_told i :
  emits (L := L) (Ev := event) awake
    (fun r new => new = [] /\ match r with Ok v => snapshot_from_info (ModernInfo i) = Ok v | Err e => retryable e = false end)
    (_validate_info_identity i).
Proof.
  intros d l log Hd. pose proof (wpd_returned _ _ _ _ (l, log) (_validate_info_identity i (d, (l, log))).1 (_validate_info_identity i (d, (l, log))).2
    (validate_info_identity_wp i d) (surjective_pairing _)) as Hwp.
  pose proof (validate_info_identity_sends (L := L) (Ev := event) awake (fun _ => False) i d l log Hd) as Hs.
  assert (Hsoft : forall e, (_validate_info_identity i (d, (l, log))).2 = Err e -> retryable e = false).
  { unfold _validate_info_identity, mbind, effect_bind, client, gets. cbn [fst snd]. intros e.
    destruct (match ClientOptions.expected_usb_serial (ThingDAQ.options d) with Some t => _ | None => true end); cbn [check];
      unfold mret, effect_ret, raise; [|by intros [= <-]].
    destruct (validate_device_identity _ _) as [who|e']; [|by destruct e'; intros [= <-]].
    destruct (match ClientOptions.reopened_identity (ThingDAQ.options d) with Some t => _ | None => true end); cbn [check];
      unfold mret, effect_ret, raise; [|by intros [= <-]].
    destruct (match ThingDAQ._verified_identity d with Some t => _ | None => true end); cbn [check];
      unfold mret, effect_ret, raise; [done|by intros [= <-]]. }
  destruct (_validate_info_identity i (d, (l, log))) as [[d' [l' log']] r]. cbn [fst snd] in *.
  destruct Hs as (Hi & new & -> & Hn). split; [done|]. exists new. split; [done|]. destruct new as [|e new]; [|by inversion Hn].
  split; [done|]. destruct r as [v|e]; [|by apply Hsoft]. by destruct Hwp as (_ & (Hsnap & _) & _).
Qed.

Lemma update_emits {A} Q f (k : unit -> daq_method R A) :
  (forall d, awake d -> awake (f d)) -> emits (L := L) awake Q (k tt) -> emits (L := L) awake Q (update f ≫= k).
Proof. intros Hf Hk d l log Hd. exact (Hk (f d) l log (Hf d Hd)). Qed.

(** What a probe notes: its INFO, or nothing when it may be repeated. *)
Definition probe_noted (r : result daq_error (V3Info * DeviceIdentitySnapshot)) (new : list event) : Prop :=
  match r with
  | Ok (i, v) => new = [Identified i] /\ snapshot_from_info (ModernInfo i) = Ok v
  | Err e => retryable e = true -> new = []
  end.

Lemma session_info_told :
  emits (L := L) (fun _ : V3Session => True)
    (fun r new => match r with Ok i => new = [Identified i] | Err e => retryable (SessionRaised e) = true -> new = [] end)
    (session_info (L := R)).
Proof.
  assert (Hraise : forall A (e : session_error), emits (S := V3Session) (L := L) (Ev := event) (fun _ => True)
    (fun r new => new = [] /\ r = Err e) (raise e : session_method R A)).
  { intros A e. apply emits_pure with id; [by intros []|done]. }
  unfold session_info. apply (emits_bind _ (command_noted events CommandKind.INFO)
    (fun a r new => new = [] /\ match r with
     | Ok i => V3Response.value a = Some (InfoValue i) | Err e => retryable (SessionRaised e) = false end)).
  - apply (emits_command events).
  - intros a. destruct (V3Response.value a) as [[i| | | |]|]; try (eapply emits_consequence; [apply Hraise|]; by intros r new [-> ->]).
    intros s l log _. unfold get_session, modify_session, modify, mbind, effect_bind, gets. cbn [fst snd].
    assert (Hnil : log = log ++ []) by by rewrite app_nil_r.
    destruct (match V3Session.identity s with None => true | Some i0 => _ end); cbn [check]; split; try done; by exists [].
  - intros e new (raw & -> & He) Hsoft. destruct e; try done.
    + destruct raw as [a|]; [by destruct (He a)|done].
    + destruct raw as [a|]; [|done]. cbn. apply told_refused. by apply He.
  - intros a new r new1 (raw & -> & -> & Hok) [-> Hr]. rewrite app_nil_r. destruct r as [i|e]; [by apply told_ok|].
    by rewrite Hr.
Qed.

Lemma probe_info_told now : emits (L := L) awake probe_noted (_probe_info now).
Proof.
  assert (Hvalid : forall i (k : DeviceIdentitySnapshot -> daq_method R (V3Info * DeviceIdentitySnapshot)),
    (forall v, emits (L := L) awake (fun r new => new = [] /\ r = Ok (i, v)) (k v)) ->
    emits (L := L) awake (fun r new => new = [] /\ match r with Ok (j, v) => j = i /\ snapshot_from_info (ModernInfo i) = Ok v | Err e => retryable e = false end)
      (_validate_info_identity i ≫= k)).
  { intros i k Hk. eapply emits_bind; [apply validate_identity_told|exact Hk|by intros e new [-> He]|].
    cbn. intros v new r new1 [-> Hv] [-> ->]. by split. }
  assert (Hpure : forall (i : V3Info) (v : DeviceIdentitySnapshot), emits (L := L) (Ev := event) awake (fun r new => new = [] /\ r = Ok (i, v)) (mret (i, v) : daq_method R _)).
  { intros i v. apply emits_pure with id; [by intros []|done]. }
  assert (Hraise : forall A (e : daq_error), emits (L := L) (Ev := event) awake (fun r new => new = [] /\ r = Err e) (raise e : daq_method R A)).
  { intros A e. apply emits_pure with id; [by intros []|done]. }
  unfold _probe_info. apply quiet_bind; [apply sends_gets| |done]. intros d. case_bool_decide.
  - apply quiet_bind; [apply sends_check| |done]. intros _.
    apply (emits_bind _ (fun r new => new = match r with Ok (V3Reply a) => told a | _ => [] end)
      (fun reply r new => new = [] /\ match reply, r with
        | V3Reply a, Ok (i, v) => told a = [Identified i] /\ snapshot_from_info (ModernInfo i) = Ok v
        | V3Reply a, Err e => told a <> [] -> retryable e = false
        | _, Ok _ => False
        | _, Err _ => True end)); [apply negotiate_told| |by intros e new -> |].
    + intros [a|b code x y]; [|eapply emits_consequence; [apply Hraise|]; by intros r new [-> ->]].
      destruct (ok a) eqn:Hok; cbn [check]; cycle 1.
      { eapply emits_consequence; [apply Hraise|]. intros r new [-> ->]. split; [done|]. by rewrite told_refused. }
      change (mret tt ≫= ?k) with (k tt). cbv beta.
      destruct (V3Response.value a) as [[i| | | |]|] eqn:Hv;
        try (eapply emits_consequence; [apply Hraise|]; by intros r new [-> ->]).
      rewrite (told_ok a i Hok Hv). eapply emits_consequence; [apply (Hvalid i)|].
      * intros v. cbv zeta. apply update_emits; [by intros []|apply Hpure].
      * intros r new [-> Hr]. split; [done|]. destruct r as [[j v]|e]; [|done]. by destruct Hr as [-> Hr].
    + intros reply new r new1 -> [-> Hr]. rewrite app_nil_r. destruct reply as [a|]; destruct r as [[i v]|e]; cbn; try done.
      intros Hsoft. destruct (told a); [done|]. by rewrite Hr in Hsoft.
  - apply (emits_bind _ (fun r new => match r with Ok i => new = [Identified i] | Err e => retryable e = true -> new = [] end)
      (fun i r new => new = [] /\ match r with Ok (j, v) => j = i /\ snapshot_from_info (ModernInfo i) = Ok v | Err e => retryable e = false end)).
    + apply (emits_on_session awake (fun r new => match r with Ok i => new = [Identified i] | Err e => retryable (SessionRaised e) = true -> new = [] end));
        [apply awake_lasting| |done|by intros [|]].
      apply session_info_told.
    + intros i. eapply emits_consequence; [apply (Hvalid i); intros v; apply Hpure|]. by intros r new Hr.
    + done.
    + intros i new r new1 -> [-> Hr]. destruct r as [[j v]|e]; cbn; [by destruct Hr as [-> Hr]|]. by rewrite Hr.
Qed.

(** The INFO answers of a loop that returns [i], [first] being the identity of an earlier one. *)
Definition agreed (first : option DeviceIdentitySnapshot) (r : result daq_error V3Info) (new : list event) : Prop :=
  match r with
  | Ok i => exists v rest, snapshot_from_info (ModernInfo i) = Ok v /\ Forall identifies rest /\
      match first with
      | Some v0 => v = v0 /\ new = Identified i :: rest
      | None => exists i1, snapshot_from_info (ModernInfo i1) = Ok v /\ new = Identified i1 :: Identified i :: rest
      end
  | Err _ => True
  end.

Lemma take_over_identifies fuel clock : sends (L := L) awake identifies (take_over fuel clock).
Proof. apply (take_over_sends events identifies awake awake_lasting); intros; apply permits_identifies. Qed.

Lemma sync_loop_told now fuel clock attempts : forall first last,
  emits (L := L) awake (agreed first) (sync_loop attempts now fuel clock first last).
Proof.
  assert (Hraise : forall first e, emits (L := L) (Ev := event) awake (agreed first) (raise e)).
  { intros first e. apply emits_pure with id; [by intros []|done]. }
  induction attempts as [|attempts IH]; intros first last; cbn [sync_loop]; [apply Hraise|].
  apply (emits_bind _ (fun r new => match r with Ok r => probe_noted r new | Err _ => False end)
    (fun outcome r new => match outcome with
      | Ok (i, v) => snapshot_from_info (ModernInfo i) = Ok v -> agreed first r (Identified i :: new)
      | Err e => retryable e = true /\ agreed first r new \/ exists e', r = Err e'
      end)); [apply emits_attempt, probe_info_told| |done|].
  - intros [[i v]|e].
    + destruct first as [v0|]; [|eapply emits_consequence; [apply IH|]; intros [j|e] new; [|done]].
      * case_bool_decide as Hv; cbn [check].
        2: { apply emits_pure with id; [by intros []|done]. }
        change (mret tt ≫= ?k) with (k tt). cbv beta. apply update_emits; [by intros []|].
        eapply (emits_bind _ _ (fun _ r new => new = [] /\ r = Ok i)); [apply take_over_identifies| |done|].
        -- intros _. apply emits_pure with id; [by intros []|done].
        -- intros u new r new1 Hn [-> ->]. rewrite app_nil_r. intros Hs. exists v, new. by subst.
      * intros (v' & rest & Hj & Hrest & -> & ->) Hs. exists v, rest. split; [done|]. split; [done|]. by exists i.
    + destruct (retryable e) eqn:He.
      * eapply emits_consequence; [apply IH|]. intros r new Hn. by left.
      * apply emits_pure with id; [|done]. intros []. split; [done|]. right. by eexists.
  - intros outcome new r new1 Hp Hr. destruct outcome as [[i v]|e].
    + destruct Hp as [-> Hs]. by apply Hr.
    + destruct Hr as [[He Hr]|[e' ->]]; [|done]. cbn in Hp. by rewrite (Hp He).
Qed.

Lemma synchronize_told attempts now fuel clock :
  emits (L := L) awake (agreed None) (synchronize attempts now fuel clock).
Proof. unfold synchronize. apply quiet_bind; [apply sends_check| |done]. intros _. apply sync_loop_told. Qed.

(** Watching adds no tables. *)
Lemma sends_table_watched c : sends_table (L := R) c -> sends_table (L := L) c.
Proof.
  intros ([l log] & payload & timeout & [l' log'] & r & Hr & Hok & Hv).
  change (request (L := R) (l, log) ?k payload timeout) with
    (let '(l1, r) := request (L := L) l k payload timeout in ((l1, log ++ Watch.of_request events k r), r)) in Hr.
  destruct (request l CommandKind.GET_CAPABILITIES payload timeout) as [l1 r1] eqn:Hq.
  apply pair_equal_spec in Hr as [_ ->]. by exists l, payload, timeout, l1, r.
Qed.
End OpeningEvents.

(** Opening, by what the reader's start and the synchronization come to. *)
Lemma open_client_by_cases {L} `{ReaderLink L} attempts now fuel clock (d : ThingDAQ) (l : L) :
  open_client attempts now fuel clock (d, l) =
  match reader_start l with
  | (l, Ok _) =>
      match synchronize attempts now fuel clock (d, l) with
      | (w, Ok i) => (w, Ok i)
      | (w, Err e) => ((daq_close false fuel clock w).1, Err e)
      end
  | (l, Err e) => ((d, (close_transport l).1), Err (ReaderRaisedError e))
  end.
Proof.
  unfold open_client, start_client, attempt, ask, raise, mret, effect_ret, mbind, effect_bind. cbn [fst snd].
  destruct (reader_start l) as [l1 [u|e]]; cbn [fst snd].
  - destruct (synchronize attempts now fuel clock (d, l1)) as [w [i|e]]; [done|]. by destruct (daq_close false fuel clock w).
  - by destruct (close_transport l1).
Qed.

(** C15. Opening.  Whatever the reader and the device do, [open] ends in one of three ways.  It
    returns the INFO of a device that meets every pin, after two INFO answers of the same
    identity, on a client whose session holds the table the device sent and runs on settings
    that this table advertises: under STOP the device is then STOPPED, under ADOPT it is in
    the state its STATUS reported, and the run of a RUNNING device is joined with its streams
    unanchored; nothing was closed.  Or the reader does not start, and the transport is
    closed.  Or it raises on a client that is closed, and closing the reader is the last
    thing that was done. *)
Theorem open_outcome {L} `{ReaderLink L} (o : ClientOptions) (attempts : Z) (now : nat -> nat -> Z) (fuel : nat) (clock : nat -> Z) (l : L) :
  let '((d, (_, log)), r) := open_client attempts now fuel clock (new_client o, (l, [] : list event)) in
  match r with
  | Ok i => exists v s c i1 rest, trusted o i v /\ opened (eq c) o v d /\ sends_table (L := L) c /\
      ThingDAQ._v3 d = Some s /\ settled (ClientOptions.session_policy o) s (ThingDAQ.stream d) /\
      log = Identified i1 :: Identified i :: rest /\ snapshot_from_info (ModernInfo i1) = Ok v /\ Forall identifies rest
  | Err e =>
      d = new_client o /\ log = [TransportClosed] /\ (exists e0, (reader_start l).2 = Err e0 /\ e = ReaderRaisedError e0) \/
      ThingDAQ._closed d = true /\ exists before, log = before ++ [ReaderShut]
  end.
Proof.
  destruct (open_client attempts now fuel clock (new_client o, (l, [] : list event))) as [[d [l' log]] r] eqn:Hrun.
  pose proof (wpd_returned _ _ _ _ _ _ _ (open_client_wp o attempts now fuel clock) Hrun) as Hwp. cbn [fst] in Hwp.
  rewrite open_client_by_cases in Hrun.
  change (reader_start (L := L * list event) (l, [])) with (silent (L := L) (Ev := event) reader_start (l, [])) in Hrun.
  unfold silent in Hrun. cbn [fst snd] in Hrun. destruct (reader_start l) as [l1 [u|e0]]; cbn [fst snd] in Hrun |- *.
  - pose proof (synchronize_told attempts now fuel clock (new_client o) l1 [] eq_refl) as Hs.
    destruct (synchronize attempts now fuel clock (new_client o, (l1, []))) as [[d1 [l2 log1]] [i|e]];
      destruct Hs as (Hawake & new & -> & Hagreed); apply pair_equal_spec in Hrun as [Hw <-].
    + apply pair_equal_spec in Hw as [<- Hw]. apply pair_equal_spec in Hw as [_ <-].
      destruct Hwp as (v & s & Ht & Ho & Hs & Hout & Hset). destruct (opened_own _ o v d1 s Ho Hs Hout) as (c & Hc & Hown).
      destruct Hagreed as (v' & rest & Hv' & Hrest & i1 & Hi1 & ->). exists v, s, c, i1, rest.
      assert (v' = v) as -> by (destruct Ht as (Hv & _); congruence). split_and!; try done. by apply sends_table_watched.
    + destruct (close_run events false fuel clock d1 l2 new Hawake) as (l3 & running & d2 & l4 & log2 & stopped & l5 & shut & _ & _ & _ & Hclose).
      change (@daq_close _ (recording events)) with (@daq_close _ (@observed L _)) in Hclose. cbn [app] in Hw. rewrite Hclose in Hw.
      cbn [fst] in Hw. apply pair_equal_spec in Hw as [<- Hw]. apply pair_equal_spec in Hw as [_ <-].
      right. split; [apply closed_client_facts|]. by exists log2.
  - change (close_transport (L := L * list event) (l1, [])) with (noted (L := L) (Watch.on_closing events) close_transport (l1, [])) in Hrun.
    unfold noted in Hrun. cbn [fst snd] in Hrun. destruct (close_transport l1) as [l2 []].
    apply pair_equal_spec in Hrun as [Hw <-]. apply pair_equal_spec in Hw as [<- Hw]. apply pair_equal_spec in Hw as [_ <-].
    left. split; [done|]. split; [done|]. by exists e0.
Qed.

(** ** Before the identity is verified

    [synchronize] asks for two equal INFO answers before it lets a device be changed, but
    only the v1/v2 branches of [configure], [start] and [stop] ask for the verified
    identity: on a v3 session one INFO answer is enough for a STOP. *)

(** A reader whose device answers the negotiation and STOP, and no other command. *)
Definition answers_once (i : V3Info) : ReaderLink unit :=
  let stop k := match k with CommandKind.STOP => Some (StopValue (V3Stop.mk DeviceState.STOPPED 0 0)) | _ => None end in
  let base := canned_reader stop in
  {| reader_commands := canned stop;
     reader_probe := fun l _ _ =>
       (l, Ok (V3Reply (V3Response.mk (COMMAND_RESPONSE_KINDS CommandKind.INFO) 1 0 ResponseStatus.OK ErrorCode.OK (Some (InfoValue i)) None)));
     reader_start := @reader_start _ base; is_running := @is_running _ base; terminal_error := @terminal_error _ base;
     transport_is_open := @transport_is_open _ base; active_run_id := @active_run_id _ base;
     get_stream_item := @get_stream_item _ base; adopt_run := @adopt_run _ base; host_counters := @host_counters _ base;
     shut_reader := @shut_reader _ base; close_transport := @close_transport _ base |}.

Example unverified_stop :
  let i := example_info [83] in
  let H := answers_once i in
  let o := ClientOptions.mk false 1000 1000 None None None ADOPT in
  let '(w, r) := synchronize (L := unit * list CommandKind) 2 (fun _ _ => 0) 5 (fun _ => 0) (new_client o, (tt, [])) in
  r = Err (SessionRaised CommandTimeoutError) /\ ThingDAQ._verified_identity w.1 = None /\
  let '(w, r) := daq_stop 5 (fun _ => 0) w in
  r = Ok DeviceState.STOPPED /\ w.2.2 = [CommandKind.INFO; CommandKind.INFO; CommandKind.STOP].
Proof. vm_compute. repeat split; reflexivity. Qed.
