(* ===== verification/ClientDelivery.v ===== *)
(** * What an application reads through the client ([client.py], [read_block]).

    [Delivery] follows the stream bookkeeping alone; here the whole client reads: its
    state checks, its questions to the reader, the STATUS request behind each loss
    report.  Over a device that keeps streaming one run, what [read_block] returns tells
    the consumer of each stream about every item since START. *)

From S2P Require Import Prelude Effects Checksum V3Constants V3Header V3Samples ModelsV3 V3Frames Synthetic Profiles Losses Blocks Continuity StreamQueues Reader Validator ClientStream Delivery Session Identity Discovery Diagnostics Client ClientSafety.

(** ** Items that need no STATUS *)

Lemma unconsulted c w w' item :
  consults_status c item = false -> Surroundings.corruption_events w = Surroundings.corruption_events w' ->
  process_item c w item = process_item c w' item.
Proof.
  intros Hc Hw. destruct item as [[l|a]|b]; [done|done|]. cbn [process_item consults_status] in *. unfold reports in Hc. unfold _process_block.
  assert (Hclean : forall c, deliver_clean c w b = deliver_clean c w' b).
  { intros c0. unfold deliver_clean, _validate_clean_block. by rewrite Hw. }
  destruct (expectation_of (block_kind b) c) as [e|]; [|done]. destruct (ClientStream._configuration c) as [cfg|]; [|done].
  case_bool_decide; cbn [negb andb] in *; [|done]. destruct (Expectation.unanchored e); cbn [negb andb] in Hc; [apply Hclean|].
  destruct (analyze_stream_continuity _ _ _ _ _) as [[r|]|]; [done|apply Hclean|done].
Qed.

(** ** A device that streams one run *)

Section Streaming.
Context {L : Type} `{C : ReaderLink L} (settings : V3Settings) (run : Z).

(** Links in [P] stay in [P]: the reader runs on an open transport in the run [run], its
    items are those of a run of [settings], and STATUS is answered for that run or times
    out. *)
Record streaming (P : L -> Prop) : Prop := {
  st_running l : P l -> P (is_running l).1 /\ (is_running l).2 = true;
  st_open l : P l -> P (transport_is_open l).1 /\ (transport_is_open l).2 = true;
  st_run l : P l -> P (active_run_id l).1 /\ (active_run_id l).2 = run;
  st_counters l : P l -> P (host_counters l).1;
  st_item timeout l : P l -> P (get_stream_item timeout l).1 /\
    match (get_stream_item timeout l).2 with Ok item => item_ok settings item | Err e => e = QueueWaitTimeoutError end;
  st_status timeout l : P l -> P (request l CommandKind.GET_STATUS [] timeout).1 /\
    match (request l CommandKind.GET_STATUS [] timeout).2 with
    | Ok r => ok r = true /\ V3Response.kind r = COMMAND_RESPONSE_KINDS CommandKind.GET_STATUS /\
        exists s, V3Response.value r = Some (StatusValue s) /\ status_ok run (StatusIs s)
    | Err e => exists kind id, e = ReaderRaised (RequestTimeoutError kind id)
    end
}.

Context (P : L -> Prop) (HP : streaming P).

(** ** Reasoning over such links *)

Definition wpl {A} (m : daq_method L A) (Q : A -> ThingDAQ -> Prop) (E : daq_error -> ThingDAQ -> Prop) (d : ThingDAQ) : Prop :=
  forall l, P l -> wp m (fun a w => P w.2 /\ Q a w.1) (fun e w => P w.2 /\ E e w.1) (d, l).

Lemma wpl_consequence {A} (m : daq_method L A) (Q Q' : A -> ThingDAQ -> Prop) (E E' : daq_error -> ThingDAQ -> Prop) d :
  wpl m Q E d -> (forall a d, Q a d -> Q' a d) -> (forall e d, E e d -> E' e d) -> wpl m Q' E' d.
Proof. intros H HQ HE l Hl. eapply wp_consequence; [by apply H|intros a w []; auto|intros e w []; auto]. Qed.

Lemma wpl_bind {A B} (m : daq_method L A) (k : A -> daq_method L B) Q E d :
  wpl m (fun a d => wpl (k a) Q E d) E d -> wpl (m ≫= k) Q E d.
Proof. intros H l Hl. apply wp_bind. eapply wp_consequence; [by apply H| |done]. intros a [d' l'] [Hl' Hk]. by apply Hk. Qed.

Lemma wpl_ret {A} (a : A) (Q : A -> ThingDAQ -> Prop) E d : Q a d -> wpl (mret a) Q E d.
Proof. intros H l Hl. by apply wp_ret. Qed.
Lemma wpl_raise {A} e (Q : A -> ThingDAQ -> Prop) (E : daq_error -> ThingDAQ -> Prop) d : E e d -> wpl (raise e) Q E d.
Proof. intros H l Hl. by apply wp_raise. Qed.
Lemma wpl_client (Q : ThingDAQ -> ThingDAQ -> Prop) E d : Q d d -> wpl client Q E d.
Proof. intros H l Hl. by apply wp_gets. Qed.
Lemma wpl_update f (Q : unit -> ThingDAQ -> Prop) E d : Q tt (f d) -> wpl (update f) Q E d.
Proof. intros H l Hl. by apply wp_modify. Qed.
Lemma wpl_ask {A} (q : L -> L * A) (Q : A -> ThingDAQ -> Prop) E d :
  (forall l, P l -> P (q l).1 /\ Q (q l).2 d) -> wpl (ask q) Q E d.
Proof.
  intros H l Hl. specialize (H l Hl). destruct (q l) as [l' a] eqn:Hq.
  eapply wp_returns; [unfold ask; cbn [fst snd]; rewrite Hq; reflexivity|done].
Qed.
Lemma wpl_attempt {A} (m : daq_method L A) (Q : result daq_error A -> ThingDAQ -> Prop) E d :
  wpl m (fun a => Q (Ok a)) (fun e => Q (Err e)) d -> wpl (attempt m) Q E d.
Proof.
  intros H l Hl. destruct (m (d, l)) as [w r] eqn:Hm. pose proof (wp_run _ _ _ _ _ _ (H l Hl) Hm) as Hr.
  eapply wp_returns; [unfold attempt; rewrite Hm; reflexivity|]. by destruct r.
Qed.

Lemma wpl_wpd {A} (m : daq_method L A) (Q Q' : A -> ThingDAQ -> Prop) (E E' : daq_error -> ThingDAQ -> Prop) d :
  wpl m Q E d -> wpd m Q' E' d -> wpl m (fun a d => Q a d /\ Q' a d) (fun e d => E e d /\ E' e d) d.
Proof.
  intros H H' l Hl. destruct (m (d, l)) as [w r] eqn:Hm. pose proof (wp_run _ _ _ _ _ _ (H l Hl) Hm) as H1.
  pose proof (wpd_returned _ _ _ _ _ _ _ H' Hm) as H2.
  destruct r; [eapply wp_returns; [exact Hm|]|eapply wp_raises; [exact Hm|]]; by destruct H1.
Qed.

Lemma ensure_open_streaming d : ThingDAQ._closed d = false -> wpl _ensure_open (fun _ d' => d' = d) (fun _ _ => False) d.
Proof.
  intros Hc. unfold _ensure_open. apply wpl_bind, wpl_client. rewrite Hc. cbn [negb check]. apply wpl_bind, wpl_ret.
  apply wpl_bind, wpl_ask. intros l Hl. destruct (st_running _ HP l Hl) as [H1 ->]. split; [done|].
  apply wpl_bind, wpl_ask. intros l' Hl'. destruct (st_open _ HP l' Hl') as [H2 ->]. split; [done|]. by apply wpl_ret.
Qed.

(** The STATUS behind a loss report. *)
Lemma evidence_status_streaming d s :
  ThingDAQ._closed d = false -> ThingDAQ._v3 d = Some s ->
  wpl evidence_status (fun st d' => status_ok run (StatusIs st) /\ exists s', d' = set_session s' d /\ V3Session.applied s' = V3Session.applied s)
    (fun e d' => e = SessionRaised CommandTimeoutError /\ exists s', d' = set_session s' d /\ V3Session.applied s' = V3Session.applied s) d.
Proof.
  intros Hc Hs. unfold evidence_status. apply wpl_bind. eapply wpl_consequence; [by apply ensure_open_streaming| |done].
  intros _ d1 ->. intros l Hl. destruct (st_status _ HP (V3Session.timeout s) l Hl) as [Hl1 Hr].
  destruct (request l CommandKind.GET_STATUS [] (V3Session.timeout s)) as [l1 r] eqn:Hq. cbn [fst snd] in Hl1, Hr.
  assert (Hcmd : forall x, command CommandKind.GET_STATUS [] None (s, l) = x ->
    x = match r with
        | Err (ReaderRaised (RequestTimeoutError _ _)) => ((s, l1), Err CommandTimeoutError)
        | Err e => ((s, l1), Err (SessionReaderError e))
        | Ok r => if negb (ok r) then ((s, l1), Err (DeviceCommandError CommandKind.GET_STATUS (V3Response.error_code r) (V3Response.request_id r)))
                  else if negb (bool_decide (V3Response.kind r = COMMAND_RESPONSE_KINDS CommandKind.GET_STATUS))
                  then ((s, l1), Err (SessionValueError "v3 response kind differs from command")) else ((s, l1), Ok r)
        end).
  { intros x <-. unfold command. cbn [fst snd default]. by rewrite Hq. }
  specialize (Hcmd _ eq_refl). destruct r as [r|e].
  - destruct Hr as (Hok & Hk & st & Hv & Hst). rewrite Hok, bool_decide_eq_true_2 in Hcmd by done. cbn [negb] in Hcmd.
    eapply wp_returns.
    + unfold on_session. cbn [fst snd]. rewrite Hs. unfold session_status. rewrite (bind_run _ _ _ _ _ Hcmd), Hv. reflexivity.
    + split; [done|]. split; [done|]. eexists. split; [reflexivity|]. by destruct s.
  - destruct Hr as (kind & id & ->). eapply wp_raises.
    + unfold on_session. cbn [fst snd]. rewrite Hs. unfold session_status, mbind, effect_bind. rewrite Hcmd. reflexivity.
    + split; [done|]. split; [done|]. by eexists.
Qed.
(** ** Reading *)

(** The client in the middle of the run. *)
Record acquiring (d : ThingDAQ) : Prop := {
  acq_open : ThingDAQ._closed d = false;
  acq_session : exists s a, ThingDAQ._v3 d = Some s /\ V3Session.applied s = Some a /\ V3AppliedSettings.settings a = settings;
  acq_stream : client_inv settings run (ThingDAQ.stream d);
  acq_pending : (length (ClientStream._pending_items (ThingDAQ.stream d)) <= 1)%nat
}.

Lemma acquiring_stream d c :
  acquiring d -> client_inv settings run c -> (length (ClientStream._pending_items c) <= 1)%nat -> acquiring (set_stream c d).
Proof. intros [] Hc Hp. by destruct d. Qed.

Lemma acquiring_session d s s' :
  acquiring d -> ThingDAQ._v3 d = Some s -> V3Session.applied s' = V3Session.applied s -> acquiring (set_session s' d).
Proof.
  intros [H1 (s0 & a & Hs & Ha & Hse) H3 H4] Hs0 Ha'. destruct d. split; try done. exists s', a. cbn in *. simplify_eq.
  split; [done|]. split; [congruence|done].
Qed.

(** One more item [i] was told. *)
Definition tells_more (c c' : ClientStream) (i : client_item) : Prop :=
  forall c0 told, tells run c0 c (told ++ ClientStream._pending_items c) ->
    tells run c0 c' ((told ++ [i]) ++ ClientStream._pending_items c').

(** The end of [process_reader_item]: the bookkeeping makes one good step. *)
Lemma process_step_streaming d w item (outcome : result daq_error V3Status) :
  acquiring d -> ClientStream._pending_items (ThingDAQ.stream d) = [] -> feed_ok settings run (w, item) ->
  wpl (let '(c, processed) := process_item (ThingDAQ.stream d) w item in
         _ ← update (set_stream c);
         deliver outcome processed)
    (fun i d' => acquiring d' /\ tells_more (ThingDAQ.stream d) (ThingDAQ.stream d') i) (fun _ _ => False) d.
Proof.
  intros Hd Hp Hf. destruct (item_step settings run _ w item (acq_stream _ Hd) Hp Hf) as (c' & i & -> & Hc' & Htells & Hlen).
  apply wpl_bind, wpl_update, wpl_ret. split; [by apply acquiring_stream|].
  assert (Hs : ThingDAQ.stream (set_stream c' d) = c') by by destruct d. rewrite Hs.
  intros c0 told Htold. rewrite Hp, app_nil_r in Htold. rewrite <-app_assoc. by eapply tells_trans.
Qed.

Lemma process_reader_item_streaming d item :
  acquiring d -> ClientStream._pending_items (ThingDAQ.stream d) = [] -> item_ok settings item ->
  wpl (process_reader_item item) (fun i d' => acquiring d' /\ tells_more (ThingDAQ.stream d) (ThingDAQ.stream d') i) (fun _ _ => False) d.
Proof.
  intros Hd Hp Hi. destruct (acq_session _ Hd) as (s & a & Hs & Ha & Hset). unfold process_reader_item.
  apply wpl_bind. unfold require_v3. apply wpl_bind, wpl_client. rewrite Hs. apply wpl_ret.
  apply wpl_bind. rewrite Ha. apply wpl_ret. apply wpl_bind, wpl_client. cbv zeta.
  rewrite (ci_mode _ _ _ (acq_stream _ Hd)). cbn [andb]. rewrite Hset.
  destruct (consults_status (ThingDAQ.stream d) item) eqn:Hcons.
  - apply wpl_bind, wpl_attempt. eapply wpl_consequence; [by apply (evidence_status_streaming d s (acq_open _ Hd) Hs)| |].
    + intros st d1 (Hst & s' & -> & Ha'). apply wpl_bind, wpl_ret. apply wpl_bind, wpl_client.
      assert (Hd1 : acquiring (set_session s' d)) by by apply (acquiring_session d s).
      assert (Hc : ThingDAQ.stream (set_session s' d) = ThingDAQ.stream d) by by destruct d. rewrite <-Hc.
      apply process_step_streaming; [done|by rewrite Hc|]. by split.
    + intros e d1 (-> & s' & -> & Ha'). apply wpl_bind, wpl_ret. apply wpl_bind, wpl_client.
      assert (Hd1 : acquiring (set_session s' d)) by by apply (acquiring_session d s).
      assert (Hc : ThingDAQ.stream (set_session s' d) = ThingDAQ.stream d) by by destruct d. rewrite <-Hc.
      apply process_step_streaming; [done|by rewrite Hc|]. by split.
  - apply wpl_bind, wpl_ret. apply wpl_bind, wpl_ret. apply wpl_bind, wpl_client.
    set (w := surroundings _ _ _). rewrite (unconsulted _ w (Surroundings.mk settings StatusUnavailable (Surroundings.corruption_events w)) _ Hcons eq_refl).
    apply process_step_streaming; [done|done|]. by split.
Qed.

Lemma daq_read_block_streaming d timeout :
  acquiring d -> 0 < default (ClientOptions.block_timeout (ThingDAQ.options d)) timeout ->
  wpl (daq_read_block timeout) (fun i d' => acquiring d' /\ tells_more (ThingDAQ.stream d) (ThingDAQ.stream d') i)
    (fun e d' => e = BlockTimeout /\ d' = d) d.
Proof.
  intros Hd Ht. pose proof (acq_stream _ Hd) as Hinv. unfold daq_read_block. apply wpl_bind, wpl_client. cbv zeta.
  apply Z.ltb_lt in Ht. rewrite Ht. cbn [check]. apply wpl_bind, wpl_ret. apply wpl_bind.
  assert (Hopen : forall Q E, (Q tt d : Prop) -> wpl _ensure_open Q E d).
  { intros Q E HQ. eapply wpl_consequence; [by apply ensure_open_streaming, acq_open| |done]. by intros [] d' ->. }
  unfold _require_state. apply wpl_bind, Hopen. apply wpl_bind. unfold stream_state at 1. apply wpl_bind, wpl_client, wpl_ret.
  rewrite (ci_state _ _ _ Hinv). cbn [bool_decide]. rewrite bool_decide_eq_false_2 by done. apply wpl_bind, wpl_ret.
  apply wpl_bind. unfold stream_state. apply wpl_bind, wpl_client, wpl_ret. rewrite (ci_state _ _ _ Hinv), bool_decide_eq_true_2 by done.
  cbn [check]. apply wpl_ret. apply wpl_bind, wpl_ask. intros l Hl. destruct (st_run _ HP l Hl) as [Hl1 ->]. split; [done|].
  apply wpl_bind, wpl_client. destruct (ci_run _ _ _ Hinv) as [-> _]. rewrite Z.eqb_refl. cbn [check]. apply wpl_bind, wpl_ret.
  destruct (ClientStream._pending_items (ThingDAQ.stream d)) as [|i rest] eqn:Hp.
  - apply wpl_bind, wpl_ask. intros l' Hl'. destruct (st_item _ HP (default (ClientOptions.block_timeout (ThingDAQ.options d)) timeout) l' Hl') as [H1 H2].
    split; [done|]. destruct (get_stream_item _ l').2 as [item|e]; [|subst e; by apply wpl_raise].
    apply wpl_bind, Hopen. eapply wpl_consequence; [by apply process_reader_item_streaming|done|done].
  - apply wpl_bind, wpl_update, wpl_ret.
    assert (Hset : ThingDAQ.stream (on_stream (set_pending_items rest) d) = set_pending_items rest (ThingDAQ.stream d)) by by destruct d.
    assert (Hrest : ClientStream._pending_items (set_pending_items rest (ThingDAQ.stream d)) = rest) by by destruct (ThingDAQ.stream d).
    split.
    + apply acquiring_stream; [done|by apply inv_pending|]. rewrite Hrest. pose proof (acq_pending _ Hd) as Hl2. rewrite Hp in Hl2. cbn in Hl2. lia.
    + rewrite Hset. intros c0 told Htold. rewrite Hrest, <-app_assoc. eapply tells_same; [by rewrite Hrest|]. by rewrite Hp in Htold.
Qed.
End Streaming.

(** ** From START on *)

(** [n] calls of [read_block], their errors handled. *)
Fixpoint reads {L} `{ReaderLink L} (n : nat) (timeout : option Z) : daq_method L (list (result daq_error client_item)) :=
  match n with
  | O => mret []
  | S n => r ← attempt (daq_read_block timeout); rs ← reads n timeout; mret (r :: rs)
  end.

(** What was returned. *)
Definition received (rs : list (result daq_error client_item)) : list client_item :=
  omap (fun r => match r with Ok i => Some i | Err _ => None end) rs.

Section Acquisition.
Context {L : Type} `{C : ReaderLink L}.

Lemma start_stream_again settings run base r st c :
  _reset_loss_observations (start_stream settings run base (set_run r st c)) = start_stream settings run base c.
Proof.
  destruct c. unfold start_stream, _reset_loss_observations. cbn [set_run].
  by destruct (_initialize_stream_expectations _ _ _).
Qed.

(** START leaves the client at the beginning of its run. *)
Lemma daq_start_wp d :
  wpd (L := L) daq_start
    (fun run d' => ThingDAQ._closed d = false /\ ThingDAQ._closed d' = false /\ ThingDAQ.options d' = ThingDAQ.options d /\
       exists s a base, ThingDAQ._v3 d' = Some s /\ V3Session.applied s = Some a /\
         ThingDAQ.stream d' = start_stream (V3AppliedSettings.settings a) run base (ThingDAQ.stream d))
    (fun _ _ => True) d.
Proof.
  unfold daq_start. wpd_step. unfold _ensure_open. do 2 wpd_step. wpd_step. wpd_step; [|done].
  apply negb_true_iff in H. wpd_step. wpd_step. wpd_step; [|wpd_step; by repeat wpd_step].
  wpd_step. wpd_step. wpd_step; [|done]. unfold require_v3. do 2 wpd_step. wpd_step. wpd_step; [|done].
  do 2 wpd_step. do 2 wpd_step. wpd_step. wpd_step. apply wpd_on_session; [|intros Hn; congruence].
  intros s Hs. eapply wps_consequence; [apply session_start_wp| |].
  2: { intros e s' _. do 3 wpd_step. wpd_step; [|done]. wpd_step.
       eapply (wpd_consequence _ (fun _ _ => True) _ (fun _ _ => True)); [case_bool_decide; by wpd_step| |done].
       intros _ d1 _. do 2 wpd_step. done. }
  intros run s' (_ & s1 & value & _ & _ & _ & ->). set (s' := running run value s1).
  assert (Hst : V3Session.state s' = DeviceState.RUNNING /\ V3Session.applied s' = Some value) by by destruct s1.
  destruct Hst as [Hst Ha]. clearbody s'. set (d1 := set_session s' d).
  assert (Hd1 : ThingDAQ._v3 d1 = Some s' /\ ThingDAQ._closed d1 = false /\ ThingDAQ.options d1 = ThingDAQ.options d /\
    ThingDAQ.stream d1 = ThingDAQ.stream d) by (by destruct d). destruct Hd1 as (Hv1 & Hc1 & Ho1 & Hs1). clearbody d1.
  do 3 wpd_step. wpd_step; [|done]. assert (a4 = s') as -> by congruence. wpd_step. rewrite Hst, bool_decide_eq_true_2 by done.
  do 3 wpd_step. wpd_step. rewrite Ha. wpd_step; [|done]. assert (a4 = value) as -> by congruence.
  do 3 wpd_step. unfold reset_observations. do 3 wpd_step. do 3 wpd_step.
  split; [done|]. destruct d1 as [o v3 c n i p b x]. cbn in Hc1, Ho1, Hs1, Hv1. subst o c x v3. split; [done|]. split; [done|].
  exists s', value, (HostCounters.parser_corruption_events a3). split; [done|]. split; [done|]. apply start_stream_again.
Qed.
End Acquisition.

Section Reads.
Context {L : Type} `{C : ReaderLink L} (settings : V3Settings) (run : Z) (P : L -> Prop) (HP : streaming settings run P).

Lemma reads_streaming timeout c0 n : forall d told,
  acquiring settings run d -> 0 < default (ClientOptions.block_timeout (ThingDAQ.options d)) timeout ->
  tells run c0 (ThingDAQ.stream d) (told ++ ClientStream._pending_items (ThingDAQ.stream d)) ->
  wpl P (reads n timeout)
    (fun rs d' => Forall (fun r => (exists i, r = Ok i) \/ r = Err BlockTimeout) rs /\
       tells run c0 (ThingDAQ.stream d') ((told ++ received rs) ++ ClientStream._pending_items (ThingDAQ.stream d')))
    (fun _ _ => False) d.
Proof.
  induction n as [|n IH]; intros d told Hd Ht Htold; cbn [reads].
  { apply wpl_ret. cbn [received omap list_omap]. by rewrite app_nil_r. }
  apply wpl_bind, wpl_attempt.
  eapply wpl_consequence; [apply wpl_wpd; [by apply (daq_read_block_streaming settings run P HP)|apply (daq_read_block_steady (T := fun _ => True))]| |].
  - intros i d1 [[Hd1 Hmore] Hu]. apply wpl_bind. eapply wpl_consequence.
    + apply (IH d1 (told ++ [i])); [done|by rewrite (up_options _ _ Hu)|by apply Hmore].
    + intros rs d2 [Hrs Ht2]. apply wpl_ret. split; [constructor; [by left; eexists|done]|]. by rewrite <-(app_assoc told) in Ht2.
    + done.
  - intros e d1 [[-> ->] _]. apply wpl_bind. eapply wpl_consequence; [by apply (IH d told)| |done].
    intros rs d2 [Hrs Ht2]. apply wpl_ret. split; [constructor; [by right|done]|]. exact Ht2.
Qed.
End Reads.

(** C2. The whole client delivers.  From the START of a client in production mode on, over a
    device that keeps streaming the run and whatever it lost, reordered or dropped
    meanwhile, any number of [read_block] calls return items or time out and raise
    nothing else.  For each enabled stream the returned items (and those deferred)
    tile the run: each begins at the sequence and tick where the previous one ended, from
    (0, 0) to exactly where the client expects the next, and the losses the client
    inferred are what the returned gaps add up to. *)
Theorem acquisition_tiles {L} `{ReaderLink L} (settings : V3Settings) (run : Z) (P : L -> Prop) (d d1 : ThingDAQ) (l l1 : L)
    (n : nat) (timeout : option Z)
    (Hmode : ClientStream._strict (ThingDAQ.stream d) = false) (Hrun : 0 < run < 2 ^ 32)
    (Hstart : daq_start (d, l) = ((d1, l1), Ok run))
    (Hsettings : exists s a, ThingDAQ._v3 d1 = Some s /\ V3Session.applied s = Some a /\ V3AppliedSettings.settings a = settings)
    (Hdevice : streaming settings run P) (Hlink : P l1)
    (Htimeout : 0 < default (ClientOptions.block_timeout (ThingDAQ.options d)) timeout) :
  exists d2 l2 rs, reads n timeout (d1, l1) = ((d2, l2), Ok rs) /\
    Forall (fun r => (exists i, r = Ok i) \/ r = Err BlockTimeout) rs /\
    forall k, data_kind k = true -> has (V3Settings.stream_mask settings) (stream_of k) = true ->
      let seen := received rs ++ ClientStream._pending_items (ThingDAQ.stream d2) in
      exists e, expectation_of k (ThingDAQ.stream d2) = Some e /\
        walk_all k run (0, 0) seen = Some (Expectation.sequence e, Expectation.ticks e) /\
        inferred_of k (ThingDAQ.stream d2) = Some (Inferred.mk (gap_frames k seen) (gap_items k seen)).
Proof.
  pose proof (wpd_returned _ _ _ _ _ _ _ (daq_start_wp d) Hstart) as (_ & Hc & Ho & s & a & base & Hs & Ha & Hst). cbn [fst] in *.
  destruct Hsettings as (s' & a' & Hs' & Ha' & Hset). assert (s' = s) as -> by congruence. assert (a' = a) as -> by congruence.
  rewrite Hset in Hst. pose proof (start_stream_inv settings run base _ Hmode Hrun) as Hinv.
  set (c0 := start_stream settings run base (ThingDAQ.stream d)) in *.
  assert (Hp0 : ClientStream._pending_items c0 = [])
    by apply (start_stream_streams settings run base (ThingDAQ.stream d) V1FrameKind.ADC_DATA eq_refl).
  assert (Hd1 : acquiring settings run d1).
  { split; [done|by exists s, a|by rewrite Hst|rewrite Hst, Hp0; cbn; lia]. }
  rewrite <-Ho in Htimeout.
  pose proof (reads_streaming settings run P Hdevice timeout c0 n d1 [] Hd1 Htimeout) as Hreads.
  destruct (reads n timeout (d1, l1)) as [[d2 l2] r] eqn:Hr.
  eapply (fun H => wp_run _ _ _ _ _ _ (H l1 Hlink) Hr) in Hreads.
  2: { rewrite Hst, Hp0. intros k at_ f i Hk. exists at_. split; [done|]. unfold gap_frames, gap_items. cbn. by rewrite !Z.add_0_r. }
  destruct r as [rs|e]; [|by destruct Hreads]. destruct Hreads as (_ & Hall & Htold). cbn [fst app] in Htold.
  exists d2, l2, rs. split; [done|]. split; [done|]. intros k Hk Hm.
  destruct (start_stream_streams settings run base (ThingDAQ.stream d) k Hk) as (He & Hi & _). rewrite Hm in He, Hi.
  destruct (Htold k (0, 0) 0 0) as (at1 & Hw & (e & He' & ->) & Hi'); [by split; [eexists; split; [exact He|]|]|].
  exists e. by repeat (split; [done|]).
Qed.

(** ** Example *)

(** A reader that hands out the items of a list; its device answers in run 1. *)
Definition feeding (answers : CommandKind -> option V3ResponseValue) : ReaderLink (list stream_item) := {|
  reader_commands := fun l kind _ _ =>
    (l, match answers kind with
        | Some v => Ok (V3Response.mk (COMMAND_RESPONSE_KINDS kind) 1 1 ResponseStatus.OK ErrorCode.OK (Some v) None)
        | None => Err (ReaderRaised (RequestTimeoutError kind 1))
        end);
  reader_probe := fun l _ _ => (l, Err (RequestTimeoutError CommandKind.INFO 1));
  reader_start := fun l => (l, Ok tt);
  is_running := fun l => (l, true);
  terminal_error := fun l => (l, None);
  transport_is_open := fun l => (l, true);
  active_run_id := fun l => (l, 1);
  get_stream_item := fun _ l => match l with [] => ([], Err QueueWaitTimeoutError) | i :: l => (l, Ok i) end;
  adopt_run := fun _ _ l => (l, Ok tt);
  host_counters := fun l => (l, no_host_counters);
  shut_reader := fun l => (l, Ok tt);
  close_transport := fun l => (l, tt)
|}.

Lemma feeding_streams settings answers s :
  answers CommandKind.GET_STATUS = Some (StatusValue s) -> status_ok 1 (StatusIs s) ->
  streaming (C := feeding answers) settings 1 (Forall (item_ok settings)).
Proof.
  intros Ha Hs. split; try done.
  - intros timeout [|i l] Hl; [done|]. by apply Forall_cons in Hl as [Hi Hl].
  - intros timeout l Hl. split; [done|]. unfold request. cbn. rewrite Ha. cbn. split; [done|]. split; [done|]. by exists s.
Qed.

Lemma delivered_ok : Forall (item_ok example_settings) (map ItemBlock example_delivered).
Proof.
  assert (Hw : Forall v3_wf example_delivered) by (unfold example_delivered; rewrite Forall_app; auto using example_at_wf).
  assert (Hr : Forall rebuilds example_delivered).
  { set (bs := example_delivered). vm_compute in bs. repeat constructor. }
  assert (Hs : Forall (fun b => block_source b = Source.HARDWARE /\ block_kind b = V1FrameKind.ADC_DATA) example_delivered)
    by (apply (bool_decide_unpack _); vm_compute; exact I).
  apply Forall_fmap, Forall_forall. intros b Hb. rewrite Forall_forall in Hw, Hr, Hs.
  split; [exact (Hw b Hb)|]. split; [exact (Hr b Hb)|]. split; [exact (proj1 (Hs b Hb))|]. rewrite (proj2 (Hs b Hb)). reflexivity.
Qed.

(** START, then four reads of a frame, a gap and the frame after it. *)
Lemma acquisition_tiles_witness :
  exists c clocks, capabilities_canonical = Ok c /\ head (V3Capabilities.cpu_profiles c) = Some clocks /\
    let i := example_client_info clocks in
    let a := V3AppliedSettings.mk example_settings clocks in
    let H := feeding (idle_device c i a DeviceState.RUNNING) in
    let d := set_session (set_capabilities c (set_applied a (set_identity i (new_session 1000))))
               (new_client (ClientOptions.mk false 1000 1000 None None None ADOPT)) in
    let started := daq_start (d, map ItemBlock example_delivered) in
    started.2 = Ok 1 /\
    exists d2 rs, reads 4 None started.1 = ((d2, []), Ok rs) /\ length (received rs) = 3%nat /\
      walk_all V1FrameKind.ADC_DATA 1 (0, 0) (received rs) = Some (3, 48) /\ gap_items V1FrameKind.ADC_DATA (received rs) = 2.
Proof.
  destruct capabilities_canonical as [c|] eqn:Hc; [|by vm_compute in Hc].
  destruct (head (V3Capabilities.cpu_profiles c)) as [clocks|] eqn:Hh; [|vm_compute in Hc; by apply Ok_inj in Hc as <-].
  exists c, clocks. split; [done|]. split; [done|]. intros i a H d started.
  assert (Hall : started.2 = Ok 1 /\ started.1.2 = map ItemBlock example_delivered /\
    (exists s, ThingDAQ._v3 started.1.1 = Some s /\ V3Session.applied s = Some a) /\
    let after := reads 4 None started.1 in
    after.1.2 = [] /\ ClientStream._pending_items (ThingDAQ.stream after.1.1) = [] /\
    match after.2 with Ok rs => length (received rs) = 3%nat | Err _ => False end /\
    expectation_of V1FrameKind.ADC_DATA (ThingDAQ.stream after.1.1) = Some (Expectation.mk 3 48 (Some 2) false) /\
    inferred_of V1FrameKind.ADC_DATA (ThingDAQ.stream after.1.1) = Some (Inferred.mk 1 2)).
  { subst started d H a i. vm_compute in Hc. apply Ok_inj in Hc. subst c. vm_compute in Hh. apply Some_inj' in Hh. subst clocks.
    split; [vm_compute; reflexivity|]. split; [vm_compute; reflexivity|]. split; [eexists; split; vm_compute; reflexivity|].
    vm_compute. repeat split; reflexivity. }
  destruct started as [[d1 l1] r] eqn:Hstart. cbn [fst snd] in Hall. destruct Hall as (-> & -> & (s & Hs & Ha) & Hafter).
  split; [reflexivity|]. cbn [fst].
  pose (status := V3Status.mk (V3Stop.mk DeviceState.RUNNING 1 1) [] []).
  pose proof (acquisition_tiles (H := H) example_settings 1 (Forall (item_ok example_settings)) d d1 _ _ 4 None eq_refl ltac:(lia) Hstart
    (ex_intro _ s (ex_intro _ a (conj Hs (conj Ha eq_refl)))) (feeding_streams _ _ status eq_refl (conj eq_refl (conj eq_refl (Forall_nil_2 _))))
    delivered_ok eq_refl) as (d2 & l2 & rs & Hreads & _ & Hk).
  exists d2, rs. rewrite Hreads in Hafter. cbn [fst snd] in Hafter. destruct Hafter as (-> & Hp & Hl & He & Hi).
  split; [exact Hreads|]. split; [exact Hl|].
  destruct (Hk V1FrameKind.ADC_DATA eq_refl eq_refl) as (e & He' & Hw & Hi'). rewrite Hp, app_nil_r in Hw, Hi'.
  rewrite He in He'. apply Some_inj' in He'. subst e. rewrite Hi in Hi'. injection Hi' as _ Hi'. split; [exact Hw|by symmetry].
Defined.
