(* ===== verification/V1Constants.v ===== *)
(** * Public protocol-v1 constants ([_generated/protocol_constants.py]).

    The scalars, enumerations and wire tables of the first protocol version that
    [protocol.py] reads, under the names it reads them by; [V3Constants] has the
    names of version 3, and no file imports both.  Bit-flag enumerations ([IntFlag])
    are integers with named bits.  The enumerations other components already model
    ([FrameKind], [DeviceState], the board and processor identifiers) are aliased. *)

From S2P Require Import Prelude PyStruct Checksum Profiles ClientStream Identity.

(** ** Scalars *)

Definition MAGIC : Z := 3735928559.
Definition MAGIC_BYTES : bytes := [239; 190; 173; 222].
Definition PROTOCOL_VERSION : Z := 1.
Definition HEADER_STRUCT_FORMAT : list fcode := Eval vm_compute in struct_format "<IBBHHBBIIIIIQI".
Definition HEADER_SIZE : Z := 44.
Definition TRAILER_SIZE : Z := 4.
Definition MIN_FRAME_BYTES : Z := 48.
Definition DATA_FRAME_BYTES : Z := 4096.
Definition MAX_DATA_FRAME_BYTES : Z := 4096.
Definition DATA_PAYLOAD_BYTES : Z := 4048.
Definition MAX_CONTROL_FRAME_BYTES : Z := 1280.
Definition MAX_COMMAND_FRAME_BYTES : Z := 56.
Definition TIMESTAMP_HZ : Z := 8000000.
Definition ADC_PAIR_RATE_HZ : Z := 1000000.
Definition ADC_PAIR_PERIOD_TICKS : Z := 8.
Definition ADC1_PHASE_TICKS : Z := 4.
Definition GPIO_SAMPLE_RATE_HZ : Z := 4000000.
Definition GPIO_SAMPLE_PERIOD_TICKS : Z := 2.
Definition CHECKSUM_BENCHMARK_CYCLE_COUNTER_HZ : Z := 600000000.
Definition CHECKSUM_BENCHMARK_TARGET_FRAMED_BYTES_PER_SECOND : Z := 8100000.
Definition CHECKSUM_BENCHMARK_MAX_BATCH_COUNT : Z := 8.
Definition CHECKSUM_BENCHMARK_MAX_ITERATIONS_PER_BATCH : Z := 4096.
Definition CHECKSUM_BENCHMARK_MAX_OPERATIONS : Z := 32768.
Definition CHECKSUM_BENCHMARK_MAX_PROCESSED_BYTES : Z := 8388608.
Definition GPIO_CLOCK_PIT_HZ : Z := 24000000.
Definition GPIO_CLOCK_DWT_HZ : Z := 600000000.
Definition GPIO_CLOCK_PRODUCTION_RATE_HZ : Z := 4000000.
Definition GPIO_CLOCK_MIN_RATE_HZ : Z := 1000.
Definition GPIO_CLOCK_MIN_EVENT_COUNT : Z := 32.
Definition GPIO_CLOCK_MAX_EVENT_COUNT : Z := 8192.
Definition GPIO_CLOCK_MAX_ELAPSED_CYCLES : Z := 60000000.
Definition GPIO_CLOCK_DUPLICATE_GUARD_EVENTS : Z := 16.
Definition GPIO_CLOCK_COUNT_TOLERANCE : Z := 1.
Definition GPIO_PACKED_WIDTH_BITS : Z := 8.
Definition GPIO_RAW_RING_DEPTH : Z := 4.
Definition GPIO_RAW_SAMPLES_PER_BUFFER : Z := 4048.
Definition GPIO_RAW_RING_BYTES : Z := 64768.
Definition GPIO_PACKED_RING_DEPTH : Z := 4.
Definition GPIO_PACKED_RING_BYTES : Z := 16256.
Definition GPIO_PACKET_BUFFER_COUNT : Z := 200.
Definition GPIO_PIT_CHANNEL : Z := 0.
Definition GPIO_XBAR_INPUT : Z := 56.
Definition GPIO_XBAR_OUTPUT : Z := 0.
Definition GPIO_XBAR_ACTIVE_EDGE : Z := 1.
Definition GPIO_EDMA_CHANNEL : Z := 2.
Definition GPIO_DMAMUX_SOURCE : Z := 30.
Definition GPIO_EDMA_PRIORITY : Z := 0.
Definition ADC_PRIMARY_RESOLUTION_BITS : Z := 12.
Definition ADC_FALLBACK_RESOLUTION_BITS : Z := 10.
Definition ADC_CODE_MIN : Z := 0.
Definition ADC_REFERENCE_MV_NOMINAL : Z := 3300.
Definition ADC_INPUT_MIN_MV_NOMINAL : Z := 0.
Definition ADC_INPUT_MAX_MV_NOMINAL : Z := 3300.
Definition ADC_IPG_CLOCK_HZ : Z := 150000000.
Definition ADC_CLOCK_HZ : Z := 37500000.
Definition ADC_CLOCK_DIVIDER : Z := 4.
Definition ADC_HARDWARE_AVERAGE_COUNT : Z := 0.
Definition ADC_SAMPLE_TIME_ADCK : Z := 3.
Definition ADC_CALIBRATION_DEADLINE_US : Z := 10000.
Definition ADC_PINS : list Z := [14; 15].
Definition ADC_PERIPHERALS : list Z := [1; 2].
Definition ADC_CHANNELS : list Z := [7; 8].
Definition ADC_PAIRS_PER_FRAME : Z := 1012.
Definition ADC_CONTAINER_BITS : Z := 16.
Definition GPIO_SAMPLES_PER_FRAME : Z := 4048.
Definition GPIO_PINS_BY_BIT : list Z := [6; 7; 8; 9; 10; 11; 12; 13].
Definition SUPPORTED_CHECKSUM_MASK : Z := 14.
Definition KNOWN_CAPABILITY_MASK : Z := 511.
Definition KNOWN_GPIO_CLOCK_ERROR_MASK : Z := 32767.
Definition KNOWN_GPIO_CAPTURE_DIAGNOSTIC_FLAG_MASK : Z := 511.
Definition KNOWN_GPIO_CAPTURE_ERROR_MASK : Z := 65535.
Definition KNOWN_ADC_CONFIGURATION_FLAG_MASK : Z := 511.
Definition KNOWN_ADC_INITIALIZATION_ERROR_MASK : Z := 2047.
Definition ERROR_RESPONSE_PAYLOAD_SIZE : Z := 8.

(** ** Payload offsets *)

Definition INFO_RESPONSE_RESERVED_0_OFFSET : Z := 1.
Definition INFO_RESPONSE_DEVICE_STATE_OFFSET : Z := 4.
Definition INFO_RESPONSE_PROTOCOL_VERSION_OFFSET : Z := 5.
Definition INFO_RESPONSE_SUPPORTED_STREAM_MASK_OFFSET : Z := 6.
Definition INFO_RESPONSE_SUPPORTED_SOURCE_MASK_OFFSET : Z := 7.
Definition INFO_RESPONSE_SUPPORTED_CHECKSUM_MASK_OFFSET : Z := 8.
Definition INFO_RESPONSE_CAPABILITY_BITS_OFFSET : Z := 12.
Definition INFO_RESPONSE_TIMESTAMP_HZ_OFFSET : Z := 16.
Definition INFO_RESPONSE_DATA_FRAME_BYTES_OFFSET : Z := 20.
Definition INFO_RESPONSE_MAX_CONTROL_FRAME_BYTES_OFFSET : Z := 24.
Definition INFO_RESPONSE_ADC_PAIR_RATE_HZ_OFFSET : Z := 28.
Definition INFO_RESPONSE_GPIO_SAMPLE_RATE_HZ_OFFSET : Z := 32.
Definition INFO_RESPONSE_ADC_PAIR_PERIOD_TICKS_OFFSET : Z := 36.
Definition INFO_RESPONSE_ADC1_PHASE_TICKS_OFFSET : Z := 38.
Definition INFO_RESPONSE_GPIO_SAMPLE_PERIOD_TICKS_OFFSET : Z := 40.
Definition INFO_RESPONSE_GPIO_PIN_COUNT_OFFSET : Z := 44.
Definition INFO_RESPONSE_DATA_CHECKSUM_ALGORITHM_OFFSET : Z := 45.
Definition INFO_RESPONSE_GPIO_PIN_MAP_OFFSET : Z := 46.
Definition INFO_RESPONSE_GPIO_PIN_MAP_COUNT : Z := 8.
Definition INFO_RESPONSE_RESERVED_2_OFFSET : Z := 61.
Definition INFO_RESPONSE_BOARD_ID_OFFSET : Z := 62.
Definition INFO_RESPONSE_MCU_ID_OFFSET : Z := 64.
Definition INFO_RESPONSE_BUILD_ID_OFFSET : Z := 66.
Definition INFO_RESPONSE_BUILD_ID_COUNT : Z := 32.
Definition INFO_RESPONSE_GPIO_PACKED_WIDTH_BITS_OFFSET : Z := 98.
Definition INFO_RESPONSE_GPIO_RAW_RING_DEPTH_OFFSET : Z := 99.
Definition INFO_RESPONSE_GPIO_PACKED_RING_DEPTH_OFFSET : Z := 100.
Definition INFO_RESPONSE_GPIO_CAPTURE_DIAGNOSTIC_MODE_OFFSET : Z := 101.
Definition INFO_RESPONSE_GPIO_CAPTURE_DIAGNOSTIC_FLAGS_OFFSET : Z := 102.
Definition INFO_RESPONSE_GPIO_RAW_SAMPLES_PER_BUFFER_OFFSET : Z := 104.
Definition INFO_RESPONSE_GPIO_RAW_RING_BYTES_OFFSET : Z := 108.
Definition INFO_RESPONSE_GPIO_PACKED_RING_BYTES_OFFSET : Z := 112.
Definition INFO_RESPONSE_GPIO_PACKET_BUFFER_COUNT_OFFSET : Z := 116.
Definition INFO_RESPONSE_RESERVED_3_OFFSET : Z := 118.
Definition INFO_RESPONSE_GPIO_PIT_CHANNEL_OFFSET : Z := 120.
Definition INFO_RESPONSE_GPIO_XBAR_INPUT_OFFSET : Z := 121.
Definition INFO_RESPONSE_GPIO_XBAR_OUTPUT_OFFSET : Z := 122.
Definition INFO_RESPONSE_GPIO_EDMA_CHANNEL_OFFSET : Z := 123.
Definition INFO_RESPONSE_GPIO_DMAMUX_SOURCE_OFFSET : Z := 124.
Definition INFO_RESPONSE_GPIO_EDMA_PRIORITY_OFFSET : Z := 125.
Definition INFO_RESPONSE_GPIO_XBAR_ACTIVE_EDGE_OFFSET : Z := 126.
Definition INFO_RESPONSE_RESERVED_4_OFFSET : Z := 127.
Definition INFO_RESPONSE_RESERVED_5_OFFSET : Z := 154.
Definition STATUS_RESPONSE_RESERVED_OFFSET : Z := 1.
Definition STATUS_RESPONSE_DEVICE_STATE_OFFSET : Z := 4.
Definition STATUS_RESPONSE_STREAM_MASK_OFFSET : Z := 5.
Definition STATUS_RESPONSE_SOURCE_OFFSET : Z := 6.
Definition STATUS_RESPONSE_DATA_CHECKSUM_ALGORITHM_OFFSET : Z := 7.
Definition STATUS_RESPONSE_DATA_FRAME_BYTES_OFFSET : Z := 8.
Definition STATUS_RESPONSE_STATS_GENERATION_OFFSET : Z := 52.
Definition STATUS_RESPONSE_GPIO_RAW_READY_DEPTH_OFFSET : Z := 120.
Definition STATUS_RESPONSE_GPIO_RAW_READY_HIGH_WATER_OFFSET : Z := 122.
Definition STATUS_RESPONSE_GPIO_PACKED_READY_DEPTH_OFFSET : Z := 124.
Definition STATUS_RESPONSE_GPIO_PACKED_READY_HIGH_WATER_OFFSET : Z := 126.
Definition STATUS_RESPONSE_PACKET_READY_DEPTH_OFFSET : Z := 128.
Definition STATUS_RESPONSE_PACKET_TRANSMIT_DEPTH_OFFSET : Z := 130.
Definition STATUS_RESPONSE_PACKET_OWNED_HIGH_WATER_OFFSET : Z := 132.
Definition STATUS_RESPONSE_GPIO_PROCESSING_CPU_BASIS_POINTS_OFFSET : Z := 134.
Definition STOP_RESPONSE_DEVICE_STATE_OFFSET : Z := 4.
Definition STOP_RESPONSE_RESERVED_1_OFFSET : Z := 5.
Definition RESET_STATS_RESPONSE_RESERVED_OFFSET : Z := 1.
Definition RESET_STATS_RESPONSE_STATS_GENERATION_OFFSET : Z := 4.
Definition PING_RESPONSE_RESERVED_OFFSET : Z := 1.
Definition CHECKSUM_BENCHMARK_RESPONSE_RESERVED_OFFSET : Z := 1.
Definition CHECKSUM_BENCHMARK_RESPONSE_CHECKSUM_ALGORITHM_OFFSET : Z := 4.
Definition CHECKSUM_BENCHMARK_RESPONSE_VECTOR_OFFSET : Z := 5.
Definition CHECKSUM_BENCHMARK_RESPONSE_CACHE_STATE_OFFSET : Z := 7.
Definition CHECKSUM_BENCHMARK_RESPONSE_BATCH_COUNT_OFFSET : Z := 8.
Definition CHECKSUM_BENCHMARK_RESPONSE_BUFFER_BYTES_OFFSET : Z := 12.
Definition CHECKSUM_BENCHMARK_RESPONSE_CYCLE_COUNTER_HZ_OFFSET : Z := 16.
Definition CHECKSUM_BENCHMARK_RESPONSE_TIMER_OVERHEAD_CYCLES_OFFSET : Z := 20.
Definition CHECKSUM_BENCHMARK_RESPONSE_IMPLEMENTATION_CODE_BYTES_OFFSET : Z := 24.
Definition CHECKSUM_BENCHMARK_RESPONSE_TABLE_BYTES_OFFSET : Z := 28.
Definition CHECKSUM_BENCHMARK_RESPONSE_WORKING_RAM_BYTES_OFFSET : Z := 32.
Definition CHECKSUM_BENCHMARK_RESPONSE_PROCESSED_BYTES_OFFSET : Z := 40.
Definition CHECKSUM_BENCHMARK_RESPONSE_RAW_CHECKSUM_CYCLES_OFFSET : Z := 48.
Definition CHECKSUM_BENCHMARK_RESPONSE_NET_CHECKSUM_CYCLES_OFFSET : Z := 56.
Definition CHECKSUM_BENCHMARK_RESPONSE_CACHE_SETUP_CYCLES_OFFSET : Z := 64.
Definition CHECKSUM_BENCHMARK_RESPONSE_MIN_BATCH_CYCLES_OFFSET : Z := 72.
Definition CHECKSUM_BENCHMARK_RESPONSE_MAX_BATCH_CYCLES_OFFSET : Z := 76.
Definition CHECKSUM_BENCHMARK_RESPONSE_CYCLES_PER_BYTE_Q16_OFFSET : Z := 80.
Definition CHECKSUM_BENCHMARK_RESPONSE_MB_PER_SECOND_Q16_OFFSET : Z := 84.
Definition CHECKSUM_BENCHMARK_RESPONSE_PROJECTED_CPU_PERCENT_Q16_OFFSET : Z := 88.
Definition CHECKSUM_BENCHMARK_RESPONSE_TARGET_FRAMED_BYTES_PER_SECOND_OFFSET : Z := 92.
Definition GPIO_CLOCK_DIAGNOSTIC_RESPONSE_CONFIGURED_RATE_HZ_OFFSET : Z := 4.
Definition GPIO_CLOCK_DIAGNOSTIC_RESPONSE_PRODUCTION_RATE_HZ_OFFSET : Z := 8.
Definition GPIO_CLOCK_DIAGNOSTIC_RESPONSE_PIT_CLOCK_HZ_OFFSET : Z := 12.
Definition GPIO_CLOCK_DIAGNOSTIC_RESPONSE_PIT_LOAD_VALUE_OFFSET : Z := 16.
Definition GPIO_CLOCK_DIAGNOSTIC_RESPONSE_REQUESTED_EVENT_COUNT_OFFSET : Z := 20.
Definition GPIO_CLOCK_DIAGNOSTIC_RESPONSE_SCHEDULED_EVENT_COUNT_OFFSET : Z := 24.
Definition GPIO_CLOCK_DIAGNOSTIC_RESPONSE_DMA_SAMPLE_COUNT_OFFSET : Z := 28.
Definition GPIO_CLOCK_DIAGNOSTIC_RESPONSE_DWT_COUNTER_HZ_OFFSET : Z := 32.
Definition GPIO_CLOCK_DIAGNOSTIC_RESPONSE_DWT_ELAPSED_CYCLES_OFFSET : Z := 36.
Definition GPIO_CLOCK_DIAGNOSTIC_RESPONSE_HARDWARE_ERROR_FLAGS_OFFSET : Z := 40.
Definition GPIO_CLOCK_DIAGNOSTIC_RESPONSE_TCD_CITER_FINAL_OFFSET : Z := 124.
Definition GPIO_CLOCK_DIAGNOSTIC_RESPONSE_TCD_BITER_OFFSET : Z := 126.
Definition GPIO_CAPTURE_DIAGNOSTIC_RESPONSE_MODE_OFFSET : Z := 4.
Definition GPIO_CAPTURE_DIAGNOSTIC_RESPONSE_METADATA_KIND_OFFSET : Z := 5.
Definition GPIO_CAPTURE_DIAGNOSTIC_RESPONSE_DRIVE_SAFETY_OFFSET : Z := 6.
Definition GPIO_CAPTURE_DIAGNOSTIC_RESPONSE_STIMULUS_KIND_OFFSET : Z := 7.
Definition GPIO_CAPTURE_DIAGNOSTIC_RESPONSE_HARDWARE_ERROR_FLAGS_OFFSET : Z := 16.
Definition GPIO_CAPTURE_DIAGNOSTIC_RESPONSE_DIAGNOSTIC_FLAGS_OFFSET : Z := 20.
Definition GPIO_CAPTURE_DIAGNOSTIC_RESPONSE_DMA_SAMPLES_CAPTURED_OFFSET : Z := 32.
Definition GPIO_CAPTURE_DIAGNOSTIC_RESPONSE_COMPLETE_SAMPLES_RETAINED_OFFSET : Z := 40.
Definition GPIO_CAPTURE_DIAGNOSTIC_RESPONSE_SAMPLES_ANALYZED_OFFSET : Z := 44.
Definition GPIO_CAPTURE_DIAGNOSTIC_RESPONSE_RESERVED_1_OFFSET : Z := 70.
Definition GPIO_CAPTURE_DIAGNOSTIC_RESPONSE_RESERVED_2_OFFSET : Z := 139.
Definition GPIO_CAPTURE_DIAGNOSTIC_RESPONSE_ANALYSIS_SAMPLE_LIMIT_OFFSET : Z := 140.
Definition ERROR_RESPONSE_RESERVED_1_OFFSET : Z := 6.

(** The two layouts whose offsets are also looked up by a computed name. *)

Definition info_response_layout : list (string * Z) :=
  [("INFO_RESPONSE_PAYLOAD_SIZE", 376); ("INFO_RESPONSE_RESPONSE_STATUS_OFFSET", 0);
   ("INFO_RESPONSE_RESERVED_0_OFFSET", 1); ("INFO_RESPONSE_ERROR_CODE_OFFSET", 2);
   ("INFO_RESPONSE_DEVICE_STATE_OFFSET", 4); ("INFO_RESPONSE_PROTOCOL_VERSION_OFFSET", 5);
   ("INFO_RESPONSE_SUPPORTED_STREAM_MASK_OFFSET", 6); ("INFO_RESPONSE_SUPPORTED_SOURCE_MASK_OFFSET", 7);
   ("INFO_RESPONSE_SUPPORTED_CHECKSUM_MASK_OFFSET", 8); ("INFO_RESPONSE_CAPABILITY_BITS_OFFSET", 12);
   ("INFO_RESPONSE_TIMESTAMP_HZ_OFFSET", 16); ("INFO_RESPONSE_DATA_FRAME_BYTES_OFFSET", 20);
   ("INFO_RESPONSE_MAX_CONTROL_FRAME_BYTES_OFFSET", 24); ("INFO_RESPONSE_ADC_PAIR_RATE_HZ_OFFSET", 28);
   ("INFO_RESPONSE_GPIO_SAMPLE_RATE_HZ_OFFSET", 32); ("INFO_RESPONSE_ADC_PAIR_PERIOD_TICKS_OFFSET", 36);
   ("INFO_RESPONSE_ADC1_PHASE_TICKS_OFFSET", 38); ("INFO_RESPONSE_GPIO_SAMPLE_PERIOD_TICKS_OFFSET", 40);
   ("INFO_RESPONSE_ADC_RESOLUTION_BITS_OFFSET", 42); ("INFO_RESPONSE_ADC_CONTAINER_BYTES_OFFSET", 43);
   ("INFO_RESPONSE_GPIO_PIN_COUNT_OFFSET", 44); ("INFO_RESPONSE_DATA_CHECKSUM_ALGORITHM_OFFSET", 45);
   ("INFO_RESPONSE_GPIO_PIN_MAP_OFFSET", 46); ("INFO_RESPONSE_GPIO_PIN_MAP_COUNT", 8);
   ("INFO_RESPONSE_HARDWARE_SERIAL_OFFSET", 54); ("INFO_RESPONSE_FIRMWARE_VERSION_MAJOR_OFFSET", 58);
   ("INFO_RESPONSE_FIRMWARE_VERSION_MINOR_OFFSET", 59); ("INFO_RESPONSE_FIRMWARE_VERSION_PATCH_OFFSET", 60);
   ("INFO_RESPONSE_RESERVED_2_OFFSET", 61); ("INFO_RESPONSE_BOARD_ID_OFFSET", 62);
   ("INFO_RESPONSE_MCU_ID_OFFSET", 64); ("INFO_RESPONSE_BUILD_ID_OFFSET", 66);
   ("INFO_RESPONSE_BUILD_ID_COUNT", 32); ("INFO_RESPONSE_GPIO_PACKED_WIDTH_BITS_OFFSET", 98);
   ("INFO_RESPONSE_GPIO_RAW_RING_DEPTH_OFFSET", 99); ("INFO_RESPONSE_GPIO_PACKED_RING_DEPTH_OFFSET", 100);
   ("INFO_RESPONSE_GPIO_CAPTURE_DIAGNOSTIC_MODE_OFFSET", 101);
   ("INFO_RESPONSE_GPIO_CAPTURE_DIAGNOSTIC_FLAGS_OFFSET", 102);
   ("INFO_RESPONSE_GPIO_RAW_SAMPLES_PER_BUFFER_OFFSET", 104);
   ("INFO_RESPONSE_GPIO_RAW_RING_BYTES_OFFSET", 108); ("INFO_RESPONSE_GPIO_PACKED_RING_BYTES_OFFSET", 112);
   ("INFO_RESPONSE_GPIO_PACKET_BUFFER_COUNT_OFFSET", 116); ("INFO_RESPONSE_RESERVED_3_OFFSET", 118);
   ("INFO_RESPONSE_GPIO_PIT_CHANNEL_OFFSET", 120); ("INFO_RESPONSE_GPIO_XBAR_INPUT_OFFSET", 121);
   ("INFO_RESPONSE_GPIO_XBAR_OUTPUT_OFFSET", 122); ("INFO_RESPONSE_GPIO_EDMA_CHANNEL_OFFSET", 123);
   ("INFO_RESPONSE_GPIO_DMAMUX_SOURCE_OFFSET", 124); ("INFO_RESPONSE_GPIO_EDMA_PRIORITY_OFFSET", 125);
   ("INFO_RESPONSE_GPIO_XBAR_ACTIVE_EDGE_OFFSET", 126); ("INFO_RESPONSE_RESERVED_4_OFFSET", 127);
   ("INFO_RESPONSE_ADC_CODE_MIN_OFFSET", 128); ("INFO_RESPONSE_ADC_CODE_MAX_OFFSET", 130);
   ("INFO_RESPONSE_ADC_REFERENCE_OFFSET", 132); ("INFO_RESPONSE_ADC_CLOCK_SOURCE_OFFSET", 133);
   ("INFO_RESPONSE_ADC_CLOCK_DIVIDER_OFFSET", 134); ("INFO_RESPONSE_ADC_HARDWARE_AVERAGE_COUNT_OFFSET", 135);
   ("INFO_RESPONSE_ADC_REFERENCE_MV_NOMINAL_OFFSET", 136);
   ("INFO_RESPONSE_ADC_INPUT_MIN_MV_NOMINAL_OFFSET", 138);
   ("INFO_RESPONSE_ADC_INPUT_MAX_MV_NOMINAL_OFFSET", 140);
   ("INFO_RESPONSE_ADC_SAMPLE_TIME_ADCK_OFFSET", 142); ("INFO_RESPONSE_ADC_CONVERSION_MODE_OFFSET", 143);
   ("INFO_RESPONSE_ADC_CONFIGURATION_FLAGS_OFFSET", 144);
   ("INFO_RESPONSE_ADC0_CALIBRATION_STATE_OFFSET", 146);
   ("INFO_RESPONSE_ADC1_CALIBRATION_STATE_OFFSET", 147); ("INFO_RESPONSE_ADC0_PIN_OFFSET", 148);
   ("INFO_RESPONSE_ADC1_PIN_OFFSET", 149); ("INFO_RESPONSE_ADC0_PERIPHERAL_OFFSET", 150);
   ("INFO_RESPONSE_ADC1_PERIPHERAL_OFFSET", 151); ("INFO_RESPONSE_ADC0_CHANNEL_OFFSET", 152);
   ("INFO_RESPONSE_ADC1_CHANNEL_OFFSET", 153); ("INFO_RESPONSE_RESERVED_5_OFFSET", 154);
   ("INFO_RESPONSE_ADC_IPG_CLOCK_HZ_OFFSET", 156); ("INFO_RESPONSE_ADC_CLOCK_HZ_OFFSET", 160);
   ("INFO_RESPONSE_ADC_CALIBRATION_DEADLINE_US_OFFSET", 164);
   ("INFO_RESPONSE_ADC0_CALIBRATION_CYCLES_OFFSET", 168);
   ("INFO_RESPONSE_ADC1_CALIBRATION_CYCLES_OFFSET", 172);
   ("INFO_RESPONSE_ADC_INITIALIZATION_ERROR_FLAGS_OFFSET", 176);
   ("INFO_RESPONSE_ADC_TRIGGER_CONFIGURATION_FLAGS_OFFSET", 180); ("INFO_RESPONSE_RESERVED_6_OFFSET", 182);
   ("INFO_RESPONSE_ADC_TRIGGER_ERROR_FLAGS_OFFSET", 184);
   ("INFO_RESPONSE_ADC_TRIGGER_PIT_CLOCK_HZ_OFFSET", 188);
   ("INFO_RESPONSE_ADC_TRIGGER_DWT_CLOCK_HZ_OFFSET", 192);
   ("INFO_RESPONSE_ADC_TRIGGER_GPIO_MASTER_RATE_HZ_OFFSET", 196);
   ("INFO_RESPONSE_ADC_TRIGGER_PAIR_RATE_HZ_OFFSET", 200);
   ("INFO_RESPONSE_ADC_TRIGGER_IPG_CLOCK_HZ_OFFSET", 204);
   ("INFO_RESPONSE_ADC_TRIGGER_GPIO_MASTER_PIT_CHANNEL_OFFSET", 208);
   ("INFO_RESPONSE_ADC_TRIGGER_PAIR_PIT_CHANNEL_OFFSET", 209);
   ("INFO_RESPONSE_ADC_TRIGGER_GPIO_MASTER_PIT_LOAD_OFFSET", 210);
   ("INFO_RESPONSE_ADC_TRIGGER_PAIR_PIT_LOAD_OFFSET", 211);
   ("INFO_RESPONSE_ADC_TRIGGER_PREDIVIDER_OFFSET", 212);
   ("INFO_RESPONSE_ADC_TRIGGER_CHAIN_LENGTH_OFFSET", 213);
   ("INFO_RESPONSE_ADC0_TRIGGER_XBAR_INPUT_OFFSET", 214);
   ("INFO_RESPONSE_ADC1_TRIGGER_XBAR_INPUT_OFFSET", 215);
   ("INFO_RESPONSE_ADC0_TRIGGER_XBAR_OUTPUT_OFFSET", 216);
   ("INFO_RESPONSE_ADC1_TRIGGER_XBAR_OUTPUT_OFFSET", 217);
   ("INFO_RESPONSE_ADC0_ETC_TRIGGER_QUEUE_OFFSET", 218);
   ("INFO_RESPONSE_ADC1_ETC_TRIGGER_QUEUE_OFFSET", 219);
   ("INFO_RESPONSE_ADC0_TRIGGER_INITIAL_DELAY_OFFSET", 220);
   ("INFO_RESPONSE_ADC1_TRIGGER_INITIAL_DELAY_OFFSET", 222);
   ("INFO_RESPONSE_ADC0_TRIGGER_EFFECTIVE_DELAY_OFFSET", 224);
   ("INFO_RESPONSE_ADC1_TRIGGER_EFFECTIVE_DELAY_OFFSET", 226);
   ("INFO_RESPONSE_ADC_TRIGGER_PHASE_IPG_CYCLES_OFFSET", 228); ("INFO_RESPONSE_RESERVED_7_OFFSET", 230);
   ("INFO_RESPONSE_ADC_TRIGGER_CCM_CSCMR1_CONFIGURED_OFFSET", 232);
   ("INFO_RESPONSE_ADC_TRIGGER_CCM_CCGR1_CONFIGURED_OFFSET", 236);
   ("INFO_RESPONSE_ADC_TRIGGER_CCM_CCGR2_CONFIGURED_OFFSET", 240);
   ("INFO_RESPONSE_ADC_TRIGGER_PIT_MCR_CONFIGURED_OFFSET", 244);
   ("INFO_RESPONSE_ADC_TRIGGER_GPIO_MASTER_TCTRL_CONFIGURED_OFFSET", 248);
   ("INFO_RESPONSE_ADC_TRIGGER_PAIR_TCTRL_CONFIGURED_OFFSET", 252);
   ("INFO_RESPONSE_ADC_ETC_CTRL_CONFIGURED_OFFSET", 256);
   ("INFO_RESPONSE_ADC0_ETC_TRIGGER_CTRL_CONFIGURED_OFFSET", 260);
   ("INFO_RESPONSE_ADC1_ETC_TRIGGER_CTRL_CONFIGURED_OFFSET", 264);
   ("INFO_RESPONSE_ADC0_ETC_TRIGGER_COUNTER_CONFIGURED_OFFSET", 268);
   ("INFO_RESPONSE_ADC1_ETC_TRIGGER_COUNTER_CONFIGURED_OFFSET", 272);
   ("INFO_RESPONSE_ADC0_ETC_CHAIN_CONFIGURED_OFFSET", 276);
   ("INFO_RESPONSE_ADC1_ETC_CHAIN_CONFIGURED_OFFSET", 280);
   ("INFO_RESPONSE_ADC_ETC_DONE0_1_IRQ_FINAL_OFFSET", 284);
   ("INFO_RESPONSE_ADC_ETC_DONE2_ERR_IRQ_FINAL_OFFSET", 288);
   ("INFO_RESPONSE_ADC0_COMPLETION_COUNT_OFFSET", 292); ("INFO_RESPONSE_ADC1_COMPLETION_COUNT_OFFSET", 296);
   ("INFO_RESPONSE_ADC_COMPLETION_DELTA_CYCLES_OFFSET", 300);
   ("INFO_RESPONSE_ADC_COMPLETION_EXPECTED_DELTA_CYCLES_OFFSET", 304);
   ("INFO_RESPONSE_ADC_COMPLETION_TOLERANCE_CYCLES_OFFSET", 308);
   ("INFO_RESPONSE_ADC_COMPLETION_DIAGNOSTIC_ELAPSED_CYCLES_OFFSET", 312);
   ("INFO_RESPONSE_ADC_TRIGGER_ERROR_COUNT_OFFSET", 316);
   ("INFO_RESPONSE_ADC0_TRIGGER_XBAR_SEL_CONFIGURED_OFFSET", 320);
   ("INFO_RESPONSE_ADC1_TRIGGER_XBAR_SEL_CONFIGURED_OFFSET", 322);
   ("INFO_RESPONSE_APPLIED_STREAM_MASK_OFFSET", 324); ("INFO_RESPONSE_APPLIED_SOURCE_OFFSET", 325);
   ("INFO_RESPONSE_SUPPORTED_CONFIGURATION_MASK_OFFSET", 326);
   ("INFO_RESPONSE_DATA_PAYLOAD_BYTES_OFFSET", 328); ("INFO_RESPONSE_ADC_PAIRS_PER_FRAME_OFFSET", 330);
   ("INFO_RESPONSE_GPIO_SAMPLES_PER_FRAME_OFFSET", 332); ("INFO_RESPONSE_RESERVED_8_OFFSET", 334);
   ("INFO_RESPONSE_FRAME_COVERAGE_TICKS_OFFSET", 336); ("INFO_RESPONSE_ADC_DMA_RING_DEPTH_OFFSET", 340);
   ("INFO_RESPONSE_ADC_PAIR_BYTES_OFFSET", 341); ("INFO_RESPONSE_ADC_EDMA_CHANNELS_OFFSET", 342);
   ("INFO_RESPONSE_ADC_EDMA_CHANNELS_COUNT", 2); ("INFO_RESPONSE_ADC_EDMA_PRIORITIES_OFFSET", 344);
   ("INFO_RESPONSE_ADC_EDMA_PRIORITIES_COUNT", 2); ("INFO_RESPONSE_ADC_DMAMUX_SOURCES_OFFSET", 346);
   ("INFO_RESPONSE_ADC_DMAMUX_SOURCES_COUNT", 2); ("INFO_RESPONSE_ADC_DMA_IRQ_PRIORITY_OFFSET", 348);
   ("INFO_RESPONSE_GPIO_DMA_IRQ_PRIORITY_OFFSET", 349); ("INFO_RESPONSE_ADC_PAIRS_PER_BUFFER_OFFSET", 350);
   ("INFO_RESPONSE_ADC_DMA_RING_BYTES_OFFSET", 352); ("INFO_RESPONSE_PACKET_BUFFER_COUNT_OFFSET", 356);
   ("INFO_RESPONSE_PACKET_PRIMARY_COUNT_OFFSET", 358); ("INFO_RESPONSE_PACKET_RESERVE_COUNT_OFFSET", 360);
   ("INFO_RESPONSE_PACKET_READY_QUEUE_CAPACITY_OFFSET", 362);
   ("INFO_RESPONSE_PACKET_TRANSMIT_QUEUE_CAPACITY_OFFSET", 364);
   ("INFO_RESPONSE_COMMAND_QUEUE_CAPACITY_OFFSET", 366);
   ("INFO_RESPONSE_RESPONSE_QUEUE_CAPACITY_OFFSET", 367);
   ("INFO_RESPONSE_NOMINAL_PAYLOAD_BYTES_PER_SECOND_PER_STREAM_OFFSET", 368);
   ("INFO_RESPONSE_NOMINAL_FRAMED_BYTES_PER_SECOND_PER_STREAM_OFFSET", 372)]%string.

Definition status_response_layout : list (string * Z) :=
  [("STATUS_RESPONSE_PAYLOAD_SIZE", 1228); ("STATUS_RESPONSE_RESPONSE_STATUS_OFFSET", 0);
   ("STATUS_RESPONSE_RESERVED_OFFSET", 1); ("STATUS_RESPONSE_ERROR_CODE_OFFSET", 2);
   ("STATUS_RESPONSE_DEVICE_STATE_OFFSET", 4); ("STATUS_RESPONSE_STREAM_MASK_OFFSET", 5);
   ("STATUS_RESPONSE_SOURCE_OFFSET", 6); ("STATUS_RESPONSE_DATA_CHECKSUM_ALGORITHM_OFFSET", 7);
   ("STATUS_RESPONSE_DATA_FRAME_BYTES_OFFSET", 8); ("STATUS_RESPONSE_ADC_FRAMES_EMITTED_OFFSET", 12);
   ("STATUS_RESPONSE_GPIO_FRAMES_EMITTED_OFFSET", 20); ("STATUS_RESPONSE_ADC_ITEMS_DROPPED_OFFSET", 28);
   ("STATUS_RESPONSE_GPIO_ITEMS_DROPPED_OFFSET", 36); ("STATUS_RESPONSE_PARSER_ERRORS_OFFSET", 44);
   ("STATUS_RESPONSE_TRANSPORT_ERRORS_OFFSET", 48); ("STATUS_RESPONSE_STATS_GENERATION_OFFSET", 52);
   ("STATUS_RESPONSE_GPIO_SAMPLES_CAPTURED_OFFSET", 56); ("STATUS_RESPONSE_GPIO_SAMPLES_PACKED_OFFSET", 64);
   ("STATUS_RESPONSE_GPIO_SAMPLES_FRAMED_OFFSET", 72);
   ("STATUS_RESPONSE_GPIO_SAMPLES_TRANSMITTED_OFFSET", 80);
   ("STATUS_RESPONSE_GPIO_RAW_SAMPLES_LOST_OFFSET", 88);
   ("STATUS_RESPONSE_GPIO_PACKER_SAMPLES_DROPPED_OFFSET", 96);
   ("STATUS_RESPONSE_GPIO_RAW_RING_OVERRUNS_OFFSET", 104);
   ("STATUS_RESPONSE_GPIO_DMA_MAJOR_LOOPS_OFFSET", 112);
   ("STATUS_RESPONSE_GPIO_RAW_READY_DEPTH_OFFSET", 120);
   ("STATUS_RESPONSE_GPIO_RAW_READY_HIGH_WATER_OFFSET", 122);
   ("STATUS_RESPONSE_GPIO_PACKED_READY_DEPTH_OFFSET", 124);
   ("STATUS_RESPONSE_GPIO_PACKED_READY_HIGH_WATER_OFFSET", 126);
   ("STATUS_RESPONSE_PACKET_READY_DEPTH_OFFSET", 128); ("STATUS_RESPONSE_PACKET_TRANSMIT_DEPTH_OFFSET", 130);
   ("STATUS_RESPONSE_PACKET_OWNED_HIGH_WATER_OFFSET", 132);
   ("STATUS_RESPONSE_GPIO_PROCESSING_CPU_BASIS_POINTS_OFFSET", 134);
   ("STATUS_RESPONSE_GPIO_HARDWARE_ERRORS_OFFSET", 136);
   ("STATUS_RESPONSE_GPIO_RAW_INVARIANT_ERRORS_OFFSET", 140);
   ("STATUS_RESPONSE_GPIO_PACKER_SOURCE_ERRORS_OFFSET", 144);
   ("STATUS_RESPONSE_GPIO_PACKER_PIPELINE_ERRORS_OFFSET", 148);
   ("STATUS_RESPONSE_GPIO_PACKER_CHRONOLOGY_ERRORS_OFFSET", 152);
   ("STATUS_RESPONSE_GPIO_RESOURCE_CONFLICTS_OFFSET", 156);
   ("STATUS_RESPONSE_GPIO_START_ERRORS_OFFSET", 160); ("STATUS_RESPONSE_GPIO_STOP_ERRORS_OFFSET", 164);
   ("STATUS_RESPONSE_GPIO_STALE_DMA_COMPLETIONS_OFFSET", 168);
   ("STATUS_RESPONSE_ADC_RESOLUTION_BITS_OFFSET", 172); ("STATUS_RESPONSE_ADC_CONTAINER_BYTES_OFFSET", 173);
   ("STATUS_RESPONSE_ADC0_CALIBRATION_STATE_OFFSET", 174);
   ("STATUS_RESPONSE_ADC1_CALIBRATION_STATE_OFFSET", 175); ("STATUS_RESPONSE_ADC_CODE_MIN_OFFSET", 176);
   ("STATUS_RESPONSE_ADC_CODE_MAX_OFFSET", 178); ("STATUS_RESPONSE_ADC_REFERENCE_OFFSET", 180);
   ("STATUS_RESPONSE_ADC_CLOCK_SOURCE_OFFSET", 181); ("STATUS_RESPONSE_ADC_CLOCK_DIVIDER_OFFSET", 182);
   ("STATUS_RESPONSE_ADC_HARDWARE_AVERAGE_COUNT_OFFSET", 183);
   ("STATUS_RESPONSE_ADC_REFERENCE_MV_NOMINAL_OFFSET", 184);
   ("STATUS_RESPONSE_ADC_INPUT_MIN_MV_NOMINAL_OFFSET", 186);
   ("STATUS_RESPONSE_ADC_INPUT_MAX_MV_NOMINAL_OFFSET", 188);
   ("STATUS_RESPONSE_ADC_SAMPLE_TIME_ADCK_OFFSET", 190); ("STATUS_RESPONSE_ADC_CONVERSION_MODE_OFFSET", 191);
   ("STATUS_RESPONSE_ADC_CONFIGURATION_FLAGS_OFFSET", 192); ("STATUS_RESPONSE_ADC0_PIN_OFFSET", 194);
   ("STATUS_RESPONSE_ADC1_PIN_OFFSET", 195); ("STATUS_RESPONSE_ADC0_PERIPHERAL_OFFSET", 196);
   ("STATUS_RESPONSE_ADC1_PERIPHERAL_OFFSET", 197); ("STATUS_RESPONSE_ADC0_CHANNEL_OFFSET", 198);
   ("STATUS_RESPONSE_ADC1_CHANNEL_OFFSET", 199); ("STATUS_RESPONSE_ADC_IPG_CLOCK_HZ_OFFSET", 200);
   ("STATUS_RESPONSE_ADC_CLOCK_HZ_OFFSET", 204); ("STATUS_RESPONSE_ADC_CALIBRATION_DEADLINE_US_OFFSET", 208);
   ("STATUS_RESPONSE_ADC0_CALIBRATION_CYCLES_OFFSET", 212);
   ("STATUS_RESPONSE_ADC1_CALIBRATION_CYCLES_OFFSET", 216);
   ("STATUS_RESPONSE_ADC_INITIALIZATION_ERROR_FLAGS_OFFSET", 220);
   ("STATUS_RESPONSE_ADC_TRIGGER_CONFIGURATION_FLAGS_OFFSET", 224);
   ("STATUS_RESPONSE_RESERVED_2_OFFSET", 226); ("STATUS_RESPONSE_ADC_TRIGGER_ERROR_FLAGS_OFFSET", 228);
   ("STATUS_RESPONSE_ADC_TRIGGER_PIT_CLOCK_HZ_OFFSET", 232);
   ("STATUS_RESPONSE_ADC_TRIGGER_DWT_CLOCK_HZ_OFFSET", 236);
   ("STATUS_RESPONSE_ADC_TRIGGER_GPIO_MASTER_RATE_HZ_OFFSET", 240);
   ("STATUS_RESPONSE_ADC_TRIGGER_PAIR_RATE_HZ_OFFSET", 244);
   ("STATUS_RESPONSE_ADC_TRIGGER_IPG_CLOCK_HZ_OFFSET", 248);
   ("STATUS_RESPONSE_ADC_TRIGGER_GPIO_MASTER_PIT_CHANNEL_OFFSET", 252);
   ("STATUS_RESPONSE_ADC_TRIGGER_PAIR_PIT_CHANNEL_OFFSET", 253);
   ("STATUS_RESPONSE_ADC_TRIGGER_GPIO_MASTER_PIT_LOAD_OFFSET", 254);
   ("STATUS_RESPONSE_ADC_TRIGGER_PAIR_PIT_LOAD_OFFSET", 255);
   ("STATUS_RESPONSE_ADC_TRIGGER_PREDIVIDER_OFFSET", 256);
   ("STATUS_RESPONSE_ADC_TRIGGER_CHAIN_LENGTH_OFFSET", 257);
   ("STATUS_RESPONSE_ADC0_TRIGGER_XBAR_INPUT_OFFSET", 258);
   ("STATUS_RESPONSE_ADC1_TRIGGER_XBAR_INPUT_OFFSET", 259);
   ("STATUS_RESPONSE_ADC0_TRIGGER_XBAR_OUTPUT_OFFSET", 260);
   ("STATUS_RESPONSE_ADC1_TRIGGER_XBAR_OUTPUT_OFFSET", 261);
   ("STATUS_RESPONSE_ADC0_ETC_TRIGGER_QUEUE_OFFSET", 262);
   ("STATUS_RESPONSE_ADC1_ETC_TRIGGER_QUEUE_OFFSET", 263);
   ("STATUS_RESPONSE_ADC0_TRIGGER_INITIAL_DELAY_OFFSET", 264);
   ("STATUS_RESPONSE_ADC1_TRIGGER_INITIAL_DELAY_OFFSET", 266);
   ("STATUS_RESPONSE_ADC0_TRIGGER_EFFECTIVE_DELAY_OFFSET", 268);
   ("STATUS_RESPONSE_ADC1_TRIGGER_EFFECTIVE_DELAY_OFFSET", 270);
   ("STATUS_RESPONSE_ADC_TRIGGER_PHASE_IPG_CYCLES_OFFSET", 272); ("STATUS_RESPONSE_RESERVED_3_OFFSET", 274);
   ("STATUS_RESPONSE_ADC_TRIGGER_CCM_CSCMR1_CONFIGURED_OFFSET", 276);
   ("STATUS_RESPONSE_ADC_TRIGGER_CCM_CCGR1_CONFIGURED_OFFSET", 280);
   ("STATUS_RESPONSE_ADC_TRIGGER_CCM_CCGR2_CONFIGURED_OFFSET", 284);
   ("STATUS_RESPONSE_ADC_TRIGGER_PIT_MCR_CONFIGURED_OFFSET", 288);
   ("STATUS_RESPONSE_ADC_TRIGGER_GPIO_MASTER_TCTRL_CONFIGURED_OFFSET", 292);
   ("STATUS_RESPONSE_ADC_TRIGGER_PAIR_TCTRL_CONFIGURED_OFFSET", 296);
   ("STATUS_RESPONSE_ADC_ETC_CTRL_CONFIGURED_OFFSET", 300);
   ("STATUS_RESPONSE_ADC0_ETC_TRIGGER_CTRL_CONFIGURED_OFFSET", 304);
   ("STATUS_RESPONSE_ADC1_ETC_TRIGGER_CTRL_CONFIGURED_OFFSET", 308);
   ("STATUS_RESPONSE_ADC0_ETC_TRIGGER_COUNTER_CONFIGURED_OFFSET", 312);
   ("STATUS_RESPONSE_ADC1_ETC_TRIGGER_COUNTER_CONFIGURED_OFFSET", 316);
   ("STATUS_RESPONSE_ADC0_ETC_CHAIN_CONFIGURED_OFFSET", 320);
   ("STATUS_RESPONSE_ADC1_ETC_CHAIN_CONFIGURED_OFFSET", 324);
   ("STATUS_RESPONSE_ADC_ETC_DONE0_1_IRQ_FINAL_OFFSET", 328);
   ("STATUS_RESPONSE_ADC_ETC_DONE2_ERR_IRQ_FINAL_OFFSET", 332);
   ("STATUS_RESPONSE_ADC0_COMPLETION_COUNT_OFFSET", 336);
   ("STATUS_RESPONSE_ADC1_COMPLETION_COUNT_OFFSET", 340);
   ("STATUS_RESPONSE_ADC_COMPLETION_DELTA_CYCLES_OFFSET", 344);
   ("STATUS_RESPONSE_ADC_COMPLETION_EXPECTED_DELTA_CYCLES_OFFSET", 348);
   ("STATUS_RESPONSE_ADC_COMPLETION_TOLERANCE_CYCLES_OFFSET", 352);
   ("STATUS_RESPONSE_ADC_COMPLETION_DIAGNOSTIC_ELAPSED_CYCLES_OFFSET", 356);
   ("STATUS_RESPONSE_ADC_TRIGGER_ERROR_COUNT_OFFSET", 360);
   ("STATUS_RESPONSE_ADC0_TRIGGER_XBAR_SEL_CONFIGURED_OFFSET", 364);
   ("STATUS_RESPONSE_ADC1_TRIGGER_XBAR_SEL_CONFIGURED_OFFSET", 366);
   ("STATUS_RESPONSE_ADC0_DMA_MAJOR_LOOPS_OFFSET", 368);
   ("STATUS_RESPONSE_ADC1_DMA_MAJOR_LOOPS_OFFSET", 376); ("STATUS_RESPONSE_ADC0_DMA_RESULTS_OFFSET", 384);
   ("STATUS_RESPONSE_ADC1_DMA_RESULTS_OFFSET", 392); ("STATUS_RESPONSE_ADC_PAIRED_MAJOR_LOOPS_OFFSET", 400);
   ("STATUS_RESPONSE_ADC_BUFFERS_COMPLETED_OFFSET", 408);
   ("STATUS_RESPONSE_ADC_BUFFERS_ACQUIRED_OFFSET", 416);
   ("STATUS_RESPONSE_ADC_BUFFERS_RELEASED_OFFSET", 424); ("STATUS_RESPONSE_ADC_PAIRS_CAPTURED_OFFSET", 432);
   ("STATUS_RESPONSE_ADC_PAIRS_DELIVERED_OFFSET", 440); ("STATUS_RESPONSE_ADC_PAIRS_FRAMED_OFFSET", 448);
   ("STATUS_RESPONSE_ADC_PAIRS_TRANSMITTED_OFFSET", 456); ("STATUS_RESPONSE_ADC_RAW_PAIRS_LOST_OFFSET", 464);
   ("STATUS_RESPONSE_ADC_STOP_PAIRS_DISCARDED_OFFSET", 472);
   ("STATUS_RESPONSE_ADC_INCOMPLETE_CONVERSIONS_OFFSET", 480);
   ("STATUS_RESPONSE_ADC_OVERWRITTEN_CONVERSIONS_OFFSET", 488);
   ("STATUS_RESPONSE_ADC_RAW_RING_OVERRUNS_OFFSET", 496);
   ("STATUS_RESPONSE_ADC_INCOMPLETE_BUFFERS_OFFSET", 504);
   ("STATUS_RESPONSE_ADC_RAW_READY_DEPTH_OFFSET", 512);
   ("STATUS_RESPONSE_ADC_RAW_READY_HIGH_WATER_OFFSET", 514);
   ("STATUS_RESPONSE_ADC_ETC_ERROR_EVENTS_OFFSET", 516); ("STATUS_RESPONSE_ADC_ETC_ERROR_FLAGS_OFFSET", 520);
   ("STATUS_RESPONSE_ADC_DMA_ERROR_EVENTS_OFFSET", 524);
   ("STATUS_RESPONSE_ADC_COMPLETION_MISMATCHES_OFFSET", 528);
   ("STATUS_RESPONSE_ADC_DESTINATION_MISMATCHES_OFFSET", 532);
   ("STATUS_RESPONSE_ADC_SCHEDULE_EXHAUSTIONS_OFFSET", 536);
   ("STATUS_RESPONSE_ADC_RAW_INVARIANT_ERRORS_OFFSET", 540);
   ("STATUS_RESPONSE_ADC_STALE_COMPLETIONS_OFFSET", 544);
   ("STATUS_RESPONSE_ADC_RESOURCE_CONFLICTS_OFFSET", 548); ("STATUS_RESPONSE_ADC_START_ERRORS_OFFSET", 552);
   ("STATUS_RESPONSE_ADC_STOP_ERRORS_OFFSET", 556); ("STATUS_RESPONSE_ADC_STALE_INTERRUPTS_OFFSET", 560);
   ("STATUS_RESPONSE_ADC_PACKER_SOURCE_ERRORS_OFFSET", 564);
   ("STATUS_RESPONSE_ADC_PACKER_PIPELINE_ERRORS_OFFSET", 568);
   ("STATUS_RESPONSE_ADC_PACKER_CHRONOLOGY_ERRORS_OFFSET", 572);
   ("STATUS_RESPONSE_ADC_FRAMES_GENERATED_OFFSET", 576); ("STATUS_RESPONSE_ADC_ITEMS_GENERATED_OFFSET", 584);
   ("STATUS_RESPONSE_ADC_FRAMES_FRAMED_PIPELINE_OFFSET", 592);
   ("STATUS_RESPONSE_ADC_ITEMS_FRAMED_PIPELINE_OFFSET", 600);
   ("STATUS_RESPONSE_ADC_ITEMS_EMITTED_OFFSET", 608); ("STATUS_RESPONSE_ADC_FRAMES_TRANSMITTED_OFFSET", 616);
   ("STATUS_RESPONSE_ADC_ITEMS_TRANSMITTED_PIPELINE_OFFSET", 624);
   ("STATUS_RESPONSE_ADC_FRAMES_DROPPED_OFFSET", 632); ("STATUS_RESPONSE_GPIO_FRAMES_GENERATED_OFFSET", 640);
   ("STATUS_RESPONSE_GPIO_ITEMS_GENERATED_OFFSET", 648);
   ("STATUS_RESPONSE_GPIO_FRAMES_FRAMED_PIPELINE_OFFSET", 656);
   ("STATUS_RESPONSE_GPIO_ITEMS_FRAMED_PIPELINE_OFFSET", 664);
   ("STATUS_RESPONSE_GPIO_ITEMS_EMITTED_OFFSET", 672);
   ("STATUS_RESPONSE_GPIO_FRAMES_TRANSMITTED_OFFSET", 680);
   ("STATUS_RESPONSE_GPIO_ITEMS_TRANSMITTED_PIPELINE_OFFSET", 688);
   ("STATUS_RESPONSE_GPIO_FRAMES_DROPPED_OFFSET", 696);
   ("STATUS_RESPONSE_ADC_PAYLOAD_BYTES_PRODUCED_OFFSET", 704);
   ("STATUS_RESPONSE_ADC_PAYLOAD_BYTES_FRAMED_OFFSET", 712);
   ("STATUS_RESPONSE_ADC_PAYLOAD_BYTES_EMITTED_OFFSET", 720);
   ("STATUS_RESPONSE_ADC_PAYLOAD_BYTES_TRANSMITTED_OFFSET", 728);
   ("STATUS_RESPONSE_ADC_PAYLOAD_BYTES_DROPPED_OFFSET", 736);
   ("STATUS_RESPONSE_ADC_FRAMED_BYTES_FRAMED_OFFSET", 744);
   ("STATUS_RESPONSE_ADC_FRAMED_BYTES_EMITTED_OFFSET", 752);
   ("STATUS_RESPONSE_ADC_FRAMED_BYTES_TRANSMITTED_OFFSET", 760);
   ("STATUS_RESPONSE_GPIO_PAYLOAD_BYTES_PRODUCED_OFFSET", 768);
   ("STATUS_RESPONSE_GPIO_PAYLOAD_BYTES_FRAMED_OFFSET", 776);
   ("STATUS_RESPONSE_GPIO_PAYLOAD_BYTES_EMITTED_OFFSET", 784);
   ("STATUS_RESPONSE_GPIO_PAYLOAD_BYTES_TRANSMITTED_OFFSET", 792);
   ("STATUS_RESPONSE_GPIO_PAYLOAD_BYTES_DROPPED_OFFSET", 800);
   ("STATUS_RESPONSE_GPIO_FRAMED_BYTES_FRAMED_OFFSET", 808);
   ("STATUS_RESPONSE_GPIO_FRAMED_BYTES_EMITTED_OFFSET", 816);
   ("STATUS_RESPONSE_GPIO_FRAMED_BYTES_TRANSMITTED_OFFSET", 824);
   ("STATUS_RESPONSE_ADC_PACKET_READY_DEPTH_OFFSET", 832);
   ("STATUS_RESPONSE_GPIO_PACKET_READY_DEPTH_OFFSET", 834);
   ("STATUS_RESPONSE_ADC_PACKET_TRANSMIT_DEPTH_OFFSET", 836);
   ("STATUS_RESPONSE_GPIO_PACKET_TRANSMIT_DEPTH_OFFSET", 838);
   ("STATUS_RESPONSE_ADC_PACKET_READY_HIGH_WATER_OFFSET", 840);
   ("STATUS_RESPONSE_GPIO_PACKET_READY_HIGH_WATER_OFFSET", 842);
   ("STATUS_RESPONSE_ADC_PACKET_TRANSMIT_HIGH_WATER_OFFSET", 844);
   ("STATUS_RESPONSE_GPIO_PACKET_TRANSMIT_HIGH_WATER_OFFSET", 846);
   ("STATUS_RESPONSE_PACKET_READY_HIGH_WATER_OFFSET", 848);
   ("STATUS_RESPONSE_PACKET_TRANSMIT_HIGH_WATER_OFFSET", 850);
   ("STATUS_RESPONSE_PACKET_FRAMES_PROMOTED_OFFSET", 852);
   ("STATUS_RESPONSE_PACKET_FAIRNESS_DEFERRALS_OFFSET", 860);
   ("STATUS_RESPONSE_PACKET_ACCOUNTED_FRAME_SKEW_OFFSET", 868);
   ("STATUS_RESPONSE_DATA_PAYLOAD_BYTES_TRANSMITTED_OFFSET", 876);
   ("STATUS_RESPONSE_DATA_FRAMED_BYTES_TRANSMITTED_OFFSET", 884);
   ("STATUS_RESPONSE_PACKET_POOL_EXHAUSTIONS_OFFSET", 892);
   ("STATUS_RESPONSE_PACKET_INVALID_OPERATIONS_OFFSET", 896);
   ("STATUS_RESPONSE_PACKET_ENCODING_REJECTIONS_OFFSET", 900);
   ("STATUS_RESPONSE_PACKET_READY_QUEUE_REJECTIONS_OFFSET", 904);
   ("STATUS_RESPONSE_PACKET_TRANSMIT_QUEUE_REJECTIONS_OFFSET", 908);
   ("STATUS_RESPONSE_COMMANDS_ACCEPTED_OFFSET", 912); ("STATUS_RESPONSE_COMMANDS_REJECTED_OFFSET", 916);
   ("STATUS_RESPONSE_BAD_CHECKSUMS_OFFSET", 920); ("STATUS_RESPONSE_BAD_LENGTHS_OFFSET", 924);
   ("STATUS_RESPONSE_BAD_TYPES_OFFSET", 928); ("STATUS_RESPONSE_BAD_VERSIONS_OFFSET", 932);
   ("STATUS_RESPONSE_TIMEOUTS_OFFSET", 936); ("STATUS_RESPONSE_PARTIAL_USB_WRITES_OFFSET", 940);
   ("STATUS_RESPONSE_STATE_ERRORS_OFFSET", 944);
   ("STATUS_RESPONSE_USB_SHORT_CAPACITY_DEFERRALS_OFFSET", 948);
   ("STATUS_RESPONSE_USB_RX_STALL_EVENTS_OFFSET", 952); ("STATUS_RESPONSE_USB_TX_STALL_EVENTS_OFFSET", 956);
   ("STATUS_RESPONSE_USB_IO_ERRORS_OFFSET", 960); ("STATUS_RESPONSE_USB_COMMAND_QUEUE_DEPTH_OFFSET", 964);
   ("STATUS_RESPONSE_USB_RESPONSE_QUEUE_DEPTH_OFFSET", 966);
   ("STATUS_RESPONSE_USB_LOWER_PRIORITY_QUEUE_DEPTH_OFFSET", 968);
   ("STATUS_RESPONSE_USB_COMMAND_QUEUE_HIGH_WATER_OFFSET", 970);
   ("STATUS_RESPONSE_USB_RESPONSE_QUEUE_HIGH_WATER_OFFSET", 972);
   ("STATUS_RESPONSE_USB_ACTIVE_FRAME_BYTES_SENT_OFFSET", 974);
   ("STATUS_RESPONSE_PACKET_OWNED_DEPTH_OFFSET", 976); ("STATUS_RESPONSE_USB_ACTIVE_FRAME_SIZE_OFFSET", 978);
   ("STATUS_RESPONSE_ADC_CACHE_DMA_DISCARDS_OFFSET", 980);
   ("STATUS_RESPONSE_ADC_CACHE_CPU_INVALIDATIONS_OFFSET", 984);
   ("STATUS_RESPONSE_GPIO_CACHE_DMA_DISCARDS_OFFSET", 988);
   ("STATUS_RESPONSE_GPIO_CACHE_CPU_INVALIDATIONS_OFFSET", 992); ("STATUS_RESPONSE_BAD_FLAGS_OFFSET", 996);
   ("STATUS_RESPONSE_BAD_PAYLOADS_OFFSET", 1000); ("STATUS_RESPONSE_BAD_REQUEST_IDS_OFFSET", 1004);
   ("STATUS_RESPONSE_RESPONSES_QUEUED_OFFSET", 1008); ("STATUS_RESPONSE_RESPONSES_COMPLETED_OFFSET", 1012);
   ("STATUS_RESPONSE_RESPONSE_QUEUE_REJECTIONS_OFFSET", 1016);
   ("STATUS_RESPONSE_RESPONSE_RESERVATIONS_ABANDONED_OFFSET", 1020);
   ("STATUS_RESPONSE_PACKET_PRESSURE_EVICTIONS_OFFSET", 1024);
   ("STATUS_RESPONSE_PACKET_CAPACITY_DROPS_WITHOUT_EVICTABLE_FRAME_OFFSET", 1032);
   ("STATUS_RESPONSE_ADC_FRAMES_EVICTED_OFFSET", 1040);
   ("STATUS_RESPONSE_ADC_FRAMES_EVICTED_AFTER_PROMOTION_OFFSET", 1048);
   ("STATUS_RESPONSE_GPIO_FRAMES_EVICTED_OFFSET", 1056);
   ("STATUS_RESPONSE_GPIO_FRAMES_EVICTED_AFTER_PROMOTION_OFFSET", 1064);
   ("STATUS_RESPONSE_ADC_PACKET_FILLING_DEPTH_OFFSET", 1072);
   ("STATUS_RESPONSE_GPIO_PACKET_FILLING_DEPTH_OFFSET", 1074);
   ("STATUS_RESPONSE_ADC_FRAMES_DROPPED_AFTER_FRAMING_OFFSET", 1076);
   ("STATUS_RESPONSE_ADC_FRAMES_DROPPED_AFTER_PROMOTION_OFFSET", 1084);
   ("STATUS_RESPONSE_GPIO_FRAMES_DROPPED_AFTER_FRAMING_OFFSET", 1092);
   ("STATUS_RESPONSE_GPIO_FRAMES_DROPPED_AFTER_PROMOTION_OFFSET", 1100);
   ("STATUS_RESPONSE_GPIO_BUFFERS_COMPLETED_OFFSET", 1108);
   ("STATUS_RESPONSE_GPIO_BUFFERS_ACQUIRED_OFFSET", 1116);
   ("STATUS_RESPONSE_GPIO_BUFFERS_RELEASED_OFFSET", 1124);
   ("STATUS_RESPONSE_GPIO_SAMPLES_DELIVERED_OFFSET", 1132);
   ("STATUS_RESPONSE_GPIO_STOP_SAMPLES_DISCARDED_OFFSET", 1140);
   ("STATUS_RESPONSE_GPIO_FRAMES_PRODUCED_OFFSET", 1148);
   ("STATUS_RESPONSE_GPIO_SAMPLES_PRODUCED_OFFSET", 1156);
   ("STATUS_RESPONSE_GPIO_FRAMES_PACKED_OFFSET", 1164);
   ("STATUS_RESPONSE_GPIO_DUPLICATE_SAMPLES_IGNORED_OFFSET", 1172);
   ("STATUS_RESPONSE_ADC_FRAMES_CONSUMED_OFFSET", 1180); ("STATUS_RESPONSE_ADC_PAIRS_CONSUMED_OFFSET", 1188);
   ("STATUS_RESPONSE_ADC_RAW_GAP_PAIRS_OFFSET", 1196);
   ("STATUS_RESPONSE_ADC_RAW_DROP_PAIRS_PROJECTED_OFFSET", 1204);
   ("STATUS_RESPONSE_GPIO_RAW_DROP_SAMPLES_PROJECTED_OFFSET", 1212);
   ("STATUS_RESPONSE_GPIO_PACKER_DROP_SAMPLES_PROJECTED_OFFSET", 1220)]%string.

(** [getattr(constants, name)]; [None] is [AttributeError]. *)
Definition constants_getattr (name : string) : option Z :=
  snd <$> List.find (fun '(n, _) => String.eqb n name) (info_response_layout ++ status_response_layout).

(** ** Enumerations *)

Module FrameKind := Profiles.V1FrameKind.
Abbreviation FrameKind := FrameKind.FrameKind.
#[export] Instance V1FrameKind_enum : IntEnum FrameKind.
Proof.
  refine {|
    int_of a := match a with
      | FrameKind.ADC_DATA => 1 | FrameKind.GPIO_DATA => 2 | FrameKind.INFO_REQUEST => 16 |
      FrameKind.CONFIGURE_REQUEST => 17 | FrameKind.START_REQUEST => 18 |
      FrameKind.GET_STATUS_REQUEST => 19 | FrameKind.STOP_REQUEST => 20 |
      FrameKind.RESET_STATS_REQUEST => 21 | FrameKind.PING_REQUEST => 22 |
      FrameKind.CHECKSUM_BENCHMARK_REQUEST => 23 | FrameKind.GPIO_CLOCK_DIAGNOSTIC_REQUEST =>
      24 | FrameKind.GPIO_CAPTURE_DIAGNOSTIC_REQUEST => 25 | FrameKind.INFO_RESPONSE => 144 |
      FrameKind.CONFIGURE_RESPONSE => 145 | FrameKind.START_RESPONSE => 146 |
      FrameKind.GET_STATUS_RESPONSE => 147 | FrameKind.STOP_RESPONSE => 148 |
      FrameKind.RESET_STATS_RESPONSE => 149 | FrameKind.PING_RESPONSE => 150 |
      FrameKind.CHECKSUM_BENCHMARK_RESPONSE => 151 | FrameKind.GPIO_CLOCK_DIAGNOSTIC_RESPONSE
      => 152 | FrameKind.GPIO_CAPTURE_DIAGNOSTIC_RESPONSE => 153 | FrameKind.ERROR_RESPONSE =>
      159 end;
    members := [
      FrameKind.ADC_DATA; FrameKind.GPIO_DATA; FrameKind.INFO_REQUEST;
      FrameKind.CONFIGURE_REQUEST; FrameKind.START_REQUEST; FrameKind.GET_STATUS_REQUEST;
      FrameKind.STOP_REQUEST; FrameKind.RESET_STATS_REQUEST; FrameKind.PING_REQUEST;
      FrameKind.CHECKSUM_BENCHMARK_REQUEST; FrameKind.GPIO_CLOCK_DIAGNOSTIC_REQUEST;
      FrameKind.GPIO_CAPTURE_DIAGNOSTIC_REQUEST; FrameKind.INFO_RESPONSE;
      FrameKind.CONFIGURE_RESPONSE; FrameKind.START_RESPONSE; FrameKind.GET_STATUS_RESPONSE;
      FrameKind.STOP_RESPONSE; FrameKind.RESET_STATS_RESPONSE; FrameKind.PING_RESPONSE;
      FrameKind.CHECKSUM_BENCHMARK_RESPONSE; FrameKind.GPIO_CLOCK_DIAGNOSTIC_RESPONSE;
      FrameKind.GPIO_CAPTURE_DIAGNOSTIC_RESPONSE; FrameKind.ERROR_RESPONSE] |}; enum_laws.
Defined.

Module DeviceState := ClientStream.V1DeviceState.
Abbreviation DeviceState := DeviceState.DeviceState.
#[export] Instance V1DeviceState_enum : IntEnum DeviceState.
Proof.
  refine {|
    int_of a := match a with
      | DeviceState.BOOT => 0 | DeviceState.IDLE => 1 | DeviceState.CONFIGURED => 2 |
      DeviceState.RUNNING => 3 end;
    members := [
      DeviceState.BOOT; DeviceState.IDLE; DeviceState.CONFIGURED; DeviceState.RUNNING] |}; enum_laws.
Defined.

Module BoardId := Identity.V1BoardId.
Abbreviation BoardId := BoardId.BoardId.
Module McuId := Identity.V1McuId.
Abbreviation McuId := McuId.McuId.

Module ResponseStatus.
Inductive ResponseStatus :=
  | OK | ERROR.
#[global] Instance ResponseStatus_eq_dec : EqDecision ResponseStatus.
Proof. solve_decision. Defined.
#[global] Instance ResponseStatus_enum : IntEnum ResponseStatus.
Proof.
  refine {|
    int_of a := match a with
      | OK => 0 | ERROR => 1 end;
    members := [
      OK; ERROR] |}; enum_laws.
Defined.
End ResponseStatus.
Abbreviation ResponseStatus := ResponseStatus.ResponseStatus.

Module ErrorCode.
Inductive ErrorCode :=
  | OK | UNSUPPORTED_VERSION | UNKNOWN_FRAME_KIND | INVALID_FLAGS | INVALID_LENGTH |
  INVALID_PAYLOAD | UNSUPPORTED_CHECKSUM | INVALID_STATE | UNSUPPORTED_CONFIGURATION |
  INVALID_REQUEST_ID | BUSY | INTERNAL_ERROR | CHECKSUM_MISMATCH.
#[global] Instance ErrorCode_eq_dec : EqDecision ErrorCode.
Proof. solve_decision. Defined.
#[global] Instance ErrorCode_enum : IntEnum ErrorCode.
Proof.
  refine {|
    int_of a := match a with
      | OK => 0 | UNSUPPORTED_VERSION => 1 | UNKNOWN_FRAME_KIND => 2 | INVALID_FLAGS => 3 |
      INVALID_LENGTH => 4 | INVALID_PAYLOAD => 5 | UNSUPPORTED_CHECKSUM => 6 | INVALID_STATE =>
      7 | UNSUPPORTED_CONFIGURATION => 8 | INVALID_REQUEST_ID => 9 | BUSY => 10 |
      INTERNAL_ERROR => 11 | CHECKSUM_MISMATCH => 12 end;
    members := [
      OK; UNSUPPORTED_VERSION; UNKNOWN_FRAME_KIND; INVALID_FLAGS; INVALID_LENGTH;
      INVALID_PAYLOAD; UNSUPPORTED_CHECKSUM; INVALID_STATE; UNSUPPORTED_CONFIGURATION;
      INVALID_REQUEST_ID; BUSY; INTERNAL_ERROR; CHECKSUM_MISMATCH] |}; enum_laws.
Defined.
End ErrorCode.
Abbreviation ErrorCode := ErrorCode.ErrorCode.

Module Source.
Inductive Source :=
  | HARDWARE | SYNTHETIC.
#[global] Instance Source_eq_dec : EqDecision Source.
Proof. solve_decision. Defined.
#[global] Instance Source_enum : IntEnum Source.
Proof.
  refine {|
    int_of a := match a with
      | HARDWARE => 0 | SYNTHETIC => 1 end;
    members := [
      HARDWARE; SYNTHETIC] |}; enum_laws.
Defined.
End Source.
Abbreviation Source := Source.Source.

Module BenchmarkVector.
Inductive BenchmarkVector :=
  | EMPTY | CANONICAL_123456789 | BUFFER_64 | BUFFER_512 | FRAME_COVERAGE.
#[global] Instance BenchmarkVector_eq_dec : EqDecision BenchmarkVector.
Proof. solve_decision. Defined.
#[global] Instance BenchmarkVector_enum : IntEnum BenchmarkVector.
Proof.
  refine {|
    int_of a := match a with
      | EMPTY => 0 | CANONICAL_123456789 => 1 | BUFFER_64 => 2 | BUFFER_512 => 3 |
      FRAME_COVERAGE => 4 end;
    members := [
      EMPTY; CANONICAL_123456789; BUFFER_64; BUFFER_512; FRAME_COVERAGE] |}; enum_laws.
Defined.
End BenchmarkVector.
Abbreviation BenchmarkVector := BenchmarkVector.BenchmarkVector.

Module BenchmarkMemoryRegion.
Inductive BenchmarkMemoryRegion :=
  | DTCM_PACKET | OCRAM_DMA.
#[global] Instance BenchmarkMemoryRegion_eq_dec : EqDecision BenchmarkMemoryRegion.
Proof. solve_decision. Defined.
#[global] Instance BenchmarkMemoryRegion_enum : IntEnum BenchmarkMemoryRegion.
Proof.
  refine {|
    int_of a := match a with
      | DTCM_PACKET => 0 | OCRAM_DMA => 1 end;
    members := [
      DTCM_PACKET; OCRAM_DMA] |}; enum_laws.
Defined.
End BenchmarkMemoryRegion.
Abbreviation BenchmarkMemoryRegion := BenchmarkMemoryRegion.BenchmarkMemoryRegion.

Module BenchmarkCacheState.
Inductive BenchmarkCacheState :=
  | HOT_OR_NATIVE | COLD_INVALIDATED.
#[global] Instance BenchmarkCacheState_eq_dec : EqDecision BenchmarkCacheState.
Proof. solve_decision. Defined.
#[global] Instance BenchmarkCacheState_enum : IntEnum BenchmarkCacheState.
Proof.
  refine {|
    int_of a := match a with
      | HOT_OR_NATIVE => 0 | COLD_INVALIDATED => 1 end;
    members := [
      HOT_OR_NATIVE; COLD_INVALIDATED] |}; enum_laws.
Defined.
End BenchmarkCacheState.
Abbreviation BenchmarkCacheState := BenchmarkCacheState.BenchmarkCacheState.

Module GpioCaptureDiagnosticMode.
Inductive GpioCaptureDiagnosticMode :=
  | NON_DRIVING_CAPTURE | SELF_DRIVEN_SWEEP | FIXTURE_STIMULUS.
#[global] Instance GpioCaptureDiagnosticMode_eq_dec : EqDecision GpioCaptureDiagnosticMode.
Proof. solve_decision. Defined.
#[global] Instance GpioCaptureDiagnosticMode_enum : IntEnum GpioCaptureDiagnosticMode.
Proof.
  refine {|
    int_of a := match a with
      | NON_DRIVING_CAPTURE => 0 | SELF_DRIVEN_SWEEP => 1 | FIXTURE_STIMULUS => 2 end;
    members := [
      NON_DRIVING_CAPTURE; SELF_DRIVEN_SWEEP; FIXTURE_STIMULUS] |}; enum_laws.
Defined.
End GpioCaptureDiagnosticMode.
Abbreviation GpioCaptureDiagnosticMode := GpioCaptureDiagnosticMode.GpioCaptureDiagnosticMode.

Module AdcReference.
Inductive AdcReference :=
  | UNSPECIFIED | VREFH_VREFL_NOMINAL_3V3.
#[global] Instance AdcReference_eq_dec : EqDecision AdcReference.
Proof. solve_decision. Defined.
#[global] Instance AdcReference_enum : IntEnum AdcReference.
Proof.
  refine {|
    int_of a := match a with
      | UNSPECIFIED => 0 | VREFH_VREFL_NOMINAL_3V3 => 1 end;
    members := [
      UNSPECIFIED; VREFH_VREFL_NOMINAL_3V3] |}; enum_laws.
Defined.
End AdcReference.
Abbreviation AdcReference := AdcReference.AdcReference.

Module AdcClockSource.
Inductive AdcClockSource :=
  | UNSPECIFIED | SYNCHRONOUS_IPG.
#[global] Instance AdcClockSource_eq_dec : EqDecision AdcClockSource.
Proof. solve_decision. Defined.
#[global] Instance AdcClockSource_enum : IntEnum AdcClockSource.
Proof.
  refine {|
    int_of a := match a with
      | UNSPECIFIED => 0 | SYNCHRONOUS_IPG => 1 end;
    members := [
      UNSPECIFIED; SYNCHRONOUS_IPG] |}; enum_laws.
Defined.
End AdcClockSource.
Abbreviation AdcClockSource := AdcClockSource.AdcClockSource.

Module AdcCalibrationState.
Inductive AdcCalibrationState :=
  | NOT_RUN | SUCCEEDED | FAILED | TIMED_OUT | ROUTE_INVALID | CONFIGURATION_INVALID |
  CLOCK_UNAVAILABLE.
#[global] Instance AdcCalibrationState_eq_dec : EqDecision AdcCalibrationState.
Proof. solve_decision. Defined.
#[global] Instance AdcCalibrationState_enum : IntEnum AdcCalibrationState.
Proof.
  refine {|
    int_of a := match a with
      | NOT_RUN => 0 | SUCCEEDED => 1 | FAILED => 2 | TIMED_OUT => 3 | ROUTE_INVALID => 4 |
      CONFIGURATION_INVALID => 5 | CLOCK_UNAVAILABLE => 6 end;
    members := [
      NOT_RUN; SUCCEEDED; FAILED; TIMED_OUT; ROUTE_INVALID; CONFIGURATION_INVALID;
      CLOCK_UNAVAILABLE] |}; enum_laws.
Defined.
End AdcCalibrationState.
Abbreviation AdcCalibrationState := AdcCalibrationState.AdcCalibrationState.

Module FrameFlag.
Definition NONE : Z := 0.
Definition SYNTHETIC : Z := 1.
Definition GAP_BEFORE : Z := 2.
Definition EPOCH_START : Z := 4.
Definition OVERRUN_BEFORE : Z := 8.
Definition RESPONSE_ERROR : Z := 32768.
End FrameFlag.

Module StreamMask.
Definition NONE : Z := 0.
Definition ADC : Z := 1.
Definition GPIO : Z := 2.
End StreamMask.

Module Capability.
Definition ADC_STREAM : Z := 1.
Definition GPIO_STREAM : Z := 2.
Definition HARDWARE_SOURCE : Z := 4.
Definition SYNTHETIC_SOURCE : Z := 8.
Definition GPIO_CAPTURE_DIAGNOSTIC : Z := 256.
End Capability.

Module GpioClockError.
Definition DWT_UNAVAILABLE : Z := 1.
Definition RESOURCE_BUSY : Z := 2.
End GpioClockError.

Module GpioCaptureDiagnosticFlag.
Definition AVAILABLE : Z := 1.
Definition OUTPUT_DRIVE_PERMITTED : Z := 4.
Definition OUTPUT_DRIVE_EXERCISED : Z := 64.
End GpioCaptureDiagnosticFlag.

Module AdcConfigurationFlag.
Definition INITIALIZED : Z := 1.
Definition NO_HARDWARE_AVERAGING : Z := 2.
Definition HIGH_SPEED : Z := 4.
Definition SHORTEST_SAMPLE : Z := 8.
Definition ROUTES_VALIDATED : Z := 16.
Definition CONFIGURATION_READBACK_VALID : Z := 32.
Definition CALIBRATION_COMPLETE : Z := 64.
Definition PRIMARY_12_BIT : Z := 128.
Definition FALLBACK_10_BIT : Z := 256.
End AdcConfigurationFlag.

Module AdcInitializationError.
End AdcInitializationError.

Definition BOOTSTRAP_CHECKSUM_ALGORITHM : ChecksumAlgorithm := ADLER32.
Definition DEFAULT_CHECKSUM_ALGORITHM : ChecksumAlgorithm := ADLER32.
Definition SUPPORTED_CHECKSUM_ALGORITHMS : list ChecksumAlgorithm := [ADLER32; CRC32C; CRC32_ISO_HDLC].

(** ** Tables keyed by frame kind; [None] is [KeyError] *)

Definition ALLOWED_FLAGS_BY_KIND (kind : FrameKind) : Z :=
  let data := Z.lor (Z.lor (Z.lor FrameFlag.SYNTHETIC FrameFlag.GAP_BEFORE) FrameFlag.EPOCH_START)
                FrameFlag.OVERRUN_BEFORE in
  match kind with
  | FrameKind.ADC_DATA | FrameKind.GPIO_DATA => data
  | FrameKind.INFO_REQUEST | FrameKind.CONFIGURE_REQUEST | FrameKind.START_REQUEST |
  FrameKind.GET_STATUS_REQUEST | FrameKind.STOP_REQUEST | FrameKind.RESET_STATS_REQUEST |
  FrameKind.PING_REQUEST | FrameKind.CHECKSUM_BENCHMARK_REQUEST |
  FrameKind.GPIO_CLOCK_DIAGNOSTIC_REQUEST | FrameKind.GPIO_CAPTURE_DIAGNOSTIC_REQUEST =>
  FrameFlag.NONE
  | FrameKind.INFO_RESPONSE | FrameKind.CONFIGURE_RESPONSE | FrameKind.START_RESPONSE |
  FrameKind.GET_STATUS_RESPONSE | FrameKind.STOP_RESPONSE | FrameKind.RESET_STATS_RESPONSE |
  FrameKind.PING_RESPONSE | FrameKind.CHECKSUM_BENCHMARK_RESPONSE |
  FrameKind.GPIO_CLOCK_DIAGNOSTIC_RESPONSE | FrameKind.GPIO_CAPTURE_DIAGNOSTIC_RESPONSE |
  FrameKind.ERROR_RESPONSE => FrameFlag.RESPONSE_ERROR
  end.

Definition REQUEST_RESPONSE_KIND : list (FrameKind * FrameKind) :=
  [(FrameKind.INFO_REQUEST, FrameKind.INFO_RESPONSE); (FrameKind.CONFIGURE_REQUEST,
  FrameKind.CONFIGURE_RESPONSE); (FrameKind.START_REQUEST, FrameKind.START_RESPONSE);
  (FrameKind.GET_STATUS_REQUEST, FrameKind.GET_STATUS_RESPONSE); (FrameKind.STOP_REQUEST,
  FrameKind.STOP_RESPONSE); (FrameKind.RESET_STATS_REQUEST, FrameKind.RESET_STATS_RESPONSE);
  (FrameKind.PING_REQUEST, FrameKind.PING_RESPONSE); (FrameKind.CHECKSUM_BENCHMARK_REQUEST,
  FrameKind.CHECKSUM_BENCHMARK_RESPONSE); (FrameKind.GPIO_CLOCK_DIAGNOSTIC_REQUEST,
  FrameKind.GPIO_CLOCK_DIAGNOSTIC_RESPONSE); (FrameKind.GPIO_CAPTURE_DIAGNOSTIC_REQUEST,
  FrameKind.GPIO_CAPTURE_DIAGNOSTIC_RESPONSE)].

Definition PAYLOAD_SCHEMA_BY_KIND (kind : FrameKind) : string :=
  match kind with
  | FrameKind.ADC_DATA => "adc_data"
  | FrameKind.GPIO_DATA => "gpio_data"
  | FrameKind.INFO_REQUEST => "empty"
  | FrameKind.CONFIGURE_REQUEST => "configure_request"
  | FrameKind.START_REQUEST => "empty"
  | FrameKind.GET_STATUS_REQUEST => "empty"
  | FrameKind.STOP_REQUEST => "empty"
  | FrameKind.RESET_STATS_REQUEST => "empty"
  | FrameKind.PING_REQUEST => "ping_request"
  | FrameKind.CHECKSUM_BENCHMARK_REQUEST => "checksum_benchmark_request"
  | FrameKind.GPIO_CLOCK_DIAGNOSTIC_REQUEST => "gpio_clock_diagnostic_request"
  | FrameKind.GPIO_CAPTURE_DIAGNOSTIC_REQUEST => "empty"
  | FrameKind.INFO_RESPONSE => "info_response"
  | FrameKind.CONFIGURE_RESPONSE => "configure_response"
  | FrameKind.START_RESPONSE => "configure_response"
  | FrameKind.GET_STATUS_RESPONSE => "status_response"
  | FrameKind.STOP_RESPONSE => "stop_response"
  | FrameKind.RESET_STATS_RESPONSE => "reset_stats_response"
  | FrameKind.PING_RESPONSE => "ping_response"
  | FrameKind.CHECKSUM_BENCHMARK_RESPONSE => "checksum_benchmark_response"
  | FrameKind.GPIO_CLOCK_DIAGNOSTIC_RESPONSE => "gpio_clock_diagnostic_response"
  | FrameKind.GPIO_CAPTURE_DIAGNOSTIC_RESPONSE => "gpio_capture_diagnostic_response"
  | FrameKind.ERROR_RESPONSE => "error_response"
  end%string.

Definition ERROR_PAYLOAD_SCHEMA_BY_KIND (kind : FrameKind) : option string :=
  match kind with
  | FrameKind.INFO_RESPONSE | FrameKind.CONFIGURE_RESPONSE | FrameKind.START_RESPONSE |
  FrameKind.GET_STATUS_RESPONSE | FrameKind.STOP_RESPONSE | FrameKind.RESET_STATS_RESPONSE |
  FrameKind.PING_RESPONSE | FrameKind.CHECKSUM_BENCHMARK_RESPONSE |
  FrameKind.GPIO_CLOCK_DIAGNOSTIC_RESPONSE | FrameKind.GPIO_CAPTURE_DIAGNOSTIC_RESPONSE =>
      Some "response_prefix"
  | _ => None
  end%string.

Definition PAYLOAD_SIZE_BY_SCHEMA : list (string * Z) :=
  [("empty", 0); ("adc_data", 4048); ("gpio_data", 4048); ("configure_request", 8);
  ("response_prefix", 4); ("info_response", 376); ("configure_response", 12);
  ("status_response", 1228); ("stop_response", 8); ("reset_stats_response", 8);
  ("ping_request", 8); ("ping_response", 12); ("checksum_benchmark_request", 8);
  ("checksum_benchmark_response", 96); ("gpio_clock_diagnostic_request", 8);
  ("gpio_clock_diagnostic_response", 140); ("gpio_capture_diagnostic_response", 144);
  ("error_response", 8)]%string.
