(* ===== verification/V1Header.v ===== *)
(** * Protocol-v1 frame headers ([protocol.py]).

    The validation errors, the header record with [to_bytes], [_decode_header] and
    [_validate_header].  [header_wf] states declaratively which headers exist on the
    wire: the decoder accepts exactly their encodings.  Messages built by formatting
    keep their template. *)

From S2P Require Import Prelude PyStruct Checksum V1Constants.

(** ** Errors *)

(** [FrameValidationError], its three subclasses, and any other exception. *)
Inductive v1_error :=
| FrameValidationError (message : string) (error_code : ErrorCode)
| UnsupportedChecksumError (algorithm : Z)
| ChecksumAlgorithmMismatchError (observed expected : Z)
| ChecksumMismatchError (expected observed : Z)
| Uncaught (exception : string).

#[export] Instance v1_error_eq_dec : EqDecision v1_error.
Proof. solve_decision. Defined.

Abbreviation v1 := (result v1_error).

Definition is_frame_error (e : v1_error) : bool :=
  match e with Uncaught _ => false | _ => true end.

(** [error.error_code] of a [FrameValidationError]. *)
Definition error_code_of (e : v1_error) : option ErrorCode :=
  match e with
  | FrameValidationError _ code => Some code
  | UnsupportedChecksumError _ | ChecksumAlgorithmMismatchError _ _ => Some ErrorCode.UNSUPPORTED_CHECKSUM
  | ChecksumMismatchError _ _ => Some ErrorCode.CHECKSUM_MISMATCH
  | Uncaught _ => None
  end.

(** [if condition: raise FrameValidationError(message, code)] *)
Definition reject (condition : bool) (message : string) (code : ErrorCode) : v1 unit :=
  require (negb condition) (FrameValidationError message code).

Abbreviation clean := (raises_only is_frame_error).

(** ** Header and frame records *)

Module FrameHeader.
Record FrameHeader := mk {
  kind : FrameKind;
  flags : Z;
  checksum_algorithm : ChecksumAlgorithm;
  total_length : Z;
  payload_length : Z;
  run_id : Z;
  sequence : Z;
  request_id : Z;
  first_sample_ticks : Z;
  item_count : Z;
  version : Z;
  header_length : Z
}.
#[global] Instance FrameHeader_eq_dec : EqDecision FrameHeader.
Proof. solve_decision. Defined.
End FrameHeader.
Abbreviation FrameHeader := FrameHeader.FrameHeader.

Module Frame.
Record Frame := mk { header : FrameHeader; payload : bytes; checksum : Z }.
#[global] Instance Frame_eq_dec : EqDecision Frame.
Proof. solve_decision. Defined.
End Frame.
Abbreviation Frame := Frame.Frame.

(** The values [FrameHeader.to_bytes] packs, in wire order. *)
Definition header_fields (h : FrameHeader) : fvals HEADER_STRUCT_FORMAT :=
  (MAGIC, (FrameHeader.version h, (int_of (FrameHeader.kind h),
  (FrameHeader.flags h, (FrameHeader.header_length h,
  (int_of (FrameHeader.checksum_algorithm h), (0,
  (FrameHeader.total_length h, (FrameHeader.payload_length h,
  (FrameHeader.run_id h, (FrameHeader.sequence h,
  (FrameHeader.request_id h, (FrameHeader.first_sample_ticks h,
  (FrameHeader.item_count h, tt)))))))))))))).

(** [FrameHeader.to_bytes] *)
Definition header_to_bytes (h : FrameHeader) : v1 bytes :=
  of_option (pack HEADER_STRUCT_FORMAT (header_fields h)) (Uncaught "struct.error").

(** ** Kind tables *)

Definition _DATA_KINDS (kind : FrameKind) : bool :=
  bool_decide (kind ∈ [FrameKind.ADC_DATA; FrameKind.GPIO_DATA]).
Definition _REQUEST_KINDS (kind : FrameKind) : bool :=
  bool_decide (kind ∈ map fst REQUEST_RESPONSE_KIND).
Definition _TYPED_RESPONSE_KINDS (kind : FrameKind) : bool :=
  bool_decide (kind ∈ map snd REQUEST_RESPONSE_KIND).

(** [PAYLOAD_SIZE_BY_SCHEMA[schema]] *)
Definition payload_size (schema : string) : v1 Z :=
  of_option (snd <$> List.find (fun '(s, _) => String.eqb s schema) PAYLOAD_SIZE_BY_SCHEMA)
    (Uncaught "KeyError").

(** ** [_validate_header] *)

(** Lines 259-300: the rules every header obeys. *)
Definition check_envelope (h : FrameHeader) (reserved : Z) : v1 unit :=
  _ ← reject (negb (FrameHeader.header_length h =? HEADER_SIZE)) "header length must be {HEADER_SIZE}"
        ErrorCode.INVALID_LENGTH;
  _ ← reject (negb (reserved =? 0)) "header reserved byte must be zero" ErrorCode.INVALID_PAYLOAD;
  _ ← require (bool_decide (FrameHeader.checksum_algorithm h ∈ HOST_SUPPORTED_CHECKSUM_ALGORITHMS))
        (UnsupportedChecksumError (int_of (FrameHeader.checksum_algorithm h)));
  _ ← require (_DATA_KINDS (FrameHeader.kind h)
               || bool_decide (FrameHeader.checksum_algorithm h = BOOTSTRAP_CHECKSUM_ALGORITHM))
        (ChecksumAlgorithmMismatchError (int_of (FrameHeader.checksum_algorithm h))
           (int_of BOOTSTRAP_CHECKSUM_ALGORITHM));
  let allowed_flags := ALLOWED_FLAGS_BY_KIND (FrameHeader.kind h) in
  _ ← reject (has (FrameHeader.flags h) (Z.land (Z.lnot allowed_flags) 0xFFFF))
        "flags 0x{flags:04x} are invalid for {kind.name}" ErrorCode.INVALID_FLAGS;
  _ ← reject (has (FrameHeader.flags h) FrameFlag.OVERRUN_BEFORE
              && negb (has (FrameHeader.flags h) FrameFlag.GAP_BEFORE))
        "OVERRUN_BEFORE requires GAP_BEFORE" ErrorCode.INVALID_FLAGS;
  let expected_total := HEADER_SIZE + FrameHeader.payload_length h + TRAILER_SIZE in
  reject (negb (FrameHeader.total_length h =? expected_total))
    "total and payload lengths are inconsistent" ErrorCode.INVALID_LENGTH.

(** Lines 302-343: data frames. *)
Definition check_data_header (h : FrameHeader) : v1 unit :=
  let adc := bool_decide (FrameHeader.kind h = FrameKind.ADC_DATA) in
  _ ← reject (negb (FrameHeader.total_length h =? DATA_FRAME_BYTES)
              || negb (FrameHeader.payload_length h =? DATA_PAYLOAD_BYTES))
        "data frames must be exactly 4096 bytes" ErrorCode.INVALID_LENGTH;
  let expected_items := if adc then ADC_PAIRS_PER_FRAME else GPIO_SAMPLES_PER_FRAME in
  _ ← reject (negb (FrameHeader.item_count h =? expected_items))
        "{kind.name} item_count must be {expected_items}" ErrorCode.INVALID_LENGTH;
  _ ← reject ((FrameHeader.run_id h =? 0) || negb (FrameHeader.request_id h =? 0))
        "data frames require a nonzero run ID and zero request ID" ErrorCode.INVALID_PAYLOAD;
  let period_ticks := if adc then ADC_PAIR_PERIOD_TICKS else GPIO_SAMPLE_PERIOD_TICKS in
  _ ← reject (negb (FrameHeader.first_sample_ticks h mod period_ticks =? 0))
        "data timestamp is not aligned to its logical-item period" ErrorCode.INVALID_PAYLOAD;
  let epoch_start := has (FrameHeader.flags h) FrameFlag.EPOCH_START in
  let first_in_epoch := (FrameHeader.sequence h =? 0) && (FrameHeader.first_sample_ticks h =? 0) in
  reject (negb (eqb epoch_start first_in_epoch))
    "EPOCH_START must identify sequence zero at timestamp zero" ErrorCode.INVALID_PAYLOAD.

(** Lines 378-394: the payload size of a control frame. *)
Definition expected_payload (kind : FrameKind) (response_error : bool) : v1 Z :=
  if _TYPED_RESPONSE_KINDS kind then
    schema ← (if response_error then of_option (ERROR_PAYLOAD_SCHEMA_BY_KIND kind) (Uncaught "KeyError")
              else Ok (PAYLOAD_SCHEMA_BY_KIND kind));
    payload_size schema
  else if decide (kind = FrameKind.ERROR_RESPONSE) then
    _ ← reject (negb response_error) "ERROR_RESPONSE requires RESPONSE_ERROR" ErrorCode.INVALID_FLAGS;
    Ok ERROR_RESPONSE_PAYLOAD_SIZE
  else payload_size (PAYLOAD_SCHEMA_BY_KIND kind).

(** Lines 377-408: the payload a control frame announces. *)
Definition check_control_payload (h : FrameHeader) : v1 unit :=
  let response_error := has (FrameHeader.flags h) FrameFlag.RESPONSE_ERROR in
  expected ← expected_payload (FrameHeader.kind h) response_error;
  _ ← reject (negb (FrameHeader.payload_length h =? expected))
        "{kind.name} payload must be {expected_payload} bytes" ErrorCode.INVALID_LENGTH;
  reject (bool_decide (FrameHeader.kind h = FrameKind.START_RESPONSE) && negb response_error
          && (FrameHeader.run_id h =? 0))
    "a successful START response requires a nonzero run ID" ErrorCode.INVALID_PAYLOAD.

(** Lines 345-408: control frames. *)
Definition check_control_header (h : FrameHeader) : v1 unit :=
  _ ← reject (negb ((MIN_FRAME_BYTES <=? FrameHeader.total_length h)
                    && (FrameHeader.total_length h <=? MAX_CONTROL_FRAME_BYTES)))
        "control frame exceeds protocol-v1 bounds" ErrorCode.INVALID_LENGTH;
  _ ← reject (FrameHeader.request_id h =? 0) "control frames require a nonzero request ID"
        ErrorCode.INVALID_REQUEST_ID;
  _ ← reject (negb (FrameHeader.sequence h =? 0) || negb (FrameHeader.first_sample_ticks h =? 0)
              || negb (FrameHeader.item_count h =? 0))
        "control sequence, timestamp, and item-count fields must be zero" ErrorCode.INVALID_PAYLOAD;
  _ ← reject (_REQUEST_KINDS (FrameHeader.kind h) && negb (FrameHeader.run_id h =? 0))
        "request run ID must be zero" ErrorCode.INVALID_PAYLOAD;
  _ ← reject (_REQUEST_KINDS (FrameHeader.kind h)
              && (MAX_COMMAND_FRAME_BYTES <? FrameHeader.total_length h))
        "command frame exceeds the protocol-v1 command bound" ErrorCode.INVALID_LENGTH;
  check_control_payload h.

Definition _validate_header (h : FrameHeader) (reserved : Z) : v1 unit :=
  _ ← check_envelope h reserved;
  if _DATA_KINDS (FrameHeader.kind h) then check_data_header h else check_control_header h.

(** ** [_decode_header] *)

Definition _decode_header (data : bytes) (offset : Z) : v1 FrameHeader :=
  let available := zlen data - offset in
  _ ← reject ((offset <? 0) || (available <? HEADER_SIZE))
        "frame has {available} bytes; a header needs {HEADER_SIZE}" ErrorCode.INVALID_LENGTH;
  '(magic, (version, (raw_kind, (raw_flags, (header_length, (raw_checksum_algorithm, (reserved,
    (total_length, (payload_length, (run_id, (sequence, (request_id, (first_sample_ticks,
    (item_count, _)))))))))))))) ←
      of_option (unpack_from HEADER_STRUCT_FORMAT data (Z.to_nat offset)) (Uncaught "struct.error");
  _ ← reject (negb (magic =? MAGIC)) "invalid frame magic" ErrorCode.INVALID_LENGTH;
  _ ← reject (negb (version =? PROTOCOL_VERSION)) "unsupported protocol version {version}"
        ErrorCode.UNSUPPORTED_VERSION;
  kind ← of_option (enum_of raw_kind)
           (FrameValidationError "unknown frame kind 0x{raw_kind:02x}" ErrorCode.UNKNOWN_FRAME_KIND);
  checksum_algorithm ← of_option (enum_of raw_checksum_algorithm)
           (UnsupportedChecksumError raw_checksum_algorithm);
  let header := FrameHeader.mk kind raw_flags checksum_algorithm total_length payload_length run_id
                  sequence request_id first_sample_ticks item_count version header_length in
  _ ← _validate_header header reserved;
  Ok header.

(** ** Which headers exist *)

(** A data frame is full, stamped on its own period, belongs to a run, and says
    [EPOCH_START] exactly at the origin of that run. *)
Definition data_header_wf (h : FrameHeader) : Prop :=
  let adc := FrameHeader.kind h = FrameKind.ADC_DATA in
  FrameHeader.payload_length h = 4048 /\ 0 <= FrameHeader.flags h < 16 /\
  (Z.testbit (FrameHeader.flags h) 3 = true -> Z.testbit (FrameHeader.flags h) 1 = true) /\
  FrameHeader.item_count h = (if decide adc then 1012 else 4048) /\
  FrameHeader.run_id h <> 0 /\ FrameHeader.request_id h = 0 /\
  ((if decide adc then 8 else 2) | FrameHeader.first_sample_ticks h) /\
  (Z.testbit (FrameHeader.flags h) 2 = true <->
   FrameHeader.sequence h = 0 /\ FrameHeader.first_sample_ticks h = 0).

(** The size of a command's payload, and of a successful response's. *)
Definition command_size (kind : FrameKind) : Z :=
  match kind with
  | FrameKind.CONFIGURE_REQUEST | FrameKind.PING_REQUEST | FrameKind.CHECKSUM_BENCHMARK_REQUEST
  | FrameKind.GPIO_CLOCK_DIAGNOSTIC_REQUEST => 8
  | _ => 0
  end.

Definition response_size (kind : FrameKind) : Z :=
  match kind with
  | FrameKind.INFO_RESPONSE => 376
  | FrameKind.CONFIGURE_RESPONSE | FrameKind.START_RESPONSE | FrameKind.PING_RESPONSE => 12
  | FrameKind.GET_STATUS_RESPONSE => 1228
  | FrameKind.CHECKSUM_BENCHMARK_RESPONSE => 96
  | FrameKind.GPIO_CLOCK_DIAGNOSTIC_RESPONSE => 140
  | FrameKind.GPIO_CAPTURE_DIAGNOSTIC_RESPONSE => 144
  | _ => 8
  end.

Definition no_sample_fields (h : FrameHeader) : Prop :=
  FrameHeader.sequence h = 0 /\ FrameHeader.first_sample_ticks h = 0 /\ FrameHeader.item_count h = 0.

(** A command is correlated and belongs to no run; a response succeeds with its
    kind's payload or fails with the four-byte prefix (eight for the generic
    error, which cannot succeed). *)
Definition control_header_wf (h : FrameHeader) : Prop :=
  FrameHeader.checksum_algorithm h = ADLER32 /\ FrameHeader.request_id h <> 0 /\ no_sample_fields h /\
  if _REQUEST_KINDS (FrameHeader.kind h) then
    FrameHeader.flags h = 0 /\ FrameHeader.run_id h = 0 /\
    FrameHeader.payload_length h = command_size (FrameHeader.kind h)
  else
    (FrameHeader.flags h = 0 /\ FrameHeader.kind h <> FrameKind.ERROR_RESPONSE /\
     FrameHeader.payload_length h = response_size (FrameHeader.kind h) /\
     (FrameHeader.kind h = FrameKind.START_RESPONSE -> FrameHeader.run_id h <> 0)) \/
    (FrameHeader.flags h = FrameFlag.RESPONSE_ERROR /\
     FrameHeader.payload_length h = (if decide (FrameHeader.kind h = FrameKind.ERROR_RESPONSE) then 8 else 4)).

(** Field widths not implied by the rest. *)
Definition in_width (h : FrameHeader) : Prop :=
  0 <= FrameHeader.run_id h < 2 ^ 32 /\ 0 <= FrameHeader.sequence h < 2 ^ 32 /\
  0 <= FrameHeader.request_id h < 2 ^ 32 /\ 0 <= FrameHeader.first_sample_ticks h < 2 ^ 64.

Definition header_wf (h : FrameHeader) : Prop :=
  FrameHeader.version h = 1 /\ FrameHeader.header_length h = 44 /\
  FrameHeader.total_length h = 48 + FrameHeader.payload_length h /\ in_width h /\
  FrameHeader.checksum_algorithm h <> NONE_RESERVED /\
  if _DATA_KINDS (FrameHeader.kind h) then data_header_wf h else control_header_wf h.

(** ** The guards are [header_wf] *)

Lemma reject_bind {A} c message code (m : v1 A) x :
  (reject c message code ≫= fun _ => m) = Ok x <-> c = false /\ m = Ok x.
Proof. unfold reject. by rewrite require_bind, negb_true_iff. Qed.

Lemma reject_Ok c message code u : reject c message code = Ok u <-> c = false.
Proof. unfold reject. by rewrite require_Ok, negb_true_iff. Qed.

Lemma clean_reject c message code : clean (reject c message code).
Proof. by apply raises_only_require. Qed.

Lemma has_false f bit : has f bit = false <-> Z.land f bit = 0.
Proof. unfold has. by rewrite negb_false_iff, Z.eqb_eq. Qed.

Lemma overrun_ok f :
  has f FrameFlag.OVERRUN_BEFORE && negb (has f FrameFlag.GAP_BEFORE) = false <->
  (Z.testbit f 3 = true -> Z.testbit f 1 = true).
Proof.
  change FrameFlag.OVERRUN_BEFORE with (2 ^ 3). change FrameFlag.GAP_BEFORE with (2 ^ 1).
  rewrite !has_testbit by lia. destruct (Z.testbit f 3), (Z.testbit f 1); cbn; intuition congruence.
Qed.

(** The flags each class of frames may carry. *)
Lemma allowed_flags_ok kind f :
  0 <= f < 2 ^ 16 ->
  has f (Z.land (Z.lnot (ALLOWED_FLAGS_BY_KIND kind)) 0xFFFF) = false <->
  if _DATA_KINDS kind then f < 16
  else if _REQUEST_KINDS kind then f = 0 else f = 0 \/ f = FrameFlag.RESPONSE_ERROR.
Proof.
  intros Hf. rewrite has_false. change 0xFFFF with 65535. rewrite land_lnot_u16 by done.
  assert (Hzero : Z.land f (Z.lnot 0) = 0 <-> f = 0).
  { pose proof (land_lnot_ones f 0 ltac:(lia) ltac:(lia)) as H. change (2 ^ 0 - 1) with 0 in H.
    rewrite H. change (2 ^ 0) with 1. lia. }
  destruct kind;
    match goal with |- context [_DATA_KINDS ?k] =>
      let a := eval vm_compute in (ALLOWED_FLAGS_BY_KIND k) in change (ALLOWED_FLAGS_BY_KIND k) with a;
      let d := eval vm_compute in (_DATA_KINDS k) in change (_DATA_KINDS k) with d;
      let r := eval vm_compute in (_REQUEST_KINDS k) in change (_REQUEST_KINDS k) with r end;
    first [exact Hzero | by apply (land_lnot_pow2 f 15) | apply (land_lnot_ones f 4); lia].
Qed.

Lemma host_supported a : a ∈ HOST_SUPPORTED_CHECKSUM_ALGORITHMS <-> a <> NONE_RESERVED.
Proof. rewrite <-(bool_decide_eq_true (a ∈ _)). destruct a; vm_compute; split; congruence. Qed.

Lemma check_envelope_ok h u :
  0 <= FrameHeader.flags h < 2 ^ 16 ->
  check_envelope h 0 = Ok u <->
  FrameHeader.header_length h = 44 /\ FrameHeader.total_length h = 48 + FrameHeader.payload_length h /\
  FrameHeader.checksum_algorithm h <> NONE_RESERVED /\
  (_DATA_KINDS (FrameHeader.kind h) = false -> FrameHeader.checksum_algorithm h = ADLER32) /\
  (Z.testbit (FrameHeader.flags h) 3 = true -> Z.testbit (FrameHeader.flags h) 1 = true) /\
  (if _DATA_KINDS (FrameHeader.kind h) then FrameHeader.flags h < 16
   else if _REQUEST_KINDS (FrameHeader.kind h) then FrameHeader.flags h = 0
   else FrameHeader.flags h = 0 \/ FrameHeader.flags h = FrameFlag.RESPONSE_ERROR).
Proof.
  intros Hf. unfold check_envelope. cbv zeta.
  rewrite !reject_bind, !require_bind, !reject_bind, reject_Ok, allowed_flags_ok, overrun_ok by done.
  rewrite !negb_false_iff, !Z.eqb_eq, orb_true_iff, !bool_decide_eq_true.
  unfold BOOTSTRAP_CHECKSUM_ALGORITHM, HEADER_SIZE, TRAILER_SIZE.
  rewrite host_supported. destruct (_DATA_KINDS _); intuition (lia || congruence).
Qed.

Lemma v1_check_data_header_ok h u :
  FrameHeader.total_length h = 48 + FrameHeader.payload_length h ->
  0 <= FrameHeader.flags h ->
  check_data_header h = Ok u /\ FrameHeader.flags h < 16 /\
  (Z.testbit (FrameHeader.flags h) 3 = true -> Z.testbit (FrameHeader.flags h) 1 = true) <->
  data_header_wf h.
Proof.
  intros Ht Hf. unfold check_data_header, data_header_wf. cbv zeta.
  rewrite !reject_bind, reject_Ok, !orb_false_iff, !negb_false_iff, !Z.eqb_eq, Z.eqb_neq, Ht, eqb_true_iff.
  change FrameFlag.EPOCH_START with (2 ^ 2). rewrite has_testbit by lia.
  unfold DATA_FRAME_BYTES, DATA_PAYLOAD_BYTES, ADC_PAIRS_PER_FRAME, GPIO_SAMPLES_PER_FRAME,
    ADC_PAIR_PERIOD_TICKS, GPIO_SAMPLE_PERIOD_TICKS.
  assert (He : Z.testbit (FrameHeader.flags h) 2 = (FrameHeader.sequence h =? 0) && (FrameHeader.first_sample_ticks h =? 0) <->
    (Z.testbit (FrameHeader.flags h) 2 = true <-> FrameHeader.sequence h = 0 /\ FrameHeader.first_sample_ticks h = 0)).
  { rewrite <-!Z.eqb_eq, <-andb_true_iff.
    destruct (Z.testbit _ 2), (_ && _); intuition congruence. }
  rewrite He. destruct (decide (FrameHeader.kind h = FrameKind.ADC_DATA)) as [Hk|Hk];
    [rewrite bool_decide_eq_true_2 by done|rewrite bool_decide_eq_false_2 by done];
    rewrite <-Z.mod_divide by lia; intuition lia.
Qed.

(** The table lookups never fail on the kinds they are used for. *)
Lemma expected_payload_ok kind response_error expected :
  _DATA_KINDS kind = false ->
  expected_payload kind response_error = Ok expected <->
  if _REQUEST_KINDS kind then expected = command_size kind
  else if response_error then expected = (if decide (kind = FrameKind.ERROR_RESPONSE) then 8 else 4)
  else kind <> FrameKind.ERROR_RESPONSE /\ expected = response_size kind.
Proof.
  intros Hd. destruct kind; try discriminate Hd; destruct response_error; vm_compute; split;
    intros; intuition congruence.
Qed.

Lemma check_control_payload_ok h u :
  _DATA_KINDS (FrameHeader.kind h) = false ->
  (if _REQUEST_KINDS (FrameHeader.kind h) then FrameHeader.flags h = 0
   else FrameHeader.flags h = 0 \/ FrameHeader.flags h = FrameFlag.RESPONSE_ERROR) ->
  check_control_payload h = Ok u <->
  if _REQUEST_KINDS (FrameHeader.kind h) then FrameHeader.payload_length h = command_size (FrameHeader.kind h)
  else
    (FrameHeader.flags h = 0 /\ FrameHeader.kind h <> FrameKind.ERROR_RESPONSE /\
     FrameHeader.payload_length h = response_size (FrameHeader.kind h) /\
     (FrameHeader.kind h = FrameKind.START_RESPONSE -> FrameHeader.run_id h <> 0)) \/
    (FrameHeader.flags h = FrameFlag.RESPONSE_ERROR /\
     FrameHeader.payload_length h = (if decide (FrameHeader.kind h = FrameKind.ERROR_RESPONSE) then 8 else 4)).
Proof.
  intros Hd Hf. set (err := has (FrameHeader.flags h) FrameFlag.RESPONSE_ERROR).
  assert (Hbind : check_control_payload h = Ok u <->
    expected_payload (FrameHeader.kind h) err = Ok (FrameHeader.payload_length h) /\
    (FrameHeader.kind h = FrameKind.START_RESPONSE -> err = false -> FrameHeader.run_id h <> 0)).
  { unfold check_control_payload. cbv zeta. fold err.
    destruct (expected_payload (FrameHeader.kind h) err) as [e|e]; cbn [mbind result_bind]; [|by split; [|intros []]].
    rewrite reject_bind, reject_Ok, !andb_false_iff, !negb_false_iff, Z.eqb_eq, bool_decide_eq_false, Z.eqb_neq.
    destruct (decide (FrameHeader.kind h = FrameKind.START_RESPONSE)), err; naive_solver. }
  rewrite Hbind, (expected_payload_ok _ _ _ Hd). clear Hbind.
  assert (Hne : 0 <> FrameFlag.RESPONSE_ERROR) by done.
  destruct (_REQUEST_KINDS _) eqn:Hr.
  - assert (FrameHeader.kind h <> FrameKind.START_RESPONSE) by (intros E; by rewrite E in Hr). naive_solver.
  - subst err. destruct Hf as [Hf|Hf]; rewrite Hf.
    + change (has 0 FrameFlag.RESPONSE_ERROR) with false. naive_solver.
    + change (has FrameFlag.RESPONSE_ERROR FrameFlag.RESPONSE_ERROR) with true. naive_solver.
Qed.

Lemma control_sizes kind :
  0 <= command_size kind <= 8 /\ 4 <= response_size kind <= 1228.
Proof. by destruct kind. Qed.

Lemma v1_check_control_header_ok h u :
  FrameHeader.total_length h = 48 + FrameHeader.payload_length h ->
  _DATA_KINDS (FrameHeader.kind h) = false -> FrameHeader.checksum_algorithm h = ADLER32 ->
  check_control_header h = Ok u /\
  (if _REQUEST_KINDS (FrameHeader.kind h) then FrameHeader.flags h = 0
   else FrameHeader.flags h = 0 \/ FrameHeader.flags h = FrameFlag.RESPONSE_ERROR) <->
  control_header_wf h.
Proof.
  intros Ht Hd Hc. unfold check_control_header, control_header_wf, no_sample_fields. cbv zeta.
  rewrite !reject_bind, !orb_false_iff, !negb_false_iff, !andb_true_iff, !Z.leb_le, Z.eqb_neq, !Z.eqb_eq.
  unfold MIN_FRAME_BYTES, MAX_CONTROL_FRAME_BYTES, MAX_COMMAND_FRAME_BYTES. rewrite Ht.
  pose proof (control_sizes (FrameHeader.kind h)) as Hs.
  pose proof (check_control_payload_ok h u Hd) as Hp.
  destruct (_REQUEST_KINDS (FrameHeader.kind h)); cbn [andb];
    rewrite ?negb_false_iff, ?Z.eqb_eq, ?Z.ltb_ge.
  - split.
    + intros ((? & ? & ? & ? & ? & H) & Hf). apply (Hp Hf) in H. intuition.
    + intros (_ & ? & ? & Hf & ? & H). rewrite (Hp Hf). intuition lia.
  - split.
    + intros ((? & ? & ? & _ & _ & H) & Hf). apply (Hp Hf) in H. intuition.
    + intros (_ & ? & ? & H). assert (Hf : FrameHeader.flags h = 0 \/ FrameHeader.flags h = FrameFlag.RESPONSE_ERROR)
        by intuition. rewrite (Hp Hf). split; [|done]. split; [|intuition].
      destruct H as [(_ & _ & -> & _)|[_ ->]]; [lia|]. case_decide; lia.
Qed.

Lemma validate_header_ok h u :
  FrameHeader.version h = 1 -> 0 <= FrameHeader.flags h < 2 ^ 16 -> in_width h ->
  _validate_header h 0 = Ok u <-> header_wf h.
Proof.
  intros Hv Hf Hw. unfold _validate_header, header_wf.
  assert (Hbind : forall k, (check_envelope h 0 ≫= fun _ => k) = Ok u <-> check_envelope h 0 = Ok tt /\ k = Ok u).
  { intros k. destruct (check_envelope h 0) as [[]|]; cbn; [by split; [|intros []]|by split; [|intros [? _]]]. }
  rewrite Hbind, check_envelope_ok by done. clear Hbind.
  destruct (_DATA_KINDS _) eqn:Hd.
  - split.
    + intros ((Hh & Ht & Hc & _ & Ho & Hl) & H).
      pose proof (proj1 (v1_check_data_header_ok h u Ht (proj1 Hf)) (conj H (conj Hl Ho))). tauto.
    + intros (_ & Hh & Ht & _ & Hc & H).
      apply (v1_check_data_header_ok h u Ht (proj1 Hf)) in H as (H & Hl & Ho).
      split; [by repeat (split; [done|])|done].
  - split.
    + intros ((Hh & Ht & Hc & Ha & _ & Hl) & H).
      pose proof (proj1 (v1_check_control_header_ok h u Ht Hd (Ha eq_refl)) (conj H Hl)). tauto.
    + intros (_ & Hh & Ht & _ & Hc & H). assert (Ha : FrameHeader.checksum_algorithm h = ADLER32) by apply H.
      apply (v1_check_control_header_ok h u Ht Hd Ha) in H as (H & Hl).
      split; [|done]. repeat (split; [done|]). split; [|done].
      intros H3. exfalso. destruct (_REQUEST_KINDS _); [by rewrite Hl in H3|].
      destruct Hl as [Hl|Hl]; rewrite Hl in H3; by vm_compute in H3.
Qed.

Lemma header_wf_bounds h :
  header_wf h -> 0 <= FrameHeader.payload_length h <= 4048 /\
  0 <= FrameHeader.flags h < 2 ^ 16 /\ 0 <= FrameHeader.item_count h < 2 ^ 32.
Proof.
  intros (_ & _ & _ & _ & _ & H). destruct (_DATA_KINDS _).
  - destruct H as (-> & Hf & _ & -> & _). pow_lit. case_decide; lia.
  - destruct H as (_ & _ & (_ & _ & ->) & H). pose proof (control_sizes (FrameHeader.kind h)) as Hs.
    destruct (_REQUEST_KINDS _); [destruct H as (-> & _ & ->); pow_lit; lia|].
    destruct H as [(-> & _ & -> & _)|[-> ->]]; [pow_lit; lia|].
    change FrameFlag.RESPONSE_ERROR with 32768. pow_lit. case_decide; lia.
Qed.

Lemma v1_header_wf_fields h : header_wf h -> fvals_ok HEADER_STRUCT_FORMAT (header_fields h).
Proof.
  intros H. destruct (header_wf_bounds h H) as (Hp & Hf & Hc).
  destruct H as (Hv & Hl & Ht & (Hr & Hs & Hq & Htk) & _).
  assert (0 <= int_of (FrameHeader.kind h) < 256) by (destruct (FrameHeader.kind h); done).
  assert (0 <= int_of (FrameHeader.checksum_algorithm h) < 256)
    by (destruct (FrameHeader.checksum_algorithm h); done).
  cbn -[Z.pow int_of]. rewrite Hv, Hl, Ht. unfold MAGIC. pow_lit. repeat split; lia.
Qed.

Lemma v1_HEADER_SIZE_calc : calcsize HEADER_STRUCT_FORMAT = 44%nat.
Proof. reflexivity. Qed.

Lemma header_fits (data : bytes) offset :
  (offset <? 0) || (zlen data - offset <? HEADER_SIZE) = false <->
  0 <= offset /\ (Z.to_nat offset + 44 <= length data)%nat.
Proof. rewrite orb_false_iff, !Z.ltb_ge. unfold HEADER_SIZE, zlen. lia. Qed.

Lemma decode_header_sound data offset h :
  wf_bytes data -> _decode_header data offset = Ok h ->
  0 <= offset /\ (Z.to_nat offset + 44 <= length data)%nat /\ header_wf h /\
  header_fields h = unpack_fields HEADER_STRUCT_FORMAT (drop (Z.to_nat offset) data).
Proof.
  intros Hw. unfold _decode_header. cbv zeta. rewrite reject_bind, header_fits, of_option_bind.
  intros ([Ho Hlen] & vs & Hvs & H). unfold unpack_from in Hvs. rewrite v1_HEADER_SIZE_calc in Hvs.
  rewrite (proj2 (Nat.leb_le _ _)) in Hvs by done.
  pose proof (unpack_fields_ok HEADER_STRUCT_FORMAT (drop (Z.to_nat offset) data)
    (wf_bytes_drop _ _ Hw) ltac:(rewrite v1_HEADER_SIZE_calc; len)) as Hok.
  apply Some_inj' in Hvs. rewrite Hvs in *. clear Hvs.
  destruct vs as (magic & version & kind & flags & size & checksum & reserved & total & payload & run &
     sequence & request & ticks & count & []).
  cbn -[Z.pow] in Hok. destruct Hok as (_ & _ & Hk & Hf & _ & _ & Hre & Ht & Hp & Hr & Hs & Hq & Htk & Hc & _).
  rewrite !reject_bind, of_option_bind, !negb_false_iff, !Z.eqb_eq in H.
  destruct H as (-> & -> & k & Hkind & H). apply of_option_bind in H as (a & Ha & H).
  apply enum_of_Some in Hkind, Ha. apply bind_Ok_inv in H as ([] & Hv & H). apply Ok_inj in H.
  assert (reserved = 0) as ->.
  { unfold _validate_header, check_envelope in Hv. apply bind_Ok_inv in Hv as (? & Hv & _).
    rewrite !reject_bind, negb_false_iff, Z.eqb_eq, negb_false_iff, Z.eqb_eq in Hv. apply Hv. }
  subst h. apply validate_header_ok in Hv; [|done|exact Hf|exact (conj Hr (conj Hs (conj Hq Htk)))].
  split; [done|]. split; [done|]. split; [done|].
  unfold header_fields. cbn [FrameHeader.kind FrameHeader.checksum_algorithm]. rewrite Hkind, Ha.
  assert (size = 44) as -> by apply Hv. done.
Qed.

Lemma decode_header_complete data offset h :
  0 <= offset -> (Z.to_nat offset + 44 <= length data)%nat -> header_wf h ->
  header_fields h = unpack_fields HEADER_STRUCT_FORMAT (drop (Z.to_nat offset) data) ->
  _decode_header data offset = Ok h.
Proof.
  intros Ho Hlen Hwf Hfields. unfold _decode_header. cbv zeta. rewrite reject_bind, header_fits, of_option_bind.
  split; [done|]. unfold unpack_from. rewrite v1_HEADER_SIZE_calc.
  rewrite (proj2 (Nat.leb_le _ _)) by done. rewrite <-Hfields. eexists. split; [done|].
  destruct (header_wf_bounds h Hwf) as (_ & Hf & _). unfold header_fields.
  rewrite !reject_bind, !negb_false_iff, !Z.eqb_eq, of_option_bind.
  split; [done|]. split; [by destruct Hwf|]. exists (FrameHeader.kind h). split; [apply enum_of_int|].
  rewrite of_option_bind. exists (FrameHeader.checksum_algorithm h). split; [apply enum_of_int|].
  match goal with |- (_validate_header ?x 0 ≫= _) = _ => assert (x = h) as -> by (by destruct h) end.
  rewrite (proj2 (validate_header_ok h tt (proj1 Hwf) Hf (proj1 (proj2 (proj2 (proj2 Hwf)))))) by done. done.
Qed.

(** The decoder accepts exactly the encodings of well-formed headers. *)
Lemma v1_decode_header_iff data offset h :
  wf_bytes data ->
  _decode_header data offset = Ok h <->
  0 <= offset /\ header_wf h /\ (Z.to_nat offset + 44 <= length data)%nat /\
  header_to_bytes h = Ok (take 44 (drop (Z.to_nat offset) data)).
Proof.
  intros Hw. split.
  - intros H. destruct (decode_header_sound data offset h Hw H) as (Ho & Hlen & Hwf & Hfields).
    split; [done|]. split; [done|]. split; [done|]. unfold header_to_bytes. rewrite Hfields.
    rewrite pack_unpack_fields by (eauto with daq || (rewrite v1_HEADER_SIZE_calc; len)). done.
  - intros (Ho & Hwf & Hlen & Hb). apply decode_header_complete; [done..|].
    apply of_option_Ok_inv in Hb. rewrite <-(take_drop 44 (drop (Z.to_nat offset) data)).
    symmetry. apply unpack_fields_pack; [by apply v1_header_wf_fields|done].
Qed.

(** ** Consequences *)

Lemma v1_header_wf_to_bytes h :
  header_wf h -> exists b, header_to_bytes h = Ok b /\ wf_bytes b /\ length b = 44%nat.
Proof.
  intros H. destruct (fvals_ok_pack _ _ (v1_header_wf_fields h H)) as (b & Hb & Hw).
  exists b. unfold header_to_bytes. rewrite Hb. split; [done|]. split; [done|].
  by apply pack_length in Hb.
Qed.

Lemma v1_header_roundtrip h b : header_wf h -> header_to_bytes h = Ok b -> _decode_header b 0 = Ok h.
Proof.
  intros Hwf Hb. destruct (v1_header_wf_to_bytes h Hwf) as (b' & Hb' & Hw & Hl).
  assert (b' = b) as -> by congruence. apply v1_decode_header_iff; [done|].
  split; [done|]. split; [done|]. change (Z.to_nat 0) with 0%nat. rewrite drop_0, take_ge by lia.
  split; [lia|done].
Qed.

(** Walks a function body, leaving the calls it does not know. *)
Ltac clean_step :=
  match goal with
  | |- raises_only _ (Ok _) => exact I
  | |- raises_only _ (mret _) => exact I
  | |- raises_only _ (Err _) => reflexivity
  | |- raises_only _ (reject _ _ _) => apply clean_reject
  | |- raises_only _ (require _ _) => apply raises_only_require; reflexivity
  | |- raises_only _ (of_option _ _) => apply raises_only_of_option; intros ?; reflexivity
  | |- raises_only _ (_ ≫= _) => apply raises_only_bind; [|intros ? ?]
  | |- raises_only _ (let '(_, _) := ?x in _) => destruct x
  | |- raises_only _ (match ?x with _ => _ end) => destruct x eqn:?
  | |- raises_only _ (let _ := _ in _) => cbv zeta
  | |- raises_only _ _ => solve [eauto 2 with daq]
  end.
Ltac clean := intros; repeat clean_step.

Lemma clean_expected_payload kind response_error : clean (expected_payload kind response_error).
Proof. by destruct kind, response_error. Qed.
#[export] Hint Resolve clean_expected_payload : daq.

Lemma clean_validate_header h reserved : clean (_validate_header h reserved).
Proof. unfold _validate_header, check_envelope, check_data_header, check_control_header, check_control_payload. clean. Qed.
#[export] Hint Resolve clean_validate_header : daq.

(** No buffer and no offset makes the header decoder raise anything else. *)
Lemma clean_decode_header data offset : clean (_decode_header data offset).
Proof.
  unfold _decode_header. cbv zeta. apply raises_only_bind; [apply clean_reject|intros u Hlen].
  apply reject_Ok, header_fits in Hlen as [_ Hlen]. apply raises_only_bind.
  { unfold unpack_from. rewrite v1_HEADER_SIZE_calc, (proj2 (Nat.leb_le _ _)) by done. exact I. }
  clean.
Qed.
