(* ===== verification/V1Payload.v ===== *)
(** * Protocol-v1 payload rules ([protocol.py]).

    The validators of the typed payloads: the configuration, the checksum benchmark
    and the GPIO diagnostics, the ADC metadata, INFO and STATUS, and the dispatch
    [_validate_payload].  They raise [FrameValidationError] and nothing else on any
    bytes of the announced length; [configuration_wf], [codes_of] and
    [clock_selection] state what they accept. *)

From S2P Require Import Prelude PyStruct Checksum V1Constants V1Header.

(** ** Reading scalars *)

(** [payload[offset]] *)
Definition byte_at (payload : bytes) (offset : Z) : v1 Z :=
  of_option (payload !! Z.to_nat offset) (Uncaught "IndexError").

(** [struct.unpack_from(format, payload, offset)[0]] for a format of one field. *)
Definition unpack1 {A} (read : bytes -> nat -> option (A * unit)) (payload : bytes) (offset : Z) : v1 A :=
  '(value, _) ← of_option (read payload (Z.to_nat offset)) (Uncaught "struct.error"); Ok value.
Definition u16_at : bytes -> Z -> v1 Z := unpack1 (unpack_from [U16]).
Definition u32_at : bytes -> Z -> v1 Z := unpack1 (unpack_from [U32]).
Definition u64_at : bytes -> Z -> v1 Z := unpack1 (unpack_from [U64]).

(** [//] and [%] *)
Definition py_div (a b : Z) : v1 Z := if b =? 0 then Err (Uncaught "ZeroDivisionError") else Ok (a / b).
Definition py_mod (a b : Z) : v1 Z := if b =? 0 then Err (Uncaught "ZeroDivisionError") else Ok (a mod b).

(** [if condition: raise FrameValidationError(message)], with the default code. *)
Definition refuse (condition : bool) (message : string) : v1 unit :=
  reject condition message ErrorCode.INVALID_PAYLOAD.

Definition invalid (message : string) : v1_error := FrameValidationError message ErrorCode.INVALID_PAYLOAD.

(** [enum(value)] under [except ValueError]. *)
Definition member {A} `{IntEnum A} (value : Z) (message : string) : v1 A := of_option (enum_of value) (invalid message).

Definition differs (read : v1 Z) (expected : Z) : v1 bool := value ← read; Ok (negb (value =? expected)).

(** ** Response prefix and configuration *)

Definition _RESPONSE_PREFIX : list fcode := Eval vm_compute in struct_format "<BBH".
Definition _CONFIGURATION : list fcode := Eval vm_compute in struct_format "<BBBBI".
Definition _CHECKSUM_BENCHMARK_REQUEST : list fcode := Eval vm_compute in struct_format "<BBBBHH".
Definition _GPIO_CLOCK_DIAGNOSTIC_REQUEST : list fcode := Eval vm_compute in struct_format "<IHH".

Definition _validate_response_prefix (h : FrameHeader) (payload : bytes) : v1 unit :=
  '(raw_status, (reserved, (raw_error, _))) ←
      of_option (unpack_from _RESPONSE_PREFIX payload 0) (Uncaught "struct.error");
  _ ← refuse (negb (reserved =? 0)) "response reserved byte must be zero";
  status ← member raw_status "unknown response status or error code";
  error ← member raw_error "unknown response status or error code";
  let response_error := has (FrameHeader.flags h) FrameFlag.RESPONSE_ERROR in
  _ ← refuse (negb (eqb response_error (bool_decide (status = ResponseStatus.ERROR))))
        "response flag and status disagree";
  refuse (negb (eqb (bool_decide (status = ResponseStatus.OK)) (bool_decide (error = ErrorCode.OK))))
    "response status and error code disagree".

Definition valid_stream_bits : Z := Z.lor StreamMask.ADC StreamMask.GPIO.

Definition _validate_configuration (payload : bytes) (offset : Z) (applied : bool) : v1 unit :=
  '(raw_streams, (raw_source, (raw_checksum, (reserved, (frame_bytes, _))))) ←
      of_option (unpack_from _CONFIGURATION payload (Z.to_nat offset)) (Uncaught "struct.error");
  _ ← refuse (has raw_streams (Z.lnot valid_stream_bits)) "configuration stream mask is invalid";
  source ← member raw_source "configuration contains an unknown enum value";
  checksum ← member raw_checksum "configuration contains an unknown enum value";
  _ ← refuse ((raw_streams =? 0) && negb (bool_decide (source = Source.HARDWARE)))
        "zero-stream configuration requires the hardware source";
  _ ← refuse (bool_decide (checksum = NONE_RESERVED)) "configuration cannot select checksum ID zero";
  _ ← refuse (applied && negb (bool_decide (checksum ∈ SUPPORTED_CHECKSUM_ALGORITHMS)))
        "applied configuration checksum is not enabled";
  _ ← require (bool_decide (checksum ∈ HOST_SUPPORTED_CHECKSUM_ALGORITHMS))
        (UnsupportedChecksumError (int_of checksum));
  _ ← refuse (negb (reserved =? 0)) "configuration reserved byte must be zero";
  refuse (negb (frame_bytes =? DATA_FRAME_BYTES)) "configuration data frame size must be 4096".

(** ** Checksum benchmark *)

Definition _benchmark_vector_bytes (vector : BenchmarkVector) : Z :=
  match vector with
  | BenchmarkVector.EMPTY => 0
  | BenchmarkVector.CANONICAL_123456789 => 9
  | BenchmarkVector.BUFFER_64 => 64
  | BenchmarkVector.BUFFER_512 => 512
  | BenchmarkVector.FRAME_COVERAGE => DATA_FRAME_BYTES - TRAILER_SIZE
  end.

Definition _validate_checksum_benchmark_request (payload : bytes) (offset : Z) : v1 unit :=
  '(raw_checksum, (raw_vector, (raw_region, (raw_cache_state, (batch_count, (iterations_per_batch, _)))))) ←
      of_option (unpack_from _CHECKSUM_BENCHMARK_REQUEST payload (Z.to_nat offset)) (Uncaught "struct.error");
  let unknown := "checksum benchmark contains an unknown enum value"%string in
  checksum ← member raw_checksum unknown;
  vector ← member raw_vector unknown;
  region ← member raw_region unknown;
  cache_state ← member raw_cache_state unknown;
  _ ← refuse (negb (bool_decide (checksum ∈ SUPPORTED_CHECKSUM_ALGORITHMS)))
        "checksum benchmark algorithm is not enabled";
  _ ← refuse (negb ((1 <=? batch_count) && (batch_count <=? CHECKSUM_BENCHMARK_MAX_BATCH_COUNT))
              || negb ((1 <=? iterations_per_batch)
                       && (iterations_per_batch <=? CHECKSUM_BENCHMARK_MAX_ITERATIONS_PER_BATCH)))
        "checksum benchmark repetition count is invalid";
  _ ← refuse (bool_decide (cache_state = BenchmarkCacheState.COLD_INVALIDATED)
              && (negb (bool_decide (region = BenchmarkMemoryRegion.OCRAM_DMA))
                  || bool_decide (vector = BenchmarkVector.EMPTY)))
        "cold-cache benchmark requires nonempty DMA-visible OCRAM";
  let operations := batch_count * iterations_per_batch in
  let processed_bytes := operations * _benchmark_vector_bytes vector in
  refuse ((CHECKSUM_BENCHMARK_MAX_OPERATIONS <? operations)
          || (CHECKSUM_BENCHMARK_MAX_PROCESSED_BYTES <? processed_bytes))
    "checksum benchmark exceeds its duration bound".

(** Lines 602-612: the metrics the device derived from its measurements. *)
Definition expected_metrics (counter_hz target_rate total_cycles processed_bytes : Z) : v1 (Z * Z * Z) :=
  if processed_bytes =? 0 then Ok (0, 0, 0)
  else
    _ ← refuse (total_cycles =? 0) "nonempty benchmark requires measured cycles";
    expected_cpb ← py_div (total_cycles * 65536) processed_bytes;
    bytes_per_second ← py_div (counter_hz * processed_bytes) total_cycles;
    expected_mb_per_second ← py_div (bytes_per_second * 65536) 1000000;
    expected_cpu ← py_div (expected_cpb * target_rate * 100) counter_hz;
    Ok (expected_cpb, expected_mb_per_second, expected_cpu).

Definition _validate_checksum_benchmark_response (payload : bytes) (clock_hz : Z) : v1 unit :=
  _ ← _validate_checksum_benchmark_request payload CHECKSUM_BENCHMARK_RESPONSE_CHECKSUM_ALGORITHM_OFFSET;
  raw_vector ← byte_at payload CHECKSUM_BENCHMARK_RESPONSE_VECTOR_OFFSET;
  vector ← of_option (enum_of raw_vector) (Uncaught "ValueError");
  raw_checksum ← byte_at payload CHECKSUM_BENCHMARK_RESPONSE_CHECKSUM_ALGORITHM_OFFSET;
  checksum ← of_option (enum_of raw_checksum) (Uncaught "ValueError");
  raw_cache_state ← byte_at payload CHECKSUM_BENCHMARK_RESPONSE_CACHE_STATE_OFFSET;
  cache_state ← of_option (enum_of raw_cache_state) (Uncaught "ValueError");
  '(batch_count, (iterations_per_batch, _)) ←
      of_option (unpack_from [U16; U16] payload (Z.to_nat CHECKSUM_BENCHMARK_RESPONSE_BATCH_COUNT_OFFSET))
        (Uncaught "struct.error");
  let operations := batch_count * iterations_per_batch in
  buffer_bytes ← u32_at payload CHECKSUM_BENCHMARK_RESPONSE_BUFFER_BYTES_OFFSET;
  counter_hz ← u32_at payload CHECKSUM_BENCHMARK_RESPONSE_CYCLE_COUNTER_HZ_OFFSET;
  overhead_cycles ← u32_at payload CHECKSUM_BENCHMARK_RESPONSE_TIMER_OVERHEAD_CYCLES_OFFSET;
  code_bytes ← u32_at payload CHECKSUM_BENCHMARK_RESPONSE_IMPLEMENTATION_CODE_BYTES_OFFSET;
  table_bytes ← u32_at payload CHECKSUM_BENCHMARK_RESPONSE_TABLE_BYTES_OFFSET;
  working_ram_bytes ← u32_at payload CHECKSUM_BENCHMARK_RESPONSE_WORKING_RAM_BYTES_OFFSET;
  processed_bytes ← u64_at payload CHECKSUM_BENCHMARK_RESPONSE_PROCESSED_BYTES_OFFSET;
  raw_cycles ← u64_at payload CHECKSUM_BENCHMARK_RESPONSE_RAW_CHECKSUM_CYCLES_OFFSET;
  net_cycles ← u64_at payload CHECKSUM_BENCHMARK_RESPONSE_NET_CHECKSUM_CYCLES_OFFSET;
  cache_setup_cycles ← u64_at payload CHECKSUM_BENCHMARK_RESPONSE_CACHE_SETUP_CYCLES_OFFSET;
  min_batch_cycles ← u32_at payload CHECKSUM_BENCHMARK_RESPONSE_MIN_BATCH_CYCLES_OFFSET;
  max_batch_cycles ← u32_at payload CHECKSUM_BENCHMARK_RESPONSE_MAX_BATCH_CYCLES_OFFSET;
  let expected_table_bytes := if bool_decide (checksum = ADLER32) then 0 else 8192 in
  let expected_buffer_bytes := _benchmark_vector_bytes vector in
  let expected_processed_bytes := operations * expected_buffer_bytes in
  let calibrated_overhead := operations * overhead_cycles in
  reserved ← byte_at payload CHECKSUM_BENCHMARK_RESPONSE_RESERVED_OFFSET;
  _ ← refuse (negb (reserved =? 0) || negb (counter_hz =? clock_hz) || (code_bytes =? 0)
              || negb (table_bytes =? expected_table_bytes) || negb (working_ram_bytes =? 2 * DATA_FRAME_BYTES)
              || negb (buffer_bytes =? expected_buffer_bytes) || negb (processed_bytes =? expected_processed_bytes)
              || (raw_cycles <? calibrated_overhead) || negb (raw_cycles - calibrated_overhead =? net_cycles)
              || (max_batch_cycles <? min_batch_cycles) || (net_cycles <? min_batch_cycles * batch_count)
              || (max_batch_cycles * batch_count <? net_cycles)
              || (negb (bool_decide (cache_state = BenchmarkCacheState.COLD_INVALIDATED))
                  && negb (cache_setup_cycles =? 0)))
        "checksum benchmark measurements are inconsistent";
  target_rate ← u32_at payload CHECKSUM_BENCHMARK_RESPONSE_TARGET_FRAMED_BYTES_PER_SECOND_OFFSET;
  cycles_per_byte_q16 ← u32_at payload CHECKSUM_BENCHMARK_RESPONSE_CYCLES_PER_BYTE_Q16_OFFSET;
  mb_per_second_q16 ← u32_at payload CHECKSUM_BENCHMARK_RESPONSE_MB_PER_SECOND_Q16_OFFSET;
  projected_cpu_q16 ← u32_at payload CHECKSUM_BENCHMARK_RESPONSE_PROJECTED_CPU_PERCENT_Q16_OFFSET;
  _ ← refuse (negb (target_rate =? CHECKSUM_BENCHMARK_TARGET_FRAMED_BYTES_PER_SECOND))
        "checksum benchmark target rate is incompatible";
  metrics ← expected_metrics counter_hz target_rate (net_cycles + cache_setup_cycles) processed_bytes;
  refuse (negb (bool_decide ((cycles_per_byte_q16, mb_per_second_q16, projected_cpu_q16) = metrics)))
    "checksum benchmark derived metrics disagree".

(** ** GPIO clock diagnostic *)

Definition _valid_gpio_clock_selection (rate_hz event_count : Z) : v1 bool :=
  bad ← anyR
    [ Ok (negb ((GPIO_CLOCK_MIN_RATE_HZ <=? rate_hz) && (rate_hz <=? GPIO_CLOCK_PRODUCTION_RATE_HZ)));
      differs (py_mod GPIO_CLOCK_PIT_HZ rate_hz) 0;
      differs (py_mod GPIO_CLOCK_DWT_HZ rate_hz) 0;
      Ok (negb ((GPIO_CLOCK_MIN_EVENT_COUNT <=? event_count) && (event_count <=? GPIO_CLOCK_MAX_EVENT_COUNT))) ];
  if bad : bool then Ok false
  else
    cycles_per_event ← py_div GPIO_CLOCK_DWT_HZ rate_hz;
    let elapsed_cycles := event_count * cycles_per_event in
    let major_count := 2 * event_count + GPIO_CLOCK_DUPLICATE_GUARD_EVENTS in
    Ok ((elapsed_cycles <=? GPIO_CLOCK_MAX_ELAPSED_CYCLES) && (major_count <=? 0x7FFF)).

Definition _validate_gpio_clock_diagnostic_request (payload : bytes) (offset : Z) : v1 unit :=
  '(rate_hz, (event_count, (reserved, _))) ←
      of_option (unpack_from _GPIO_CLOCK_DIAGNOSTIC_REQUEST payload (Z.to_nat offset)) (Uncaught "struct.error");
  _ ← refuse (negb (reserved =? 0)) "GPIO clock diagnostic reserved field must be zero";
  valid ← _valid_gpio_clock_selection rate_hz event_count;
  refuse (negb valid) "GPIO clock diagnostic selection is invalid".

Definition _validate_gpio_clock_diagnostic_response (payload : bytes) (clock_hz : Z) : v1 unit :=
  configured_rate ← u32_at payload GPIO_CLOCK_DIAGNOSTIC_RESPONSE_CONFIGURED_RATE_HZ_OFFSET;
  production_rate ← u32_at payload GPIO_CLOCK_DIAGNOSTIC_RESPONSE_PRODUCTION_RATE_HZ_OFFSET;
  pit_clock ← u32_at payload GPIO_CLOCK_DIAGNOSTIC_RESPONSE_PIT_CLOCK_HZ_OFFSET;
  pit_load ← u32_at payload GPIO_CLOCK_DIAGNOSTIC_RESPONSE_PIT_LOAD_VALUE_OFFSET;
  requested_events ← u32_at payload GPIO_CLOCK_DIAGNOSTIC_RESPONSE_REQUESTED_EVENT_COUNT_OFFSET;
  scheduled_events ← u32_at payload GPIO_CLOCK_DIAGNOSTIC_RESPONSE_SCHEDULED_EVENT_COUNT_OFFSET;
  samples ← u32_at payload GPIO_CLOCK_DIAGNOSTIC_RESPONSE_DMA_SAMPLE_COUNT_OFFSET;
  dwt_hz ← u32_at payload GPIO_CLOCK_DIAGNOSTIC_RESPONSE_DWT_COUNTER_HZ_OFFSET;
  elapsed_cycles ← u32_at payload GPIO_CLOCK_DIAGNOSTIC_RESPONSE_DWT_ELAPSED_CYCLES_OFFSET;
  error_flags ← u32_at payload GPIO_CLOCK_DIAGNOSTIC_RESPONSE_HARDWARE_ERROR_FLAGS_OFFSET;
  citer ← u16_at payload GPIO_CLOCK_DIAGNOSTIC_RESPONSE_TCD_CITER_FINAL_OFFSET;
  biter ← u16_at payload GPIO_CLOCK_DIAGNOSTIC_RESPONSE_TCD_BITER_OFFSET;
  selection_valid ← _valid_gpio_clock_selection configured_rate requested_events;
  let expected_major_count := 2 * requested_events + GPIO_CLOCK_DUPLICATE_GUARD_EVENTS in
  let unarmed_errors := Z.lor GpioClockError.DWT_UNAVAILABLE GpioClockError.RESOURCE_BUSY in
  let configuration_was_armed := Z.land error_flags unarmed_errors =? 0 in
  expected_scheduled ←
    (if selection_valid && (dwt_hz =? clock_hz) then
       cycles_per_event ← py_div clock_hz configured_rate; py_div elapsed_cycles cycles_per_event
     else Ok 0);
  bad ← anyR
    [ Ok (negb selection_valid);
      Ok (negb (production_rate =? GPIO_CLOCK_PRODUCTION_RATE_HZ));
      Ok (negb (pit_clock =? GPIO_CLOCK_PIT_HZ));
      (period ← py_div GPIO_CLOCK_PIT_HZ configured_rate; Ok (negb (pit_load =? period - 1)));
      Ok (has error_flags (Z.lnot KNOWN_GPIO_CLOCK_ERROR_MASK));
      Ok (configuration_was_armed
          && (negb (biter =? expected_major_count) || (biter <? citer) || negb (samples =? biter - citer)));
      Ok ((dwt_hz =? clock_hz) && negb (scheduled_events =? expected_scheduled));
      Ok ((error_flags =? 0)
          && (negb (dwt_hz =? clock_hz) || (elapsed_cycles =? 0)
              || (GPIO_CLOCK_COUNT_TOLERANCE <? Z.abs (scheduled_events - requested_events))
              || (GPIO_CLOCK_COUNT_TOLERANCE <? Z.abs (samples - scheduled_events)))) ];
  refuse bad "GPIO clock diagnostic evidence is inconsistent".

(** ** GPIO capture diagnostic *)

Definition _validate_gpio_capture_diagnostic_response (payload : bytes) : v1 unit :=
  raw_mode ← byte_at payload GPIO_CAPTURE_DIAGNOSTIC_RESPONSE_MODE_OFFSET;
  _ ← member (A:=GpioCaptureDiagnosticMode) raw_mode "GPIO capture diagnostic mode is unknown";
  flags ← u32_at payload GPIO_CAPTURE_DIAGNOSTIC_RESPONSE_DIAGNOSTIC_FLAGS_OFFSET;
  errors ← u32_at payload GPIO_CAPTURE_DIAGNOSTIC_RESPONSE_HARDWARE_ERROR_FLAGS_OFFSET;
  captured ← u64_at payload GPIO_CAPTURE_DIAGNOSTIC_RESPONSE_DMA_SAMPLES_CAPTURED_OFFSET;
  retained ← u32_at payload GPIO_CAPTURE_DIAGNOSTIC_RESPONSE_COMPLETE_SAMPLES_RETAINED_OFFSET;
  analyzed ← u32_at payload GPIO_CAPTURE_DIAGNOSTIC_RESPONSE_SAMPLES_ANALYZED_OFFSET;
  limit ← u32_at payload GPIO_CAPTURE_DIAGNOSTIC_RESPONSE_ANALYSIS_SAMPLE_LIMIT_OFFSET;
  let output_permitted := GpioCaptureDiagnosticFlag.OUTPUT_DRIVE_PERMITTED in
  let output_exercised := GpioCaptureDiagnosticFlag.OUTPUT_DRIVE_EXERCISED in
  let above_2 offset := (value ← byte_at payload offset; Ok (2 <? value)) in
  bad ← anyR
    [ above_2 GPIO_CAPTURE_DIAGNOSTIC_RESPONSE_METADATA_KIND_OFFSET;
      above_2 GPIO_CAPTURE_DIAGNOSTIC_RESPONSE_DRIVE_SAFETY_OFFSET;
      above_2 GPIO_CAPTURE_DIAGNOSTIC_RESPONSE_STIMULUS_KIND_OFFSET;
      differs (u16_at payload GPIO_CAPTURE_DIAGNOSTIC_RESPONSE_RESERVED_1_OFFSET) 0;
      differs (byte_at payload GPIO_CAPTURE_DIAGNOSTIC_RESPONSE_RESERVED_2_OFFSET) 0;
      Ok (has errors (Z.lnot KNOWN_GPIO_CAPTURE_ERROR_MASK));
      Ok (has flags (Z.lnot KNOWN_GPIO_CAPTURE_DIAGNOSTIC_FLAG_MASK));
      Ok (negb (has flags GpioCaptureDiagnosticFlag.AVAILABLE));
      Ok (captured <? retained);
      Ok (retained <? analyzed);
      Ok (limit <? analyzed);
      Ok (negb ((0 <? limit) && (limit <=? GPIO_SAMPLES_PER_FRAME)));
      Ok (has flags output_exercised && negb (has flags output_permitted)) ];
  refuse bad "GPIO capture diagnostic evidence is inconsistent".

(** ** ADC codes and metadata *)

(** [payload[1::2]] *)
Fixpoint odd_bytes (payload : bytes) : bytes :=
  match payload with
  | _ :: high :: payload => high :: odd_bytes payload
  | _ => []
  end.

(** [not payload[1::2].translate(None, bytes(range(16)))] *)
Definition adc_payload_codes_valid (payload : bytes) : bool :=
  match List.filter (fun b => negb (bool_decide (b ∈ seqZ 0 16))) (odd_bytes payload) with
  | [] => true | _ => false end.

Definition _adc_offset (prefix field : string) : v1 Z :=
  let first := String.substring 0 1 field in
  let separator := (if String.eqb first "0" || String.eqb first "1" then "" else "_")%string in
  of_option (constants_getattr (prefix ++ "_ADC" ++ separator ++ field ++ "_OFFSET")%string) (Uncaught "AttributeError").

Section Metadata.
Context (payload : bytes) (prefix : string).

Definition adc_byte (field : string) : v1 Z := offset ← _adc_offset prefix field; byte_at payload offset.
Definition adc_u16 (field : string) : v1 Z := offset ← _adc_offset prefix field; u16_at payload offset.
Definition adc_u32 (field : string) : v1 Z := offset ← _adc_offset prefix field; u32_at payload offset.

(** [constant_tuple[index]] *)
Definition item (constants : list Z) (index : nat) : Z := nth index constants 0.

(** Lines 826-842: the settings one hardware build can report. *)
Definition adc_settings_differ (expected_mode : Z) : v1 bool :=
  anyR (map (fun '(field, expected) => differs (adc_byte field) expected)
    [ ("CONTAINER_BYTES", ADC_CONTAINER_BITS / 8);
      ("CLOCK_DIVIDER", ADC_CLOCK_DIVIDER);
      ("HARDWARE_AVERAGE_COUNT", ADC_HARDWARE_AVERAGE_COUNT);
      ("SAMPLE_TIME_ADCK", ADC_SAMPLE_TIME_ADCK);
      ("CONVERSION_MODE", expected_mode);
      ("0_PIN", item ADC_PINS 0);
      ("1_PIN", item ADC_PINS 1);
      ("0_PERIPHERAL", item ADC_PERIPHERALS 0);
      ("1_PERIPHERAL", item ADC_PERIPHERALS 1);
      ("0_CHANNEL", item ADC_CHANNELS 0);
      ("1_CHANNEL", item ADC_CHANNELS 1) ]%string).

Definition adc_values_differ (reference : AdcReference) (clock_source : AdcClockSource) (resolution : Z) : v1 bool :=
  anyR
    [ Ok (negb (bool_decide (reference = AdcReference.VREFH_VREFL_NOMINAL_3V3)));
      Ok (negb (bool_decide (clock_source = AdcClockSource.SYNCHRONOUS_IPG)));
      differs (adc_u16 "CODE_MIN") ADC_CODE_MIN;
      differs (adc_u16 "CODE_MAX") (Z.shiftl 1 resolution - 1);
      differs (adc_u16 "REFERENCE_MV_NOMINAL") ADC_REFERENCE_MV_NOMINAL;
      differs (adc_u16 "INPUT_MIN_MV_NOMINAL") ADC_INPUT_MIN_MV_NOMINAL;
      differs (adc_u16 "INPUT_MAX_MV_NOMINAL") ADC_INPUT_MAX_MV_NOMINAL;
      differs (adc_u32 "IPG_CLOCK_HZ") ADC_IPG_CLOCK_HZ;
      differs (adc_u32 "CLOCK_HZ") ADC_CLOCK_HZ;
      differs (adc_u32 "CALIBRATION_DEADLINE_US") ADC_CALIBRATION_DEADLINE_US ].

(** Lines 862-898: the flags agree with the configuration and the calibration. *)
Definition check_adc_flags (resolution flags errors : Z) (state_0 state_1 : AdcCalibrationState) : v1 unit :=
  let primary := resolution =? ADC_PRIMARY_RESOLUTION_BITS in
  let required_settings := Z.lor (Z.lor AdcConfigurationFlag.NO_HARDWARE_AVERAGING AdcConfigurationFlag.HIGH_SPEED)
                             AdcConfigurationFlag.SHORTEST_SAMPLE in
  let selected_resolution := if primary then AdcConfigurationFlag.PRIMARY_12_BIT else AdcConfigurationFlag.FALLBACK_10_BIT in
  let other_resolution := if primary then AdcConfigurationFlag.FALLBACK_10_BIT else AdcConfigurationFlag.PRIMARY_12_BIT in
  _ ← refuse (negb (Z.land flags required_settings =? required_settings) || negb (has flags selected_resolution)
              || has flags other_resolution)
        "ADC flags disagree with actual configuration";
  if has flags AdcConfigurationFlag.INITIALIZED then
    let ready_flags := Z.lor (Z.lor AdcConfigurationFlag.ROUTES_VALIDATED AdcConfigurationFlag.CONFIGURATION_READBACK_VALID)
                         AdcConfigurationFlag.CALIBRATION_COMPLETE in
    refuse (negb (errors =? 0) || negb (Z.land flags ready_flags =? ready_flags)
            || negb (bool_decide ((state_0, state_1) = (AdcCalibrationState.SUCCEEDED, AdcCalibrationState.SUCCEEDED))))
      "ADC initialized state is inconsistent"
  else Ok tt.

Definition _validate_adc_metadata_payload : v1 unit :=
  resolution ← adc_byte "RESOLUTION_BITS";
  _ ← refuse (negb (bool_decide (resolution ∈ [ADC_PRIMARY_RESOLUTION_BITS; ADC_FALLBACK_RESOLUTION_BITS])))
        "ADC metadata reports an unsupported resolution";
  let expected_mode := if resolution =? ADC_PRIMARY_RESOLUTION_BITS then 2 else 1 in
  let unknown := "ADC metadata contains an unknown enum"%string in
  raw_reference ← adc_byte "REFERENCE";
  reference ← member raw_reference unknown;
  raw_clock_source ← adc_byte "CLOCK_SOURCE";
  clock_source ← member raw_clock_source unknown;
  raw_state_0 ← adc_byte "0_CALIBRATION_STATE";
  state_0 ← member raw_state_0 unknown;
  raw_state_1 ← adc_byte "1_CALIBRATION_STATE";
  state_1 ← member raw_state_1 unknown;
  flags ← adc_u16 "CONFIGURATION_FLAGS";
  errors ← adc_u32 "INITIALIZATION_ERROR_FLAGS";
  _ ← refuse (has flags (Z.lnot KNOWN_ADC_CONFIGURATION_FLAG_MASK)
              || has errors (Z.lnot KNOWN_ADC_INITIALIZATION_ERROR_MASK))
        "ADC metadata contains reserved flags";
  settings ← adc_settings_differ expected_mode;
  _ ← refuse settings "ADC metadata reports incompatible settings";
  values ← adc_values_differ reference clock_source resolution;
  _ ← refuse values "ADC metadata reports incompatible v1 values";
  _ ← adc_u32 "0_CALIBRATION_CYCLES";
  _ ← adc_u32 "1_CALIBRATION_CYCLES";
  check_adc_flags resolution flags errors state_0 state_1.
End Metadata.

(** ** INFO *)

(** [build_bytes.index(0)] *)
Fixpoint index_of_zero (data : bytes) : option nat :=
  match data with
  | [] => None
  | b :: data => if b =? 0 then Some 0%nat else S <$> index_of_zero data
  end.

Definition is_ascii (data : bytes) : bool := forallb (fun b => b <? 128) data.

Definition table_differs (read : bytes -> Z -> v1 Z) (payload : bytes) (table : list (Z * Z)) : v1 bool :=
  anyR (map (fun '(offset, expected) => differs (read payload offset) expected) table).

(** Lines 902-915: reserved fields. *)
Definition check_info_reserved (payload : bytes) : v1 unit :=
  reserved_0 ← differs (byte_at payload INFO_RESPONSE_RESERVED_0_OFFSET) 0;
  _ ← refuse reserved_0 "INFO reserved_0 must be zero";
  reserved_2 ← differs (byte_at payload INFO_RESPONSE_RESERVED_2_OFFSET) 0;
  _ ← refuse reserved_2 "INFO reserved_2 must be zero";
  bad ← anyR
    [ differs (u16_at payload INFO_RESPONSE_RESERVED_3_OFFSET) 0;
      differs (byte_at payload INFO_RESPONSE_RESERVED_4_OFFSET) 0;
      differs (u16_at payload INFO_RESPONSE_RESERVED_5_OFFSET) 0 ];
  refuse bad "INFO GPIO metadata reserved fields must be zero".

(** Lines 916-937: the enumerations; the selected checksum is returned. *)
Definition check_info_enums (payload : bytes) : v1 ChecksumAlgorithm :=
  let unknown := "INFO contains an unknown enum value"%string in
  raw_state ← byte_at payload INFO_RESPONSE_DEVICE_STATE_OFFSET;
  device_state ← member raw_state unknown;
  raw_board ← u16_at payload INFO_RESPONSE_BOARD_ID_OFFSET;
  _ ← member (A:=BoardId) raw_board unknown;
  raw_mcu ← u16_at payload INFO_RESPONSE_MCU_ID_OFFSET;
  _ ← member (A:=McuId) raw_mcu unknown;
  raw_checksum ← byte_at payload INFO_RESPONSE_DATA_CHECKSUM_ALGORITHM_OFFSET;
  data_checksum ← member raw_checksum unknown;
  raw_mode ← byte_at payload INFO_RESPONSE_GPIO_CAPTURE_DIAGNOSTIC_MODE_OFFSET;
  _ ← member (A:=GpioCaptureDiagnosticMode) raw_mode unknown;
  _ ← refuse (bool_decide (device_state = DeviceState.BOOT)) "INFO is unavailable while the device is in BOOT";
  Ok data_checksum.

(** Lines 939-967: the hardware resources of protocol v1. *)
Definition check_info_capabilities (payload : bytes) : v1 unit :=
  bad ← table_differs byte_at payload
    [ (INFO_RESPONSE_PROTOCOL_VERSION_OFFSET, PROTOCOL_VERSION);
      (INFO_RESPONSE_GPIO_PIN_COUNT_OFFSET, zlen GPIO_PINS_BY_BIT);
      (INFO_RESPONSE_GPIO_PACKED_WIDTH_BITS_OFFSET, GPIO_PACKED_WIDTH_BITS);
      (INFO_RESPONSE_GPIO_RAW_RING_DEPTH_OFFSET, GPIO_RAW_RING_DEPTH);
      (INFO_RESPONSE_GPIO_PACKED_RING_DEPTH_OFFSET, GPIO_PACKED_RING_DEPTH);
      (INFO_RESPONSE_GPIO_PIT_CHANNEL_OFFSET, GPIO_PIT_CHANNEL);
      (INFO_RESPONSE_GPIO_XBAR_INPUT_OFFSET, GPIO_XBAR_INPUT);
      (INFO_RESPONSE_GPIO_XBAR_OUTPUT_OFFSET, GPIO_XBAR_OUTPUT);
      (INFO_RESPONSE_GPIO_EDMA_CHANNEL_OFFSET, GPIO_EDMA_CHANNEL);
      (INFO_RESPONSE_GPIO_DMAMUX_SOURCE_OFFSET, GPIO_DMAMUX_SOURCE);
      (INFO_RESPONSE_GPIO_EDMA_PRIORITY_OFFSET, GPIO_EDMA_PRIORITY);
      (INFO_RESPONSE_GPIO_XBAR_ACTIVE_EDGE_OFFSET, GPIO_XBAR_ACTIVE_EDGE) ];
  refuse bad "INFO reports incompatible v1 capabilities".

(** Lines 988-997: the capability bits the two masks imply. *)
Definition expected_capabilities (stream_mask source_mask : Z) : Z :=
  let expected_stream := Z.lor (if has stream_mask StreamMask.ADC then Capability.ADC_STREAM else 0)
                               (if has stream_mask StreamMask.GPIO then Capability.GPIO_STREAM else 0) in
  let expected_source :=
    Z.lor (if has source_mask (Z.shiftl 1 (int_of Source.HARDWARE)) then Capability.HARDWARE_SOURCE else 0)
          (if has source_mask (Z.shiftl 1 (int_of Source.SYNTHETIC)) then Capability.SYNTHETIC_SOURCE else 0) in
  Z.lor expected_stream expected_source.

Definition identity_capabilities : Z :=
  Z.lor (Z.lor (Z.lor Capability.ADC_STREAM Capability.GPIO_STREAM) Capability.HARDWARE_SOURCE)
    Capability.SYNTHETIC_SOURCE.

(** Lines 969-1020: the masks, the checksums and the capability bits. *)
Definition check_info_masks (payload : bytes) (data_checksum : ChecksumAlgorithm) : v1 unit :=
  stream_mask ← byte_at payload INFO_RESPONSE_SUPPORTED_STREAM_MASK_OFFSET;
  source_mask ← byte_at payload INFO_RESPONSE_SUPPORTED_SOURCE_MASK_OFFSET;
  _ ← refuse (has stream_mask (Z.lnot valid_stream_bits) || (source_mask =? 0) || has source_mask (Z.lnot 3))
        "INFO reports an invalid capability mask";
  checksum_mask ← u32_at payload INFO_RESPONSE_SUPPORTED_CHECKSUM_MASK_OFFSET;
  _ ← refuse (negb (checksum_mask =? SUPPORTED_CHECKSUM_MASK)) "INFO checksum mask disagrees with protocol v1";
  _ ← refuse (negb (has checksum_mask (Z.shiftl 1 (int_of data_checksum)))) "INFO selected checksum is not advertised";
  _ ← require (bool_decide (data_checksum ∈ HOST_SUPPORTED_CHECKSUM_ALGORITHMS))
        (UnsupportedChecksumError (int_of data_checksum));
  capability_bits ← u32_at payload INFO_RESPONSE_CAPABILITY_BITS_OFFSET;
  _ ← refuse (has capability_bits (Z.lnot KNOWN_CAPABILITY_MASK)) "INFO reports reserved capability bits";
  _ ← refuse (negb (Z.land capability_bits identity_capabilities =? expected_capabilities stream_mask source_mask))
        "INFO capability bits disagree with source masks";
  diagnostic_flags ← u16_at payload INFO_RESPONSE_GPIO_CAPTURE_DIAGNOSTIC_FLAGS_OFFSET;
  _ ← refuse (has diagnostic_flags (Z.lnot KNOWN_GPIO_CAPTURE_DIAGNOSTIC_FLAG_MASK))
        "INFO GPIO diagnostic flags contain reserved bits";
  refuse (negb (eqb (has capability_bits Capability.GPIO_CAPTURE_DIAGNOSTIC)
                    (has diagnostic_flags GpioCaptureDiagnosticFlag.AVAILABLE)))
    "INFO GPIO diagnostic metadata disagrees with capability bits".

(** Lines 1022-1063: the timing and size fields, and the pin map. *)
Definition check_info_timing (payload : bytes) : v1 unit :=
  bad ← table_differs u32_at payload
    [ (INFO_RESPONSE_TIMESTAMP_HZ_OFFSET, TIMESTAMP_HZ);
      (INFO_RESPONSE_DATA_FRAME_BYTES_OFFSET, DATA_FRAME_BYTES);
      (INFO_RESPONSE_MAX_CONTROL_FRAME_BYTES_OFFSET, MAX_CONTROL_FRAME_BYTES);
      (INFO_RESPONSE_ADC_PAIR_RATE_HZ_OFFSET, ADC_PAIR_RATE_HZ);
      (INFO_RESPONSE_GPIO_SAMPLE_RATE_HZ_OFFSET, GPIO_SAMPLE_RATE_HZ);
      (INFO_RESPONSE_GPIO_RAW_SAMPLES_PER_BUFFER_OFFSET, GPIO_RAW_SAMPLES_PER_BUFFER);
      (INFO_RESPONSE_GPIO_RAW_RING_BYTES_OFFSET, GPIO_RAW_RING_BYTES);
      (INFO_RESPONSE_GPIO_PACKED_RING_BYTES_OFFSET, GPIO_PACKED_RING_BYTES) ];
  _ ← refuse bad "INFO reports incompatible v1 timing or sizes";
  bad ← table_differs u16_at payload
    [ (INFO_RESPONSE_ADC_PAIR_PERIOD_TICKS_OFFSET, ADC_PAIR_PERIOD_TICKS);
      (INFO_RESPONSE_ADC1_PHASE_TICKS_OFFSET, ADC1_PHASE_TICKS);
      (INFO_RESPONSE_GPIO_SAMPLE_PERIOD_TICKS_OFFSET, GPIO_SAMPLE_PERIOD_TICKS);
      (INFO_RESPONSE_GPIO_PACKET_BUFFER_COUNT_OFFSET, GPIO_PACKET_BUFFER_COUNT) ];
  _ ← refuse bad "INFO reports incompatible v1 timing";
  let pin_start := Z.to_nat INFO_RESPONSE_GPIO_PIN_MAP_OFFSET in
  let pin_end := (pin_start + Z.to_nat INFO_RESPONSE_GPIO_PIN_MAP_COUNT)%nat in
  refuse (negb (bool_decide (slice pin_start pin_end payload = GPIO_PINS_BY_BIT)))
    "INFO GPIO pin map must preserve D6-through-D13".

(** Lines 1065-1076: a NUL-terminated, zero-padded ASCII build identifier. *)
Definition check_build_id (payload : bytes) : v1 unit :=
  let build_start := Z.to_nat INFO_RESPONSE_BUILD_ID_OFFSET in
  let build_bytes := slice build_start (build_start + Z.to_nat INFO_RESPONSE_BUILD_ID_COUNT) payload in
  terminator ← of_option (index_of_zero build_bytes) (invalid "INFO build ID must be NUL-terminated ASCII");
  _ ← refuse (negb (is_ascii (take terminator build_bytes))) "INFO build ID must be NUL-terminated ASCII";
  refuse (existsb (fun b => negb (b =? 0)) (drop (S terminator) build_bytes)) "INFO build ID padding must be zero".

Definition _validate_info_payload (payload : bytes) : v1 unit :=
  _ ← check_info_reserved payload;
  data_checksum ← check_info_enums payload;
  _ ← check_info_capabilities payload;
  _ ← check_info_masks payload data_checksum;
  _ ← check_info_timing payload;
  _ ← check_build_id payload;
  _validate_adc_metadata_payload payload "INFO_RESPONSE".

(** ** STATUS *)

Definition depth_limits : list (Z * Z) :=
  [ (STATUS_RESPONSE_GPIO_RAW_READY_DEPTH_OFFSET, GPIO_RAW_RING_DEPTH);
    (STATUS_RESPONSE_GPIO_RAW_READY_HIGH_WATER_OFFSET, GPIO_RAW_RING_DEPTH);
    (STATUS_RESPONSE_GPIO_PACKED_READY_DEPTH_OFFSET, GPIO_PACKED_RING_DEPTH);
    (STATUS_RESPONSE_GPIO_PACKED_READY_HIGH_WATER_OFFSET, GPIO_PACKED_RING_DEPTH);
    (STATUS_RESPONSE_PACKET_READY_DEPTH_OFFSET, GPIO_PACKET_BUFFER_COUNT);
    (STATUS_RESPONSE_PACKET_TRANSMIT_DEPTH_OFFSET, GPIO_PACKET_BUFFER_COUNT);
    (STATUS_RESPONSE_PACKET_OWNED_HIGH_WATER_OFFSET, GPIO_PACKET_BUFFER_COUNT) ].

(** Lines 1081-1115: state, source, streams and checksum. *)
Definition check_status_state (payload : bytes) : v1 unit :=
  reserved ← differs (byte_at payload STATUS_RESPONSE_RESERVED_OFFSET) 0;
  _ ← refuse reserved "STATUS reserved byte must be zero";
  let unknown := "STATUS contains an unknown enum value"%string in
  raw_state ← byte_at payload STATUS_RESPONSE_DEVICE_STATE_OFFSET;
  device_state ← member raw_state unknown;
  raw_source ← byte_at payload STATUS_RESPONSE_SOURCE_OFFSET;
  source ← member raw_source unknown;
  raw_checksum ← byte_at payload STATUS_RESPONSE_DATA_CHECKSUM_ALGORITHM_OFFSET;
  checksum ← member raw_checksum unknown;
  streams ← byte_at payload STATUS_RESPONSE_STREAM_MASK_OFFSET;
  _ ← refuse (has streams (Z.lnot valid_stream_bits)) "STATUS stream mask is invalid";
  _ ← refuse (bool_decide (device_state = DeviceState.BOOT)) "STATUS is unavailable while the device is in BOOT";
  _ ← refuse (bool_decide (device_state = DeviceState.IDLE) && negb (streams =? StreamMask.NONE))
        "STATUS state and active stream mask disagree";
  _ ← refuse (negb (bool_decide (device_state = DeviceState.IDLE)) && (streams =? StreamMask.NONE)
              && negb (bool_decide (source = Source.HARDWARE)))
        "zero-stream CONFIGURED/RUNNING status requires hardware source";
  _ ← refuse (negb (bool_decide (checksum ∈ SUPPORTED_CHECKSUM_ALGORITHMS))) "STATUS checksum is not enabled";
  require (bool_decide (checksum ∈ HOST_SUPPORTED_CHECKSUM_ALGORITHMS)) (UnsupportedChecksumError (int_of checksum)).

Definition _validate_status_payload (payload : bytes) : v1 unit :=
  _ ← check_status_state payload;
  frame_bytes ← differs (u32_at payload STATUS_RESPONSE_DATA_FRAME_BYTES_OFFSET) DATA_FRAME_BYTES;
  _ ← refuse frame_bytes "STATUS data frame size must be 4096";
  stats_generation ← u32_at payload STATUS_RESPONSE_STATS_GENERATION_OFFSET;
  _ ← refuse (stats_generation =? 0) "STATUS stats generation must be nonzero";
  cpu ← u16_at payload STATUS_RESPONSE_GPIO_PROCESSING_CPU_BASIS_POINTS_OFFSET;
  _ ← refuse (10000 <? cpu) "STATUS GPIO processing CPU exceeds 100%";
  deep ← anyR (map (fun '(offset, maximum) => depth ← u16_at payload offset; Ok (maximum <? depth)) depth_limits);
  _ ← refuse deep "STATUS queue depth exceeds its advertised capacity";
  _validate_adc_metadata_payload payload "STATUS_RESPONSE".

(** ** [_validate_payload] *)

Definition any_nonzero (payload : bytes) (offset : Z) : bool :=
  existsb (fun b => negb (b =? 0)) (drop (Z.to_nat offset) payload).

(** Lines 1204-1243: a successful response. *)
Definition validate_success (kind : FrameKind) (payload : bytes) : v1 unit :=
  match kind with
  | FrameKind.INFO_RESPONSE => _validate_info_payload payload
  | FrameKind.CONFIGURE_RESPONSE | FrameKind.START_RESPONSE => _validate_configuration payload 4 true
  | FrameKind.GET_STATUS_RESPONSE => _validate_status_payload payload
  | FrameKind.STOP_RESPONSE =>
      state ← differs (byte_at payload STOP_RESPONSE_DEVICE_STATE_OFFSET) (int_of DeviceState.IDLE);
      _ ← refuse state "STOP response state must be IDLE";
      refuse (any_nonzero payload STOP_RESPONSE_RESERVED_1_OFFSET) "STOP response reserved bytes must be zero"
  | FrameKind.RESET_STATS_RESPONSE =>
      reserved ← differs (byte_at payload RESET_STATS_RESPONSE_RESERVED_OFFSET) 0;
      _ ← refuse reserved "RESET_STATS reserved byte must be zero";
      generation ← u32_at payload RESET_STATS_RESPONSE_STATS_GENERATION_OFFSET;
      refuse (generation =? 0) "RESET_STATS stats generation must be nonzero"
  | FrameKind.PING_RESPONSE =>
      reserved ← differs (byte_at payload PING_RESPONSE_RESERVED_OFFSET) 0;
      refuse reserved "PING response reserved byte must be zero"
  | FrameKind.CHECKSUM_BENCHMARK_RESPONSE =>
      _validate_checksum_benchmark_response payload CHECKSUM_BENCHMARK_CYCLE_COUNTER_HZ
  | FrameKind.GPIO_CLOCK_DIAGNOSTIC_RESPONSE =>
      _validate_gpio_clock_diagnostic_response payload GPIO_CLOCK_DWT_HZ
  | FrameKind.GPIO_CAPTURE_DIAGNOSTIC_RESPONSE => _validate_gpio_capture_diagnostic_response payload
  | _ => Ok tt
  end.

Definition _validate_payload (h : FrameHeader) (payload : bytes) : v1 unit :=
  let kind := FrameHeader.kind h in
  _ ← reject (negb (zlen payload =? FrameHeader.payload_length h)) "payload length disagrees with header"
        ErrorCode.INVALID_LENGTH;
  if decide (kind = FrameKind.ADC_DATA) then
    refuse (negb (adc_payload_codes_valid payload)) "ADC payload contains out-of-range codes"
  else if decide (kind = FrameKind.GPIO_DATA) then Ok tt
  else if decide (kind = FrameKind.CONFIGURE_REQUEST) then _validate_configuration payload 0 false
  else if decide (kind = FrameKind.CHECKSUM_BENCHMARK_REQUEST) then _validate_checksum_benchmark_request payload 0
  else if decide (kind = FrameKind.GPIO_CLOCK_DIAGNOSTIC_REQUEST) then _validate_gpio_clock_diagnostic_request payload 0
  else if _REQUEST_KINDS kind then Ok tt
  else
    _ ← _validate_response_prefix h payload;
    if has (FrameHeader.flags h) FrameFlag.RESPONSE_ERROR then
      (if decide (kind = FrameKind.ERROR_RESPONSE) then
         reserved ← differs (u16_at payload ERROR_RESPONSE_RESERVED_1_OFFSET) 0;
         refuse reserved "ERROR_RESPONSE reserved bytes must be zero"
       else Ok tt)
    else validate_success kind payload.

(** ** Only validation errors *)

Lemma clean_byte_at payload offset : 0 <= offset < zlen payload -> clean (byte_at payload offset).
Proof.
  intros H. apply raises_only_of_option. intros Hn. apply lookup_ge_None in Hn. unfold zlen in H. lia.
Qed.

Lemma clean_u16_at payload offset : 0 <= offset < zlen payload - 1 -> clean (u16_at payload offset).
Proof.
  intros H. unfold u16_at, unpack1, unpack_from. change (calcsize [U16]) with 2%nat. unfold zlen in H.
  by rewrite (proj2 (Nat.leb_le _ _)) by lia.
Qed.

Lemma clean_u32_at payload offset : 0 <= offset < zlen payload - 3 -> clean (u32_at payload offset).
Proof.
  intros H. unfold u32_at, unpack1, unpack_from. change (calcsize [U32]) with 4%nat. unfold zlen in H.
  by rewrite (proj2 (Nat.leb_le _ _)) by lia.
Qed.

Lemma clean_u64_at payload offset : 0 <= offset < zlen payload - 7 -> clean (u64_at payload offset).
Proof.
  intros H. unfold u64_at, unpack1, unpack_from. change (calcsize [U64]) with 8%nat. unfold zlen in H.
  by rewrite (proj2 (Nat.leb_le _ _)) by lia.
Qed.

Lemma clean_refuse condition message : clean (refuse condition message).
Proof. apply clean_reject. Qed.
Lemma clean_member {A} `{IntEnum A} value message : clean (member (A:=A) value message).
Proof. by apply raises_only_of_option. Qed.
Lemma clean_differs read expected : clean read -> clean (differs read expected).
Proof. intros H. by apply raises_only_bind. Qed.
Lemma clean_anyR (l : list (v1 bool)) : Forall clean l -> clean (anyR l).
Proof. induction 1; [exact I|]. by apply raises_only_anyR. Qed.
Lemma clean_unpack fs payload offset :
  (offset + calcsize fs <= length payload)%nat -> clean (of_option (unpack_from fs payload offset) (Uncaught "struct.error")).
Proof. intros H. unfold unpack_from. by rewrite (proj2 (Nat.leb_le _ _)). Qed.
Lemma clean_py_div a b : b <> 0 -> clean (py_div a b).
Proof. intros H. unfold py_div. by rewrite (proj2 (Z.eqb_neq _ _)). Qed.
Lemma py_div_Ok a b q : py_div a b = Ok q -> b <> 0 /\ q = a / b.
Proof. unfold py_div. destruct (Z.eqb_spec b 0); [discriminate|]. by intros [= <-]. Qed.
#[export] Hint Resolve clean_refuse clean_member clean_differs clean_reject : daq.

Lemma clean_adc_byte payload prefix field offset :
  _adc_offset prefix field = Ok offset -> 0 <= offset < zlen payload -> clean (adc_byte payload prefix field).
Proof. intros H Ho. unfold adc_byte. rewrite H. by apply clean_byte_at. Qed.
Lemma clean_adc_u16 payload prefix field offset :
  _adc_offset prefix field = Ok offset -> 0 <= offset < zlen payload - 1 -> clean (adc_u16 payload prefix field).
Proof. intros H Ho. unfold adc_u16. rewrite H. by apply clean_u16_at. Qed.
Lemma clean_adc_u32 payload prefix field offset :
  _adc_offset prefix field = Ok offset -> 0 <= offset < zlen payload - 3 -> clean (adc_u32 payload prefix field).
Proof. intros H Ho. unfold adc_u32. rewrite H. by apply clean_u32_at. Qed.

(** A read at a constant offset, inside a payload whose length is a hypothesis. *)
Ltac in_payload :=
  match goal with
  | H : zlen ?p = _ |- context [zlen ?p] => rewrite H; split; [by vm_compute|reflexivity]
  | H : zlen ?p = _ |- (_ <= length ?p)%nat => unfold zlen in H; rewrite <-(Nat2Z.id (length p)), H; apply Nat.leb_le; reflexivity
  end.

Ltac clean_read :=
  match goal with
  | |- clean (byte_at _ _) => apply clean_byte_at; in_payload
  | |- clean (u16_at _ _) => apply clean_u16_at; in_payload
  | |- clean (u32_at _ _) => apply clean_u32_at; in_payload
  | |- clean (u64_at _ _) => apply clean_u64_at; in_payload
  | |- clean (adc_byte _ _ _) => eapply clean_adc_byte; [vm_compute; reflexivity|in_payload]
  | |- clean (adc_u16 _ _ _) => eapply clean_adc_u16; [vm_compute; reflexivity|in_payload]
  | |- clean (adc_u32 _ _ _) => eapply clean_adc_u32; [vm_compute; reflexivity|in_payload]
  | |- clean (differs _ _) => apply clean_differs
  | |- clean (of_option (unpack_from _ _ _) _) => apply clean_unpack; in_payload
  | |- clean (table_differs _ _ _) => unfold table_differs; cbn [map]
  | |- clean (anyR (map _ (_ :: _))) => cbn [map]
  | |- clean (anyR _) => apply clean_anyR; repeat (apply Forall_cons; split); [..|constructor]
  end.
Ltac cleanly := intros; repeat first [clean_read | clean_step].

Lemma clean_adc_metadata_info payload :
  zlen payload = 376 -> clean (_validate_adc_metadata_payload payload "INFO_RESPONSE").
Proof. unfold _validate_adc_metadata_payload, adc_settings_differ, adc_values_differ, check_adc_flags. cleanly. Qed.

Lemma clean_adc_metadata_status payload :
  zlen payload = 1228 -> clean (_validate_adc_metadata_payload payload "STATUS_RESPONSE").
Proof. unfold _validate_adc_metadata_payload, adc_settings_differ, adc_values_differ, check_adc_flags. cleanly. Qed.
#[export] Hint Resolve clean_adc_metadata_info clean_adc_metadata_status : daq.

Lemma clean_validate_info payload : zlen payload = 376 -> clean (_validate_info_payload payload).
Proof.
  unfold _validate_info_payload, check_info_reserved, check_info_enums, check_info_capabilities, check_info_masks,
    check_info_timing, check_build_id. cleanly.
Qed.

Lemma clean_validate_status payload : zlen payload = 1228 -> clean (_validate_status_payload payload).
Proof. unfold _validate_status_payload, check_status_state. cleanly. Qed.

Lemma clean_response_prefix h payload : 4 <= zlen payload -> clean (_validate_response_prefix h payload).
Proof.
  intros Hl. unfold _validate_response_prefix. apply raises_only_bind.
  { apply (clean_unpack _RESPONSE_PREFIX). unfold zlen in Hl. change (calcsize _RESPONSE_PREFIX) with 4%nat. lia. }
  cleanly.
Qed.

Lemma clean_validate_configuration payload offset applied :
  0 <= offset <= zlen payload - 8 -> clean (_validate_configuration payload offset applied).
Proof.
  intros Hl. unfold _validate_configuration. apply raises_only_bind.
  { apply (clean_unpack _CONFIGURATION). unfold zlen in Hl. change (calcsize _CONFIGURATION) with 8%nat. lia. }
  cleanly.
Qed.

Lemma clean_benchmark_request payload offset :
  0 <= offset <= zlen payload - 8 -> clean (_validate_checksum_benchmark_request payload offset).
Proof.
  intros Hl. unfold _validate_checksum_benchmark_request. apply raises_only_bind.
  { apply (clean_unpack _CHECKSUM_BENCHMARK_REQUEST). unfold zlen in Hl. change (calcsize _CHECKSUM_BENCHMARK_REQUEST) with 8%nat. lia. }
  cleanly.
Qed.

Lemma clean_gpio_capture payload : zlen payload = 144 -> clean (_validate_gpio_capture_diagnostic_response payload).
Proof. unfold _validate_gpio_capture_diagnostic_response. cleanly. Qed.

(** ** The selections of the GPIO clock diagnostic *)

(** A rate from 1 kHz to 4 MHz whose period is a whole number of PIT clocks, and
    enough events to measure, within a tenth of a second. *)
Definition clock_selection (rate_hz event_count : Z) : Prop :=
  1000 <= rate_hz <= 4000000 /\ (rate_hz | 24000000) /\ 32 <= event_count <= 8192 /\ 10 * event_count <= rate_hz.

(** [600000000 = 25 * 24000000]: the second divisibility test never decides. *)
Lemma pit_divides_dwt rate_hz : rate_hz <> 0 -> 24000000 mod rate_hz = 0 -> 600000000 mod rate_hz = 0.
Proof.
  intros Hr H. apply Z.mod_divide in H; [|done]. apply Z.mod_divide; [done|].
  replace 600000000 with (25 * 24000000) by lia. by apply Z.divide_mul_r.
Qed.

Lemma valid_gpio_clock_selection_spec rate_hz event_count :
  exists b, _valid_gpio_clock_selection rate_hz event_count = Ok b /\
    (b = true <-> clock_selection rate_hz event_count).
Proof.
  unfold _valid_gpio_clock_selection, clock_selection, differs, py_mod, py_div.
  unfold GPIO_CLOCK_MIN_RATE_HZ, GPIO_CLOCK_PRODUCTION_RATE_HZ, GPIO_CLOCK_PIT_HZ, GPIO_CLOCK_DWT_HZ,
    GPIO_CLOCK_MIN_EVENT_COUNT, GPIO_CLOCK_MAX_EVENT_COUNT, GPIO_CLOCK_MAX_ELAPSED_CYCLES,
    GPIO_CLOCK_DUPLICATE_GUARD_EVENTS. cbn [anyR mbind result_bind].
  destruct ((1000 <=? rate_hz) && (rate_hz <=? 4000000)) eqn:Hr; cbn [negb mbind result_bind].
  2: { exists false. split; [done|]. split; [discriminate|]. intros (H & _). lia. }
  assert (Hne : rate_hz <> 0) by lia. rewrite (proj2 (Z.eqb_neq _ _) Hne). cbn [mbind result_bind].
  destruct (Z.eqb_spec (24000000 mod rate_hz) 0) as [Hp|Hp]; cbn [negb mbind result_bind].
  2: { exists false. split; [done|]. split; [discriminate|]. intros (_ & H & _). by apply Z.mod_divide in H. }
  pose proof (pit_divides_dwt rate_hz Hne Hp) as Hd. rewrite Hd. cbn [Z.eqb negb mbind result_bind].
  destruct ((32 <=? event_count) && (event_count <=? 8192)) eqn:He; cbn [negb mbind result_bind].
  2: { exists false. split; [done|]. split; [discriminate|]. intros (_ & _ & H & _). lia. }
  eexists. split; [done|]. apply Z.mod_divide in Hd as [k Hk]; [|done].
  rewrite <-(Z.mod_divide 24000000) by done. rewrite Hk, Z.div_mul by done. rewrite andb_true_iff, !Z.leb_le. nia.
Qed.

Lemma selection_nonzero rate_hz event_count :
  _valid_gpio_clock_selection rate_hz event_count = Ok true -> 1000 <= rate_hz <= 4000000.
Proof.
  intros H. destruct (valid_gpio_clock_selection_spec rate_hz event_count) as (b & Hb & Hs).
  assert (b = true) as -> by congruence. by destruct (proj1 Hs eq_refl).
Qed.

Lemma clean_clock_selection rate_hz event_count : clean (_valid_gpio_clock_selection rate_hz event_count).
Proof. by destruct (valid_gpio_clock_selection_spec rate_hz event_count) as (b & -> & _). Qed.
#[export] Hint Resolve clean_clock_selection : daq.

Lemma clean_gpio_clock_request payload offset :
  0 <= offset <= zlen payload - 8 -> clean (_validate_gpio_clock_diagnostic_request payload offset).
Proof.
  intros Hl. unfold _validate_gpio_clock_diagnostic_request. apply raises_only_bind.
  { apply (clean_unpack _GPIO_CLOCK_DIAGNOSTIC_REQUEST). unfold zlen in Hl.
    change (calcsize _GPIO_CLOCK_DIAGNOSTIC_REQUEST) with 8%nat. lia. }
  cleanly.
Qed.

Lemma clean_gpio_clock_response payload clock_hz :
  zlen payload = 140 -> 4000000 <= clock_hz -> clean (_validate_gpio_clock_diagnostic_response payload clock_hz).
Proof.
  intros Hl Hc. unfold _validate_gpio_clock_diagnostic_response.
  do 12 (apply raises_only_bind; [clean_read|intros ? _]).
  apply raises_only_bind; [apply clean_clock_selection|]. intros valid Hv. cbv zeta.
  apply raises_only_bind.
  - destruct valid; cbn [andb]; [|exact I]. apply selection_nonzero in Hv. destruct (_ =? clock_hz); [|exact I].
    apply raises_only_bind; [apply clean_py_div; lia|]. intros period Hp. apply clean_py_div.
    apply py_div_Ok in Hp as [_ ->]. intros H0. apply Z.div_small_iff in H0; lia.
  - intros scheduled _. apply raises_only_bind; [|cleanly].
    apply raises_only_anyR; [exact I|]. intros Hok. assert (valid = true) as -> by (destruct valid; [done|discriminate Hok]).
    apply selection_nonzero in Hv. apply clean_anyR. repeat (apply Forall_cons; split); [..|constructor]; try exact I.
    apply raises_only_bind; [apply clean_py_div; lia|done].
Qed.

(** A byte of a payload, read alone or as a field of a struct. *)
Lemma byte_field (payload : bytes) n b : payload !! n = Some b -> from_le (take 1 (drop n payload)) = b.
Proof. intros H. rewrite (drop_S _ _ _ H). cbn [take]. apply from_le_1. Qed.

(** What a valid request fixes about the bytes the response check reads again. *)
Lemma benchmark_request_enums payload offset u :
  _validate_checksum_benchmark_request payload offset = Ok u ->
  let at_ i := from_le (take 1 (drop (Z.to_nat offset + i) payload)) in
  is_Some (enum_of (A:=ChecksumAlgorithm) (at_ 0%nat)) /\ is_Some (enum_of (A:=BenchmarkVector) (at_ 1%nat)) /\
  is_Some (enum_of (A:=BenchmarkCacheState) (at_ 3%nat)).
Proof.
  unfold _validate_checksum_benchmark_request. intros H. apply of_option_bind in H as (vs & Hvs & H).
  unfold unpack_from in Hvs. destruct (_ <=? _)%nat; [|discriminate]. apply Some_inj' in Hvs. subst vs.
  cbn [unpack_fields _CHECKSUM_BENCHMARK_REQUEST funpack fsize] in H. cbv zeta in H.
  apply bind_Ok_inv in H as (c & Hc & H). apply bind_Ok_inv in H as (v & Hv & H).
  apply bind_Ok_inv in H as (r & Hr & H). apply bind_Ok_inv in H as (k & Hk & _).
  apply of_option_Ok_inv in Hc, Hv, Hk. rewrite !drop_drop in *. cbv zeta. rewrite Nat.add_0_r.
  repeat split; eexists; [exact Hc|exact Hv|exact Hk].
Qed.

Lemma clean_enum_at {A} `{IntEnum A} (payload : bytes) offset b :
  is_Some (enum_of (A:=A) (from_le (take 1 (drop (Z.to_nat offset) payload)))) ->
  byte_at payload offset = Ok b -> clean (of_option (enum_of (A:=A) b) (Uncaught "ValueError")).
Proof.
  intros [x Hx] Hb. apply of_option_Ok_inv in Hb. rewrite (byte_field _ _ _ Hb) in Hx. by rewrite Hx.
Qed.

Lemma clean_expected_metrics counter_hz target_rate total_cycles processed_bytes :
  counter_hz <> 0 -> clean (expected_metrics counter_hz target_rate total_cycles processed_bytes).
Proof.
  intros Hc. unfold expected_metrics. destruct (Z.eqb_spec processed_bytes 0); [exact I|].
  apply raises_only_bind; [apply clean_refuse|]. intros ? Ht. apply reject_Ok, Z.eqb_neq in Ht.
  repeat (apply raises_only_bind; [by apply clean_py_div|intros ? _]). exact I.
Qed.

Lemma clean_benchmark_response payload clock_hz :
  zlen payload = 96 -> clock_hz <> 0 -> clean (_validate_checksum_benchmark_response payload clock_hz).
Proof.
  intros Hl Hc. unfold _validate_checksum_benchmark_response.
  apply raises_only_bind; [apply clean_benchmark_request; rewrite Hl; by vm_compute|]. intros u Hu.
  apply benchmark_request_enums in Hu as (Hk & Hv & Hs).
  apply raises_only_bind; [clean_read|]. intros v Hb. apply raises_only_bind; 
    [exact (clean_enum_at payload CHECKSUM_BENCHMARK_RESPONSE_VECTOR_OFFSET v Hv Hb)|intros ? _].
  clear v Hb.
  apply raises_only_bind; [clean_read|]. intros v Hb. apply raises_only_bind; 
    [exact (clean_enum_at payload CHECKSUM_BENCHMARK_RESPONSE_CHECKSUM_ALGORITHM_OFFSET v Hk Hb)|intros ? _].
  clear v Hb.
  apply raises_only_bind; [clean_read|]. intros v Hb. apply raises_only_bind; 
    [exact (clean_enum_at payload CHECKSUM_BENCHMARK_RESPONSE_CACHE_STATE_OFFSET v Hs Hb)|intros ? _].
  apply raises_only_bind; [apply (clean_unpack [U16; U16]); in_payload|]. intros (batch & iterations & []) _. cbv zeta.
  do 13 (apply raises_only_bind; [clean_read|intros ? _]).
  apply raises_only_bind; [apply clean_refuse|]. intros ? Hok. apply reject_Ok in Hok.
  rewrite !orb_false_iff, !negb_false_iff, !Z.eqb_eq in Hok.
  do 4 (apply raises_only_bind; [clean_read|intros ? _]).
  apply raises_only_bind; [apply clean_refuse|intros ? _].
  apply raises_only_bind; [|intros; apply clean_refuse]. apply clean_expected_metrics. intuition congruence.
Qed.

(** On a payload of the length its header announces, the validator of a well-formed
    header's payload only raises validation errors. *)
Lemma clean_validate_success kind payload :
  zlen payload = response_size kind -> clean (validate_success kind payload).
Proof.
  intros Hl. pose proof (clean_validate_info payload) as Hinfo. pose proof (clean_validate_status payload) as Hstatus.
  pose proof (clean_benchmark_response payload CHECKSUM_BENCHMARK_CYCLE_COUNTER_HZ) as Hbench.
  pose proof (clean_gpio_clock_response payload GPIO_CLOCK_DWT_HZ) as Hclock.
  pose proof (clean_gpio_capture payload) as Hcapture.
  destruct kind; cbn [validate_success response_size] in *; try exact I;
    try (apply clean_validate_configuration; rewrite Hl; by vm_compute); auto; cleanly.
  by apply Hclock.
Qed.

Lemma request_payload h kind :
  header_wf h -> FrameHeader.kind h = kind -> _DATA_KINDS kind = false -> _REQUEST_KINDS kind = true ->
  FrameHeader.payload_length h = command_size kind.
Proof. intros (_ & _ & _ & _ & _ & H) <- Hd Hr. rewrite Hd in H. destruct H as (_ & _ & _ & H). rewrite Hr in H. apply H. Qed.

Lemma clean_validate_payload h payload : header_wf h -> clean (_validate_payload h payload).
Proof.
  intros Hwf. unfold _validate_payload. cbv zeta. apply raises_only_bind; [apply clean_reject|]. intros u Hl.
  apply reject_Ok, negb_false_iff, Z.eqb_eq in Hl. pose proof (request_payload h) as Hrequest.
  case_decide as H1; [apply clean_refuse|]. case_decide as H2; [exact I|].
  case_decide as H3; [apply clean_validate_configuration; rewrite Hl, (Hrequest _ Hwf H3) by done; by vm_compute|].
  case_decide as H4; [apply clean_benchmark_request; rewrite Hl, (Hrequest _ Hwf H4) by done; by vm_compute|].
  case_decide as H5; [apply clean_gpio_clock_request; rewrite Hl, (Hrequest _ Hwf H5) by done; by vm_compute|].
  clear Hrequest. destruct (_REQUEST_KINDS (FrameHeader.kind h)) eqn:Hr; [exact I|].
  destruct Hwf as (_ & _ & _ & _ & _ & Hwf).
  assert (_DATA_KINDS (FrameHeader.kind h) = false) as Hd by (by destruct (FrameHeader.kind h)).
  rewrite Hd in Hwf. destruct Hwf as (_ & _ & _ & Hwf). rewrite Hr in Hwf.
  destruct Hwf as [(Hf & Hk & Hp & _)|[Hf Hp]].
  - rewrite Hp in Hl. apply raises_only_bind.
    { apply clean_response_prefix. pose proof (control_sizes (FrameHeader.kind h)). lia. }
    intros ? _. rewrite Hf. change (has 0 FrameFlag.RESPONSE_ERROR) with false. by apply clean_validate_success.
  - rewrite Hp in Hl. apply raises_only_bind; [apply clean_response_prefix; case_decide; lia|]. intros ? _.
    rewrite Hf. change (has FrameFlag.RESPONSE_ERROR FrameFlag.RESPONSE_ERROR) with true. cbv iota.
    case_decide; [|exact I]. cleanly.
Qed.

(** ** What the validators accept *)

(** The little-endian 16-bit codes of an ADC payload. *)
Fixpoint codes_of (payload : bytes) : list Z :=
  match payload with
  | low :: high :: payload => from_le [low; high] :: codes_of payload
  | _ => []
  end.

Lemma list_ind2 {A} (P : list A -> Prop) :
  P [] -> (forall x, P [x]) -> (forall x y l, P l -> P (x :: y :: l)) -> forall l, P l.
Proof. intros H0 H1 H2. fix IH 1. intros [|x [|y l]]; [exact H0|exact (H1 x)|exact (H2 x y l (IH l))]. Qed.

Lemma filter_nil {A} (f : A -> bool) l : List.filter f l = [] <-> Forall (fun x => f x = false) l.
Proof.
  induction l as [|x l IH]; cbn; [by split; constructor|]. rewrite Forall_cons, <-IH.
  destruct (f x); intuition congruence.
Qed.

(** Scanning the high bytes decides that every code has twelve bits. *)
Lemma adc_codes_exact payload :
  wf_bytes payload -> adc_payload_codes_valid payload = true <-> Forall (fun code => code < 4096) (codes_of payload).
Proof.
  intros Hw. unfold adc_payload_codes_valid.
  assert (Hnil : forall l : bytes, match l with [] => true | _ => false end = true <-> l = [])
    by (intros []; cbn; split; congruence).
  rewrite Hnil, filter_nil. clear Hnil. revert Hw. induction payload as [|low|low high payload IH] using list_ind2;
    intros Hw; cbn [odd_bytes codes_of]; [by split; constructor..|].
  apply Forall_cons_1 in Hw as [Hlow Hw]. apply Forall_cons_1 in Hw as [Hhigh Hw].
  rewrite !Forall_cons, (IH Hw), from_le_2, negb_false_iff, bool_decide_eq_true, elem_of_seqZ. unfold is_byte in *. intuition lia.
Qed.

(** A valid configuration: known streams, a source (hardware when no stream is
    selected), an implemented checksum, 4096-byte frames. *)
Module Configuration.
Record Configuration := mk { streams : Z; source : Source; checksum : ChecksumAlgorithm }.
End Configuration.
Abbreviation Configuration := Configuration.Configuration.

Definition configuration_wf (c : Configuration) : Prop :=
  0 <= Configuration.streams c < 4 /\ Configuration.checksum c <> NONE_RESERVED /\
  (Configuration.streams c = 0 -> Configuration.source c = Source.HARDWARE).

Definition configuration_bytes (c : Configuration) : bytes :=
  [Configuration.streams c; int_of (Configuration.source c); int_of (Configuration.checksum c); 0] ++ to_le 4 4096.

Lemma supported_checksums a : a ∈ SUPPORTED_CHECKSUM_ALGORITHMS <-> a <> NONE_RESERVED.
Proof. rewrite <-(bool_decide_eq_true (a ∈ _)). destruct a; vm_compute; split; congruence. Qed.

Lemma known_streams f : 0 <= f -> has f (Z.lnot valid_stream_bits) = false <-> f < 4.
Proof. intros Hf. rewrite has_false. by apply (land_lnot_ones f 2). Qed.

Definition configuration_fields (c : Configuration) : fvals _CONFIGURATION :=
  (Configuration.streams c, (int_of (Configuration.source c), (int_of (Configuration.checksum c), (0, (4096, tt))))).

Lemma to_le_byte v : 0 <= v < 256 -> to_le 1 v = [v].
Proof. intros H. change (to_le 1 v) with [v mod 256]. by rewrite Z.mod_small. Qed.

Lemma configuration_ok c : configuration_wf c -> fvals_ok _CONFIGURATION (configuration_fields c).
Proof.
  intros (Hs & _ & _). destruct c as [s src ck]. cbn -[Z.pow int_of] in *.
  assert (0 <= int_of src < 256) by (by destruct src). assert (0 <= int_of ck < 256) by (by destruct ck).
  pow_lit. lia.
Qed.

Lemma pack_configuration c :
  configuration_wf c -> pack _CONFIGURATION (configuration_fields c) = Some (configuration_bytes c).
Proof.
  intros (Hs & _ & _). destruct c as [s src ck]. unfold configuration_fields, configuration_bytes.
  cbn [Configuration.streams Configuration.source Configuration.checksum] in *.
  assert (0 <= int_of src < 256) by (by destruct src). assert (0 <= int_of ck < 256) by (by destruct ck).
  cbn -[fits to_le int_of]. rewrite !(proj2 (fits_spec 1 _)) by (pow_lit; lia). cbn -[fits to_le int_of].
  by rewrite !to_le_byte by lia.
Qed.

Lemma validate_configuration_exact payload offset applied :
  wf_bytes payload -> 0 <= offset ->
  _validate_configuration payload offset applied = Ok tt <->
  (Z.to_nat offset + 8 <= length payload)%nat /\
  exists c, configuration_wf c /\ take 8 (drop (Z.to_nat offset) payload) = configuration_bytes c.
Proof.
  intros Hw Ho. unfold _validate_configuration. rewrite of_option_bind. unfold unpack_from.
  change (calcsize _CONFIGURATION) with 8%nat. destruct (Nat.leb_spec (Z.to_nat offset + 8) (length payload)) as [Hl|Hl].
  2: { split; [by intros (? & ? & _)|intros [? _]; lia]. }
  set (data := drop (Z.to_nat offset) payload). assert (Hwd : wf_bytes data) by (subst data; auto with daq).
  assert (Hld : (8 <= length data)%nat) by (subst data; len).
  split.
  - intros (vs & Hvs & H). split; [done|]. apply Some_inj' in Hvs.
    pose proof (unpack_fields_ok _CONFIGURATION data Hwd Hld) as Hok.
    pose proof (pack_unpack_fields _CONFIGURATION data Hwd Hld) as Hpack. rewrite Hvs in Hok, Hpack.
    destruct vs as (s & rsrc & rck & re & fb & []). cbn -[Z.pow] in Hok. destruct Hok as (Hs & _).
    unfold refuse in H. rewrite reject_bind, known_streams in H by lia. destruct H as [Hs4 H].
    apply of_option_bind in H as (src & Hsrc & H). apply of_option_bind in H as (ck & Hck & H).
    apply enum_of_Some in Hsrc, Hck.
    rewrite !reject_bind, !andb_false_iff, bool_decide_eq_false, !negb_false_iff, require_bind, bool_decide_eq_true,
      reject_bind, reject_Ok, !negb_false_iff, Z.eqb_neq, !Z.eqb_eq, !bool_decide_eq_true in H.
    destruct H as (Hz & Hne & _ & _ & -> & ->).
    exists (Configuration.mk s src ck). assert (Hcw : configuration_wf (Configuration.mk s src ck)).
    { split; [cbn; lia|]. split; [done|]. cbn. intros E. destruct Hz as [Hz|Hz]; [done|done]. }
    split; [done|]. rewrite <-Hsrc, <-Hck in Hpack. change DATA_FRAME_BYTES with 4096 in Hpack.
    pose proof (pack_configuration _ Hcw) as Hp. unfold configuration_fields in Hp.
    cbn [Configuration.streams Configuration.source Configuration.checksum] in Hp.
    rewrite Hp in Hpack. by apply Some_inj' in Hpack.
  - intros (_ & c & Hc & Hb). eexists. split; [done|].
    assert (Hu : unpack_fields _CONFIGURATION data = configuration_fields c).
    { rewrite <-(take_drop 8 data). apply unpack_fields_pack; [by apply configuration_ok|]. by rewrite Hb, pack_configuration. }
    rewrite Hu. destruct Hc as (Hs & Hne & Hz). unfold configuration_fields. unfold refuse, member.
    rewrite reject_bind, known_streams by lia. split; [lia|]. rewrite enum_of_int. cbn [of_option mbind result_bind].
    rewrite enum_of_int. cbn [of_option mbind result_bind].
    rewrite !reject_bind, !andb_false_iff, bool_decide_eq_false, !negb_false_iff, require_bind, bool_decide_eq_true,
      reject_bind, reject_Ok, !negb_false_iff, Z.eqb_neq, !Z.eqb_eq, !bool_decide_eq_true, supported_checksums, host_supported.
    repeat (split; [try done; try (by right)|]); [|done].
    destruct (decide (Configuration.streams c = 0)); [right; auto|by left].
Qed.
