(* ===== verification/V1Frames.v ===== *)
(** * Protocol-v1 frames ([protocol.py]).

    Whole frames: the checksum dispatch, [encode_frame], [decode_frame] and the
    in-place decoder of the streaming parser, which is an instance of the framing
    interface.  [frame_on_wire] says which byte strings are frames. *)

From S2P Require Import Prelude PyStruct Checksum Incremental V1Constants V1Header V1Payload.

(** ** Checksums *)

Section Codec.
(** [sys.byteorder == "little"] *)
Context (little : bool).

Definition compute_checksum (data : bytes) (algorithm : Z) : v1 Z :=
  selected ← of_option (enum_of algorithm) (UnsupportedChecksumError algorithm);
  match compute_checksum_value little data selected with
  | Ok (Some result) => Ok result
  | Ok None => Err (UnsupportedChecksumError (int_of selected))
  | Err _ => Err (Uncaught "IndexError")
  end.

Definition checksum_backend (algorithm : Z) : v1 ChecksumBackend :=
  selected ← of_option (enum_of algorithm) (UnsupportedChecksumError algorithm);
  of_option (Checksum.checksum_backend selected) (UnsupportedChecksumError (int_of selected)).

(** ** Encoding *)

Definition _TRAILER : list fcode := Eval vm_compute in struct_format "<I".

Definition pack_trailer (checksum : Z) : v1 bytes :=
  of_option (pack _TRAILER (checksum, tt)) (Uncaught "struct.error").

(** [Frame.to_bytes] *)
Definition frame_to_bytes (f : Frame) : v1 bytes :=
  header ← header_to_bytes (Frame.header f);
  trailer ← pack_trailer (Frame.checksum f);
  Ok (header ++ Frame.payload f ++ trailer).

Definition _uint (name : string) (value bits : Z) : v1 Z :=
  let maximum := Z.shiftl 1 bits - 1 in
  _ ← reject (negb ((0 <=? value) && (value <=? maximum)))
        (name ++ " must be an unsigned {bits}-bit integer")%string ErrorCode.INVALID_PAYLOAD;
  Ok value.

Definition encode_frame (kind : Z) (payload : bytes) (flags : Z) (checksum_algorithm : option Z)
    (run_id sequence request_id first_sample_ticks item_count : Z) : v1 bytes :=
  selected_kind ← of_option (enum_of kind) (FrameValidationError "unknown frame kind {kind}" ErrorCode.UNKNOWN_FRAME_KIND);
  selected_checksum ←
    match checksum_algorithm with
    | None => Ok (if _DATA_KINDS selected_kind then DEFAULT_CHECKSUM_ALGORITHM else BOOTSTRAP_CHECKSUM_ALGORITHM)
    | Some algorithm => of_option (enum_of algorithm) (UnsupportedChecksumError algorithm)
    end;
  flags ← _uint "flags" flags 16;
  run_id ← _uint "run_id" run_id 32;
  sequence ← _uint "sequence" sequence 32;
  request_id ← _uint "request_id" request_id 32;
  first_sample_ticks ← _uint "first_sample_ticks" first_sample_ticks 64;
  item_count ← _uint "item_count" item_count 32;
  let header := FrameHeader.mk selected_kind flags selected_checksum
                  (HEADER_SIZE + zlen payload + TRAILER_SIZE) (zlen payload) run_id sequence request_id
                  first_sample_ticks item_count PROTOCOL_VERSION HEADER_SIZE in
  _ ← _validate_header header 0;
  _ ← _validate_payload header payload;
  head ← header_to_bytes header;
  let body := head ++ payload in
  checksum ← compute_checksum body (int_of selected_checksum);
  trailer ← pack_trailer checksum;
  Ok (body ++ trailer).

(** ** Decoding *)

Definition decode_frame (frame_bytes : bytes) : v1 Frame :=
  header ← _decode_header frame_bytes 0;
  _ ← reject (negb (zlen frame_bytes =? FrameHeader.total_length header))
        "declared frame length is {header.total_length}, got {len(frame_bytes)}" ErrorCode.INVALID_LENGTH;
  let payload_end := Z.to_nat (HEADER_SIZE + FrameHeader.payload_length header) in
  let payload := slice (Z.to_nat HEADER_SIZE) payload_end frame_bytes in
  '(observed_checksum, _) ← of_option (unpack_from _TRAILER frame_bytes payload_end) (Uncaught "struct.error");
  expected_checksum ← compute_checksum (take payload_end frame_bytes) (int_of (FrameHeader.checksum_algorithm header));
  _ ← require (observed_checksum =? expected_checksum) (ChecksumMismatchError expected_checksum observed_checksum);
  _ ← _validate_payload header payload;
  Ok (Frame.mk header payload observed_checksum).

(** The same checks on a complete frame inside the parser's buffer. *)
Definition _decode_buffered_frame (buffer : bytes) (offset : nat) (header : FrameHeader) : v1 Frame :=
  let payload_start := (offset + Z.to_nat HEADER_SIZE)%nat in
  let payload_end := (payload_start + Z.to_nat (FrameHeader.payload_length header))%nat in
  '(observed_checksum, _) ← of_option (unpack_from _TRAILER buffer payload_end) (Uncaught "struct.error");
  expected_checksum ← compute_checksum (slice offset payload_end buffer) (int_of (FrameHeader.checksum_algorithm header));
  _ ← require (observed_checksum =? expected_checksum) (ChecksumMismatchError expected_checksum observed_checksum);
  let payload := slice payload_start payload_end buffer in
  _ ← _validate_payload header payload;
  Ok (Frame.mk header payload observed_checksum).

(** ** The streaming parser *)

Definition _MAX_FRAME_BYTES : Z := Z.max MAX_DATA_FRAME_BYTES MAX_CONTROL_FRAME_BYTES.

(** [except ChecksumMismatchError] and [except FrameValidationError] of the loop. *)
Definition v1_fault (e : v1_error) : frame_fault :=
  match e with ChecksumMismatchError _ _ => ChecksumFault | Uncaught exception => Escaped exception | _ => ValidationFault end.

(** [IncrementalFrameParser.__init__] *)
#[export] Instance v1_codec : FrameCodec FrameHeader Frame := {
  magic_bytes := MAGIC_BYTES;
  header_size := Z.to_nat HEADER_SIZE;
  max_frame_bytes := Z.to_nat _MAX_FRAME_BYTES;
  total_length h := Z.to_nat (FrameHeader.total_length h);
  decode_header data offset := sorted_by v1_fault (_decode_header data (Z.of_nat offset));
  decode_frame data offset h := sorted_by v1_fault (_decode_buffered_frame data offset h)
}.

Definition IncrementalFrameParser : Type := Parser FrameHeader.

(** ** Frame facts *)

Lemma compute_checksum_Ok data a :
  wf_bytes data -> compute_checksum data (int_of a) =
    of_option (checksum_reference a data) (UnsupportedChecksumError (int_of a)).
Proof.
  intros Hw. unfold compute_checksum. rewrite enum_of_int. cbn [of_option mbind result_bind].
  rewrite compute_checksum_reference by done. by destruct (checksum_reference a data).
Qed.

Lemma checksum_reference_range a data c :
  wf_bytes data -> checksum_reference a data = Some c -> 0 <= c < 2 ^ 32.
Proof.
  intros Hw H. destruct crc_poly_range as [Hc Hi]. destruct a; [discriminate|..]; apply Some_inj' in H; subst c;
    [apply zlib_adler32_range|by apply crc_reference_range..].
Qed.

Lemma checksum_reference_supported a data : a <> NONE_RESERVED -> exists c, checksum_reference a data = Some c.
Proof. destruct a; [done|eexists; reflexivity..]. Qed.

Lemma pack_trailer_Ok c : 0 <= c < 2 ^ 32 -> pack_trailer c = Ok (to_le 4 c).
Proof.
  intros Hc. unfold pack_trailer. cbn -[fits to_le]. rewrite (proj2 (fits_spec 4 c)) by (pow_lit; lia).
  cbn -[to_le]. by rewrite app_nil_r.
Qed.

Lemma unpack_trailer data end_ :
  (end_ + 4 <= length data)%nat -> unpack_from _TRAILER data end_ = Some (from_le (take 4 (drop end_ data)), tt).
Proof. intros H. unfold unpack_from. change (calcsize _TRAILER) with 4%nat. by rewrite (proj2 (Nat.leb_le _ _)) by lia. Qed.

Lemma uint_Ok name value bits v : 0 <= bits -> _uint name value bits = Ok v <-> v = value /\ 0 <= value < 2 ^ bits.
Proof.
  intros Hb. unfold _uint. rewrite reject_bind, negb_false_iff, andb_true_iff, !Z.leb_le, Z.shiftl_1_l.
  split; [intros [? H]; apply Ok_inj in H; lia|intros [-> ?]; split; [lia|done]].
Qed.

(** The two decoders agree on a whole frame. *)
Lemma decode_frame_buffered wire h :
  _decode_header wire 0 = Ok h -> header_wf h -> zlen wire = FrameHeader.total_length h ->
  decode_frame wire = _decode_buffered_frame wire 0 h.
Proof.
  intros Hh Hwf Hl. unfold decode_frame. rewrite Hh. cbn [mbind result_bind].
  rewrite (proj2 (Z.eqb_eq _ _)) by done. cbn [negb reject require mbind result_bind].
  unfold _decode_buffered_frame. cbv zeta. destruct (header_wf_bounds h Hwf) as (Hp & _).
  replace (Z.to_nat (HEADER_SIZE + FrameHeader.payload_length h))
    with (0 + Z.to_nat HEADER_SIZE + Z.to_nat (FrameHeader.payload_length h))%nat by (unfold HEADER_SIZE; lia).
  assert (Hs : forall e, slice 0 e wire = take e wire) by (intros e; unfold slice; by rewrite drop_0, Nat.sub_0_r).
  by rewrite Hs.
Qed.

(** ** What a frame on the wire is *)

Definition frame_on_wire (f : Frame) (wire : bytes) : Prop :=
  exists head, header_to_bytes (Frame.header f) = Ok head /\ header_wf (Frame.header f) /\
    wf_bytes (Frame.payload f) /\ zlen (Frame.payload f) = FrameHeader.payload_length (Frame.header f) /\
    checksum_reference (FrameHeader.checksum_algorithm (Frame.header f)) (head ++ Frame.payload f) = Some (Frame.checksum f) /\
    wire = head ++ Frame.payload f ++ to_le 4 (Frame.checksum f) /\
    _validate_payload (Frame.header f) (Frame.payload f) = Ok tt.

Lemma v1_frame_on_wire_size f wire :
  frame_on_wire f wire ->
  wf_bytes wire /\ zlen wire = FrameHeader.total_length (Frame.header f) /\ 48 <= zlen wire <= 4096.
Proof.
  intros (head & Hh & Hwf & Hwp & Hlp & _ & -> & _).
  destruct (v1_header_wf_to_bytes _ Hwf) as (head' & Hh' & Hw & Hl). assert (head' = head) as -> by congruence.
  split; [rewrite !wf_bytes_app; auto with daq|].
  destruct (header_wf_bounds _ Hwf) as (Hp & _ & _). destruct Hwf as (_ & _ & Ht & _).
  unfold zlen in *. rewrite !length_app, length_to_le. lia.
Qed.

(** The in-place decoder accepts exactly a right checksum on a valid payload. *)
Lemma v1_decode_buffered_iff wire h f :
  wf_bytes wire -> header_wf h -> zlen wire = FrameHeader.total_length h ->
  _decode_buffered_frame wire 0 h = Ok f <->
  exists body c, wire = body ++ to_le 4 c /\ checksum_reference (FrameHeader.checksum_algorithm h) body = Some c /\
    f = Frame.mk h (drop 44 body) c /\ _validate_payload h (drop 44 body) = Ok tt.
Proof.
  intros Hw Hwf Hl. destruct (header_wf_bounds h Hwf) as (Hp & _ & _).
  destruct Hwf as (_ & _ & Ht & _ & Hne & _). unfold zlen in Hl.
  set (e := (length wire - 4)%nat). assert (He : (e + 4 = length wire)%nat) by lia.
  assert (Hbody : wf_bytes (take e wire)) by auto with daq.
  unfold _decode_buffered_frame. cbv zeta. change (Z.to_nat HEADER_SIZE) with 44%nat.
  replace (0 + 44 + Z.to_nat (FrameHeader.payload_length h))%nat with e by lia.
  assert (Hs0 : slice 0 e wire = take e wire) by (unfold slice; by rewrite drop_0, Nat.sub_0_r).
  assert (Hs44 : slice (0 + 44) e wire = drop 44 (take e wire)).
  { unfold slice. cbn [Nat.add]. by rewrite skipn_firstn_comm. }
  rewrite Hs0, Hs44, compute_checksum_Ok by done. rewrite unpack_trailer by lia. cbn [of_option mbind result_bind].
  assert (Htl : take 4 (drop e wire) = drop e wire) by (apply take_ge; len). rewrite Htl.
  destruct (checksum_reference_supported _ (take e wire) Hne) as (c & Hc). rewrite Hc. cbn [of_option mbind result_bind].
  pose proof (checksum_reference_range _ _ _ Hbody Hc) as Hr. split.
  - intros H. apply require_bind in H as [Heq H]. apply Z.eqb_eq in Heq.
    apply bind_Ok_inv in H as ([] & Hv & H). apply Ok_inj in H. subst f. exists (take e wire), c.
    assert (Htr : to_le 4 c = drop e wire).
    { rewrite <-Heq. assert (Hl4 : length (drop e wire) = 4%nat) by len. rewrite <-Hl4 at 1. apply to_from_le. auto with daq. }
    rewrite Htr, take_drop, Heq. split; [done|]. split; [done|]. split; [done|]. exact Hv.
  - intros (body & c' & Hwire & Hc' & -> & Hv).
    assert (Hlb : length body = e) by (apply (f_equal length) in Hwire; len).
    assert (Htake : take e wire = body) by (rewrite Hwire; by apply take_app_exact).
    assert (Hdrop : drop e wire = to_le 4 c') by (rewrite Hwire; by apply drop_app_exact).
    rewrite Htake in *. assert (c' = c) as -> by congruence. rewrite Hdrop, from_to_le_small by (pow_lit; lia).
    rewrite Z.eqb_refl, Hv. done.
Qed.

Lemma decode_frame_iff wire f :
  wf_bytes wire -> decode_frame wire = Ok f <-> frame_on_wire f wire.
Proof.
  intros Hw. split.
  - intros H. pose proof H as H'. unfold decode_frame in H'. apply bind_Ok_inv in H' as (h & Hh & H').
    apply reject_bind in H' as [Ht _]. apply negb_false_iff, Z.eqb_eq in Ht.
    pose proof Hh as Hh'. apply v1_decode_header_iff in Hh' as (_ & Hwf & Hlen & Hb); [|done].
    change (Z.to_nat 0) with 0%nat in *. rewrite drop_0 in Hb. cbn [Nat.add] in Hlen.
    rewrite (decode_frame_buffered wire h Hh Hwf Ht) in H.
    apply v1_decode_buffered_iff in H as (body & c & Hwire & Hc & -> & Hv); [|done..].
    destruct (header_wf_bounds h Hwf) as (Hp & _). pose proof Hwf as (_ & _ & Htot & _).
    assert (Hlb : zlen body = FrameHeader.total_length h - 4).
    { apply (f_equal length) in Hwire. unfold zlen in *. rewrite length_app, length_to_le in Hwire. lia. }
    unfold zlen in Hlb. assert (Hhead : take 44 wire = take 44 body) by (rewrite Hwire; by rewrite take_app_le by lia).
    rewrite Hhead in Hb. exists (take 44 body). cbn [Frame.header Frame.payload Frame.checksum].
    assert (Hwb : wf_bytes body) by (rewrite Hwire in Hw; by apply wf_bytes_app in Hw as [? _]).
    rewrite take_drop. split; [done|]. split; [done|]. split; [auto with daq|].
    split; [unfold zlen; rewrite length_drop; lia|]. split; [done|]. split; [|done]. by rewrite app_assoc, take_drop.
  - intros Hf. destruct (v1_frame_on_wire_size f wire Hf) as (_ & Hz & Hl).
    destruct Hf as (head & Hh & Hwf & Hwp & Hlp & Hc & Hwire & Hv).
    destruct (v1_header_wf_to_bytes _ Hwf) as (head' & Hh' & Hwh & Hlh). assert (head' = head) as -> by congruence.
    assert (Htk : take 44 wire = head) by (rewrite Hwire; by apply take_app_exact).
    assert (Hdec : _decode_header wire 0 = Ok (Frame.header f)).
    { apply v1_decode_header_iff; [done|]. change (Z.to_nat 0) with 0%nat. rewrite drop_0, Htk.
      split; [done|]. split; [done|]. split; [unfold zlen in Hl; lia|done]. }
    rewrite (decode_frame_buffered wire _ Hdec Hwf Hz). apply v1_decode_buffered_iff; [done..|].
    exists (head ++ Frame.payload f), (Frame.checksum f). rewrite <-app_assoc. split; [done|]. split; [done|].
    rewrite drop_app_exact by done. split; [by destruct f|done].
Qed.

Lemma v1_frame_on_wire_to_bytes f wire : frame_on_wire f wire -> frame_to_bytes f = Ok wire.
Proof.
  intros (head & Hh & Hwf & Hwp & _ & Hc & -> & _). unfold frame_to_bytes. rewrite Hh. cbn [mbind result_bind].
  destruct (v1_header_wf_to_bytes _ Hwf) as (head' & Hh' & Hwh & _). assert (head' = head) as -> by congruence.
  rewrite pack_trailer_Ok by (eapply checksum_reference_range; [|exact Hc]; by apply wf_bytes_app). done.
Qed.

(** ** [encode_frame] *)

(** The algorithm an [encode_frame] call selects. *)
Definition selected_checksum (kind : FrameKind) (checksum_algorithm : option Z) : option ChecksumAlgorithm :=
  match checksum_algorithm with None => Some ADLER32 | Some a => enum_of a end.

Lemma uint_bind {A} name value bits (k : Z -> v1 A) x :
  0 <= bits -> (_uint name value bits ≫= k) = Ok x <-> 0 <= value < 2 ^ bits /\ k value = Ok x.
Proof.
  intros Hb. split.
  - intros H. apply bind_Ok_inv in H as (v & Hv & H). by apply uint_Ok in Hv as [-> ?].
  - intros [Hr H]. by rewrite (proj2 (uint_Ok name value bits value Hb) (conj eq_refl Hr)).
Qed.

Lemma encode_frame_iff kind payload flags algorithm run_id sequence request_id ticks count wire :
  wf_bytes payload ->
  encode_frame kind payload flags algorithm run_id sequence request_id ticks count = Ok wire <->
  exists f k a, kind = int_of k /\ selected_checksum k algorithm = Some a /\ frame_on_wire f wire /\
    Frame.payload f = payload /\
    Frame.header f = FrameHeader.mk k flags a (48 + zlen payload) (zlen payload) run_id sequence request_id ticks count 1 44.
Proof.
  intros Hw. unfold encode_frame. rewrite of_option_bind.
  assert (Hsel : forall k, match algorithm with
      | None => Ok (if _DATA_KINDS k then DEFAULT_CHECKSUM_ALGORITHM else BOOTSTRAP_CHECKSUM_ALGORITHM)
      | Some a => of_option (enum_of a) (UnsupportedChecksumError a) end
    = of_option (selected_checksum k algorithm) (UnsupportedChecksumError (default 0 algorithm))).
  { intros k. destruct algorithm as [a|]; [done|]. by destruct (_DATA_KINDS k). }
  replace (HEADER_SIZE + zlen payload + TRAILER_SIZE) with (48 + zlen payload) by (unfold HEADER_SIZE, TRAILER_SIZE; lia).
  split.
  - intros (k & Hk & H). rewrite Hsel, of_option_bind in H. destruct H as (a & Ha & H).
    rewrite !uint_bind in H by lia. destruct H as (Hf & Hr & Hs & Hq & Ht & Hc & H). cbv zeta in H.
    set (h := FrameHeader.mk k flags a (48 + zlen payload) (zlen payload) run_id sequence request_id ticks count
                PROTOCOL_VERSION HEADER_SIZE) in *.
    apply bind_Ok_inv in H as ([] & Hv & H). apply bind_Ok_inv in H as ([] & Hp & H).
    apply validate_header_ok in Hv; [|done|exact Hf|exact (conj Hr (conj Hs (conj Hq Ht)))].
    apply bind_Ok_inv in H as (head & Hh & H). destruct (v1_header_wf_to_bytes h Hv) as (head' & Hh' & Hwh & Hlh).
    assert (head' = head) as -> by congruence. assert (Hwb : wf_bytes (head ++ payload)) by (by apply wf_bytes_app).
    rewrite compute_checksum_Ok, of_option_bind in H by done. destruct H as (c & Hcs & H).
    rewrite pack_trailer_Ok in H by (by eapply checksum_reference_range). cbn [mbind result_bind] in H.
    apply Ok_inj in H. subst wire. exists (Frame.mk h payload c), k, a.
    split; [by apply enum_of_Some in Hk|]. split; [done|]. split; [|done].
    exists head. cbn [Frame.header Frame.payload Frame.checksum]. repeat (split; [done|]).
    split; [by rewrite app_assoc|done].
  - intros (f & k & a & -> & Ha & Hf & <- & Hh). exists k. split; [apply enum_of_int|].
    rewrite Hsel, of_option_bind. exists a. split; [done|].
    destruct Hf as (head & Hhead & Hwf & _ & Hlp & Hc & -> & Hv). destruct (header_wf_bounds _ Hwf) as (_ & Hfl & Hct).
    pose proof Hwf as (_ & _ & _ & (Hr & Hs & Hq & Ht) & _). rewrite Hh in Hfl, Hct, Hr, Hs, Hq, Ht.
    rewrite !uint_bind by lia. repeat (split; [done|]). cbv zeta. change PROTOCOL_VERSION with 1. change HEADER_SIZE with 44.
    rewrite <-Hh. destruct (header_wf_bounds _ Hwf) as (_ & Hfu & _).
    rewrite (proj2 (validate_header_ok (Frame.header f) tt (proj1 Hwf) Hfu (proj1 (proj2 (proj2 (proj2 Hwf))))) Hwf).
    cbn [mbind result_bind]. rewrite Hv. cbn [mbind result_bind]. rewrite Hhead. cbn [mbind result_bind].
    destruct (v1_header_wf_to_bytes _ Hwf) as (head' & Hh' & Hwh & _). assert (head' = head) as -> by congruence.
    assert (Hwb : wf_bytes (head ++ Frame.payload f)) by (by apply wf_bytes_app).
    rewrite Hh in Hc. cbn [FrameHeader.checksum_algorithm] in Hc.
    rewrite compute_checksum_Ok, Hc by done. cbn [of_option mbind result_bind].
    rewrite pack_trailer_Ok by (by eapply checksum_reference_range). cbn [mbind result_bind]. by rewrite app_assoc.
Qed.

(** ** Only validation errors *)

Lemma clean_decode_buffered data offset h :
  wf_bytes data -> header_wf h -> (offset + Z.to_nat (FrameHeader.total_length h) <= length data)%nat ->
  clean (_decode_buffered_frame data offset h).
Proof.
  intros Hw Hwf Hl. unfold _decode_buffered_frame. cbv zeta. change (Z.to_nat HEADER_SIZE) with 44%nat.
  destruct (header_wf_bounds h Hwf) as (Hp & _). pose proof Hwf as (_ & _ & Ht & _ & Hne & _).
  rewrite unpack_trailer by lia. cbn [of_option mbind result_bind].
  rewrite compute_checksum_Ok by auto with daq. apply raises_only_bind; [by apply raises_only_of_option|intros ? _].
  apply raises_only_bind; [by apply raises_only_require|intros ? _].
  by apply raises_only_bind; [apply clean_validate_payload|].
Qed.

Lemma clean_decode_frame wire : wf_bytes wire -> clean (decode_frame wire).
Proof.
  intros Hw. destruct (_decode_header wire 0) as [h|e] eqn:Hh.
  - pose proof Hh as Hh'. apply v1_decode_header_iff in Hh' as (_ & Hwf & _); [|done].
    destruct (Z.eqb_spec (zlen wire) (FrameHeader.total_length h)) as [Hl|Hl].
    + rewrite (decode_frame_buffered wire h Hh Hwf Hl). apply clean_decode_buffered; [done..|]. rewrite <-Hl. unfold zlen. lia.
    + unfold decode_frame. rewrite Hh. cbn [mbind result_bind]. by rewrite (proj2 (Z.eqb_neq _ _)).
  - unfold decode_frame. rewrite Hh. pose proof (clean_decode_header wire 0) as H. by rewrite Hh in H.
Qed.

(** Whatever it is given, the encoder raises validation errors only: its arguments are
    checked before anything is packed. *)
Lemma clean_encode_frame kind payload flags algorithm run_id sequence request_id ticks count :
  wf_bytes payload -> clean (encode_frame kind payload flags algorithm run_id sequence request_id ticks count).
Proof.
  intros Hw. unfold encode_frame. apply raises_only_bind; [by apply raises_only_of_option|intros k _].
  apply raises_only_bind; [destruct algorithm; [by apply raises_only_of_option|exact I]|intros a _].
  do 6 (apply raises_only_bind; [apply raises_only_bind; [apply clean_reject|done]|intros ? ?%uint_Ok; [|lia]]).
  cbv zeta. match goal with |- context [_validate_header ?x 0] => set (h := x) end.
  apply raises_only_bind; [apply clean_validate_header|intros u Hv].
  apply validate_header_ok in Hv; [|done|cbn; lia|repeat split; cbn; lia].
  apply raises_only_bind; [by apply clean_validate_payload|intros _ _].
  destruct (v1_header_wf_to_bytes h Hv) as (head & -> & Hwh & _). cbn [mbind result_bind].
  assert (Hwb : wf_bytes (head ++ payload)) by (by apply wf_bytes_app).
  rewrite compute_checksum_Ok by done. apply raises_only_bind; [by apply raises_only_of_option|intros c Hc].
  apply of_option_Ok_inv in Hc. by rewrite pack_trailer_Ok by (by eapply checksum_reference_range).
Qed.

(** ** The parser's interface laws *)

Lemma v1_decode_header_total data offset h :
  _decode_header data offset = Ok h ->
  FrameHeader.total_length h = 48 + FrameHeader.payload_length h /\ 48 <= FrameHeader.total_length h <= 4096.
Proof.
  intros H. unfold _decode_header in H. cbv zeta in H. apply bind_Ok_inv in H as (? & _ & H).
  apply bind_Ok_inv in H as (vs & _ & H).
  destruct vs as (magic & version & kind & flags & size & checksum & reserved & total & payload & run &
     sequence & request & ticks & count & []).
  rewrite !reject_bind, of_option_bind in H. destruct H as (_ & _ & k & _ & H).
  apply of_option_bind in H as (a & _ & H). apply bind_Ok_inv in H as (u & Hv & H). apply Ok_inj in H. subst h.
  cbn [FrameHeader.total_length FrameHeader.payload_length]. unfold _validate_header in Hv.
  apply bind_Ok_inv in Hv as (? & He & Hv). unfold check_envelope in He. cbv zeta in He.
  rewrite !reject_bind, !require_bind, !reject_bind, reject_Ok, !negb_false_iff, !Z.eqb_eq in He.
  destruct He as (_ & _ & _ & _ & _ & _ & Ht). cbn [FrameHeader.total_length FrameHeader.payload_length] in Ht.
  unfold HEADER_SIZE, TRAILER_SIZE in Ht. split; [lia|]. destruct (_DATA_KINDS _).
  - unfold check_data_header in Hv. cbv zeta in Hv. apply reject_bind in Hv as [Hv _].
    apply orb_false_iff in Hv as [Hv _]. cbn [FrameHeader.total_length] in Hv. unfold DATA_FRAME_BYTES in Hv. lia.
  - unfold check_control_header in Hv. apply reject_bind in Hv as [Hv _].
    cbn [FrameHeader.total_length] in Hv. unfold MIN_FRAME_BYTES, MAX_CONTROL_FRAME_BYTES in Hv. lia.
Qed.

Lemma v1_decode_header_slice data offset :
  (offset + 44 <= length data)%nat ->
  _decode_header data (Z.of_nat offset) = _decode_header (take 44 (drop offset data)) 0.
Proof.
  intros H. unfold _decode_header, unpack_from. rewrite v1_HEADER_SIZE_calc, Nat2Z.id. change (Z.to_nat 0) with 0%nat.
  assert (Hl : length (take 44 (drop offset data)) = 44%nat) by len.
  unfold zlen. rewrite Hl, !(proj2 (Nat.leb_le _ _)) by lia.
  rewrite !(proj2 (orb_false_iff _ _)) by (rewrite !Z.ltb_ge; unfold HEADER_SIZE; lia). rewrite drop_0.
  assert (Hu : unpack_fields HEADER_STRUCT_FORMAT (drop offset data) =
               unpack_fields HEADER_STRUCT_FORMAT (take 44 (drop offset data))).
  { pose proof (unpack_fields_app HEADER_STRUCT_FORMAT (take 44 (drop offset data))
      (drop 44 (drop offset data))) as He. rewrite take_drop in He. apply He.
    rewrite v1_HEADER_SIZE_calc. lia. }
  by rewrite Hu.
Qed.

Lemma slice_at (data : bytes) o a b n :
  (b <= n)%nat -> slice (o + a) (o + b) data = slice a b (take n (drop o data)).
Proof.
  intros Hb. unfold slice. rewrite skipn_firstn_comm, take_take, drop_drop. f_equal. lia.
Qed.

Lemma v1_decode_buffered_slice data offset h :
  FrameHeader.total_length h = 48 + FrameHeader.payload_length h -> 48 <= FrameHeader.total_length h ->
  let n := Z.to_nat (FrameHeader.total_length h) in
  (offset + n <= length data)%nat ->
  _decode_buffered_frame data offset h = _decode_buffered_frame (take n (drop offset data)) 0 h.
Proof.
  intros Ht Hn n Hl. unfold _decode_buffered_frame. cbv zeta. change (Z.to_nat HEADER_SIZE) with 44%nat.
  set (p := Z.to_nat (FrameHeader.payload_length h)). assert (Hnp : n = (48 + p)%nat) by lia.
  rewrite !unpack_trailer by (rewrite ?length_take, ?length_drop; lia).
  replace (offset + 44 + p)%nat with (offset + (44 + p))%nat by lia.
  rewrite (slice_at data offset 44 (44 + p) n) by lia.
  assert (Hs : slice offset (offset + (44 + p)) data = slice 0 (44 + p) (take n (drop offset data))).
  { rewrite <-(slice_at data offset 0 (44 + p) n) by lia. f_equal. lia. }
  rewrite Hs.
  assert (Hd : take 4 (drop (offset + (44 + p)) data) = take 4 (drop (0 + 44 + p) (take n (drop offset data)))).
  { rewrite skipn_firstn_comm, take_take, drop_drop. f_equal; try lia; f_equal; lia. }
  by rewrite Hd.
Qed.

#[export] Instance v1_codec_laws : FrameCodecLaws v1_codec.
Proof.
  split.
  - discriminate.
  - vm_compute. lia.
  - vm_compute. lia.
  - intros data offset h. cbn. intros Hd. apply sorted_by_Ok, v1_decode_header_total in Hd. change (Z.to_nat HEADER_SIZE) with 44%nat.
    change _MAX_FRAME_BYTES with 4096. lia.
  - intros data offset Hl. cbn. by rewrite (v1_decode_header_slice data offset Hl).
  - intros data offset h Hd Hl. cbn [Incremental.decode_header Incremental.decode_frame total_length header_size v1_codec] in *.
    apply sorted_by_Ok, v1_decode_header_total in Hd as [Ht Hb].
    pose proof (v1_decode_buffered_slice data offset h Ht (proj1 Hb) Hl) as E. cbv zeta in E. by rewrite E.
  - intros data offset exception _. apply (sorted_by_caught _ is_frame_error); [by intros []|apply clean_decode_header].
  - intros data offset h exception Hw Hd Hl. cbn [Incremental.decode_header Incremental.decode_frame total_length v1_codec] in *.
    apply sorted_by_Ok in Hd. apply v1_decode_header_iff in Hd as (_ & Hwf & _); [|done].
    apply (sorted_by_caught _ is_frame_error); [by intros []|by apply clean_decode_buffered].
Qed.

(** A frame on the wire is a complete frame for the parser. *)
Lemma v1_frame_complete wire f : wf_bytes wire -> decode_frame wire = Ok f -> complete_frame wire f.
Proof.
  intros Hw H. pose proof H as Hf. apply decode_frame_iff in Hf; [|done].
  destruct (v1_frame_on_wire_size f wire Hf) as (_ & Hz & Hl).
  destruct Hf as (head & Hhead & Hwf & _ & _ & _ & Hwire & _).
  destruct (v1_header_wf_to_bytes _ Hwf) as (head' & Hh' & _ & Hlh). assert (head' = head) as -> by congruence.
  assert (Hdec : _decode_header wire 0 = Ok (Frame.header f)).
  { apply v1_decode_header_iff; [done|]. change (Z.to_nat 0) with 0%nat. rewrite drop_0.
    split; [done|]. split; [done|]. split; [unfold zlen in Hl; lia|]. by rewrite Hwire, take_app_exact. }
  split.
  - rewrite Hwire. apply starts_with_spec. unfold header_to_bytes in Hhead. apply of_option_Ok_inv in Hhead.
    unfold header_fields in Hhead. change HEADER_STRUCT_FORMAT with (U32 :: drop 1 HEADER_STRUCT_FORMAT) in Hhead.
    cbn [pack] in Hhead. apply bind_Some in Hhead as (b1 & Hb1 & Hhead).
    apply bind_Some in Hhead as (b2 & _ & Hhead). apply Some_inj' in Hhead. subst head.
    assert (b1 = MAGIC_BYTES) as -> by (vm_compute in Hb1; injection Hb1 as <-; done).
    rewrite <-app_assoc. by eexists.
  - unfold zlen in Hz, Hl. split; [cbn [header_size v1_codec]; unfold HEADER_SIZE; lia|].
    exists (Frame.header f). cbn [Incremental.decode_header Incremental.decode_frame total_length v1_codec]. change (Z.of_nat 0) with 0.
    rewrite Hdec. split; [done|]. split; [lia|]. rewrite <-(decode_frame_buffered wire _ Hdec Hwf Hz). by rewrite H.
Qed.

(** ** Corruption *)

(** A header's checksum identifier is its eleventh byte. *)
Lemma header_algorithm_byte h b :
  header_wf h -> header_to_bytes h = Ok b -> b !! 10%nat = Some (int_of (FrameHeader.checksum_algorithm h)).
Proof.
  intros Hwf Hb. destruct (v1_header_wf_to_bytes h Hwf) as (b' & Hb' & Hw & Hl). assert (b' = b) as -> by congruence.
  unfold header_to_bytes in Hb. apply of_option_Ok_inv in Hb.
  pose proof (unpack_fields_pack HEADER_STRUCT_FORMAT _ b [] (v1_header_wf_fields h Hwf) Hb) as Hu.
  rewrite app_nil_r in Hu. unfold HEADER_STRUCT_FORMAT in Hu.
  cbn [unpack_fields header_fields funpack fsize] in Hu. rewrite !drop_drop in Hu.
  assert (Ha : from_le (take 1 (drop 10 b)) = int_of (FrameHeader.checksum_algorithm h)).
  { unfold header_fields in Hu. cbn [Nat.add] in Hu. congruence. }
  destruct (lookup_lt_is_Some_2 b 10%nat ltac:(lia)) as [x Hx]. by rewrite (byte_field b 10 x Hx) in Ha; subst.
Qed.

Lemma frame_algorithm_byte f wire :
  frame_on_wire f wire -> wire !! 10%nat = Some (int_of (FrameHeader.checksum_algorithm (Frame.header f))).
Proof.
  intros (head & Hh & Hwf & _ & _ & _ & -> & _). destruct (v1_header_wf_to_bytes _ Hwf) as (head' & Hh' & _ & Hl).
  assert (head' = head) as -> by congruence. rewrite lookup_app_l by lia. by apply header_algorithm_byte.
Qed.

(** Two frames that differ in one byte select different checksums. *)
Lemma frames_differ pre post b b' f g :
  b <> b' -> frame_on_wire f (pre ++ b :: post) -> frame_on_wire g (pre ++ b' :: post) ->
  FrameHeader.checksum_algorithm (Frame.header f) <> FrameHeader.checksum_algorithm (Frame.header g).
Proof.
  intros Hne Hf Hg Ha. destruct (v1_frame_on_wire_size _ _ Hf) as (Hw & _ & _).
  destruct (v1_frame_on_wire_size _ _ Hg) as (Hw' & _ & _).
  destruct Hf as (h1 & Hh1 & Hwf1 & Hp1 & _ & Hc1 & Hw1 & _), Hg as (h2 & Hh2 & Hwf2 & Hp2 & _ & Hc2 & Hw2 & _).
  destruct (v1_header_wf_to_bytes _ Hwf1) as (h1' & Hh1' & Hwh1 & _). assert (h1' = h1) as -> by congruence.
  destruct (v1_header_wf_to_bytes _ Hwf2) as (h2' & Hh2' & Hwh2 & _). assert (h2' = h2) as -> by congruence.
  rewrite app_assoc in Hw1, Hw2. rewrite <-Ha in Hc2.
  assert (Hb1 : wf_bytes (h1 ++ Frame.payload f)) by (by apply wf_bytes_app).
  assert (Hb2 : wf_bytes (h2 ++ Frame.payload g)) by (by apply wf_bytes_app).
  pose proof (checksum_reference_range _ _ _ Hb1 Hc1) as Hr1. pose proof (checksum_reference_range _ _ _ Hb2 Hc2) as Hr2.
  destruct (single_byte_trailer _ _ _ _ _ _ _ _ Hne Hr1 Hr2 Hw1 Hw2) as [(He & Hx)|(rest & H1 & H2 & He & _)].
  - apply Hx. rewrite He in Hc1. congruence.
  - rewrite H1 in Hc1, Hb1. rewrite H2 in Hc2, Hb2. rewrite <-He in Hc2.
    apply wf_bytes_app in Hb1 as [Hpre Hb1], Hb2 as [_ Hb2]. inversion Hb1; subst. inversion Hb2; subst.
    by eapply (checksum_single_byte _ pre b b' rest).
Qed.

(** ** Claims *)

(** The protocol-v1 frame decoder accepts exactly the frames of the wire format: a
    well-formed header, a payload its kind allows, and the checksum the header selects
    over both; and a frame it returns encodes back to the bytes read. *)
Theorem decode_frame_exact (wire : bytes) (f : Frame) (Hw : wf_bytes wire) :
  (decode_frame wire = Ok f <-> frame_on_wire f wire) /\
  (decode_frame wire = Ok f -> frame_to_bytes f = Ok wire).
Proof.
  split; [by apply decode_frame_iff|]. intros H. by apply v1_frame_on_wire_to_bytes, decode_frame_iff.
Qed.

(** C22. [encode_frame] succeeds exactly on the arguments of a frame of the wire format,
    and what it writes decodes to those arguments: defaults and explicit checksums,
    data and control frames alike. *)
Theorem encode_frame_exact (kind : Z) (payload : bytes) (flags : Z) (algorithm : option Z)
    (run_id sequence request_id ticks count : Z) (wire : bytes) (Hw : wf_bytes payload) :
  encode_frame kind payload flags algorithm run_id sequence request_id ticks count = Ok wire <->
  wf_bytes wire /\
  exists k a c, kind = int_of k /\ selected_checksum k algorithm = Some a /\
    decode_frame wire = Ok (Frame.mk (FrameHeader.mk k flags a (48 + zlen payload) (zlen payload) run_id sequence
                                       request_id ticks count 1 44) payload c).
Proof.
  rewrite encode_frame_iff by done. split.
  - intros (f & k & a & Hk & Ha & Hf & Hp & Hh). destruct (v1_frame_on_wire_size f wire Hf) as (Hww & _). split; [done|].
    exists k, a, (Frame.checksum f). split; [done|]. split; [done|]. apply decode_frame_iff; [done|].
    rewrite <-Hh, <-Hp. by destruct f.
  - intros (Hww & k & a & c & Hk & Ha & Hd). apply decode_frame_iff in Hd; [|done].
    eexists _, k, a. split; [done|]. split; [done|]. split; [exact Hd|]. done.
Qed.

(** On arbitrary bytes the decoder returns a frame or raises [FrameValidationError] (or
    a subclass): no index, lookup, division or unpacking of its payload validators
    fails. *)
Theorem decode_frame_fails_cleanly (wire : bytes) (Hw : wf_bytes wire) :
  (exists f, decode_frame wire = Ok f) \/
  (exists e code, decode_frame wire = Err e /\ error_code_of e = Some code).
Proof.
  pose proof (clean_decode_frame wire Hw) as Hc. destruct (decode_frame wire) as [f|e]; [eauto|].
  right. exists e. destruct e; cbn in *; try discriminate; eauto.
Qed.

(** C35. A single corrupted byte of a valid frame is detected, whichever checksum the
    frame selects, unless it is the byte that selects the checksum. *)
Theorem corruption_detected (pre post : bytes) (b b' : Z) (f g : Frame)
    (Hw : wf_bytes (pre ++ b :: post)) (Hb : is_byte b') (Hne : b <> b') (Hpos : length pre <> 10%nat)
    (Hdec : decode_frame (pre ++ b :: post) = Ok f) :
  decode_frame (pre ++ b' :: post) <> Ok g.
Proof.
  intros Hdec'. assert (Hw' : wf_bytes (pre ++ b' :: post)).
  { apply wf_bytes_app in Hw as [Hx Hy]. inversion Hy. apply wf_bytes_app. split; [done|by constructor]. }
  apply decode_frame_iff in Hdec, Hdec'; [|done..].
  apply (frames_differ pre post b b' f g Hne Hdec Hdec').
  apply frame_algorithm_byte in Hdec, Hdec'. apply int_of_inj.
  assert (Hsame : (pre ++ b :: post) !! 10%nat = (pre ++ b' :: post) !! 10%nat).
  { destruct (decide (10 < length pre)%nat); [by rewrite !lookup_app_l by lia|].
    rewrite !lookup_app_r by lia. by destruct (10 - length pre)%nat eqn:E; [lia|]. }
  congruence.
Qed.
End Codec.

(** ** Witnesses: a PING command and an ADC data frame under CRC-32C. *)

Definition ping_wire : bytes :=
  Eval vm_compute in match encode_frame true 22 [1; 2; 3; 4; 5; 6; 7; 8] 0 None 0 0 9 0 0 with Ok w => w | Err _ => [] end.

Definition adc_wire : bytes :=
  Eval vm_compute in
  match encode_frame true 1 (replicate 4048 7) 3 (Some 2) 5 1 0 8096 1012 with Ok w => w | Err _ => [] end.

Definition decoded (wire : bytes) : Frame :=
  match decode_frame true wire with
  | Ok f => f
  | Err _ => Frame.mk (FrameHeader.mk FrameKind.ADC_DATA 0 NONE_RESERVED 0 0 0 0 0 0 0 0 0) [] 0
  end.

Example adc_wire_refused_codes :
  encode_frame true 1 (replicate 4048 16) 3 (Some 2) 5 1 0 8096 1012 =
  Err (invalid "ADC payload contains out-of-range codes").
Proof. vm_compute. reflexivity. Qed.

Lemma ping_wire_wf : wf_bytes ping_wire.
Proof. apply (bool_decide_unpack _). vm_compute. exact I. Qed.
Lemma adc_wire_wf : wf_bytes adc_wire.
Proof. apply (bool_decide_unpack _). vm_compute. exact I. Qed.
Lemma ping_decodes : decode_frame true ping_wire = Ok (decoded ping_wire).
Proof. vm_compute. reflexivity. Qed.
Lemma adc_decodes : decode_frame true adc_wire = Ok (decoded adc_wire).
Proof. vm_compute. reflexivity. Qed.

Lemma decode_frame_exact_witness :
  wf_bytes adc_wire /\ frame_on_wire (decoded adc_wire) adc_wire /\ frame_to_bytes (decoded adc_wire) = Ok adc_wire.
Proof.
  split; [exact adc_wire_wf|]. destruct (decode_frame_exact true adc_wire (decoded adc_wire) adc_wire_wf) as [H1 H2].
  split; [exact (proj1 H1 adc_decodes)|exact (H2 adc_decodes)].
Defined.

Lemma encode_frame_exact_witness :
  encode_frame true 22 [1; 2; 3; 4; 5; 6; 7; 8] 0 None 0 0 9 0 0 = Ok ping_wire /\ wf_bytes ping_wire.
Proof.
  assert (Hw : wf_bytes [1; 2; 3; 4; 5; 6; 7; 8]) by (apply (bool_decide_unpack _); vm_compute; exact I).
  assert (He : encode_frame true 22 [1; 2; 3; 4; 5; 6; 7; 8] 0 None 0 0 9 0 0 = Ok ping_wire) by (vm_compute; reflexivity).
  split; [exact He|]. exact (proj1 (proj1 (encode_frame_exact true 22 _ 0 None 0 0 9 0 0 ping_wire Hw) He)).
Defined.

Lemma decode_frame_fails_cleanly_witness :
  wf_bytes [239; 190; 173; 222] /\
  ((exists f, decode_frame true [239; 190; 173; 222] = Ok f) \/
   (exists e code, decode_frame true [239; 190; 173; 222] = Err e /\ error_code_of e = Some code)).
Proof.
  assert (Hw : wf_bytes [239; 190; 173; 222]) by (apply (bool_decide_unpack _); vm_compute; exact I).
  split; [exact Hw|]. exact (decode_frame_fails_cleanly true _ Hw).
Defined.

Lemma corruption_detected_witness :
  decode_frame true (take 100 adc_wire ++ 7 :: drop 101 adc_wire) = Ok (decoded adc_wire) /\
  decode_frame true (take 100 adc_wire ++ 5 :: drop 101 adc_wire) <> Ok (decoded adc_wire).
Proof.
  assert (Hd : decode_frame true (take 100 adc_wire ++ 7 :: drop 101 adc_wire) = Ok (decoded adc_wire))
    by (vm_compute; reflexivity).
  split; [exact Hd|]. apply (corruption_detected true _ _ 7 5 (decoded adc_wire)).
  - apply (bool_decide_unpack _). vm_compute. exact I.
  - unfold is_byte. lia.
  - discriminate.
  - discriminate.
  - exact Hd.
Defined.
