(* ===== verification/V2Constants.v ===== *)
(** * Public protocol-v2 constants ([_generated/protocol_v2_constants.py]).

    The scalars, enumerations and wire tables that [protocol_v2.py] reads.  The
    enumerations whose members and values did not change since version 1 are
    aliased, as is [RateProfile], which [Profiles] declares together with the tables
    [AUX_BANK_LAYOUTS] and [RATE_PROFILE_TIMING]. *)

From S2P Require Import Prelude PyStruct Checksum Profiles.
From S2P Require V3Constants V1Constants.

(** ** Scalars *)

Definition MAGIC : Z := 3735928559.
Definition MAGIC_BYTES : bytes := [239; 190; 173; 222].
Definition PROTOCOL_VERSION : Z := 2.
Definition HEADER_STRUCT_FORMAT : list fcode := Eval vm_compute in struct_format "<IBBHHBBIIIIIQI".
Definition HEADER_SIZE : Z := 44.
Definition TRAILER_SIZE : Z := 4.
Definition MIN_FRAME_BYTES : Z := 48.
Definition DATA_FRAME_BYTES : Z := 4096.
Definition MAX_DATA_FRAME_BYTES : Z := 4096.
Definition MAX_CONTROL_FRAME_BYTES : Z := 1536.
Definition MAX_COMMAND_FRAME_BYTES : Z := 64.
Definition TIMESTAMP_HZ : Z := 8000000.
Definition ADC_PAIR_RATE_HZ : Z := 1000000.
Definition GPIO_SAMPLE_RATE_HZ : Z := 4000000.
Definition GPIO_XBAR_INPUT : Z := 56.
Definition GPIO_XBAR_OUTPUT : Z := 0.
Definition GPIO_EDMA_CHANNEL : Z := 2.
Definition GPIO_DMAMUX_SOURCE : Z := 30.
Definition KNOWN_CAPABILITY_MASK : Z := 2047.
Definition RUNTIME_HEALTH_RESPONSE_PAYLOAD_SIZE : Z := 32.
Definition TEMPERATURE_RESPONSE_PAYLOAD_SIZE : Z := 12.
Definition RATE_PROFILE_INFO_PAYLOAD_SIZE : Z := 48.
Definition CONFIGURE_REQUEST_PAYLOAD_SIZE : Z := 16.
Definition CONFIGURE_RESPONSE_PAYLOAD_SIZE : Z := 20.
Definition ERROR_RESPONSE_PAYLOAD_SIZE : Z := 8.
Definition SUPPORTED_AUX_BANK_MODE_MASK : Z := 3.
Definition SUPPORTED_RATE_PROFILE_MASK : Z := 31.
Definition AUX_GPIO_PORT_BITS_BY_WIRE_BIT : list Z := [23; 22; 17; 16; 26; 27; 24; 25].
Definition PRIMARY_GPIO_CAPTURE_MASK : Z := 199695.
Definition AUX_GPIO_CAPTURE_MASK : Z := 264437760.
Definition PRIMARY_GPIO_STANDARD_PORT : Z := 2.
Definition AUX_GPIO_STANDARD_PORT : Z := 1.
Definition PRIMARY_GPIO_FAST_PORT : Z := 7.
Definition AUX_GPIO_FAST_PORT : Z := 6.
Definition PRIMARY_GPIO_FAST_SELECT_GPR : Z := 27.
Definition AUX_GPIO_FAST_SELECT_GPR : Z := 26.
Definition AUX_GPIO_XBAR_OUTPUT : Z := 1.
Definition AUX_GPIO_DMAMUX_SOURCE : Z := 31.
Definition AUX_GPIO_EDMA_CHANNEL : Z := 3.
Definition AUX_GPIO_RAW_RING_DEPTH : Z := 4.
Definition GPIO_RAW_WORD_BYTES_PER_BANK : Z := 4.

(** ** Payload offsets *)

Definition HEADER_VERSION_OFFSET : Z := 4.
Definition RATE_PROFILE_INFO_RATE_PROFILE_OFFSET : Z := 0.
Definition RATE_PROFILE_INFO_ADC_ETC_PREDIVIDER_OFFSET : Z := 1.
Definition RATE_PROFILE_INFO_ADC_ETC_CHAIN_LENGTH_OFFSET : Z := 2.
Definition RATE_PROFILE_INFO_RESERVED_OFFSET : Z := 3.
Definition RATE_PROFILE_INFO_ADC_PAIR_RATE_HZ_OFFSET : Z := 4.
Definition RATE_PROFILE_INFO_GPIO_SAMPLE_RATE_HZ_OFFSET : Z := 8.
Definition RATE_PROFILE_INFO_ADC_PAIR_PERIOD_TICKS_OFFSET : Z := 12.
Definition RATE_PROFILE_INFO_ADC1_PHASE_TICKS_OFFSET : Z := 14.
Definition RATE_PROFILE_INFO_GPIO_SAMPLE_PERIOD_TICKS_OFFSET : Z := 16.
Definition RATE_PROFILE_INFO_GPIO_MASTER_PIT_DIVIDER_OFFSET : Z := 18.
Definition RATE_PROFILE_INFO_GPIO_MASTER_PIT_LOAD_OFFSET : Z := 20.
Definition RATE_PROFILE_INFO_ADC_PAIR_PIT_DIVIDER_OFFSET : Z := 22.
Definition RATE_PROFILE_INFO_ADC_PAIR_PIT_LOAD_OFFSET : Z := 24.
Definition RATE_PROFILE_INFO_ADC0_INITIAL_DELAY_OFFSET : Z := 26.
Definition RATE_PROFILE_INFO_ADC1_INITIAL_DELAY_OFFSET : Z := 28.
Definition RATE_PROFILE_INFO_ADC0_EFFECTIVE_DELAY_OFFSET : Z := 30.
Definition RATE_PROFILE_INFO_ADC1_EFFECTIVE_DELAY_OFFSET : Z := 32.
Definition RATE_PROFILE_INFO_ADC1_PHASE_IPG_CYCLES_OFFSET : Z := 34.
Definition RATE_PROFILE_INFO_COMPLETION_EXPECTED_DWT_CYCLES_OFFSET : Z := 36.
Definition RATE_PROFILE_INFO_DISABLED_FRAME_COVERAGE_TICKS_OFFSET : Z := 40.
Definition RATE_PROFILE_INFO_INPUT_FRAME_COVERAGE_TICKS_OFFSET : Z := 44.
Definition INFO_RESPONSE_RESERVED_0_OFFSET : Z := 1.
Definition INFO_RESPONSE_PROTOCOL_VERSION_OFFSET : Z := 5.
Definition INFO_RESPONSE_CAPABILITY_BITS_OFFSET : Z := 12.
Definition INFO_RESPONSE_TIMESTAMP_HZ_OFFSET : Z := 16.
Definition INFO_RESPONSE_DATA_FRAME_BYTES_OFFSET : Z := 20.
Definition INFO_RESPONSE_MAX_CONTROL_FRAME_BYTES_OFFSET : Z := 24.
Definition INFO_RESPONSE_ADC_PAIR_RATE_HZ_OFFSET : Z := 28.
Definition INFO_RESPONSE_GPIO_SAMPLE_RATE_HZ_OFFSET : Z := 32.
Definition INFO_RESPONSE_ADC_PAIR_PERIOD_TICKS_OFFSET : Z := 36.
Definition INFO_RESPONSE_ADC1_PHASE_TICKS_OFFSET : Z := 38.
Definition INFO_RESPONSE_GPIO_SAMPLE_PERIOD_TICKS_OFFSET : Z := 40.
Definition INFO_RESPONSE_GPIO_PIN_COUNT_OFFSET : Z := 44.
Definition INFO_RESPONSE_GPIO_PIN_MAP_OFFSET : Z := 46.
Definition INFO_RESPONSE_GPIO_PIN_MAP_COUNT : Z := 8.
Definition INFO_RESPONSE_RESERVED_2_OFFSET : Z := 61.
Definition INFO_RESPONSE_GPIO_PACKED_WIDTH_BITS_OFFSET : Z := 98.
Definition INFO_RESPONSE_RESERVED_3_OFFSET : Z := 118.
Definition INFO_RESPONSE_RESERVED_4_OFFSET : Z := 127.
Definition INFO_RESPONSE_RESERVED_5_OFFSET : Z := 154.
Definition INFO_RESPONSE_RESERVED_6_OFFSET : Z := 182.
Definition INFO_RESPONSE_ADC_TRIGGER_DWT_CLOCK_HZ_OFFSET : Z := 192.
Definition INFO_RESPONSE_RESERVED_7_OFFSET : Z := 230.
Definition INFO_RESPONSE_DATA_PAYLOAD_BYTES_OFFSET : Z := 328.
Definition INFO_RESPONSE_ADC_PAIRS_PER_FRAME_OFFSET : Z := 330.
Definition INFO_RESPONSE_GPIO_SAMPLES_PER_FRAME_OFFSET : Z := 332.
Definition INFO_RESPONSE_RESERVED_8_OFFSET : Z := 334.
Definition INFO_RESPONSE_FRAME_COVERAGE_TICKS_OFFSET : Z := 336.
Definition INFO_RESPONSE_SUPPORTED_RATE_PROFILE_MASK_OFFSET : Z := 376.
Definition INFO_RESPONSE_SELECTED_RATE_PROFILE_OFFSET : Z := 377.
Definition INFO_RESPONSE_SUPPORTED_AUX_BANK_MODE_MASK_OFFSET : Z := 378.
Definition INFO_RESPONSE_APPLIED_AUX_BANK_MODE_OFFSET : Z := 379.
Definition INFO_RESPONSE_GPIO_ITEM_BYTES_OFFSET : Z := 380.
Definition INFO_RESPONSE_AUX_GPIO_PIN_COUNT_OFFSET : Z := 381.
Definition INFO_RESPONSE_RATE_PROFILE_COUNT_OFFSET : Z := 382.
Definition INFO_RESPONSE_RESERVED_9_OFFSET : Z := 383.
Definition INFO_RESPONSE_AUX_GPIO_PIN_MAP_OFFSET : Z := 384.
Definition INFO_RESPONSE_AUX_GPIO_PIN_MAP_COUNT : Z := 8.
Definition INFO_RESPONSE_AUX_GPIO_PORT_BITS_OFFSET : Z := 392.
Definition INFO_RESPONSE_AUX_GPIO_PORT_BITS_COUNT : Z := 8.
Definition INFO_RESPONSE_AUX_GPIO_STANDARD_PORT_OFFSET : Z := 400.
Definition INFO_RESPONSE_AUX_GPIO_FAST_PORT_OFFSET : Z := 401.
Definition INFO_RESPONSE_AUX_GPIO_FAST_SELECT_GPR_OFFSET : Z := 402.
Definition INFO_RESPONSE_GPIO_RAW_WORD_BYTES_OFFSET : Z := 403.
Definition INFO_RESPONSE_AUX_GPIO_CAPTURE_MASK_OFFSET : Z := 404.
Definition INFO_RESPONSE_PRIMARY_GPIO_STANDARD_PORT_OFFSET : Z := 408.
Definition INFO_RESPONSE_PRIMARY_GPIO_FAST_PORT_OFFSET : Z := 409.
Definition INFO_RESPONSE_PRIMARY_GPIO_FAST_SELECT_GPR_OFFSET : Z := 410.
Definition INFO_RESPONSE_RESERVED_10_OFFSET : Z := 411.
Definition INFO_RESPONSE_PRIMARY_GPIO_CAPTURE_MASK_OFFSET : Z := 412.
Definition INFO_RESPONSE_PRIMARY_GPIO_EDMA_CHANNEL_OFFSET : Z := 416.
Definition INFO_RESPONSE_AUX_GPIO_EDMA_CHANNEL_OFFSET : Z := 417.
Definition INFO_RESPONSE_PRIMARY_GPIO_DMAMUX_SOURCE_OFFSET : Z := 418.
Definition INFO_RESPONSE_AUX_GPIO_DMAMUX_SOURCE_OFFSET : Z := 419.
Definition INFO_RESPONSE_PRIMARY_GPIO_XBAR_OUTPUT_OFFSET : Z := 420.
Definition INFO_RESPONSE_AUX_GPIO_XBAR_OUTPUT_OFFSET : Z := 421.
Definition INFO_RESPONSE_PAIRED_GPIO_XBAR_INPUT_OFFSET : Z := 422.
Definition INFO_RESPONSE_AUX_GPIO_RAW_RING_DEPTH_OFFSET : Z := 429.
Definition INFO_RESPONSE_PAIRED_GPIO_JOIN_REQUIRED_OFFSET : Z := 430.
Definition INFO_RESPONSE_RESERVED_11_OFFSET : Z := 431.
Definition INFO_RESPONSE_DISABLED_ADC_PAIRS_PER_FRAME_OFFSET : Z := 432.
Definition INFO_RESPONSE_DISABLED_GPIO_SAMPLES_PER_FRAME_OFFSET : Z := 434.
Definition INFO_RESPONSE_INPUT_ADC_PAIRS_PER_FRAME_OFFSET : Z := 436.
Definition INFO_RESPONSE_INPUT_GPIO_SAMPLES_PER_FRAME_OFFSET : Z := 438.
Definition INFO_RESPONSE_RATE_PROFILES_OFFSET : Z := 440.
Definition STATUS_RESPONSE_PROTOCOL_VERSION_OFFSET : Z := 1228.
Definition STATUS_RESPONSE_AUX_BANK_MODE_OFFSET : Z := 1229.
Definition STATUS_RESPONSE_RATE_PROFILE_OFFSET : Z := 1230.
Definition STATUS_RESPONSE_GPIO_ITEM_BYTES_OFFSET : Z := 1231.
Definition STATUS_RESPONSE_RESERVED_4_OFFSET : Z := 1260.
Definition CHECKSUM_BENCHMARK_RESPONSE_CYCLE_COUNTER_HZ_OFFSET : Z := 16.
Definition GPIO_CLOCK_DIAGNOSTIC_RESPONSE_DWT_COUNTER_HZ_OFFSET : Z := 32.
Definition GPIO_CAPTURE_DIAGNOSTIC_RESPONSE_BANK_COUNT_OFFSET : Z := 144.
Definition GPIO_CAPTURE_DIAGNOSTIC_RESPONSE_AUX_BANK_MODE_OFFSET : Z := 145.
Definition GPIO_CAPTURE_DIAGNOSTIC_RESPONSE_SELECTED_RATE_PROFILE_OFFSET : Z := 146.
Definition GPIO_CAPTURE_DIAGNOSTIC_RESPONSE_AUX_ELECTRICALLY_UNSTIMULATED_OFFSET : Z := 147.
Definition GPIO_CAPTURE_DIAGNOSTIC_RESPONSE_AUX_EXTERNAL_TRANSITION_CHECKS_RUN_OFFSET : Z := 148.
Definition GPIO_CAPTURE_DIAGNOSTIC_RESPONSE_RESERVED_3_OFFSET : Z := 149.
Definition GPIO_CAPTURE_DIAGNOSTIC_RESPONSE_RESERVED_4_OFFSET : Z := 150.
Definition GPIO_CAPTURE_DIAGNOSTIC_RESPONSE_RESERVED_5_OFFSET : Z := 255.

(** ** Enumerations *)

Module ErrorCode := V1Constants.ErrorCode.
Abbreviation ErrorCode := ErrorCode.ErrorCode.
Module ResponseStatus := V1Constants.ResponseStatus.
Abbreviation ResponseStatus := ResponseStatus.ResponseStatus.
Module Source := V1Constants.Source.
Abbreviation Source := Source.Source.
Module FrameFlag := V1Constants.FrameFlag.
Module StreamMask := V1Constants.StreamMask.
Module AuxBankMode := V3Constants.AuxBankMode.
Abbreviation AuxBankMode := AuxBankMode.AuxBankMode.
Module RateProfile := Profiles.V2RateProfile.
Abbreviation RateProfile := RateProfile.RateProfile.

Module FrameKind.
Inductive FrameKind :=
  | ADC_DATA | GPIO_DATA | INFO_REQUEST | CONFIGURE_REQUEST | START_REQUEST |
  GET_STATUS_REQUEST | STOP_REQUEST | RESET_STATS_REQUEST | PING_REQUEST |
  CHECKSUM_BENCHMARK_REQUEST | GPIO_CLOCK_DIAGNOSTIC_REQUEST | GPIO_CAPTURE_DIAGNOSTIC_REQUEST
  | INFO_RESPONSE | CONFIGURE_RESPONSE | START_RESPONSE | GET_STATUS_RESPONSE | STOP_RESPONSE |
  RESET_STATS_RESPONSE | PING_RESPONSE | CHECKSUM_BENCHMARK_RESPONSE |
  GPIO_CLOCK_DIAGNOSTIC_RESPONSE | GPIO_CAPTURE_DIAGNOSTIC_RESPONSE | ERROR_RESPONSE |
  GET_TEMPERATURE_REQUEST | GET_TEMPERATURE_RESPONSE | GET_RUNTIME_HEALTH_REQUEST |
  GET_RUNTIME_HEALTH_RESPONSE.
#[global] Instance FrameKind_eq_dec : EqDecision FrameKind.
Proof. solve_decision. Defined.
#[global] Instance FrameKind_enum : IntEnum FrameKind.
Proof.
  refine {|
    int_of a := match a with
      | ADC_DATA => 1 | GPIO_DATA => 2 | INFO_REQUEST => 16 | CONFIGURE_REQUEST => 17 |
      START_REQUEST => 18 | GET_STATUS_REQUEST => 19 | STOP_REQUEST => 20 | RESET_STATS_REQUEST
      => 21 | PING_REQUEST => 22 | CHECKSUM_BENCHMARK_REQUEST => 23 |
      GPIO_CLOCK_DIAGNOSTIC_REQUEST => 24 | GPIO_CAPTURE_DIAGNOSTIC_REQUEST => 25 |
      INFO_RESPONSE => 144 | CONFIGURE_RESPONSE => 145 | START_RESPONSE => 146 |
      GET_STATUS_RESPONSE => 147 | STOP_RESPONSE => 148 | RESET_STATS_RESPONSE => 149 |
      PING_RESPONSE => 150 | CHECKSUM_BENCHMARK_RESPONSE => 151 |
      GPIO_CLOCK_DIAGNOSTIC_RESPONSE => 152 | GPIO_CAPTURE_DIAGNOSTIC_RESPONSE => 153 |
      ERROR_RESPONSE => 159 | GET_TEMPERATURE_REQUEST => 26 | GET_TEMPERATURE_RESPONSE => 154 |
      GET_RUNTIME_HEALTH_REQUEST => 27 | GET_RUNTIME_HEALTH_RESPONSE => 155 end;
    members := [
      ADC_DATA; GPIO_DATA; INFO_REQUEST; CONFIGURE_REQUEST; START_REQUEST; GET_STATUS_REQUEST;
      STOP_REQUEST; RESET_STATS_REQUEST; PING_REQUEST; CHECKSUM_BENCHMARK_REQUEST;
      GPIO_CLOCK_DIAGNOSTIC_REQUEST; GPIO_CAPTURE_DIAGNOSTIC_REQUEST; INFO_RESPONSE;
      CONFIGURE_RESPONSE; START_RESPONSE; GET_STATUS_RESPONSE; STOP_RESPONSE;
      RESET_STATS_RESPONSE; PING_RESPONSE; CHECKSUM_BENCHMARK_RESPONSE;
      GPIO_CLOCK_DIAGNOSTIC_RESPONSE; GPIO_CAPTURE_DIAGNOSTIC_RESPONSE; ERROR_RESPONSE;
      GET_TEMPERATURE_REQUEST; GET_TEMPERATURE_RESPONSE; GET_RUNTIME_HEALTH_REQUEST;
      GET_RUNTIME_HEALTH_RESPONSE] |}; enum_laws.
Defined.
End FrameKind.
Abbreviation FrameKind := FrameKind.FrameKind.

Module TemperatureStatus.
Inductive TemperatureStatus :=
  | VALID | UNAVAILABLE | NOT_READY | INVALID_CALIBRATION | OUT_OF_RANGE.
#[global] Instance TemperatureStatus_eq_dec : EqDecision TemperatureStatus.
Proof. solve_decision. Defined.
#[global] Instance TemperatureStatus_enum : IntEnum TemperatureStatus.
Proof.
  refine {|
    int_of a := match a with
      | VALID => 0 | UNAVAILABLE => 1 | NOT_READY => 2 | INVALID_CALIBRATION => 3 |
      OUT_OF_RANGE => 4 end;
    members := [
      VALID; UNAVAILABLE; NOT_READY; INVALID_CALIBRATION; OUT_OF_RANGE] |}; enum_laws.
Defined.
End TemperatureStatus.
Abbreviation TemperatureStatus := TemperatureStatus.TemperatureStatus.

Module Capability.
Definition AUXILIARY_INPUT_BANK : Z := 512.
Definition EXACT_RATE_PROFILES : Z := 1024.
End Capability.

Definition BOOTSTRAP_CHECKSUM_ALGORITHM : ChecksumAlgorithm := ADLER32.
Definition DEFAULT_CHECKSUM_ALGORITHM : ChecksumAlgorithm := ADLER32.
Definition DEFAULT_AUX_BANK_MODE : AuxBankMode := AuxBankMode.DISABLED.

(** ** Tables keyed by frame kind; [None] is [KeyError] *)

Definition ALLOWED_FLAGS_BY_KIND (kind : FrameKind) : Z :=
  let data := Z.lor (Z.lor (Z.lor FrameFlag.SYNTHETIC FrameFlag.GAP_BEFORE) FrameFlag.EPOCH_START)
                FrameFlag.OVERRUN_BEFORE in
  match kind with
  | FrameKind.ADC_DATA | FrameKind.GPIO_DATA => data
  | FrameKind.INFO_REQUEST | FrameKind.CONFIGURE_REQUEST | FrameKind.START_REQUEST |
  FrameKind.GET_STATUS_REQUEST | FrameKind.STOP_REQUEST | FrameKind.RESET_STATS_REQUEST |
  FrameKind.PING_REQUEST | FrameKind.CHECKSUM_BENCHMARK_REQUEST |
  FrameKind.GPIO_CLOCK_DIAGNOSTIC_REQUEST | FrameKind.GPIO_CAPTURE_DIAGNOSTIC_REQUEST |
  FrameKind.GET_TEMPERATURE_REQUEST | FrameKind.GET_RUNTIME_HEALTH_REQUEST => FrameFlag.NONE
  | FrameKind.INFO_RESPONSE | FrameKind.CONFIGURE_RESPONSE | FrameKind.START_RESPONSE |
  FrameKind.GET_STATUS_RESPONSE | FrameKind.STOP_RESPONSE | FrameKind.RESET_STATS_RESPONSE |
  FrameKind.PING_RESPONSE | FrameKind.CHECKSUM_BENCHMARK_RESPONSE |
  FrameKind.GPIO_CLOCK_DIAGNOSTIC_RESPONSE | FrameKind.GPIO_CAPTURE_DIAGNOSTIC_RESPONSE |
  FrameKind.ERROR_RESPONSE | FrameKind.GET_TEMPERATURE_RESPONSE |
  FrameKind.GET_RUNTIME_HEALTH_RESPONSE => FrameFlag.RESPONSE_ERROR
  end.

Definition REQUEST_RESPONSE_KIND : list (FrameKind * FrameKind) :=
  [(FrameKind.INFO_REQUEST, FrameKind.INFO_RESPONSE); (FrameKind.CONFIGURE_REQUEST,
  FrameKind.CONFIGURE_RESPONSE); (FrameKind.START_REQUEST, FrameKind.START_RESPONSE);
  (FrameKind.GET_STATUS_REQUEST, FrameKind.GET_STATUS_RESPONSE); (FrameKind.STOP_REQUEST,
  FrameKind.STOP_RESPONSE); (FrameKind.RESET_STATS_REQUEST, FrameKind.RESET_STATS_RESPONSE);
  (FrameKind.PING_REQUEST, FrameKind.PING_RESPONSE); (FrameKind.CHECKSUM_BENCHMARK_REQUEST,
  FrameKind.CHECKSUM_BENCHMARK_RESPONSE); (FrameKind.GPIO_CLOCK_DIAGNOSTIC_REQUEST,
  FrameKind.GPIO_CLOCK_DIAGNOSTIC_RESPONSE); (FrameKind.GPIO_CAPTURE_DIAGNOSTIC_REQUEST,
  FrameKind.GPIO_CAPTURE_DIAGNOSTIC_RESPONSE); (FrameKind.GET_TEMPERATURE_REQUEST,
  FrameKind.GET_TEMPERATURE_RESPONSE); (FrameKind.GET_RUNTIME_HEALTH_REQUEST,
  FrameKind.GET_RUNTIME_HEALTH_RESPONSE)].

Definition PAYLOAD_SCHEMA_BY_KIND (kind : FrameKind) : string :=
  match kind with
  | FrameKind.ADC_DATA => "adc_data"
  | FrameKind.GPIO_DATA => "gpio_data"
  | FrameKind.INFO_REQUEST => "empty"
  | FrameKind.CONFIGURE_REQUEST => "configure_request"
  | FrameKind.START_REQUEST => "empty"
  | FrameKind.GET_STATUS_REQUEST => "empty"
  | FrameKind.STOP_REQUEST => "empty"
  | FrameKind.RESET_STATS_REQUEST => "empty"
  | FrameKind.PING_REQUEST => "ping_request"
  | FrameKind.CHECKSUM_BENCHMARK_REQUEST => "checksum_benchmark_request"
  | FrameKind.GPIO_CLOCK_DIAGNOSTIC_REQUEST => "gpio_clock_diagnostic_request"
  | FrameKind.GPIO_CAPTURE_DIAGNOSTIC_REQUEST => "empty"
  | FrameKind.INFO_RESPONSE => "info_response"
  | FrameKind.CONFIGURE_RESPONSE => "configure_response"
  | FrameKind.START_RESPONSE => "configure_response"
  | FrameKind.GET_STATUS_RESPONSE => "status_response"
  | FrameKind.STOP_RESPONSE => "stop_response"
  | FrameKind.RESET_STATS_RESPONSE => "reset_stats_response"
  | FrameKind.PING_RESPONSE => "ping_response"
  | FrameKind.CHECKSUM_BENCHMARK_RESPONSE => "checksum_benchmark_response"
  | FrameKind.GPIO_CLOCK_DIAGNOSTIC_RESPONSE => "gpio_clock_diagnostic_response"
  | FrameKind.GPIO_CAPTURE_DIAGNOSTIC_RESPONSE => "gpio_capture_diagnostic_response"
  | FrameKind.ERROR_RESPONSE => "error_response"
  | FrameKind.GET_TEMPERATURE_REQUEST => "empty"
  | FrameKind.GET_TEMPERATURE_RESPONSE => "temperature_response"
  | FrameKind.GET_RUNTIME_HEALTH_REQUEST => "empty"
  | FrameKind.GET_RUNTIME_HEALTH_RESPONSE => "runtime_health_response"
  end%string.

Definition ERROR_PAYLOAD_SCHEMA_BY_KIND (kind : FrameKind) : option string :=
  match kind with
  | FrameKind.INFO_RESPONSE | FrameKind.CONFIGURE_RESPONSE | FrameKind.START_RESPONSE |
  FrameKind.GET_STATUS_RESPONSE | FrameKind.STOP_RESPONSE | FrameKind.RESET_STATS_RESPONSE |
  FrameKind.PING_RESPONSE | FrameKind.CHECKSUM_BENCHMARK_RESPONSE |
  FrameKind.GPIO_CLOCK_DIAGNOSTIC_RESPONSE | FrameKind.GPIO_CAPTURE_DIAGNOSTIC_RESPONSE |
  FrameKind.GET_TEMPERATURE_RESPONSE | FrameKind.GET_RUNTIME_HEALTH_RESPONSE =>
      Some "response_prefix"
  | _ => None
  end%string.

Definition PAYLOAD_SIZE_BY_SCHEMA : list (string * Z) :=
  [("runtime_health_response", 32); ("temperature_response", 12); ("empty", 0);
  ("rate_profile_info", 48); ("adc_data", 4048); ("gpio_data", 4048); ("adc_aux_data", 2024);
  ("gpio_aux_data", 4048); ("configure_request", 16); ("response_prefix", 4); ("info_response",
  680); ("configure_response", 20); ("status_response", 1476); ("stop_response", 8);
  ("reset_stats_response", 8); ("ping_request", 8); ("ping_response", 12);
  ("checksum_benchmark_request", 8); ("checksum_benchmark_response", 96);
  ("gpio_clock_diagnostic_request", 8); ("gpio_clock_diagnostic_response", 140);
  ("gpio_capture_diagnostic_response", 272); ("error_response", 8)]%string.
