(* ===== verification/V2Header.v ===== *)
(** * Protocol-v2 frame headers ([protocol_v2.py]).

    The validation errors, the header record with [to_bytes], [_decode_v2_header] and
    [_validate_v2_header].  Version 2 keeps the 44-byte header and adds the kinds and
    the frame shapes of the auxiliary GPIO bank; [header_wf] says which headers exist,
    and the decoder accepts exactly their encodings.  Messages built by formatting
    keep their template. *)

From S2P Require Import Prelude PyStruct Checksum Profiles V2Constants.
From S2P Require V1Header.

(** ** Errors *)

(** [V2FrameValidationError], its three subclasses, and any other exception. *)
Inductive v2_error :=
| V2FrameValidationError (message reason : string) (error_code : ErrorCode)
| V2UnsupportedChecksumError (algorithm : Z)
| V2ChecksumMismatchError (expected observed : Z)
| V2ConfigurationEchoError
| Uncaught (exception : string).

#[export] Instance v2_error_eq_dec : EqDecision v2_error.
Proof. solve_decision. Defined.

Abbreviation v2 := (result v2_error).

Definition is_frame_error (e : v2_error) : bool :=
  match e with Uncaught _ => false | _ => true end.

(** [error.error_code] and [error.reason] of a [V2FrameValidationError]. *)
Definition error_code_of (e : v2_error) : option ErrorCode :=
  match e with
  | V2FrameValidationError _ _ code => Some code
  | V2UnsupportedChecksumError _ => Some ErrorCode.UNSUPPORTED_CHECKSUM
  | V2ChecksumMismatchError _ _ => Some ErrorCode.CHECKSUM_MISMATCH
  | V2ConfigurationEchoError => Some ErrorCode.UNSUPPORTED_CONFIGURATION
  | Uncaught _ => None
  end.

Definition reason_of (e : v2_error) : option string :=
  match e with
  | V2FrameValidationError _ reason _ => Some reason
  | V2UnsupportedChecksumError _ => Some "unsupported_checksum"%string
  | V2ChecksumMismatchError _ _ => Some "checksum_mismatch"%string
  | V2ConfigurationEchoError => Some "contradictory_configure_echo"%string
  | Uncaught _ => None
  end.

(** [if condition: raise V2FrameValidationError(message, reason=..., error_code=...)] *)
Definition reject (condition : bool) (message reason : string) (code : ErrorCode) : v2 unit :=
  require (negb condition) (V2FrameValidationError message reason code).

(** [V2FrameValidationError(message)], with the default reason and code. *)
Definition invalid (message : string) : v2_error :=
  V2FrameValidationError message "invalid_payload" ErrorCode.INVALID_PAYLOAD.

Definition refuse (condition : bool) (message : string) : v2 unit := require (negb condition) (invalid message).

Abbreviation clean := (raises_only is_frame_error).

(** ** Header and frame records *)

Module V2FrameHeader.
Record V2FrameHeader := mk {
  kind : FrameKind;
  flags : Z;
  checksum_algorithm : ChecksumAlgorithm;
  total_length : Z;
  payload_length : Z;
  run_id : Z;
  sequence : Z;
  request_id : Z;
  first_sample_ticks : Z;
  item_count : Z;
  version : Z;
  header_length : Z
}.
#[global] Instance V2FrameHeader_eq_dec : EqDecision V2FrameHeader.
Proof. solve_decision. Defined.
End V2FrameHeader.
Abbreviation V2FrameHeader := V2FrameHeader.V2FrameHeader.

Module V2Frame.
Record V2Frame := mk { header : V2FrameHeader; payload : bytes; checksum : Z }.
#[global] Instance V2Frame_eq_dec : EqDecision V2Frame.
Proof. solve_decision. Defined.
End V2Frame.
Abbreviation V2Frame := V2Frame.V2Frame.

(** The values [V2FrameHeader.to_bytes] packs, in wire order. *)
Definition header_fields (h : V2FrameHeader) : fvals HEADER_STRUCT_FORMAT :=
  (MAGIC, (V2FrameHeader.version h, (int_of (V2FrameHeader.kind h),
  (V2FrameHeader.flags h, (V2FrameHeader.header_length h,
  (int_of (V2FrameHeader.checksum_algorithm h), (0,
  (V2FrameHeader.total_length h, (V2FrameHeader.payload_length h,
  (V2FrameHeader.run_id h, (V2FrameHeader.sequence h,
  (V2FrameHeader.request_id h, (V2FrameHeader.first_sample_ticks h,
  (V2FrameHeader.item_count h, tt)))))))))))))).

(** [V2FrameHeader.to_bytes] *)
Definition header_to_bytes (h : V2FrameHeader) : v2 bytes :=
  of_option (pack HEADER_STRUCT_FORMAT (header_fields h)) (Uncaught "struct.error").

(** ** Kind tables *)

Definition _DATA_KINDS (kind : FrameKind) : bool :=
  bool_decide (kind ∈ [FrameKind.ADC_DATA; FrameKind.GPIO_DATA]).
Definition _REQUEST_KINDS (kind : FrameKind) : bool :=
  bool_decide (kind ∈ map fst REQUEST_RESPONSE_KIND).
Definition _TYPED_RESPONSE_KINDS (kind : FrameKind) : bool :=
  bool_decide (kind ∈ map snd REQUEST_RESPONSE_KIND).

(** Total frame bytes, payload bytes and items of each auxiliary-bank layout. *)
Definition adc_shape (mode : AuxBankMode) : Z * Z * Z :=
  let '(_, _, _, _, _, items, payload, total) := AUX_BANK_LAYOUTS mode in (total, payload, items).
Definition gpio_shape (mode : AuxBankMode) : Z * Z * Z :=
  let '(_, _, items, payload, total, _, _, _) := AUX_BANK_LAYOUTS mode in (total, payload, items).

(** Tables keyed by the two data kinds; [None] is [KeyError]. *)
Definition _DATA_SHAPES_BY_KIND (kind : FrameKind) : option (list (Z * Z * Z)) :=
  match kind with
  | FrameKind.ADC_DATA => Some (map adc_shape members)
  | FrameKind.GPIO_DATA => Some (map gpio_shape members)
  | _ => None
  end.

Definition _DATA_PERIODS_BY_KIND (kind : FrameKind) : option (list Z) :=
  match kind with
  | FrameKind.ADC_DATA =>
      Some (map (fun profile => RateProfileTiming.adc_pair_period_ticks (RATE_PROFILE_TIMING profile)) members)
  | FrameKind.GPIO_DATA =>
      Some (map (fun profile => RateProfileTiming.gpio_sample_period_ticks (RATE_PROFILE_TIMING profile)) members)
  | _ => None
  end.

(** [PAYLOAD_SIZE_BY_SCHEMA[schema]] *)
Definition payload_size (schema : string) : v2 Z :=
  of_option (snd <$> List.find (fun '(s, _) => String.eqb s schema) PAYLOAD_SIZE_BY_SCHEMA)
    (Uncaught "KeyError").

(** ** [_validate_v2_header] *)

Definition _v1_checksum_algorithm (algorithm : ChecksumAlgorithm) : v2 ChecksumAlgorithm :=
  selected ← of_option (enum_of (int_of algorithm)) (V2UnsupportedChecksumError (int_of algorithm));
  _ ← require (bool_decide (selected ∈ HOST_SUPPORTED_CHECKSUM_ALGORITHMS))
        (V2UnsupportedChecksumError (int_of algorithm));
  Ok selected.

(** The rules every header obeys. *)
Definition check_envelope (h : V2FrameHeader) : v2 unit :=
  _ ← reject (negb (V2FrameHeader.header_length h =? HEADER_SIZE)) "header length must be {HEADER_SIZE}"
        "invalid_length" ErrorCode.INVALID_LENGTH;
  _ ← _v1_checksum_algorithm (V2FrameHeader.checksum_algorithm h);
  _ ← require (_DATA_KINDS (V2FrameHeader.kind h)
               || bool_decide (V2FrameHeader.checksum_algorithm h = BOOTSTRAP_CHECKSUM_ALGORITHM))
        (V2UnsupportedChecksumError (int_of (V2FrameHeader.checksum_algorithm h)));
  let allowed_flags := ALLOWED_FLAGS_BY_KIND (V2FrameHeader.kind h) in
  _ ← reject (has (V2FrameHeader.flags h) (Z.land (Z.lnot allowed_flags) 0xFFFF))
        "flags 0x{flags:04x} are invalid for {kind.name}" "invalid_flags" ErrorCode.INVALID_FLAGS;
  _ ← reject (has (V2FrameHeader.flags h) FrameFlag.OVERRUN_BEFORE
              && negb (has (V2FrameHeader.flags h) FrameFlag.GAP_BEFORE))
        "OVERRUN_BEFORE requires GAP_BEFORE" "invalid_flags" ErrorCode.INVALID_FLAGS;
  let expected_total := HEADER_SIZE + V2FrameHeader.payload_length h + TRAILER_SIZE in
  reject (negb (V2FrameHeader.total_length h =? expected_total))
    "total and payload lengths are inconsistent" "invalid_length" ErrorCode.INVALID_LENGTH.

(** Data frames. *)
Definition check_data_header (h : V2FrameHeader) : v2 unit :=
  let observed_shape := (V2FrameHeader.total_length h, V2FrameHeader.payload_length h, V2FrameHeader.item_count h) in
  shapes ← of_option (_DATA_SHAPES_BY_KIND (V2FrameHeader.kind h)) (Uncaught "KeyError");
  _ ← reject (negb (bool_decide (observed_shape ∈ shapes)))
        "{kind.name} has no declared auxiliary-mode layout" "invalid_length" ErrorCode.INVALID_LENGTH;
  _ ← refuse ((V2FrameHeader.run_id h =? 0) || negb (V2FrameHeader.request_id h =? 0))
        "data frames require a nonzero run ID and zero request ID";
  periods ← of_option (_DATA_PERIODS_BY_KIND (V2FrameHeader.kind h)) (Uncaught "KeyError");
  _ ← refuse (negb (existsb (fun period => V2FrameHeader.first_sample_ticks h mod period =? 0) periods))
        "data timestamp is not aligned to any declared rate profile";
  let epoch_start := has (V2FrameHeader.flags h) FrameFlag.EPOCH_START in
  let first_in_epoch := (V2FrameHeader.sequence h =? 0) && (V2FrameHeader.first_sample_ticks h =? 0) in
  refuse (negb (eqb epoch_start first_in_epoch)) "EPOCH_START must identify sequence zero at timestamp zero".

(** The payload size of a control frame. *)
Definition expected_payload (kind : FrameKind) (response_error : bool) : v2 Z :=
  if _TYPED_RESPONSE_KINDS kind then
    schema ← (if response_error then of_option (ERROR_PAYLOAD_SCHEMA_BY_KIND kind) (Uncaught "KeyError")
              else Ok (PAYLOAD_SCHEMA_BY_KIND kind));
    payload_size schema
  else if decide (kind = FrameKind.ERROR_RESPONSE) then
    _ ← reject (negb response_error) "ERROR_RESPONSE requires RESPONSE_ERROR" "invalid_flags"
          ErrorCode.INVALID_FLAGS;
    Ok ERROR_RESPONSE_PAYLOAD_SIZE
  else payload_size (PAYLOAD_SCHEMA_BY_KIND kind).

(** The payload a control frame announces. *)
Definition check_control_payload (h : V2FrameHeader) : v2 unit :=
  let response_error := has (V2FrameHeader.flags h) FrameFlag.RESPONSE_ERROR in
  expected ← expected_payload (V2FrameHeader.kind h) response_error;
  _ ← reject (negb (V2FrameHeader.payload_length h =? expected))
        "{kind.name} payload must be {expected_payload} bytes" "invalid_length" ErrorCode.INVALID_LENGTH;
  refuse (bool_decide (V2FrameHeader.kind h = FrameKind.START_RESPONSE) && negb response_error
          && (V2FrameHeader.run_id h =? 0))
    "successful START requires a nonzero run ID".

(** Control frames. *)
Definition check_control_header (h : V2FrameHeader) : v2 unit :=
  _ ← reject (negb ((MIN_FRAME_BYTES <=? V2FrameHeader.total_length h)
                    && (V2FrameHeader.total_length h <=? MAX_CONTROL_FRAME_BYTES)))
        "control frame exceeds protocol-v2 bounds" "invalid_length" ErrorCode.INVALID_LENGTH;
  _ ← reject (V2FrameHeader.request_id h =? 0) "control frames require a nonzero request ID"
        "invalid_request_id" ErrorCode.INVALID_REQUEST_ID;
  _ ← refuse (negb (V2FrameHeader.sequence h =? 0) || negb (V2FrameHeader.first_sample_ticks h =? 0)
              || negb (V2FrameHeader.item_count h =? 0))
        "control sequence, timestamp, and item-count fields must be zero";
  _ ← refuse (_REQUEST_KINDS (V2FrameHeader.kind h) && negb (V2FrameHeader.run_id h =? 0))
        "request run ID must be zero";
  _ ← reject (_REQUEST_KINDS (V2FrameHeader.kind h)
              && (MAX_COMMAND_FRAME_BYTES <? V2FrameHeader.total_length h))
        "command frame exceeds the protocol-v2 command bound" "invalid_length" ErrorCode.INVALID_LENGTH;
  check_control_payload h.

Definition _validate_v2_header (h : V2FrameHeader) : v2 unit :=
  _ ← check_envelope h;
  if _DATA_KINDS (V2FrameHeader.kind h) then check_data_header h else check_control_header h.

(** ** [_decode_v2_header] *)

Definition _decode_v2_header (data : bytes) (offset : Z) : v2 V2FrameHeader :=
  let available := zlen data - offset in
  _ ← reject ((offset <? 0) || (available <? HEADER_SIZE))
        "frame has {available} bytes; a header needs {HEADER_SIZE}" "invalid_length" ErrorCode.INVALID_LENGTH;
  '(magic, (version, (raw_kind, (raw_flags, (header_length, (raw_checksum_algorithm, (reserved,
    (total_length, (payload_length, (run_id, (sequence, (request_id, (first_sample_ticks,
    (item_count, _)))))))))))))) ←
      of_option (unpack_from HEADER_STRUCT_FORMAT data (Z.to_nat offset)) (Uncaught "struct.error");
  _ ← reject (negb (magic =? MAGIC)) "invalid frame magic" "invalid_length" ErrorCode.INVALID_LENGTH;
  _ ← reject (negb (version =? PROTOCOL_VERSION)) "unsupported protocol version {version}"
        "unsupported_version" ErrorCode.UNSUPPORTED_VERSION;
  kind ← of_option (enum_of raw_kind)
           (V2FrameValidationError "unknown frame kind 0x{raw_kind:02x}" "unknown_frame_kind"
              ErrorCode.UNKNOWN_FRAME_KIND);
  checksum_algorithm ← of_option (enum_of raw_checksum_algorithm)
           (V2UnsupportedChecksumError raw_checksum_algorithm);
  _ ← refuse (negb (reserved =? 0)) "protocol-v2 header reserved byte must be zero";
  let header := V2FrameHeader.mk kind raw_flags checksum_algorithm total_length payload_length run_id
                  sequence request_id first_sample_ticks item_count version header_length in
  _ ← _validate_v2_header header;
  Ok header.

(** ** Which headers exist *)

(** A data frame has the shape of one of the two layouts, is stamped on a period some
    rate profile can have, belongs to a run, and says [EPOCH_START] exactly at the
    origin of that run. *)
Definition data_header_wf (h : V2FrameHeader) : Prop :=
  0 <= V2FrameHeader.flags h < 16 /\
  (Z.testbit (V2FrameHeader.flags h) 3 = true -> Z.testbit (V2FrameHeader.flags h) 1 = true) /\
  (if decide (V2FrameHeader.kind h = FrameKind.ADC_DATA) then
     V2FrameHeader.payload_length h = 4 * V2FrameHeader.item_count h /\
     (V2FrameHeader.item_count h = 1012 \/ V2FrameHeader.item_count h = 506)
   else
     V2FrameHeader.payload_length h = 4048 /\
     (V2FrameHeader.item_count h = 4048 \/ V2FrameHeader.item_count h = 2024)) /\
  V2FrameHeader.run_id h <> 0 /\ V2FrameHeader.request_id h = 0 /\
  ((if decide (V2FrameHeader.kind h = FrameKind.ADC_DATA) then 8 else 2) | V2FrameHeader.first_sample_ticks h) /\
  (Z.testbit (V2FrameHeader.flags h) 2 = true <->
   V2FrameHeader.sequence h = 0 /\ V2FrameHeader.first_sample_ticks h = 0).

(** The size of a command's payload, and of a successful response's. *)
Definition command_size (kind : FrameKind) : Z :=
  match kind with
  | FrameKind.CONFIGURE_REQUEST => 16
  | FrameKind.PING_REQUEST | FrameKind.CHECKSUM_BENCHMARK_REQUEST
  | FrameKind.GPIO_CLOCK_DIAGNOSTIC_REQUEST => 8
  | _ => 0
  end.

Definition response_size (kind : FrameKind) : Z :=
  match kind with
  | FrameKind.INFO_RESPONSE => 680
  | FrameKind.CONFIGURE_RESPONSE | FrameKind.START_RESPONSE => 20
  | FrameKind.PING_RESPONSE | FrameKind.GET_TEMPERATURE_RESPONSE => 12
  | FrameKind.GET_STATUS_RESPONSE => 1476
  | FrameKind.CHECKSUM_BENCHMARK_RESPONSE => 96
  | FrameKind.GPIO_CLOCK_DIAGNOSTIC_RESPONSE => 140
  | FrameKind.GPIO_CAPTURE_DIAGNOSTIC_RESPONSE => 272
  | FrameKind.GET_RUNTIME_HEALTH_RESPONSE => 32
  | _ => 8
  end.

Definition no_sample_fields (h : V2FrameHeader) : Prop :=
  V2FrameHeader.sequence h = 0 /\ V2FrameHeader.first_sample_ticks h = 0 /\ V2FrameHeader.item_count h = 0.

(** A command is correlated and belongs to no run; a response succeeds with its
    kind's payload or fails with the four-byte prefix (eight for the generic
    error, which cannot succeed). *)
Definition control_header_wf (h : V2FrameHeader) : Prop :=
  V2FrameHeader.checksum_algorithm h = ADLER32 /\ V2FrameHeader.request_id h <> 0 /\ no_sample_fields h /\
  if _REQUEST_KINDS (V2FrameHeader.kind h) then
    V2FrameHeader.flags h = 0 /\ V2FrameHeader.run_id h = 0 /\
    V2FrameHeader.payload_length h = command_size (V2FrameHeader.kind h)
  else
    (V2FrameHeader.flags h = 0 /\ V2FrameHeader.kind h <> FrameKind.ERROR_RESPONSE /\
     V2FrameHeader.payload_length h = response_size (V2FrameHeader.kind h) /\
     (V2FrameHeader.kind h = FrameKind.START_RESPONSE -> V2FrameHeader.run_id h <> 0)) \/
    (V2FrameHeader.flags h = FrameFlag.RESPONSE_ERROR /\
     V2FrameHeader.payload_length h = (if decide (V2FrameHeader.kind h = FrameKind.ERROR_RESPONSE) then 8 else 4)).

(** Field widths not implied by the rest. *)
Definition in_width (h : V2FrameHeader) : Prop :=
  0 <= V2FrameHeader.run_id h < 2 ^ 32 /\ 0 <= V2FrameHeader.sequence h < 2 ^ 32 /\
  0 <= V2FrameHeader.request_id h < 2 ^ 32 /\ 0 <= V2FrameHeader.first_sample_ticks h < 2 ^ 64.

Definition header_wf (h : V2FrameHeader) : Prop :=
  V2FrameHeader.version h = 2 /\ V2FrameHeader.header_length h = 44 /\
  V2FrameHeader.total_length h = 48 + V2FrameHeader.payload_length h /\ in_width h /\
  V2FrameHeader.checksum_algorithm h <> NONE_RESERVED /\
  if _DATA_KINDS (V2FrameHeader.kind h) then data_header_wf h else control_header_wf h.

(** ** The guards are [header_wf] *)

Lemma v2_reject_bind {A} c message reason code (m : v2 A) x :
  (reject c message reason code ≫= fun _ => m) = Ok x <-> c = false /\ m = Ok x.
Proof. unfold reject. by rewrite require_bind, negb_true_iff. Qed.

Lemma v2_reject_Ok c message reason code u : reject c message reason code = Ok u <-> c = false.
Proof. unfold reject. by rewrite require_Ok, negb_true_iff. Qed.

Lemma v2_refuse_bind {A} c message (m : v2 A) x :
  (refuse c message ≫= fun _ => m) = Ok x <-> c = false /\ m = Ok x.
Proof. apply v2_reject_bind. Qed.

Lemma v2_refuse_Ok c message u : refuse c message = Ok u <-> c = false.
Proof. apply (v2_reject_Ok c message). Qed.

Lemma v2_clean_reject c message reason code : clean (reject c message reason code).
Proof. by apply raises_only_require. Qed.

Lemma v2_clean_refuse c message : clean (refuse c message).
Proof. by apply raises_only_require. Qed.

Lemma v1_algorithm_bind {A} a (k : ChecksumAlgorithm -> v2 A) x :
  (_v1_checksum_algorithm a ≫= k) = Ok x <-> a <> NONE_RESERVED /\ k a = Ok x.
Proof.
  destruct a; cbn; split; [discriminate|by intros [? _]|..]; by [intros ?|intros [_ ?]].
Qed.

(** The flags each class of frames may carry. *)
Lemma v2_allowed_flags_ok kind f :
  0 <= f < 2 ^ 16 ->
  has f (Z.land (Z.lnot (ALLOWED_FLAGS_BY_KIND kind)) 0xFFFF) = false <->
  if _DATA_KINDS kind then f < 16
  else if _REQUEST_KINDS kind then f = 0 else f = 0 \/ f = FrameFlag.RESPONSE_ERROR.
Proof.
  intros Hf.
  pose proof (fun k => V1Header.allowed_flags_ok k f Hf) as H.
  destruct kind;
    first [exact (H V1Constants.FrameKind.ADC_DATA) | exact (H V1Constants.FrameKind.PING_REQUEST)
          | exact (H V1Constants.FrameKind.PING_RESPONSE)].
Qed.

Lemma v2_check_envelope_ok h u :
  0 <= V2FrameHeader.flags h < 2 ^ 16 ->
  check_envelope h = Ok u <->
  V2FrameHeader.header_length h = 44 /\ V2FrameHeader.total_length h = 48 + V2FrameHeader.payload_length h /\
  V2FrameHeader.checksum_algorithm h <> NONE_RESERVED /\
  (_DATA_KINDS (V2FrameHeader.kind h) = false -> V2FrameHeader.checksum_algorithm h = ADLER32) /\
  (Z.testbit (V2FrameHeader.flags h) 3 = true -> Z.testbit (V2FrameHeader.flags h) 1 = true) /\
  (if _DATA_KINDS (V2FrameHeader.kind h) then V2FrameHeader.flags h < 16
   else if _REQUEST_KINDS (V2FrameHeader.kind h) then V2FrameHeader.flags h = 0
   else V2FrameHeader.flags h = 0 \/ V2FrameHeader.flags h = FrameFlag.RESPONSE_ERROR).
Proof.
  intros Hf. unfold check_envelope. cbv zeta.
  rewrite v2_reject_bind, v1_algorithm_bind, require_bind, !v2_reject_bind, v2_reject_Ok.
  rewrite v2_allowed_flags_ok, V1Header.overrun_ok by done.
  rewrite !negb_false_iff, !Z.eqb_eq, orb_true_iff, !bool_decide_eq_true.
  unfold BOOTSTRAP_CHECKSUM_ALGORITHM, HEADER_SIZE, TRAILER_SIZE.
  destruct (_DATA_KINDS _); intuition (lia || congruence).
Qed.

(** The frame shapes and the periods, by data kind. *)
Lemma data_shapes_ok kind total payload items :
  _DATA_KINDS kind = true -> total = 48 + payload ->
  exists shapes, _DATA_SHAPES_BY_KIND kind = Some shapes /\
    ((total, payload, items) ∈ shapes <->
     if decide (kind = FrameKind.ADC_DATA) then payload = 4 * items /\ (items = 1012 \/ items = 506)
     else payload = 4048 /\ (items = 4048 \/ items = 2024)).
Proof.
  intros Hk ->. destruct kind; try discriminate Hk; eexists; (split; [reflexivity|]);
    match goal with |- _ ∈ ?l <-> _ => let v := eval vm_compute in l in change l with v end;
    rewrite !elem_of_cons, elem_of_nil; cbn [decide decide_rel]; rewrite !pair_equal_spec;
    destruct (decide _); try done; intuition lia.
Qed.

Lemma data_periods_ok kind ticks :
  _DATA_KINDS kind = true ->
  exists periods, _DATA_PERIODS_BY_KIND kind = Some periods /\
    (existsb (fun period => ticks mod period =? 0) periods = true <->
     ((if decide (kind = FrameKind.ADC_DATA) then 8 else 2) | ticks)).
Proof.
  intros Hk. destruct kind; try discriminate Hk; eexists; (split; [reflexivity|]);
    match goal with |- existsb _ ?l = _ <-> _ => let v := eval vm_compute in l in change l with v end;
    cbn [existsb]; rewrite !orb_true_iff, !Z.eqb_eq; destruct (decide _); try done;
    rewrite <-Z.mod_divide by lia; (split; [zlia|tauto]).
Qed.

Lemma v2_check_data_header_ok h u :
  _DATA_KINDS (V2FrameHeader.kind h) = true ->
  V2FrameHeader.total_length h = 48 + V2FrameHeader.payload_length h ->
  0 <= V2FrameHeader.flags h ->
  check_data_header h = Ok u /\ V2FrameHeader.flags h < 16 /\
  (Z.testbit (V2FrameHeader.flags h) 3 = true -> Z.testbit (V2FrameHeader.flags h) 1 = true) <->
  data_header_wf h.
Proof.
  intros Hk Ht Hf. unfold check_data_header, data_header_wf. cbv zeta.
  destruct (data_shapes_ok _ _ _ (V2FrameHeader.item_count h) Hk Ht) as (shapes & Hs & Hshape).
  destruct (data_periods_ok _ (V2FrameHeader.first_sample_ticks h) Hk) as (periods & Hp & Hperiod).
  rewrite Hs, Hp. cbn [of_option mbind result_bind].
  rewrite v2_reject_bind, v2_refuse_bind, v2_refuse_bind, v2_refuse_Ok, orb_false_iff, !negb_false_iff.
  rewrite bool_decide_eq_true, Hshape, Hperiod, Z.eqb_eq, Z.eqb_neq, eqb_true_iff.
  change FrameFlag.EPOCH_START with (2 ^ 2). rewrite has_testbit by lia.
  assert (He : Z.testbit (V2FrameHeader.flags h) 2 = (V2FrameHeader.sequence h =? 0) && (V2FrameHeader.first_sample_ticks h =? 0) <->
    (Z.testbit (V2FrameHeader.flags h) 2 = true <-> V2FrameHeader.sequence h = 0 /\ V2FrameHeader.first_sample_ticks h = 0)).
  { rewrite <-!Z.eqb_eq, <-andb_true_iff.
    destruct (Z.testbit _ 2), (_ && _); intuition congruence. }
  rewrite He. intuition lia.
Qed.

(** The table lookups never fail on the kinds they are used for. *)
Lemma v2_expected_payload_ok kind response_error expected :
  _DATA_KINDS kind = false ->
  expected_payload kind response_error = Ok expected <->
  if _REQUEST_KINDS kind then expected = command_size kind
  else if response_error then expected = (if decide (kind = FrameKind.ERROR_RESPONSE) then 8 else 4)
  else kind <> FrameKind.ERROR_RESPONSE /\ expected = response_size kind.
Proof.
  intros Hd. destruct kind; try discriminate Hd; destruct response_error; vm_compute; split;
    intros; intuition congruence.
Qed.

Lemma v2_check_control_payload_ok h u :
  _DATA_KINDS (V2FrameHeader.kind h) = false ->
  (if _REQUEST_KINDS (V2FrameHeader.kind h) then V2FrameHeader.flags h = 0
   else V2FrameHeader.flags h = 0 \/ V2FrameHeader.flags h = FrameFlag.RESPONSE_ERROR) ->
  check_control_payload h = Ok u <->
  if _REQUEST_KINDS (V2FrameHeader.kind h) then V2FrameHeader.payload_length h = command_size (V2FrameHeader.kind h)
  else
    (V2FrameHeader.flags h = 0 /\ V2FrameHeader.kind h <> FrameKind.ERROR_RESPONSE /\
     V2FrameHeader.payload_length h = response_size (V2FrameHeader.kind h) /\
     (V2FrameHeader.kind h = FrameKind.START_RESPONSE -> V2FrameHeader.run_id h <> 0)) \/
    (V2FrameHeader.flags h = FrameFlag.RESPONSE_ERROR /\
     V2FrameHeader.payload_length h = (if decide (V2FrameHeader.kind h = FrameKind.ERROR_RESPONSE) then 8 else 4)).
Proof.
  intros Hd Hf. set (err := has (V2FrameHeader.flags h) FrameFlag.RESPONSE_ERROR).
  assert (Hbind : check_control_payload h = Ok u <->
    expected_payload (V2FrameHeader.kind h) err = Ok (V2FrameHeader.payload_length h) /\
    (V2FrameHeader.kind h = FrameKind.START_RESPONSE -> err = false -> V2FrameHeader.run_id h <> 0)).
  { unfold check_control_payload. cbv zeta. fold err.
    destruct (expected_payload (V2FrameHeader.kind h) err) as [e|e]; cbn [mbind result_bind]; [|by split; [|intros []]].
    rewrite v2_reject_bind, v2_refuse_Ok, !andb_false_iff, !negb_false_iff, Z.eqb_eq, bool_decide_eq_false, Z.eqb_neq.
    destruct (decide (V2FrameHeader.kind h = FrameKind.START_RESPONSE)), err; naive_solver. }
  rewrite Hbind, (v2_expected_payload_ok _ _ _ Hd). clear Hbind.
  assert (Hne : 0 <> FrameFlag.RESPONSE_ERROR) by done.
  destruct (_REQUEST_KINDS _) eqn:Hr.
  - assert (V2FrameHeader.kind h <> FrameKind.START_RESPONSE) by (intros E; by rewrite E in Hr). naive_solver.
  - subst err. destruct Hf as [Hf|Hf]; rewrite Hf.
    + change (has 0 FrameFlag.RESPONSE_ERROR) with false. naive_solver.
    + change (has FrameFlag.RESPONSE_ERROR FrameFlag.RESPONSE_ERROR) with true. naive_solver.
Qed.

Lemma v2_control_sizes kind :
  0 <= command_size kind <= 16 /\ 4 <= response_size kind <= 1476.
Proof. by destruct kind. Qed.

Lemma v2_check_control_header_ok h u :
  V2FrameHeader.total_length h = 48 + V2FrameHeader.payload_length h ->
  _DATA_KINDS (V2FrameHeader.kind h) = false -> V2FrameHeader.checksum_algorithm h = ADLER32 ->
  check_control_header h = Ok u /\
  (if _REQUEST_KINDS (V2FrameHeader.kind h) then V2FrameHeader.flags h = 0
   else V2FrameHeader.flags h = 0 \/ V2FrameHeader.flags h = FrameFlag.RESPONSE_ERROR) <->
  control_header_wf h.
Proof.
  intros Ht Hd Hc. unfold check_control_header, control_header_wf, no_sample_fields. cbv zeta.
  rewrite !v2_reject_bind, !v2_refuse_bind, v2_reject_bind, !orb_false_iff, !negb_false_iff, !andb_true_iff.
  rewrite !Z.leb_le, Z.eqb_neq, !Z.eqb_eq. unfold MIN_FRAME_BYTES, MAX_CONTROL_FRAME_BYTES, MAX_COMMAND_FRAME_BYTES. rewrite Ht.
  pose proof (v2_control_sizes (V2FrameHeader.kind h)) as Hs.
  pose proof (v2_check_control_payload_ok h u Hd) as Hp.
  destruct (_REQUEST_KINDS (V2FrameHeader.kind h)); cbn [andb];
    rewrite ?negb_false_iff, ?Z.eqb_eq, ?Z.ltb_ge.
  - split.
    + intros ((? & ? & ? & ? & ? & H) & Hf). apply (Hp Hf) in H. intuition.
    + intros (_ & ? & ? & Hf & ? & H). rewrite (Hp Hf). intuition lia.
  - split.
    + intros ((? & ? & ? & _ & _ & H) & Hf). apply (Hp Hf) in H. intuition.
    + intros (_ & ? & ? & H). assert (Hf : V2FrameHeader.flags h = 0 \/ V2FrameHeader.flags h = FrameFlag.RESPONSE_ERROR)
        by intuition. rewrite (Hp Hf). split; [|done]. split; [|intuition].
      destruct H as [(_ & _ & -> & _)|[_ ->]]; [lia|]. case_decide; lia.
Qed.

Lemma v2_validate_header_ok h u :
  V2FrameHeader.version h = 2 -> 0 <= V2FrameHeader.flags h < 2 ^ 16 -> in_width h ->
  _validate_v2_header h = Ok u <-> header_wf h.
Proof.
  intros Hv Hf Hw. unfold _validate_v2_header, header_wf.
  assert (Hbind : forall k, (check_envelope h ≫= fun _ => k) = Ok u <-> check_envelope h = Ok tt /\ k = Ok u).
  { intros k. destruct (check_envelope h) as [[]|]; cbn; [by split; [|intros []]|by split; [|intros [? _]]]. }
  rewrite Hbind, v2_check_envelope_ok by done. clear Hbind.
  destruct (_DATA_KINDS _) eqn:Hd.
  - split.
    + intros ((Hh & Ht & Hc & _ & Ho & Hl) & H).
      pose proof (proj1 (v2_check_data_header_ok h u Hd Ht (proj1 Hf)) (conj H (conj Hl Ho))). tauto.
    + intros (_ & Hh & Ht & _ & Hc & H).
      apply (v2_check_data_header_ok h u Hd Ht (proj1 Hf)) in H as (H & Hl & Ho).
      split; [by repeat (split; [done|])|done].
  - split.
    + intros ((Hh & Ht & Hc & Ha & _ & Hl) & H).
      pose proof (proj1 (v2_check_control_header_ok h u Ht Hd (Ha eq_refl)) (conj H Hl)). tauto.
    + intros (_ & Hh & Ht & _ & Hc & H). assert (Ha : V2FrameHeader.checksum_algorithm h = ADLER32) by apply H.
      apply (v2_check_control_header_ok h u Ht Hd Ha) in H as (H & Hl).
      split; [|done]. repeat (split; [done|]). split; [|done].
      intros H3. exfalso. destruct (_REQUEST_KINDS _); [by rewrite Hl in H3|].
      destruct Hl as [Hl|Hl]; rewrite Hl in H3; by vm_compute in H3.
Qed.

Lemma v2_header_wf_bounds h :
  header_wf h -> 0 <= V2FrameHeader.payload_length h <= 4048 /\
  0 <= V2FrameHeader.flags h < 2 ^ 16 /\ 0 <= V2FrameHeader.item_count h < 2 ^ 32.
Proof.
  intros (_ & _ & _ & _ & _ & H). destruct (_DATA_KINDS _).
  - destruct H as (Hf & _ & H & _). pow_lit. case_decide; lia.
  - destruct H as (_ & _ & (_ & _ & ->) & H). pose proof (v2_control_sizes (V2FrameHeader.kind h)) as Hs.
    destruct (_REQUEST_KINDS _); [destruct H as (-> & _ & ->); pow_lit; lia|].
    destruct H as [(-> & _ & -> & _)|[-> ->]]; [pow_lit; lia|].
    change FrameFlag.RESPONSE_ERROR with 32768. pow_lit. case_decide; lia.
Qed.

Lemma v2_header_wf_fields h : header_wf h -> fvals_ok HEADER_STRUCT_FORMAT (header_fields h).
Proof.
  intros H. destruct (v2_header_wf_bounds h H) as (Hp & Hf & Hc).
  destruct H as (Hv & Hl & Ht & (Hr & Hs & Hq & Htk) & _).
  assert (0 <= int_of (V2FrameHeader.kind h) < 256) by (destruct (V2FrameHeader.kind h); done).
  assert (0 <= int_of (V2FrameHeader.checksum_algorithm h) < 256)
    by (destruct (V2FrameHeader.checksum_algorithm h); done).
  cbn -[Z.pow int_of]. rewrite Hv, Hl, Ht. unfold MAGIC. pow_lit. repeat split; lia.
Qed.

Lemma v2_HEADER_SIZE_calc : calcsize HEADER_STRUCT_FORMAT = 44%nat.
Proof. reflexivity. Qed.

Lemma v2_header_fits (data : bytes) offset :
  (offset <? 0) || (zlen data - offset <? HEADER_SIZE) = false <->
  0 <= offset /\ (Z.to_nat offset + 44 <= length data)%nat.
Proof. rewrite orb_false_iff, !Z.ltb_ge. unfold HEADER_SIZE, zlen. lia. Qed.

Lemma v2_decode_header_sound data offset h :
  wf_bytes data -> _decode_v2_header data offset = Ok h ->
  0 <= offset /\ (Z.to_nat offset + 44 <= length data)%nat /\ header_wf h /\
  header_fields h = unpack_fields HEADER_STRUCT_FORMAT (drop (Z.to_nat offset) data).
Proof.
  intros Hw. unfold _decode_v2_header. cbv zeta. rewrite v2_reject_bind, v2_header_fits, of_option_bind.
  intros ([Ho Hlen] & vs & Hvs & H). unfold unpack_from in Hvs. rewrite v2_HEADER_SIZE_calc in Hvs.
  rewrite (proj2 (Nat.leb_le _ _)) in Hvs by done.
  pose proof (unpack_fields_ok HEADER_STRUCT_FORMAT (drop (Z.to_nat offset) data)
    (wf_bytes_drop _ _ Hw) ltac:(rewrite v2_HEADER_SIZE_calc; len)) as Hok.
  apply Some_inj' in Hvs. rewrite Hvs in *. clear Hvs.
  destruct vs as (magic & version & kind & flags & size & checksum & reserved & total & payload & run &
     sequence & request & ticks & count & []).
  cbn -[Z.pow] in Hok. destruct Hok as (_ & _ & Hk & Hf & _ & _ & Hre & Ht & Hp & Hr & Hs & Hq & Htk & Hc & _).
  rewrite !v2_reject_bind, of_option_bind, !negb_false_iff, !Z.eqb_eq in H.
  destruct H as (-> & -> & k & Hkind & H). apply of_option_bind in H as (a & Ha & H).
  apply enum_of_Some in Hkind, Ha. rewrite v2_refuse_bind, negb_false_iff, Z.eqb_eq in H. destruct H as [-> H].
  apply bind_Ok_inv in H as ([] & Hv & H). apply Ok_inj in H.
  subst h. apply v2_validate_header_ok in Hv; [|done|exact Hf|exact (conj Hr (conj Hs (conj Hq Htk)))].
  split; [done|]. split; [done|]. split; [done|].
  unfold header_fields. cbn [V2FrameHeader.kind V2FrameHeader.checksum_algorithm]. rewrite Hkind, Ha.
  assert (size = 44) as -> by apply Hv. done.
Qed.

Lemma v2_decode_header_complete data offset h :
  0 <= offset -> (Z.to_nat offset + 44 <= length data)%nat -> header_wf h ->
  header_fields h = unpack_fields HEADER_STRUCT_FORMAT (drop (Z.to_nat offset) data) ->
  _decode_v2_header data offset = Ok h.
Proof.
  intros Ho Hlen Hwf Hfields. unfold _decode_v2_header. cbv zeta. rewrite v2_reject_bind, v2_header_fits, of_option_bind.
  split; [done|]. unfold unpack_from. rewrite v2_HEADER_SIZE_calc.
  rewrite (proj2 (Nat.leb_le _ _)) by done. rewrite <-Hfields. eexists. split; [done|].
  destruct (v2_header_wf_bounds h Hwf) as (_ & Hf & _). unfold header_fields.
  rewrite !v2_reject_bind, !negb_false_iff, !Z.eqb_eq, of_option_bind.
  split; [done|]. split; [by destruct Hwf|]. exists (V2FrameHeader.kind h). split; [apply enum_of_int|].
  rewrite of_option_bind. exists (V2FrameHeader.checksum_algorithm h). split; [apply enum_of_int|].
  rewrite v2_refuse_bind. split; [done|].
  match goal with |- (_validate_v2_header ?x ≫= _) = _ => assert (x = h) as -> by (by destruct h) end.
  rewrite (proj2 (v2_validate_header_ok h tt (proj1 Hwf) Hf (proj1 (proj2 (proj2 (proj2 Hwf)))))) by done. done.
Qed.

(** The decoder accepts exactly the encodings of well-formed headers. *)
Lemma v2_decode_header_iff data offset h :
  wf_bytes data ->
  _decode_v2_header data offset = Ok h <->
  0 <= offset /\ header_wf h /\ (Z.to_nat offset + 44 <= length data)%nat /\
  header_to_bytes h = Ok (take 44 (drop (Z.to_nat offset) data)).
Proof.
  intros Hw. split.
  - intros H. destruct (v2_decode_header_sound data offset h Hw H) as (Ho & Hlen & Hwf & Hfields).
    split; [done|]. split; [done|]. split; [done|]. unfold header_to_bytes. rewrite Hfields.
    rewrite pack_unpack_fields by (eauto with daq || (rewrite v2_HEADER_SIZE_calc; len)). done.
  - intros (Ho & Hwf & Hlen & Hb). apply v2_decode_header_complete; [done..|].
    apply of_option_Ok_inv in Hb. rewrite <-(take_drop 44 (drop (Z.to_nat offset) data)).
    symmetry. apply unpack_fields_pack; [by apply v2_header_wf_fields|done].
Qed.

(** ** Consequences *)

Lemma v2_header_wf_to_bytes h :
  header_wf h -> exists b, header_to_bytes h = Ok b /\ wf_bytes b /\ length b = 44%nat.
Proof.
  intros H. destruct (fvals_ok_pack _ _ (v2_header_wf_fields h H)) as (b & Hb & Hw).
  exists b. unfold header_to_bytes. rewrite Hb. split; [done|]. split; [done|].
  by apply pack_length in Hb.
Qed.

Lemma v2_header_roundtrip h b : header_wf h -> header_to_bytes h = Ok b -> _decode_v2_header b 0 = Ok h.
Proof.
  intros Hwf Hb. destruct (v2_header_wf_to_bytes h Hwf) as (b' & Hb' & Hw & Hl).
  assert (b' = b) as -> by congruence. apply v2_decode_header_iff; [done|].
  split; [done|]. split; [done|]. change (Z.to_nat 0) with 0%nat. rewrite drop_0, take_ge by lia.
  split; [lia|done].
Qed.

(** Walks a function body, leaving the calls it does not know. *)
Ltac clean_step :=
  match goal with
  | |- raises_only _ (Ok _) => exact I
  | |- raises_only _ (mret _) => exact I
  | |- raises_only _ (Err _) => reflexivity
  | |- raises_only _ (reject _ _ _ _) => apply v2_clean_reject
  | |- raises_only _ (refuse _ _) => apply v2_clean_refuse
  | |- raises_only _ (require _ _) => apply raises_only_require; reflexivity
  | |- raises_only _ (of_option _ _) => apply raises_only_of_option; intros ?; reflexivity
  | |- raises_only _ (_ ≫= _) => apply raises_only_bind; [|intros ? ?]
  | |- raises_only _ (let '(_, _) := ?x in _) => destruct x
  | |- raises_only _ (match ?x with _ => _ end) => destruct x eqn:?
  | |- raises_only _ (let _ := _ in _) => cbv zeta
  | |- raises_only _ _ => solve [eauto 2 with daq]
  end.
Ltac clean := intros; repeat clean_step.

Lemma v2_clean_expected_payload kind response_error : clean (expected_payload kind response_error).
Proof. by destruct kind, response_error. Qed.
#[export] Hint Resolve v2_clean_expected_payload : daq.

Lemma clean_v1_algorithm a : clean (_v1_checksum_algorithm a).
Proof. by destruct a. Qed.
#[export] Hint Resolve clean_v1_algorithm : daq.

Lemma clean_check_data_header h : _DATA_KINDS (V2FrameHeader.kind h) = true -> clean (check_data_header h).
Proof.
  intros Hd. unfold check_data_header. cbv zeta.
  destruct (V2FrameHeader.kind h); try discriminate Hd; cbn [_DATA_SHAPES_BY_KIND _DATA_PERIODS_BY_KIND of_option]; clean.
Qed.
#[export] Hint Resolve clean_check_data_header : daq.

Lemma v2_clean_validate_header h : clean (_validate_v2_header h).
Proof. unfold _validate_v2_header, check_envelope, check_control_header, check_control_payload. clean. Qed.
#[export] Hint Resolve v2_clean_validate_header : daq.

(** No buffer and no offset makes the header decoder raise anything else. *)
Lemma v2_clean_decode_header data offset : clean (_decode_v2_header data offset).
Proof.
  unfold _decode_v2_header. cbv zeta. apply raises_only_bind; [apply v2_clean_reject|intros u Hlen].
  apply v2_reject_Ok, v2_header_fits in Hlen as [_ Hlen]. apply raises_only_bind.
  { unfold unpack_from. rewrite v2_HEADER_SIZE_calc, (proj2 (Nat.leb_le _ _)) by done. exact I. }
  clean.
Qed.
