(* ===== verification/V2Payload.v ===== *)
(** * Protocol-v2 payload rules ([protocol_v2.py]).

    The extended configuration and its echo, the choice of a protocol version, INFO
    with its table of rate profiles, the temperature and runtime-health readings, and
    the dispatch [_validate_v2_payload], which hands the commands version 2 did not
    change to the encoder of version 1.  The theorems say which payloads the decoders
    accept and that nothing but [V2FrameValidationError] is raised. *)

From S2P Require Import Prelude PyStruct Checksum Profiles V2Constants V2Header.
From S2P Require V1Constants V1Header V1Payload V1Frames.

#[local] Existing Instance V1Constants.V1FrameKind_enum.

(** ** Reading scalars *)

(** [payload[offset]] *)
Definition byte_at (payload : bytes) (offset : Z) : v2 Z :=
  of_option (payload !! Z.to_nat offset) (Uncaught "IndexError").

(** [struct.unpack_from(format, payload, offset)[0]] for a format of one field. *)
Definition unpack1 {A} (read : bytes -> nat -> option (A * unit)) (payload : bytes) (offset : Z) : v2 A :=
  '(value, _) ← of_option (read payload (Z.to_nat offset)) (Uncaught "struct.error"); Ok value.
Definition u8_at : bytes -> Z -> v2 Z := unpack1 (unpack_from [U8]).
Definition _u16 : bytes -> Z -> v2 Z := unpack1 (unpack_from [U16]).
Definition _u32 : bytes -> Z -> v2 Z := unpack1 (unpack_from [U32]).

(** [enum(value)] under [except ValueError]. *)
Definition member {A} `{IntEnum A} (value : Z) (message : string) : v2 A := of_option (enum_of value) (invalid message).

Definition differs (read : v2 Z) (expected : Z) : v2 bool := value ← read; Ok (negb (value =? expected)).

Definition table_differs (read : bytes -> Z -> v2 Z) (payload : bytes) (table : list (Z * Z)) : v2 bool :=
  anyR (map (fun '(offset, expected) => differs (read payload offset) expected) table).

(** [value not in (...)] *)
Definition not_in (read : v2 Z) (values : list Z) : v2 bool := value ← read; Ok (negb (bool_decide (value ∈ values))).

(** ** The validators of version 1 *)

(** [str(error)] *)
Definition v1_message (e : V1Header.v1_error) : string :=
  match e with
  | V1Header.FrameValidationError message _ => message
  | V1Header.UnsupportedChecksumError _ => "unsupported checksum algorithm {algorithm}"
  | V1Header.ChecksumAlgorithmMismatchError _ _ =>
      "checksum algorithm {observed} is invalid for a control frame; expected bootstrap algorithm {expected}"
  | V1Header.ChecksumMismatchError _ _ => "checksum mismatch: expected 0x{expected:08x}, observed 0x{observed:08x}"
  | V1Header.Uncaught exception => exception
  end.

(** [except V1FrameValidationError as error: raise V2FrameValidationError(str(error))] *)
Definition from_v1 {A} (m : V1Header.v1 A) : v2 A :=
  match m with
  | Ok a => Ok a
  | Err (V1Header.Uncaught exception) => Err (Uncaught exception)
  | Err e => Err (invalid (v1_message e))
  end.

(** [except (ValueError, V1FrameValidationError)] *)
Definition from_v1_values {A} (m : V1Header.v1 A) : v2 A :=
  match m with
  | Err (V1Header.Uncaught exception) =>
      if String.eqb exception "ValueError" then Err (invalid "{exc}") else Err (Uncaught exception)
  | _ => from_v1 m
  end.

(** ** Response prefix *)

Definition _RESPONSE_PREFIX : list fcode := Eval vm_compute in struct_format "<BBH".
Definition _CONFIGURE_REQUEST : list fcode := Eval vm_compute in struct_format "<BBBBIII".
Definition _CONFIGURE_RESPONSE : list fcode := Eval vm_compute in struct_format "<BBHBBBBIII".

Definition _validate_response_prefix (h : V2FrameHeader) (payload : bytes) : v2 unit :=
  '(raw_status, (reserved, (raw_error, _))) ←
      of_option (unpack_from _RESPONSE_PREFIX payload 0) (Uncaught "struct.error");
  _ ← refuse (negb (reserved =? 0)) "response reserved byte must be zero";
  status ← member raw_status "unknown response status or error code";
  error ← member raw_error "unknown response status or error code";
  let response_error := has (V2FrameHeader.flags h) FrameFlag.RESPONSE_ERROR in
  _ ← refuse (negb (eqb response_error (bool_decide (status = ResponseStatus.ERROR))))
        "response flag and status disagree";
  refuse (negb (eqb (bool_decide (status = ResponseStatus.OK)) (bool_decide (error = ErrorCode.OK))))
    "response status and error code disagree".

(** ** Configuration *)


Definition _rate_profile_for_pair (adc_rate gpio_rate : Z) : v2 RateProfile :=
  let unsupported message reason := V2FrameValidationError message reason ErrorCode.UNSUPPORTED_CONFIGURATION in
  _ ← require (negb ((adc_rate <=? 0) || (gpio_rate <=? 0) || negb (TIMESTAMP_HZ mod adc_rate =? 0)
                     || negb (TIMESTAMP_HZ mod gpio_rate =? 0)))
        (unsupported "ADC and GPIO rates must divide the timestamp clock exactly" "nonintegral_timestamps");
  _ ← require (negb (negb (gpio_rate =? 4 * adc_rate)
                     && negb (bool_decide ((adc_rate, gpio_rate) = (1000000, 1000000)))))
        (unsupported "rates must match a declared acquisition profile" "wrong_four_to_one_ratio");
  of_option
    (List.find (fun profile =>
       let timing := RATE_PROFILE_TIMING profile in
       (RateProfileTiming.adc_pair_rate_hz timing =? adc_rate)
       && (RateProfileTiming.gpio_sample_rate_hz timing =? gpio_rate)) members)
    (unsupported "rate pair is not one of the declared exact profiles" "unsupported_rates").

Module V2ConfigurationFields.
Record V2ConfigurationFields := mk {
  stream_mask : Z;
  source : Source;
  data_checksum_algorithm : ChecksumAlgorithm;
  aux_bank_mode : AuxBankMode;
  data_frame_bytes : Z;
  adc_pair_rate_hz : Z;
  gpio_sample_rate_hz : Z;
  rate_profile : RateProfile
}.
#[global] Instance V2ConfigurationFields_eq_dec : EqDecision V2ConfigurationFields.
Proof. solve_decision. Defined.
End V2ConfigurationFields.
Abbreviation V2ConfigurationFields := V2ConfigurationFields.V2ConfigurationFields.

Definition valid_stream_bits : Z := Z.lor StreamMask.ADC StreamMask.GPIO.

(** The body shared by requests and responses. *)
Definition decode_body (raw_streams raw_source raw_checksum raw_mode frame_bytes adc_rate gpio_rate : Z) :
    v2 V2ConfigurationFields :=
  _ ← refuse (has raw_streams (Z.lnot valid_stream_bits)) "configuration stream mask is invalid";
  let unknown := V2FrameValidationError "configuration contains an unknown enum value"
                   (if bool_decide (raw_mode ∈ [0; 1]) then "invalid_enum" else "invalid_aux_bank_mode")
                   ErrorCode.INVALID_PAYLOAD in
  source ← of_option (enum_of raw_source) unknown;
  checksum ← of_option (enum_of raw_checksum) unknown;
  mode ← of_option (enum_of raw_mode) unknown;
  _ ← refuse ((raw_streams =? StreamMask.NONE) && negb (bool_decide (source = Source.HARDWARE)))
        "zero-stream configuration requires the hardware source";
  _ ← refuse (bool_decide (checksum = NONE_RESERVED)) "configuration cannot select checksum ID zero";
  _ ← _v1_checksum_algorithm checksum;
  _ ← refuse (negb (frame_bytes =? DATA_FRAME_BYTES)) "configuration maximum frame size must be 4096";
  profile ← _rate_profile_for_pair adc_rate gpio_rate;
  Ok (V2ConfigurationFields.mk raw_streams source checksum mode frame_bytes adc_rate gpio_rate profile).

Definition decode_v2_configuration (payload : bytes) (response : bool) : v2 V2ConfigurationFields :=
  let expected_size := if response then CONFIGURE_RESPONSE_PAYLOAD_SIZE else CONFIGURE_REQUEST_PAYLOAD_SIZE in
  _ ← reject (negb (zlen payload =? expected_size)) "extended configuration body must be {expected_size} bytes"
        "invalid_length" ErrorCode.INVALID_LENGTH;
  if response then
    '(raw_status, (reserved, (raw_error, (raw_streams, (raw_source, (raw_checksum, (raw_mode,
      (frame_bytes, (adc_rate, (gpio_rate, _)))))))))) ←
        of_option (unpack _CONFIGURE_RESPONSE payload) (Uncaught "struct.error");
    _ ← refuse (negb (raw_status =? int_of ResponseStatus.OK) || negb (reserved =? 0)
                || negb (raw_error =? int_of ErrorCode.OK))
          "successful applied configuration prefix is inconsistent";
    decode_body raw_streams raw_source raw_checksum raw_mode frame_bytes adc_rate gpio_rate
  else
    '(raw_streams, (raw_source, (raw_checksum, (raw_mode, (frame_bytes, (adc_rate, (gpio_rate, _))))))) ←
        of_option (unpack _CONFIGURE_REQUEST payload) (Uncaught "struct.error");
    decode_body raw_streams raw_source raw_checksum raw_mode frame_bytes adc_rate gpio_rate.

Definition validate_v2_configuration_echo (request_payload response_payload : bytes) : v2 V2ConfigurationFields :=
  requested ← decode_v2_configuration request_payload false;
  applied ← decode_v2_configuration response_payload true;
  _ ← require (bool_decide (applied = requested)) V2ConfigurationEchoError;
  Ok applied.

(** The three keyword arguments; a mode is given by its integer. *)
Definition select_protocol_version (aux_bank_mode adc_pair_rate_hz gpio_sample_rate_hz : Z) : v2 Z :=
  mode ← of_option (enum_of aux_bank_mode) (Uncaught "ValueError");
  _ ← _rate_profile_for_pair adc_pair_rate_hz gpio_sample_rate_hz;
  if bool_decide (mode = AuxBankMode.DISABLED) && (adc_pair_rate_hz =? ADC_PAIR_RATE_HZ)
     && (gpio_sample_rate_hz =? GPIO_SAMPLE_RATE_HZ)
  then Ok V1Constants.PROTOCOL_VERSION else Ok PROTOCOL_VERSION.

(** ** INFO *)

(** The fields of one row of the profile table: name, format, offset, and the item of
    [RATE_PROFILE_TIMING[profile]] of that name. *)
Definition scalar_fields : list (string * (bytes -> Z -> v2 Z) * Z * (RateProfileTiming -> Z)) :=
  [ ("adc_pair_rate_hz", _u32, RATE_PROFILE_INFO_ADC_PAIR_RATE_HZ_OFFSET, RateProfileTiming.adc_pair_rate_hz);
    ("gpio_sample_rate_hz", _u32, RATE_PROFILE_INFO_GPIO_SAMPLE_RATE_HZ_OFFSET, RateProfileTiming.gpio_sample_rate_hz);
    ("adc_pair_period_ticks", _u16, RATE_PROFILE_INFO_ADC_PAIR_PERIOD_TICKS_OFFSET,
     RateProfileTiming.adc_pair_period_ticks);
    ("adc1_phase_ticks", _u16, RATE_PROFILE_INFO_ADC1_PHASE_TICKS_OFFSET, RateProfileTiming.adc1_phase_ticks);
    ("gpio_sample_period_ticks", _u16, RATE_PROFILE_INFO_GPIO_SAMPLE_PERIOD_TICKS_OFFSET,
     RateProfileTiming.gpio_sample_period_ticks);
    ("gpio_master_pit_divider", _u16, RATE_PROFILE_INFO_GPIO_MASTER_PIT_DIVIDER_OFFSET,
     RateProfileTiming.gpio_master_pit_divider);
    ("gpio_master_pit_load", _u16, RATE_PROFILE_INFO_GPIO_MASTER_PIT_LOAD_OFFSET,
     RateProfileTiming.gpio_master_pit_load);
    ("adc_pair_pit_divider", _u16, RATE_PROFILE_INFO_ADC_PAIR_PIT_DIVIDER_OFFSET,
     RateProfileTiming.adc_pair_pit_divider);
    ("adc_pair_pit_load", _u16, RATE_PROFILE_INFO_ADC_PAIR_PIT_LOAD_OFFSET, RateProfileTiming.adc_pair_pit_load);
    ("adc_etc_predivider", u8_at, RATE_PROFILE_INFO_ADC_ETC_PREDIVIDER_OFFSET, RateProfileTiming.adc_etc_predivider);
    ("adc_etc_chain_length", u8_at, RATE_PROFILE_INFO_ADC_ETC_CHAIN_LENGTH_OFFSET,
     RateProfileTiming.adc_etc_chain_length);
    ("adc0_initial_delay", _u16, RATE_PROFILE_INFO_ADC0_INITIAL_DELAY_OFFSET, RateProfileTiming.adc0_initial_delay);
    ("adc1_initial_delay", _u16, RATE_PROFILE_INFO_ADC1_INITIAL_DELAY_OFFSET, RateProfileTiming.adc1_initial_delay);
    ("adc0_effective_delay", _u16, RATE_PROFILE_INFO_ADC0_EFFECTIVE_DELAY_OFFSET,
     RateProfileTiming.adc0_effective_delay);
    ("adc1_effective_delay", _u16, RATE_PROFILE_INFO_ADC1_EFFECTIVE_DELAY_OFFSET,
     RateProfileTiming.adc1_effective_delay);
    ("adc1_phase_ipg_cycles", _u16, RATE_PROFILE_INFO_ADC1_PHASE_IPG_CYCLES_OFFSET,
     RateProfileTiming.adc1_phase_ipg_cycles);
    ("completion_expected_dwt_cycles", _u32, RATE_PROFILE_INFO_COMPLETION_EXPECTED_DWT_CYCLES_OFFSET,
     RateProfileTiming.completion_expected_dwt_cycles);
    ("disabled_frame_coverage_ticks", _u32, RATE_PROFILE_INFO_DISABLED_FRAME_COVERAGE_TICKS_OFFSET,
     RateProfileTiming.disabled_frame_coverage_ticks);
    ("input_frame_coverage_ticks", _u32, RATE_PROFILE_INFO_INPUT_FRAME_COVERAGE_TICKS_OFFSET,
     RateProfileTiming.input_frame_coverage_ticks) ]%string.

(** One field of one row. *)
Definition check_profile_field (payload : bytes) (offset cpu_hz : Z) (expected : RateProfileTiming)
    (field : string * (bytes -> Z -> v2 Z) * Z * (RateProfileTiming -> Z)) : v2 unit :=
  let '(name, read, field_offset, value) := field in
  observed ← read payload (offset + field_offset);
  let expected_value :=
    if String.eqb name "completion_expected_dwt_cycles"
    then cpu_hz / (2 * RateProfileTiming.adc_pair_rate_hz expected) else value expected in
  reject (negb (observed =? expected_value)) "INFO rate-profile {profile.name} {name} is contradictory"
    "invalid_rate_profile_metadata" ErrorCode.INVALID_PAYLOAD.

(** One row of the table. *)
Definition check_profile_row (payload : bytes) (cpu_hz : Z) (index : nat) (profile : RateProfile) : v2 unit :=
  let offset := INFO_RESPONSE_RATE_PROFILES_OFFSET + Z.of_nat index * RATE_PROFILE_INFO_PAYLOAD_SIZE in
  reserved ← differs (byte_at payload (offset + RATE_PROFILE_INFO_RESERVED_OFFSET)) 0;
  _ ← refuse reserved "INFO rate-profile reserved byte must be zero";
  order ← differs (byte_at payload (offset + RATE_PROFILE_INFO_RATE_PROFILE_OFFSET)) (int_of profile);
  _ ← refuse order "INFO rate-profile table order is invalid";
  _ ← mapR (check_profile_field payload offset cpu_hz (RATE_PROFILE_TIMING profile)) scalar_fields;
  Ok tt.

Definition _validate_info_profile_table (payload : bytes) : v2 unit :=
  cpu_hz ← _u32 payload INFO_RESPONSE_ADC_TRIGGER_DWT_CLOCK_HZ_OFFSET;
  _ ← refuse (negb (bool_decide (cpu_hz ∈ [450000000; 600000000]))) "INFO core clock is unsupported";
  _ ← mapR (fun '(index, profile) => check_profile_row payload cpu_hz index profile)
        (zip (seq 0 (length (members (A:=RateProfile)))) members);
  Ok tt.

(** The reserved bytes and words, and the protocol version. *)
Definition check_info_reserved (payload : bytes) : v2 unit :=
  reserved_0 ← differs (byte_at payload INFO_RESPONSE_RESERVED_0_OFFSET) 0;
  _ ← refuse reserved_0 "INFO reserved_0 must be zero";
  reserved_bytes ← table_differs byte_at payload
    (map (fun offset => (offset, 0))
      [ INFO_RESPONSE_RESERVED_2_OFFSET; INFO_RESPONSE_RESERVED_4_OFFSET; INFO_RESPONSE_RESERVED_9_OFFSET;
        INFO_RESPONSE_RESERVED_10_OFFSET; INFO_RESPONSE_RESERVED_11_OFFSET ]);
  _ ← refuse reserved_bytes "INFO reserved byte must be zero";
  reserved_words ← table_differs _u16 payload
    (map (fun offset => (offset, 0))
      [ INFO_RESPONSE_RESERVED_3_OFFSET; INFO_RESPONSE_RESERVED_5_OFFSET; INFO_RESPONSE_RESERVED_6_OFFSET;
        INFO_RESPONSE_RESERVED_7_OFFSET; INFO_RESPONSE_RESERVED_8_OFFSET ]);
  _ ← refuse reserved_words "INFO reserved word must be zero";
  version ← differs (byte_at payload INFO_RESPONSE_PROTOCOL_VERSION_OFFSET) PROTOCOL_VERSION;
  refuse version "INFO protocol version echo is contradictory".

(** The fixed resources, the capabilities and the three masks; the rate mask is
    returned. *)
Definition check_info_capabilities (payload : bytes) : v2 Z :=
  fixed ← table_differs _u32 payload
    [ (INFO_RESPONSE_TIMESTAMP_HZ_OFFSET, TIMESTAMP_HZ);
      (INFO_RESPONSE_DATA_FRAME_BYTES_OFFSET, DATA_FRAME_BYTES);
      (INFO_RESPONSE_MAX_CONTROL_FRAME_BYTES_OFFSET, MAX_CONTROL_FRAME_BYTES);
      (INFO_RESPONSE_AUX_GPIO_CAPTURE_MASK_OFFSET, AUX_GPIO_CAPTURE_MASK);
      (INFO_RESPONSE_PRIMARY_GPIO_CAPTURE_MASK_OFFSET, PRIMARY_GPIO_CAPTURE_MASK) ];
  _ ← refuse fixed "INFO fixed timing/resource field is invalid";
  capability_bits ← _u32 payload INFO_RESPONSE_CAPABILITY_BITS_OFFSET;
  let required_capabilities := Z.lor Capability.AUXILIARY_INPUT_BANK Capability.EXACT_RATE_PROFILES in
  _ ← refuse (has capability_bits (Z.lnot KNOWN_CAPABILITY_MASK)) "INFO contains unknown capability bits";
  _ ← refuse (negb (Z.land capability_bits required_capabilities =? required_capabilities))
        "INFO omits required auxiliary capabilities";
  rate_mask ← byte_at payload INFO_RESPONSE_SUPPORTED_RATE_PROFILE_MASK_OFFSET;
  _ ← refuse ((rate_mask =? 0) || has rate_mask (Z.lnot SUPPORTED_RATE_PROFILE_MASK))
        "INFO supported rate-profile mask is invalid";
  mode_mask ← differs (byte_at payload INFO_RESPONSE_SUPPORTED_AUX_BANK_MODE_MASK_OFFSET) SUPPORTED_AUX_BANK_MODE_MASK;
  _ ← refuse mode_mask "INFO supported auxiliary-mode mask is invalid";
  count ← differs (byte_at payload INFO_RESPONSE_RATE_PROFILE_COUNT_OFFSET) (zlen (members (A:=RateProfile)));
  _ ← refuse count "INFO rate-profile count is invalid";
  Ok rate_mask.

(** The selected profile and the applied mode. *)
Definition check_info_selection (payload : bytes) (rate_mask : Z) : v2 (RateProfile * AuxBankMode) :=
  raw_profile ← byte_at payload INFO_RESPONSE_SELECTED_RATE_PROFILE_OFFSET;
  profile ← member raw_profile "INFO contains an unknown mode/profile";
  raw_mode ← byte_at payload INFO_RESPONSE_APPLIED_AUX_BANK_MODE_OFFSET;
  mode ← member raw_mode "INFO contains an unknown mode/profile";
  _ ← refuse (negb (has rate_mask (Z.shiftl 1 (int_of profile)))) "INFO selected rate is not supported";
  Ok (profile, mode).

(** [payload[start : start + count]] *)
Definition field_bytes (payload : bytes) (start count : Z) : bytes :=
  slice (Z.to_nat start) (Z.to_nat start + Z.to_nat count) payload.

(** The two pin maps. *)
Definition check_info_pins (payload : bytes) : v2 unit :=
  let primary_pins := field_bytes payload INFO_RESPONSE_GPIO_PIN_MAP_OFFSET INFO_RESPONSE_GPIO_PIN_MAP_COUNT in
  let auxiliary_pins :=
    field_bytes payload INFO_RESPONSE_AUX_GPIO_PIN_MAP_OFFSET INFO_RESPONSE_AUX_GPIO_PIN_MAP_COUNT in
  _ ← refuse (negb (bool_decide (primary_pins = PRIMARY_GPIO_PINS_BY_BIT))) "INFO primary GPIO pin map is invalid";
  _ ← reject (negb (bool_decide (auxiliary_pins = AUX_GPIO_PINS_BY_BIT))) "INFO auxiliary GPIO pin map is invalid"
        "duplicate_or_invalid_pins" ErrorCode.INVALID_PAYLOAD;
  _ ← reject (negb (zlen (remove_dups (primary_pins ++ auxiliary_pins)) =? zlen primary_pins + zlen auxiliary_pins))
        "INFO GPIO pin maps contain duplicates" "duplicate_or_invalid_pins" ErrorCode.INVALID_PAYLOAD;
  counts ← anyR
    [ differs (byte_at payload INFO_RESPONSE_GPIO_PIN_COUNT_OFFSET) (zlen primary_pins);
      differs (byte_at payload INFO_RESPONSE_AUX_GPIO_PIN_COUNT_OFFSET) (zlen auxiliary_pins) ];
  refuse counts "INFO GPIO pin counts are invalid".

(** The layout and the timing of the selection. *)
Definition check_info_layout (payload : bytes) (profile : RateProfile) (mode : AuxBankMode) : v2 unit :=
  let '(gpio_width_bits, gpio_bytes_per_item, gpio_items_per_frame, _, _, adc_items_per_frame, adc_payload_bytes, _) :=
    AUX_BANK_LAYOUTS mode in
  let timing := RATE_PROFILE_TIMING profile in
  width ← table_differs byte_at payload
    [ (INFO_RESPONSE_GPIO_PACKED_WIDTH_BITS_OFFSET, gpio_width_bits);
      (INFO_RESPONSE_GPIO_ITEM_BYTES_OFFSET, gpio_bytes_per_item) ];
  _ ← reject width "INFO GPIO width/item-size echo is contradictory" "bad_gpio_width" ErrorCode.INVALID_PAYLOAD;
  rates ← table_differs _u32 payload
    [ (INFO_RESPONSE_ADC_PAIR_RATE_HZ_OFFSET, RateProfileTiming.adc_pair_rate_hz timing);
      (INFO_RESPONSE_GPIO_SAMPLE_RATE_HZ_OFFSET, RateProfileTiming.gpio_sample_rate_hz timing);
      (INFO_RESPONSE_FRAME_COVERAGE_TICKS_OFFSET,
       if bool_decide (mode = AuxBankMode.DISABLED) then RateProfileTiming.disabled_frame_coverage_ticks timing
       else RateProfileTiming.input_frame_coverage_ticks timing) ];
  _ ← refuse rates "INFO active rate/timing echo is contradictory";
  layout ← table_differs _u16 payload
    [ (INFO_RESPONSE_ADC_PAIR_PERIOD_TICKS_OFFSET, RateProfileTiming.adc_pair_period_ticks timing);
      (INFO_RESPONSE_ADC1_PHASE_TICKS_OFFSET, RateProfileTiming.adc1_phase_ticks timing);
      (INFO_RESPONSE_GPIO_SAMPLE_PERIOD_TICKS_OFFSET, RateProfileTiming.gpio_sample_period_ticks timing);
      (INFO_RESPONSE_DATA_PAYLOAD_BYTES_OFFSET, adc_payload_bytes);
      (INFO_RESPONSE_ADC_PAIRS_PER_FRAME_OFFSET, adc_items_per_frame);
      (INFO_RESPONSE_GPIO_SAMPLES_PER_FRAME_OFFSET, gpio_items_per_frame) ];
  _ ← refuse layout "INFO active layout echo is contradictory";
  let adc_items mode := let '(_, _, _, _, _, items, _, _) := AUX_BANK_LAYOUTS mode in items in
  let gpio_items mode := let '(_, _, items, _, _, _, _, _) := AUX_BANK_LAYOUTS mode in items in
  counts ← table_differs _u16 payload
    [ (INFO_RESPONSE_DISABLED_ADC_PAIRS_PER_FRAME_OFFSET, adc_items AuxBankMode.DISABLED);
      (INFO_RESPONSE_DISABLED_GPIO_SAMPLES_PER_FRAME_OFFSET, gpio_items AuxBankMode.DISABLED);
      (INFO_RESPONSE_INPUT_ADC_PAIRS_PER_FRAME_OFFSET, adc_items AuxBankMode.INPUT);
      (INFO_RESPONSE_INPUT_GPIO_SAMPLES_PER_FRAME_OFFSET, gpio_items AuxBankMode.INPUT) ];
  reject counts "INFO mode-specific frame count is invalid" "bad_frame_counts" ErrorCode.INVALID_PAYLOAD.

(** The hardware resources of the two banks. *)
Definition check_info_resources (payload : bytes) : v2 unit :=
  resources ← table_differs byte_at payload
    [ (INFO_RESPONSE_AUX_GPIO_STANDARD_PORT_OFFSET, AUX_GPIO_STANDARD_PORT);
      (INFO_RESPONSE_AUX_GPIO_FAST_PORT_OFFSET, AUX_GPIO_FAST_PORT);
      (INFO_RESPONSE_AUX_GPIO_FAST_SELECT_GPR_OFFSET, AUX_GPIO_FAST_SELECT_GPR);
      (INFO_RESPONSE_GPIO_RAW_WORD_BYTES_OFFSET, GPIO_RAW_WORD_BYTES_PER_BANK);
      (INFO_RESPONSE_PRIMARY_GPIO_STANDARD_PORT_OFFSET, PRIMARY_GPIO_STANDARD_PORT);
      (INFO_RESPONSE_PRIMARY_GPIO_FAST_PORT_OFFSET, PRIMARY_GPIO_FAST_PORT);
      (INFO_RESPONSE_PRIMARY_GPIO_FAST_SELECT_GPR_OFFSET, PRIMARY_GPIO_FAST_SELECT_GPR);
      (INFO_RESPONSE_PRIMARY_GPIO_EDMA_CHANNEL_OFFSET, GPIO_EDMA_CHANNEL);
      (INFO_RESPONSE_AUX_GPIO_EDMA_CHANNEL_OFFSET, AUX_GPIO_EDMA_CHANNEL);
      (INFO_RESPONSE_PRIMARY_GPIO_DMAMUX_SOURCE_OFFSET, GPIO_DMAMUX_SOURCE);
      (INFO_RESPONSE_AUX_GPIO_DMAMUX_SOURCE_OFFSET, AUX_GPIO_DMAMUX_SOURCE);
      (INFO_RESPONSE_PRIMARY_GPIO_XBAR_OUTPUT_OFFSET, GPIO_XBAR_OUTPUT);
      (INFO_RESPONSE_AUX_GPIO_XBAR_OUTPUT_OFFSET, AUX_GPIO_XBAR_OUTPUT);
      (INFO_RESPONSE_PAIRED_GPIO_XBAR_INPUT_OFFSET, GPIO_XBAR_INPUT);
      (INFO_RESPONSE_AUX_GPIO_RAW_RING_DEPTH_OFFSET, AUX_GPIO_RAW_RING_DEPTH);
      (INFO_RESPONSE_PAIRED_GPIO_JOIN_REQUIRED_OFFSET, 1) ];
  _ ← refuse resources "INFO provisional resource map is invalid";
  refuse (negb (bool_decide
    (field_bytes payload INFO_RESPONSE_AUX_GPIO_PORT_BITS_OFFSET INFO_RESPONSE_AUX_GPIO_PORT_BITS_COUNT =
     AUX_GPIO_PORT_BITS_BY_WIRE_BIT))) "INFO auxiliary GPIO port-bit map is invalid".

Definition _validate_info_payload (payload : bytes) : v2 unit :=
  _ ← check_info_reserved payload;
  rate_mask ← check_info_capabilities payload;
  '(profile, mode) ← check_info_selection payload rate_mask;
  _ ← check_info_pins payload;
  _ ← check_info_layout payload profile mode;
  _ ← check_info_resources payload;
  _validate_info_profile_table payload.

(** ** Runtime health and temperature *)

Module RuntimeHealth.
Record RuntimeHealth := mk {
  stack_available : bool;
  watchdog_enabled : bool;
  stack_total_bytes : Z;
  stack_min_free_bytes : Z;
  stack_max_used_bytes : Z;
  reset_cause : Z;
  watchdog_timeout_ms : Z
}.
End RuntimeHealth.
Abbreviation RuntimeHealth := RuntimeHealth.RuntimeHealth.

Definition RUNTIME_HEALTH_FORMAT : list fcode := Eval vm_compute in struct_format "<BBH7I".

Definition decode_runtime_health_payload (payload : bytes) : v2 RuntimeHealth :=
  _ ← refuse (negb (zlen payload =? RUNTIME_HEALTH_RESPONSE_PAYLOAD_SIZE)) "invalid runtime health response size";
  '(status, (reserved, (error, (flags, (total, (free, (used, (reset, (timeout, (reserved1, _)))))))))) ←
      of_option (unpack RUNTIME_HEALTH_FORMAT payload) (Uncaught "struct.error");
  _ ← refuse (negb (status =? 0) || negb (reserved =? 0) || negb (error =? 0) || negb (reserved1 =? 0)
              || has flags (Z.lnot 3))
        "invalid runtime health prefix/flags/reserved fields";
  _ ← refuse ((total <? free) || negb (used =? total - free)) "contradictory stack watermark";
  _ ← refuse (negb (eqb (has flags 1) (0 <? total))) "stack availability disagrees with capacity";
  _ ← refuse (negb (eqb (has flags 2) (0 <? timeout))) "watchdog status disagrees with timeout";
  Ok (RuntimeHealth.mk (has flags 1) (has flags 2) total free used reset timeout).

Module TemperatureReading.
Record TemperatureReading := mk { status : TemperatureStatus; millidegrees_c : option Z }.
End TemperatureReading.
Abbreviation TemperatureReading := TemperatureReading.TemperatureReading.

Definition TEMPERATURE_FORMAT : list fcode := Eval vm_compute in struct_format "<BBHBBHi".

Definition decode_temperature_payload (payload : bytes) : v2 TemperatureReading :=
  _ ← refuse (negb (zlen payload =? TEMPERATURE_RESPONSE_PAYLOAD_SIZE)) "invalid temperature response size";
  '(status, (reserved, (error, (sensor, (reserved1, (reserved2, (value, _))))))) ←
      of_option (unpack TEMPERATURE_FORMAT payload) (Uncaught "struct.error");
  _ ← refuse (negb (status =? 0) || negb (reserved =? 0) || negb (error =? 0) || negb (reserved1 =? 0)
              || negb (reserved2 =? 0))
        "invalid temperature response prefix/reserved fields";
  sensor_status ← member sensor "unknown temperature status";
  if decide (sensor_status = TemperatureStatus.VALID) then
    _ ← refuse (negb ((-40000 <=? value) && (value <=? 150000))) "temperature outside sensor reporting range";
    Ok (TemperatureReading.mk sensor_status (Some value))
  else
    _ ← refuse (negb (value =? 0)) "unavailable temperature must have zero wire value";
    Ok (TemperatureReading.mk sensor_status None).

(** ** [_validate_v2_payload] *)

Section Dispatch.
(** [sys.byteorder == "little"], which the version-1 encoder's checksum reads. *)
Context (little : bool).

Definition _validate_v1_compatible_control (h : V2FrameHeader) (payload : bytes) : v2 unit :=
  kind ← of_option (enum_of (A:=V1Constants.FrameKind) (int_of (V2FrameHeader.kind h))) (invalid "{exc}");
  _ ← from_v1_values
        (V1Frames.encode_frame little (int_of kind) payload
           (V2FrameHeader.flags h) (Some (int_of (V2FrameHeader.checksum_algorithm h))) (V2FrameHeader.run_id h)
           (V2FrameHeader.sequence h) (V2FrameHeader.request_id h) (V2FrameHeader.first_sample_ticks h)
           (V2FrameHeader.item_count h));
  Ok tt.

Definition mode_values : list Z := map int_of (members (A:=AuxBankMode)).
Definition profile_values : list Z := map int_of (members (A:=RateProfile)).

(** GET_STATUS: the fields version 2 adds. *)
Definition check_status_extension (payload : bytes) : v2 unit :=
  bad ← anyR
    [ differs (byte_at payload STATUS_RESPONSE_PROTOCOL_VERSION_OFFSET) PROTOCOL_VERSION;
      not_in (byte_at payload STATUS_RESPONSE_AUX_BANK_MODE_OFFSET) mode_values;
      not_in (byte_at payload STATUS_RESPONSE_RATE_PROFILE_OFFSET) profile_values;
      differs (_u32 payload STATUS_RESPONSE_RESERVED_4_OFFSET) 0 ];
  _ ← refuse bad "STATUS v2 extension is contradictory";
  mode ← byte_at payload STATUS_RESPONSE_AUX_BANK_MODE_OFFSET;
  let expected_item_bytes := if mode =? int_of AuxBankMode.INPUT then 2 else 1 in
  width ← differs (byte_at payload STATUS_RESPONSE_GPIO_ITEM_BYTES_OFFSET) expected_item_bytes;
  refuse width "STATUS GPIO width is contradictory".

(** The GPIO capture diagnostic: the fields version 2 adds. *)
Definition check_capture_extension (payload : bytes) : v2 unit :=
  bad ← anyR
    [ not_in (byte_at payload GPIO_CAPTURE_DIAGNOSTIC_RESPONSE_BANK_COUNT_OFFSET) [1; 2];
      not_in (byte_at payload GPIO_CAPTURE_DIAGNOSTIC_RESPONSE_AUX_BANK_MODE_OFFSET) mode_values;
      not_in (byte_at payload GPIO_CAPTURE_DIAGNOSTIC_RESPONSE_SELECTED_RATE_PROFILE_OFFSET) profile_values;
      not_in (byte_at payload GPIO_CAPTURE_DIAGNOSTIC_RESPONSE_AUX_ELECTRICALLY_UNSTIMULATED_OFFSET) [0; 1];
      not_in (byte_at payload GPIO_CAPTURE_DIAGNOSTIC_RESPONSE_AUX_EXTERNAL_TRANSITION_CHECKS_RUN_OFFSET) [0; 1];
      differs (byte_at payload GPIO_CAPTURE_DIAGNOSTIC_RESPONSE_RESERVED_3_OFFSET) 0;
      differs (_u16 payload GPIO_CAPTURE_DIAGNOSTIC_RESPONSE_RESERVED_4_OFFSET) 0;
      differs (byte_at payload GPIO_CAPTURE_DIAGNOSTIC_RESPONSE_RESERVED_5_OFFSET) 0 ];
  refuse bad "GPIO capture diagnostic v2 extension is contradictory".

(** The two diagnostics whose validators version 1 declares, at the core clock the
    response reports. *)
Definition check_diagnostic (offset : Z) (validator : bytes -> Z -> V1Header.v1 unit) (payload : bytes) : v2 unit :=
  clock_hz ← _u32 payload offset;
  _ ← refuse (negb (bool_decide (clock_hz ∈ [450000000; 600000000]))) "unsupported diagnostic DWT clock";
  from_v1 (validator payload clock_hz).

(** What follows the response prefix, by kind. *)
Definition validate_control (h : V2FrameHeader) (payload : bytes) : v2 unit :=
  match V2FrameHeader.kind h with
  | FrameKind.GET_TEMPERATURE_REQUEST | FrameKind.GET_RUNTIME_HEALTH_REQUEST => Ok tt
  | FrameKind.CHECKSUM_BENCHMARK_RESPONSE =>
      check_diagnostic CHECKSUM_BENCHMARK_RESPONSE_CYCLE_COUNTER_HZ_OFFSET
        V1Payload._validate_checksum_benchmark_response payload
  | FrameKind.GPIO_CLOCK_DIAGNOSTIC_RESPONSE =>
      check_diagnostic GPIO_CLOCK_DIAGNOSTIC_RESPONSE_DWT_COUNTER_HZ_OFFSET
        V1Payload._validate_gpio_clock_diagnostic_response payload
  | FrameKind.GET_TEMPERATURE_RESPONSE => _ ← decode_temperature_payload payload; Ok tt
  | FrameKind.GET_RUNTIME_HEALTH_RESPONSE => _ ← decode_runtime_health_payload payload; Ok tt
  | FrameKind.INFO_RESPONSE => _validate_info_payload payload
  | FrameKind.CONFIGURE_RESPONSE | FrameKind.START_RESPONSE => _ ← decode_v2_configuration payload true; Ok tt
  | FrameKind.GET_STATUS_RESPONSE => check_status_extension payload
  | FrameKind.GPIO_CAPTURE_DIAGNOSTIC_RESPONSE => check_capture_extension payload
  | _ => _validate_v1_compatible_control h payload
  end.

Definition _validate_v2_payload (h : V2FrameHeader) (payload : bytes) : v2 unit :=
  let kind := V2FrameHeader.kind h in
  _ ← reject (negb (zlen payload =? V2FrameHeader.payload_length h)) "payload length disagrees with header"
        "invalid_length" ErrorCode.INVALID_LENGTH;
  if decide (kind = FrameKind.ADC_DATA) then
    refuse (negb (V1Payload.adc_payload_codes_valid payload)) "ADC payload contains out-of-range codes"
  else if decide (kind = FrameKind.GPIO_DATA) then Ok tt
  else if decide (kind = FrameKind.CONFIGURE_REQUEST) then _ ← decode_v2_configuration payload false; Ok tt
  else if _TYPED_RESPONSE_KINDS kind || bool_decide (kind = FrameKind.ERROR_RESPONSE) then
    _ ← _validate_response_prefix h payload;
    if has (V2FrameHeader.flags h) FrameFlag.RESPONSE_ERROR then Ok tt else validate_control h payload
  else validate_control h payload.
End Dispatch.

(** ** Only validation errors *)

Lemma v2_clean_byte_at payload offset : 0 <= offset < zlen payload -> clean (byte_at payload offset).
Proof.
  intros H. apply raises_only_of_option. intros Hn. apply lookup_ge_None in Hn. unfold zlen in H. lia.
Qed.

Lemma v2_clean_u8_at payload offset : 0 <= offset < zlen payload -> clean (u8_at payload offset).
Proof.
  intros H. unfold u8_at, unpack1, unpack_from. change (calcsize [U8]) with 1%nat. unfold zlen in H.
  by rewrite (proj2 (Nat.leb_le _ _)) by lia.
Qed.

Lemma v2_clean_u16 payload offset : 0 <= offset < zlen payload - 1 -> clean (_u16 payload offset).
Proof.
  intros H. unfold _u16, unpack1, unpack_from. change (calcsize [U16]) with 2%nat. unfold zlen in H.
  by rewrite (proj2 (Nat.leb_le _ _)) by lia.
Qed.

Lemma v2_clean_u32 payload offset : 0 <= offset < zlen payload - 3 -> clean (_u32 payload offset).
Proof.
  intros H. unfold _u32, unpack1, unpack_from. change (calcsize [U32]) with 4%nat. unfold zlen in H.
  by rewrite (proj2 (Nat.leb_le _ _)) by lia.
Qed.

Lemma v2_clean_member {A} `{IntEnum A} value message : clean (member (A:=A) value message).
Proof. by apply raises_only_of_option. Qed.
Lemma v2_clean_differs read expected : clean read -> clean (differs read expected).
Proof. intros H. by apply raises_only_bind. Qed.
Lemma clean_not_in read values : clean read -> clean (not_in read values).
Proof. intros H. by apply raises_only_bind. Qed.
Lemma v2_clean_anyR (l : list (v2 bool)) : Forall clean l -> clean (anyR l).
Proof. induction 1; [exact I|]. by apply raises_only_anyR. Qed.
Lemma clean_mapR {A B} (f : A -> v2 B) l : Forall (fun x => clean (f x)) l -> clean (mapR f l).
Proof.
  induction 1 as [|x l Hx _ IH]; [exact I|]. cbn [mapR]. apply raises_only_bind; [done|intros ? _].
  by apply raises_only_bind.
Qed.
Lemma v2_clean_unpack fs payload :
  zlen payload = Z.of_nat (calcsize fs) -> clean (of_option (unpack fs payload) (Uncaught "struct.error")).
Proof. intros H. unfold unpack, zlen in *. by rewrite (proj2 (Nat.eqb_eq _ _)) by lia. Qed.
Lemma v2_clean_unpack_from fs payload :
  Z.of_nat (calcsize fs) <= zlen payload -> clean (of_option (unpack_from fs payload 0) (Uncaught "struct.error")).
Proof. intros H. unfold unpack_from, zlen in *. by rewrite (proj2 (Nat.leb_le _ _)) by lia. Qed.
#[export] Hint Resolve v2_clean_member v2_clean_refuse v2_clean_reject : daq.

(** A read at a constant offset, inside a payload whose length is a hypothesis. *)
Ltac in_payload :=
  match goal with
  | H : zlen ?p = _ |- context [zlen ?p] => rewrite H; first [by vm_compute | split; [by vm_compute|reflexivity]]
  end.

Ltac clean_read :=
  match goal with
  | |- raises_only _ (byte_at _ _) => apply v2_clean_byte_at; in_payload
  | |- raises_only _ (u8_at _ _) => apply v2_clean_u8_at; in_payload
  | |- raises_only _ (_u16 _ _) => apply v2_clean_u16; in_payload
  | |- raises_only _ (_u32 _ _) => apply v2_clean_u32; in_payload
  | |- raises_only _ (differs _ _) => apply v2_clean_differs
  | |- raises_only _ (not_in _ _) => apply clean_not_in
  | |- raises_only _ (of_option (unpack ?fs _) _) => apply (v2_clean_unpack fs); in_payload
  | |- raises_only _ (of_option (unpack_from ?fs _ 0) _) => apply (v2_clean_unpack_from fs); in_payload
  | |- raises_only _ (table_differs _ _ _) => unfold table_differs; cbn [map]
  | |- raises_only _ (anyR _) => apply v2_clean_anyR; repeat (apply Forall_cons; split); [..|constructor]
  | |- raises_only _ (let '_ := AUX_BANK_LAYOUTS ?m in _) => destruct m; cbn [AUX_BANK_LAYOUTS]
  end.
Ltac cleanly := intros; repeat first [clean_read | clean_step].

Lemma clean_rate_profile adc_rate gpio_rate : clean (_rate_profile_for_pair adc_rate gpio_rate).
Proof. unfold _rate_profile_for_pair. cleanly. Qed.
#[export] Hint Resolve clean_rate_profile : daq.

Lemma clean_decode_body s src c m f a g : clean (decode_body s src c m f a g).
Proof. unfold decode_body. cleanly. Qed.
#[export] Hint Resolve clean_decode_body : daq.

Lemma clean_decode_configuration payload response : clean (decode_v2_configuration payload response).
Proof.
  unfold decode_v2_configuration. cbv zeta. apply raises_only_bind; [apply v2_clean_reject|intros ? Hl].
  apply v2_reject_Ok, negb_false_iff, Z.eqb_eq in Hl. destruct response; cleanly.
Qed.
#[export] Hint Resolve clean_decode_configuration : daq.

Lemma v2_clean_response_prefix h payload : 4 <= zlen payload -> clean (_validate_response_prefix h payload).
Proof.
  intros Hl. unfold _validate_response_prefix. apply raises_only_bind; [by apply (v2_clean_unpack_from _RESPONSE_PREFIX)|cleanly].
Qed.

Lemma clean_health payload : clean (decode_runtime_health_payload payload).
Proof.
  unfold decode_runtime_health_payload. apply raises_only_bind; [apply v2_clean_refuse|intros ? Hl].
  apply v2_refuse_Ok, negb_false_iff, Z.eqb_eq in Hl. cleanly.
Qed.

Lemma clean_temperature payload : clean (decode_temperature_payload payload).
Proof.
  unfold decode_temperature_payload. apply raises_only_bind; [apply v2_clean_refuse|intros ? Hl].
  apply v2_refuse_Ok, negb_false_iff, Z.eqb_eq in Hl. cleanly.
Qed.
#[export] Hint Resolve clean_health clean_temperature : daq.

(** Every row of the profile table lies inside the payload. *)
Lemma clean_profile_fields payload offset cpu_hz expected :
  0 <= offset <= zlen payload - 48 -> clean (mapR (check_profile_field payload offset cpu_hz expected) scalar_fields).
Proof.
  intros Ho. apply clean_mapR. unfold scalar_fields.
  repeat (apply Forall_cons; split); [..|constructor]; cbn [check_profile_field];
    (apply raises_only_bind; [|intros; apply v2_clean_reject]);
    match goal with |- context [offset + ?f] => let v := eval vm_compute in f in change f with v end;
    first [apply v2_clean_u32; lia | apply v2_clean_u16; lia | apply v2_clean_u8_at; lia].
Qed.

Lemma clean_profile_row payload cpu_hz index profile :
  zlen payload = 680 -> (index < 5)%nat -> clean (check_profile_row payload cpu_hz index profile).
Proof.
  intros Hl Hi. unfold check_profile_row. cbv zeta.
  assert (Ho : 0 <= INFO_RESPONSE_RATE_PROFILES_OFFSET + Z.of_nat index * RATE_PROFILE_INFO_PAYLOAD_SIZE <= 632).
  { unfold INFO_RESPONSE_RATE_PROFILES_OFFSET, RATE_PROFILE_INFO_PAYLOAD_SIZE. lia. }
  set (offset := _ + _) in *.
  repeat (apply raises_only_bind; [first [apply v2_clean_refuse | apply v2_clean_differs, v2_clean_byte_at;
    unfold RATE_PROFILE_INFO_RESERVED_OFFSET, RATE_PROFILE_INFO_RATE_PROFILE_OFFSET; lia
    | apply clean_profile_fields; lia]|intros ? _]). exact I.
Qed.

Lemma clean_profile_table payload : zlen payload = 680 -> clean (_validate_info_profile_table payload).
Proof.
  intros Hl. unfold _validate_info_profile_table. apply raises_only_bind; [clean_read|intros cpu_hz _].
  apply raises_only_bind; [apply v2_clean_refuse|intros ? _]. apply raises_only_bind; [|intros; exact I].
  apply clean_mapR. cbn [members length seq zip zip_with V2RateProfile.V2RateProfile_enum].
  repeat (apply Forall_cons; split); [..|constructor]; (apply clean_profile_row; [done|lia]).
Qed.
#[export] Hint Resolve clean_profile_table : daq.

Lemma v2_clean_validate_info payload : zlen payload = 680 -> clean (_validate_info_payload payload).
Proof.
  unfold _validate_info_payload, check_info_reserved, check_info_capabilities, check_info_selection, check_info_pins,
    check_info_layout, check_info_resources. cleanly.
Qed.

Lemma clean_status_extension payload : zlen payload = 1476 -> clean (check_status_extension payload).
Proof. unfold check_status_extension. cleanly. Qed.

Lemma clean_capture_extension payload : zlen payload = 272 -> clean (check_capture_extension payload).
Proof. unfold check_capture_extension. cleanly. Qed.

Lemma clean_from_v1 {A} (m : V1Header.v1 A) : raises_only V1Header.is_frame_error m -> clean (from_v1 m).
Proof. destruct m as [a|[]]; cbn; try done. Qed.

Lemma clean_from_v1_values {A} (m : V1Header.v1 A) :
  raises_only V1Header.is_frame_error m -> clean (from_v1_values m).
Proof. destruct m as [a|[]]; cbn; try done. Qed.

Lemma clean_diagnostic offset validator payload :
  0 <= offset < zlen payload - 3 ->
  (forall clock_hz, 450000000 <= clock_hz -> raises_only V1Header.is_frame_error (validator payload clock_hz)) ->
  clean (check_diagnostic offset validator payload).
Proof.
  intros Ho Hv. unfold check_diagnostic. apply raises_only_bind; [by apply v2_clean_u32|intros clock_hz _].
  apply raises_only_bind; [apply v2_clean_refuse|intros ? Hc].
  apply v2_refuse_Ok, negb_false_iff, bool_decide_eq_true in Hc. apply clean_from_v1, Hv.
  rewrite !elem_of_cons, elem_of_nil in Hc. lia.
Qed.

Section Dispatch_clean.
Context (little : bool).

Lemma clean_v1_compatible h payload : wf_bytes payload -> clean (_validate_v1_compatible_control little h payload).
Proof.
  intros Hw. unfold _validate_v1_compatible_control. apply raises_only_bind; [by apply raises_only_of_option|intros k _].
  apply raises_only_bind; [by apply clean_from_v1_values, V1Frames.clean_encode_frame|done].
Qed.
#[local] Hint Resolve clean_v1_compatible : daq.

(** A successful response, or a command other than CONFIGURE, of a well-formed header. *)
Lemma clean_validate_control h payload :
  wf_bytes payload ->
  (_TYPED_RESPONSE_KINDS (V2FrameHeader.kind h) = true -> zlen payload = response_size (V2FrameHeader.kind h)) ->
  clean (validate_control little h payload).
Proof.
  intros Hw Hl. unfold validate_control. destruct (V2FrameHeader.kind h); try exact I;
    try (by apply clean_v1_compatible); specialize (Hl eq_refl); cbn [response_size] in Hl;
    try (apply raises_only_bind; [auto with daq|done]).
  - by apply v2_clean_validate_info.
  - by apply clean_status_extension.
  - apply clean_diagnostic; [rewrite Hl; by vm_compute|]. intros clock_hz Hc.
    apply V1Payload.clean_benchmark_response; [done|lia].
  - apply clean_diagnostic; [rewrite Hl; by vm_compute|]. intros clock_hz Hc.
    apply V1Payload.clean_gpio_clock_response; [done|lia].
  - by apply clean_capture_extension.
Qed.

Lemma v2_clean_validate_payload h payload :
  header_wf h -> wf_bytes payload -> clean (_validate_v2_payload little h payload).
Proof.
  intros Hwf Hw. unfold _validate_v2_payload. cbv zeta. apply raises_only_bind; [apply v2_clean_reject|intros u Hl].
  apply v2_reject_Ok, negb_false_iff, Z.eqb_eq in Hl.
  case_decide as H1; [apply v2_clean_refuse|]. case_decide as H2; [exact I|].
  case_decide as H3; [apply raises_only_bind; [auto with daq|done]|].
  assert (Hd : _DATA_KINDS (V2FrameHeader.kind h) = false) by (by destruct (V2FrameHeader.kind h)).
  destruct Hwf as (_ & _ & _ & _ & _ & Hwf). rewrite Hd in Hwf. destruct Hwf as (_ & _ & _ & Hwf).
  destruct (_TYPED_RESPONSE_KINDS _ || _) eqn:Hk.
  - assert (Hr : _REQUEST_KINDS (V2FrameHeader.kind h) = false) by (by destruct (V2FrameHeader.kind h)).
    rewrite Hr in Hwf. assert (Hs : 4 <= zlen payload).
    { rewrite Hl. destruct Hwf as [(_ & _ & -> & _)|[_ ->]]; [apply v2_control_sizes|by destruct (decide _)]. }
    apply raises_only_bind; [by apply v2_clean_response_prefix|intros ? _].
    destruct Hwf as [(Hf & Hne & Hp & _)|[Hf _]]; rewrite Hf.
    + change (has 0 FrameFlag.RESPONSE_ERROR) with false. apply clean_validate_control; [done|]. intros _. congruence.
    + change (has FrameFlag.RESPONSE_ERROR FrameFlag.RESPONSE_ERROR) with true. exact I.
  - apply orb_false_iff in Hk as [Hk _]. apply clean_validate_control; [done|]. congruence.
Qed.
End Dispatch_clean.

(** ** What the decoders accept *)

(** The rate checks before the table lookup reject no declared pair. *)
Lemma rate_profile_exact adc_rate gpio_rate profile :
  _rate_profile_for_pair adc_rate gpio_rate = Ok profile <->
  adc_rate = RateProfileTiming.adc_pair_rate_hz (RATE_PROFILE_TIMING profile) /\
  gpio_rate = RateProfileTiming.gpio_sample_rate_hz (RATE_PROFILE_TIMING profile).
Proof.
  split.
  - unfold _rate_profile_for_pair. cbv zeta. rewrite !require_bind. intros (_ & _ & H).
    apply of_option_Ok_inv, find_some in H as [_ H]. apply andb_true_iff in H as [Ha Hg]. lia.
  - intros [-> ->]. destruct profile; vm_compute; reflexivity.
Qed.

(** A valid configuration: known streams, a source (hardware when no stream is
    selected), an implemented checksum, 4096-byte frames and a declared rate pair. *)
Definition configuration_wf (c : V2ConfigurationFields) : Prop :=
  0 <= V2ConfigurationFields.stream_mask c < 4 /\
  V2ConfigurationFields.data_checksum_algorithm c <> NONE_RESERVED /\
  (V2ConfigurationFields.stream_mask c = 0 -> V2ConfigurationFields.source c = Source.HARDWARE) /\
  V2ConfigurationFields.data_frame_bytes c = 4096 /\
  V2ConfigurationFields.adc_pair_rate_hz c =
    RateProfileTiming.adc_pair_rate_hz (RATE_PROFILE_TIMING (V2ConfigurationFields.rate_profile c)) /\
  V2ConfigurationFields.gpio_sample_rate_hz c =
    RateProfileTiming.gpio_sample_rate_hz (RATE_PROFILE_TIMING (V2ConfigurationFields.rate_profile c)).

Definition request_fields (c : V2ConfigurationFields) : fvals _CONFIGURE_REQUEST :=
  (V2ConfigurationFields.stream_mask c, (int_of (V2ConfigurationFields.source c),
  (int_of (V2ConfigurationFields.data_checksum_algorithm c), (int_of (V2ConfigurationFields.aux_bank_mode c),
  (V2ConfigurationFields.data_frame_bytes c, (V2ConfigurationFields.adc_pair_rate_hz c,
  (V2ConfigurationFields.gpio_sample_rate_hz c, tt))))))).

Definition response_fields (c : V2ConfigurationFields) : fvals _CONFIGURE_RESPONSE := (0, (0, (0, request_fields c))).

(** The bytes of a configuration as a command, and as a successful echo. *)
Definition configuration_bytes (c : V2ConfigurationFields) (response : bool) : option bytes :=
  if response then pack _CONFIGURE_RESPONSE (response_fields c) else pack _CONFIGURE_REQUEST (request_fields c).

Lemma request_fields_ok c : configuration_wf c -> fvals_ok _CONFIGURE_REQUEST (request_fields c).
Proof.
  intros (Hs & _ & _ & Hf & Ha & Hg). destruct c as [s src ck m f a g p]. cbn -[Z.pow int_of RATE_PROFILE_TIMING] in *.
  assert (0 <= int_of src < 256) by (by destruct src). assert (0 <= int_of ck < 256) by (by destruct ck).
  assert (0 <= int_of m < 256) by (by destruct m). pow_lit. destruct p; cbn in Ha, Hg; lia.
Qed.

Lemma v2_known_streams f : 0 <= f -> has f (Z.lnot valid_stream_bits) = false <-> f < 4.
Proof. intros Hf. rewrite V1Header.has_false. by apply (land_lnot_ones f 2). Qed.

Lemma decode_body_exact s rsrc rck rm f a g c :
  0 <= s ->
  decode_body s rsrc rck rm f a g = Ok c <->
  configuration_wf c /\ (s, (rsrc, (rck, (rm, (f, (a, (g, tt))))))) = request_fields c.
Proof.
  intros Hs. unfold decode_body. cbv zeta. rewrite v2_refuse_bind, v2_known_streams, of_option_bind by done. split.
  - intros (Hs4 & src & Hsrc & H). apply of_option_bind in H as (ck & Hck & H). apply of_option_bind in H as (m & Hm & H).
    apply enum_of_Some in Hsrc, Hck, Hm.
    rewrite !v2_refuse_bind, v1_algorithm_bind, v2_refuse_bind, andb_false_iff, negb_false_iff, negb_false_iff in H.
    rewrite !bool_decide_eq_true, bool_decide_eq_false, Z.eqb_eq, Z.eqb_neq in H.
    destruct H as (Hz & Hne & _ & Hf & H). apply bind_Ok_inv in H as (p & Hp & H). apply Ok_inj in H. subst c.
    apply rate_profile_exact in Hp as [Ha Hg]. split; [|by unfold request_fields; cbn -[int_of]; rewrite Hsrc, Hck, Hm].
    repeat split; cbn -[RATE_PROFILE_TIMING]; try done. intros E. by destruct Hz.
  - intros ((Hs4 & Hne & Hz & Hf & Ha & Hg) & E). destruct c as [s' src ck m f' a' g' p]. unfold request_fields in E.
    cbn [V2ConfigurationFields.stream_mask V2ConfigurationFields.source V2ConfigurationFields.data_checksum_algorithm
      V2ConfigurationFields.aux_bank_mode V2ConfigurationFields.data_frame_bytes
      V2ConfigurationFields.adc_pair_rate_hz V2ConfigurationFields.gpio_sample_rate_hz
      V2ConfigurationFields.rate_profile] in *.
    rewrite !pair_equal_spec in E. destruct E as (-> & -> & -> & -> & -> & -> & -> & _). split; [lia|]. exists src. rewrite enum_of_int. split; [done|].
    cbn [of_option mbind result_bind]. rewrite enum_of_int. cbn [of_option mbind result_bind]. rewrite enum_of_int.
    cbn [of_option mbind result_bind].
    rewrite !v2_refuse_bind, v1_algorithm_bind, v2_refuse_bind, andb_false_iff, negb_false_iff, negb_false_iff.
    rewrite !bool_decide_eq_true, bool_decide_eq_false, Z.eqb_eq, Z.eqb_neq.
    split; [destruct (decide (s' = 0)); [right; auto|by left]|]. repeat (split; [done|]).
    by rewrite (proj2 (rate_profile_exact a' g' p) (conj Ha Hg)).
Qed.

Lemma configuration_exact payload response c :
  wf_bytes payload ->
  decode_v2_configuration payload response = Ok c <->
  configuration_wf c /\ configuration_bytes c response = Some payload.
Proof.
  intros Hw. unfold decode_v2_configuration. cbv zeta. rewrite v2_reject_bind, negb_false_iff, Z.eqb_eq. split.
  - intros [Hl H]. unfold configuration_bytes. destruct response.
    + apply of_option_bind in H as (vs & Hvs & H). pose proof (unpack_packed _CONFIGURE_RESPONSE _ _ Hw Hvs) as [Hp Hok].
      destruct vs as (st & re & er & s & src & ck & m & f & a & g & []). cbn -[Z.pow] in Hok.
      rewrite v2_refuse_bind, !orb_false_iff, !negb_false_iff, !Z.eqb_eq in H.
      destruct H as ([[-> ->] ->] & H). apply decode_body_exact in H as [Hc Hf]; [|tauto]. split; [done|].
      unfold response_fields. by rewrite <-Hf.
    + apply of_option_bind in H as (vs & Hvs & H). pose proof (unpack_packed _CONFIGURE_REQUEST _ _ Hw Hvs) as [Hp Hok].
      destruct vs as (s & src & ck & m & f & a & g & []). cbn -[Z.pow] in Hok.
      apply decode_body_exact in H as [Hc Hf]; [|tauto]. split; [done|]. by rewrite <-Hf.
  - intros [Hc Hb]. pose proof (request_fields_ok c Hc) as Hok. pose proof (proj1 (proj1 Hc)) as Hs. unfold configuration_bytes in Hb.
    destruct response.
    + assert (Hok' : fvals_ok _CONFIGURE_RESPONSE (response_fields c)) by (repeat (split; [done|]); exact Hok).
      pose proof (pack_length _ _ _ Hb) as Hl. split; [unfold zlen; by rewrite Hl|].
      rewrite (unpack_pack _ _ _ Hok' Hb). unfold response_fields, request_fields. cbn [of_option mbind result_bind].
      rewrite v2_refuse_bind. split; [done|]. by apply decode_body_exact.
    + pose proof (pack_length _ _ _ Hb) as Hl. split; [unfold zlen; by rewrite Hl|].
      rewrite (unpack_pack _ _ _ Hok Hb). unfold request_fields. cbn [of_option mbind result_bind].
      by apply decode_body_exact.
Qed.

(** A reading is in the sensor's range, or says why there is none. *)
Definition temperature_wf (r : TemperatureReading) : Prop :=
  match TemperatureReading.status r, TemperatureReading.millidegrees_c r with
  | TemperatureStatus.VALID, Some value => -40000 <= value <= 150000
  | TemperatureStatus.VALID, None => False
  | _, Some _ => False
  | _, None => True
  end.

Definition temperature_fields (r : TemperatureReading) : fvals TEMPERATURE_FORMAT :=
  (0, (0, (0, (int_of (TemperatureReading.status r), (0, (0, (default 0 (TemperatureReading.millidegrees_c r), tt))))))).

Lemma temperature_exact payload r :
  wf_bytes payload ->
  decode_temperature_payload payload = Ok r <->
  temperature_wf r /\ pack TEMPERATURE_FORMAT (temperature_fields r) = Some payload.
Proof.
  intros Hw. unfold decode_temperature_payload. rewrite v2_refuse_bind, negb_false_iff, Z.eqb_eq, of_option_bind. split.
  - intros (_ & vs & Hvs & H). pose proof (unpack_packed TEMPERATURE_FORMAT _ _ Hw Hvs) as [Hp _].
    destruct vs as (st & re & er & sensor & re1 & re2 & v & []).
    rewrite v2_refuse_bind, !orb_false_iff, !negb_false_iff, !Z.eqb_eq in H. destruct H as (((((-> & ->) & ->) & ->) & ->) & H).
    apply of_option_bind in H as (s & Hs & H). apply enum_of_Some in Hs. subst sensor. case_decide as Hd.
    + subst s. rewrite v2_refuse_bind, negb_false_iff, andb_true_iff, !Z.leb_le in H. destruct H as [Hv H].
      apply Ok_inj in H. subst r. by split.
    + rewrite v2_refuse_bind, negb_false_iff, Z.eqb_eq in H. destruct H as [-> H]. apply Ok_inj in H. subst r.
      split; [by destruct s|done].
  - intros [Hr Hp]. pose proof (pack_length _ _ _ Hp) as Hl. split; [unfold zlen; by rewrite Hl|].
    assert (Hok : fvals_ok TEMPERATURE_FORMAT (temperature_fields r)).
    { destruct r as [s [v|]], s; cbn -[Z.pow] in *; try contradiction; pow_lit; lia. }
    exists (temperature_fields r). split; [by apply (unpack_pack TEMPERATURE_FORMAT)|]. unfold temperature_fields.
    rewrite v2_refuse_bind. split; [done|]. unfold member. rewrite enum_of_int. cbn [of_option mbind result_bind].
    destruct r as [s [v|]], s; cbn [temperature_wf TemperatureReading.status TemperatureReading.millidegrees_c] in Hr;
      try contradiction; (case_decide as Hd; [|try done]); try discriminate Hd.
    cbn [default TemperatureReading.millidegrees_c]. rewrite v2_refuse_bind, negb_false_iff, andb_true_iff, !Z.leb_le. by split.
Qed.

(** A watermark inside the stack, and flags that say which figures exist. *)
Definition health_wf (r : RuntimeHealth) : Prop :=
  0 <= RuntimeHealth.stack_min_free_bytes r <= RuntimeHealth.stack_total_bytes r /\
  RuntimeHealth.stack_total_bytes r < 2 ^ 32 /\
  RuntimeHealth.stack_max_used_bytes r = RuntimeHealth.stack_total_bytes r - RuntimeHealth.stack_min_free_bytes r /\
  0 <= RuntimeHealth.reset_cause r < 2 ^ 32 /\ 0 <= RuntimeHealth.watchdog_timeout_ms r < 2 ^ 32 /\
  RuntimeHealth.stack_available r = (0 <? RuntimeHealth.stack_total_bytes r) /\
  RuntimeHealth.watchdog_enabled r = (0 <? RuntimeHealth.watchdog_timeout_ms r).

Definition health_flags (r : RuntimeHealth) : Z :=
  (if RuntimeHealth.stack_available r then 1 else 0) + (if RuntimeHealth.watchdog_enabled r then 2 else 0).

Definition health_fields (r : RuntimeHealth) : fvals RUNTIME_HEALTH_FORMAT :=
  (0, (0, (0, (health_flags r, (RuntimeHealth.stack_total_bytes r, (RuntimeHealth.stack_min_free_bytes r,
  (RuntimeHealth.stack_max_used_bytes r, (RuntimeHealth.reset_cause r, (RuntimeHealth.watchdog_timeout_ms r,
  (0, tt)))))))))).

Lemma two_flags f : 0 <= f -> has f (Z.lnot 3) = false -> f = (if has f 1 then 1 else 0) + (if has f 2 then 2 else 0).
Proof.
  intros Hf H. apply V1Header.has_false, (land_lnot_ones f 2) in H; [|lia..].
  assert (f = 0 \/ f = 1 \/ f = 2 \/ f = 3) as [->|[->|[->| ->]]] by (change (2 ^ 2) with 4 in H; lia); reflexivity.
Qed.

Lemma health_exact payload r :
  wf_bytes payload ->
  decode_runtime_health_payload payload = Ok r <->
  health_wf r /\ pack RUNTIME_HEALTH_FORMAT (health_fields r) = Some payload.
Proof.
  intros Hw. unfold decode_runtime_health_payload. rewrite v2_refuse_bind, negb_false_iff, Z.eqb_eq, of_option_bind. split.
  - intros (_ & vs & Hvs & H). pose proof (unpack_packed RUNTIME_HEALTH_FORMAT _ _ Hw Hvs) as [Hp Hok].
    destruct vs as (st & re & er & flags & total & free & used & reset & timeout & re1 & []).
    cbn -[Z.pow] in Hok. destruct Hok as (_ & _ & _ & Hf & Ht & Hfr & _ & Hrs & Hto & _).
    rewrite !v2_refuse_bind, !orb_false_iff, !negb_false_iff, !Z.eqb_eq, Z.ltb_ge, !eqb_true_iff in H.
    destruct H as (((((-> & ->) & ->) & ->) & Hfl) & [Hle ->] & Ha & Hd & H). apply Ok_inj in H. subst r.
    unfold health_wf, health_fields, health_flags. cbn [RuntimeHealth.stack_available RuntimeHealth.watchdog_enabled
      RuntimeHealth.stack_total_bytes RuntimeHealth.stack_min_free_bytes RuntimeHealth.stack_max_used_bytes
      RuntimeHealth.reset_cause RuntimeHealth.watchdog_timeout_ms].
    split; [repeat split; (lia || done)|].
    by rewrite <-two_flags by (done || lia).
  - intros [Hr Hp]. pose proof (pack_length _ _ _ Hp) as Hl. split; [unfold zlen; by rewrite Hl|].
    destruct r as [av wd total free used reset timeout].
    destruct Hr as (Hfr & Ht & Hu & Hrs & Hto & Ha & Hd). cbn in Hfr, Ht, Hu, Hrs, Hto, Ha, Hd.
    set (r := RuntimeHealth.mk _ _ _ _ _ _ _) in *.
    assert (Hok : fvals_ok RUNTIME_HEALTH_FORMAT (health_fields r)).
    { subst r. unfold health_fields, health_flags. cbn -[Z.pow]. pow_lit. destruct av, wd; lia. }
    exists (health_fields r). split; [by apply (unpack_pack RUNTIME_HEALTH_FORMAT)|]. unfold health_fields. cbn [r RuntimeHealth.stack_total_bytes
      RuntimeHealth.stack_min_free_bytes RuntimeHealth.stack_max_used_bytes RuntimeHealth.reset_cause
      RuntimeHealth.watchdog_timeout_ms].
    assert (Hfl : has (health_flags r) 1 = av /\ has (health_flags r) 2 = wd /\ has (health_flags r) (Z.lnot 3) = false)
      by (subst r; destruct av, wd; done).
    destruct Hfl as (H1 & H2 & H3). rewrite H1, H2, H3, !v2_refuse_bind, !orb_false_iff, !negb_false_iff, !eqb_true_iff,
      Z.ltb_ge, Z.eqb_eq. repeat (split; [done || lia|]). done.
Qed.

(** ** Claims *)

(** C38. A configuration and its echo: the comparison succeeds exactly when both bodies are
    the encodings of one valid configuration, whose rates are those of a declared
    profile, and every valid configuration has both encodings. *)
Theorem configuration_echo_exact (request response : bytes) (c : V2ConfigurationFields)
    (Hq : wf_bytes request) (Hr : wf_bytes response) :
  (validate_v2_configuration_echo request response = Ok c <->
   configuration_wf c /\ configuration_bytes c false = Some request /\ configuration_bytes c true = Some response) /\
  (configuration_wf c -> is_Some (configuration_bytes c false) /\ is_Some (configuration_bytes c true)).
Proof.
  unfold validate_v2_configuration_echo. split; [split|].
  - intros H. apply bind_Ok_inv in H as (q & Hd & H). apply bind_Ok_inv in H as (a & Ha & H).
    apply require_bind in H as [E H]. apply bool_decide_eq_true in E. apply Ok_inj in H. subst a c.
    apply configuration_exact in Hd as [Hc Hb], Ha as [_ Hb']; done.
  - intros (Hc & Hb & Hb'). rewrite (proj2 (configuration_exact request false c Hq) (conj Hc Hb)).
    rewrite (proj2 (configuration_exact response true c Hr) (conj Hc Hb')). cbn [mbind result_bind].
    by rewrite bool_decide_eq_true_2.
  - intros Hc. pose proof (request_fields_ok c Hc) as Hok. split.
    + destruct (fvals_ok_pack _ _ Hok) as (b & Hb & _). by exists b.
    + assert (Hok' : fvals_ok _CONFIGURE_RESPONSE (response_fields c)) by (repeat (split; [done|]); exact Hok).
      destruct (fvals_ok_pack _ _ Hok') as (b & Hb & _). by exists b.
Qed.

(** Version 1 is selected for the disabled auxiliary bank at 1 MHz and 4 MHz, version 2
    for every other mode and declared profile; nothing else is accepted. *)
Theorem protocol_version_exact (aux_bank_mode adc_rate gpio_rate version : Z) :
  select_protocol_version aux_bank_mode adc_rate gpio_rate = Ok version <->
  exists mode profile, aux_bank_mode = int_of (A:=AuxBankMode) mode /\
    adc_rate = RateProfileTiming.adc_pair_rate_hz (RATE_PROFILE_TIMING profile) /\
    gpio_rate = RateProfileTiming.gpio_sample_rate_hz (RATE_PROFILE_TIMING profile) /\
    version = if decide (mode = AuxBankMode.DISABLED /\ profile = RateProfile.ADC_1MHZ_GPIO_4MHZ) then 1 else 2.
Proof.
  unfold select_protocol_version. rewrite of_option_bind. split.
  - intros (mode & Hm & H). apply enum_of_Some in Hm. apply bind_Ok_inv in H as (p & Hp & H).
    apply rate_profile_exact in Hp as [-> ->]. exists mode, p. repeat split; [done|].
    destruct mode, p; cbn in H |- *; by injection H as <-.
  - intros (mode & p & -> & Ha & Hg & ->). exists mode. split; [apply enum_of_int|].
    rewrite (proj2 (rate_profile_exact adc_rate gpio_rate p) (conj Ha Hg)). subst. by destruct mode, p.
Qed.

(** The temperature and runtime-health decoders accept exactly the encodings of
    consistent readings: a signed value in the sensor's range or none at all, a
    watermark inside the stack, and flags that agree with the figures. *)
Theorem readings_exact (payload : bytes) (t : TemperatureReading) (h : RuntimeHealth) (Hw : wf_bytes payload) :
  (decode_temperature_payload payload = Ok t <->
   temperature_wf t /\ pack TEMPERATURE_FORMAT (temperature_fields t) = Some payload) /\
  (decode_runtime_health_payload payload = Ok h <->
   health_wf h /\ pack RUNTIME_HEALTH_FORMAT (health_fields h) = Some payload).
Proof. split; [by apply temperature_exact|by apply health_exact]. Qed.

(** ** Witnesses *)

Definition example_configuration : V2ConfigurationFields :=
  V2ConfigurationFields.mk 3 Source.SYNTHETIC CRC32C AuxBankMode.INPUT 4096 500000 2000000
    RateProfile.ADC_500KHZ_GPIO_2MHZ.

Definition example_bytes (response : bool) : bytes :=
  Eval vm_compute in default [] (configuration_bytes example_configuration response).

(** Minus ten degrees. *)
Definition cold_bytes : bytes := [0; 0; 0; 0; 0; 0; 0; 0; 240; 216; 255; 255].

Lemma configuration_echo_exact_witness :
  validate_v2_configuration_echo (example_bytes false) (example_bytes true) = Ok example_configuration /\
  configuration_wf example_configuration.
Proof.
  assert (Hq : wf_bytes (example_bytes false)) by (apply (bool_decide_unpack _); vm_compute; exact I).
  assert (Hr : wf_bytes (example_bytes true)) by (apply (bool_decide_unpack _); vm_compute; exact I).
  assert (He : validate_v2_configuration_echo (example_bytes false) (example_bytes true) = Ok example_configuration)
    by (vm_compute; reflexivity).
  split; [exact He|].
  exact (proj1 (proj1 (proj1 (configuration_echo_exact _ _ example_configuration Hq Hr)) He)).
Defined.

Lemma readings_exact_witness :
  wf_bytes cold_bytes /\
  temperature_wf (TemperatureReading.mk TemperatureStatus.VALID (Some (-10000))) /\
  decode_temperature_payload cold_bytes = Ok (TemperatureReading.mk TemperatureStatus.VALID (Some (-10000))).
Proof.
  assert (Hw : wf_bytes cold_bytes) by (apply (bool_decide_unpack _); vm_compute; exact I).
  assert (Hd : decode_temperature_payload cold_bytes = Ok (TemperatureReading.mk TemperatureStatus.VALID (Some (-10000))))
    by (vm_compute; reflexivity).
  split; [exact Hw|].
  split; [|exact Hd].
  exact (proj1 (proj1 (proj1 (readings_exact cold_bytes
    (TemperatureReading.mk TemperatureStatus.VALID (Some (-10000))) (RuntimeHealth.mk false false 0 0 0 0 0) Hw)) Hd)).
Defined.
