(* ===== verification/V2Frames.v ===== *)
(** * Protocol-v2 frames ([protocol_v2.py]).

    Whole frames: the checksum dispatch, [encode_v2_frame], [decode_v2_frame] and the
    in-place decoder of the streaming parser, an instance of the framing interface.
    The lemmas on [frame_on_wire] say that the two decoders and the encoder agree on which
    byte strings are frames; which payloads they accept is the code's own validation. *)

From S2P Require Import Prelude PyStruct Checksum Incremental V2Constants V2Header V2Payload.
From S2P Require V1Frames.

(** ** Checksums *)

Section Codec.
(** [sys.byteorder == "little"] *)
Context (little : bool).

Definition compute_v2_checksum (data : bytes) (algorithm : Z) : v2 Z :=
  selected ← of_option (enum_of algorithm) (V2UnsupportedChecksumError algorithm);
  supported ← _v1_checksum_algorithm selected;
  match compute_checksum_value little data supported with
  | Ok (Some result) => Ok result
  | Ok None => Err (V2UnsupportedChecksumError (int_of selected))
  | Err _ => Err (Uncaught "IndexError")
  end.

(** ** Encoding *)

Definition _TRAILER : list fcode := Eval vm_compute in struct_format "<I".

Definition pack_trailer (checksum : Z) : v2 bytes :=
  of_option (pack _TRAILER (checksum, tt)) (Uncaught "struct.error").

(** [V2Frame.to_bytes] *)
Definition frame_to_bytes (f : V2Frame) : v2 bytes :=
  header ← header_to_bytes (V2Frame.header f);
  trailer ← pack_trailer (V2Frame.checksum f);
  Ok (header ++ V2Frame.payload f ++ trailer).

(** [flags] is a nonnegative integer, which [FrameFlag(flags)] keeps. *)
Definition encode_v2_frame (kind : Z) (payload : bytes) (flags : N) (checksum_algorithm : option Z)
    (run_id sequence request_id first_sample_ticks item_count : Z) : v2 bytes :=
  selected_kind ← of_option (enum_of kind) (invalid "unknown frame kind or flags");
  selected_checksum ←
    match checksum_algorithm with
    | None => Ok (if _DATA_KINDS selected_kind then DEFAULT_CHECKSUM_ALGORITHM else BOOTSTRAP_CHECKSUM_ALGORITHM)
    | Some algorithm => of_option (enum_of algorithm) (Uncaught "ValueError")
    end;
  let header := V2FrameHeader.mk selected_kind (Z.of_N flags) selected_checksum
                  (HEADER_SIZE + zlen payload + TRAILER_SIZE) (zlen payload) run_id sequence request_id
                  first_sample_ticks item_count PROTOCOL_VERSION HEADER_SIZE in
  _ ← _validate_v2_header header;
  _ ← _validate_v2_payload little header payload;
  head ← header_to_bytes header;
  let body := head ++ payload in
  checksum ← compute_v2_checksum body (int_of selected_checksum);
  trailer ← pack_trailer checksum;
  Ok (body ++ trailer).

(** ** Decoding *)

Definition decode_v2_frame (frame_bytes : bytes) : v2 V2Frame :=
  header ← _decode_v2_header frame_bytes 0;
  _ ← reject (negb (zlen frame_bytes =? V2FrameHeader.total_length header))
        "declared frame length is {header.total_length}, got {len(frame_bytes)}" "invalid_length"
        ErrorCode.INVALID_LENGTH;
  let payload_end := Z.to_nat (HEADER_SIZE + V2FrameHeader.payload_length header) in
  '(observed_checksum, _) ← of_option (unpack_from _TRAILER frame_bytes payload_end) (Uncaught "struct.error");
  expected_checksum ← compute_v2_checksum (take payload_end frame_bytes)
                        (int_of (V2FrameHeader.checksum_algorithm header));
  _ ← require (observed_checksum =? expected_checksum) (V2ChecksumMismatchError expected_checksum observed_checksum);
  let payload := slice (Z.to_nat HEADER_SIZE) payload_end frame_bytes in
  _ ← _validate_v2_payload little header payload;
  Ok (V2Frame.mk header payload observed_checksum).

(** The same checks on a complete frame inside the parser's buffer. *)
Definition _decode_buffered_v2_frame (buffer : bytes) (offset : nat) (header : V2FrameHeader) : v2 V2Frame :=
  let payload_start := (offset + Z.to_nat HEADER_SIZE)%nat in
  let payload_end := (payload_start + Z.to_nat (V2FrameHeader.payload_length header))%nat in
  '(observed_checksum, _) ← of_option (unpack_from _TRAILER buffer payload_end) (Uncaught "struct.error");
  expected_checksum ← compute_v2_checksum (slice offset payload_end buffer)
                        (int_of (V2FrameHeader.checksum_algorithm header));
  _ ← require (observed_checksum =? expected_checksum) (V2ChecksumMismatchError expected_checksum observed_checksum);
  let payload := slice payload_start payload_end buffer in
  _ ← _validate_v2_payload little header payload;
  Ok (V2Frame.mk header payload observed_checksum).

(** ** The streaming parser *)

Definition _MAX_FRAME_BYTES : Z := Z.max MAX_DATA_FRAME_BYTES MAX_CONTROL_FRAME_BYTES.

(** [except V2ChecksumMismatchError] and [except V2FrameValidationError] of the loop. *)
Definition v2_fault (e : v2_error) : frame_fault :=
  match e with V2ChecksumMismatchError _ _ => ChecksumFault | Uncaught exception => Escaped exception | _ => ValidationFault end.

(** [IncrementalV2FrameParser.__init__] *)
#[export] Instance v2_codec : FrameCodec V2FrameHeader V2Frame := {
  magic_bytes := MAGIC_BYTES;
  header_size := Z.to_nat HEADER_SIZE;
  max_frame_bytes := Z.to_nat _MAX_FRAME_BYTES;
  total_length h := Z.to_nat (V2FrameHeader.total_length h);
  decode_header data offset := sorted_by v2_fault (_decode_v2_header data (Z.of_nat offset));
  decode_frame data offset h := sorted_by v2_fault (_decode_buffered_v2_frame data offset h)
}.

Definition IncrementalV2FrameParser : Type := Parser V2FrameHeader.

(** ** Frame facts *)

Lemma v2_compute_checksum_Ok data a :
  wf_bytes data -> compute_v2_checksum data (int_of a) =
    of_option (checksum_reference a data) (V2UnsupportedChecksumError (int_of a)).
Proof.
  intros Hw. unfold compute_v2_checksum. rewrite enum_of_int. cbn [of_option mbind result_bind].
  destruct (decide (a = NONE_RESERVED)) as [->|Hne]; [done|].
  assert (_v1_checksum_algorithm a = Ok a) as -> by (by destruct a). cbn [mbind result_bind].
  rewrite compute_checksum_reference by done. by destruct (checksum_reference a data).
Qed.

Lemma v2_pack_trailer_Ok c : 0 <= c < 2 ^ 32 -> pack_trailer c = Ok (to_le 4 c).
Proof.
  intros Hc. unfold pack_trailer. cbn -[fits to_le]. rewrite (proj2 (fits_spec 4 c)) by (pow_lit; lia).
  cbn -[to_le]. by rewrite app_nil_r.
Qed.

Lemma v2_unpack_trailer data end_ :
  (end_ + 4 <= length data)%nat -> unpack_from _TRAILER data end_ = Some (from_le (take 4 (drop end_ data)), tt).
Proof. intros H. unfold unpack_from. change (calcsize _TRAILER) with 4%nat. by rewrite (proj2 (Nat.leb_le _ _)) by lia. Qed.

(** The two decoders agree on a whole frame. *)
Lemma v2_decode_frame_buffered wire h :
  _decode_v2_header wire 0 = Ok h -> header_wf h -> zlen wire = V2FrameHeader.total_length h ->
  decode_v2_frame wire = _decode_buffered_v2_frame wire 0 h.
Proof.
  intros Hh Hwf Hl. unfold decode_v2_frame. rewrite Hh. cbn [mbind result_bind].
  rewrite (proj2 (Z.eqb_eq _ _)) by done. cbn [negb reject require mbind result_bind].
  unfold _decode_buffered_v2_frame. cbv zeta. destruct (v2_header_wf_bounds h Hwf) as (Hp & _).
  replace (Z.to_nat (HEADER_SIZE + V2FrameHeader.payload_length h))
    with (0 + Z.to_nat HEADER_SIZE + Z.to_nat (V2FrameHeader.payload_length h))%nat by (unfold HEADER_SIZE; lia).
  assert (Hs : forall e, slice 0 e wire = take e wire) by (intros e; unfold slice; by rewrite drop_0, Nat.sub_0_r).
  by rewrite Hs.
Qed.

(** ** What a frame on the wire is *)

(** The payload clause is the code's own [_validate_v2_payload]: what a payload may hold is
    stated apart, for configurations in [V2Payload]. *)
Definition frame_on_wire (f : V2Frame) (wire : bytes) : Prop :=
  exists head, header_to_bytes (V2Frame.header f) = Ok head /\ header_wf (V2Frame.header f) /\
    wf_bytes (V2Frame.payload f) /\ zlen (V2Frame.payload f) = V2FrameHeader.payload_length (V2Frame.header f) /\
    checksum_reference (V2FrameHeader.checksum_algorithm (V2Frame.header f)) (head ++ V2Frame.payload f) = Some (V2Frame.checksum f) /\
    wire = head ++ V2Frame.payload f ++ to_le 4 (V2Frame.checksum f) /\
    _validate_v2_payload little (V2Frame.header f) (V2Frame.payload f) = Ok tt.

Lemma v2_frame_on_wire_size f wire :
  frame_on_wire f wire ->
  wf_bytes wire /\ zlen wire = V2FrameHeader.total_length (V2Frame.header f) /\ 48 <= zlen wire <= 4096.
Proof.
  intros (head & Hh & Hwf & Hwp & Hlp & _ & -> & _).
  destruct (v2_header_wf_to_bytes _ Hwf) as (head' & Hh' & Hw & Hl). assert (head' = head) as -> by congruence.
  split; [rewrite !wf_bytes_app; auto with daq|].
  destruct (v2_header_wf_bounds _ Hwf) as (Hp & _ & _). destruct Hwf as (_ & _ & Ht & _).
  unfold zlen in *. rewrite !length_app, length_to_le. lia.
Qed.

(** The in-place decoder accepts exactly a right checksum on a valid payload. *)
Lemma v2_decode_buffered_iff wire h f :
  wf_bytes wire -> header_wf h -> zlen wire = V2FrameHeader.total_length h ->
  _decode_buffered_v2_frame wire 0 h = Ok f <->
  exists body c, wire = body ++ to_le 4 c /\ checksum_reference (V2FrameHeader.checksum_algorithm h) body = Some c /\
    f = V2Frame.mk h (drop 44 body) c /\ _validate_v2_payload little h (drop 44 body) = Ok tt.
Proof.
  intros Hw Hwf Hl. destruct (v2_header_wf_bounds h Hwf) as (Hp & _ & _).
  destruct Hwf as (_ & _ & Ht & _ & Hne & _). unfold zlen in Hl.
  set (e := (length wire - 4)%nat). assert (He : (e + 4 = length wire)%nat) by lia.
  assert (Hbody : wf_bytes (take e wire)) by auto with daq.
  unfold _decode_buffered_v2_frame. cbv zeta. change (Z.to_nat HEADER_SIZE) with 44%nat.
  replace (0 + 44 + Z.to_nat (V2FrameHeader.payload_length h))%nat with e by lia.
  assert (Hs0 : slice 0 e wire = take e wire) by (unfold slice; by rewrite drop_0, Nat.sub_0_r).
  assert (Hs44 : slice (0 + 44) e wire = drop 44 (take e wire)).
  { unfold slice. cbn [Nat.add]. by rewrite skipn_firstn_comm. }
  rewrite Hs0, Hs44, v2_compute_checksum_Ok by done. rewrite v2_unpack_trailer by lia. cbn [of_option mbind result_bind].
  assert (Htl : take 4 (drop e wire) = drop e wire) by (apply take_ge; len). rewrite Htl.
  destruct (V1Frames.checksum_reference_supported _ (take e wire) Hne) as (c & Hc). rewrite Hc. cbn [of_option mbind result_bind].
  pose proof (V1Frames.checksum_reference_range _ _ _ Hbody Hc) as Hr. split.
  - intros H. apply require_bind in H as [Heq H]. apply Z.eqb_eq in Heq.
    apply bind_Ok_inv in H as ([] & Hv & H). apply Ok_inj in H. subst f. exists (take e wire), c.
    assert (Htr : to_le 4 c = drop e wire).
    { rewrite <-Heq. assert (Hl4 : length (drop e wire) = 4%nat) by len. rewrite <-Hl4 at 1. apply to_from_le. auto with daq. }
    rewrite Htr, take_drop, Heq. split; [done|]. split; [done|]. split; [done|]. exact Hv.
  - intros (body & c' & Hwire & Hc' & -> & Hv).
    assert (Hlb : length body = e) by (apply (f_equal length) in Hwire; len).
    assert (Htake : take e wire = body) by (rewrite Hwire; by apply take_app_exact).
    assert (Hdrop : drop e wire = to_le 4 c') by (rewrite Hwire; by apply drop_app_exact).
    rewrite Htake in *. assert (c' = c) as -> by congruence. rewrite Hdrop, from_to_le_small by (pow_lit; lia).
    rewrite Z.eqb_refl, Hv. done.
Qed.

Lemma v2_decode_frame_iff wire f :
  wf_bytes wire -> decode_v2_frame wire = Ok f <-> frame_on_wire f wire.
Proof.
  intros Hw. split.
  - intros H. pose proof H as H'. unfold decode_v2_frame in H'. apply bind_Ok_inv in H' as (h & Hh & H').
    apply v2_reject_bind in H' as [Ht _]. apply negb_false_iff, Z.eqb_eq in Ht.
    pose proof Hh as Hh'. apply v2_decode_header_iff in Hh' as (_ & Hwf & Hlen & Hb); [|done].
    change (Z.to_nat 0) with 0%nat in *. rewrite drop_0 in Hb. cbn [Nat.add] in Hlen.
    rewrite (v2_decode_frame_buffered wire h Hh Hwf Ht) in H.
    apply v2_decode_buffered_iff in H as (body & c & Hwire & Hc & -> & Hv); [|done..].
    destruct (v2_header_wf_bounds h Hwf) as (Hp & _). pose proof Hwf as (_ & _ & Htot & _).
    assert (Hlb : zlen body = V2FrameHeader.total_length h - 4).
    { apply (f_equal length) in Hwire. unfold zlen in *. rewrite length_app, length_to_le in Hwire. lia. }
    unfold zlen in Hlb. assert (Hhead : take 44 wire = take 44 body) by (rewrite Hwire; by rewrite take_app_le by lia).
    rewrite Hhead in Hb. exists (take 44 body). cbn [V2Frame.header V2Frame.payload V2Frame.checksum].
    assert (Hwb : wf_bytes body) by (rewrite Hwire in Hw; by apply wf_bytes_app in Hw as [? _]).
    rewrite take_drop. split; [done|]. split; [done|]. split; [auto with daq|].
    split; [unfold zlen; rewrite length_drop; lia|]. split; [done|]. split; [|done]. by rewrite app_assoc, take_drop.
  - intros Hf. destruct (v2_frame_on_wire_size f wire Hf) as (_ & Hz & Hl).
    destruct Hf as (head & Hh & Hwf & Hwp & Hlp & Hc & Hwire & Hv).
    destruct (v2_header_wf_to_bytes _ Hwf) as (head' & Hh' & Hwh & Hlh). assert (head' = head) as -> by congruence.
    assert (Htk : take 44 wire = head) by (rewrite Hwire; by apply take_app_exact).
    assert (Hdec : _decode_v2_header wire 0 = Ok (V2Frame.header f)).
    { apply v2_decode_header_iff; [done|]. change (Z.to_nat 0) with 0%nat. rewrite drop_0, Htk.
      split; [done|]. split; [done|]. split; [unfold zlen in Hl; lia|done]. }
    rewrite (v2_decode_frame_buffered wire _ Hdec Hwf Hz). apply v2_decode_buffered_iff; [done..|].
    exists (head ++ V2Frame.payload f), (V2Frame.checksum f). rewrite <-app_assoc. split; [done|]. split; [done|].
    rewrite drop_app_exact by done. split; [by destruct f|done].
Qed.

Lemma v2_frame_on_wire_to_bytes f wire : frame_on_wire f wire -> frame_to_bytes f = Ok wire.
Proof.
  intros (head & Hh & Hwf & Hwp & _ & Hc & -> & _). unfold frame_to_bytes. rewrite Hh. cbn [mbind result_bind].
  destruct (v2_header_wf_to_bytes _ Hwf) as (head' & Hh' & Hwh & _). assert (head' = head) as -> by congruence.
  rewrite v2_pack_trailer_Ok by (eapply V1Frames.checksum_reference_range; [|exact Hc]; by apply wf_bytes_app). done.
Qed.

(** ** [encode_v2_frame] *)

(** The algorithm an [encode_v2_frame] call selects. *)
Definition selected_checksum (kind : FrameKind) (checksum_algorithm : option Z) : option ChecksumAlgorithm :=
  match checksum_algorithm with None => Some ADLER32 | Some a => enum_of a end.

(** What the header packs is what its widths allow. *)
Lemma packed_header_widths h head :
  header_to_bytes h = Ok head -> 0 <= V2FrameHeader.flags h < 2 ^ 16 /\ in_width h.
Proof.
  intros H. apply of_option_Ok_inv, pack_Some_ok in H; [|cbn; tauto]. unfold header_fields in H. cbn -[Z.pow int_of] in H.
  unfold in_width. tauto.
Qed.

Lemma v2_encode_frame_iff kind payload flags algorithm run_id sequence request_id ticks count wire :
  wf_bytes payload ->
  encode_v2_frame kind payload flags algorithm run_id sequence request_id ticks count = Ok wire <->
  exists f k a, kind = int_of k /\ selected_checksum k algorithm = Some a /\ frame_on_wire f wire /\
    V2Frame.payload f = payload /\
    V2Frame.header f = V2FrameHeader.mk k (Z.of_N flags) a (48 + zlen payload) (zlen payload) run_id sequence
                         request_id ticks count 2 44.
Proof.
  intros Hw. unfold encode_v2_frame. rewrite of_option_bind.
  assert (Hsel : forall k, match algorithm with
      | None => Ok (if _DATA_KINDS k then DEFAULT_CHECKSUM_ALGORITHM else BOOTSTRAP_CHECKSUM_ALGORITHM)
      | Some a => of_option (enum_of a) (Uncaught "ValueError") end
    = of_option (selected_checksum k algorithm) (Uncaught "ValueError")).
  { intros k. destruct algorithm as [a|]; [done|]. by destruct (_DATA_KINDS k). }
  replace (HEADER_SIZE + zlen payload + TRAILER_SIZE) with (48 + zlen payload) by (unfold HEADER_SIZE, TRAILER_SIZE; lia).
  split.
  - intros (k & Hk & H). rewrite Hsel, of_option_bind in H. destruct H as (a & Ha & H). cbv zeta in H.
    set (h := V2FrameHeader.mk k (Z.of_N flags) a (48 + zlen payload) (zlen payload) run_id sequence request_id ticks
                count PROTOCOL_VERSION HEADER_SIZE) in *.
    apply bind_Ok_inv in H as ([] & Hv & H). apply bind_Ok_inv in H as ([] & Hp & H).
    apply bind_Ok_inv in H as (head & Hh & H). destruct (packed_header_widths h head Hh) as [Hf Hin].
    apply v2_validate_header_ok in Hv; [|done..]. destruct (v2_header_wf_to_bytes h Hv) as (head' & Hh' & Hwh & Hlh).
    assert (head' = head) as -> by congruence. assert (Hwb : wf_bytes (head ++ payload)) by (by apply wf_bytes_app).
    rewrite v2_compute_checksum_Ok, of_option_bind in H by done. destruct H as (c & Hcs & H).
    rewrite v2_pack_trailer_Ok in H by (by eapply V1Frames.checksum_reference_range). cbn [mbind result_bind] in H.
    apply Ok_inj in H. subst wire. exists (V2Frame.mk h payload c), k, a.
    split; [by apply enum_of_Some in Hk|]. split; [done|]. split; [|done].
    exists head. cbn [V2Frame.header V2Frame.payload V2Frame.checksum]. repeat (split; [done|]).
    split; [by rewrite app_assoc|done].
  - intros (f & k & a & -> & Ha & Hf & <- & Hh). exists k. split; [apply enum_of_int|].
    rewrite Hsel, of_option_bind. exists a. split; [done|].
    destruct Hf as (head & Hhead & Hwf & _ & Hlp & Hc & -> & Hv). cbv zeta. change PROTOCOL_VERSION with 2.
    change HEADER_SIZE with 44. rewrite <-Hh. destruct (v2_header_wf_bounds _ Hwf) as (_ & Hfu & _).
    rewrite (proj2 (v2_validate_header_ok (V2Frame.header f) tt (proj1 Hwf) Hfu (proj1 (proj2 (proj2 (proj2 Hwf))))) Hwf).
    cbn [mbind result_bind]. rewrite Hv. cbn [mbind result_bind]. rewrite Hhead. cbn [mbind result_bind].
    destruct (v2_header_wf_to_bytes _ Hwf) as (head' & Hh' & Hwh & _). assert (head' = head) as -> by congruence.
    assert (Hwb : wf_bytes (head ++ V2Frame.payload f)) by (by apply wf_bytes_app).
    rewrite Hh in Hc. cbn [V2FrameHeader.checksum_algorithm] in Hc.
    rewrite v2_compute_checksum_Ok, Hc by done. cbn [of_option mbind result_bind].
    rewrite v2_pack_trailer_Ok by (by eapply V1Frames.checksum_reference_range). cbn [mbind result_bind]. by rewrite app_assoc.
Qed.

(** ** Only validation errors *)

Lemma v2_clean_decode_buffered data offset h :
  wf_bytes data -> header_wf h -> (offset + Z.to_nat (V2FrameHeader.total_length h) <= length data)%nat ->
  clean (_decode_buffered_v2_frame data offset h).
Proof.
  intros Hw Hwf Hl. unfold _decode_buffered_v2_frame. cbv zeta. change (Z.to_nat HEADER_SIZE) with 44%nat.
  destruct (v2_header_wf_bounds h Hwf) as (Hp & _). pose proof Hwf as (_ & _ & Ht & _ & Hne & _).
  rewrite v2_unpack_trailer by lia. cbn [of_option mbind result_bind].
  rewrite v2_compute_checksum_Ok by auto with daq. apply raises_only_bind; [by apply raises_only_of_option|intros ? _].
  apply raises_only_bind; [by apply raises_only_require|intros ? _].
  by apply raises_only_bind; [apply v2_clean_validate_payload; auto with daq|].
Qed.

Lemma v2_clean_decode_frame wire : wf_bytes wire -> clean (decode_v2_frame wire).
Proof.
  intros Hw. destruct (_decode_v2_header wire 0) as [h|e] eqn:Hh.
  - pose proof Hh as Hh'. apply v2_decode_header_iff in Hh' as (_ & Hwf & _); [|done].
    destruct (Z.eqb_spec (zlen wire) (V2FrameHeader.total_length h)) as [Hl|Hl].
    + rewrite (v2_decode_frame_buffered wire h Hh Hwf Hl). apply v2_clean_decode_buffered; [done..|]. rewrite <-Hl. unfold zlen. lia.
    + unfold decode_v2_frame. rewrite Hh. cbn [mbind result_bind]. by rewrite (proj2 (Z.eqb_neq _ _)).
  - unfold decode_v2_frame. rewrite Hh. pose proof (v2_clean_decode_header wire 0) as H. by rewrite Hh in H.
Qed.

(** ** The parser's interface laws *)

Lemma v2_decode_header_total data offset h :
  _decode_v2_header data offset = Ok h ->
  V2FrameHeader.total_length h = 48 + V2FrameHeader.payload_length h /\ 48 <= V2FrameHeader.total_length h <= 4096.
Proof.
  intros H. unfold _decode_v2_header in H. cbv zeta in H. apply bind_Ok_inv in H as (? & _ & H).
  apply bind_Ok_inv in H as (vs & _ & H).
  destruct vs as (magic & version & kind & flags & size & checksum & reserved & total & payload & run &
     sequence & request & ticks & count & []).
  rewrite !v2_reject_bind, of_option_bind in H. destruct H as (_ & _ & k & _ & H).
  apply of_option_bind in H as (a & _ & H). apply v2_refuse_bind in H as [_ H].
  apply bind_Ok_inv in H as (u & Hv & H). apply Ok_inj in H. subst h.
  cbn [V2FrameHeader.total_length V2FrameHeader.payload_length]. unfold _validate_v2_header in Hv.
  apply bind_Ok_inv in Hv as (? & He & Hv). unfold check_envelope in He. cbv zeta in He.
  rewrite v2_reject_bind, v1_algorithm_bind, require_bind, !v2_reject_bind, v2_reject_Ok, !negb_false_iff, !Z.eqb_eq in He.
  destruct He as (_ & _ & _ & _ & _ & Ht). cbn [V2FrameHeader.total_length V2FrameHeader.payload_length] in Ht.
  unfold HEADER_SIZE, TRAILER_SIZE in Ht. split; [lia|].
  destruct (_DATA_KINDS _) eqn:Hd; cbn [V2FrameHeader.kind] in Hd.
  - unfold check_data_header in Hv. cbv zeta in Hv.
    cbn [V2FrameHeader.kind V2FrameHeader.total_length V2FrameHeader.payload_length V2FrameHeader.item_count] in Hv.
    destruct (data_shapes_ok k total payload count Hd ltac:(lia)) as (shapes & Hs & Hshape). rewrite Hs in Hv.
    cbn [of_option mbind result_bind] in Hv. apply v2_reject_bind in Hv as [Hv _].
    apply negb_false_iff, bool_decide_eq_true, Hshape in Hv. destruct (decide _); lia.
  - unfold check_control_header in Hv. apply v2_reject_bind in Hv as [Hv _].
    cbn [V2FrameHeader.total_length] in Hv. unfold MIN_FRAME_BYTES, MAX_CONTROL_FRAME_BYTES in Hv. lia.
Qed.

Lemma v2_decode_header_slice data offset :
  (offset + 44 <= length data)%nat ->
  _decode_v2_header data (Z.of_nat offset) = _decode_v2_header (take 44 (drop offset data)) 0.
Proof.
  intros H. unfold _decode_v2_header, unpack_from. rewrite v2_HEADER_SIZE_calc, Nat2Z.id. change (Z.to_nat 0) with 0%nat.
  assert (Hl : length (take 44 (drop offset data)) = 44%nat) by len.
  unfold zlen. rewrite Hl, !(proj2 (Nat.leb_le _ _)) by lia.
  rewrite !(proj2 (orb_false_iff _ _)) by (rewrite !Z.ltb_ge; unfold HEADER_SIZE; lia). rewrite drop_0.
  assert (Hu : unpack_fields HEADER_STRUCT_FORMAT (drop offset data) =
               unpack_fields HEADER_STRUCT_FORMAT (take 44 (drop offset data))).
  { pose proof (unpack_fields_app HEADER_STRUCT_FORMAT (take 44 (drop offset data))
      (drop 44 (drop offset data))) as He. rewrite take_drop in He. apply He.
    rewrite v2_HEADER_SIZE_calc. lia. }
  by rewrite Hu.
Qed.

Lemma v2_decode_buffered_slice data offset h :
  V2FrameHeader.total_length h = 48 + V2FrameHeader.payload_length h -> 48 <= V2FrameHeader.total_length h ->
  let n := Z.to_nat (V2FrameHeader.total_length h) in
  (offset + n <= length data)%nat ->
  _decode_buffered_v2_frame data offset h = _decode_buffered_v2_frame (take n (drop offset data)) 0 h.
Proof.
  intros Ht Hn n Hl. unfold _decode_buffered_v2_frame. cbv zeta. change (Z.to_nat HEADER_SIZE) with 44%nat.
  set (p := Z.to_nat (V2FrameHeader.payload_length h)). assert (Hnp : n = (48 + p)%nat) by lia.
  rewrite !v2_unpack_trailer by (rewrite ?length_take, ?length_drop; lia).
  replace (offset + 44 + p)%nat with (offset + (44 + p))%nat by lia.
  rewrite (V1Frames.slice_at data offset 44 (44 + p) n) by lia.
  assert (Hs : slice offset (offset + (44 + p)) data = slice 0 (44 + p) (take n (drop offset data))).
  { rewrite <-(V1Frames.slice_at data offset 0 (44 + p) n) by lia. f_equal. lia. }
  rewrite Hs.
  assert (Hd : take 4 (drop (offset + (44 + p)) data) = take 4 (drop (0 + 44 + p) (take n (drop offset data)))).
  { rewrite skipn_firstn_comm, take_take, drop_drop. f_equal; try lia; f_equal; lia. }
  by rewrite Hd.
Qed.

#[export] Instance v2_codec_laws : FrameCodecLaws v2_codec.
Proof.
  split.
  - discriminate.
  - vm_compute. lia.
  - vm_compute. lia.
  - intros data offset h. cbn. intros Hd. apply sorted_by_Ok, v2_decode_header_total in Hd. change (Z.to_nat HEADER_SIZE) with 44%nat.
    change _MAX_FRAME_BYTES with 4096. lia.
  - intros data offset Hl. cbn. by rewrite (v2_decode_header_slice data offset Hl).
  - intros data offset h Hd Hl. cbn [Incremental.decode_header Incremental.decode_frame total_length header_size v2_codec] in *.
    apply sorted_by_Ok, v2_decode_header_total in Hd as [Ht Hb].
    pose proof (v2_decode_buffered_slice data offset h Ht (proj1 Hb) Hl) as E. cbv zeta in E. by rewrite E.
  - intros data offset exception _. apply (sorted_by_caught _ is_frame_error); [by intros []|apply v2_clean_decode_header].
  - intros data offset h exception Hw Hd Hl. cbn [Incremental.decode_header Incremental.decode_frame total_length v2_codec] in *.
    apply sorted_by_Ok in Hd. apply v2_decode_header_iff in Hd as (_ & Hwf & _); [|done].
    apply (sorted_by_caught _ is_frame_error); [by intros []|by apply v2_clean_decode_buffered].
Qed.

(** A frame on the wire is a complete frame for the parser. *)
Lemma v2_frame_complete wire f : wf_bytes wire -> decode_v2_frame wire = Ok f -> complete_frame wire f.
Proof.
  intros Hw H. pose proof H as Hf. apply v2_decode_frame_iff in Hf; [|done].
  destruct (v2_frame_on_wire_size f wire Hf) as (_ & Hz & Hl).
  destruct Hf as (head & Hhead & Hwf & _ & _ & _ & Hwire & _).
  destruct (v2_header_wf_to_bytes _ Hwf) as (head' & Hh' & _ & Hlh). assert (head' = head) as -> by congruence.
  assert (Hdec : _decode_v2_header wire 0 = Ok (V2Frame.header f)).
  { apply v2_decode_header_iff; [done|]. change (Z.to_nat 0) with 0%nat. rewrite drop_0.
    split; [done|]. split; [done|]. split; [unfold zlen in Hl; lia|]. by rewrite Hwire, take_app_exact. }
  split.
  - rewrite Hwire. apply starts_with_spec. unfold header_to_bytes in Hhead. apply of_option_Ok_inv in Hhead.
    unfold header_fields in Hhead. change HEADER_STRUCT_FORMAT with (U32 :: drop 1 HEADER_STRUCT_FORMAT) in Hhead.
    cbn [pack] in Hhead. apply bind_Some in Hhead as (b1 & Hb1 & Hhead).
    apply bind_Some in Hhead as (b2 & _ & Hhead). apply Some_inj' in Hhead. subst head.
    assert (b1 = MAGIC_BYTES) as -> by (vm_compute in Hb1; injection Hb1 as <-; done).
    rewrite <-app_assoc. by eexists.
  - unfold zlen in Hz, Hl. split; [cbn [header_size v2_codec]; unfold HEADER_SIZE; lia|].
    exists (V2Frame.header f). cbn [Incremental.decode_header Incremental.decode_frame total_length v2_codec]. change (Z.of_nat 0) with 0.
    rewrite Hdec. split; [done|]. split; [lia|]. rewrite <-(v2_decode_frame_buffered wire _ Hdec Hwf Hz). by rewrite H.
Qed.

(** ** Claims *)

(** C37. [encode_v2_frame] succeeds exactly on the arguments of a frame of the wire format,
    and what it writes decodes to those arguments. *)
Theorem encode_v2_frame_exact (kind : Z) (payload : bytes) (flags : N) (algorithm : option Z)
    (run_id sequence request_id ticks count : Z) (wire : bytes) (Hw : wf_bytes payload) :
  encode_v2_frame kind payload flags algorithm run_id sequence request_id ticks count = Ok wire <->
  wf_bytes wire /\
  exists k a c, kind = int_of k /\ selected_checksum k algorithm = Some a /\
    decode_v2_frame wire =
      Ok (V2Frame.mk (V2FrameHeader.mk k (Z.of_N flags) a (48 + zlen payload) (zlen payload) run_id sequence request_id
                        ticks count 2 44) payload c).
Proof.
  rewrite v2_encode_frame_iff by done. split.
  - intros (f & k & a & Hk & Ha & Hf & Hp & Hh). destruct (v2_frame_on_wire_size f wire Hf) as (Hww & _). split; [done|].
    exists k, a, (V2Frame.checksum f). split; [done|]. split; [done|]. apply v2_decode_frame_iff; [done|].
    rewrite <-Hh, <-Hp. by destruct f.
  - intros (Hww & k & a & c & Hk & Ha & Hd). apply v2_decode_frame_iff in Hd; [|done].
    eexists _, k, a. split; [done|]. split; [done|]. split; [exact Hd|]. done.
Qed.

(** On arbitrary bytes the decoder returns a frame or raises [V2FrameValidationError]
    (or a subclass), also where it calls the validators of version 1. *)
Theorem decode_v2_frame_fails_cleanly (wire : bytes) (Hw : wf_bytes wire) :
  (exists f, decode_v2_frame wire = Ok f) \/
  (exists e code reason, decode_v2_frame wire = Err e /\ error_code_of e = Some code /\ reason_of e = Some reason).
Proof.
  pose proof (v2_clean_decode_frame wire Hw) as Hc. destruct (decode_v2_frame wire) as [f|e]; [eauto|].
  right. exists e. destruct e; cbn in *; try discriminate; eauto.
Qed.
End Codec.

(** ** Witnesses: a CONFIGURE command and a short ADC frame. *)

Definition configure_payload : bytes :=
  [3; 1; 1; 1] ++ to_le 4 4096 ++ to_le 4 500000 ++ to_le 4 2000000.

Definition configure_wire : bytes :=
  Eval vm_compute in
  match encode_v2_frame true 17 configure_payload 0 None 0 0 9 0 0 with Ok w => w | Err _ => [] end.

Definition short_adc_wire : bytes :=
  Eval vm_compute in
  match encode_v2_frame true 1 (replicate 2024 7) 3 (Some 2) 5 1 0 8096 506 with Ok w => w | Err _ => [] end.

Definition decoded (wire : bytes) : V2Frame :=
  match decode_v2_frame true wire with
  | Ok f => f
  | Err _ => V2Frame.mk (V2FrameHeader.mk FrameKind.ADC_DATA 0 NONE_RESERVED 0 0 0 0 0 0 0 0 0) [] 0
  end.

(** The refusals the version-1 encoder writes reach the caller as version-2 errors. *)
Example v2_ping_refused :
  encode_v2_frame true 22 [1; 2] 0 None 0 0 9 0 0 =
    Err (V2FrameValidationError "{kind.name} payload must be {expected_payload} bytes" "invalid_length"
           ErrorCode.INVALID_LENGTH) /\
  encode_v2_frame true 23 [1; 0; 0; 0; 0; 0; 0; 0] 0 None 0 0 9 0 0 =
    Err (invalid "checksum benchmark repetition count is invalid").
Proof. split; vm_compute; reflexivity. Qed.

Lemma configure_payload_wf : wf_bytes configure_payload.
Proof. apply (bool_decide_unpack _). vm_compute. exact I. Qed.
Lemma short_adc_wire_wf : wf_bytes short_adc_wire.
Proof. apply (bool_decide_unpack _). vm_compute. exact I. Qed.
Lemma short_adc_decodes : decode_v2_frame true short_adc_wire = Ok (decoded short_adc_wire).
Proof. vm_compute. reflexivity. Qed.

Lemma encode_v2_frame_exact_witness :
  encode_v2_frame true 17 configure_payload 0 None 0 0 9 0 0 = Ok configure_wire /\ wf_bytes configure_wire.
Proof.
  assert (He : encode_v2_frame true 17 configure_payload 0 None 0 0 9 0 0 = Ok configure_wire) by (vm_compute; reflexivity).
  split; [exact He|].
  exact (proj1 (proj1 (encode_v2_frame_exact true 17 _ 0 None 0 0 9 0 0 configure_wire configure_payload_wf) He)).
Defined.

Lemma decode_v2_frame_fails_cleanly_witness :
  wf_bytes [239; 190; 173; 222] /\
  ((exists f, decode_v2_frame true [239; 190; 173; 222] = Ok f) \/
   (exists e code reason, decode_v2_frame true [239; 190; 173; 222] = Err e /\ error_code_of e = Some code /\
      reason_of e = Some reason)).
Proof.
  assert (Hw : wf_bytes [239; 190; 173; 222]) by (apply (bool_decide_unpack _); vm_compute; exact I).
  split; [exact Hw|]. exact (decode_v2_frame_fails_cleanly true _ Hw).
Defined.
