(* ===== verification/V2Compatible.v ===== *)
(** * Parsing several protocol versions at once ([protocol_v2.py]).

    [decode_compatible_frame] and the streaming parser a negotiating client uses:
    the version byte of each frame picks the decoder, and the errors of versions 1 and 3
    are presented as errors of version 2.  The parser is an instance of the framing
    interface, so streams that mix the versions inherit the theorems of [Incremental]. *)

From S2P Require Import Prelude PyStruct Checksum Incremental V2Constants V2Header V2Payload V2Frames.
From S2P Require V1Constants V1Header V1Frames V3Constants V3Header V3Frames.

(** ** Frames of any version *)

Inductive CompatibleFrame :=
| V1Frame (frame : V1Header.Frame)
| V2Frame (frame : V2Header.V2Frame)
| V3Frame (frame : V3Header.V3Frame).

Inductive CompatibleFrameHeader :=
| V1FrameHeader (header : V1Header.FrameHeader)
| V2FrameHeader (header : V2Header.V2FrameHeader)
| V3FrameHeader (header : V3Header.V3FrameHeader).

Definition compatible_total_length (header : CompatibleFrameHeader) : Z :=
  match header with
  | V1FrameHeader h => V1Header.FrameHeader.total_length h
  | V2FrameHeader h => V2Header.V2FrameHeader.total_length h
  | V3FrameHeader h => V3Header.V3FrameHeader.total_length h
  end.

Section Codec.
(** [sys.byteorder == "little"] *)
Context (little : bool).

(** ** One frame *)

(** What [decode_compatible_frame] raises: it does not translate. *)
Inductive compatible_error := V1Error (e : V1Header.v1_error) | V2Error (e : v2_error).

Definition as_v1 (m : V1Header.v1 V1Header.Frame) : result compatible_error CompatibleFrame :=
  match m with Ok f => Ok (V1Frame f) | Err e => Err (V1Error e) end.
Definition as_v2 (m : v2 V2Header.V2Frame) : result compatible_error CompatibleFrame :=
  match m with Ok f => Ok (V2Frame f) | Err e => Err (V2Error e) end.

Definition decode_compatible_frame (frame_bytes : bytes) : result compatible_error CompatibleFrame :=
  if zlen frame_bytes <? HEADER_VERSION_OFFSET + 1 then as_v1 (V1Frames.decode_frame little frame_bytes)
  else
    version ← of_option (frame_bytes !! Z.to_nat HEADER_VERSION_OFFSET) (V2Error (Uncaught "IndexError"));
    if version =? V1Constants.PROTOCOL_VERSION then as_v1 (V1Frames.decode_frame little frame_bytes)
    else if version =? PROTOCOL_VERSION then as_v2 (decode_v2_frame little frame_bytes)
    else Err (V2Error (V2FrameValidationError "unsupported protocol version {version}" "unsupported_version"
                         ErrorCode.UNSUPPORTED_VERSION)).

(** ** The streaming decoders *)

(** [except V1FrameValidationError as exc] *)
Definition v1_as_v2 {A} (m : V1Header.v1 A) : v2 A :=
  match m with
  | Ok a => Ok a
  | Err e =>
      match V1Header.error_code_of e with
      | Some code =>
          error_code ← of_option (enum_of (int_of code)) (Uncaught "ValueError");
          Err (V2FrameValidationError (v1_message e) "invalid_v1_frame" error_code)
      | None => Err (Uncaught (v1_message e))
      end
  end.

(** [except V3FrameValidationError as exc] *)
Definition v3_as_v2 {A} (m : V3Header.v3 A) : v2 A :=
  match m with
  | Ok a => Ok a
  | Err (V3Header.V3FrameValidationError message _) =>
      Err (V2FrameValidationError message "invalid_v3_frame" ErrorCode.INVALID_PAYLOAD)
  | Err (V3Header.V3ChecksumMismatchError _ _) =>
      Err (V2FrameValidationError "checksum mismatch: expected {expected:#010x}, observed {observed:#010x}"
             "invalid_v3_frame" ErrorCode.INVALID_PAYLOAD)
  | Err (V3Header.Uncaught exception) => Err (Uncaught exception)
  end.

Definition _decode_compatible_header (include_v3 : bool) (data : bytes) (offset : nat) : v2 CompatibleFrameHeader :=
  _ ← reject (zlen data - Z.of_nat offset <=? HEADER_VERSION_OFFSET) "frame does not contain a protocol version"
        "invalid_length" ErrorCode.INVALID_LENGTH;
  version ← of_option (data !! (offset + Z.to_nat HEADER_VERSION_OFFSET)%nat) (Uncaught "IndexError");
  if include_v3 && (version =? V3Constants.PROTOCOL_VERSION) then
    header ← v3_as_v2 (V3Header._decode_v3_header data offset); Ok (V3FrameHeader header)
  else if version =? PROTOCOL_VERSION then
    header ← _decode_v2_header data (Z.of_nat offset); Ok (V2FrameHeader header)
  else if version =? V1Constants.PROTOCOL_VERSION then
    header ← v1_as_v2 (V1Header._decode_header data (Z.of_nat offset)); Ok (V1FrameHeader header)
  else Err (V2FrameValidationError "unsupported protocol version {version}" "unsupported_version"
              ErrorCode.UNSUPPORTED_VERSION).

Definition _decode_buffered_compatible_frame (buffer : bytes) (offset : nat) (header : CompatibleFrameHeader) :
    v2 CompatibleFrame :=
  match header with
  | V3FrameHeader h =>
      match V3Frames._decode_buffered_v3_frame buffer offset h with
      | Err (V3Header.V3ChecksumMismatchError expected observed) => Err (V2ChecksumMismatchError expected observed)
      | frame => frame ← v3_as_v2 frame; Ok (V3Frame frame)
      end
  | V2FrameHeader h => frame ← _decode_buffered_v2_frame little buffer offset h; Ok (V2Frame frame)
  | V1FrameHeader h =>
      match V1Frames._decode_buffered_frame little buffer offset h with
      | Err (V1Header.ChecksumMismatchError expected observed) => Err (V2ChecksumMismatchError expected observed)
      | frame => frame ← v1_as_v2 frame; Ok (V1Frame frame)
      end
  end.

(** [IncrementalCompatibleFrameParser.__init__] *)
Definition compatible_codec (include_v3 : bool) : FrameCodec CompatibleFrameHeader CompatibleFrame := {|
  magic_bytes := MAGIC_BYTES;
  header_size := Z.to_nat HEADER_SIZE;
  max_frame_bytes :=
    Z.to_nat (if include_v3 then Z.max _MAX_FRAME_BYTES V3Constants.MAX_DATA_FRAME_BYTES else _MAX_FRAME_BYTES);
  total_length h := Z.to_nat (compatible_total_length h);
  decode_header data offset := sorted_by v2_fault (_decode_compatible_header include_v3 data offset);
  decode_frame data offset h := sorted_by v2_fault (_decode_buffered_compatible_frame data offset h)
|}.

Definition IncrementalCompatibleFrameParser : Type := Parser CompatibleFrameHeader.

(** ** The version byte *)

(** Every header format starts with a word and the version byte. *)
Lemma packed_version fs m (v : Z) rest b :
  pack (U32 :: U8 :: fs) (m, (v, rest)) = Some b -> b !! 4%nat = Some v.
Proof.
  intros H. cbn [pack] in H. apply bind_Some in H as (b1 & H1 & H). apply bind_Some in H as (b2 & H2 & H).
  apply Some_inj' in H. subst b. apply bind_Some in H2 as (b3 & H3 & H2). apply bind_Some in H2 as (b4 & _ & H2).
  apply Some_inj' in H2. subst b2. apply fpack_length in H1 as Hl. change (length b1 = 4%nat) in Hl.
  rewrite lookup_app_r, Hl by lia. cbn in H3. destruct (fits 1 v) eqn:Hf; [|done]. apply Some_inj' in H3. subst b3.
  apply fits_spec in Hf. change (Some (v mod 256) = Some v). f_equal. apply Z.mod_small. lia.
Qed.

Lemma header_byte_4 (data head : bytes) o : head = take 44 (drop o data) -> data !! (o + 4)%nat = head !! 4%nat.
Proof. intros ->. by rewrite lookup_take_lt, lookup_drop by lia. Qed.

Lemma v1_version_byte data offset h :
  wf_bytes data -> V1Header._decode_header data (Z.of_nat offset) = Ok h -> data !! (offset + 4)%nat = Some 1.
Proof.
  intros Hw H. apply V1Header.v1_decode_header_iff in H as (_ & (Hv & _) & _ & H); [|done]. rewrite Nat2Z.id in H.
  rewrite (header_byte_4 data _ offset eq_refl), <-Hv. apply of_option_Ok_inv in H. unfold V1Header.header_fields in H.
  exact (packed_version (drop 2 V1Constants.HEADER_STRUCT_FORMAT) _ _ _ _ H).
Qed.

Lemma v2_version_byte data offset h :
  wf_bytes data -> _decode_v2_header data (Z.of_nat offset) = Ok h -> data !! (offset + 4)%nat = Some 2.
Proof.
  intros Hw H. apply v2_decode_header_iff in H as (_ & (Hv & _) & _ & H); [|done]. rewrite Nat2Z.id in H.
  rewrite (header_byte_4 data _ offset eq_refl), <-Hv. apply of_option_Ok_inv in H. unfold header_fields in H.
  exact (packed_version (drop 2 V2Constants.HEADER_STRUCT_FORMAT) _ _ _ _ H).
Qed.

Lemma v3_version_byte data offset h :
  wf_bytes data -> V3Header._decode_v3_header data offset = Ok h -> data !! (offset + 4)%nat = Some 3.
Proof.
  intros Hw H. apply V3Header.decode_header_iff in H as ((Hv & _) & _ & H); [|done].
  assert (Hs : slice offset (offset + 44) data = take 44 (drop offset data)) by (unfold slice; f_equal; lia).
  rewrite Hs in H. rewrite (header_byte_4 data _ offset eq_refl), <-Hv.
  apply of_option_Ok_inv in H. unfold V3Header.header_fields in H.
  exact (packed_version (drop 2 V3Constants.HEADER_STRUCT_FORMAT) _ _ _ _ H).
Qed.

(** ** Inverting the translations *)

Lemma v1_as_v2_Ok {A} (m : V1Header.v1 A) a : v1_as_v2 m = Ok a <-> m = Ok a.
Proof.
  unfold v1_as_v2. destruct m as [a'|e]; [split; intros H; apply Ok_inj in H; by subst|].
  split; [|done]. destruct (V1Header.error_code_of e) as [code|]; [|done]. by destruct code.
Qed.

Lemma v3_as_v2_Ok {A} (m : V3Header.v3 A) a : v3_as_v2 m = Ok a <-> m = Ok a.
Proof.
  unfold v3_as_v2. destruct m as [a'|e]; [split; intros H; apply Ok_inj in H; by subst|].
  by split; destruct e.
Qed.

Definition version_of (h : CompatibleFrameHeader) : Z :=
  match h with V1FrameHeader _ => 1 | V2FrameHeader _ => 2 | V3FrameHeader _ => 3 end.

(** What a compatible header is: the version's own header. *)
Definition header_of (include_v3 : bool) (data : bytes) (offset : nat) (h : CompatibleFrameHeader) : Prop :=
  match h with
  | V1FrameHeader h => V1Header._decode_header data (Z.of_nat offset) = Ok h
  | V2FrameHeader h => _decode_v2_header data (Z.of_nat offset) = Ok h
  | V3FrameHeader h => include_v3 = true /\ V3Header._decode_v3_header data offset = Ok h
  end.

Lemma compatible_header_sound include_v3 data offset h :
  _decode_compatible_header include_v3 data offset = Ok h -> header_of include_v3 data offset h.
Proof.
  unfold _decode_compatible_header. rewrite v2_reject_bind, of_option_bind. intros (_ & v & _ & H). case_match.
  - apply bind_Ok_inv in H as (g & Hg & H). apply Ok_inj in H. subst h. apply v3_as_v2_Ok in Hg.
    by apply andb_true_iff in H0 as [? _].
  - case_match; [|case_match; [|done]]; apply bind_Ok_inv in H as (g & Hg & H); apply Ok_inj in H; subst h; [done|].
    by apply v1_as_v2_Ok in Hg.
Qed.

Lemma compatible_header_complete include_v3 data offset h :
  wf_bytes data -> header_of include_v3 data offset h -> _decode_compatible_header include_v3 data offset = Ok h.
Proof.
  intros Hw H. unfold _decode_compatible_header. change (Z.to_nat HEADER_VERSION_OFFSET) with 4%nat.
  assert (Hv : data !! (offset + 4)%nat = Some (version_of h)).
  { destruct h as [h|h|h]; cbn [header_of version_of] in *;
      [by eapply v1_version_byte|by eapply v2_version_byte|by eapply v3_version_byte; [|apply H]]. }
  rewrite Hv. apply lookup_lt_Some in Hv.
  assert (Hl : (zlen data - Z.of_nat offset <=? HEADER_VERSION_OFFSET) = false).
  { apply Z.leb_gt. unfold zlen, HEADER_VERSION_OFFSET. lia. }
  rewrite Hl. cbn [reject require negb of_option mbind result_bind].
  destruct h as [h|h|h]; cbn [header_of version_of] in *.
  - rewrite andb_false_r. by rewrite (proj2 (v1_as_v2_Ok _ _) H).
  - rewrite andb_false_r. by rewrite H.
  - destruct H as [-> H]. by rewrite (proj2 (v3_as_v2_Ok _ _) H).
Qed.

(** What a compatible frame is, inside a buffer. *)
Lemma compatible_buffered_iff data offset h f :
  _decode_buffered_compatible_frame data offset h = Ok f <->
  match h with
  | V1FrameHeader h => exists g, V1Frames._decode_buffered_frame little data offset h = Ok g /\ f = V1Frame g
  | V2FrameHeader h => exists g, _decode_buffered_v2_frame little data offset h = Ok g /\ f = V2Frame g
  | V3FrameHeader h => exists g, V3Frames._decode_buffered_v3_frame data offset h = Ok g /\ f = V3Frame g
  end.
Proof.
  unfold _decode_buffered_compatible_frame. destruct h as [h|h|h].
  - destruct (V1Frames._decode_buffered_frame little data offset h) as [g|e].
    + cbn. split; [intros H; apply Ok_inj in H; by exists g|intros (g' & Hg & ->); apply Ok_inj in Hg; by subst].
    + split; [|by intros (? & ? & _)]. intros H. destruct e; try discriminate; by destruct error_code.
  - split; [intros H; apply bind_Ok_inv in H as (g & Hg & H); apply Ok_inj in H; by exists g|].
    intros (g & Hg & ->). by rewrite Hg.
  - destruct (V3Frames._decode_buffered_v3_frame data offset h) as [g|e].
    + cbn. split; [intros H; apply Ok_inj in H; by exists g|intros (g' & Hg & ->); apply Ok_inj in Hg; by subst].
    + split; [|by intros (? & ? & _)]. intros H. by destruct e.
Qed.

(** ** The parser's interface laws *)

Lemma header_of_total include_v3 data offset h :
  header_of include_v3 data offset h ->
  48 <= compatible_total_length h <= (if include_v3 then 4108 else 4096).
Proof.
  destruct h as [h|h|h]; cbn [header_of compatible_total_length]; intros H.
  - apply V1Frames.v1_decode_header_total in H. destruct include_v3; lia.
  - apply v2_decode_header_total in H. destruct include_v3; lia.
  - destruct H as [-> H]. by apply V3Frames.decode_header_total in H.
Qed.

Lemma compatible_header_slice include_v3 data offset :
  (offset + 44 <= length data)%nat ->
  _decode_compatible_header include_v3 data offset =
  _decode_compatible_header include_v3 (take 44 (drop offset data)) 0.
Proof.
  intros Hl. unfold _decode_compatible_header. change (Z.to_nat HEADER_VERSION_OFFSET) with 4%nat.
  assert (Hlt : length (take 44 (drop offset data)) = 44%nat) by len. unfold zlen. rewrite Hlt.
  rewrite !(proj2 (Z.leb_gt _ _)) by (unfold HEADER_VERSION_OFFSET; lia).
  rewrite (header_byte_4 data _ offset eq_refl). cbn [Nat.add]. change (Z.of_nat 0) with 0.
  rewrite (V3Frames.decode_header_slice data offset Hl), (v2_decode_header_slice data offset Hl).
  by rewrite (V1Frames.v1_decode_header_slice data offset Hl).
Qed.

Lemma compatible_buffered_slice include_v3 data offset h :
  header_of include_v3 data offset h ->
  (offset + Z.to_nat (compatible_total_length h) <= length data)%nat ->
  _decode_buffered_compatible_frame data offset h =
  _decode_buffered_compatible_frame (take (Z.to_nat (compatible_total_length h)) (drop offset data)) 0 h.
Proof.
  destruct h as [h|h|h]; cbn [header_of compatible_total_length _decode_buffered_compatible_frame]; intros H Hl.
  - apply V1Frames.v1_decode_header_total in H as [Ht Hb].
    pose proof (V1Frames.v1_decode_buffered_slice little data offset h Ht (proj1 Hb) Hl) as E. cbv zeta in E. by rewrite E.
  - apply v2_decode_header_total in H as [Ht Hb].
    pose proof (v2_decode_buffered_slice little data offset h Ht (proj1 Hb) Hl) as E. cbv zeta in E. by rewrite E.
  - destruct H as [_ H]. apply V3Frames.decode_header_total in H.
    by rewrite <-(V3Frames.decode_buffered_slice data offset h ltac:(lia) Hl).
Qed.

(** ** Only validation errors *)

Lemma clean_v1_as_v2 {A} (m : V1Header.v1 A) : raises_only V1Header.is_frame_error m -> clean (v1_as_v2 m).
Proof.
  destruct m as [a|e]; [done|]. unfold v1_as_v2. intros H. destruct e as [? code|?|? ?|? ?|?]; try done. by destruct code.
Qed.

Lemma clean_v3_as_v2 {A} (m : V3Header.v3 A) : V3Header.caught m -> clean (v3_as_v2 m).
Proof. by destruct m as [a|[]]. Qed.

Lemma clean_compatible_header include_v3 data offset : clean (_decode_compatible_header include_v3 data offset).
Proof.
  unfold _decode_compatible_header. destruct (Z.leb_spec (zlen data - Z.of_nat offset) HEADER_VERSION_OFFSET) as [H|H]; [done|].
  cbn [reject require negb mbind result_bind]. unfold zlen, HEADER_VERSION_OFFSET in H.
  change (Z.to_nat HEADER_VERSION_OFFSET) with 4%nat.
  destruct (lookup_lt_is_Some_2 data (offset + 4) ltac:(lia)) as [v ->]. cbn [of_option mbind result_bind].
  repeat case_match; try done; (apply raises_only_bind; [|done]).
  - apply clean_v3_as_v2, V3Header.caught_decode_header.
  - apply v2_clean_decode_header.
  - apply clean_v1_as_v2, V1Header.clean_decode_header.
Qed.

Lemma clean_compatible_buffered include_v3 data offset h :
  wf_bytes data -> header_of include_v3 data offset h ->
  (offset + Z.to_nat (compatible_total_length h) <= length data)%nat ->
  clean (_decode_buffered_compatible_frame data offset h).
Proof.
  intros Hw Hh Hl. pose proof (header_of_total _ _ _ _ Hh) as Hb. unfold _decode_buffered_compatible_frame.
  destruct h as [h|h|h]; cbn [header_of compatible_total_length] in *.
  - apply V1Header.v1_decode_header_iff in Hh as (_ & Hwf & _); [|done].
    pose proof (V1Frames.clean_decode_buffered little data offset h Hw Hwf Hl) as Hc.
    destruct (V1Frames._decode_buffered_frame little data offset h) as [g|e]; [done|].
    pose proof (clean_v1_as_v2 _ Hc) as Hc'. destruct e; try done; by apply raises_only_bind.
  - apply raises_only_bind; [|done]. apply v2_decode_header_iff in Hh as (_ & Hwf & _); [|done].
    by apply v2_clean_decode_buffered.
  - pose proof (V3Frames.caught_decode_buffered data offset h Hw ltac:(lia) Hl) as Hc.
    destruct (V3Frames._decode_buffered_v3_frame data offset h) as [g|e]; [done|].
    pose proof (clean_v3_as_v2 _ Hc) as Hc'. destruct e; try done; by apply raises_only_bind.
Qed.

(** ** The laws *)

#[export] Instance compatible_codec_laws include_v3 : FrameCodecLaws (compatible_codec include_v3).
Proof.
  assert (Hdec : forall data offset h,
    decode_header (FrameCodec:=compatible_codec include_v3) data offset = Ok h -> header_of include_v3 data offset h).
  { intros data offset h H. cbn in H. by apply compatible_header_sound, (sorted_by_Ok v2_fault). }
  split.
  - discriminate.
  - vm_compute. lia.
  - destruct include_v3; vm_compute; lia.
  - intros data offset h H. apply Hdec, header_of_total in H.
    cbn [header_size max_frame_bytes total_length compatible_codec]. change (Z.to_nat HEADER_SIZE) with 44%nat.
    change _MAX_FRAME_BYTES with 4096. change V3Constants.MAX_DATA_FRAME_BYTES with 4108. destruct include_v3; lia.
  - intros data offset Hl. cbn [decode_header header_size compatible_codec] in *.
    by rewrite (compatible_header_slice include_v3 data offset Hl).
  - intros data offset h H Hl. apply Hdec in H. cbn [decode_frame total_length compatible_codec] in *.
    by rewrite (compatible_buffered_slice include_v3 data offset h H Hl).
  - intros data offset exception _. apply (sorted_by_caught _ is_frame_error); [by intros []|apply clean_compatible_header].
  - intros data offset h exception Hw H Hl. apply Hdec in H. cbn [decode_frame total_length compatible_codec] in *.
    apply (sorted_by_caught _ is_frame_error); [by intros []|by eapply clean_compatible_buffered].
Qed.

(** ** Whole frames *)

(** [f] is what the decoder of [f]'s own version makes of [wire]. *)
Definition versioned (include_v3 : bool) (wire : bytes) (f : CompatibleFrame) : Prop :=
  match f with
  | V1Frame f => V1Frames.decode_frame little wire = Ok f
  | V2Frame f => decode_v2_frame little wire = Ok f
  | V3Frame f => include_v3 = true /\ V3Frames.decode_v3_frame wire = Ok f
  end.

(** A version's complete frame, through its own parser and through the compatible one. *)
Lemma complete_frame_transfer {H F} (C : FrameCodec H F) include_v3 (in_h : H -> CompatibleFrameHeader)
    (in_f : F -> CompatibleFrame) wire f :
  wf_bytes wire -> complete_frame (C:=C) wire f ->
  magic_bytes (FrameCodec:=C) = MAGIC_BYTES -> header_size (FrameCodec:=C) = 44%nat ->
  (forall h, decode_header (FrameCodec:=C) wire 0 = Ok h ->
     header_of include_v3 wire 0 (in_h h) /\ total_length (FrameCodec:=C) h = Z.to_nat (compatible_total_length (in_h h)) /\
     (decode_frame (FrameCodec:=C) wire 0 h = Ok f -> _decode_buffered_compatible_frame wire 0 (in_h h) = Ok (in_f f))) ->
  complete_frame (C:=compatible_codec include_v3) wire (in_f f).
Proof.
  intros Hw (Hm & Hl & h & Hd & Ht & Hf) Hmagic Hsize Hin. rewrite Hmagic in Hm. rewrite Hsize in Hl.
  destruct (Hin h Hd) as (Hh & Htot & Hdf). split; [exact Hm|]. split; [exact Hl|]. exists (in_h h).
  cbn [decode_header decode_frame total_length compatible_codec].
  rewrite (compatible_header_complete include_v3 wire 0 (in_h h) Hw Hh), (Hdf Hf), <-Htot. done.
Qed.

Lemma versioned_complete include_v3 wire f :
  wf_bytes wire -> versioned include_v3 wire f -> complete_frame (C:=compatible_codec include_v3) wire f.
Proof.
  intros Hw. destruct f as [f|f|f]; cbn [versioned]; intros H.
  - apply (complete_frame_transfer _ include_v3 V1FrameHeader V1Frame wire f Hw (V1Frames.v1_frame_complete little wire f Hw H));
      [done..|]. intros h Hd. cbn in Hd. change (Z.of_nat 0) with 0 in *.
    apply sorted_by_Ok in Hd. split; [exact Hd|]. split; [done|]. intros Hf. apply compatible_buffered_iff. exists f. split; [|done].
    by apply sorted_by_Ok in Hf.
  - apply (complete_frame_transfer _ include_v3 V2FrameHeader V2Frame wire f Hw (v2_frame_complete little wire f Hw H));
      [done..|]. intros h Hd. cbn in Hd. change (Z.of_nat 0) with 0 in *.
    apply sorted_by_Ok in Hd. split; [exact Hd|]. split; [done|]. intros Hf. apply compatible_buffered_iff. exists f. split; [|done].
    by apply sorted_by_Ok in Hf.
  - destruct H as [Hv H].
    apply (complete_frame_transfer _ include_v3 V3FrameHeader V3Frame wire f Hw (V3Frames.frame_complete wire f Hw H));
      [done..|]. intros h Hd. cbn in Hd.
    apply sorted_by_Ok in Hd. split; [done|]. split; [done|]. intros Hf. apply compatible_buffered_iff. exists f. split; [|done].
    by apply sorted_by_Ok in Hf.
Qed.

Lemma complete_versioned include_v3 wire f :
  wf_bytes wire -> complete_frame (C:=compatible_codec include_v3) wire f -> versioned include_v3 wire f.
Proof.
  intros Hw (_ & _ & h & Hd & Ht & Hf). cbn [decode_header decode_frame total_length compatible_codec] in *.
  assert (Hh : header_of include_v3 wire 0 h).
  { by apply compatible_header_sound, (sorted_by_Ok v2_fault). }
  assert (Hbuf : _decode_buffered_compatible_frame wire 0 h = Ok f).
  { by apply (sorted_by_Ok v2_fault). }
  pose proof (header_of_total _ _ _ _ Hh) as Hb.
  assert (Hz : zlen wire = compatible_total_length h) by (unfold zlen; lia).
  apply compatible_buffered_iff in Hbuf. destruct h as [h|h|h]; destruct Hbuf as (g & Hg & ->);
    cbn [header_of versioned compatible_total_length] in *.
  - rewrite (V1Frames.decode_frame_buffered little wire h Hh); [done| |done]. by apply V1Header.v1_decode_header_iff in Hh as (_ & ? & _).
  - rewrite (v2_decode_frame_buffered little wire h Hh); [done| |done]. by apply v2_decode_header_iff in Hh as (_ & ? & _).
  - destruct Hh as [-> Hh]. split; [done|]. unfold V3Frames.decode_v3_frame, V3Header._bounded_bytes.
    rewrite (proj2 (andb_true_iff _ _))
      by (rewrite !Z.leb_le; unfold V3Constants.MIN_FRAME_BYTES, V3Constants.MAX_DATA_FRAME_BYTES; lia).
    cbn [V3Header._require require mbind result_bind]. rewrite Hh. cbn [mbind result_bind].
    by rewrite Hz, Z.eqb_refl.
Qed.

Lemma version_at_4 (wire : bytes) v : wire !! 4%nat = Some v -> (zlen wire <? HEADER_VERSION_OFFSET + 1) = false.
Proof. intros H. apply lookup_lt_Some in H. apply Z.ltb_ge. unfold zlen, HEADER_VERSION_OFFSET. lia. Qed.

Lemma v1_frame_version wire f : wf_bytes wire -> V1Frames.decode_frame little wire = Ok f -> wire !! 4%nat = Some 1.
Proof.
  intros Hw H. unfold V1Frames.decode_frame in H. apply bind_Ok_inv in H as (h & Hh & _).
  exact (v1_version_byte wire 0 h Hw Hh).
Qed.

Lemma v2_frame_version wire f : wf_bytes wire -> decode_v2_frame little wire = Ok f -> wire !! 4%nat = Some 2.
Proof.
  intros Hw H. unfold decode_v2_frame in H. apply bind_Ok_inv in H as (h & Hh & _).
  exact (v2_version_byte wire 0 h Hw Hh).
Qed.

(** ** Whole frames of any version *)

Definition is_compatible_error (e : compatible_error) : bool :=
  match e with V1Error e => V1Header.is_frame_error e | V2Error e => is_frame_error e end.

Lemma as_v1_iff m f : as_v1 m = Ok f <-> exists g, f = V1Frame g /\ m = Ok g.
Proof.
  destruct m as [g|e]; cbn [as_v1]; [|by split; [|intros (? & _ & ?)]].
  split; [intros H; apply Ok_inj in H; by exists g|intros (g' & -> & H); apply Ok_inj in H; by subst].
Qed.

Lemma as_v2_iff m f : as_v2 m = Ok f <-> exists g, f = V2Frame g /\ m = Ok g.
Proof.
  destruct m as [g|e]; cbn [as_v2]; [|by split; [|intros (? & _ & ?)]].
  split; [intros H; apply Ok_inj in H; by exists g|intros (g' & -> & H); apply Ok_inj in H; by subst].
Qed.

Lemma clean_decode_compatible wire : wf_bytes wire -> raises_only is_compatible_error (decode_compatible_frame wire).
Proof.
  intros Hw. assert (H1 : raises_only is_compatible_error (as_v1 (V1Frames.decode_frame little wire))).
  { pose proof (V1Frames.clean_decode_frame little wire Hw) as H. by destruct (V1Frames.decode_frame little wire). }
  unfold decode_compatible_frame. case_match eqn:Hl; [exact H1|]. apply Z.ltb_ge in Hl. unfold zlen, HEADER_VERSION_OFFSET in Hl.
  destruct (lookup_lt_is_Some_2 wire (Z.to_nat HEADER_VERSION_OFFSET) ltac:(unfold HEADER_VERSION_OFFSET; lia)) as [v ->].
  cbn [of_option mbind result_bind]. case_match; [exact H1|]. case_match; [|done].
  pose proof (v2_clean_decode_frame little wire Hw) as H2. by destruct (decode_v2_frame little wire).
Qed.

Lemma decode_compatible_versioned wire f : decode_compatible_frame wire = Ok f -> versioned false wire f.
Proof.
  unfold decode_compatible_frame. intros H.
  assert (as_v1 (V1Frames.decode_frame little wire) = Ok f \/ as_v2 (decode_v2_frame little wire) = Ok f) as [H'|H'].
  { destruct (zlen wire <? _); [by left|]. apply of_option_bind in H as (v & _ & H).
    destruct (v =? V1Constants.PROTOCOL_VERSION); [by left|]. by destruct (v =? PROTOCOL_VERSION); [right|]. }
  - by apply as_v1_iff in H' as (g & -> & ?).
  - by apply as_v2_iff in H' as (g & -> & ?).
Qed.

Lemma versioned_decode_compatible wire f :
  wf_bytes wire -> versioned false wire f -> decode_compatible_frame wire = Ok f.
Proof.
  intros Hw. unfold decode_compatible_frame. change (Z.to_nat HEADER_VERSION_OFFSET) with 4%nat.
  destruct f as [f|f|f]; cbn [versioned]; intros H; [| |by destruct H].
  - pose proof (v1_frame_version wire f Hw H) as Hv. rewrite (version_at_4 wire 1 Hv), Hv, H. done.
  - pose proof (v2_frame_version wire f Hw H) as Hv. rewrite (version_at_4 wire 2 Hv), Hv, H. done.
Qed.

(** ** Claims *)

(** [decode_compatible_frame] accepts exactly the frames of versions 1 and 2, each
    as its own version's decoder reads it: no byte string is a frame of both, none of
    version 3 is accepted, and what it refuses is refused with a validation error of
    one of the two versions. *)
Theorem decode_compatible_frame_exact (wire : bytes) (f : CompatibleFrame) (Hw : wf_bytes wire) :
  (decode_compatible_frame wire = Ok f <-> versioned false wire f) /\
  raises_only is_compatible_error (decode_compatible_frame wire).
Proof.
  split; [|by apply clean_decode_compatible].
  split; [apply decode_compatible_versioned|by apply versioned_decode_compatible].
Qed.

(** C27. A stream that interleaves valid frames of the negotiated versions in any order is
    delivered whole by the compatible parser, however it is cut into chunks, each frame
    as its own version's decoder reads it. *)
Theorem mixed_stream_delivered (include_v3 : bool) (raws : list bytes) (frames : list CompatibleFrame)
    (chunks : list bytes) (Hw : Forall wf_bytes raws) (Hframes : Forall2 (versioned include_v3) raws frames)
    (Hstream : concat chunks = concat raws) :
  exists p, feed_all (C:=compatible_codec include_v3) new_parser chunks = Ok (p, frames) /\
    bytes_discarded p = 0%nat /\ corruption_events p = 0%nat /\ buffered_bytes p = 0%nat.
Proof.
  apply (frames_delivered (C:=compatible_codec include_v3) raws frames chunks);
    [rewrite Hstream; by apply wf_bytes_concat|done|].
  clear Hstream. induction Hframes as [|raw f raws frames Hf _ IH]; [constructor|].
  apply Forall_cons in Hw as [Hwr Hw]. constructor; [by apply versioned_complete|by apply IH].
Qed.

(** C28. Whatever bytes arrive, in whatever chunks, the compatible parser never raises, and
    every frame it delivers is a contiguous stretch of the stream that the decoder of a
    negotiated version reads as that frame; the unread rest stays below the largest
    frame. *)
Theorem delivered_frames_valid (include_v3 : bool) (chunks : list bytes) (Hw : wf_bytes (concat chunks)) :
  exists p frames, feed_all (C:=compatible_codec include_v3) new_parser chunks = Ok (p, frames) /\
    Forall (fun f => exists pre raw post, concat chunks = pre ++ raw ++ post /\ versioned include_v3 raw f) frames /\
    (buffered_bytes p < if include_v3 then 4108 else 4096)%nat.
Proof.
  destruct (feed_all_simulates (C:=compatible_codec include_v3) chunks new_parser new_parser_inv Hw)
    as (p & es & Hf & Hp & Hs & _). cbn [app unread new_parser _buffer _scan_start] in Hs.
  exists p, (frames_of es). split; [exact Hf|]. split.
  - eapply Forall_impl; [exact (scans_sound _ _ _ Hs)|]. intros f (pre & raw & post & Hc & Hr).
    exists pre, raw, post. split; [exact Hc|]. apply complete_versioned; [|exact Hr].
    change (concat chunks = pre ++ raw ++ post) in Hc. rewrite Hc in Hw. by apply wf_bytes_app in Hw as [_ Hw]; apply wf_bytes_app in Hw as [Hw _].
  - pose proof (next_action_Wait_bound _ (scans_rest _ _ _ Hs)) as Hb. rewrite length_unread in Hb.
    cbn [max_frame_bytes compatible_codec] in Hb. change _MAX_FRAME_BYTES with 4096 in Hb.
    change V3Constants.MAX_DATA_FRAME_BYTES with 4108 in Hb. destruct include_v3; lia.
Qed.
End Codec.

(** ** Witnesses: a version-1 PING, a version-2 CONFIGURE and a version-3 INFO. *)

Definition v1_ping_wire : bytes :=
  Eval vm_compute in
  match V1Frames.encode_frame true 22 [1; 2; 3; 4; 5; 6; 7; 8] 0 None 0 0 4 0 0 with Ok w => w | Err _ => [] end.

Definition mixed_wires : list bytes := [v1_ping_wire; configure_wire; V3Frames.info_wire].

Definition mixed_frames : list CompatibleFrame :=
  [V1Frame (V1Frames.decoded v1_ping_wire); V2Frame (decoded configure_wire);
   V3Frame (V3Frames.decoded V3Frames.info_wire)].

Lemma mixed_wires_wf : Forall wf_bytes mixed_wires.
Proof. apply (bool_decide_unpack _). vm_compute. exact I. Qed.

Lemma mixed_versioned : Forall2 (versioned true true) mixed_wires mixed_frames.
Proof.
  assert (H1 : V1Frames.decode_frame true v1_ping_wire = Ok (V1Frames.decoded v1_ping_wire)) by (vm_compute; reflexivity).
  assert (H2 : decode_v2_frame true configure_wire = Ok (decoded configure_wire)) by (vm_compute; reflexivity).
  apply Forall2_cons_2; [exact H1|]. apply Forall2_cons_2; [exact H2|].
  apply Forall2_cons_2; [exact (conj eq_refl V3Frames.info_decodes)|apply Forall2_nil_2].
Qed.

Lemma decode_compatible_frame_exact_witness :
  wf_bytes configure_wire /\ decode_compatible_frame true configure_wire = Ok (V2Frame (decoded configure_wire)).
Proof.
  assert (Hw : wf_bytes configure_wire) by (apply (bool_decide_unpack _); vm_compute; exact I). split; [exact Hw|].
  assert (H2 : decode_v2_frame true configure_wire = Ok (decoded configure_wire)) by (vm_compute; reflexivity).
  exact (proj2 (proj1 (decode_compatible_frame_exact true configure_wire (V2Frame (decoded configure_wire)) Hw)) H2).
Defined.

Lemma mixed_stream_delivered_witness :
  exists p, feed_all (C:=compatible_codec true true) new_parser [take 60 (concat mixed_wires); drop 60 (concat mixed_wires)]
    = Ok (p, mixed_frames) /\ corruption_events p = 0%nat.
Proof.
  destruct (mixed_stream_delivered true true mixed_wires mixed_frames
    [take 60 (concat mixed_wires); drop 60 (concat mixed_wires)] mixed_wires_wf mixed_versioned) as (p & H1 & _ & H2 & _);
    [vm_compute; reflexivity|]. exists p. split; [exact H1|exact H2].
Defined.

Lemma delivered_frames_valid_witness :
  wf_bytes (concat [v1_ping_wire; [1; 2; 3]]) /\
  exists p frames, feed_all (C:=compatible_codec true false) new_parser [v1_ping_wire; [1; 2; 3]] = Ok (p, frames) /\
    (buffered_bytes p < 4096)%nat.
Proof.
  assert (Hw : wf_bytes (concat [v1_ping_wire; [1; 2; 3]])) by (apply (bool_decide_unpack _); vm_compute; exact I).
  split; [exact Hw|]. destruct (delivered_frames_valid true false [v1_ping_wire; [1; 2; 3]] Hw) as (p & frames & H1 & _ & H2).
  exists p, frames. split; [exact H1|exact H2].
Defined.
